(* ===== verification/_CoqProject ===== *)
-Q . S2P
Prelude.v
CxxString.v
Base.v
NumConv.v
FloatConv.v
Calendar.v
Encoding.v
Ds485types.v
ModelConst.v
ModelFeatures.v
DataTypes.v
SensorConversion.v
SceneHelper.v
Behavior.v
PropertyTree.v
PropertyTreeFacts.v
PropertyReader.v
PropertyShape.v
PropertyTypes.v
TreeFrame.v
SystemCondition.v
DateTools.v
DateTimeFacts.v
Event.v
EventCreate.v
TriggerMatch.v
EventQueue.v
EventQueueFacts.v
RunnerFacts.v
MonitorFacts.v
EventInterpreter.v
State.v
StateFacts.v
SystemTriggers.v
TriggerFacts.v
SceneAccess.v
ApartmentModel.v
DeviceInfo.v
DeviceSet.v
SetSplitter.v
SplitterFacts.v
SetBuilder.v
SetBuilderFacts.v
SetLanguage.v
ApartmentWorld.v
DeviceConfig.v
ExampleWorld.v
DeviceConfigFacts.v
ExampleBus.v
DeviceRecords.v
Status.v
StatusFacts.v
Publish.v
GroupOps.v
Membership.v
StructureFrames.v
MembershipFacts.v
ZoneConfig.v
DeviceOps.v
StructureManipulator.v
ManipulatorFacts.v
ZoneConfigFacts.v
SensorFacts.v
Security.v
SecurityFacts.v
EventRelay.v
RelayFacts.v
RelayClients.v
RelayDelivery.v
Sessions.v
SessionFacts.v
