(* ===== verification/Prelude.v ===== *)
(** * A verified model of the core of the digitalSTROM server (dSS)

    The dSS runs a digitalSTROM installation: it keeps a model of the apartment
    (zones, groups, devices, meters, states), a property tree through which all
    parts of the program and its users see configuration and status, an event
    system that drives scripts, handlers and clients, and it sends requests to
    the bus of the installation.  This library models the parts that carry this
    logic, in the order in which they depend on each other, and proves what
    makes them correct.  Definitions keep the names of the code and can be
    evaluated.  Paths below are relative to src/src/.

    ** The parts and how they interact

    - The property tree (propertysystem.cpp) is used by everything else.  States,
      groups, zones and devices publish themselves in it, the event runner
      publishes its schedule below a monitor node and listens to changes there,
      conditions and triggers are read from it, users and their passwords are
      kept in it.
    - Events (event.cpp, event/event_create.cpp) are made anywhere, e.g. when a
      state changes (model/state.cpp) or a device is moved.  [EventQueue] keeps
      those that are due, [EventRunner] those with a time; [EventInterpreter]
      takes events off the queue and hands them to the plugins that subscribed
      to them.  One of these, the internal relay (eventinterpreterplugins.cpp),
      hands them on to the collectors of clients
      (eventcollector.cpp, eventsubscriptionsession.cpp), which belong to the
      sessions of clients (session.cpp, sessionmanager.cpp); another matches them
      against the triggers of users (handler/system_triggers.cpp), which ask
      [checkSystemCondition] (systemcondition.cpp) and push the events to be raised.
    - The apartment (model/) is the structure of zones, groups, devices, meters
      and states.  Sets of devices are built from texts (setbuilder.cpp) and split
      into groups for the bus (setsplitter.cpp); a scene call asks [SceneAccess]
      (sceneaccess.cpp) first.  Requests of users that change the structure go
      through [StructureManipulator] (structuremanipulator.cpp), which tells the
      bus and the model.

    ** The files

    Foundations:
    - [Prelude]: exceptions, the result type [res], the state and error monad
      [SE], machine integers, tactics and hint databases; [CxxString]: the
      operations of [std::string] the sources use.
    - [Base], [NumConv], [FloatConv], [Encoding] (base.cpp): splitting and
      joining, numbers and their overflow, URLs, UTF-8, XML, CRC, properties.
    - [Calendar], [DateTools] (datetools.cpp): civil time, [DateTime] and its
      texts, schedules; [DateTimeFacts].
    - [Ds485types], [ModelConst], [DataTypes], [ModelFeatures],
      [SensorConversion] (the files of model/ of these names, modelconst.cpp):
      identifiers, enumerations with their names, tables, sensor values.

    The property tree:
    - [PropertyTree]: one operation per method, on a heap of nodes;
      [PropertyTreeFacts]: its invariant [wf] and its theorems;
      [PropertyTypes]: the types of values; [PropertyShape]: [wf] decided on
      concrete trees; [TreeFrame]: what the operations leave alone;
      [PropertyReader]: the interface of read-only clients and its implementation
      by the heap.

    Events:
    - [Event], [EventCreate]: events, filters, subscriptions, and every function
      that makes an event; [EventQueue]: queue and runner, with
      [EventQueueFacts], [RunnerFacts] (rounds without a monitor node) and
      [MonitorFacts] (removal through the monitor node); [EventInterpreter]:
      subscription and dispatch.
    - [SystemCondition], [TriggerMatch], [SystemTriggers]: conditions, the match
      of an event and a trigger, and running triggers; [TriggerFacts].
    - [EventRelay]: relay, collectors, subscriptions of clients; [RelayFacts]
      (the invariant), [RelayClients] (subscribing, unsubscribing, the end of a
      client), [RelayDelivery].
    - [Security], [SecurityFacts] (security/): users, logins, tokens;
      [Sessions], [SessionFacts]: sessions and their manager.

    The apartment:
    - [SceneHelper], [Behavior]: scenes, what groups do with them; [State],
      [StateFacts]: states, sensor states, their files; [SceneAccess]: the
      registry of states and the checks of scene calls.
    - [ApartmentModel]: the records of zones, groups, devices and meters and
      their lookups; [DeviceInfo], [DeviceSet], [SetSplitter], [SplitterFacts],
      [SetBuilder], [SetBuilderFacts], [SetLanguage]: sets and their texts.
    - [ApartmentWorld]: the apartment as a part of the world, requests to the
      bus, scene calls; [Status], [StatusFacts]: status fields; [Publish],
      [GroupOps], [Membership], [DeviceOps], [ZoneConfig]: publication, and the
      operations of groups, zones and devices; [StructureFrames],
      [MembershipFacts], [ZoneConfigFacts], [SensorFacts]: their theorems.
    - [DeviceConfig], [DeviceConfigFacts], [DeviceRecords]: the configuration a
      device keeps in its memory, written and read over the bus.
    - [StructureManipulator], [ManipulatorFacts]: the requests of users.
    - [ExampleWorld], [ExampleBus]: concrete worlds for the witnesses.

    ** How the code is modelled

    Functions that throw return a [res], an [Ok] or the exception; functions
    that also change shared objects are computations of the monad [SE] over an
    explicit state, which is kept when an exception leaves a function.  Objects
    reached through pointers live in stores and are referred to by number:
    property nodes in [nodes] of the [heap], events in [events] of the queue,
    states in [states], zones, groups and devices in the stores of [Apartment],
    sessions in [session_objects].  The field [ext] of the heap is the rest of
    the world, which the callbacks of listeners and the proxies of nodes may
    change; each component puts its own state there through a class
    ([EventWorld], [StateWorld], [ApartmentWorld], [InterpreterWorld],
    [SecurityWorld], [RelayWorld], [SessionWorld]), so that an event pushed by a
    state reaches the queue the runner uses; [SeparateRelay] and
    [SeparateSessions] say that these parts do not overlap.  Destructors with
    effects are modelled where the code depends on them: those of
    collectors, clients and sessions, the latter with the last pointer to them.
    Mutexes appear where locking twice would be an error ([m_EventsMutex]).

    An abnormal end of the program is an exception that no handler of the code
    catches: [AssertionFailure] for a failed assertion, [UndefinedBehaviour] for
    what the C++ standard leaves undefined, such as signed overflow, a call on
    NULL or erasing [end()].  Integers are [Z], and the places where a width matters
    wrap around ([int32], [uint32], [wrapU]) or are checked; a [char] is an 8-bit
    [ascii]; [double] is the kernel's binary64 [float].

    Code outside the repository is a parameter: the calendar functions of libc
    ([Libc], with the time zone), [Strtod], libdsuid ([Dsuid]), libical ([ical]
    and [Schedule ical]), rapidjson, iconv, [pow] and [log10], the hash
    functions, files and the clock.  A theorem that relies on one of them names
    what it relies on as a hypothesis and has a concrete instance in its witness.

    ** Interfaces

    [PropertyReader] is what conditions and triggers need of the tree;
    PropertyReader.v discharges it with the heap.  [Schedule] is the abstract
    class of the code; the runner is proved against it and [StaticSchedule] is
    its implementation here.  [StructureBus] is what the bus answers to requests
    that change the structure, of which [QuietBuses] only says that it leaves the
    model alone; [DeviceBus] is what it answers to reading and writing the
    configuration of a device, of which [DeviceMemory] says that what was
    written is read.  [Enum] and [NamedEnum] state what an enumeration with printed
    names promises.

    ** Recursion and bounds

    Loops over strings take as fuel the length of the string plus one, and are
    proved equal to scans without fuel ([Base], [Encoding], [NumConv]).  Walks
    along the parents and aliases of nodes take [node_bound], the number of
    nodes, which suffices because [wf] makes these chains acyclic.  Paths are
    walked with the length of the path.  The parser of sets takes the length of
    the description plus one: every step consumes a character ([SetBuilderFacts]
    proves that the fuel never runs out).  [resetGroups] removes one group in
    every step, [unsubscribe_all] one subscription, [uniqueSubscriptionID] stops
    within as many steps as there are subscriptions, the search for a user in a
    password file reads a line in every step.  [SystemTriggers.run] reads the
    triggers again in every step, as actions may change them; its caller gives
    a number that the triggers do not reach.  The counter of scheduled events
    has 64 bits.  Theorems that compare dates hold for times before 2038, as
    [DateTime::difference] converts a [double] to [int].

    ** The theorems

    Each theorem that states a property of the program carries a claim number.

    - Scheduler and queue (C1 to C3, C27, C38): the runner hands over exactly what
      is due, identifiers and waiting unique events stay distinct on every
      reachable state, what a monitor node changes.
    - The structure of the apartment (C4, C5): any request keeps it, whatever the bus
      answers, and a moved device arrives.
    - Property tree (C6 to C8, C30 to C32): values through aliases and proxies,
      paths, types, notification with listeners that leave, removal.
    - Sets (C9, C10, C23): the text of a set is read as the set it prints, and a
      set is split into calls that reach exactly its devices.
    - Zones and devices (C11 to C13, C18, C19, C33, C35): sensors, heating, scene
      values and records survive writing and reading.
    - Events to clients (C14, C15, C17, C28), logins (C16).
    - Triggers and conditions (C20, C22, C29, C36, C39), status fields (C21),
      scene access (C24), states (C25, C26, C34).
    - Numbers and times (C37, C40).

    A theorem with hypotheses is followed, or its file closed, by a witness that
    applies it to a concrete input.  Where the code departs from what it means to
    do, the theorem states what it does (C17, C21, C36, C38), or an example
    shows it.  Most theorems on the tree assume [passive] listeners, which leave
    the tree alone; C31 says what happens with listeners that do not.

    ** What is not modelled

    Threads, waiting and signalling (the event queue is a sequence of
    operations), sleeps, logging, most destructors, reading XML (writing it is),
    [ICalSchedule] and [ICalEvent] on top of libical, loading subscriptions from
    files, [Device::initStates], the output channels of devices and the path of
    their icons.  Outside of the files named above: the threads and handlers of
    model maintenance, persistence and bus scanning, what happens on the bus
    (ds485/), virtual device connectors, the other handlers and plugins,
    scripting, the web server and web services, metering; they are largely input
    and output around the parts modelled here.
    To come next, in this order: the deferred scene and button events of model
    maintenance, property queries and the XML form of the tree, subscriptions in
    files, metering. *)
From stdpp Require Import base option list strings gmap.
From Stdlib Require Import ZArith Lia Ascii.
From Stdlib Require String.

Open Scope Z_scope.

(** * Exceptions and results

    The classes of exceptions the modelled code throws.  All of them except
    [InvalidArgument] and [OutOfRange] (which are [std::logic_error]s), [BadCast] and the
    abnormal terminations derive from [std::runtime_error]. *)
Inductive exn :=
| InvalidArgument (what : string)
| OutOfRange (what : string)
| RuntimeError (what : string)
| PropertyTypeMismatch (what : string)
| ItemNotFound (what : string)
| SceneAccessException (what : string)
| DSSException (what : string)
| BusApiError (what : string) (error : Z)
| BadCast (what : string)
| AssertionFailure (what : string)
| UndefinedBehaviour (what : string).

Definition is_runtime_error (e : exn) : bool :=
  match e with
  | RuntimeError _ | PropertyTypeMismatch _ | ItemNotFound _
  | SceneAccessException _ | DSSException _ | BusApiError _ _ => true
  | _ => false
  end.

(** [catch(std::exception&)]: everything but the abnormal terminations. *)
Definition is_std_exception (e : exn) : bool :=
  match e with AssertionFailure _ | UndefinedBehaviour _ => false | _ => true end.

Inductive res (A : Type) : Type :=
| Ok (a : A)
| Throw (e : exn).
Arguments Ok {A} a.
Arguments Throw {A} e.

#[global] Instance res_ret : MRet res := fun A a => Ok a.
#[global] Instance res_bind : MBind res := fun A B f m =>
  match m with Ok a => f a | Throw e => Throw e end.
#[global] Instance res_fmap : FMap res := fun A B f m =>
  match m with Ok a => Ok (f a) | Throw e => Throw e end.

(** [try { m } catch (p) { h }] *)
Definition try_catch {A} (m : res A) (p : exn -> bool) (h : exn -> res A) : res A :=
  match m with
  | Ok a => Ok a
  | Throw e => if p e then h e else Throw e
  end.

Definition res_ok {A} (m : res A) : bool := match m with Ok _ => true | _ => false end.

#[global] Instance exn_eq_dec : EqDecision exn.
Proof. solve_decision. Defined.

#[global] Instance res_eq_dec {A} `{EqDecision A} : EqDecision (res A).
Proof. solve_decision. Defined.

Lemma res_bind_ok {A B} (m : res A) (f : A -> res B) b :
  m ≫= f = Ok b <-> exists a, m = Ok a /\ f a = Ok b.
Proof. destruct m; simpl; naive_solver. Qed.

Lemma res_bind_assoc {A B C} (m : res A) (f : A -> res B) (g : B -> res C) :
  (m ≫= f) ≫= g = m ≫= (fun a => f a ≫= g).
Proof. by destruct m. Qed.

(** * State and exceptions

    A computation on a state that may throw: the state at the moment of the
    exception is kept, as objects changed before a C++ [throw] stay changed. *)
Definition SE (S A : Type) : Type := S -> res A * S.

#[global] Instance se_ret {S} : MRet (SE S) := fun A a s => (Ok a, s).
#[global] Instance se_bind {S} : MBind (SE S) := fun A B f m s =>
  match m s with
  | (Ok a, s') => f a s'
  | (Throw e, s') => (Throw e, s')
  end.
#[global] Instance se_fmap {S} : FMap (SE S) := fun A B f m s =>
  match m s with
  | (Ok a, s') => (Ok (f a), s')
  | (Throw e, s') => (Throw e, s')
  end.

Definition se_throw {S A} (e : exn) : SE S A := fun s => (Throw e, s).
Definition se_gets {S A} (f : S -> A) : SE S A := fun s => (Ok (f s), s).
Definition se_modify {S} (f : S -> S) : SE S unit := fun s => (Ok tt, f s).
Definition se_lift {S A} (r : res A) : SE S A := fun s => (r, s).
Definition se_try {S A} (m : SE S A) (p : exn -> bool) (h : exn -> SE S A) : SE S A := fun s =>
  match m s with
  | (Throw e, s') => if p e then h e s' else (Throw e, s')
  | r => r
  end.
(** [for(x : l) m x] *)
Fixpoint se_iter {S A} (m : A -> SE S unit) (l : list A) : SE S unit :=
  match l with
  | [] => mret tt
  | x :: l => _ ← m x; se_iter m l
  end.

Section SE.
Context {S A B : Type}.
Implicit Types (m : SE S A) (f : A -> SE S B).

Lemma se_bind_run m f s :
  (m ≫= f) s = match m s with (Ok a, s') => f a s' | (Throw e, s') => (Throw e, s') end.
Proof. reflexivity. Qed.

Lemma se_bind_ok m f s a s' : m s = (Ok a, s') -> (m ≫= f) s = f a s'.
Proof. intros H. unfold mbind, se_bind. by rewrite H. Qed.

Lemma se_bind_inv m f s b s' :
  (m ≫= f) s = (Ok b, s') -> exists a s1, m s = (Ok a, s1) /\ f a s1 = (Ok b, s').
Proof. unfold mbind, se_bind. destruct (m s) as [[a|e] s1]; [eauto|discriminate]. Qed.
End SE.

(** * Machine integers *)

(** Conversion to [int] / [long] (two's complement) and to unsigned types. *)
Definition wrapS (w : Z) (z : Z) : Z := (z + 2 ^ (w - 1)) mod 2 ^ w - 2 ^ (w - 1).
Definition wrapU (w : Z) (z : Z) : Z := z mod 2 ^ w.
Definition int32 (z : Z) : Z := wrapS 32 z.
Definition uint32 (z : Z) : Z := wrapU 32 z.

Lemma int32_range z : -2147483648 <= int32 z <= 2147483647.
Proof.
  unfold int32, wrapS. change (2 ^ (32 - 1)) with 2147483648. change (2 ^ 32) with 4294967296.
  pose proof (Z.mod_pos_bound (z + 2147483648) 4294967296). lia.
Qed.

Lemma int32_id z : -2147483648 <= z <= 2147483647 -> int32 z = z.
Proof.
  intros H. unfold int32, wrapS. change (2 ^ (32 - 1)) with 2147483648.
  change (2 ^ 32) with 4294967296. rewrite Z.mod_small; lia.
Qed.

Lemma uint32_id z : 0 <= z < 4294967296 -> uint32 z = z.
Proof. intros H. unfold uint32, wrapU. change (2 ^ 32) with 4294967296. by apply Z.mod_small. Qed.

(** An [int] result; overflow is undefined. *)
Definition int_checked (z : Z) : res Z :=
  if (-2147483648 <=? z) && (z <=? 2147483647) then Ok z
  else Throw (UndefinedBehaviour "integer overflow").

Lemma int_checked_ok z : -2147483648 <= z <= 2147483647 -> int_checked z = Ok z.
Proof.
  intros H. unfold int_checked. destruct (Z.leb_spec (-2147483648) z); [|lia].
  by destruct (Z.leb_spec z 2147483647); [|lia].
Qed.

(** * [switch] and initialised [std::map]s *)

(** A C++ [switch] whose branches return: the labels of each branch and its
    result, then the [default] (or what follows the [switch]). *)
Fixpoint switch {A} (x : Z) (cases : list (list Z * A)) (dflt : A) : A :=
  match cases with
  | [] => dflt
  | (labels, a) :: cases' =>
      if existsb (Z.eqb x) labels then a else switch x cases' dflt
  end.

(** All labels of a switch, which the compiler requires to be distinct. *)
Definition switch_labels {A} (cases : list (list Z * A)) : list Z := concat (map fst cases).

Lemma existsb_eqb_In x (l : list Z) : existsb (Z.eqb x) l = true <-> In x l.
Proof.
  rewrite existsb_exists. split.
  - intros (y & Hy & E). apply Z.eqb_eq in E. by subst.
  - intros H. exists x. by rewrite Z.eqb_refl.
Qed.

Lemma switch_default {A} x (cases : list (list Z * A)) dflt :
  ~ In x (switch_labels cases) -> switch x cases dflt = dflt.
Proof.
  unfold switch_labels.
  induction cases as [|[ls a] cases IH]; simpl; [done|]. rewrite in_app_iff. intros H.
  destruct (existsb (Z.eqb x) ls) eqn:E; [|naive_solver].
  apply existsb_eqb_In in E. naive_solver.
Qed.

(** A property of every value a [switch] over [cases] can return. *)
Lemma switch_Forall {A} (P : A -> Prop) x (cases : list (list Z * A)) dflt :
  Forall (fun c => P c.2) cases -> P dflt -> P (switch x cases dflt).
Proof.
  intros HF Hd. induction HF as [|[ls a] cases Ha _ IH]; simpl; [done|].
  by destruct (existsb _ _).
Qed.

(** A [std::map] built from an initialiser list: the first entry of a key wins. *)
Fixpoint map_find {A} (key : Z) (entries : list (Z * A)) : option A :=
  match entries with
  | [] => None
  | (k, a) :: entries' => if key =? k then Some a else map_find key entries'
  end.

Lemma find_app_or {A} (p : A -> bool) (l1 l2 : list A) :
  List.find p (l1 ++ l2) = match List.find p l1 with Some x => Some x | None => List.find p l2 end.
Proof. induction l1 as [|x l1 IH]; [done|]. cbn. by destruct (p x). Qed.

Lemma map_find_In {A} key (entries : list (Z * A)) a :
  map_find key entries = Some a -> In (key, a) entries.
Proof.
  induction entries as [|[k b] entries IH]; simpl; [done|].
  destruct (Z.eqb_spec key k); naive_solver.
Qed.

Lemma map_find_None {A} key (entries : list (Z * A)) :
  map_find key entries = None <-> ~ In key (map fst entries).
Proof.
  induction entries as [|[k b] entries IH]; simpl; [naive_solver|].
  destruct (Z.eqb_spec key k); naive_solver.
Qed.

(** * Bounded quantification by computation

    A property of all integers of a finite range follows from its boolean
    check over the range. *)
Fixpoint zrange (lo : Z) (n : nat) : list Z :=
  match n with O => [] | S n => lo :: zrange (lo + 1) n end.

Lemma zrange_In lo n x : In x (zrange lo n) <-> lo <= x < lo + Z.of_nat n.
Proof.
  revert lo. induction n as [|n IH]; intros lo; cbn [zrange In]; [lia|].
  rewrite IH. lia.
Qed.

Lemma zrange_forall (P : Z -> bool) lo n :
  forallb P (zrange lo n) = true -> forall x, lo <= x < lo + Z.of_nat n -> P x = true.
Proof. rewrite forallb_forall. intros H x Hx. apply H. by apply zrange_In. Qed.

(** * Automation *)

(** Destruct the condition of the first [if] or [match] found, keep its equation. *)
Ltac case_cond :=
  match goal with
  | |- context [if ?b then _ else _] => destruct b eqn:?
  | H : context [if ?b then _ else _] |- _ => destruct b eqn:?
  | |- context [match ?x with _ => _ end] => destruct x eqn:?
  | H : context [match ?x with _ => _ end] |- _ => destruct x eqn:?
  end.

(** Turn boolean tests on integers and strings into propositions. *)
Ltac reflect_bools :=
  repeat match goal with
  | H : andb _ _ = true |- _ => apply andb_true_iff in H; destruct H
  | H : orb _ _ = false |- _ => apply orb_false_iff in H; destruct H
  | H : orb _ _ = true |- _ => apply orb_true_iff in H
  | H : andb _ _ = false |- _ => apply andb_false_iff in H
  | H : negb _ = true |- _ => apply negb_true_iff in H
  | H : negb _ = false |- _ => apply negb_false_iff in H
  | H : Z.eqb _ _ = true |- _ => apply Z.eqb_eq in H
  | H : Z.eqb _ _ = false |- _ => apply Z.eqb_neq in H
  | H : Z.ltb _ _ = true |- _ => apply Z.ltb_lt in H
  | H : Z.ltb _ _ = false |- _ => apply Z.ltb_ge in H
  | H : Z.leb _ _ = true |- _ => apply Z.leb_le in H
  | H : Z.leb _ _ = false |- _ => apply Z.leb_gt in H
  | H : String.eqb _ _ = true |- _ => apply String.eqb_eq in H
  | H : String.eqb _ _ = false |- _ => apply String.eqb_neq in H
  | H : bool_decide _ = true |- _ => apply bool_decide_eq_true_1 in H
  | H : bool_decide _ = false |- _ => apply bool_decide_eq_false_1 in H
  end.

(** Compare the two strings of the first comparison found in the goal. *)
Ltac case_str :=
  match goal with |- context [String.eqb ?a ?b] => destruct (String.eqb_spec a b) end.

(** Decide a closed goal by evaluation. *)
Ltac by_compute :=
  cbv zeta; repeat match goal with |- _ /\ _ => split end; vm_compute; reflexivity.

Create HintDb dss.
#[export] Hint Resolve int32_range : dss.
#[export] Hint Rewrite @res_bind_assoc : dss.
