(* ===== verification/CxxString.v ===== *)
(** The [std::string] operations the sources use, on Rocq's [string] (a list
    of 8-bit characters), with the lemmas the other files rewrite with.
    Positions are [nat]; [npos] is [None].  Nothing here is code of the
    repository: it is the part of the C++ library that [src/src/base.cpp]
    and its callers rely on. *)
From stdpp Require Import base option list strings gmap.
From Stdlib Require Import ZArith Lia Ascii.
From Stdlib Require String.
From S2P Require Import Prelude.

Open Scope nat_scope.
#[global] Arguments String.append !s1 s2 : simpl nomatch.

(** [s.size()] *)
Abbreviation slen := String.length.

(** [s.substr(n)] and [s.substr(0, n)] *)
Fixpoint sdrop (n : nat) (s : string) : string :=
  match n, s with
  | 0, _ => s
  | S n, String _ s => sdrop n s
  | S _, EmptyString => EmptyString
  end.

Fixpoint stake (n : nat) (s : string) : string :=
  match n, s with
  | S n, String c s => String c (stake n s)
  | _, _ => EmptyString
  end.

(** [s.substr(pos, len)] for [pos <= size] *)
Definition substr (s : string) (pos len : nat) : string := stake len (sdrop pos s).

(** [s.erase(pos, len)] for [pos <= size] *)
Definition erase (s : string) (pos len : nat) : string := stake pos s +:+ sdrop (pos + len) s.

(** [s[n]] for [n < size] *)
Definition char_at (s : string) (n : nat) : option ascii := String.get n s.

(** [s.find(c)] and [s.find(c, pos)] *)
Fixpoint sfind (c : ascii) (s : string) : option nat :=
  match s with
  | EmptyString => None
  | String d s => if Ascii.eqb c d then Some 0 else S <$> sfind c s
  end.

Definition find_from (c : ascii) (s : string) (pos : nat) : option nat :=
  (fun i => pos + i) <$> sfind c (sdrop pos s).

(** Whether some character of [s] satisfies [p], and the characters themselves. *)
Fixpoint sexists (p : ascii -> bool) (s : string) : bool :=
  match s with EmptyString => false | String c s => p c || sexists p s end.

Definition sforall (p : ascii -> bool) (s : string) : bool := negb (sexists (fun c => negb (p c)) s).

(** The characters before the first one of the set [p], and the rest. *)
Fixpoint span_not (p : ascii -> bool) (s : string) : string * string :=
  match s with
  | EmptyString => (EmptyString, EmptyString)
  | String c s' => if p c then (EmptyString, s) else
      let '(a, b) := span_not p s' in (String c a, b)
  end.

Fixpoint srev (s : string) : string :=
  match s with EmptyString => EmptyString | String c s => srev s +:+ String c EmptyString end.

(** [s.c_str()] read by the C library: up to the first NUL. *)
Definition c_str (s : string) : string := (span_not (Ascii.eqb "000") s).1.

(** The code of a character as [unsigned char]. *)
Definition byte_of (c : ascii) : Z := Z.of_N (N_of_ascii c).
Definition char_of (z : Z) : ascii := ascii_of_N (Z.to_N (z mod 256)).

(** ** Lemmas *)

Lemma app_nil_r_s s : s +:+ "" = s.
Proof. induction s as [|c s IH]; simpl; [done|]. by rewrite IH. Qed.

Lemma app_assoc_s a b c : (a +:+ b) +:+ c = a +:+ (b +:+ c).
Proof. induction a as [|x a IH]; simpl; [done|]. by rewrite IH. Qed.

Lemma slen_app a b : slen (a +:+ b) = slen a + slen b.
Proof. induction a; simpl; lia. Qed.

Lemma sdrop_app a b : sdrop (slen a) (a +:+ b) = b.
Proof. induction a; simpl; auto. Qed.

Lemma sdrop_app_add a b n : sdrop (slen a + n) (a +:+ b) = sdrop n b.
Proof. induction a; simpl; auto. Qed.

Lemma stake_app a b : stake (slen a) (a +:+ b) = a.
Proof. induction a; simpl; [by destruct b|congruence]. Qed.

Lemma stake_app_add a b n : stake (slen a + n) (a +:+ b) = a +:+ stake n b.
Proof. induction a as [|c a IH]; simpl; [done|]. by rewrite IH. Qed.

Lemma char_at_app_add a b n : char_at (a +:+ b) (slen a + n) = char_at b n.
Proof. induction a as [|c a IH]; simpl; [done|]. exact IH. Qed.

Lemma stake_drop n s : stake n s +:+ sdrop n s = s.
Proof. revert s. induction n; intros [|c s]; simpl; try done. by rewrite IHn. Qed.

Lemma slen_stake n s : slen (stake n s) = min n (slen s).
Proof. revert s. induction n; intros [|c s]; simpl; auto. Qed.

Lemma slen_sdrop n s : slen (sdrop n s) = slen s - n.
Proof. revert s. induction n; intros [|c s]; simpl; auto. Qed.

Lemma slen_erase s pos len : pos + len <= slen s -> slen (erase s pos len) = slen s - len.
Proof. intros H. unfold erase. rewrite slen_app, slen_stake, slen_sdrop. lia. Qed.

Lemma sdrop_all s : sdrop (slen s) s = "".
Proof. by induction s. Qed.

Lemma stake_all s : stake (slen s) s = s.
Proof. induction s; simpl; congruence. Qed.

Lemma sdrop_add n m s : sdrop n (sdrop m s) = sdrop (m + n) s.
Proof. revert s. induction m; intros [|c s]; simpl; auto. by destruct n. Qed.

Lemma slen_0 s : slen s = 0 <-> s = "".
Proof. destruct s; simpl; naive_solver lia. Qed.

Lemma sexists_app p a b : sexists p (a +:+ b) = sexists p a || sexists p b.
Proof. induction a; simpl; [done|]. by rewrite IHa, orb_assoc. Qed.

Lemma sforall_cons p c s : sforall p (String c s) = p c && sforall p s.
Proof. unfold sforall. simpl. by rewrite negb_orb, negb_involutive. Qed.

Lemma sforall_app p a b : sforall p (a +:+ b) = sforall p a && sforall p b.
Proof. unfold sforall. by rewrite sexists_app, negb_orb. Qed.

Lemma sexists_ext p q s : (forall c, p c = q c) -> sexists p s = sexists q s.
Proof. intros H. induction s as [|c s IH]; simpl; [done|]. by rewrite H, IH. Qed.

Lemma separator_inj c a a' b b' :
  sexists (Ascii.eqb c) a = false -> sexists (Ascii.eqb c) a' = false ->
  a +:+ String c b = a' +:+ String c b' -> a = a'.
Proof.
  revert a'. induction a as [|x a IH]; intros [|y a'] Ha Ha' H; cbn in *; [done| | |].
  - injection H as -> _. by rewrite Ascii.eqb_refl in Ha'.
  - injection H as -> _. by rewrite Ascii.eqb_refl in Ha.
  - apply orb_false_iff in Ha as [_ Ha]. apply orb_false_iff in Ha' as [_ Ha'].
    injection H as -> H. f_equal. by apply (IH a').
Qed.

Lemma sfind_app_not c a b :
  sexists (Ascii.eqb c) a = false -> sfind c (a +:+ b) = (fun i => slen a + i) <$> sfind c b.
Proof.
  induction a as [|d a IH]; simpl; [by destruct (sfind c b)|].
  destruct (Ascii.eqb c d); simpl; [done|]. intros H. rewrite IH by done.
  by destruct (sfind c b).
Qed.

Lemma sfind_None c s : sfind c s = None <-> sexists (Ascii.eqb c) s = false.
Proof.
  induction s as [|d s IH]; simpl; [done|]. destruct (Ascii.eqb c d); simpl; [done|].
  rewrite <- IH. by destruct (sfind c s).
Qed.

(** The first occurrence splits the string. *)
Lemma sfind_Some c s n :
  sfind c s = Some n ->
  exists a b, s = a +:+ String c b /\ slen a = n /\ sexists (Ascii.eqb c) a = false.
Proof.
  revert n. induction s as [|d s IH]; simpl; intros n H; [done|].
  destruct (Ascii.eqb_spec c d) as [->|Hne].
  - simplify_eq. by exists "", s.
  - destruct (sfind c s) as [m|]; simplify_option_eq.
    destruct (IH m eq_refl) as (a & b & -> & <- & Ha).
    exists (String d a), b. repeat split; simpl; auto.
    apply Ascii.eqb_neq in Hne. by rewrite Hne.
Qed.

Lemma sfind_lt c s n : sfind c s = Some n -> n < slen s.
Proof. intros (a & b & -> & <- & _)%sfind_Some. rewrite slen_app. simpl. lia. Qed.

Lemma find_from_bounds c s pos n : find_from c s pos = Some n -> pos <= n < slen s.
Proof.
  unfold find_from. destruct (sfind c (sdrop pos s)) as [m|] eqn:E; simpl; intros H; simplify_eq.
  apply sfind_lt in E. rewrite slen_sdrop in E. lia.
Qed.

Lemma char_at_app_r a c b : char_at (a +:+ String c b) (slen a) = Some c.
Proof. unfold char_at. induction a; simpl; auto. Qed.

Lemma span_not_app p s : (span_not p s).1 +:+ (span_not p s).2 = s.
Proof.
  induction s as [|c s IH]; simpl; [done|]. destruct (p c); [done|].
  destruct (span_not p s) as [a b]. simpl in *. by rewrite IH.
Qed.

Lemma span_not_fst p s : sexists p (span_not p s).1 = false.
Proof.
  induction s as [|c s IH]; simpl; [done|]. destruct (p c) eqn:E; [done|].
  destruct (span_not p s) as [a b]. simpl in *. by rewrite E.
Qed.

Lemma span_not_snd p s c b : (span_not p s).2 = String c b -> p c = true.
Proof.
  induction s as [|d s IH]; simpl; [done|]. destruct (p d) eqn:E.
  - intros H. simpl in H. by simplify_eq.
  - destruct (span_not p s) as [x y]. simpl in *. auto.
Qed.

Lemma span_not_none p a b :
  sexists p a = false -> span_not p (a +:+ b) =
    (a +:+ (span_not p b).1, (span_not p b).2).
Proof.
  induction a as [|c a IH]; simpl; [by destruct (span_not p b)|].
  destruct (p c); simpl; [done|]. intros H. by rewrite IH.
Qed.

Lemma c_str_id s : sexists (Ascii.eqb "000") s = false -> c_str s = s.
Proof.
  intros H. unfold c_str. pose proof (span_not_none (Ascii.eqb "000") s "" H) as E.
  rewrite app_nil_r_s in E. rewrite E. simpl. apply app_nil_r_s.
Qed.

Lemma srev_app a b : srev (a +:+ b) = srev b +:+ srev a.
Proof. induction a; simpl; [by rewrite app_nil_r_s|]. by rewrite IHa, app_assoc_s. Qed.

Lemma srev_involutive s : srev (srev s) = s.
Proof. induction s; simpl; [done|]. by rewrite srev_app, IHs. Qed.

Lemma sexists_srev p s : sexists p (srev s) = sexists p s.
Proof.
  induction s; simpl; [done|]. rewrite sexists_app. simpl. rewrite orb_false_r, IHs.
  apply orb_comm.
Qed.

Lemma app_inj_l a b c : a +:+ b = a +:+ c -> b = c.
Proof. induction a; simpl; naive_solver. Qed.

Lemma byte_of_range c : (0 <= byte_of c < 256)%Z.
Proof. unfold byte_of. pose proof (N_ascii_bounded c). lia. Qed.

Lemma char_of_byte_of c : char_of (byte_of c) = c.
Proof.
  unfold char_of. rewrite Z.mod_small by apply byte_of_range.
  unfold byte_of. rewrite N2Z.id. apply ascii_N_embedding.
Qed.

Lemma byte_of_char_of z : (0 <= z < 256)%Z -> byte_of (char_of z) = z.
Proof.
  intros H. unfold char_of, byte_of. rewrite Z.mod_small by done.
  rewrite N_ascii_embedding; lia.
Qed.

(** The last character. *)
Definition slast (s : string) : option ascii := char_at s (slen s - 1).

Lemma char_at_app_l a b n : n < slen a -> char_at (a +:+ b) n = char_at a n.
Proof.
  unfold char_at. revert n. induction a as [|c a IH]; simpl; intros [|n] H; try lia; auto with lia.
Qed.

Lemma slast_snoc a c : slast (a +:+ String c "") = Some c.
Proof.
  unfold slast. rewrite slen_app. simpl. replace (slen a + 1 - 1) with (slen a) by lia.
  apply char_at_app_r.
Qed.

Lemma slast_app a c b : slast (a +:+ String c b) = slast (String c b).
Proof.
  induction a as [|d a IH]; simpl; [done|]. rewrite <- IH. unfold slast.
  rewrite slen_app. simpl. rewrite slen_app. simpl.
  replace (slen a + S (slen b) - 0) with (S (slen a + slen b)) by lia.
  replace (slen a + S (slen b) - 1) with (slen a + slen b) by lia. done.
Qed.

(** Every nonempty string ends with its last character. *)
Lemma slast_Some s c : slast s = Some c -> exists a, s = a +:+ String c "".
Proof.
  induction s as [|d s IH]; intros H; [done|].
  destruct s as [|e s]; [exists ""; unfold slast in H; simpl in *; naive_solver|].
  pose proof (slast_app (String d "") e s) as E. simpl in E. rewrite E in H.
  destruct (IH H) as [a ->]. by exists (String d a).
Qed.

Lemma erase_at a c b : erase (a +:+ String c b) (slen a) 1 = a +:+ b.
Proof. unfold erase. by rewrite stake_app, sdrop_app_add. Qed.

Lemma substr_mid a b c : substr (a +:+ b +:+ c) (slen a) (slen b) = b.
Proof. unfold substr. by rewrite sdrop_app, stake_app. Qed.

#[export] Hint Rewrite app_nil_r_s app_assoc_s slen_app slen_stake slen_sdrop sdrop_app
  stake_app sexists_app sforall_app : dss.
