(* ===== verification/Base.v ===== *)
(** [src/src/base.cpp]: string helpers: trimming, comparing, splitting, joining,
    paths and indentation.

    [splitString]'s loop takes fuel, and the function uses what always suffices
    ([splitString_loop_spec] relates it to a scan without fuel). *)
From stdpp Require Import base option list strings gmap.
From Stdlib Require Import ZArith Lia Ascii.
From Stdlib Require String.
From S2P Require Import Prelude CxxString.

Open Scope nat_scope.

(** * Trimming, prefixes and suffixes *)

Definition is_trim_space (c : ascii) : bool :=
  existsb (Ascii.eqb c) [" "; "009"; "010"; "013"]%char.

(** [find_first_not_of] and [find_last_not_of] for a set of characters. *)
Fixpoint find_first_not (p : ascii -> bool) (s : string) : option nat :=
  match s with
  | EmptyString => None
  | String c s => if p c then S <$> find_first_not p s else Some 0
  end.

Fixpoint find_last_not (p : ascii -> bool) (s : string) : option nat :=
  match s with
  | EmptyString => None
  | String c s => match find_last_not p s with
                  | Some n => Some (S n)
                  | None => if p c then None else Some 0
                  end
  end.

Definition trim (_str : string) : string :=
  let result := match find_first_not is_trim_space _str with
                | Some notwhite => erase _str 0 notwhite
                | None => EmptyString
                end in
  match find_last_not is_trim_space result with
  | Some notwhite => stake (notwhite + 1) result
  | None => EmptyString
  end.

Lemma find_last_not_none p s :
  s <> "" -> sexists p s = false -> find_last_not p s = Some (slen s - 1).
Proof.
  induction s as [|c s IH]; [done|]. cbn [sexists find_last_not]. intros _ [Hc Hs]%orb_false_iff.
  destruct s as [|d s]; [cbn; by rewrite Hc|]. rewrite IH by done. f_equal. cbn [String.length]. lia.
Qed.

(** A text without white space is already trimmed. *)
Lemma trim_id s : s <> "" -> sexists is_trim_space s = false -> trim s = s.
Proof.
  intros Hne Hs. unfold trim.
  assert (find_first_not is_trim_space s = Some 0) as ->.
  { destruct s as [|c s]; [done|]. cbn [sexists find_first_not] in *. apply orb_false_iff in Hs as [-> _]. done. }
  assert (erase s 0 0 = s) as -> by by destruct s.
  rewrite find_last_not_none by done. replace (slen s - 1 + 1) with (slen s).
  - apply stake_all.
  - destruct s; [done|]. cbn [String.length]. lia.
Qed.

Definition endsWith (str searchString : string) : bool :=
  let lenStr := slen str in
  let lenSearch := slen searchString in
  (lenSearch <=? lenStr) && String.eqb (substr str (lenStr - lenSearch) lenSearch) searchString.

Definition beginsWith (str searchString : string) : bool :=
  let lenStr := slen str in
  let lenSearch := slen searchString in
  (lenSearch <=? lenStr) && String.eqb (substr str 0 lenSearch) searchString.

Definition splitIntoKeyValue (_keyValue : string) : string * string :=
  match sfind "=" _keyValue with
  | Some delimPos => (substr _keyValue 0 delimPos, sdrop (delimPos + 1) _keyValue)
  | None => (EmptyString, EmptyString)
  end.

Fixpoint join_rest (_delimiter : string) (_strings : list string) : string :=
  match _strings with
  | [] => EmptyString
  | s :: rest => _delimiter +:+ s +:+ join_rest _delimiter rest
  end.

Definition join (_strings : list string) (_delimiter : string) : string :=
  match _strings with
  | [] => EmptyString
  | s :: rest => s +:+ join_rest _delimiter rest
  end.

(** Returns the head of the path and the new value of [path]. *)
Definition carCdrPath (path : string) : string * string :=
  match sfind "/" path with
  | Some slashPos => (substr path 0 slashPos, erase path 0 (slashPos + 1))
  | None => (path, EmptyString)
  end.

Definition addTrailingBackslash (_path : string) : string :=
  match char_at _path (slen _path - 1) with
  | Some c => if Ascii.eqb c "/" then _path else _path +:+ "/"
  | None => _path
  end.

Fixpoint doIndent (_indent : nat) : string :=
  match _indent with 0 => "" | S n => "    " +:+ doIndent n end.

(** * Splitting at a delimiter, with [\] as escape character *)

Section Split.
Context (_delimiter : ascii) (_trimEntries : bool).

Definition split_field (s : string) : string := if _trimEntries then trim s else s.

(** The [while] loop of [splitString]. *)
Fixpoint splitString_loop (fuel : nat) (curString : string) (startField skip : nat)
    (result : list string) : option (list string) :=
  match fuel with
  | 0 => None
  | S fuel =>
    if startField <? slen curString then
      match find_from _delimiter curString skip with
      | Some delimPos =>
        if (0 <? delimPos) && bool_decide (char_at curString (delimPos - 1) = Some "\"%char) then
          splitString_loop fuel (erase curString (delimPos - 1) 1) startField delimPos result
        else
          let result := result ++ [split_field (substr curString startField (delimPos - startField))] in
          let startField := delimPos + 1 in
          let result := if slen curString - startField =? 0 then result ++ [EmptyString] else result in
          splitString_loop fuel curString startField startField result
      | None => Some (result ++ [split_field (sdrop startField curString)])
      end
    else Some result
  end.

Definition splitString (_source : string) : list string :=
  default [] (splitString_loop (S (slen _source)) _source 0 0 []).

(** What [splitString] computes, as a left-to-right scan: [\] followed by the
    delimiter stands for the delimiter, any other [\] for itself.  [field]
    is the field read so far. *)
Fixpoint split_scan (field : string) (s : string) : list string :=
  match s with
  | EmptyString => [split_field field]
  | String c s' =>
    if Ascii.eqb c _delimiter then
      split_field field :: match s' with EmptyString => [EmptyString] | _ => split_scan EmptyString s' end
    else
      match s' with
      | String d s'' =>
        if Ascii.eqb c "\" && Ascii.eqb d _delimiter
        then split_scan (field +:+ String d EmptyString) s''
        else split_scan (field +:+ String c EmptyString) s'
      | EmptyString => [split_field (field +:+ String c EmptyString)]
      end
  end.

Definition split_spec (s : string) : list string :=
  match s with EmptyString => [] | _ => split_scan EmptyString s end.
End Split.

(** Escapes the delimiters of a field. *)
Fixpoint escape_delim (d : ascii) (s : string) : string :=
  match s with
  | EmptyString => EmptyString
  | String c s => if Ascii.eqb c d then String "\" (String c (escape_delim d s))
                  else String c (escape_delim d s)
  end.

(** [findAndUnescape]: the resulting position and the new value of [str]. *)
Fixpoint findAndUnescape_loop (fuel : nat) (str : string) (c : ascii) (pos : option nat)
    : option (option nat * string) :=
  match fuel with
  | 0 => None
  | S fuel =>
    match pos with
    | Some p =>
      if (0 <? p) && bool_decide (char_at str (p - 1) = Some "\"%char) then
        let str := erase str (p - 1) 1 in
        findAndUnescape_loop fuel str c (find_from c str p)
      else Some (pos, str)
    | None => Some (pos, str)
    end
  end.

Definition findAndUnescape (str : string) (c : ascii) (startPos : nat) : option nat * string :=
  default (None, str) (findAndUnescape_loop (S (slen str)) str c (find_from c str startPos)).

(** ** The split loop computes the scan *)

Section SplitFacts.
Context (d : ascii) (t : bool).
Hypothesis Hd : d <> "\"%char.

Lemma split_scan_none a field :
  sexists (Ascii.eqb d) a = false -> split_scan d t field a = [split_field t (field +:+ a)].
Proof.
  revert field. induction a as [|c a IH]; intros field; [by rewrite app_nil_r_s|].
  cbn [sexists split_scan]. rewrite (Ascii.eqb_sym d c).
  intros [E Ha]%orb_false_iff. rewrite E. destruct a as [|e a]; [done|].
  assert (Ascii.eqb e d = false) as ->.
  { cbn in Ha. apply orb_false_iff in Ha as [Ha _]. by rewrite Ascii.eqb_sym. }
  rewrite andb_false_r. rewrite IH by done. by rewrite app_assoc_s.
Qed.

Lemma split_scan_escaped a field b :
  sexists (Ascii.eqb d) a = false ->
  split_scan d t field (a +:+ String "\" (String d b)) =
    split_scan d t (field +:+ a +:+ String d "") b.
Proof.
  revert field. induction a as [|c a IH]; intros field.
  - intros _. cbn [String.append split_scan]. rewrite !Ascii.eqb_refl.
    destruct (Ascii.eqb_spec "\" d); [congruence|]. done.
  - cbn [sexists String.append split_scan]. rewrite (Ascii.eqb_sym d c).
    intros [E Ha]%orb_false_iff. rewrite E.
    destruct (a +:+ String "\" (String d b)) as [|e r] eqn:Er; [destruct a; discriminate|].
    assert (Ascii.eqb e d = false) as ->.
    { destruct a as [|e' a]; simpl in *; simplify_eq.
      - by apply Ascii.eqb_neq.
      - rewrite Ascii.eqb_sym. by apply orb_false_iff in Ha as [? _]. }
    rewrite andb_false_r, IH by done. by rewrite app_assoc_s.
Qed.

Lemma split_scan_delim a field b :
  sexists (Ascii.eqb d) a = false -> slast a <> Some "\"%char ->
  split_scan d t field (a +:+ String d b) =
    split_field t (field +:+ a) :: match b with "" => [""] | _ => split_scan d t "" b end.
Proof.
  revert field. induction a as [|c a IH]; intros field.
  - intros _ _. simpl. by rewrite Ascii.eqb_refl, app_nil_r_s.
  - cbn [sexists String.append split_scan]. rewrite (Ascii.eqb_sym d c).
    intros [E Ha]%orb_false_iff Hl. rewrite E.
    destruct (a +:+ String d b) as [|e r] eqn:Er; [destruct a; discriminate|].
    assert (Ascii.eqb c "\" && Ascii.eqb e d = false) as ->.
    { destruct a as [|e' a]; simpl in *; simplify_eq.
      - rewrite Ascii.eqb_refl, andb_true_r. apply Ascii.eqb_neq. intros ->. by apply Hl.
      - apply orb_false_iff in Ha as [Ha _]. by rewrite (Ascii.eqb_sym e), Ha, andb_false_r. }
    rewrite IH, app_assoc_s; [done|done|].
    destruct a as [|e' a]; [done|]. by rewrite <- (slast_app (String c "")).
Qed.

(** Normal form of nested appends, for string equations. *)
Ltac snorm := repeat (rewrite ?app_assoc_s; cbn [String.append]).

(** One iteration of the loop, in each of its three branches.  [pre] holds
    the fields already split off, [field] the part of the current one that
    was already scanned; [a] is what precedes the next delimiter. *)
Lemma loop_find pre field a b :
  sexists (Ascii.eqb d) a = false ->
  find_from d (pre +:+ field +:+ a +:+ String d b) (slen pre + slen field) =
    Some (slen (pre +:+ field +:+ a)).
Proof.
  intros Ha. unfold find_from. rewrite sdrop_app_add, sdrop_app, sfind_app_not by done.
  simpl. rewrite Ascii.eqb_refl. simpl. rewrite !slen_app. f_equal. lia.
Qed.

Lemma loop_lookbehind P b :
  (0 <? slen P) && bool_decide (char_at (P +:+ String d b) (slen P - 1) = Some "\"%char)
    = bool_decide (slast P = Some "\"%char).
Proof.
  destruct (Nat.ltb_spec 0 (slen P)); simpl.
  - by rewrite char_at_app_l by lia.
  - assert (P = "") as -> by (apply slen_0; lia). done.
Qed.

Lemma loop_escape fuel pre field a b result :
  sexists (Ascii.eqb d) a = false ->
  splitString_loop d t (S fuel) (pre +:+ field +:+ a +:+ String "\" (String d b))
      (slen pre) (slen pre + slen field) result =
    splitString_loop d t fuel (pre +:+ (field +:+ a +:+ String d "") +:+ b)
      (slen pre) (slen pre + slen (field +:+ a +:+ String d "")) result.
Proof.
  intros Ha. cbn [splitString_loop].
  destruct (Nat.ltb_spec (slen pre) (slen (pre +:+ field +:+ a +:+ String "\" (String d b))))
    as [_|Hge]; [|rewrite !slen_app in Hge; simpl in Hge; lia].
  replace (a +:+ String "\" (String d b)) with ((a +:+ String "\" "") +:+ String d b) by by snorm.
  rewrite loop_find.
  2:{ rewrite sexists_app, Ha. simpl. rewrite orb_false_r. by apply Ascii.eqb_neq. }
  replace (pre +:+ field +:+ (a +:+ String "\" "") +:+ String d b)
    with ((pre +:+ field +:+ a +:+ String "\" "") +:+ String d b) by by snorm.
  rewrite loop_lookbehind, bool_decide_eq_true_2
    by (rewrite <- !app_assoc_s; apply slast_snoc).
  replace ((pre +:+ field +:+ a +:+ String "\" "") +:+ String d b)
    with ((pre +:+ field +:+ a) +:+ String "\" (String d b)) by by snorm.
  replace (slen (pre +:+ field +:+ a +:+ String "\" "") - 1) with (slen (pre +:+ field +:+ a))
    by (rewrite !slen_app; simpl; lia).
  rewrite erase_at. f_equal; [by snorm|rewrite !slen_app; simpl; lia].
Qed.

Lemma loop_delim fuel pre field a b result :
  sexists (Ascii.eqb d) a = false -> slast (pre +:+ field +:+ a) <> Some "\"%char ->
  splitString_loop d t (S fuel) (pre +:+ field +:+ a +:+ String d b)
      (slen pre) (slen pre + slen field) result =
    splitString_loop d t fuel ((pre +:+ field +:+ a +:+ String d "") +:+ b)
      (slen (pre +:+ field +:+ a +:+ String d "")) (slen (pre +:+ field +:+ a +:+ String d ""))
      (result ++ split_field t (field +:+ a) :: match b with "" => [""] | _ => [] end).
Proof.
  intros Ha Hl. cbn [splitString_loop].
  destruct (Nat.ltb_spec (slen pre) (slen (pre +:+ field +:+ a +:+ String d b)))
    as [_|Hge]; [|rewrite !slen_app in Hge; simpl in Hge; lia].
  rewrite loop_find by done.
  replace (pre +:+ field +:+ a +:+ String d b)
    with ((pre +:+ field +:+ a) +:+ String d b) by by snorm.
  rewrite loop_lookbehind, bool_decide_eq_false_2 by done.
  replace (slen (pre +:+ field +:+ a) - slen pre) with (slen (field +:+ a))
    by (rewrite !slen_app; lia).
  assert (substr ((pre +:+ field +:+ a) +:+ String d b) (slen pre) (slen (field +:+ a)) = field +:+ a)
    as ->.
  { etransitivity; [|apply (substr_mid pre (field +:+ a) (String d b))]. f_equal. by snorm. }
  replace (slen (pre +:+ field +:+ a) + 1) with (slen (pre +:+ field +:+ a +:+ String d ""))
    by (rewrite !slen_app; simpl; lia).
  replace (slen ((pre +:+ field +:+ a) +:+ String d b) - slen (pre +:+ field +:+ a +:+ String d ""))
    with (slen b) by (rewrite !slen_app; simpl; lia).
  f_equal; [by snorm|]. destruct b; simpl; by rewrite <- ?app_assoc.
Qed.

Lemma splitString_loop_scan fuel pre field rest result :
  slen field + slen rest < fuel ->
  slast (pre +:+ field) <> Some "\"%char ->
  splitString_loop d t fuel (pre +:+ field +:+ rest) (slen pre) (slen pre + slen field) result =
    Some (result ++ match field +:+ rest with "" => [] | _ => split_scan d t field rest end).
Proof.
  revert pre field rest result.
  induction fuel as [|fuel IH]; intros pre field rest result Hfuel Hlast; [lia|].
  destruct (sfind d rest) as [n|] eqn:Ef.
  - apply sfind_Some in Ef as (a & b & -> & <- & Ha). rewrite slen_app in Hfuel. simpl in Hfuel.
    destruct (decide (slast (pre +:+ field +:+ a) = Some "\"%char)) as [Hl|Hl].
    + destruct (decide (a = "")) as [->|Hne]; [by rewrite app_nil_r_s in Hl|].
      assert (exists a', a = a' +:+ String "\" "") as [a' ->].
      { apply slast_Some. rewrite <- app_assoc_s in Hl. destruct a; [done|]. by rewrite slast_app in Hl. }
      rewrite sexists_app in Ha. apply orb_false_iff in Ha as [Ha _].
      replace ((a' +:+ String "\" "") +:+ String d b) with (a' +:+ String "\" (String d b)) by by snorm.
      rewrite loop_escape by done. rewrite IH.
      * rewrite split_scan_escaped by done. by destruct field, a'.
      * rewrite !slen_app in *. simpl in *. lia.
      * rewrite <- !app_assoc_s, slast_snoc. congruence.
    + rewrite loop_delim by done.
      pose proof (IH (pre +:+ field +:+ a +:+ String d "") "" b) as IH'. simpl in IH'.
      rewrite Nat.add_0_r in IH'. rewrite IH'.
      * rewrite split_scan_delim; [|done|].
        2:{ intros Hla. apply Hl. destruct a; [done|]. rewrite <- app_assoc_s, slast_app. done. }
        rewrite <- app_assoc. destruct b; by destruct field, a.
      * lia.
      * rewrite app_nil_r_s, <- !app_assoc_s, slast_snoc. congruence.
  - cbn [splitString_loop]. unfold find_from. rewrite sdrop_app_add, !sdrop_app, Ef, !slen_app.
    simpl. rewrite split_scan_none by (by apply sfind_None).
    destruct (Nat.ltb_spec (slen pre) (slen pre + (slen field + slen rest))) as [|Hge].
    + by destruct (field +:+ rest) eqn:E; [apply (f_equal slen) in E; rewrite slen_app in E; simpl in E; lia|].
    + assert (field = "") as -> by (apply slen_0; lia).
      assert (rest = "") as -> by (apply slen_0; lia). by rewrite app_nil_r.
Qed.
End SplitFacts.

Lemma split_scan_empty d : split_scan d false "" "" = [""].
Proof. done. Qed.

Lemma split_scan_escape d acc f r :
  d <> "\"%char -> sexists (Ascii.eqb "\") f = false ->
  split_scan d false acc (escape_delim d f +:+ r) = split_scan d false (acc +:+ f) r.
Proof.
  intros Hd. revert acc. induction f as [|c f IH]; intros acc; [by rewrite app_nil_r_s|].
  cbn [sexists escape_delim]. intros [Hc Hf]%orb_false_iff. apply Ascii.eqb_neq in Hc.
  destruct (Ascii.eqb_spec c d) as [->|Hcd].
  - cbn [String.append split_scan]. rewrite !Ascii.eqb_refl.
    destruct (Ascii.eqb_spec "\" d); [congruence|]. cbn [andb]. rewrite IH by done.
    by rewrite app_assoc_s.
  - cbn [String.append split_scan].
    destruct (Ascii.eqb_spec c d); [done|].
    assert (Ascii.eqb c "\" = false) as -> by (apply Ascii.eqb_neq; congruence). cbn [andb].
    specialize (IH (acc +:+ String c "")). rewrite app_assoc_s in IH. cbn in IH.
    rewrite <- IH by done. by destruct (escape_delim d f +:+ r).
Qed.

Lemma split_scan_join_rest d acc fs :
  d <> "\"%char -> Forall (fun f => sexists (Ascii.eqb "\") f = false) fs ->
  split_scan d false acc (join_rest (String d "") (map (escape_delim d) fs)) = acc :: fs.
Proof.
  intros Hd HF. revert acc. induction HF as [|f fs Hf _ IH]; intros acc; [done|].
  cbn [map join_rest String.append split_scan]. rewrite Ascii.eqb_refl. unfold split_field at 1.
  f_equal. rewrite <- (IH f), <- (split_scan_escape d "" f) by done.
  by destruct (escape_delim d f +:+ _).
Qed.

Lemma splitString_loop_spec (d : ascii) (t : bool) (s : string) :
  d <> "\"%char -> splitString_loop d t (S (slen s)) s 0 0 [] = Some (split_spec d t s).
Proof.
  intros Hd. pose proof (splitString_loop_scan d t Hd (S (slen s)) "" "" s []) as E.
  cbn [String.append String.length Nat.add] in E. rewrite E; [|lia|done]. by destruct s.
Qed.

Lemma splitString_join (d : ascii) (fields : list string) :
  d <> "\"%char -> fields <> [""] ->
  Forall (fun f => sexists (Ascii.eqb "\") f = false) fields ->
  splitString d false (join (map (escape_delim d) fields) (String d "")) = fields.
Proof.
  intros Hd Hne HF. unfold splitString. rewrite splitString_loop_spec by done. cbn [default from_option id].
  destruct HF as [|f fs Hf HF]; [done|]. cbn [map join].
  assert (split_scan d false "" (escape_delim d f +:+ join_rest (String d "") (map (escape_delim d) fs))
          = f :: fs) as E by (rewrite split_scan_escape by done; by apply split_scan_join_rest).
  unfold split_spec. rewrite <- E.
  destruct (escape_delim d f +:+ _) eqn:E0; [|done].
  destruct f as [|c f]; [destruct fs; [done|discriminate]|].
  cbn in E0. by destruct (Ascii.eqb c d).
Qed.

Lemma escape_delim_id d f : sexists (Ascii.eqb d) f = false -> escape_delim d f = f.
Proof.
  induction f as [|c f IH]; [done|]. cbn [sexists escape_delim]. intros [Hc Hf]%orb_false_iff.
  rewrite Ascii.eqb_sym, Hc, IH by done. done.
Qed.

(** Fields without delimiters or escapes. *)
Lemma splitString_plain (d : ascii) (fields : list string) :
  d <> "\"%char -> fields <> [""] ->
  Forall (fun f => sexists (Ascii.eqb "\") f = false /\ sexists (Ascii.eqb d) f = false) fields ->
  splitString d false (join fields (String d "")) = fields.
Proof.
  intros Hd Hne HF.
  assert (map (escape_delim d) fields = fields) as Em.
  { clear Hne. induction HF as [|f fs [_ Hf] _ IH]; [done|]. cbn [map]. by rewrite escape_delim_id, IH. }
  rewrite <- Em at 1. apply splitString_join; [done|done|]. eapply Forall_impl; [exact HF|]. by intros f [? _].
Qed.

(** The loop of [splitString] terminates on every input and computes the
    left-to-right scan in which an escaped delimiter is an ordinary character,
    with every field trimmed if asked for. *)
Theorem splitString_correct (d : ascii) (t : bool) (s : string) :
  d <> "\"%char ->
  splitString_loop d t (S (slen s)) s 0 0 [] = Some (split_spec d t s) /\
  splitString d t s = split_spec d t s.
Proof.
  intros Hd. split; [by apply splitString_loop_spec|]. unfold splitString. by rewrite splitString_loop_spec.
Qed.

Lemma splitString_correct_witness :
  ";"%char <> "\"%char /\
  (splitString_loop ";" true 9 "a\;b; c" 0 0 [] = Some ["a;b"; "c"] /\
   splitString ";" true "a\;b; c" = ["a;b"; "c"]).
Proof. split; [discriminate|]. apply (splitString_correct ";" true "a\;b; c"). discriminate. Defined.

(** Escaping the delimiters of any fields (none containing [\]) and
    joining them is undone by [splitString]; the only exception is the single
    empty field, which the empty string does not represent. *)
Theorem splitString_join_roundtrip (d : ascii) (fields : list string) :
  d <> "\"%char -> fields <> [""] ->
  Forall (fun f => sexists (Ascii.eqb "\") f = false) fields ->
  splitString d false (join (map (escape_delim d) fields) (String d "")) = fields.
Proof. apply splitString_join. Qed.

Lemma splitString_join_roundtrip_witness :
  splitString "," false (join (map (escape_delim ",") ["a,b"; ""; "c"]) ",") = ["a,b"; ""; "c"].
Proof.
  apply (splitString_join_roundtrip "," ["a,b"; ""; "c"]);
    [discriminate|discriminate|repeat constructor].
Defined.
