(* ===== verification/NumConv.v ===== *)
(** [src/src/base.cpp]: numeric parsing and printing ([strToInt],
    [intToString] and their variants), the CRC, and the C functions
    [strtol]/[strtoul] they are written with.  [long] and [long long] have 64
    bits, [int] has 32. *)
From stdpp Require Import base option list strings gmap.
From Stdlib Require Import ZArith Lia Ascii.
From Stdlib Require String.
From S2P Require Import Prelude CxxString Base.

Open Scope Z_scope.

(** * [strtol] and [strtoul] *)

Definition isspace (c : ascii) : bool :=
  (byte_of c =? 32) || ((9 <=? byte_of c) && (byte_of c <=? 13)).

Definition digit_value (c : ascii) : option Z :=
  let b := byte_of c in
  if (48 <=? b) && (b <=? 57) then Some (b - 48)
  else if (97 <=? b) && (b <=? 122) then Some (b - 87)
  else if (65 <=? b) && (b <=? 90) then Some (b - 55)
  else None.

Definition is_digit_of (base : Z) (c : ascii) : bool :=
  match digit_value c with Some v => v <? base | None => false end.

(** The value of the digits read, their number, and the end pointer. *)
Fixpoint read_digits (base : Z) (s : string) (acc : Z) (n : nat) : Z * nat * string :=
  match s with
  | String c s' =>
    match digit_value c with
    | Some v => if v <? base then read_digits base s' (acc * base + v) (S n) else (acc, n, s)
    | None => (acc, n, s)
    end
  | EmptyString => (acc, n, s)
  end.

Fixpoint skip_space (s : string) : string :=
  match s with
  | String c s' => if isspace c then skip_space s' else s
  | EmptyString => s
  end.

Definition read_sign (s : string) : bool * string :=
  match s with
  | String "-" s' => (true, s')
  | String "+" s' => (false, s')
  | _ => (false, s)
  end.

(** The base a number is read in, and its digits: [0x] counts as a prefix only
    before a hexadecimal digit. *)
Definition read_prefix (base : Z) (s : string) : Z * string :=
  let hex := (base =? 0) || (base =? 16) in
  match s with
  | String "0" (String x (String h r)) =>
    if hex && ((Ascii.eqb x "x" || Ascii.eqb x "X") && is_digit_of 16 h)
    then (16, String h r) else (if base =? 0 then 8 else base, s)
  | String "0" _ => (if base =? 0 then 8 else base, s)
  | _ => (if base =? 0 then 10 else base, s)
  end.

(** The sign, the magnitude read without overflow, and the end pointer; with
    no digits there is no conversion and the end pointer is the start. *)
Definition read_number (base : Z) (s : string) : option (bool * Z) * string :=
  let '(neg, s1) := read_sign (skip_space s) in
  let '(b, s2) := read_prefix base s1 in
  let '(v, n, rest) := read_digits b s2 0 0%nat in
  match n with O => (None, s) | S _ => (Some (neg, v), rest) end.

Definition strtol (s : string) (base : Z) : Z * string :=
  match read_number base s with
  | (Some (neg, v), rest) =>
      (Z.max (- 2 ^ 63) (Z.min (2 ^ 63 - 1) (if neg then - v else v)), rest)
  | (None, rest) => (0, rest)
  end.

Definition strtoul (s : string) (base : Z) : Z * string :=
  match read_number base s with
  | (Some (neg, v), rest) =>
      (if 2 ^ 64 <=? v then 2 ^ 64 - 1 else wrapU 64 (if neg then - v else v), rest)
  | (None, rest) => (0, rest)
  end.

(** * The conversions of base.cpp *)

Definition is_empty (s : string) : bool := match s with EmptyString => true | _ => false end.

Definition strToInt (_strValue : string) : res Z :=
  if negb (is_empty _strValue) then
    let '(result, endp) := strtol (c_str _strValue) 0 in
    if is_empty endp then Ok (int32 result)
    else Throw (InvalidArgument ("strToInt: Could not parse value: '" +:+ _strValue +:+ "'"))
  else Throw (InvalidArgument ("strToInt: Could not parse value: '" +:+ _strValue +:+ "'")).

Definition strToIntDef (_strValue : string) (_default : Z) : Z :=
  if negb (is_empty _strValue) then
    let '(result, endp) := strtol (c_str _strValue) 0 in
    if is_empty endp then int32 result else _default
  else _default.

Definition strToUInt (_strValue : string) : res Z :=
  if negb (is_empty _strValue) then
    let '(result, endp) := strtoul (c_str _strValue) 0 in
    if is_empty endp then Ok (uint32 result)
    else Throw (InvalidArgument ("strToUInt: Could not parse value: '" +:+ _strValue +:+ "'"))
  else Throw (InvalidArgument ("strToUInt: Could not parse value: '" +:+ _strValue +:+ "'")).

Definition strToUIntDef (_strValue : string) (_default : Z) : Z :=
  if negb (is_empty _strValue) then
    let '(result, endp) := strtoul (c_str _strValue) 0 in
    if is_empty endp then uint32 result else _default
  else _default.

Definition strToULongLong (_strValue : string) : res Z :=
  if negb (is_empty _strValue) then
    let '(result, endp) := strtoul (c_str _strValue) 0 in
    if is_empty endp then Ok result
    else Throw (InvalidArgument ("strToUInt: Could not parse value: '" +:+ _strValue +:+ "'"))
  else Throw (InvalidArgument ("strToUInt: Could not parse value: '" +:+ _strValue +:+ "'")).

Definition strToULongLongDef (_strValue : string) (_default : Z) : Z :=
  if negb (is_empty _strValue) then
    let '(result, endp) := strtoul (c_str _strValue) 0 in
    if is_empty endp then result else _default
  else _default.

(** The digits of [n], most significant first, before [acc]. *)
Definition digit_char (v : Z) : ascii := char_of (if v <? 10 then 48 + v else 87 + v).

Fixpoint print_digits (fuel : nat) (base n : Z) (acc : string) : string :=
  let acc := String (digit_char (n mod base)) acc in
  match fuel with
  | O => acc
  | S fuel => if n / base =? 0 then acc else print_digits fuel base (n / base) acc
  end.

(** A 64-bit number has at most 20 decimal and 16 hexadecimal digits. *)
Definition print_number (base n : Z) : string := print_digits 19 base n "".

Definition intToString (_int : Z) (_hex : bool) : string :=
  if _hex then "0x" +:+ print_number 16 (wrapU 64 _int)
  else if _int <? 0 then "-" +:+ print_number 10 (- _int) else print_number 10 _int.

Definition uintToString (_int : Z) (_hex : bool) : string :=
  if _hex then "0x" +:+ print_number 16 _int else print_number 10 _int.

Definition unsignedLongIntToHexString (_value : Z) : string := print_number 16 _value.

Definition unsignedLongIntToString (_value : Z) : string := print_number 10 _value.

(** Two lower-case hexadecimal digits per byte. *)
Fixpoint hexEncodeByteArray (a : list Z) : string :=
  match a with
  | [] => EmptyString
  | b :: a => String (digit_char (Z.land b 255 / 16)) (String (digit_char (Z.land b 255 mod 16))
                (hexEncodeByteArray a))
  end.

(** * CRC *)

Definition crc_step (result : Z) : Z :=
  Z.lxor (Z.shiftr result 1) (if Z.testbit result 0 then 33800 (* 0x8408 *) else 0).

Definition update_crc (_crc c : Z) : Z := Nat.iter 8 crc_step (Z.lxor _crc c).

Definition crc16 (_data : list Z) : Z := fold_left update_crc _data 0.

(** * Facts *)

Lemma digit_value_char v : 0 <= v < 36 -> digit_value (digit_char v) = Some v.
Proof.
  intros H. apply (zrange_forall (fun v => bool_decide (digit_value (digit_char v) = Some v)) 0 36)
    in H; [by apply bool_decide_eq_true in H|by_compute].
Qed.

Lemma digit_char_plain v :
  0 <= v < 36 ->
  isspace (digit_char v) = false /\ digit_char v <> "-"%char /\ digit_char v <> "+"%char /\
  (v <> 0 -> digit_char v <> "0"%char) /\ digit_char v <> "000"%char.
Proof.
  intros H.
  assert (negb (isspace (digit_char v)) && negb (Ascii.eqb (digit_char v) "-") &&
          negb (Ascii.eqb (digit_char v) "+") && ((v =? 0) || negb (Ascii.eqb (digit_char v) "0"))
          && negb (Ascii.eqb (digit_char v) "000") = true) as E.
  { revert v H. by apply (zrange_forall _ 0 36). }
  rewrite !andb_true_iff, orb_true_iff, !negb_true_iff, !Ascii.eqb_neq, Z.eqb_eq in E.
  destruct E as ((((Hs & Hm) & Hp) & H0) & Hn).
  split; [done|]. repeat (split; [done || (intros; destruct H0; done)|]). done.
Qed.

Section Print.
Context (base : Z).
Hypothesis Hbase : 2 <= base <= 36.

Local Lemma div_lt n fuel : 0 <= n < base ^ (Z.of_nat (S fuel) + 1) ->
  0 <= n / base < base ^ (Z.of_nat fuel + 1).
Proof.
  intros H. split; [apply Z.div_pos; lia|]. apply Z.div_lt_upper_bound; [lia|].
  replace (Z.of_nat (S fuel) + 1) with (Z.succ (Z.of_nat fuel + 1)) in H by lia.
  rewrite Z.pow_succ_r in H by lia. lia.
Qed.

(** Reading back what was printed before [acc]. *)
Lemma read_print_digits fuel n acc a k :
  0 <= n < base ^ (Z.of_nat fuel + 1) ->
  exists m, (0 < m)%nat /\
    read_digits base (print_digits fuel base n acc) a k =
    read_digits base acc (a * base ^ Z.of_nat m + n) (k + m).
Proof.
  revert n acc a k. induction fuel as [|fuel IH]; intros n acc a k Hn.
  - exists 1%nat. split; [lia|]. change (Z.of_nat 0 + 1) with 1 in Hn. rewrite Z.pow_1_r in Hn.
    cbn [print_digits read_digits]. rewrite Z.mod_small by lia. rewrite digit_value_char by lia.
    destruct (Z.ltb_spec n base); [|lia]. f_equal; change (Z.of_nat 1) with 1; rewrite ?Z.pow_1_r; lia.
  - cbn [print_digits]. pose proof (Z.mod_pos_bound n base). pose proof (Z.div_mod n base).
    destruct (Z.eqb_spec (n / base) 0).
    + exists 1%nat. split; [lia|]. cbn [read_digits]. rewrite digit_value_char by lia.
      destruct (Z.ltb_spec (n mod base) base); [|lia]. f_equal; change (Z.of_nat 1) with 1; rewrite ?Z.pow_1_r; lia.
    + destruct (IH (n / base) (String (digit_char (n mod base)) acc) a k) as (m & Hm & ->);
        [by apply div_lt|].
      exists (S m). split; [lia|]. cbn [read_digits]. rewrite digit_value_char by lia.
      destruct (Z.ltb_spec (n mod base) base); [|lia].
      f_equal; [rewrite Nat2Z.inj_succ, Z.pow_succ_r by lia|]; lia.
Qed.

(** The first character printed: a digit, and not [0] unless [n] is. *)
Lemma print_digits_head fuel n acc :
  0 <= n < base ^ (Z.of_nat fuel + 1) ->
  exists v r, print_digits fuel base n acc = String (digit_char v) r /\
    0 <= v < base /\ (n <> 0 -> v <> 0) /\ (n = 0 -> r = acc).
Proof.
  revert n acc. induction fuel as [|fuel IH]; intros n acc Hn.
  - change (Z.of_nat 0 + 1) with 1 in Hn. rewrite Z.pow_1_r in Hn. cbn [print_digits].
    rewrite Z.mod_small by lia. eauto 10 with lia.
  - cbn [print_digits]. pose proof (Z.mod_pos_bound n base). pose proof (Z.div_mod n base).
    destruct (Z.eqb_spec (n / base) 0).
    + eexists _, _. split; [done|]. repeat split; lia || done.
    + destruct (IH (n / base) (String (digit_char (n mod base)) acc)) as (v & r & -> & Hv & Hv0 & _);
        [by apply div_lt|].
      exists v, r. split_and!; [done|lia|lia|auto|]. intros ->. by rewrite Z.div_0_l in n0 by lia.
Qed.

(** A number below [base ^ (k + 1)] is printed with at most [k + 1] digits. *)
Lemma print_digits_length fuel n acc k :
  0 <= n < base ^ (Z.of_nat k + 1) ->
  (slen (print_digits fuel base n acc) <= S k + slen acc)%nat.
Proof.
  revert n acc k. induction fuel as [|fuel IH]; intros n acc k Hn; cbn [print_digits]; [simpl; lia|].
  destruct (Z.eqb_spec (n / base) 0) as [|Hne]; [simpl; lia|].
  destruct k as [|k].
  - change (Z.of_nat 0 + 1) with 1 in Hn. rewrite Z.pow_1_r in Hn.
    by rewrite Z.div_small in Hne by lia.
  - etransitivity; [apply (IH _ _ k); by apply div_lt|]. simpl. lia.
Qed.

Lemma print_digits_no_nul fuel n acc :
  sexists (Ascii.eqb "000") acc = false ->
  sexists (Ascii.eqb "000") (print_digits fuel base n acc) = false.
Proof.
  pose proof (Z.mod_pos_bound n base) as Hb.
  revert n acc Hb. induction fuel as [|fuel IH]; intros n acc Hb Hacc.
  - cbn [print_digits sexists]. rewrite Hacc, orb_false_r.
    apply Ascii.eqb_neq. destruct (digit_char_plain (n mod base)) as (_ & _ & _ & _ & H); [lia|congruence].
  - cbn [print_digits]. 
    assert (sexists (Ascii.eqb "000") (String (digit_char (n mod base)) acc) = false) as Hacc'.
    { cbn [sexists]. rewrite Hacc, orb_false_r. apply Ascii.eqb_neq.
      destruct (digit_char_plain (n mod base)) as (_ & _ & _ & _ & H); [lia|congruence]. }
    destruct (_ =? 0); [done|]. apply IH; [|done]. intros. apply Z.mod_pos_bound. lia.
Qed.

End Print.

Lemma isspace_head c s : isspace c = false -> skip_space (String c s) = String c s.
Proof. intros H. simpl. by rewrite H. Qed.

Lemma read_sign_plain c s :
  c <> "-"%char -> c <> "+"%char -> read_sign (String c s) = (false, String c s).
Proof. destruct c as [[] [] [] [] [] [] [] []]; by intros ??. Qed.

Lemma read_prefix_plain base c s :
  c <> "0"%char -> read_prefix base (String c s) = (if base =? 0 then 10 else base, String c s).
Proof. destruct c as [[] [] [] [] [] [] [] []]; by intros ?. Qed.

Lemma read_sign_minus s : read_sign (String "-" s) = (true, s).
Proof. done. Qed.

(** [strtol] with base 0 reads a printed decimal number back. *)
Lemma read_number_print (neg : bool) n :
  0 <= n < 10 ^ 20 ->
  read_number 0 ((if neg then "-" else "") +:+ print_number 10 n) = (Some (neg, n), "").
Proof.
  intros Hn. destruct (Z.eq_dec n 0) as [->|Hne]; [by destruct neg|].
  unfold print_number. set (p := print_digits 19 10 n "").
  destruct (print_digits_head 10 ltac:(lia) 19 n "" Hn) as (v & r & Ep & Hv & Hv0 & _).
  fold p in Ep. destruct (digit_char_plain v) as (Hs & Hm & Hp & H0 & _); [lia|].
  destruct (read_print_digits 10 ltac:(lia) 19 n "" 0 0%nat Hn) as (m & Hm0 & Er).
  fold p in Er. unfold read_number.
  assert (read_sign (skip_space ((if neg then "-" else "") +:+ p)) = (neg, p)) as ->.
  { destruct neg; [done|]. cbn [String.append]. rewrite Ep, isspace_head by done.
    by apply read_sign_plain. }
  assert (read_prefix 0 p = (10, p)) as -> by (rewrite Ep; apply read_prefix_plain; auto).
  rewrite Er. cbn [read_digits]. destruct (0 + m)%nat eqn:E; [lia|]. repeat f_equal; lia.
Qed.

(** A printed hexadecimal number, with its prefix. *)
Lemma read_number_print_hex n :
  0 <= n < 16 ^ 20 -> read_number 0 ("0x" +:+ print_number 16 n) = (Some (false, n), "").
Proof.
  intros Hn. unfold print_number. set (p := print_digits 19 16 n "").
  destruct (print_digits_head 16 ltac:(lia) 19 n "" Hn) as (v & r & Ep & Hv & _).
  fold p in Ep. destruct (read_print_digits 16 ltac:(lia) 19 n "" 0 0%nat Hn) as (m & Hm0 & Er).
  fold p in Er. unfold read_number.
  assert (read_sign (skip_space ("0x" +:+ p)) = (false, "0x" +:+ p)) as -> by done.
  assert (read_prefix 0 ("0x" +:+ p) = (16, p)) as ->.
  { rewrite Ep. cbn [String.append read_prefix]. unfold is_digit_of.
    rewrite digit_value_char by lia. destruct (Z.ltb_spec v 16); [done|lia]. }
  rewrite Er. cbn [read_digits]. destruct (0 + m)%nat eqn:E; [lia|]. repeat f_equal; lia.
Qed.

Lemma c_str_print pre base n :
  2 <= base <= 36 -> sexists (Ascii.eqb "000") pre = false ->
  c_str (pre +:+ print_number base n) = pre +:+ print_number base n.
Proof.
  intros Hb Hp. apply c_str_id. rewrite sexists_app, Hp. by apply print_digits_no_nul.
Qed.

Lemma print_digits_cons fuel base n acc : exists c r, print_digits fuel base n acc = String c r.
Proof. revert n acc. induction fuel; intros; cbn [print_digits]; [|case_match]; eauto. Qed.

Lemma print_nonempty pre base n : is_empty (pre +:+ print_number base n) = false.
Proof. destruct pre; [|done]. unfold print_number. by destruct (print_digits_cons 19 base n "") as (c & r & ->). Qed.

Lemma intToString_form z :
  intToString z false = (if z <? 0 then "-" else "") +:+ print_number 10 (Z.abs z).
Proof.
  unfold intToString. destruct (Z.ltb_spec z 0) as [H|H].
  - by rewrite (Z.abs_neq z) by lia.
  - by rewrite (Z.abs_eq z) by lia.
Qed.

Lemma strToInt_print (z : Z) :
  - 2 ^ 63 <= z < 2 ^ 63 -> strToInt (intToString z false) = Ok (int32 z).
Proof.
  intros Hz. rewrite intToString_form.
  unfold strToInt. rewrite print_nonempty, c_str_print by (lia || by case_match). simpl negb.
  unfold strtol. rewrite read_number_print by lia. simpl is_empty. cbv iota. do 2 f_equal.
  destruct (Z.ltb_spec z 0); lia.
Qed.

(** C37: for every [long long] value, [intToString] produces at most 20
    characters (so that its 21-byte buffer never overflows and its assertion
    holds) and [strToInt] reads the text back as the value truncated to
    [int]: exactly the value when it fits, silently another one when it does
    not. *)
Theorem strToInt_intToString (z : Z) :
  - 2 ^ 63 <= z < 2 ^ 63 ->
  (slen (intToString z false) <= 20)%nat /\ strToInt (intToString z false) = Ok (int32 z).
Proof.
  intros Hz. rewrite intToString_form.
  assert (0 <= Z.abs z < 10 ^ (Z.of_nat 18 + 1)) as Ha
    by (change (10 ^ (Z.of_nat 18 + 1)) with 10000000000000000000; lia). split.
  - rewrite slen_app. pose proof (print_digits_length 10 ltac:(lia) 19 _ "" 18 Ha) as H.
    unfold print_number. cbn [String.length] in H. case_match; cbn [String.length]; lia.
  - rewrite <- intToString_form. by apply strToInt_print.
Qed.

Lemma strToInt_intToString_witness :
  (slen (intToString (-9223372036854775808) false) <= 20)%nat /\ strToInt (intToString (-9223372036854775808) false) = Ok 0.
Proof. apply (strToInt_intToString (-9223372036854775808)). lia. Defined.

(** Printing with the hexadecimal flag or as unsigned number and reading with
    [strToUInt] / [strToULongLong]. *)
Lemma strToULongLong_uintToString (z : Z) (hex : bool) :
  0 <= z < 2 ^ 64 -> strToULongLong (uintToString z hex) = Ok z.
Proof.
  intros Hz. unfold strToULongLong, uintToString.
  assert ((2 ^ 64 <=? z) = false) as Hlt by lia.
  assert (wrapU 64 z = z) as Hw by (apply Z.mod_small; lia).
  destruct hex.
  - rewrite print_nonempty, c_str_print by (lia || done). simpl negb.
    unfold strtoul. rewrite read_number_print_hex by lia. simpl is_empty. cbv iota.
    by rewrite Hlt, Hw.
  - pose proof (read_number_print false z) as H. pose proof (print_nonempty "" 10 z) as Hne.
    pose proof (c_str_print "" 10 z) as Hc. cbn [String.append] in *.
    rewrite Hne, Hc by (lia || done). simpl negb. unfold strtoul. rewrite H by lia.
    simpl is_empty. cbv iota. by rewrite Hlt, Hw.
Qed.

(** [strToIntDef] is [strToInt] with the error replaced by the default. *)
Lemma strToIntDef_strToInt s d :
  strToIntDef s d = match strToInt s with Ok z => z | Throw _ => d end.
Proof. unfold strToIntDef, strToInt. by repeat case_match. Qed.

(** Every character of a printed number is a digit. *)
Lemma print_digits_forall (p : ascii -> bool) base fuel n acc :
  0 < base -> (forall v, 0 <= v < base -> p (digit_char v) = true) -> sforall p acc = true ->
  sforall p (print_digits fuel base n acc) = true.
Proof.
  intros Hb Hp. revert n acc. induction fuel as [|fuel IH]; intros n acc Ha; cbn [print_digits].
  - rewrite sforall_cons, Hp, Ha by (by apply Z.mod_pos_bound). done.
  - assert (sforall p (String (digit_char (n mod base)) acc) = true) as Ha'.
    { rewrite sforall_cons, Hp, Ha by (by apply Z.mod_pos_bound). done. }
    destruct (_ =? 0); [done|]. by apply IH.
Qed.

(** [atoi] of a printed number. *)
Lemma strtol_print n : 0 <= n < 2 ^ 31 -> strtol (print_number 10 n) 10 = (n, "").
Proof.
  intros Hn. destruct (Z.eq_dec n 0) as [->|Hne]; [done|].
  unfold print_number. set (p := print_digits 19 10 n "").
  assert (0 <= n < 10 ^ (Z.of_nat 19 + 1)) as Hn'
    by (change (10 ^ (Z.of_nat 19 + 1)) with 100000000000000000000; lia).
  destruct (print_digits_head 10 ltac:(lia) 19 n "" Hn') as (v & r & Ep & Hv & Hv0 & _).
  fold p in Ep. destruct (digit_char_plain v) as (Hs & Hm & Hp & H0 & _); [lia|].
  destruct (read_print_digits 10 ltac:(lia) 19 n "" 0 0%nat Hn') as (m & Hm0 & Er). fold p in Er.
  assert (read_number 10 p = (Some (false, n), "")) as E.
  { unfold read_number. assert (read_sign (skip_space p) = (false, p)) as ->.
    { rewrite Ep, isspace_head by done. by apply read_sign_plain. }
    assert (read_prefix 10 p = (10, p)) as -> by (rewrite Ep; apply read_prefix_plain; auto).
    rewrite Er. cbn [read_digits]. destruct (0 + m)%nat eqn:En; [lia|]. repeat f_equal; lia. }
  unfold strtol. rewrite E. f_equal. lia.
Qed.
