(* ===== verification/FloatConv.v ===== *)
(** Conversions between [double], [int] and text: the casts of the language
    and [strToDouble] of [src/src/base.cpp]; [double] is IEEE binary64.
    [strtod] of the C library is a parameter. *)
From stdpp Require Import base option list strings.
From Stdlib Require Import ZArith Lia Ascii Uint63 PrimFloat FloatOps.
From Stdlib Require String.
From S2P Require Import Prelude CxxString NumConv.

Open Scope string_scope.
Open Scope Z_scope.

(** * [double] and [int] *)

(** [static_cast<double>] of an integer below 2^53 in absolute value. *)
Definition of_int (z : Z) : float :=
  if z <? 0 then PrimFloat.opp (of_uint63 (Uint63.of_Z (- z))) else of_uint63 (Uint63.of_Z z).

(** A finite [x] is [m * 2 ^ (- k)] in absolute value, with a 53-bit integer
    [m]; [None] when [k <= 0], that is when [x] is a (large) integer. *)
Definition mantissa (x : float) : int * option int :=
  let (r, e) := frshiftexp (PrimFloat.abs x) in
  let bias := 2154%uint63 in
  (normfr_mantissa r, if (e <? bias)%uint63 then Some (bias - e)%uint63 else None).

(** [round]: to the nearest integer, halfway cases away from zero. *)
Definition round (x : float) : float :=
  if is_nan x || is_infinity x then x
  else match mantissa x with
       | (m, Some k) =>
         let r := of_uint63 ((m + (1 << (k - 1))) >> k)%uint63 in
         if get_sign x then PrimFloat.opp r else r
       | (_, None) => x
       end.

(** [static_cast<int>]: truncation. *)
Definition to_int (x : float) : res Z :=
  if is_nan x || is_infinity x then Throw (UndefinedBehaviour "conversion of a non-finite value")
  else match mantissa x with
       | (m, Some k) =>
         let a := Uint63.to_Z (m >> k)%uint63 in
         int_checked (if get_sign x then - a else a)
       | (_, None) => Throw (UndefinedBehaviour "integer overflow")
       end.

(** * [double] and text *)

(** [strtod]: the value and the rest of the text, and whether [errno] becomes
    [ERANGE]. *)
Class Strtod := {
  strtod : string -> float * string;
  strtod_erange : string -> bool
}.

Definition strToDouble `{Strtod} (_strValue : string) : res float :=
  if negb (is_empty _strValue) then
    let '(result, endp) := strtod (c_str _strValue) in
    if is_empty endp then Ok result
    else Throw (InvalidArgument ("strToDouble: Could not parse value: '" +:+ _strValue +:+ "'"))
  else Throw (InvalidArgument ("strToDouble: Could not parse value: '" +:+ _strValue +:+ "'")).
