(* ===== verification/Calendar.v ===== *)
(** The part of [time.h] that [src/src/datetools.cpp] uses: broken-down times,
    the Gregorian calendar, and [strftime] and [strptime] for the conversions
    that occur in its format strings.

    Nothing here is code of the repository.  What depends on the time zone of
    the machine is a parameter, the class [Libc]: the offset that [localtime_r]
    applies, and [mktime]. *)
From stdpp Require Import base option list strings.
From Stdlib Require Import ZArith Lia Ascii.
From Stdlib Require String.
From S2P Require Import Prelude CxxString NumConv.

Open Scope string_scope.
Open Scope list_scope.
Open Scope Z_scope.

(** * Broken-down times *)

(** [struct tm]; [tm_mon] counts from 0, [tm_year] from 1900. *)
Record tm := mkTm {
  tm_sec : Z; tm_min : Z; tm_hour : Z; tm_mday : Z; tm_mon : Z; tm_year : Z;
  tm_wday : Z; tm_yday : Z; tm_isdst : Z; tm_gmtoff : Z
}.

(** After [memset(&tm, 0, sizeof tm)]. *)
Definition zero_tm : tm := mkTm 0 0 0 0 0 0 0 0 0 0.

Definition set_sec v t := mkTm v (tm_min t) (tm_hour t) (tm_mday t) (tm_mon t) (tm_year t) (tm_wday t) (tm_yday t) (tm_isdst t) (tm_gmtoff t).
Definition set_min v t := mkTm (tm_sec t) v (tm_hour t) (tm_mday t) (tm_mon t) (tm_year t) (tm_wday t) (tm_yday t) (tm_isdst t) (tm_gmtoff t).
Definition set_hour v t := mkTm (tm_sec t) (tm_min t) v (tm_mday t) (tm_mon t) (tm_year t) (tm_wday t) (tm_yday t) (tm_isdst t) (tm_gmtoff t).
Definition set_mday v t := mkTm (tm_sec t) (tm_min t) (tm_hour t) v (tm_mon t) (tm_year t) (tm_wday t) (tm_yday t) (tm_isdst t) (tm_gmtoff t).
Definition set_mon v t := mkTm (tm_sec t) (tm_min t) (tm_hour t) (tm_mday t) v (tm_year t) (tm_wday t) (tm_yday t) (tm_isdst t) (tm_gmtoff t).
Definition set_year v t := mkTm (tm_sec t) (tm_min t) (tm_hour t) (tm_mday t) (tm_mon t) v (tm_wday t) (tm_yday t) (tm_isdst t) (tm_gmtoff t).
Definition set_isdst v t := mkTm (tm_sec t) (tm_min t) (tm_hour t) (tm_mday t) (tm_mon t) (tm_year t) (tm_wday t) (tm_yday t) v (tm_gmtoff t).
Definition set_gmtoff v t := mkTm (tm_sec t) (tm_min t) (tm_hour t) (tm_mday t) (tm_mon t) (tm_year t) (tm_wday t) (tm_yday t) (tm_isdst t) v.

(** * The Gregorian calendar

    Years are counted from March, so that the leap day is the last day of a
    year, in eras of 400 years of 146097 days. *)

(** Days from 1 March of year 0 to 1 March of year [y]. *)
Definition days_to_year (y : Z) : Z := 365 * y + y / 4 - y / 100 + y / 400.

(** The day of such a year on which month [mp] (0 for March) starts. *)
Definition month_start (mp : Z) : Z := (153 * mp + 2) / 5.

(** Days from 1970-01-01 to day [d] of month [m] (1 for January) of year [y]. *)
Definition days_from_civil (y m d : Z) : Z :=
  let y' := if m <=? 2 then y - 1 else y in
  days_to_year y' + month_start ((m + 9) mod 12) + (d - 1) - 719468.

(** The year of the era, and its day, of a day of the era. *)
Definition year_of_era (doe : Z) : Z := (doe - doe / 1460 + doe / 36524 - doe / 146096) / 365.

Definition civil_from_days (days : Z) : Z * Z * Z :=
  let z := days + 719468 in
  let era := z / 146097 in
  let doe := z mod 146097 in
  let yoe := year_of_era doe in
  let doy := doe - (365 * yoe + yoe / 4 - yoe / 100) in
  let mp := (5 * doy + 2) / 153 in
  let m := if mp <? 10 then mp + 3 else mp - 9 in
  (yoe + era * 400 + (if m <=? 2 then 1 else 0), m, doy - month_start mp + 1).

(** Seconds since the epoch of a broken-down time in UTC; fields out of range
    carry over. *)
Definition timegm (t : tm) : Z :=
  let y := tm_year t + 1900 + tm_mon t / 12 in
  days_from_civil y (tm_mon t mod 12 + 1) (tm_mday t) * 86400 +
  tm_hour t * 3600 + tm_min t * 60 + tm_sec t.

(** The broken-down time of [secs], shifted by an offset. *)
Definition breakdown (secs offset isdst : Z) : tm :=
  let l := secs + offset in
  let days := l / 86400 in
  let s := l mod 86400 in
  let '(y, m, d) := civil_from_days days in
  mkTm (s mod 60) (s / 60 mod 60) (s / 3600) d (m - 1) (y - 1900)
    ((days + 4) mod 7) (days - days_from_civil y 1 1) isdst offset.

Definition gmtime_r (secs : Z) : tm := breakdown secs 0 0.

(** The time zone: the offset from UTC in seconds and whether it is daylight
    saving time, at a time; [mktime], which gives the seconds (-1 for an error)
    and the [tm_gmtoff] it writes back; whether [strptime] reads a zone written
    as [+hh:mm], in which C libraries differ. *)
Class Libc := {
  zone_offset : Z -> Z;
  zone_isdst : Z -> Z;
  mktime : tm -> Z * Z;
  zone_colon : bool
}.

Definition localtime_r `{Libc} (secs : Z) : tm := breakdown secs (zone_offset secs) (zone_isdst secs).

(** A zone without daylight saving time. *)
Definition fixed_zone (offset : Z) (colon : bool) : Libc := {|
  zone_offset := fun _ => offset;
  zone_isdst := fun _ => 0;
  mktime := fun t => (timegm t - offset, offset);
  zone_colon := colon
|}.

(** ** The calendar is right *)

Lemma year_of_era_spec doe : 0 <= doe < 146097 ->
  let yoe := year_of_era doe in
  0 <= yoe < 400 /\ 0 <= doe - (365 * yoe + yoe / 4 - yoe / 100) <= 365.
Proof.
  intros H. cbv zeta. unfold year_of_era.
  Z.to_euclidean_division_equations. lia.
Qed.

Lemma month_start_inv mp doy : 0 <= doy <= 365 -> mp = (5 * doy + 2) / 153 ->
  0 <= mp <= 11 /\ 0 <= doy - month_start mp <= 30.
Proof. intros H ->. unfold month_start. Z.to_euclidean_division_equations. lia. Qed.

Lemma civil_from_days_bounds days y m d :
  civil_from_days days = (y, m, d) -> 1 <= m <= 12 /\ 1 <= d <= 31.
Proof.
  unfold civil_from_days. intros [= Ey <- <-].
  destruct (year_of_era_spec ((days + 719468) mod 146097)) as [_ H]; [apply Z.mod_pos_bound; lia|].
  edestruct month_start_inv as [H1 H2]; [exact H|reflexivity|].
  split; [|lia]. case_cond; reflect_bools; lia.
Qed.

(** The date of a day number has that day number. *)
Lemma days_from_civil_from_days days :
  let '(y, m, d) := civil_from_days days in days_from_civil y m d = days.
Proof.
  unfold civil_from_days. set (z := days + 719468). set (doe := z mod 146097).
  destruct (year_of_era_spec doe) as [Hy Hd]; [apply Z.mod_pos_bound; lia|].
  set (yoe := year_of_era doe) in *. set (doy := doe - _) in *.
  destruct (month_start_inv ((5 * doy + 2) / 153) doy) as [Hm Hms]; [lia|done|].
  set (mp := (5 * doy + 2) / 153) in *. set (m := if mp <? 10 then mp + 3 else mp - 9).
  assert (m <=? 2 = negb (mp <? 10)) as Em.
  { unfold m. destruct (Z.ltb_spec mp 10); cbn; [apply Z.leb_gt|apply Z.leb_le]; lia. }
  assert ((m + 9) mod 12 = mp) as Emp.
  { unfold m. destruct (Z.ltb_spec mp 10).
    - replace (mp + 3 + 9) with (mp + 1 * 12) by lia. rewrite Z.mod_add by lia. apply Z.mod_small. lia.
    - replace (mp - 9 + 9) with mp by lia. apply Z.mod_small. lia. }
  unfold days_from_civil. rewrite Emp.
  replace (if m <=? 2 then _ else _) with (yoe + z / 146097 * 400) by (destruct (m <=? 2); lia).
  pose proof (Z.div_mod z 146097 ltac:(lia)) as E. fold doe in E.
  assert (days_to_year (yoe + z / 146097 * 400) = z / 146097 * 146097 + (365 * yoe + yoe / 4 - yoe / 100)) as ->.
  { unfold days_to_year. clearbody yoe. clear - Hy. generalize (z / 146097). intros k.
    Z.to_euclidean_division_equations. lia. }
  unfold doy in *. lia.
Qed.

Lemma timegm_breakdown secs offset isdst : timegm (breakdown secs offset isdst) = secs + offset.
Proof.
  unfold breakdown. set (l := secs + offset).
  pose proof (days_from_civil_from_days (l / 86400)) as H.
  destruct (civil_from_days (l / 86400)) as [[y m] d] eqn:E.
  apply civil_from_days_bounds in E as [Hm _]. unfold timegm. cbn.
  rewrite (Z.div_small (m - 1)), (Z.mod_small (m - 1)) by lia.
  replace (y - 1900 + 1900 + 0) with y by lia. replace (m - 1 + 1) with m by lia. rewrite H.
  clear. Z.to_euclidean_division_equations. lia.
Qed.

(** The fields are in their ranges. *)
Record in_ranges (t : tm) : Prop := {
  r_sec : 0 <= tm_sec t <= 59; r_min : 0 <= tm_min t <= 59; r_hour : 0 <= tm_hour t <= 23;
  r_mday : 1 <= tm_mday t <= 31; r_mon : 0 <= tm_mon t <= 11
}.

Lemma breakdown_in_ranges secs offset isdst : in_ranges (breakdown secs offset isdst).
Proof.
  unfold breakdown. set (l := secs + offset).
  destruct (civil_from_days (l / 86400)) as [[y m] d] eqn:E.
  apply civil_from_days_bounds in E as [Hm Hd].
  pose proof (Z.mod_pos_bound l 86400 ltac:(lia)) as Hl.
  pose proof (Z.mod_pos_bound (l mod 86400) 60 ltac:(lia)).
  pose proof (Z.mod_pos_bound (l mod 86400 / 60) 60 ltac:(lia)).
  split; cbn; try lia. split; [apply Z.div_pos; lia|].
  enough (l mod 86400 / 3600 < 24) by lia. apply Z.div_lt_upper_bound; lia.
Qed.

(** * [strftime] and [strptime] *)

Inductive conv := CLit (c : ascii) | CYear | CMon | CDay | CHour | CMin | CSec | CZone | CWdayName | CMonName.

(** The conversions a format stands for, with those it abbreviates. *)
Fixpoint conversions (fmt : string) : list conv :=
  match fmt with
  | String "%" (String c fmt) =>
    (if Ascii.eqb c "Y" then [CYear] else if Ascii.eqb c "m" then [CMon] else if Ascii.eqb c "d" then [CDay]
     else if Ascii.eqb c "H" then [CHour] else if Ascii.eqb c "M" then [CMin] else if Ascii.eqb c "S" then [CSec]
     else if Ascii.eqb c "F" then [CYear; CLit "-"; CMon; CLit "-"; CDay]
     else if Ascii.eqb c "T" then [CHour; CLit ":"; CMin; CLit ":"; CSec]
     else if Ascii.eqb c "z" then [CZone] else if Ascii.eqb c "a" then [CWdayName]
     else if Ascii.eqb c "b" then [CMonName] else [CLit c]) ++ conversions fmt
  | String c fmt => CLit c :: conversions fmt
  | EmptyString => []
  end.

(** Two digits. *)
Definition pad2 (z : Z) : string := String (digit_char (z / 10)) (String (digit_char (z mod 10)) "").

Definition wday_names : list string := ["Sun"; "Mon"; "Tue"; "Wed"; "Thu"; "Fri"; "Sat"].
Definition month_names : list string :=
  ["Jan"; "Feb"; "Mar"; "Apr"; "May"; "Jun"; "Jul"; "Aug"; "Sep"; "Oct"; "Nov"; "Dec"].

Definition print_zone (offset : Z) : string :=
  let m := Z.abs offset / 60 in
  String (if offset <? 0 then "-"%char else "+"%char) (pad2 (m / 60) +:+ pad2 (m mod 60)).

(** In the C locale. *)
Definition print_conv (t : tm) (c : conv) : string :=
  match c with
  | CLit c => String c ""
  | CYear => intToString (tm_year t + 1900) false
  | CMon => pad2 (tm_mon t + 1)
  | CDay => pad2 (tm_mday t)
  | CHour => pad2 (tm_hour t)
  | CMin => pad2 (tm_min t)
  | CSec => pad2 (tm_sec t)
  | CZone => print_zone (tm_gmtoff t)
  | CWdayName => default "?" (wday_names !! Z.to_nat (tm_wday t))
  | CMonName => default "?" (month_names !! Z.to_nat (tm_mon t))
  end.

Fixpoint print_convs (t : tm) (l : list conv) : string :=
  match l with [] => "" | c :: l => print_conv t c +:+ print_convs t l end.

(** [strftime(buf, max, fmt, &t)]: a text that does not fit with its
    terminator leaves the buffer undefined. *)
Definition strftime (max : nat) (fmt : string) (t : tm) : res string :=
  let s := print_convs t (conversions fmt) in
  if (slen s <? max)%nat then Ok s else Throw (UndefinedBehaviour "strftime: buffer").

(** A number of at most [n] digits and at most [hi]: reading stops at a digit
    that would exceed it. *)
Fixpoint get_digits (hi : Z) (n : nat) (val : Z) (s : string) : Z * string :=
  match n, s with
  | S n, String c s' =>
    match digit_value c with
    | Some v => if (v <? 10) && (val * 10 <=? hi) then get_digits hi n (val * 10 + v) s' else (val, s)
    | None => (val, s)
    end
  | _, _ => (val, s)
  end.

Fixpoint skip_blanks (s : string) : string :=
  match s with String " " s' => skip_blanks s' | _ => s end.

Definition get_number (lo hi : Z) (n : nat) (s : string) : option (Z * string) :=
  match skip_blanks s with
  | String c s' =>
    match digit_value c with
    | Some v =>
      if v <? 10 then
        let '(val, rest) := get_digits hi (pred n) v s' in
        if (lo <=? val) && (val <=? hi) then Some (val, rest) else None
      else None
    | None => None
    end
  | EmptyString => None
  end.

(** The colon after the second digit of [%z]; [colon] tells whether it is
    skipped, which C libraries differ in. *)
Definition skip_colon (colon : bool) (n : nat) (s : string) : string :=
  match s with
  | String ":" (String d r) => if colon && (Nat.eqb n 2 && is_digit_of 10 d) then String d r else s
  | _ => s
  end.

(** The digits of [%z], at most four. *)
Fixpoint zone_digits (colon : bool) (fuel n : nat) (val : Z) (s : string) : Z * nat * string :=
  match fuel, s with
  | S fuel, String c s' =>
    match digit_value c with
    | Some v =>
      if v <? 10 then zone_digits colon fuel (S n) (val * 10 + v) (skip_colon colon (S n) s')
      else (val, n, s)
    | None => (val, n, s)
    end
  | _, _ => (val, n, s)
  end.

Definition get_zone (colon : bool) (s : string) : option (Z * string) :=
  match skip_space s with
  | String c s' =>
    if Ascii.eqb c "Z" then Some (0, s')
    else if Ascii.eqb c "+" || Ascii.eqb c "-" then
      let '(val, n, rest) := zone_digits colon 4 0 0 s' in
      let off v := if Ascii.eqb c "-" then - v else v in
      if Nat.eqb n 2 then Some (off (val * 3600), rest)
      else if negb (Nat.eqb n 4) || (60 <=? val mod 100) then None
      else Some (off (val / 100 * 3600 + val mod 100 * 60), rest)
    else None
  | EmptyString => None
  end.

Definition scan_conv (colon : bool) (c : conv) (t : tm) (s : string) : option (tm * string) :=
  let number lo hi n (set : Z -> tm -> tm) :=
    match get_number lo hi n s with Some (v, s) => Some (set v t, s) | None => None end in
  match c with
  | CLit c =>
    if isspace c then Some (t, skip_space s)
    else match s with
         | String c' s' => if Ascii.eqb c c' then Some (t, s') else None
         | EmptyString => None
         end
  | CYear => number 0 9999 4%nat (fun v => set_year (v - 1900))
  | CMon => number 1 12 2%nat (fun v => set_mon (v - 1))
  | CDay => number 1 31 2%nat set_mday
  | CHour => number 0 23 2%nat set_hour
  | CMin => number 0 59 2%nat set_min
  | CSec => number 0 61 2%nat set_sec
  | CZone => match get_zone colon s with Some (v, s) => Some (set_gmtoff v t, s) | None => None end
  | CWdayName | CMonName => None (* the sources only print these *)
  end.

Fixpoint scan_convs (colon : bool) (l : list conv) (t : tm) (s : string) : option (tm * string) :=
  match l with
  | [] => Some (t, s)
  | c :: l => match scan_conv colon c t s with Some (t, s) => scan_convs colon l t s | None => None end
  end.

(** [strptime(s, fmt, &t)]: the fields read and the end pointer. *)
Definition strptime (colon : bool) (s fmt : string) (t : tm) : option (tm * string) :=
  scan_convs colon (conversions fmt) t s.

(** ** Reading back what was printed *)

Lemma digit_cases c v : digit_value c = Some v -> v < 10 -> isspace c = false /\ c <> " "%char /\ c <> ":"%char.
Proof.
  intros H Hv. assert (48 <= byte_of c <= 57) as Hb.
  { unfold digit_value in H. repeat (case_cond; [reflect_bools; injection H as <-; lia|]). done. }
  repeat split; [|by intros ->..].
  unfold isspace. apply orb_false_iff. split; [apply Z.eqb_neq; lia|apply andb_false_iff; right; apply Z.leb_gt; lia].
Qed.

Lemma digit_char_10 v : 0 <= v <= 9 ->
  digit_value (digit_char v) = Some v /\ isspace (digit_char v) = false /\
  digit_char v <> " "%char /\ digit_char v <> ":"%char.
Proof.
  intros H. pose proof (digit_value_char v ltac:(lia)) as E.
  split; [done|]. by apply (digit_cases _ v); [|lia].
Qed.

Lemma skip_blanks_id c s : c <> " "%char -> skip_blanks (String c s) = String c s.
Proof. intros H. cbn. repeat (case_cond; try done). Qed.

Lemma get_number_pad2 lo hi v rest :
  lo <= v <= hi -> 0 <= v <= 99 -> get_number lo hi 2 (pad2 v +:+ rest) = Some (v, rest).
Proof.
  intros Hr Hv. pose proof (Z.div_mod v 10 ltac:(lia)) as E.
  destruct (digit_char_10 (v / 10)) as (E1 & _ & N1 & _); [Z.to_euclidean_division_equations; lia|].
  destruct (digit_char_10 (v mod 10)) as (E2 & _); [Z.to_euclidean_division_equations; lia|].
  unfold get_number, pad2. change (String ?a (String ?b "") +:+ rest) with (String a (String b rest)).
  rewrite skip_blanks_id, E1 by done. cbn [pred get_digits]. rewrite E2.
  rewrite (proj2 (Z.ltb_lt (v / 10) 10)), (proj2 (Z.ltb_lt (v mod 10) 10)), (proj2 (Z.leb_le (v / 10 * 10) hi))
    by (Z.to_euclidean_division_equations; lia).
  cbn [andb]. replace (v / 10 * 10 + v mod 10) with v by lia.
  by rewrite (proj2 (Z.leb_le lo v)), (proj2 (Z.leb_le v hi)) by lia.
Qed.

Lemma intToString_4 y : 1000 <= y <= 9999 ->
  intToString y false = pad2 (y / 100) +:+ pad2 (y mod 100).
Proof.
  intros H. unfold intToString. rewrite (proj2 (Z.ltb_ge y 0)) by lia.
  unfold print_number. change 19%nat with (S (S (S (S 15)))). cbn [print_digits].
  rewrite !Z.div_div by lia. change (10 * 10) with 100. change (100 * 10) with 1000. change (1000 * 10) with 10000.
  rewrite (proj2 (Z.eqb_neq (y / 10) 0)), (proj2 (Z.eqb_neq (y / 100) 0)), (proj2 (Z.eqb_neq (y / 1000) 0)),
    (proj2 (Z.eqb_eq (y / 10000) 0)) by (Z.to_euclidean_division_equations; lia).
  replace ((y / 1000) mod 10) with (y / 100 / 10) by (Z.to_euclidean_division_equations; lia).
  replace ((y / 10) mod 10) with (y mod 100 / 10) by (Z.to_euclidean_division_equations; lia).
  by replace (y mod 10) with ((y mod 100) mod 10) by (Z.to_euclidean_division_equations; lia).
Qed.

Lemma get_number_year y rest : 1000 <= y <= 9999 ->
  get_number 0 9999 4 (intToString y false +:+ rest) = Some (y, rest).
Proof.
  intros H. rewrite intToString_4 by done.
  destruct (digit_char_10 (y / 100 / 10)) as (E1 & _ & N1 & _); [Z.to_euclidean_division_equations; lia|].
  destruct (digit_char_10 (y / 100 mod 10)) as (E2 & _); [Z.to_euclidean_division_equations; lia|].
  destruct (digit_char_10 (y mod 100 / 10)) as (E3 & _); [Z.to_euclidean_division_equations; lia|].
  destruct (digit_char_10 (y mod 100 mod 10)) as (E4 & _); [Z.to_euclidean_division_equations; lia|].
  unfold get_number, pad2.
  change ((String ?a (String ?b "") +:+ String ?c (String ?d "")) +:+ rest)
    with (String a (String b (String c (String d rest)))).
  rewrite skip_blanks_id, E1 by done. cbn [pred get_digits]. rewrite E2, E3, E4.
  repeat rewrite (proj2 (Z.ltb_lt _ 10)) by (Z.to_euclidean_division_equations; lia).
  repeat rewrite (proj2 (Z.leb_le _ 9999)) by (Z.to_euclidean_division_equations; lia).
  cbn [andb].
  replace (((y / 100 / 10 * 10 + (y / 100) mod 10) * 10 + y mod 100 / 10) * 10 + (y mod 100) mod 10) with y
    by (Z.to_euclidean_division_equations; lia).
  rewrite (proj2 (Z.leb_le 0 y)), (proj2 (Z.leb_le y 9999)) by lia. done.
Qed.

(** The fields of [t] that reading [c] sets. *)
Definition assign_conv (t : tm) (c : conv) (t0 : tm) : tm :=
  match c with
  | CYear => set_year (tm_year t) t0
  | CMon => set_mon (tm_mon t) t0
  | CDay => set_mday (tm_mday t) t0
  | CHour => set_hour (tm_hour t) t0
  | CMin => set_min (tm_min t) t0
  | CSec => set_sec (tm_sec t) t0
  | CZone => set_gmtoff (tm_gmtoff t) t0
  | _ => t0
  end.

Fixpoint assign_convs (t : tm) (l : list conv) (t0 : tm) : tm :=
  match l with [] => t0 | c :: l => assign_convs t l (assign_conv t c t0) end.

(** Reading needs no separators: numbers have fixed widths. *)
Definition readable (c : conv) : bool :=
  match c with CLit c => negb (isspace c) | CWdayName | CMonName => false | _ => true end.

(** Four-digit years, and zones of whole minutes up to a day. *)
Definition printable (t : tm) : Prop :=
  in_ranges t /\ 1000 <= tm_year t + 1900 <= 9999 /\ tm_gmtoff t mod 60 = 0 /\ Z.abs (tm_gmtoff t) < 86400.

Lemma zone_digits_step colon fuel n val v s : 0 <= v <= 9 ->
  zone_digits colon (S fuel) n val (String (digit_char v) s) =
  zone_digits colon fuel (S n) (val * 10 + v) (skip_colon colon (S n) s).
Proof.
  intros Hv. cbn [zone_digits]. destruct (digit_char_10 v Hv) as [-> _].
  by rewrite (proj2 (Z.ltb_lt v 10)) by lia.
Qed.

Lemma skip_colon_id colon n s : n <> 2%nat \/ char_at s 0 <> Some ":"%char -> skip_colon colon n s = s.
Proof.
  intros Hn. destruct s as [|c s]; [done|]. destruct (ascii_dec c ":") as [-> | Hc].
  - destruct Hn as [Hn|Hn]; [|done]. apply Nat.eqb_neq in Hn. destruct s as [|d r]; [done|]. cbn.
    by rewrite Hn, andb_false_r.
  - destruct c as [[] [] [] [] [] [] [] []]; done.
Qed.

(** The sign and the digits of a zone. *)
Lemma get_zone_sign colon (neg : bool) s :
  get_zone colon (String (if neg then "-"%char else "+"%char) s) =
  let '(val, n, rest) := zone_digits colon 4 0 0 s in
  let off v := if neg then - v else v in
  if Nat.eqb n 2 then Some (off (val * 3600), rest)
  else if negb (Nat.eqb n 4) || (60 <=? val mod 100) then None
  else Some (off (val / 100 * 3600 + val mod 100 * 60), rest).
Proof. by destruct neg. Qed.

Lemma zone_fields off : off mod 60 = 0 -> Z.abs off < 86400 ->
  let m := Z.abs off / 60 in
  exists a b c d, 0 <= a <= 9 /\ 0 <= b <= 9 /\ 0 <= c <= 5 /\ 0 <= d <= 9 /\
    m / 60 / 10 = a /\ (m / 60) mod 10 = b /\ m mod 60 / 10 = c /\ (m mod 60) mod 10 = d /\
    m / 60 = a * 10 + b /\ m mod 60 = c * 10 + d /\ Z.abs off = ((a * 10 + b) * 60 + c * 10 + d) * 60.
Proof.
  intros Hm Hr. cbv zeta. do 4 eexists.
  repeat split; try reflexivity; Z.to_euclidean_division_equations; lia.
Qed.

Lemma get_zone_print colon off rest : off mod 60 = 0 -> Z.abs off < 86400 ->
  get_zone colon (print_zone off +:+ rest) = Some (off, rest).
Proof.
  intros Hm Hr. destruct (zone_fields off Hm Hr) as (a & b & c & d & Ha & Hb & Hc & Hd & Ea & Eb & Ec & Ed & _ & _ & E).
  unfold print_zone, pad2. rewrite Ea, Eb, Ec, Ed.
  change (get_zone colon _) with (get_zone colon (String (if off <? 0 then "-"%char else "+"%char)
    (String (digit_char a) (String (digit_char b) (String (digit_char c) (String (digit_char d) rest)))))).
  rewrite get_zone_sign.
  do 4 (rewrite zone_digits_step by lia;
        rewrite skip_colon_id by ((left; lia) || (right; intros [= E']; by apply (digit_char_10 c ltac:(lia))))).
  replace (zone_digits colon 0 4 _ rest) with ((((0 * 10 + a) * 10 + b) * 10 + c) * 10 + d, 4%nat, rest) by (by destruct rest).
  set (v := (((0 * 10 + a) * 10 + b) * 10 + c) * 10 + d).
  assert (v / 100 = a * 10 + b /\ v mod 100 = c * 10 + d) as [E1 E2]
    by (unfold v; Z.to_euclidean_division_equations; lia).
  cbn [Nat.eqb negb orb]. rewrite E1, E2, (proj2 (Z.leb_gt 60 _)) by lia.
  do 2 f_equal. destruct (Z.ltb_spec off 0); lia.
Qed.

(** The zone as it is written with a colon. *)
Definition zone_text (offset : Z) : string :=
  let m := Z.abs offset / 60 in
  String (if offset <? 0 then "-"%char else "+"%char) (pad2 (m / 60) +:+ ":" +:+ pad2 (m mod 60)).

(** What is read from that: without the minutes, unless the C library reads
    the colon. *)
Lemma get_zone_text colon off : off mod 60 = 0 -> Z.abs off < 86400 ->
  get_zone colon (zone_text off) =
  if colon then Some (off, "")
  else Some ((if off <? 0 then -1 else 1) * (Z.abs off / 3600 * 3600), ":" +:+ pad2 (Z.abs off / 60 mod 60)).
Proof.
  intros Hm Hr. destruct (zone_fields off Hm Hr) as (a & b & c & d & Ha & Hb & Hc & Hd & Ea & Eb & Ec & Ed & _ & _ & E).
  unfold zone_text, pad2. rewrite Ea, Eb, Ec, Ed.
  change (get_zone colon _) with (get_zone colon (String (if off <? 0 then "-"%char else "+"%char)
    (String (digit_char a) (String (digit_char b) (String ":" (String (digit_char c) (String (digit_char d) ""))))))).
  rewrite get_zone_sign, zone_digits_step, skip_colon_id, zone_digits_step by (lia || left; lia).
  assert (E1 : (a * 10 + b) * 60 + c * 10 + d = Z.abs off / 60) by (rewrite E; Z.to_euclidean_division_equations; lia).
  destruct colon; unfold skip_colon; cbn [andb Nat.eqb].
  - unfold is_digit_of. destruct (digit_char_10 c ltac:(lia)) as [-> _]. rewrite (proj2 (Z.ltb_lt c 10)) by lia.
    do 2 (rewrite zone_digits_step by lia; rewrite skip_colon_id by (left; lia)). cbn [zone_digits].
    set (v := (((0 * 10 + a) * 10 + b) * 10 + c) * 10 + d).
    assert (v / 100 = a * 10 + b /\ v mod 100 = c * 10 + d) as [E2 E3]
      by (unfold v; Z.to_euclidean_division_equations; lia).
    cbn [Nat.eqb negb orb]. rewrite E2, E3, (proj2 (Z.leb_gt 60 _)) by lia.
    do 2 f_equal. destruct (Z.ltb_spec off 0); lia.
  - cbn. do 2 f_equal. destruct (Z.ltb_spec off 0); Z.to_euclidean_division_equations; lia.
Qed.

Lemma scan_print_conv colon t c t0 rest : printable t -> readable c = true ->
  scan_conv colon c t0 (print_conv t c +:+ rest) = Some (assign_conv t c t0, rest).
Proof.
  intros ([] & Hy & Hz & Hz') Hc. destruct c; cbn [readable] in Hc; try done; cbn [scan_conv print_conv assign_conv].
  - apply negb_true_iff in Hc. rewrite Hc. cbn. by rewrite Ascii.eqb_refl.
  - rewrite get_number_year by lia. do 3 f_equal; lia.
  - rewrite get_number_pad2 by lia. do 3 f_equal; lia.
  - by rewrite get_number_pad2 by lia.
  - by rewrite get_number_pad2 by lia.
  - by rewrite get_number_pad2 by lia.
  - by rewrite get_number_pad2 by lia.
  - by rewrite get_zone_print.
Qed.

(** What was printed with a readable format is read back up to its end. *)
Lemma scan_print_convs colon t l t0 rest : printable t -> forallb readable l = true ->
  scan_convs colon l t0 (print_convs t l +:+ rest) = Some (assign_convs t l t0, rest).
Proof.
  intros Ht. revert t0. induction l as [|c l IH]; intros t0 Hl; [done|].
  cbn in Hl. apply andb_true_iff in Hl as [Hc Hl]. cbn [scan_convs print_convs assign_convs].
  rewrite app_assoc_s, scan_print_conv by done. by apply IH.
Qed.

Lemma strptime_strftime colon max fmt t t0 s :
  printable t -> forallb readable (conversions fmt) = true -> strftime max fmt t = Ok s ->
  strptime colon s fmt t0 = Some (assign_convs t (conversions fmt) t0, "").
Proof.
  intros Ht Hf H. unfold strftime in H. case_cond; [|done]. injection H as <-. unfold strptime.
  pose proof (scan_print_convs colon t (conversions fmt) t0 "" Ht Hf) as E.
  by rewrite app_nil_r_s in E.
Qed.

Lemma slen_print_year y : 1000 <= y <= 9999 -> slen (intToString y false) = 4%nat.
Proof. intros H. by rewrite intToString_4. Qed.
