(* ===== verification/Encoding.v ===== *)
(** [src/src/base.cpp]: replacing, URL decoding, UTF-8 truncation and XML
    escaping. *)
From stdpp Require Import base option list strings gmap.
From Stdlib Require Import ZArith Lia Ascii.
From Stdlib Require String.
From S2P Require Import Prelude CxxString Base NumConv.

Open Scope Z_scope.

(** * [replaceAll] *)

(** [s.find(a, pos)] for a string [a]. *)
Fixpoint sfind_str (a s : string) : option nat :=
  if String.eqb (stake (slen a) s) a then Some O
  else match s with
       | EmptyString => None
       | String _ s => S <$> sfind_str a s
       end.

Definition find_str_from (a s : string) (pos : nat) : option nat :=
  if (pos <=? slen s)%nat then (fun i => (pos + i)%nat) <$> sfind_str a (sdrop pos s) else None.

(** [None] when the fuel runs out, as the loop never ends for an empty [a]
    and a nonempty [b]. *)
Fixpoint replaceAll_loop (fuel : nat) (s a b : string) (i : option nat) : option string :=
  match fuel with
  | O => None
  | S fuel =>
    match i with
    | None => Some s
    | Some i =>
      let s := stake i s +:+ b +:+ sdrop (i + slen a) s in
      replaceAll_loop fuel s a b (find_str_from a s (i + slen b))
    end
  end.

Definition replaceAll (s a b : string) : string :=
  default s (replaceAll_loop (S (slen s)) s a b (find_str_from a s 0)).

(** * [urlDecode] *)

Fixpoint urlDecode_loop (fuel : nat) (_in : string) (result : string) (lastPos : nat)
    (pos : option nat) : option string :=
  match fuel with
  | O => None
  | S fuel =>
    let finish :=
      if (lastPos <? slen _in)%nat
      then result +:+ replaceAll (sdrop lastPos _in) "+" " "
      else result in
    match pos with
    | Some p =>
      if (p + 2 <? slen _in)%nat then
        let result := if Nat.eqb lastPos p then result
                      else result +:+ replaceAll (substr _in lastPos (p - lastPos)) "+" " " in
        let hex := substr _in (p + 1) 2 in
        let '(tmp, ptr) := strtol (c_str hex) 16 in
        if negb (is_empty ptr) then Some _in
        else urlDecode_loop fuel _in (result +:+ String (char_of tmp) "") (p + 3)
               (find_from "%" _in (p + 3))
      else Some finish
    | None => Some finish
    end
  end.

Definition urlDecode (_in : string) : string :=
  default _in (urlDecode_loop (S (slen _in)) _in "" 0 (find_from "%" _in 0)).

(** Percent-encoding (RFC 3986) with an arbitrary set of characters kept as
    they are, the inverse of [urlDecode]; upper-case digits. *)
Definition upper_hex (v : Z) : ascii := char_of (if v <? 10 then 48 + v else 55 + v).

Fixpoint percent_encode (keep : ascii -> bool) (s : string) : string :=
  match s with
  | EmptyString => EmptyString
  | String c s =>
    if keep c then String c (percent_encode keep s)
    else String "%" (String (upper_hex (byte_of c / 16))
           (String (upper_hex (byte_of c mod 16)) (percent_encode keep s)))
  end.

(** * [truncateUTF8String] *)

Definition has_bits (mask cmp : Z) (c : ascii) : bool := Z.land (byte_of c) mask =? cmp.

(** The [while] loop that steps back over continuation bytes. *)
Fixpoint rewind_utf8 (buffer : string) (pos : nat) : nat :=
  match pos with
  | O => O
  | S pos' => match char_at buffer pos with
              | Some c => if has_bits 192 128 c then rewind_utf8 buffer pos' else pos
              | None => pos
              end
  end.

(** The [switch] on [skippedBytes]: mask and expected bits of the start byte. *)
Definition utf8_mask (skippedBytes : nat) : Z * Z :=
  switch (Z.of_nat skippedBytes)
    [([6], (254, 252)); ([5], (252, 248)); ([4], (248, 240)); ([3], (240, 224)); ([2], (224, 192))]
    (255, 255).

Definition truncateUTF8String (_in : string) (_maxBytes : nat) : string :=
  if Nat.eqb _maxBytes 0 then ""
  else if (slen _in <=? _maxBytes)%nat then _in
  else
    let buffer := c_str (stake _maxBytes _in) in
    let len := slen buffer in
    if Nat.eqb len _maxBytes then
      match char_at buffer (_maxBytes - 1) with
      | Some last =>
        if has_bits 128 128 last then
          let pos := rewind_utf8 buffer (_maxBytes - 1) in
          let skippedBytes := (len - pos)%nat in
          let '(mask, compareTo) := utf8_mask skippedBytes in
          if negb (mask =? 255) then
            match char_at buffer pos with
            | Some c => if has_bits mask compareTo c then buffer else stake pos buffer
            | None => buffer
            end
          else stake pos buffer
        else buffer
      | None => buffer
      end
    else buffer.

(** * [XMLStringEscape] *)

(** [*ptr] is a signed char: bytes from 128 are negative and never control codes. *)
Definition is_xml_control (c : ascii) : bool :=
  let b := byte_of c in
  ((b <=? 31) && negb (b =? 9) && negb (b =? 13) && negb (b =? 10)) || (b =? 127).

(** The loop over the NUL-terminated string.  In the control-code branch the
    pointer moves twice, so the character after the code is skipped; after a
    final control code the loop reads behind the terminator. *)
Fixpoint xmlEscape_loop (ptr : string) : res string :=
  match ptr with
  | EmptyString => Ok EmptyString
  | String c rest =>
    let continue (out : string) := r ← xmlEscape_loop rest; Ok (out +:+ r) in
    if Ascii.eqb c "<" then continue "&lt;"
    else if Ascii.eqb c ">" then continue "&gt;"
    else if Ascii.eqb c "&" then continue "&amp;"
    else if byte_of c =? 34 then continue "&quot;"
    else if Ascii.eqb c "'" then continue "&apos;"
    else if is_xml_control c then
      let ch := byte_of c in
      let out := "&#" +:+ String (char_of (ch / 10 + 48)) (String (char_of (ch mod 10 + 48)) ";") in
      match rest with
      | EmptyString => Throw (UndefinedBehaviour "XMLStringEscape: read behind the terminator")
      | String _ rest' => r ← xmlEscape_loop rest'; Ok (out +:+ r)
      end
    else continue (String c "")
  end.

Section XMLStringEscape.
(** [StringConverter("UTF-8", "UTF-8").convert] (iconv): whether it accepts the string. *)
Context (valid_utf8 : string -> bool).

Definition XMLStringEscape (str : string) : res string :=
  if valid_utf8 str then xmlEscape_loop (c_str str) else Ok "".
End XMLStringEscape.

(** * [urlDecode] as a left-to-right scan *)

Fixpoint plus_to_space (s : string) : string :=
  match s with
  | EmptyString => EmptyString
  | String c s => String (if Ascii.eqb "+" c then " " else c)%char (plus_to_space s)
  end.

(** [None] for a malformed escape, which makes [urlDecode] return its input. *)
Fixpoint url_scan (s : string) : option string :=
  match s with
  | EmptyString => Some EmptyString
  | String c s' =>
    if Ascii.eqb "%" c then
      match s' with
      | String a (String b s'') =>
        let '(v, rest) := strtol (c_str (String a (String b ""))) 16 in
        if is_empty rest then String (char_of v) <$> url_scan s'' else None
      | _ => Some (String c (plus_to_space s'))
      end
    else String (if Ascii.eqb "+" c then " " else c)%char <$> url_scan s'
  end.

Lemma sfind_str_char c s : sfind_str (String c "") s = sfind c s.
Proof.
  induction s as [|d s IH]; [done|]. simpl. rewrite <- IH.
  destruct (Ascii.eqb_spec c d) as [->|Hne].
  - by rewrite Ascii.eqb_refl.
  - destruct (Ascii.eqb_spec d c); [congruence|done].
Qed.

Lemma find_str_from_app c a s :
  find_str_from (String c "") (a +:+ s) (slen a) = (fun i => (slen a + i)%nat) <$> sfind c s.
Proof.
  unfold find_str_from. rewrite slen_app, sdrop_app, sfind_str_char.
  destruct (Nat.leb_spec (slen a) (slen a + slen s)); [done|lia].
Qed.

Lemma plus_to_space_app a b : plus_to_space (a +:+ b) = plus_to_space a +:+ plus_to_space b.
Proof. induction a; simpl; congruence. Qed.

Lemma plus_to_space_id a : sexists (Ascii.eqb "+") a = false -> plus_to_space a = a.
Proof.
  induction a as [|c a IH]; [done|]. cbn [sexists plus_to_space].
  intros [-> Ha]%orb_false_iff. by rewrite IH.
Qed.

Lemma replaceAll_loop_plus fuel pre rest :
  (slen rest < fuel)%nat ->
  replaceAll_loop fuel (pre +:+ rest) "+" " " (find_str_from "+" (pre +:+ rest) (slen pre)) =
    Some (pre +:+ plus_to_space rest).
Proof.
  revert pre rest. induction fuel as [|fuel IH]; intros pre rest Hf; [lia|].
  rewrite find_str_from_app. destruct (sfind "+" rest) as [n|] eqn:E.
  - apply sfind_Some in E as (a & b & -> & <- & Ha). rewrite slen_app in Hf. simpl in Hf.
    cbn [fmap option_fmap option_map replaceAll_loop]. rewrite <- slen_app.
    replace (pre +:+ a +:+ String "+" b) with ((pre +:+ a) +:+ String "+" b) by apply app_assoc_s.
    rewrite stake_app, sdrop_app_add. simpl sdrop.
    replace ((pre +:+ a) +:+ " " +:+ b) with ((pre +:+ a +:+ " ") +:+ b)
      by (rewrite <- !app_assoc_s; reflexivity).
    replace (slen (pre +:+ a) + slen " ")%nat with (slen (pre +:+ a +:+ " "))
      by (rewrite !slen_app; simpl; lia).
    rewrite IH by lia. rewrite plus_to_space_app, (plus_to_space_id a) by done.
    by rewrite !app_assoc_s.
  - simpl. apply sfind_None in E. by rewrite plus_to_space_id.
Qed.

Lemma replaceAll_plus s : replaceAll s "+" " " = plus_to_space s.
Proof.
  unfold replaceAll. pose proof (replaceAll_loop_plus (S (slen s)) "" s ltac:(lia)) as H.
  change (find_str_from "+" s 0) with (find_str_from "+" ("" +:+ s) (slen "")).
  change (replaceAll_loop (S (slen s)) s) with (replaceAll_loop (S (slen s)) ("" +:+ s)).
  by rewrite H.
Qed.

Lemma url_scan_plain a b :
  sexists (Ascii.eqb "%") a = false ->
  url_scan (a +:+ b) = String.append (plus_to_space a) <$> url_scan b.
Proof.
  induction a as [|c a IH]; [intros _; simpl; by destruct (url_scan b)|].
  cbn [sexists String.append plus_to_space url_scan]. intros [-> Ha]%orb_false_iff.
  rewrite IH by done. by destruct (url_scan b).
Qed.

Lemma urlDecode_loop_scan fuel pre rest result :
  (slen rest < fuel)%nat ->
  urlDecode_loop fuel (pre +:+ rest) result (slen pre) (find_from "%" (pre +:+ rest) (slen pre)) =
    Some match url_scan rest with Some r => result +:+ r | None => pre +:+ rest end.
Proof.
  revert pre rest result. induction fuel as [|fuel IH]; intros pre rest result Hf; [lia|].
  unfold find_from. rewrite sdrop_app.
  assert (forall r, url_scan rest = Some r -> r = plus_to_space rest ->
    (if (slen pre <? slen (pre +:+ rest))%nat
     then result +:+ replaceAll (sdrop (slen pre) (pre +:+ rest)) "+" " " else result) =
    match url_scan rest with Some r => result +:+ r | None => pre +:+ rest end) as Hfin.
  { intros r -> ->. rewrite sdrop_app, replaceAll_plus, slen_app.
    destruct (Nat.ltb_spec (slen pre) (slen pre + slen rest)); [done|].
    assert (rest = "") as -> by (apply slen_0; lia). by rewrite app_nil_r_s. }
  destruct (sfind "%" rest) as [n|] eqn:E; cbn [fmap option_fmap option_map urlDecode_loop].
  - apply sfind_Some in E as (a & b & -> & <- & Ha).
    destruct (Nat.ltb_spec (slen pre + slen a + 2) (slen (pre +:+ a +:+ String "%" b))) as [Hlt|Hge].
    + rewrite !slen_app in Hlt. rewrite slen_app in Hf. simpl in Hlt, Hf.
      destruct b as [|x [|y b]]; simpl in Hlt; [lia..|].
      rewrite url_scan_plain by done. cbn [url_scan]. cbn [Ascii.eqb Bool.eqb].
      replace (substr (pre +:+ a +:+ String "%" (String x (String y b))) (slen pre + slen a + 1) 2)
        with (String x (String y "")).
      2:{ unfold substr. rewrite <- slen_app, <- app_assoc_s, sdrop_app_add. simpl.
          by destruct b. }
      destruct (strtol _ 16) as [v r] eqn:Es. destruct (is_empty r) eqn:Er; [|done].
      cbn [negb].
      set (result1 := if Nat.eqb (slen pre) (slen pre + slen a) then _ else _).
      assert (result1 = result +:+ plus_to_space a) as ->.
      { unfold result1. replace (slen pre + slen a - slen pre)%nat with (slen a) by lia.
        rewrite substr_mid, replaceAll_plus.
        destruct (Nat.eqb_spec (slen pre) (slen pre + slen a)); [|done].
        assert (a = "") as -> by (apply slen_0; lia). by rewrite app_nil_r_s. }
      specialize (IH (pre +:+ a +:+ String "%" (String x (String y ""))) b
        ((result +:+ plus_to_space a) +:+ String (char_of v) "") ltac:(simpl in Hf; lia)).
      rewrite !app_assoc_s in IH. cbn [String.append] in IH.
      replace (slen pre + slen a + 3)%nat
        with (slen (pre +:+ a +:+ String "%" (String x (String y ""))))
        by (rewrite !slen_app; simpl; lia).
      rewrite app_assoc_s. rewrite IH. destruct (url_scan b); simpl; [|done].
      by rewrite !app_assoc_s.
    + rewrite !slen_app in Hge. simpl in Hge. f_equal.
      apply (Hfin (plus_to_space (a +:+ String "%" b))); [|done].
      rewrite url_scan_plain, plus_to_space_app by done.
      destruct b as [|x [|y b]]; simpl in Hge; [done|done|lia].
  - apply sfind_None in E. f_equal. eapply Hfin; [|done].
    rewrite <- (app_nil_r_s rest) at 1. rewrite url_scan_plain by done. simpl.
    by rewrite app_nil_r_s.
Qed.

Lemma urlDecode_scan s : urlDecode s = default s (url_scan s).
Proof.
  unfold urlDecode. pose proof (urlDecode_loop_scan (S (slen s)) "" s "" ltac:(lia)) as H.
  cbn [String.append String.length] in H. rewrite H. by destruct (url_scan s).
Qed.

(** ** Round trip *)

Definition hex_ok (z : Z) : bool :=
  let '(v, r) := strtol (c_str (String (upper_hex (z / 16)) (String (upper_hex (z mod 16)) ""))) 16 in
  is_empty r && (v =? z).

Lemma hex_ok_byte z : 0 <= z < 256 -> hex_ok z = true.
Proof. apply (zrange_forall hex_ok 0 256). by_compute. Qed.

Lemma url_scan_percent_encode keep s :
  keep "%"%char = false -> keep "+"%char = false ->
  url_scan (percent_encode keep s) = Some s.
Proof.
  intros Hp Hq. induction s as [|c s IH]; [done|]. cbn [percent_encode].
  destruct (keep c) eqn:Ek.
  - cbn [url_scan]. destruct (Ascii.eqb_spec "%" c) as [<-|_]; [congruence|].
    destruct (Ascii.eqb_spec "+" c) as [<-|_]; [congruence|]. by rewrite IH.
  - cbn [url_scan]. cbn [Ascii.eqb Bool.eqb].
    pose proof (hex_ok_byte (byte_of c) (byte_of_range c)) as H. unfold hex_ok in H.
    destruct (strtol _ 16) as [v r]. apply andb_true_iff in H as [-> Hv].
    apply Z.eqb_eq in Hv as ->. rewrite IH. simpl. by rewrite char_of_byte_of.
Qed.

(** [urlDecode] inverts percent-encoding: whatever bytes a string holds
    and whichever characters the encoder leaves as they are (other than [%]
    and [+]), decoding the encoded text gives the string back. *)
Theorem urlDecode_percent_encode keep s :
  keep "%"%char = false -> keep "+"%char = false ->
  urlDecode (percent_encode keep s) = s.
Proof. intros H1 H2. by rewrite urlDecode_scan, url_scan_percent_encode. Qed.

Lemma urlDecode_percent_encode_witness :
  urlDecode (percent_encode (fun c => (97 <=? byte_of c) && (byte_of c <=? 122)) "a+b %/100") = "a+b %/100".
Proof. apply urlDecode_percent_encode; reflexivity. Defined.

(** * Truncation at UTF-8 character boundaries *)

(** The number of bytes the first byte of a character announces (0: none). *)
Definition utf8_lead (c : ascii) : nat :=
  if byte_of c =? 0 then 0
  else if byte_of c <? 128 then 1
  else if has_bits 224 192 c then 2
  else if has_bits 240 224 c then 3
  else if has_bits 248 240 c then 4
  else if has_bits 252 248 c then 5
  else if has_bits 254 252 c then 6
  else 0.

Definition is_cont (c : ascii) : bool := has_bits 192 128 c.

(** An encoded character: lead byte, then continuation bytes. *)
Definition utf8_char (w : string) : bool :=
  match w with
  | EmptyString => false
  | String c t => Nat.eqb (utf8_lead c) (slen w) && sforall is_cont t
  end.

Definition sconcat (ws : list string) : string := foldr String.append "" ws.

(** The longest prefix of whole characters of at most [max] bytes. *)
Fixpoint take_chars (max : nat) (ws : list string) : string :=
  match ws with
  | [] => ""
  | w :: ws => if (slen w <=? max)%nat then w +:+ take_chars (max - slen w) ws else ""
  end.

Definition lead_facts (z : Z) : bool :=
  let c := char_of z in
  let n := utf8_lead c in
  negb (is_cont c && (z =? 0)) && (negb (is_cont c) || has_bits 128 128 c) &&
  (if (2 <=? n)%nat then
     has_bits 128 128 c && negb (is_cont c) && negb (z =? 0) &&
     forallb (fun k => let '(mask, cmp) := utf8_mask k in
                       negb (mask =? 255) && Bool.eqb (has_bits mask cmp c) (Nat.eqb k n)) [2; 3; 4; 5; 6]%nat
   else negb (Nat.eqb n 1) || (negb (has_bits 128 128 c) && negb (z =? 0))) && (n <=? 6)%nat.

Lemma lead_facts_byte c : lead_facts (byte_of c) = true.
Proof.
  apply (zrange_forall lead_facts 0 256); [by_compute|]. apply byte_of_range.
Qed.

Lemma rewind_utf8_cont P c t rest :
  is_cont c = false -> sforall is_cont t = true ->
  rewind_utf8 (P +:+ String c (t +:+ rest)) (slen P + slen t) = slen P.
Proof.
  intros Hc. revert rest. induction (srev t) as [|d u IH] eqn:E in t |- *; intros rest Ht.
  - assert (t = "") as -> by (rewrite <- (srev_involutive t), E; done).
    simpl. rewrite Nat.add_0_r. destruct (slen P) eqn:Ep; [done|]. cbn [rewind_utf8].
    rewrite <- Ep, char_at_app_r. unfold is_cont in Hc. by rewrite Hc.
  - assert (t = srev u +:+ String d "") as -> by (rewrite <- (srev_involutive t), E; done).
    rewrite sforall_app, sforall_cons in Ht.
    apply andb_true_iff in Ht as [Ht [Hd _]%andb_true_iff].
    rewrite slen_app. simpl slen. replace (slen P + (slen (srev u) + 1))%nat
      with (S (slen P + slen (srev u))) by lia. cbn [rewind_utf8].
    replace (P +:+ String c ((srev u +:+ String d "") +:+ rest))
      with ((P +:+ String c (srev u)) +:+ String d rest)
      by (rewrite !app_assoc_s; done).
    replace (S (slen P + slen (srev u))) with (slen (P +:+ String c (srev u)))
      by (rewrite slen_app; simpl; lia).
    rewrite char_at_app_r. unfold is_cont in Hd. rewrite Hd.
    rewrite app_assoc_s. cbn [String.append]. apply IH; [|done]. apply srev_involutive.
Qed.

Lemma stake_app_l a b n : (n <= slen a)%nat -> stake n (a +:+ b) = stake n a.
Proof.
  revert n. induction a as [|c a IH]; intros [|n] H; simpl in *; try lia; try done.
  rewrite IH; [done|lia].
Qed.

Lemma sforall_stake p n t : sforall p t = true -> sforall p (stake n t) = true.
Proof.
  intros H. rewrite <- (stake_drop n t), sforall_app in H. by apply andb_true_iff in H as [? _].
Qed.

(** The last character behind a lead byte and continuation bytes. *)
Lemma last_in_char (P : string) c t (p : ascii -> bool) :
  p c = true -> sforall p t = true ->
  exists d, char_at (P +:+ String c t) (slen P + slen t) = Some d /\ p d = true.
Proof.
  intros Hc Ht. destruct (slast (String c t)) as [d|] eqn:E.
  - exists d. split.
    + pose proof (slast_app P c t) as H. rewrite E in H. rewrite <- H. unfold slast.
      rewrite slen_app. f_equal. simpl. lia.
    + assert (sforall p (String c t) = true) as Ha by (rewrite sforall_cons; by rewrite Hc).
      apply slast_Some in E as [a Ea]. rewrite Ea, sforall_app, sforall_cons in Ha.
      by apply andb_true_iff in Ha as [_ [? _]%andb_true_iff].
  - exfalso. clear -E. unfold slast, char_at in E. simpl in E. rewrite Nat.sub_0_r in E.
    revert c E. induction t as [|d t IH]; intros c E; simpl in *; [done|]. by apply (IH d).
Qed.

Lemma sforall_mono (p q : ascii -> bool) s :
  (forall c, p c = true -> q c = true) -> sforall p s = true -> sforall q s = true.
Proof.
  intros H. induction s as [|c s IH]; [done|]. rewrite !sforall_cons.
  intros [? ?]%andb_true_iff. apply andb_true_iff. auto.
Qed.

Lemma is_cont_high d : is_cont d = true -> has_bits 128 128 d = true.
Proof.
  intros Hd. pose proof (lead_facts_byte d) as Hf. unfold lead_facts in Hf.
  rewrite char_of_byte_of, Hd in Hf. repeat (apply andb_true_iff in Hf as [Hf ?]). done.
Qed.

(** What the lead byte of a character of at least two bytes satisfies. *)
Lemma lead_props c n :
  utf8_lead c = n -> (2 <= n)%nat ->
  (n <= 6)%nat /\ has_bits 128 128 c = true /\ is_cont c = false /\
  (forall k, (2 <= k <= 6)%nat ->
     (utf8_mask k).1 <> 255 /\ has_bits (utf8_mask k).1 (utf8_mask k).2 c = Nat.eqb k n).
Proof.
  intros Hl Hn. pose proof (lead_facts_byte c) as Hf. unfold lead_facts in Hf.
  rewrite char_of_byte_of, Hl in Hf. destruct (Nat.leb_spec 2 n); [|lia].
  apply andb_true_iff in Hf as [[_ Hf]%andb_true_iff H6]. apply Nat.leb_le in H6.
  apply andb_true_iff in Hf as [[[H1 H2]%andb_true_iff _]%andb_true_iff Hf].
  apply negb_true_iff in H2. rewrite forallb_forall in Hf. split_and!; [done..|].
  intros k Hk. assert (In k [2; 3; 4; 5; 6]%nat) as Hin.
  { destruct k as [|[|[|[|[|[|[|]]]]]]]; simpl; auto 10; lia. }
  specialize (Hf k Hin). destruct (utf8_mask k) as [mask cmp].
  apply andb_true_iff in Hf as [Hm ?%eqb_prop]. reflect_bools. done.
Qed.

(** What the function does with a buffer that ends inside or behind the
    character [String c t]. *)
Lemma truncate_in_char P c t rest j :
  utf8_char (String c t) = true -> (1 <= slen t)%nat -> (j <= slen t)%nat ->
  sexists (Ascii.eqb "000") (P +:+ String c t) = false ->
  rest <> "" \/ (j < slen t)%nat ->
  truncateUTF8String (P +:+ String c t +:+ rest) (slen P + S j) =
    if Nat.eqb j (slen t) then P +:+ String c t else P.
Proof.
  intros [Hl Ht]%andb_true_iff Hn Hj Hnul Hrest. apply Nat.eqb_eq in Hl.
  destruct (lead_props c _ Hl) as (Hn6 & Hhi & Hc & Hmask); [simpl; lia|]. simpl in Hn6.
  unfold truncateUTF8String. destruct (Nat.eqb_spec (slen P + S j) 0); [lia|].
  rewrite !slen_app. destruct (Nat.leb_spec (slen P + (slen (String c t) + slen rest)) (slen P + S j)).
  { simpl in *. destruct Hrest as [Hr|]; [|lia]. destruct rest; [done|simpl in *; lia]. }
  rewrite stake_app_add, stake_app_l by (simpl; lia). cbn [stake].
  assert (sforall is_cont (stake j t) = true) as Ht' by by apply sforall_stake.
  assert (c_str (P +:+ String c (stake j t)) = P +:+ String c (stake j t)) as ->.
  { apply c_str_id. rewrite <- (stake_drop j t) in Hnul.
    replace (P +:+ String c (stake j t +:+ sdrop j t))
      with ((P +:+ String c (stake j t)) +:+ sdrop j t) in Hnul by by rewrite app_assoc_s.
    rewrite sexists_app in Hnul. by apply orb_false_iff in Hnul as [? _]. }
  rewrite slen_app. cbn [String.length]. rewrite slen_stake, Nat.min_l by done.
  rewrite Nat.eqb_refl. replace (slen P + S j - 1)%nat with (slen P + j)%nat by lia.
  assert (slen (stake j t) = j) as Ej by (rewrite slen_stake; lia).
  destruct (last_in_char P c (stake j t) (has_bits 128 128) Hhi) as (d & Hd & Hdb).
  { eapply sforall_mono; [|done]. apply is_cont_high. }
  rewrite Ej in Hd. rewrite Hd, Hdb.
  pose proof (rewind_utf8_cont P c (stake j t) "" Hc Ht') as Hr.
  rewrite Ej, app_nil_r_s in Hr. rewrite Hr.
  replace (slen P + S j - slen P)%nat with (S j) by lia. rewrite stake_app, char_at_app_r.
  destruct (decide (j = 0)%nat) as [->|Hj0].
  - change (utf8_mask 1) with (255, 255). cbn [Z.eqb Pos.eqb negb]. destruct (Nat.eqb_spec 0 (slen t)); [lia|done].
  - destruct (Hmask (S j)) as [H255 Hb]; [lia|]. destruct (utf8_mask (S j)) as [mask cmp].
    cbn [fst snd] in H255, Hb. apply Z.eqb_neq in H255 as ->. cbn [negb]. rewrite Hb. cbn [Nat.eqb String.length].
    destruct (Nat.eqb_spec j (slen t)) as [->|]; [by rewrite stake_all|done].
Qed.

Lemma sconcat_cons w ws : sconcat (w :: ws) = w +:+ sconcat ws.
Proof. done. Qed.

Lemma utf8_char_nonempty w : utf8_char w = true -> exists c t, w = String c t.
Proof. destruct w; [done|]. eauto. Qed.

(** A single byte is below 128; a character holds no NUL. *)
Lemma utf8_char_single c : utf8_char (String c "") = true -> has_bits 128 128 c = false.
Proof.
  intros [Hl _]%andb_true_iff. apply Nat.eqb_eq in Hl. simpl in Hl.
  pose proof (lead_facts_byte c) as Hf. unfold lead_facts in Hf.
  rewrite char_of_byte_of, Hl in Hf. cbn [Nat.leb Nat.eqb negb orb] in Hf.
  apply andb_true_iff in Hf as [[_ [? _]%andb_true_iff]%andb_true_iff _]. by apply negb_true_iff.
Qed.

Lemma utf8_char_no_nul w : utf8_char w = true -> sexists (Ascii.eqb "000") w = false.
Proof.
  destruct w as [|c t]; [done|]. intros [Hl Ht]%andb_true_iff. cbn [sexists].
  apply orb_false_iff. split.
  - destruct (Ascii.eqb_spec "000" c) as [<-|]; [|done]. by apply Nat.eqb_eq in Hl.
  - clear Hl. induction t as [|d t IH]; [done|]. rewrite sforall_cons in Ht.
    apply andb_true_iff in Ht as [Hd Ht]. cbn [sexists]. rewrite IH by done.
    destruct (Ascii.eqb_spec "000" d) as [<-|]; [by vm_compute in Hd|done].
Qed.

Lemma sconcat_no_nul ws :
  forallb utf8_char ws = true -> sexists (Ascii.eqb "000") (sconcat ws) = false.
Proof.
  induction ws as [|w ws IH]; [done|]. cbn [forallb]. intros [Hw Hws]%andb_true_iff.
  rewrite sconcat_cons, sexists_app, utf8_char_no_nul, IH by done. done.
Qed.

Lemma sconcat_snoc ws w : sconcat (ws ++ [w]) = sconcat ws +:+ w.
Proof.
  induction ws as [|v ws IH]; [apply app_nil_r_s|]. cbn [app].
  by rewrite !sconcat_cons, IH, app_assoc_s.
Qed.

Lemma take_chars_app us ws max :
  (slen (sconcat us) <= max)%nat ->
  take_chars max (us ++ ws) = sconcat us +:+ take_chars (max - slen (sconcat us)) ws.
Proof.
  revert max. induction us as [|u us IH]; intros max H; [by rewrite Nat.sub_0_r|].
  rewrite sconcat_cons in *. rewrite slen_app in *. cbn [app take_chars].
  destruct (Nat.leb_spec (slen u) max); [|lia]. rewrite IH by lia.
  rewrite app_assoc_s. do 3 f_equal. lia.
Qed.

(** The characters that fit, the one that does not, and the others. *)
Lemma split_chars max ws :
  (max < slen (sconcat ws))%nat ->
  exists us w vs, ws = us ++ w :: vs /\
    (slen (sconcat us) <= max < slen (sconcat us) + slen w)%nat.
Proof.
  revert max. induction ws as [|w ws IH]; intros max H; [simpl in H; lia|].
  rewrite sconcat_cons, slen_app in H. destruct (Nat.le_gt_cases (slen w) max).
  - destruct (IH (max - slen w)%nat) as (us & x & vs & -> & Hl); [lia|].
    exists (w :: us), x, vs. rewrite sconcat_cons, slen_app. split; [done|lia].
  - exists [], w, ws. simpl. split; [done|lia].
Qed.

(** Truncation exactly behind a character returns the characters before. *)
Lemma truncate_at_boundary us rest :
  forallb utf8_char us = true -> rest <> "" -> sexists (Ascii.eqb "000") (sconcat us +:+ rest) = false ->
  truncateUTF8String (sconcat us +:+ rest) (slen (sconcat us)) = sconcat us.
Proof.
  intros Hus Hrest Hnul. destruct (rev us) as [|u us'] eqn:E.
  { assert (us = []) as -> by (rewrite <- (rev_involutive us), E; done). done. }
  assert (us = rev us' ++ [u]) as -> by (rewrite <- (rev_involutive us), E; done).
  rewrite forallb_app in Hus. apply andb_true_iff in Hus as [_ Hu]. cbn [forallb] in Hu.
  rewrite andb_true_r in Hu. rewrite sconcat_snoc in *. set (P := sconcat (rev us')) in *.
  destruct (utf8_char_nonempty _ Hu) as (c & t & ->). rewrite slen_app. cbn [String.length].
  rewrite app_assoc_s in *. destruct (decide (t = "")) as [->|Ht].
  - unfold truncateUTF8String. rewrite !slen_app, stake_app_add. cbn [String.append stake String.length].
    destruct (Nat.eqb_spec (slen P + 1) 0) as [?|_]; [lia|].
    destruct (Nat.leb_spec (slen P + (1 + slen rest)) (slen P + 1)) as [?|_].
    { destruct rest; [done|simpl in *; lia]. }
    rewrite c_str_id.
    2:{ rewrite <- app_assoc_s, sexists_app in Hnul. by apply orb_false_iff in Hnul as [? _]. }
    rewrite slen_app. cbn [String.length]. rewrite Nat.eqb_refl.
    replace (slen P + 1 - 1)%nat with (slen P) by lia. rewrite char_at_app_r.
    by rewrite utf8_char_single.
  - rewrite truncate_in_char; [by rewrite Nat.eqb_refl|done| |lia| |by left].
    + destruct t; [done|simpl; lia].
    + rewrite <- app_assoc_s, sexists_app in Hnul. by apply orb_false_iff in Hnul as [? _].
Qed.

(** On well-formed UTF-8 text (a sequence of encoded characters of 1 to 6
    bytes) [truncateUTF8String] returns the longest sequence of whole
    characters that fits into the given number of bytes: it never cuts a
    character in two and never drops one that would fit. *)
Theorem truncateUTF8String_correct (ws : list string) (_maxBytes : nat) :
  forallb utf8_char ws = true ->
  truncateUTF8String (sconcat ws) _maxBytes = take_chars _maxBytes ws.
Proof.
  intros Hws. pose proof (sconcat_no_nul ws Hws) as Hnul.
  destruct (Nat.le_gt_cases (slen (sconcat ws)) _maxBytes) as [Hle|Hgt].
  { pose proof (take_chars_app ws [] _maxBytes Hle) as Ht.
    rewrite (app_nil_r ws) in Ht. simpl in Ht. rewrite app_nil_r_s in Ht. rewrite Ht.
    unfold truncateUTF8String. destruct (Nat.eqb_spec _maxBytes 0) as [->|].
    - symmetry. apply slen_0. lia.
    - by apply Nat.leb_le in Hle as ->. }
  destruct (split_chars _ _ Hgt) as (us & w & vs & -> & Hle & Hlt).
  rewrite take_chars_app by done. cbn [take_chars].
  destruct (Nat.leb_spec (slen w) (_maxBytes - slen (sconcat us))); [lia|].
  rewrite forallb_app in Hws. cbn [forallb] in Hws.
  apply andb_true_iff in Hws as [Hus [Hw Hvs]%andb_true_iff].
  assert (sconcat (us ++ w :: vs) = sconcat us +:+ w +:+ sconcat vs) as Ecat.
  { unfold sconcat at 1. rewrite foldr_app. fold (sconcat (w :: vs)). rewrite sconcat_cons.
    clear. induction us as [|u us IH]; [done|]. cbn [foldr]. by rewrite IH, sconcat_cons, app_assoc_s. }
  rewrite Ecat in *. rewrite app_nil_r_s.
  destruct (utf8_char_nonempty _ Hw) as (c & t & ->).
  destruct (decide (slen (sconcat us) = _maxBytes)) as [Heq|Hne].
  - rewrite <- Heq. apply truncate_at_boundary; [done|discriminate|done].
  - replace _maxBytes with (slen (sconcat us) + S (_maxBytes - slen (sconcat us) - 1))%nat by lia.
    simpl in Hlt. rewrite truncate_in_char; [|done|lia|lia| |right; lia].
    + destruct (Nat.eqb_spec (_maxBytes - slen (sconcat us) - 1) (slen t)); [lia|done].
    + rewrite <- app_assoc_s, sexists_app in Hnul. by apply orb_false_iff in Hnul as [? _].
Qed.

Lemma truncateUTF8String_correct_witness :
  truncateUTF8String (sconcat ["a"; String "195" (String "164" ""); "b"]) 2 = "a".
Proof.
  rewrite (truncateUTF8String_correct ["a"; String "195" (String "164" ""); "b"] 2 eq_refl). reflexivity.
Defined.
