(* ===== verification/Ds485types.v ===== *)
(** [src/src/ds485types.cpp]: dSUIDs and dSIDs as text.

    The type [dsuid_t], its size, its null value and its parser belong to
    libdsm-api; a dSUID is the list of its bytes. *)
From stdpp Require Import base option list strings.
From Stdlib Require Import ZArith Lia Ascii.
From Stdlib Require String.
From S2P Require Import Prelude CxxString Base NumConv.

Open Scope string_scope.
Open Scope Z_scope.

Definition dsuid_t := list Z.
Definition dsid_t := list Z.

(** What the code uses of [digitalSTROM/dsuid.h]. *)
Class Dsuid := {
  DSUID_SIZE : nat;
  DSUID_NULL : dsuid_t;
  dsuid_from_string : string -> option dsuid_t;
  dsuid_from_dsid : dsid_t -> dsuid_t;
  dsuid_get_serial_number : dsuid_t -> option Z;
  lib_dsuid_get_next_dsuid : dsuid_t -> option dsuid_t;
  lib_dsuid_to_dsid : dsuid_t -> option dsid_t
}.

(** [std::hex << std::setw(2) << std::setfill('0')] of a byte. *)
Definition hex2 (b : Z) : string := String (digit_char (b / 16)) (String (digit_char (b mod 16)) "").

Definition dsuid2str (dsuid : dsuid_t) : string := foldr (fun b s => hex2 b +:+ s) "" dsuid.

Definition dsid2str (dsid : dsid_t) : string := foldr (fun b s => hex2 b +:+ s) "" dsid.

(** One byte per pair of digits, read with [strtol]; a pair that is no number
    counts as 0. *)
Fixpoint str2dsid_loop (n : nat) (s : string) : dsid_t :=
  match n with
  | O => []
  | S n => wrapU 8 (fst (strtol (c_str (stake 2 s)) 16)) :: str2dsid_loop n (sdrop 2 s)
  end.

Definition str2dsid (dsid_str : string) : res dsid_t :=
  if negb (slen dsid_str =? 24)%nat then Throw (RuntimeError "can not convert from string, invalid dSID")
  else Ok (str2dsid_loop 12 dsid_str).

Section Library.
Context `{Dsuid}.

Definition str2dsuid (dsuid_str : string) : res dsuid_t :=
  match dsuid_from_string (c_str dsuid_str) with
  | Some d => Ok d
  | None => Throw (RuntimeError "can not convert from string, invalid dSUID")
  end.

Definition dsidOrDsuid2dsuid (dsidStr dsuidStr : string) : res dsuid_t :=
  if is_empty dsuidStr then dsid ← str2dsid dsidStr; Ok (dsuid_from_dsid dsid) else str2dsuid dsuidStr.

Definition dsuid2serial (dsuid : dsuid_t) : res Z :=
  match dsuid_get_serial_number dsuid with
  | Some serial => Ok serial
  | None => Throw (RuntimeError ("could not extract serial number from dSUID" +:+ dsuid2str dsuid))
  end.

Definition IsEvenDsuid (dsuid : dsuid_t) : res bool :=
  serial ← dsuid2serial dsuid; Ok (serial mod 2 =? 0).

(** The result and [*out]. *)
Definition dsuid_get_next_dsuid (dsuid : dsuid_t) : bool * dsuid_t :=
  match lib_dsuid_get_next_dsuid dsuid with Some d => (true, d) | None => (false, DSUID_NULL) end.

Definition dsuid_to_dsid (dsuid : dsuid_t) : bool * dsid_t :=
  match lib_dsuid_to_dsid dsuid with Some d => (true, d) | None => (false, repeat 0 12) end.
End Library.

(** * Facts *)

Definition is_byte (b : Z) : Prop := 0 <= b < 256.

Lemma read_hex2 b : is_byte b -> fst (strtol (c_str (hex2 b)) 16) = b.
Proof.
  intros Hb. apply (zrange_forall (fun b => fst (strtol (c_str (hex2 b)) 16) =? b) 0 256) in Hb; [by apply Z.eqb_eq|by_compute].
Qed.

Lemma hex2_inj a b : is_byte a -> is_byte b -> hex2 a = hex2 b -> a = b.
Proof. intros Ha Hb E. rewrite <- (read_hex2 a Ha), <- (read_hex2 b Hb). by rewrite E. Qed.

(** Different dSUIDs have different texts. *)
Lemma dsuid2str_inj a b : Forall is_byte a -> Forall is_byte b -> dsuid2str a = dsuid2str b -> a = b.
Proof.
  intros Ha. revert b. induction Ha as [|x a Hx Ha IH]; intros b Hb E; destruct Hb as [|y b Hy Hb]; try done.
  cbn [dsuid2str foldr] in E. assert (hex2 x = hex2 y /\ dsuid2str a = dsuid2str b) as [E1 E2].
  { unfold hex2 in *. cbn in E. injection E as -> -> E. done. }
  f_equal; [by apply hex2_inj|by apply IH].
Qed.

Lemma slen_dsid2str d : slen (dsid2str d) = (2 * length d)%nat.
Proof. induction d as [|b d IH]; [done|]. cbn [dsid2str foldr]. fold (dsid2str d). rewrite slen_app, IH. cbn. lia. Qed.

(** A dSID is read back from its text. *)
Lemma dsid_roundtrip d : length d = 12%nat -> Forall is_byte d -> str2dsid (dsid2str d) = Ok d.
Proof.
  intros Hl Hd. unfold str2dsid. rewrite slen_dsid2str, Hl. cbn [Nat.mul Nat.add Nat.eqb negb]. f_equal.
  rewrite <- Hl. clear Hl. induction Hd as [|b d Hb Hd IH]; [done|].
  cbn [length str2dsid_loop dsid2str foldr]. fold (dsid2str d).
  change (stake 2 (hex2 b +:+ dsid2str d)) with (hex2 b). change (sdrop 2 (hex2 b +:+ dsid2str d)) with (dsid2str d).
  rewrite read_hex2 by done. f_equal; [by apply Z.mod_small|done].
Qed.
