(* ===== verification/ModelConst.v ===== *)
(** [src/src/model/modelconst.h] and [modelconst.cpp]: scene, group and
    button numbers, the enumerations with their printed names and the
    classification of groups.

    A C++ [enum] can hold every value of its underlying type: next to the
    named enumerators each type here has a constructor [Other] for the
    remaining ones, which [static_cast] produces. *)
From stdpp Require Import base option list strings gmap.
From Stdlib Require Import ZArith Lia Ascii.
From Stdlib Require String.
From S2P Require Import Prelude CxxString NumConv.

Open Scope string_scope.
Open Scope Z_scope.

(** * Enumerations *)

(** What the conversions between an [enum] and its integer promise. *)
Class Enum (E : Type) := {
  enum_to_Z : E -> Z;
  enum_of_Z : Z -> E;
  enum_to_of : forall z, enum_to_Z (enum_of_Z z) = z
}.

(** [static_cast<E>(z)]: the enumerator of that value, if there is one. *)
Definition enum_find {E} (to_Z : E -> Z) (other : Z -> E) (named : list E) (z : Z) : E :=
  default (other z) (List.find (fun x => to_Z x =? z) named).

Lemma enum_find_correct {E} (to_Z : E -> Z) other (named : list E) :
  (forall z, to_Z (other z) = z) -> forall z, to_Z (enum_find to_Z other named z) = z.
Proof.
  intros Ho z. unfold enum_find. destruct (List.find _ named) as [x|] eqn:Hf; simpl; [|apply Ho].
  apply List.find_some in Hf as [_ Hf]. by apply Z.eqb_eq.
Qed.

(** [stream << static_cast<int>(x)] behind a name. *)
Definition print_enum {E} `{Enum E} (name : string) (x : E) : string :=
  name +:+ "(" +:+ intToString (enum_to_Z x) false +:+ ")".

Definition print_named {E} `{Enum E} (names : E -> option string) (x : E) : string :=
  print_enum (default "unknown" (names x)) x.

Module SensorType.
Inductive t :=
| ActivePower | OutputCurrent | ElectricMeter | TemperatureIndoors | TemperatureOutdoors
| BrightnessIndoors | BrightnessOutdoors | HumidityIndoors | HumidityOutdoors | AirPressure
| GustSpeed | GustDirection | WindSpeed | WindDirection | Precipitation | CO2Concentration
| COConcentration | SoundPressureLevel | RoomTemperatureSetpoint
| RoomTemperatureControlVariable | Status | Reserved1 | Reserved2 | OutputCurrent16A
| ActivePowerVA | NotUsed | UnknownType | Other (z : Z).
Definition to_Z (x : t) : Z :=
  match x with
  | ActivePower => 4 | OutputCurrent => 5 | ElectricMeter => 6 | TemperatureIndoors => 9
  | TemperatureOutdoors => 10 | BrightnessIndoors => 11 | BrightnessOutdoors => 12
  | HumidityIndoors => 13 | HumidityOutdoors => 14 | AirPressure => 15 | GustSpeed => 16
  | GustDirection => 17 | WindSpeed => 18 | WindDirection => 19 | Precipitation => 20
  | CO2Concentration => 21 | COConcentration => 22 | SoundPressureLevel => 25
  | RoomTemperatureSetpoint => 50 | RoomTemperatureControlVariable => 51 | Status => 60
  | Reserved1 => 61 | Reserved2 => 62 | OutputCurrent16A => 64 | ActivePowerVA => 65
  | NotUsed => 253 | UnknownType => 255 | Other z => z
  end.
Definition named : list t :=
  [ActivePower; OutputCurrent; ElectricMeter; TemperatureIndoors; TemperatureOutdoors;
   BrightnessIndoors; BrightnessOutdoors; HumidityIndoors; HumidityOutdoors; AirPressure;
   GustSpeed; GustDirection; WindSpeed; WindDirection; Precipitation; CO2Concentration;
   COConcentration; SoundPressureLevel; RoomTemperatureSetpoint;
   RoomTemperatureControlVariable; Status; Reserved1; Reserved2; OutputCurrent16A;
   ActivePowerVA; NotUsed; UnknownType].
Definition of_Z (z : Z) : t := enum_find to_Z Other named z.
#[global] Instance eq_dec : EqDecision t.
Proof. solve_decision. Defined.
#[global] Instance enum : Enum t := {|
  enum_to_Z := to_Z; enum_of_Z := of_Z;
  enum_to_of := enum_find_correct to_Z Other named (fun z => eq_refl) |}.
End SensorType.

Module StatusFieldType.
Inductive t :=
| MALFUNCTION | SERVICE | Other (z : Z).
Definition to_Z (x : t) : Z :=
  match x with
  | MALFUNCTION => 1 | SERVICE => 2 | Other z => z
  end.
Definition named : list t :=
  [MALFUNCTION; SERVICE].
Definition of_Z (z : Z) : t := enum_find to_Z Other named z.
#[global] Instance eq_dec : EqDecision t.
Proof. solve_decision. Defined.
#[global] Instance enum : Enum t := {|
  enum_to_Z := to_Z; enum_of_Z := of_Z;
  enum_to_of := enum_find_correct to_Z Other named (fun z => eq_refl) |}.
End StatusFieldType.

Module StatusFieldValue.
Inductive t :=
| ACTIVE | INACTIVE | Other (z : Z).
Definition to_Z (x : t) : Z :=
  match x with
  | ACTIVE => 0 | INACTIVE => 1 | Other z => z
  end.
Definition named : list t :=
  [ACTIVE; INACTIVE].
Definition of_Z (z : Z) : t := enum_find to_Z Other named z.
#[global] Instance eq_dec : EqDecision t.
Proof. solve_decision. Defined.
#[global] Instance enum : Enum t := {|
  enum_to_Z := to_Z; enum_of_Z := of_Z;
  enum_to_of := enum_find_correct to_Z Other named (fun z => eq_refl) |}.
End StatusFieldValue.

Module BinaryInputType.
Inductive t :=
| Presence | RoomBrightness | PresenceInDarkness | TwilightExternal | Movement
| MovementInDarkness | SmokeDetector | WindDetector | RainDetector | SunRadiation
| RoomThermostat | BatteryLow | WindowContact | DoorContact | WindowTilt | GarageDoorContact
| SunProtection | FrostDetector | HeatingSystem | HeatingSystemMode | PowerUp | Malfunction
| Service | Other (z : Z).
Definition to_Z (x : t) : Z :=
  match x with
  | Presence => 1 | RoomBrightness => 2 | PresenceInDarkness => 3 | TwilightExternal => 4
  | Movement => 5 | MovementInDarkness => 6 | SmokeDetector => 7 | WindDetector => 8
  | RainDetector => 9 | SunRadiation => 10 | RoomThermostat => 11 | BatteryLow => 12
  | WindowContact => 13 | DoorContact => 14 | WindowTilt => 15 | GarageDoorContact => 16
  | SunProtection => 17 | FrostDetector => 18 | HeatingSystem => 19 | HeatingSystemMode => 20
  | PowerUp => 21 | Malfunction => 22 | Service => 23 | Other z => z
  end.
Definition named : list t :=
  [Presence; RoomBrightness; PresenceInDarkness; TwilightExternal; Movement;
   MovementInDarkness; SmokeDetector; WindDetector; RainDetector; SunRadiation; RoomThermostat;
   BatteryLow; WindowContact; DoorContact; WindowTilt; GarageDoorContact; SunProtection;
   FrostDetector; HeatingSystem; HeatingSystemMode; PowerUp; Malfunction; Service].
Definition of_Z (z : Z) : t := enum_find to_Z Other named z.
#[global] Instance eq_dec : EqDecision t.
Proof. solve_decision. Defined.
#[global] Instance enum : Enum t := {|
  enum_to_Z := to_Z; enum_of_Z := of_Z;
  enum_to_of := enum_find_correct to_Z Other named (fun z => eq_refl) |}.
End BinaryInputType.

Module ApplicationType.
Inductive t :=
| None | Lights | Blinds | Heating | Audio | Video | Joker | Cooling | Ventilation | Window
| Recirculation | ControlTemperature | ApartmentVentilation | ApartmentRecirculation
| Other (z : Z).
Definition to_Z (x : t) : Z :=
  match x with
  | None => 0 | Lights => 1 | Blinds => 2 | Heating => 3 | Audio => 4 | Video => 5 | Joker => 8
  | Cooling => 9 | Ventilation => 10 | Window => 11 | Recirculation => 12
  | ControlTemperature => 48 | ApartmentVentilation => 64 | ApartmentRecirculation => 69
  | Other z => z
  end.
Definition named : list t :=
  [None; Lights; Blinds; Heating; Audio; Video; Joker; Cooling; Ventilation; Window;
   Recirculation; ControlTemperature; ApartmentVentilation; ApartmentRecirculation].
Definition of_Z (z : Z) : t := enum_find to_Z Other named z.
#[global] Instance eq_dec : EqDecision t.
Proof. solve_decision. Defined.
#[global] Instance enum : Enum t := {|
  enum_to_Z := to_Z; enum_of_Z := of_Z;
  enum_to_of := enum_find_correct to_Z Other named (fun z => eq_refl) |}.
End ApplicationType.

Module RgbBitmask.
Inductive t :=
| blue | green | red | cyan | magenta | yellow | gray | Other (z : Z).
Definition to_Z (x : t) : Z :=
  match x with
  | blue => 1 | green => 2 | red => 4 | cyan => 3 | magenta => 5 | yellow => 6 | gray => 7
  | Other z => z
  end.
Definition named : list t :=
  [blue; green; red; cyan; magenta; yellow; gray].
Definition of_Z (z : Z) : t := enum_find to_Z Other named z.
#[global] Instance eq_dec : EqDecision t.
Proof. solve_decision. Defined.
#[global] Instance enum : Enum t := {|
  enum_to_Z := to_Z; enum_of_Z := of_Z;
  enum_to_of := enum_find_correct to_Z Other named (fun z => eq_refl) |}.
End RgbBitmask.

Module HeatingControlMode.
Inductive t :=
| OFF | PID | ZONE_FOLLOWER | FIXED | MANUAL | Other (z : Z).
Definition to_Z (x : t) : Z :=
  match x with
  | OFF => 0 | PID => 1 | ZONE_FOLLOWER => 2 | FIXED => 3 | MANUAL => 4 | Other z => z
  end.
Definition named : list t :=
  [OFF; PID; ZONE_FOLLOWER; FIXED; MANUAL].
Definition of_Z (z : Z) : t := enum_find to_Z Other named z.
#[global] Instance eq_dec : EqDecision t.
Proof. solve_decision. Defined.
#[global] Instance enum : Enum t := {|
  enum_to_Z := to_Z; enum_of_Z := of_Z;
  enum_to_of := enum_find_correct to_Z Other named (fun z => eq_refl) |}.
End HeatingControlMode.

Module ButtonInputMode.
Inductive t :=
| STANDARD | TURBO | SWITCHED | TWO_WAY_DW_WITH_INPUT1 | TWO_WAY_DW_WITH_INPUT2
| TWO_WAY_DW_WITH_INPUT3 | TWO_WAY_DW_WITH_INPUT4 | TWO_WAY_UP_WITH_INPUT1
| TWO_WAY_UP_WITH_INPUT2 | TWO_WAY_UP_WITH_INPUT3 | TWO_WAY_UP_WITH_INPUT4 | TWO_WAY | ONE_WAY
| AKM_STANDARD | AKM_INVERTED | AKM_ON_RISING_EDGE | AKM_ON_FALLING_EDGE | AKM_OFF_RISING_EDGE
| AKM_OFF_FALLING_EDGE | AKM_RISING_EDGE | AKM_FALLING_EDGE | HEATING_PUSHBUTTON
| SDS_SLAVE_M1_M2 | Other (z : Z).
Definition to_Z (x : t) : Z :=
  match x with
  | STANDARD => 0 | TURBO => 1 | SWITCHED => 2 | TWO_WAY_DW_WITH_INPUT1 => 5
  | TWO_WAY_DW_WITH_INPUT2 => 6 | TWO_WAY_DW_WITH_INPUT3 => 7 | TWO_WAY_DW_WITH_INPUT4 => 8
  | TWO_WAY_UP_WITH_INPUT1 => 9 | TWO_WAY_UP_WITH_INPUT2 => 10 | TWO_WAY_UP_WITH_INPUT3 => 11
  | TWO_WAY_UP_WITH_INPUT4 => 12 | TWO_WAY => 13 | ONE_WAY => 14 | AKM_STANDARD => 16
  | AKM_INVERTED => 17 | AKM_ON_RISING_EDGE => 18 | AKM_ON_FALLING_EDGE => 19
  | AKM_OFF_RISING_EDGE => 20 | AKM_OFF_FALLING_EDGE => 21 | AKM_RISING_EDGE => 22
  | AKM_FALLING_EDGE => 23 | HEATING_PUSHBUTTON => 65 | SDS_SLAVE_M1_M2 => 255 | Other z => z
  end.
Definition named : list t :=
  [STANDARD; TURBO; SWITCHED; TWO_WAY_DW_WITH_INPUT1; TWO_WAY_DW_WITH_INPUT2;
   TWO_WAY_DW_WITH_INPUT3; TWO_WAY_DW_WITH_INPUT4; TWO_WAY_UP_WITH_INPUT1;
   TWO_WAY_UP_WITH_INPUT2; TWO_WAY_UP_WITH_INPUT3; TWO_WAY_UP_WITH_INPUT4; TWO_WAY; ONE_WAY;
   AKM_STANDARD; AKM_INVERTED; AKM_ON_RISING_EDGE; AKM_ON_FALLING_EDGE; AKM_OFF_RISING_EDGE;
   AKM_OFF_FALLING_EDGE; AKM_RISING_EDGE; AKM_FALLING_EDGE; HEATING_PUSHBUTTON; SDS_SLAVE_M1_M2].
Definition of_Z (z : Z) : t := enum_find to_Z Other named z.
#[global] Instance eq_dec : EqDecision t.
Proof. solve_decision. Defined.
#[global] Instance enum : Enum t := {|
  enum_to_Z := to_Z; enum_of_Z := of_Z;
  enum_to_of := enum_find_correct to_Z Other named (fun z => eq_refl) |}.
End ButtonInputMode.

Module ModelFeatureId.
Inductive t :=
| dontcare | blink | ledauto | leddark | transt | outmode | outmodeswitch | outvalue8
| pushbutton | pushbdevice | pushbsensor | pushbarea | pushbadvanced | pushbcombined
| shadeprops | shadeposition | motiontimefins | optypeconfig | shadebladeang | highlevel
| consumption | jokerconfig | akmsensor | akminput | akmdelay | twowayconfig | outputchannels
| heatinggroup | heatingoutmode | heatingprops | pwmvalue | valvetype | extradimmer | umvrelay
| blinkconfig | umroutmode | locationconfig | windprotectionconfigawning
| windprotectionconfigblind | impulseconfig | outmodegeneric | outconfigswitch
| temperatureoffset | apartmentapplication | ftwtempcontrolventilationselect
| ftwdisplaysettings | ftwbacklighttimeout | ventconfig | fcu | pushbdisabled
| consumptioneventled | consumptiontimer | jokertempcontrol | Other (z : Z).
Definition to_Z (x : t) : Z :=
  match x with
  | dontcare => 0 | blink => 1 | ledauto => 2 | leddark => 3 | transt => 4 | outmode => 5
  | outmodeswitch => 6 | outvalue8 => 7 | pushbutton => 8 | pushbdevice => 9
  | pushbsensor => 10 | pushbarea => 11 | pushbadvanced => 12 | pushbcombined => 13
  | shadeprops => 14 | shadeposition => 15 | motiontimefins => 16 | optypeconfig => 17
  | shadebladeang => 18 | highlevel => 19 | consumption => 20 | jokerconfig => 21
  | akmsensor => 22 | akminput => 23 | akmdelay => 24 | twowayconfig => 25
  | outputchannels => 26 | heatinggroup => 27 | heatingoutmode => 28 | heatingprops => 29
  | pwmvalue => 30 | valvetype => 31 | extradimmer => 32 | umvrelay => 33 | blinkconfig => 34
  | umroutmode => 35 | locationconfig => 36 | windprotectionconfigawning => 37
  | windprotectionconfigblind => 38 | impulseconfig => 39 | outmodegeneric => 40
  | outconfigswitch => 41 | temperatureoffset => 42 | apartmentapplication => 43
  | ftwtempcontrolventilationselect => 44 | ftwdisplaysettings => 45
  | ftwbacklighttimeout => 46 | ventconfig => 47 | fcu => 48 | pushbdisabled => 49
  | consumptioneventled => 50 | consumptiontimer => 51 | jokertempcontrol => 52 | Other z => z
  end.
Definition named : list t :=
  [dontcare; blink; ledauto; leddark; transt; outmode; outmodeswitch; outvalue8; pushbutton;
   pushbdevice; pushbsensor; pushbarea; pushbadvanced; pushbcombined; shadeprops;
   shadeposition; motiontimefins; optypeconfig; shadebladeang; highlevel; consumption;
   jokerconfig; akmsensor; akminput; akmdelay; twowayconfig; outputchannels; heatinggroup;
   heatingoutmode; heatingprops; pwmvalue; valvetype; extradimmer; umvrelay; blinkconfig;
   umroutmode; locationconfig; windprotectionconfigawning; windprotectionconfigblind;
   impulseconfig; outmodegeneric; outconfigswitch; temperatureoffset; apartmentapplication;
   ftwtempcontrolventilationselect; ftwdisplaysettings; ftwbacklighttimeout; ventconfig; fcu;
   pushbdisabled; consumptioneventled; consumptiontimer; jokertempcontrol].
Definition of_Z (z : Z) : t := enum_find to_Z Other named z.
#[global] Instance eq_dec : EqDecision t.
Proof. solve_decision. Defined.
#[global] Instance enum : Enum t := {|
  enum_to_Z := to_Z; enum_of_Z := of_Z;
  enum_to_of := enum_find_correct to_Z Other named (fun z => eq_refl) |}.
End ModelFeatureId.

Module HeatingModeSwitchValue.
Inductive t :=
| OFF | HEATING | COOLING | AUTO | Other (z : Z).
Definition to_Z (x : t) : Z :=
  match x with
  | OFF => 0 | HEATING => 1 | COOLING => 2 | AUTO => 3 | Other z => z
  end.
Definition named : list t :=
  [OFF; HEATING; COOLING; AUTO].
Definition of_Z (z : Z) : t := enum_find to_Z Other named z.
#[global] Instance eq_dec : EqDecision t.
Proof. solve_decision. Defined.
#[global] Instance enum : Enum t := {|
  enum_to_Z := to_Z; enum_of_Z := of_Z;
  enum_to_of := enum_find_correct to_Z Other named (fun z => eq_refl) |}.
End HeatingModeSwitchValue.

Module eState.
Inductive t :=
| State_Invalid | State_Active | State_Inactive | State_Unknown | Other (z : Z).
Definition to_Z (x : t) : Z :=
  match x with
  | State_Invalid => 0 | State_Active => 1 | State_Inactive => 2 | State_Unknown => 3
  | Other z => z
  end.
Definition named : list t :=
  [State_Invalid; State_Active; State_Inactive; State_Unknown].
Definition of_Z (z : Z) : t := enum_find to_Z Other named z.
#[global] Instance eq_dec : EqDecision t.
Proof. solve_decision. Defined.
#[global] Instance enum : Enum t := {|
  enum_to_Z := to_Z; enum_of_Z := of_Z;
  enum_to_of := enum_find_correct to_Z Other named (fun z => eq_refl) |}.
End eState.

Module eStateType.
Inductive t :=
| StateType_Apartment | StateType_Device | StateType_Service | StateType_Group
| StateType_Script | StateType_SensorZone | StateType_SensorDevice | StateType_Circuit
| Other (z : Z).
Definition to_Z (x : t) : Z :=
  match x with
  | StateType_Apartment => 0 | StateType_Device => 1 | StateType_Service => 2
  | StateType_Group => 3 | StateType_Script => 4 | StateType_SensorZone => 5
  | StateType_SensorDevice => 6 | StateType_Circuit => 7 | Other z => z
  end.
Definition named : list t :=
  [StateType_Apartment; StateType_Device; StateType_Service; StateType_Group; StateType_Script;
   StateType_SensorZone; StateType_SensorDevice; StateType_Circuit].
Definition of_Z (z : Z) : t := enum_find to_Z Other named z.
#[global] Instance eq_dec : EqDecision t.
Proof. solve_decision. Defined.
#[global] Instance enum : Enum t := {|
  enum_to_Z := to_Z; enum_of_Z := of_Z;
  enum_to_of := enum_find_correct to_Z Other named (fun z => eq_refl) |}.
End eStateType.

Module eStateWindowHandle.
Inductive t :=
| StateWH_Invalid | StateWH_Closed | StateWH_Open | StateWH_Tilted | StateWH_Unknown
| Other (z : Z).
Definition to_Z (x : t) : Z :=
  match x with
  | StateWH_Invalid => 0 | StateWH_Closed => 1 | StateWH_Open => 2 | StateWH_Tilted => 3
  | StateWH_Unknown => 4 | Other z => z
  end.
Definition named : list t :=
  [StateWH_Invalid; StateWH_Closed; StateWH_Open; StateWH_Tilted; StateWH_Unknown].
Definition of_Z (z : Z) : t := enum_find to_Z Other named z.
#[global] Instance eq_dec : EqDecision t.
Proof. solve_decision. Defined.
#[global] Instance enum : Enum t := {|
  enum_to_Z := to_Z; enum_of_Z := of_Z;
  enum_to_of := enum_find_correct to_Z Other named (fun z => eq_refl) |}.
End eStateWindowHandle.

(** * Constants *)


(** ** Scene numbers *)

Definition SceneOff : Z := 0.
Definition SceneOffA1 : Z := 1.
Definition SceneOffA2 : Z := 2.
Definition SceneOffA3 : Z := 3.
Definition SceneOffA4 : Z := 4.
Definition Scene1 : Z := 5.
Definition SceneA11 : Z := 6.
Definition SceneA21 : Z := 7.
Definition SceneA31 : Z := 8.
Definition SceneA41 : Z := 9.
Definition SceneDimArea : Z := 10.
Definition SceneDec : Z := 11.
Definition SceneInc : Z := 12.
Definition SceneMin : Z := 13.
Definition SceneMax : Z := 14.
Definition SceneStop : Z := 15.
Definition Scene2 : Z := 17.
Definition Scene3 : Z := 18.
Definition Scene4 : Z := 19.
Definition Scene12 : Z := 20.
Definition Scene13 : Z := 21.
Definition Scene14 : Z := 22.
Definition Scene22 : Z := 23.
Definition Scene23 : Z := 24.
Definition Scene24 : Z := 25.
Definition Scene32 : Z := 26.
Definition Scene33 : Z := 27.
Definition Scene34 : Z := 28.
Definition Scene42 : Z := 29.
Definition Scene43 : Z := 30.
Definition Scene44 : Z := 31.
Definition SceneOffE1 : Z := 32.
Definition SceneOnE1 : Z := 33.
Definition SceneOffE2 : Z := 34.
Definition SceneOnE2 : Z := 35.
Definition SceneOffE3 : Z := 36.
Definition SceneBoost : Z := 36.
Definition SceneOnE3 : Z := 37.
Definition SceneOffE4 : Z := 38.
Definition SceneOnE4 : Z := 39.
Definition SceneAutoOff : Z := 40.
Definition SceneImpulse : Z := 41.
Definition SceneDecA1 : Z := 42.
Definition SceneIncA1 : Z := 43.
Definition SceneDecA2 : Z := 44.
Definition SceneIncA2 : Z := 45.
Definition SceneDecA3 : Z := 46.
Definition SceneIncA3 : Z := 47.
Definition SceneDecA4 : Z := 48.
Definition SceneIncA4 : Z := 50.
Definition SceneLocalOff : Z := 50.
Definition SceneLocalOn : Z := 51.
Definition SceneStopA1 : Z := 52.
Definition SceneStopA2 : Z := 53.
Definition SceneStopA3 : Z := 54.
Definition SceneStopA4 : Z := 55.
Definition SceneSunProtection : Z := 56.
Definition SceneAutoStandBy : Z := 64.
Definition ScenePanic : Z := 65.
Definition SceneEnergyOverload : Z := 66.
Definition SceneStandBy : Z := 67.
Definition SceneDeepOff : Z := 68.
Definition SceneSleeping : Z := 69.
Definition SceneWakeUp : Z := 70.
Definition ScenePresent : Z := 71.
Definition SceneAbsent : Z := 72.
Definition SceneBell : Z := 73.
Definition SceneAlarm : Z := 74.
Definition SceneRoomActivate : Z := 75.
Definition SceneFire : Z := 76.
Definition SceneSmoke : Z := 77.
Definition SceneWater : Z := 78.
Definition SceneGas : Z := 79.
Definition SceneBell2 : Z := 80.
Definition SceneBell3 : Z := 81.
Definition SceneBell4 : Z := 82.
Definition SceneAlarm2 : Z := 83.
Definition SceneAlarm3 : Z := 84.
Definition SceneAlarm4 : Z := 85.
Definition SceneWindActive : Z := 86.
Definition SceneWindInactive : Z := 87.
Definition SceneRainActive : Z := 88.
Definition SceneRainInactive : Z := 89.
Definition SceneHailActive : Z := 90.
Definition SceneHailInactive : Z := 91.
Definition MaxSceneNumber : Z := 127.
Definition MaxSceneNumberOutsideZoneZero : Z := 63.
Definition SceneFlagLocalOff : Z := 256.

(** ** Button inputs, sensor functions *)

Definition ButtonId_Device : Z := 0.
Definition ButtonId_Area1 : Z := 1.
Definition ButtonId_Area2 : Z := 2.
Definition ButtonId_Area3 : Z := 3.
Definition ButtonId_Area4 : Z := 4.
Definition ButtonId_Zone : Z := 5.
Definition ButtonId_Zone_Extended1 : Z := 6.
Definition ButtonId_Zone_Extended2 : Z := 7.
Definition ButtonId_Zone_Extended3 : Z := 8.
Definition ButtonId_Zone_Extended4 : Z := 9.
Definition ButtonId_Area1_Extended : Z := 10.
Definition ButtonId_Area2_Extended : Z := 11.
Definition ButtonId_Area3_Extended : Z := 12.
Definition ButtonId_Area4_Extended : Z := 13.
Definition ButtonId_Apartment : Z := 14.
Definition ButtonId_Generic : Z := 15.
Definition SensorFunction_Generic : Z := 0.
Definition SensorFunction_Generic1 : Z := 1.
Definition SensorFunction_Generic2 : Z := 2.
Definition SensorFunction_Generic3 : Z := 3.
Definition SensorFunction_Generic4 : Z := 4.
Definition SensorFunction_Generic5 : Z := 5.
Definition SensorFunction_Generic6 : Z := 6.
Definition SensorFunction_Generic7 : Z := 7.
Definition SensorFunction_Generic8 : Z := 8.
Definition SensorFunction_Generic9 : Z := 9.
Definition SensorFunction_Generic10 : Z := 10.
Definition SensorFunction_Generic11 : Z := 11.
Definition SensorMaxLifeTime : Z := 3600.

(** ** Click types *)

Definition ClickType1T : Z := 0.
Definition ClickType2T : Z := 1.
Definition ClickType3T : Z := 2.
Definition ClickType4T : Z := 3.
Definition ClickTypeHS : Z := 4.
Definition ClickTypeHR : Z := 5.
Definition ClickTypeHE : Z := 6.
Definition ClickType1C : Z := 7.
Definition ClickType2C : Z := 8.
Definition ClickType3C : Z := 9.
Definition ClickType1P : Z := 10.
Definition ClickTypeL0 : Z := 11.
Definition ClickTypeL1 : Z := 12.
Definition ClickType2P : Z := 13.
Definition ClickTypeLS : Z := 14.
Definition ClickTypeRES : Z := 15.

(** ** Heating *)

Definition HeatingControlStateIDInternal : Z := 0.
Definition HeatingControlStateIDExternal : Z := 1.
Definition HeatingControlStateIDExBackup : Z := 2.
Definition HeatingControlStateIDEmergency : Z := 3.
Definition HeatingOperationModeIDOff : Z := 0.
Definition HeatingOperationModeIDComfort : Z := 1.
Definition HeatingOperationModeIDEconomy : Z := 2.
Definition HeatingOperationModeIDNotUsed : Z := 3.
Definition HeatingOperationModeIDNight : Z := 4.
Definition HeatingOperationModeIDHoliday : Z := 5.
Definition HeatingOperationModeIDCooling : Z := 6.
Definition HeatingOperationModeIDCoolingOff : Z := 7.
Definition HeatingOperationModeIDMax : Z := 11.
Definition HeatingOperationModeInvalid : Z := 255.
Definition HeatingOperationModeIDValveProtection : Z := 31.

(** ** Colors and groups *)

Definition ColorIDYellow : Z := 1.
Definition ColorIDGray : Z := 2.
Definition ColorIDBlue : Z := 3.
Definition ColorIDCyan : Z := 4.
Definition ColorIDViolet : Z := 5.
Definition ColorIDRed : Z := 6.
Definition ColorIDGreen : Z := 7.
Definition ColorIDBlack : Z := 8.
Definition ColorIDWhite : Z := 9.
Definition GroupIDBroadcast : Z := 0.
Definition GroupIDYellow : Z := 1.
Definition GroupIDGray : Z := 2.
Definition GroupIDHeating : Z := 3.
Definition GroupIDCyan : Z := 4.
Definition GroupIDViolet : Z := 5.
Definition GroupIDRed : Z := 6.
Definition GroupIDGreen : Z := 7.
Definition GroupIDBlack : Z := 8.
Definition GroupIDCooling : Z := 9.
Definition GroupIDVentilation : Z := 10.
Definition GroupIDWindow : Z := 11.
Definition GroupIDRecirculation : Z := 12.
Definition GroupIDReserved3 : Z := 13.
Definition GroupIDReserved4 : Z := 14.
Definition GroupIDReserved5 : Z := 15.
Definition GroupIDStandardMax : Z := 15.
Definition GroupIDAppUserMin : Z := 16.
Definition GroupIDAppUserMax : Z := 39.
Definition GroupIDUserGroupStart : Z := GroupIDAppUserMax + 1.
Definition GroupIDUserGroupEnd : Z := 47.
Definition GroupIDControlGroupMin : Z := 48.
Definition GroupIDControlTemperature : Z := 48.
Definition GroupIDControlGroupMax : Z := 55.
Definition GroupIDMax : Z := 63.
Definition GroupIDGlobalAppMin : Z := 64.
Definition GroupIDGlobalAppDsMin : Z := 64.
Definition GroupIDGlobalAppDsVentilation : Z := 64.
Definition GroupIDGlobalAppDsRecirculation : Z := 69.
Definition GroupIDGlobalAppDsMax : Z := 187.
Definition GroupIDGlobalAppUserMin : Z := 188.
Definition GroupIDGlobalAppUserMax : Z := 249.
Definition GroupIDGlobalAppMax : Z := 249.
Definition GroupIDNotApplicable : Z := 255.

(** ** Classes of groups *)

Definition isDefaultGroup (groupId : Z) : bool :=
  ((groupId >=? GroupIDYellow) && (groupId <=? GroupIDStandardMax)) ||
  (groupId =? GroupIDControlTemperature).

Definition isAppUserGroup (groupId : Z) : bool :=
  (groupId >=? GroupIDAppUserMin) && (groupId <=? GroupIDAppUserMax).

Definition isZoneUserGroup (groupId : Z) : bool :=
  (groupId >=? GroupIDUserGroupStart) && (groupId <=? GroupIDUserGroupEnd).

Definition isControlGroup (groupId : Z) : bool :=
  (groupId >=? GroupIDControlGroupMin) && (groupId <=? GroupIDControlGroupMax).

Definition isGlobalAppDsGroup (groupId : Z) : bool :=
  (groupId >=? GroupIDGlobalAppDsMin) && (groupId <=? GroupIDGlobalAppDsMax).

Definition isGlobalAppUserGroup (groupId : Z) : bool :=
  (groupId >=? GroupIDGlobalAppUserMin) && (groupId <=? GroupIDGlobalAppUserMax).

Definition isGlobalAppGroup (groupId : Z) : bool :=
  isGlobalAppDsGroup groupId || isGlobalAppUserGroup groupId.

Definition isValidGroup (groupId : Z) : bool :=
  isDefaultGroup groupId || isAppUserGroup groupId || isZoneUserGroup groupId ||
  isControlGroup groupId || isGlobalAppGroup groupId.

(** * Names of the enumerators *)

Definition sensorTypeToPrecision (x : SensorType.t) : Z :=
  match x with
  | SensorType.Status | SensorType.RoomTemperatureControlVariable => 1
  | SensorType.ActivePower | SensorType.OutputCurrent | SensorType.ElectricMeter
  | SensorType.TemperatureIndoors | SensorType.TemperatureOutdoors
  | SensorType.BrightnessIndoors | SensorType.BrightnessOutdoors | SensorType.HumidityIndoors
  | SensorType.HumidityOutdoors | SensorType.AirPressure | SensorType.GustSpeed
  | SensorType.GustDirection | SensorType.WindSpeed | SensorType.WindDirection
  | SensorType.Precipitation | SensorType.CO2Concentration | SensorType.COConcentration
  | SensorType.SoundPressureLevel | SensorType.RoomTemperatureSetpoint | SensorType.Reserved1
  | SensorType.Reserved2 | SensorType.OutputCurrent16A | SensorType.ActivePowerVA
  | SensorType.NotUsed | SensorType.UnknownType => 0
  | SensorType.Other _ => 0
  end.

Definition sensorTypeName (x : SensorType.t) : string :=
  match x with
  | SensorType.Status => "Status"
  | SensorType.ActivePower => "Active Power"
  | SensorType.OutputCurrent => "Output Current"
  | SensorType.ElectricMeter => "Electric Meter"
  | SensorType.OutputCurrent16A => "Output Current Ex"
  | SensorType.ActivePowerVA => "Active Power Ex"
  | SensorType.TemperatureIndoors => "Temperature Indoors"
  | SensorType.TemperatureOutdoors => "Temperature Outdoors"
  | SensorType.BrightnessIndoors => "Brightness Indoors"
  | SensorType.BrightnessOutdoors => "Brightness Outdoors"
  | SensorType.HumidityIndoors => "Humidity Indoors"
  | SensorType.HumidityOutdoors => "Humidity Outdoors"
  | SensorType.AirPressure => "Air Pressure"
  | SensorType.GustSpeed => "Gust Speed"
  | SensorType.GustDirection => "Gust Direction"
  | SensorType.WindSpeed => "Wind Speed"
  | SensorType.WindDirection => "Wind Direction"
  | SensorType.SoundPressureLevel => "Sound Pressure Level"
  | SensorType.Precipitation => "Precipitation"
  | SensorType.RoomTemperatureSetpoint => "Nominal Temperature"
  | SensorType.RoomTemperatureControlVariable => "Temperature Control Value"
  | SensorType.CO2Concentration => "Carbon Dioxide Concentration"
  | SensorType.COConcentration => "Carbon Monoxide Concentration"
  | SensorType.UnknownType => "Unknown Type"
  | SensorType.Reserved1 => "Reserved1"
  | SensorType.Reserved2 => "Reserved2"
  | SensorType.NotUsed => "NotUsed"
  | SensorType.Other z => "Invalid Type: " +:+ intToString z false
  end.

Definition statusFieldTypeName (x : StatusFieldType.t) : option string :=
  match x with
  | StatusFieldType.MALFUNCTION => Some "malfunction"
  | StatusFieldType.SERVICE => Some "service"
  | StatusFieldType.Other _ => None
  end.

Definition statusFieldTypeFromName (x : string) : option StatusFieldType.t :=
  if String.eqb x "malfunction" then Some StatusFieldType.MALFUNCTION
  else if String.eqb x "service" then Some StatusFieldType.SERVICE
  else None.

Definition statusFieldValueName (x : StatusFieldValue.t) : option string :=
  match x with
  | StatusFieldValue.INACTIVE => Some "inactive"
  | StatusFieldValue.ACTIVE => Some "active"
  | StatusFieldValue.Other _ => None
  end.

Definition statusFieldValueFromName (x : string) : option StatusFieldValue.t :=
  if String.eqb x "inactive" then Some StatusFieldValue.INACTIVE
  else if String.eqb x "active" then Some StatusFieldValue.ACTIVE
  else None.

Definition binaryInputTypeText (x : BinaryInputType.t) : string :=
  match x with
  | BinaryInputType.Presence => "presence"
  | BinaryInputType.RoomBrightness => "roomBrightness"
  | BinaryInputType.PresenceInDarkness => "presenceInDarkness"
  | BinaryInputType.TwilightExternal => "twilightExternal"
  | BinaryInputType.Movement => "movement"
  | BinaryInputType.MovementInDarkness => "movementInDarkness"
  | BinaryInputType.SmokeDetector => "smokeDetector"
  | BinaryInputType.WindDetector => "windDetector"
  | BinaryInputType.RainDetector => "rainDetector"
  | BinaryInputType.SunRadiation => "sunRadiation"
  | BinaryInputType.RoomThermostat => "roomThermostat"
  | BinaryInputType.BatteryLow => "batteryLow"
  | BinaryInputType.WindowContact => "windowContact"
  | BinaryInputType.DoorContact => "doorContact"
  | BinaryInputType.WindowTilt => "windowTilt"
  | BinaryInputType.GarageDoorContact => "garageDoorContact"
  | BinaryInputType.SunProtection => "sunProtection"
  | BinaryInputType.FrostDetector => "frostDetector"
  | BinaryInputType.HeatingSystem => "heatingSystem"
  | BinaryInputType.HeatingSystemMode => "heatingSystemMode"
  | BinaryInputType.PowerUp => "powerUp"
  | BinaryInputType.Malfunction => "malfunction"
  | BinaryInputType.Service => "service"
  | BinaryInputType.Other _ => "unknown"
  end.

Definition statusFieldTypeForBinaryInputType (x : BinaryInputType.t) : option StatusFieldType.t :=
  match x with
  | BinaryInputType.Presence | BinaryInputType.RoomBrightness
  | BinaryInputType.PresenceInDarkness | BinaryInputType.TwilightExternal
  | BinaryInputType.Movement | BinaryInputType.MovementInDarkness
  | BinaryInputType.SmokeDetector | BinaryInputType.WindDetector | BinaryInputType.RainDetector
  | BinaryInputType.SunRadiation | BinaryInputType.RoomThermostat | BinaryInputType.BatteryLow
  | BinaryInputType.WindowContact | BinaryInputType.DoorContact | BinaryInputType.WindowTilt
  | BinaryInputType.GarageDoorContact | BinaryInputType.SunProtection
  | BinaryInputType.FrostDetector | BinaryInputType.HeatingSystem
  | BinaryInputType.HeatingSystemMode | BinaryInputType.PowerUp => None
  | BinaryInputType.Malfunction => Some StatusFieldType.MALFUNCTION
  | BinaryInputType.Service => Some StatusFieldType.SERVICE
  | BinaryInputType.Other _ => None
  end.

Definition applicationTypeText (x : ApplicationType.t) : string :=
  match x with
  | ApplicationType.None => "none"
  | ApplicationType.Lights => "lights"
  | ApplicationType.Blinds => "blinds"
  | ApplicationType.Heating => "heating"
  | ApplicationType.Audio => "audio"
  | ApplicationType.Video => "video"
  | ApplicationType.Joker => "joker"
  | ApplicationType.Cooling => "cooling"
  | ApplicationType.Ventilation => "ventilation"
  | ApplicationType.Window => "window"
  | ApplicationType.Recirculation => "recirculation"
  | ApplicationType.ControlTemperature => "controlTemperature"
  | ApplicationType.ApartmentVentilation => "apartmentVentilation"
  | ApplicationType.ApartmentRecirculation => "apartmentRecirculation"
  | ApplicationType.Other _ => "unknown"
  end.

Definition getApplicationTypeColor (x : ApplicationType.t) : Z :=
  match x with
  | ApplicationType.Lights => ColorIDYellow
  | ApplicationType.Blinds => ColorIDGray
  | ApplicationType.Heating | ApplicationType.Cooling | ApplicationType.Ventilation
  | ApplicationType.Recirculation | ApplicationType.Window | ApplicationType.ControlTemperature
  | ApplicationType.ApartmentVentilation
  | ApplicationType.ApartmentRecirculation => ColorIDBlue
  | ApplicationType.Audio => ColorIDCyan
  | ApplicationType.Video => ColorIDViolet
  | ApplicationType.Joker => ColorIDBlack
  | ApplicationType.None => 0
  | ApplicationType.Other _ => 0
  end.

Definition getApplicationTypeRgbBitmask (type : ApplicationType.t) : RgbBitmask.t :=
  switch (getApplicationTypeColor type)
    [([ColorIDYellow], RgbBitmask.yellow);
     ([ColorIDGray], RgbBitmask.gray);
     ([ColorIDBlue], RgbBitmask.blue);
     ([ColorIDCyan], RgbBitmask.cyan);
     ([ColorIDViolet], RgbBitmask.magenta);
     ([ColorIDRed], RgbBitmask.red);
     ([ColorIDGreen], RgbBitmask.green);
     ([ColorIDBlack], RgbBitmask.gray);
     ([ColorIDWhite], RgbBitmask.gray)]
    RgbBitmask.gray.

Definition heatingControlModeName (x : HeatingControlMode.t) : option string :=
  match x with
  | HeatingControlMode.OFF => Some "off"
  | HeatingControlMode.PID => Some "control"
  | HeatingControlMode.ZONE_FOLLOWER => Some "zoneFollower"
  | HeatingControlMode.FIXED => Some "fixed"
  | HeatingControlMode.MANUAL => Some "manual"
  | HeatingControlMode.Other _ => None
  end.

Definition heatingControlModeFromName (x : string) : option HeatingControlMode.t :=
  if String.eqb x "off" then Some HeatingControlMode.OFF
  else if String.eqb x "control" then Some HeatingControlMode.PID
  else if String.eqb x "zoneFollower" then Some HeatingControlMode.ZONE_FOLLOWER
  else if String.eqb x "fixed" then Some HeatingControlMode.FIXED
  else if String.eqb x "manual" then Some HeatingControlMode.MANUAL
  else None.

Definition buttonInputModeText (x : ButtonInputMode.t) : string :=
  match x with
  | ButtonInputMode.STANDARD => "standard"
  | ButtonInputMode.TURBO => "turbo"
  | ButtonInputMode.SWITCHED => "switched"
  | ButtonInputMode.TWO_WAY_DW_WITH_INPUT1 => "twoWayDwWithInput1"
  | ButtonInputMode.TWO_WAY_DW_WITH_INPUT2 => "twoWayDwWithInput2"
  | ButtonInputMode.TWO_WAY_DW_WITH_INPUT3 => "twoWayDwWithInput3"
  | ButtonInputMode.TWO_WAY_DW_WITH_INPUT4 => "twoWayDwWithInput4"
  | ButtonInputMode.TWO_WAY_UP_WITH_INPUT1 => "twoWayUpWithInput1"
  | ButtonInputMode.TWO_WAY_UP_WITH_INPUT2 => "twoWayUpWithInput2"
  | ButtonInputMode.TWO_WAY_UP_WITH_INPUT3 => "twoWayUpWithInput3"
  | ButtonInputMode.TWO_WAY_UP_WITH_INPUT4 => "twoWayUpWithInput4"
  | ButtonInputMode.TWO_WAY => "twoWay"
  | ButtonInputMode.ONE_WAY => "oneWay"
  | ButtonInputMode.AKM_STANDARD => "akmStandard"
  | ButtonInputMode.AKM_INVERTED => "akmInverted"
  | ButtonInputMode.AKM_ON_RISING_EDGE => "akmOnRisingEdge"
  | ButtonInputMode.AKM_ON_FALLING_EDGE => "akmOnFallingEdge"
  | ButtonInputMode.AKM_OFF_RISING_EDGE => "akmOffRisingEdge"
  | ButtonInputMode.AKM_OFF_FALLING_EDGE => "akmOffFallingEdge"
  | ButtonInputMode.AKM_RISING_EDGE => "akmRisingEdge"
  | ButtonInputMode.AKM_FALLING_EDGE => "akmFallingEdge"
  | ButtonInputMode.SDS_SLAVE_M1_M2 => "sdsSlaveM1M2"
  | ButtonInputMode.HEATING_PUSHBUTTON | ButtonInputMode.Other _ => "unknown"
  end.

Definition modelFeatureName (x : ModelFeatureId.t) : option string :=
  match x with
  | ModelFeatureId.dontcare => Some "dontcare"
  | ModelFeatureId.blink => Some "blink"
  | ModelFeatureId.ledauto => Some "ledauto"
  | ModelFeatureId.leddark => Some "leddark"
  | ModelFeatureId.transt => Some "transt"
  | ModelFeatureId.outmode => Some "outmode"
  | ModelFeatureId.outmodeswitch => Some "outmodeswitch"
  | ModelFeatureId.outvalue8 => Some "outvalue8"
  | ModelFeatureId.pushbutton => Some "pushbutton"
  | ModelFeatureId.pushbdevice => Some "pushbdevice"
  | ModelFeatureId.pushbarea => Some "pushbarea"
  | ModelFeatureId.pushbadvanced => Some "pushbadvanced"
  | ModelFeatureId.pushbcombined => Some "pushbcombined"
  | ModelFeatureId.shadeprops => Some "shadeprops"
  | ModelFeatureId.shadeposition => Some "shadeposition"
  | ModelFeatureId.motiontimefins => Some "motiontimefins"
  | ModelFeatureId.optypeconfig => Some "optypeconfig"
  | ModelFeatureId.shadebladeang => Some "shadebladeang"
  | ModelFeatureId.highlevel => Some "highlevel"
  | ModelFeatureId.consumption => Some "consumption"
  | ModelFeatureId.jokerconfig => Some "jokerconfig"
  | ModelFeatureId.akmsensor => Some "akmsensor"
  | ModelFeatureId.akminput => Some "akminput"
  | ModelFeatureId.akmdelay => Some "akmdelay"
  | ModelFeatureId.twowayconfig => Some "twowayconfig"
  | ModelFeatureId.outputchannels => Some "outputchannels"
  | ModelFeatureId.heatinggroup => Some "heatinggroup"
  | ModelFeatureId.heatingoutmode => Some "heatingoutmode"
  | ModelFeatureId.heatingprops => Some "heatingprops"
  | ModelFeatureId.pwmvalue => Some "pwmvalue"
  | ModelFeatureId.valvetype => Some "valvetype"
  | ModelFeatureId.extradimmer => Some "extradimmer"
  | ModelFeatureId.umvrelay => Some "umvrelay"
  | ModelFeatureId.blinkconfig => Some "blinkconfig"
  | ModelFeatureId.impulseconfig => Some "impulseconfig"
  | ModelFeatureId.umroutmode => Some "umroutmode"
  | ModelFeatureId.pushbsensor => Some "pushbsensor"
  | ModelFeatureId.locationconfig => Some "locationconfig"
  | ModelFeatureId.windprotectionconfigawning => Some "windprotectionconfigawning"
  | ModelFeatureId.windprotectionconfigblind => Some "windprotectionconfigblind"
  | ModelFeatureId.outmodegeneric => Some "outmodegeneric"
  | ModelFeatureId.outconfigswitch => Some "outconfigswitch"
  | ModelFeatureId.temperatureoffset => Some "temperatureoffset"
  | ModelFeatureId.apartmentapplication => Some "apartmentapplication"
  | ModelFeatureId.ftwtempcontrolventilationselect => Some "ftwtempcontrolventilationselect"
  | ModelFeatureId.ftwdisplaysettings => Some "ftwdisplaysettings"
  | ModelFeatureId.ftwbacklighttimeout => Some "ftwbacklighttimeout"
  | ModelFeatureId.ventconfig => Some "ventconfig"
  | ModelFeatureId.fcu => Some "fcu"
  | ModelFeatureId.pushbdisabled => Some "pushbdisabled"
  | ModelFeatureId.consumptioneventled => Some "consumptioneventled"
  | ModelFeatureId.consumptiontimer => Some "consumptiontimer"
  | ModelFeatureId.jokertempcontrol => Some "jokertempcontrol"
  | ModelFeatureId.Other _ => None
  end.

Definition modelFeatureFromName (x : string) : option ModelFeatureId.t :=
  if String.eqb x "dontcare" then Some ModelFeatureId.dontcare
  else if String.eqb x "blink" then Some ModelFeatureId.blink
  else if String.eqb x "ledauto" then Some ModelFeatureId.ledauto
  else if String.eqb x "leddark" then Some ModelFeatureId.leddark
  else if String.eqb x "transt" then Some ModelFeatureId.transt
  else if String.eqb x "outmode" then Some ModelFeatureId.outmode
  else if String.eqb x "outmodeswitch" then Some ModelFeatureId.outmodeswitch
  else if String.eqb x "outvalue8" then Some ModelFeatureId.outvalue8
  else if String.eqb x "pushbutton" then Some ModelFeatureId.pushbutton
  else if String.eqb x "pushbdevice" then Some ModelFeatureId.pushbdevice
  else if String.eqb x "pushbarea" then Some ModelFeatureId.pushbarea
  else if String.eqb x "pushbadvanced" then Some ModelFeatureId.pushbadvanced
  else if String.eqb x "pushbcombined" then Some ModelFeatureId.pushbcombined
  else if String.eqb x "shadeprops" then Some ModelFeatureId.shadeprops
  else if String.eqb x "shadeposition" then Some ModelFeatureId.shadeposition
  else if String.eqb x "motiontimefins" then Some ModelFeatureId.motiontimefins
  else if String.eqb x "optypeconfig" then Some ModelFeatureId.optypeconfig
  else if String.eqb x "shadebladeang" then Some ModelFeatureId.shadebladeang
  else if String.eqb x "highlevel" then Some ModelFeatureId.highlevel
  else if String.eqb x "consumption" then Some ModelFeatureId.consumption
  else if String.eqb x "jokerconfig" then Some ModelFeatureId.jokerconfig
  else if String.eqb x "akmsensor" then Some ModelFeatureId.akmsensor
  else if String.eqb x "akminput" then Some ModelFeatureId.akminput
  else if String.eqb x "akmdelay" then Some ModelFeatureId.akmdelay
  else if String.eqb x "twowayconfig" then Some ModelFeatureId.twowayconfig
  else if String.eqb x "outputchannels" then Some ModelFeatureId.outputchannels
  else if String.eqb x "heatinggroup" then Some ModelFeatureId.heatinggroup
  else if String.eqb x "heatingoutmode" then Some ModelFeatureId.heatingoutmode
  else if String.eqb x "heatingprops" then Some ModelFeatureId.heatingprops
  else if String.eqb x "pwmvalue" then Some ModelFeatureId.pwmvalue
  else if String.eqb x "valvetype" then Some ModelFeatureId.valvetype
  else if String.eqb x "extradimmer" then Some ModelFeatureId.extradimmer
  else if String.eqb x "umvrelay" then Some ModelFeatureId.umvrelay
  else if String.eqb x "blinkconfig" then Some ModelFeatureId.blinkconfig
  else if String.eqb x "impulseconfig" then Some ModelFeatureId.impulseconfig
  else if String.eqb x "umroutmode" then Some ModelFeatureId.umroutmode
  else if String.eqb x "pushbsensor" then Some ModelFeatureId.pushbsensor
  else if String.eqb x "locationconfig" then Some ModelFeatureId.locationconfig
  else if String.eqb x "windprotectionconfigblind" then Some ModelFeatureId.windprotectionconfigblind
  else if String.eqb x "windprotectionconfigawning" then Some ModelFeatureId.windprotectionconfigawning
  else if String.eqb x "outmodegeneric" then Some ModelFeatureId.outmodegeneric
  else if String.eqb x "outconfigswitch" then Some ModelFeatureId.outconfigswitch
  else if String.eqb x "temperatureoffset" then Some ModelFeatureId.temperatureoffset
  else if String.eqb x "apartmentapplication" then Some ModelFeatureId.apartmentapplication
  else if String.eqb x "ftwtempcontrolventilationselect" then Some ModelFeatureId.ftwtempcontrolventilationselect
  else if String.eqb x "ftwdisplaysettings" then Some ModelFeatureId.ftwdisplaysettings
  else if String.eqb x "ftwbacklighttimeout" then Some ModelFeatureId.ftwbacklighttimeout
  else if String.eqb x "ventconfig" then Some ModelFeatureId.ventconfig
  else if String.eqb x "fcu" then Some ModelFeatureId.fcu
  else if String.eqb x "pushbdisabled" then Some ModelFeatureId.pushbdisabled
  else if String.eqb x "consumptioneventled" then Some ModelFeatureId.consumptioneventled
  else if String.eqb x "consumptiontimer" then Some ModelFeatureId.consumptiontimer
  else if String.eqb x "jokertempcontrol" then Some ModelFeatureId.jokertempcontrol
  else None.

Definition printStatusFieldType (x : StatusFieldType.t) : string := print_named statusFieldTypeName x.

Definition printStatusFieldValue (x : StatusFieldValue.t) : string := print_named statusFieldValueName x.

Definition printHeatingControlMode (x : HeatingControlMode.t) : string := print_named heatingControlModeName x.

Definition printModelFeatureId (x : ModelFeatureId.t) : string := print_named modelFeatureName x.

Definition printBinaryInputType (x : BinaryInputType.t) : string := print_enum (binaryInputTypeText x) x.

Definition printApplicationType (x : ApplicationType.t) : string := print_enum (applicationTypeText x) x.

Definition printButtonInputMode (x : ButtonInputMode.t) : string := print_enum (buttonInputModeText x) x.

(** * Properties *)

(** An enumeration whose names are parsed back. *)
Class NamedEnum (E : Type) := {
  enum_name : E -> option string;
  enum_from_name : string -> option E;
  enum_name_from_name : forall x n, enum_name x = Some n <-> enum_from_name n = Some x
}.

Ltac names_roundtrip :=
  let H := fresh in
  intros x n; split; [destruct x; intros H; [injection H as <-; reflexivity..|discriminate]|];
  repeat (match goal with |- context [String.eqb n ?s] => destruct (String.eqb_spec n s) as [->|?] end;
    [intros H; injection H as <-; reflexivity|]);
  discriminate.

Lemma statusFieldType_names x n : statusFieldTypeName x = Some n <-> statusFieldTypeFromName n = Some x.
Proof. unfold statusFieldTypeFromName. revert x n. names_roundtrip. Qed.

Lemma statusFieldValue_names x n : statusFieldValueName x = Some n <-> statusFieldValueFromName n = Some x.
Proof. unfold statusFieldValueFromName. revert x n. names_roundtrip. Qed.

Lemma heatingControlMode_names x n :
  heatingControlModeName x = Some n <-> heatingControlModeFromName n = Some x.
Proof. unfold heatingControlModeFromName. revert x n. names_roundtrip. Qed.

Lemma modelFeature_names x n : modelFeatureName x = Some n <-> modelFeatureFromName n = Some x.
Proof. unfold modelFeatureFromName. revert x n. names_roundtrip. Qed.

#[export] Instance statusFieldType_named : NamedEnum StatusFieldType.t :=
  {| enum_name_from_name := statusFieldType_names |}.
#[export] Instance statusFieldValue_named : NamedEnum StatusFieldValue.t :=
  {| enum_name_from_name := statusFieldValue_names |}.
#[export] Instance heatingControlMode_named : NamedEnum HeatingControlMode.t :=
  {| enum_name_from_name := heatingControlMode_names |}.
#[export] Instance modelFeature_named : NamedEnum ModelFeatureId.t :=
  {| enum_name_from_name := modelFeature_names |}.

(** Names are unambiguous in every such enumeration. *)
Lemma enum_name_inj {E} `{NamedEnum E} x y n :
  enum_name x = Some n -> enum_name y = Some n -> x = y.
Proof. rewrite !enum_name_from_name. congruence. Qed.

(** The printed names of model features, status fields, status values and
    heating modes and the functions that parse them are inverse to each
    other: every enumerator has a name, parsing it gives the enumerator
    back, and nothing but these names is accepted. *)
Theorem enum_names_roundtrip :
  (forall x n, modelFeatureName x = Some n <-> modelFeatureFromName n = Some x) /\
  (forall x, In x ModelFeatureId.named -> is_Some (modelFeatureName x)) /\
  (forall x n, statusFieldTypeName x = Some n <-> statusFieldTypeFromName n = Some x) /\
  (forall x n, statusFieldValueName x = Some n <-> statusFieldValueFromName n = Some x) /\
  (forall x n, heatingControlModeName x = Some n <-> heatingControlModeFromName n = Some x).
Proof.
  split_and!; [apply (@enum_name_from_name _ modelFeature_named)|
    |apply (@enum_name_from_name _ statusFieldType_named)
    |apply (@enum_name_from_name _ statusFieldValue_named)
    |apply (@enum_name_from_name _ heatingControlMode_named)].
  intros x Hx. destruct x; try (eexists; reflexivity).
  cbn [In ModelFeatureId.named] in Hx. exfalso. by repeat (destruct Hx as [Hx|Hx]; [discriminate|]).
Qed.

(** The classes of groups, as numbers; the control-temperature group is the
    only one in two classes. *)
Definition group_classes (groupId : Z) : list bool :=
  [isDefaultGroup groupId; isAppUserGroup groupId; isZoneUserGroup groupId;
   isControlGroup groupId; isGlobalAppDsGroup groupId; isGlobalAppUserGroup groupId].

Definition class_check (g : Z) : bool :=
  let n := length (List.filter id (group_classes g)) in
  Bool.eqb (isValidGroup g) (((1 <=? g) && (g <=? 55)) || ((64 <=? g) && (g <=? 249))) &&
  Nat.eqb n (if negb (isValidGroup g) then 0%nat else if g =? GroupIDControlTemperature then 2%nat else 1%nat).

Lemma isValidGroup_outside g : g < 0 \/ 255 < g -> isValidGroup g = false /\ group_classes g = repeat false 6.
Proof.
  intros H.
  assert (forall lo hi, 0 <= lo -> hi <= 255 -> (g >=? lo) && (g <=? hi) = false) as Hr by lia.
  assert (g =? GroupIDControlTemperature = false) as He by (unfold GroupIDControlTemperature; lia).
  assert (group_classes g = repeat false 6) as Hc.
  { unfold group_classes, isDefaultGroup, isAppUserGroup, isZoneUserGroup, isControlGroup,
      isGlobalAppDsGroup, isGlobalAppUserGroup. by rewrite !Hr, He by done. }
  split; [|done]. unfold isValidGroup, isGlobalAppGroup. unfold group_classes in Hc.
  injection Hc as -> -> -> -> -> ->. done.
Qed.

Lemma class_check_byte g : 0 <= g < 256 -> class_check g = true.
Proof. apply (zrange_forall class_check 0 256). by_compute. Qed.

(** The valid group numbers are exactly 1 to 55 and 64 to 249, and every
    valid group belongs to exactly one class (default, application user, zone
    user, control, global digitalSTROM, global user), except the control
    temperature group, which is both a default and a control group. *)
Theorem isValidGroup_classes (g : Z) :
  (isValidGroup g = true <-> 1 <= g <= 55 \/ 64 <= g <= 249) /\
  length (List.filter id (group_classes g)) =
    (if negb (isValidGroup g) then 0%nat
     else if g =? GroupIDControlTemperature then 2%nat else 1%nat).
Proof.
  destruct (decide (0 <= g < 256)) as [Hg|Hg].
  - pose proof (class_check_byte g Hg) as H. unfold class_check in H.
    apply andb_true_iff in H as [->%eqb_prop H]. apply Nat.eqb_eq in H. split; [lia|done].
  - destruct (isValidGroup_outside g) as [-> ->]; [lia|]. split; [|done]. split; [done|lia].
Qed.
