(* ===== verification/ModelFeatures.v ===== *)
(** [src/src/model-features.cpp]: which features the devices of a colour and model
    have.  The built-in tables, and the registry that the virtual devices
    extend. *)
From stdpp Require Import base option list strings.
From Stdlib Require Import ZArith Lia Ascii.
From Stdlib Require String.
From S2P Require Import Prelude CxxString NumConv ModelConst.

Open Scope string_scope.
Open Scope list_scope.
Open Scope Z_scope.

(** ** Models *)

Definition KM220 : string := "KM:220".
Definition KM200 : string := "KM:200".
Definition KM2 : string := "KM:2".
Definition KL200 : string := "KL:200".
Definition KL210 : string := "KL:210".
Definition KL220 : string := "KL:220".
Definition KL230 : string := "KL:230".
Definition KL2 : string := "KL:2".
Definition TKM210 : string := "TKM:210".
Definition TKM220 : string := "TKM:220".
Definition TKM230 : string := "TKM:230".
Definition TKM2 : string := "TKM:2".
Definition SDM20 : string := "SDM:20".
Definition SDM2 : string := "SDM:2".
Definition SDS210 : string := "SDS:210".
Definition SDS20 : string := "SDS:20".
Definition SDS22 : string := "SDS:22".
Definition SDS2 : string := "SDS:2".
Definition ZWS2 : string := "ZWS:2".
Definition ZWS205 : string := "ZWS:205".
Definition KL213 : string := "KL:213".
Definition KL214 : string := "KL:214".
Definition UMV204 : string := "UMV:204".
Definition UMV200 : string := "UMV:200".
Definition UMV210 : string := "UMV:210".
Definition UMR200 : string := "UMR:200".
Definition SK20 : string := "SK:20".
Definition SK204 : string := "SK:204".
Definition AKM2 : string := "AKM:2".

(** ** Features *)

Section Features.
Import ModelFeatureId.

Definition MF_AVAILABLE : list ModelFeatureId.t := 
  [dontcare; blink; ledauto; leddark; transt; outmode; outmodeswitch; outvalue8; pushbutton;
   pushbdevice; pushbarea; pushbadvanced; pushbcombined; shadeprops; shadeposition; motiontimefins;
   optypeconfig; shadebladeang; highlevel; consumption; jokerconfig; akmsensor; akminput; akmdelay;
   twowayconfig; outputchannels; heatinggroup; heatingoutmode; heatingprops; pwmvalue; valvetype;
   extradimmer; umvrelay; blinkconfig; umroutmode; pushbsensor; locationconfig;
   windprotectionconfigawning; windprotectionconfigblind; impulseconfig; outmodegeneric;
   outconfigswitch; temperatureoffset; ftwtempcontrolventilationselect; ftwdisplaysettings;
   ftwbacklighttimeout; ventconfig; fcu; pushbdisabled; consumptioneventled; consumptiontimer;
   jokertempcontrol].

Definition MF_GE_KM220 : list ModelFeatureId.t := 
  [dontcare; blink; ledauto; transt; outmode; outvalue8; pushbutton; pushbdevice; pushbarea;
   pushbadvanced; outconfigswitch; impulseconfig; blinkconfig].

Definition MF_GE_KM2 : list ModelFeatureId.t := 
  [dontcare; blink; ledauto; transt; outmode; outvalue8; pushbutton; pushbdevice; pushbarea;
   pushbadvanced; outconfigswitch; impulseconfig; blinkconfig].

Definition MF_GE_KL200 : list ModelFeatureId.t := 
  [dontcare; blink; ledauto; transt; outmodeswitch; outvalue8; pushbutton; pushbdevice; pushbarea;
   pushbadvanced; outconfigswitch; impulseconfig; blinkconfig].

Definition MF_GE_TKM210 : list ModelFeatureId.t := 
  [dontcare; blink; transt; outmode; outvalue8; pushbutton; pushbdevice; pushbarea; pushbadvanced;
   outconfigswitch; impulseconfig; blinkconfig].

Definition MF_GE_TKM220 : list ModelFeatureId.t := 
  [blink; leddark; pushbutton; pushbarea; pushbadvanced].

Definition MF_GE_TKM230 : list ModelFeatureId.t := 
  [blink; leddark; pushbutton; pushbarea; pushbadvanced].

Definition MF_GE_SDM20 : list ModelFeatureId.t := 
  [dontcare; blink; ledauto; transt; outmode; outvalue8; pushbutton; pushbdevice; pushbarea;
   pushbadvanced; outconfigswitch; impulseconfig; blinkconfig].

Definition MF_GE_SDS210 : list ModelFeatureId.t := 
  [dontcare; blink; ledauto; transt; outmode; outvalue8; pushbutton; pushbdevice; pushbarea;
   pushbadvanced; twowayconfig; outconfigswitch; impulseconfig; blinkconfig].

Definition MF_GE_SDS20 : list ModelFeatureId.t := 
  [dontcare; blink; ledauto; transt; outmode; outvalue8; pushbutton; pushbdevice; pushbarea;
   pushbadvanced; pushbcombined; twowayconfig; outconfigswitch; impulseconfig; blinkconfig].

Definition MF_GE_SDS22 : list ModelFeatureId.t := 
  [dontcare; blink; ledauto; transt; outmode; outvalue8; pushbutton; pushbdevice; pushbarea;
   pushbadvanced; pushbcombined; twowayconfig; outconfigswitch; impulseconfig; blinkconfig].

Definition MF_GE_SDS2 : list ModelFeatureId.t := 
  [dontcare; blink; ledauto; transt; outmode; outvalue8; pushbutton; pushbdevice; pushbarea;
   pushbadvanced; twowayconfig; outconfigswitch; impulseconfig; blinkconfig].

Definition MF_GE_ZWS2 : list ModelFeatureId.t := 
  [dontcare; blink; ledauto; transt; outvalue8; pushbutton; pushbdevice; pushbarea; pushbadvanced;
   outconfigswitch; impulseconfig; blinkconfig].

Definition MF_GE_UMV204 : list ModelFeatureId.t := 
  [dontcare; blink; ledauto; transt; outvalue8; pushbutton; pushbdevice; pushbarea; pushbadvanced;
   outconfigswitch; impulseconfig; blinkconfig].

Definition MF_GE_UMV200 : list ModelFeatureId.t := 
  [dontcare; blink; ledauto; transt; outvalue8; pushbutton; pushbdevice; pushbarea; pushbadvanced;
   extradimmer; umvrelay; outconfigswitch; impulseconfig; blinkconfig].

Definition MF_GE_UMV210 : list ModelFeatureId.t := 
  [dontcare; blink; ledauto; transt; outvalue8; pushbutton; pushbdevice; pushbarea; pushbadvanced;
   extradimmer; umvrelay; outputchannels; outconfigswitch; impulseconfig; blinkconfig].

Definition MF_GN_KM2 : list ModelFeatureId.t := 
  [dontcare; blink; ledauto; transt; outmode; outvalue8].

Definition MF_GN_TKM2 : list ModelFeatureId.t := 
  [dontcare; blink; transt; outmode; outvalue8].

Definition MF_RT_KM2 : list ModelFeatureId.t := 
  [dontcare; blink; ledauto; transt; outmode; outvalue8].

Definition MF_RT_TKM2 : list ModelFeatureId.t := 
  [dontcare; blink; transt; outmode; outvalue8].

Definition MF_RT_SDM2 : list ModelFeatureId.t := 
  [blink; leddark; outmode; outvalue8].

Definition MF_GR_KL210 : list ModelFeatureId.t := 
  [dontcare; blink; ledauto; pushbutton; pushbdevice; pushbarea; pushbadvanced; shadeprops;
   shadeposition; locationconfig; windprotectionconfigawning].

Definition MF_GR_KL220 : list ModelFeatureId.t := 
  [dontcare; blink; ledauto; pushbutton; pushbdevice; pushbarea; pushbadvanced; shadeprops;
   shadeposition; motiontimefins; shadebladeang; locationconfig; windprotectionconfigblind].

Definition MF_GR_KL230 : list ModelFeatureId.t := 
  [dontcare; blink; ledauto; shadeprops; shadeposition; motiontimefins; shadebladeang; locationconfig;
   windprotectionconfigblind].

Definition MF_GR_KL2 : list ModelFeatureId.t := 
  [dontcare; blink; ledauto; pushbutton; pushbdevice; pushbarea; pushbadvanced; shadeprops;
   shadeposition; locationconfig; windprotectionconfigblind].

Definition MF_GR_TKM2 : list ModelFeatureId.t := 
  [blink; leddark; pushbutton; pushbarea; pushbadvanced].

Definition MF_BL_KM200 : list ModelFeatureId.t := 
  [dontcare; ledauto; outvalue8; pushbutton; pushbdevice; pushbadvanced; heatinggroup; heatingoutmode;
   heatingprops; pwmvalue; valvetype].

Definition MF_BL_SDS200 : list ModelFeatureId.t := 
  [dontcare; ledauto; outvalue8; pushbutton; pushbdevice; pushbadvanced; heatinggroup; heatingoutmode;
   heatingprops; pwmvalue; valvetype].

Definition MF_BL_KL2 : list ModelFeatureId.t := 
  [dontcare; ledauto].

Definition MF_BL_SK204 : list ModelFeatureId.t := 
  [temperatureoffset; ftwtempcontrolventilationselect; ftwdisplaysettings; ftwbacklighttimeout;
   ventconfig].

Definition MF_TK_TKM2 : list ModelFeatureId.t := 
  [blink; leddark; pushbutton; pushbarea].

Definition MF_GE_TKM2 : list ModelFeatureId.t := 
  [blink; leddark; pushbutton; pushbarea; pushbadvanced; impulseconfig; blinkconfig].

Definition MF_SW_TKM2 : list ModelFeatureId.t := 
  [blink; leddark; pushbutton; pushbarea; pushbadvanced; highlevel; jokerconfig; twowayconfig].

Definition MF_SW_KL2 : list ModelFeatureId.t := 
  [dontcare; blink; ledauto; transt; outvalue8; pushbutton; pushbdevice; pushbarea; pushbadvanced;
   optypeconfig; highlevel; consumption; jokerconfig; outconfigswitch; impulseconfig; blinkconfig].

Definition MF_SW_ZWS2 : list ModelFeatureId.t := 
  [dontcare; blink; ledauto; transt; outvalue8; pushbutton; pushbdevice; pushbarea; pushbadvanced;
   optypeconfig; highlevel; consumption; jokerconfig; outconfigswitch; impulseconfig; blinkconfig].

Definition MF_SW_ZWS205 : list ModelFeatureId.t := 
  [dontcare; blink; ledauto; transt; outvalue8; pushbutton; pushbdevice; pushbarea; pushbadvanced;
   pushbdisabled; heatingprops; highlevel; consumption; consumptioneventled; consumptiontimer;
   jokerconfig; jokertempcontrol; outconfigswitch; impulseconfig; valvetype; blinkconfig].

Definition MF_SW_KL213 : list ModelFeatureId.t := 
  [dontcare; blink; ledauto; transt; outvalue8; optypeconfig; highlevel; consumption; jokerconfig;
   outconfigswitch; impulseconfig; blinkconfig].

Definition MF_SW_KL214 : list ModelFeatureId.t := 
  [dontcare; blink; ledauto; transt; outvalue8; optypeconfig; highlevel; consumption; jokerconfig;
   outconfigswitch; impulseconfig; blinkconfig].

Definition MF_SW_SDS20 : list ModelFeatureId.t := 
  [blink; leddark; pushbutton; pushbarea; pushbadvanced; highlevel; jokerconfig; twowayconfig].

Definition MF_SW_SDS22 : list ModelFeatureId.t := 
  [blink; leddark; pushbutton; pushbarea; pushbadvanced; highlevel; jokerconfig; twowayconfig].

Definition MF_SW_AKM2 : list ModelFeatureId.t := 
  [akmsensor; akminput; akmdelay].

Definition MF_SW_UMR200 : list ModelFeatureId.t := 
  [blink; dontcare; outvalue8; pushbutton; pushbsensor; pushbarea; pushbadvanced; highlevel;
   jokerconfig; twowayconfig; akminput; akmsensor; akmdelay; blinkconfig; impulseconfig; umroutmode;
   outconfigswitch].

Definition MF_SW_SK20 : list ModelFeatureId.t := 
  [temperatureoffset].

End Features.

(** What the constructor registers, in order. *)
Definition builtin : list (Z * string * list ModelFeatureId.t) :=
  [(ColorIDYellow, KM220, MF_GE_KM220); (ColorIDYellow, KM2, MF_GE_KM2); (ColorIDYellow, KL200, MF_GE_KL200);
   (ColorIDYellow, TKM210, MF_GE_TKM210); (ColorIDYellow, TKM220, MF_GE_TKM220); (ColorIDYellow, TKM230, MF_GE_TKM230);
   (ColorIDYellow, SDM20, MF_GE_SDM20); (ColorIDYellow, SDS210, MF_GE_SDS210); (ColorIDYellow, SDS20, MF_GE_SDS20);
   (ColorIDYellow, SDS22, MF_GE_SDS22); (ColorIDYellow, SDS2, MF_GE_SDS2); (ColorIDYellow, ZWS2, MF_GE_ZWS2);
   (ColorIDYellow, UMV204, MF_GE_UMV204); (ColorIDYellow, UMV200, MF_GE_UMV200); (ColorIDYellow, UMV210, MF_GE_UMV210);
   (ColorIDGreen, KM2, MF_GN_KM2); (ColorIDGreen, TKM2, MF_GN_TKM2); (ColorIDRed, KM2, MF_RT_KM2);
   (ColorIDRed, TKM2, MF_RT_TKM2); (ColorIDRed, SDM2, MF_RT_SDM2); (ColorIDGray, KL210, MF_GR_KL210);
   (ColorIDGray, KL220, MF_GR_KL220); (ColorIDGray, KL230, MF_GR_KL230); (ColorIDGray, KL2, MF_GR_KL2);
   (ColorIDGray, TKM2, MF_GR_TKM2); (ColorIDBlue, KM200, MF_BL_KM200); (ColorIDBlue, SDS2, MF_BL_SDS200);
   (ColorIDBlue, KL2, MF_BL_KL2); (ColorIDBlue, SK204, MF_BL_SK204); (ColorIDYellow, TKM2, MF_GE_TKM2);
   (ColorIDCyan, TKM2, MF_TK_TKM2); (ColorIDBlack, TKM2, MF_SW_TKM2); (ColorIDBlack, KL2, MF_SW_KL2);
   (ColorIDBlack, ZWS2, MF_SW_ZWS2); (ColorIDBlack, ZWS205, MF_SW_ZWS205); (ColorIDBlack, KL213, MF_SW_KL213);
   (ColorIDBlack, KL214, MF_SW_KL214); (ColorIDBlack, SDS20, MF_SW_SDS20); (ColorIDBlack, SDS22, MF_SW_SDS22);
   (ColorIDBlack, AKM2, MF_SW_AKM2); (ColorIDBlack, UMR200, MF_SW_UMR200); (ColorIDBlack, SK20, MF_SW_SK20)].

(** * The registry *)

(** [m_features]: for each colour the models, in the order they were added. *)
Notation FeatureTable := (list (list (string * list ModelFeatureId.t))).

Implicit Types m_features : FeatureTable.

Definition setFeatures (_color : Z) (_model : string) (_features : option (list ModelFeatureId.t)) m_features : res FeatureTable :=
  if is_empty _model then Throw (RuntimeError "can't add model features: missing model key")
  else
    match _features with
    | None => Throw (RuntimeError ("invalid feature array" +:+ String "010" ""))
    | Some fv =>
      if (_color <? ColorIDYellow) || (_color >? ColorIDWhite) then
        Throw (RuntimeError "can not save feature: unsupported device color")
      else
        match m_features !! Z.to_nat _color with
        | None => Throw (OutOfRange "vector::_M_range_check")
        | Some models =>
          if existsb (fun p => String.eqb (fst p) _model) models then Ok m_features
          else Ok (<[Z.to_nat _color := models ++ [(_model, fv)]]> m_features)
        end
    end.

Definition getFeatures (_color : Z) m_features : res (list (string * list ModelFeatureId.t)) :=
  if (_color <? ColorIDYellow) || (_color >? ColorIDWhite) then
    Throw (RuntimeError "can not retrieve features: unsupported device color")
  else if (length m_features =? 0)%nat then Throw (RuntimeError "zero sized features vector!")
  else
    match m_features !! Z.to_nat _color with
    | None => Throw (OutOfRange "vector::_M_range_check")
    | Some models => Ok models
    end.

Fixpoint register (l : list (Z * string * list ModelFeatureId.t)) m_features : res FeatureTable :=
  match l with
  | [] => Ok m_features
  | (color, model, fv) :: l => m ← setFeatures color model (Some fv) m_features; register l m
  end.

(** [ModelFeatures::ModelFeatures] *)
Definition new_ModelFeatures : res FeatureTable := register builtin (repeat [] (Z.to_nat (ColorIDWhite + 1))).

Definition colorToString (_color : Z) : res string :=
  if _color =? ColorIDYellow then Ok "GE"
  else if _color =? ColorIDGray then Ok "GR"
  else if _color =? ColorIDBlue then Ok "BL"
  else if _color =? ColorIDCyan then Ok "TK"
  else if _color =? ColorIDViolet then Ok "MG"
  else if _color =? ColorIDRed then Ok "RT"
  else if _color =? ColorIDGreen then Ok "GN"
  else if _color =? ColorIDBlack then Ok "SW"
  else if _color =? ColorIDWhite then Ok "WE"
  else Throw (RuntimeError "unknown color").

Definition getAvailableFeatures : list ModelFeatureId.t := MF_AVAILABLE.

(** * Facts *)

Definition is_color (c : Z) : Prop := ColorIDYellow <= c <= ColorIDWhite.

(** One list per colour, and every model of a colour once. *)
Definition features_ok m_features : Prop :=
  length m_features = 10%nat /\ Forall (fun models => NoDup (map fst models)) m_features.

Lemma is_color_checks c : is_color c -> (c <? ColorIDYellow) || (c >? ColorIDWhite) = false.
Proof. unfold is_color, ColorIDYellow, ColorIDWhite. lia. Qed.

Lemma features_at m c : length m = 10%nat -> is_color c -> exists models, (m : FeatureTable) !! Z.to_nat c = Some models.
Proof. intros Hl Hc. apply lookup_lt_is_Some. rewrite Hl. unfold is_color, ColorIDYellow, ColorIDWhite in Hc. lia. Qed.

Lemma known_model (models : list (string * list ModelFeatureId.t)) model :
  existsb (fun p => String.eqb (fst p) model) models = bool_decide (model ∈ map fst models).
Proof.
  induction models as [|[n f] l IH]; [done|]. cbn [existsb map fst].
  rewrite IH. destruct (String.eqb_spec n model) as [->|Hne]; cbn [orb].
  - symmetry. apply bool_decide_eq_true_2. left.
  - apply bool_decide_ext. rewrite elem_of_cons. naive_solver.
Qed.

Lemma setFeatures_run c model fv m models : features_ok m -> is_color c -> is_empty model = false ->
  m !! Z.to_nat c = Some models ->
  setFeatures c model (Some fv) m =
    Ok (if bool_decide (model ∈ map fst models) then m else <[Z.to_nat c := models ++ [(model, fv)]]> m).
Proof.
  intros [Hl Hm] Hc Hn Hlk. unfold setFeatures. rewrite Hn, is_color_checks, Hlk, known_model by done.
  by case_bool_decide.
Qed.

Lemma setFeatures_keeps c model fv m m' : features_ok m -> setFeatures c model fv m = Ok m' -> features_ok m'.
Proof.
  intros [Hl Hm]. unfold setFeatures. destruct (is_empty model); [done|]. destruct fv as [fv|]; [|done].
  destruct (_ || _); [done|]. destruct (m !! Z.to_nat c) as [models|] eqn:E; [|done]. rewrite known_model.
  case_bool_decide as Hin; intros [= <-]; [done|]. split; [by rewrite length_insert|].
  apply Forall_insert; [done|]. rewrite map_app. apply NoDup_app. split_and!.
  - exact (Forall_lookup_1 _ _ _ _ Hm E).
  - intros x Hx ->%list_elem_of_singleton. done.
  - apply NoDup_singleton.
Qed.

(** What is registered for a model; the first registration of a list for it. *)
Definition registered (c : Z) (model : string) m_features : option (list ModelFeatureId.t) :=
  models ← m_features !! Z.to_nat c; snd <$> List.find (fun p => String.eqb (fst p) model) models.

Definition first_of (c : Z) (model : string) (l : list (Z * string * list ModelFeatureId.t)) : option (list ModelFeatureId.t) :=
  snd <$> List.find (fun r => Z.eqb (fst (fst r)) c && String.eqb (snd (fst r)) model) l.

Definition valid_registration (r : Z * string * list ModelFeatureId.t) : Prop :=
  is_color (fst (fst r)) /\ is_empty (snd (fst r)) = false.

Lemma registered_set c model fv m m' c' model' : features_ok m -> valid_registration (c, model, fv) ->
  is_color c' -> setFeatures c model (Some fv) m = Ok m' ->
  registered c' model' m' =
    match registered c' model' m with
    | Some f => Some f
    | None => if Z.eqb c c' && String.eqb model model' then Some fv else None
    end.
Proof.
  intros Hm [Hc Hn] Hc' Hset. cbn [fst snd] in Hc, Hn. destruct (features_at m c (proj1 Hm) Hc) as [models E].
  rewrite (setFeatures_run _ _ _ _ models) in Hset by done. injection Hset as <-. unfold registered.
  assert (forall l, bool_decide (model' ∈ map fst l) = false ->
    List.find (fun p : string * list ModelFeatureId.t => String.eqb (fst p) model') l = None) as Hfind.
  { intros l. rewrite <- known_model. induction l as [|p l IH]; [done|]. cbn.
    by destruct (String.eqb (fst p) model'). }
  destruct (Z.eqb_spec c c') as [<-|Hcc]; cbn [andb].
  - rewrite E. cbn [mbind option_bind]. case_bool_decide as Hin.
    + rewrite E. cbn. destruct (List.find _ models) as [p|] eqn:Ef; [done|]. cbn.
      destruct (String.eqb_spec model model') as [<-|]; [|done]. exfalso.
      apply list_elem_of_fmap in Hin as ([x f] & Ex & Hx). apply list_elem_of_In in Hx.
      apply (List.find_none _ _ Ef) in Hx. cbn in Hx, Ex. rewrite Ex, String.eqb_refl in Hx. done.
    + rewrite list_lookup_insert_eq by (by eapply lookup_lt_Some). cbn.
      rewrite find_app_or. destruct (List.find _ models) as [p|] eqn:Ef; [done|]. cbn.
      by destruct (String.eqb model model').
  - assert (Z.to_nat c <> Z.to_nat c') as Hne.
    { unfold is_color, ColorIDYellow, ColorIDWhite in *. lia. }
    case_bool_decide; [|rewrite list_lookup_insert_ne by done]; by destruct (_ ≫= _).
Qed.

Lemma register_first l m : features_ok m -> Forall valid_registration l ->
  exists m', register l m = Ok m' /\ features_ok m' /\
    forall c model, is_color c -> registered c model m' =
      match registered c model m with Some f => Some f | None => first_of c model l end.
Proof.
  intros Hm Hl. revert m Hm. induction Hl as [|[[c model] fv] l Hr Hl IH]; intros m Hm.
  - exists m. split; [done|]. split; [done|]. intros c model _. by destruct (registered c model m).
  - destruct (features_at m c (proj1 Hm) (proj1 Hr)) as [models E].
    pose proof (setFeatures_run c model fv m models Hm (proj1 Hr) (proj2 Hr) E) as Hset.
    set (m1 := if bool_decide _ then _ else _) in Hset.
    destruct (IH m1 (setFeatures_keeps _ _ _ _ _ Hm Hset)) as (m' & Er & Hok & Hreg).
    exists m'. cbn [register]. rewrite Hset. split; [done|]. split; [done|]. intros c' model' Hc'.
    rewrite Hreg, (registered_set _ _ _ _ _ c' model' Hm Hr Hc' Hset) by done. unfold first_of at 2. cbn [List.find fst snd].
    destruct (registered c' model' m); [done|]. by destruct (Z.eqb c c' && String.eqb model model').
Qed.

(** The built-in registration succeeds. *)
Lemma new_ModelFeatures_ok : exists m, new_ModelFeatures = Ok m /\ features_ok m.
Proof. eexists. split; [by vm_compute|]. split; [done|]. apply (bool_decide_unpack _). by vm_compute. Qed.

Lemma builtin_available :
  forallb (fun r => forallb (fun x => bool_decide (x ∈ getAvailableFeatures)) (snd r)) builtin = true.
Proof. by vm_compute. Qed.

Lemma builtin_valid : Forall valid_registration builtin.
Proof. repeat constructor; discriminate. Qed.

(** The registry of model features keeps what was registered first.  Starting
    the program registers its own tables; whatever virtual devices add
    afterwards, every request succeeds, the features of a model in a colour are
    those of the first registration for it, so that the built-in ones are never
    replaced, no model is listed twice, and the tables name only features that
    the program lists as available. *)
Theorem model_features_first_wins (l : list (Z * string * list ModelFeatureId.t)) :
  Forall valid_registration l ->
  exists m0 m, new_ModelFeatures = Ok m0 /\ register l m0 = Ok m /\ features_ok m /\
    (forall c model, is_color c -> registered c model m = first_of c model (builtin ++ l)) /\
    (forall c, is_color c -> exists models, getFeatures c m = Ok models /\ NoDup (map fst models)) /\
    forallb (fun r => forallb (fun x => bool_decide (x ∈ getAvailableFeatures)) (snd r)) builtin = true.
Proof.
  intros Hl. destruct (register_first builtin (repeat [] 10)) as (m0 & E0 & Hok0 & H0).
  { split; [done|]. repeat constructor. }
  { apply builtin_valid. }
  destruct (register_first l m0 Hok0 Hl) as (m & E & Hok & H). exists m0, m. split_and!; [done..| | |apply builtin_available].
  - intros c model Hc. rewrite H, H0 by done. unfold first_of. rewrite find_app_or.
    assert (registered c model (repeat [] 10) = None) as ->.
    { unfold registered. destruct (repeat [] 10 !! Z.to_nat c) as [models|] eqn:Ec; [|done].
      by apply list_elem_of_lookup_2, list_elem_of_In, repeat_spec in Ec as ->. }
    by destruct (List.find _ builtin).
  - intros c Hc. destruct (features_at m c (proj1 Hok) Hc) as [models Em]. exists models. unfold getFeatures.
    rewrite is_color_checks, Em by done. destruct m as [|x m']; [done|]. split; [done|].
    exact (Forall_lookup_1 _ _ _ _ (proj2 Hok) Em).
Qed.

(** A virtual device adds a model of its own and one that is there already. *)
Lemma model_features_first_wins_witness :
  exists m0 m, new_ModelFeatures = Ok m0 /\
    register [(ColorIDWhite, "my model", [ModelFeatureId.blink]); (ColorIDBlack, SK20, [])] m0 = Ok m.
Proof.
  destruct (model_features_first_wins [(ColorIDWhite, "my model", [ModelFeatureId.blink]); (ColorIDBlack, SK20, [])])
    as (m0 & m & E0 & E & _).
  - repeat constructor; discriminate.
  - exists m0, m. split; [exact E0|exact E].
Defined.
