(* ===== verification/DataTypes.v ===== *)
(** [src/src/model/data_types.h] and [data_types.cpp], [deviceinterface.h] and
    [businterface.h]: small enumerations and plain structures. *)
From stdpp Require Import base option list strings.
From Stdlib Require Import ZArith Lia Ascii.
From Stdlib Require String.
From S2P Require Import Prelude CxxString ModelConst.

Open Scope string_scope.
Open Scope Z_scope.

(** * Directions *)

(** [CardinalDirection_t], an [unsigned int] that may hold other values. *)
Definition cd_none : Z := 0.
Definition cd_north : Z := 1.
Definition cd_north_east : Z := 2.
Definition cd_east : Z := 3.
Definition cd_south_east : Z := 4.
Definition cd_south : Z := 5.
Definition cd_south_west : Z := 6.
Definition cd_west : Z := 7.
Definition cd_north_west : Z := 8.
Definition cd_last : Z := 9.

Definition cd_valid (_direction : Z) : bool := (cd_none <=? _direction) && (_direction <? cd_last).

Definition cd_toString (_direction : Z) : string :=
  switch _direction
    [([cd_north], "north"); ([cd_north_east], "north east"); ([cd_east], "east"); ([cd_south_east], "south east");
     ([cd_south], "south"); ([cd_south_west], "south west"); ([cd_west], "west"); ([cd_north_west], "north west")]
    "none".

Definition cd_toUIString (_direction : Z) : string :=
  switch _direction
    [([cd_north], "North"); ([cd_north_east], "North-East"); ([cd_east], "East"); ([cd_south_east], "South-East");
     ([cd_south], "South"); ([cd_south_west], "South-West"); ([cd_west], "West"); ([cd_north_west], "North-West")]
    "none".

(** [None]: false, and [*_out] is not written. *)
Definition parseCardinalDirection (_direction : string) : option Z :=
  if String.eqb _direction "none" then Some cd_none
  else if String.eqb _direction "north" then Some cd_north
  else if String.eqb _direction "north east" then Some cd_north_east
  else if String.eqb _direction "east" then Some cd_east
  else if String.eqb _direction "south east" then Some cd_south_east
  else if String.eqb _direction "south" then Some cd_south
  else if String.eqb _direction "south west" then Some cd_south_west
  else if String.eqb _direction "west" then Some cd_west
  else if String.eqb _direction "north west" then Some cd_north_west
  else None.

(** * Wind protection *)

Definition wpc_none : Z := 0.
Definition wpc_awning_class_1 : Z := 1.
Definition wpc_awning_class_2 : Z := 2.
Definition wpc_awning_class_3 : Z := 3.
Definition wpc_blind_class_1 : Z := 4.
Definition wpc_blind_class_2 : Z := 5.
Definition wpc_blind_class_3 : Z := 6.
Definition wpc_blind_class_4 : Z := 7.
Definition wpc_blind_class_5 : Z := 8.
Definition wpc_blind_class_6 : Z := 9.
Definition wpc_last : Z := 10.

Definition wpc_valid (_class : Z) : bool := (wpc_none <=? _class) && (_class <? wpc_last).

Definition wpc_toUIString (_wpClass : Z) : string :=
  switch _wpClass
    [([wpc_awning_class_1], "Class 1 - 7.8m/s"); ([wpc_awning_class_2], "Class 2 - 10.6m/s");
     ([wpc_awning_class_3], "Class 3 - 13.6m/s"); ([wpc_blind_class_1], "Class 1 - 9.0m/s");
     ([wpc_blind_class_2], "Class 2 - 10.7m/s"); ([wpc_blind_class_3], "Class 3 - 12.8m/s");
     ([wpc_blind_class_4], "Class 4 - 16.7/s"); ([wpc_blind_class_5], "Class 5 - 21.0m/s");
     ([wpc_blind_class_6], "Class 6 - 25.6m/s")] "none".

Definition convertWindProtectionClass (_class : Z) : option Z :=
  if wpc_last <=? _class then None else Some _class.

Definition getOutputChannelSize (type : Z) : Z := if (type =? 7) || (type =? 8) then 1 else 0.

(** * Origins of calls *)

Definition coUnknown : Z := 0.
Definition coJSScripting : Z := 1.
Definition coJSON : Z := 2.
Definition coSubscription : Z := 4.
Definition coTest : Z := 6.
Definition coSystem : Z := 7.
Definition coSystemBinaryInput : Z := 8.
Definition coDsmApi : Z := 9.
Definition coSystemStartup : Z := 10.
Definition coLast : Z := 11.

Definition validOrigin (origin : Z) : bool := (origin <? coLast) && negb (origin =? 5) && negb (origin =? 3).

(** * Heating *)

Record ZoneHeatingConfigSpec_t := mkHeatingConfig {
  hc_mode : HeatingControlMode.t; hc_Kp : Z; hc_Ts : Z; hc_Ti : Z; hc_Kd : Z; hc_Imin : Z; hc_Imax : Z;
  hc_Ymin : Z; hc_Ymax : Z; hc_AntiWindUp : Z; hc_KeepFloorWarm : Z; hc_SourceZoneId : Z; hc_Offset : Z;
  hc_EmergencyValue : Z; hc_ManualValue : Z
}.

(** [opModes] *)
Definition ZoneHeatingOperationModeSpec_t := list Z.

(** * Facts *)

(** The directions and their names. *)
Lemma direction_roundtrip d :
  (cd_valid d = true -> parseCardinalDirection (cd_toString d) = Some d) /\
  (forall s, parseCardinalDirection s = Some d -> cd_toString d = s /\ cd_valid d = true).
Proof.
  split.
  - intros H. unfold cd_valid, cd_none, cd_last in H. reflect_bools.
    assert (0 <= d < 0 + Z.of_nat 9) as Hd by lia.
    apply (zrange_forall (fun d => bool_decide (parseCardinalDirection (cd_toString d) = Some d))) in Hd; [|by_compute].
    by apply bool_decide_eq_true in Hd.
  - intros s. unfold parseCardinalDirection. repeat (case_cond; [reflect_bools; subst; by intros [= <-]|]). done.
Qed.
