(* ===== verification/SensorConversion.v ===== *)
(** [src/src/model/modelconst.cpp], [sensorValueToDouble] and
    [doubleToSensorValue]: the conversion of 12-bit sensor values to physical
    values, on IEEE binary64 numbers. *)
From stdpp Require Import base option list strings gmap.
From Stdlib Require Import ZArith Lia Ascii Uint63 PrimFloat FloatOps.
From Stdlib Require String.
From S2P Require Import Prelude CxxString FloatConv ModelConst.

Open Scope string_scope.
Open Scope Z_scope.

(** * The conversions *)

Section Conversion.
(** [pow(10, x)] and [log10] of the C library. *)
Context (pow10 log10 : float -> float).

Definition roundDigits (input : float) (digits : Z) : float :=
  let output := (input * pow10 (of_int digits))%float in
  let output := round output in
  (output / pow10 (of_int digits))%float.

Definition sensorValueToDouble (_sensorType : SensorType.t) (_sensorValue : Z) : res float :=
  let v := of_int _sensorValue in
  match _sensorType with
  | SensorType.Status | SensorType.ActivePower | SensorType.OutputCurrent
  | SensorType.ActivePowerVA => Ok v
  | SensorType.ElectricMeter => Ok (roundDigits (v * 0.01)%float 2)
  | SensorType.OutputCurrent16A => x ← int_checked (_sensorValue * 4); Ok (of_int x)
  | SensorType.TemperatureIndoors | SensorType.TemperatureOutdoors
  | SensorType.RoomTemperatureSetpoint =>
      Ok (roundDigits (v * 0.1 / 4 - 273.15 + 230.0)%float 3)
  | SensorType.BrightnessIndoors | SensorType.BrightnessOutdoors
  | SensorType.CO2Concentration | SensorType.COConcentration =>
      Ok (roundDigits (pow10 (v / 800.0)%float) 4)
  | SensorType.HumidityIndoors | SensorType.HumidityOutdoors =>
      Ok (roundDigits (v * 0.1 / 4)%float 3)
  | SensorType.WindSpeed | SensorType.GustSpeed => Ok (roundDigits (v * 0.1 / 4)%float 3)
  | SensorType.SoundPressureLevel => Ok (roundDigits (v * 0.25 / 4)%float 3)
  | SensorType.RoomTemperatureControlVariable =>
      x ← int_checked (_sensorValue - 100); Ok (of_int x)
  | SensorType.WindDirection | SensorType.GustDirection => Ok (roundDigits (v * 0.5 / 4)%float 3)
  | SensorType.Precipitation => Ok (roundDigits (v * 0.1 / 4)%float 3)
  | SensorType.AirPressure => Ok (roundDigits (v / 4.0 + 200)%float 3)
  | SensorType.Reserved1 | SensorType.Reserved2 | SensorType.NotUsed | SensorType.UnknownType => Ok v
  | SensorType.Other _ => Ok v
  end.

(** [if (v < lo || v > hi) throw DSSException(what);] *)
Definition in_range_or (v lo hi : float) (what : string) : res unit :=
  if (v <? lo)%float || (hi <? v)%float then Throw (DSSException ("Value must be in range [" +:+ what +:+ "]"))
  else Ok tt.

Definition doubleToSensorValue (_sensorType : SensorType.t) (_sensorValue : float) : res Z :=
  match _sensorType with
  | SensorType.Status | SensorType.ActivePower | SensorType.OutputCurrent
  | SensorType.ActivePowerVA =>
      _ ← in_range_or _sensorValue 0 4095 "0..4095";
      to_int (_sensorValue + 0.5)
  | SensorType.ElectricMeter =>
      _ ← in_range_or _sensorValue 0 40.95 "0..40.95";
      to_int ((_sensorValue + 0.005) / 0.01)
  | SensorType.OutputCurrent16A =>
      _ ← in_range_or _sensorValue 0 16380 "0..16380";
      to_int ((_sensorValue + 2) / 4)
  | SensorType.TemperatureIndoors | SensorType.TemperatureOutdoors
  | SensorType.RoomTemperatureSetpoint =>
      _ ← in_range_or _sensorValue (-43.15) 59.225 "-43.15..59.225";
      to_int ((_sensorValue + 0.0125 + 273.15 - 230.0) * 4 / 0.1)
  | SensorType.BrightnessIndoors | SensorType.BrightnessOutdoors
  | SensorType.CO2Concentration | SensorType.COConcentration =>
      _ ← in_range_or _sensorValue 1 131446.795 "1..131446.795";
      to_int (800 * log10 _sensorValue)
  | SensorType.HumidityIndoors | SensorType.HumidityOutdoors =>
      _ ← in_range_or _sensorValue 0 102.375 "0..102.375";
      to_int ((_sensorValue + 0.0125) * 4 / 0.1)
  | SensorType.WindSpeed | SensorType.GustSpeed =>
      _ ← in_range_or _sensorValue 0 102.375 "0..102.375";
      to_int ((_sensorValue + 0.0125) * 4 / 0.1)
  | SensorType.SoundPressureLevel =>
      _ ← in_range_or _sensorValue 0 255.938 "0..255.938";
      to_int ((_sensorValue + 0.0125) * 4 / 0.25)
  | SensorType.RoomTemperatureControlVariable =>
      _ ← in_range_or _sensorValue (-100) 100 "-100..100";
      to_int (_sensorValue + 0.5 + 100)
  | SensorType.WindDirection | SensorType.GustDirection =>
      _ ← in_range_or _sensorValue 0 511.875 "0..511.875";
      to_int ((_sensorValue + 0.0625) * 8)
  | SensorType.Precipitation =>
      _ ← in_range_or _sensorValue 0 102.375 "0..102.375";
      to_int ((_sensorValue + 0.0125) * 4 / 0.1)
  | SensorType.AirPressure =>
      _ ← in_range_or _sensorValue 200 1223.75 "200..1223.75";
      to_int ((_sensorValue + 0.125 - 200) * 4)
  | SensorType.Reserved1 | SensorType.Reserved2 | SensorType.NotUsed | SensorType.UnknownType =>
      to_int (_sensorValue + 0.5)
  | SensorType.Other _ => to_int (_sensorValue + 0.5)
  end%float.
End Conversion.

(** * Round trip *)

Definition is_logarithmic (t : SensorType.t) : bool :=
  match t with
  | SensorType.BrightnessIndoors | SensorType.BrightnessOutdoors
  | SensorType.CO2Concentration | SensorType.COConcentration => true
  | _ => false
  end.

(** The largest sensor value: 12 bits, or 200 for the control variable, whose
    physical range is -100 to 100. *)
Definition max_sensor_value (t : SensorType.t) : Z :=
  match t with SensorType.RoomTemperatureControlVariable => 200 | _ => 4095 end.

(** Types that share their formulas. *)
Definition representative (t : SensorType.t) : SensorType.t :=
  match t with
  | SensorType.Status | SensorType.ActivePower | SensorType.OutputCurrent
  | SensorType.ActivePowerVA => SensorType.Status
  | SensorType.TemperatureIndoors | SensorType.TemperatureOutdoors
  | SensorType.RoomTemperatureSetpoint => SensorType.TemperatureIndoors
  | SensorType.HumidityIndoors | SensorType.HumidityOutdoors | SensorType.WindSpeed
  | SensorType.GustSpeed | SensorType.Precipitation => SensorType.HumidityIndoors
  | SensorType.WindDirection | SensorType.GustDirection => SensorType.WindDirection
  | SensorType.Reserved1 | SensorType.Reserved2 | SensorType.NotUsed | SensorType.UnknownType
  | SensorType.Other _ => SensorType.UnknownType
  | t => t
  end.

(** The powers of ten that [roundDigits] uses. *)
Definition pow10_table (x : float) : float :=
  if (x =? 2)%float then 100 else if (x =? 3)%float then 1000 else 10000.

Definition roundtrip_check (t : SensorType.t) (v : Z) : bool :=
  match sensorValueToDouble pow10_table t v with
  | Ok d => match doubleToSensorValue pow10_table t d with Ok v' => v' =? v | Throw _ => false end
  | Throw _ => false
  end.

Definition linear_representatives : list SensorType.t :=
  [SensorType.Status; SensorType.ElectricMeter; SensorType.OutputCurrent16A;
   SensorType.TemperatureIndoors; SensorType.HumidityIndoors; SensorType.SoundPressureLevel;
   SensorType.WindDirection; SensorType.AirPressure; SensorType.UnknownType;
   SensorType.RoomTemperatureControlVariable].

Lemma roundtrip_exhaustive :
  forallb (fun t => forallb (roundtrip_check t) (zrange 0 (Z.to_nat (max_sensor_value t + 1))))
    linear_representatives = true.
Proof. by_compute. Qed.

Lemma representative_linear t :
  is_logarithmic t = false -> In (representative t) linear_representatives.
Proof. destruct t; intros H; try discriminate; cbn; tauto. Qed.

Section RoundTrip.
Context (pow10 log10 : float -> float).
(** [pow] is exact for these arguments. *)
Hypothesis pow10_2 : pow10 2 = 100%float.
Hypothesis pow10_3 : pow10 3 = 1000%float.

Lemma roundDigits_table x d :
  d = 2 \/ d = 3 -> roundDigits pow10 x d = roundDigits pow10_table x d.
Proof.
  unfold roundDigits. intros [-> | ->].
  - change (of_int 2) with 2%float. by rewrite pow10_2.
  - change (of_int 3) with 3%float. by rewrite pow10_3.
Qed.

Lemma linear_to_double t v :
  is_logarithmic t = false ->
  sensorValueToDouble pow10 t v = sensorValueToDouble pow10_table (representative t) v.
Proof. destruct t; intros H; try discriminate; cbn [representative sensorValueToDouble]; rewrite ?roundDigits_table; auto. Qed.

Lemma linear_to_sensor t d :
  is_logarithmic t = false ->
  doubleToSensorValue log10 t d = doubleToSensorValue pow10_table (representative t) d.
Proof. by destruct t. Qed.

Lemma linear_roundtrip (t : SensorType.t) (v : Z) :
  is_logarithmic t = false -> 0 <= v <= max_sensor_value t ->
  exists d, sensorValueToDouble pow10 t v = Ok d /\ doubleToSensorValue log10 t d = Ok v.
Proof.
  intros Ht Hv. pose proof roundtrip_exhaustive as H. rewrite forallb_forall in H.
  specialize (H _ (representative_linear t Ht)).
  assert (max_sensor_value (representative t) = max_sensor_value t) as Hm by by destruct t.
  pose proof (zrange_forall _ _ _ H v) as Hc. rewrite Hm in Hc.
  unfold roundtrip_check in Hc. rewrite <- linear_to_double in Hc by done.
  destruct (sensorValueToDouble pow10 t v) as [d|]; [|specialize (Hc ltac:(lia)); done].
  exists d. split; [done|]. rewrite linear_to_sensor by done.
  destruct (doubleToSensorValue _ _ _); specialize (Hc ltac:(lia)); [|done].
  by apply Z.eqb_eq in Hc as ->.
Qed.

(** C35: converting a sensor value to its physical value and back gives the
    same sensor value, for every 12-bit value of every sensor type with a
    linear scale (for the control variable: for every value up to 200, where
    its range ends); neither direction throws.  The conversions are computed
    in binary64 arithmetic as written, the only assumption being that
    [pow(10, 2)] and [pow(10, 3)] are exact. *)
Theorem sensorValue_roundtrip (t : SensorType.t) (v : Z) :
  is_logarithmic t = false -> 0 <= v <= max_sensor_value t ->
  exists d, sensorValueToDouble pow10 t v = Ok d /\ doubleToSensorValue log10 t d = Ok v.
Proof. apply linear_roundtrip. Qed.
End RoundTrip.

Lemma sensorValue_roundtrip_witness :
  exists d, sensorValueToDouble pow10_table SensorType.TemperatureIndoors 1732 = Ok d /\
            doubleToSensorValue pow10_table SensorType.TemperatureIndoors d = Ok 1732.
Proof.
  apply (sensorValue_roundtrip pow10_table pow10_table eq_refl eq_refl SensorType.TemperatureIndoors 1732);
    [reflexivity|split; vm_compute; discriminate].
Defined.

(** A NaN passes every range check: all comparisons with it are false. *)
Lemma doubleToSensorValue_nan log10 t :
  is_logarithmic t = false ->
  doubleToSensorValue log10 t nan = Throw (UndefinedBehaviour "conversion of a non-finite value").
Proof. destruct t; intros H; try discriminate; reflexivity. Qed.
