(* ===== verification/SceneHelper.v ===== *)
(** [src/src/model/scenehelper.cpp]: successors of scenes for push buttons,
    scenes that are remembered, light and heating state, names and the scenes
    a button reaches.  A C++ [unsigned int] scene is a nonnegative [Z]. *)
From stdpp Require Import base option list strings gmap.
From Stdlib Require Import ZArith Lia Ascii.
From Stdlib Require String.
From S2P Require Import Prelude CxxString ModelConst.

Open Scope string_scope.
Open Scope Z_scope.

Definition getNextScene (_currentScene : Z) : Z :=
  switch _currentScene
    [([SceneOff], Scene1); ([Scene1], Scene2); ([Scene2], Scene3); ([Scene3], Scene4);
     ([Scene4], Scene2); ([SceneOnE1], Scene12); ([Scene12], Scene13); ([Scene13], Scene14);
     ([Scene14], Scene12); ([SceneOnE2], Scene22); ([Scene22], Scene23);
     ([Scene23], Scene24); ([Scene24], Scene22); ([SceneOnE3], Scene32);
     ([Scene32], Scene33); ([Scene33], Scene34); ([Scene34], Scene32);
     ([SceneOnE4], Scene42); ([Scene42], Scene43); ([Scene43], Scene44); ([Scene44], Scene42)]
    SceneOff.

Definition getPreviousScene (_currentScene : Z) : Z :=
  switch _currentScene
    [([Scene1], Scene4); ([Scene2], Scene1); ([Scene3], Scene2); ([Scene4], Scene3);
     ([SceneOnE1], Scene14); ([Scene12], SceneOnE1); ([Scene13], Scene12);
     ([Scene14], Scene13); ([SceneOnE2], Scene24); ([Scene22], SceneOnE2);
     ([Scene23], Scene22); ([Scene24], Scene23); ([SceneOnE3], Scene34);
     ([Scene32], SceneOnE3); ([Scene33], Scene32); ([Scene34], Scene33);
     ([SceneOnE4], Scene44); ([Scene42], SceneOnE4); ([Scene43], Scene42);
     ([Scene44], Scene43)]
    SceneOff.

(** The static members. *)
Record state := mk { m_Initialized : bool; m_ZonesToIgnore : gset Z }.
Definition start : state := mk false ∅.

Definition zonesToIgnore : list Z :=
  [SceneInc; SceneIncA1; SceneIncA2; SceneIncA3; SceneIncA4; SceneDec; SceneDecA1;
   SceneDecA2; SceneDecA3; SceneDecA4; SceneDimArea; SceneStop; SceneStopA1; SceneStopA2;
   SceneStopA3; SceneStopA4; SceneBell; SceneEnergyOverload; SceneLocalOff; SceneLocalOn;
   SceneImpulse].

Definition initialize (_ : state) : state := mk true (list_to_set zonesToIgnore).

Definition rememberScene (_scene : Z) (s : state) : bool * state :=
  let s := if negb (m_Initialized s) then initialize s else s in
  (if _scene <=? MaxSceneNumber then negb (bool_decide (_scene ∈ m_ZonesToIgnore s)) else false, s).

Definition isMultiTipSequence (_scene : Z) : bool :=
  switch _scene
    [([Scene1; SceneA11; SceneA21; SceneA31; SceneA41; Scene2; Scene3; Scene4; SceneOnE1;
       Scene12; Scene13; Scene14; SceneOnE2; Scene22; Scene23; Scene24; SceneOnE3; Scene32;
       Scene33; Scene34; SceneOnE4; Scene42; Scene43; Scene44], true);
     ([SceneOff; SceneOffA1; SceneOffA2; SceneOffA3; SceneOffA4; SceneOffE1; SceneOffE2;
       SceneOffE3; SceneOffE4], true)]
    false.

Definition isDimSequence (_scene : Z) : bool :=
  switch _scene
    [([SceneInc; SceneDec; SceneDimArea; SceneDecA1; SceneIncA1; SceneDecA2; SceneIncA2;
       SceneDecA3; SceneIncA3; SceneDecA4; SceneIncA4], true)]
    false.

Definition isInRange (_sceneNumber _zoneNumber : Z) : bool :=
  let aboveZero := _sceneNumber >=? 0 in
  let validForZone := if _zoneNumber =? 0 then _sceneNumber <=? MaxSceneNumber
                      else _sceneNumber <=? MaxSceneNumberOutsideZoneZero in
  aboveZero && validForZone.

Inductive SceneOnState := True_ | False_ | DontCare.
#[global] Instance SceneOnState_eq_dec : EqDecision SceneOnState.
Proof. solve_decision. Defined.

Definition isOnScene (_groupID _scene : Z) : SceneOnState :=
  let ret := DontCare in
  let ret := if _groupID =? GroupIDYellow then
      switch _scene
        [([SceneOff; SceneDeepOff; SceneSleeping; SceneAutoOff; SceneAutoStandBy;
           SceneStandBy; SceneAbsent; SceneOffE1; SceneOffE2; SceneOffE3; SceneOffE4], False_);
         ([Scene1; Scene2; Scene3; Scene4; SceneOnE1; SceneOnE2; SceneOnE3; SceneOnE4;
           Scene12; Scene13; Scene14; Scene22; Scene23; Scene24; Scene32; Scene33; Scene34;
           Scene42; Scene43; Scene44; ScenePanic; SceneFire], True_)]
        ret
    else ret in
  let ret := if _groupID =? GroupIDHeating then
      switch _scene
        [([SceneOff; SceneDeepOff; SceneSleeping; SceneAutoOff; SceneAutoStandBy;
           SceneStandBy; SceneAbsent; SceneOffE1; SceneOffE2; SceneOffE3; SceneOffE4], False_);
         ([Scene1; Scene2; Scene3; Scene4; SceneOnE1; SceneOnE2; SceneOnE3; SceneOnE4;
           Scene12; Scene13; Scene14; Scene22; Scene23; Scene24; Scene32; Scene33; Scene34;
           Scene42; Scene43; Scene44], True_)]
        ret
    else ret in
  ret.

Definition defaultSceneNames : list (Z * string) :=
  [(SceneOff, "Off"); (SceneOffA1, "Off-Area1"); (SceneOffA2, "Off-Area2");
   (SceneOffA3, "Off-Area3"); (SceneOffA4, "Off-Area4"); (Scene1, "Preset1");
   (SceneA11, "On-Area1"); (SceneA21, "On-Area2"); (SceneA31, "On-Area3");
   (SceneA41, "On-Area4"); (SceneDimArea, "Dimm-Area"); (SceneDec, "Dec"); (SceneInc, "Inc");
   (SceneMin, "Min"); (SceneMax, "Max"); (SceneStop, "Stop"); (Scene2, "Preset2");
   (Scene3, "Preset3"); (Scene4, "Preset4"); (Scene12, "Preset12"); (Scene13, "Preset13");
   (Scene14, "Preset14"); (Scene22, "Preset22"); (Scene23, "Preset23");
   (Scene24, "Preset24"); (Scene32, "Preset32"); (Scene33, "Preset33");
   (Scene34, "Preset34"); (Scene42, "Preset42"); (Scene43, "Preset43");
   (Scene44, "Preset44"); (SceneOffE1, "Off-Preset10"); (SceneOnE1, "On-Preset11");
   (SceneOffE2, "Off-Preset20"); (SceneOnE2, "On-Preset21"); (SceneOffE3, "Off-Preset30");
   (SceneOnE3, "On-Preset31"); (SceneOffE4, "Off-Preset40"); (SceneOnE4, "On-Preset41");
   (SceneAutoOff, "Off-Automatic"); (SceneImpulse, "Impuls"); (SceneDecA1, "Dec-Area1");
   (SceneIncA1, "Inc-Area1"); (SceneDecA2, "Dec-Area2"); (SceneIncA2, "Inc-Area2");
   (SceneDecA3, "Dec-Area3"); (SceneIncA3, "Inc-Area3"); (SceneDecA4, "Dec-Area4");
   (SceneIncA4, "Inc-Area4"); (SceneLocalOff, "Off-Device"); (SceneLocalOn, "On-Device");
   (SceneStopA1, "Stop-Area1"); (SceneStopA2, "Stop-Area2"); (SceneStopA3, "Stop-Area3");
   (SceneStopA4, "Stop-Area4"); (SceneSunProtection, "Sunprotection");
   (SceneAutoStandBy, "AutoStandBy"); (ScenePanic, "Panic");
   (SceneEnergyOverload, "Overload"); (SceneStandBy, "Zone-Standby");
   (SceneDeepOff, "Zone-Deep-Off"); (SceneSleeping, "Sleeping"); (SceneWakeUp, "Wake-Up");
   (ScenePresent, "Present"); (SceneAbsent, "Absent"); (SceneBell, "Bell");
   (SceneAlarm, "Alarm"); (SceneRoomActivate, "Zone-Activate"); (SceneFire, "Fire");
   (SceneSmoke, "Smoke"); (SceneWater, "Water"); (SceneGas, "Gas"); (SceneBell2, "Bell2");
   (SceneBell3, "Bell3"); (SceneBell4, "Bell4"); (SceneAlarm2, "Alarm2");
   (SceneAlarm3, "Alarm3"); (SceneAlarm4, "Alarm4"); (SceneWindActive, "Wind");
   (SceneWindInactive, "WindN"); (SceneRainActive, "Rain"); (SceneRainInactive, "RainN");
   (SceneHailActive, "Hail"); (SceneHailInactive, "HailN")].

Definition temperatureSceneNames : list (Z * string) :=
  [(0, "Off"); (1, "Comfort"); (2, "Economy"); (4, "Night"); (5, "Holiday"); (6, "Cooling");
   (7, "CoolingOff"); (8, "Manual"); (29, "ClimateControlOn"); (30, "ClimateControlOff");
   (31, "ValveProtection")].

Definition ventilationSceneNames : list (Z * string) :=
  [(SceneOff, "Off"); (Scene1, "Level1"); (Scene2, "Level2"); (Scene3, "Level3");
   (Scene4, "Level4"); (SceneBoost, "Boost")].

Definition getSceneName (sceneId groupId : Z) : string :=
  default "Unknown"
    (if groupId =? GroupIDControlTemperature then map_find sceneId temperatureSceneNames
     else if (groupId =? GroupIDVentilation) || (groupId =? GroupIDGlobalAppDsVentilation) then
       map_find sceneId ventilationSceneNames
     else map_find sceneId defaultSceneNames).

Definition getAvailableScenes : list Z :=
  [SceneOff; SceneOffA1; SceneOffA2; SceneOffA3; SceneOffA4; Scene1; SceneA11; SceneA21;
   SceneA31; SceneA41; SceneDimArea; SceneDec; SceneInc; SceneMin; SceneMax; SceneStop;
   Scene2; Scene3; Scene4; Scene12; Scene13; Scene14; Scene22; Scene23; Scene24; Scene32;
   Scene33; Scene34; Scene42; Scene43; Scene44; SceneOffE1; SceneOnE1; SceneOffE2; SceneOnE2;
   SceneOffE3; SceneBoost; SceneOnE3; SceneOffE4; SceneOnE4; SceneAutoOff; SceneImpulse;
   SceneDecA1; SceneIncA1; SceneDecA2; SceneIncA2; SceneDecA3; SceneIncA3; SceneDecA4;
   SceneIncA4; SceneLocalOff; SceneLocalOn; SceneStopA1; SceneStopA2; SceneStopA3;
   SceneStopA4; SceneSunProtection; SceneAutoStandBy; ScenePanic; SceneEnergyOverload;
   SceneStandBy; SceneDeepOff; SceneSleeping; SceneWakeUp; ScenePresent; SceneAbsent;
   SceneBell; SceneAlarm; SceneRoomActivate; SceneFire; SceneSmoke; SceneWater; SceneGas;
   SceneBell2; SceneBell3; SceneBell4; SceneAlarm2; SceneAlarm3; SceneAlarm4;
   SceneWindActive; SceneWindInactive; SceneRainActive; SceneRainInactive; SceneHailActive;
   SceneHailInactive].

Definition defaultReachableScenes : list (Z * list Z) :=
  [(0, [SceneOff; Scene2; Scene3; Scene4]);
   (1, [SceneOff; SceneOffA1; SceneA11; Scene2; Scene3; Scene4]);
   (2, [SceneOff; SceneOffA2; SceneA21; Scene2; Scene3; Scene4]);
   (3, [SceneOff; SceneOffA3; SceneA31; Scene2; Scene3; Scene4]);
   (4, [SceneOff; SceneOffA4; SceneA41; Scene2; Scene3; Scene4]);
   (5, [SceneOff; Scene1; Scene2; Scene3; Scene4]);
   (6, [SceneOff; SceneOffE1; SceneOnE1; Scene12; Scene13; Scene14]);
   (7, [SceneOff; SceneOffE2; SceneOnE2; Scene22; Scene23; Scene24]);
   (8, [SceneOff; SceneOffE3; SceneOnE3; Scene32; Scene33; Scene34]);
   (9, [SceneOff; SceneOffE4; SceneOnE4; Scene42; Scene43; Scene44]);
   (10, [SceneOff; SceneOffA1; SceneA11; Scene12; Scene13; Scene14]);
   (11, [SceneOff; SceneOffA2; SceneA21; Scene22; Scene23; Scene24]);
   (12, [SceneOff; SceneOffA3; SceneA31; Scene32; Scene33; Scene33]);
   (13, [SceneOff; SceneOffA4; SceneA41; Scene42; Scene43; Scene44])].

Definition jokerReachableScenes : list (Z * list Z) :=
  [(1, [SceneAlarm]);
   (2, [ScenePanic]);
   (3, [SceneAbsent]);
   (5, [SceneBell])].

Definition ventilationReachableScenes : list (Z * list Z) :=
  [(5, [SceneOff; Scene1; Scene2; Scene3; Scene4; SceneBoost])].

Definition getReachableScenes (buttonId group : Z) : list Z :=
  default []
    (switch group
       [([GroupIDBlack], map_find buttonId jokerReachableScenes);
        ([GroupIDVentilation; GroupIDGlobalAppDsVentilation], map_find buttonId ventilationReachableScenes)]
       (map_find buttonId defaultReachableScenes)).

(** * Properties *)

(** The presets of a zone button: the off scene of its level and four presets. *)
Definition preset_chains : list (Z * list Z) :=
  [(SceneOff, [Scene1; Scene2; Scene3; Scene4]);
   (SceneOffE1, [SceneOnE1; Scene12; Scene13; Scene14]);
   (SceneOffE2, [SceneOnE2; Scene22; Scene23; Scene24]);
   (SceneOffE3, [SceneOnE3; Scene32; Scene33; Scene34]);
   (SceneOffE4, [SceneOnE4; Scene42; Scene43; Scene44])].

Definition all_presets : list Z := concat (map snd preset_chains).

Definition chain_ok (chain : list Z) : bool :=
  match chain with
  | [a; b; c; d] =>
    forallb (fun '(x, y) => getNextScene x =? y) [(a, b); (b, c); (c, d); (d, b)] &&
    forallb (fun '(x, y) => getPreviousScene x =? y) [(d, c); (c, b); (b, a); (a, d)]
  | _ => false
  end.

Lemma chains_ok : forallb chain_ok (map snd preset_chains) = true.
Proof. by_compute. Qed.

(** Every result of [getNextScene] is a preset, or [SceneOff] when the scene
    is not a preset. *)
Lemma getNextScene_other s :
  ~ In s (SceneOff :: all_presets) -> getNextScene s = SceneOff.
Proof.
  intros H. unfold getNextScene. apply switch_default. intros Hin. apply H.
  revert Hin. cbn. tauto.
Qed.

Lemma getPreviousScene_other s : ~ In s all_presets -> getPreviousScene s = SceneOff.
Proof.
  intros H. unfold getPreviousScene. apply switch_default. intros Hin. apply H.
  revert Hin. cbn. tauto.
Qed.

(** With a multi-tip button the presets of each of the five levels form
    chains: from the first preset [getNextScene] steps through the others and
    then cycles among the second to the fourth, never back to the first;
    [getPreviousScene] cycles through all four in the opposite order; from
    [SceneOff] the next scene is the first preset of the first level, and from
    any scene that is not one of the twenty presets both return to
    [SceneOff]. *)
Theorem preset_navigation :
  (forall off a b c d, In (off, [a; b; c; d]) preset_chains ->
     getNextScene a = b /\ getNextScene b = c /\ getNextScene c = d /\ getNextScene d = b /\
     getPreviousScene d = c /\ getPreviousScene c = b /\ getPreviousScene b = a /\
     getPreviousScene a = d) /\
  getNextScene SceneOff = Scene1 /\
  (forall s, ~ In s (SceneOff :: all_presets) -> getNextScene s = SceneOff) /\
  (forall s, ~ In s all_presets -> getPreviousScene s = SceneOff).
Proof.
  split; [|split; [done|split; [apply getNextScene_other|apply getPreviousScene_other]]].
  intros off a b c d Hin. pose proof chains_ok as H. rewrite forallb_forall in H.
  specialize (H [a; b; c; d]). rewrite in_map_iff in H.
  specialize (H (ex_intro _ (off, _) (conj eq_refl Hin))). cbn [chain_ok forallb] in H.
  reflect_bools. auto 10.
Qed.

(** What a button reaches are scenes the system knows. *)
Definition reach_ok (group : Z) (b : Z * list Z) : bool :=
  forallb (fun s => bool_decide (s ∈ getAvailableScenes) && isInRange s 0 &&
                    negb (String.eqb (getSceneName s group) "Unknown")) b.2.

Lemma getReachableScenes_cases b g :
  getReachableScenes b g = [] \/
  exists tbl, In (b, getReachableScenes b g) tbl /\
    ((g = GroupIDBlack /\ tbl = jokerReachableScenes) \/
     ((g = GroupIDVentilation \/ g = GroupIDGlobalAppDsVentilation) /\ tbl = ventilationReachableScenes) \/
     ((g <> GroupIDVentilation /\ g <> GroupIDGlobalAppDsVentilation) /\ tbl = defaultReachableScenes)).
Proof.
  unfold getReachableScenes. cbn [switch existsb].
  destruct (Z.eqb_spec g GroupIDBlack) as [->|H1]; cbn [orb].
  { destruct (map_find b jokerReachableScenes) eqn:E; [right|by left].
    apply map_find_In in E. eauto 10. }
  destruct (Z.eqb_spec g GroupIDVentilation) as [->|H2]; cbn [orb].
  { destruct (map_find b ventilationReachableScenes) eqn:E; [right|by left].
    apply map_find_In in E. eauto 10. }
  destruct (Z.eqb_spec g GroupIDGlobalAppDsVentilation) as [->|H3]; cbn [orb].
  { destruct (map_find b ventilationReachableScenes) eqn:E; [right|by left].
    apply map_find_In in E. eauto 10. }
  destruct (map_find b defaultReachableScenes) eqn:E; [right|by left].
  apply map_find_In in E. exists defaultReachableScenes. auto 10.
Qed.

(** The names of groups without a table of their own. *)
Lemma getSceneName_default s g :
  g <> GroupIDControlTemperature -> g <> GroupIDVentilation -> g <> GroupIDGlobalAppDsVentilation ->
  getSceneName s g = getSceneName s GroupIDYellow.
Proof.
  intros H1 H2 H3. unfold getSceneName.
  apply Z.eqb_neq in H1 as ->. apply Z.eqb_neq in H2 as ->. apply Z.eqb_neq in H3 as ->.
  change (GroupIDYellow =? GroupIDControlTemperature) with false.
  change (GroupIDYellow =? GroupIDVentilation) with false.
  change (GroupIDYellow =? GroupIDGlobalAppDsVentilation) with false. reflexivity.
Qed.

Lemma reach_tables :
  forallb (reach_ok GroupIDBlack) jokerReachableScenes &&
  forallb (reach_ok GroupIDVentilation) ventilationReachableScenes &&
  forallb (reach_ok GroupIDGlobalAppDsVentilation) ventilationReachableScenes &&
  forallb (reach_ok GroupIDYellow) defaultReachableScenes = true.
Proof. by_compute. Qed.

Lemma reach_ok_spec g b l s :
  reach_ok g (b, l) = true -> In s l ->
  s ∈ getAvailableScenes /\ isInRange s 0 = true /\ getSceneName s g <> "Unknown".
Proof.
  unfold reach_ok. cbn [snd]. rewrite forallb_forall. intros H Hs. specialize (H s Hs).
  apply andb_true_iff in H as [[H1 H2]%andb_true_iff H3]. apply bool_decide_eq_true_1 in H1.
  apply negb_true_iff, String.eqb_neq in H3. auto.
Qed.

(** Every scene [getReachableScenes] reports for a button is one of the
    available scenes, a valid apartment scene number, and has a name in the
    group the button works in (except for the temperature control group,
    whose scenes are named differently). *)
Theorem reachable_scenes_valid (buttonId group s : Z) :
  group <> GroupIDControlTemperature -> In s (getReachableScenes buttonId group) ->
  s ∈ getAvailableScenes /\ isInRange s 0 = true /\ getSceneName s group <> "Unknown".
Proof.
  intros Hg Hs. pose proof reach_tables as H. reflect_bools. rewrite !forallb_forall in *.
  destruct (getReachableScenes_cases buttonId group) as [E|(tbl & Hin & Hc)].
  { rewrite E in Hs. done. }
  destruct Hc as [[-> ->]|[[[-> | ->] ->]|[[Hv Hv'] ->]]].
  1-3: eapply reach_ok_spec; [|done]; eauto.
  rewrite getSceneName_default by done. eapply reach_ok_spec; [|done]; eauto.
Qed.

Lemma reachable_scenes_valid_witness :
  Scene34 ∈ getAvailableScenes /\ isInRange Scene34 0 = true /\ getSceneName Scene34 GroupIDYellow <> "Unknown".
Proof. apply (reachable_scenes_valid 8 GroupIDYellow Scene34); [discriminate|cbn; tauto]. Defined.

(** The fourth preset of the extended third area button is missing: the table
    holds [Scene33] twice. *)
Lemma button_12_lacks_Scene34 :
  ~ In Scene34 (getReachableScenes ButtonId_Area3_Extended GroupIDYellow) /\
  In Scene44 (getReachableScenes ButtonId_Area4_Extended GroupIDYellow).
Proof. split; [|cbn; tauto]. vm_compute. intuition discriminate. Qed.

(** [SceneIncA4] is declared with the number of [SceneLocalOff], so that
    switching a device off locally counts as dimming and its name is wrong. *)
Lemma local_off_is_dimming :
  isDimSequence SceneLocalOff = true /\ getSceneName SceneLocalOff GroupIDYellow = "Inc-Area4" /\
  isDimSequence (SceneDecA4 + 1) = false.
Proof. split_and!; by_compute. Qed.

(** Initialisation on first use: whatever scenes were asked before, the answer
    is the one for the fixed set. *)
Definition state_ok (st : state) : Prop :=
  m_Initialized st = true -> m_ZonesToIgnore st = list_to_set zonesToIgnore.

Lemma rememberScene_spec s st :
  state_ok st ->
  fst (rememberScene s st) = (s <=? MaxSceneNumber) && negb (existsb (Z.eqb s) zonesToIgnore) /\
  state_ok (snd (rememberScene s st)).
Proof.
  intros Hst. unfold rememberScene.
  set (st' := if negb (m_Initialized st) then initialize st else st).
  assert (m_ZonesToIgnore st' = list_to_set zonesToIgnore) as E.
  { unfold st'. destruct (m_Initialized st) eqn:Ei; [by apply Hst|reflexivity]. }
  split; [|by intros _]. cbn [fst]. rewrite E. destruct (s <=? MaxSceneNumber); [|reflexivity].
  cbn [andb]. f_equal. destruct (existsb (Z.eqb s) zonesToIgnore) eqn:Ee.
  - apply existsb_eqb_In in Ee. by apply bool_decide_eq_true_2, elem_of_list_to_set, list_elem_of_In.
  - apply bool_decide_eq_false_2. intros Hin%elem_of_list_to_set%list_elem_of_In%existsb_eqb_In. congruence.
Qed.

(** The scenes after which light or heating is on or off. *)
Definition on_scene_check (s : Z) : bool :=
  bool_decide (isOnScene GroupIDHeating s =
    if (s =? ScenePanic) || (s =? SceneFire) then DontCare else isOnScene GroupIDYellow s) &&
  (bool_decide (isOnScene GroupIDYellow (getNextScene s) = True_) || (getNextScene s =? SceneOff)) &&
  (bool_decide (isOnScene GroupIDYellow (getPreviousScene s) = True_) || (getPreviousScene s =? SceneOff)) &&
  (if bool_decide (isOnScene GroupIDYellow s = DontCare) then true else (s <=? MaxSceneNumber) && negb (existsb (Z.eqb s) zonesToIgnore)).

Lemma on_scene_bytes s : 0 <= s < 256 -> on_scene_check s = true.
Proof. apply (zrange_forall on_scene_check 0 256). by_compute. Qed.

(** Scenes that switch light or heating on or off are consistent with
    navigation and with what is remembered: heating differs from light only in
    the panic and fire scenes, which do not concern it; stepping to the next
    or previous scene ends in a scene that switches the light on, or in
    [SceneOff]; and every scene with an effect on the light state is
    remembered as the last called scene. *)
Theorem isOnScene_consistent (s : Z) :
  0 <= s < 256 ->
  isOnScene GroupIDHeating s =
    (if (s =? ScenePanic) || (s =? SceneFire) then DontCare else isOnScene GroupIDYellow s) /\
  (isOnScene GroupIDYellow (getNextScene s) = True_ \/ getNextScene s = SceneOff) /\
  (isOnScene GroupIDYellow (getPreviousScene s) = True_ \/ getPreviousScene s = SceneOff) /\
  (isOnScene GroupIDYellow s <> DontCare -> fst (rememberScene s start) = true).
Proof.
  intros Hs. pose proof (on_scene_bytes s Hs) as H. unfold on_scene_check in H.
  apply andb_true_iff in H as [[[H1 H2]%andb_true_iff H3]%andb_true_iff H4].
  apply bool_decide_eq_true_1 in H1. apply orb_true_iff in H2, H3.
  rewrite bool_decide_eq_true, Z.eqb_eq in H2, H3. split_and!; [assumption..|].
  intros Hd. rewrite bool_decide_eq_false_2 in H4 by done. rewrite (proj1 (rememberScene_spec s start ltac:(done))). exact H4.
Qed.

Lemma isOnScene_consistent_witness :
  isOnScene GroupIDHeating Scene1 = True_.
Proof. refine (proj1 (isOnScene_consistent Scene1 _)). unfold Scene1. lia. Defined.
