(* ===== verification/Behavior.v ===== *)
(** [src/src/model/behavior.cpp]: the behaviour of a group towards scene calls,
    default and ventilation.  [rapidjson] is a parameter; publishing to the
    property tree is not part of the model. *)
From stdpp Require Import base option list strings gmap.
From Stdlib Require Import ZArith Lia Ascii.
From Stdlib Require String.
From S2P Require Import Prelude CxxString NumConv ModelConst SceneHelper.

Open Scope string_scope.
Open Scope Z_scope.

(** * Data *)

Record Behavior := mkBehavior { m_currentScene : Z; m_configuration : Z }.

(** [std::find] in a vector: the index of the first match. *)
Fixpoint find_index (x : Z) (l : list Z) : option nat :=
  match l with
  | [] => None
  | y :: l => if x =? y then Some O else S <$> find_index x l
  end.

(** What the code uses of a parsed [rapidjson] document; [GetInt] of a value
    that is no integer is an assertion failure of the library. *)
Class JsonReader := {
  Document : Type;
  Value : Type;
  Parse : string -> Document;
  IsObject : Document -> bool;
  FindMember : Document -> string -> option Value;
  IsArray : Value -> bool;
  Elements : Value -> list Value;
  GetInt : Value -> res Z
}.

(** Calls of a [JSONWriter]. *)
Inductive json_call := StartArray (name : string) | Add (value : Z) | EndArray.

(** * [DefaultBehavior] *)

Module DefaultBehavior.
Definition new (currentScene : Z) : Behavior := mkBehavior currentScene 0.
Definition setCurrentScene (currentScene : Z) (b : Behavior) : Behavior :=
  mkBehavior currentScene (m_configuration b).
Definition serializeConfiguration (configuration : Z) (b : Behavior) : list json_call := [].
Definition deserializeConfiguration `{JsonReader} (jsonConfiguration : string) : res Z :=
  let d := Parse (c_str jsonConfiguration) in
  if negb (IsObject d) then Throw (RuntimeError "Error during Json parsing") else Ok 0.
Definition getNextScene (b : Behavior) : Z := SceneHelper.getNextScene (m_currentScene b).
Definition getPreviousScene (b : Behavior) : Z := SceneHelper.getPreviousScene (m_currentScene b).
Definition getAvailableScenes (b : Behavior) : list Z := SceneHelper.getAvailableScenes.
End DefaultBehavior.

(** * [VentilationBehavior] *)

Module VentilationBehavior.

Definition offsetToSceneId : list Z := [SceneOff; Scene1; Scene2; Scene3; Scene4; SceneBoost].

(** The loop over the offsets: a clear bit activates the scene. *)
Definition active_bit (configuration : Z) (i : nat) : bool :=
  Z.land configuration (Z.shiftl 1 (Z.of_nat i)) =? 0.

Definition getActiveBasicScenes (b : Behavior) : list Z :=
  omap (fun i => if active_bit (m_configuration b) i then offsetToSceneId !! i else None)
    (seq 0 (length offsetToSceneId)).

Definition setCurrentScene (currentScene : Z) (b : Behavior) : Behavior :=
  let activeScenes := getActiveBasicScenes b in
  let set s := mkBehavior s (m_configuration b) in
  match activeScenes with
  | [] => set SceneOff
  | front :: _ =>
    match find_index currentScene activeScenes with
    | Some _ => set currentScene
    | None => switch currentScene [([SceneFire; SceneSmoke; SceneGas], set front)] b
    end
  end.

Definition new (currentScene : Z) : Behavior := setCurrentScene currentScene (mkBehavior SceneOff 0).

Definition setConfiguration (configuration : Z) (b : Behavior) : Behavior :=
  mkBehavior (m_currentScene b) configuration.

Definition serializeConfiguration (configuration : Z) (b : Behavior) : list json_call :=
  StartArray "activeBasicScenes" :: map Add (getActiveBasicScenes b) ++ [EndArray].

(** One element of the array. *)
Definition clear_scene (configuration basicSceneId : Z) : res Z :=
  match find_index basicSceneId offsetToSceneId with
  | Some i => Ok (Z.land configuration (uint32 (Z.lnot (Z.shiftl 1 (Z.of_nat i)))))
  | None =>
    let int z := intToString z false in
    Throw (RuntimeError ("Basic SceneId:" +:+ int basicSceneId +:+ " not valid (should be " +:+
      int SceneOff +:+ ", " +:+ int Scene1 +:+ ", " +:+ int Scene2 +:+ ", " +:+ int Scene3 +:+ ", " +:+
      int Scene4 +:+ " or " +:+ int SceneBoost +:+ ")"))
  end.

Fixpoint read_scenes `{JsonReader} (activeBasicScenes : list Value) (configuration : Z) : res Z :=
  match activeBasicScenes with
  | [] => Ok configuration
  | v :: rest =>
    basicSceneId ← GetInt v;
    configuration ← clear_scene configuration basicSceneId;
    read_scenes rest configuration
  end.

Definition deserializeConfiguration `{JsonReader} (jsonConfiguration : string) : res Z :=
  let d := Parse (c_str jsonConfiguration) in
  if negb (IsObject d) then Throw (RuntimeError "Error during Json parsing")
  else match FindMember d "activeBasicScenes" with
       | Some activeBasicScenes =>
         if negb (IsArray activeBasicScenes)
         then Throw (RuntimeError "No valid 'activeBasicScenes' array found")
         else read_scenes (Elements activeBasicScenes) 63
       | None => Ok 0
       end.

Definition getNextScene (b : Behavior) : res Z :=
  let activeScenes := getActiveBasicScenes b in
  match last activeScenes with
  | None => Throw (RuntimeError "Could not find next active scene")
  | Some back =>
    match find_index (m_currentScene b) activeScenes with
    | None => Ok back
    | Some i =>
      if m_currentScene b =? back then Ok back
      else match activeScenes !! S i with
           | Some s => Ok s
           | None => Throw (UndefinedBehaviour "dereferenced end()")
           end
    end
  end.

Definition getPreviousScene (b : Behavior) : res Z :=
  let activeScenes := getActiveBasicScenes b in
  match activeScenes with
  | [] => Throw (RuntimeError "Could not find previous active scene")
  | front :: _ =>
    match find_index (m_currentScene b) activeScenes with
    | None => Ok front
    | Some i =>
      if m_currentScene b =? front then Ok front
      else match activeScenes !! pred i with
           | Some s => Ok s
           | None => Throw (UndefinedBehaviour "iterator before begin()")
           end
    end
  end.

Definition getAvailableScenes (b : Behavior) : list Z := getActiveBasicScenes b.

(** [getPropertyActiveBasicScenes] *)
Definition getPropertyActiveBasicScenes (b : Behavior) : string :=
  (foldl (fun '(first, ret) scene =>
     (false, (if first : bool then ret else ret +:+ ",") +:+ intToString scene false))
     (true, "") (getActiveBasicScenes b)).2.

End VentilationBehavior.

Import VentilationBehavior.

(** * Properties *)

Lemma find_index_In x l i : find_index x l = Some i -> In x l.
Proof.
  revert i. induction l as [|y l IH]; intros i; [done|]. cbn.
  destruct (Z.eqb_spec x y) as [->|]; [by left|].
  destruct (find_index x l) as [j|]; [|done]. right. by apply (IH j).
Qed.

Lemma find_index_None x l : find_index x l = None -> ~ In x l.
Proof.
  induction l as [|y l IH]; [by intros _ []|]. cbn. destruct (Z.eqb_spec x y) as [->|Hne]; [done|].
  destruct (find_index x l); [done|]. intros _ [-> | Hin]; [done|]. by apply IH.
Qed.

Lemma existsb_switch (s : Z) (x y : Behavior) :
  switch s [([SceneFire; SceneSmoke; SceneGas], x)] y = x \/
  switch s [([SceneFire; SceneSmoke; SceneGas], x)] y = y.
Proof. cbn [switch]. destruct (existsb _ _); auto. Qed.

Lemma setCurrentScene_config b s : m_configuration (setCurrentScene s b) = m_configuration b.
Proof.
  unfold setCurrentScene. destruct (getActiveBasicScenes b) as [|f l]; [done|].
  destruct (find_index s (f :: l)); [done|].
  by destruct (existsb_switch s (mkBehavior f (m_configuration b)) b) as [-> | ->].
Qed.

(** Only the six low bits of the configuration count. *)
Lemma active_bit_mod c i : (i < 6)%nat -> active_bit (c mod 64) i = active_bit c i.
Proof.
  intros Hi. unfold active_bit. change 64 with (2 ^ 6). rewrite <- Z.land_ones, <- Z.land_assoc by lia.
  do 2 f_equal. assert (i = 0 \/ i = 1 \/ i = 2 \/ i = 3 \/ i = 4 \/ i = 5)%nat as Hc by lia.
  by repeat destruct Hc as [-> | Hc]; [..|subst].
Qed.

Lemma active_scenes_mod s c : getActiveBasicScenes (mkBehavior s (c mod 64)) = getActiveBasicScenes (mkBehavior s c).
Proof.
  unfold getActiveBasicScenes. cbn [m_configuration length offsetToSceneId seq omap].
  cbn. by rewrite !active_bit_mod by lia.
Qed.

(** The effect of [set_current] then [next]/[previous] on every index. *)
Definition navigation_check (c : Z) : bool :=
  let scenes := getActiveBasicScenes (mkBehavior 0 c) in
  let n := length scenes in
  forallb (fun i =>
    match scenes !! i with
    | Some s =>
      let b := mkBehavior s c in
      bool_decide (getNextScene b = from_option Ok (Throw (RuntimeError "")) (scenes !! min (S i) (n - 1))) &&
      bool_decide (getPreviousScene b = from_option Ok (Throw (RuntimeError "")) (scenes !! pred i))
    | None => true
    end) (seq 0 n).

Lemma navigation_all c : 0 <= c < 64 -> navigation_check c = true.
Proof. apply (zrange_forall navigation_check 0 64). by_compute. Qed.

Lemma next_previous_mod s c :
  getNextScene (mkBehavior s (c mod 64)) = getNextScene (mkBehavior s c) /\
  getPreviousScene (mkBehavior s (c mod 64)) = getPreviousScene (mkBehavior s c).
Proof. unfold getNextScene, getPreviousScene. by rewrite !active_scenes_mod. Qed.

(** In every configuration of a ventilation group, if the current scene
    is the [i]-th active one, the next scene is the [i+1]-th, staying at the
    last, and the previous one the [i-1]-th, staying at the first: stepping
    saturates and never leaves the active scenes. *)
Theorem ventilation_navigation (b : Behavior) (i : nat) :
  getActiveBasicScenes b !! i = Some (m_currentScene b) ->
  exists next previous,
    getNextScene b = Ok next /\ getPreviousScene b = Ok previous /\
    getActiveBasicScenes b !! min (S i) (length (getActiveBasicScenes b) - 1) = Some next /\
    getActiveBasicScenes b !! pred i = Some previous.
Proof.
  destruct b as [s c]. cbn [m_currentScene]. intros Hi.
  pose proof (lookup_lt_Some _ _ _ Hi) as Hlt.
  pose proof (navigation_all (c mod 64) ltac:(apply Z.mod_pos_bound; lia)) as H.
  unfold navigation_check in H. rewrite active_scenes_mod in H.
  change (getActiveBasicScenes (mkBehavior 0 c)) with (getActiveBasicScenes (mkBehavior s c)) in H.
  rewrite forallb_forall in H. specialize (H i). rewrite in_seq in H.
  specialize (H ltac:(lia)). rewrite Hi in H.
  destruct (next_previous_mod s c) as [-> ->] in H. apply andb_true_iff in H as [H1 H2].
  apply bool_decide_eq_true_1 in H1, H2.
  destruct (lookup_lt_is_Some_2 (getActiveBasicScenes (mkBehavior s c)) (min (S i) (length (getActiveBasicScenes (mkBehavior s c)) - 1))) as [x Hx]; [lia|].
  destruct (lookup_lt_is_Some_2 (getActiveBasicScenes (mkBehavior s c)) (pred i)) as [y Hy]; [lia|].
  rewrite Hx in *. rewrite Hy in *. exists x, y. auto.
Qed.

Lemma ventilation_navigation_witness :
  exists next previous,
    getNextScene (mkBehavior Scene2 2) = Ok next /\ getPreviousScene (mkBehavior Scene2 2) = Ok previous.
Proof.
  destruct (ventilation_navigation (mkBehavior Scene2 2) 1%nat eq_refl) as (n & p & Hn & Hp & _).
  exists n, p. split; [exact Hn|exact Hp].
Defined.

(** A scene call leaves the group in an active scene or in [SceneOff] if
    there is none: scenes that are active are taken over, fire, smoke and gas
    select the first active scene and all others are ignored.  The constructor
    establishes that the current scene is active. *)
Theorem setCurrentScene_active (b : Behavior) (currentScene : Z) :
  let b' := setCurrentScene currentScene b in
  m_configuration b' = m_configuration b /\
  (getActiveBasicScenes b = [] -> m_currentScene b' = SceneOff) /\
  (In currentScene (getActiveBasicScenes b) -> m_currentScene b' = currentScene) /\
  (In (m_currentScene b) (getActiveBasicScenes b) -> In (m_currentScene b') (getActiveBasicScenes b')) /\
  In (m_currentScene (new currentScene)) (getActiveBasicScenes (new currentScene)).
Proof.
  assert (forall c s, In (m_currentScene c) (getActiveBasicScenes c) ->
    In (m_currentScene (setCurrentScene s c)) (getActiveBasicScenes (setCurrentScene s c))) as Hinv.
  { intros c s Hc. pose proof (setCurrentScene_config c s) as E.
    unfold getActiveBasicScenes at 1. rewrite E. fold (getActiveBasicScenes c).
    unfold setCurrentScene. destruct (getActiveBasicScenes c) as [|f l] eqn:Ea; [done|].
    destruct (find_index s (f :: l)) as [i|] eqn:Ei; cbn [m_currentScene].
    - by apply find_index_In in Ei.
    - by destruct (existsb_switch s (mkBehavior f (m_configuration c)) c) as [-> | ->]; [left|]. }
  cbn zeta. split_and!.
  - apply setCurrentScene_config.
  - intros E. unfold setCurrentScene. by rewrite E.
  - intros Hin. unfold setCurrentScene. destruct (getActiveBasicScenes b) as [|f l] eqn:Ea; [done|].
    rewrite <- Ea in *. destruct (find_index currentScene (getActiveBasicScenes b)) eqn:Ei; [done|].
    by apply find_index_None in Ei.
  - apply Hinv.
  - apply Hinv. by left.
Qed.

Lemma setCurrentScene_active_witness :
  m_currentScene (setCurrentScene SceneFire (mkBehavior Scene4 1)) = Scene1 /\
  In (m_currentScene (new SceneAlarm)) (getActiveBasicScenes (new SceneAlarm)).
Proof.
  pose proof (setCurrentScene_active (mkBehavior Scene4 1) SceneFire) as (_ & _ & _ & _ & _).
  split; [reflexivity|].
  apply (setCurrentScene_active (mkBehavior Scene4 1) SceneAlarm).
Defined.

(** Changing the configuration alone can leave an inactive scene behind. *)
Lemma setConfiguration_inactive :
  let b := setConfiguration 1 (new SceneOff) in
  ~ In (m_currentScene b) (getActiveBasicScenes b) /\ getNextScene b = Ok SceneBoost.
Proof. split; [|reflexivity]. vm_compute. intuition discriminate. Qed.

(** ** Serialisation *)

Fixpoint clear_scenes (scenes : list Z) (configuration : Z) : res Z :=
  match scenes with
  | [] => Ok configuration
  | s :: rest => configuration ← clear_scene configuration s; clear_scenes rest configuration
  end.

Definition clear_check (c : Z) : bool :=
  bool_decide (clear_scenes (getActiveBasicScenes (mkBehavior 0 c)) 63 = Ok c).

Lemma clear_all c : 0 <= c < 64 -> clear_check c = true.
Proof. apply (zrange_forall clear_check 0 64). by_compute. Qed.

(** The values between [StartArray] and [EndArray]. *)
Definition array_values (calls : list json_call) : list Z :=
  omap (fun c => match c with Add v => Some v | _ => None end) calls.

Lemma array_values_serialize c b : array_values (serializeConfiguration c b) = getActiveBasicScenes b.
Proof.
  unfold serializeConfiguration, array_values. generalize (getActiveBasicScenes b) as l.
  intros l. cbn [omap list_omap]. rewrite omap_app. cbn [omap list_omap]. rewrite app_nil_r.
  induction l as [|s l IH]; [done|]. cbn [map omap list_omap]. by rewrite IH.
Qed.

Section Roundtrip.
Context `{JsonReader}.

Lemma read_scenes_ints vs scenes c :
  map GetInt vs = map Ok scenes -> read_scenes vs c = clear_scenes scenes c.
Proof.
  revert scenes c. induction vs as [|v vs IH]; intros [|s scenes] c E; try discriminate; [done|].
  injection E as E1 E2. cbn [read_scenes clear_scenes]. rewrite E1. cbn.
  destruct (clear_scene c s); cbn; auto.
Qed.

(** Reading back the configuration that a ventilation group serialises
    gives the same six configuration bits, for every configuration; the JSON
    library only has to return the object that was written. *)
Theorem configuration_roundtrip (b : Behavior) (configuration : Z) (json : string) (v : Value) :
  IsObject (Parse (c_str json)) = true ->
  FindMember (Parse (c_str json)) "activeBasicScenes" = Some v -> IsArray v = true ->
  map GetInt (Elements v) = map Ok (array_values (serializeConfiguration configuration b)) ->
  deserializeConfiguration json = Ok (m_configuration b mod 64).
Proof.
  intros HO HM HA HE. rewrite array_values_serialize in HE. unfold deserializeConfiguration.
  rewrite HO, HM, HA. cbn [negb]. rewrite (read_scenes_ints _ _ _ HE).
  pose proof (clear_all (m_configuration b mod 64) ltac:(apply Z.mod_pos_bound; lia)) as Hc.
  apply bool_decide_eq_true_1 in Hc. rewrite active_scenes_mod in Hc. exact Hc.
Qed.
End Roundtrip.

(** A reader whose documents are lists of integers. *)
Definition list_reader (l : list Z) : JsonReader :=
  {| Document := list Z; Value := list Z + Z; Parse := fun _ => l; IsObject := fun _ => true;
     FindMember := fun d _ => Some (inl d); IsArray := fun v => match v with inl _ => true | _ => false end;
     Elements := fun v => match v with inl l => map inr l | _ => [] end;
     GetInt := fun v => match v with inr z => Ok z | _ => Throw (AssertionFailure "GetInt") end |}.

Lemma configuration_roundtrip_witness :
  @deserializeConfiguration (list_reader [SceneOff; Scene2]) "" = Ok 58.
Proof.
  apply (@configuration_roundtrip (list_reader [SceneOff; Scene2]) (mkBehavior SceneOff 58) 0 "" (inl [SceneOff; Scene2]));
    reflexivity.
Defined.
