(* ===== verification/PropertyTree.v ===== *)
(** [src/src/propertysystem.h] and [propertysystem.cpp]: the tree of property
    nodes, with values, proxies, aliases, listeners and flags, on an explicit
    heap of nodes.

    Pointers are node numbers, [NULL] is [None].  A node that no longer has an
    owner stays in the heap: destructors and the mutex are not modelled. *)
From stdpp Require Import base option list strings gmap.
From Stdlib Require Import ZArith Lia Ascii PrimFloat.
From Stdlib Require String.
From S2P Require Import Prelude CxxString Base NumConv Encoding.

Open Scope string_scope.
Open Scope list_scope.
Open Scope Z_scope.

(** * Values *)

Inductive aValueType :=
  vTypeNone | vTypeInteger | vTypeString | vTypeBoolean | vTypeFloating | vTypeUnsignedInteger.
#[global] Instance aValueType_eq_dec : EqDecision aValueType.
Proof. solve_decision. Defined.

(** The member of the [union actualValue] written last; [AZero] after [memset]. *)
Inductive actualValue :=
| AZero
| AString (s : string)
| AInteger (z : Z)
| AUnsigned (z : Z)
| ABoolean (b : bool)
| AFloating (f : float).

Definition getValueTypeAsString (_value : aValueType) : string :=
  match _value with
  | vTypeNone => "none"
  | vTypeInteger => "integer"
  | vTypeUnsignedInteger => "unsignedinteger"
  | vTypeString => "string"
  | vTypeBoolean => "boolean"
  | vTypeFloating => "floating"
  end.

Definition getValueTypeFromString (_str : string) : res aValueType :=
  let strVal := _str in
  if String.eqb strVal "none" then Ok vTypeNone
  else if String.eqb strVal "integer" then Ok vTypeInteger
  else if String.eqb strVal "unsignedinteger" then Ok vTypeUnsignedInteger
  else if String.eqb strVal "boolean" then Ok vTypeBoolean
  else if String.eqb strVal "string" then Ok vTypeString
  else if String.eqb strVal "floating" then Ok vTypeFloating
  else Throw (AssertionFailure "getValueTypeFromString").

(** * Nodes and heap *)

Definition nid := nat.
Definition lid := nat.

(** [enum Flag] *)
Definition Readable : Z := 1.
Definition Writeable : Z := 2.
Definition Archive : Z := 4.

Section Types.
(** The state of the rest of the program, which proxies read and write. *)
Context (Ext : Type).

(** [class PropertyProxy<T>] *)
Record PropertyProxy (T : Type) := mkProxy { getValue : Ext -> T; setValue : T -> Ext -> Ext }.

Inductive proxy :=
| BoolProxy (p : PropertyProxy bool)
| IntProxy (p : PropertyProxy Z)
| UintProxy (p : PropertyProxy Z)
| StringProxy (p : PropertyProxy string)
| FloatingProxy (p : PropertyProxy float).

(** [class PropertyNode] *)
Record node := mkNode {
  m_Name : string;
  m_Index : Z;
  m_Flags : Z;
  valueType : aValueType;
  value : actualValue;
  m_Proxy : option proxy;
  m_ChildNodes : option (list nid);
  m_AliasedBy : option (list nid);
  m_Listeners : option (list lid);
  m_ParentNode : option nid;
  m_AliasTarget : option nid
}.

(** All nodes, the next unused node number and, for every listener, its
    [m_Properties]. *)
Record heap := mkHeap {
  nodes : gmap nid node;
  next : nid;
  m_Properties : gmap lid (list nid);
  ext : Ext
}.
End Types.

Arguments mkProxy {Ext T}. Arguments getValue {Ext T}. Arguments setValue {Ext T}.
Arguments BoolProxy {Ext}. Arguments IntProxy {Ext}. Arguments UintProxy {Ext}.
Arguments StringProxy {Ext}. Arguments FloatingProxy {Ext}.
Arguments mkNode {Ext}. Arguments m_Name {Ext}. Arguments m_Index {Ext}. Arguments m_Flags {Ext}.
Arguments valueType {Ext}. Arguments value {Ext}. Arguments m_Proxy {Ext}.
Arguments m_ChildNodes {Ext}. Arguments m_AliasedBy {Ext}. Arguments m_Listeners {Ext}.
Arguments m_ParentNode {Ext}. Arguments m_AliasTarget {Ext}.
Arguments mkHeap {Ext}. Arguments nodes {Ext}. Arguments next {Ext}.
Arguments m_Properties {Ext}. Arguments ext {Ext}.

(** The proxies of the header: a reference (with conversions between the
    property's type and the variable's), a pointer and a pair of functions,
    each of which may be missing. *)
Definition PropertyProxyReference {Ext T R} (ref : Ext -> R) (assign : R -> Ext -> Ext)
    (to : R -> T) (from : T -> R) (_writeable : bool) : PropertyProxy Ext T :=
  mkProxy (fun e => to (ref e)) (fun v e => if _writeable then assign (from v) e else e).
Definition PropertyProxyPointer {Ext T} (ptr : Ext -> T) : PropertyProxy Ext T :=
  mkProxy ptr (fun _ e => e).
Definition PropertyProxyFunction {Ext T} (DefaultValue : T) (getter : option (Ext -> T))
    (setter : option (T -> Ext -> Ext)) : PropertyProxy Ext T :=
  mkProxy (fun e => match getter with Some g => g e | None => DefaultValue end)
    (fun v e => match setter with Some f => f v e | None => e end).

(** Field updates. *)
Section Updates.
Context {Ext : Type}.
Implicit Types (n : node Ext) (h : heap Ext).

Definition set_Index (i : Z) n : node Ext :=
  mkNode (m_Name n) i (m_Flags n) (valueType n) (value n) (m_Proxy n) (m_ChildNodes n)
    (m_AliasedBy n) (m_Listeners n) (m_ParentNode n) (m_AliasTarget n).
Definition set_Flags (f : Z) n : node Ext :=
  mkNode (m_Name n) (m_Index n) f (valueType n) (value n) (m_Proxy n) (m_ChildNodes n)
    (m_AliasedBy n) (m_Listeners n) (m_ParentNode n) (m_AliasTarget n).
Definition set_PropVal (t : aValueType) (v : actualValue) n : node Ext :=
  mkNode (m_Name n) (m_Index n) (m_Flags n) t v (m_Proxy n) (m_ChildNodes n)
    (m_AliasedBy n) (m_Listeners n) (m_ParentNode n) (m_AliasTarget n).
Definition set_Proxy (p : option (proxy Ext)) n : node Ext :=
  mkNode (m_Name n) (m_Index n) (m_Flags n) (valueType n) (value n) p (m_ChildNodes n)
    (m_AliasedBy n) (m_Listeners n) (m_ParentNode n) (m_AliasTarget n).
Definition set_ChildNodes (c : option (list nid)) n : node Ext :=
  mkNode (m_Name n) (m_Index n) (m_Flags n) (valueType n) (value n) (m_Proxy n) c
    (m_AliasedBy n) (m_Listeners n) (m_ParentNode n) (m_AliasTarget n).
Definition set_AliasedBy (a : option (list nid)) n : node Ext :=
  mkNode (m_Name n) (m_Index n) (m_Flags n) (valueType n) (value n) (m_Proxy n) (m_ChildNodes n)
    a (m_Listeners n) (m_ParentNode n) (m_AliasTarget n).
Definition set_Listeners (l : option (list lid)) n : node Ext :=
  mkNode (m_Name n) (m_Index n) (m_Flags n) (valueType n) (value n) (m_Proxy n) (m_ChildNodes n)
    (m_AliasedBy n) l (m_ParentNode n) (m_AliasTarget n).
Definition set_ParentNode (p : option nid) n : node Ext :=
  mkNode (m_Name n) (m_Index n) (m_Flags n) (valueType n) (value n) (m_Proxy n) (m_ChildNodes n)
    (m_AliasedBy n) (m_Listeners n) p (m_AliasTarget n).
Definition set_AliasTarget (a : option nid) n : node Ext :=
  mkNode (m_Name n) (m_Index n) (m_Flags n) (valueType n) (value n) (m_Proxy n) (m_ChildNodes n)
    (m_AliasedBy n) (m_Listeners n) (m_ParentNode n) a.

Definition set_nodes (f : gmap nid (node Ext) -> gmap nid (node Ext)) h : heap Ext :=
  mkHeap (f (nodes h)) (next h) (m_Properties h) (ext h).
Definition set_Properties (f : gmap lid (list nid) -> gmap lid (list nid)) h : heap Ext :=
  mkHeap (nodes h) (next h) (f (m_Properties h)) (ext h).
Definition set_ext (f : Ext -> Ext) h : heap Ext :=
  mkHeap (nodes h) (next h) (m_Properties h) (f (ext h)).

(** The constructor of [PropertyNode]. *)
Definition new_node (_name : string) (_index : Z) : node Ext :=
  mkNode _name _index (Z.lor Readable Writeable) vTypeNone AZero None None None None None None.
End Updates.

(** [PropertySystem]'s constructor: the root is node 0. *)
Definition empty_heap {Ext} (e : Ext) : heap Ext := mkHeap {[ 0%nat := new_node "/" 0 ]} 1%nat ∅ e.

(** The name without its index, and the index. *)
Definition getAndRemoveIndexFromPropertyName (_propName : string) : Z * string :=
  match sfind "[" _propName with
  | Some pos =>
    let endp := sfind "]" _propName in
    let indexAsString :=
      match endp with
      | Some e => if (pos <? e)%nat then substr _propName (pos + 1) (e - pos - 1)
                  else sdrop (pos + 1) _propName
      | None => sdrop (pos + 1) _propName
      end in
    let name := match endp with
                | Some e => erase _propName pos e
                | None => stake pos _propName
                end in
    (if String.eqb (trim indexAsString) "last" then -1 else int32 (fst (strtol (c_str indexAsString) 10)),
     name)
  | None => (0, _propName)
  end.

(** * Operations

    [callback] is what a listener does when it is called: the kind of the
    notification, the listener, the node that calls and the node concerned. *)
Inductive notification := PropertyChanged | PropertyRemoved | PropertyAdded.

Section Operations.
Context {Ext : Type}.
Context (callback : notification -> lid -> nid -> nid -> heap Ext -> heap Ext).

Local Notation "'M' A" := (SE (heap Ext) A) (at level 10, A at next level).

Definition deref (n : nid) : M (node Ext) := fun h =>
  match nodes h !! n with
  | Some nd => (Ok nd, h)
  | None => (Throw (UndefinedBehaviour "dangling node"), h)
  end.

Definition update (n : nid) (f : node Ext -> node Ext) : M unit :=
  nd ← deref n; se_modify (set_nodes <[n := f nd]>).

(** The bound on alias, parent and child chains: the number of nodes; a longer
    chain is a cycle and the C++ recursion does not end. *)
Definition node_bound : M nat := se_gets (fun h => S (size (nodes h))).

Definition endless {A} : M A := se_throw (UndefinedBehaviour "unbounded recursion").

(** [if(m_AliasTarget) return m_AliasTarget->f(...)], repeated. *)
Fixpoint follow (fuel : nat) (n : nid) : M nid :=
  match fuel with
  | O => endless
  | S fuel =>
    nd ← deref n;
    match m_AliasTarget nd with Some t => follow fuel t | None => mret n end
  end.

Definition target (n : nid) : M nid := fuel ← node_bound; follow fuel n.

(** ** Listeners *)

(** The loop over the copy of the list: a listener is called if it is still
    registered when its turn comes. *)
Fixpoint call_listeners (kind : notification) (n node_ : nid) (copy : list lid) : M unit :=
  match copy with
  | [] => mret tt
  | l :: copy =>
    nd ← deref n;
    _ ← (if bool_decide (l ∈ default [] (m_Listeners nd))
         then se_modify (callback kind l n node_) else mret tt);
    call_listeners kind n node_ copy
  end.

Fixpoint notify_up (fuel : nat) (kind : notification) (n node_ : nid) : M unit :=
  match fuel with
  | O => endless
  | S fuel =>
    nd ← deref n;
    _ ← call_listeners kind n node_ (default [] (m_Listeners nd));
    nd ← deref n;
    match m_ParentNode nd with Some p => notify_up fuel kind p node_ | None => mret tt end
  end.

Definition notifyListeners (kind : notification) (n node_ : nid) : M unit :=
  fuel ← node_bound; notify_up fuel kind n node_.

Definition propertyChanged (n : nid) : M unit := notifyListeners PropertyChanged n n.
Definition childAdded (n _child : nid) : M unit := notifyListeners PropertyAdded n _child.
Definition childRemoved (n _child : nid) : M unit := notifyListeners PropertyRemoved n _child.

Definition registerProperty (l : lid) (n : nid) : M unit :=
  se_modify (set_Properties (fun ps => <[l := default [] (ps !! l) ++ [n]]> ps)).

(** Erases the first occurrence. *)
Fixpoint erase_first (x : nat) (l : list nat) : list nat :=
  match l with
  | [] => []
  | y :: l => if Nat.eqb x y then l else y :: erase_first x l
  end.

Definition unregisterProperty (l : lid) (n : nid) : M unit :=
  se_modify (set_Properties (fun ps => <[l := erase_first n (default [] (ps !! l))]> ps)).

Definition addListener (n : nid) (_listener : lid) : M unit :=
  _ ← registerProperty _listener n;
  update n (fun nd => set_Listeners (Some (default [] (m_Listeners nd) ++ [_listener])) nd).

Definition removeListener (n : nid) (_listener : lid) : M unit :=
  nd ← deref n;
  match m_Listeners nd with
  | None => se_throw (UndefinedBehaviour "removeListener: no listeners")
  | Some ls =>
    if bool_decide (_listener ∈ ls) then
      _ ← update n (set_Listeners (Some (erase_first _listener ls)));
      unregisterProperty _listener n
    else mret tt
  end.

(** [PropertyListener::unsubscribe]; the loop ends after one round per entry. *)
Fixpoint unsubscribe_loop (fuel : nat) (l : lid) : M unit :=
  ps ← se_gets (fun h => default [] (m_Properties h !! l));
  match ps with
  | [] => mret tt
  | n :: _ =>
    match fuel with
    | O => endless
    | S fuel => _ ← removeListener n l; unsubscribe_loop fuel l
    end
  end.

Definition unsubscribe (l : lid) : M unit :=
  fuel ← se_gets (fun h => length (default [] (m_Properties h !! l)));
  unsubscribe_loop fuel l.

Definition isListening (l : lid) : M bool :=
  se_gets (fun h => negb (bool_decide (default [] (m_Properties h !! l) = []))).

(** ** Children *)

Definition removeChild (n _childNode : nid) : M (option nid) :=
  t ← target n;
  nd ← deref t;
  match m_ChildNodes nd with
  | None => mret None
  | Some cs =>
    _ ← update t (set_ChildNodes (Some (erase_first _childNode cs)));
    _ ← update _childNode (set_ParentNode None);
    _ ← childRemoved t _childNode;
    mret (Some _childNode)
  end.

(** The largest index among the children of that name. *)
Fixpoint max_index (cs : list nid) (name : string) (maxIndex : Z) : M Z :=
  match cs with
  | [] => mret maxIndex
  | c :: cs =>
    cd ← deref c;
    max_index cs name (if String.eqb (m_Name cd) name then Z.max (m_Index cd) maxIndex else maxIndex)
  end.

Definition addChild (n _childNode : nid) : M unit :=
  t ← target n;
  if Nat.eqb _childNode t then se_throw (RuntimeError "Adding self as child node")
  else
    cd ← deref _childNode;
    _ ← match m_ParentNode cd with
        | Some p => _ ← removeChild p _childNode; mret tt
        | None => mret tt
        end;
    nd ← deref t;
    let cs := default [] (m_ChildNodes nd) in
    _ ← update _childNode (set_ParentNode (Some t));
    maxIndex ← max_index cs (m_Name cd) (-1);
    _ ← update _childNode (set_Index (maxIndex + 1));
    _ ← update t (set_ChildNodes (Some (cs ++ [_childNode])));
    childAdded t _childNode.

Definition getChildNodes (n : nid) : M (list nid) :=
  nd ← deref n;
  match m_AliasTarget nd with
  | Some t => td ← deref t; mret (default [] (m_ChildNodes td))
  | None => mret (default [] (m_ChildNodes nd))
  end.

Definition getChildCount (n : nid) : M Z := cs ← getChildNodes n; mret (Z.of_nat (length cs)).

Definition getChild (n : nid) (_index : Z) : M (option nid) :=
  nd ← deref n;
  td ← match m_AliasTarget nd with Some t => deref t | None => mret nd end;
  match m_ChildNodes td with
  | None => mret None
  | Some cs =>
    match (if _index <? 0 then None else cs !! Z.to_nat _index) with
    | Some c => mret (Some c)
    | None => se_throw (OutOfRange "vector::_M_range_check")
    end
  end.

Definition size_ (n : nid) : M Z := nd ← deref n; mret (Z.of_nat (length (default [] (m_ChildNodes nd)))).

Fixpoint count_name (cs : list nid) (name : string) : M Z :=
  match cs with
  | [] => mret 0
  | c :: cs =>
    cd ← deref c;
    k ← count_name cs name;
    mret (if String.eqb (m_Name cd) name then k + 1 else k)
  end.

Definition count (n : nid) (_propertyName : string) : M Z :=
  t ← target n;
  nd ← deref t;
  match m_ChildNodes nd with None => mret 0 | Some cs => count_name cs _propertyName end.

Definition getDisplayName (n : nid) : M string :=
  nd ← deref n;
  match m_ParentNode nd with
  | Some p =>
    k ← count p (m_Name nd);
    mret (if k >? 1 then m_Name nd +:+ "[" +:+ intToString (m_Index nd) false +:+ "]" else m_Name nd)
  | None => mret (m_Name nd)
  end.

(** The loop of [getPropertyByName]. *)
Fixpoint find_child (cs : list nid) (propName : string) (index : Z) (lastMatch : option nid)
    : M (option nid) :=
  match cs with
  | [] => mret (if index =? -1 then lastMatch else None)
  | c :: cs =>
    cd ← deref c;
    if String.eqb (m_Name cd) propName then
      if m_Index cd =? index then mret (Some c) else find_child cs propName index (Some c)
    else find_child cs propName index lastMatch
  end.

Definition getPropertyByName (n : nid) (_name : string) : M (option nid) :=
  t ← target n;
  nd ← deref t;
  match m_ChildNodes nd with
  | None => mret None
  | Some cs =>
    let '(index, propName) := getAndRemoveIndexFromPropertyName _name in
    find_child cs propName index None
  end.

(** The path gets shorter in every call: its length bounds the recursion. *)
Fixpoint getProperty_rec (fuel : nat) (n : nid) (_propPath : string) : M (option nid) :=
  match fuel with
  | O => endless
  | S fuel =>
    t ← target n;
    if String.eqb _propPath "" || String.eqb _propPath "/" then mret (Some t)
    else
      let '(head, tail) := carCdrPath _propPath in
      child ← getPropertyByName t head;
      match child with
      | None => mret None
      | Some c => if String.eqb tail "" then mret (Some c) else getProperty_rec fuel c tail
      end
  end.

Definition getProperty (n : nid) (_propPath : string) : M (option nid) :=
  getProperty_rec (S (slen _propPath)) n _propPath.

(** [boost::make_shared<PropertyNode>(name, index)] *)
Definition make_node (_name : string) (_index : Z) : M nid := fun h =>
  (Ok (next h), mkHeap (<[next h := new_node (c_str _name) _index]> (nodes h)) (S (next h))
    (m_Properties h) (ext h)).

(** One component of [createProperty], on a node that is no alias. *)
Definition createChild (t : nid) (nextOne _propPath : string) : M nid :=
  nextNode ← getPropertyByName t nextOne;
  match nextNode with
  | Some c => mret c
  | None =>
    let nextOne :=
      match slast nextOne with
      | Some c => if Ascii.eqb c "+" then erase nextOne (slen nextOne - 1) 1 else nextOne
      | None => nextOne
      end in
    let '(index, nextOne) := getAndRemoveIndexFromPropertyName nextOne in
    index ← (if index =? 0 then k ← count t nextOne; mret (k + 1) else mret index);
    if String.eqb nextOne "" then
      se_throw (RuntimeError ("Cannot create property with empty name." +:+ _propPath))
    else
      c ← make_node nextOne index;
      _ ← addChild t c;
      mret c
  end.

Fixpoint createProperty_rec (fuel : nat) (n : nid) (_propPath : string) : M nid :=
  match fuel with
  | O => endless
  | S fuel =>
    t ← target n;
    if String.eqb _propPath "" || String.eqb _propPath "/" then mret t
    else
      let '(nextOne, tail) := carCdrPath _propPath in
      nextNode ← createChild t nextOne _propPath;
      if String.eqb tail "" then mret nextNode else createProperty_rec fuel nextNode tail
  end.

Definition createProperty (n : nid) (_propPath : string) : M nid :=
  createProperty_rec (S (slen _propPath)) n _propPath.

(** ** Values *)

(** Reading a union member that was not written last. *)
Definition wrong_member {A} : res A := Throw (UndefinedBehaviour "union member").

(** What the five accessors for a value type differ in: the tag, the union
    member and the proxy. *)
Record ValueOps (T : Type) := {
  vo_type : aValueType;
  vo_inject : T -> actualValue;
  vo_read : actualValue -> res T;
  vo_wrap : PropertyProxy Ext T -> proxy Ext;
  vo_unwrap : proxy Ext -> option (PropertyProxy Ext T);
  vo_read_inject : forall v, vo_read (vo_inject v) = Ok v;
  vo_unwrap_wrap : forall p, vo_unwrap (vo_wrap p) = Some p;
  vo_not_none : vo_type <> vTypeNone
}.
Arguments vo_type {T}. Arguments vo_inject {T}. Arguments vo_read {T}.
Arguments vo_wrap {T}. Arguments vo_unwrap {T}.

Definition string_ops : ValueOps string.
Proof.
  refine {| vo_type := vTypeString; vo_inject := AString;
    vo_read := fun v => match v with
      | AString s => Ok s
      | AZero => Throw (UndefinedBehaviour "std::string(NULL)")
      | _ => wrong_member end;
    vo_wrap := StringProxy; vo_unwrap := fun p => match p with StringProxy p => Some p | _ => None end |};
  done.
Defined.

Definition int_ops : ValueOps Z.
Proof.
  refine {| vo_type := vTypeInteger; vo_inject := AInteger;
    vo_read := fun v => match v with AInteger z => Ok z | AZero => Ok 0 | _ => wrong_member end;
    vo_wrap := IntProxy; vo_unwrap := fun p => match p with IntProxy p => Some p | _ => None end |};
  done.
Defined.

Definition uint_ops : ValueOps Z.
Proof.
  refine {| vo_type := vTypeUnsignedInteger; vo_inject := AUnsigned;
    vo_read := fun v => match v with AUnsigned z => Ok z | AZero => Ok 0 | _ => wrong_member end;
    vo_wrap := UintProxy; vo_unwrap := fun p => match p with UintProxy p => Some p | _ => None end |};
  done.
Defined.

Definition bool_ops : ValueOps bool.
Proof.
  refine {| vo_type := vTypeBoolean; vo_inject := ABoolean;
    vo_read := fun v => match v with ABoolean b => Ok b | AZero => Ok false | _ => wrong_member end;
    vo_wrap := BoolProxy; vo_unwrap := fun p => match p with BoolProxy p => Some p | _ => None end |};
  done.
Defined.

Definition float_ops : ValueOps float.
Proof.
  refine {| vo_type := vTypeFloating; vo_inject := AFloating;
    vo_read := fun v => match v with AFloating f => Ok f | AZero => Ok 0%float | _ => wrong_member end;
    vo_wrap := FloatingProxy; vo_unwrap := fun p => match p with FloatingProxy p => Some p | _ => None end |};
  done.
Defined.

Definition mismatch (nd : node Ext) : exn :=
  PropertyTypeMismatch ("Property-Type mismatch: " +:+ m_Name nd).

(** [free]s the string if the tag says that there is one. *)
Definition clearValue (n : nid) : M unit :=
  nd ← deref n;
  _ ← (if bool_decide (valueType nd = vTypeString) then
         match value nd with
         | AString _ | AZero => mret tt
         | _ => se_throw (UndefinedBehaviour "free of a value that is no string")
         end
       else mret tt);
  update n (set_PropVal vTypeNone AZero).

(** [set<T>Value] *)
Definition setTypedValue {T} (ops : ValueOps T) (n : nid) (_value : T) : M unit :=
  t ← target n;
  nd ← deref t;
  _ ← match m_Proxy nd with
      | Some p =>
        if bool_decide (valueType nd = vo_type ops) then
          match vo_unwrap ops p with
          | Some p => se_modify (set_ext (setValue p _value))
          | None => se_throw (UndefinedBehaviour "proxy of another type")
          end
        else se_throw (mismatch nd)
      | None =>
        _ ← clearValue t;
        update t (fun nd => set_PropVal (valueType nd) (vo_inject ops _value) nd)
      end;
  _ ← update t (fun nd => set_PropVal (vo_type ops) (value nd) nd);
  propertyChanged t.

(** [get<T>Value] *)
Definition getTypedValue {T} (ops : ValueOps T) (n : nid) : M T :=
  t ← target n;
  nd ← deref t;
  if bool_decide (valueType nd = vo_type ops) then
    match m_Proxy nd with
    | Some p =>
      match vo_unwrap ops p with
      | Some p => se_gets (fun h => getValue p (ext h))
      | None => se_throw (UndefinedBehaviour "proxy of another type")
      end
    | None => se_lift (vo_read ops (value nd))
    end
  else se_throw (mismatch nd).

(** [setStringValue(const char* )]; a NULL pointer leaves the value zeroed. *)
Definition setStringValue_cstr (n : nid) (_value : option string) : M unit :=
  match _value with
  | Some s => setTypedValue string_ops n s
  | None =>
    t ← target n;
    nd ← deref t;
    _ ← match m_Proxy nd with
        | Some _ =>
          if bool_decide (valueType nd = vTypeString)
          then se_throw (UndefinedBehaviour "std::string(NULL)") else se_throw (mismatch nd)
        | None => clearValue t
        end;
    _ ← update t (fun nd => set_PropVal vTypeString (value nd) nd);
    propertyChanged t
  end.

Definition setStringValue (n : nid) (_value : string) : M unit :=
  setStringValue_cstr n (Some (c_str _value)).
Definition setIntegerValue (n : nid) (_value : Z) : M unit := setTypedValue int_ops n _value.
Definition setUnsignedIntegerValue (n : nid) (_value : Z) : M unit := setTypedValue uint_ops n _value.
Definition setBooleanValue (n : nid) (_value : bool) : M unit := setTypedValue bool_ops n _value.
Definition setFloatingValue (n : nid) (_value : float) : M unit := setTypedValue float_ops n _value.

Definition getStringValue (n : nid) : M string := getTypedValue string_ops n.
Definition getIntegerValue (n : nid) : M Z := getTypedValue int_ops n.
Definition getUnsignedIntegerValue (n : nid) : M Z := getTypedValue uint_ops n.
Definition getBoolValue (n : nid) : M bool := getTypedValue bool_ops n.
Definition getFloatingValue (n : nid) : M float := getTypedValue float_ops n.

(** One level of aliasing only. *)
Definition getValueType (n : nid) : M aValueType :=
  nd ← deref n;
  match m_AliasTarget nd with
  | Some t => td ← deref t; mret (valueType td)
  | None => mret (valueType nd)
  end.

Definition getAsString (doubleToString : float -> string) (n : nid) : M string :=
  t ← target n;
  ty ← getValueType t;
  match ty with
  | vTypeString => getStringValue t
  | vTypeInteger => z ← getIntegerValue t; mret (intToString z false)
  | vTypeFloating => f ← getFloatingValue t; mret (doubleToString f)
  | vTypeUnsignedInteger => z ← getUnsignedIntegerValue t; mret (uintToString z false)
  | vTypeBoolean => b ← getBoolValue t; mret (if b : bool then "true" else "false")
  | vTypeNone => mret ""
  end.

(** ** Aliases, proxies, flags *)

Definition alias (n : nid) (_target : option nid) : M unit :=
  nd ← deref n;
  if negb (bool_decide (default [] (m_ChildNodes nd) = [])) then
    se_throw (RuntimeError "Cannot alias node if it has children")
  else if bool_decide (is_Some (m_Proxy nd)) then
    se_throw (RuntimeError "Cannot alias node if it is linked to a proxy")
  else
    match _target with
    | None =>
      match m_AliasTarget nd with
      | Some t =>
        td ← deref t;
        match m_AliasedBy td with
        | Some l =>
          if bool_decide (n ∈ l) then
            _ ← update t (set_AliasedBy (Some (erase_first n l)));
            update n (set_AliasTarget None)
          else se_throw (AssertionFailure "alias: not in the list of the target")
        | None => se_throw (UndefinedBehaviour "alias: target without a list")
        end
      | None => mret tt
      end
    | Some t =>
      _ ← clearValue n;
      _ ← update n (set_AliasTarget (Some t));
      update t (fun td => set_AliasedBy (Some (default [] (m_AliasedBy td) ++ [n])) td)
    end.

Definition linkToProxy {T} (ops : ValueOps T) (n : nid) (_proxy : PropertyProxy Ext T) : M bool :=
  nd ← deref n;
  if bool_decide (is_Some (m_Proxy nd)) || bool_decide (is_Some (m_AliasTarget nd)) then mret false
  else
    _ ← update n (fun nd => set_PropVal (vo_type ops) (value nd) (set_Proxy (Some (vo_wrap ops _proxy)) nd));
    mret true.

(** The recursion descends the tree. *)
Fixpoint unlinkProxy_rec (fuel : nat) (_recurse : bool) (n : nid) : M bool :=
  match fuel with
  | O => endless
  | S fuel =>
    nd ← deref n;
    _ ← (if _recurse
         then se_iter (fun c => _ ← unlinkProxy_rec fuel _recurse c; mret tt) (default [] (m_ChildNodes nd))
         else mret tt);
    nd ← deref n;
    match m_Proxy nd with
    | Some _ =>
      ty ← getValueType n;
      if bool_decide (ty = vTypeNone) then se_throw (AssertionFailure "unlinkProxy")
      else _ ← update n (set_Proxy None); mret true
    | None => mret false
    end
  end.

Definition unlinkProxy (n : nid) (_recurse : bool) : M bool :=
  fuel ← node_bound; unlinkProxy_rec fuel _recurse n.

Definition hasFlag (n : nid) (_flag : Z) : M bool :=
  nd ← deref n; mret (Z.land (m_Flags nd) _flag =? _flag).

Definition setFlag (n : nid) (_flag : Z) (_value : bool) : M unit :=
  nd ← deref n;
  let flags := wrapU 8 (if _value then Z.lor (m_Flags nd) _flag else Z.land (m_Flags nd) (Z.lnot _flag)) in
  _ ← update n (set_Flags flags);
  if flags =? m_Flags nd then mret tt else propertyChanged n.

Fixpoint searchForFlag_rec (fuel : nat) (_flag : Z) (n : nid) : M bool :=
  match fuel with
  | O => endless
  | S fuel =>
    b ← hasFlag n _flag;
    if b : bool then mret true
    else
      nd ← deref n;
      (fix any (cs : list nid) : M bool :=
         match cs with
         | [] => mret false
         | c :: cs => b ← searchForFlag_rec fuel _flag c; if b : bool then mret true else any cs
         end) (default [] (m_ChildNodes nd))
  end.

Definition searchForFlag (n : nid) (_flag : Z) : M bool :=
  fuel ← node_bound; searchForFlag_rec fuel _flag n.

(** [getOrCreateChild] and [getOrCreateChildValue] *)
Definition getOrCreateChild {T} (set : nid -> T -> M unit) (n : nid) (childPath : string)
    (defaultValue : T) : M nid :=
  child ← getProperty n childPath;
  match child with
  | Some c => mret c
  | None => c ← createProperty n childPath; _ ← set c defaultValue; mret c
  end.

Definition getOrCreateChildValue {T} (set : nid -> T -> M unit) (get : nid -> M T) (n : nid)
    (childPath : string) (defaultValue : T) : M T :=
  c ← getOrCreateChild set n childPath defaultValue; get c.

(** ** Saving *)

Section Save.
Context (valid_utf8 : string -> bool) (doubleToString : float -> string).

Definition newline : string := String "010" "".
Definition quoted (s : string) : string := String "034" s +:+ String "034" "".

Fixpoint saveAsXML_rec (fuel : nat) (n : nid) (_indent : nat) (_flagsMask : Z) : M string :=
  match fuel with
  | O => endless
  | S fuel =>
    ty ← getValueType n;
    dn ← getDisplayName n;
    name ← se_lift (XMLStringEscape valid_utf8 dn);
    a ← hasFlag n Archive; r ← hasFlag n Readable; w ← hasFlag n Writeable;
    nd ← deref n;
    let attr (b : bool) (s : string) := if b then " " +:+ s +:+ "=" +:+ quoted "true" else "" in
    let head := doIndent _indent +:+ "<property type=" +:+ quoted (getValueTypeAsString ty) +:+
      " name=" +:+ quoted name +:+ attr a "archive" +:+ attr r "readable" +:+ attr w "writeable" in
    if bool_decide (m_ChildNodes nd = Some []) && bool_decide (ty = vTypeNone) then
      mret (head +:+ "/>" +:+ newline)
    else
      val ← (if bool_decide (ty = vTypeNone) then mret ""
             else v ← getAsString doubleToString n;
                  v ← se_lift (XMLStringEscape valid_utf8 v);
                  mret (doIndent (S _indent) +:+ "<value>" +:+ v +:+ "</value>" +:+ newline));
      children ←
        (fix save (cs : list nid) : M string :=
           match cs with
           | [] => mret ""
           | c :: cs =>
             b ← (if _flagsMask =? 0 then mret true else searchForFlag c _flagsMask);
             s ← (if b : bool then saveAsXML_rec fuel c (S _indent) _flagsMask else mret "");
             s' ← save cs;
             mret (s +:+ s')
           end) (default [] (m_ChildNodes nd));
      mret (head +:+ ">" +:+ newline +:+ val +:+ children +:+ doIndent _indent +:+ "</property>" +:+ newline)
  end.

Definition saveAsXML (n : nid) (_indent : nat) (_flagsMask : Z) : M string :=
  fuel ← node_bound; saveAsXML_rec fuel n _indent _flagsMask.
End Save.

(** ** [class PropertySystem] *)

Definition root : nid := O.

Definition sys_getProperty (_propPath : string) : M (option nid) :=
  match _propPath with
  | String "/" EmptyString => mret (Some root)
  | String "/" propPath => getProperty root propPath
  | _ => mret None
  end.

Definition sys_createProperty (_propPath : string) : M (option nid) :=
  match _propPath with
  | String "/" EmptyString => mret (Some root)
  | String "/" propPath => c ← createProperty root propPath; mret (Some c)
  | _ => mret None
  end.

Definition sys_getTypedValue {T} (get : nid -> M T) (absent : T) (_propPath : string) : M T :=
  prop ← sys_getProperty _propPath;
  match prop with Some p => get p | None => mret absent end.

Definition getIntValue (_propPath : string) : M Z := sys_getTypedValue getIntegerValue 0 _propPath.
Definition sys_getBoolValue (_propPath : string) : M bool := sys_getTypedValue getBoolValue false _propPath.
Definition sys_getStringValue (_propPath : string) : M string := sys_getTypedValue getStringValue "" _propPath.

Definition sys_setTypedValue {T} (set : nid -> T -> M unit) (_propPath : string) (_value : T)
    (_mayCreate _mayOverwrite : bool) : M bool :=
  prop ← sys_getProperty _propPath;
  match prop with
  | None =>
    if _mayCreate then
      prop ← sys_createProperty _propPath;
      match prop with
      | Some p => _ ← set p _value; mret true
      | None => se_throw (UndefinedBehaviour "call on NULL")
      end
    else mret false
  | Some p => if _mayOverwrite then _ ← set p _value; mret true else mret false
  end.

Definition setIntValue := sys_setTypedValue setIntegerValue.
Definition setBoolValue := sys_setTypedValue setBooleanValue.
Definition sys_setStringValue := sys_setTypedValue setStringValue.
End Operations.

Arguments vo_type {Ext T}. Arguments vo_inject {Ext T}. Arguments vo_read {Ext T}.
Arguments vo_wrap {Ext T}. Arguments vo_unwrap {Ext T}.
