(* ===== verification/PropertyTreeFacts.v ===== *)
(** Correctness of the property tree ([PropertyTree.v]): well-formed heaps,
    termination of the walks along aliases and parents, notification order,
    values, lookup and creation by path. *)
From stdpp Require Import base option list strings gmap fin_maps.
From Stdlib Require Import ZArith Lia Ascii PrimFloat.
From Stdlib Require String.
From S2P Require Import Prelude CxxString Base NumConv Encoding PropertyTree.

Open Scope string_scope.
Open Scope list_scope.
Open Scope nat_scope.

(** * Chains of pointers in a finite heap *)

Section Chain.
Context {A : Type} (m : gmap nid A) (nxt : A -> option nid).

(** The nodes met from [n] on, [None] if the fuel runs out or a pointer dangles. *)
Fixpoint chain (fuel : nat) (n : nid) : option (list nid) :=
  match fuel with
  | O => None
  | S fuel =>
    match m !! n with
    | None => None
    | Some a => match nxt a with None => Some [n] | Some p => cons n <$> chain fuel p end
    end
  end.

(** The pointers lead to existing nodes and along a decreasing rank. *)
Definition well_founded_by (rank : nid -> nat) : Prop :=
  forall n a p, m !! n = Some a -> nxt a = Some p -> is_Some (m !! p) /\ rank p < rank n.

Lemma chain_total_aux rank fuel n (seen : gset nid) :
  well_founded_by rank -> is_Some (m !! n) ->
  seen ⊆ dom m -> (forall x, x ∈ seen -> rank n < rank x) ->
  size m < fuel + size seen -> is_Some (chain fuel n).
Proof.
  intros Hwf. revert n seen. induction fuel as [|fuel IH]; intros n seen [a Ha] Hsub Hrank Hfuel.
  - exfalso. apply subseteq_size in Hsub. rewrite size_dom in Hsub. lia.
  - cbn [chain]. rewrite Ha. destruct (nxt a) as [p|] eqn:Hp; [|done].
    destruct (Hwf _ _ _ Ha Hp) as [Hex Hlt]. apply fmap_is_Some.
    assert (n ∉ seen) as Hn by (intros Hin; specialize (Hrank n Hin); lia).
    apply (IH p ({[n]} ∪ seen)); [done| | |].
    + apply union_subseteq. split; [|done]. apply singleton_subseteq_l, elem_of_dom. by exists a.
    + intros x [->%elem_of_singleton | Hx]%elem_of_union; [done|]. specialize (Hrank x Hx). lia.
    + rewrite size_union, size_singleton by set_solver. lia.
Qed.

(** As many steps as there are nodes reach the end. *)
Lemma chain_total rank n :
  well_founded_by rank -> is_Some (m !! n) -> is_Some (chain (S (size m)) n).
Proof.
  intros Hwf Hn. apply (chain_total_aux rank (S (size m)) n ∅); [done|done|set_solver|set_solver|].
  rewrite size_empty. lia.
Qed.

Lemma chain_head fuel n l : chain fuel n = Some l -> exists l', l = n :: l'.
Proof.
  destruct fuel as [|fuel]; [done|]. cbn. destruct (m !! n) as [a|]; [|done].
  destruct (nxt a); [|naive_solver]. destruct (chain fuel n0); naive_solver.
Qed.

Lemma chain_In fuel n l x : chain fuel n = Some l -> x ∈ l -> is_Some (m !! x).
Proof.
  revert n l. induction fuel as [|fuel IH]; intros n l; [done|]. cbn.
  destruct (m !! n) as [a|] eqn:E; [|done]. destruct (nxt a) as [p|].
  - destruct (chain fuel p) as [l'|] eqn:E'; [|done]. intros [= <-] [->|Hx]%elem_of_cons; [by rewrite E|].
    by apply (IH p l').
  - intros [= <-] ->%list_elem_of_singleton. by rewrite E.
Qed.
End Chain.

(** * Well-formed heaps *)

Section Facts.
Context {Ext : Type}.
Context (callback : notification -> lid -> nid -> nid -> heap Ext -> heap Ext).
Implicit Types (h : heap Ext) (nd td cd pd : node Ext).

Definition children nd : list nid := default [] (m_ChildNodes nd).
Definition listeners_of h (n : nid) : list lid :=
  from_option (fun nd => default [] (m_Listeners nd)) [] (nodes h !! n).

Record wf h : Prop := {
  wf_fresh : forall n, is_Some (nodes h !! n) -> n < next h;
  wf_down : forall p pd c, nodes h !! p = Some pd -> c ∈ children pd ->
    exists cd, nodes h !! c = Some cd /\ m_ParentNode cd = Some p;
  wf_up : forall c cd p, nodes h !! c = Some cd -> m_ParentNode cd = Some p ->
    exists pd, nodes h !! p = Some pd /\ c ∈ children pd;
  wf_nodup : forall p pd, nodes h !! p = Some pd -> NoDup (children pd);
  wf_acyclic : exists rank, well_founded_by (nodes h) m_ParentNode rank;
  wf_alias : exists rank, well_founded_by (nodes h) m_AliasTarget rank;
  wf_unique : forall p pd c d cd dd, nodes h !! p = Some pd ->
    c ∈ children pd -> d ∈ children pd -> nodes h !! c = Some cd -> nodes h !! d = Some dd ->
    m_Name cd = m_Name dd -> m_Index cd = m_Index dd -> c = d
}.

(** Listeners that leave the tree alone. *)
Definition passive : Prop := forall k l a b h,
  nodes (callback k l a b h) = nodes h /\ next (callback k l a b h) = next h /\
  m_Properties (callback k l a b h) = m_Properties h.

(** ** Running the primitives *)

Lemma deref_run h n nd : nodes h !! n = Some nd -> deref n h = (Ok nd, h).
Proof. intros H. unfold deref. by rewrite H. Qed.

Lemma update_run h n f nd :
  nodes h !! n = Some nd -> update n f h = (Ok tt, set_nodes <[n := f nd]> h).
Proof. intros H. unfold update. by erewrite se_bind_ok by by apply deref_run. Qed.

(** ** Aliases *)

Lemma follow_chain h fuel n l :
  chain (nodes h) m_AliasTarget fuel n = Some l ->
  exists t td, follow fuel n h = (Ok t, h) /\ t ∈ l /\ nodes h !! t = Some td /\ m_AliasTarget td = None.
Proof.
  revert n l. induction fuel as [|fuel IH]; intros n l; [done|]. cbn [chain follow].
  destruct (nodes h !! n) as [nd|] eqn:E; [|done].
  rewrite (se_bind_ok _ _ _ _ _ (deref_run _ _ _ E)).
  destruct (m_AliasTarget nd) as [p|] eqn:Ea.
  - destruct (chain _ _ fuel p) as [l'|] eqn:E'; [|done]. intros [= <-].
    destruct (IH p l' E') as (t & td & Hf & Hin & Ht & Hn). exists t, td. split_and!; try done.
    apply elem_of_cons. by right.
  - intros [= <-]. exists n, nd. split_and!; try done. by apply list_elem_of_singleton.
Qed.

Lemma target_total h n :
  wf h -> is_Some (nodes h !! n) ->
  exists t td, target n h = (Ok t, h) /\ nodes h !! t = Some td /\ m_AliasTarget td = None.
Proof.
  intros Hwf Hn. destruct (wf_alias h Hwf) as [rank Hr].
  destruct (chain_total _ _ _ _ Hr Hn) as [l Hl].
  destruct (follow_chain _ _ _ _ Hl) as (t & td & Hf & _ & Ht & Ha). exists t, td. split_and!; done.
Qed.

Lemma target_self h n nd :
  nodes h !! n = Some nd -> m_AliasTarget nd = None -> target n h = (Ok n, h).
Proof.
  intros Hn Ha. unfold target, node_bound. rewrite se_bind_run. cbn [se_gets follow].
  rewrite (se_bind_ok _ _ _ _ _ (deref_run _ _ _ Hn)). by rewrite Ha.
Qed.

(** ** Notifications *)

(** The node and its ancestors, innermost first. *)
Definition ancestors h (n : nid) : list nid :=
  default [] (chain (nodes h) m_ParentNode (S (size (nodes h))) n).

(** What a notification does: every registration on the way to the root is
    called, once, with the node it is registered at. *)
Definition notified (kind : notification) (x : nid) (path : list nid) h : heap Ext :=
  foldl (fun h' a => foldl (fun h' l => callback kind l a x h') h' (listeners_of h a)) h path.

Lemma passive_foldl k x a ls h :
  passive -> let h' := foldl (fun h' l => callback k l a x h') h ls in
  nodes h' = nodes h /\ next h' = next h /\ m_Properties h' = m_Properties h.
Proof.
  intros Hp. revert h. induction ls as [|l ls IH]; intros h; [done|].
  cbn [foldl]. destruct (IH (callback k l a x h)) as (-> & -> & ->). apply Hp.
Qed.

Lemma call_listeners_run k n x ls h nd :
  passive -> nodes h !! n = Some nd -> (forall l, l ∈ ls -> l ∈ default [] (m_Listeners nd)) ->
  call_listeners callback k n x ls h = (Ok tt, foldl (fun h' l => callback k l n x h') h ls).
Proof.
  intros Hp. revert h. induction ls as [|l ls IH]; intros h Hn Hin; [done|]. cbn [call_listeners foldl].
  rewrite (se_bind_ok _ _ _ _ _ (deref_run _ _ _ Hn)).
  rewrite bool_decide_eq_true_2 by (apply Hin; left).
  rewrite (se_bind_ok _ _ _ tt (callback k l n x h)) by done.
  apply IH; [by rewrite (proj1 (Hp _ _ _ _ _))|]. intros l' Hl'. apply Hin. by right.
Qed.

Lemma notify_up_run k x fuel n path h h0 :
  passive -> nodes h = nodes h0 -> chain (nodes h) m_ParentNode fuel n = Some path ->
  notify_up callback fuel k n x h =
    (Ok tt, foldl (fun h' a => foldl (fun h' l => callback k l a x h') h' (listeners_of h0 a)) h path).
Proof.
  intros Hp. revert n path h. induction fuel as [|fuel IH]; intros n path h Hh; [done|].
  cbn [chain notify_up]. destruct (nodes h !! n) as [nd|] eqn:E; [|done]. intros Hc.
  rewrite (se_bind_ok _ _ _ _ _ (deref_run _ _ _ E)).
  erewrite se_bind_ok by by eapply call_listeners_run.
  set (h1 := foldl _ h _). destruct (passive_foldl k x n (default [] (m_Listeners nd)) h Hp) as (Hn1 & _).
  fold h1 in Hn1. assert (nodes h1 !! n = Some nd) as E1 by by rewrite Hn1.
  rewrite (se_bind_ok _ _ _ _ _ (deref_run _ _ _ E1)).
  assert (listeners_of h0 n = default [] (m_Listeners nd)) as El.
  { unfold listeners_of. by rewrite <- Hh, E. }
  destruct (m_ParentNode nd) as [p|].
  - destruct (chain (nodes h) m_ParentNode fuel p) as [path'|] eqn:E'; [|done]. injection Hc as <-.
    rewrite (IH p path' h1); [|by rewrite Hn1|by rewrite Hn1]. cbn [foldl]. by rewrite El.
  - injection Hc as <-. cbn [foldl]. by rewrite El.
Qed.

Lemma ancestors_chain h n :
  wf h -> is_Some (nodes h !! n) ->
  chain (nodes h) m_ParentNode (S (size (nodes h))) n = Some (ancestors h n).
Proof.
  intros Hwf Hn. destruct (wf_acyclic h Hwf) as [rank Hr].
  destruct (chain_total _ _ _ _ Hr Hn) as [l Hl]. unfold ancestors. by rewrite Hl.
Qed.

Lemma notify_run k n x h :
  wf h -> passive -> is_Some (nodes h !! n) ->
  notifyListeners callback k n x h = (Ok tt, notified k x (ancestors h n) h).
Proof.
  intros Hwf Hp Hn. unfold notifyListeners, node_bound, se_gets, mbind, se_bind.
  by apply notify_up_run; [| |apply ancestors_chain].
Qed.

Lemma notified_nodes k x path h :
  passive -> nodes (notified k x path h) = nodes h /\ next (notified k x path h) = next h /\
    m_Properties (notified k x path h) = m_Properties h.
Proof.
  intros Hp. unfold notified. generalize (listeners_of h) as lf. intros lf. revert h.
  induction path as [|a path IH]; intros h; [done|]. cbn [foldl].
  destruct (passive_foldl k x a (lf a) h Hp) as (E1 & E2 & E3).
  destruct (IH (foldl (fun h' l => callback k l a x h') h (lf a))) as (-> & -> & ->). done.
Qed.

(** ** Operations that keep the shape of the tree *)

Definition shape nd := (m_Name nd, m_Index nd, children nd, m_ParentNode nd, m_AliasTarget nd).

Definition same_shape h h' : Prop :=
  next h' = next h /\ forall n, shape <$> nodes h' !! n = shape <$> nodes h !! n.

Lemma same_shape_lookup h h' n nd' :
  same_shape h h' -> nodes h' !! n = Some nd' -> exists nd, nodes h !! n = Some nd /\ shape nd = shape nd'.
Proof.
  intros [_ Hs] Hn. specialize (Hs n). rewrite Hn in Hs. destruct (nodes h !! n) as [nd|]; [|done].
  exists nd. split; [done|]. cbn in Hs. congruence.
Qed.

Lemma same_shape_sym h h' : same_shape h h' -> same_shape h' h.
Proof. intros [H1 H2]. split; [done|]. intros n. by rewrite H2. Qed.

Lemma same_shape_wf h h' : same_shape h h' -> wf h -> wf h'.
Proof.
  intros Hs Hwf. pose proof (same_shape_sym _ _ Hs) as Hs'.
  split.
  - intros n [nd' Hn]. destruct (same_shape_lookup _ _ _ _ Hs Hn) as (nd & E & _).
    rewrite (proj1 Hs). apply (wf_fresh h Hwf). by exists nd.
  - intros p pd' c Hp Hc. destruct (same_shape_lookup _ _ _ _ Hs Hp) as (pd & E & Es). unfold shape in Es.
    injection Es as _ _ Ec _ _. rewrite <- Ec in Hc.
    destruct (wf_down h Hwf p pd c E Hc) as (cd & Hcd & Hpar).
    destruct (same_shape_lookup _ _ _ _ Hs' Hcd) as (cd' & E' & Es'). unfold shape in Es'.
    exists cd'. split; [done|]. congruence.
  - intros c cd' p Hc Hpar. destruct (same_shape_lookup _ _ _ _ Hs Hc) as (cd & E & Es). unfold shape in Es.
    destruct (wf_up h Hwf c cd p E) as (pd & Hpd & Hin); [congruence|].
    destruct (same_shape_lookup _ _ _ _ Hs' Hpd) as (pd' & E' & Es'). unfold shape in Es'.
    exists pd'. split; [done|]. assert (children pd' = children pd) as -> by congruence. done.
  - intros p pd' Hp. destruct (same_shape_lookup _ _ _ _ Hs Hp) as (pd & E & Es). unfold shape in Es.
    assert (children pd' = children pd) as -> by congruence. by apply (wf_nodup h Hwf p).
  - destruct (wf_acyclic h Hwf) as [rank Hr]. exists rank. intros n nd' p Hn Hp.
    destruct (same_shape_lookup _ _ _ _ Hs Hn) as (nd & E & Es). unfold shape in Es.
    destruct (Hr n nd p E) as [[pd Hpd] Hlt]; [congruence|]. split; [|done].
    destruct (same_shape_lookup _ _ _ _ Hs' Hpd) as (pd' & E' & _). by exists pd'.
  - destruct (wf_alias h Hwf) as [rank Hr]. exists rank. intros n nd' p Hn Hp.
    destruct (same_shape_lookup _ _ _ _ Hs Hn) as (nd & E & Es). unfold shape in Es.
    destruct (Hr n nd p E) as [[pd Hpd] Hlt]; [congruence|]. split; [|done].
    destruct (same_shape_lookup _ _ _ _ Hs' Hpd) as (pd' & E' & _). by exists pd'.
  - intros p pd' c d cd' dd' Hp Hc Hd Hcd Hdd En Ei.
    destruct (same_shape_lookup _ _ _ _ Hs Hp) as (pd & E & Es).
    destruct (same_shape_lookup _ _ _ _ Hs Hcd) as (cd & E1 & Es1).
    destruct (same_shape_lookup _ _ _ _ Hs Hdd) as (dd & E2 & Es2). unfold shape in *.
    assert (children pd' = children pd) as Ec by congruence. rewrite Ec in Hc, Hd.
    apply (wf_unique h Hwf p pd c d cd dd); done || congruence.
Qed.

Lemma same_shape_refl h h' : next h' = next h -> nodes h' = nodes h -> same_shape h h'.
Proof. intros H1 H2. split; [done|]. intros n. by rewrite H2. Qed.

Lemma same_shape_trans h1 h2 h3 : same_shape h1 h2 -> same_shape h2 h3 -> same_shape h1 h3.
Proof. intros [A1 A2] [B1 B2]. split; [congruence|]. intros n. by rewrite B2, A2. Qed.

(** Changing one node without touching its name, links or index. *)
Lemma same_shape_insert h n nd nd' :
  nodes h !! n = Some nd -> shape nd' = shape nd -> same_shape h (set_nodes <[n := nd']> h).
Proof.
  intros Hn Hs. split; [done|]. intros m. cbn. destruct (decide (n = m)) as [<-|Hne].
  - rewrite lookup_insert_eq, Hn. cbn. by rewrite Hs.
  - by rewrite lookup_insert_ne.
Qed.

Lemma same_shape_notified k x path h : passive -> same_shape h (notified k x path h).
Proof. intros Hp. destruct (notified_nodes k x path h Hp) as (E1 & E2 & _). by apply same_shape_refl. Qed.

Lemma target_nodes h h' n : nodes h' = nodes h ->
  forall t, target n h = (Ok t, h) -> target n h' = (Ok t, h').
Proof.
  intros Hn t. unfold target, node_bound. rewrite !se_bind_run. cbn [se_gets]. rewrite Hn.
  generalize (S (size (nodes h))) as fuel. intros fuel. revert n. induction fuel as [|fuel IH]; intros n; [done|].
  cbn [follow]. rewrite !se_bind_run. unfold deref. rewrite Hn.
  destruct (nodes h !! n) as [nd|]; [|done]. destruct (m_AliasTarget nd); [apply IH|].
  intros H. by injection H as ->.
Qed.

Lemma target_same_shape h h' n t :
  same_shape h h' -> dom (nodes h') = dom (nodes h) ->
  target n h = (Ok t, h) -> target n h' = (Ok t, h').
Proof.
  intros Hs Hd. unfold target, node_bound. rewrite !se_bind_run. cbn [se_gets].
  rewrite <- !size_dom, Hd. generalize (S (size (dom (nodes h)))) as fuel. intros fuel.
  revert n. induction fuel as [|fuel IH]; intros n; [done|].
  cbn [follow]. rewrite !se_bind_run. unfold deref.
  destruct (nodes h !! n) as [nd|] eqn:E; [|done].
  destruct (same_shape_lookup _ _ _ _ (same_shape_sym _ _ Hs) E) as (nd' & E' & Es).
  rewrite E'. assert (m_AliasTarget nd' = m_AliasTarget nd) as -> by (unfold shape in Es; congruence).
  destruct (m_AliasTarget nd); [apply IH|]. intros H. by injection H as ->.
Qed.

Lemma same_shape_dom h h' : same_shape h h' -> dom (nodes h') = dom (nodes h).
Proof.
  intros [_ Hs]. apply set_eq. intros n. rewrite !elem_of_dom. specialize (Hs n).
  destruct (nodes h !! n), (nodes h' !! n); naive_solver.
Qed.

(** ** Values *)

(** The tag says string only if the union holds one. *)
Definition freeable nd : Prop :=
  valueType nd = vTypeString -> value nd = AZero \/ exists s, value nd = AString s.

Lemma clearValue_run h n nd :
  nodes h !! n = Some nd -> freeable nd ->
  clearValue n h = (Ok tt, set_nodes <[n := set_PropVal vTypeNone AZero nd]> h).
Proof.
  intros Hn Hf. unfold clearValue. rewrite (se_bind_ok _ _ _ _ _ (deref_run _ _ _ Hn)).
  destruct (bool_decide (valueType nd = vTypeString)) eqn:Eb.
  - apply bool_decide_eq_true_1 in Eb. destruct (Hf Eb) as [-> | [s ->]];
      rewrite (se_bind_ok _ _ _ tt h) by done; by apply update_run.
  - rewrite (se_bind_ok _ _ _ tt h) by done. by apply update_run.
Qed.

Lemma set_nodes_insert h n a b :
  set_nodes <[n := b]> (set_nodes <[n := a]> h) = set_nodes (Ext := Ext) <[n := b]> h.
Proof. unfold set_nodes. cbn. by rewrite insert_insert_eq. Qed.

Lemma setTypedValue_run {T} (ops : ValueOps (Ext := Ext) T) h n t td v :
  wf h -> passive -> target n h = (Ok t, h) -> nodes h !! t = Some td -> m_Proxy td = None -> freeable td ->
  let h1 := set_nodes <[t := set_PropVal (vo_type ops) (vo_inject ops v) td]> h in
  setTypedValue callback ops n v h = (Ok tt, notified PropertyChanged t (ancestors h1 t) h1) /\ same_shape h h1.
Proof.
  intros Hwf Hp Ht Htd Hpr Hf h1. unfold setTypedValue.
  rewrite (se_bind_ok _ _ _ _ _ Ht), (se_bind_ok _ _ _ _ _ (deref_run _ _ _ Htd)), Hpr.
  assert (same_shape h h1) as Hs by by eapply same_shape_insert. split; [|done].
  erewrite (se_bind_ok _ _ _ tt).
  2:{ erewrite se_bind_ok by by apply clearValue_run. apply update_run. cbn. apply lookup_insert_eq. }
  rewrite set_nodes_insert. erewrite (se_bind_ok _ _ _ tt).
  2:{ apply update_run. cbn. apply lookup_insert_eq. }
  rewrite set_nodes_insert. change (set_nodes _ h) with h1. unfold propertyChanged.
  apply notify_run; [by eapply same_shape_wf|done|]. exists (set_PropVal (vo_type ops) (vo_inject ops v) td).
  cbn. apply lookup_insert_eq.
Qed.


Lemma set_PropVal_id nd : set_PropVal (valueType nd) (value nd) nd = nd.
Proof. by destruct nd. Qed.

Lemma set_nodes_id h n nd : nodes h !! n = Some nd -> set_nodes <[n := nd]> h = h.
Proof. intros Hn. destruct h. unfold set_nodes. cbn in *. by rewrite insert_id. Qed.

(** C30: a property linked to a proxy reads and writes through it: its value is
    what the proxy returns, setting it calls the proxy's setter and notifies,
    setting a value of another type throws [PropertyTypeMismatch] and changes
    nothing, and it cannot be linked a second time. *)
Theorem linked_property {T} (ops : ValueOps (Ext := Ext) T) h n nd (p : PropertyProxy Ext T) :
  wf h -> passive -> nodes h !! n = Some nd -> m_Proxy nd = None -> m_AliasTarget nd = None ->
  exists h1, linkToProxy ops n p h = (Ok true, h1) /\ wf h1 /\
    getTypedValue ops n h1 = (Ok (getValue p (ext h1)), h1) /\
    (forall v, let h2 := set_ext (setValue p v) h1 in
       setTypedValue callback ops n v h1 = (Ok tt, notified PropertyChanged n (ancestors h2 n) h2)) /\
    (forall U (ops' : ValueOps (Ext := Ext) U) w, vo_type ops' <> vo_type ops ->
       setTypedValue callback ops' n w h1 = (Throw (mismatch nd), h1)) /\
    (forall U (ops' : ValueOps (Ext := Ext) U) q, linkToProxy ops' n q h1 = (Ok false, h1)).
Proof.
  intros Hwf Hp Hn Hpr Ha.
  set (nd1 := set_PropVal (vo_type ops) (value nd) (set_Proxy (Some (vo_wrap ops p)) nd)).
  set (h1 := set_nodes <[n := nd1]> h). exists h1.
  assert (same_shape h h1) as Hs by by eapply same_shape_insert.
  assert (nodes h1 !! n = Some nd1) as Hn1 by (cbn; apply lookup_insert_eq).
  assert (target n h1 = (Ok n, h1)) as Ht by by eapply target_self.
  split_and!.
  - unfold linkToProxy. rewrite (se_bind_ok _ _ _ _ _ (deref_run _ _ _ Hn)), Hpr, Ha.
    rewrite !bool_decide_eq_false_2 by (intros [? ?]; discriminate). cbn [orb].
    by rewrite (se_bind_ok _ _ _ _ _ (update_run _ _ _ _ Hn)).
  - by eapply same_shape_wf.
  - unfold getTypedValue. rewrite (se_bind_ok _ _ _ _ _ Ht), (se_bind_ok _ _ _ _ _ (deref_run _ _ _ Hn1)).
    cbn [nd1 valueType set_PropVal m_Proxy set_Proxy]. rewrite bool_decide_eq_true_2 by done.
    by rewrite vo_unwrap_wrap.
  - intros v h2. unfold setTypedValue.
    rewrite (se_bind_ok _ _ _ _ _ Ht), (se_bind_ok _ _ _ _ _ (deref_run _ _ _ Hn1)).
    cbn [nd1 valueType set_PropVal m_Proxy set_Proxy]. rewrite bool_decide_eq_true_2 by done.
    rewrite vo_unwrap_wrap. rewrite (se_bind_ok _ _ _ tt h2) by done.
    assert (nodes h2 !! n = Some nd1) as Hn2 by done.
    rewrite (se_bind_ok _ _ _ _ _ (update_run _ _ _ _ Hn2)).
    assert (set_PropVal (vo_type ops) (value nd1) nd1 = nd1) as -> by done.
    rewrite set_nodes_id by done. unfold propertyChanged. apply notify_run; [|done|by exists nd1].
    apply (same_shape_wf h1); [by apply same_shape_refl|by eapply same_shape_wf].
  - intros U ops' w Hne. unfold setTypedValue.
    rewrite (se_bind_ok _ _ _ _ _ Ht), (se_bind_ok _ _ _ _ _ (deref_run _ _ _ Hn1)).
    cbn [nd1 valueType set_PropVal m_Proxy set_Proxy]. by rewrite bool_decide_eq_false_2 by congruence.
  - intros U ops' q. unfold linkToProxy. by rewrite (se_bind_ok _ _ _ _ _ (deref_run _ _ _ Hn1)).
Qed.

(** The path of a notification follows the parent pointers to the root. *)
Lemma chain_links {A} (m : gmap nid A) nxt fuel n l :
  chain m nxt fuel n = Some l ->
  (forall i x, l !! i = Some x -> exists a, m !! x = Some a /\ nxt a = l !! S i).
Proof.
  revert n l. induction fuel as [|fuel IH]; intros n l; [done|]. cbn.
  destruct (m !! n) as [a|] eqn:E; [|done]. destruct (nxt a) as [p|] eqn:Ep.
  - destruct (chain m nxt fuel p) as [l'|] eqn:E'; [|done]. intros [= <-] [|i] x Hx.
    + injection Hx as <-. exists a. split; [done|]. destruct (chain_head _ _ _ _ _ E') as [l'' ->].
      by rewrite Ep.
    + apply (IH p l' E' i x Hx).
  - intros [= <-] [|i] x Hx; [|done]. injection Hx as <-. exists a. by rewrite Ep.
Qed.

(** ** Listeners that leave while they are told *)

(** Listeners that take registrations, their own or others', off the tree, and
    leave the rest of it alone. *)
Definition withdrawing : Prop := forall k l a b h n,
  match nodes h !! n, nodes (callback k l a b h) !! n with
  | Some nd, Some nd' => nd' = set_Listeners (m_Listeners nd') nd /\ sublist (default [] (m_Listeners nd')) (default [] (m_Listeners nd))
  | None, None => True
  | _, _ => False
  end.
(** [h'] is [h] with fewer registrations. *)
Definition fewer h h' : Prop := forall n,
  match nodes h !! n, nodes h' !! n with
  | Some nd, Some nd' => m_ParentNode nd' = m_ParentNode nd /\ sublist (default [] (m_Listeners nd')) (default [] (m_Listeners nd))
  | None, None => True
  | _, _ => False
  end.
(** The registrations on the way to the root, and one listener's turn. *)
Definition seats h (path : list nid) : list (nid * lid) := concat (map (fun a => map (pair a) (listeners_of h a)) path).
Definition turn (k : notification) (x : nid) h (seat : nid * lid) : heap Ext :=
  if bool_decide (snd seat ∈ listeners_of h (fst seat)) then callback k (snd seat) (fst seat) x h else h.

Lemma fewer_refl h : fewer h h.
Proof. intros n. by destruct (nodes h !! n). Qed.
Lemma fewer_trans h h1 h2 : fewer h h1 -> fewer h1 h2 -> fewer h h2.
Proof.
  intros H1 H2 n. specialize (H1 n). specialize (H2 n). destruct (nodes h !! n), (nodes h1 !! n), (nodes h2 !! n); try done.
  destruct H1 as [E1 H1], H2 as [E2 H2]. split; [congruence|]. by etrans.
Qed.
Lemma sublist_in {A} (x : A) l1 l2 : x ∈ l1 -> sublist l1 l2 -> x ∈ l2.
Proof. intros Hx Hs. induction Hs; [done| |right; by apply IHHs]. apply elem_of_cons in Hx as [->|Hx]; [by left|right; by apply IHHs]. Qed.
Lemma fewer_listeners h h' n l : fewer h h' -> l ∈ listeners_of h' n -> l ∈ listeners_of h n.
Proof.
  intros H. specialize (H n). unfold listeners_of. destruct (nodes h !! n), (nodes h' !! n); try done.
  destruct H as [_ H]. intros Hl. by apply (sublist_in _ _ _ Hl H).
Qed.
Lemma fewer_turn k x h seat : withdrawing -> fewer h (turn k x h seat).
Proof.
  intros Hw. unfold turn. case_bool_decide; [|apply fewer_refl]. intros n. specialize (Hw k (snd seat) (fst seat) x h n).
  destruct (nodes h !! n) as [nd|], (nodes (callback _ _ _ _ h) !! n) as [nd'|]; try done. destruct Hw as [E Hs]. split; [by rewrite E|done].
Qed.
Lemma fewer_turns k x ss h : withdrawing -> fewer h (foldl (turn k x) h ss).
Proof.
  intros Hw. revert h. induction ss as [|s ss IH]; intros h; [apply fewer_refl|]. cbn. eapply fewer_trans; [by apply fewer_turn|apply IH].
Qed.

(** Who is not registered any more is passed over. *)
Lemma turns_skip k x n l1 l2 h : withdrawing -> sublist l1 l2 -> NoDup l2 -> (forall l, l ∈ l2 -> l ∉ l1 -> l ∉ listeners_of h n) ->
  foldl (turn k x) h (map (pair n) l2) = foldl (turn k x) h (map (pair n) l1).
Proof.
  intros Hw Hs. revert h. induction Hs as [|l l1 l2 Hs IH|l l1 l2 Hs IH]; intros h Hn Hout; [done| |]; apply NoDup_cons in Hn as [Hl Hn]; cbn.
  - apply IH; [done|]. intros l' Hin Hno Hreg. apply (Hout l'); [by right| |by eapply fewer_listeners; [apply (fewer_turn k x h (n, l) Hw)|]].
    intros [->|?]%elem_of_cons; done.
  - assert (turn k x h (n, l) = h) as ->; [|apply IH; [done|]; intros; apply Hout; [by right|done]].
    unfold turn. cbn. rewrite bool_decide_eq_false_2; [done|]. apply Hout; [by left|]. intros Hin. apply Hl. by eapply sublist_in.
Qed.

Lemma call_listeners_turns k n x ls h : withdrawing -> is_Some (nodes h !! n) ->
  call_listeners callback k n x ls h = (Ok tt, foldl (turn k x) h (map (pair n) ls)).
Proof.
  intros Hw. revert h. induction ls as [|l ls IH]; intros h [nd Hn]; [done|]. cbn [call_listeners map foldl].
  rewrite (se_bind_ok _ _ _ _ _ (deref_run _ _ _ Hn)). pose proof (fewer_turn k x h (n, l) Hw n) as Hf. rewrite Hn in Hf.
  rewrite (se_bind_ok _ _ h tt (turn k x h (n, l))).
  - apply IH. by destruct (nodes (turn k x h (n, l)) !! n).
  - unfold turn, listeners_of. cbn [fst snd]. rewrite Hn. cbn [from_option]. by case_bool_decide.
Qed.

Lemma notify_up_turns k x fuel n path h h0 : withdrawing -> fewer h0 h -> (forall a, NoDup (listeners_of h0 a)) ->
  chain (nodes h0) m_ParentNode fuel n = Some path ->
  notify_up callback fuel k n x h = (Ok tt, foldl (turn k x) h (seats h0 path)).
Proof.
  intros Hw. revert n path h. induction fuel as [|fuel IH]; intros n path h Hf Hd; [done|].
  cbn [chain notify_up]. destruct (nodes h0 !! n) as [nd0|] eqn:E0; [|done]. intros Hc.
  pose proof (Hf n) as Hfn. rewrite E0 in Hfn. destruct (nodes h !! n) as [nd|] eqn:E; [|done]. destruct Hfn as [Hp Hs].
  rewrite (se_bind_ok _ _ _ _ _ (deref_run _ _ _ E)), (se_bind_ok _ _ _ _ _ (call_listeners_turns k n x _ h Hw (ex_intro _ nd E))).
  assert (foldl (turn k x) h (map (pair n) (listeners_of h0 n)) = foldl (turn k x) h (map (pair n) (default [] (m_Listeners nd)))) as Et.
  { specialize (Hd n). unfold listeners_of in *. rewrite E0 in *. apply turns_skip; [done|exact Hs|exact Hd|].
    unfold listeners_of. rewrite E. by intros l _ Hl. }
  set (h1 := foldl (turn k x) h (map (pair n) (default [] (m_Listeners nd)))) in *.
  pose proof (fewer_turns k x (map (pair n) (default [] (m_Listeners nd))) h Hw) as Hf1. fold h1 in Hf1.
  pose proof (Hf1 n) as Hf1n. rewrite E in Hf1n. destruct (nodes h1 !! n) as [nd1|] eqn:E1; [|done]. destruct Hf1n as [Hp1 _].
  rewrite (se_bind_ok _ _ _ _ _ (deref_run _ _ _ E1)), Hp1, Hp.
  destruct (m_ParentNode nd0) as [p|].
  - destruct (chain (nodes h0) m_ParentNode fuel p) as [path'|] eqn:E'; [|done]. injection Hc as <-.
    rewrite (IH p path' h1); [|by eapply fewer_trans|done|done]. unfold seats. cbn [map concat]. by rewrite foldl_app, Et.
  - injection Hc as <-. unfold seats. cbn [map concat]. by rewrite app_nil_r, Et.
Qed.

(** C31: in a well-formed tree a notification goes through every registration at
    the node and at its ancestors up to the root, once each, from the node
    upwards and in the order of registration; the walk always ends.  Listeners
    that leave the tree alone are all called.  With listeners that take
    registrations off while they are told, their own or others', each listener
    is called exactly if it is still registered at its turn (where no listener is
    registered twice at a node). *)
Theorem notifyListeners_reaches_all k n x h :
  wf h -> is_Some (nodes h !! n) ->
  (passive -> notifyListeners callback k n x h = (Ok tt, notified k x (ancestors h n) h)) /\
  (withdrawing -> (forall a, NoDup (listeners_of h a)) ->
     notifyListeners callback k n x h = (Ok tt, foldl (turn k x) h (seats h (ancestors h n)))) /\
  head (ancestors h n) = Some n /\
  (forall i a, ancestors h n !! i = Some a ->
     exists nd, nodes h !! a = Some nd /\ m_ParentNode nd = ancestors h n !! S i).
Proof.
  intros Hwf Hn. pose proof (ancestors_chain h n Hwf Hn) as Hc. split_and!.
  - intros Hp. by apply notify_run.
  - intros Hw Hd. unfold notifyListeners, node_bound, se_gets, mbind, se_bind. apply notify_up_turns; [done|apply fewer_refl|done|exact Hc].
  - by destruct (chain_head _ _ _ _ _ Hc) as [l' ->].
  - by eapply chain_links.
Qed.

(** ** Names, indices and the loops over children *)

Definition name_of h (c : nid) : string := from_option m_Name "" (nodes h !! c).
Definition index_of h (c : nid) : Z := from_option m_Index 0%Z (nodes h !! c).
Definition all_present h (cs : list nid) : Prop := Forall (fun c => is_Some (nodes h !! c)) cs.

(** The first child with the name and index. *)
Fixpoint lookup_child h (cs : list nid) (name : string) (index : Z) (last : option nid) : option nid :=
  match cs with
  | [] => if (index =? -1)%Z then last else None
  | c :: cs =>
    if String.eqb (name_of h c) name then
      if (index_of h c =? index)%Z then Some c else lookup_child h cs name index (Some c)
    else lookup_child h cs name index last
  end.

Lemma find_child_run h cs name index last :
  all_present h cs -> find_child cs name index last h = (Ok (lookup_child h cs name index last), h).
Proof.
  intros Hp. revert last. induction Hp as [|c cs [cd Hc] _ IH]; intros last; [done|].
  cbn [find_child lookup_child]. rewrite (se_bind_ok _ _ _ _ _ (deref_run _ _ _ Hc)).
  unfold name_of, index_of. rewrite Hc. cbn [from_option].
  destruct (String.eqb _ _); [|apply IH]. destruct (_ =? _)%Z; [done|apply IH].
Qed.

Definition max_of h (name : string) (cs : list nid) (m : Z) : Z :=
  foldl (fun m c => if String.eqb (name_of h c) name then Z.max (index_of h c) m else m) m cs.

Lemma max_index_run h cs name m :
  all_present h cs -> max_index cs name m h = (Ok (max_of h name cs m), h).
Proof.
  intros Hp. revert m. induction Hp as [|c cs [cd Hc] _ IH]; intros m; [done|].
  cbn [max_index]. rewrite (se_bind_ok _ _ _ _ _ (deref_run _ _ _ Hc)), IH.
  unfold max_of. cbn [foldl]. unfold name_of, index_of. by rewrite Hc.
Qed.

Definition named h (name : string) (cs : list nid) : list nid :=
  List.filter (fun c => String.eqb (name_of h c) name) cs.

Lemma count_name_run h cs name :
  all_present h cs -> count_name cs name h = (Ok (Z.of_nat (length (named h name cs))), h).
Proof.
  induction 1 as [|c cs [cd Hc] _ IH]; [done|].
  cbn [count_name]. rewrite (se_bind_ok _ _ _ _ _ (deref_run _ _ _ Hc)), (se_bind_ok _ _ _ _ _ IH).
  unfold named. cbn [List.filter]. unfold name_of at 3. rewrite Hc. cbn [from_option].
  destruct (String.eqb (m_Name cd) name); [|done].
  unfold mret, se_ret. cbn [length]. do 2 f_equal. lia.
Qed.

Lemma children_present h n nd : wf h -> nodes h !! n = Some nd -> all_present h (children nd).
Proof.
  intros Hwf Hn. apply Forall_forall. intros c Hc.
  destruct (wf_down h Hwf n nd c Hn Hc) as (cd & Hcd & _). by exists cd.
Qed.

(** ** Plain names: no index, no [+], no NUL *)

Definition plain (s : string) : bool :=
  negb (String.eqb s "") && negb (sexists (Ascii.eqb "[") s) && negb (sexists (Ascii.eqb "/") s) &&
  negb (sexists (Ascii.eqb "000") s) &&
  negb (bool_decide (slast s = Some "+"%char)).

Lemma plain_spec s :
  plain s = true -> s <> "" /\ sexists (Ascii.eqb "000") s = false /\ slast s <> Some "+"%char.
Proof. unfold plain. intros H. reflect_bools. auto. Qed.

Lemma plain_index s : plain s = true -> getAndRemoveIndexFromPropertyName s = (0%Z, s).
Proof.
  unfold plain. intros H. reflect_bools. unfold getAndRemoveIndexFromPropertyName.
  by rewrite (proj2 (sfind_None _ _)).
Qed.

Lemma getPropertyByName_run h t td name :
  wf h -> nodes h !! t = Some td -> m_AliasTarget td = None ->
  let '(index, propName) := getAndRemoveIndexFromPropertyName name in
  getPropertyByName t name h =
    (Ok (match m_ChildNodes td with
         | None => None
         | Some cs => lookup_child h cs propName index None
         end), h).
Proof.
  intros Hwf Ht Ha. destruct (getAndRemoveIndexFromPropertyName name) as [index propName] eqn:E.
  unfold getPropertyByName.
  rewrite (se_bind_ok _ _ _ _ _ (target_self _ _ _ Ht Ha)), (se_bind_ok _ _ _ _ _ (deref_run _ _ _ Ht)).
  pose proof (children_present h t td Hwf Ht) as Hp. unfold children in Hp.
  destruct (m_ChildNodes td) as [cs|]; [|done]. rewrite E. by apply find_child_run.
Qed.

(** Lookup by index and name, in terms of the children. *)
Lemma getPropertyByName_children h t td name :
  wf h -> nodes h !! t = Some td -> m_AliasTarget td = None -> plain name = true ->
  getPropertyByName t name h = (Ok (lookup_child h (children td) name 0 None), h).
Proof.
  intros Hwf Ht Ha Hpl. pose proof (getPropertyByName_run h t td name Hwf Ht Ha) as H.
  rewrite plain_index in H by done. rewrite H. unfold children. by destruct (m_ChildNodes td).
Qed.

(** For a definite index the lookup is the first match. *)
Lemma lookup_child_find h cs name i last :
  i <> (-1)%Z ->
  lookup_child h cs name i last =
    List.find (fun c => String.eqb (name_of h c) name && (index_of h c =? i)%Z) cs.
Proof.
  intros Hi. revert last. induction cs as [|c cs IH]; intros last; cbn [lookup_child List.find].
  - by apply Z.eqb_neq in Hi as ->.
  - destruct (String.eqb _ _); [|apply IH]. cbn [andb]. destruct (_ =? _)%Z; [done|apply IH].
Qed.

Lemma find_app {A} (p : A -> bool) l1 l2 x :
  List.find p l1 = Some x -> List.find p (l1 ++ l2) = Some x.
Proof. induction l1 as [|y l1 IH]; [done|]. cbn. by destruct (p y). Qed.

Lemma find_app_None {A} (p : A -> bool) l1 l2 :
  List.find p l1 = None -> List.find p (l1 ++ l2) = List.find p l2.
Proof. induction l1 as [|y l1 IH]; [done|]. cbn. by destruct (p y). Qed.

Lemma find_ext_In {A} (p q : A -> bool) l :
  (forall x, x ∈ l -> p x = q x) -> List.find p l = List.find q l.
Proof.
  induction l as [|y l IH]; [done|]. intros H. cbn. rewrite (H y) by left.
  destruct (q y); [done|]. apply IH. intros x Hx. apply H. by right.
Qed.

Lemma max_of_ge h name cs m : (m <= max_of h name cs m)%Z /\
  (forall c, c ∈ cs -> name_of h c = name -> (index_of h c <= max_of h name cs m)%Z).
Proof.
  unfold max_of. revert m. induction cs as [|c cs IH]; intros m; cbn [foldl]; [split; [lia|set_solver]|].
  set (m' := if String.eqb (name_of h c) name then Z.max (index_of h c) m else m).
  destruct (IH m') as [H1 H2]. split.
  - unfold m' in *. destruct (String.eqb _ _); lia.
  - intros d [->|Hd]%elem_of_cons Hn; [|by apply H2].
    unfold m' in *. rewrite Hn, String.eqb_refl in H1. rewrite Hn, String.eqb_refl. lia.
Qed.

Lemma max_of_none h name cs m :
  (forall c, c ∈ cs -> name_of h c <> name) -> max_of h name cs m = m.
Proof.
  unfold max_of. revert m. induction cs as [|c cs IH]; intros m H; [done|]. cbn [foldl].
  assert (String.eqb (name_of h c) name = false) as -> by (apply String.eqb_neq, H; left).
  apply IH. intros d Hd. apply H. by right.
Qed.

Lemma max_of_ext h h' name cs m :
  (forall c, name_of h' c = name_of h c /\ index_of h' c = index_of h c) ->
  max_of h' name cs m = max_of h name cs m.
Proof.
  intros H. unfold max_of. revert m. induction cs as [|c cs IH]; intros m; [done|]. cbn [foldl].
  destruct (H c) as [-> ->]. apply IH.
Qed.

(** ** Adding a node *)

Lemma wf_make_node h name i :
  wf h -> wf (mkHeap (<[next h := new_node name i]> (nodes h)) (S (next h)) (m_Properties h) (ext h)).
Proof.
  intros Hwf.
  assert (nodes h !! next h = None) as Hnone.
  { destruct (nodes h !! next h) eqn:E; [|done].
    pose proof (wf_fresh h Hwf (next h) (mk_is_Some _ _ E)). lia. }
  assert (forall n nd, nodes h !! n = Some nd -> <[next h := new_node name i]> (nodes h) !! n = Some nd) as Hkeep.
  { intros n nd Hn. rewrite lookup_insert_ne; [done|]. intros <-. congruence. }
  assert (forall n nd, <[next h := new_node name i]> (nodes h) !! n = Some nd ->
            nd = new_node name i \/ nodes h !! n = Some nd) as Hinv.
  { intros n nd. destruct (decide (next h = n)) as [<-|Hne].
    - rewrite lookup_insert_eq. intros [= <-]. by left.
    - rewrite lookup_insert_ne by done. by right. }
  split; cbn [nodes next].
  - intros n [nd Hn]. destruct (decide (next h = n)) as [<-|Hne]; [lia|].
    rewrite lookup_insert_ne in Hn by done. pose proof (wf_fresh h Hwf n (mk_is_Some _ _ Hn)). lia.
  - intros p pd c Hp Hc. apply Hinv in Hp as [-> | Hp]; [by apply elem_of_nil in Hc|].
    destruct (wf_down h Hwf p pd c Hp Hc) as (cd & Hcd & ?). eauto.
  - intros c cd p Hc Hpar. apply Hinv in Hc as [-> | Hc]; [done|].
    destruct (wf_up h Hwf c cd p Hc Hpar) as (pd & Hpd & ?). eauto.
  - intros p pd Hp. apply Hinv in Hp as [-> | Hp]; [by apply NoDup_nil|]. by apply (wf_nodup h Hwf p).
  - destruct (wf_acyclic h Hwf) as [rank Hr]. exists rank. intros n nd p Hn Hp.
    apply Hinv in Hn as [-> | Hn]; [done|]. destruct (Hr n nd p Hn Hp) as [[pd Hpd] ?]. split; [|done].
    exists pd. by apply Hkeep.
  - destruct (wf_alias h Hwf) as [rank Hr]. exists rank. intros n nd p Hn Hp.
    apply Hinv in Hn as [-> | Hn]; [done|]. destruct (Hr n nd p Hn Hp) as [[pd Hpd] ?]. split; [|done].
    exists pd. by apply Hkeep.
  - intros p pd c d cd dd Hp Hc Hd Hcd Hdd. apply Hinv in Hp as [-> | Hp]; [by apply elem_of_nil in Hc|].
    destruct (wf_down h Hwf p pd c Hp Hc) as (cd' & Hcd' & _).
    destruct (wf_down h Hwf p pd d Hp Hd) as (dd' & Hdd' & _).
    rewrite (Hkeep _ _ Hcd') in Hcd. rewrite (Hkeep _ _ Hdd') in Hdd. simplify_eq.
    by apply (wf_unique h Hwf p pd c d cd dd).
Qed.

(** The heap after [c] became the last child of [t], with its new index. *)
Definition with_child h (t : nid) td (c : nid) cd (i : Z) : heap Ext :=
  set_nodes (fun m => <[t := set_ChildNodes (Some (children td ++ [c])) td]>
    (<[c := set_Index i (set_ParentNode (Some t) cd)]> m)) h.

Definition next_index h td cd : Z := (max_of h (m_Name cd) (children td) (-1) + 1)%Z.

(** [c] is a leaf without a parent that can be added to [t]. *)
Record attachable h (t : nid) td (c : nid) cd : Prop := {
  att_wf : wf h;
  att_t : nodes h !! t = Some td;
  att_c : nodes h !! c = Some cd;
  att_parent : m_ParentNode cd = None;
  att_leaf : children cd = [];
  att_ne : c <> t
}.

Section WithChild.
Context h (t : nid) td (c : nid) cd.
Hypothesis Hat : attachable h t td c cd.
Let Hwf : wf h := att_wf _ _ _ _ _ Hat.
Let Ht : nodes h !! t = Some td := att_t _ _ _ _ _ Hat.
Let Hc : nodes h !! c = Some cd := att_c _ _ _ _ _ Hat.
Let Hpar : m_ParentNode cd = None := att_parent _ _ _ _ _ Hat.
Let Hleaf : children cd = [] := att_leaf _ _ _ _ _ Hat.
Let Hne : c <> t := att_ne _ _ _ _ _ Hat.
Let i := next_index h td cd.
Let h1 := with_child h t td c cd i.
Let td1 := set_ChildNodes (Some (children td ++ [c])) td.
Let cd1 := set_Index i (set_ParentNode (Some t) cd).

Lemma with_child_t : nodes h1 !! t = Some td1.
Proof. cbn. apply lookup_insert_eq. Qed.

Lemma with_child_c : nodes h1 !! c = Some cd1.
Proof. cbn. rewrite lookup_insert_ne by done. apply lookup_insert_eq. Qed.

Lemma with_child_other n : n <> t -> n <> c -> nodes h1 !! n = nodes h !! n.
Proof. intros H1 H2. cbn. by rewrite !lookup_insert_ne by done. Qed.

(** [c] is nobody's child yet. *)
Lemma with_child_orphan p pd : nodes h !! p = Some pd -> c ∉ children pd.
Proof. intros Hp Hin. destruct (wf_down h Hwf p pd c Hp Hin) as (cd' & Hc' & Hp'). congruence. Qed.

(** Every node of the new heap, as a node of the old one. *)
Lemma with_child_inv n nd1 :
  nodes h1 !! n = Some nd1 ->
  exists nd, nodes h !! n = Some nd /\ m_AliasTarget nd1 = m_AliasTarget nd /\ m_Name nd1 = m_Name nd /\
    ((n = t /\ nd = td /\ nd1 = td1) \/ (n = c /\ nd = cd /\ nd1 = cd1) \/ (n <> t /\ n <> c /\ nd1 = nd)).
Proof.
  intros Hn. destruct (decide (n = t)) as [->|H1].
  - rewrite with_child_t in Hn. injection Hn as <-. exists td. split_and!; try done. by left.
  - destruct (decide (n = c)) as [->|H2].
    + rewrite with_child_c in Hn. injection Hn as <-. exists cd. split_and!; try done. right; by left.
    + rewrite with_child_other in Hn by done. exists nd1. split_and!; try done. by right; right.
Qed.

Lemma with_child_children n nd nd1 :
  nodes h !! n = Some nd -> nodes h1 !! n = Some nd1 ->
  children nd1 = if decide (n = t) then children td ++ [c] else children nd.
Proof.
  intros Hn Hn1. destruct (with_child_inv n nd1 Hn1) as (nd' & Hn' & _ & _ & [(-> & -> & ->)|[(-> & -> & ->)|(H1 & H2 & ->)]]).
  - by rewrite decide_True.
  - by rewrite decide_False; [|done]; simplify_eq.
  - by rewrite decide_False; [|done]; simplify_eq.
Qed.

Lemma with_child_name x : name_of h1 x = name_of h x.
Proof.
  unfold name_of. destruct (decide (x = t)) as [->|H1]; [by rewrite with_child_t, Ht|].
  destruct (decide (x = c)) as [->|H2]; [by rewrite with_child_c, Hc|]. by rewrite with_child_other.
Qed.

Lemma with_child_index x : index_of h1 x = if decide (x = c) then i else index_of h x.
Proof.
  unfold index_of. destruct (decide (x = c)) as [->|H2]; [by rewrite with_child_c|].
  destruct (decide (x = t)) as [->|H1]; [by rewrite with_child_t, Ht|]. by rewrite with_child_other.
Qed.

Lemma with_child_acyclic : exists rank, well_founded_by (nodes h1) m_ParentNode rank.
Proof.
  destruct (wf_acyclic h Hwf) as [rank Hr].
  exists (fun x => if decide (x = c) then S (rank t) else rank x). intros n nd1 p Hn Hp.
  destruct (with_child_inv n nd1 Hn) as (nd & Hn0 & _ & _ & Hcase).
  assert (forall x, is_Some (nodes h !! x) -> is_Some (nodes h1 !! x)) as Hdom.
  { intros x Hx. destruct (decide (x = t)) as [->|]; [by rewrite with_child_t|].
    destruct (decide (x = c)) as [->|]; [by rewrite with_child_c|]. by rewrite with_child_other. }
  assert (n <> c -> m_ParentNode nd = Some p -> is_Some (nodes h !! p) /\ rank p < rank n /\ p <> c) as Hold.
  { intros Hnc Hpp. destruct (Hr n nd p Hn0 Hpp) as [Hex Hlt]. split_and!; [done|done|].
    intros ->. destruct (wf_up h Hwf n nd c Hn0 Hpp) as (pd & Hpd & Hin).
    rewrite Hc in Hpd. injection Hpd as <-. rewrite Hleaf in Hin. by apply elem_of_nil in Hin. }
  destruct Hcase as [(-> & -> & ->)|[(-> & -> & ->)|(H1 & H2 & ->)]].
  - destruct (Hold (not_eq_sym Hne) Hp) as (Hex & Hlt & Hpc).
    rewrite !decide_False by done. auto.
  - cbn in Hp. injection Hp as <-. destruct (decide (t = c)); [congruence|].
    destruct (decide (c = c)); [|done]. split; [by rewrite with_child_t|lia].
  - destruct (Hold H2 Hp) as (Hex & Hlt & Hpc). rewrite !decide_False by done. auto.
Qed.

Lemma with_child_wf : wf h1.
Proof.
  split.
  - intros n [nd1 Hn]. destruct (with_child_inv n nd1 Hn) as (nd & Hn0 & _).
    apply (wf_fresh h Hwf). by exists nd.
  - intros p pd1 x Hp Hx. destruct (with_child_inv p pd1 Hp) as (pd & Hp0 & _).
    rewrite (with_child_children p pd pd1 Hp0 Hp) in Hx.
    destruct (decide (x = c)) as [->|Hxc].
    + exists cd1. split; [apply with_child_c|]. destruct (decide (p = t)) as [->|]; [done|].
      by destruct (with_child_orphan p pd Hp0).
    + assert (x ∈ children pd) as Hx'.
      { destruct (decide (p = t)) as [->|]; [|done]. simplify_eq.
        apply elem_of_app in Hx as [Hx|Hx]; [done|]. by apply list_elem_of_singleton in Hx. }
      destruct (wf_down h Hwf p pd x Hp0 Hx') as (xd & Hxd & Hxp).
      destruct (decide (x = t)) as [->|Hxt]; [|exists xd; by rewrite with_child_other].
      exists td1. split; [apply with_child_t|]. simplify_eq. done.
  - intros x xd1 p Hx Hp. destruct (with_child_inv x xd1 Hx) as (xd & Hx0 & _ & _ & Hcase).
    assert (x <> c -> m_ParentNode xd = Some p -> exists pd, nodes h1 !! p = Some pd /\ x ∈ children pd) as Hold.
    { intros Hxc Hpp. destruct (wf_up h Hwf x xd p Hx0 Hpp) as (pd & Hpd & Hin).
      destruct (decide (p = t)) as [->|Hpt].
      - exists td1. split; [apply with_child_t|]. simplify_eq. cbn. apply elem_of_app. by left.
      - destruct (decide (p = c)) as [->|Hpc].
        + simplify_eq. rewrite Hleaf in Hin. by apply elem_of_nil in Hin.
        + exists pd. by rewrite with_child_other. }
    destruct Hcase as [(-> & -> & ->)|[(-> & -> & ->)|(H1 & H2 & ->)]].
    + by apply Hold.
    + cbn in Hp. injection Hp as <-. exists td1. split; [apply with_child_t|]. cbn.
      apply elem_of_app. right. by apply list_elem_of_singleton.
    + by apply Hold.
  - intros p pd1 Hp. destruct (with_child_inv p pd1 Hp) as (pd & Hp0 & _).
    rewrite (with_child_children p pd pd1 Hp0 Hp). destruct (decide (p = t)) as [->|].
    + simplify_eq. apply NoDup_app. split_and!; [by apply (wf_nodup h Hwf t)| |apply NoDup_singleton].
      intros x Hx ->%list_elem_of_singleton. by apply (with_child_orphan t td).
    + by apply (wf_nodup h Hwf p).
  - apply with_child_acyclic.
  - destruct (wf_alias h Hwf) as [rank Hr]. exists rank. intros n nd1 p Hn Hp.
    destruct (with_child_inv n nd1 Hn) as (nd & Hn0 & Ea & _). rewrite Ea in Hp.
    destruct (Hr n nd p Hn0 Hp) as [Hex Hlt]. split; [|done].
    destruct (decide (p = t)) as [->|]; [by rewrite with_child_t|].
    destruct (decide (p = c)) as [->|]; [by rewrite with_child_c|]. by rewrite with_child_other.
  - intros p pd1 x y xd1 yd1 Hp Hx Hy Hxd Hyd En Ei.
    destruct (with_child_inv p pd1 Hp) as (pd & Hp0 & _).
    rewrite (with_child_children p pd pd1 Hp0 Hp) in Hx, Hy.
    assert (name_of h x = name_of h y) as En'.
    { rewrite <- !with_child_name. unfold name_of. by rewrite Hxd, Hyd. }
    assert (index_of h1 x = index_of h1 y) as Ei' by (unfold index_of; by rewrite Hxd, Hyd).
    rewrite !with_child_index in Ei'.
    destruct (max_of_ge h (m_Name cd) (children td) (-1)) as [_ Hmax].
    assert (name_of h c = m_Name cd) as Ecn by (unfold name_of; by rewrite Hc).
    assert (forall z, z ∈ children td -> name_of h z = m_Name cd -> index_of h z <> i) as Hfresh.
    { intros z Hz Hzn Hzi. specialize (Hmax z Hz Hzn). unfold i, next_index in Hzi. lia. }
    assert (forall z, z ∈ (if decide (p = t) then children td ++ [c] else children pd) -> z <> c ->
              z ∈ children pd) as Hin.
    { intros z Hz Hzc. destruct (decide (p = t)) as [->|]; [|done]. simplify_eq.
      apply elem_of_app in Hz as [Hz|Hz]; [done|]. by apply list_elem_of_singleton in Hz. }
    assert (forall z, z = c -> z ∈ (if decide (p = t) then children td ++ [c] else children pd) -> p = t) as Hpt.
    { intros z -> Hz. destruct (decide (p = t)); [done|]. by destruct (with_child_orphan p pd Hp0). }
    destruct (decide (x = c)) as [->|Hxc], (decide (y = c)) as [->|Hyc]; try done.
    + specialize (Hpt c eq_refl Hx) as ->. simplify_eq. destruct (Hfresh y); [by apply Hin|congruence|done].
    + specialize (Hpt c eq_refl Hy) as ->. simplify_eq. destruct (Hfresh x); [by apply Hin|congruence|done].
    + destruct (wf_down h Hwf p pd x Hp0 (Hin x Hx Hxc)) as (xd & Hxd0 & _).
      destruct (wf_down h Hwf p pd y Hp0 (Hin y Hy Hyc)) as (yd & Hyd0 & _).
      apply (wf_unique h Hwf p pd x y xd yd Hp0 (Hin x Hx Hxc) (Hin y Hy Hyc) Hxd0 Hyd0).
      * unfold name_of in En'. by rewrite Hxd0, Hyd0 in En'.
      * unfold index_of in Ei'. by rewrite Hxd0, Hyd0 in Ei'.
Qed.
End WithChild.

Lemma addChild_run h t td c cd :
  attachable h t td c cd -> passive -> m_AliasTarget td = None ->
  let h1 := with_child h t td c cd (next_index h td cd) in
  addChild callback t c h = (Ok tt, notified PropertyAdded c (ancestors h1 t) h1) /\ wf h1.
Proof.
  intros Hat Hp Ha h1. destruct (Hat) as [Hwf Ht Hc Hpar Hleaf Hne].
  assert (wf h1) as Hwf1 by by apply with_child_wf. split; [|done].
  unfold addChild. rewrite (se_bind_ok _ _ _ _ _ (target_self _ _ _ Ht Ha)).
  destruct (Nat.eqb_spec c t); [done|].
  rewrite (se_bind_ok _ _ _ _ _ (deref_run _ _ _ Hc)), Hpar.
  rewrite (se_bind_ok _ _ _ tt h) by done.
  rewrite (se_bind_ok _ _ _ _ _ (deref_run _ _ _ Ht)).
  rewrite (se_bind_ok _ _ _ _ _ (update_run _ _ _ _ Hc)).
  set (hA := set_nodes _ h).
  assert (forall x, name_of hA x = name_of h x /\ index_of hA x = index_of h x) as Hsame.
  { intros x. unfold name_of, index_of, hA. cbn. destruct (decide (x = c)) as [->|].
    - by rewrite lookup_insert_eq, Hc.
    - by rewrite lookup_insert_ne. }
  assert (all_present hA (children td)) as Hpres.
  { eapply Forall_impl; [by apply (children_present h t)|]. intros x Hx. cbn.
    destruct (decide (x = c)) as [->|]; [by rewrite lookup_insert_eq|by rewrite lookup_insert_ne]. }
  fold (children td). rewrite (se_bind_ok _ _ _ _ _ (max_index_run _ _ _ _ Hpres)).
  rewrite (max_of_ext h hA) by done. fold (next_index h td cd).
  assert (nodes hA !! c = Some (set_ParentNode (Some t) cd)) as HcA by (cbn; apply lookup_insert_eq).
  rewrite (se_bind_ok _ _ _ _ _ (update_run _ _ _ _ HcA)).
  set (hB := set_nodes _ hA).
  assert (nodes hB !! t = Some td) as HtB by (cbn; by rewrite !lookup_insert_ne by done).
  rewrite (se_bind_ok _ _ _ _ _ (update_run _ _ _ _ HtB)).
  assert (set_nodes <[t := set_ChildNodes (Some (children td ++ [c])) td]> hB = h1) as ->.
  { unfold hB, hA, h1, with_child, set_nodes. cbn. f_equal. f_equal. by rewrite insert_insert_eq. }
  unfold childAdded. apply notify_run; [done|done|]. exists (set_ChildNodes (Some (children td ++ [c])) td).
  apply with_child_t.
Qed.

(** ** Extension: nodes keep everything but gain children *)

Definition extends h h' : Prop :=
  forall n nd, nodes h !! n = Some nd -> exists nd' more, nodes h' !! n = Some nd' /\
    m_Name nd' = m_Name nd /\ m_Index nd' = m_Index nd /\ m_ParentNode nd' = m_ParentNode nd /\
    m_AliasTarget nd' = m_AliasTarget nd /\ valueType nd' = valueType nd /\ value nd' = value nd /\
    m_Proxy nd' = m_Proxy nd /\ m_Flags nd' = m_Flags nd /\ children nd' = children nd ++ more.

Lemma extends_refl h : extends h h.
Proof. intros n nd Hn. exists nd, []. rewrite app_nil_r. auto 12. Qed.

Lemma extends_nodes h h' : nodes h' = nodes h -> extends h h'.
Proof. intros E n nd Hn. exists nd, []. rewrite app_nil_r, E. auto 12. Qed.

Lemma extends_trans h1 h2 h3 : extends h1 h2 -> extends h2 h3 -> extends h1 h3.
Proof.
  intros A B n nd Hn. destruct (A n nd Hn) as (nd2 & m2 & Hn2 & ?). destruct_and?.
  destruct (B n nd2 Hn2) as (nd3 & m3 & Hn3 & ?). destruct_and?.
  exists nd3, (m2 ++ m3). rewrite app_assoc. split_and!; congruence.
Qed.

Lemma extends_name h h' c :
  extends h h' -> is_Some (nodes h !! c) -> name_of h' c = name_of h c /\ index_of h' c = index_of h c.
Proof.
  intros He [cd Hc]. destruct (He c cd Hc) as (cd' & m & Hc' & ?). destruct_and?.
  unfold name_of, index_of. rewrite Hc, Hc'. auto.
Qed.

Lemma extends_lookup h h' cs more name c :
  extends h h' -> all_present h cs ->
  lookup_child h cs name 0 None = Some c -> lookup_child h' (cs ++ more) name 0 None = Some c.
Proof.
  intros He Hp. rewrite !lookup_child_find by done. intros Hf.
  apply find_app. rewrite <- Hf. apply find_ext_In. intros x Hx.
  unfold all_present in Hp. rewrite Forall_forall in Hp.
  destruct (extends_name h h' x He (Hp x Hx)) as [-> ->]. done.
Qed.

Lemma follow_extends h h' fuel fuel' n t :
  extends h h' -> fuel <= fuel' -> follow fuel n h = (Ok t, h) -> follow fuel' n h' = (Ok t, h').
Proof.
  intros He. revert n fuel'. induction fuel as [|fuel IH]; intros n fuel' Hle; [done|].
  destruct fuel' as [|fuel']; [lia|]. cbn [follow]. rewrite !se_bind_run. unfold deref.
  destruct (nodes h !! n) as [nd|] eqn:E; [|done].
  destruct (He n nd E) as (nd' & m & E' & ?). destruct_and?. rewrite E'.
  destruct (m_AliasTarget nd) as [p|]; replace (m_AliasTarget nd').
  - apply IH. lia.
  - intros H'. by injection H' as ->.
Qed.

Lemma target_extends h h' n t :
  extends h h' -> target n h = (Ok t, h) -> target n h' = (Ok t, h').
Proof.
  intros He. unfold target, node_bound. rewrite !se_bind_run. cbn [se_gets]. apply follow_extends; [done|].
  apply le_n_S. rewrite <- !size_dom. apply subseteq_size. intros n' Hn'.
  apply elem_of_dom in Hn' as [nd Hn']. destruct (He n' nd Hn') as (nd' & m & E' & _).
  apply elem_of_dom. by exists nd'.
Qed.

(** ** Creating a child *)

(** Whenever children of a name exist, one of them has index 0. *)
Definition dense h : Prop := forall p pd c, nodes h !! p = Some pd -> c ∈ children pd ->
  exists d, d ∈ children pd /\ name_of h d = name_of h c /\ index_of h d = 0%Z.

Lemma lookup_child_dense h t td name :
  dense h -> nodes h !! t = Some td -> lookup_child h (children td) name 0 None = None ->
  forall c, c ∈ children td -> name_of h c <> name.
Proof.
  intros Hd Ht. rewrite lookup_child_find by done. intros Hf c Hc Hn.
  destruct (Hd t td c Ht Hc) as (d & Hin & Hdn & Hdi). rewrite list_elem_of_In in Hin.
  pose proof (List.find_none _ _ Hf d Hin) as H. cbn in H.
  by rewrite Hdn, Hn, String.eqb_refl, Hdi in H.
Qed.

Lemma dense_nodes h h' : nodes h' = nodes h -> dense h -> dense h'.
Proof.
  intros E Hd p pd c Hp Hc. rewrite E in Hp. destruct (Hd p pd c Hp Hc) as (d & ? & ? & ?).
  exists d. unfold name_of, index_of in *. by rewrite E.
Qed.

Lemma wf_nodes h h' : nodes h' = nodes h -> next h' = next h -> wf h -> wf h'.
Proof. intros. by apply (same_shape_wf h); [apply same_shape_refl|]. Qed.

Lemma with_child_dense h t td c cd :
  attachable h t td c cd -> dense h -> dense (with_child h t td c cd (next_index h td cd)).
Proof.
  intros Hat Hd p pd1 x Hp Hx. destruct (Hat) as [Hwf Ht Hc Hpar Hleaf Hne].
  destruct (with_child_inv h t td c cd Hat p pd1 Hp) as (pd & Hp0 & _).
  rewrite (with_child_children h t td c cd Hat p pd pd1 Hp0 Hp) in Hx |- *.
  assert (forall y, y ∈ children pd -> y <> c) as Hyc.
  { intros y Hy ->. by apply (with_child_orphan h t td c cd Hat p pd). }
  assert (forall y, y ∈ children pd -> y ∈ (if decide (p = t) then children td ++ [c] else children pd)) as Hkeep.
  { intros y Hy. destruct (decide (p = t)) as [->|]; [|done]. simplify_eq. apply elem_of_app. by left. }
  set (h1 := with_child _ _ _ _ _ _).
  assert (forall y, y ∈ children pd -> name_of h1 y = name_of h y /\ index_of h1 y = index_of h y) as Hsame.
  { intros y Hy. unfold h1. rewrite with_child_name, with_child_index by done. by rewrite decide_False by auto. }
  destruct (decide (x = c)) as [->|Hxc].
  - assert (p = t) as ->.
    { destruct (decide (p = t)); [done|]. by destruct (Hyc c Hx). }
    simplify_eq. rewrite decide_True in * by done.
    assert (name_of h1 c = m_Name cd) as Ecn.
    { unfold h1. rewrite with_child_name by done. unfold name_of. by rewrite Hc. }
    destruct (decide (Exists (fun d => name_of h d = m_Name cd) (children td))) as [Hex|Hno].
    + apply Exists_exists in Hex as (d0 & Hd0 & Hn0).
      destruct (Hd t td d0 Ht Hd0) as (d & Hdin & Hdn & Hdi). exists d.
      destruct (Hsame d Hdin) as [-> ->]. split_and!; [by apply Hkeep|congruence|done].
    + exists c. split_and!; [done|done|]. unfold h1. rewrite with_child_index by done.
      rewrite decide_True by done. unfold next_index. rewrite max_of_none; [done|].
      intros d Hdin Hdn. apply Hno, Exists_exists. eauto.
  - assert (x ∈ children pd) as Hx'.
    { destruct (decide (p = t)) as [->|]; [|done]. simplify_eq.
      apply elem_of_app in Hx as [Hx|Hx]; [done|]. by apply list_elem_of_singleton in Hx. }
    destruct (Hd p pd x Hp0 Hx') as (d & Hdin & Hdn & Hdi). exists d.
    destruct (Hsame d Hdin) as [-> ->]. destruct (Hsame x Hx') as [-> _]. auto.
Qed.

Lemma make_node_extends h name i :
  wf h -> extends h (mkHeap (<[next h := new_node name i]> (nodes h)) (S (next h)) (m_Properties h) (ext h)).
Proof.
  intros Hwf n nd Hn. exists nd, []. rewrite app_nil_r. cbn.
  rewrite lookup_insert_ne; [auto 12|]. intros <-. pose proof (wf_fresh h Hwf (next h) (mk_is_Some _ _ Hn)). lia.
Qed.

Lemma make_node_dense h name i :
  wf h -> dense h ->
  dense (mkHeap (<[next h := new_node name i]> (nodes h)) (S (next h)) (m_Properties h) (ext h)).
Proof.
  intros Hwf Hd p pd c Hp Hc. cbn in Hp. destruct (decide (next h = p)) as [<-|Hne].
  - rewrite lookup_insert_eq in Hp. injection Hp as <-. by apply elem_of_nil in Hc.
  - rewrite lookup_insert_ne in Hp by done. destruct (Hd p pd c Hp Hc) as (d & Hdin & Hdn & Hdi).
    pose proof (children_present h p pd Hwf Hp) as Hpres. unfold all_present in Hpres.
    rewrite Forall_forall in Hpres.
    exists d. destruct (extends_name _ _ d (make_node_extends h name i Hwf) (Hpres d Hdin)) as [-> ->].
    destruct (extends_name _ _ c (make_node_extends h name i Hwf) (Hpres c Hc)) as [-> _]. auto.
Qed.

Lemma with_child_extends h t td c cd i :
  nodes h !! t = Some td -> c <> t ->
  forall n nd, n <> c -> nodes h !! n = Some nd ->
  exists nd' more, nodes (with_child h t td c cd i) !! n = Some nd' /\
    m_Name nd' = m_Name nd /\ m_Index nd' = m_Index nd /\ m_ParentNode nd' = m_ParentNode nd /\
    m_AliasTarget nd' = m_AliasTarget nd /\ valueType nd' = valueType nd /\ value nd' = value nd /\
    m_Proxy nd' = m_Proxy nd /\ m_Flags nd' = m_Flags nd /\ children nd' = children nd ++ more.
Proof.
  intros Ht Hne n nd Hnc Hn. destruct (decide (n = t)) as [->|Hnt].
  - simplify_eq. eexists _, [c]. split; [cbn; apply lookup_insert_eq|]. auto 12.
  - exists nd, []. rewrite app_nil_r. split; [|auto 12]. cbn. by rewrite !lookup_insert_ne by done.
Qed.

(** Creating the child [name] of [t] when there is none of that name. *)
Lemma createChild_new h t td name path :
  wf h -> passive -> dense h -> nodes h !! t = Some td -> m_AliasTarget td = None -> plain name = true ->
  lookup_child h (children td) name 0 None = None ->
  exists h', createChild callback t name path h = (Ok (next h), h') /\ wf h' /\ dense h' /\ extends h h' /\
    is_Some (nodes h' !! next h) /\ getPropertyByName t name h' = (Ok (Some (next h)), h').
Proof.
  intros Hwf Hp Hd Ht Ha Hpl Hnone. set (c := next h).
  pose proof (plain_index name Hpl) as Hidx.
  destruct (plain_spec name Hpl) as (Hne & Hnul & Hplus).
  assert (c_str name = name) as Hcs by by apply c_str_id.
  pose proof (lookup_child_dense h t td name Hd Ht Hnone) as Hnoname.
  set (k := (Z.of_nat (length (named h name (children td))) + 1)%Z).
  set (hm := mkHeap (<[c := new_node name k]> (nodes h)) (S c) (m_Properties h) (ext h)).
  assert (wf hm) as Hwfm by by apply wf_make_node.
  assert (extends h hm) as Hem by by apply make_node_extends.
  assert (c <> t) as Hct by (pose proof (wf_fresh h Hwf t (mk_is_Some _ _ Ht)); unfold c; lia).
  assert (nodes hm !! t = Some td) as Htm by (cbn; by rewrite lookup_insert_ne).
  assert (nodes hm !! c = Some (new_node name k)) as Hcm by (cbn; apply lookup_insert_eq).
  assert (attachable hm t td c (new_node name k)) as Hat by by split.
  destruct (addChild_run hm t td c (new_node name k) Hat Hp Ha) as [Hrun Hwf1].
  set (i := next_index hm td (new_node name k)) in *. set (h1 := with_child hm t td c (new_node name k) i) in *.
  destruct (notified_nodes PropertyAdded c (ancestors h1 t) h1 Hp) as (En & Enx & _).
  set (h' := notified _ _ _ h1) in *. exists h'.
  assert (wf h') as Hwf' by by apply (wf_nodes h1).
  assert (i = 0%Z) as Hi.
  { unfold i, next_index. rewrite max_of_none; [done|]. intros x Hx. cbn.
    pose proof (children_present h t td Hwf Ht) as Hpres. unfold all_present in Hpres. rewrite Forall_forall in Hpres.
    destruct (extends_name h hm x Hem (Hpres x Hx)) as [-> _]. by apply Hnoname. }
  assert (nodes h1 !! c = Some (set_Index i (set_ParentNode (Some t) (new_node name k)))) as Hc1
    by by apply with_child_c.
  assert (nodes h' !! t = Some (set_ChildNodes (Some (children td ++ [c])) td)) as Ht'
    by (rewrite En; apply with_child_t).
  split_and!; [|done| | | |].
  - unfold createChild.
    rewrite (se_bind_ok _ _ _ _ _ (getPropertyByName_children h t td name Hwf Ht Ha Hpl)).
    rewrite Hnone.
    assert ((match slast name with
             | Some c => if Ascii.eqb c "+" then erase name (slen name - 1) 1 else name
             | None => name end) = name) as ->.
    { destruct (slast name) as [a|]; [|done]. destruct (Ascii.eqb_spec a "+"); [|done]. congruence. }
    rewrite Hidx. cbn [Z.eqb].
    rewrite (se_bind_ok _ _ _ k h).
    2:{ unfold count. rewrite (se_bind_ok _ _ _ (Z.of_nat (length (named h name (children td)))) h); [done|].
        rewrite (se_bind_ok _ _ _ _ _ (target_self _ _ _ Ht Ha)), (se_bind_ok _ _ _ _ _ (deref_run _ _ _ Ht)).
        pose proof (children_present h t td Hwf Ht) as Hpres. unfold children in *.
        destruct (m_ChildNodes td); [by apply count_name_run|done]. }
    assert (String.eqb name "" = false) as -> by by apply String.eqb_neq.
    rewrite (se_bind_ok _ _ _ c hm) by (unfold make_node; by rewrite Hcs).
    by rewrite (se_bind_ok _ _ _ _ _ Hrun).
  - apply (dense_nodes h1); [done|]. apply with_child_dense; try done. by apply make_node_dense.
  - intros n nd Hn. destruct (Hem n nd Hn) as (ndm & m & Hnm & ?). destruct_and?.
    assert (n <> c) as Hnc by (pose proof (wf_fresh h Hwf n (mk_is_Some _ _ Hn)); unfold c; lia).
    destruct (with_child_extends hm t td c (new_node name k) i Htm Hct n ndm Hnc Hnm)
      as (nd' & m' & Hn' & ?). destruct_and?. exists nd', (m ++ m'). rewrite En.
    rewrite app_assoc. split_and!; [exact Hn'|congruence..].
  - rewrite En. exists (set_Index i (set_ParentNode (Some t) (new_node name k))). by apply with_child_c.
  - rewrite (getPropertyByName_children h' t _ name Hwf' Ht' Ha) by done.
    do 2 f_equal. change (children (set_ChildNodes (Some (children td ++ [c])) td)) with (children td ++ [c]).
    rewrite lookup_child_find by done. rewrite find_app_None.
    + cbn [List.find]. assert (name_of h' c = name) as ->.
      { unfold name_of. by rewrite En, Hc1. }
      assert (index_of h' c = 0%Z) as ->.
      { unfold index_of. by rewrite En, Hc1. }
      by rewrite String.eqb_refl.
    + rewrite lookup_child_find in Hnone by done. rewrite <- Hnone. apply find_ext_In. intros x Hx.
      pose proof (children_present h t td Hwf Ht) as Hpres. unfold all_present in Hpres. rewrite Forall_forall in Hpres.
      destruct (extends_name h hm x Hem (Hpres x Hx)) as [E1 E2].
      assert (x <> c) as Hxc by (pose proof (wf_fresh h Hwf x (Hpres x Hx)); unfold c; lia).
      assert (name_of h' x = name_of h1 x /\ index_of h' x = index_of h1 x) as [-> ->]
        by (unfold name_of, index_of; by rewrite En).
      unfold h1. rewrite with_child_name, with_child_index by done. rewrite decide_False by done.
      by rewrite E1, E2.
Qed.

Lemma createChild_existing h t td name path c :
  wf h -> nodes h !! t = Some td -> m_AliasTarget td = None -> plain name = true ->
  lookup_child h (children td) name 0 None = Some c ->
  createChild callback t name path h = (Ok c, h) /\ getPropertyByName t name h = (Ok (Some c), h).
Proof.
  intros Hwf Ht Ha Hpl Hl. pose proof (getPropertyByName_children h t td name Hwf Ht Ha Hpl) as Hg.
  rewrite Hl in Hg. split; [|done]. unfold createChild. by rewrite (se_bind_ok _ _ _ _ _ Hg).
Qed.

(** One component of a path: the child is found or created, and found from then on. *)
Lemma createChild_spec h t td name path :
  wf h -> passive -> dense h -> nodes h !! t = Some td -> m_AliasTarget td = None -> plain name = true ->
  exists c h', createChild callback t name path h = (Ok c, h') /\ wf h' /\ dense h' /\ extends h h' /\
    is_Some (nodes h' !! c) /\ getPropertyByName t name h' = (Ok (Some c), h') /\
    (getPropertyByName t name h = (Ok (Some c), h) /\ h' = h \/ getPropertyByName t name h = (Ok None, h)).
Proof.
  intros Hwf Hp Hd Ht Ha Hpl. pose proof (getPropertyByName_children h t td name Hwf Ht Ha Hpl) as Hg.
  destruct (lookup_child h (children td) name 0 None) as [c|] eqn:El.
  - destruct (createChild_existing h t td name path c Hwf Ht Ha Hpl El) as [H1 H2].
    exists c, h. split_and!; try done; [apply extends_refl| |by left].
    rewrite lookup_child_find in El by done. apply List.find_some in El as [Hin _].
    apply list_elem_of_In in Hin. destruct (wf_down h Hwf t td c Ht Hin) as (cd & Hcd & _). by exists cd.
  - destruct (createChild_new h t td name path Hwf Hp Hd Ht Ha Hpl El) as (h' & ?). destruct_and?.
    exists (next h), h'. split_and!; try done. by right.
Qed.

Lemma getPropertyByName_extends h h' t name c :
  wf h -> wf h' -> extends h h' -> plain name = true ->
  (exists td, nodes h !! t = Some td /\ m_AliasTarget td = None) ->
  getPropertyByName t name h = (Ok (Some c), h) -> getPropertyByName t name h' = (Ok (Some c), h').
Proof.
  intros Hwf Hwf' He Hpl (td & Ht & Ha) Hg.
  destruct (He t td Ht) as (td' & more & Ht' & ?). destruct_and?.
  rewrite (getPropertyByName_children h t td name) in Hg by done. injection Hg as Hg.
  rewrite (getPropertyByName_children h' t td' name) by congruence. do 2 f_equal.
  replace (children td'). by apply (extends_lookup h); [|apply (children_present h t td)|].
Qed.

(** ** Paths *)

Lemma plain_no_slash s : plain s = true -> sexists (Ascii.eqb "/") s = false.
Proof. unfold plain. intros H. by reflect_bools. Qed.

Lemma carCdrPath_last s : plain s = true -> carCdrPath s = (s, "").
Proof. intros H. unfold carCdrPath. by rewrite (proj2 (sfind_None _ _) (plain_no_slash s H)). Qed.

Lemma carCdrPath_cons s p : plain s = true -> carCdrPath (s +:+ String "/" p) = (s, p).
Proof.
  intros H. unfold carCdrPath. rewrite sfind_app_not by by apply plain_no_slash. cbn.
  rewrite Nat.add_0_r. unfold substr, erase. cbn [sdrop stake].
  rewrite stake_app. cbn [String.append Nat.add]. f_equal. by rewrite sdrop_app_add.
Qed.

Lemma join_cons2 s r rest :
  join (s :: r :: rest) "/" = s +:+ String "/" (join (r :: rest) "/").
Proof. done. Qed.

Lemma plain_path_start s p : plain s = true -> String.eqb (s +:+ p) "" = false /\ String.eqb (s +:+ p) "/" = false.
Proof.
  intros H. destruct (plain_spec s H) as (Hne & _). pose proof (plain_no_slash s H) as Hs.
  destruct s as [|a s]; [done|]. cbn [sexists] in Hs. apply orb_false_iff in Hs as [Ha _].
  split; [done|]. cbn [String.append String.eqb]. by rewrite (Ascii.eqb_sym a "/"), Ha.
Qed.

Lemma join_start s rest : plain s = true ->
  String.eqb (join (s :: rest) "/") "" || String.eqb (join (s :: rest) "/") "/" = false.
Proof. intros H. cbn [join]. by destruct (plain_path_start s (join_rest "/" rest) H) as [-> ->]. Qed.

(** Looking a path up, one component at a time. *)
Lemma getProperty_rec_cons h fuel n t s rest c :
  target n h = (Ok t, h) -> plain s = true -> forallb plain rest = true ->
  getPropertyByName t s h = (Ok (Some c), h) ->
  getProperty_rec (S fuel) n (join (s :: rest) "/") h =
    match rest with
    | [] => (Ok (Some c), h)
    | _ => getProperty_rec fuel c (join rest "/") h
    end.
Proof.
  intros Ht Hs Hr Hg. cbn [getProperty_rec]. rewrite (se_bind_ok _ _ _ _ _ Ht), join_start by done.
  destruct rest as [|r rest].
  - cbn [join join_rest]. rewrite app_nil_r_s, carCdrPath_last by done.
    by rewrite (se_bind_ok _ _ _ _ _ Hg).
  - rewrite join_cons2, carCdrPath_cons by done. rewrite (se_bind_ok _ _ _ _ _ Hg).
    cbn [forallb] in Hr. apply andb_true_iff in Hr as [Hr _].
    pose proof (join_start r rest Hr) as Hj. apply orb_false_iff in Hj as [-> _]. done.
Qed.

Lemma createProperty_rec_cons h fuel n t s rest c h1 :
  target n h = (Ok t, h) -> plain s = true -> forallb plain rest = true ->
  createChild callback t s (join (s :: rest) "/") h = (Ok c, h1) ->
  createProperty_rec callback (S fuel) n (join (s :: rest) "/") h =
    match rest with
    | [] => (Ok c, h1)
    | _ => createProperty_rec callback fuel c (join rest "/") h1
    end.
Proof.
  intros Ht Hs Hr Hg. cbn [createProperty_rec]. rewrite (se_bind_ok _ _ _ _ _ Ht), join_start by done.
  destruct rest as [|r rest].
  - cbn [join join_rest] in *. rewrite app_nil_r_s in *. rewrite carCdrPath_last by done.
    by rewrite (se_bind_ok _ _ _ _ _ Hg).
  - rewrite join_cons2 in *. rewrite carCdrPath_cons by done. rewrite (se_bind_ok _ _ _ _ _ Hg).
    cbn [forallb] in Hr. apply andb_true_iff in Hr as [Hr _].
    pose proof (join_start r rest Hr) as Hj. apply orb_false_iff in Hj as [-> _]. done.
Qed.

Lemma create_get_aux segs : forall h n fuel,
  wf h -> passive -> dense h -> is_Some (nodes h !! n) -> segs <> [] -> forallb plain segs = true ->
  length segs <= fuel ->
  exists c h', createProperty_rec callback fuel n (join segs "/") h = (Ok c, h') /\ wf h' /\ dense h' /\
    extends h h' /\ is_Some (nodes h' !! c) /\
    (forall h2 fuel2, wf h2 -> extends h' h2 -> length segs <= fuel2 ->
       getProperty_rec fuel2 n (join segs "/") h2 = (Ok (Some c), h2)) /\
    (forall c0 fuel2, length segs <= fuel2 ->
       getProperty_rec fuel2 n (join segs "/") h = (Ok (Some c0), h) -> c = c0 /\ h' = h).
Proof.
  induction segs as [|s rest IH]; intros h n fuel Hwf Hp Hd Hn Hne Hpl Hfuel; [done|].
  cbn [forallb] in Hpl. apply andb_true_iff in Hpl as [Hs Hr]. cbn [length] in Hfuel.
  destruct fuel as [|fuel]; [lia|].
  destruct (target_total h n Hwf Hn) as (t & td & Ht & Htd & Ha).
  destruct (createChild_spec h t td s (join (s :: rest) "/") Hwf Hp Hd Htd Ha Hs)
    as (c1 & h1 & Hcr & Hwf1 & Hd1 & He1 & Hc1 & Hg1 & Hold).
  assert (forall h2, extends h1 h2 -> wf h2 ->
    target n h2 = (Ok t, h2) /\ getPropertyByName t s h2 = (Ok (Some c1), h2)) as Hstep.
  { intros h2 He2 Hwf2. split; [by eapply target_extends, Ht; eapply extends_trans|].
    eapply getPropertyByName_extends; [exact Hwf1|done|done|done| |done].
    destruct (He1 t td Htd) as (td1 & m & Htd1 & ?). destruct_and?. exists td1. split; congruence. }
  destruct rest as [|r rest].
  - exists c1, h1. rewrite (createProperty_rec_cons h fuel n t s [] c1 h1 Ht Hs Hr Hcr). split_and!; try done.
    + intros h2 fuel2 Hwf2 He2 Hf2. destruct (Hstep h2 He2 Hwf2) as [Ht2 Hg2].
      cbn [length] in Hf2. destruct fuel2; [lia|]. by rewrite (getProperty_rec_cons _ _ _ _ _ _ _ Ht2 Hs Hr Hg2).
    + intros c0 fuel2 Hf2 Hget. cbn [length] in Hf2. destruct fuel2; [lia|].
      destruct Hold as [[Hg ->]|Hnone].
      * rewrite (getProperty_rec_cons _ _ _ _ _ _ _ Ht Hs Hr Hg) in Hget. by injection Hget as ->.
      * exfalso. revert Hget. cbn [getProperty_rec]. rewrite (se_bind_ok _ _ _ _ _ Ht), join_start by done.
        cbn [join join_rest]. rewrite app_nil_r_s, carCdrPath_last by done.
        by rewrite (se_bind_ok _ _ _ _ _ Hnone).
  - destruct (IH h1 c1 fuel Hwf1 Hp Hd1 Hc1 ltac:(done) Hr ltac:(lia))
      as (c & h' & Hcr' & Hwf' & Hd' & He' & Hc' & Hget' & Hold').
    exists c, h'. rewrite (createProperty_rec_cons h fuel n t s (r :: rest) c1 h1 Ht Hs Hr Hcr).
    split_and!; try done; [by eapply extends_trans| |].
    + intros h2 fuel2 Hwf2 He2 Hf2. destruct (Hstep h2 ltac:(by eapply extends_trans) Hwf2) as [Ht2 Hg2].
      cbn [length] in Hf2. destruct fuel2; [lia|]. rewrite (getProperty_rec_cons _ _ _ _ _ _ _ Ht2 Hs Hr Hg2).
      apply Hget'; [done|done|cbn [length]; lia].
    + intros c0 fuel2 Hf2 Hget. cbn [length] in Hf2. destruct fuel2 as [|fuel2]; [lia|].
      destruct Hold as [[Hg ->]|Hnone].
      * rewrite (getProperty_rec_cons _ _ _ _ _ _ _ Ht Hs Hr Hg) in Hget.
        apply (Hold' c0 fuel2); [cbn [length]; lia|done].
      * exfalso. revert Hget. cbn [getProperty_rec]. rewrite (se_bind_ok _ _ _ _ _ Ht), join_start by done.
        rewrite join_cons2, carCdrPath_cons by done. by rewrite (se_bind_ok _ _ _ _ _ Hnone).
Qed.

Lemma join_length segs : forallb plain segs = true -> length segs <= slen (join segs "/").
Proof.
  induction segs as [|s [|r rest] IH]; intros H; [cbn; lia| |].
  - cbn [forallb] in H. apply andb_true_iff in H as [H _]. destruct (plain_spec s H) as [Hne _].
    cbn [length join join_rest]. rewrite app_nil_r_s. destruct s; [done|cbn; lia].
  - cbn [forallb] in H. apply andb_true_iff in H as [H H']. rewrite join_cons2, slen_app.
    cbn [length String.length] in *. specialize (IH H'). lia.
Qed.

(** C7: creating a property by path and then looking the same path up gives
    the node that was created; it stays the one found while the tree only
    grows; creating a path that exists returns the existing node and changes
    nothing; creation keeps the tree well-formed and never changes the names,
    indices, values or order of what was there.  The path is a sequence of
    names without index; children are numbered from 0 without a gap at 0. *)
Theorem createProperty_getProperty h n (segs : list string) :
  wf h -> passive -> dense h -> is_Some (nodes h !! n) -> segs <> [] -> forallb plain segs = true ->
  exists c h', createProperty callback n (join segs "/") h = (Ok c, h') /\ wf h' /\ dense h' /\
    extends h h' /\
    (forall h2, wf h2 -> extends h' h2 -> getProperty n (join segs "/") h2 = (Ok (Some c), h2)) /\
    (forall c0, getProperty n (join segs "/") h = (Ok (Some c0), h) -> c = c0 /\ h' = h).
Proof.
  intros Hwf Hp Hd Hn Hne Hpl. pose proof (join_length segs Hpl) as Hlen.
  destruct (create_get_aux segs h n (S (slen (join segs "/"))) Hwf Hp Hd Hn Hne Hpl ltac:(lia))
    as (c & h' & Hcr & Hwf' & Hd' & He & _ & Hget & Hold).
  exists c, h'. split_and!; try done.
  - intros h2 Hwf2 He2. apply Hget; [done|done|lia].
  - intros c0 Hg. apply (Hold c0 (S (slen (join segs "/")))); [lia|done].
Qed.

(** ** Removing a child *)

Lemma erase_first_In x y l : NoDup l -> y ∈ erase_first x l <-> y ∈ l /\ y <> x.
Proof.
  induction l as [|z l IH]; intros Hnd; cbn [erase_first].
  - split; [by intros H%elem_of_nil|by intros [H%elem_of_nil _]].
  - apply NoDup_cons in Hnd as [Hz Hnd]. destruct (Nat.eqb_spec x z) as [->|Hne].
    + rewrite elem_of_cons. split; [|naive_solver]. intros Hy. split; [by right|]. by intros ->.
    + rewrite !elem_of_cons, IH by done. naive_solver.
Qed.

Lemma erase_first_NoDup x l : NoDup l -> NoDup (erase_first x l).
Proof.
  induction l as [|z l IH]; intros Hnd; [done|]. cbn [erase_first].
  apply NoDup_cons in Hnd as [Hz Hnd]. destruct (Nat.eqb_spec x z) as [->|Hne]; [done|].
  apply NoDup_cons. split; [|by apply IH]. rewrite erase_first_In by done. naive_solver.
Qed.

Definition without_child h (t : nid) td (c : nid) cd : heap Ext :=
  set_nodes (fun m => <[c := set_ParentNode None cd]>
    (<[t := set_ChildNodes (Some (erase_first c (children td))) td]> m)) h.

(** [c] is a child of [t]. *)
Record is_child h (t : nid) td (c : nid) cd : Prop := {
  ch_wf : wf h;
  ch_t : nodes h !! t = Some td;
  ch_in : c ∈ children td;
  ch_c : nodes h !! c = Some cd
}.

Section WithoutChild.
Context h (t : nid) td (c : nid) cd.
Hypothesis Hch : is_child h t td c cd.
Let Hwf : wf h := ch_wf _ _ _ _ _ Hch.
Let Ht : nodes h !! t = Some td := ch_t _ _ _ _ _ Hch.
Let Hin : c ∈ children td := ch_in _ _ _ _ _ Hch.
Let Hc : nodes h !! c = Some cd := ch_c _ _ _ _ _ Hch.
Let h1 := without_child h t td c cd.
Let td1 := set_ChildNodes (Some (erase_first c (children td))) td.

Lemma child_parent : m_ParentNode cd = Some t.
Proof. destruct (wf_down h Hwf t td c Ht Hin) as (cd' & Hc' & ?). congruence. Qed.

Lemma child_ne : c <> t.
Proof.
  pose proof child_parent as Hcp. intros E. destruct (wf_acyclic h Hwf) as [rank Hr].
  destruct (Hr c cd t Hc Hcp) as [_ Hlt]. rewrite E in Hlt. lia.
Qed.

(** Every node of the new heap, as a node of the old one. *)
Lemma without_child_inv n nd1 :
  nodes h1 !! n = Some nd1 ->
  exists nd, nodes h !! n = Some nd /\ m_AliasTarget nd1 = m_AliasTarget nd /\ m_Name nd1 = m_Name nd /\
    m_Index nd1 = m_Index nd /\
    children nd1 = (if decide (n = t) then erase_first c (children nd) else children nd) /\
    m_ParentNode nd1 = (if decide (n = c) then None else m_ParentNode nd).
Proof.
  pose proof child_ne as Hne. unfold h1. cbn. destruct (decide (n = c)) as [->|Hnc].
  - rewrite lookup_insert_eq. intros [= <-]. exists cd. rewrite decide_False by done. auto 10.
  - rewrite lookup_insert_ne by done. destruct (decide (n = t)) as [->|Hnt].
    + rewrite lookup_insert_eq. intros [= <-]. exists td. auto 10.
    + rewrite lookup_insert_ne by done. intros Hn. exists nd1. auto 10.
Qed.

Lemma without_child_fwd n nd :
  nodes h !! n = Some nd -> exists nd1, nodes h1 !! n = Some nd1 /\
    children nd1 = (if decide (n = t) then erase_first c (children nd) else children nd) /\
    m_ParentNode nd1 = (if decide (n = c) then None else m_ParentNode nd).
Proof.
  intros Hn. assert (is_Some (nodes h1 !! n)) as [nd1 Hn1].
  { unfold h1. cbn. destruct (decide (n = c)) as [->|Hnc]; [by rewrite lookup_insert_eq|].
    rewrite lookup_insert_ne by done. destruct (decide (n = t)) as [->|Hnt]; [by rewrite lookup_insert_eq|].
    by rewrite lookup_insert_ne. }
  exists nd1. destruct (without_child_inv n nd1 Hn1) as (nd' & Hn' & _ & _ & _ & H1 & H2).
  rewrite Hn in Hn'. injection Hn' as <-. auto.
Qed.

Lemma without_child_wf : wf h1.
Proof.
  pose proof child_parent as Hcp.
  assert (forall p pd1 x, nodes h1 !! p = Some pd1 -> x ∈ children pd1 -> exists pd,
    nodes h !! p = Some pd /\ x ∈ children pd /\ x <> c) as Hdown.
  { intros p pd1 x Hp Hx. destruct (without_child_inv p pd1 Hp) as (pd & Hp0 & _ & _ & _ & Ec & _).
    rewrite Ec in Hx. exists pd. split; [done|]. destruct (decide (p = t)) as [->|Hpt].
    - apply erase_first_In in Hx; [done|]. by apply (wf_nodup h Hwf t).
    - split; [done|]. intros ->. destruct (wf_down h Hwf p pd c Hp0 Hx) as (cd' & Hc' & Hp').
      congruence. }
  split.
  - intros n [nd1 Hn]. destruct (without_child_inv n nd1 Hn) as (nd & Hn0 & _). apply (wf_fresh h Hwf). by exists nd.
  - intros p pd1 x Hp Hx. destruct (Hdown p pd1 x Hp Hx) as (pd & Hp0 & Hx0 & Hxc).
    destruct (wf_down h Hwf p pd x Hp0 Hx0) as (xd & Hxd & Hpar).
    destruct (without_child_fwd x xd Hxd) as (xd1 & Hxd1 & _ & Epar). exists xd1.
    rewrite Epar, decide_False by done. done.
  - intros x xd1 p Hx Hpar. destruct (without_child_inv x xd1 Hx) as (xd & Hx0 & _ & _ & _ & _ & Epar).
    rewrite Epar in Hpar. destruct (decide (x = c)) as [->|Hxc]; [done|].
    destruct (wf_up h Hwf x xd p Hx0 Hpar) as (pd & Hpd & Hxin).
    destruct (without_child_fwd p pd Hpd) as (pd1 & Hpd1 & Ec & _). exists pd1. split; [done|].
    rewrite Ec. destruct (decide (p = t)) as [->|]; [|done].
    apply erase_first_In; [by apply (wf_nodup h Hwf t)|done].
  - intros p pd1 Hp. destruct (without_child_inv p pd1 Hp) as (pd & Hp0 & _ & _ & _ & -> & _).
    pose proof (wf_nodup h Hwf p pd Hp0). destruct (decide (p = t)); [by apply erase_first_NoDup|done].
  - destruct (wf_acyclic h Hwf) as [rank Hr]. exists rank. intros n nd1 p Hn Hp.
    destruct (without_child_inv n nd1 Hn) as (nd & Hn0 & _ & _ & _ & _ & Epar). rewrite Epar in Hp.
    destruct (decide (n = c)); [done|]. destruct (Hr n nd p Hn0 Hp) as [[pd Hpd] ?]. split; [|done].
    destruct (without_child_fwd p pd Hpd) as (pd1 & ? & _). by exists pd1.
  - destruct (wf_alias h Hwf) as [rank Hr]. exists rank. intros n nd1 p Hn Hp.
    destruct (without_child_inv n nd1 Hn) as (nd & Hn0 & Ea & _). rewrite Ea in Hp.
    destruct (Hr n nd p Hn0 Hp) as [[pd Hpd] ?]. split; [|done].
    destruct (without_child_fwd p pd Hpd) as (pd1 & ? & _). by exists pd1.
  - intros p pd1 x y xd1 yd1 Hp Hx Hy Hxd Hyd En Ei.
    destruct (Hdown p pd1 x Hp Hx) as (pd & Hp0 & Hx0 & _).
    destruct (Hdown p pd1 y Hp Hy) as (pd' & Hp0' & Hy0 & _). simplify_eq.
    destruct (without_child_inv x xd1 Hxd) as (xd & Hxd0 & _ & En1 & Ei1 & _).
    destruct (without_child_inv y yd1 Hyd) as (yd & Hyd0 & _ & En2 & Ei2 & _).
    apply (wf_unique h Hwf p pd x y xd yd); congruence.
Qed.
End WithoutChild.

(** C32: removing a child takes exactly that node out of the children of its
    parent, keeps the order of the others, clears its parent pointer and
    leaves the rest of the heap as it was; the listeners of the former parent
    and its ancestors are told; the tree stays well-formed. *)
Theorem removeChild_spec h t td c :
  wf h -> passive -> nodes h !! t = Some td -> m_AliasTarget td = None -> c ∈ children td ->
  exists cd h1 h', nodes h !! c = Some cd /\ h1 = without_child h t td c cd /\
    removeChild callback t c h = (Ok (Some c), h') /\
    h' = notified PropertyRemoved c (ancestors h1 t) h1 /\ wf h' /\
    (forall n, n <> t -> n <> c -> nodes h' !! n = nodes h !! n) /\
    (forall x, x ∈ erase_first c (children td) <-> x ∈ children td /\ x <> c).
Proof.
  intros Hwf Hp Ht Ha Hin. destruct (wf_down h Hwf t td c Ht Hin) as (cd & Hc & Hpar).
  assert (is_child h t td c cd) as Hch by by split.
  pose proof (child_ne h t td c cd Hch) as Hne.
  pose proof (without_child_wf h t td c cd Hch) as Hwf1.
  set (h1 := without_child h t td c cd) in *.
  destruct (notified_nodes PropertyRemoved c (ancestors h1 t) h1 Hp) as (En & Enx & _).
  exists cd, h1, (notified PropertyRemoved c (ancestors h1 t) h1). split_and!; try done.
  - unfold removeChild. rewrite (se_bind_ok _ _ _ _ _ (target_self _ _ _ Ht Ha)).
    rewrite (se_bind_ok _ _ _ _ _ (deref_run _ _ _ Ht)).
    unfold children in Hin. destruct (m_ChildNodes td) as [cs|] eqn:Ecs; [|by apply elem_of_nil in Hin].
    rewrite (se_bind_ok _ _ _ _ _ (update_run _ _ _ _ Ht)).
    assert (nodes (set_nodes <[t := set_ChildNodes (Some (erase_first c cs)) td]> h) !! c = Some cd) as HcA
      by (cbn; by rewrite lookup_insert_ne).
    rewrite (se_bind_ok _ _ _ _ _ (update_run _ _ _ _ HcA)).
    assert (set_nodes <[c := set_ParentNode None cd]>
      (set_nodes <[t := set_ChildNodes (Some (erase_first c cs)) td]> h) = h1) as ->.
    { unfold h1, without_child, children. rewrite Ecs. done. }
    unfold childRemoved. assert (is_Some (nodes h1 !! t)) as Ht1.
    { unfold h1, without_child. cbn. rewrite lookup_insert_ne by done. by rewrite lookup_insert_eq. }
    by rewrite (se_bind_ok _ _ _ _ _ (notify_run _ _ _ _ Hwf1 Hp Ht1)).
  - by apply (wf_nodes h1).
  - intros n Hnt Hnc. rewrite En. unfold h1, without_child. cbn. by rewrite !lookup_insert_ne by done.
  - intros x. exact (erase_first_In c x _ (wf_nodup h Hwf t td Ht)).
Qed.

(** ** Display names *)

(** Name and index identify a child. *)
Lemma lookup_child_unique h p pd c cd :
  wf h -> nodes h !! p = Some pd -> c ∈ children pd -> nodes h !! c = Some cd -> m_Index cd <> (-1)%Z ->
  lookup_child h (children pd) (m_Name cd) (m_Index cd) None = Some c.
Proof.
  intros Hwf Hp Hin Hc Hi. rewrite lookup_child_find by done.
  destruct (List.find _ (children pd)) as [x|] eqn:E.
  - apply List.find_some in E as [Hx E]. apply list_elem_of_In in Hx. reflect_bools.
    destruct (wf_down h Hwf p pd x Hp Hx) as (xd & Hxd & _). unfold name_of, index_of in *.
    rewrite Hxd in *. f_equal. by apply (wf_unique h Hwf p pd x c xd cd).
  - apply list_elem_of_In in Hin. pose proof (List.find_none _ _ E c Hin) as H. cbn in H.
    unfold name_of, index_of in H. rewrite Hc in H. cbn in H. by rewrite String.eqb_refl, Z.eqb_refl in H.
Qed.

Definition no_bracket (s : string) : Prop := sexists (Ascii.eqb "]") s = false.

Lemma indexed_name name i :
  plain name = true -> no_bracket name -> (0 <= i < 2 ^ 31)%Z ->
  getAndRemoveIndexFromPropertyName (name +:+ "[" +:+ intToString i false +:+ "]") = (i, name).
Proof.
  intros Hpl Hb Hi. destruct (plain_spec name Hpl) as (Hne & Hnul & _).
  assert (sexists (Ascii.eqb "[") name = false) as Hopen by (unfold plain in Hpl; by reflect_bools).
  unfold intToString. destruct (Z.ltb_spec i 0); [lia|]. set (d := print_number 10 i).
  assert (forall (p : ascii -> bool), (forall v, (0 <= v < 10)%Z -> p (digit_char v) = true) -> sforall p d = true) as Hd.
  { intros p Hp. by apply (print_digits_forall p 10 19 i "" ltac:(lia)). }
  assert (forall (p : ascii -> bool), (forall v, (0 <= v < 10)%Z -> p (digit_char v) = false) -> sexists p d = false) as Hx.
  { intros p Hp. specialize (Hd (fun c => negb (p c))). unfold sforall in Hd.
    apply negb_true_iff in Hd; [|intros v Hv; by rewrite Hp].
    clear -Hd. induction d as [|c s IH]; [done|]. cbn [sexists] in *. rewrite negb_involutive in Hd.
    apply orb_false_iff in Hd as [-> Hd]. by apply IH. }
  assert (forall c, (forall v, (0 <= v < 10)%Z -> negb (Ascii.eqb c (digit_char v)) = true) ->
    sexists (Ascii.eqb c) d = false) as Hxc.
  { intros c Hc. apply Hx. intros v Hv. by apply negb_true_iff, Hc. }
  assert (sexists (Ascii.eqb "]") d = false) as Hdb.
  { apply Hxc. by apply (zrange_forall (fun v => negb (Ascii.eqb "]" (digit_char v))) 0 10). }
  assert (sexists is_trim_space d = false) as Hdt.
  { apply Hx. intros v Hv. apply negb_true_iff.
    by apply (zrange_forall (fun v => negb (is_trim_space (digit_char v))) 0 10). }
  assert (sexists (Ascii.eqb "000") d = false) as Hdn.
  { apply Hxc. by apply (zrange_forall (fun v => negb (Ascii.eqb "000" (digit_char v))) 0 10). }
  assert (sexists (Ascii.eqb "l") d = false) as Hdl.
  { apply Hxc. by apply (zrange_forall (fun v => negb (Ascii.eqb "l" (digit_char v))) 0 10). }
  assert (d <> "") as Hdne.
  { destruct (print_digits_cons 19 10 i "") as (a & r & E). unfold d, print_number. rewrite E. done. }
  unfold getAndRemoveIndexFromPropertyName. rewrite sfind_app_not by done. cbn [sfind String.append Ascii.eqb Bool.eqb].
  cbn [fmap option_fmap option_map]. rewrite Nat.add_0_r.
  assert (sfind "]" (name +:+ String "[" (d +:+ "]")) = Some (slen name + S (slen d))) as ->.
  { rewrite sfind_app_not by done.
    change (String "[" (d +:+ "]")) with ((String "[" d) +:+ "]"). rewrite sfind_app_not by done. cbn. f_equal. lia. }
  destruct (Nat.ltb_spec (slen name) (slen name + S (slen d))); [|lia].
  assert (substr (name +:+ String "[" (d +:+ "]")) (slen name + 1) (slen name + S (slen d) - slen name - 1) = d) as ->.
  { unfold substr. rewrite sdrop_app_add. cbn [sdrop].
    replace (slen name + S (slen d) - slen name - 1) with (slen d) by lia. apply stake_app. }
  rewrite trim_id by done.
  assert (String.eqb d "last" = false) as ->.
  { apply String.eqb_neq. intros E. by rewrite E in Hdl. }
  rewrite c_str_id by done. unfold d. rewrite strtol_print by done. cbn [fst].
  rewrite int32_id by lia. f_equal. fold d. unfold erase. rewrite stake_app.
  assert (sdrop (slen name + (slen name + S (slen d))) (name +:+ String "[" (d +:+ "]")) = "") as ->; [|apply app_nil_r_s].
  rewrite sdrop_app_add. assert (slen name <> 0) by by rewrite slen_0.
  apply slen_0. rewrite slen_sdrop. cbn [String.length]. rewrite slen_app. cbn [String.length]. lia.
Qed.

Lemma named_singleton h name cs c x :
  length (named h name cs) <= 1 -> c ∈ cs -> name_of h c = name -> x ∈ cs -> name_of h x = name -> x = c.
Proof.
  intros Hlen Hc Hcn Hx Hxn.
  assert (forall y, y ∈ cs -> name_of h y = name -> y ∈ named h name cs) as Hin.
  { intros y Hy Hn. unfold named. rewrite list_elem_of_In, filter_In, <- list_elem_of_In.
    split; [done|]. by apply String.eqb_eq. }
  pose proof (Hin c Hc Hcn) as H1. pose proof (Hin x Hx Hxn) as H2.
  destruct (named h name cs) as [|a [|b l]]; [by apply elem_of_nil in H1| |cbn in Hlen; lia].
  apply list_elem_of_singleton in H1, H2. congruence.
Qed.

(** The display name of a node - its name, with its index in brackets if
    it has a sibling of the same name - leads from its parent to exactly this
    node, as the tree's users and the XML files rely on. *)
Theorem display_name_lookup h p pd c cd :
  wf h -> dense h -> nodes h !! p = Some pd -> m_AliasTarget pd = None ->
  nodes h !! c = Some cd -> m_ParentNode cd = Some p ->
  plain (m_Name cd) = true -> no_bracket (m_Name cd) -> (0 <= m_Index cd < 2 ^ 31)%Z ->
  exists dn, getDisplayName c h = (Ok dn, h) /\ getPropertyByName p dn h = (Ok (Some c), h).
Proof.
  intros Hwf Hd Hp Ha Hc Hpar Hpl Hb Hi.
  destruct (wf_up h Hwf c cd p Hc Hpar) as (pd' & Hp' & Hin). rewrite Hp in Hp'. injection Hp' as <-.
  pose proof (children_present h p pd Hwf Hp) as Hpres.
  pose proof (lookup_child_unique h p pd c cd Hwf Hp Hin Hc ltac:(lia)) as Hl.
  set (k := Z.of_nat (length (named h (m_Name cd) (children pd)))).
  assert (count p (m_Name cd) h = (Ok k, h)) as Hk.
  { unfold count. rewrite (se_bind_ok _ _ _ _ _ (target_self _ _ _ Hp Ha)), (se_bind_ok _ _ _ _ _ (deref_run _ _ _ Hp)).
    unfold k, children in *. destruct (m_ChildNodes pd); [by apply count_name_run|done]. }
  assert (forall dn i, getAndRemoveIndexFromPropertyName dn = (i, m_Name cd) -> i = m_Index cd ->
    getPropertyByName p dn h = (Ok (Some c), h)) as Hget.
  { intros dn i E ->. pose proof (getPropertyByName_run h p pd dn Hwf Hp Ha) as H. rewrite E in H. rewrite H.
    unfold children in *. destruct (m_ChildNodes pd) as [l|]; [|by apply elem_of_nil in Hin].
    cbn [default from_option id] in Hl. by rewrite Hl. }
  assert (getDisplayName c h = (Ok (if (k >? 1)%Z
     then m_Name cd +:+ "[" +:+ intToString (m_Index cd) false +:+ "]" else m_Name cd), h)) as Hdn.
  { unfold getDisplayName. rewrite (se_bind_ok _ _ _ _ _ (deref_run _ _ _ Hc)), Hpar.
    by rewrite (se_bind_ok _ _ _ _ _ Hk). }
  eexists. split; [exact Hdn|]. destruct (Z.gtb_spec k 1) as [Hk1|Hk1].
  - by eapply Hget; [apply indexed_name|].
  - eapply Hget; [by apply plain_index|].
    destruct (Hd p pd c Hp Hin) as (d & Hdin & Hdname & Hdi).
    assert (name_of h c = m_Name cd) as Ecn by (unfold name_of; by rewrite Hc).
    assert (d = c) as -> by (apply (named_singleton h (m_Name cd) (children pd)); [lia|done..|congruence]).
    unfold index_of in Hdi. by rewrite Hc in Hdi.
Qed.
End Facts.

(** * Concrete heaps

    A listener that records its calls, the tree with only the root and the
    tree with one property [/a]. *)
Definition trace := list (notification * lid * nid * nid).
Definition recorder (k : notification) (l : lid) (a b : nid) (h : heap trace) : heap trace :=
  set_ext (fun t => t ++ [(k, l, a, b)]) h.

Lemma recorder_passive : passive recorder.
Proof. by intros k l a b h. Qed.

Section Concrete.
Context {Ext : Type} (e : Ext).

Lemma empty_heap_inv n nd : nodes (empty_heap e) !! n = Some nd -> n = 0 /\ nd = new_node "/" 0.
Proof. cbn. rewrite lookup_singleton_Some. naive_solver. Qed.

Lemma wf_empty_heap : wf (empty_heap e).
Proof.
  split.
  - intros n [nd Hn]. apply empty_heap_inv in Hn as [-> _]. cbn. lia.
  - intros p pd c Hp Hc. apply empty_heap_inv in Hp as [_ ->]. by apply elem_of_nil in Hc.
  - intros c cd p Hc Hp. apply empty_heap_inv in Hc as [_ ->]. done.
  - intros p pd Hp. apply empty_heap_inv in Hp as [_ ->]. by apply NoDup_nil.
  - exists (fun _ => 0). intros n nd p Hn Hp. apply empty_heap_inv in Hn as [_ ->]. done.
  - exists (fun _ => 0). intros n nd p Hn Hp. apply empty_heap_inv in Hn as [_ ->]. done.
  - intros p pd c d cd dd Hp Hc. apply empty_heap_inv in Hp as [_ ->]. by apply elem_of_nil in Hc.
Qed.

Lemma dense_empty_heap : dense (empty_heap e).
Proof. intros p pd c Hp Hc. apply empty_heap_inv in Hp as [_ ->]. by apply elem_of_nil in Hc. Qed.

Definition two_nodes : heap Ext :=
  mkHeap (<[1 := new_node "a" 0]> (nodes (empty_heap e))) 2 ∅ e.
Definition heap_a : heap Ext :=
  with_child two_nodes 0 (new_node "/" 0) 1 (new_node "a" 0) (next_index two_nodes (new_node "/" 0) (new_node "a" 0)).

Lemma two_nodes_attachable : attachable two_nodes 0 (new_node "/" 0) 1 (new_node "a" 0).
Proof. split; [apply (wf_make_node (empty_heap e)), wf_empty_heap|done..]. Qed.

Lemma wf_heap_a : wf heap_a.
Proof. apply with_child_wf, two_nodes_attachable. Qed.

Lemma dense_heap_a : dense heap_a.
Proof.
  apply with_child_dense; [apply two_nodes_attachable|].
  apply (make_node_dense (empty_heap e)); [apply wf_empty_heap|apply dense_empty_heap].
Qed.
End Concrete.


Lemma linked_property_witness :
  exists h1, linkToProxy int_ops 1 (PropertyProxyPointer (fun t : trace => Z.of_nat (length t))) (heap_a []) = (Ok true, h1).
Proof.
  destruct (linked_property recorder int_ops (heap_a []) 1
    (set_Index 0 (set_ParentNode (Some 0) (new_node "a" 0))) (PropertyProxyPointer (fun t => Z.of_nat (length t))))
    as (h1 & H1 & _).
  - apply wf_heap_a.
  - apply recorder_passive.
  - reflexivity.
  - reflexivity.
  - reflexivity.
  - exists h1. exact H1.
Defined.

(** The first listener takes the second one off the root. *)
Definition leave_root (h : heap trace) : heap trace :=
  set_nodes (alter (fun nd => set_Listeners (Some (erase_first 2 (default [] (m_Listeners nd)))) nd) 0) h.
Definition evicting (k : notification) (l : lid) (a b : nid) (h : heap trace) : heap trace :=
  recorder k l a b (if Nat.eqb l 1 then leave_root h else h).
Lemma erase_first_sublist x l : sublist (erase_first x l) l.
Proof. induction l as [|y l IH]; cbn; [done|]. destruct (Nat.eqb x y); [by apply sublist_cons|by apply sublist_skip]. Qed.
Lemma evicting_withdrawing : withdrawing evicting.
Proof.
  intros k l a b h n. change (nodes (evicting k l a b h)) with (nodes (if Nat.eqb l 1 then leave_root h else h)).
  destruct (Nat.eqb l 1); [change (nodes (leave_root h)) with (alter (fun nd => set_Listeners (Some (erase_first 2 (default [] (m_Listeners nd)))) nd) 0 (nodes h))|].
  - destruct (decide (n = 0)) as [->|Hne]; [rewrite lookup_alter_eq|rewrite lookup_alter_ne by done]; destruct (nodes h !! _) as [nd|]; try done.
    + split; [done|apply erase_first_sublist].
    + split; [by destruct nd|done].
  - destruct (nodes h !! n) as [nd|]; [|done]. split; [by destruct nd|done].
Qed.
Definition three_listeners : heap trace :=
  mkHeap {[ 0 := set_Listeners (Some [1; 2; 3]) (new_node "/" 0) ]} 1 ∅ [].

Lemma three_listeners_inv n nd : nodes three_listeners !! n = Some nd -> n = 0 /\ nd = set_Listeners (Some [1; 2; 3]) (new_node "/" 0).
Proof. unfold three_listeners. cbn [nodes]. rewrite lookup_singleton_Some. naive_solver. Qed.
Lemma wf_three_listeners : wf three_listeners.
Proof.
  split.
  - intros n [nd [-> _]%three_listeners_inv]. cbn. lia.
  - intros p pd c [_ ->]%three_listeners_inv Hc. by apply elem_of_nil in Hc.
  - by intros c cd p [_ ->]%three_listeners_inv Hp.
  - intros p pd [_ ->]%three_listeners_inv. by apply NoDup_nil.
  - exists (fun _ => 0). by intros n nd p [_ ->]%three_listeners_inv Hp.
  - exists (fun _ => 0). by intros n nd p [_ ->]%three_listeners_inv Hp.
  - intros p pd c d cd dd [_ ->]%three_listeners_inv Hc. by apply elem_of_nil in Hc.
Qed.

Lemma notifyListeners_reaches_all_witness :
  notifyListeners recorder PropertyChanged 1 1 (heap_a []) =
    (Ok tt, notified recorder PropertyChanged 1 [1; 0] (heap_a [])) /\
  ext (snd (notifyListeners evicting PropertyChanged 0 0 three_listeners)) = [(PropertyChanged, 1, 0, 0); (PropertyChanged, 3, 0, 0)].
Proof.
  split.
  - refine (proj1 (notifyListeners_reaches_all recorder PropertyChanged 1 1 (heap_a []) _ _) _).
    + apply wf_heap_a.
    + eexists; reflexivity.
    + apply recorder_passive.
  - rewrite (proj1 (proj2 (notifyListeners_reaches_all evicting PropertyChanged 0 0 three_listeners wf_three_listeners (ex_intro _ _ eq_refl)))).
    + reflexivity.
    + apply evicting_withdrawing.
    + intros a. unfold listeners_of. destruct (nodes three_listeners !! a) as [nd|] eqn:E; [|constructor].
      apply three_listeners_inv in E as [_ ->]. cbn. apply (bool_decide_unpack _). by vm_compute.
Defined.

Lemma createProperty_getProperty_witness :
  exists c h', createProperty recorder 0 "a/b" (heap_a []) = (Ok c, h') /\ getProperty 0 "a/b" h' = (Ok (Some c), h').
Proof.
  destruct (createProperty_getProperty recorder (heap_a []) 0 ["a"; "b"]) as (c & h' & H1 & Hwf & _ & _ & H2 & _).
  - apply wf_heap_a.
  - apply recorder_passive.
  - apply dense_heap_a.
  - eexists; reflexivity.
  - discriminate.
  - reflexivity.
  - exists c, h'. split; [exact H1|]. apply H2; [exact Hwf|apply extends_refl].
Defined.

Lemma removeChild_spec_witness :
  exists h', removeChild recorder 0 1 (heap_a []) = (Ok (Some 1), h').
Proof.
  destruct (removeChild_spec recorder (heap_a []) 0 (set_ChildNodes (Some [1]) (new_node "/" 0)) 1)
    as (cd & h1 & h' & _ & _ & H & _).
  - apply wf_heap_a.
  - apply recorder_passive.
  - reflexivity.
  - reflexivity.
  - left.
  - exists h'. exact H.
Defined.

Lemma display_name_lookup_witness :
  exists dn, getDisplayName 1 (heap_a (@nil nat)) = (Ok dn, heap_a []) /\
             getPropertyByName 0 dn (heap_a (@nil nat)) = (Ok (Some 1), heap_a []).
Proof.
  apply (display_name_lookup (heap_a (@nil nat)) 0 (set_ChildNodes (Some [1]) (new_node "/" 0)) 1
    (set_Index 0 (set_ParentNode (Some 0) (new_node "a" 0)))); try reflexivity.
  - apply wf_heap_a.
  - apply dense_heap_a.
  - split; [discriminate|reflexivity].
Defined.

(** * Where the numbering breaks

    After the child with index 0 is removed while a sibling of the same name
    remains, creating the name adds yet another node, which looking the name
    up does not find. *)
Definition run {Ext A} (m : SE (heap Ext) A) (h : heap Ext) : heap Ext := snd (m h).
Definition ignore (k : notification) (l : lid) (a b : nid) (h : heap unit) : heap unit := h.

Lemma create_after_remove :
  let h := run (createProperty ignore 0 "x+") (run (createProperty ignore 0 "x") (empty_heap tt)) in
  let h := run (removeChild ignore 0 1) h in
  fst (createProperty ignore 0 "x" h) = Ok 3 /\
  fst (getProperty 0 "x" (run (createProperty ignore 0 "x") h)) = Ok None /\
  fst (createProperty ignore 0 "x" (run (createProperty ignore 0 "x") h)) = Ok 4.
Proof. by_compute. Qed.

(** An index in the path of a new property is not kept: [addChild] numbers the
    node, so the path given to [createProperty] does not lead to it. *)
Lemma create_with_index :
  fst (createProperty ignore 0 "x[5]" (empty_heap tt)) = Ok 1 /\
  fst (getProperty 0 "x[5]" (run (createProperty ignore 0 "x[5]") (empty_heap tt))) = Ok None /\
  fst (getProperty 0 "x[0]" (run (createProperty ignore 0 "x[5]") (empty_heap tt))) = Ok (Some 1).
Proof. by_compute. Qed.

(** Removing a node from a node that is not its parent orphans it: it stays in
    the list of its parent. *)
Lemma remove_from_stranger :
  let h := run (createProperty ignore 0 "b/d") (run (createProperty ignore 0 "a") (empty_heap tt)) in
  let h := run (removeChild ignore 2 1) h in
  fst (getProperty 0 "a" h) = Ok (Some 1) /\ m_ParentNode <$> nodes h !! 1 = Some None.
Proof. by_compute. Qed.
