(* ===== verification/PropertyReader.v ===== *)
(** What the components that only read the property tree rely on: an
    interface, and its implementation by the heap of [PropertyTree.v]. *)
From stdpp Require Import base option list strings gmap.
From Stdlib Require Import ZArith Lia Ascii PrimFloat.
From Stdlib Require String.
From S2P Require Import Prelude CxxString Base NumConv Encoding PropertyTree.

Open Scope string_scope.
Open Scope list_scope.
Open Scope Z_scope.

(** * The interface

    Nodes and the reading operations, on a tree that does not change while
    the client runs. *)
Class PropertyReader (Node : Type) := {
  read_path : string -> res (option Node);        (* PropertySystem::getProperty *)
  read_child : Node -> string -> res (option Node);  (* getPropertyByName *)
  read_children : Node -> res (list Node);        (* getChildCount, getChild *)
  read_name : Node -> res string;                 (* getName *)
  read_as_string : Node -> res string;            (* getAsString *)
  read_string : Node -> res string;               (* getStringValue *)
  read_bool : Node -> res bool;                   (* getBoolValue *)
  read_int : Node -> res Z                        (* getIntegerValue *)
}.

(** * Reading operations leave the heap alone *)

Section Readonly.
Context {Ext : Type}.

Definition readonly {A} (m : SE (heap Ext) A) : Prop := forall h, snd (m h) = h.

Lemma readonly_ret {A} (a : A) : readonly (mret a).
Proof. by intros h. Qed.

Lemma readonly_bind {A B} (m : SE (heap Ext) A) (f : A -> SE (heap Ext) B) :
  readonly m -> (forall a, readonly (f a)) -> readonly (m ≫= f).
Proof.
  intros Hm Hf h. rewrite se_bind_run. specialize (Hm h). destruct (m h) as [[a|e] h']; [|done].
  cbn in Hm. subst. apply Hf.
Qed.

Lemma readonly_gets {A} (f : heap Ext -> A) : readonly (se_gets f).
Proof. by intros h. Qed.

Lemma readonly_throw {A} e : readonly (A := A) (se_throw e).
Proof. by intros h. Qed.

Lemma readonly_lift {A} (r : res A) : readonly (se_lift r).
Proof. by intros h. Qed.

Lemma readonly_deref n : readonly (deref n).
Proof. intros h. unfold deref. by destruct (nodes h !! n). Qed.
End Readonly.

Create HintDb readonly.
#[export] Hint Resolve @readonly_ret @readonly_gets @readonly_throw @readonly_lift @readonly_deref : readonly.

(** Go through the binds and the case distinctions of a reading operation. *)
Ltac solve_readonly :=
  repeat first
    [ solve [eauto with readonly]
    | apply readonly_bind; [|intros ?]
    | match goal with
      | |- readonly (if ?b then _ else _) => destruct b
      | |- readonly (match ?x with _ => _ end) => destruct x
      end ].

Section Operations.
Context {Ext : Type}.

Lemma readonly_follow fuel n : readonly (Ext := Ext) (follow fuel n).
Proof. revert n. induction fuel as [|fuel IH]; intros n; cbn [follow]; unfold endless; solve_readonly. Qed.

Lemma readonly_target n : readonly (Ext := Ext) (target n).
Proof. apply readonly_bind; [apply readonly_gets|]. intros fuel. apply readonly_follow. Qed.
#[local] Hint Resolve readonly_target : readonly.

Lemma readonly_find_child cs name i last : readonly (Ext := Ext) (find_child cs name i last).
Proof. revert last. induction cs as [|c cs IH]; intros last; cbn [find_child]; solve_readonly. Qed.
#[local] Hint Resolve readonly_find_child : readonly.

Lemma readonly_getPropertyByName n name : readonly (Ext := Ext) (getPropertyByName n name).
Proof. unfold getPropertyByName. solve_readonly. Qed.
#[local] Hint Resolve readonly_getPropertyByName : readonly.

Lemma readonly_getProperty n path : readonly (Ext := Ext) (getProperty n path).
Proof.
  unfold getProperty. generalize (S (slen path)) as fuel. intros fuel. revert n path.
  induction fuel as [|fuel IH]; intros n path; cbn [getProperty_rec]; unfold endless; solve_readonly.
Qed.
#[local] Hint Resolve readonly_getProperty : readonly.

Lemma readonly_sys_getProperty path : readonly (Ext := Ext) (sys_getProperty path).
Proof.
  unfold sys_getProperty. destruct path as [|[[] [] [] [] [] [] [] []] [|c p]]; solve_readonly.
Qed.

Lemma readonly_getChildNodes n : readonly (Ext := Ext) (getChildNodes n).
Proof. unfold getChildNodes. solve_readonly. Qed.

Lemma readonly_getTypedValue {T} (ops : ValueOps (Ext := Ext) T) n : readonly (getTypedValue ops n).
Proof. unfold getTypedValue. solve_readonly. Qed.
#[local] Hint Resolve readonly_getTypedValue : readonly.

Lemma readonly_getValueType n : readonly (Ext := Ext) (getValueType n).
Proof. unfold getValueType. solve_readonly. Qed.
#[local] Hint Resolve readonly_getValueType : readonly.

Lemma readonly_getAsString f n : readonly (Ext := Ext) (getAsString f n).
Proof.
  unfold getAsString, getStringValue, getIntegerValue, getFloatingValue, getUnsignedIntegerValue, getBoolValue.
  solve_readonly.
Qed.
End Operations.

(** * The implementation *)

(** The operations of the interface on a heap. *)
Definition heap_reader {Ext} (doubleToString : float -> string) (h : heap Ext) : PropertyReader nid := {|
  read_path p := fst (sys_getProperty p h);
  read_child n name := fst (getPropertyByName n name h);
  read_children n := fst (getChildNodes n h);
  read_name n := nd ← fst (deref n h); Ok (m_Name nd);
  read_as_string n := fst (getAsString doubleToString n h);
  read_string n := fst (getStringValue n h);
  read_bool n := fst (getBoolValue n h);
  read_int n := fst (getIntegerValue n h)
|}.

(** The interface's promise: running any of the operations on the heap gives
    the interface's result and the same heap. *)
Lemma heap_reader_correct {Ext} dts (h : heap Ext) :
  let R := heap_reader dts h in
  (forall p, sys_getProperty p h = (read_path (PropertyReader := R) p, h)) /\
  (forall n s, getPropertyByName n s h = (read_child (PropertyReader := R) n s, h)) /\
  (forall n, getChildNodes n h = (read_children (PropertyReader := R) n, h)) /\
  (forall n, getAsString dts n h = (read_as_string (PropertyReader := R) n, h)) /\
  (forall n, getStringValue n h = (read_string (PropertyReader := R) n, h)) /\
  (forall n, getBoolValue n h = (read_bool (PropertyReader := R) n, h)) /\
  (forall n, getIntegerValue n h = (read_int (PropertyReader := R) n, h)).
Proof.
  assert (forall A (m : SE (heap Ext) A), readonly m -> m h = (fst (m h), h)) as Hr.
  { intros A m Hm. specialize (Hm h). destruct (m h) as [r h']. cbn in *. by subst. }
  cbn zeta. split_and!; intros; apply Hr.
  - apply readonly_sys_getProperty.
  - apply readonly_getPropertyByName.
  - apply readonly_getChildNodes.
  - apply readonly_getAsString.
  - apply readonly_getTypedValue.
  - apply readonly_getTypedValue.
  - apply readonly_getTypedValue.
Qed.
