(* ===== verification/PropertyShape.v ===== *)
(** What finding nodes in the property tree depends on: names, indices and
    links, but no values.  Programs that change values keep finding the same
    nodes, and other nodes keep their values. *)
From stdpp Require Import base option list strings gmap fin_maps.
From Stdlib Require Import ZArith Lia Ascii PrimFloat.
From Stdlib Require String.
From S2P Require Import Prelude CxxString Base NumConv Encoding PropertyTree PropertyTreeFacts PropertyReader.

Open Scope string_scope.
Open Scope list_scope.
Open Scope nat_scope.

Section Shape.
Context {Ext : Type}.
Implicit Types (h : heap Ext).

(** A computation that changes nothing and gives the same result on trees of
    the same shape. *)
Definition by_shape {A} (m : SE (heap Ext) A) : Prop :=
  forall h h', same_shape h h' -> exists r, m h = (r, h) /\ m h' = (r, h').

Lemma by_shape_ret {A} (a : A) : by_shape (mret a).
Proof. intros h h' _. by exists (Ok a). Qed.

Lemma by_shape_throw {A} e : by_shape (A := A) (se_throw e).
Proof. intros h h' _. by exists (Throw e). Qed.

Lemma by_shape_bind {A B} (m : SE (heap Ext) A) (f : A -> SE (heap Ext) B) :
  by_shape m -> (forall a, by_shape (f a)) -> by_shape (m ≫= f).
Proof.
  intros Hm Hf h h' Hs. destruct (Hm h h' Hs) as (r & E & E'). rewrite !se_bind_run, E, E'.
  destruct r as [a|e]; [by apply Hf|by exists (Throw e)].
Qed.

Lemma by_shape_node_bound : by_shape node_bound.
Proof.
  intros h h' Hs. exists (Ok (S (size (nodes h)))). unfold node_bound, se_gets.
  by rewrite <- !size_dom, (same_shape_dom _ _ Hs).
Qed.

(** Using a node's shape only. *)
Lemma by_shape_deref {B} n (f : node Ext -> SE (heap Ext) B) :
  (forall nd nd', shape nd = shape nd' -> f nd = f nd') -> (forall nd, by_shape (f nd)) -> by_shape (deref n ≫= f).
Proof.
  intros He Hf h h' Hs. rewrite !se_bind_run. unfold deref.
  pose proof (proj2 Hs n) as E. destruct (nodes h !! n) as [nd|], (nodes h' !! n) as [nd'|]; try done.
  - injection E as E1 E2 E3 E4 E5. rewrite (He nd' nd) by (unfold shape; congruence). by apply Hf.
  - by eexists.
Qed.

Lemma by_shape_follow fuel n : by_shape (follow fuel n).
Proof.
  revert n. induction fuel as [|fuel IH]; intros n; cbn [follow]; [apply by_shape_throw|].
  apply by_shape_deref.
  - intros nd nd' [= _ _ _ _ ->]. done.
  - intros nd. destruct (m_AliasTarget nd); [apply IH|apply by_shape_ret].
Qed.

Lemma by_shape_target n : by_shape (target n).
Proof. apply by_shape_bind; [apply by_shape_node_bound|]. intros fuel. apply by_shape_follow. Qed.

Lemma by_shape_find_child cs name i last : by_shape (find_child cs name i last).
Proof.
  revert last. induction cs as [|c cs IH]; intros last; cbn [find_child]; [apply by_shape_ret|].
  apply by_shape_deref.
  - intros nd nd' [= -> -> _ _ _]. done.
  - intros nd. repeat case_match; apply IH || apply by_shape_ret.
Qed.

Lemma by_shape_getPropertyByName n name : by_shape (getPropertyByName n name).
Proof.
  apply by_shape_bind; [apply by_shape_target|]. intros t.
  intros h h' Hs. rewrite !se_bind_run. unfold deref. pose proof (proj2 Hs t) as E.
  destruct (nodes h !! t) as [nd|], (nodes h' !! t) as [nd'|]; try done; [|by eexists].
  injection E as _ _ E _ _. unfold children in E. destruct (getAndRemoveIndexFromPropertyName name) as [i p].
  destruct (m_ChildNodes nd) as [cs|], (m_ChildNodes nd') as [cs'|]; cbn in E; subst.
  - by apply by_shape_find_child.
  - exists (Ok None). split; [|done]. cbn. by destruct (i =? -1)%Z.
  - exists (Ok None). split; [done|]. cbn. by destruct (i =? -1)%Z.
  - by eexists.
Qed.

Lemma by_shape_getProperty n path : by_shape (getProperty n path).
Proof.
  unfold getProperty. generalize (S (slen path)) as fuel. intros fuel. revert n path.
  induction fuel as [|fuel IH]; intros n path; cbn [getProperty_rec]; [apply by_shape_throw|].
  apply by_shape_bind; [apply by_shape_target|]. intros t. case_match; [apply by_shape_ret|].
  destruct (carCdrPath path) as [hd tl]. apply by_shape_bind; [apply by_shape_getPropertyByName|].
  intros [c|]; [|apply by_shape_ret]. case_match; [apply by_shape_ret|apply IH].
Qed.

Lemma by_shape_run {A} (m : SE (heap Ext) A) h h' r : by_shape m -> same_shape h h' -> m h = (r, h) -> m h' = (r, h').
Proof. intros Hm Hs E. destruct (Hm h h' Hs) as (r' & E1 & E2). congruence. Qed.

(** ** Plain values *)

(** A node that holds a value itself. *)
Definition holds {T} (ops : ValueOps (Ext := Ext) T) h (n : nid) (v : T) : Prop :=
  exists nd, nodes h !! n = Some nd /\ m_AliasTarget nd = None /\ m_Proxy nd = None /\
    valueType nd = vo_type ops /\ value nd = vo_inject ops v.

Lemma holds_read {T} (ops : ValueOps (Ext := Ext) T) h n v : wf h -> holds ops h n v -> getTypedValue ops n h = (Ok v, h).
Proof.
  intros Hwf (nd & Hn & Ha & Hp & Ht & Hv). unfold getTypedValue.
  rewrite (se_bind_ok _ _ _ _ _ (target_self h n nd Hn Ha)), (se_bind_ok _ _ _ _ _ (deref_run _ _ _ Hn)), Ht, Hp, Hv.
  rewrite bool_decide_eq_true_2 by done. unfold se_lift. by rewrite vo_read_inject.
Qed.

Lemma holds_type {T U} (ops : ValueOps (Ext := Ext) T) (ops' : ValueOps (Ext := Ext) U) h n m v w :
  holds ops h n v -> holds ops' h m w -> vo_type ops <> vo_type ops' -> n <> m.
Proof. intros (nd & Hn & _ & _ & Ht & _) (md & Hm & _ & _ & Ht' & _) Hne ->. congruence. Qed.

Lemma holds_nodes {T} (ops : ValueOps (Ext := Ext) T) h h' n v :
  nodes h' !! n = nodes h !! n -> holds ops h n v -> holds ops h' n v.
Proof. intros E (nd & Hn & H). exists nd. split; [congruence|done]. Qed.

Lemma getValueType_run h n nd : nodes h !! n = Some nd -> m_AliasTarget nd = None ->
  getValueType n h = (Ok (valueType nd), h).
Proof. intros Hn Ha. unfold getValueType. by rewrite (se_bind_ok _ _ _ _ _ (deref_run _ _ _ Hn)), Ha. Qed.

Lemma holds_string_text f h n s : wf h -> holds string_ops h n s -> getAsString f n h = (Ok s, h).
Proof.
  intros Hwf H. pose proof (holds_read string_ops h n s Hwf H) as E. destruct H as (nd & Hn & Ha & Hp & Ht & Hv).
  unfold getAsString. rewrite (se_bind_ok _ _ _ _ _ (target_self h n nd Hn Ha)).
  by rewrite (se_bind_ok _ _ _ _ _ (getValueType_run h n nd Hn Ha)), Ht.
Qed.

(** What no listener touches, a notification leaves as it was. *)
Lemma notified_keeps {K} (callback : notification -> lid -> nid -> nid -> heap Ext -> heap Ext) (obs : Ext -> K) kind x path h :
  (forall k l a b h, obs (ext (callback k l a b h)) = obs (ext h)) ->
  obs (ext (notified callback kind x path h)) = obs (ext h).
Proof.
  intros Hc. unfold notified. generalize (listeners_of h) as ls. intros ls. revert h.
  induction path as [|a path IH]; intros h; [done|]. cbn [foldl]. rewrite IH.
  generalize (ls a) as l. intros l. revert h. clear IH. induction l as [|l0 l IH]; intros h; [done|].
  cbn [foldl]. by rewrite IH.
Qed.

(** Writing a value: the node holds it, the other nodes are as they were. *)
Lemma holds_write {K} callback (obs : Ext -> K) h n v w :
  wf h -> passive callback -> (forall k l a b h, obs (ext (callback k l a b h)) = obs (ext h)) ->
  holds string_ops h n v ->
  exists h', setTypedValue callback string_ops n w h = (Ok tt, h') /\ same_shape h h' /\ wf h' /\ holds string_ops h' n w /\
    (forall m, m <> n -> nodes h' !! m = nodes h !! m) /\ obs (ext h') = obs (ext h).
Proof.
  intros Hwf Hp Ho (nd & Hn & Ha & Hpr & Ht & Hv).
  assert (freeable nd) as Hf by (intros _; rewrite Hv; right; by exists v).
  destruct (setTypedValue_run callback string_ops h n n nd w Hwf Hp (target_self h n nd Hn Ha) Hn Hpr Hf) as [Hrun Hs].
  set (h1 := set_nodes _ h) in *. eexists. split; [exact Hrun|].
  destruct (notified_nodes callback PropertyChanged n (ancestors h1 n) h1 Hp) as (En & Enx & _).
  assert (same_shape h (notified callback PropertyChanged n (ancestors h1 n) h1)) as Hs'
    by (eapply same_shape_trans; [exact Hs|by apply same_shape_refl]).
  split_and!; [done|by eapply same_shape_wf| | |by rewrite notified_keeps].
  - exists (set_PropVal vTypeString (AString w) nd). rewrite En. cbn. by rewrite lookup_insert_eq.
  - intros m Hm. rewrite En. cbn. by rewrite lookup_insert_ne.
Qed.
End Shape.

(** ** Concrete trees

    A check that a tree is well-formed, for trees without aliases in which
    parents are older than their children. *)
Section Check.
Context {Ext : Type}.
Implicit Types (h : heap Ext) (nd : node Ext).

Definition name_index h (c : nid) : option (string * Z) := (fun cd => (m_Name cd, m_Index cd)) <$> nodes h !! c.

Definition node_ok h (n : nid) nd : bool :=
  bool_decide (n < next h) &&
  forallb (fun c => match nodes h !! c with Some cd => bool_decide (m_ParentNode cd = Some n) | None => false end) (children nd) &&
  match m_ParentNode nd with
  | Some p => bool_decide (p < n) && match nodes h !! p with Some pd => bool_decide (n ∈ children pd) | None => false end
  | None => true
  end &&
  bool_decide (m_AliasTarget nd = None) &&
  bool_decide (NoDup (children nd)) && bool_decide (NoDup (map (name_index h) (children nd))).

Definition wf_check h : bool := forallb (fun p => node_ok h (fst p) (snd p)) (map_to_list (nodes h)).

Lemma NoDup_map_inj {A B} (f : A -> B) l a b : NoDup (map f l) -> a ∈ l -> b ∈ l -> f a = f b -> a = b.
Proof.
  induction l as [|x l IH]; intros Hd Ha Hb E; [by apply not_elem_of_nil in Ha|].
  cbn in Hd. apply NoDup_cons in Hd as [Hx Hd].
  assert (forall y, y ∈ l -> f y = f x -> False) as Hno.
  { intros y Hy Ey. apply Hx. rewrite <- Ey. by apply list_elem_of_fmap_2. }
  apply elem_of_cons in Ha as [->|Ha]; apply elem_of_cons in Hb as [->|Hb]; [done| | |by apply IH].
  - by destruct (Hno b Hb).
  - by destruct (Hno a Ha).
Qed.

Lemma wf_check_sound h : wf_check h = true -> wf h.
Proof.
  intros Hc. unfold wf_check in Hc. rewrite forallb_forall in Hc.
  assert (forall n nd, nodes h !! n = Some nd -> node_ok h n nd = true) as Hn.
  { intros n nd H. apply (Hc (n, nd)). by apply list_elem_of_In, elem_of_map_to_list. }
  clear Hc. split.
  - intros n [nd H]. apply Hn in H. unfold node_ok in H. by destruct (bool_decide_reflect (n < next h)).
  - intros p pd c H Hin. apply Hn in H. unfold node_ok in H. rewrite !andb_true_iff in H.
    destruct H as (((((_ & H) & _) & _) & _) & _). rewrite forallb_forall in H.
    specialize (H c (proj1 (list_elem_of_In _ _) Hin)). destruct (nodes h !! c) as [cd|]; [|done].
    exists cd. by apply bool_decide_eq_true in H.
  - intros c cd p H Hp. apply Hn in H. unfold node_ok in H. rewrite Hp, !andb_true_iff in H.
    destruct H as ((((_ & _ & H) & _) & _) & _). destruct (nodes h !! p) as [pd|]; [|done].
    exists pd. by apply bool_decide_eq_true in H.
  - intros p pd H. apply Hn in H. unfold node_ok in H. rewrite !andb_true_iff in H.
    destruct H as ((_ & H) & _). by apply bool_decide_eq_true in H.
  - exists (fun n => n). intros n nd p H Hp. apply Hn in H. unfold node_ok in H. rewrite Hp, !andb_true_iff in H.
    destruct H as ((((_ & H & H') & _) & _) & _). apply bool_decide_eq_true in H.
    by destruct (nodes h !! p).
  - exists (fun n => n). intros n nd t H Ht. apply Hn in H. unfold node_ok in H. rewrite !andb_true_iff in H.
    destruct H as (((_ & H) & _) & _). apply bool_decide_eq_true in H. congruence.
  - intros p pd c d cd dd H Hc Hd Ec Ed En Ei. apply Hn in H. unfold node_ok in H. rewrite !andb_true_iff in H.
    destruct H as (_ & H). apply bool_decide_eq_true in H. eapply NoDup_map_inj; [done..|].
    unfold name_index. rewrite Ec, Ed. cbn. by rewrite En, Ei.
Qed.
End Check.
