(* ===== verification/PropertyTypes.v ===== *)
(** Types of the values in the property tree ([PropertyTree.v]): a node keeps its
    value in a union with a tag, or in a proxy, and the tag says which member of
    the union, or which proxy, may be used. *)
From stdpp Require Import base option list strings gmap.
From Stdlib Require Import ZArith Lia Ascii PrimFloat.
From Stdlib Require String.
From S2P Require Import Prelude CxxString Base NumConv PropertyTree PropertyTreeFacts PropertyReader.

Open Scope string_scope.
Open Scope list_scope.

(** Whether strings are set from NULL pointers. *)
Class NullStrings := null_strings : bool.

Section Types.
Context {Ext : Type} {NS : NullStrings}.
Context (callback : notification -> lid -> nid -> nid -> heap Ext -> heap Ext).
Implicit Types (h : heap Ext) (nd : node Ext).

(** The tag fits the union. *)
Definition fits (ty : aValueType) (v : actualValue) : Prop :=
  match ty, v with
  | vTypeNone, _ => True
  | vTypeInteger, (AInteger _ | AZero) => True
  | vTypeUnsignedInteger, (AUnsigned _ | AZero) => True
  | vTypeBoolean, (ABoolean _ | AZero) => True
  | vTypeFloating, (AFloating _ | AZero) => True
  | vTypeString, AString _ => True
  | vTypeString, AZero => null_strings = true
  | _, _ => False
  end.

Definition proxy_type (p : proxy Ext) : aValueType :=
  match p with
  | BoolProxy _ => vTypeBoolean
  | IntProxy _ => vTypeInteger
  | UintProxy _ => vTypeUnsignedInteger
  | StringProxy _ => vTypeString
  | FloatingProxy _ => vTypeFloating
  end.

Definition typed_node nd : Prop :=
  match m_Proxy nd with
  | Some p => valueType nd = proxy_type p
  | None => fits (valueType nd) (value nd)
  end.

(** A node that a NULL pointer made a string without a string. *)
Definition missing_string nd : Prop := null_strings = true /\ valueType nd = vTypeString /\ m_Proxy nd = None /\ value nd = AZero.

Definition well_typed h : Prop := forall n nd, nodes h !! n = Some nd -> typed_node nd.

(** The five kinds of accessors. *)
Record lawful {T} (ops : ValueOps (Ext := Ext) T) : Prop := {
  lw_inject : forall v, fits (vo_type ops) (vo_inject ops v);
  lw_read : forall v, fits (vo_type ops) v -> (exists x, vo_read ops v = Ok x) \/ (null_strings = true /\ vo_type ops = vTypeString /\ v = AZero);
  lw_wrap : forall p, proxy_type (vo_wrap ops p) = vo_type ops;
  lw_unwrap : forall p, vo_type ops = proxy_type p -> is_Some (vo_unwrap ops p)
}.

Lemma string_lawful : lawful string_ops.
Proof. split; [done| |done|by intros []]. intros []; try done; [by right|left; by eexists]. Qed.
Lemma int_lawful : lawful int_ops.
Proof. split; [done| |done|by intros []]. intros []; try done; left; by eexists. Qed.
Lemma uint_lawful : lawful uint_ops.
Proof. split; [done| |done|by intros []]. intros []; try done; left; by eexists. Qed.
Lemma bool_lawful : lawful bool_ops.
Proof. split; [done| |done|by intros []]. intros []; try done; left; by eexists. Qed.
Lemma float_lawful : lawful float_ops.
Proof. split; [done| |done|by intros []]. intros []; try done; left; by eexists. Qed.

(** ** Reading *)

Lemma typed_read {T} (ops : ValueOps T) h n t td : lawful ops -> well_typed h ->
  target n h = (Ok t, h) -> nodes h !! t = Some td ->
  (valueType td = vo_type ops -> (exists v, getTypedValue ops n h = (Ok v, h)) \/ missing_string td) /\
  (valueType td <> vo_type ops -> getTypedValue ops n h = (Throw (mismatch td), h)).
Proof.
  intros Hl Hw Ht Htd. unfold getTypedValue. rewrite (se_bind_ok _ _ _ _ _ Ht), (se_bind_ok _ _ _ _ _ (deref_run _ _ _ Htd)).
  specialize (Hw t td Htd). unfold typed_node in Hw. split; intros Hty.
  - rewrite bool_decide_eq_true_2 by done. destruct (m_Proxy td) as [p|] eqn:Ep.
    + destruct (lw_unwrap _ Hl p) as [q ->]; [congruence|]. left. by eexists.
    + rewrite Hty in Hw. destruct (lw_read _ Hl _ Hw) as [[x ->]|(Hnull & Hs & Hv)]; [left; by exists x|]. right. split_and!; [done|congruence|done|done].
  - by rewrite bool_decide_eq_false_2.
Qed.

(** ** Preservation *)

Definition keeps {A} (m : SE (heap Ext) A) : Prop := forall h, well_typed h -> well_typed (snd (m h)).

Lemma keeps_ret {A} (a : A) : keeps (mret a).
Proof. by intros h. Qed.
Lemma keeps_throw {A} e : keeps (A := A) (se_throw e).
Proof. by intros h. Qed.
Lemma keeps_gets {A} (f : heap Ext -> A) : keeps (se_gets f).
Proof. by intros h. Qed.
Lemma keeps_deref n : keeps (deref n).
Proof. intros h. unfold deref. by destruct (nodes h !! n). Qed.
Lemma keeps_readonly {A} (m : SE (heap Ext) A) : readonly m -> keeps m.
Proof. intros Hm h. by rewrite Hm. Qed.
Lemma keeps_Properties f : keeps (se_modify (set_Properties f)).
Proof. by intros h. Qed.

Lemma keeps_bind {A B} (m : SE (heap Ext) A) (f : A -> SE (heap Ext) B) :
  keeps m -> (forall a, keeps (f a)) -> keeps (m ≫= f).
Proof.
  intros Hm Hf h Hh. rewrite se_bind_run. specialize (Hm h Hh). destruct (m h) as [[a|e] h']; [by apply Hf|done].
Qed.

Lemma well_typed_insert h n nd : well_typed h -> typed_node nd -> well_typed (set_nodes <[n := nd]> h).
Proof. intros Hw Hn m md Hm. cbn in Hm. apply lookup_insert_Some in Hm as [[_ <-]|[_ Hm]]; [done|by eapply Hw]. Qed.

Lemma keeps_update n f : (forall nd, typed_node nd -> typed_node (f nd)) -> keeps (update n f).
Proof.
  intros Hf h Hw. unfold update. rewrite se_bind_run. unfold deref. destruct (nodes h !! n) as [nd|] eqn:E; [|done].
  apply well_typed_insert; [done|]. apply Hf. by eapply Hw.
Qed.

Context (Hp : passive callback).

Lemma keeps_callback k l a b : keeps (se_modify (callback k l a b)).
Proof. intros h Hw n nd Hn. cbn in Hn. rewrite (proj1 (Hp k l a b h)) in Hn. by eapply Hw. Qed.

Lemma keeps_iter {A} (f : A -> SE (heap Ext) unit) l : (forall a, keeps (f a)) -> keeps (se_iter f l).
Proof. intros Hf. induction l as [|a l IH]; [apply keeps_ret|]. cbn [se_iter]. apply keeps_bind; [apply Hf|done]. Qed.
End Types.

Create HintDb keeps.
#[export] Hint Resolve @keeps_ret @keeps_throw @keeps_gets @keeps_deref @keeps_Properties @keeps_callback : keeps.

(** Go through the binds and the case distinctions of an operation. *)
Ltac solve_keeps :=
  repeat first
    [ solve [eauto with keeps]
    | match goal with |- keeps (update _ _) => apply keeps_update; intros ?; exact (fun H => H) end
    | apply keeps_bind; [|intros ?]
    | match goal with
      | |- keeps (if ?b then _ else _) => destruct b
      | |- keeps (match ?x with _ => _ end) => destruct x
      end ].

Section Operations.
Context {Ext : Type} {NS : NullStrings}.
Context (callback : notification -> lid -> nid -> nid -> heap Ext -> heap Ext) (Hp : passive callback).
Implicit Types (h : heap Ext) (nd : node Ext).

Lemma keeps_target n : keeps (Ext := Ext) (target n).
Proof. apply keeps_readonly, readonly_target. Qed.
#[local] Hint Resolve keeps_target : keeps.

Lemma keeps_call_listeners k n x ls : keeps (call_listeners callback k n x ls).
Proof. induction ls as [|l ls IH]; cbn [call_listeners]; solve_keeps. Qed.
#[local] Hint Resolve keeps_call_listeners : keeps.

Lemma keeps_notify k n x : keeps (notifyListeners callback k n x).
Proof.
  apply keeps_bind; [apply keeps_gets|]. intros fuel. revert n.
  induction fuel as [|fuel IH]; intros n; cbn [notify_up]; unfold endless; solve_keeps.
Qed.
#[local] Hint Resolve keeps_notify : keeps.

Lemma keeps_addListener n l : keeps (Ext := Ext) (addListener n l).
Proof. unfold addListener, registerProperty. solve_keeps. Qed.

Lemma keeps_removeListener n l : keeps (Ext := Ext) (removeListener n l).
Proof. unfold removeListener, unregisterProperty. solve_keeps. Qed.

Lemma keeps_removeChild n c : keeps (removeChild callback n c).
Proof. unfold removeChild, childRemoved. solve_keeps. Qed.
#[local] Hint Resolve keeps_removeChild : keeps.

Lemma keeps_max_index cs name m : keeps (Ext := Ext) (max_index cs name m).
Proof. revert m. induction cs as [|c cs IH]; intros m; cbn [max_index]; solve_keeps. Qed.
#[local] Hint Resolve keeps_max_index : keeps.

Lemma keeps_addChild n c : keeps (addChild callback n c).
Proof. unfold addChild, childAdded. solve_keeps. Qed.
#[local] Hint Resolve keeps_addChild : keeps.

Lemma keeps_make_node name i : keeps (Ext := Ext) (make_node name i).
Proof. intros h Hw n nd Hn. cbn in Hn. apply lookup_insert_Some in Hn as [[_ <-]|[_ Hn]]; [done|by eapply Hw]. Qed.
#[local] Hint Resolve keeps_make_node : keeps.

Lemma keeps_count n name : keeps (Ext := Ext) (count n name).
Proof.
  assert (forall cs, keeps (Ext := Ext) (count_name cs name)) as H
    by (induction cs; cbn [count_name]; solve_keeps).
  unfold count. solve_keeps.
Qed.
#[local] Hint Resolve keeps_count : keeps.

Lemma keeps_getPropertyByName n name : keeps (Ext := Ext) (getPropertyByName n name).
Proof. apply keeps_readonly, readonly_getPropertyByName. Qed.
#[local] Hint Resolve keeps_getPropertyByName : keeps.

Lemma keeps_createProperty n path : keeps (createProperty callback n path).
Proof.
  unfold createProperty. generalize (S (slen path)) as fuel. intros fuel. revert n path.
  induction fuel as [|fuel IH]; intros n path; cbn [createProperty_rec]; unfold createChild, endless; solve_keeps.
Qed.

Lemma keeps_setFlag n f v : keeps (setFlag callback n f v).
Proof. unfold setFlag, propertyChanged. solve_keeps. Qed.

(** Values, links and aliases change the tag and the union. *)
Lemma keeps_setTypedValue {T} (ops : ValueOps T) n v : lawful ops -> keeps (setTypedValue callback ops n v).
Proof.
  intros Hl. unfold setTypedValue. apply keeps_bind; [apply keeps_target|]. intros t h Hw.
  rewrite se_bind_run. unfold deref at 1. destruct (nodes h !! t) as [nd|] eqn:Hn; [|done].
  pose proof (Hw t nd Hn) as Ht. unfold typed_node in Ht. rewrite se_bind_run. destruct (m_Proxy nd) as [p|] eqn:Hpr.
  - case_bool_decide as Hty; [|done]. destruct (vo_unwrap ops p) as [q|]; [|done].
    cbn [se_modify]. revert h Hw Hn. intros h Hw Hn.
    assert (forall h', nodes h' = nodes h -> well_typed (snd ((update t (fun nd => set_PropVal (vo_type ops) (value nd) nd) ≫=
      fun _ => propertyChanged callback t) h'))) as H; [|by apply H].
    intros h' En. rewrite se_bind_run. rewrite (update_run h' t _ nd) by by rewrite En.
    apply keeps_notify. apply well_typed_insert.
    + intros m md Hm. rewrite En in Hm. by eapply Hw.
    + unfold typed_node. cbn. rewrite Hpr. congruence.
  - assert (freeable nd) as Hf.
    { intros Hty. rewrite Hty in Ht. destruct (value nd); try done; [by left|right; by eexists]. }
    rewrite se_bind_run, (clearValue_run h t nd Hn Hf). rewrite (update_run _ t _ (set_PropVal vTypeNone AZero nd)) by apply lookup_insert_eq.
    rewrite set_nodes_insert. cbn [valueType set_PropVal].
    rewrite se_bind_run. erewrite update_run by apply lookup_insert_eq. rewrite set_nodes_insert. cbn [value set_PropVal].
    apply keeps_notify. apply well_typed_insert; [done|]. unfold typed_node. cbn. rewrite Hpr. apply Hl.
Qed.

Lemma keeps_setStringValue_cstr n v : (v = None -> null_strings = true) -> keeps (setStringValue_cstr callback n v).
Proof.
  destruct v as [v|]; [intros _; apply (keeps_setTypedValue string_ops), string_lawful|]. intros Hnull. specialize (Hnull eq_refl).
  unfold setStringValue_cstr. apply keeps_bind; [apply keeps_target|]. intros t h Hw.
  rewrite se_bind_run. unfold deref at 1. destruct (nodes h !! t) as [nd|] eqn:Hn; [|done].
  pose proof (Hw t nd Hn) as Ht. unfold typed_node in Ht. rewrite se_bind_run. destruct (m_Proxy nd) as [p|] eqn:Hpr; [by case_bool_decide|].
  assert (freeable nd) as Hf.
  { intros Hty. rewrite Hty in Ht. destruct (value nd); try done; [by left|right; by eexists]. }
  rewrite (clearValue_run h t nd Hn Hf), se_bind_run. erewrite update_run by apply lookup_insert_eq. rewrite set_nodes_insert.
  apply keeps_notify. apply well_typed_insert; [done|]. unfold typed_node. cbn. by rewrite Hpr.
Qed.

Lemma keeps_linkToProxy {T} (ops : ValueOps T) n (p : PropertyProxy Ext T) : lawful ops -> keeps (linkToProxy ops n p).
Proof.
  intros Hl. unfold linkToProxy. apply keeps_bind; [apply keeps_deref|]. intros nd. case_match; [apply keeps_ret|].
  apply keeps_bind; [|intros ?; apply keeps_ret]. apply keeps_update. intros md _. unfold typed_node. cbn. by rewrite lw_wrap.
Qed.

Lemma keeps_alias n t : keeps (Ext := Ext) (alias n t).
Proof.
  unfold alias. intros h Hw. rewrite se_bind_run. unfold deref at 1. destruct (nodes h !! n) as [nd|] eqn:Hn; [|done].
  destruct (negb _); [done|]. destruct (bool_decide_reflect (is_Some (m_Proxy nd))) as [Hpr|Hpr]; [done|]. destruct t as [t|].
  - assert (m_Proxy nd = None) as Hpr' by (destruct (m_Proxy nd); [by destruct Hpr; eexists|done]).
    pose proof (Hw n nd Hn) as Ht. unfold typed_node in Ht. rewrite Hpr' in Ht.
    assert (freeable nd) as Hf.
    { intros Hty. rewrite Hty in Ht. destruct (value nd); try done; [by left|right; by eexists]. }
    rewrite se_bind_run, (clearValue_run h n nd Hn Hf).
    apply (keeps_bind (update n (set_AliasTarget (Some t)))); [by apply keeps_update|intros ?; by apply keeps_update|].
    apply well_typed_insert; [done|]. unfold typed_node. cbn. by rewrite Hpr'.
  - clear -Hw. revert h Hw.
    match goal with |- forall h, _ -> well_typed (snd (?m h)) => change (keeps m) end. solve_keeps.
Qed.
End Operations.

(** * The tree of a running program *)

Section Reachable.
Context {Ext : Type} {NS : NullStrings}.
Context (callback : notification -> lid -> nid -> nid -> heap Ext -> heap Ext).
Implicit Types (h : heap Ext).

(** The operations that change the tree, on any nodes and with any outcome; all
    but [unlinkProxy]. *)
Inductive tree_step : relation (heap Ext) :=
| ts_ext h e : tree_step h (set_ext (fun _ => e) h)
| ts_addListener h n l : tree_step h (snd (addListener n l h))
| ts_removeListener h n l : tree_step h (snd (removeListener n l h))
| ts_make h name i : tree_step h (snd (make_node name i h))
| ts_create h n path : tree_step h (snd (createProperty callback n path h))
| ts_addChild h n c : tree_step h (snd (addChild callback n c h))
| ts_removeChild h n c : tree_step h (snd (removeChild callback n c h))
| ts_set h n T (ops : ValueOps T) v : lawful ops -> tree_step h (snd (setTypedValue callback ops n v h))
| ts_cstr h n v : (v = None -> null_strings = true) -> tree_step h (snd (setStringValue_cstr callback n v h))
| ts_link h n T (ops : ValueOps T) p : lawful ops -> tree_step h (snd (linkToProxy ops n p h))
| ts_alias h n t : tree_step h (snd (alias n t h))
| ts_flag h n f v : tree_step h (snd (setFlag callback n f v h)).

Lemma tree_step_keeps h h' : passive callback -> tree_step h h' -> well_typed h -> well_typed h'.
Proof.
  intros Hp Hs. destruct Hs; try exact (fun H => H).
  - by apply keeps_addListener.
  - by apply keeps_removeListener.
  - by apply keeps_make_node.
  - by apply keeps_createProperty.
  - by apply keeps_addChild.
  - by apply keeps_removeChild.
  - by apply keeps_setTypedValue.
  - by apply keeps_setStringValue_cstr.
  - by apply keeps_linkToProxy.
  - by apply keeps_alias.
  - by apply keeps_setFlag.
Qed.

Lemma reachable_well_typed e h : passive callback -> rtc tree_step (empty_heap e) h -> well_typed h.
Proof.
  intros Hp Hr. assert (well_typed (empty_heap e)) as H0.
  { intros n nd Hn. by apply empty_heap_inv in Hn as [_ ->]. }
  revert H0. induction Hr as [|h1 h2 h3 Hs Hr IH]; [done|]. intros Hw. apply IH. by eapply tree_step_keeps.
Qed.

End Reachable.

Open Scope nat_scope.

(** A number is written, and linked as a text from then on. *)
Definition linked_tree : heap unit :=
  let h1 := snd (createProperty ignore 0 "a" (empty_heap tt)) in
  let h2 := snd (setTypedValue ignore int_ops 1 42%Z h1) in
  snd (linkToProxy string_ops 1 (PropertyProxyPointer (fun _ : unit => "text")) h2).

#[local] Instance no_null_strings : NullStrings := false.

(** Unlinking leaves the tag of the proxy: the text is then read from the member
    that holds the number, and replacing it frees the number. *)
Lemma unlink_breaks_type :
  let h := snd (unlinkProxy 1 false linked_tree) in
  fst (getStringValue 1 h) = Throw (UndefinedBehaviour "union member") /\
  fst (setStringValue ignore 1 "new" h) = Throw (UndefinedBehaviour "free of a value that is no string").
Proof. by_compute. Qed.
