(* ===== verification/TreeFrame.v ===== *)
(** What the operations of the property tree leave alone: they change the rest
    of the program only through listeners and through the setters of proxies.
    An observation of the rest that neither changes is the same after any
    operation. *)
From stdpp Require Import base option list strings gmap.
From Stdlib Require Import ZArith Lia Ascii PrimFloat.
From Stdlib Require String.
From S2P Require Import Prelude CxxString Base PropertyTree PropertyTreeFacts PropertyReader.

Open Scope Z_scope.

Section Frame.
Context {Ext K : Type} (obs : Ext -> K).
Implicit Types (h : heap Ext) (nd : node Ext).

(** A proxy whose setter does not change the observation. *)
Definition proxy_quiet (p : proxy Ext) : Prop :=
  match p with
  | BoolProxy p => forall v e, obs (setValue p v e) = obs e
  | IntProxy p | UintProxy p => forall v e, obs (setValue p v e) = obs e
  | StringProxy p => forall v e, obs (setValue p v e) = obs e
  | FloatingProxy p => forall v e, obs (setValue p v e) = obs e
  end.

Definition quiet h : Prop := forall n nd p, nodes h !! n = Some nd -> m_Proxy nd = Some p -> proxy_quiet p.

(** [m] keeps the proxies quiet and the observation as it is. *)
Definition frames {A} (m : SE (heap Ext) A) : Prop := forall h, quiet h ->
  quiet (snd (m h)) /\ obs (ext (snd (m h))) = obs (ext h).

Lemma frames_ret {A} (x : A) : frames (mret x).
Proof. by intros h. Qed.
Lemma frames_throw {A} e : frames (A := A) (se_throw e).
Proof. by intros h. Qed.
Lemma frames_lift {A} (r : res A) : frames (se_lift r).
Proof. by intros h. Qed.
Lemma frames_gets {A} (f : heap Ext -> A) : frames (se_gets f).
Proof. by intros h. Qed.
Lemma frames_readonly {A} (m : SE (heap Ext) A) : readonly m -> frames m.
Proof. intros Hm h. by rewrite Hm. Qed.
Lemma frames_deref n : frames (deref n).
Proof. apply frames_readonly, readonly_deref. Qed.
Lemma frames_Properties f : frames (se_modify (set_Properties f)).
Proof. by intros h. Qed.
Lemma frames_ext f : (forall e, obs (f e) = obs e) -> frames (se_modify (set_ext f)).
Proof. intros Hf h Hq. split; [exact Hq|]. cbn. apply Hf. Qed.

Lemma frames_bind {A B} (m : SE (heap Ext) A) (f : A -> SE (heap Ext) B) :
  frames m -> (forall a, frames (f a)) -> frames (m ≫= f).
Proof.
  intros Hm Hf h Hq. rewrite se_bind_run. destruct (Hm h Hq) as [Hq' Ho]. destruct (m h) as [[a|e] h']; [|done].
  destruct (Hf a h' Hq') as [Hq'' Ho']. by rewrite Ho'.
Qed.

Lemma frames_try {A} (m : SE (heap Ext) A) p (f : exn -> SE (heap Ext) A) :
  frames m -> (forall e, frames (f e)) -> frames (se_try m p f).
Proof.
  intros Hm Hf h Hq. unfold se_try. destruct (Hm h Hq) as [Hq' Ho]. destruct (m h) as [[a|e] h']; [done|].
  destruct (p e); [|done]. destruct (Hf e h' Hq') as [Hq'' Ho']. by rewrite Ho'.
Qed.

Lemma quiet_insert h n nd : quiet h -> (forall p, m_Proxy nd = Some p -> proxy_quiet p) -> quiet (set_nodes <[n := nd]> h).
Proof.
  intros Hq Hn m md p Hm Hp. cbn in Hm. apply lookup_insert_Some in Hm as [[_ <-]|[_ Hm]]; [by apply Hn|by apply (Hq m md)].
Qed.

Lemma frames_update n f : (forall nd p, m_Proxy (f nd) = Some p -> m_Proxy nd = Some p \/ proxy_quiet p) -> frames (update n f).
Proof.
  intros Hf h Hq. unfold update. rewrite se_bind_run. unfold deref. destruct (nodes h !! n) as [nd|] eqn:E; [|done].
  split; [|done]. apply quiet_insert; [done|]. intros p [Hp|Hp]%Hf; [by apply (Hq n nd)|done].
Qed.

Lemma frames_iter {A} (f : A -> SE (heap Ext) unit) l : (forall a, frames (f a)) -> frames (se_iter f l).
Proof. intros Hf. induction l as [|x l IH]; [apply frames_ret|]. cbn [se_iter]. apply frames_bind; [apply Hf|done]. Qed.

Lemma frames_make_node name i : frames (make_node name i).
Proof.
  intros h Hq. split; [|done]. intros n nd p Hn. cbn in Hn. apply lookup_insert_Some in Hn as [[_ <-]|[_ Hn]]; [done|by eapply Hq].
Qed.
End Frame.

Create HintDb frames.
#[export] Hint Resolve @frames_ret @frames_throw @frames_lift @frames_gets @frames_deref @frames_Properties @frames_make_node : frames.

Ltac solve_frames :=
  repeat first
    [ solve [eauto with frames]
    | match goal with |- frames _ (update _ _) => apply frames_update; intros ? ? ?; left; done end
    | apply frames_bind; [|intros ?]
    | apply frames_try; [|intros ?]
    | match goal with
      | |- frames _ (if ?b then _ else _) => destruct b
      | |- frames _ (match ?x with _ => _ end) => destruct x
      end ].

(** Listeners that leave the tree and the observation alone. *)
Definition discreet {Ext K} (obs : Ext -> K) (callback : notification -> lid -> nid -> nid -> heap Ext -> heap Ext) : Prop :=
  forall k l a b h, nodes (callback k l a b h) = nodes h /\ obs (ext (callback k l a b h)) = obs (ext h).

Section Operations.
Context {Ext K : Type} (obs : Ext -> K).
Context (callback : notification -> lid -> nid -> nid -> heap Ext -> heap Ext) (Hd : discreet obs callback).

Lemma frames_callback k l a b : frames obs (se_modify (callback k l a b)).
Proof.
  intros h Hq. destruct (Hd k l a b h) as [Hn Ho]. split; [|exact Ho]. intros n nd p E. cbn in E. rewrite Hn in E. by apply (Hq n nd).
Qed.
#[local] Hint Resolve frames_callback : frames.

Lemma frames_target n : frames obs (target n).
Proof. apply frames_readonly, readonly_target. Qed.
#[local] Hint Resolve frames_target : frames.

Lemma frames_call_listeners k n x ls : frames obs (call_listeners callback k n x ls).
Proof. induction ls as [|l ls IH]; cbn [call_listeners]; solve_frames. Qed.
#[local] Hint Resolve frames_call_listeners : frames.

Lemma frames_notify k n x : frames obs (notifyListeners callback k n x).
Proof.
  apply frames_bind; [apply frames_gets|]. intros fuel. revert n.
  induction fuel as [|fuel IH]; intros n; cbn [notify_up]; unfold endless; solve_frames.
Qed.
#[local] Hint Resolve frames_notify : frames.

Lemma frames_removeChild n c : frames obs (removeChild callback n c).
Proof. unfold removeChild, childRemoved. solve_frames. Qed.
#[local] Hint Resolve frames_removeChild : frames.

Lemma frames_max_index cs name m : frames obs (max_index cs name m).
Proof. revert m. induction cs as [|c cs IH]; intros m; cbn [max_index]; solve_frames. Qed.
#[local] Hint Resolve frames_max_index : frames.

Lemma frames_addChild n c : frames obs (addChild callback n c).
Proof. unfold addChild, childAdded. solve_frames. Qed.
#[local] Hint Resolve frames_addChild : frames.

Lemma frames_count n name : frames obs (count n name).
Proof.
  assert (forall cs, frames obs (count_name cs name)) as H by (induction cs; cbn [count_name]; solve_frames).
  unfold count. solve_frames.
Qed.
#[local] Hint Resolve frames_count : frames.

Lemma frames_getPropertyByName n name : frames obs (getPropertyByName n name).
Proof. apply frames_readonly, readonly_getPropertyByName. Qed.
#[local] Hint Resolve frames_getPropertyByName : frames.

Lemma frames_getProperty n path : frames obs (getProperty n path).
Proof. apply frames_readonly, readonly_getProperty. Qed.

Lemma frames_createProperty n path : frames obs (createProperty callback n path).
Proof.
  unfold createProperty. generalize (S (slen path)) as fuel. intros fuel. revert n path.
  induction fuel as [|fuel IH]; intros n path; cbn [createProperty_rec]; unfold createChild, endless; solve_frames.
Qed.

Lemma frames_alias n t : frames obs (alias n t).
Proof. unfold alias, clearValue. solve_frames. Qed.

Lemma frames_setFlag n f v : frames obs (setFlag callback n f v).
Proof. unfold setFlag, propertyChanged. solve_frames. Qed.

Lemma frames_linkToProxy {T} (ops : ValueOps T) n (p : PropertyProxy Ext T) : proxy_quiet obs (vo_wrap ops p) ->
  frames obs (linkToProxy ops n p).
Proof.
  intros Hp. unfold linkToProxy. apply frames_bind; [apply frames_deref|]. intros nd. case_match; [apply frames_ret|].
  apply frames_bind; [|intros ?; apply frames_ret]. apply frames_update. intros md q. cbn. intros [= <-]. by right.
Qed.

(** An accessor whose unwrapped proxy has the setter of the wrapped one. *)
Definition faithful {T} (ops : ValueOps T) : Prop :=
  forall p q, vo_unwrap ops p = Some q -> proxy_quiet obs p -> forall (v : T) e, obs (setValue q v e) = obs e.

Lemma string_faithful : faithful string_ops.
Proof. intros [] q; cbn; try done. intros [= <-]. exact (fun H => H). Qed.
Lemma int_faithful : faithful int_ops.
Proof. intros [] q; cbn; try done. intros [= <-]. exact (fun H => H). Qed.
Lemma float_faithful : faithful float_ops.
Proof. intros [] q; cbn; try done. intros [= <-]. exact (fun H => H). Qed.
Lemma bool_faithful : faithful bool_ops.
Proof. intros [] q; cbn; try done. intros [= <-]. exact (fun H => H). Qed.

Lemma frames_setTypedValue {T} (ops : ValueOps T) n v : faithful ops -> frames obs (setTypedValue callback ops n v).
Proof.
  intros Hf. unfold setTypedValue, clearValue, propertyChanged. apply frames_bind; [apply frames_target|]. intros t h Hq.
  rewrite se_bind_run. destruct (nodes h !! t) as [nd|] eqn:Hn; [rewrite (deref_run h t nd Hn)|unfold deref; by rewrite Hn].
  match goal with |- quiet _ (snd (?m h)) /\ _ => enough (frames obs m) as H by by apply H end.
  apply frames_bind; [|intros ?; solve_frames]. destruct (m_Proxy nd) as [p|] eqn:Hp; [|solve_frames].
  case_bool_decide; [|solve_frames]. destruct (vo_unwrap ops p) as [q|] eqn:Eu; [|solve_frames].
  apply frames_ext. intros e. apply (Hf p q Eu). by apply (Hq t nd).
Qed.
End Operations.
#[export] Hint Resolve string_faithful int_faithful float_faithful bool_faithful : frames.
#[export] Hint Resolve frames_callback frames_target frames_notify frames_removeChild frames_addChild frames_getPropertyByName
  frames_getProperty frames_createProperty frames_alias frames_setTypedValue : frames.
