(* ===== verification/SystemCondition.v ===== *)
(** [src/src/systemcondition.cpp]: the conditions of a trigger or timed event:
    states, add-on states, last called scenes, weekdays, time of day, dates.

    The property tree is read through [PropertyReader]; the current time and
    [ICalEvent::isDateInside] (on top of libical) are parameters.  The clock is
    read once: the code reads it once per kind of condition. *)
From stdpp Require Import base option list strings gmap.
From Stdlib Require Import ZArith Lia Ascii PrimFloat.
From Stdlib Require String.
From S2P Require Import Prelude CxxString Base NumConv PropertyTree PropertyReader.

Open Scope string_scope.
Open Scope list_scope.
Open Scope Z_scope.

(** * Time of day *)

(** [Ok None] when there are not three fields; [strToInt] throws. *)
Definition secondsFromHMS (s : string) : res (option Z) :=
  match splitString ":" false s with
  | [h; m; sec] =>
    h ← strToInt h; h60 ← int_checked (h * 60); h3600 ← int_checked (h60 * 60);
    m ← strToInt m; m60 ← int_checked (m * 60);
    hm ← int_checked (h3600 + m60);
    sec ← strToInt sec;
    tmp ← int_checked (hm + sec);
    Ok (Some (uint32 tmp))
  | _ => Ok None
  end.

(** The comparison at the end of [checkTimeCondition]. *)
Definition time_in_range (startSinceMidnight endSinceMidnight secNow : Z) : bool :=
  if startSinceMidnight <? endSinceMidnight then
    negb ((secNow <? startSinceMidnight) || (secNow >? endSinceMidnight))
  else
    negb ((secNow <? startSinceMidnight) && (secNow >? endSinceMidnight)).

Record now := mkNow { weekday : Z; hour : Z; minute : Z; second : Z }.

Section SystemCondition.
Context {Node : Type} `{!PropertyReader Node}.
(** [ICalEvent(rrule, start, end).isDateInside(now)] *)
Context (isDateInside : string -> string -> string -> res bool).
Context (time : now).

(** The bound a node sets, if it is there and has the right format. *)
Definition time_bound (node : option Node) (dflt : Z) : res Z :=
  match node with
  | Some n => s ← read_as_string n; t ← secondsFromHMS s; Ok (default dflt t)
  | None => Ok dflt
  end.

Definition checkTimeCondition (timeStartNode timeEndNode : option Node) (secNow : Z) : res bool :=
  startSinceMidnight ← time_bound timeStartNode 0;
  endSinceMidnight ← time_bound timeEndNode (24 * 60 * 60);
  Ok (time_in_range startSinceMidnight endSinceMidnight (uint32 secNow)).

(** * States *)

(** The loop over the system states for one requested state. *)
Fixpoint find_state (sName sValue : string) (states : list Node) (fFound : bool) : res bool :=
  match states with
  | [] => Ok fFound
  | st :: states =>
    nameNode ← read_child st "name";
    valueNode ← read_child st "value";
    stateDescNode ← read_child st "state";
    match nameNode with
    | None => find_state sName sValue states fFound
    | Some nn =>
      n ← read_string nn;
      if negb (String.eqb sName n) then find_state sName sValue states fFound
      else
        match valueNode, stateDescNode with
        | None, None => find_state sName sValue states true
        | _, _ =>
          byValue ← match valueNode with
                    | Some v => v ← read_as_string v; Ok (String.eqb sValue v)
                    | None => Ok false
                    end;
          byDesc ← (if byValue : bool then Ok true
                    else match stateDescNode with
                         | Some d => d ← read_string d; Ok (String.eqb sValue d)
                         | None => Ok false
                         end);
          Ok (byDesc : bool)
        end
    end
  end.

(** [for(x : l) if(!check(x)) return false;] *)
Fixpoint all_of {A} (check : A -> res bool) (l : list A) : res bool :=
  match l with
  | [] => Ok true
  | x :: l => b ← check x; if b : bool then all_of check l else Ok false
  end.

(** [for(x : l) if(check(x)) { fMatch = true; break; }] *)
Fixpoint any_of {A} (check : A -> res bool) (l : list A) : res bool :=
  match l with
  | [] => Ok false
  | x :: l => b ← check x; if b : bool then Ok true else any_of check l
  end.

Definition states_condition (oStateNode : Node) (oSystemStates : Node) : res bool :=
  requested ← read_children oStateNode;
  all_of (fun r =>
    sName ← read_name r;
    sValue ← read_as_string r;
    states ← read_children oSystemStates;
    find_state sName sValue states false) requested.

(** ** Add-on states *)

Definition addon_states (sAddonID : string) : res (option Node) :=
  read_path ("/usr/addon-states/" +:+ sAddonID).

Fixpoint find_addon_state (sName sValue : string) (states : list Node) : res bool :=
  match states with
  | [] => Ok false
  | st :: states =>
    nameNode ← read_child st "name";
    valueNode ← read_child st "value";
    match nameNode, valueNode with
    | Some nn, Some vn =>
      n ← read_as_string nn;
      if String.eqb sName n then v ← read_as_string vn; Ok (String.eqb sValue v)
      else find_addon_state sName sValue states
    | _, _ => find_addon_state sName sValue states
    end
  end.

Definition addon_condition (oAddonStateNode : Node) : res bool :=
  addons ← read_children oAddonStateNode;
  all_of (fun a =>
    sAddonID ← read_name a;
    oSystemAddonStates ← addon_states sAddonID;
    match oSystemAddonStates with
    | Some sys =>
      requested ← read_children a;
      all_of (fun r =>
        sName ← read_name r;
        sValue ← read_as_string r;
        states ← read_children sys;
        find_addon_state sName sValue states) requested
    | None => Ok false
    end) addons.

(** For the alternatives every system state of the name counts. *)
Definition or_addon_match (sName sValue : string) (st : Node) : res bool :=
  nameNode ← read_child st "name";
  valueNode ← read_child st "value";
  match nameNode, valueNode with
  | Some nn, Some vn =>
    n ← read_as_string nn;
    if String.eqb sName n then v ← read_as_string vn; Ok (String.eqb sValue v) else Ok false
  | _, _ => Ok false
  end.

Definition or_addon_condition (oOrAddonStateNode : Node) : res bool :=
  addons ← read_children oOrAddonStateNode;
  any_of (fun a =>
    sAddonID ← read_name a;
    oSystemAddonStates ← addon_states sAddonID;
    match oSystemAddonStates with
    | Some sys =>
      requested ← read_children a;
      any_of (fun r =>
        sName ← read_name r;
        sValue ← read_as_string r;
        states ← read_children sys;
        any_of (or_addon_match sName sValue) states) requested
    | None => Ok false
    end) addons.

(** ** Zones *)

(** [None]: the whole check returns false. *)
Definition zone_match (z : Node) : res (option bool) :=
  testZoneIdNode ← read_child z "zone";
  testGroupIdNode ← read_child z "group";
  testSceneIdNode ← read_child z "scene";
  match testZoneIdNode, testGroupIdNode with
  | Some zn, Some gn =>
    match testSceneIdNode with
    | Some sn =>
      zs ← read_as_string zn;
      gs ← read_as_string gn;
      groupNode ← read_path ("/apartment/zones/zone" +:+ zs +:+ "/groups/group" +:+ gs);
      match groupNode with
      | Some g =>
        lastCalledScene ← read_child g "lastCalledBasicScene";
        lastCalledScene ← match lastCalledScene with
                          | Some _ => Ok lastCalledScene
                          | None => read_child g "lastCalledScene"
                          end;
        match lastCalledScene with
        | Some l => ls ← read_as_string l; ss ← read_as_string sn; Ok (Some (String.eqb ls ss))
        | None => Ok (Some false)
        end
      | None => Ok (Some false)
      end
    | None => Ok (Some false)
    end
  | _, _ => Ok None
  end.

Fixpoint zones_loop (zones : list Node) : res bool :=
  match zones with
  | [] => Ok false
  | z :: zones =>
    m ← zone_match z;
    match m with
    | None => Ok false
    | Some true => Ok true
    | Some false => zones_loop zones
    end
  end.

Definition zone_condition (oZoneNode : Node) : res bool :=
  zones ← read_children oZoneNode; zones_loop zones.

(** ** Calendar *)

Definition weekday_condition (oWeekdayNode : Node) : res bool :=
  sWeekdayString ← read_as_string oWeekdayNode;
  if String.eqb sWeekdayString "" then Ok true
  else any_of (fun d => n ← strToInt d; Ok (n =? weekday time)) (splitString "," false sWeekdayString).

Definition time_condition (oBaseConditionNode : Node) : res bool :=
  timeStartNode ← read_child oBaseConditionNode "time-start";
  timeEndNode ← read_child oBaseConditionNode "time-end";
  match timeStartNode, timeEndNode with
  | None, None => Ok true
  | _, _ => checkTimeCondition timeStartNode timeEndNode ((hour time * 60 + minute time) * 60 + second time)
  end.

(** [dateEndNode] is tested twice; a missing [rrule] node is dereferenced. *)
Definition date_match (d : Node) : res bool :=
  dateStartNode ← read_child d "start";
  dateEndNode ← read_child d "end";
  dateRruleNode ← read_child d "rrule";
  match dateStartNode, dateEndNode with
  | Some s, Some e =>
    match dateRruleNode with
    | Some r =>
      rs ← read_as_string r; ss ← read_as_string s; es ← read_as_string e;
      isDateInside rs ss es
    | None => Throw (UndefinedBehaviour "call on NULL")
    end
  | _, _ => Ok false
  end.

Definition date_condition (oDateNode : Node) : res bool :=
  dates ← read_children oDateNode; any_of date_match dates.

(** * [checkSystemCondition] *)

(** A condition that holds if its node is missing. *)
Definition if_present (base : Node) (name : string) (check : Node -> res bool) : res bool :=
  n ← read_child base name;
  match n with Some n => check n | None => Ok true end.

Definition enabled_condition (base : Node) : res bool := if_present base "enabled" read_bool.

Definition system_states_condition (base : Node) : res bool :=
  oStateNode ← read_child base "states";
  oSystemStates ← read_path "/usr/states";
  match oStateNode, oSystemStates with
  | Some s, Some sys => states_condition s sys
  | _, _ => Ok true
  end.

(** The conditions in the order of their checks; the first that fails ends the
    function. *)
Definition checks : list (Node -> res bool) :=
  [enabled_condition;
   system_states_condition;
   fun b => if_present b "addon-states" addon_condition;
   fun b => if_present b "or-addon-states" or_addon_condition;
   fun b => if_present b "zone-states" zone_condition;
   fun b => if_present b "weekdays" weekday_condition;
   time_condition;
   fun b => if_present b "date" date_condition].

Definition checkSystemCondition (_path : string) : res bool :=
  oBaseConditionNode ← read_path (_path +:+ "/conditions");
  match oBaseConditionNode with
  | Some base => all_of (fun check => check base) checks
  | None => Ok true
  end.

(** * Properties *)

Lemma all_of_true {A} (check : A -> res bool) l :
  all_of check l = Ok true <-> Forall (fun x => check x = Ok true) l.
Proof.
  induction l as [|x l IH]; cbn [all_of]; [by rewrite Forall_nil|]. rewrite Forall_cons.
  destruct (check x) as [[]|e]; cbn; naive_solver.
Qed.

Lemma all_of_false {A} (check : A -> res bool) l :
  all_of check l = Ok false <->
  exists l1 x l2, l = l1 ++ x :: l2 /\ Forall (fun y => check y = Ok true) l1 /\ check x = Ok false.
Proof.
  induction l as [|x l IH]; cbn [all_of].
  - split; [discriminate|]. by intros ([|] & ? & ? & ? & _).
  - destruct (check x) as [b|e] eqn:E; cbn.
    + destruct b.
      * rewrite IH. split.
        -- intros (l1 & y & l2 & -> & H1 & H2). exists (x :: l1), y, l2. split_and!; [done|by constructor|done].
        -- intros ([|z l1] & y & l2 & [= -> ->] & H1 & H2); [congruence|].
           inversion_clear H1. by exists l1, y, l2.
      * split; [|done]. intros _. by exists [], x, l.
    + split; [discriminate|]. intros ([|z l1] & y & l2 & [= -> ->] & H1 & H2); [congruence|].
      inversion_clear H1. congruence.
Qed.

Lemma any_of_true {A} (check : A -> res bool) l :
  any_of check l = Ok true <->
  exists l1 x l2, l = l1 ++ x :: l2 /\ Forall (fun y => check y = Ok false) l1 /\ check x = Ok true.
Proof.
  induction l as [|x l IH]; cbn [any_of].
  - split; [discriminate|]. by intros ([|] & ? & ? & ? & _).
  - destruct (check x) as [b|e] eqn:E; cbn.
    + destruct b.
      * split; [|done]. intros _. by exists [], x, l.
      * rewrite IH. split.
        -- intros (l1 & y & l2 & -> & H1 & H2). exists (x :: l1), y, l2. split_and!; [done|by constructor|done].
        -- intros ([|z l1] & y & l2 & [= -> ->] & H1 & H2); [congruence|].
           inversion_clear H1. by exists l1, y, l2.
    + split; [discriminate|]. intros ([|z l1] & y & l2 & [= -> ->] & H1 & H2); [congruence|].
      inversion_clear H1. congruence.
Qed.

(** What one system state says about a requested state. *)
Inductive verdict := Other | Unchecked | Match | Mismatch.

Definition state_verdict (sName sValue : string) (st : Node) : res verdict :=
  nameNode ← read_child st "name";
  valueNode ← read_child st "value";
  stateDescNode ← read_child st "state";
  match nameNode with
  | None => Ok Other
  | Some nn =>
    n ← read_string nn;
    if negb (String.eqb sName n) then Ok Other
    else match valueNode, stateDescNode with
         | None, None => Ok Unchecked
         | _, _ =>
           v ← match valueNode with Some v => Some <$> read_as_string v | None => Ok None end;
           if bool_decide (v = Some sValue) then Ok Match
           else d ← match stateDescNode with Some d => Some <$> read_string d | None => Ok None end;
                Ok (if bool_decide (d = Some sValue) then Match else Mismatch)
         end
  end.

Lemma eqb_some (s v : string) : bool_decide (Some v = Some s) = String.eqb s v.
Proof.
  destruct (String.eqb_spec s v) as [->|Hne]; [by apply bool_decide_eq_true_2|].
  apply bool_decide_eq_false_2. congruence.
Qed.

Lemma find_state_step sName sValue st states fFound :
  find_state sName sValue (st :: states) fFound =
    v ← state_verdict sName sValue st;
    match v with
    | Other => find_state sName sValue states fFound
    | Unchecked => find_state sName sValue states true
    | Match => Ok true
    | Mismatch => Ok false
    end.
Proof.
  cbn [find_state]. unfold state_verdict.
  destruct (read_child st "name") as [nn|]; [|done]. cbn.
  destruct (read_child st "value") as [vn|]; [|done]. cbn.
  destruct (read_child st "state") as [dn|]; [|done]. cbn.
  destruct nn as [nn|]; [|done]. destruct (read_string nn) as [n|]; [|done]. cbn.
  destruct (negb (String.eqb sName n)); [done|].
  destruct vn as [vn|].
  - destruct (read_as_string vn) as [v|]; [|done]. cbn. rewrite eqb_some.
    destruct (String.eqb sValue v); [done|]. destruct dn as [dn|]; [|done].
    destruct (read_string dn) as [d|]; [|done]. cbn. rewrite eqb_some. by destruct (String.eqb sValue d).
  - destruct dn as [dn|]; [|done]. cbn. destruct (read_string dn) as [d|]; [|done]. cbn.
    rewrite eqb_some. by destruct (String.eqb sValue d).
Qed.

(** A requested state is accepted if the first system state of that name with
    something to compare matches, or if there are only system states of that
    name with nothing to compare. *)
Definition accepted (sName sValue : string) (states : list Node) : Prop :=
  (exists pre st post, states = pre ++ st :: post /\
     Forall (fun x => state_verdict sName sValue x = Ok Other \/ state_verdict sName sValue x = Ok Unchecked) pre /\
     state_verdict sName sValue st = Ok Match) \/
  (Forall (fun x => state_verdict sName sValue x = Ok Other \/ state_verdict sName sValue x = Ok Unchecked) states /\
   Exists (fun x => state_verdict sName sValue x = Ok Unchecked) states).

Lemma find_state_accepted sName sValue states fFound :
  find_state sName sValue states fFound = Ok true <->
  accepted sName sValue states \/
  (fFound = true /\
   Forall (fun x => state_verdict sName sValue x = Ok Other \/ state_verdict sName sValue x = Ok Unchecked) states).
Proof.
  unfold accepted. revert fFound. induction states as [|st states IH]; intros fFound.
  - cbn. split; [intros [= ->]; by right|].
    intros [[(pre & st & post & E & _)|[_ H]]|[-> _]]; [by destruct pre|by inversion H|done].
  - rewrite find_state_step. destruct (state_verdict sName sValue st) as [v|e] eqn:E; cbn [mbind res_bind].
    + destruct v.
      * rewrite IH. rewrite !Forall_cons, Exists_cons, E. split.
        -- intros [[(pre & x & post & -> & H1 & H2)|[H1 H2]]|[-> H]]; [|intuition congruence..].
           left; left. exists (st :: pre), x, post. split_and!; [done| |done]. constructor; [by left|done].
        -- intros [[(pre & x & post & Eq & H1 & H2)|[H1 H2]]|[-> H]]; [|intuition congruence..].
           destruct pre as [|y pre]; [injection Eq as -> ->; congruence|]. injection Eq as -> ->.
           left; left. exists pre, x, post. inversion_clear H1. done.
      * rewrite IH. rewrite !Forall_cons, Exists_cons, E. split.
        -- intros [[(pre & x & post & -> & H1 & H2)|[H1 H2]]|[_ H]]; [|intuition congruence..].
           left; left. exists (st :: pre), x, post. split_and!; [done| |done]. constructor; [by right|done].
        -- intros [[(pre & x & post & Eq & H1 & H2)|[H1 H2]]|[-> H]]; [|intuition congruence..].
           destruct pre as [|y pre]; [injection Eq as -> ->; congruence|]. injection Eq as -> ->.
           left; left. exists pre, x, post. inversion_clear H1. done.
      * split; [|done]. intros _. left; left. by exists [], st, states.
      * split; [done|]. rewrite !Forall_cons, E.
        intros [[(pre & x & post & Eq & H1 & H2)|[H1 H2]]|[_ H]]; [|intuition congruence..].
        destruct pre as [|y pre]; [injection Eq as -> ->; congruence|]. injection Eq as -> ->.
        inversion_clear H1. intuition congruence.
    + split; [done|]. rewrite !Forall_cons, E.
      intros [[(pre & x & post & Eq & H1 & H2)|[H1 H2]]|[_ H]]; [|intuition congruence..].
      destruct pre as [|y pre]; [injection Eq as -> ->; congruence|]. injection Eq as -> ->.
      inversion_clear H1. intuition congruence.
Qed.

(** C29: [checkSystemCondition] accepts exactly when there is no condition
    node or every kind of condition accepts, and rejects exactly when some
    condition rejects after all before it accepted, in the order enabled,
    states, add-on states, alternatives, zones, weekdays, time, dates; the
    state condition accepts iff every requested state is accepted by the
    system states, where the first state of that name with something to
    compare decides. *)
Theorem checkSystemCondition_spec (_path : string) (base : option Node) :
  read_path (_path +:+ "/conditions") = Ok base ->
  (checkSystemCondition _path = Ok true <->
     forall b, base = Some b -> Forall (fun check => check b = Ok true) checks) /\
  (checkSystemCondition _path = Ok false <->
     exists b before check after, base = Some b /\ checks = before ++ check :: after /\
       Forall (fun check => check b = Ok true) before /\ check b = Ok false) /\
  (forall s sys requested states, read_children s = Ok requested -> read_children sys = Ok states ->
     (states_condition s sys = Ok true <->
      Forall (fun r => exists sName sValue, read_name r = Ok sName /\ read_as_string r = Ok sValue /\
                       accepted sName sValue states) requested)).
Proof.
  intros Hb. unfold checkSystemCondition. rewrite Hb. cbn [mbind res_bind]. split_and!.
  - destruct base as [b|]; [|naive_solver]. rewrite all_of_true. naive_solver.
  - destruct base as [b|].
    + rewrite all_of_false. split.
      * intros (l1 & x & l2 & E & H). by exists b, l1, x, l2.
      * intros (b' & l1 & x & l2 & [= ->] & E & H). by exists l1, x, l2.
    + split; [done|]. by intros (b & ? & ? & ? & ? & _).
  - intros s sys requested states Hs Hsys. unfold states_condition. rewrite Hs. cbn [mbind res_bind].
    rewrite all_of_true, !Forall_forall.
    assert (forall r, (sName ← read_name r; sValue ← read_as_string r; st ← read_children sys;
              find_state sName sValue st false) = Ok true <->
      exists sName sValue, read_name r = Ok sName /\ read_as_string r = Ok sValue /\ accepted sName sValue states) as Hr.
    { intros r. destruct (read_name r) as [n|]; cbn [mbind res_bind]; [|naive_solver].
      destruct (read_as_string r) as [v|]; cbn [mbind res_bind]; [|naive_solver].
      rewrite Hsys. cbn [mbind res_bind]. rewrite find_state_accepted. naive_solver. }
    split; intros H r Hin; apply Hr; by apply H.
Qed.
End SystemCondition.

(** ** Time of day *)

(** The time condition is membership in an interval of the clock that
    may wrap around midnight: for different bounds the time lies in it iff,
    counting seconds clockwise from the start, it comes no later than the
    end; equal bounds accept every time; without an end the interval lasts
    until midnight. *)
Theorem time_in_range_cyclic (start end_ now : Z) :
  0 <= start < 86400 -> 0 <= end_ < 86400 -> 0 <= now < 86400 ->
  (start <> end_ -> (time_in_range start end_ now = true <-> (now - start) mod 86400 <= (end_ - start) mod 86400)) /\
  (start = end_ -> time_in_range start end_ now = true) /\
  (time_in_range start (24 * 60 * 60) now = true <-> start <= now).
Proof.
  intros Hs He Hn. unfold time_in_range.
  assert (forall x, 0 <= x < 86400 -> x mod 86400 = x) as Hm by (intros; by apply Z.mod_small).
  assert (forall x, -86400 <= x < 0 -> x mod 86400 = x + 86400) as Hm'.
  { intros x Hx. rewrite <- (Z_mod_plus_full x 1). apply Z.mod_small. lia. }
  split_and!.
  - intros Hne. rewrite Z.gtb_ltb.
    destruct (Z.ltb_spec start end_), (Z.ltb_spec now start), (Z.ltb_spec end_ now); cbn;
      rewrite ?(Hm (now - start)), ?(Hm (end_ - start)), ?(Hm' (now - start)), ?(Hm' (end_ - start)) by lia;
      split; intros; try done; lia.
  - intros ->. rewrite Z.gtb_ltb. destruct (Z.ltb_spec end_ end_), (Z.ltb_spec now end_), (Z.ltb_spec end_ now); done || lia.
  - rewrite Z.gtb_ltb. change (24 * 60 * 60) with 86400.
    destruct (Z.ltb_spec start 86400), (Z.ltb_spec now start), (Z.ltb_spec 86400 now); cbn; split; intros; try done; lia.
Qed.

Lemma time_in_range_cyclic_witness : time_in_range 79200 14400 3600 = true.
Proof.
  apply (proj2 (proj1 (time_in_range_cyclic 79200 14400 3600 ltac:(lia) ltac:(lia) ltac:(lia)) ltac:(lia))).
  vm_compute. discriminate.
Defined.

(** A number below 60 as it is usually written, with two digits. *)
Definition pad2 (v : Z) : string := if v <? 10 then "0" +:+ intToString v false else intToString v false.

Definition octal_trap (v : Z) : bool := (v =? 8) || (v =? 9).

Definition pad2_check (v : Z) : bool :=
  (if octal_trap v then negb (res_ok (strToInt (pad2 v))) else bool_decide (strToInt (pad2 v) = Ok v)) &&
  negb (sexists (Ascii.eqb "\") (pad2 v)) && negb (sexists (Ascii.eqb ":") (pad2 v)).

Lemma pad2_ok v : 0 <= v < 60 -> pad2_check v = true.
Proof. apply (zrange_forall pad2_check 0 60). by_compute. Qed.

Lemma strToInt_pad2 v : 0 <= v < 60 ->
  if octal_trap v then exists e, strToInt (pad2 v) = Throw e else strToInt (pad2 v) = Ok v.
Proof.
  intros Hv. pose proof (pad2_ok v Hv) as H. unfold pad2_check in H.
  apply andb_true_iff in H as [[H _]%andb_true_iff _]. destruct (octal_trap v).
  - destruct (strToInt (pad2 v)); [done|eauto].
  - apply bool_decide_eq_true_1 in H. exact H.
Qed.

Lemma secondsFromHMS_fields h m s :
  0 <= h < 60 -> 0 <= m < 60 -> 0 <= s < 60 ->
  splitString ":" false (join [pad2 h; pad2 m; pad2 s] ":") = [pad2 h; pad2 m; pad2 s].
Proof.
  intros Hh Hm Hs. apply splitString_plain; [done|done|].
  assert (forall v, 0 <= v < 60 -> sexists (Ascii.eqb "\") (pad2 v) = false /\ sexists (Ascii.eqb ":") (pad2 v) = false) as Hp.
  { intros v Hv. pose proof (pad2_ok v Hv) as H. unfold pad2_check in H.
    apply andb_true_iff in H as [[_ H1]%andb_true_iff H2]. by apply negb_true_iff in H1, H2. }
  repeat constructor; by apply Hp.
Qed.

Lemma secondsFromHMS_pad2 (h m s : Z) :
  0 <= h < 24 -> 0 <= m < 60 -> 0 <= s < 60 ->
  if octal_trap h || octal_trap m || octal_trap s
  then exists e, secondsFromHMS (join [pad2 h; pad2 m; pad2 s] ":") = Throw e
  else secondsFromHMS (join [pad2 h; pad2 m; pad2 s] ":") = Ok (Some (h * 3600 + m * 60 + s)).
Proof.
  intros Hh Hm Hs. unfold secondsFromHMS. rewrite secondsFromHMS_fields by lia.
  pose proof (strToInt_pad2 h ltac:(lia)) as Eh. pose proof (strToInt_pad2 m ltac:(lia)) as Em.
  pose proof (strToInt_pad2 s ltac:(lia)) as Es.
  destruct (octal_trap h); cbn [orb]; [destruct Eh as [e ->]; by exists e|]. rewrite Eh. cbn [mbind res_bind].
  rewrite !(int_checked_ok (h * 60)) by lia. cbn [mbind res_bind]. rewrite (int_checked_ok (h * 60 * 60)) by lia.
  cbn [mbind res_bind].
  destruct (octal_trap m); cbn [orb]; [destruct Em as [e ->]; by exists e|]. rewrite Em. cbn [mbind res_bind].
  rewrite (int_checked_ok (m * 60)) by lia. cbn [mbind res_bind].
  rewrite (int_checked_ok (h * 60 * 60 + m * 60)) by lia. cbn [mbind res_bind].
  destruct (octal_trap s); [destruct Es as [e ->]; by exists e|]. rewrite Es. cbn [mbind res_bind].
  rewrite (int_checked_ok (h * 60 * 60 + m * 60 + s)) by lia. cbn [mbind res_bind].
  rewrite uint32_id by lia. do 2 f_equal. lia.
Qed.

Lemma all_of_throw {A} (check : A -> res bool) l1 x l2 e : Forall (fun y => check y = Ok true) l1 -> check x = Throw e ->
  all_of check (l1 ++ x :: l2) = Throw e.
Proof. intros H1 Hx. induction H1 as [|y l1 Hy _ IH]; cbn [app all_of]; [by rewrite Hx|]. by rewrite Hy. Qed.

Section TimeOfDay.
Context {Node : Type} `{!PropertyReader Node} (isDateInside : string -> string -> string -> res bool) (time : now).

(** The node of a time, which has the text [s]. *)
Definition time_node (node : option Node) (s : string) : Prop := exists n, node = Some n /\ read_as_string n = Ok s.

End TimeOfDay.

(** ** A concrete tree *)

Definition quiet (k : notification) (l : lid) (a b : nid) (h : heap unit) : heap unit := h.
Definition build (l : list (string * string)) : heap unit :=
  foldl (fun h '(p, v) => snd (sys_setStringValue quiet p v true true h)) (empty_heap tt) l.

Definition example_tree : heap unit :=
  build [("/t/conditions/states/presence", "present"); ("/usr/states/a/name", "presence"); ("/usr/states/a/value", "present")].

(** A condition that starts at eight o'clock. *)
Definition morning_tree : heap unit := build [("/t/conditions/time-start", "08:00:00")].

Lemma checkSystemCondition_spec_witness :
  checkSystemCondition (PropertyReader0 := heap_reader (fun _ => "") example_tree)
    (fun _ _ _ => Ok true) (mkNow 1 12 0 0) "/t" = Ok true.
Proof.
  set (R := heap_reader (fun _ => "") example_tree).
  apply (proj2 (proj1 (@checkSystemCondition_spec nid R (fun _ _ _ => Ok true) (mkNow 1 12 0 0) "/t" (Some 2%nat)
    ltac:(vm_compute; reflexivity)))).
  intros b E. injection E as <-. repeat constructor; vm_compute; reflexivity.
Defined.
