(* ===== verification/DateTools.v ===== *)
(** [src/src/datetools.h] and [datetools.cpp]: [DateTime] with its arithmetic,
    comparisons and text forms, [TimeStamp], and the [Schedule] interface with
    [StaticSchedule].

    The calendar and the C functions are those of [Calendar.v]; the time zone
    is its parameter [Libc].  Errors of [localtime_r] and [gmtime_r] (years that
    do not fit an [int]) are left out, and sums of [time_t], which has 64 bits,
    are not bounded. *)
From stdpp Require Import base option list strings.
From Stdlib Require Import ZArith Lia Ascii.
From Stdlib Require String.
From S2P Require Import Prelude CxxString NumConv FloatConv Calendar.

Open Scope string_scope.
Open Scope list_scope.
Open Scope Z_scope.

(** * [DateTime] *)

(** [m_timeval] *)
Record DateTime := mkDateTime { tv_sec : Z; tv_usec : Z }.

#[global] Instance DateTime_eq_dec : EqDecision DateTime.
Proof. solve_decision. Defined.

Definition NullDate : DateTime := mkDateTime 0 0.

Definition addHour (_hours : Z) (d : DateTime) : res DateTime :=
  x ← int_checked (_hours * 60); x ← int_checked (x * 60);
  Ok (mkDateTime (tv_sec d + x) (tv_usec d)).

Definition addMinute (_minutes : Z) (d : DateTime) : res DateTime :=
  x ← int_checked (_minutes * 60); Ok (mkDateTime (tv_sec d + x) (tv_usec d)).

Definition addSeconds (_seconds : Z) (d : DateTime) : DateTime :=
  mkDateTime (tv_sec d + _seconds) (tv_usec d).

Definition addDay (_days : Z) (d : DateTime) : res DateTime :=
  x ← int_checked (_days * 24); x ← int_checked (x * 60); x ← int_checked (x * 60);
  Ok (mkDateTime (tv_sec d + x) (tv_usec d)).

(** The macros [timeradd] and [timersub] of [sys/time.h]. *)
Definition timeradd (a b : DateTime) : DateTime :=
  let s := tv_sec a + tv_sec b in
  let us := tv_usec a + tv_usec b in
  if us >=? 1000000 then mkDateTime (s + 1) (us - 1000000) else mkDateTime s us.

Definition timersub (a b : DateTime) : DateTime :=
  let s := tv_sec a - tv_sec b in
  let us := tv_usec a - tv_usec b in
  if us <? 0 then mkDateTime (s - 1) (us + 1000000) else mkDateTime s us.

Definition addMilliSeconds (_milliseconds : Z) (d : DateTime) : res DateTime :=
  a ← int_checked (Z.abs _milliseconds);
  let s := a / 1000 in
  let add := mkDateTime s ((a - s * 1000) * 1000) in
  Ok (if _milliseconds <? 0 then timersub d add else timeradd d add).

(** Only the seconds count; the conversion of the [double] to [int] is
    undefined outside of [int]. *)
Definition difference (d _other : DateTime) : res Z := int_checked (tv_sec d - tv_sec _other).

Definition dt_eq (d _other : DateTime) : res bool := x ← difference d _other; Ok (x =? 0).
Definition dt_ne (d _other : DateTime) : res bool := x ← difference d _other; Ok (negb (x =? 0)).
Definition dt_lt (d _other : DateTime) : res bool := x ← difference d _other; Ok (x <? 0).
Definition dt_gt (d _other : DateTime) : res bool := x ← difference d _other; Ok (x >? 0).
Definition dt_le (d _other : DateTime) : res bool := x ← difference d _other; Ok (x <=? 0).
Definition dt_ge (d _other : DateTime) : res bool := x ← difference d _other; Ok (x >=? 0).

Definition secondsSinceEpoch (d : DateTime) : Z := tv_sec d.

(** ** Calendar fields *)

Section Zone.
Context `{Libc}.

Definition addMonth (_month : Z) (d : DateTime) : res DateTime :=
  let t := localtime_r (tv_sec d) in
  mon ← int_checked (tm_mon t + _month);
  Ok (mkDateTime (fst (mktime (set_mon mon t))) (tv_usec d)).

Definition addYear (_years : Z) (d : DateTime) : res DateTime :=
  let t := localtime_r (tv_sec d) in
  year ← int_checked (tm_year t + _years);
  Ok (mkDateTime (fst (mktime (set_year year t))) (tv_usec d)).

Definition getDay (d : DateTime) : Z := tm_mday (localtime_r (tv_sec d)).
Definition getMonth (d : DateTime) : Z := tm_mon (localtime_r (tv_sec d)).
Definition getYear (d : DateTime) : Z := tm_year (localtime_r (tv_sec d)) + 1900.
Definition getHour (d : DateTime) : Z := tm_hour (localtime_r (tv_sec d)).
Definition getMinute (d : DateTime) : Z := tm_min (localtime_r (tv_sec d)).
Definition getSecond (d : DateTime) : Z := tm_sec (localtime_r (tv_sec d)).
Definition getDayOfYear (d : DateTime) : Z := tm_yday (localtime_r (tv_sec d)).
Definition getWeekday (d : DateTime) : Z := tm_wday (localtime_r (tv_sec d)).
Definition getTimezoneOffset (d : DateTime) : Z := tm_gmtoff (localtime_r (tv_sec d)).

(** ** Printing *)

Definition toRFC2822String (d : DateTime) : res string :=
  strftime 32 "%a, %d %b %Y %T %z" (localtime_r (tv_sec d)).

Definition toRFC2445IcalDataTime (d : DateTime) : res string :=
  strftime 20 "%Y%m%dT%H%M%S" (localtime_r (tv_sec d)).

Definition toPrettyString (d : DateTime) : res string :=
  strftime 30 "%Y-%m-%d %H:%M:%S" (localtime_r (tv_sec d)).

Definition toISO8601 (d : DateTime) : res string :=
  strftime 21 "%FT%TZ" (gmtime_r (tv_sec d)).

(** "Ensure there is a colon in time zone", at position [i] of the buffer, which
    holds [s] and its terminator; two characters are moved. *)
Definition ensure_colon (i : nat) (s : string) : res string :=
  let buf := s +:+ String "000" "" in
  match char_at buf i, char_at buf (S i) with
  | Some c, Some c' =>
    if Ascii.eqb c ":" then Ok s
    else Ok (c_str (stake i buf +:+ String ":" (String c (String c' ""))))
  | _, _ => Throw (UndefinedBehaviour "uninitialised buffer")
  end.

Definition toISO8601_local (d : DateTime) : res string :=
  s ← strftime 30 "%FT%T%z" (localtime_r (tv_sec d));
  ensure_colon 22 s.

(** [snprintf] with a format whose only conversion is [%03u]; at most [max - 1]
    characters are written. *)
Fixpoint snprintf_03u (fmt : string) (u : Z) : string :=
  match fmt with
  | String "%" (String "0" (String "3" (String "u" fmt))) =>
    let n := print_number 10 (uint32 u) in
    (if slen n =? 1 then "00" else if slen n =? 2 then "0" else "")%nat +:+ n +:+ snprintf_03u fmt u
  | String c fmt => String c (snprintf_03u fmt u)
  | EmptyString => ""
  end.

Definition toISO8601_ms_local (d : DateTime) : res string :=
  fmt ← strftime 30 "%FT%T.%%03u%z" (localtime_r (tv_sec d));
  ensure_colon 26 (stake 29 (snprintf_03u fmt (Z.quot (tv_usec d) 1000))).

Definition toISO8601_ms (d : DateTime) : res string :=
  fmt ← strftime 40 "%FT%T.%%03uZ" (gmtime_r (tv_sec d));
  Ok (stake 39 (snprintf_03u fmt (Z.quot (tv_usec d) 1000))).

(** ** Parsing *)

(** The time that [t] names in a zone [tz_offset] seconds east of UTC. *)
Definition convertTZ (t : tm) (tz_offset : Z) : res Z :=
  let '(t0, gmtoff) := mktime (set_isdst (-1) t) in
  if t0 =? -1 then Throw (InvalidArgument "mktime")
  else Ok (t0 - (tz_offset - gmtoff)).

Definition parseRFC2445 (timeString : string) : res DateTime :=
  match slast timeString with
  | None => Throw (UndefinedBehaviour "operator[] out of range")
  | Some l =>
    let utc := Ascii.eqb l "Z" in
    if negb (slen timeString =? 15 + (if utc then 1 else 0))%nat then
      Throw (InvalidArgument ("RFC2445: too short " +:+ timeString))
    else
      match strptime zone_colon (c_str timeString) "%Y%m%dT%H%M%S" zero_tm with
      | None => Throw (InvalidArgument ("RFC2445: invalid " +:+ timeString))
      | Some (t, end_) =>
        if negb (slen (c_str timeString) - slen end_ =? 15)%nat
        then Throw (InvalidArgument ("RFC2445: invalid " +:+ timeString))
        else
          let '(t0, gmtoff) := mktime (set_isdst (-1) t) in
          if t0 =? -1 then Throw (InvalidArgument ("RFC2445: mktime failure" +:+ timeString))
          else Ok (mkDateTime (if utc then t0 + gmtoff else t0) 0)
      end
  end.

(** The minutes of a zone written with a colon, which [strptime] left: they are
    read as a number of any form and added, whatever the sign of the hours. *)
Definition zone_minutes `{Strtod} (in_ end_ : string) (t : tm) : res tm :=
  match end_ with
  | String ":" (String c r) =>
    let tz_minutes := String c r in
    let '(x, end2) := strtod tz_minutes in
    ret ← to_int x;
    if String.eqb end2 tz_minutes || negb (is_empty end2) || ((ret =? 0) && strtod_erange tz_minutes)
    then Throw (InvalidArgument ("ISO8601: invalid tz minutes " +:+ in_))
    else m ← int_checked (ret * 60); Ok (set_gmtoff (tm_gmtoff t + m) t)
  | _ => Ok t
  end.

Definition parseISO8601 `{Strtod} (in_ : string) : res DateTime :=
  match slast in_ with
  | None => Throw (UndefinedBehaviour "operator[] out of range")
  | Some l =>
    let utc := Ascii.eqb l "Z" in
    if negb (existsb (Nat.eqb (slen in_)) [25; 24; 23; 22; 20]%nat)
    then Throw (InvalidArgument ("ISO8601: invalid length " +:+ in_))
    else
      match strptime zone_colon (c_str in_) (if utc then "%FT%TZ" else "%FT%T%z") zero_tm with
      | None => Throw (InvalidArgument ("ISO8601: invalid format " +:+ in_))
      | Some (t, end_) =>
        let ok := match end_ with String c _ => Ascii.eqb c ":" | EmptyString => true end in
        if negb ok then Throw (InvalidArgument ("ISO8601: invalid format " +:+ in_))
        else
          t ← zone_minutes in_ end_ t;
          match convertTZ t (tm_gmtoff t) with
          | Ok t0 => Ok (mkDateTime t0 0)
          | Throw (InvalidArgument what) => Throw (InvalidArgument ("ISO8601: " +:+ what +:+ " " +:+ in_))
          | Throw e => Throw e
          end
      end
  end.

(** Characters after the time are ignored. *)
Definition parsePrettyString (timeString : string) : res DateTime :=
  match strptime zone_colon (c_str timeString) "%Y-%m-%d %H:%M:%S" zero_tm with
  | None => Throw (InvalidArgument ("unknown time format: " +:+ timeString))
  | Some (t, _) =>
    let '(t0, _) := mktime (set_isdst (-1) t) in
    if t0 =? -1 then Throw (InvalidArgument "mktime") else Ok (mkDateTime t0 0)
  end.
End Zone.

(** * [TimeStamp] *)

(** [m_stamp]; both fields are [long]. *)
Record TimeStamp := mkTimeStamp { stamp_sec : Z; stamp_nsec : Z }.

Definition toMicroSec (t : TimeStamp) : Z := uint32 (stamp_sec t * 1000 * 1000 + Z.quot (stamp_nsec t) 1000).

Definition stamp_add (a b : TimeStamp) : TimeStamp :=
  let ns := stamp_nsec a + stamp_nsec b in
  if ns >=? 1000000000 then mkTimeStamp (stamp_sec a + stamp_sec b + 1) (ns - 1000000000)
  else mkTimeStamp (stamp_sec a + stamp_sec b) ns.

Definition stamp_sub (a b : TimeStamp) : TimeStamp :=
  let ns := stamp_nsec a - stamp_nsec b in
  if ns <? 0 then mkTimeStamp (stamp_sec a - stamp_sec b - 1) (ns + 1000000000)
  else mkTimeStamp (stamp_sec a - stamp_sec b) ns.

Definition stamp_lt (a b : TimeStamp) : bool :=
  if stamp_sec a =? stamp_sec b then stamp_nsec a <? stamp_nsec b else stamp_sec a <? stamp_sec b.

(** * [Schedule] *)

(** The virtual functions of [class Schedule]; [getNextOccurence] and
    [leapAdjust] may change the schedule. *)
Class Schedule (T : Type) := {
  getNextOccurence : DateTime -> T -> res DateTime * T;
  hasRecurrence : T -> bool;
  leapAdjust : Z -> T -> Z * T
}.

(** [class StaticSchedule] *)
Record StaticSchedule := mkStaticSchedule { m_When : DateTime }.

Definition static_getNextOccurence (_from : DateTime) (s : StaticSchedule) : res DateTime :=
  before ← dt_le _from (m_When s); Ok (if before : bool then m_When s else _from).

#[global] Instance static_schedule : Schedule StaticSchedule := {|
  getNextOccurence := fun _from s => (static_getNextOccurence _from s, s);
  hasRecurrence := fun _ => false;
  leapAdjust := fun _ s => (0, s)
|}.

(** * Times of the range of [int] *)

(** Seconds between 1970 and 2038: differences are [int]s. *)
Definition in_epoch (d : DateTime) : Prop := 0 <= tv_sec d < 2147483648.

Lemma difference_ok d e : in_epoch d -> in_epoch e -> difference d e = Ok (tv_sec d - tv_sec e).
Proof. unfold in_epoch. intros Hd He. apply int_checked_ok. lia. Qed.

Lemma dt_le_ok d e : in_epoch d -> in_epoch e -> dt_le d e = Ok (tv_sec d <=? tv_sec e).
Proof.
  intros Hd He. unfold dt_le. rewrite difference_ok by done. cbn. f_equal.
  destruct (Z.leb_spec (tv_sec d - tv_sec e) 0), (Z.leb_spec (tv_sec d) (tv_sec e)); done || lia.
Qed.

Lemma dt_eq_ok d e : in_epoch d -> in_epoch e -> dt_eq d e = Ok (tv_sec d =? tv_sec e).
Proof.
  intros Hd He. unfold dt_eq. rewrite difference_ok by done. cbn. f_equal.
  destruct (Z.eqb_spec (tv_sec d - tv_sec e) 0), (Z.eqb_spec (tv_sec d) (tv_sec e)); done || lia.
Qed.

(** The next occurrence of a static schedule, seen at [now]. *)
Lemma static_next_ok now s : in_epoch now -> in_epoch (m_When s) ->
  static_getNextOccurence now s = Ok (if tv_sec now <=? tv_sec (m_When s) then m_When s else now).
Proof. intros Hn Hw. unfold static_getNextOccurence. by rewrite dt_le_ok. Qed.

(** Microseconds since the epoch, and the normal form of a [timeval]. *)
Definition micros (d : DateTime) : Z := tv_sec d * 1000000 + tv_usec d.
Definition normal (d : DateTime) : Prop := 0 <= tv_usec d < 1000000.

(** Adding milliseconds moves a normalised time by exactly that many
    milliseconds, forwards or backwards across seconds, keeps it normalised,
    and fails only for [INT_MIN], whose absolute value is no [int]. *)
Theorem addMilliSeconds_exact (n : Z) (d : DateTime) :
  -2147483648 <= n <= 2147483647 -> normal d ->
  match addMilliSeconds n d with
  | Ok d' => normal d' /\ micros d' = micros d + n * 1000 /\ n <> -2147483648
  | Throw _ => n = -2147483648
  end.
Proof.
  intros Hn Hd. unfold addMilliSeconds, int_checked.
  destruct (Z.leb_spec (-2147483648) (Z.abs n)); [|lia].
  destruct (Z.leb_spec (Z.abs n) 2147483647); cbn; [|lia].
  pose proof (Z.div_mod (Z.abs n) 1000 ltac:(lia)) as E.
  pose proof (Z.mod_pos_bound (Z.abs n) 1000 ltac:(lia)) as B.
  unfold normal, micros in *. destruct d as [s us]. cbn in *.
  destruct (Z.ltb_spec n 0); [unfold timersub|unfold timeradd]; cbn.
  - case_cond; reflect_bools; cbn; lia.
  - rewrite Z.geb_leb. case_cond; reflect_bools; cbn; lia.
Qed.

Lemma addMilliSeconds_exact_witness :
  normal (mkDateTime 10 5) /\
  match addMilliSeconds (-1500) (mkDateTime 10 5) with
  | Ok d' => normal d' /\ micros d' = micros (mkDateTime 10 5) + -1500 * 1000 /\ -1500 <> -2147483648
  | Throw _ => -1500 = -2147483648
  end.
Proof.
  assert (normal (mkDateTime 10 5)) as H by (unfold normal; cbn; lia).
  split; [exact H|]. apply (addMilliSeconds_exact (-1500) (mkDateTime 10 5)); [lia|exact H].
Defined.
