(* ===== verification/DateTimeFacts.v ===== *)
(** Round trips of the text forms of [DateTime] ([DateTools.v]): the forms are
    read back, and where they are not. *)
From stdpp Require Import base option list strings.
From Stdlib Require Import ZArith Lia Ascii PrimFloat.
From Stdlib Require String.
From S2P Require Import Prelude CxxString NumConv FloatConv Calendar DateTools.

Open Scope string_scope.
Open Scope list_scope.
Open Scope Z_scope.

Section Facts.
Context {LC : Libc} {SD : Strtod}.

(** What [strptime] has read of [t], and the zone [gmtoff]. *)
Definition scanned (t : tm) (gmtoff : Z) : tm :=
  mkTm (tm_sec t) (tm_min t) (tm_hour t) (tm_mday t) (tm_mon t) (tm_year t) 0 0 0 gmtoff.

(** The local time with the digits of [t] exists: [mktime] finds a time that has
    them.  It does not for the hour that daylight saving time skips. *)
Definition local_time_exists (t : tm) (gmtoff : Z) : Prop :=
  let '(t0, off) := mktime (set_isdst (-1) (scanned t gmtoff)) in t0 <> -1 /\ t0 + off = timegm t.

Definition four_digits (t : tm) : Prop := 1000 <= tm_year t + 1900 <= 9999.

Lemma printable_gmtime s : four_digits (gmtime_r s) -> printable (gmtime_r s).
Proof.
  intros H. split; [apply breakdown_in_ranges|]. split; [exact H|].
  unfold gmtime_r, breakdown. destruct (civil_from_days _) as [[y m] d]. by split.
Qed.

Lemma convertTZ_exists t gmtoff z : local_time_exists t gmtoff ->
  convertTZ (scanned t gmtoff) z = Ok (timegm t - z).
Proof.
  unfold local_time_exists, convertTZ. destruct (mktime _) as [t0 off]. intros [H1 H2].
  rewrite (proj2 (Z.eqb_neq t0 (-1))) by done. f_equal. lia.
Qed.

Lemma sexists_pad2 z : 0 <= z <= 99 -> sexists (Ascii.eqb "000") (pad2 z) = false.
Proof.
  intros H. unfold pad2. cbn [sexists].
  destruct (digit_char_plain (z / 10)) as (_ & _ & _ & _ & N1); [Z.to_euclidean_division_equations; lia|].
  destruct (digit_char_plain (z mod 10)) as (_ & _ & _ & _ & N2); [Z.to_euclidean_division_equations; lia|].
  by rewrite (proj2 (Ascii.eqb_neq _ (digit_char (z / 10))) (not_eq_sym N1)),
    (proj2 (Ascii.eqb_neq _ (digit_char (z mod 10))) (not_eq_sym N2)).
Qed.

(** The date and time of day as all forms but one start. *)
Definition date_T_time (t : tm) : string :=
  intToString (tm_year t + 1900) false +:+ "-" +:+ pad2 (tm_mon t + 1) +:+ "-" +:+ pad2 (tm_mday t) +:+ "T" +:+
  pad2 (tm_hour t) +:+ ":" +:+ pad2 (tm_min t) +:+ ":" +:+ pad2 (tm_sec t).

Lemma date_T_time_plain t : printable t ->
  slen (date_T_time t) = 19%nat /\ sexists (Ascii.eqb "000") (date_T_time t) = false.
Proof.
  intros ([] & Hy & _). unfold date_T_time. rewrite intToString_4 by done. split.
  - by rewrite !slen_app.
  - rewrite !sexists_app, !sexists_pad2 by (Z.to_euclidean_division_equations; lia). done.
Qed.

Lemma print_date_T_time t rest :
  print_convs t (conversions "%FT%T" ++ rest) = date_T_time t +:+ print_convs t rest.
Proof. cbn. unfold date_T_time. by rewrite !app_assoc_s. Qed.

Lemma scan_date_T_time colon t rest conv : printable t ->
  scan_convs colon (conversions "%FT%T" ++ conv) zero_tm (date_T_time t +:+ rest) =
  scan_convs colon conv (scanned t 0) rest.
Proof.
  intros Ht. transitivity (match scan_convs colon (conversions "%FT%T") zero_tm (date_T_time t +:+ rest) with
    | Some (t, s) => scan_convs colon conv t s | None => None end).
  { generalize (conversions "%FT%T") as l. generalize zero_tm as t0. generalize (date_T_time t +:+ rest) as s.
    intros s t0 l. revert s t0. induction l as [|c l IH]; intros s t0; [done|]. cbn. by destruct (scan_conv colon c t0 s) as [[]|]. }
  pose proof (print_date_T_time t []) as E. cbn [print_convs] in E. rewrite app_nil_r_s, app_nil_r in E.
  rewrite <- E, scan_print_convs by done. done.
Qed.

(** ** UTC *)

Lemma toISO8601_print d : four_digits (gmtime_r (tv_sec d)) ->
  toISO8601 d = Ok (date_T_time (gmtime_r (tv_sec d)) +:+ "Z").
Proof.
  intros H. destruct (date_T_time_plain _ (printable_gmtime _ H)) as [Hl _].
  unfold toISO8601, strftime. change (conversions "%FT%TZ") with (conversions "%FT%T" ++ [CLit "Z"]).
  rewrite print_date_T_time. cbn [print_convs print_conv]. rewrite app_nil_r_s, slen_app, Hl. done.
Qed.

Lemma parse_utc t : printable t -> local_time_exists t 0 ->
  parseISO8601 (date_T_time t +:+ "Z") = Ok (mkDateTime (timegm t) 0).
Proof.
  intros Ht Hm. destruct (date_T_time_plain t Ht) as [Hl Hn].
  unfold parseISO8601. rewrite slast_snoc, slen_app, Hl. cbn [existsb Nat.add slen String.length Nat.eqb orb negb].
  change (Ascii.eqb "Z" "Z") with true. cbv iota.
  rewrite c_str_id by (by rewrite sexists_app, Hn). unfold strptime.
  change (conversions "%FT%TZ") with (conversions "%FT%T" ++ [CLit "Z"]). rewrite scan_date_T_time by done.
  replace (scan_convs zone_colon [CLit "Z"] (scanned t 0) "Z") with (Some (scanned t 0, "")) by done.
  cbv iota zeta. change (zone_minutes ?s "" ?t) with (Ok t). cbv beta iota. unfold mbind, res_bind.
  rewrite (convertTZ_exists t 0) by done. cbn. do 2 f_equal. lia.
Qed.

(** ** Local time *)

Lemma ensure_colon_22 t off : printable t -> off mod 60 = 0 -> Z.abs off < 86400 ->
  ensure_colon 22 (date_T_time t +:+ print_zone off) = Ok (date_T_time t +:+ zone_text off).
Proof.
  intros Ht Hm Hr. destruct (date_T_time_plain t Ht) as [Hl Hn].
  unfold ensure_colon, print_zone, zone_text. rewrite app_assoc_s. set (D := date_T_time t) in *.
  replace (S 22) with (slen D + 4)%nat by lia. replace 22%nat with (slen D + 3)%nat by lia.
  rewrite !char_at_app_add, stake_app_add. set (m := Z.abs off / 60).
  assert (0 <= m < 1440) as Bm by (unfold m; Z.to_euclidean_division_equations; lia).
  assert (0 <= m mod 60 <= 99) as Bm1 by (Z.to_euclidean_division_equations; lia).
  assert (0 <= m / 60 <= 99) as Bm2 by (Z.to_euclidean_division_equations; lia).
  destruct (digit_char_10 (m mod 60 / 10)) as (_ & _ & _ & C); [Z.to_euclidean_division_equations; lia|].
  pose proof (sexists_pad2 _ Bm1) as N1. pose proof (sexists_pad2 _ Bm2) as N2.
  unfold pad2 in *. set (c := digit_char (m mod 60 / 10)) in *.
  cbn [String.append char_at String.get stake]. rewrite (proj2 (Ascii.eqb_neq _ _) C).
  rewrite !app_assoc_s, c_str_id; [by destruct (off <? 0)|].
  rewrite sexists_app, Hn. cbn [orb String.append].
  cbn [sexists] in N1, N2 |- *. rewrite !orb_false_iff in N1, N2.
  destruct N1 as (-> & -> & _), N2 as (-> & -> & _). by destruct (off <? 0).
Qed.

Lemma toISO8601_local_print d : let t := localtime_r (tv_sec d) in
  printable t -> toISO8601_local d = Ok (date_T_time t +:+ zone_text (tm_gmtoff t)).
Proof.
  cbv zeta. intros Ht. destruct (date_T_time_plain _ Ht) as [Hl _].
  unfold toISO8601_local, strftime. change (conversions "%FT%T%z") with (conversions "%FT%T" ++ [CZone]).
  rewrite print_date_T_time. cbn [print_convs print_conv]. rewrite app_nil_r_s, slen_app, Hl.
  assert (slen (print_zone (tm_gmtoff (localtime_r (tv_sec d)))) = 5%nat) as -> by done.
  cbn [Nat.add Nat.ltb Nat.leb]. cbv iota. unfold mbind, res_bind. destruct Ht as (Hr & Hy & Hm & Ho).
  by apply ensure_colon_22.
Qed.

(** [strtod] reads two digits. *)
Definition reads_minutes : Prop := forall m, 0 <= m < 60 ->
  exists x, strtod (pad2 m) = (x, "") /\ to_int x = Ok m /\ strtod_erange (pad2 m) = false.

(** The zone that [parseISO8601] makes of the text of zone [off]. *)
Definition zone_read (off : Z) : Z :=
  if zone_colon then off
  else (if off <? 0 then -1 else 1) * (Z.abs off / 3600 * 3600) + Z.abs off / 60 mod 60 * 60.

Lemma zone_text_plain off : off mod 60 = 0 -> Z.abs off < 86400 ->
  slen (zone_text off) = 6%nat /\ sexists (Ascii.eqb "000") (zone_text off) = false /\
  forall a, exists c, slast (a +:+ zone_text off) = Some c /\ c <> "Z"%char.
Proof.
  intros Hm Hr. destruct (zone_fields off Hm Hr) as (a & b & c & d & Ha & Hb & Hc & Hd & Ea & Eb & Ec & Ed & E1 & E2 & E).
  assert (0 <= Z.abs off / 60 mod 60 <= 99) as B1 by lia.
  assert (0 <= Z.abs off / 60 / 60 <= 99) as B2 by lia.
  pose proof (sexists_pad2 _ B1) as N1. pose proof (sexists_pad2 _ B2) as N2.
  unfold zone_text. split; [done|]. split.
  - cbn [sexists]. rewrite !sexists_app, N1, N2. by destruct (off <? 0).
  - intros s. exists (digit_char d). unfold pad2. rewrite Ed. split.
    + change (slast ?x) with (slast (s +:+ ((String (if off <? 0 then "-"%char else "+"%char)
        (String (digit_char (Z.abs off / 60 / 60 / 10)) (String (digit_char ((Z.abs off / 60 / 60) mod 10))
          (String ":" (String (digit_char (Z.abs off / 60 mod 60 / 10)) "")))))) +:+ String (digit_char d) "")).
      rewrite <- app_assoc_s. apply slast_snoc.
    + intros E'. destruct (digit_char_10 d Hd) as [H _]. rewrite E' in H. change (Some 35 = Some d) in H. injection H. lia.
Qed.

Lemma parse_local t off : printable t -> off mod 60 = 0 -> Z.abs off < 86400 -> reads_minutes ->
  local_time_exists t (zone_read off) ->
  parseISO8601 (date_T_time t +:+ zone_text off) = Ok (mkDateTime (timegm t - zone_read off) 0).
Proof.
  intros Ht Hm Hr Hmin Hex. destruct (date_T_time_plain t Ht) as [Hl Hn].
  destruct (zone_text_plain off Hm Hr) as (Hzl & Hzn & Hzs). destruct (Hzs (date_T_time t)) as (c & Hc & HcZ).
  unfold parseISO8601. rewrite Hc, (proj2 (Ascii.eqb_neq c "Z") HcZ), slen_app, Hl, Hzl.
  cbn [existsb Nat.add Nat.eqb orb negb]. cbv iota zeta. rewrite c_str_id by (by rewrite sexists_app, Hn, Hzn).
  unfold strptime. change (conversions "%FT%T%z") with (conversions "%FT%T" ++ [CZone]).
  rewrite scan_date_T_time by done. cbn [scan_convs scan_conv]. rewrite get_zone_text by done.
  unfold zone_read in *. destruct zone_colon.
  - cbv iota. change (zone_minutes ?s "" ?t) with (Ok t). unfold mbind, res_bind.
    change (set_gmtoff off (scanned t 0)) with (scanned t off). by rewrite convertTZ_exists.
  - set (h := (if off <? 0 then -1 else 1) * (Z.abs off / 3600 * 3600)) in *.
    set (m := Z.abs off / 60 mod 60) in *. assert (0 <= m < 60) as Bm by (apply Z.mod_pos_bound; lia).
    destruct (Hmin m Bm) as (x & Ex & Ei & Ee).
    assert (zone_minutes (date_T_time t +:+ zone_text off) (":" +:+ pad2 m) (set_gmtoff h (scanned t 0)) =
      Ok (scanned t (h + m * 60))) as ->.
    { unfold zone_minutes, pad2. cbn [String.append]. fold (pad2 m). rewrite Ex, Ei, Ee. cbn [mbind res_bind is_empty negb orb].
      rewrite andb_false_r. cbn. rewrite int_checked_ok by lia. done. }
    cbv iota. unfold mbind, res_bind. cbn [negb Ascii.eqb Bool.eqb]. rewrite convertTZ_exists by done. done.
Qed.

(** C40: times survive their text forms.  The UTC form is read back to the second,
    provided the machine's own zone has a local time with the same digits (the
    parser goes through local time).  The form with a zone is read back to the
    second in zones east of UTC and of whole hours; in a zone west of UTC with
    minutes, a C library that leaves the minutes to the code makes the time
    twice these minutes too early. *)
Theorem iso8601_roundtrip (d : DateTime) :
  let u := gmtime_r (tv_sec d) in
  let l := localtime_r (tv_sec d) in
  let off := zone_offset (tv_sec d) in
  (four_digits u -> local_time_exists u 0 ->
   exists s, toISO8601 d = Ok s /\ parseISO8601 s = Ok (mkDateTime (tv_sec d) 0)) /\
  (printable l -> reads_minutes -> local_time_exists l (zone_read off) ->
   exists s, toISO8601_local d = Ok s /\
     parseISO8601 s = Ok (mkDateTime
       (if zone_colon || (0 <=? off) then tv_sec d else tv_sec d - 2 * (Z.abs off / 60 mod 60) * 60) 0)).
Proof.
  cbv zeta. split.
  - intros Hy Hex. eexists. split; [by apply toISO8601_print|].
    rewrite parse_utc by (done || by apply printable_gmtime). unfold gmtime_r. rewrite timegm_breakdown. do 2 f_equal. lia.
  - intros Ht Hmin Hex. eexists. split; [by apply toISO8601_local_print|].
    assert (tm_gmtoff (localtime_r (tv_sec d)) = zone_offset (tv_sec d)) as E.
    { unfold localtime_r, breakdown. by destruct (civil_from_days _) as [[??]?]. }
    destruct Ht as (Hr & Hy & Hm & Ho). rewrite E in *. rewrite parse_local by done.
    unfold localtime_r at 1. rewrite timegm_breakdown. do 2 f_equal. unfold zone_read.
    set (off := zone_offset (tv_sec d)) in *.
    destruct zone_colon; cbn [orb]; [lia|].
    destruct (Z.ltb_spec off 0); destruct (Z.leb_spec 0 off); Z.to_euclidean_division_equations; lia.
Qed.
End Facts.

(** ** On concrete zones *)

(** [strtod] on numbers of two digits. *)
Definition two_digits : Strtod := {|
  strtod := fun s => match s with
    | String a (String b "") =>
      match digit_value a, digit_value b with
      | Some x, Some y => (of_int (x * 10 + y), "")
      | _, _ => (0%float, s)
      end
    | _ => (0%float, s)
    end;
  strtod_erange := fun _ => false
|}.

Lemma two_digits_reads : @reads_minutes two_digits.
Proof.
  intros m Hm.
  apply (zrange_forall (fun m => match @strtod two_digits (pad2 m) with
    | (x, "") => bool_decide (to_int x = Ok m) | _ => false end) 0 60) in Hm; [|by_compute].
  destruct (@strtod two_digits (pad2 m)) as [x [|]]; [|done]. exists x. by apply bool_decide_eq_true in Hm.
Qed.

Lemma fixed_zone_exists off colon t z : timegm (set_isdst (-1) (scanned t z)) - off <> -1 ->
  @local_time_exists (fixed_zone off colon) t z.
Proof.
  intros H. unfold local_time_exists. cbn [mktime fixed_zone]. split; [done|].
  replace (timegm (set_isdst (-1) (scanned t z))) with (timegm t) by done. lia.
Qed.

(** In Newfoundland, 3 hours and 30 minutes west of UTC. *)
Lemma iso8601_roundtrip_witness :
  let zone := fixed_zone (-12600) false in
  let sd := two_digits in
  (exists s, toISO8601 (mkDateTime 1396146600 0) = Ok s /\
     @parseISO8601 zone sd s = Ok (mkDateTime 1396146600 0)) /\
  (exists s, @toISO8601_local zone (mkDateTime 1396146600 0) = Ok s /\
     @parseISO8601 zone sd s = Ok (mkDateTime (1396146600 - 2 * 30 * 60) 0)).
Proof.
  cbv zeta. destruct (@iso8601_roundtrip (fixed_zone (-12600) false) two_digits (mkDateTime 1396146600 0)) as [H1 H2].
  split.
  - apply H1; [split; vm_compute; discriminate|]. apply fixed_zone_exists. vm_compute. discriminate.
  - apply H2; [|exact two_digits_reads|apply fixed_zone_exists; vm_compute; discriminate].
    split; [apply breakdown_in_ranges|]. vm_compute. repeat split; discriminate.
Defined.

(** Central Europe in 2014: at 01:00 UTC of 30 March the clock goes from 02:00
    to 03:00; [mktime] takes the skipped times for winter time. *)
Definition spring : Libc :=
  let change := 1396141200 in {|
  zone_offset := fun s => if s <? change then 3600 else 7200;
  zone_isdst := fun s => if s <? change then 0 else 1;
  mktime := fun t =>
    let g := timegm t in
    if g - 3600 <? change then (g - 3600, 3600)
    else if change <=? g - 7200 then (g - 7200, 7200) else (g - 3600, 7200);
  zone_colon := true
|}.

(** 02:30 UTC is not a local time of that day, and is read an hour late. *)
Lemma iso8601_lost_hour :
  toISO8601 (mkDateTime 1396146600 0) = Ok "2014-03-30T02:30:00Z" /\
  @parseISO8601 spring two_digits "2014-03-30T02:30:00Z" = Ok (mkDateTime (1396146600 + 3600) 0).
Proof. by_compute. Qed.
