(* ===== verification/Event.v ===== *)
(** [src/src/event.h] and [event.cpp]: [Event] with its properties, property
    filters and [EventSubscription::matches]; [src/src/base.cpp]: [Properties].

    Model items an event is raised at are given by numbers. *)
From stdpp Require Import base option list strings gmap.
From Stdlib Require Import ZArith Lia Ascii.
From Stdlib Require String.
From S2P Require Import Prelude CxxString Base NumConv DateTools.

Open Scope string_scope.
Open Scope list_scope.
Open Scope Z_scope.

(** * [class Properties] *)

(** [m_Container], an unordered map. *)
Notation Properties := (gmap string string).

Definition props_has (p : Properties) (_key : string) : bool := bool_decide (is_Some (p !! _key)).
Definition props_set (_key _value : string) (p : Properties) : Properties := <[_key := _value]> p.
Definition props_get (p : Properties) (_key : string) : res string :=
  match p !! _key with
  | Some v => Ok v
  | None => Throw (RuntimeError ("could not find value for '" +:+ _key +:+ "' in properties"))
  end.
Definition props_get_default (p : Properties) (_key _default : string) : string := default _default (p !! _key).
Definition props_unset (_key : string) (p : Properties) : bool * Properties :=
  (props_has p _key, delete _key p).

(** * [class Event] *)

Inductive EventRaiseLocation := erlGroup | erlDevice | erlApartment | erlState.
#[global] Instance EventRaiseLocation_eq_dec : EqDecision EventRaiseLocation.
Proof. solve_decision. Defined.

Definition raise_location_toString (loc : EventRaiseLocation) : string :=
  match loc with
  | erlGroup => "group"
  | erlDevice => "device"
  | erlApartment => "apartment"
  | erlState => "state"
  end.

Record Event := mkEvent {
  ev_Name : string;
  ev_Location : string;
  ev_LocationSet : bool;
  ev_Context : string;
  ev_ContextSet : bool;
  ev_Time : string;
  ev_TimeSet : bool;
  ev_RaiseLocation : EventRaiseLocation;
  ev_RaisedAtGroup : option nat;
  ev_RaisedAtState : option nat;
  ev_RaisedAtDevice : option nat;
  ev_Properties : Properties;
  ev_timestamp : DateTime
}.

(** The constructors; [now] is the clock when the object is made. *)
Definition new_event (now : DateTime) (_name : string) (loc : EventRaiseLocation)
    (group state device : option nat) : Event :=
  mkEvent _name "" false "" false "" false loc group state device ∅ now.
Definition Event_name now _name : Event := new_event now _name erlApartment None None None.
Definition Event_group now _name (_group : nat) : Event := new_event now _name erlGroup (Some _group) None None.
Definition Event_state now _name (_state : nat) : Event := new_event now _name erlState None (Some _state) None.
Definition Event_device now _name (_reference : nat) : Event :=
  new_event now _name erlDevice None None (Some _reference).
Definition Event_unnamed now : Event := new_event now "unnamed_event" erlDevice None None None.

Definition ev_setLocation (v : string) (e : Event) : Event :=
  mkEvent (ev_Name e) v true (ev_Context e) (ev_ContextSet e) (ev_Time e) (ev_TimeSet e) (ev_RaiseLocation e)
    (ev_RaisedAtGroup e) (ev_RaisedAtState e) (ev_RaisedAtDevice e) (ev_Properties e) (ev_timestamp e).
Definition ev_setContext (v : string) (e : Event) : Event :=
  mkEvent (ev_Name e) (ev_Location e) (ev_LocationSet e) v true (ev_Time e) (ev_TimeSet e) (ev_RaiseLocation e)
    (ev_RaisedAtGroup e) (ev_RaisedAtState e) (ev_RaisedAtDevice e) (ev_Properties e) (ev_timestamp e).
Definition ev_setTime (v : string) (e : Event) : Event :=
  mkEvent (ev_Name e) (ev_Location e) (ev_LocationSet e) (ev_Context e) (ev_ContextSet e) v true (ev_RaiseLocation e)
    (ev_RaisedAtGroup e) (ev_RaisedAtState e) (ev_RaisedAtDevice e) (ev_Properties e) (ev_timestamp e).
Definition ev_setProperties (p : Properties) (e : Event) : Event :=
  mkEvent (ev_Name e) (ev_Location e) (ev_LocationSet e) (ev_Context e) (ev_ContextSet e) (ev_Time e) (ev_TimeSet e)
    (ev_RaiseLocation e) (ev_RaisedAtGroup e) (ev_RaisedAtState e) (ev_RaisedAtDevice e) p (ev_timestamp e).

(** [EventProperty] *)
Definition p_Name : string := "name".
Definition p_Location : string := "location".
Definition p_Context : string := "context".
Definition p_Time : string := "time".
Definition p_ICalStartTime : string := "iCalStartTime".
Definition p_ICalRRule : string := "iCalRRule".
Definition p_Unique : string := "unique".

Definition ev_getPropertyByName (e : Event) (_name : string) : string :=
  if String.eqb _name p_Name then ev_Name e
  else if String.eqb _name p_Location then ev_Location e
  else if String.eqb _name p_Context then ev_Context e
  else if String.eqb _name p_Time then ev_Time e
  else props_get_default (ev_Properties e) _name "".

(** [getPropertyByName<SensorType>]; [UnknownType] is 255. *)
Definition ev_getSensorType (e : Event) (value : string) : res Z :=
  let strValue := ev_getPropertyByName e value in
  if String.eqb strValue "" then Ok 255 else strToInt strValue.

Definition ev_hasPropertySet (e : Event) (_name : string) : bool :=
  if String.eqb _name p_Name then true
  else if String.eqb _name p_Location then ev_LocationSet e
  else if String.eqb _name p_Context then ev_ContextSet e
  else if String.eqb _name p_Time then ev_TimeSet e
  else props_has (ev_Properties e) _name.

Definition ev_unsetProperty (_name : string) (e : Event) : Event :=
  if String.eqb _name p_Location then
    mkEvent (ev_Name e) "" false (ev_Context e) (ev_ContextSet e) (ev_Time e) (ev_TimeSet e) (ev_RaiseLocation e)
      (ev_RaisedAtGroup e) (ev_RaisedAtState e) (ev_RaisedAtDevice e) (ev_Properties e) (ev_timestamp e)
  else if String.eqb _name p_Context then
    mkEvent (ev_Name e) (ev_Location e) (ev_LocationSet e) "" false (ev_Time e) (ev_TimeSet e) (ev_RaiseLocation e)
      (ev_RaisedAtGroup e) (ev_RaisedAtState e) (ev_RaisedAtDevice e) (ev_Properties e) (ev_timestamp e)
  else if String.eqb _name p_Time then
    mkEvent (ev_Name e) (ev_Location e) (ev_LocationSet e) (ev_Context e) (ev_ContextSet e) "" false (ev_RaiseLocation e)
      (ev_RaisedAtGroup e) (ev_RaisedAtState e) (ev_RaisedAtDevice e) (ev_Properties e) (ev_timestamp e)
  else ev_setProperties (snd (props_unset _name (ev_Properties e))) e.

Definition ev_setProperty (_name _value : string) (e : Event) : bool * Event :=
  if negb (String.eqb _name "") then
    (true,
     if String.eqb _name p_Location then ev_setLocation _value e
     else if String.eqb _name p_Context then ev_setContext _value e
     else if String.eqb _name p_Time then ev_setTime _value e
     else ev_setProperties (props_set _name _value (ev_Properties e)) e)
  else (false, e).

(** The overload for [int] writes the property map directly. *)
Definition ev_setProperty_int (name : string) (value : Z) (e : Event) : Event :=
  ev_setProperties (props_set name (intToString value false) (ev_Properties e)) e.

(** Several calls of [setProperty] in a row. *)
Definition ev_set_all (l : list (string * string)) (e : Event) : Event :=
  fold_left (fun e '(n, v) => snd (ev_setProperty n v e)) l e.

Definition ev_isReplacementFor (e _other : Event) : bool :=
  String.eqb (ev_Name e) (ev_Name _other) &&
  String.eqb (ev_getPropertyByName e "context") (ev_getPropertyByName _other "context") &&
  String.eqb (ev_getPropertyByName e "location") (ev_getPropertyByName _other "location").

(** The order of an unordered map is unspecified; the keys differ, so that it
    does not matter. *)
Definition ev_applyProperties (_others : Properties) (e : Event) : Event :=
  map_fold (fun k v e => snd (ev_setProperty k v e)) e _others.

(** * Filters and subscriptions *)

(** The classes derived from [EventPropertyFilter]. *)
Inductive EventPropertyFilter :=
| EventPropertyMatchFilter (m_PropertyName m_Value : string)
| EventPropertyExistsFilter (m_PropertyName : string)
| EventPropertyMissingFilter (m_PropertyName : string).

Definition filter_matches (f : EventPropertyFilter) (_event : Event) : bool :=
  match f with
  | EventPropertyMatchFilter p v => String.eqb (ev_getPropertyByName _event p) v
  | EventPropertyExistsFilter p => ev_hasPropertySet _event p
  | EventPropertyMissingFilter p => negb (ev_hasPropertySet _event p)
  end.

Inductive EventPropertyFilterOption := foMatchNone | foMatchAll | foMatchOne.
#[global] Instance EventPropertyFilterOption_eq_dec : EqDecision EventPropertyFilterOption.
Proof. solve_decision. Defined.

(** [class SubscriptionOptions]: its parameters. *)
Notation SubscriptionOptions := (gmap string string).

Record EventSubscription := mkSubscription {
  es_EventName : string;
  es_HandlerName : string;
  es_ID : string;
  es_Options : option SubscriptionOptions;
  es_Filter : list EventPropertyFilter;
  es_FilterOption : EventPropertyFilterOption
}.

Definition es_addPropertyFilter (f : EventPropertyFilter) (s : EventSubscription) : EventSubscription :=
  mkSubscription (es_EventName s) (es_HandlerName s) (es_ID s) (es_Options s) (es_Filter s ++ [f]) (es_FilterOption s).
Definition es_setFilterOption (o : EventPropertyFilterOption) (s : EventSubscription) : EventSubscription :=
  mkSubscription (es_EventName s) (es_HandlerName s) (es_ID s) (es_Options s) (es_Filter s) o.

(** The loop of [matches]; with [foMatchOne] a filter that matches is cast to
    [EventPropertyMatchFilter&], which throws for the other classes. *)
Fixpoint match_filters (opt : EventPropertyFilterOption) (_event : Event) (fMatch : bool)
    (fs : list EventPropertyFilter) : res bool :=
  match fs with
  | [] => Ok fMatch
  | f :: fs =>
    if filter_matches f _event then
      match opt with
      | foMatchOne =>
        match f with
        | EventPropertyMatchFilter _ _ => Ok true
        | _ => Throw (BadCast "EventPropertyMatchFilter")
        end
      | foMatchNone => Ok false
      | foMatchAll => match_filters opt _event true fs
      end
    else
      match opt with
      | foMatchAll => Ok false
      | _ => match_filters opt _event fMatch fs
      end
  end.

Definition es_matches (s : EventSubscription) (_event : Event) : res bool :=
  match es_Filter s with
  | [] => Ok true
  | fs => match_filters (es_FilterOption s) _event false fs
  end.

(** * Facts *)

Definition special (n : string) : bool :=
  String.eqb n p_Name || String.eqb n p_Location || String.eqb n p_Context || String.eqb n p_Time.

(** The key by which unique events replace each other. *)
Definition ev_key (e : Event) : string * string * string := (ev_Name e, ev_Context e, ev_Location e).

Lemma isReplacementFor_key e e' : ev_isReplacementFor e e' = true <-> ev_key e = ev_key e'.
Proof.
  unfold ev_isReplacementFor, ev_key. change (ev_getPropertyByName ?e "context") with (ev_Context e).
  change (ev_getPropertyByName ?e "location") with (ev_Location e).
  rewrite !andb_true_iff, !String.eqb_eq. split; [by intros [[-> ->] ->]|by intros [= -> -> ->]].
Qed.

Lemma ev_key_setProperties p e : ev_key (ev_setProperties p e) = ev_key e.
Proof. reflexivity. Qed.
Lemma ev_key_setTime v e : ev_key (ev_setTime v e) = ev_key e.
Proof. reflexivity. Qed.

Lemma ev_key_unset_time e : ev_key (ev_unsetProperty p_Time e) = ev_key e.
Proof. reflexivity. Qed.

(** What is set after [unsetProperty]. *)
Lemma has_unset n m e :
  ev_hasPropertySet (ev_unsetProperty n e) m =
  if String.eqb m n && negb (String.eqb n p_Name) then false else ev_hasPropertySet e m.
Proof.
  unfold ev_unsetProperty, ev_hasPropertySet, props_has, props_unset.
  repeat case_str; subst; try done; cbn; f_equal.
  - apply bool_decide_eq_false_2. rewrite lookup_delete_eq. by intros [? ?].
  - by rewrite lookup_delete_ne.
  - by rewrite lookup_delete_ne.
Qed.

Lemma unique_unset n e : n <> p_Unique ->
  ev_getPropertyByName (ev_unsetProperty n e) p_Unique = ev_getPropertyByName e p_Unique.
Proof.
  intros Hn. unfold ev_unsetProperty, ev_getPropertyByName, props_get_default, props_unset.
  repeat case_str; subst; try done. cbn. by rewrite lookup_delete_ne.
Qed.

(** The properties of an event behave like a map over their names: after
    [setProperty] a property is set and has the value, after [unsetProperty]
    it is not set and reads as the empty string, and all other properties
    are unchanged in both cases; the name is the exception: writing the
    property called name fills a slot that is never read. *)
Theorem event_properties_map (e : Event) (n m v : string) :
  n <> "" ->
  (n <> p_Name -> ev_getPropertyByName (snd (ev_setProperty n v e)) n = v /\
                  ev_hasPropertySet (snd (ev_setProperty n v e)) n = true /\
                  ev_getPropertyByName (ev_unsetProperty n e) n = "" /\
                  ev_hasPropertySet (ev_unsetProperty n e) n = false) /\
  (m <> n -> ev_getPropertyByName (snd (ev_setProperty n v e)) m = ev_getPropertyByName e m /\
             ev_hasPropertySet (snd (ev_setProperty n v e)) m = ev_hasPropertySet e m /\
             ev_getPropertyByName (ev_unsetProperty n e) m = ev_getPropertyByName e m /\
             ev_hasPropertySet (ev_unsetProperty n e) m = ev_hasPropertySet e m) /\
  (forall m, ev_getPropertyByName (snd (ev_setProperty p_Name v e)) m = ev_getPropertyByName e m).
Proof.
  intros Hn.
  assert (forall a b : string, a <> b -> String.eqb a b = false) as Hneq by (intros; by apply String.eqb_neq).
  unfold ev_setProperty. rewrite (Hneq n "") by done. cbn [negb].
  unfold ev_unsetProperty, ev_getPropertyByName, ev_hasPropertySet, props_has, props_get_default, props_set, props_unset.
  split_and!.
  - intros Hname. rewrite (Hneq n p_Name) by done.
    repeat case_str; subst; try done; cbn.
    split_and!; try done.
    + by rewrite lookup_insert_eq.
    + apply bool_decide_eq_true_2. by rewrite lookup_insert_eq.
    + by rewrite lookup_delete_eq.
    + apply bool_decide_eq_false_2. rewrite lookup_delete_eq. by intros [? ?].
  - intros Hm. repeat case_str; subst; try done; cbn;
      rewrite ?lookup_insert_ne, ?lookup_delete_ne by done; done.
  - intros k. cbn. repeat case_str; subst; try done. cbn. by rewrite lookup_insert_ne.
Qed.

Lemma event_properties_map_witness :
  ev_getPropertyByName (snd (ev_setProperty "zone" "3" (Event_name NullDate "callScene"))) "zone" = "3".
Proof.
  exact (proj1 (proj1 (event_properties_map (Event_name NullDate "callScene") "zone" "context" "3"
    ltac:(discriminate)) ltac:(discriminate))).
Defined.

(** A subscription without filters matches every event; with filters,
    "all" is the conjunction of the filters and "one" is true from the first
    filter that matches, but throws [std::bad_cast] when that filter is not a
    match filter; "none" never matches: it answers false both when a filter
    matches and when none does. *)
Theorem es_matches_spec (s : EventSubscription) (e : Event) :
  (es_Filter s = [] -> es_matches s e = Ok true) /\
  (es_Filter s <> [] ->
   es_matches s e =
     match es_FilterOption s with
     | foMatchAll => Ok (forallb (fun f => filter_matches f e) (es_Filter s))
     | foMatchNone => Ok false
     | foMatchOne =>
       match List.find (fun f => filter_matches f e) (es_Filter s) with
       | None => Ok false
       | Some (EventPropertyMatchFilter _ _) => Ok true
       | Some _ => Throw (BadCast "EventPropertyMatchFilter")
       end
     end).
Proof.
  unfold es_matches. split; [by intros ->|]. intros Hne.
  assert (forall fs b, match_filters foMatchAll e b fs =
            Ok (if decide (fs = []) then b else forallb (fun f => filter_matches f e) fs)) as Hall.
  { induction fs as [|f fs IH]; intros b; [done|]. cbn. destruct (filter_matches f e); [|done]. rewrite IH.
    by destruct fs. }
  assert (forall fs, match_filters foMatchNone e false fs = Ok false) as Hnone.
  { induction fs as [|f fs IH]; [done|]. cbn. by destruct (filter_matches f e). }
  destruct (es_Filter s) as [|f fs] eqn:E; [done|]. rewrite <- E.
  destruct (es_FilterOption s).
  - apply Hnone.
  - rewrite Hall, E. by destruct decide.
  - rewrite E. clear E Hne. revert f. induction fs as [|g fs IH]; intros f; cbn [match_filters List.find].
    + destruct (filter_matches f e); [by destruct f|done].
    + destruct (filter_matches f e); [by destruct f|]. apply IH.
Qed.
