(* ===== verification/EventCreate.v ===== *)
(** [src/src/event/event_create.cpp]: the names of events and the functions
    that make the events of the program ([createStateChangeEvent] is in
    [State.v]), with [src/src/event/event_fields.cpp].

    [now] is the clock when the event object is made, groups and devices are
    given by number.  The messages of virtual devices are generated code: of a
    message the fields that are set are given. *)
From stdpp Require Import base option list strings gmap.
From Stdlib Require Import ZArith Lia Ascii PrimFloat.
From Stdlib Require String.
From S2P Require Import Prelude CxxString Base NumConv FloatConv Ds485types ModelConst DataTypes.
From S2P Require Import SensorConversion Calendar DateTools Event.

Open Scope string_scope.
Open Scope list_scope.
Open Scope Z_scope.

(** * Names *)

Module EventName.
Definition CallScene : string := "callScene".
Definition CallSceneBus : string := "callSceneBus".
Definition DeviceSensorValue : string := "deviceSensorValue".
Definition DeviceSensorEvent : string := "deviceSensorEvent".
Definition DeviceStatus : string := "deviceStatusEvent".
Definition DeviceInvalidSensor : string := "deviceInvalidSensor".
Definition DeviceBinaryInputEvent : string := "deviceBinaryInputEvent".
Definition DeviceCustomActionChangedEvent : string := "deviceCustomActionChangedEvent".
Definition DeviceActionEvent : string := "deviceActionEvent".
Definition DeviceStateEvent : string := "deviceStateEvent".
Definition DeviceEventEvent : string := "deviceEventEvent".
Definition DeviceButtonClick : string := "buttonClick".
Definition IdentifyBlink : string := "blink".
Definition ExecutionDenied : string := "executionDenied".
Definition Running : string := "running".
Definition ModelReady : string := "model_ready".
Definition UndoScene : string := "undoScene".
Definition ZoneSensorValue : string := "zoneSensorValue".
Definition ZoneSensorError : string := "zoneSensorError".
Definition StateChange : string := "stateChange".
Definition AddonStateChange : string := "addonStateChange".
Definition HeatingEnabled : string := "HeatingEnabled".
Definition HeatingSystemCapability : string := "HeatingSystemCapability".
Definition HeatingControllerSetup : string := "HeatingControllerSetup".
Definition HeatingControllerValue : string := "HeatingControllerValue".
Definition HeatingControllerValueDsHub : string := "HeatingControllerValueDsHub".
Definition HeatingControllerState : string := "HeatingControllerState".
Definition OldStateChange : string := "oldStateChange".
Definition HighLevelEvent : string := "highlevelevent".
Definition AddonToCloud : string := "AddonToCloud".
Definition HeatingValveProtection : string := "execute_valve_protection".
Definition DeviceHeatingTypeChanged : string := "DeviceHeatingTypeChanged".
Definition UpdateAutoselect : string := "UpdateAutoselect".
Definition LogFileData : string := "logFileData".
Definition DebugMonitorUpdate : string := "debugMonitorUpdate".
Definition Sunshine : string := "sunshine".
Definition FrostProtection : string := "frostprotection".
Definition HeatingModeSwitch : string := "heating_mode_switch".
Definition BuildingService : string := "building_service".
Definition OperationLock : string := "operation_lock".
Definition ClusterConfigLock : string := "cluster_config_lock".
Definition CheckSensorValues : string := "check_sensor_values".
Definition DeviceEvent : string := "DeviceEvent".
Definition CheckHeatingGroups : string := "check_heating_groups".
Definition UpdateTemperatureControlMeters : string := "updateTemperatureControlMeters".
Definition Signal : string := "SIGNAL".
Definition WebSessionCleanup : string := "webSessionCleanup".
Definition SendMail : string := "sendmail".
Definition ButtonClickBus : string := "buttonClickBus".
Definition DSMeterReady : string := "dsMeter_ready".
Definition ExecutionDeniedDigestCheck : string := "execution_denied_digest_check".
Definition DevicesFirstSeen : string := "devices_first_seen".
Definition DatabaseImported : string := "database_imported".
Definition ButtonDeviceAction : string := "buttonDeviceAction".
Definition SceneNameChanged : string := "scene_name_changed".
Definition ReexportTimings : string := "reexport_timings".
Definition AutoClusterUpdate : string := "autocluster_update".
End EventName.

(** [event_fields.cpp] *)
Definition ef_callOrigin : string := "callOrigin".
Definition ef_originDSUID : string := "originDSUID".
Definition ef_zone : string := "zone".
Definition ef_group : string := "group".
Definition ef_scene : string := "scene".
Definition ef_sceneID : string := "sceneID".
Definition ef_dsuid : string := "dsuid".
Definition ef_forced : string := "forced".
Definition ef_sensorEvent : string := "sensorEvent".
Definition ef_sensorIndex : string := "sensorIndex".
Definition ef_eventid : string := "eventid".
Definition ef_evt : string := "evt".

(** * Helpers *)

(** [setProperty] of a text and of a number, in a row. *)
Inductive property := PStr (n v : string) | PInt (n : string) (v : Z).

Definition set_property (e : Event) (p : property) : Event :=
  match p with
  | PStr n v => snd (ev_setProperty n v e)
  | PInt n v => ev_setProperty_int n v e
  end.
Definition set_properties (l : list property) (e : Event) : Event := fold_left set_property l e.

Definition int (z : Z) : string := intToString z false.
Definition bool_text (b : bool) : string := if b then "true" else "false".

(** [vdcapi::PropertyValue]: the optional fields that are set. *)
Record PropertyValue := mkPropertyValue {
  v_bool : option bool; v_double : option float; v_int64 : option Z; v_uint64 : option Z; v_string : option string
}.
(** [vdcapi::PropertyElement] *)
Record PropertyElement := mkPropertyElement { pe_name : option string; pe_value : option PropertyValue }.

Section Create.
Context {DU : Dsuid} {LC : Libc}.
(** Printing of a [double] with 12 digits; [pow(10, x)]. *)
Context (doubleToString : float -> string) (pow10 : float -> float).
Context (now : DateTime).

(** [src/src/util.cpp]: the last field that is set counts. *)
Definition propertyValue2String (pvalue : PropertyValue) : string :=
  let value := match v_bool pvalue with Some b => if b then "active" else "inactive" | None => "" end in
  let value := match v_double pvalue with Some d => doubleToString d | None => value end in
  let value := match v_int64 pvalue with Some z => intToString z false | None => value end in
  let value := match v_uint64 pvalue with Some z => uintToString z false | None => value end in
  match v_string pvalue with Some s => s | None => value end.

(** * Devices *)

Definition createDeviceStatusEvent (_devRef : nat) (_index _value : Z) : Event :=
  set_properties [PStr "statusIndex" (int _index); PStr "statusValue" (int _value)]
    (Event_device now EventName.DeviceStatus _devRef).

Definition createDeviceBinaryInputEvent (_devRef : nat) (_index : Z) (_type : BinaryInputType.t) (_state : Z) : Event :=
  set_properties [PStr "inputIndex" (int _index); PInt "inputType" (BinaryInputType.to_Z _type); PInt "inputState" _state]
    (Event_device now EventName.DeviceBinaryInputEvent _devRef).

(** The parameters of an action; elements without name or value are left out. *)
Definition action_params (params : list PropertyElement) (p : Properties) : Properties :=
  fold_left (fun p e =>
    match pe_name e, pe_value e with
    | Some n, Some v => props_set ("params." +:+ n) (propertyValue2String v) p
    | _, _ => p
    end) params p.

Definition createDeviceCustomActionChangedEvent (_devRef : nat) (name action title : string)
    (params : list PropertyElement) : Event :=
  ev_setProperties
    (action_params params (props_set "customActionTitle" title (props_set "actionId" action (props_set "customActionId" name ∅))))
    (Event_device now EventName.DeviceCustomActionChangedEvent _devRef).

Definition createDeviceActionEvent (_devRef : nat) (name : string) (params : list PropertyElement) : Event :=
  ev_setProperties (action_params params (props_set "actionId" name ∅))
    (Event_device now EventName.DeviceActionEvent _devRef).

Definition createDeviceStateEvent (_devRef : nat) (name value : string) : Event :=
  set_properties [PStr "stateId" name; PStr "value" value] (Event_device now EventName.DeviceStateEvent _devRef).

Definition createDeviceEventEvent (_devRef : nat) (name : string) : Event :=
  set_properties [PStr "eventId" name] (Event_device now EventName.DeviceEventEvent _devRef).

Definition createDeviceSensorValueEvent (_devRef : nat) (_index : Z) (_type : SensorType.t) (_value : Z) : res Event :=
  floatValue ← sensorValueToDouble pow10 _type _value;
  Ok (set_properties [PStr ef_sensorIndex (int _index); PInt "sensorType" (SensorType.to_Z _type);
        PStr "sensorValue" (int _value); PStr "sensorValueFloat" (doubleToString floatValue)]
      (Event_device now EventName.DeviceSensorValue _devRef)).

(** [_age] and [_contextId] are [uint32_t]; the age is cast to [int] and
    negated. *)
Definition createDeviceSensorValueExEvent (_devRef : nat) (_index : Z) (_type : SensorType.t) (_value : float)
    (_age _contextId : Z) (_contextMsg : string) : res Event :=
  let event := set_properties [PStr ef_sensorIndex (int _index); PInt "sensorType" (SensorType.to_Z _type);
        PStr "sensorValueFloat" (doubleToString _value); PStr "contextId" (int _contextId);
        PStr "contextMsg" _contextMsg]
      (Event_device now EventName.DeviceSensorValue _devRef) in
  if _age >? 0 then
    ms ← int_checked (int32 _age * -1);
    t ← addMilliSeconds ms now;
    ts ← toISO8601_ms t;
    Ok (set_properties [PStr "contextTimestamp" ts] event)
  else Ok event.

Definition createDeviceInvalidSensorEvent (_devRef : nat) (_index : Z) (_type : SensorType.t) (_ts : DateTime) : res Event :=
  ts ← toISO8601_ms _ts;
  Ok (set_properties [PStr ef_sensorIndex (int _index); PInt "sensorType" (SensorType.to_Z _type); PStr "lastValueTS" ts]
      (Event_device now EventName.DeviceInvalidSensor _devRef)).

(** * Groups *)

Definition createZoneSensorValueEvent (_group : nat) (_type : SensorType.t) (_value : Z) (_sourceDevice : dsuid_t) : res Event :=
  floatValue ← sensorValueToDouble pow10 _type _value;
  Ok (set_properties [PInt "sensorType" (SensorType.to_Z _type); PStr "sensorValue" (int _value);
        PStr "sensorValueFloat" (doubleToString floatValue); PStr "originDSID" (dsuid2str _sourceDevice)]
      (Event_group now EventName.ZoneSensorValue _group)).

Definition createZoneSensorErrorEvent (_group : nat) (_type : SensorType.t) (_ts : DateTime) : res Event :=
  ts ← toISO8601_ms _ts;
  Ok (set_properties [PInt "sensorType" (SensorType.to_Z _type); PStr "lastValueTS" ts]
      (Event_group now EventName.ZoneSensorError _group)).

Definition createGroupCallSceneEvent (_group : nat) (_sceneID _groupID _zoneID _callOrigin : Z)
    (_originDSUID : dsuid_t) (_originToken : string) (_forced : bool) : Event :=
  set_properties ([PStr ef_sceneID (int _sceneID); PStr "groupID" (int _groupID); PStr "zoneID" (int _zoneID);
      PStr ef_originDSUID (dsuid2str _originDSUID); PStr ef_callOrigin (int _callOrigin); PStr "originToken" _originToken] ++
      (if _forced then [PStr ef_forced "true"] else []))
    (Event_group now EventName.CallScene _group).

Definition createGroupUndoSceneEvent (_group : nat) (_sceneID _groupID _zoneID _callOrigin : Z)
    (_originDSUID : dsuid_t) (_originToken : string) : Event :=
  set_properties [PStr ef_sceneID (int _sceneID); PStr "groupID" (int _groupID); PStr "zoneID" (int _zoneID);
      PStr ef_originDSUID (dsuid2str _originDSUID); PStr ef_callOrigin (int _callOrigin); PStr "originToken" _originToken]
    (Event_group now EventName.UndoScene _group).

(** [bool] converts to 0 or 1. *)
Definition lock_properties (_zoneID _groupID : Z) (_lock : bool) (_origin : Z) : list property :=
  [PStr "zoneID" (int _zoneID); PStr "groupID" (int _groupID); PStr "lock" (int (if _lock then 1 else 0));
   PStr ef_callOrigin (int _origin)].

Definition createOperationLockEvent (_group : nat) (_zoneID _groupID : Z) (_lock : bool) (_origin : Z) : Event :=
  set_properties (lock_properties _zoneID _groupID _lock _origin) (Event_group now EventName.OperationLock _group).

Definition createClusterConfigLockEvent (_group : nat) (_zoneID _groupID : Z) (_lock : bool) (_origin : Z) : Event :=
  set_properties (lock_properties _zoneID _groupID _lock _origin) (Event_group now EventName.ClusterConfigLock _group).

(** * The apartment *)

Definition createActionDenied (_type _name _source _reason : string) : Event :=
  set_properties [PStr "action-type" _type; PStr "action-name" _name; PStr "source-name" _source; PStr "reason" _reason]
    (Event_name now EventName.ExecutionDenied).

Definition createHeatingEnabled (_heatingEnabled _coolingEnabled : bool) : Event :=
  set_properties [PStr "HeatingEnabled" (bool_text _heatingEnabled); PStr "CoolingEnabled" (bool_text _coolingEnabled)]
    (Event_name now EventName.HeatingEnabled).

Definition createHeatingSystemCapability (_heatingSupported _coolingSupported : bool) : Event :=
  set_properties [PStr "HeatingSupported" (bool_text _heatingSupported); PStr "CoolingSupported" (bool_text _coolingSupported)]
    (Event_name now EventName.HeatingSystemCapability).

Definition createHeatingControllerConfig (_zoneID : Z) (_ctrlDsuid : dsuid_t) (_config : ZoneHeatingConfigSpec_t) : Event :=
  set_properties ([PStr "ZoneID" (int _zoneID); PStr "ControlDSUID" (dsuid2str _ctrlDsuid);
      PStr "ControlMode" (int (wrapU 8 (HeatingControlMode.to_Z (hc_mode _config))));
      PStr "EmergencyValue" (int (hc_EmergencyValue _config - 100))] ++
    match hc_mode _config with
    | HeatingControlMode.PID =>
      [PStr "CtrlKp" (doubleToString (of_int (hc_Kp _config) * 0.025)%float); PStr "CtrlTs" (int (hc_Ts _config));
       PStr "CtrlTi" (int (hc_Ti _config)); PStr "CtrlKd" (int (hc_Kd _config));
       PStr "CtrlImin" (doubleToString (of_int (hc_Imin _config) * 0.025)%float);
       PStr "CtrlImax" (doubleToString (of_int (hc_Imax _config) * 0.025)%float);
       PStr "CtrlYmin" (int (hc_Ymin _config - 100)); PStr "CtrlYmax" (int (hc_Ymax _config - 100));
       PStr "CtrlAntiWindUp" (bool_text (hc_AntiWindUp _config >? 0));
       PStr "CtrlKeepFloorWarm" (bool_text (hc_KeepFloorWarm _config >? 0))]
    | HeatingControlMode.ZONE_FOLLOWER =>
      [PStr "ReferenceZone" (int (hc_SourceZoneId _config)); PStr "CtrlOffset" (int (hc_Offset _config))]
    | HeatingControlMode.MANUAL => [PStr "ManualValue" (int (hc_ManualValue _config - 100))]
    | _ => []
    end)
    (Event_name now EventName.HeatingControllerSetup).

Definition operation_modes : list string :=
  ["Off"; "Comfort"; "Economy"; "NotUsed"; "Night"; "Holiday"; "Cooling"; "CoolingOff"; "CoolingEconomy";
   "CoolingNotUsed"; "CoolingNight"; "CoolingHoliday"].

(** The values of the operation modes, each under its own name. *)
Fixpoint mode_values (prefix : string) (t : SensorType.t) (names : list string) (opModes : list Z) : res (list property) :=
  match names, opModes with
  | [], _ => Ok []
  | n :: names, v :: opModes =>
    d ← sensorValueToDouble pow10 t v;
    l ← mode_values prefix t names opModes;
    Ok (PStr (prefix +:+ n) (doubleToString d) :: l)
  | _ :: _, [] => Throw (UndefinedBehaviour "opModes out of range")
  end.

Definition createHeatingControllerValue (_zoneID : Z) (_ctrlDsuid : dsuid_t) (m_mode : HeatingControlMode.t)
    (_mode : ZoneHeatingOperationModeSpec_t) : res Event :=
  l ← match m_mode with
      | HeatingControlMode.PID =>
        mode_values "NominalTemperature_" SensorType.RoomTemperatureSetpoint operation_modes _mode
      | HeatingControlMode.FIXED =>
        mode_values "ControlValue_" SensorType.RoomTemperatureControlVariable operation_modes _mode
      | _ => Ok []
      end;
  Ok (set_properties ([PStr "ZoneID" (int _zoneID); PStr "ControlDSUID" (dsuid2str _ctrlDsuid)] ++ l)
      (Event_name now EventName.HeatingControllerValue)).

(** The values are [double]s already; they are converted to [int] and taken for
    raw values of the control variable. *)
Definition dshub_value (value : option float) : res string :=
  raw ← to_int (default 0%float value);
  d ← sensorValueToDouble pow10 SensorType.RoomTemperatureControlVariable raw;
  Ok (doubleToString d).

Definition createHeatingControllerValueDsHub (_zoneID _operationMode : Z) (m_mode : HeatingControlMode.t)
    (m_NominalValue m_ControlValue : option float) : res Event :=
  let mode := switch _operationMode
    [([0], [PStr "OperationMode" "Off"]); ([1], [PStr "OperationMode" "Comfort"]); ([2], [PStr "OperationMode" "Eco"]);
     ([3], [PStr "OperationMode" "NotUsed"]); ([4], [PStr "OperationMode" "Night"]);
     ([5], [PStr "OperationMode" "Holiday"]); ([6], [PStr "OperationMode" "Cooling"]);
     ([7], [PStr "OperationMode" "CoolingOff"])] [] in
  l ← match m_mode with
      | HeatingControlMode.PID => v ← dshub_value m_NominalValue; Ok [PStr "NominalTemperature" v]
      | HeatingControlMode.FIXED => v ← dshub_value m_ControlValue; Ok [PStr "ControlValue" v]
      | _ => Ok []
      end;
  Ok (set_properties ([PStr "ZoneID" (int _zoneID)] ++ mode ++ l) (Event_name now EventName.HeatingControllerValueDsHub)).

Definition createHeatingControllerState (_zoneID : Z) (_ctrlDsuid : dsuid_t) (_ctrlState : Z) : Event :=
  set_properties [PStr "ZoneID" (int _zoneID); PStr "ControlDSUID" (dsuid2str _ctrlDsuid); PStr "ControlState" (int _ctrlState)]
    (Event_name now EventName.HeatingControllerState).

Definition createOldStateChange (_scriptId _name _value : string) (_origin : Z) : Event :=
  set_properties [PStr "scriptID" _scriptId; PStr "statename" _name; PStr "state" _value; PStr ef_callOrigin (int _origin)]
    (Event_name now EventName.OldStateChange).

(** * Signals

    Active is 1 and inactive is 2; assertions stop the program. *)
Definition assert_ (b : bool) (what : string) : res unit := if b then Ok tt else Throw (AssertionFailure what).

Definition createGenericSignalSunshine (_value _direction _origin : Z) : res Event :=
  _ ← assert_ ((_value =? 1) || (_value =? 2)) "_value == 1 || _value == 2";
  _ ← assert_ (validOrigin _origin) "validOrigin(_origin)";
  _ ← assert_ (cd_valid _direction) "valid(_direction)";
  Ok (set_properties [PStr "value" (int _value); PStr "direction" (cd_toString _direction); PStr ef_callOrigin (int _origin)]
      (Event_name now EventName.Sunshine)).

Definition createGenericSignalFrostProtection (_value _origin : Z) : res Event :=
  _ ← assert_ ((_value =? 1) || (_value =? 2)) "_value == 1 || _value == 2";
  _ ← assert_ (validOrigin _origin) "validOrigin(_origin)";
  Ok (set_properties [PStr "value" (int _value); PStr ef_callOrigin (int _origin)] (Event_name now EventName.FrostProtection)).

Definition createGenericSignalHeatingModeSwitch (value : HeatingModeSwitchValue.t) (_origin : Z) : res Event :=
  _ ← assert_ (validOrigin _origin) "validOrigin(_origin)";
  Ok (set_properties [PStr "value" (int (HeatingModeSwitchValue.to_Z value)); PStr ef_callOrigin (int _origin)]
      (Event_name now EventName.HeatingModeSwitch)).

Definition createGenericSignalBuildingService (_value _origin : Z) : res Event :=
  _ ← assert_ ((_value =? 1) || (_value =? 2)) "_value == 1 || _value == 2";
  _ ← assert_ (validOrigin _origin) "validOrigin(_origin)";
  Ok (set_properties [PStr "value" (int _value); PStr ef_callOrigin (int _origin)] (Event_name now EventName.BuildingService)).
End Create.
