(* ===== verification/TriggerMatch.v ===== *)
(** [src/src/handler/system_triggers.cpp], the first half: which trigger nodes
    an event matches ([SystemTrigger::checkTrigger] and what it calls).

    The trigger nodes are read through [PropertyReader].  A [dsuid_t] that the
    constructor does not write is [None], and looking at it is undefined. *)
From stdpp Require Import base option list strings gmap.
From Stdlib Require Import ZArith Lia Ascii PrimFloat.
From Stdlib Require String.
From S2P Require Import Prelude CxxString Base NumConv FloatConv Ds485types ModelConst DataTypes Calendar.
From S2P Require Import DateTools Event PropertyTree PropertyReader SystemCondition EventCreate.

Open Scope string_scope.
Open Scope list_scope.
Open Scope Z_scope.

(** * The event, as the handler keeps it *)

Record SystemTrigger := mkTrigger {
  m_properties : Properties;
  m_evtName : string;
  m_evtSrcIsGroup : bool;
  m_evtSrcIsDevice : bool;
  m_evtSrcZone : Z;
  m_evtSrcGroup : Z;
  m_evtSrcDSID : option dsuid_t
}.

(** Names of the nodes of a trigger. *)
Definition ptn_triggers : string := "triggers".
Definition ptn_type : string := "type".
Definition ptn_damping : string := "damping".
Definition ptn_damp_interval : string := "interval".
Definition ptn_damp_rewind : string := "rewindTimer".
Definition ptn_damp_start_ts : string := "lastTrigger".
Definition ptn_action_lag : string := "lag".
Definition ptn_action_delay : string := "delay".
Definition ptn_action_reschedule : string := "reschedule".
Definition ptn_action_ts : string := "last_event_scheduled_at".
Definition ptn_action_eventid : string := "eventid".

Section Triggers.
Context {DU : Dsuid} {SD : Strtod}.

(** What the constructor asks of the apartment: zone and number of the group
    and zone and dSUID of the device an event is raised at; the broadcast group
    of zone 0. *)
Context (group_at : nat -> Z * Z) (device_at : nat -> Z * dsuid_t) (broadcast : Z * Z).

(** [SystemTrigger::SystemTrigger] *)
Definition new_SystemTrigger (event : Event) : res SystemTrigger :=
  let make g d zone group dsid := Ok (mkTrigger (ev_Properties event) (ev_Name event) g d zone group dsid) in
  match ev_RaiseLocation event with
  | erlGroup =>
    match ev_RaisedAtGroup event with
    | Some g => make true false (fst (group_at g)) (snd (group_at g)) None
    | None => Throw (UndefinedBehaviour "group == NULL")
    end
  | erlApartment => make false false (fst broadcast) (snd broadcast) None
  | erlDevice =>
    match ev_RaisedAtDevice event with
    | Some d => make false true (fst (device_at d)) 0 (Some (snd (device_at d)))
    | None => Throw (UndefinedBehaviour "device == NULL")
    end
  | erlState => make false false 0 0 None
  end.

Context {Node : Type} `{!PropertyReader Node}.
Variable ev : SystemTrigger.

(** [m_properties.get(key)], [m_properties.has(key)] *)
Definition prop (key : string) : res string := props_get (m_properties ev) key.
Definition has_prop (key : string) : bool := props_has (m_properties ev) key.

(** The text of the dSUID of the source. *)
Definition source_dsuid : res string :=
  match m_evtSrcDSID ev with
  | Some d => Ok (dsuid2str d)
  | None => Throw (UndefinedBehaviour "m_evtSrcDSID")
  end.

Definition is_null_dsuid : res bool :=
  match m_evtSrcDSID ev with
  | Some d => Ok (bool_decide (d = DSUID_NULL))
  | None => Throw (UndefinedBehaviour "m_evtSrcDSID")
  end.

(** Conditions one after the other; the first that fails decides. *)
Fixpoint all_checks (l : list (res bool)) : res bool :=
  match l with
  | [] => Ok true
  | c :: l => b ← c; if b : bool then all_checks l else Ok false
  end.

Definition is_type_mismatch (e : exn) : bool := match e with PropertyTypeMismatch _ => true | _ => false end.

(** [try { if(node = getPropertyByName(name)) ... } catch(PropertyTypeMismatch&)
    { return false; }] for a number and a flag. *)
Definition check_int (t : Node) (name : string) (missing : bool) (p : Z -> bool) : res bool :=
  try_catch (n ← read_child t name;
             match n with Some n => i ← read_int n; Ok (p i) | None => Ok missing end)
    is_type_mismatch (fun _ => Ok false).

Definition check_bool (t : Node) (name : string) (p : bool -> bool) : res bool :=
  n ← read_child t name;
  match n with
  | Some n => try_catch (b ← read_bool n; Ok (p b)) is_type_mismatch (fun _ => Ok false)
  | None => Ok true
  end.

(** A negative number in the trigger stands for all. *)
Definition in_scope (wanted actual : Z) : bool := (wanted <? 0) || (wanted =? actual).

(** The dSUID of the origin of a scene call, if the event names one. *)
Definition origin_dsuid : res (option dsuid_t) :=
  if has_prop ef_originDSUID then s ← prop ef_originDSUID; d ← str2dsuid s; Ok (Some d) else Ok None.

Definition check_origin (t : Node) (origin : option dsuid_t) : res bool :=
  n ← read_child t ef_dsuid;
  match n with
  | None => Ok true
  | Some n =>
    iDevice ← read_as_string n;
    if is_empty iDevice || String.eqb iDevice "-1" then Ok true
    else match origin with
         | Some d => Ok (String.eqb iDevice (dsuid2str d))
         | None => Throw (UndefinedBehaviour "originDSUID")
         end
  end.

Definition scene_of_event : res Z := s ← prop ef_sceneID; Ok (strToIntDef s (-1)).

Definition checkSceneZone (t : Node) : res bool :=
  if negb (String.eqb (m_evtName ev) EventName.CallScene || String.eqb (m_evtName ev) EventName.CallSceneBus) then Ok false
  else if negb (m_evtSrcIsGroup ev) then Ok false
  else
    scene ← scene_of_event;
    origin ← origin_dsuid;
    forced ← (if has_prop ef_forced then s ← prop ef_forced; Ok (String.eqb s "true") else Ok false);
    all_checks [
      check_int t ef_zone false (fun z => in_scope z (m_evtSrcZone ev));
      check_int t ef_group false (fun g => in_scope g (m_evtSrcGroup ev));
      check_int t ef_scene false (fun s => s =? scene);
      check_origin t origin;
      check_bool t ef_forced (Bool.eqb forced)].

Definition checkUndoSceneZone (t : Node) : res bool :=
  if negb (String.eqb (m_evtName ev) EventName.UndoScene) then Ok false
  else if negb (m_evtSrcIsGroup ev) then Ok false
  else
    scene ← scene_of_event;
    origin ← origin_dsuid;
    zone ← read_child t ef_zone;
    match zone with
    | None => Ok false
    | Some _ =>
      all_checks [
        check_int t ef_zone true (fun z => in_scope z (m_evtSrcZone ev));
        check_int t ef_group true (fun g => in_scope g (m_evtSrcGroup ev));
        check_int t ef_scene true (fun s => in_scope s scene);
        check_origin t origin]
    end.

(** [sDSID == "-1" || sDSID == dsuid2str(dsuid)] *)
Definition is_source (sDSID : string) : res bool :=
  if String.eqb sDSID "-1" then Ok true else s ← source_dsuid; Ok (String.eqb sDSID s).

(** [text == value || text == "-1"] *)
Definition is_or_any (text value : string) : bool := String.eqb text value || String.eqb text "-1".

Definition checkDeviceScene (t : Node) : res bool :=
  if negb (String.eqb (m_evtName ev) EventName.CallScene) then Ok false
  else if negb (m_evtSrcIsDevice ev) then Ok false
  else
    scene ← scene_of_event;
    null ← is_null_dsuid;
    if null : bool then Ok false
    else
      triggerDSID ← read_child t ef_dsuid;
      match triggerDSID with
      | None => Ok false
      | Some dn =>
        triggerSCENE ← read_child t ef_scene;
        match triggerSCENE with
        | None => Ok false
        | Some sn =>
          sDSID ← read_string dn;
          iScene ← try_catch (i ← read_int sn; Ok (Some i)) is_type_mismatch (fun _ => Ok None);
          match iScene with
          | None => Ok false
          | Some iScene =>
            if negb (iScene =? scene) then Ok false
            else
              src ← is_source sDSID;
              Ok (src && ((iScene =? scene) || (iScene =? -1)))
          end
        end
      end.

Definition checkDeviceSensor (t : Node) : res bool :=
  if negb (String.eqb (m_evtName ev) "deviceSensorEvent") then Ok false
  else
    eventName ← prop ef_sensorEvent;
    eventIndex ← prop ef_sensorIndex;
    triggerDSID ← read_child t ef_dsuid;
    match triggerDSID with
    | None => Ok false
    | Some dn =>
      sDSID ← read_string dn;
      src ← is_source sDSID;
      if negb src then Ok false
      else
        triggerEventId ← read_child t ef_eventid;
        triggerName ← read_child t ef_evt;
        match triggerEventId with
        | None =>
          match triggerName with
          | None => Ok false
          | Some nn => iName ← read_string nn; Ok (is_or_any iName eventName)
          end
        | Some en => iEventId ← read_as_string en; Ok (is_or_any iEventId eventIndex)
        end
    end.

Definition checkDeviceBinaryInput (t : Node) : res bool :=
  if negb (String.eqb (m_evtName ev) EventName.DeviceBinaryInputEvent) then Ok false
  else
    eventIndex ← prop "inputIndex";
    eventType ← prop "inputType";
    eventState ← prop "inputState";
    triggerDSID ← read_child t "dsuid";
    triggerIndex ← read_child t "index";
    triggerType ← read_child t "stype";
    triggerState ← read_child t "state";
    match triggerState with
    | None => Ok false
    | Some st =>
      let by_type sState :=
        match triggerType with
        | Some ty => sType ← read_as_string ty; Ok (String.eqb sType eventType && String.eqb sState eventState)
        | None => Ok false
        end in
      match triggerDSID, triggerType with
      | None, None => Ok false
      | None, Some _ => sState ← read_as_string st; by_type sState
      | Some dn, _ =>
        sState ← read_as_string st;
        sDSID ← read_string dn;
        src ← is_source sDSID;
        if negb src then Ok false
        else
          match triggerIndex with
          | None => by_type sState
          | Some ix =>
            other ← match triggerType with
                    | Some ty => sType ← read_as_string ty; Ok (negb (String.eqb sType eventType))
                    | None => Ok false
                    end;
            if other : bool then Ok false
            else
              sIndex ← read_as_string ix;
              if String.eqb sIndex eventIndex && String.eqb sState eventState then Ok true else by_type sState
          end
      end
    end.

(** Buttons, actions and named events differ in the names of their fields. *)
Definition check_device_field (event_name field trigger_node : string) (t : Node) : res bool :=
  if negb (String.eqb (m_evtName ev) event_name) then Ok false
  else
    value ← prop field;
    null ← is_null_dsuid;
    if null : bool then Ok false
    else if is_empty value || String.eqb value "-1" then Ok false
    else
      triggerDSID ← read_child t "dsuid";
      match triggerDSID with
      | None => Ok false
      | Some dn =>
        idNode ← read_child t trigger_node;
        match idNode with
        | None => Ok false
        | Some n =>
          sDSID ← read_as_string dn;
          sValue ← read_as_string n;
          src ← is_source sDSID;
          Ok (src && is_or_any sValue value)
        end
      end.

Definition checkDirectDeviceAction : Node -> res bool := check_device_field EventName.ButtonDeviceAction "actionID" "action".
Definition checkDeviceNamedAction : Node -> res bool := check_device_field EventName.DeviceActionEvent "actionId" "id".
Definition checkDeviceNamedEvent : Node -> res bool := check_device_field EventName.DeviceEventEvent "eventId" "id".

Definition checkDevice (t : Node) : res bool :=
  if negb (String.eqb (m_evtName ev) EventName.DeviceButtonClick) then Ok false
  else
    clickType ← prop "clickType";
    buttonIndex ← prop "buttonIndex";
    null ← is_null_dsuid;
    if null : bool then Ok false
    else if is_empty clickType || String.eqb clickType "-1" then Ok false
    else
      triggerDSID ← read_child t "dsuid";
      match triggerDSID with
      | None => Ok false
      | Some dn =>
        triggerMSG ← read_child t "msg";
        match triggerMSG with
        | None => Ok false
        | Some mn =>
          triggerIndex ← read_child t "buttonIndex";
          iButtonIndexID ← match triggerIndex with Some n => read_as_string n | None => Ok "-1" end;
          sDSID ← read_as_string dn;
          iMSG ← read_as_string mn;
          src ← is_source sDSID;
          Ok (src && is_or_any iMSG clickType && is_or_any iButtonIndexID buttonIndex)
        end
      end.

Definition checkHighlevel (t : Node) : res bool :=
  if negb (String.eqb (m_evtName ev) "highlevelevent") then Ok false
  else if negb (has_prop "id") then Ok false
  else
    id ← prop "id";
    if is_empty id then Ok false
    else
      triggerEvent ← read_child t "event";
      match triggerEvent with
      | None => Ok false
      | Some n => sEvent ← read_as_string n; Ok (String.eqb sEvent id)
      end.

(** The text of an optional node. *)
Definition text_or_empty (n : option Node) : res string :=
  match n with Some n => read_as_string n | None => Ok "" end.

Definition checkState (t : Node) : res bool :=
  let addon := String.eqb (m_evtName ev) EventName.AddonStateChange in
  if negb (addon || String.eqb (m_evtName ev) EventName.StateChange) then Ok false
  else
    name ← prop "statename";
    state ← prop "state";
    value ← prop "value";
    oldvalue ← prop "oldvalue";
    triggerName ← read_child t "name";
    triggerState ← read_child t "state";
    triggerValue ← read_child t "value";
    triggerOldvalue ← read_child t "oldvalue";
    script ← (if addon then
        scriptID ← prop "scriptID";
        triggerScriptID ← read_child t "addon-id";
        match triggerScriptID with
        | None => Ok false
        | Some n => sScriptID ← read_as_string n; Ok (String.eqb sScriptID scriptID)
        end
      else Ok true);
    if negb script then Ok false
    else
      match triggerName, triggerState, triggerValue with
      | None, _, _ | _, None, None => Ok false
      | Some nn, _, _ =>
        sName ← read_as_string nn;
        if negb (String.eqb sName name) then Ok false
        else
          sState ← text_or_empty triggerState;
          sValue ← text_or_empty triggerValue;
          sOldvalue ← text_or_empty triggerOldvalue;
          Ok ((String.eqb sState state || String.eqb sValue value) &&
              (is_empty sOldvalue || String.eqb sOldvalue oldvalue))
      end.

Definition checkSensorValue (t : Node) : res bool :=
  let device := String.eqb (m_evtName ev) EventName.DeviceSensorValue in
  let zone := String.eqb (m_evtName ev) EventName.ZoneSensorValue in
  if negb (device || zone) then Ok false
  else
    src ← (if device then
        triggerDevice ← read_child t "dsuid";
        triggerDSID ← text_or_empty triggerDevice;
        eventDSID ← source_dsuid;
        Ok (String.eqb triggerDSID eventDSID)
      else
        triggerZone ← read_child t "zone";
        zone ← text_or_empty triggerZone;
        z ← strToInt zone;
        Ok (z =? m_evtSrcZone ev));
    if negb src then Ok false
    else
      sensorType ← prop "sensorType";
      triggerSensorType ← read_child t "sensor";
      sSensorType ← text_or_empty triggerSensorType;
      if negb (String.eqb sSensorType sensorType) then Ok false
      else
        triggerValue ← read_child t "value";
        triggerOperator ← read_child t "operator";
        match triggerValue, triggerOperator with
        | Some vn, Some on =>
          sensorValueFloat ← prop "sensorValueFloat";
          eventValueFloat ← strToDouble sensorValueFloat;
          sValue ← read_as_string vn;
          triggerValueFloat ← strToDouble sValue;
          sOperator ← read_as_string on;
          if String.eqb sOperator "greater" then Ok (triggerValueFloat <? eventValueFloat)%float
          else if String.eqb sOperator "lower" then Ok (eventValueFloat <? triggerValueFloat)%float
          else Ok false
        | _, _ => Ok false
        end.

(** One parameter of the trigger. *)
Definition check_parameter (p : Node) : res bool :=
  n ← read_name p;
  if negb (has_prop n) then Ok false
  else
    eventValue ← prop n;
    triggerValue ← read_as_string p;
    Ok (String.eqb eventValue triggerValue).

Definition checkEvent (t : Node) : res bool :=
  triggerName ← read_child t "name";
  match triggerName with
  | None => Ok false
  | Some nn =>
    sName ← read_as_string nn;
    if negb (String.eqb sName (m_evtName ev)) then Ok false
    else
      triggerParameters ← read_child t "parameter";
      match triggerParameters with
      | None => Ok true
      | Some ps => l ← read_children ps; all_of check_parameter l
      end
  end.

(** The types of trigger an event of that name can match, with their checks. *)
Definition checks_for (name : string) : list (string * (Node -> res bool)) :=
  if String.eqb name EventName.CallScene then [("zone-scene", checkSceneZone); ("device-scene", checkDeviceScene)]
  else if String.eqb name EventName.CallSceneBus then [("bus-zone-scene", checkSceneZone)]
  else if String.eqb name EventName.UndoScene then [("undo-zone-scene", checkUndoSceneZone)]
  else if String.eqb name EventName.DeviceButtonClick then [("device-msg", checkDevice)]
  else if String.eqb name EventName.ButtonDeviceAction then [("device-action", checkDirectDeviceAction)]
  else if String.eqb name "deviceSensorEvent" then [("device-sensor", checkDeviceSensor)]
  else if String.eqb name "deviceSensorValue" then [("device-sensor-value", checkSensorValue)]
  else if String.eqb name "zoneSensorValue" then [("zone-sensor-value", checkSensorValue)]
  else if String.eqb name EventName.DeviceBinaryInputEvent then [("device-binary-input", checkDeviceBinaryInput)]
  else if String.eqb name EventName.DeviceActionEvent then [("device-named-action", checkDeviceNamedAction)]
  else if String.eqb name EventName.DeviceEventEvent then [("device-named-event", checkDeviceNamedEvent)]
  else if String.eqb name "highlevelevent" then [("custom-event", checkHighlevel)]
  else if String.eqb name EventName.StateChange then [("state-change", checkState)]
  else if String.eqb name EventName.AddonStateChange then [("addon-state-change", checkState)]
  else [("event", checkEvent)].

Definition checkTriggerNode (t : Node) : res bool :=
  triggerType ← read_child t ptn_type;
  match triggerType with
  | None => Ok false
  | Some ty =>
    triggerValue ← read_as_string ty;
    match List.find (fun c => String.eqb triggerValue (fst c)) (checks_for (m_evtName ev)) with
    | Some (_, check) => check t
    | None => Ok false
    end
  end.

Definition checkTrigger (t : Node) : res bool :=
  appTrigger ← read_child t ptn_triggers;
  match appTrigger with
  | None => Ok false
  | Some at_ => l ← read_children at_; any_of checkTriggerNode l
  end.
End Triggers.
