(* ===== verification/EventQueue.v ===== *)
(** [src/src/event.cpp]: [ScheduledEvent], [EventQueue] and [EventRunner].

    Events are shared objects: they live in a store and the queue, the runner
    and the caller refer to them by number, so that a unique event merged into
    a queued one changes the queued one.  The runner publishes what it has
    scheduled below a monitor node of the property tree and listens to it.  The
    mutex [m_EventsMutex] is a flag: locking it twice in one thread is an
    error.  [m_QueueMutex] is never held across a call, and waiting and
    signalling are not modelled. *)
From stdpp Require Import base option list strings gmap.
From Stdlib Require Import ZArith Lia Ascii.
From Stdlib Require String.
From S2P Require Import Prelude CxxString Base NumConv Calendar DateTools Event PropertyTree.

Open Scope string_scope.
Open Scope list_scope.
Open Scope Z_scope.

Definition eid := nat.

(** * State *)

Section Types.
Context (ical : Type).

(** [boost::shared_ptr<Schedule>] to one of the two classes. *)
Inductive AnySchedule :=
| AStatic (s : StaticSchedule)
| AnICal (s : ical).

Record ScheduledEvent := mkScheduled {
  m_Event : eid;
  m_Schedule : AnySchedule;
  m_ScheduledName : string;
  m_EventID : string
}.

(** The members of [EventQueue] ([m_EventQueue], [m_ScheduledEventCounter], and
    whether it has a runner) and of [EventRunner] (the others), the store of
    events and the clock. *)
Record EQ := mkEQ {
  events : gmap eid Event;
  m_EventQueue : list eid;
  m_ScheduledEventCounter : Z;
  queue_has_runner : bool;
  m_ScheduledEvents : list ScheduledEvent;
  runner_has_queue : bool;
  m_MonitorNode : option nid;
  m_EventsMutex : bool;
  clock : DateTime
}.
End Types.

Arguments AStatic {ical}. Arguments AnICal {ical}.
Arguments mkScheduled {ical}. Arguments m_Event {ical}. Arguments m_Schedule {ical}.
Arguments m_ScheduledName {ical}. Arguments m_EventID {ical}.
Arguments mkEQ {ical}. Arguments events {ical}. Arguments m_EventQueue {ical}.
Arguments m_ScheduledEventCounter {ical}. Arguments queue_has_runner {ical}.
Arguments m_ScheduledEvents {ical}. Arguments runner_has_queue {ical}.
Arguments m_MonitorNode {ical}. Arguments m_EventsMutex {ical}. Arguments clock {ical}.

Section Updates.
Context {ical : Type}.
Implicit Types q : EQ ical.
Definition set_events (f : gmap eid Event -> gmap eid Event) q : EQ ical :=
  mkEQ (f (events q)) (m_EventQueue q) (m_ScheduledEventCounter q) (queue_has_runner q) (m_ScheduledEvents q)
    (runner_has_queue q) (m_MonitorNode q) (m_EventsMutex q) (clock q).
Definition set_EventQueue (f : list eid -> list eid) q : EQ ical :=
  mkEQ (events q) (f (m_EventQueue q)) (m_ScheduledEventCounter q) (queue_has_runner q) (m_ScheduledEvents q)
    (runner_has_queue q) (m_MonitorNode q) (m_EventsMutex q) (clock q).
Definition set_Counter (c : Z) q : EQ ical :=
  mkEQ (events q) (m_EventQueue q) c (queue_has_runner q) (m_ScheduledEvents q)
    (runner_has_queue q) (m_MonitorNode q) (m_EventsMutex q) (clock q).
Definition set_ScheduledEvents (f : list (ScheduledEvent ical) -> list (ScheduledEvent ical)) q : EQ ical :=
  mkEQ (events q) (m_EventQueue q) (m_ScheduledEventCounter q) (queue_has_runner q) (f (m_ScheduledEvents q))
    (runner_has_queue q) (m_MonitorNode q) (m_EventsMutex q) (clock q).
Definition set_EventsMutex (b : bool) q : EQ ical :=
  mkEQ (events q) (m_EventQueue q) (m_ScheduledEventCounter q) (queue_has_runner q) (m_ScheduledEvents q)
    (runner_has_queue q) (m_MonitorNode q) b (clock q).
Definition set_clock (now : DateTime) q : EQ ical :=
  mkEQ (events q) (m_EventQueue q) (m_ScheduledEventCounter q) (queue_has_runner q) (m_ScheduledEvents q)
    (runner_has_queue q) (m_MonitorNode q) (m_EventsMutex q) now.
Definition set_Schedule (s : AnySchedule ical) (se : ScheduledEvent ical) : ScheduledEvent ical :=
  mkScheduled (m_Event se) s (m_ScheduledName se) (m_EventID se).
End Updates.

(** The rest of the program's state holds the event system's somewhere. *)
Class EventWorld (ical W : Type) := {
  get_eq : W -> EQ ical;
  put_eq : EQ ical -> W -> W;
  get_put_eq : forall q w, get_eq (put_eq q w) = q;
  put_put_eq : forall q q' w, put_eq q (put_eq q' w) = put_eq q w;
  put_get_eq : forall w, put_eq (get_eq w) w = w
}.

#[global] Instance EventWorld_self (ical : Type) : EventWorld ical (EQ ical).
Proof. by refine {| get_eq := fun q => q; put_eq := fun q _ => q |}. Defined.

Section EventSystem.
Context {ical W : Type} {Sched : Schedule ical} {EW : EventWorld ical W} {LC : Libc}.
(** [new ICalSchedule(rrule, start)] at a time. *)
Context (new_ICalSchedule : string -> string -> DateTime -> res ical).
Context (callback : notification -> lid -> nid -> nid -> heap W -> heap W).

Local Notation "'M' A" := (SE (heap W) A) (at level 10, A at next level).

Definition gets {A} (f : EQ ical -> A) : M A := se_gets (fun h => f (get_eq (ext h))).
Definition modify (f : EQ ical -> EQ ical) : M unit :=
  se_modify (set_ext (fun w => put_eq (f (get_eq w)) w)).

Definition get_event (e : eid) : M Event := fun h =>
  match events (get_eq (ext h)) !! e with
  | Some ev => (Ok ev, h)
  | None => (Throw (UndefinedBehaviour "no such event"), h)
  end.
Definition update_event (e : eid) (f : Event -> Event) : M unit :=
  ev ← get_event e; modify (set_events <[e := f ev]>).

(** [scoped_lock lock(m_EventsMutex)] around [m]. *)
Definition with_EventsMutex {A} (m : M A) : M A := fun h =>
  if m_EventsMutex (get_eq (ext h)) then (Throw (UndefinedBehaviour "m_EventsMutex locked twice"), h)
  else
    let '(r, h') := m (snd (modify (set_EventsMutex true) h)) in
    (r, snd (modify (set_EventsMutex false) h')).

(** ** [AnySchedule]: the virtual calls *)

Definition sched_next (_from : DateTime) (s : AnySchedule ical) : res DateTime * AnySchedule ical :=
  match s with
  | AStatic s => let '(r, s) := getNextOccurence _from s in (r, AStatic s)
  | AnICal s => let '(r, s) := getNextOccurence _from s in (r, AnICal s)
  end.
Definition sched_recurs (s : AnySchedule ical) : bool :=
  match s with AStatic s => hasRecurrence s | AnICal s => hasRecurrence s end.
Definition sched_leap (endTime : Z) (s : AnySchedule ical) : Z * AnySchedule ical :=
  match s with
  | AStatic s => let '(k, s) := leapAdjust endTime s in (k, AStatic s)
  | AnICal s => let '(k, s) := leapAdjust endTime s in (k, AnICal s)
  end.

(** ** [EventQueue] *)

Definition scheduleFromEvent (_event : eid) : M (option (AnySchedule ical)) :=
  ev ← get_event _event;
  if ev_hasPropertySet ev p_Time then
    when ← gets clock;
    let timeStr := ev_getPropertyByName ev p_Time in
    if (2 <=? slen timeStr)%nat then
      match timeStr with
      | String "+" timeOffset =>
        let offset := strToIntDef timeOffset (-1) in
        if offset >? 0 then mret (Some (AStatic (mkStaticSchedule (addSeconds offset when))))
        else mret None
      | _ =>
        when ← se_try (d ← se_lift (parseRFC2445 timeStr); mret (Some d)) is_std_exception (fun _ => mret None);
        mret (match when with Some d => Some (AStatic (mkStaticSchedule d)) | None => None end)
      end
    else mret None
  else if ev_hasPropertySet ev p_ICalStartTime && ev_hasPropertySet ev p_ICalRRule then
    now ← gets clock;
    s ← se_lift (new_ICalSchedule (ev_getPropertyByName ev p_ICalRRule) (ev_getPropertyByName ev p_ICalStartTime) now);
    mret (Some (AnICal s))
  else mret None.

Definition scheduled_id (_counterID seconds : Z) (name : string) : string :=
  uintToString _counterID false +:+ "-" +:+ uintToString (wrapU 64 seconds) false +:+ "_" +:+ name.

(** [new ScheduledEvent(_event, schedule, m_ScheduledEventCounter++)] *)
Definition new_ScheduledEvent (_event : eid) (schedule : AnySchedule ical) : M (ScheduledEvent ical) :=
  counter ← gets m_ScheduledEventCounter;
  _ ← modify (set_Counter (wrapU 64 (counter + 1)));
  now ← gets clock;
  ev ← get_event _event;
  mret (mkScheduled _event schedule "" (scheduled_id counter (secondsSinceEpoch now) (ev_Name ev))).

(** What both containers do with a unique event that replaces an older one. *)
Definition replace_event (old : eid) (_event : Event) : M unit :=
  _ ← update_event old (ev_setProperties (ev_Properties _event));
  if ev_hasPropertySet _event "time"
  then update_event old (ev_setTime (ev_getPropertyByName _event "time")) else mret tt.

(** The loop over the queue; [true] if the event has to be added. *)
Fixpoint merge_queued (_event : Event) (queue : list eid) : M bool :=
  match queue with
  | [] => mret true
  | old :: queue =>
    o ← get_event old;
    if ev_isReplacementFor _event o then _ ← replace_event old _event; mret false
    else merge_queued _event queue
  end.

Fixpoint merge_scheduled (_event : Event) (l : list (ScheduledEvent ical)) : M bool :=
  match l with
  | [] => mret true
  | old :: l =>
    o ← get_event (m_Event old);
    if ev_isReplacementFor _event o then _ ← replace_event (m_Event old) _event; mret false
    else merge_scheduled _event l
  end.

Definition is_unique (_event : Event) : bool := negb (String.eqb (ev_getPropertyByName _event p_Unique) "").

Definition addEvent (_scheduledEvent : ScheduledEvent ical) : M unit :=
  let id := m_EventID _scheduledEvent in
  with_EventsMutex (
    ev ← get_event (m_Event _scheduledEvent);
    addToQueue ← (if is_unique ev then l ← gets m_ScheduledEvents; merge_scheduled ev l else mret true);
    if addToQueue : bool then
      mon ← gets m_MonitorNode;
      _ ← match mon with
          | Some mon =>
            n ← createProperty callback mon (id +:+ "/id"); _ ← setStringValue callback n id;
            n ← createProperty callback mon (id +:+ "/name"); setStringValue callback n (ev_Name ev)
          | None => mret tt
          end;
      modify (set_ScheduledEvents (fun l => l ++ [_scheduledEvent]))
    else mret tt).

Definition pushEvent (_event : eid) : M unit :=
  schedule ← scheduleFromEvent _event;
  match schedule with
  | Some schedule =>
    scheduledEvent ← new_ScheduledEvent _event schedule;
    runner ← gets queue_has_runner;
    if runner : bool then addEvent scheduledEvent else se_throw (AssertionFailure "m_EventRunner != NULL")
  | None =>
    ev ← get_event _event;
    addToQueue ← (if is_unique ev then l ← gets m_EventQueue; merge_queued ev l else mret true);
    if addToQueue : bool then modify (set_EventQueue (fun l => l ++ [_event])) else mret tt
  end.

Definition pushTimedEvent (_event : eid) : M string :=
  schedule ← scheduleFromEvent _event;
  match schedule with
  | Some schedule =>
    scheduledEvent ← new_ScheduledEvent _event schedule;
    runner ← gets queue_has_runner;
    _ ← (if runner : bool then addEvent scheduledEvent
         else se_throw (UndefinedBehaviour "call on NULL"));
    mret (m_EventID scheduledEvent)
  | None => mret ""
  end.

Definition popEvent : M (option eid) :=
  l ← gets m_EventQueue;
  match l with
  | [] => mret None
  | e :: l => _ ← modify (set_EventQueue (fun _ => l)); mret (Some e)
  end.

(** ** [EventRunner] *)

Definition getSize : M Z := with_EventsMutex (l ← gets m_ScheduledEvents; mret (Z.of_nat (length l))).

(** Erases the first event with that identifier. *)
Fixpoint erase_id (_eventID : string) (l : list (ScheduledEvent ical)) : list (ScheduledEvent ical) :=
  match l with
  | [] => []
  | s :: l => if String.eqb (m_EventID s) _eventID then l else s :: erase_id _eventID l
  end.

Definition removeEventInternal (_eventID : string) : M unit :=
  with_EventsMutex (modify (set_ScheduledEvents (erase_id _eventID))).

(** [EventRunner::propertyRemoved] as a listener; what it throws leaves the
    notification. *)
Definition propertyRemoved (_child : nid) : M unit :=
  cd ← deref _child; removeEventInternal (m_Name cd).

Definition removeEvent (_eventID : string) : M unit :=
  mon ← gets m_MonitorNode;
  match mon with
  | Some mon =>
    child ← getProperty mon _eventID;
    match child with
    | Some child => _ ← removeChild callback mon child; mret tt
    | None => removeEventInternal _eventID
    end
  | None => removeEventInternal _eventID
  end.

Fixpoint erase_by_name (names : eid -> option string) (_eventName : string) (l : list (ScheduledEvent ical))
    : list (ScheduledEvent ical) :=
  match l with
  | [] => []
  | s :: l =>
    if bool_decide (names (m_Event s) = Some _eventName) then erase_by_name names _eventName l
    else s :: erase_by_name names _eventName l
  end.

Definition removeEventByName (_eventName : string) : M unit :=
  with_EventsMutex (
    evs ← gets events;
    modify (set_ScheduledEvents (erase_by_name (fun e => ev_Name <$> evs !! e) _eventName))).

Definition getEvent (_eventID : string) : M (ScheduledEvent ical) :=
  with_EventsMutex (
    l ← gets m_ScheduledEvents;
    match List.find (fun s => String.eqb (m_EventID s) _eventID) l with
    | Some s => mret s
    | None => se_throw (RuntimeError ("Event with id '" +:+ _eventID +:+ "' not found"))
    end).

(** The virtual calls on the schedule of the [i]th scheduled event. *)
Definition scheduled_at (i : nat) : M (ScheduledEvent ical) :=
  l ← gets m_ScheduledEvents;
  match l !! i with
  | Some s => mret s
  | None => se_throw (UndefinedBehaviour "iterator past the end")
  end.
Definition next_at (i : nat) (_from : DateTime) : M DateTime :=
  s ← scheduled_at i;
  let '(r, sch) := sched_next _from (m_Schedule s) in
  _ ← modify (set_ScheduledEvents <[i := set_Schedule sch s]>);
  se_lift r.
Definition leap_at (i : nat) (endTime : Z) : M unit :=
  s ← scheduled_at i;
  modify (set_ScheduledEvents <[i := set_Schedule (snd (sched_leap endTime (m_Schedule s))) s]>).

Definition unset_if_set (p : string) (e : eid) : M unit :=
  ev ← get_event e;
  if ev_hasPropertySet ev p then update_event e (ev_unsetProperty p) else mret tt.

(** The body of the loop of [raisePendingEvents]: whether an event was due, and
    the identifiers to remove. *)
Definition raise_one (now nextSecond : DateTime) (i : nat) : M (bool * list string) :=
  nextOccurence ← next_at i now;
  s ← scheduled_at i;
  isNull ← se_lift (dt_eq nextOccurence NullDate);
  if isNull : bool then mret (false, [m_EventID s])
  else
    mon ← gets m_MonitorNode;
    _ ← match mon with
        | Some mon =>
          t ← getProperty mon (m_EventID s +:+ "/time");
          _ ← match t with
              | None =>
                n ← createProperty callback mon (m_EventID s +:+ "/time");
                t ← se_lift (toPrettyString nextOccurence); setStringValue callback n t
              | Some _ => mret tt
              end;
          n ← createProperty callback mon (m_EventID s +:+ "/ticks");
          ticks ← se_lift (difference nextOccurence now);
          setIntegerValue callback n ticks
        | None => mret tt
        end;
    due ← se_lift (dt_le nextOccurence now);
    if due : bool then
      queue ← gets runner_has_queue;
      if queue : bool then
        let evt := m_Event s in
        _ ← unset_if_set p_Time evt;
        _ ← unset_if_set p_ICalStartTime evt;
        _ ← unset_if_set p_ICalRRule evt;
        _ ← pushEvent evt;
        last ← (if negb (sched_recurs (m_Schedule s)) then mret true
                else n ← next_at i nextSecond; se_lift (dt_eq n NullDate));
        _ ← (if sched_recurs (m_Schedule s) then leap_at i (secondsSinceEpoch nextSecond) else mret tt);
        mret (true, if last : bool then [m_EventID s] else [])
      else mret (true, [])
    else mret (false, []).

Fixpoint raise_loop (now nextSecond : DateTime) (idx : list nat) : M (bool * list string) :=
  match idx with
  | [] => mret (false, [])
  | i :: idx =>
    a ← raise_one now nextSecond i;
    b ← raise_loop now nextSecond idx;
    mret (fst a || fst b, snd a ++ snd b)
  end.

Definition raisePendingEvents : M bool :=
  now ← gets clock;
  let nextSecond := addSeconds 1 now in
  r ← with_EventsMutex (
        n ← gets (fun q => length (m_ScheduledEvents q));
        raise_loop now nextSecond (seq 0 n));
  _ ← se_iter removeEvent (snd r);
  mret (fst r).
End EventSystem.

(** The listeners of the program: the runner reacts to removals below its
    monitor node, [other] is what the other listeners do. *)
Definition event_listeners {ical W} {EW : EventWorld ical W} (runner : lid)
    (other : notification -> lid -> nid -> nid -> heap W -> heap W)
    (k : notification) (l : lid) (n node_ : nid) (h : heap W) : heap W :=
  if Nat.eqb l runner then
    match k with PropertyRemoved => snd (propertyRemoved node_ h) | _ => h end
  else other k l n node_ h.
