(* ===== verification/EventQueueFacts.v ===== *)
(** Properties of the event queue and the runner of scheduled events, for a
    runner without a monitor node; the effect of the monitor node is shown on
    concrete trees at the end, and in general by [MonitorFacts]. *)
From stdpp Require Import base option list strings gmap.
From Stdlib Require Import ZArith Lia Ascii.
From Stdlib Require String.
From S2P Require Import Prelude CxxString Base NumConv Calendar DateTools Event PropertyTree EventQueue.

Open Scope string_scope.
Open Scope list_scope.
Open Scope Z_scope.

Section Facts.
Context {ical W : Type} {Sched : Schedule ical} {EW : EventWorld ical W} {LC : Libc}.
Context (new_ICalSchedule : string -> string -> DateTime -> res ical).
Context (callback : notification -> lid -> nid -> nid -> heap W -> heap W).

Local Notation push := (pushEvent new_ICalSchedule callback).

(** The event system of a heap, and the heap with another one. *)
Definition eqh (h : heap W) : EQ ical := get_eq (ext h).
Definition with_eq (q : EQ ical) (h : heap W) : heap W := set_ext (put_eq q) h.

Lemma eqh_with q h : eqh (with_eq q h) = q.
Proof. unfold eqh, with_eq. cbn. apply get_put_eq. Qed.

Lemma with_with q q' h : with_eq q (with_eq q' h) = with_eq q h.
Proof. unfold with_eq, set_ext. cbn. by rewrite put_put_eq. Qed.

Lemma gets_run {A} (f : EQ ical -> A) h : gets f h = (Ok (f (eqh h)), h).
Proof. reflexivity. Qed.

Lemma modify_run f h : modify f h = (Ok tt, with_eq (f (eqh h)) h).
Proof. reflexivity. Qed.

Lemma get_event_run e ev h : events (eqh h) !! e = Some ev -> get_event e h = (Ok ev, h).
Proof. unfold get_event. intros H. unfold eqh in H. by rewrite H. Qed.

Lemma update_event_run e ev f h : events (eqh h) !! e = Some ev ->
  update_event e f h = (Ok tt, with_eq (set_events <[e := f ev]> (eqh h)) h).
Proof. intros H. unfold update_event. rewrite (se_bind_ok _ _ _ _ _ (get_event_run _ _ _ H)). reflexivity. Qed.

Lemma mutex_run {A} (m : SE (heap W) A) h r q :
  m_EventsMutex (eqh h) = false -> m (with_eq (set_EventsMutex true (eqh h)) h) = (r, with_eq q h) ->
  with_EventsMutex m h = (r, with_eq (set_EventsMutex false q) h).
Proof.
  intros H Hm. unfold with_EventsMutex. unfold eqh in H. rewrite H, modify_run. cbn [snd].
  rewrite Hm, modify_run. cbn [snd]. by rewrite eqh_with, with_with.
Qed.

(** ** Pushing *)

(** An event that [pushEvent] does not schedule: no time, no recurrence. *)
Definition immediate (ev : Event) : bool :=
  negb (ev_hasPropertySet ev p_Time) &&
  negb (ev_hasPropertySet ev p_ICalStartTime && ev_hasPropertySet ev p_ICalRRule).

Lemma schedule_immediate e ev h :
  events (eqh h) !! e = Some ev -> immediate ev = true ->
  scheduleFromEvent new_ICalSchedule e h = (Ok None, h).
Proof.
  intros He Hi. unfold scheduleFromEvent. rewrite (se_bind_ok _ _ _ _ _ (get_event_run _ _ _ He)).
  unfold immediate in Hi. apply andb_true_iff in Hi as [H1%negb_true_iff H2%negb_true_iff].
  by rewrite H1, H2.
Qed.

(** The key of a queued event. *)
Definition key_of (q : EQ ical) (e : eid) : option (string * string * string) := ev_key <$> events q !! e.
Definition queue_keys (q : EQ ical) : list (option (string * string * string)) := map (key_of q) (m_EventQueue q).

Lemma key_of_lookup q e o : events q !! e = Some o -> key_of q e = Some (ev_key o).
Proof. unfold key_of. by intros ->. Qed.

(** [old] after it was replaced by [ev]. *)
Definition replaced (ev old : Event) : Event :=
  let old := ev_setProperties (ev_Properties ev) old in
  if ev_hasPropertySet ev "time" then ev_setTime (ev_getPropertyByName ev "time") old else old.

Lemma ev_key_replaced ev old : ev_key (replaced ev old) = ev_key old.
Proof. unfold replaced. by destruct (ev_hasPropertySet ev "time"). Qed.

Lemma replace_event_run old o ev h : events (eqh h) !! old = Some o ->
  replace_event old ev h = (Ok tt, with_eq (set_events <[old := replaced ev o]> (eqh h)) h).
Proof.
  intros H. unfold replace_event, replaced.
  rewrite (se_bind_ok _ _ _ _ _ (update_event_run _ _ _ _ H)).
  destruct (ev_hasPropertySet ev "time"); [|reflexivity].
  rewrite (update_event_run old (ev_setProperties (ev_Properties ev) o)).
  - rewrite eqh_with, with_with. do 2 f_equal. unfold set_events; cbn. by rewrite insert_insert_eq.
  - rewrite eqh_with. cbn. by rewrite lookup_insert_eq.
Qed.

(** All events of a list exist. *)
Definition alive (q : EQ ical) (l : list eid) : Prop := Forall (fun e => is_Some (events q !! e)) l.

(** The result of [merge_queued]: the first event of the same key is replaced. *)
Lemma merge_queued_run ev l h : alive (eqh h) l ->
  match List.find (fun e => bool_decide (key_of (eqh h) e = Some (ev_key ev))) l with
  | Some old => exists o, events (eqh h) !! old = Some o /\
      merge_queued ev l h = (Ok false, with_eq (set_events <[old := replaced ev o]> (eqh h)) h)
  | None => merge_queued ev l h = (Ok true, h)
  end.
Proof.
  induction 1 as [|e l [o Ho] _ IH]; cbn [List.find merge_queued]; [reflexivity|].
  rewrite (se_bind_ok _ _ _ _ _ (get_event_run _ _ _ Ho)). pose proof (key_of_lookup _ _ _ Ho) as Hk.
  destruct (ev_isReplacementFor ev o) eqn:E.
  - apply isReplacementFor_key in E. rewrite bool_decide_eq_true_2 by congruence.
    exists o. split; [done|]. by rewrite (se_bind_ok _ _ _ _ _ (replace_event_run _ _ _ _ Ho)).
  - rewrite bool_decide_eq_false_2; [done|]. rewrite Hk. intros H.
    rewrite (proj2 (isReplacementFor_key ev o)) in E by congruence. done.
Qed.

Lemma find_key_None q k l :
  List.find (fun e => bool_decide (key_of q e = Some k)) l = None <-> Some k ∉ map (key_of q) l.
Proof.
  induction l as [|e l IH]; cbn [List.find map]; [split; [intros _; apply not_elem_of_nil|done]|].
  rewrite not_elem_of_cons, <- IH. case_bool_decide; [|intuition congruence]. split; [done|]. by intros [? _].
Qed.

Lemma key_of_replace q old o ev e : events q !! old = Some o ->
  key_of (set_events <[old := replaced ev o]> q) e = key_of q e.
Proof.
  intros Ho. unfold key_of. cbn. destruct (decide (e = old)) as [->|].
  - rewrite lookup_insert_eq, Ho. cbn. by rewrite ev_key_replaced.
  - by rewrite lookup_insert_ne.
Qed.
Lemma find_key_Some q k l old :
  List.find (fun e => bool_decide (key_of q e = Some k)) l = Some old ->
  exists pre post, l = pre ++ old :: post /\ Some k ∉ map (key_of q) pre /\ key_of q old = Some k.
Proof.
  induction l as [|e l IH]; cbn [List.find]; [done|]. case_bool_decide as E.
  - intros [= ->]. exists [], l. split_and!; [done|apply not_elem_of_nil|done].
  - intros H. destruct (IH H) as (pre & post & -> & Hp & Ho). exists (e :: pre), post.
    split_and!; [done| |done]. cbn. rewrite not_elem_of_cons. split; [congruence|done].
Qed.

(** The two ways a unique event can go. *)
Inductive unique_pushed (e : eid) (ev : Event) (q : EQ ical) : EQ ical -> Prop :=
| pushed_replaces pre old post o :
    m_EventQueue q = pre ++ old :: post -> Some (ev_key ev) ∉ map (key_of q) pre ->
    events q !! old = Some o -> ev_key o = ev_key ev ->
    unique_pushed e ev q (set_events <[old := replaced ev o]> q)
| pushed_appends :
    Some (ev_key ev) ∉ queue_keys q ->
    unique_pushed e ev q (set_EventQueue (fun l => l ++ [e]) q).

Lemma push_unique_run h e ev :
  events (eqh h) !! e = Some ev -> immediate ev = true -> is_unique ev = true ->
  alive (eqh h) (m_EventQueue (eqh h)) ->
  exists q', push e h = (Ok tt, with_eq q' h) /\ unique_pushed e ev (eqh h) q'.
Proof.
  intros He Hi Hu Ha. unfold pushEvent.
  rewrite (se_bind_ok _ _ _ _ _ (schedule_immediate _ _ _ He Hi)).
  rewrite (se_bind_ok _ _ _ _ _ (get_event_run _ _ _ He)), Hu.
  pose proof (merge_queued_run ev _ h Ha) as Hm.
  change (merge_queued ev (m_EventQueue (eqh h)) h) with ((l ← gets m_EventQueue; merge_queued ev l) h) in Hm.
  destruct (List.find _ _) as [old|] eqn:F.
  - destruct Hm as (o & Ho & Hm). destruct (find_key_Some _ _ _ _ F) as (pre & post & Hq & Hpre & Hk).
    eexists. split; [by rewrite (se_bind_ok _ _ _ _ _ Hm)|].
    eapply pushed_replaces; [done..|]. rewrite (key_of_lookup _ _ _ Ho) in Hk. congruence.
  - eexists. split; [by rewrite (se_bind_ok _ _ _ _ _ Hm), modify_run|].
    constructor. by apply find_key_None.
Qed.

Lemma unique_pushed_keys e ev q q' : events q !! e = Some ev -> unique_pushed e ev q q' ->
  queue_keys q' = queue_keys q \/
  (Some (ev_key ev) ∉ queue_keys q /\ queue_keys q' = queue_keys q ++ [Some (ev_key ev)]).
Proof.
  intros He [pre old post o Hq Hpre Ho Hk|Hk].
  - left. unfold queue_keys. cbn [m_EventQueue set_events]. apply map_ext. intros x. by apply key_of_replace.
  - right. split; [done|]. unfold queue_keys. cbn [m_EventQueue set_EventQueue]. rewrite map_app. cbn.
    do 2 f_equal. by apply key_of_lookup.
Qed.

(** Pushing a unique event that is due at once always succeeds and
    touches nothing but the queue: if an event of the same name, context and
    location waits, the first such event takes over the properties (and the
    time) and the queue stays as it is; otherwise the event is appended. *)
Theorem pushEvent_unique (h : heap W) (e : eid) (ev : Event) :
  events (eqh h) !! e = Some ev -> immediate ev = true -> is_unique ev = true ->
  alive (eqh h) (m_EventQueue (eqh h)) ->
  exists q', push e h = (Ok tt, with_eq q' h) /\
    ((exists pre old post o, m_EventQueue (eqh h) = pre ++ old :: post /\
        Some (ev_key ev) ∉ map (key_of (eqh h)) pre /\ events (eqh h) !! old = Some o /\ ev_key o = ev_key ev /\
        events q' = <[old := replaced ev o]> (events (eqh h)) /\ m_EventQueue q' = m_EventQueue (eqh h)) \/
     (Some (ev_key ev) ∉ queue_keys (eqh h) /\
        events q' = events (eqh h) /\ m_EventQueue q' = m_EventQueue (eqh h) ++ [e])) /\
    m_ScheduledEvents q' = m_ScheduledEvents (eqh h).
Proof.
  intros He Hi Hu Ha. destruct (push_unique_run h e ev He Hi Hu Ha) as (q' & Hr & Hp).
  exists q'. split; [done|]. destruct Hp as [pre old post o Hq Hpre Ho Hk|Hk].
  - split; [|done]. left. by exists pre, old, post, o.
  - split; [|done]. by right.
Qed.

(** ** The queue over time *)

(** New events are made, unique events are pushed, events are taken out. *)
Inductive queue_step (h : heap W) : heap W -> Prop :=
| step_make e ev : events (eqh h) !! e = None -> queue_step h (with_eq (set_events <[e := ev]> (eqh h)) h)
| step_push e ev r h' : events (eqh h) !! e = Some ev -> immediate ev = true -> is_unique ev = true ->
    push e h = (r, h') -> queue_step h h'
| step_pop r h' : popEvent h = (r, h') -> queue_step h h'.

Definition queue_inv (q : EQ ical) : Prop := alive q (m_EventQueue q) /\ NoDup (queue_keys q).

Lemma alive_insert q e ev l : alive q l -> alive (set_events <[e := ev]> q) l.
Proof.
  unfold alive. intros H. eapply Forall_impl; [exact H|]. intros x Hx. cbn in *. destruct (decide (x = e)) as [->|].
  - by rewrite lookup_insert_eq.
  - by rewrite lookup_insert_ne.
Qed.

Lemma queue_inv_push e ev q q' : events q !! e = Some ev ->
  unique_pushed e ev q q' -> queue_inv q -> queue_inv q'.
Proof.
  intros He Hp [Ha Hn]. split.
  - destruct Hp as [pre old post o _ _ Ho Hk|Hk].
    + by apply alive_insert.
    + cbn. apply Forall_app. split; [done|]. apply Forall_singleton. cbn. by rewrite He.
  - destruct (unique_pushed_keys _ _ _ _ He Hp) as [->|[Hk ->]]; [done|].
    apply NoDup_app. split_and!; [done| |apply NoDup_singleton].
    intros x Hx ->%list_elem_of_singleton. done.
Qed.

Lemma queue_inv_step h h' : queue_step h h' -> queue_inv (eqh h) -> queue_inv (eqh h').
Proof.
  intros [e ev He|e ev r h1 He Hi Hu Hr|r h1 Hr] Hq.
  - rewrite eqh_with. destruct Hq as [Ha Hn]. split; [by apply alive_insert|].
    unfold queue_keys in *. cbn [m_EventQueue set_events].
    rewrite (map_ext_in _ (key_of (eqh h))); [done|]. intros x Hx%list_elem_of_In. unfold key_of. cbn.
    rewrite lookup_insert_ne; [done|]. intros ->. unfold alive in Ha. rewrite Forall_forall in Ha.
    destruct (Ha _ Hx) as [? ?]. congruence.
  - destruct (push_unique_run h e ev He Hi Hu (proj1 Hq)) as (q' & Hr' & Hp).
    rewrite Hr in Hr'. injection Hr' as _ ->. rewrite eqh_with. by eapply queue_inv_push.
  - unfold popEvent in Hr. rewrite (se_bind_ok _ _ _ _ _ (gets_run _ _)) in Hr.
    destruct (m_EventQueue (eqh h)) as [|e l] eqn:E; [by injection Hr as _ <-|].
    rewrite (se_bind_ok _ _ _ _ _ (modify_run _ _)) in Hr. injection Hr as _ <-.
    rewrite eqh_with. unfold queue_inv, queue_keys, alive in *. cbn. rewrite E in Hq. cbn in Hq.
    destruct Hq as [Ha Hn]. inversion_clear Ha. inversion_clear Hn. done.
Qed.

(** C27: from an empty queue, however unique events without a time or a
    recurrence, which go to the queue at once, are made, pushed and popped, no
    two waiting events ever have the same name, context and location, and
    pushing such an event never fails. *)
Theorem queue_stays_unique (h0 h : heap W) :
  m_EventQueue (eqh h0) = [] -> rtc queue_step h0 h ->
  NoDup (queue_keys (eqh h)) /\
  forall e ev, events (eqh h) !! e = Some ev -> immediate ev = true -> is_unique ev = true ->
    (push e h).1 = Ok tt.
Proof.
  intros H0 Hs. assert (queue_inv (eqh h)) as [Ha Hn].
  { assert (queue_inv (eqh h0)) as Hi.
    { unfold queue_inv, queue_keys, alive. rewrite H0. split; constructor. }
    clear H0. induction Hs as [|h0 h1 h Hstep _ IH]; [done|]. apply IH. by eapply queue_inv_step. }
  split; [done|]. intros e ev He Hi Hu. destruct (push_unique_run h e ev He Hi Hu Ha) as (q' & -> & _). done.
Qed.

(** An event that is not unique and not scheduled goes to the end of the queue. *)
Lemma push_plain_run h e ev :
  events (eqh h) !! e = Some ev -> immediate ev = true -> is_unique ev = false ->
  push e h = (Ok tt, with_eq (set_EventQueue (fun l => l ++ [e]) (eqh h)) h).
Proof.
  intros He Hi Hu. unfold pushEvent.
  rewrite (se_bind_ok _ _ _ _ _ (schedule_immediate _ _ _ He Hi)).
  rewrite (se_bind_ok _ _ _ _ _ (get_event_run _ _ _ He)), Hu. reflexivity.
Qed.
(** ** Raising scheduled events *)

Lemma with_eqh h : with_eq (eqh h) h = h.
Proof. unfold with_eq, eqh, set_ext. rewrite put_get_eq. by destruct h. Qed.

(** [unset_if_set] *)
Definition clear_if (p : string) (ev : Event) : Event :=
  if ev_hasPropertySet ev p then ev_unsetProperty p ev else ev.

(** What [raisePendingEvents] removes from an event before it pushes it. *)
Definition cleared (ev : Event) : Event := clear_if p_ICalRRule (clear_if p_ICalStartTime (clear_if p_Time ev)).

Lemma has_clear_if p m ev : p <> p_Name ->
  ev_hasPropertySet (clear_if p ev) m = if String.eqb m p then false else ev_hasPropertySet ev m.
Proof.
  intros Hp. unfold clear_if. apply String.eqb_neq in Hp. destruct (ev_hasPropertySet ev p) eqn:E.
  - by rewrite has_unset, Hp, andb_true_r.
  - by destruct (String.eqb_spec m p) as [->|].
Qed.

Lemma cleared_immediate ev : immediate (cleared ev) = true.
Proof.
  unfold immediate, cleared. by rewrite !has_clear_if.
Qed.

Lemma cleared_unique ev : is_unique (cleared ev) = is_unique ev.
Proof.
  unfold is_unique, cleared, clear_if.
  repeat match goal with |- context [if ?b then _ else _] => destruct b end; by rewrite ?unique_unset.
Qed.

Lemma set_events_insert (q : EQ ical) e ev f : events q !! e = Some ev -> set_events (alter f e) q = set_events <[e := f ev]> q.
Proof. intros H. unfold set_events. f_equal. by apply alter_alt_Some. Qed.

Definition clear_event (e : eid) (p : string) (q : EQ ical) : EQ ical := set_events (alter (clear_if p) e) q.

Lemma unset_if_set_run p e ev h : events (eqh h) !! e = Some ev ->
  unset_if_set p e h = (Ok tt, with_eq (set_events <[e := clear_if p ev]> (eqh h)) h).
Proof.
  intros He. unfold unset_if_set. rewrite (se_bind_ok _ _ _ _ _ (get_event_run _ _ _ He)).
  unfold clear_if. destruct (ev_hasPropertySet ev p); [by apply update_event_run|].
  unfold set_events. rewrite (insert_id _ _ _ He). unfold mret, se_ret. f_equal.
  symmetry. etransitivity; [|apply with_eqh]. f_equal. by destruct (eqh h).
Qed.

Lemma event_in_with q f e ev h : events q !! e = Some ev ->
  events (eqh (with_eq (set_events <[e := f ev]> q) h)) !! e = Some (f ev).
Proof. intros _. rewrite eqh_with. cbn. by rewrite lookup_insert_eq. Qed.

(** The three calls of [unset_if_set]. *)
Lemma unset_all_run {A} (k : SE (heap W) A) e ev h : events (eqh h) !! e = Some ev ->
  (_ ← unset_if_set p_Time e; _ ← unset_if_set p_ICalStartTime e; _ ← unset_if_set p_ICalRRule e; k) h =
  k (with_eq (set_events <[e := cleared ev]> (eqh h)) h).
Proof.
  intros He. rewrite (se_bind_ok _ _ _ _ _ (unset_if_set_run _ _ _ _ He)).
  pose proof (event_in_with _ (clear_if p_Time) _ _ h He) as H1.
  rewrite (se_bind_ok _ _ _ _ _ (unset_if_set_run p_ICalStartTime _ _ _ H1)).
  pose proof (event_in_with _ (clear_if p_ICalStartTime) _ _ (with_eq (set_events <[e := clear_if p_Time ev]> (eqh h)) h) H1) as H2.
  rewrite (se_bind_ok _ _ _ _ _ (unset_if_set_run p_ICalRRule _ _ _ H2)).
  rewrite !eqh_with, !with_with. unfold set_events; cbn. by rewrite !insert_insert_eq.
Qed.

(** A scheduled event with a static schedule that exists and is not unique. *)
Definition plain_static (q : EQ ical) (s : ScheduledEvent ical) : Prop :=
  (exists w, m_Schedule s = AStatic w /\ 0 < tv_sec (m_When w) < 2147483648) /\
  (exists ev, events q !! m_Event s = Some ev /\ is_unique ev = false).

Definition due (now : DateTime) (s : ScheduledEvent ical) : bool :=
  match m_Schedule s with AStatic w => tv_sec (m_When w) <=? tv_sec now | AnICal _ => false end.

(** A due event goes to the end of the queue, without its times. *)
Definition raise_event (s : ScheduledEvent ical) (q : EQ ical) : EQ ical :=
  set_EventQueue (fun l => l ++ [m_Event s]) (set_events (alter cleared (m_Event s)) q).
Definition raise_all (l : list (ScheduledEvent ical)) (q : EQ ical) : EQ ical :=
  fold_left (fun q s => raise_event s q) l q.

Lemma scheduled_at_run i s h : m_ScheduledEvents (eqh h) !! i = Some s -> scheduled_at i h = (Ok s, h).
Proof. intros H. unfold scheduled_at. rewrite (se_bind_ok _ _ _ _ _ (gets_run _ _)), H. done. Qed.

Lemma next_at_run i s w now h :
  m_ScheduledEvents (eqh h) !! i = Some s -> m_Schedule s = AStatic w ->
  in_epoch now -> in_epoch (m_When w) ->
  next_at i now h = (Ok (if tv_sec now <=? tv_sec (m_When w) then m_When w else now), h).
Proof.
  intros Hi Hs Hn Hw. unfold next_at. rewrite (se_bind_ok _ _ _ _ _ (scheduled_at_run _ _ _ Hi)), Hs.
  cbn [sched_next getNextOccurence static_schedule]. rewrite static_next_ok by done.
  assert (set_Schedule (AStatic w) s = s) as -> by (destruct s; cbn in *; by subst).
  rewrite (se_bind_ok _ _ _ _ _ (modify_run _ _)). unfold set_ScheduledEvents.
  rewrite (list_insert_id _ _ _ Hi). unfold se_lift. f_equal.
  etransitivity; [|apply with_eqh]. f_equal. by destruct (eqh h).
Qed.

Local Notation raise1 := (raise_one new_ICalSchedule callback).

Lemma raise_one_run now i s h :
  m_ScheduledEvents (eqh h) !! i = Some s -> plain_static (eqh h) s ->
  m_MonitorNode (eqh h) = None -> runner_has_queue (eqh h) = true -> 0 < tv_sec now < 2147483648 ->
  raise1 now (addSeconds 1 now) i h =
  if due now s then (Ok (true, [m_EventID s]), with_eq (raise_event s (eqh h)) h) else (Ok (false, []), h).
Proof.
  intros Hi [(w & Hw & Hr) (ev & He & Hu)] Hm Hq Hn. unfold raise_one, due. rewrite Hw.
  assert (in_epoch now /\ in_epoch (m_When w) /\ in_epoch NullDate) as (Hne & Hwe & H0) by (unfold in_epoch; cbn; lia).
  rewrite (se_bind_ok _ _ _ _ _ (next_at_run _ _ _ _ _ Hi Hw Hne Hwe)).
  rewrite (se_bind_ok _ _ _ _ _ (scheduled_at_run _ _ _ Hi)).
  set (n := if tv_sec now <=? tv_sec (m_When w) then m_When w else now). assert (in_epoch n) as Hnn by (subst n; by destruct (_ <=? _)).
  assert (0 < tv_sec n /\ (tv_sec n <=? tv_sec now) = (tv_sec (m_When w) <=? tv_sec now)) as [Hpos Hle].
  { subst n. destruct (Z.leb_spec (tv_sec now) (tv_sec (m_When w))); [lia|]. split; [lia|].
    rewrite Z.leb_refl. symmetry. apply Z.leb_le. lia. }
  rewrite dt_eq_ok, (proj2 (Z.eqb_neq _ _)) by (done || cbn; lia).
  rewrite (se_bind_ok (se_lift (Ok _)) _ _ _ _ eq_refl). cbv iota.
  rewrite (se_bind_ok _ _ _ _ _ (gets_run _ _)), Hm.
  rewrite (se_bind_ok (mret tt) _ _ _ _ eq_refl), dt_le_ok, Hle by done.
  rewrite (se_bind_ok (se_lift (Ok _)) _ _ _ _ eq_refl).
  destruct (tv_sec (m_When w) <=? tv_sec now); [|done].
  rewrite (se_bind_ok _ _ _ _ _ (gets_run _ _)), Hq. cbv zeta.
  rewrite (unset_all_run _ _ _ _ He).
  assert (is_unique (cleared ev) = false) as Hu' by (by rewrite cleared_unique).
  rewrite (se_bind_ok _ _ _ _ _ (push_plain_run _ _ _ (event_in_with _ cleared _ _ h He) (cleared_immediate ev) Hu')).
  rewrite with_with, eqh_with. unfold raise_event. rewrite (set_events_insert _ _ ev) by done. rewrite Hw. done.
Qed.

Lemma plain_static_raise s t q : plain_static q s -> plain_static (raise_event t q) s.
Proof.
  intros [Hs (ev & He & Hu)]. split; [done|]. cbn.
  destruct (decide (m_Event s = m_Event t)) as [<-|].
  - exists (cleared ev). rewrite lookup_alter_eq, He. by rewrite cleared_unique.
  - exists ev. by rewrite lookup_alter_ne.
Qed.

Local Notation raise_many := (raise_loop new_ICalSchedule callback).

Lemma raise_loop_run now l pre h :
  m_ScheduledEvents (eqh h) = pre ++ l -> Forall (plain_static (eqh h)) l ->
  m_MonitorNode (eqh h) = None -> runner_has_queue (eqh h) = true -> 0 < tv_sec now < 2147483648 ->
  raise_many now (addSeconds 1 now) (seq (length pre) (length l)) h =
  (Ok (existsb (due now) l, map m_EventID (List.filter (due now) l)),
   with_eq (raise_all (List.filter (due now) l) (eqh h)) h).
Proof.
  revert pre h. induction l as [|s l IH]; intros pre h Hl Hs Hm Hq Hn; cbn [length seq raise_loop].
  - cbn. by rewrite with_eqh.
  - apply Forall_cons in Hs as [Hs1 Hs].
    assert (m_ScheduledEvents (eqh h) !! length pre = Some s) as Hi by (rewrite Hl; by apply list_lookup_middle).
    pose proof (raise_one_run _ _ _ _ Hi Hs1 Hm Hq Hn) as Hr.
    specialize (IH (pre ++ [s])). rewrite length_app, <- app_assoc in IH. cbn in IH.
    replace (length pre + 1)%nat with (S (length pre)) in IH by lia.
    cbn [existsb List.filter]. destruct (due now s).
    + rewrite (se_bind_ok _ _ _ _ _ Hr).
      rewrite (se_bind_ok _ _ _ _ _ (IH (with_eq (raise_event s (eqh h)) h)
        ltac:(by rewrite eqh_with) ltac:(rewrite eqh_with; eapply Forall_impl; [exact Hs|]; intros ?; apply plain_static_raise)
        ltac:(by rewrite eqh_with) ltac:(by rewrite eqh_with) Hn)).
      by rewrite eqh_with, with_with.
    + rewrite (se_bind_ok _ _ _ _ _ Hr). by rewrite (se_bind_ok _ _ _ _ _ (IH h Hl Hs Hm Hq Hn)).
Qed.

(** ** Removing *)

Lemma erase_id_other id (s : ScheduledEvent ical) l : m_EventID s <> id -> erase_id id (s :: l) = s :: erase_id id l.
Proof. intros H. cbn. by apply String.eqb_neq in H as ->. Qed.

Lemma erase_ids_filter (p : ScheduledEvent ical -> bool) l : NoDup (map m_EventID l) ->
  fold_left (fun l id => erase_id id l) (map m_EventID (List.filter p l)) l = List.filter (fun s => negb (p s)) l.
Proof.
  induction l as [|s l IH]; cbn [map]; [done|]. intros [Hs Hn]%NoDup_cons. cbn [List.filter].
  destruct (p s); cbn [map fold_left negb].
  - cbn [erase_id]. rewrite String.eqb_refl. by apply IH.
  - rewrite <- (IH Hn).
    assert (forall id, id ∈ map m_EventID (List.filter p l) -> m_EventID s <> id) as Hne.
    { intros id Hid <-. apply Hs. apply list_elem_of_In, in_map_iff in Hid as (x & Hx & [Hin _]%filter_In).
      rewrite <- Hx. by apply list_elem_of_In, in_map. }
    revert Hne. generalize (map m_EventID (List.filter p l)) as ids. clear. intros ids. revert l.
    induction ids as [|id ids IHids]; intros l Hne; [done|]. cbn [fold_left].
    rewrite erase_id_other by (apply Hne; constructor). apply IHids. intros id' Hid'. apply Hne. by constructor.
Qed.

Lemma set_mutex_id (q : EQ ical) b : m_EventsMutex q = b -> set_EventsMutex b q = q.
Proof. intros <-. by destruct q. Qed.

Lemma raise_all_mutex l b (q : EQ ical) : raise_all l (set_EventsMutex b q) = set_EventsMutex b (raise_all l q).
Proof. unfold raise_all. revert q. induction l as [|s l IH]; intros q; [done|]. cbn. by rewrite <- IH. Qed.

Lemma raise_all_frame l (q : EQ ical) :
  m_EventsMutex (raise_all l q) = m_EventsMutex q /\ m_ScheduledEvents (raise_all l q) = m_ScheduledEvents q /\
  m_MonitorNode (raise_all l q) = m_MonitorNode q /\ runner_has_queue (raise_all l q) = runner_has_queue q /\
  m_EventQueue (raise_all l q) = m_EventQueue q ++ map m_Event l /\
  clock (raise_all l q) = clock q.
Proof.
  unfold raise_all. revert q. induction l as [|s l IH]; intros q; cbn; [by rewrite app_nil_r|].
  destruct (IH (raise_event s q)) as (H1 & H2 & H3 & H4 & H5 & H6).
  rewrite H1, H2, H3, H4, H5, H6. cbn. split_and!; try done. by rewrite <- app_assoc.
Qed.

Lemma remove_all_run ids h : m_MonitorNode (eqh h) = None -> m_EventsMutex (eqh h) = false ->
  se_iter (removeEvent callback) ids h =
  (Ok tt, with_eq (set_ScheduledEvents (fun l => fold_left (fun l id => erase_id id l) ids l) (eqh h)) h).
Proof.
  revert h. induction ids as [|id ids IH]; intros h Hm Hx; cbn [se_iter].
  - cbn. unfold mret, se_ret. f_equal. symmetry. etransitivity; [|apply with_eqh]. f_equal. by destruct (eqh h).
  - assert (removeEvent callback id h = (Ok tt, with_eq (set_ScheduledEvents (erase_id id) (eqh h)) h)) as Hr.
    { unfold removeEvent. rewrite (se_bind_ok _ _ _ _ _ (gets_run _ _)), Hm. unfold removeEventInternal.
      rewrite (mutex_run _ _ _ (set_ScheduledEvents (erase_id id) (set_EventsMutex true (eqh h))) Hx)
        by (rewrite modify_run, eqh_with, with_with; done).
      f_equal. f_equal. by apply (set_mutex_id (set_ScheduledEvents (erase_id id) (eqh h))). }
    rewrite (se_bind_ok _ _ _ _ _ Hr), IH by (by rewrite eqh_with). by rewrite eqh_with, with_with.
Qed.

(** A runner between two rounds: connected to a queue, without a monitor node,
    with static schedules of distinct identifiers. *)
Record runner_ok (q : EQ ical) : Prop := {
  ro_unlocked : m_EventsMutex q = false;
  ro_queue : runner_has_queue q = true;
  ro_monitor : m_MonitorNode q = None;
  ro_static : Forall (plain_static q) (m_ScheduledEvents q);
  ro_ids : NoDup (map m_EventID (m_ScheduledEvents q))
}.

Local Notation raise := (raisePendingEvents new_ICalSchedule callback).

(** The state after a round. *)
Definition raised (q : EQ ical) : EQ ical :=
  set_ScheduledEvents (fun _ => List.filter (fun s => negb (due (clock q) s)) (m_ScheduledEvents q))
    (raise_all (List.filter (due (clock q)) (m_ScheduledEvents q)) q).

Lemma raise_run h : runner_ok (eqh h) -> 0 < tv_sec (clock (eqh h)) < 2147483648 ->
  raise h = (Ok (existsb (due (clock (eqh h))) (m_ScheduledEvents (eqh h))), with_eq (raised (eqh h)) h).
Proof.
  intros [Hx Hq Hm Hs Hi] Hn. unfold raisePendingEvents, raised.
  rewrite (se_bind_ok _ _ _ _ _ (gets_run _ _)).
  set (now := clock (eqh h)) in *. set (l := m_ScheduledEvents (eqh h)) in *.
  set (h1 := with_eq (set_EventsMutex true (eqh h)) h).
  assert (eqh h1 = set_EventsMutex true (eqh h)) as E1 by apply eqh_with.
  pose proof (raise_loop_run now l [] h1 ltac:(by rewrite E1)
    ltac:(rewrite E1; eapply Forall_impl; [exact Hs|]; done) ltac:(by rewrite E1) ltac:(by rewrite E1) Hn) as Hr.
  rewrite E1, raise_all_mutex in Hr. unfold h1 in Hr. rewrite with_with in Hr. cbn [length] in Hr.
  assert ((n ← gets (fun q => length (m_ScheduledEvents q)); raise_many now (addSeconds 1 now) (seq 0 n)) h1 =
    raise_many now (addSeconds 1 now) (seq 0 (length l)) h1) as Hg
    by (rewrite (se_bind_ok _ _ _ _ _ (gets_run _ _)), E1; done).
  pose proof (mutex_run _ _ _ _ Hx (eq_trans Hg Hr)) as Hm'.
  rewrite (se_bind_ok _ _ _ _ _ Hm'). cbn [snd fst].
  set (q1 := raise_all (List.filter (due now) l) (eqh h)) in *.
  destruct (raise_all_frame (List.filter (due now) l) (eqh h)) as (F1 & F2 & F3 & F4 & F5 & F6). fold q1 in F1, F2, F3, F4, F5, F6.
  replace (set_EventsMutex false (set_EventsMutex true q1)) with q1
    by (rewrite <- Hx, <- F1; by destruct q1).
  assert (eqh (with_eq q1 h) = q1) as Eq1 by apply eqh_with.
  rewrite (se_bind_ok _ _ _ _ _ (remove_all_run _ _ ltac:(by rewrite Eq1, F3) ltac:(by rewrite Eq1, F1))).
  rewrite Eq1, with_with. unfold mret, se_ret. unfold set_ScheduledEvents. rewrite F2.
  fold l. by rewrite erase_ids_filter.
Qed.

Lemma raise_all_plain l s q : plain_static q s -> plain_static (raise_all l q) s.
Proof. unfold raise_all. revert q. induction l as [|t l IH]; intros q Hs; [done|]. cbn. by apply IH, plain_static_raise. Qed.

Lemma raise_all_untimed l (q : EQ ical) s : Forall (plain_static q) l -> s ∈ l ->
  exists ev, events (raise_all l q) !! m_Event s = Some ev /\ immediate ev = true.
Proof.
  unfold raise_all. revert q.
  assert (forall l q e ev, events q !! e = Some ev -> immediate ev = true ->
    exists ev', events (raise_all l q) !! e = Some ev' /\ immediate ev' = true) as Hkeep.
  { clear l s. induction l as [|t l IH]; intros q e ev He Hi; [by exists ev|]. cbn.
    destruct (decide (e = m_Event t)) as [->|].
    - apply (IH _ _ (cleared ev)); [cbn; by rewrite lookup_alter_eq, He|apply cleared_immediate].
    - apply (IH _ _ ev); [cbn; by rewrite lookup_alter_ne|done]. }
  induction l as [|t l IH]; intros q Hl Hin; [by apply elem_of_nil in Hin|]. cbn.
  apply Forall_cons in Hl as [[_ (ev & He & _)] Hl]. apply elem_of_cons in Hin as [->|Hin].
  - apply (Hkeep _ _ _ (cleared ev)); [cbn; by rewrite lookup_alter_eq, He|apply cleared_immediate].
  - apply IH; [|done]. eapply Forall_impl; [exact Hl|]. intros x. apply plain_static_raise.
Qed.

Lemma NoDup_ids_filter (p : ScheduledEvent ical -> bool) l :
  NoDup (map m_EventID l) -> NoDup (map m_EventID (List.filter p l)).
Proof.
  induction l as [|s l IH]; [done|]. cbn. intros [Hs Hi]%NoDup_cons.
  destruct (p s); cbn; [|by apply IH]. apply NoDup_cons. split; [|by apply IH].
  intros Hin. apply Hs. apply list_elem_of_In in Hin. apply list_elem_of_In. apply in_map_iff in Hin as (x & Hx & Hxin).
  apply filter_In in Hxin as [Hxin _]. apply in_map_iff. eauto.
Qed.

Lemma Forall_filter_bool {A} (P : A -> Prop) p l : Forall P l -> Forall P (List.filter p l).
Proof. induction 1 as [|x l Hx _ IH]; [constructor|]. cbn. destruct (p x); [by constructor|done]. Qed.

Lemma raised_ok q : runner_ok q -> runner_ok (raised q).
Proof.
  intros [Hx Hq Hm Hs Hi].
  destruct (raise_all_frame (List.filter (due (clock q)) (m_ScheduledEvents q)) q) as (F1 & F2 & F3 & F4 & F5 & F6).
  split; [exact (eq_trans F1 Hx)|exact (eq_trans F4 Hq)|exact (eq_trans F3 Hm)| |];
    cbn [m_ScheduledEvents set_ScheduledEvents raised].
  - apply Forall_filter_bool. eapply Forall_impl; [exact Hs|]. intros s Hs'. by apply (raise_all_plain _ s q).
  - by apply NoDup_ids_filter.
Qed.

(** C2: one round of the runner hands over exactly the events that are due:
    every scheduled event whose time has come is appended to the queue, in
    order and without its times, and leaves the schedule; the others stay, and
    the runner is ready for the next round.  (For times before 2038, events
    that are not unique, and no monitor node.) *)
Theorem raisePendingEvents_due (h : heap W) :
  runner_ok (eqh h) -> 0 < tv_sec (clock (eqh h)) < 2147483648 ->
  let now := clock (eqh h) in
  let l := m_ScheduledEvents (eqh h) in
  exists q', raise h = (Ok (existsb (due now) l), with_eq q' h) /\
    m_EventQueue q' = m_EventQueue (eqh h) ++ map m_Event (List.filter (due now) l) /\
    m_ScheduledEvents q' = List.filter (fun s => negb (due now s)) l /\
    (forall s, s ∈ List.filter (due now) l -> exists ev, events q' !! m_Event s = Some ev /\ immediate ev = true) /\
    runner_ok q'.
Proof.
  intros Ho Hn now l. exists (raised (eqh h)). split; [by apply raise_run|].
  destruct (raise_all_frame (List.filter (due now) l) (eqh h)) as (F1 & F2 & F3 & F4 & F5 & F6).
  split_and!; [exact F5|done| |by apply raised_ok].
  intros s Hin. apply (raise_all_untimed (List.filter (due now) l)); [|done].
  apply Forall_filter_bool, Ho.
Qed.

(** ** Scheduling *)

Lemma uint_no_dash c : sexists (Ascii.eqb "-") (uintToString c false) = false.
Proof.
  assert (sforall (fun a => negb (Ascii.eqb "-" a)) (uintToString c false) = true) as H.
  { apply print_digits_forall; [lia| |done]. intros v Hv.
    apply (zrange_forall (fun v => negb (Ascii.eqb "-" (digit_char v))) 0 10 ltac:(by_compute) v). lia. }
  unfold sforall in H. apply negb_true_iff in H. etransitivity; [|exact H].
  apply sexists_ext. intros a. by rewrite negb_involutive.
Qed.

Lemma scheduled_id_inj c c' s s' n n' : 0 <= c < 2 ^ 64 -> 0 <= c' < 2 ^ 64 ->
  scheduled_id c s n = scheduled_id c' s' n' -> c = c'.
Proof.
  intros Hc Hc' H. assert (uintToString c false = uintToString c' false) as E.
  { exact (separator_inj "-" _ _ _ _ (uint_no_dash c) (uint_no_dash c') H). }
  pose proof (strToULongLong_uintToString c false Hc) as H1.
  rewrite E, (strToULongLong_uintToString c' false Hc') in H1. by injection H1.
Qed.

(** The state after a push that schedules [e] at [when]. *)
Definition scheduled (e : eid) (ev : Event) (when : DateTime) (q : EQ ical) : EQ ical :=
  set_ScheduledEvents (fun l => l ++ [mkScheduled e (AStatic (mkStaticSchedule when)) ""
      (scheduled_id (m_ScheduledEventCounter q) (tv_sec (clock q)) (ev_Name ev))])
    (set_Counter (wrapU 64 (m_ScheduledEventCounter q + 1)) q).

(** An event with the relative time [+n]. *)
Definition relative (n : Z) (ev : Event) : Prop :=
  0 < n < 2147483648 /\ ev_hasPropertySet ev p_Time = true /\
  ev_getPropertyByName ev p_Time = "+" +:+ intToString n false.

Lemma schedule_relative e ev n h :
  events (eqh h) !! e = Some ev -> relative n ev ->
  scheduleFromEvent new_ICalSchedule e h = (Ok (Some (AStatic (mkStaticSchedule (addSeconds n (clock (eqh h)))))), h).
Proof.
  intros He (Hn & Ht & Hv). unfold scheduleFromEvent.
  rewrite (se_bind_ok _ _ _ _ _ (get_event_run _ _ _ He)), Ht.
  rewrite (se_bind_ok _ _ _ _ _ (gets_run _ _)), Hv. cbv zeta.
  assert (strToIntDef (intToString n false) (-1) = n) as E.
  { rewrite strToIntDef_strToInt, strToInt_print by lia. apply int32_id. lia. }
  assert (2 <= slen ("+" +:+ intToString n false))%nat as Hl.
  { rewrite intToString_form, slen_app. unfold print_number.
    destruct (print_digits_cons 19 10 (Z.abs n) "") as (c & r & ->). rewrite slen_app. cbn. lia. }
  apply Nat.leb_le in Hl. rewrite Hl. cbn [String.append]. rewrite E.
  rewrite Z.gtb_ltb, (proj2 (Z.ltb_lt _ _)) by lia. done.
Qed.

Lemma push_relative_run h e ev n :
  events (eqh h) !! e = Some ev -> relative n ev -> is_unique ev = false ->
  queue_has_runner (eqh h) = true -> m_EventsMutex (eqh h) = false -> m_MonitorNode (eqh h) = None ->
  push e h = (Ok tt, with_eq (scheduled e ev (addSeconds n (clock (eqh h))) (eqh h)) h).
Proof.
  intros He Hn Hu Hq Hx Hm. unfold pushEvent.
  rewrite (se_bind_ok _ _ _ _ _ (schedule_relative _ _ _ _ He Hn)). unfold new_ScheduledEvent.
  set (q1 := set_Counter (wrapU 64 (m_ScheduledEventCounter (eqh h) + 1)) (eqh h)).
  set (se := mkScheduled e (AStatic (ical := ical) (mkStaticSchedule (addSeconds n (clock (eqh h))))) "" (scheduled_id (m_ScheduledEventCounter (eqh h)) (secondsSinceEpoch (clock (eqh h))) (ev_Name ev))).
  assert (events (eqh (with_eq q1 h)) !! e = Some ev) as He1 by (by rewrite eqh_with).
  assert (events (eqh (with_eq (set_EventsMutex true q1) h)) !! e = Some ev) as He2 by (by rewrite eqh_with).
  assert ((counter ← gets m_ScheduledEventCounter; _ ← modify (set_Counter (wrapU 64 (counter + 1)));
     now ← gets clock; ev ← get_event e;
     mret (mkScheduled e (AStatic (mkStaticSchedule (addSeconds n (clock (eqh h))))) ""
       (scheduled_id counter (secondsSinceEpoch now) (ev_Name ev)))) h = (Ok se, with_eq q1 h)) as Hse.
  { rewrite (se_bind_ok _ _ _ _ _ (gets_run _ _)), (se_bind_ok _ _ _ _ _ (modify_run _ _)).
    rewrite (se_bind_ok _ _ _ _ _ (gets_run _ _)). fold q1. rewrite eqh_with.
    rewrite (se_bind_ok _ _ _ _ _ (get_event_run e ev _ He1)). done. }
  rewrite (se_bind_ok _ _ _ _ _ Hse). rewrite (se_bind_ok _ _ _ _ _ (gets_run _ _)), eqh_with.
  change (queue_has_runner q1) with (queue_has_runner (eqh h)). rewrite Hq. unfold addEvent.
  rewrite (mutex_run _ _ (Ok tt) (set_ScheduledEvents (fun l => l ++ [se]) (set_EventsMutex true q1))).
  - rewrite with_with. do 2 f_equal. unfold scheduled. fold q1. cbn. unfold set_ScheduledEvents, set_EventsMutex. cbn.
    by rewrite Hx.
  - rewrite eqh_with. exact Hx.
  - rewrite eqh_with, with_with.
    rewrite (se_bind_ok _ _ _ _ _ (get_event_run e ev _ He2)). rewrite Hu.
    rewrite (se_bind_ok (mret true) _ _ _ _ eq_refl). rewrite (se_bind_ok _ _ _ _ _ (gets_run _ _)), eqh_with.
    change (m_MonitorNode (set_EventsMutex true q1)) with (m_MonitorNode (eqh h)). rewrite Hm.
    rewrite (se_bind_ok (mret tt) _ _ _ _ eq_refl), modify_run, eqh_with, with_with.
    by rewrite with_with.
Qed.

(** ** The schedule over time *)

(** Events are made and pushed with a relative time, time passes, due events
    are raised and taken out of the queue.  The counter of scheduled events is
    64 bits wide and the clock stays before 2038. *)
Inductive runner_step (h : heap W) : heap W -> Prop :=
| rstep_make e ev : events (eqh h) !! e = None -> runner_step h (with_eq (set_events <[e := ev]> (eqh h)) h)
| rstep_push e ev n r h' :
    events (eqh h) !! e = Some ev -> relative n ev -> is_unique ev = false ->
    0 < tv_sec (clock (eqh h)) -> tv_sec (clock (eqh h)) + n < 2147483648 ->
    m_ScheduledEventCounter (eqh h) + 1 < 2 ^ 64 ->
    push e h = (r, h') -> runner_step h h'
| rstep_tick now : runner_step h (with_eq (set_clock now (eqh h)) h)
| rstep_raise r h' : 0 < tv_sec (clock (eqh h)) < 2147483648 -> raise h = (r, h') -> runner_step h h'
| rstep_pop r h' : popEvent h = (r, h') -> runner_step h h'.

(** Every identifier was made from an earlier value of the counter. *)
Definition ids_below (q : EQ ical) : Prop :=
  Forall (fun s => exists c secs name, m_EventID s = scheduled_id c secs name /\ 0 <= c < m_ScheduledEventCounter q)
    (m_ScheduledEvents q).

Definition runner_inv (q : EQ ical) : Prop :=
  runner_ok q /\ queue_has_runner q = true /\ 0 <= m_ScheduledEventCounter q < 2 ^ 64 /\ ids_below q.

Lemma plain_static_other q e ev s : events q !! e = None -> plain_static q s ->
  plain_static (set_events <[e := ev]> q) s.
Proof.
  intros He [Hs (ev' & He' & Hu)]. split; [done|]. exists ev'. cbn. rewrite lookup_insert_ne; [done|].
  intros ->. congruence.
Qed.

Lemma runner_inv_scheduled q e ev n : runner_inv q -> events q !! e = Some ev -> is_unique ev = false ->
  0 < n -> 0 < tv_sec (clock q) -> tv_sec (clock q) + n < 2147483648 -> m_ScheduledEventCounter q + 1 < 2 ^ 64 ->
  runner_inv (scheduled e ev (addSeconds n (clock q)) q).
Proof.
  intros ([Hx Hq Hm Hs Hi] & Hr & Hc & Hb) He Hu Hn H0 Hn' Hc'.
  assert (wrapU 64 (m_ScheduledEventCounter q + 1) = m_ScheduledEventCounter q + 1) as Ew
    by (apply Z.mod_small; lia).
  split_and!; [split; [exact Hx|exact Hq|exact Hm| |]|exact Hr| | |].
  - cbn. apply Forall_app. split; [exact Hs|]. apply Forall_singleton. split.
    + eexists. split; [reflexivity|]. cbn. lia.
    + exists ev. by split.
  - cbn. rewrite map_app. apply NoDup_app. split_and!; [exact Hi| |apply NoDup_singleton].
    intros id Hin ->%list_elem_of_singleton. apply list_elem_of_In, in_map_iff in Hin as (s & Hid & Hs').
    unfold ids_below in Hb. rewrite Forall_forall in Hb. apply list_elem_of_In in Hs'.
    destruct (Hb s Hs') as (c & secs & name & E & Hcc). rewrite E in Hid. apply scheduled_id_inj in Hid; lia.
  - cbn. rewrite Ew. lia.
  - cbn. rewrite Ew. lia.
  - unfold ids_below. cbn. rewrite Ew. apply Forall_app. split.
    + eapply Forall_impl; [exact Hb|]. cbn. intros s (c & secs & name & E & Hcc). exists c, secs, name. split; [done|lia].
    + apply Forall_singleton. cbn. exists (m_ScheduledEventCounter q), (tv_sec (clock q)), (ev_Name ev). split; [done|lia].
Qed.

(** What does not touch the scheduled events, the flags and the counter. *)
Lemma runner_inv_frame q q' :
  runner_inv q -> m_EventsMutex q' = m_EventsMutex q -> runner_has_queue q' = runner_has_queue q ->
  m_MonitorNode q' = m_MonitorNode q -> m_ScheduledEvents q' = m_ScheduledEvents q ->
  queue_has_runner q' = queue_has_runner q -> m_ScheduledEventCounter q' = m_ScheduledEventCounter q ->
  (forall s, plain_static q s -> plain_static q' s) -> runner_inv q'.
Proof.
  intros ([Hx Hq Hm Hs Hi] & Hr & Hc & Hb) E1 E2 E3 E4 E5 E6 Hp.
  unfold runner_inv, ids_below. rewrite E4, E5, E6. refine (conj _ (conj Hr (conj Hc Hb))).
  split; rewrite ?E1, ?E2, ?E3, ?E4; try done. eapply Forall_impl; [exact Hs|]. exact Hp.
Qed.

Lemma runner_inv_raised q : runner_inv q -> runner_inv (raised q).
Proof.
  intros (Ho & Hr & Hc & Hb).
  assert (forall l q', queue_has_runner (raise_all l q') = queue_has_runner q' /\
    m_ScheduledEventCounter (raise_all l q') = m_ScheduledEventCounter q') as Hf.
  { unfold raise_all. induction l as [|s l IH]; intros q'; [done|]. cbn. by destruct (IH (raise_event s q')) as [-> ->]. }
  destruct (Hf (List.filter (due (clock q)) (m_ScheduledEvents q)) q) as [F1 F2].
  split; [by apply raised_ok|]. split; [exact (eq_trans F1 Hr)|].
  unfold ids_below. change (m_ScheduledEventCounter (raised q)) with
    (m_ScheduledEventCounter (raise_all (List.filter (due (clock q)) (m_ScheduledEvents q)) q)).
  rewrite F2. split; [done|]. by apply Forall_filter_bool.
Qed.

Lemma runner_inv_step h h' : runner_step h h' -> runner_inv (eqh h) -> runner_inv (eqh h').
Proof.
  intros [e ev He|e ev n r h1 He Hn Hu H0 Hn' Hc Hr|now|r h1 Hn Hr|r h1 Hr] Hi.
  - rewrite eqh_with. eapply runner_inv_frame; [exact Hi|done..|]. intros s. by apply plain_static_other.
  - destruct Hi as (Ho & Hq & Hi). pose proof (push_relative_run h e ev n He Hn Hu Hq (ro_unlocked _ Ho) (ro_monitor _ Ho)) as Hp.
    rewrite Hr in Hp. injection Hp as _ ->. rewrite eqh_with.
    apply runner_inv_scheduled; [exact (conj Ho (conj Hq Hi))|done|done|apply Hn|done..].
  - rewrite eqh_with. by eapply runner_inv_frame; [exact Hi|..].
  - pose proof (raise_run h (proj1 Hi) Hn) as Hp. rewrite Hr in Hp. injection Hp as _ ->. rewrite eqh_with.
    by apply runner_inv_raised.
  - unfold popEvent in Hr. rewrite (se_bind_ok _ _ _ _ _ (gets_run _ _)) in Hr.
    destruct (m_EventQueue (eqh h)) as [|e l] eqn:E; [by injection Hr as _ <-|].
    rewrite (se_bind_ok _ _ _ _ _ (modify_run _ _)) in Hr. injection Hr as _ <-.
    rewrite eqh_with. by eapply runner_inv_frame; [exact Hi|..].
Qed.

(** C1: the schedule of a runner without a monitor node, the default of its
    constructor (the program passes one; [MonitorFacts] shows how an event then
    leaves the schedule).  However events
    that are not unique are made and pushed with readable times relative to
    now, time passes, events are raised and popped, from a consistent state, while
    clocks and due times are between 1970 and 2038 and fewer than 2^64 events
    were scheduled: no two scheduled events ever share an identifier, no lock is
    held between operations, a round of the runner never fails, and pushing an
    event of [n] seconds that is not unique schedules it [n] seconds from now. *)
Theorem scheduler_invariant (h0 h : heap W) :
  runner_inv (eqh h0) -> rtc runner_step h0 h ->
  NoDup (map m_EventID (m_ScheduledEvents (eqh h))) /\ m_EventsMutex (eqh h) = false /\
  (0 < tv_sec (clock (eqh h)) < 2147483648 -> exists b, (raise h).1 = Ok b) /\
  (forall e ev n, events (eqh h) !! e = Some ev -> relative n ev -> is_unique ev = false ->
     (push e h).1 = Ok tt /\
     exists id, m_ScheduledEvents (eqh (push e h).2) =
       m_ScheduledEvents (eqh h) ++ [mkScheduled e (AStatic (mkStaticSchedule (addSeconds n (clock (eqh h))))) "" id]).
Proof.
  intros H0 Hs. assert (runner_inv (eqh h)) as (Ho & Hq & Hi).
  { induction Hs as [|h0 h1 h Hstep _ IH]; [done|]. apply IH. by eapply runner_inv_step. }
  split_and!; [apply Ho|apply Ho| |].
  - intros Hn. eexists. by rewrite raise_run.
  - intros e ev n He Hn Hu.
    rewrite (push_relative_run h e ev n He Hn Hu Hq (ro_unlocked _ Ho) (ro_monitor _ Ho)). split; [done|].
    cbn [snd]. rewrite eqh_with. eexists. reflexivity.
Qed.

(** An event whose relative time cannot be read, or is negative, is not
    dropped, as the log says: it goes to the queue at once. *)
Theorem invalid_time_raised_at_once (h : heap W) (e : eid) (ev : Event) (s : string) :
  events (eqh h) !! e = Some ev -> ev_hasPropertySet ev p_Time = true ->
  ev_getPropertyByName ev p_Time = "+" +:+ s -> s <> "" -> strToIntDef s (-1) < 0 -> is_unique ev = false ->
  push e h = (Ok tt, with_eq (set_EventQueue (fun l => l ++ [e]) (eqh h)) h).
Proof.
  intros He Ht Hv Hs Hn Hu.
  assert (scheduleFromEvent new_ICalSchedule e h = (Ok None, h)) as Hsch.
  { unfold scheduleFromEvent. rewrite (se_bind_ok _ _ _ _ _ (get_event_run _ _ _ He)), Ht.
    rewrite (se_bind_ok _ _ _ _ _ (gets_run _ _)), Hv. cbv zeta. destruct s as [|c s]; [done|].
    change (2 <=? slen ("+" +:+ String c s))%nat with true. cbn [String.append].
    by rewrite Z.gtb_ltb, (proj2 (Z.ltb_ge _ _)) by lia. }
  unfold pushEvent. rewrite (se_bind_ok _ _ _ _ _ Hsch).
  by rewrite (se_bind_ok _ _ _ _ _ (get_event_run _ _ _ He)), Hu.
Qed.
End Facts.

(** * Concrete systems *)

(** No recurring schedules, no calendar. *)
#[local] Instance no_ical : Schedule unit :=
  {| getNextOccurence := fun _ s => (Ok NullDate, s); hasRecurrence := fun _ => true; leapAdjust := fun _ s => (0, s) |}.
#[local] Instance no_libc : Libc := fixed_zone 0 false.
Definition no_new (_ _ : string) (_ : DateTime) : res unit := Throw (RuntimeError "no recurrences").
Definition no_listener (k : notification) (l : lid) (n c : nid) (h : heap (EQ unit)) : heap (EQ unit) := h.

(** An empty event system at 1000 seconds, with events. *)
Definition system (evs : list Event) (mon : option nid) : EQ unit :=
  mkEQ (list_to_map (zip (seq 0 (length evs)) evs)) [] 0 true [] true mon false (mkDateTime 1000 0).
Definition system_heap (evs : list Event) : heap (EQ unit) := empty_heap (system evs None).

Definition timed (name t : string) : Event := ev_setTime t (Event_name NullDate name).
Definition unique_event (name v : string) : Event :=
  ev_set_all [("unique", "yes"); ("v", v)] (Event_name NullDate name).

Definition one_waiting : heap (EQ unit) :=
  with_eq (set_EventQueue (fun _ => [0%nat]) (system [unique_event "a" "1"; unique_event "a" "2"] None)) (system_heap []).

Lemma pushEvent_unique_witness :
  exists q', pushEvent no_new no_listener 1%nat one_waiting = (Ok tt, with_eq q' one_waiting).
Proof.
  destruct (pushEvent_unique (EW := EventWorld_self unit) no_new no_listener one_waiting 1%nat (unique_event "a" "2")
    ltac:(reflexivity) ltac:(reflexivity) ltac:(reflexivity)
    ltac:(apply Forall_singleton; eexists; reflexivity)) as (q' & H & _).
  exists q'. exact H.
Defined.

Lemma queue_stays_unique_witness :
  NoDup (queue_keys (eqh (snd (pushEvent no_new no_listener 0%nat (system_heap [unique_event "a" "1"]))))).
Proof.
  apply (queue_stays_unique (EW := EventWorld_self unit) no_new no_listener (system_heap [unique_event "a" "1"])); [reflexivity|].
  apply rtc_once, (step_push _ _ _ 0%nat (unique_event "a" "1") (Ok tt)); reflexivity.
Defined.

Definition two_scheduled : heap (EQ unit) :=
  with_eq (set_ScheduledEvents (fun _ => [mkScheduled 0%nat (AStatic (mkStaticSchedule (mkDateTime 900 0))) "" "0-1_a";
      mkScheduled 1%nat (AStatic (mkStaticSchedule (mkDateTime 1100 0))) "" "1-1_b"])
    (system [timed "a" "+5"; timed "b" "+9"] None)) (system_heap []).

Lemma two_scheduled_ok : runner_ok (eqh two_scheduled).
Proof.
  split; try reflexivity.
  - apply Forall_cons. split; [|apply Forall_singleton]; (split; [eexists; split; [reflexivity|cbn; lia]|eexists; split; reflexivity]).
  - apply (bool_decide_unpack _). vm_compute. exact I.
Qed.

Lemma raisePendingEvents_due_witness :
  exists q', raisePendingEvents no_new no_listener two_scheduled = (Ok true, with_eq q' two_scheduled) /\
    m_EventQueue q' = [0%nat].
Proof.
  destruct (raisePendingEvents_due (EW := EventWorld_self unit) no_new no_listener two_scheduled two_scheduled_ok ltac:(cbn; lia))
    as (q' & H & Hq & _).
  exists q'. split; [exact H|exact Hq].
Defined.

Lemma scheduler_invariant_witness :
  m_EventsMutex (eqh (snd (pushEvent no_new no_listener 0%nat (system_heap [timed "a" "+5"])))) = false.
Proof.
  refine (proj1 (proj2 (scheduler_invariant (EW := EventWorld_self unit) no_new no_listener (system_heap [timed "a" "+5"]) _ _ _))).
  - split; [split; try reflexivity; constructor|]. split; [reflexivity|]. split; [cbn; lia|]. constructor.
  - apply rtc_once, (rstep_push _ _ _ 0%nat (timed "a" "+5") 5 (Ok tt)); try reflexivity; try (cbn; lia).
    split; [lia|]. split; reflexivity.
Defined.

Lemma invalid_time_raised_at_once_witness :
  (pushEvent no_new no_listener 0%nat (system_heap [timed "a" "+08"])).1 = Ok tt.
Proof.
  rewrite (invalid_time_raised_at_once (EW := EventWorld_self unit) no_new no_listener (system_heap [timed "a" "+08"]) 0%nat (timed "a" "+08") "08");
    [reflexivity|reflexivity|reflexivity|reflexivity|discriminate|vm_compute; reflexivity|reflexivity].
Defined.

(** ** With a monitor node *)

Definition runner_id : lid := 0%nat.
Definition listeners := event_listeners (ical := unit) runner_id no_listener.

(** The event system with the monitor node the program gives its runner. *)
Definition monitored (evs : list Event) : heap (EQ unit) :=
  let '(r, h) := sys_createProperty listeners "/system/EventInterpreter/ScheduledEvents" (system_heap []) in
  match r with
  | Ok (Some mon) => with_eq (system evs (Some mon)) (snd (addListener mon runner_id h))
  | _ => h
  end.

(** Push the first event, let two seconds pass, and do [n] rounds; how many
    events wait in the queue and how many are scheduled. *)
Fixpoint rounds (n : nat) (h : heap (EQ unit)) : heap (EQ unit) :=
  match n with O => h | S n => rounds n (snd (raisePendingEvents no_new listeners h)) end.
Definition after_rounds (n : nat) (evs : list Event) : nat * nat :=
  let h := snd (pushEvent no_new listeners 0%nat (monitored evs)) in
  let h := rounds n (with_eq (set_clock (mkDateTime 1002 0) (eqh h)) h) in
  (length (m_EventQueue (eqh h)), length (m_ScheduledEvents (eqh h))).

(** The monitor node does not change what the runner does for an ordinary name:
    one round raises the event and the removal of its node takes it off the
    schedule.  The identifier ends with the name of the event, and a name with
    a slash makes a path of it: the node that is removed then is not a child
    of the monitor node, its own name is no identifier, and the event stays
    scheduled and is raised again in every round. *)
Theorem slash_in_name_raised_forever :
  after_rounds 1 [timed "ab" "+1"] = (1%nat, 0%nat) /\ after_rounds 3 [timed "ab" "+1"] = (1%nat, 0%nat) /\
  after_rounds 1 [timed "a/b" "+1"] = (1%nat, 1%nat) /\ after_rounds 3 [timed "a/b" "+1"] = (3%nat, 1%nat).
Proof. by_compute. Qed.
