(* ===== verification/RunnerFacts.v ===== *)
(** The runner of scheduled events over time ([EventRunner] of
    [src/src/event.cpp]): what becomes of the scheduled events when its rounds
    follow each other. *)
From stdpp Require Import base option list strings gmap.
From Stdlib Require Import ZArith Lia Ascii.
From Stdlib Require String.
From S2P Require Import Prelude CxxString Base NumConv Calendar DateTools Event PropertyTree PropertyTreeFacts.
From S2P Require Import EventQueue EventQueueFacts.

Open Scope string_scope.
Open Scope list_scope.
Open Scope Z_scope.

Section Rounds.
Context {ical W : Type} {Sched : Schedule ical} {EW : EventWorld ical W} {LC : Libc}.
Context (new_ICalSchedule : string -> string -> DateTime -> res ical).
Context (callback : notification -> lid -> nid -> nid -> heap W -> heap W).
Implicit Types (h : heap W) (q : EQ ical) (ts : list DateTime) (l : list (ScheduledEvent ical)).

(** Rounds of the runner at the given times. *)
Fixpoint rounds_at (ts : list DateTime) : SE (heap W) unit :=
  match ts with
  | [] => mret tt
  | t :: ts =>
    _ ← modify (set_clock t);
    _ ← raisePendingEvents new_ICalSchedule callback;
    rounds_at ts
  end.

(** The scheduled events that are handed over, in order, and those that stay. *)
Fixpoint handed_over ts l : list (ScheduledEvent ical) :=
  match ts with
  | [] => []
  | t :: ts => List.filter (due t) l ++ handed_over ts (List.filter (fun s => negb (due t s)) l)
  end.
Definition still_waiting ts l : list (ScheduledEvent ical) :=
  fold_left (fun l t => List.filter (fun s => negb (due t s)) l) ts l.

Lemma filter_split {A} (p : A -> bool) (l : list A) : List.filter p l ++ List.filter (fun x => negb (p x)) l ≡ₚ l.
Proof.
  induction l as [|x l IH]; [done|]. cbn. destruct (p x); cbn; [by rewrite IH|]. by rewrite <- Permutation_middle, IH.
Qed.

Lemma filter_elem {A} (p : A -> bool) (l : list A) x : x ∈ List.filter p l <-> x ∈ l /\ p x = true.
Proof. by rewrite !list_elem_of_In, filter_In. Qed.

Lemma handed_over_split ts l : handed_over ts l ++ still_waiting ts l ≡ₚ l.
Proof.
  revert l. induction ts as [|t ts IH]; intros l; [done|]. cbn [handed_over still_waiting fold_left].
  rewrite <- app_assoc. unfold still_waiting in IH. by rewrite IH, filter_split.
Qed.

Lemma still_waiting_elem ts l s : s ∈ still_waiting ts l <-> s ∈ l /\ Forall (fun t => due t s = false) ts.
Proof.
  revert l. induction ts as [|t ts IH]; intros l; [cbn; rewrite Forall_nil; tauto|]. cbn [still_waiting fold_left].
  unfold still_waiting in IH. rewrite IH, filter_elem, Forall_cons, negb_true_iff. tauto.
Qed.

Lemma handed_over_elem ts l s : s ∈ handed_over ts l <-> s ∈ l /\ Exists (fun t => due t s = true) ts.
Proof.
  revert l. induction ts as [|t ts IH]; intros l; cbn [handed_over].
  - rewrite Exists_nil. split; [intros H; by apply not_elem_of_nil in H|tauto].
  - rewrite elem_of_app, IH, !filter_elem, Exists_cons, negb_true_iff. destruct (due t s); naive_solver.
Qed.

Lemma runner_ok_clock q t : runner_ok q -> runner_ok (set_clock t q).
Proof. by intros []. Qed.

Lemma rounds_at_run ts h : runner_ok (eqh h) -> Forall (fun t => 0 < tv_sec t < 2147483648) ts ->
  exists q', rounds_at ts h = (Ok tt, with_eq q' h) /\ runner_ok q' /\
    m_EventQueue q' = m_EventQueue (eqh h) ++ map m_Event (handed_over ts (m_ScheduledEvents (eqh h))) /\
    m_ScheduledEvents q' = still_waiting ts (m_ScheduledEvents (eqh h)).
Proof.
  revert h. induction ts as [|t ts IH]; intros h Ho Hts.
  - exists (eqh h). split; [|by rewrite app_nil_r]. unfold with_eq, eqh. destruct h as [a b c d]. cbn.
    unfold set_ext. cbn. by rewrite put_get_eq.
  - apply Forall_cons in Hts as [Ht Hts]. cbn [rounds_at]. rewrite (se_bind_ok _ _ _ _ _ (modify_run _ _)).
    set (h1 := with_eq _ h). assert (eqh h1 = set_clock t (eqh h)) as E1 by apply eqh_with.
    assert (runner_ok (eqh h1)) as Ho1 by (rewrite E1; by apply runner_ok_clock).
    assert (raisePendingEvents new_ICalSchedule callback h1 =
      (Ok (existsb (due t) (m_ScheduledEvents (eqh h))), with_eq (raised (eqh h1)) h1)) as Hr.
    { rewrite raise_run; [by rewrite E1|done|by rewrite E1]. }
    rewrite (se_bind_ok _ _ _ _ _ Hr). set (h2 := with_eq _ h1). assert (eqh h2 = raised (eqh h1)) as E2 by apply eqh_with.
    destruct (IH h2) as (q' & Er & Ho' & Eq & Es); [rewrite E2; by apply raised_ok|done|].
    exists q'. rewrite Er. unfold h2, h1. rewrite !with_with. split; [done|]. split; [done|].
    destruct (raise_all_frame (List.filter (due t) (m_ScheduledEvents (eqh h))) (eqh h1)) as (_ & _ & _ & _ & F5 & _).
    assert (m_ScheduledEvents (eqh h2) = List.filter (fun s => negb (due t s)) (m_ScheduledEvents (eqh h))) as Es2
      by (rewrite E2; unfold raised; rewrite E1; done).
    assert (m_EventQueue (eqh h2) = m_EventQueue (eqh h) ++ map m_Event (List.filter (due t) (m_ScheduledEvents (eqh h)))) as Eq2.
    { rewrite E2. unfold raised. cbn [m_EventQueue set_ScheduledEvents]. replace (clock (eqh h1)) with t by by rewrite E1.
      replace (m_ScheduledEvents (eqh h1)) with (m_ScheduledEvents (eqh h)) by by rewrite E1. rewrite F5. by rewrite E1. }
    rewrite Eq, Es, Es2, Eq2. cbn [handed_over still_waiting fold_left]. by rewrite map_app, app_assoc.
Qed.

(** C3: in a sequence of rounds, nothing that is scheduled is lost or raised twice,
    for a runner without a monitor node (the default) whose schedule has events with one
    time each, not recurrent, that are not unique, and is not changed between
    the rounds.  Whatever the times of the rounds, between 1970 and 2038, the
    runner completes them; the schedule is divided into what was handed over to
    the queue, at its end, and what still waits; an event is handed over exactly
    if its time had come in one of the rounds, so that it is handed over as soon
    as there is a round at or after its time. *)
Theorem scheduled_raised_once ts h :
  runner_ok (eqh h) -> Forall (fun t => 0 < tv_sec t < 2147483648) ts ->
  let l := m_ScheduledEvents (eqh h) in
  exists q' over, rounds_at ts h = (Ok tt, with_eq q' h) /\
    m_EventQueue q' = m_EventQueue (eqh h) ++ map m_Event over /\
    over ++ m_ScheduledEvents q' ≡ₚ l /\
    (forall s, s ∈ over <-> s ∈ l /\ Exists (fun t => due t s = true) ts) /\
    (forall s, s ∈ m_ScheduledEvents q' <-> s ∈ l /\ Forall (fun t => due t s = false) ts) /\
    runner_ok q'.
Proof.
  intros Ho Hts l. destruct (rounds_at_run ts h Ho Hts) as (q' & Er & Ho' & Eq & Es).
  exists q', (handed_over ts l). rewrite Es. split_and!; try done.
  - apply handed_over_split.
  - intros s. apply handed_over_elem.
  - intros s. apply still_waiting_elem.
Qed.
End Rounds.

#[local] Existing Instance no_ical.
#[local] Existing Instance no_libc.
Lemma scheduled_raised_once_witness :
  let EW := EventWorld_self unit in
  exists q' over, rounds_at (EW := EW) no_new no_listener [mkDateTime 1050 0; mkDateTime 1100 0] two_scheduled = (Ok tt, with_eq q' two_scheduled) /\
    m_EventQueue q' = [] ++ map m_Event over /\ over ++ m_ScheduledEvents q' ≡ₚ m_ScheduledEvents (eqh two_scheduled).
Proof.
  cbv zeta. destruct (scheduled_raised_once (EW := EventWorld_self unit) no_new no_listener [mkDateTime 1050 0; mkDateTime 1100 0]
    two_scheduled two_scheduled_ok) as (q' & over & H1 & H2 & H3 & _).
  - repeat constructor.
  - exists q', over. split; [exact H1|]. split; [exact H2|exact H3].
Defined.
