(* ===== verification/MonitorFacts.v ===== *)
(** The monitor node of the runner ([EventRunner::removeEvent],
    [EventRunner::propertyRemoved] of [src/src/event.cpp]): a raised event is
    taken off the schedule by removing a node of the property tree, which the
    runner is told as a listener. *)
From stdpp Require Import base option list strings gmap.
From Stdlib Require Import ZArith Lia Ascii.
From Stdlib Require String.
From S2P Require Import Prelude CxxString Base NumConv Calendar DateTools Event PropertyTree PropertyTreeFacts PropertyShape.
From S2P Require Import EventQueue EventQueueFacts.

Open Scope string_scope.
Open Scope list_scope.

(** * The tree *)

Lemma chain_frame {A} (m m' : gmap nid A) nxt fuel n l : chain m nxt fuel n = Some l ->
  (forall x, x ∈ l -> nxt <$> m' !! x = nxt <$> m !! x) -> chain m' nxt fuel n = Some l.
Proof.
  revert n l. induction fuel as [|fuel IH]; intros n l; [done|]. cbn. destruct (m !! n) as [a|] eqn:E; [|done].
  intros Hc Hf. assert (n ∈ l) as Hn.
  { destruct (nxt a); [destruct (chain m nxt fuel _)|]; try done; injection Hc as <-; by left. }
  pose proof (Hf n Hn) as En. rewrite E in En. destruct (m' !! n) as [a'|]; [|done]. injection En as ->.
  destruct (nxt a) as [p|]; [|done]. destruct (chain m nxt fuel p) as [l'|] eqn:Ep; [|done]. injection Hc as <-.
  by rewrite (IH p l' Ep) by (intros x Hx; apply Hf; by right).
Qed.

Section Names.
Context {Ext : Type}.
Implicit Types (h : heap Ext).

Lemma getPropertyByName_named h t name c : wf h -> is_Some (nodes h !! t) -> plain name = true ->
  getPropertyByName t name h = (Ok (Some c), h) -> name_of h c = name.
Proof.
  intros Hwf Ht Hpl Hg. destruct (target_total h t Hwf Ht) as (t' & td & Htt & Htd & Ha).
  assert (getPropertyByName t name h = getPropertyByName t' name h) as E.
  { unfold getPropertyByName. rewrite (se_bind_ok _ _ _ _ _ Htt). by rewrite (se_bind_ok _ _ _ _ _ (target_self _ _ _ Htd Ha)). }
  rewrite E, (getPropertyByName_children h t' td) in Hg by done. injection Hg as Hg. rewrite lookup_child_find in Hg by done.
  apply List.find_some in Hg as [_ Hg]. apply andb_true_iff in Hg as [Hg _]. by apply String.eqb_eq.
Qed.

(** What a path of plain names finds has the last of them as its name. *)
Lemma getProperty_named h segs : forall fuel n c, wf h -> is_Some (nodes h !! n) -> segs <> [] -> forallb plain segs = true ->
  getProperty_rec fuel n (join segs "/") h = (Ok (Some c), h) -> name_of h c = List.last segs "".
Proof.
  induction segs as [|s rest IH]; intros fuel n c Hwf Hn Hne Hpl Hg; [done|]. destruct fuel as [|fuel]; [done|].
  cbn [forallb] in Hpl. apply andb_true_iff in Hpl as [Hs Hr].
  destruct (target_total h n Hwf Hn) as (t & td & Ht & Htd & Ha).
  pose proof (getPropertyByName_children h t td s Hwf Htd Ha Hs) as Hb.
  destruct (lookup_child h (children td) s 0 None) as [x|] eqn:Ex.
  - rewrite (getProperty_rec_cons h fuel n t s rest x Ht Hs Hr Hb) in Hg. destruct rest as [|r rest].
    + injection Hg as <-. by apply (getPropertyByName_named h t s).
    + apply (IH fuel x c); [done| |done|done|done].
      rewrite lookup_child_find in Ex by done. apply List.find_some in Ex as [Hin _]. apply list_elem_of_In in Hin.
      destruct (wf_down h Hwf t td x Htd Hin) as (xd & Hx & _). by exists xd.
  - cbn [getProperty_rec] in Hg. rewrite (se_bind_ok _ _ _ _ _ Ht), join_start in Hg by done.
    assert (exists tail, carCdrPath (join (s :: rest) "/") = (s, tail)) as [tail Ec].
    { destruct rest as [|r rest]; [cbn [join join_rest]; rewrite app_nil_r_s; eexists; by apply carCdrPath_last|].
      rewrite join_cons2. eexists. by apply carCdrPath_cons. }
    rewrite Ec, (se_bind_ok _ _ _ _ _ Hb) in Hg. done.
Qed.
End Names.

(** * The runner as a listener *)

Section Monitor.
Context {ical W : Type} {Sched : Schedule ical} {EW : EventWorld ical W}.
(** What the other listeners do: nothing to the tree or to the schedule. *)
Context (runner : lid) (other : notification -> lid -> nid -> nid -> heap W -> heap W).
Context (other_passive : passive other) (other_apart : forall k l a b h, get_eq (ext (other k l a b h)) = get_eq (ext h)).
Implicit Types (h : heap W) (q : EQ ical).

Local Notation listening := (event_listeners (ical := ical) runner other).

(** The schedule without the event of that identifier. *)
Definition unscheduled (id : string) q : EQ ical := set_ScheduledEvents (erase_id id) q.
(** A runner with a monitor node that it listens to, between two operations. *)
Record watched h (mon : nid) (md : node W) : Prop := {
  wa_tree : wf h;
  wa_monitor : m_MonitorNode (eqh h) = Some mon;
  wa_unlocked : m_EventsMutex (eqh h) = false;
  wa_node : nodes h !! mon = Some md;
  wa_direct : m_AliasTarget md = None;
  wa_children : is_Some (m_ChildNodes md);
  wa_listens : runner ∈ listeners_of h mon;
  wa_ids : NoDup (map m_EventID (m_ScheduledEvents (eqh h)))
}.

Lemma erase_id_absent id (l : list (ScheduledEvent ical)) : id ∉ map m_EventID l -> erase_id id l = l.
Proof.
  induction l as [|s l IH]; [done|]. cbn. rewrite not_elem_of_cons. intros [Hne Hl].
  destruct (String.eqb_spec (m_EventID s) id) as [E|]; [congruence|]. by rewrite IH.
Qed.
Lemma erase_id_filter id (l : list (ScheduledEvent ical)) : NoDup (map m_EventID l) ->
  erase_id id l = List.filter (fun s => negb (String.eqb (m_EventID s) id)) l.
Proof.
  induction l as [|s l IH]; [done|]. cbn. intros [Hs Hn]%NoDup_cons. destruct (String.eqb_spec (m_EventID s) id) as [E|]; cbn; [|by rewrite IH].
  rewrite <- IH, erase_id_absent; [done|by rewrite <- E|done].
Qed.
Lemma erase_id_twice id (l : list (ScheduledEvent ical)) : NoDup (map m_EventID l) -> erase_id id (erase_id id l) = erase_id id l.
Proof.
  intros Hn. apply erase_id_absent. rewrite erase_id_filter by done. intros Hin. apply list_elem_of_In, in_map_iff in Hin as (s & <- & Hs).
  apply filter_In in Hs as [_ Hs]. by rewrite String.eqb_refl in Hs.
Qed.

Lemma removeEventInternal_run id h : m_EventsMutex (eqh h) = false ->
  removeEventInternal id h = (Ok tt, with_eq (unscheduled id (eqh h)) h).
Proof.
  intros Hx. unfold removeEventInternal. rewrite (mutex_run _ _ (Ok tt) (set_ScheduledEvents (erase_id id) (set_EventsMutex true (eqh h))) Hx).
  - do 2 f_equal. unfold unscheduled, set_ScheduledEvents, set_EventsMutex. cbn. by rewrite <- Hx.
  - rewrite modify_run, eqh_with, with_with. done.
Qed.

Lemma listening_passive : passive listening.
Proof.
  intros k l a b h. unfold event_listeners. destruct (Nat.eqb l runner); [|apply other_passive]. destruct k; try done.
  unfold propertyRemoved. rewrite se_bind_run. unfold deref. destruct (nodes h !! b) as [cd|]; [|done].
  unfold removeEventInternal, with_EventsMutex. destruct (m_EventsMutex (get_eq (ext h))); done.
Qed.

(** The state while the listeners are told: [told] if the runner was. *)
Definition at_turn (x : nid) (name : string) q (told : bool) h : Prop :=
  name_of h x = name /\ is_Some (nodes h !! x) /\ eqh h = if told then unscheduled name q else q.

Lemma turn_told x name q told a l h : m_EventsMutex q = false -> NoDup (map m_EventID (m_ScheduledEvents q)) -> at_turn x name q told h ->
  at_turn x name q (told || Nat.eqb l runner) (listening PropertyRemoved l a x h).
Proof.
  intros Hx Hn (Hname & [cd Hcd] & Hq). destruct (listening_passive PropertyRemoved l a x h) as (En & _).
  unfold at_turn, name_of. rewrite En, Hcd. unfold name_of in Hname. rewrite Hcd in Hname. split; [done|]. split; [by exists cd|].
  unfold event_listeners. destruct (Nat.eqb l runner); [|rewrite orb_false_r; unfold eqh; rewrite other_apart; exact Hq].
  rewrite orb_true_r. unfold propertyRemoved. rewrite (se_bind_ok _ _ _ _ _ (deref_run _ _ _ Hcd)). cbn in Hname. rewrite Hname.
  rewrite removeEventInternal_run by (rewrite Hq; by destruct told). cbn [snd]. rewrite eqh_with, Hq. destruct told; [|done].
  unfold unscheduled, set_ScheduledEvents. cbn. by rewrite erase_id_twice.
Qed.
Lemma turns_told x name q a ls : forall told h, m_EventsMutex q = false -> NoDup (map m_EventID (m_ScheduledEvents q)) -> at_turn x name q told h ->
  at_turn x name q (told || existsb (fun l => Nat.eqb l runner) ls) (foldl (fun h l => listening PropertyRemoved l a x h) h ls).
Proof.
  induction ls as [|l ls IH]; intros told h Hx Hn Hat; cbn [foldl existsb]; [by rewrite orb_false_r|]. rewrite orb_assoc. by apply IH, turn_told.
Qed.
Lemma notified_told x name q lf path : forall told h, m_EventsMutex q = false -> NoDup (map m_EventID (m_ScheduledEvents q)) -> at_turn x name q told h ->
  at_turn x name q (told || existsb (fun a => existsb (fun l => Nat.eqb l runner) (lf a)) path)
    (foldl (fun h a => foldl (fun h l => listening PropertyRemoved l a x h) h (lf a)) h path).
Proof.
  induction path as [|a path IH]; intros told h Hx Hn Hat; cbn [foldl existsb]; [by rewrite orb_false_r|]. rewrite orb_assoc. by apply IH, turns_told.
Qed.

(** Removing a node that is not above the monitor node, through it. *)
Lemma removeChild_told h mon md x xd : watched h mon md -> nodes h !! x = Some xd -> x ∉ ancestors h mon ->
  exists h', removeChild listening mon x h = (Ok (Some x), h') /\ eqh h' = unscheduled (m_Name xd) (eqh h).
Proof.
  intros [Hwf _ Hm Hmon Ha [cs Hcs] Hl Hn] Hx Hout. unfold removeChild.
  assert (ancestors h mon = mon :: tail (ancestors h mon)) as Ehd.
  { destruct (chain_head _ _ _ _ _ (ancestors_chain h mon Hwf ltac:(by exists md))) as [l' ->]. done. }
  assert (x <> mon) as Hne by (intros ->; apply Hout; rewrite Ehd; by left).
  rewrite (se_bind_ok _ _ _ _ _ (target_self _ _ _ Hmon Ha)), (se_bind_ok _ _ _ _ _ (deref_run _ _ _ Hmon)), Hcs.
  rewrite (se_bind_ok _ _ _ _ _ (update_run _ _ _ _ Hmon)).
  set (md' := set_ChildNodes (Some (erase_first x cs)) md). set (hA := set_nodes <[mon := md']> h).
  assert (nodes hA !! x = Some xd) as HxA by (unfold hA; cbn; by rewrite lookup_insert_ne).
  rewrite (se_bind_ok _ _ _ _ _ (update_run _ _ _ _ HxA)). set (h1 := set_nodes <[x := set_ParentNode None xd]> hA).
  assert (forall y, y <> x -> y <> mon -> nodes h1 !! y = nodes h !! y) as Hsame by (intros y H1 H2; unfold h1, hA; cbn; by rewrite !lookup_insert_ne).
  assert (nodes h1 !! mon = Some md') as Hmon1 by (unfold h1, hA; cbn; rewrite lookup_insert_ne by done; apply lookup_insert_eq).
  assert (size (nodes h1) = size (nodes h)) as Hsz.
  { unfold h1. cbn [nodes set_nodes]. rewrite map_size_insert_Some by (by exists xd). unfold hA. cbn [nodes set_nodes]. by rewrite map_size_insert_Some by (by exists md). }
  assert (chain (nodes h1) m_ParentNode (S (size (nodes h1))) mon = Some (ancestors h mon)) as Hch.
  { rewrite Hsz. eapply chain_frame; [by apply ancestors_chain; [|exists md]|]. intros y Hy.
    destruct (decide (y = mon)) as [->|Hym]; [by rewrite Hmon1, Hmon|]. rewrite Hsame; [done| |done]. by intros ->. }
  assert (childRemoved listening mon x h1 =
    (Ok tt, foldl (fun h' a => foldl (fun h' l => listening PropertyRemoved l a x h') h' (listeners_of h1 a)) h1 (ancestors h mon))) as Hrun.
  { unfold childRemoved, notifyListeners, node_bound, se_gets, mbind, se_bind. by apply notify_up_run; [apply listening_passive| |]. }
  rewrite (se_bind_ok _ _ _ _ _ Hrun). eexists. split; [done|].
  assert (at_turn x (m_Name xd) (eqh h) false h1) as Hat.
  { unfold at_turn, name_of. assert (nodes h1 !! x = Some (set_ParentNode None xd)) as -> by apply lookup_insert_eq. split_and!; [done|by eexists|done]. }
  destruct (notified_told x (m_Name xd) (eqh h) (listeners_of h1) (ancestors h mon) false h1 Hm Hn Hat) as (_ & _ & ->).
  enough (existsb (fun a => existsb (fun l => Nat.eqb l runner) (listeners_of h1 a)) (ancestors h mon) = true) as -> by done.
  rewrite Ehd. cbn [existsb]. apply orb_true_intro. left. apply existsb_exists. exists runner. split; [|apply Nat.eqb_refl].
  apply list_elem_of_In. unfold listeners_of in *. rewrite Hmon1. by rewrite Hmon in Hl.
Qed.

End Monitor.

(** * An example: an event with an ordinary name, and one with a slash *)

#[local] Existing Instance no_ical.
#[local] Existing Instance no_libc.
Definition pushed (name : string) : heap (EQ unit) := snd (pushEvent no_new listeners 0%nat (monitored [timed name "+1"])).
Definition monitor_of (h : heap (EQ unit)) : nid := default 0%nat (m_MonitorNode (eqh h)).
Definition monitor_node (h : heap (EQ unit)) : node (EQ unit) := default (new_node "" 0) (nodes h !! monitor_of h).

Lemma pushed_watched name : wf_check (pushed name) && bool_decide (is_Some (m_MonitorNode (eqh (pushed name)))) &&
    negb (m_EventsMutex (eqh (pushed name))) && bool_decide (is_Some (nodes (pushed name) !! monitor_of (pushed name))) &&
    bool_decide (m_AliasTarget (monitor_node (pushed name)) = None) && bool_decide (is_Some (m_ChildNodes (monitor_node (pushed name)))) &&
    bool_decide (runner_id ∈ listeners_of (pushed name) (monitor_of (pushed name))) &&
    bool_decide (NoDup (map m_EventID (m_ScheduledEvents (eqh (pushed name))))) = true ->
  watched runner_id (pushed name) (monitor_of (pushed name)) (monitor_node (pushed name)).
Proof.
  intros H. apply andb_true_iff in H as [[[[[[[H1 H2]%andb_true_iff H3]%andb_true_iff H4]%andb_true_iff H5]%andb_true_iff H6]%andb_true_iff H7]%andb_true_iff H8].
  rewrite !bool_decide_eq_true in *. split; [by apply wf_check_sound| |by apply negb_true_iff| |done..].
  - unfold monitor_of. by destruct H2 as [n ->].
  - unfold monitor_node. by destruct H4 as [n ->].
Qed.

