(* ===== verification/EventInterpreter.v ===== *)
(** [src/src/event.cpp]: [EventSubscription]'s construction and
    [EventInterpreter], which hands every event of the queue to the plugins
    subscribed to it.

    The plugins are a parameter (their names and what [handleEvent] does), as is
    the web server; loading subscriptions from files is not modelled. *)
From stdpp Require Import base option list strings gmap.
From Stdlib Require Import ZArith Lia Ascii.
From Stdlib Require String.
From S2P Require Import Prelude CxxString Base NumConv DateTools Event PropertyTree EventQueue.

Open Scope string_scope.
Open Scope list_scope.
Open Scope Z_scope.

(** * Subscriptions *)

Section Subscriptions.
Implicit Types subs : list EventSubscription.

Definition subscriptionByID subs (_subscriptionID : string) : option EventSubscription :=
  List.find (fun s => String.eqb (es_ID s) _subscriptionID) subs.

(** The loop of [uniqueSubscriptionID]: one more subscription than there are
    proposals to try is enough. *)
Fixpoint unique_loop (fuel : nat) subs (_proposal result : string) (index : Z) : res string :=
  match subscriptionByID subs result with
  | None => Ok result
  | Some _ =>
    match fuel with
    | O => Throw (UndefinedBehaviour "endless loop")
    | S fuel =>
      next ← int_checked (index + 1);
      unique_loop fuel subs _proposal (_proposal +:+ intToString index false) next
    end
  end.

Definition uniqueSubscriptionID subs (_proposal : string) : res string :=
  unique_loop (length subs) subs _proposal _proposal 1.

Definition new_EventSubscription subs (_eventName _handlerName : string) (_options : option SubscriptionOptions)
    : res EventSubscription :=
  id ← uniqueSubscriptionID subs (_eventName +:+ "_" +:+ _handlerName);
  Ok (mkSubscription _eventName _handlerName id _options [] foMatchAll).

Definition subscribe (_subscription : EventSubscription) subs : res (list EventSubscription) :=
  match subscriptionByID subs (es_ID _subscription) with
  | Some _ => Throw (AssertionFailure "subscriptionByID(_subscription->getID()) == NULL")
  | None => Ok (subs ++ [_subscription])
  end.

Fixpoint unsubscribe (_subscriptionID : string) subs : list EventSubscription :=
  match subs with
  | [] => []
  | s :: subs => if String.eqb (es_ID s) _subscriptionID then subs else s :: unsubscribe _subscriptionID subs
  end.

Definition ids subs : list string := map es_ID subs.

Lemma subscriptionByID_None subs id : subscriptionByID subs id = None <-> id ∉ ids subs.
Proof.
  unfold subscriptionByID, ids. induction subs as [|s subs IH]; cbn; [split; [intros _; apply not_elem_of_nil|done]|].
  rewrite not_elem_of_cons, <- IH. destruct (String.eqb_spec (es_ID s) id); [|intuition congruence].
  split; [done|]. intros [H _]. congruence.
Qed.

(** The proposals in the order in which they are tried. *)
Definition proposal (p : string) (k : nat) : string :=
  match k with O => p | S _ => p +:+ intToString (Z.of_nat k) false end.

Lemma intToString_inj a b : 0 <= a < 2147483648 -> 0 <= b < 2147483648 ->
  intToString a false = intToString b false -> a = b.
Proof.
  intros Ha Hb E. pose proof (strToInt_print a ltac:(lia)) as H. rewrite E, strToInt_print in H by lia.
  rewrite !int32_id in H by lia. by injection H.
Qed.

Lemma intToString_nonempty a : intToString a false <> "".
Proof.
  rewrite intToString_form. unfold print_number. destruct (print_digits_cons 19 10 (Z.abs a) "") as (c & r & ->).
  by destruct (a <? 0).
Qed.

Lemma proposal_inj p j k : Z.of_nat j < 2147483648 -> Z.of_nat k < 2147483648 ->
  proposal p j = proposal p k -> j = k.
Proof.
  assert (forall a, p <> p +:+ intToString a false) as Hp.
  { intros a E. rewrite <- (app_nil_r_s p) in E at 1. apply app_inj_l in E. by apply (intToString_nonempty a). }
  intros Hj Hk. unfold proposal. destruct j as [|j], k as [|k]; [done|by intros ?%Hp|by intros ?%eq_sym%Hp|].
  intros E%app_inj_l%intToString_inj; lia.
Qed.

Lemma unique_loop_run fuel subs p k :
  Z.of_nat (k + fuel) < 2147483646 ->
  (exists j, (k <= j <= k + fuel)%nat /\ unique_loop fuel subs p (proposal p k) (Z.of_nat k + 1) = Ok (proposal p j) /\
     proposal p j ∉ ids subs /\ forall i, (k <= i < j)%nat -> proposal p i ∈ ids subs) \/
  (forall i, (k <= i <= k + fuel)%nat -> proposal p i ∈ ids subs).
Proof.
  revert k. induction fuel as [|fuel IH]; intros k Hk; cbn [unique_loop];
    (destruct (decide (proposal p k ∈ ids subs)) as [Hin|Hni];
     [|left; exists k; rewrite (proj2 (subscriptionByID_None _ _)) by done; split_and!; [lia|lia|done|done|lia]]);
    (destruct (subscriptionByID subs (proposal p k)) eqn:E; [|apply subscriptionByID_None in E; done]).
  - right. intros i Hi. by replace i with k by lia.
  - rewrite int_checked_ok by lia. cbn [mbind res_bind].
    replace (Z.of_nat k + 1) with (Z.of_nat (S k)) by lia.
    destruct (IH (S k) ltac:(lia)) as [(j & Hj & Hr & Hf & Hb)|Hall].
    + left. exists j. split_and!; [lia|lia|exact Hr|done|]. intros i Hi.
      destruct (decide (i = k)) as [->|]; [done|]. apply Hb. lia.
    + right. intros i Hi. destruct (decide (i = k)) as [->|]; [done|]. apply Hall. lia.
Qed.

(** [uniqueSubscriptionID] always ends, with an identifier that no
    subscription has: the proposal itself, or the proposal with the smallest
    positive number for which that is so; so a subscription made with it can
    be added and the identifiers stay distinct, and removing it leaves the
    others as they were. *)
Theorem uniqueSubscriptionID_fresh subs (_proposal : string) :
  Z.of_nat (length subs) < 2147483646 -> NoDup (ids subs) ->
  exists j, uniqueSubscriptionID subs _proposal = Ok (proposal _proposal j) /\
    proposal _proposal j ∉ ids subs /\ (forall i, (i < j)%nat -> proposal _proposal i ∈ ids subs) /\
    forall s, es_ID s = proposal _proposal j ->
      subscribe s subs = Ok (subs ++ [s]) /\ NoDup (ids (subs ++ [s])) /\
      unsubscribe (es_ID s) (subs ++ [s]) = subs.
Proof.
  intros Hlen Hn. unfold uniqueSubscriptionID.
  destruct (unique_loop_run (length subs) subs _proposal 0 ltac:(lia)) as [(j & Hj & Hr & Hf & Hb)|Hall].
  - exists j. split_and!; [exact Hr|done|intros i Hi; apply Hb; lia|].
    intros s Hs. rewrite <- Hs in Hf. split_and!.
    + unfold subscribe. by rewrite (proj2 (subscriptionByID_None _ _)).
    + unfold ids. rewrite map_app. apply NoDup_app. split_and!; [done| |apply NoDup_singleton].
      intros x Hx ->%list_elem_of_singleton. done.
    + clear -Hf. induction subs as [|t subs IH]; cbn; [by rewrite String.eqb_refl|].
      cbn in Hf. apply not_elem_of_cons in Hf as [Hne Hf].
      destruct (String.eqb_spec (es_ID t) (es_ID s)); [congruence|]. by rewrite IH.
  - exfalso. assert (NoDup (map (proposal _proposal) (seq 0 (S (length subs))))) as Hnd.
    { apply NoDup_fmap_2_strong; [|apply NoDup_seq]. intros x y Hx%elem_of_seq Hy%elem_of_seq.
      apply proposal_inj; lia. }
    pose proof (submseteq_length _ (ids subs) (NoDup_submseteq _ (ids subs) Hnd
      ltac:(intros x (i & -> & Hi%elem_of_seq)%list_elem_of_fmap; apply Hall; lia))) as H.
    unfold ids in H. rewrite !length_map, length_seq in H. lia.
Qed.
End Subscriptions.

Lemma uniqueSubscriptionID_fresh_witness :
  exists j, uniqueSubscriptionID [mkSubscription "a" "h" "a_h" None [] foMatchAll] "a_h" = Ok (proposal "a_h" j).
Proof.
  destruct (uniqueSubscriptionID_fresh [mkSubscription "a" "h" "a_h" None [] foMatchAll] "a_h") as (j & H & _).
  - cbn. lia.
  - apply NoDup_singleton.
  - exists j. exact H.
Defined.

(** * Dispatch *)

(** [m_Subscriptions], the names of [m_Plugins] and [m_EventsProcessed]. *)
Record Interpreter := mkInterpreter {
  m_Subscriptions : list EventSubscription;
  m_Plugins : list string;
  m_EventsProcessed : Z
}.

Class InterpreterWorld (W : Type) := {
  get_ei : W -> Interpreter;
  put_ei : Interpreter -> W -> W;
  get_put_ei : forall i w, get_ei (put_ei i w) = i
}.

Section Interpreter.
Context {ical W : Type} {EW : EventWorld ical W} {IW : InterpreterWorld W}.
Context (callback : notification -> lid -> nid -> nid -> heap W -> heap W).
Local Notation "'M' A" := (SE (heap W) A) (at level 10, A at next level).

(** [plugin->handleEvent(event, subscription)], [DSS::hasInstance()] and the
    publication to web sockets. *)
Context (handleEvent : string -> eid -> EventSubscription -> M unit).
Context (hasInstance : bool) (publishWebSocketEvent : eid -> M unit).

Definition getPluginByName (plugins : list string) (_name : string) : option string :=
  List.find (String.eqb _name) plugins.

(** The body of the loop over the subscriptions. *)
Definition dispatch_one (evtMonitor : option nid) (toProcess : eid) (s : EventSubscription) : M unit :=
  ev ← get_event toProcess;
  if String.eqb (es_EventName s) (ev_Name ev) then
    b ← se_lift (es_matches s ev);
    if b : bool then
      plugins ← se_gets (fun h => m_Plugins (get_ei (ext h)));
      match getPluginByName plugins (es_HandlerName s) with
      | Some plugin =>
        _ ← match evtMonitor with
            | Some mon =>
              n ← createProperty callback mon "running/handler"; setStringValue callback n (es_HandlerName s)
            | None => mret tt
            end;
        se_try (handleEvent plugin toProcess s) is_runtime_error (fun _ => mret tt)
      | None => mret tt
      end
    else mret tt
  else mret tt.

Definition executePendingEvent : M unit :=
  waiting ← gets m_EventQueue;
  match waiting with
  | [] => mret tt
  | _ :: _ =>
    toProcess ← popEvent;
    match toProcess with
    | None => mret tt
    | Some toProcess =>
      evtMonitor ← (if hasInstance then
          evtMonitor ← sys_getProperty "/system/EventInterpreter";
          _ ← match evtMonitor with
              | Some mon =>
                now ← gets clock;
                n ← createProperty callback mon "running/time";
                _ ← setIntegerValue callback n (int32 (secondsSinceEpoch now));
                n ← createProperty callback mon "running/event";
                ev ← get_event toProcess;
                setStringValue callback n (ev_Name ev)
              | None => mret tt
              end;
          mret evtMonitor
        else mret None);
      subscriptionsCopy ← se_gets (fun h => m_Subscriptions (get_ei (ext h)));
      _ ← se_iter (dispatch_one evtMonitor toProcess) subscriptionsCopy;
      _ ← (if hasInstance then publishWebSocketEvent toProcess else mret tt);
      _ ← match evtMonitor with
          | Some mon =>
            c ← getProperty mon "running";
            match c with
            | Some c => _ ← removeChild callback mon c; mret tt
            | None => se_throw (UndefinedBehaviour "removeChild(NULL)")
            end
          | None => mret tt
          end;
      processed ← se_gets (fun h => m_EventsProcessed (get_ei (ext h)));
      processed ← se_lift (int_checked (processed + 1));
      se_modify (set_ext (fun w =>
        put_ei (mkInterpreter (m_Subscriptions (get_ei w)) (m_Plugins (get_ei w)) processed) w))
    end
  end.

(** ** The plugins called *)

(** A plugin may do what it likes but change the event it is handed, its
    siblings and the list of plugins. *)
Record well_behaved (e : eid) : Prop := {
  wb_event : forall p s h, events (get_eq (ext (snd (handleEvent p e s h)))) !! e = events (get_eq (ext h)) !! e;
  wb_plugins : forall p s h, m_Plugins (get_ei (ext (snd (handleEvent p e s h)))) = m_Plugins (get_ei (ext h))
}.

(** The subscription wants the event and there is a plugin for it. *)
Definition wants (plugins : list string) (ev : Event) (s : EventSubscription) : bool :=
  String.eqb (es_EventName s) (ev_Name ev) && bool_decide (es_matches s ev = Ok true) &&
  bool_decide (is_Some (getPluginByName plugins (es_HandlerName s))).

(** Calling one plugin; its [std::runtime_error]s are logged only. *)
Definition call_plugin (e : eid) (s : EventSubscription) : M unit :=
  se_try (handleEvent (es_HandlerName s) e s) is_runtime_error (fun _ => mret tt).

Lemma getPluginByName_name plugins n p : getPluginByName plugins n = Some p -> p = n.
Proof. intros [_ H]%find_some. apply String.eqb_eq in H. done. Qed.

Lemma dispatch_one_run e ev s h :
  events (get_eq (ext h)) !! e = Some ev ->
  (es_EventName s = ev_Name ev -> exists b, es_matches s ev = Ok b) ->
  dispatch_one None e s h =
  if wants (m_Plugins (get_ei (ext h))) ev s then call_plugin e s h else (Ok tt, h).
Proof.
  intros He Hs. unfold dispatch_one, wants, call_plugin.
  assert (get_event e h = (Ok ev, h)) as Hg by (unfold get_event; by rewrite He).
  rewrite (se_bind_ok _ _ _ _ _ Hg).
  destruct (String.eqb_spec (es_EventName s) (ev_Name ev)) as [E|]; [|done].
  destruct (Hs E) as [b ->]. rewrite (se_bind_ok (se_lift (Ok b)) _ _ _ _ eq_refl).
  destruct b; [|by rewrite bool_decide_eq_false_2]. rewrite bool_decide_eq_true_2 by done.
  rewrite (se_bind_ok (se_gets _) _ _ _ _ eq_refl).
  destruct (getPluginByName _ _) as [p|] eqn:Ep.
  - rewrite bool_decide_eq_true_2 by eauto. by apply getPluginByName_name in Ep as ->.
  - rewrite bool_decide_eq_false_2; [done|]. by intros [? ?].
Qed.

Lemma call_plugin_state e s h : snd (call_plugin e s h) = snd (handleEvent (es_HandlerName s) e s h).
Proof.
  unfold call_plugin, se_try. destruct (handleEvent _ _ _ _) as [[u|x] h']; [done|]. by destruct (is_runtime_error x).
Qed.

(** C28: without a monitor node, dispatching an event amounts to calling, one
    after the other, the plugins of those subscriptions to its name whose
    filters match it and whose handler exists, as long as no filter throws; a
    plugin that throws a [std::runtime_error] does not keep the others from
    being called, any other exception ends the dispatch. *)
Theorem dispatch_calls_matching (e : eid) (ev : Event) (subs : list EventSubscription) (h : heap W) :
  well_behaved e -> events (get_eq (ext h)) !! e = Some ev ->
  Forall (fun s => es_EventName s = ev_Name ev -> exists b, es_matches s ev = Ok b) subs ->
  se_iter (dispatch_one None e) subs h =
  se_iter (call_plugin e) (List.filter (wants (m_Plugins (get_ei (ext h))) ev) subs) h.
Proof.
  intros Hw He Hs. remember (m_Plugins (get_ei (ext h))) as plugins eqn:Hp. symmetry in Hp.
  revert h He Hp. induction Hs as [|s subs Hs _ IH]; intros h He Hp; [done|]. cbn [se_iter List.filter].
  pose proof (dispatch_one_run e ev s h He Hs) as Hd. rewrite Hp in Hd.
  destruct (wants plugins ev s); cbn [se_iter].
  - rewrite !se_bind_run, Hd. pose proof (call_plugin_state e s h) as Hc.
    destruct (call_plugin e s h) as [[u|x] h']; [|done]. cbn [snd] in Hc. subst h'.
    apply IH; [by rewrite (wb_event _ Hw)|by rewrite (wb_plugins _ Hw)].
  - rewrite (se_bind_ok _ _ _ _ _ Hd). by apply IH.
Qed.
End Interpreter.

(** A world with an event system and an interpreter. *)
Definition DispatchWorld : Type := EQ unit * Interpreter.
#[local] Instance dispatch_events : EventWorld unit DispatchWorld.
Proof. refine {| get_eq := fst; put_eq := fun q w => (q, snd w) |}; [done|done|by intros []]. Defined.
#[local] Instance dispatch_interpreter : InterpreterWorld DispatchWorld.
Proof. by refine {| get_ei := snd; put_ei := fun i w => (fst w, i) |}. Defined.

(** A plugin [h1] that fails and [h2] that counts. *)
Definition counting_plugin (p : string) (e : eid) (s : EventSubscription) : SE (heap DispatchWorld) unit :=
  if String.eqb p "h1" then se_throw (RuntimeError "h1")
  else se_modify (set_ext (fun w => (fst w,
    mkInterpreter (m_Subscriptions (snd w)) (m_Plugins (snd w)) (m_EventsProcessed (snd w) + 1)))).
Definition dispatch_heap : heap DispatchWorld :=
  empty_heap (mkEQ {[ 0%nat := Event_name NullDate "a" ]} [] 0 true [] true None false NullDate,
    mkInterpreter [] ["h1"; "h2"] 0).
Definition dispatch_subs : list EventSubscription :=
  [mkSubscription "a" "h1" "a_h1" None [] foMatchAll; mkSubscription "b" "h2" "b_h2" None [] foMatchAll;
   mkSubscription "a" "h2" "a_h2" None [EventPropertyExistsFilter "name"] foMatchAll].

Lemma dispatch_calls_matching_witness :
  m_EventsProcessed (snd (ext (snd
    (se_iter (dispatch_one (fun _ _ _ _ h => h) counting_plugin None 0%nat) dispatch_subs dispatch_heap)))) = 1.
Proof.
  rewrite (dispatch_calls_matching (EW := dispatch_events) (IW := dispatch_interpreter)
    (fun _ _ _ _ h => h) counting_plugin 0%nat (Event_name NullDate "a")).
  - vm_compute. reflexivity.
  - split; intros p s h; unfold counting_plugin; destruct (String.eqb p "h1"); reflexivity.
  - reflexivity.
  - repeat constructor; intros _; eexists; reflexivity.
Defined.
