(* ===== verification/State.v ===== *)
(** [src/src/model/state.h] and [state.cpp]: [State] and [StateSensor], with
    their publication in the property tree, their files and the events they
    raise ([createStateChangeEvent] of [event/event_create.cpp]).

    States are shared objects in a store. *)
From stdpp Require Import base option list strings gmap.
From Stdlib Require Import ZArith Lia Ascii PrimFloat.
From Stdlib Require String.
From S2P Require Import Prelude CxxString Base NumConv FloatConv Ds485types ModelConst DataTypes Calendar.
From S2P Require Import DateTools Event PropertyTree EventQueue.

Open Scope string_scope.
Open Scope list_scope.
Open Scope Z_scope.

(** * Data *)

Definition sid := nat.

Inductive StatePersistency := volatile_ | persistent.
#[global] Instance StatePersistency_eq_dec : EqDecision StatePersistency.
Proof. solve_decision. Defined.

Definition State_Invalid : Z := eState.to_Z eState.State_Invalid.
Definition State_Active : Z := eState.to_Z eState.State_Active.
Definition State_Inactive : Z := eState.to_Z eState.State_Inactive.
Definition State_Unknown : Z := eState.to_Z eState.State_Unknown.

(** The dSUID of a device or dSM that provides the state, and its node. *)
Record Provider := mkProvider { pr_dsuid : list Z; pr_node : nid }.

Record State := mkState {
  st_pPropertyNode : option nid;
  st_name : string;
  st_persistency : StatePersistency;
  st_callOrigin : Z;
  st_originDeviceDSUID : list Z;
  st_state : Z;
  st_type : eStateType.t;
  st_providerDev : option Provider;
  st_providerDevInput : Z;
  st_providerDevStateName : string;
  st_providerDsm : option Provider;
  st_serviceName : string;
  st_providerGroup : option nat;
  st_values : list string
}.

Definition with_node (n : option nid) (s : State) : State :=
  mkState n (st_name s) (st_persistency s) (st_callOrigin s) (st_originDeviceDSUID s) (st_state s) (st_type s)
    (st_providerDev s) (st_providerDevInput s) (st_providerDevStateName s) (st_providerDsm s) (st_serviceName s)
    (st_providerGroup s) (st_values s).
Definition with_persistency (p : StatePersistency) (s : State) : State :=
  mkState (st_pPropertyNode s) (st_name s) p (st_callOrigin s) (st_originDeviceDSUID s) (st_state s) (st_type s)
    (st_providerDev s) (st_providerDevInput s) (st_providerDevStateName s) (st_providerDsm s) (st_serviceName s)
    (st_providerGroup s) (st_values s).
Definition with_value (v o : Z) (s : State) : State :=
  mkState (st_pPropertyNode s) (st_name s) (st_persistency s) o (st_originDeviceDSUID s) v (st_type s)
    (st_providerDev s) (st_providerDevInput s) (st_providerDevStateName s) (st_providerDsm s) (st_serviceName s)
    (st_providerGroup s) (st_values s).
Definition with_dsuid (d : list Z) (s : State) : State :=
  mkState (st_pPropertyNode s) (st_name s) (st_persistency s) (st_callOrigin s) d (st_state s) (st_type s)
    (st_providerDev s) (st_providerDevInput s) (st_providerDevStateName s) (st_providerDsm s) (st_serviceName s)
    (st_providerGroup s) (st_values s).
Definition with_provider (dev : option Provider) (group : option nat) (s : State) : State :=
  mkState (st_pPropertyNode s) (st_name s) (st_persistency s) (st_callOrigin s) (st_originDeviceDSUID s) (st_state s)
    (st_type s) dev (st_providerDevInput s) (st_providerDevStateName s) (st_providerDsm s) (st_serviceName s)
    group (st_values s).
Definition setValueRange (values : list string) (s : State) : State :=
  mkState (st_pPropertyNode s) (st_name s) (st_persistency s) (st_callOrigin s) (st_originDeviceDSUID s) (st_state s)
    (st_type s) (st_providerDev s) (st_providerDevInput s) (st_providerDevStateName s) (st_providerDsm s)
    (st_serviceName s) (st_providerGroup s) values.

(** * Values and their names *)

Definition INVALID : string := "invalid".

Definition toString (s : State) : string :=
  match st_values s with
  | _ :: _ =>
    if (0 <=? st_state s) && (st_state s <? Z.of_nat (length (st_values s)))
    then nth (Z.to_nat (st_state s)) (st_values s) "" else INVALID
  | [] =>
    if st_state s =? State_Unknown then "unknown"
    else if st_state s =? State_Active then "active"
    else if st_state s =? State_Inactive then "inactive"
    else INVALID
  end.

(** [std::find] *)
Fixpoint index_of (x : string) (l : list string) : option nat :=
  match l with
  | [] => None
  | y :: l => if String.eqb y x then Some O else S <$> index_of x l
  end.

Definition tryValueFromName (s : State) (valueName : string) : option Z :=
  match st_values s with
  | _ :: _ => Z.of_nat <$> index_of valueName (st_values s)
  | [] =>
    if String.eqb valueName "active" then Some State_Active
    else if String.eqb valueName "inactive" then Some State_Inactive
    else if String.eqb valueName "unknown" then Some State_Unknown
    else if String.eqb valueName INVALID then Some State_Invalid
    else None
  end.

(** [DS_FAIL_REQUIRE] throws a [std::runtime_error]. *)
Definition valueFromName (s : State) (valueName : string) : res Z :=
  match tryValueFromName s valueName with
  | Some v => Ok v
  | None => Throw (RuntimeError ("Unrecorgnized state value" +:+ valueName))
  end.

Definition getValueRangeSize (s : State) : Z :=
  match st_values s with [] => State_Unknown + 1 | _ => Z.of_nat (length (st_values s)) end.

Definition getPersistence (s : State) : bool := bool_decide (st_persistency s = persistent).

(** * The world of states *)

(** The states, the files and what the object [DSS] says: whether it exists,
    whether it runs, where it saves properties. *)
Record StateStore := mkStateStore {
  states : gmap sid State;
  files : gmap string (list Z);
  hasInstance : bool;
  running : bool;
  savedPropsDirectory : string
}.

Class StateWorld (W : Type) := {
  get_st : W -> StateStore;
  put_st : StateStore -> W -> W;
  get_put_st : forall s w, get_st (put_st s w) = s
}.

Section State.
Context {ical W : Type} {Sched : Schedule ical} {EW : EventWorld ical W} {SW : StateWorld W} {LC : Libc} {SD : Strtod} {DU : Dsuid}.
Context (new_ICalSchedule : string -> string -> DateTime -> res ical).
Context (callback : notification -> lid -> nid -> nid -> heap W -> heap W).
Context (can_write : string -> bool).

Local Notation "'M' A" := (SE (heap W) A) (at level 10, A at next level).

Definition st_gets {A} (f : StateStore -> A) : M A := se_gets (fun h => f (get_st (ext h))).
Definition st_modify (f : StateStore -> StateStore) : M unit :=
  se_modify (set_ext (fun w => put_st (f (get_st w)) w)).
Definition put_states (f : gmap sid State -> gmap sid State) (x : StateStore) : StateStore :=
  mkStateStore (f (states x)) (files x) (hasInstance x) (running x) (savedPropsDirectory x).
Definition put_files (f : gmap string (list Z) -> gmap string (list Z)) (x : StateStore) : StateStore :=
  mkStateStore (states x) (f (files x)) (hasInstance x) (running x) (savedPropsDirectory x).

Definition get_state (s : sid) : M State := fun h =>
  match states (get_st (ext h)) !! s with
  | Some st => (Ok st, h)
  | None => (Throw (UndefinedBehaviour "no such state"), h)
  end.
Definition set_state (s : sid) (st : State) : M unit := st_modify (put_states <[s := st]>).
Definition update_state (s : sid) (f : State -> State) : M unit := st ← get_state s; set_state s (f st).

(** ** Files *)

Definition getStorageName (st : State) : M string :=
  inst ← st_gets hasInstance;
  dir ← st_gets savedPropsDirectory;
  mret ((if inst : bool then dir else "/tmp") +:+ "/" +:+ "state." +:+ st_name st).

(** [fputc] writes an [unsigned char]. *)
Definition saved_bytes (st : State) : list Z :=
  wrapU 8 (st_state st) :: wrapU 8 (st_callOrigin st) :: map (wrapU 8) (st_originDeviceDSUID st).

Definition save (s : sid) : M unit :=
  st ← get_state s;
  name ← getStorageName st;
  if can_write name then st_modify (put_files <[name := saved_bytes st]>) else mret tt.

(** The loop over the bytes of the dSUID; an end of file gives the null one. *)
Fixpoint read_dsuid (n : nat) (bytes acc : list Z) : list Z :=
  match n with
  | O => acc
  | S n => match bytes with [] => DSUID_NULL | b :: bytes => read_dsuid n bytes (acc ++ [b]) end
  end.

Definition loaded (bytes : list Z) (st : State) : State :=
  let '(v, o) := match bytes with
    | [] => (st_state st, st_callOrigin st)
    | [v] => (v, st_callOrigin st)
    | v :: o :: _ => (v, o)
    end in
  with_dsuid (read_dsuid DSUID_SIZE (drop 2 bytes) []) (with_value v o st).

Definition load (s : sid) : M unit :=
  st ← get_state s;
  name ← getStorageName st;
  fs ← st_gets files;
  match fs !! name with
  | None => mret tt
  | Some bytes => set_state s (loaded bytes st)
  end.

(** The mode is [persistent] whatever the argument. *)
Definition setPersistence (s : sid) (_persistent : bool) : M unit :=
  st ← get_state s;
  _ ← (if bool_decide (st_persistency st = volatile_) && _persistent then load s else mret tt);
  update_state s (with_persistency persistent).

Definition hasPersistentData (s : sid) : M bool :=
  st ← get_state s;
  name ← getStorageName st;
  fs ← st_gets files;
  mret (bool_decide (is_Some (fs !! name))).

(** ** The property tree *)

(** A member of the state object, read through a proxy. *)
Definition member {A} (s : sid) (f : State -> A) (dflt : A) (w : W) : A :=
  match states (get_st w) !! s with Some st => f st | None => dflt end.

Definition string_proxy (s : sid) (f : State -> string) : PropertyProxy W string :=
  PropertyProxyReference (member s f "") (fun _ e => e) (fun x => x) (fun x => x) false.
Definition int_proxy (s : sid) (f : State -> Z) : PropertyProxy W Z :=
  PropertyProxyReference (member s f 0) (fun _ e => e) (fun x => x) (fun x => x) false.
Definition function_proxy (s : sid) (f : State -> string) : PropertyProxy W string :=
  PropertyProxyFunction "" (Some (member s f "")) None.

(** [node->createProperty(path)->linkToProxy(proxy)] *)
Definition link_string (n : nid) (path : string) (p : PropertyProxy W string) : M unit :=
  c ← createProperty callback n path; _ ← linkToProxy string_ops c p; mret tt.
Definition link_int (n : nid) (path : string) (p : PropertyProxy W Z) : M unit :=
  c ← createProperty callback n path; _ ← linkToProxy int_ops c p; mret tt.

Definition removeFromPropertyTree (s : sid) : M unit :=
  st ← get_state s;
  match st_pPropertyNode st with
  | Some n =>
    _ ← unlinkProxy n true;
    nd ← deref n;
    _ ← match m_ParentNode nd with
        | Some p => _ ← removeChild callback p n; mret tt
        | None => mret tt
        end;
    update_state s (with_node None)
  | None => mret tt
  end.

Definition property_path (st : State) : string :=
  match st_type st with
  | eStateType.StateType_Script | eStateType.StateType_SensorDevice | eStateType.StateType_SensorZone =>
    "/usr/addon-states/" +:+ st_serviceName st +:+ "/"
  | _ => "/usr/states/"
  end +:+ st_name st.

(** The nodes below the state's. *)
Definition publish_members (s : sid) (st : State) (n : nid) : M unit :=
  _ ← link_string n "name" (string_proxy s st_name);
  _ ← link_int n "value" (int_proxy s st_state);
  _ ← link_string n "state" (function_proxy s toString);
  _ ← (if negb (st_callOrigin st =? coUnknown) then link_int n "callOrigin" (int_proxy s st_callOrigin) else mret tt);
  _ ← (if negb (bool_decide (st_originDeviceDSUID st = DSUID_NULL))
       then link_string n "originDeviceDSUID" (function_proxy s (fun st => dsuid2str (st_originDeviceDSUID st)))
       else mret tt);
  _ ← (if String.eqb (st_name st) "presence" || String.eqb (st_name st) "hibernation" then
         c ← getPropertyByName n "value";
         match c with
         | Some c => _ ← removeChild callback n c; link_string n "value" (function_proxy s toString)
         | None => se_throw (UndefinedBehaviour "removeChild(NULL)")
         end
       else mret tt);
  _ ← match st_providerDev st with
      | Some dev =>
        a ← createProperty callback n ("device/" +:+ dsuid2str (pr_dsuid dev));
        _ ← alias a (Some (pr_node dev));
        _ ← (if negb (st_providerDevInput st =? -1)
             then link_int n "device/inputIndex" (int_proxy s st_providerDevInput) else mret tt);
        if negb (String.eqb (st_providerDevStateName st) "")
        then link_string n "device/stateName" (string_proxy s st_providerDevStateName) else mret tt
      | None => mret tt
      end;
  _ ← match st_providerDsm st with
      | Some dsm =>
        a ← createProperty callback n ("dSMeter/" +:+ dsuid2str (pr_dsuid dsm));
        _ ← alias a (Some (pr_node dsm));
        link_int n "dSMeter/inputIndex" (int_proxy s st_providerDevInput)
      | None => mret tt
      end;
  if (0 <? slen (st_serviceName st))%nat
  then link_string n "service/name" (string_proxy s st_serviceName) else mret tt.

Definition publishToPropertyTree (s : sid) : M unit :=
  _ ← removeFromPropertyTree s;
  st ← get_state s;
  inst ← st_gets hasInstance;
  if negb (bool_decide (is_Some (st_pPropertyNode st))) && inst then
    p ← sys_getProperty (property_path st);
    match p with
    | Some _ => mret tt
    | None =>
      n ← sys_createProperty callback (property_path st);
      match n with
      | Some n => _ ← update_state s (with_node (Some n)); publish_members s st n
      | None => se_throw (UndefinedBehaviour "call on NULL")
      end
    end
  else mret tt.

(** ** Construction *)

(** The constructors load the file and publish the object. *)
Definition construct (s : sid) (st : State) : M unit :=
  _ ← set_state s st; _ ← load s; publishToPropertyTree s.

Definition State_apartment (s : sid) (_name : string) : M unit :=
  construct s (mkState None _name volatile_ coUnknown DSUID_NULL State_Inactive eStateType.StateType_Apartment
    None 0 "" None "" None []).
Definition State_typed (s : sid) (_type : eStateType.t) (_name _identifier : string) : M unit :=
  construct s (mkState None _name volatile_ coUnknown DSUID_NULL State_Inactive _type None 0 "" None _identifier None []).
Definition State_device (s : sid) (_device : Provider) (stateName : string) : M unit :=
  construct s (mkState None ("dev." +:+ dsuid2str (pr_dsuid _device) +:+ "." +:+ stateName) persistent coUnknown
    DSUID_NULL State_Invalid eStateType.StateType_Device (Some _device) (-1) stateName None "" None []).
Definition BinaryInputState (s : sid) (device : Provider) (inputIndex : Z) : M unit :=
  construct s (mkState None ("dev." +:+ dsuid2str (pr_dsuid device) +:+ "." +:+ intToString inputIndex false) persistent
    coUnknown DSUID_NULL State_Invalid eStateType.StateType_Device (Some device) inputIndex "" None "" None []).
Definition State_meter (s : sid) (_meter : Provider) (_inputIndex : Z) : M unit :=
  construct s (mkState None ("dsm." +:+ dsuid2str (pr_dsuid _meter) +:+ "." +:+ intToString _inputIndex false) persistent
    coUnknown DSUID_NULL State_Invalid eStateType.StateType_Circuit None _inputIndex "" (Some _meter) "" None []).
Definition State_group (s : sid) (_group : nat) (name : string) : M unit :=
  construct s (mkState None name volatile_ coUnknown DSUID_NULL State_Unknown eStateType.StateType_Group
    None 0 "" None "" (Some _group) []).

(** The logical name of a group by its application type. *)
Definition makeGroupName (zone : Z) (applicationType : ApplicationType.t) : string :=
  "zone." +:+ intToString zone false +:+ "." +:+
  match applicationType with
  | ApplicationType.Lights => "light"
  | ApplicationType.Heating => "heating"
  | _ => "unknown"
  end.

Definition setProviderGroup (s : sid) (_group : option nat) : M unit :=
  _ ← update_state s (fun st => with_provider (st_providerDev st) _group st);
  _ ← removeFromPropertyTree s; publishToPropertyTree s.
Definition setProviderDevice (s : sid) (_dev : option Provider) : M unit :=
  _ ← update_state s (fun st => with_provider _dev (st_providerGroup st) st);
  _ ← removeFromPropertyTree s; publishToPropertyTree s.

(** ** Changing the value *)

(** [createStateChangeEvent] *)
Definition createStateChangeEvent (now : DateTime) (s : sid) (st : State) (_oldstate _callOrigin : Z) : Event :=
  let ev := if bool_decide (st_type st = eStateType.StateType_Script)
            then ev_set_all [("scriptID", st_serviceName st)] (Event_state now "addonStateChange" s)
            else Event_state now "stateChange" s in
  ev_set_all [("statename", st_name st); ("state", toString st); ("value", intToString (st_state st) false);
    ("oldvalue", intToString _oldstate false); ("callOrigin", intToString _callOrigin false)] ev.

(** A new event object, pushed. *)
Definition push_new (ev : Event) : M unit :=
  evs ← gets events;
  let e := fresh (dom evs) in
  _ ← modify (set_events <[e := ev]>);
  pushEvent new_ICalSchedule callback e.

Definition setState (s : sid) (_origin _state : Z) : M unit :=
  st ← get_state s;
  if negb (_state =? st_state st) then
    let oldstate := st_state st in
    _ ← set_state s (with_value _state _origin st);
    inst ← st_gets hasInstance;
    _ ← match st_pPropertyNode st with
        | Some n =>
          if inst && negb (_origin =? coUnknown)
          then link_int n "callOrigin" (int_proxy s st_callOrigin) else mret tt
        | None => mret tt
        end;
    _ ← (if bool_decide (st_persistency st = persistent) then save s else mret tt);
    run ← st_gets running;
    if inst && run then
      now ← gets clock;
      st ← get_state s;
      push_new (createStateChangeEvent now s st oldstate _origin)
    else mret tt
  else mret tt.

Definition setState_name (s : sid) (_origin : Z) (valueName : string) : M unit :=
  st ← get_state s;
  match tryValueFromName st valueName with
  | Some value => setState s _origin value
  | None => mret tt
  end.

Definition setOriginDeviceDSUID (s : sid) (_dsuid : list Z) : M unit :=
  _ ← update_state s (with_dsuid _dsuid);
  st ← get_state s;
  inst ← st_gets hasInstance;
  match st_pPropertyNode st with
  | Some n =>
    if inst && negb (bool_decide (_dsuid = DSUID_NULL)) then
      c ← getProperty n "originDeviceDSUID";
      match c with
      | None => link_string n "originDeviceDSUID" (function_proxy s (fun st => dsuid2str (st_originDeviceDSUID st)))
      | Some _ => mret tt
      end
    else mret tt
  | None => mret tt
  end.

(** * [class StateSensor] *)

Inductive eValueComparator := eComp_undef | eComp_lower | eComp_higher.

(** The second field is read without a look at the number of fields. *)
Definition parseCondition (_input : string) : res (eValueComparator * float) :=
  if is_empty _input then Ok (eComp_undef, 0%float)
  else
    let tokens := splitString ";" true _input in
    let comp := match tokens with
      | String ">" _ :: _ => eComp_higher
      | String "<" _ :: _ => eComp_lower
      | _ => eComp_undef
      end in
    match tokens !! 1%nat with
    | None => Throw (UndefinedBehaviour "tokens[1]")
    | Some t =>
      threshold ← try_catch (strToDouble t)
        (fun e => match e with InvalidArgument _ => true | _ => false end) (fun _ => Ok 0%float);
      Ok (comp, threshold)
    end.

(** The parsed conditions of a sensor state. *)
Record SensorConditions := mkConditions {
  m_activateComparator : eValueComparator;
  m_activateValue : float;
  m_deactivateComparator : eValueComparator;
  m_deactivateValue : float
}.

Definition parseConditions (_activateCondition _deactivateCondition : string) : res SensorConditions :=
  a ← parseCondition _activateCondition;
  d ← parseCondition _deactivateCondition;
  Ok (mkConditions (fst a) (snd a) (fst d) (snd d)).

Definition compare (c : eValueComparator) (_value threshold : float) : bool :=
  match c with
  | eComp_lower => (_value <? threshold)%float
  | eComp_higher => (threshold <? _value)%float
  | eComp_undef => false
  end.

Definition sensor_device_name (dsuid : list Z) (_sensorType : Z) (_identifier : string) : string :=
  "dev." +:+ dsuid2str dsuid +:+ ".type" +:+ intToString _sensorType false +:+ "." +:+ _identifier.
Definition sensor_group_name (zone group _sensorType : Z) (_identifier : string) : string :=
  "zone.zone" +:+ intToString zone false +:+ ".group" +:+ intToString group false +:+
  ".type" +:+ intToString _sensorType false +:+ "." +:+ _identifier.

Definition StateSensor_device (s : sid) (_identifier _scriptId : string) (_device : Provider) (_sensorType : Z)
    (_activateCondition _deactivateCondition : string) : M SensorConditions :=
  _ ← State_typed s eStateType.StateType_SensorDevice
        (sensor_device_name (pr_dsuid _device) _sensorType _identifier) _scriptId;
  c ← se_lift (parseConditions _activateCondition _deactivateCondition);
  _ ← setProviderDevice s (Some _device);
  mret c.

Definition StateSensor_group (s : sid) (_identifier _scriptId : string) (_group : nat) (zone group _sensorType : Z)
    (_activateCondition _deactivateCondition : string) : M SensorConditions :=
  _ ← State_typed s eStateType.StateType_SensorZone (sensor_group_name zone group _sensorType _identifier) _scriptId;
  c ← se_lift (parseConditions _activateCondition _deactivateCondition);
  _ ← setProviderGroup s (Some _group);
  mret c.

Definition newValue (s : sid) (c : SensorConditions) (_origin : Z) (_value : float) : M unit :=
  let cond1 := compare (m_activateComparator c) _value (m_activateValue c) in
  let cond0 := compare (m_deactivateComparator c) _value (m_deactivateValue c) in
  st ← get_state s;
  let oldState := st_state st in
  if oldState =? State_Active then
    if negb cond1 && cond0 then setState s _origin State_Inactive
    else if cond1 && cond0 then setState s _origin State_Unknown
    else mret tt
  else
    if cond1 && negb cond0 then setState s _origin State_Active
    else if cond1 && cond0 then setState s _origin State_Unknown
    else mret tt.
End State.
