(* ===== verification/StateFacts.v ===== *)
(** Properties of states: the names of their values, what a change does, the
    files, and the hysteresis of sensor states. *)
From stdpp Require Import base option list strings gmap.
From Stdlib Require Import ZArith Lia Ascii PrimFloat.
From Stdlib Require String.
From S2P Require Import Prelude CxxString Base NumConv Ds485types ModelConst DataTypes Calendar DateTools Event.
From S2P Require Import PropertyTree EventQueue EventQueueFacts State.

Open Scope string_scope.
Open Scope list_scope.
Open Scope Z_scope.

(** ** Names *)

Lemma index_of_Some x l k : index_of x l = Some k -> l !! k = Some x.
Proof.
  revert k. induction l as [|y l IH]; intros k; cbn; [done|]. destruct (String.eqb_spec y x) as [->|].
  - by intros [= <-].
  - destruct (index_of x l) as [j|]; [|done]. intros [= <-]. by apply IH.
Qed.

Lemma index_of_NoDup l k x : NoDup l -> l !! k = Some x -> index_of x l = Some k.
Proof.
  intros Hn. revert k. induction Hn as [|y l Hy Hn IH]; intros k Hk; [done|]. cbn.
  destruct k as [|k]; cbn in Hk.
  - injection Hk as ->. by rewrite String.eqb_refl.
  - destruct (String.eqb_spec y x) as [->|]; [by apply list_elem_of_lookup_2 in Hk|]. by rewrite (IH k Hk).
Qed.

(** The values of a state and their names: a name that
    [tryValueFromName] accepts belongs to a value of the state's range, whose
    [toString] is that name; when the names of a custom range differ, every
    value of the range is found again by its name; and every value out of the
    range prints as "invalid". *)
Theorem state_names_roundtrip (st : State) :
  (forall n v o, tryValueFromName st n = Some v ->
     0 <= v < getValueRangeSize st /\ toString (with_value v o st) = n) /\
  (forall v o, NoDup (st_values st) -> 0 <= v < getValueRangeSize st ->
     tryValueFromName st (toString (with_value v o st)) = Some v) /\
  (forall v o, ~ (0 <= v < getValueRangeSize st) -> toString (with_value v o st) = INVALID).
Proof.
  unfold tryValueFromName, toString, getValueRangeSize. cbn [st_values st_state with_value].
  destruct (st_values st) as [|x l] eqn:E; split_and!.
  - intros n v o. repeat case_str; intros H; simplify_eq; (split; [vm_compute; by split|done]).
  - intros v o _ Hv. change (State_Unknown + 1) with 4 in Hv.
    assert (v = 0 \/ v = 1 \/ v = 2 \/ v = 3) as [-> | [-> | [-> | ->]]] by lia; reflexivity.
  - intros v o Hv. change (State_Unknown + 1) with 4 in Hv. change State_Unknown with 3.
    change State_Active with 1. change State_Inactive with 2.
    by rewrite !(proj2 (Z.eqb_neq _ _)) by lia.
  - intros n v o H. destruct (index_of n (x :: l)) as [k|] eqn:Hk; [|done]. injection H as <-.
    apply index_of_Some in Hk. pose proof (lookup_lt_Some _ _ _ Hk) as Hl. split; [lia|].
    rewrite (proj2 (Z.leb_le _ _)), (proj2 (Z.ltb_lt _ _)) by lia. cbn [andb]. rewrite Nat2Z.id.
    by apply nth_lookup_Some.
  - intros v o Hn Hv. rewrite (proj2 (Z.leb_le _ _)), (proj2 (Z.ltb_lt _ _)) by lia. cbn [andb].
    destruct (lookup_lt_is_Some_2 (x :: l) (Z.to_nat v) ltac:(lia)) as [y Hy].
    rewrite (nth_lookup_Some _ _ _ _ Hy), (index_of_NoDup _ _ _ Hn Hy). cbn. f_equal. lia.
  - intros v o Hv. destruct (Z.leb_spec 0 v), (Z.ltb_spec v (Z.of_nat (length (x :: l)))); done || lia.
Qed.

(** The event system and the states are different parts of the world. *)
Class SeparateWorlds {ical W : Type} (EW : EventWorld ical W) (SW : StateWorld W) : Prop := {
  st_of_put_eq : forall q w, get_st (put_eq q w) = get_st w;
  eq_of_put_st : forall s w, get_eq (put_st s w) = get_eq w
}.

Section Facts.
Context {ical W : Type} {Sched : Schedule ical} {EW : EventWorld ical W} {SW : StateWorld W} {LC : Libc} {DU : Dsuid}.
Context {Sep : SeparateWorlds EW SW}.
Context (new_ICalSchedule : string -> string -> DateTime -> res ical).
Context (callback : notification -> lid -> nid -> nid -> heap W -> heap W).
Context (can_write : string -> bool).

Local Notation setSt := (setState new_ICalSchedule callback can_write).

Definition sth (h : heap W) : StateStore := get_st (ext h).
Definition with_st (x : StateStore) (h : heap W) : heap W := set_ext (put_st x) h.

Lemma sth_with x h : sth (with_st x h) = x.
Proof. unfold sth, with_st. cbn. apply get_put_st. Qed.
Lemma sth_with_eq q h : sth (with_eq q h) = sth h.
Proof. unfold sth, with_eq. cbn. apply st_of_put_eq. Qed.
Lemma eqh_with_st x h : eqh (with_st x h) = eqh h.
Proof. unfold eqh, with_st. cbn. apply eq_of_put_st. Qed.

Lemma st_gets_run {A} (f : StateStore -> A) h : st_gets f h = (Ok (f (sth h)), h).
Proof. reflexivity. Qed.
Lemma st_modify_run f h : st_modify f h = (Ok tt, with_st (f (sth h)) h).
Proof. reflexivity. Qed.
Lemma get_state_run s st h : states (sth h) !! s = Some st -> get_state s h = (Ok st, h).
Proof. unfold get_state, sth. by intros ->. Qed.

(** ** Files *)

(** Where the file of a state is. *)
Definition storage_name (x : StateStore) (st : State) : string :=
  (if hasInstance x then savedPropsDirectory x else "/tmp") +:+ "/" +:+ "state." +:+ st_name st.

Lemma getStorageName_run st h : getStorageName st h = (Ok (storage_name (sth h) st), h).
Proof. reflexivity. Qed.

Definition saved (st : State) (x : StateStore) : StateStore :=
  if can_write (storage_name x st) then put_files <[storage_name x st := saved_bytes st]> x else x.

Lemma with_sth h : put_st (sth h) (ext h) = ext h -> with_st (sth h) h = h.
Proof. intros E. unfold with_st, set_ext. rewrite E. by destruct h. Qed.

Lemma save_run s st h : states (sth h) !! s = Some st ->
  exists h', save can_write s h = (Ok tt, h') /\ sth h' = saved st (sth h) /\ eqh h' = eqh h /\ nodes h' = nodes h.
Proof.
  intros Hs. unfold save. rewrite (se_bind_ok _ _ _ _ _ (get_state_run _ _ _ Hs)).
  rewrite (se_bind_ok _ _ _ _ _ (getStorageName_run _ _)). unfold saved.
  destruct (can_write _); [|by exists h]. eexists. split; [apply st_modify_run|].
  rewrite sth_with, eqh_with_st. done.
Qed.

(** Everything that is written fits into a byte. *)
Definition savable (st : State) : Prop :=
  0 <= st_state st < 256 /\ 0 <= st_callOrigin st < 256 /\ Forall (fun b => 0 <= b < 256) (st_originDeviceDSUID st) /\
  length (st_originDeviceDSUID st) = DSUID_SIZE.

Lemma read_dsuid_all l acc : read_dsuid (length l) l acc = acc ++ l.
Proof.
  revert acc. induction l as [|b l IH]; intros acc; cbn; [by rewrite app_nil_r|].
  rewrite IH. by rewrite <- app_assoc.
Qed.

Lemma loaded_saved st st' : savable st ->
  loaded (saved_bytes st) st' =
  with_dsuid (st_originDeviceDSUID st) (with_value (st_state st) (st_callOrigin st) st').
Proof.
  intros (Hv & Ho & Hd & Hl). unfold loaded, saved_bytes.
  assert (forall b, 0 <= b < 256 -> wrapU 8 b = b) as Hw by (intros b Hb; by apply Z.mod_small).
  rewrite !Hw by done. cbn [drop].
  assert (map (wrapU 8) (st_originDeviceDSUID st) = st_originDeviceDSUID st) as ->.
  { clear Hl. induction Hd as [|b l Hb _ IH]; [done|]. cbn. by rewrite Hw, IH. }
  rewrite <- Hl. by rewrite read_dsuid_all.
Qed.

(** C34: a state saved to its file and loaded into another object of the same
    name, as after a restart, comes back with its value, call origin and
    origin device, as long as the value and the origin fit into the byte that
    [fputc] writes; nothing else of the object changes. *)
Theorem save_load_roundtrip (h : heap W) (s s' : sid) (st st' : State) :
  states (sth h) !! s = Some st -> states (sth h) !! s' = Some st' -> st_name st' = st_name st ->
  can_write (storage_name (sth h) st) = true -> savable st ->
  exists h1 h2, save can_write s h = (Ok tt, h1) /\ load s' h1 = (Ok tt, h2) /\
    states (sth h2) = <[s' := with_dsuid (st_originDeviceDSUID st) (with_value (st_state st) (st_callOrigin st) st')]>
      (states (sth h)).
Proof.
  intros Hs Hs' Hn Hw Hv. destruct (save_run s st h Hs) as (h1 & Hr & Hst & _ & _).
  exists h1. unfold load, saved in *. rewrite Hw in Hst.
  assert (states (sth h1) !! s' = Some st') as Hs1 by (by rewrite Hst).
  eexists. split; [exact Hr|]. rewrite (se_bind_ok _ _ _ _ _ (get_state_run _ _ _ Hs1)).
  rewrite (se_bind_ok _ _ _ _ _ (getStorageName_run _ _)), (se_bind_ok _ _ _ _ _ (st_gets_run _ _)).
  assert (files (sth h1) !! storage_name (sth h1) st' = Some (saved_bytes st)) as ->.
  { rewrite Hst. unfold storage_name. cbn. rewrite Hn. apply lookup_insert_eq. }
  split; [apply st_modify_run|]. rewrite sth_with, loaded_saved by done. cbn. by rewrite Hst.
Qed.

(** ** A change of the value *)

Lemma set_state_run s st h : set_state s st h = (Ok tt, with_st (put_states <[s := st]> (sth h)) h).
Proof. reflexivity. Qed.

(** The events of state changes are delivered at once and are not unique. *)
Lemma state_event_plain now s st old o :
  immediate (createStateChangeEvent now s st old o) = true /\ is_unique (createStateChangeEvent now s st old o) = false.
Proof.
  unfold immediate, is_unique, createStateChangeEvent.
  destruct (bool_decide (st_type st = eStateType.StateType_Script)); cbn [ev_set_all fold_left];
    unfold ev_setProperty; cbn; unfold ev_setProperties, ev_hasPropertySet, ev_getPropertyByName; cbn;
    unfold props_has, props_get_default, props_set;
    rewrite !lookup_insert_ne by done; by rewrite lookup_empty.
Qed.

Lemma push_new_run ev h : immediate ev = true -> is_unique ev = false ->
  exists e, e ∉ dom (events (eqh h)) /\
    push_new new_ICalSchedule callback ev h =
    (Ok tt, with_eq (set_EventQueue (fun l => l ++ [e]) (set_events <[e := ev]> (eqh h))) h).
Proof.
  intros Hi Hu. exists (fresh (dom (events (eqh h)))). split; [apply is_fresh|].
  unfold push_new. rewrite (se_bind_ok _ _ _ _ _ (gets_run _ _)). cbv zeta.
  rewrite (se_bind_ok _ _ _ _ _ (modify_run _ _)).
  rewrite (push_plain_run _ _ _ _ ev).
  - by rewrite eqh_with, with_with.
  - rewrite eqh_with. cbn. apply lookup_insert_eq.
  - done.
  - done.
Qed.

(** The store after [s] took the value [v]. *)
Definition changed (s : sid) (st : State) (v o : Z) (x : StateStore) : StateStore :=
  let st' := with_value v o st in
  let x := put_states <[s := st']> x in
  if bool_decide (st_persistency st = persistent) then saved st' x else x.

(** The event system after it. *)
Inductive notified (s : sid) (st : State) (v o : Z) (x : StateStore) (q : EQ ical) : EQ ical -> Prop :=
| notified_running e :
    hasInstance x && running x = true -> e ∉ dom (events q) ->
    notified s st v o x q (set_EventQueue (fun l => l ++ [e])
      (set_events <[e := createStateChangeEvent (clock q) s (with_value v o st) (st_state st) o]> q))
| notified_not : hasInstance x && running x = false -> notified s st v o x q q.

Lemma setState_run h s st o v : states (sth h) !! s = Some st -> st_pPropertyNode st = None ->
  v <> st_state st ->
  exists h', setSt s o v h = (Ok tt, h') /\ sth h' = changed s st v o (sth h) /\
    notified s st v o (sth h) (eqh h) (eqh h').
Proof.
  intros Hs Hn Hv. unfold setState. rewrite (se_bind_ok _ _ _ _ _ (get_state_run _ _ _ Hs)).
  apply Z.eqb_neq in Hv. rewrite Hv. cbn [negb]. cbv zeta.
  rewrite (se_bind_ok _ _ _ _ _ (set_state_run _ _ _)).
  set (h1 := with_st _ h). assert (sth h1 = put_states <[s := with_value v o st]> (sth h)) as E1 by apply sth_with.
  assert (eqh h1 = eqh h) as Q1 by apply eqh_with_st.
  rewrite (se_bind_ok _ _ _ _ _ (st_gets_run _ _)), Hn, (se_bind_ok (mret tt) _ _ _ _ eq_refl).
  assert (states (sth h1) !! s = Some (with_value v o st)) as Hs1 by (rewrite E1; apply lookup_insert_eq).
  assert (exists h2, (if bool_decide (st_persistency st = persistent) then save can_write s else mret tt) h1 = (Ok tt, h2) /\
    sth h2 = changed s st v o (sth h) /\ eqh h2 = eqh h) as (h2 & H2 & E2 & Q2).
  { unfold changed. case_bool_decide.
    - destruct (save_run s _ h1 Hs1) as (h2 & H2 & E2 & Q2 & _). exists h2. rewrite E2, Q2, E1. done.
    - exists h1. done. }
  rewrite (se_bind_ok _ _ _ _ _ H2). rewrite (se_bind_ok _ _ _ _ _ (st_gets_run _ _)).
  assert (hasInstance (sth h1) = hasInstance (sth h)) as -> by by rewrite E1.
  assert (running (sth h2) = running (sth h)) as ->
    by (rewrite E2; unfold changed, saved; by repeat case_match).
  assert (states (sth h2) !! s = Some (with_value v o st)) as Hs2.
  { rewrite E2. unfold changed, saved. repeat case_match; apply lookup_insert_eq. }
  destruct (hasInstance (sth h) && running (sth h)) eqn:R.
  - rewrite (se_bind_ok _ _ _ _ _ (gets_run _ _)), (se_bind_ok _ _ _ _ _ (get_state_run _ _ _ Hs2)), Q2.
    destruct (state_event_plain (clock (eqh h)) s (with_value v o st) (st_state st) o) as [Hi Hu].
    destruct (push_new_run _ h2 Hi Hu) as (e & He & Hp). eexists. split; [exact Hp|].
    rewrite sth_with_eq, eqh_with, Q2. split; [exact E2|]. rewrite Q2 in He. by constructor.
  - exists h2. split; [done|]. split; [exact E2|]. rewrite Q2. by apply notified_not.
Qed.

(** C25: setting a state to the value it has does nothing; setting another one
    (of a state without a property node) never fails, changes value and call
    origin of this state and no other, writes the file exactly when the state
    is persistent, and, exactly when the system runs, appends one event to the
    queue, which carries the name, the new value and its name, the old value
    and the origin. *)
Theorem setState_spec (h : heap W) (s : sid) (st : State) (o v : Z) :
  states (sth h) !! s = Some st -> st_pPropertyNode st = None ->
  exists h', setSt s o v h = (Ok tt, h') /\
    (v = st_state st -> h' = h) /\
    (v <> st_state st ->
       states (sth h') = <[s := with_value v o st]> (states (sth h)) /\
       files (sth h') =
         (if bool_decide (st_persistency st = persistent) && can_write (storage_name (sth h) st)
          then <[storage_name (sth h) st := saved_bytes (with_value v o st)]> (files (sth h)) else files (sth h)) /\
       (hasInstance (sth h) && running (sth h) = false -> eqh h' = eqh h) /\
       (hasInstance (sth h) && running (sth h) = true ->
          exists e ev, m_EventQueue (eqh h') = m_EventQueue (eqh h) ++ [e] /\ e ∉ dom (events (eqh h)) /\
            events (eqh h') = <[e := ev]> (events (eqh h)) /\ ev_RaisedAtState ev = Some s /\
            ev_Name ev = (if bool_decide (st_type st = eStateType.StateType_Script)
                          then "addonStateChange" else "stateChange") /\
            Forall (fun p => ev_getPropertyByName ev (fst p) = snd p)
              [("statename", st_name st); ("state", toString (with_value v o st)); ("value", intToString v false);
               ("oldvalue", intToString (st_state st) false); ("callOrigin", intToString o false)])).
Proof.
  intros Hs Hn. destruct (Z.eq_dec v (st_state st)) as [->|Hv].
  - exists h. split; [|done]. unfold setState. rewrite (se_bind_ok _ _ _ _ _ (get_state_run _ _ _ Hs)).
    by rewrite Z.eqb_refl.
  - destruct (setState_run h s st o v Hs Hn Hv) as (h' & Hr & Ex & Eq). exists h'. split; [exact Hr|].
    split; [done|]. intros _. split_and!.
    + rewrite Ex. unfold changed, saved. by repeat case_match.
    + rewrite Ex. unfold changed, saved. change (storage_name (put_states <[s := with_value v o st]> (sth h)) (with_value v o st))
        with (storage_name (sth h) st). case_bool_decide; cbn [andb]; [|done]. by destruct (can_write _).
    + intros R. inversion Eq as [e R' He Heq|R' Heq]; congruence.
    + intros R. inversion Eq as [e R' He Heq|R' Heq]; [|congruence].
      exists e, (createStateChangeEvent (clock (eqh h)) s (with_value v o st) (st_state st) o).
      split_and!; [done|done|done| | |].
      * unfold createStateChangeEvent. by destruct (bool_decide _).
      * unfold createStateChangeEvent. cbn [st_type with_value]. by destruct (bool_decide _).
      * repeat constructor; unfold createStateChangeEvent; destruct (bool_decide _);
          cbn [ev_set_all fold_left fst snd]; unfold ev_setProperty; cbn;
          unfold ev_getPropertyByName, ev_setProperties, props_get_default, props_set; cbn;
          rewrite ?lookup_insert_eq, ?lookup_insert_ne, ?lookup_insert_eq by done;
          rewrite ?lookup_insert_ne, ?lookup_insert_eq by done; done.
Qed.

(** ** Sensor states *)

Definition activates (c : SensorConditions) (x : float) : bool :=
  compare (m_activateComparator c) x (m_activateValue c).
Definition deactivates (c : SensorConditions) (x : float) : bool :=
  compare (m_deactivateComparator c) x (m_deactivateValue c).

(** The value after a measurement. *)
Definition sensor_next (c : SensorConditions) (old : Z) (x : float) : Z :=
  if activates c x && deactivates c x then State_Unknown
  else if old =? State_Active then (if deactivates c x then State_Inactive else old)
  else (if activates c x then State_Active else old).

(** The sensor [s] has a value, and no property node. *)
Definition sensor_at (s : sid) (v : Z) (h : heap W) : Prop :=
  exists st, states (sth h) !! s = Some st /\ st_pPropertyNode st = None /\ st_state st = v.

Lemma setState_sensor h s o v old : sensor_at s old h ->
  exists h', setSt s o v h = (Ok tt, h') /\ sensor_at s v h'.
Proof.
  intros (st & Hs & Hn & <-). destruct (Z.eq_dec v (st_state st)) as [->|Hv].
  - exists h. split; [|by exists st]. unfold setState. rewrite (se_bind_ok _ _ _ _ _ (get_state_run _ _ _ Hs)).
    by rewrite Z.eqb_refl.
  - destruct (setState_run h s st o v Hs Hn Hv) as (h' & Hr & Ex & _). exists h'. split; [done|].
    exists (with_value v o st). split_and!; [|done|done]. rewrite Ex. unfold changed, saved.
    repeat case_match; apply lookup_insert_eq.
Qed.

Local Notation measure := (newValue new_ICalSchedule callback can_write).

Lemma newValue_run h s c o x old : sensor_at s old h ->
  exists h', measure s c o x h = (Ok tt, h') /\ sensor_at s (sensor_next c old x) h'.
Proof.
  intros Hs. pose proof Hs as (st & Hl & Hn & Hv). unfold newValue.
  rewrite (se_bind_ok _ _ _ _ _ (get_state_run _ _ _ Hl)), Hv. cbv zeta.
  unfold sensor_next. fold (activates c x) (deactivates c x).
  destruct (activates c x), (deactivates c x); cbn [negb andb];
    destruct (Z.eqb_spec old State_Active) as [->|]; try (by eapply setState_sensor); by exists h.
Qed.

Lemma newValue_all_run h s c o xs old : sensor_at s old h ->
  exists h', se_iter (measure s c o) xs h = (Ok tt, h') /\ sensor_at s (fold_left (sensor_next c) xs old) h'.
Proof.
  revert h old. induction xs as [|x xs IH]; intros h old Hs; [by exists h|]. cbn [se_iter fold_left].
  destruct (newValue_run h s c o x old Hs) as (h1 & H1 & Hs1).
  destruct (IH h1 _ Hs1) as (h' & H' & Hs'). exists h'. by rewrite (se_bind_ok _ _ _ _ _ H1).
Qed.

(** What a measurement decides. *)
Definition decision (c : SensorConditions) (x : float) : option Z :=
  if activates c x then Some State_Active else if deactivates c x then Some State_Inactive else None.

(** C26: the hysteresis of a sensor state (without a node in the property tree):
    as long as no measurement meets both conditions, the state, when it was active
    or inactive, is decided by the last measurement that met one of them, and is
    the initial one if there was none (a measurement that is not a number meets
    neither).  Whatever came before, a measurement that met both makes the state
    unknown, and it stays so through measurements that do not activate, also if
    they deactivate; one that only activates makes it active again. *)
Theorem sensor_hysteresis (h : heap W) (s : sid) (c : SensorConditions) (o : Z) (xs : list float) (old : Z) :
  sensor_at s old h ->
  exists h', se_iter (measure s c o) xs h = (Ok tt, h') /\
    ((old = State_Active \/ old = State_Inactive) ->
     Forall (fun x => activates c x && deactivates c x = false) xs ->
     sensor_at s (default old (last (omap (decision c) xs))) h') /\
    (old = State_Unknown -> Forall (fun x => activates c x = false) xs -> sensor_at s State_Unknown h') /\
    (forall pre x post, xs = pre ++ x :: post -> activates c x = true -> deactivates c x = true ->
       Forall (fun y => activates c y = false) post -> sensor_at s State_Unknown h') /\
    (forall pre x, xs = pre ++ [x] -> activates c x = true -> deactivates c x = false -> sensor_at s State_Active h').
Proof.
  intros Hs. destruct (newValue_all_run h s c o xs old Hs) as (h' & Hr & Hs'). exists h'. split; [done|].
  assert (forall ys, Forall (fun x => activates c x = false) ys -> fold_left (sensor_next c) ys State_Unknown = State_Unknown) as Hstay.
  { intros ys Hx. induction Hx as [|x ys Hx _ IH]; [done|]. cbn [fold_left]. unfold sensor_next at 2. by rewrite Hx. }
  split_and!.
  - intros Ho Hx. enough (fold_left (sensor_next c) xs old = default old (last (omap (decision c) xs))) as <- by done.
    clear Hs Hs' Hr. revert old Ho. induction Hx as [|x xs Hx _ IH]; intros old Ho; [done|]. cbn [fold_left].
    unfold sensor_next at 2. rewrite Hx.
    rewrite IH by (destruct Ho as [-> | ->]; destruct (activates c x), (deactivates c x); auto).
    change (omap (decision c) (x :: xs)) with
      (match decision c x with Some y => y :: omap (decision c) xs | None => omap (decision c) xs end).
    unfold decision at 2.
    destruct Ho as [-> | ->]; destruct (activates c x), (deactivates c x); try done;
      rewrite last_cons; by destruct (last _).
  - intros -> Hx. by rewrite Hstay in Hs'.
  - intros pre x post -> Ha Hd Hx. rewrite fold_left_app in Hs'. cbn [fold_left] in Hs'.
    unfold sensor_next at 2 in Hs'. rewrite Ha, Hd in Hs'. cbn [andb] in Hs'. by rewrite Hstay in Hs'.
  - intros pre x -> Ha Hd. rewrite fold_left_app in Hs'. cbn [fold_left] in Hs'. unfold sensor_next at 1 in Hs'. rewrite Ha, Hd in Hs'. cbn [andb] in Hs'.
    destruct (Z.eqb_spec (fold_left (sensor_next c) pre old) State_Active) as [E|]; [by rewrite E in Hs'|done].
Qed.
End Facts.

(** * A concrete world *)

#[local] Existing Instance no_ical.
#[local] Existing Instance no_libc.
#[local] Instance demo_dsuid : Dsuid := {|
  DSUID_SIZE := 2; DSUID_NULL := [0; 0]; dsuid_from_string := fun _ => None; dsuid_from_dsid := fun d => d;
  dsuid_get_serial_number := fun _ => None; lib_dsuid_get_next_dsuid := fun _ => None; lib_dsuid_to_dsid := fun _ => None
|}.
Definition DemoWorld : Type := EQ unit * StateStore.
#[local] Instance demo_events : EventWorld unit DemoWorld.
Proof. refine {| get_eq := fst; put_eq := fun q w => (q, snd w) |}; [done|done|by intros []]. Defined.
#[local] Instance demo_states : StateWorld DemoWorld.
Proof. by refine {| get_st := snd; put_st := fun x w => (fst w, x) |}. Defined.
#[local] Instance demo_separate : SeparateWorlds demo_events demo_states.
Proof. split; reflexivity. Defined.

Definition demo_state (name : string) (v : Z) (p : StatePersistency) : State :=
  mkState None name p 0 [7; 8] v eStateType.StateType_Device None 0 "" None "" None [].
Definition demo_heap : heap DemoWorld :=
  empty_heap (mkEQ ∅ [] 0 true [] true None false NullDate,
    mkStateStore {[ 0%nat := demo_state "a" 3 persistent; 1%nat := demo_state "a" 0 persistent;
                    2%nat := demo_state "b" 2 volatile_ ]} ∅ true true "/save").
Definition demo_listener (k : notification) (l : lid) (a b : nid) (h : heap DemoWorld) : heap DemoWorld := h.

Lemma save_load_roundtrip_witness :
  exists h1 h2, save (fun _ => true) 0%nat demo_heap = (Ok tt, h1) /\ load 1%nat h1 = (Ok tt, h2).
Proof.
  destruct (save_load_roundtrip (SW := demo_states) (EW := demo_events) (fun _ => true) demo_heap 0%nat 1%nat
    (demo_state "a" 3 persistent) (demo_state "a" 0 persistent)) as (h1 & h2 & H1 & H2 & _).
  - reflexivity.
  - reflexivity.
  - reflexivity.
  - reflexivity.
  - unfold savable. cbn. split; [lia|]. split; [lia|]. split; [repeat constructor; lia|reflexivity].
  - exists h1, h2. split; [exact H1|exact H2].
Defined.

Lemma setState_spec_witness :
  exists h', setState no_new demo_listener (fun _ => true) 2%nat 1 1 demo_heap = (Ok tt, h').
Proof.
  destruct (setState_spec (SW := demo_states) (EW := demo_events) no_new demo_listener (fun _ => true) demo_heap 2%nat
    (demo_state "b" 2 volatile_) 1 1 ltac:(reflexivity) ltac:(reflexivity)) as (h' & H & _).
  exists h'. exact H.
Defined.

(** On above 25, off below 24. *)
Definition demo_conditions : SensorConditions := mkConditions eComp_higher 25%float eComp_lower 24%float.

Lemma sensor_hysteresis_witness :
  exists h', se_iter (newValue no_new demo_listener (fun _ => true) 2%nat demo_conditions 7) [26%float; 24.5%float] demo_heap
    = (Ok tt, h') /\ sensor_at 2%nat State_Active h'.
Proof.
  destruct (sensor_hysteresis (SW := demo_states) (EW := demo_events) no_new demo_listener (fun _ => true) demo_heap 2%nat
    demo_conditions 7 [26%float; 24.5%float] 2 ltac:(exists (demo_state "b" 2 volatile_); split; [reflexivity|split; reflexivity]))
    as (h' & H & Hh & _).
  exists h'. split; [exact H|]. apply Hh; [right; reflexivity|repeat constructor].
Defined.
