(* ===== verification/SystemTriggers.v ===== *)
(** [src/src/handler/system_triggers.cpp], the second half: what happens when a
    trigger matches.  [SystemTrigger::run] goes through the registered triggers,
    checks them and their conditions, and relays an event, unless the trigger is
    damped; a delayed event can be rescheduled while it waits.

    The triggers live in the property tree, which the handler writes, and the
    events go to the event queue. *)
From stdpp Require Import base option list strings gmap.
From Stdlib Require Import ZArith Lia Ascii PrimFloat.
From Stdlib Require String.
From S2P Require Import Prelude CxxString Base NumConv FloatConv Ds485types ModelConst DataTypes Calendar.
From S2P Require Import DateTools Event PropertyTree PropertyReader SystemCondition EventCreate TriggerMatch.
From S2P Require Import EventQueue.

Open Scope string_scope.
Open Scope list_scope.
Open Scope Z_scope.

Section SystemTriggers.
Context {ical W : Type} {Sched : Schedule ical} {EW : EventWorld ical W} {LC : Libc} {SD : Strtod} {DU : Dsuid}.
Context (new_ICalSchedule : string -> string -> DateTime -> res ical).
Context (callback : notification -> lid -> nid -> nid -> heap W -> heap W).
Context (doubleToString : float -> string).
(** [ICalEvent(rrule, start, end).isDateInside(now)]; [DSS::hasInstance()]. *)
Context (isDateInside : string -> string -> string -> res bool) (hasInstance : bool).

Local Notation "'M' A" := (SE (heap W) A) (at level 10, A at next level).

(** A check that only reads the tree. *)
Definition reading {A} (f : PropertyReader nid -> res A) : M A := fun h => (f (heap_reader doubleToString h), h).

(** [node->getProperty(name)->...]; the pointer may be NULL. *)
Definition need (n : option nid) : M nid :=
  match n with Some n => mret n | None => se_throw (UndefinedBehaviour "NULL->") end.
Definition property (n : nid) (name : string) : M nid := p ← getProperty n name; need p.

(** [DateTime()] as text. *)
Definition now_text : M string := now ← gets clock; se_lift (toISO8601 now).
Definition getText (n : nid) : M string := getAsString doubleToString n.

(** Seconds since a time kept as text in a node. *)
Definition seconds_since (n : nid) : M Z :=
  s ← getText n;
  lastTS ← se_lift (parseISO8601 s);
  now ← gets clock;
  se_lift (difference now lastTS).

(** [true]: the trigger is damped. *)
Definition damping (_triggerParamNode : nid) : M bool :=
  dampNode ← getProperty _triggerParamNode ptn_damping;
  match dampNode with
  | None => mret false
  | Some dampNode =>
    intervalNode ← getProperty dampNode ptn_damp_interval;
    match intervalNode with
    | None => mret false
    | Some intervalNode =>
      startNode ← getProperty dampNode ptn_damp_start_ts;
      match startNode with
      | None =>
        tmp ← createProperty callback dampNode ptn_damp_start_ts;
        t ← now_text;
        _ ← setStringValue callback tmp t;
        mret false
      | Some lastTsNode =>
        interval ← getIntegerValue intervalNode;
        if interval <? 0 then mret false
        else
          lastText ← getText lastTsNode;
          lastTS ← se_lift (parseISO8601 lastText);
          rewindNode ← getProperty dampNode ptn_damp_rewind;
          rewind ← match rewindNode with Some r => getBoolValue r | None => mret false end;
          _ ← (if rewind : bool then t ← now_text; setStringValue callback lastTsNode t else mret tt);
          now ← gets clock;
          elapsed ← se_lift (difference now lastTS);
          if elapsed <? interval then mret true
          else
            t ← now_text;
            _ ← setStringValue callback lastTsNode t;
            mret false
      end
    end
  end.

(** The additional parameters, [key=value] separated by semicolons. *)
Definition add_parameters (additionalParameter : string) (evt : Event) : Event :=
  fold_left (fun evt p =>
    let '(k, v) := splitIntoKeyValue p in
    if is_empty k || is_empty v then evt else snd (ev_setProperty k v evt))
    (splitString ";" false additionalParameter) evt.

(** The event that is relayed. *)
Definition relayed_event (ev : SystemTrigger) (now : DateTime) (sTriggerPath sRelayedEventName additionalParameter : string) : Event :=
  let evt := ev_applyProperties (m_properties ev) (Event_name now sRelayedEventName) in
  let evt := snd (ev_setProperty "path" sTriggerPath evt) in
  add_parameters additionalParameter evt.

(** [make_shared<Event>]: a new object in the store. *)
Definition new_object (evt : Event) : M eid :=
  evs ← gets events;
  let e := fresh (dom evs) in
  _ ← modify (set_events <[e := evt]>);
  mret e.

(** Queue the event now, or after the lag the trigger asks for. *)
Definition submit (evt : Event) (_triggerParamNode : nid) : M unit :=
  lagNode ← getProperty _triggerParamNode ptn_action_lag;
  delayNode ← match lagNode with Some l => getProperty l ptn_action_delay | None => mret None end;
  match lagNode, delayNode with
  | Some lagNode, Some delayNode =>
    delay ← getIntegerValue delayNode;
    if delay =? 0 then e ← new_object evt; pushEvent new_ICalSchedule callback e
    else if delay <? 0 then mret tt
    else
      d ← getText delayNode;
      e ← new_object (snd (ev_setProperty "time" ("+" +:+ d) evt));
      id ← pushTimedEvent new_ICalSchedule callback e;
      if is_empty id then mret tt
      else
        n ← createProperty callback lagNode ptn_action_eventid;
        _ ← setStringValue callback n id;
        n ← createProperty callback lagNode ptn_action_ts;
        t ← now_text;
        setStringValue callback n t
  | _, _ => e ← new_object evt; pushEvent new_ICalSchedule callback e
  end.

Definition relayTrigger (ev : SystemTrigger) (_relay _triggerParamNode : nid) : M unit :=
  triggerPath ← getPropertyByName _relay "triggerPath";
  relayedEventName ← getPropertyByName _relay "relayedEventName";
  match triggerPath, relayedEventName with
  | Some triggerPath, Some relayedEventName =>
    sTriggerPath ← getText triggerPath;
    sRelayedEventName ← getText relayedEventName;
    aParam ← getPropertyByName _relay "additionalRelayingParameter";
    additionalParameter ← match aParam with Some p => getText p | None => mret "" end;
    now ← gets clock;
    let evt := relayed_event ev now sTriggerPath sRelayedEventName additionalParameter in
    if negb hasInstance then mret tt else submit evt _triggerParamNode
  | _, _ => mret tt
  end.

(** Rescheduling is enabled and an event has been scheduled: the delay and the
    identifier are there. *)
Definition reschedule_enabled (lagNode : nid) : M bool :=
  r ← getProperty lagNode ptn_action_reschedule;
  match r with
  | None => mret false
  | Some r =>
    b ← getBoolValue r;
    if negb b then mret false
    else
      d ← getProperty lagNode ptn_action_delay;
      match d with
      | None => mret false
      | Some _ =>
        i ← getProperty lagNode ptn_action_eventid;
        mret (match i with Some _ => true | None => false end)
      end
  end.

(** [true]: the waiting event was replaced by a new one. *)
Definition rescheduleAction (ev : SystemTrigger) (_triggerNode _triggerParamNode : nid) : M bool :=
  lagNode ← getProperty _triggerParamNode ptn_action_lag;
  match lagNode with
  | None => mret false
  | Some lagNode =>
    enabled ← reschedule_enabled lagNode;
    if negb enabled then mret false
    else
      delayNode ← property lagNode ptn_action_delay;
      delay ← getIntegerValue delayNode;
      lastTsNode ← property lagNode ptn_action_ts;
      elapsed ← seconds_since lastTsNode;
      if elapsed >? delay then mret false
      else
        idNode ← property lagNode ptn_action_eventid;
        id ← getStringValue idNode;
        _ ← removeEvent callback id;
        t ← now_text;
        _ ← setStringValue callback lastTsNode t;
        _ ← relayTrigger ev _triggerNode _triggerParamNode;
        mret true
  end.

(** The warning about lag and interval; it looks for [lag] below [lag], so
    that it does nothing in a tree as the handler makes it, but what it reads
    can throw. *)
Definition check_lag_interval (triggerParamNode : nid) : M unit :=
  lagNode ← getProperty triggerParamNode ptn_action_lag;
  dampNode ← getProperty triggerParamNode ptn_damping;
  lag ← match lagNode with Some l => getProperty l ptn_action_lag | None => mret None end;
  match lag with
  | None => mret tt
  | Some lag =>
    interval ← match dampNode with Some d => getProperty d ptn_damp_interval | None => mret None end;
    match interval with
    | None => mret tt
    | Some interval =>
      dampInterval ← getIntegerValue interval;
      actionLag ← getIntegerValue lag;
      mret tt
    end
  end.

(** The clock as [checkSystemCondition] sees it. *)
Definition condition_time (d : DateTime) : now := mkNow (getWeekday d) (getHour d) (getMinute d) (getSecond d).

(** A trigger that matched: reschedule, damp or relay. *)
Definition fire (ev : SystemTrigger) (triggerNode triggerParamNode : nid) : M unit :=
  _ ← check_lag_interval triggerParamNode;
  rescheduled ← rescheduleAction ev triggerNode triggerParamNode;
  if rescheduled : bool then mret tt
  else
    damped ← damping triggerParamNode;
    if damped : bool then mret tt else relayTrigger ev triggerNode triggerParamNode.

(** One registered trigger. *)
Definition run_one (ev : SystemTrigger) (triggerNode : nid) : M unit :=
  triggerPathNode ← getPropertyByName triggerNode "triggerPath";
  match triggerPathNode with
  | None => mret tt
  | Some triggerPathNode =>
    sTriggerPath ← getStringValue triggerPathNode;
    triggerParamNode ← sys_getProperty sTriggerPath;
    match triggerParamNode with
    | None => mret tt
    | Some triggerParamNode =>
      matched ← reading (fun R => checkTrigger ev (PropertyReader0 := R) triggerParamNode);
      if negb matched then mret tt
      else
        now ← gets clock;
        accepted ← reading (fun R => checkSystemCondition isDateInside (condition_time now) (PropertyReader0 := R) sTriggerPath);
        if negb accepted then mret tt else fire ev triggerNode triggerParamNode
    end
  end.

(** The children are counted and looked up anew before each trigger, since
    listeners may change the tree; [fuel] is more than there will be. *)
Fixpoint run_from (fuel : nat) (ev : SystemTrigger) (triggerProperty : nid) (i : Z) : M unit :=
  match fuel with
  | O => se_throw (UndefinedBehaviour "endless loop")
  | S fuel =>
    n ← getChildCount triggerProperty;
    if i <? n then
      triggerNode ← getChild triggerProperty i;
      _ ← match triggerNode with Some t => run_one ev t | None => mret tt end;
      run_from fuel ev triggerProperty (i + 1)
    else mret tt
  end.

(** A [runtime_error] ends the loop over the triggers, other exceptions leave the
    handler. *)
Definition run (fuel : nat) (ev : SystemTrigger) : M unit :=
  if negb hasInstance then mret tt
  else
    triggerProperty ← sys_getProperty "/usr/triggers";
    match triggerProperty with
    | None => mret tt
    | Some triggerProperty => se_try (run_from fuel ev triggerProperty 0) is_runtime_error (fun _ => mret tt)
    end.
End SystemTriggers.
