(* ===== verification/TriggerFacts.v ===== *)
(** Theorems about system triggers ([TriggerMatch.v], [SystemTriggers.v]). *)
From stdpp Require Import base option list strings gmap sorting.
From Stdlib Require Import ZArith Lia Ascii PrimFloat.
From Stdlib Require String.
From S2P Require Import Prelude CxxString Base NumConv FloatConv Ds485types ModelConst DataTypes Calendar.
From S2P Require Import DateTools DateTimeFacts Event PropertyTree PropertyTreeFacts PropertyReader.
From S2P Require Import PropertyShape SystemCondition EventCreate TriggerMatch EventQueue EventQueueFacts State.
From S2P Require Import SystemTriggers.

Open Scope string_scope.
Open Scope list_scope.
Open Scope Z_scope.

(** * Matching *)

Section Matching.
Context {DU : Dsuid} {SD : Strtod}.
Context (group_at : nat -> Z * Z) (device_at : nat -> Z * dsuid_t) (broadcast : Z * Z).
Context {Node : Type} `{!PropertyReader Node}.
Implicit Types t : Node.

(** What the nodes of a trigger read as. *)
Definition reads_int t (name : string) (v : Z) : Prop :=
  exists n, read_child t name = Ok (Some n) /\ read_int n = Ok v.
Definition reads_text t (name : string) (v : option string) : Prop :=
  match v with
  | Some s => exists n, read_child t name = Ok (Some n) /\ read_as_string n = Ok s
  | None => read_child t name = Ok None
  end.
Definition reads_bool t (name : string) (v : option bool) : Prop :=
  match v with
  | Some b => exists n, read_child t name = Ok (Some n) /\ read_bool n = Ok b
  | None => read_child t name = Ok None
  end.

Lemma check_int_reads t name v missing p : reads_int t name v -> check_int t name missing p = Ok (p v).
Proof. intros (n & H1 & H2). unfold check_int. rewrite H1. cbn. by rewrite H2. Qed.

Lemma check_bool_reads t name v p : reads_bool t name v ->
  check_bool t name p = Ok (match v with Some b => p b | None => true end).
Proof.
  unfold check_bool. destruct v as [b|]; [intros (n & H1 & H2)|intros H1]; rewrite H1; cbn; [|done]. by rewrite H2.
Qed.

(** An origin asked for in the trigger. *)
Definition origin_matches (wanted : option string) (origin : dsuid_t) : bool :=
  match wanted with
  | Some s => is_empty s || String.eqb s "-1" || String.eqb s (dsuid2str origin)
  | None => true
  end.

Lemma check_origin_reads t v origin : reads_text t ef_dsuid v ->
  check_origin t (Some origin) = Ok (origin_matches v origin).
Proof.
  unfold check_origin. destruct v as [s|]; [intros (n & H1 & H2)|intros H1]; rewrite H1; cbn; [|done].
  rewrite H2. cbn. by destruct (is_empty s || String.eqb s "-1").
Qed.

Lemma all_checks_values l bs : Forall2 (fun c b => c = Ok b) l bs -> all_checks l = Ok (forallb id bs).
Proof. induction 1 as [|c b l bs -> _ IH]; [done|]. cbn. rewrite IH. by destruct b. Qed.

Lemma checkTriggerNode_type ev t ty c : reads_text t ptn_type (Some ty) ->
  List.find (fun c => String.eqb ty (fst c)) (checks_for ev (m_evtName ev)) = Some c ->
  checkTriggerNode ev t = snd c t.
Proof. intros (n & H1 & H2) Hf. unfold checkTriggerNode. rewrite H1. cbn. rewrite H2. cbn. rewrite Hf. by destruct c. Qed.

Lemma scene_text z : -2147483648 <= z < 2147483648 -> strToIntDef (int z) (-1) = z.
Proof.
  intros Hz. rewrite strToIntDef_strToInt. unfold int. rewrite strToInt_print by lia. by rewrite int32_id by lia.
Qed.

(** A trigger node of type [ty] for scene calls in zones. *)
Record scene_trigger (ty : string) (zone group scene : Z) (origin : option string) (forced : option bool) t : Prop := {
  sct_type : reads_text t ptn_type (Some ty);
  sct_zone : reads_int t ef_zone zone;
  sct_group : reads_int t ef_group group;
  sct_scene : reads_int t ef_scene scene;
  sct_origin : reads_text t ef_dsuid origin;
  sct_forced : reads_bool t ef_forced forced
}.

(** What the handler has of an event of a scene in a group. *)
Record scene_event (name : string) (zone group scene : Z) (origin : dsuid_t) (ev : SystemTrigger) : Prop := {
  sce_name : m_evtName ev = name;
  sce_group : m_evtSrcIsGroup ev = true;
  sce_zone : m_evtSrcZone ev = zone;
  sce_number : m_evtSrcGroup ev = group;
  sce_scene : prop ev ef_sceneID = Ok (int scene);
  sce_origin : prop ev ef_originDSUID = Ok (dsuid2str origin);
  sce_has_origin : has_prop ev ef_originDSUID = true
}.

Section Checks.
Context (sceneID : Z) (originDSUID : dsuid_t).
Context (Hsid : -2147483648 <= sceneID < 2147483648) (Ho : str2dsuid (dsuid2str originDSUID) = Ok originDSUID).
Context (zoneID groupID : Z) (name : string) (ev : SystemTrigger).
Context (He : scene_event name zoneID groupID sceneID originDSUID ev).

Lemma scene_event_scene : scene_of_event ev = Ok sceneID.
Proof. unfold scene_of_event. rewrite (sce_scene _ _ _ _ _ _ He). unfold mbind, res_bind. by rewrite scene_text. Qed.

Lemma scene_event_origin : origin_dsuid ev = Ok (Some originDSUID).
Proof.
  unfold origin_dsuid. rewrite (sce_has_origin _ _ _ _ _ _ He), (sce_origin _ _ _ _ _ _ He). cbn. by rewrite Ho.
Qed.

Lemma checkSceneZone_reads ty zone group scene origin wants_forced forced t :
  name = EventName.CallScene -> has_prop ev ef_forced = forced -> (forced = true -> prop ev ef_forced = Ok "true") ->
  scene_trigger ty zone group scene origin wants_forced t ->
  checkSceneZone ev t = Ok (in_scope zone zoneID && in_scope group groupID && (scene =? sceneID) &&
    origin_matches origin originDSUID && match wants_forced with Some b => Bool.eqb forced b | None => true end).
Proof.
  intros Hn Hf1 Hf2 [_ Hz Hg Hsc Hor Hf]. unfold checkSceneZone.
  rewrite (sce_name _ _ _ _ _ _ He), Hn, (sce_group _ _ _ _ _ _ He). cbn [negb orb String.eqb Ascii.eqb Bool.eqb].
  change (String.eqb EventName.CallScene EventName.CallScene) with true. cbn [negb orb].
  rewrite scene_event_scene, scene_event_origin. unfold mbind, res_bind. rewrite Hf1.
  assert ((if forced then match prop ev ef_forced with Ok a => Ok (String.eqb a "true") | Throw e => Throw e end
    else Ok false) = Ok forced) as -> by (destruct forced; [by rewrite (Hf2 eq_refl)|done]).
  etransitivity; [apply all_checks_values|].
  - repeat apply Forall2_cons_2; [by apply check_int_reads..|by apply check_origin_reads|by apply check_bool_reads|].
    apply Forall2_nil_2.
  - cbn [forallb id]. rewrite (sce_zone _ _ _ _ _ _ He), (sce_number _ _ _ _ _ _ He). by rewrite !andb_assoc, andb_true_r.
Qed.

Lemma checkUndoSceneZone_reads ty zone group scene origin wants_forced t :
  name = EventName.UndoScene -> scene_trigger ty zone group scene origin wants_forced t ->
  checkUndoSceneZone ev t = Ok (in_scope zone zoneID && in_scope group groupID && in_scope scene sceneID &&
    origin_matches origin originDSUID).
Proof.
  intros Hn [_ Hz Hg Hsc Hor Hf]. unfold checkUndoSceneZone.
  rewrite (sce_name _ _ _ _ _ _ He), Hn, (sce_group _ _ _ _ _ _ He).
  change (String.eqb EventName.UndoScene EventName.UndoScene) with true. cbn [negb].
  rewrite scene_event_scene, scene_event_origin. unfold mbind, res_bind.
  pose proof Hz as (zn & Ezn & _). rewrite Ezn.
  etransitivity; [apply all_checks_values|].
  - repeat apply Forall2_cons_2; [by apply check_int_reads..|by apply check_origin_reads|]. apply Forall2_nil_2.
  - cbn [forallb id]. rewrite (sce_zone _ _ _ _ _ _ He), (sce_number _ _ _ _ _ _ He). by rewrite !andb_assoc, andb_true_r.
Qed.
End Checks.

(** C22: from a scene call to the triggers.  The event that a call or an undo of
    a scene in a group raises is matched by a trigger node for it exactly if
    the zone and the group are the wanted ones (or any is wanted), the scene is
    the wanted one, the origin is the wanted one or none is wanted, and, for
    calls, the [forced] flag is as wanted.  Any scene can be wanted of an undo,
    but not of a call.  A node of the other type does not match. *)
Theorem scene_trigger_fires (now : DateTime) (g : nat) (sceneID callOrigin : Z) (originDSUID : dsuid_t)
    (originToken : string) (call forced : bool) ty zone group scene origin wants_forced t :
  -2147483648 <= sceneID < 2147483648 -> str2dsuid (dsuid2str originDSUID) = Ok originDSUID ->
  scene_trigger ty zone group scene origin wants_forced t ->
  ty = "zone-scene" \/ ty = "undo-zone-scene" ->
  let '(zoneID, groupID) := group_at g in
  let e := if call then createGroupCallSceneEvent now g sceneID groupID zoneID callOrigin originDSUID originToken forced
           else createGroupUndoSceneEvent now g sceneID groupID zoneID callOrigin originDSUID originToken in
  exists tr, new_SystemTrigger group_at device_at broadcast e = Ok tr /\
    checkTriggerNode tr t = Ok (
      String.eqb ty (if call then "zone-scene" else "undo-zone-scene") &&
      (in_scope zone zoneID && in_scope group groupID &&
      (if call then scene =? sceneID else in_scope scene sceneID) &&
      origin_matches origin originDSUID &&
      (negb call || match wants_forced with Some b => Bool.eqb forced b | None => true end))).
Proof.
  intros Hs Ho Ht Hcase. destruct (group_at g) as [zoneID groupID] eqn:Eg. cbv zeta.
  pose proof (sct_type _ _ _ _ _ _ _ Ht) as Hty. pose proof Hty as (tn & Etn & Ettn).
  destruct call.
  - eexists. split; [unfold new_SystemTrigger; by destruct forced|]. rewrite Eg. cbn [fst snd].
    set (tr := mkTrigger _ _ _ _ _ _ _).
    assert (scene_event EventName.CallScene zoneID groupID sceneID originDSUID tr) as He by (split; by destruct forced).
    destruct Hcase as [-> | ->].
    + erewrite checkTriggerNode_type by by destruct forced. cbn [snd].
      by rewrite (checkSceneZone_reads sceneID originDSUID Hs Ho zoneID groupID _ tr He _ zone group scene origin wants_forced
        forced t eq_refl ltac:(by destruct forced) ltac:(by destruct forced) Ht).
    + unfold checkTriggerNode. rewrite Etn. cbn [mbind res_bind]. rewrite Ettn. by destruct forced.
  - eexists. split; [unfold new_SystemTrigger; done|]. rewrite Eg. cbn [fst snd].
    set (tr := mkTrigger _ _ _ _ _ _ _).
    assert (scene_event EventName.UndoScene zoneID groupID sceneID originDSUID tr) as He by by split.
    destruct Hcase as [-> | ->].
    + unfold checkTriggerNode. rewrite Etn. cbn [mbind res_bind]. by rewrite Ettn.
    + erewrite checkTriggerNode_type by done. cbn [snd].
      rewrite (checkUndoSceneZone_reads sceneID originDSUID Hs Ho zoneID groupID _ tr He _ zone group scene origin wants_forced
        t eq_refl Ht). cbn [negb orb]. by rewrite andb_true_r.
Qed.

Definition given {A} (o : option A) : bool := match o with Some _ => true | None => false end.

(** A trigger node of type [ty] for states. *)
Record state_trigger (ty name : string) (state value oldvalue addon_id : option string) t : Prop := {
  stt_type : reads_text t ptn_type (Some ty);
  stt_name : reads_text t "name" (Some name);
  stt_state : reads_text t "state" state;
  stt_value : reads_text t "value" value;
  stt_oldvalue : reads_text t "oldvalue" oldvalue;
  stt_addon : reads_text t "addon-id" addon_id
}.

(** What the handler has of an event of a state. *)
Record state_event (addon : bool) (service name state value oldvalue : string) (ev : SystemTrigger) : Prop := {
  ste_name : m_evtName ev = if addon then EventName.AddonStateChange else EventName.StateChange;
  ste_service : addon = true -> prop ev "scriptID" = Ok service;
  ste_statename : prop ev "statename" = Ok name;
  ste_state : prop ev "state" = Ok state;
  ste_value : prop ev "value" = Ok value;
  ste_oldvalue : prop ev "oldvalue" = Ok oldvalue
}.

Lemma state_event_created (now : DateTime) s st old callOrigin :
  let e := createStateChangeEvent now s st old callOrigin in
  exists tr, new_SystemTrigger group_at device_at broadcast e = Ok tr /\
    state_event (bool_decide (st_type st = eStateType.StateType_Script)) (st_serviceName st) (st_name st) (toString st)
      (int (st_state st)) (int old) tr.
Proof.
  intros e. exists (mkTrigger (ev_Properties e) (ev_Name e) false false 0 0 None). unfold e, createStateChangeEvent.
  destruct (bool_decide (st_type st = eStateType.StateType_Script)).
  - split; [reflexivity|]. by split.
  - split; [reflexivity|]. by split.
Qed.

Lemma checkState_reads addon service sname stext svalue sold ty name state value oldvalue addon_id ev t :
  state_event addon service sname stext svalue sold ev -> state_trigger ty name state value oldvalue addon_id t ->
  checkState ev t = Ok (
    (if addon then match addon_id with Some a => String.eqb a service | None => false end else true) &&
    (given state || given value) && String.eqb name sname &&
    (String.eqb (default "" state) stext || String.eqb (default "" value) svalue) &&
    (is_empty (default "" oldvalue) || String.eqb (default "" oldvalue) sold)).
Proof.
  intros [En Eserv Esn Est Esv Eso] [Hty Hn Hst Hv Ho Ha].
  assert (forall c v, reads_text t c v -> exists n, read_child t c = Ok n /\ text_or_empty n = Ok (default "" v) /\
    given n = given v) as Hopt.
  { intros c [x|]; cbn; [intros (n & H1 & H2); exists (Some n)|intros H1; exists None]; split_and!; try done; exact H2. }
  destruct (Hopt _ _ Hst) as (sn & Es & Es' & Eis), (Hopt _ _ Hv) as (vn & Ev & Ev' & Eiv), (Hopt _ _ Ho) as (on & Eo & Eo' & _).
  destruct Hn as (nn & Enn & Enn').
  unfold checkState. rewrite En, Esn, Est, Esv, Eso. unfold mbind, res_bind. rewrite Enn, Es, Ev, Eo.
  assert (forall b, (let r := match sn, vn with
    | None, None => Ok false
    | _, _ =>
      match read_as_string nn with
      | Ok sName => if negb (String.eqb sName sname) then Ok false
        else match text_or_empty sn with
          | Ok sState => match text_or_empty vn with
            | Ok sValue => match text_or_empty on with
              | Ok sOld => Ok ((String.eqb sState stext || String.eqb sValue svalue) && (is_empty sOld || String.eqb sOld sold))
              | Throw e => Throw e end
            | Throw e => Throw e end
          | Throw e => Throw e end
      | Throw e => Throw e end
    end in if negb b then Ok false else r) = Ok (b && (given state || given value) && String.eqb name sname &&
    (String.eqb (default "" state) stext || String.eqb (default "" value) svalue) &&
    (is_empty (default "" oldvalue) || String.eqb (default "" oldvalue) sold))) as Hrest.
  { intros b. rewrite Enn', Es', Ev', Eo', <- Eis, <- Eiv. destruct b; [|done]. cbn [negb andb].
    destruct sn, vn; cbn [given orb andb]; try done; by destruct (String.eqb name sname). }
  destruct addon.
  - change (String.eqb EventName.AddonStateChange EventName.AddonStateChange) with true. cbn [orb negb].
    rewrite Eserv by done. destruct addon_id as [a|].
    + destruct Ha as (an & E1 & E2). rewrite E1, E2. apply Hrest.
    + rewrite Ha. apply (Hrest false).
  - apply (Hrest true).
Qed.

(** C39: from a change of a state to the triggers.  The event that the change
    raises is matched by a trigger node exactly if the node's type fits the
    kind of state, the names (and for a state of an addon, the addons) agree,
    the new state is the wanted one, by its name or by its number, and the old
    value is the wanted one if one is wanted; a node that asks for no new state
    never matches. *)
Theorem state_trigger_fires (now : DateTime) (s : sid) (st : State) (old callOrigin : Z)
    ty name state value oldvalue addon_id t :
  state_trigger ty name state value oldvalue addon_id t -> ty = "state-change" \/ ty = "addon-state-change" ->
  let addon := bool_decide (st_type st = eStateType.StateType_Script) in
  exists tr, new_SystemTrigger group_at device_at broadcast (createStateChangeEvent now s st old callOrigin) = Ok tr /\
    checkTriggerNode tr t = Ok (
      String.eqb ty (if addon then "addon-state-change" else "state-change") &&
      (if addon then match addon_id with Some a => String.eqb a (st_serviceName st) | None => false end else true) &&
      (given state || given value) && String.eqb name (st_name st) &&
      (String.eqb (default "" state) (toString st) || String.eqb (default "" value) (int (st_state st))) &&
      (is_empty (default "" oldvalue) || String.eqb (default "" oldvalue) (int old))).
Proof.
  intros Ht Hcase addon. destruct (state_event_created now s st old callOrigin) as (tr & Etr & He). fold addon in He.
  exists tr. split; [done|]. pose proof (checkState_reads _ _ _ _ _ _ _ _ _ _ _ _ _ _ He Ht) as Hcheck.
  pose proof (stt_type _ _ _ _ _ _ _ Ht) as Hty. pose proof (ste_name _ _ _ _ _ _ _ He) as En.
  destruct (String.eqb_spec ty (if addon then "addon-state-change" else "state-change")) as [E|E]; cbn [andb].
  - rewrite (checkTriggerNode_type tr t ty (ty, checkState tr) Hty); [exact Hcheck|]. rewrite En, E. by destruct addon.
  - destruct Hty as (tn & E1 & E2). unfold checkTriggerNode. rewrite E1. cbn [mbind res_bind]. rewrite E2, En.
    cbn [mbind res_bind]. destruct addon, Hcase as [-> | ->]; done.
Qed.
End Matching.



(** On concrete trees. *)
Definition plain_dsuid : Dsuid := {|
  DSUID_SIZE := 2; DSUID_NULL := [0; 0]; dsuid_from_string := fun s => Some (str2dsid_loop 2 s);
  dsuid_from_dsid := fun d => d; dsuid_get_serial_number := fun _ => None;
  lib_dsuid_get_next_dsuid := fun _ => None; lib_dsuid_to_dsid := fun _ => None
|}.

Definition write_all (l : list (string * (string + Z))) (h : heap unit) : heap unit :=
  fold_left (fun h '(name, v) =>
    match createProperty ignore O name h with
    | (Ok n, h) => PropertyTreeFacts.run (match v with inl s => setStringValue ignore n s | inr z => setIntegerValue ignore n z end) h
    | (_, h) => h
    end) l h.

(** Any zone, group 1, scene 5, any origin. *)
Definition scene_node : heap unit :=
  write_all [("type", inl "zone-scene"); ("zone", inr (-1)); ("group", inr 1); ("scene", inr 5); ("dsuid", inl "-1")] (empty_heap tt).

Lemma scene_trigger_fires_witness :
  exists tr, new_SystemTrigger (fun _ => (7, 1)) (fun _ => (0, [])) (0, 0)
      (createGroupCallSceneEvent NullDate O 5 1 7 0 [18; 255] "" true) = Ok tr /\
    checkTriggerNode (DU := plain_dsuid) (SD := two_digits) (PropertyReader0 := heap_reader (fun _ => "") scene_node) tr O = Ok true.
Proof.
  apply (scene_trigger_fires (DU := plain_dsuid) (SD := two_digits) (PropertyReader0 := heap_reader (fun _ => "") scene_node)
    (fun _ => (7, 1)) (fun _ => (0, [])) (0, 0) NullDate O 5 0 [18; 255] "" true true "zone-scene" (-1) 1 5 (Some "-1") None O).
  - lia.
  - by vm_compute.
  - split; [exists 1%nat|exists 2%nat|exists 3%nat|exists 4%nat|exists 5%nat|]; by vm_compute.
  - by left.
Defined.

(** The state named [rain] becomes active. *)
Definition state_node : heap unit :=
  write_all [("type", inl "state-change"); ("name", inl "rain"); ("state", inl "active")] (empty_heap tt).
Definition rain : State :=
  mkState None "rain" volatile_ 0 [7; 8] State_Active eStateType.StateType_Service None 0 "" None "" None [].

Lemma state_trigger_fires_witness :
  exists tr, new_SystemTrigger (fun _ => (7, 1)) (fun _ => (0, [])) (0, 0)
      (createStateChangeEvent NullDate O rain State_Inactive 0) = Ok tr /\
    checkTriggerNode (DU := plain_dsuid) (SD := two_digits) (PropertyReader0 := heap_reader (fun _ => "") state_node) tr O = Ok true.
Proof.
  apply (state_trigger_fires (DU := plain_dsuid) (SD := two_digits) (PropertyReader0 := heap_reader (fun _ => "") state_node)
    (fun _ => (7, 1)) (fun _ => (0, [])) (0, 0) NullDate O rain State_Inactive 0 "state-change" "rain" (Some "active") None None None O).
  - split; [exists 1%nat|exists 2%nat|exists 3%nat|..]; by vm_compute.
  - by left.
Defined.

(** * Damping *)

(** What damping promises, on times in seconds: an occurrence at [now] passes
    if [interval] has gone by since [last]; [last] is the last occurrence that
    passed, or, with [rewind], the last occurrence.  The result is whether the
    occurrence is damped. *)
Definition damp_step (interval : Z) (rewind : bool) (last now : Z) : bool * Z :=
  if interval <? 0 then (false, last)
  else
    let damped := now - last <? interval in
    (damped, if rewind || negb damped then now else last).

Fixpoint damp_spec (interval : Z) (rewind : bool) (last : Z) (ts : list Z) : list bool :=
  match ts with
  | [] => []
  | t :: ts => let '(b, last') := damp_step interval rewind last t in b :: damp_spec interval rewind last' ts
  end.

(** The times of the occurrences that pass. *)
Fixpoint passed (ts : list Z) (damped : list bool) : list Z :=
  match ts, damped with
  | t :: ts, b :: bs => if b : bool then passed ts bs else t :: passed ts bs
  | _, _ => []
  end.

Lemma damp_spec_bound interval rewind ts last : 0 <= interval -> StronglySorted Z.le (last :: ts) ->
  forall t, t ∈ passed ts (damp_spec interval rewind last ts) -> last + interval <= t.
Proof.
  intros Hi. revert last. induction ts as [|t0 ts IH]; intros last Hs t Ht; [by apply not_elem_of_nil in Ht|].
  apply StronglySorted_inv in Hs as [Hs H1]. rewrite Forall_cons in H1. destruct H1 as [H1 H2].
  cbn [damp_spec] in Ht. unfold damp_step in Ht.
  assert (StronglySorted Z.le (last :: ts)) as Hl by (constructor; [by apply StronglySorted_inv in Hs as []|done]).
  rewrite (proj2 (Z.ltb_ge interval 0)) in Ht by done. cbv zeta in Ht.
  destruct (Z.ltb_spec (t0 - last) interval) as [D|D]; cbn [negb orb passed] in Ht.
  - destruct rewind; cbn [orb] in Ht; [apply IH in Ht; [lia|done]|by apply IH in Ht].
  - rewrite orb_true_r in Ht. apply elem_of_cons in Ht as [->|Ht]; [lia|]. apply IH in Ht; [lia|done].
Qed.

(** Occurrences that pass are [interval] apart. *)
Lemma damp_spec_spaced interval rewind ts last : 0 <= interval -> StronglySorted Z.le (last :: ts) ->
  StronglySorted (fun a b => a + interval <= b) (last :: passed ts (damp_spec interval rewind last ts)).
Proof.
  intros Hi Hs. constructor; [|apply Forall_forall; by apply damp_spec_bound].
  revert last Hs. induction ts as [|t0 ts IH]; intros last Hs; [constructor|].
  apply StronglySorted_inv in Hs as [Hs H1]. rewrite Forall_cons in H1. destruct H1 as [H1 H2].
  assert (StronglySorted Z.le (last :: ts)) as Hl by (constructor; [by apply StronglySorted_inv in Hs as []|done]).
  cbn [damp_spec]. unfold damp_step at 1. rewrite (proj2 (Z.ltb_ge interval 0)) by done. cbv zeta.
  destruct (Z.ltb_spec (t0 - last) interval) as [D|D]; cbn [negb orb].
  - destruct rewind; cbn [orb]; by apply IH.
  - rewrite orb_true_r. constructor; [by apply IH|]. apply Forall_forall. by apply damp_spec_bound.
Qed.

(** A time that the text form keeps. *)
Definition readable {LC : Libc} (s : Z) : Prop :=
  0 <= s < 2147483648 /\ four_digits (gmtime_r s) /\ local_time_exists (gmtime_r s) 0.

Definition utc_text (s : Z) : string := date_T_time (gmtime_r s) +:+ "Z".

Lemma readable_text {LC : Libc} {SD : Strtod} d : readable (tv_sec d) ->
  toISO8601 d = Ok (utc_text (tv_sec d)) /\ parseISO8601 (utc_text (tv_sec d)) = Ok (mkDateTime (tv_sec d) 0) /\
  c_str (utc_text (tv_sec d)) = utc_text (tv_sec d).
Proof.
  intros (Hr & Hy & He). split_and!; [by apply toISO8601_print| |].
  - unfold utc_text. rewrite parse_utc by (done || by apply printable_gmtime). unfold gmtime_r.
    rewrite timegm_breakdown. do 2 f_equal. lia.
  - apply c_str_id. unfold utc_text. rewrite sexists_app. by destruct (date_T_time_plain _ (printable_gmtime _ Hy)) as [_ ->].
Qed.

Section Damping.
Context {ical W : Type} {Sched : Schedule ical} {EW : EventWorld ical W} {LC : Libc} {SD : Strtod}.
Context (callback : notification -> lid -> nid -> nid -> heap W -> heap W) (doubleToString : float -> string).
Implicit Types h : heap W.

(** Nobody who listens to the tree changes it, or the clock. *)
Definition keeps_clock : Prop := forall k l a b h, clock (eqh (callback k l a b h)) = clock (eqh h).

(** The nodes of a damped trigger at [n]: [damping], [interval], [lastTrigger]
    and [rewindTimer], which may be missing. *)
Record damped_trigger (n : nid) (interval : Z) (rewind : bool) (l : nid) (h : heap W) : Prop := {
  dt_wf : wf h;
  dt_nodes : exists d i r,
    getProperty n ptn_damping h = (Ok (Some d), h) /\
    getProperty d ptn_damp_interval h = (Ok (Some i), h) /\
    getProperty d ptn_damp_start_ts h = (Ok (Some l), h) /\
    getProperty d ptn_damp_rewind h = (Ok r, h) /\
    holds int_ops h i interval /\
    match r with Some r => holds bool_ops h r rewind | None => rewind = false end
}.

(** Damped for the last time at [last] (seconds). *)
Definition damped_since n interval rewind l (last : Z) h : Prop :=
  damped_trigger n interval rewind l h /\ holds string_ops h l (utc_text last).

Lemma write_now h n interval rewind l last t :
  passive callback -> keeps_clock -> damped_since n interval rewind l last h -> c_str (utc_text t) = utc_text t ->
  exists h', setStringValue callback l (utc_text t) h = (Ok tt, h') /\ clock (eqh h') = clock (eqh h) /\
    damped_since n interval rewind l t h' /\ same_shape h h'.
Proof.
  intros Hp Hc [[Hwf (d & i & r & E1 & E2 & E3 & E4 & Hi & Hr)] Hl] Ht.
  destruct (holds_write callback (fun w => clock (get_eq w)) h l (utc_text last) (utc_text t) Hwf Hp Hc Hl)
    as (h' & Hrun & Hs & Hwf' & Hl' & Hn & Ec).
  exists h'. unfold setStringValue, setStringValue_cstr. rewrite Ht. split; [done|]. split; [done|]. split; [|done].
  split; [|done]. split; [done|]. exists d, i, r.
  split_and!; try (by eapply by_shape_run; [apply by_shape_getProperty| |]).
  - eapply holds_nodes; [|done]. apply Hn. by eapply (holds_type int_ops string_ops).
  - destruct r as [r|]; [|done]. eapply holds_nodes; [|done]. apply Hn. by eapply (holds_type bool_ops string_ops).
Qed.

Lemma damping_run h n interval rewind l last :
  passive callback -> keeps_clock -> damped_since n interval rewind l last h ->
  readable last -> readable (tv_sec (clock (eqh h))) ->
  let '(b, last') := damp_step interval rewind last (tv_sec (clock (eqh h))) in
  exists h', damping callback doubleToString n h = (Ok b, h') /\ clock (eqh h') = clock (eqh h) /\
    damped_since n interval rewind l last' h'.
Proof.
  intros Hp Hc Hd Hl Hnow. destruct (readable_text (mkDateTime last 0) Hl) as (_ & Eparse & Elast).
  destruct (readable_text _ Hnow) as (Etext & _ & Enow). cbn [tv_sec] in *.
  pose proof Hd as [[Hwf (d & i & r & E1 & E2 & E3 & E4 & Hi & Hr)] Ht].
  unfold damping. rewrite (se_bind_ok _ _ _ _ _ E1), (se_bind_ok _ _ _ _ _ E2), (se_bind_ok _ _ _ _ _ E3).
  rewrite (se_bind_ok _ _ _ _ _ (holds_read int_ops h i interval Hwf Hi)). unfold damp_step.
  destruct (interval <? 0) eqn:Hneg; [by exists h|]. cbv zeta.
  rewrite (se_bind_ok _ _ _ _ _ (holds_string_text doubleToString h l _ Hwf Ht)).
  rewrite Eparse, (se_bind_ok (se_lift (Ok _)) _ _ _ _ eq_refl), (se_bind_ok _ _ _ _ _ E4).
  rewrite (se_bind_ok _ _ _ rewind h) by (destruct r as [r|]; [by apply (holds_read bool_ops)|by subst]).
  set (now := clock (eqh h)) in *.
  assert (difference now (mkDateTime last 0) = Ok (tv_sec now - last)) as Ediff.
  { unfold difference. cbn [tv_sec]. apply int_checked_ok. destruct Hl, Hnow. lia. }
  assert (forall h1, clock (eqh h1) = now -> now_text h1 = (Ok (utc_text (tv_sec now)), h1)) as Hnt.
  { intros h1 E. unfold now_text. rewrite (se_bind_ok _ _ _ _ _ (gets_run _ _)), E. by rewrite Etext. }
  assert (exists h1 w, (if rewind then t ← now_text; setStringValue callback l t else mret tt) h = (Ok tt, h1) /\
    clock (eqh h1) = now /\ damped_since n interval rewind l w h1 /\ (w = if rewind then tv_sec now else last))
    as (h1 & w & Ew & Ec1 & Hd1 & Hw).
  { destruct rewind; [|by exists h, last]. destruct (write_now h n interval true l last (tv_sec now) Hp Hc Hd Enow)
      as (h1 & Ew & Ec & Hd1 & _). exists h1, (tv_sec now).
    by rewrite (se_bind_ok _ _ _ _ _ (Hnt h eq_refl)). }
  rewrite (se_bind_ok _ _ _ _ _ Ew), (se_bind_ok _ _ _ _ _ (gets_run _ _)), Ec1, Ediff.
  rewrite (se_bind_ok (se_lift (Ok _)) _ _ _ _ eq_refl).
  destruct (tv_sec now - last <? interval); cbn [negb].
  { exists h1. rewrite orb_false_r. by subst w. }
  rewrite (se_bind_ok _ _ _ _ _ (Hnt h1 Ec1)). rewrite orb_true_r.
  destruct (write_now h1 n interval rewind l w (tv_sec now) Hp Hc Hd1 Enow) as (h2 & E & Ec2 & Hd2 & _).
  exists h2. rewrite (se_bind_ok _ _ _ _ _ E). split_and!; [done|congruence|done].
Qed.

(** Occurrences at the given times. *)
Fixpoint occurrences (n : nid) (ts : list DateTime) : SE (heap W) (list bool) :=
  match ts with
  | [] => mret []
  | t :: ts => _ ← modify (set_clock t); b ← damping callback doubleToString n; bs ← occurrences n ts; mret (b :: bs)
  end.

Lemma set_clock_since n interval rewind l last t h :
  damped_since n interval rewind l last h -> damped_since n interval rewind l last (with_eq (set_clock t (eqh h)) h).
Proof.
  intros [[Hwf (d & i & r & E1 & E2 & E3 & E4 & Hi & Hr)] Hl]. set (h' := with_eq _ h).
  assert (same_shape h h') as Hs by by apply same_shape_refl.
  split; [|by eapply (holds_nodes _ h)]. split; [by eapply same_shape_wf|]. exists d, i, r.
  split_and!; try (by eapply by_shape_run; [apply by_shape_getProperty| |]).
  - by eapply (holds_nodes _ h).
  - destruct r as [r|]; [|done]. by eapply (holds_nodes _ h).
Qed.

Lemma occurrences_run n interval rewind l last ts h :
  passive callback -> keeps_clock -> damped_since n interval rewind l last h ->
  readable last -> Forall (fun t => readable (tv_sec t)) ts ->
  exists h', occurrences n ts h = (Ok (damp_spec interval rewind last (map tv_sec ts)), h').
Proof.
  intros Hp Hc. revert last h. induction ts as [|t ts IH]; intros last h Hd Hl Hts; [by exists h|].
  apply Forall_cons in Hts as [Ht Hts]. cbn [occurrences map damp_spec].
  rewrite (se_bind_ok _ _ _ _ _ (modify_run _ _)). set (h1 := with_eq _ h).
  assert (clock (eqh h1) = t) as Ec by (unfold h1; by rewrite eqh_with).
  pose proof (damping_run h1 n interval rewind l last Hp Hc (set_clock_since _ _ _ _ _ _ _ Hd) Hl) as Hrun.
  rewrite Ec in Hrun. specialize (Hrun Ht).
  destruct (damp_step interval rewind last (tv_sec t)) as [b last'] eqn:Estep.
  destruct Hrun as (h2 & Er & _ & Hd2). rewrite (se_bind_ok _ _ _ _ _ Er).
  destruct (IH last' h2 Hd2) as (h3 & E3); [|done|].
  { unfold damp_step in Estep. repeat case_match; simplify_eq; done. }
  exists h3. by rewrite (se_bind_ok _ _ _ _ _ E3).
Qed.

(** C20: damping limits the rate of a trigger.  At any times the tree can hold as
    text (from 1970 to 2038, of a four-digit year, that exist as local times,
    so not in the hour a change to summer time skips), and with listeners that
    neither write to the tree nor move the clock, the tree-backed code decides
    as the specification does: an occurrence passes if the interval has gone by since the last one that
    passed or, with [rewindTimer], since the last one at all.  If the clock does
    not go back, occurrences that pass are at least the interval apart, from
    each other and from the time stored at the start. *)
Theorem damping_rate_limit (n : nid) (interval : Z) (rewind : bool) (l : nid) (last : Z) (ts : list DateTime) h :
  passive callback -> keeps_clock -> damped_since n interval rewind l last h ->
  readable last -> Forall (fun t => readable (tv_sec t)) ts ->
  let damped := damp_spec interval rewind last (map tv_sec ts) in
  (exists h', occurrences n ts h = (Ok damped, h')) /\
  (0 <= interval -> StronglySorted Z.le (last :: map tv_sec ts) ->
   StronglySorted (fun a b => a + interval <= b) (last :: passed (map tv_sec ts) damped)).
Proof.
  intros Hp Hc Hd Hl Hts. split; [by eapply occurrences_run|]. intros Hi Hs. by apply damp_spec_spaced.
Qed.
End Damping.

(** A trigger with an interval of a minute. *)
Definition trigger_tree : heap (EQ unit) :=
  let cb := fun _ _ _ _ h => h in
  let h0 := empty_heap (mkEQ ∅ [] 0 true [] true None false NullDate) in
  let h1 := PropertyTreeFacts.run (createProperty cb O "damping/interval") h0 in
  let h2 := PropertyTreeFacts.run (createProperty cb O "damping/lastTrigger") h1 in
  let h3 := PropertyTreeFacts.run (setIntegerValue cb 2%nat 60) h2 in
  PropertyTreeFacts.run (setStringValue cb 3%nat (utc_text 1396146600)) h3.

Lemma readable_fixed s off colon :
  bool_decide (0 <= s < 2147483648 /\ 1000 <= tm_year (gmtime_r s) + 1900 <= 9999 /\
    timegm (set_isdst (-1) (scanned (gmtime_r s) 0)) - off <> -1) = true -> @readable (fixed_zone off colon) s.
Proof. intros (H1 & H2 & H3)%bool_decide_eq_true. split; [done|]. split; [done|]. by apply fixed_zone_exists. Qed.

(** Occurrences after 30, 70, 90 and 130 seconds: the second and the last pass. *)
Lemma damping_rate_limit_witness :
  let zone := fixed_zone 3600 true in
  let sd := two_digits in
  exists h', @occurrences unit (EQ unit) (EventWorld_self unit) zone sd (fun _ _ _ _ h => h) (fun _ => "") O
    (map (fun s => mkDateTime (1396146600 + s) 0) [30; 70; 90; 130]) trigger_tree = (Ok [true; false; true; false], h').
Proof.
  cbv zeta.
  destruct (@damping_rate_limit unit (EQ unit) (EventWorld_self unit) (fixed_zone 3600 true) two_digits
    (fun _ _ _ _ h => h) (fun _ => "") O 60 false 3%nat 1396146600
    (map (fun s => mkDateTime (1396146600 + s) 0) [30; 70; 90; 130]) trigger_tree) as [[h' H] _].
  - by intros k l a b h.
  - by intros k l a b h.
  - split; [split|].
    + apply wf_check_sound. by vm_compute.
    + exists 1%nat, 2%nat, None. split_and!; [by vm_compute..| |done].
      eexists. split; [by vm_compute|]. by repeat split.
    + eexists. split; [by vm_compute|]. by repeat split.
  - apply readable_fixed. by vm_compute.
  - cbn [map]. repeat (apply Forall_cons_2; [apply readable_fixed; by vm_compute|]). apply Forall_nil_2.
  - exists h'. exact H.
Defined.
