(* ===== verification/SceneAccess.v ===== *)
(** The registry of states of [src/src/model/apartment.cpp], and
    [src/src/sceneaccess.h] and [sceneaccess.cpp]: which scene calls are blocked
    by alarms.

    The targets of a call are the groups and devices of the model as far as the
    code looks at them: identifier, application type, validity, membership. *)
From stdpp Require Import base option list strings gmap.
From Stdlib Require Import ZArith Lia Ascii.
From Stdlib Require String.
From S2P Require Import Prelude CxxString Base NumConv ModelConst DataTypes PropertyTree State.

Open Scope string_scope.
Open Scope list_scope.
Open Scope Z_scope.

(** * States of the apartment *)

(** [Apartment::m_States], in the order in which they were allocated. *)
Definition m_States := list (sid * State).

Definition tryGetState (l : m_States) (_type : eStateType.t) (_name : string) : option sid :=
  fst <$> List.find (fun s => bool_decide (st_type (snd s) = _type) && String.eqb (st_name (snd s)) _name) l.

Definition getState (l : m_States) (_type : eStateType.t) (_name : string) : res sid :=
  match tryGetState l _type _name with Some s => Ok s | None => Throw (ItemNotFound _name) end.

Definition getNonScriptState (l : m_States) (_stateName : string) : res State :=
  match List.find (fun s => negb (bool_decide (st_type (snd s) = eStateType.StateType_Script)) &&
                            String.eqb (st_name (snd s)) _stateName) l with
  | Some s => Ok (snd s)
  | None => Throw (ItemNotFound _stateName)
  end.

Definition getState_service (l : m_States) (_type : eStateType.t) (_identifier _stateName : string) : res sid :=
  match List.find (fun s => bool_decide (st_type (snd s) = _type) && String.eqb (st_serviceName (snd s)) _identifier &&
                            String.eqb (st_name (snd s)) _stateName) l with
  | Some s => Ok (fst s)
  | None => Throw (ItemNotFound _stateName)
  end.

Definition getState_identifier (l : m_States) (identifier name : string) : res sid :=
  match List.find (fun s => String.eqb (st_serviceName (snd s)) identifier && String.eqb (st_name (snd s)) name) l with
  | Some s => Ok (fst s)
  | None => Throw (RuntimeError ("State not found" +:+ name))
  end.

(** [allocateState(_state)]: names are unique, whatever the types. *)
Definition allocateState (l : m_States) (s : sid) (_state : State) : res m_States :=
  if existsb (fun x => String.eqb (st_name (snd x)) (st_name _state)) l
  then Throw (DSSException ("Duplicate state " +:+ st_name _state))
  else Ok (l ++ [(s, _state)]).

(** [erase(remove(begin, end, _state))] erases the one element at the iterator
    that [std::remove] returns, which is past the end if the state is not there. *)
Definition removeState (l : m_States) (s : sid) : res m_States :=
  if existsb (fun x : sid * State => Nat.eqb (fst x) s) l
  then
    let kept := List.filter (fun x : sid * State => negb (Nat.eqb (fst x) s)) l in
    Ok (kept ++ drop (S (length kept)) l)
  else Throw (UndefinedBehaviour "vector::erase(end())").

(** * Groups and devices *)

(** [Group] and [Cluster], the members used here. *)
Record Group := mkGroup { g_ID : Z; g_ApplicationType : ApplicationType.t; g_IsValid : bool }.

Definition Group_isValid (g : Group) : bool :=
  if isDefaultGroup (g_ID g) || isAppUserGroup (g_ID g)
  then g_IsValid g && negb (bool_decide (g_ApplicationType g = ApplicationType.None))
  else g_IsValid g.

(** A device is given by [m_groupIds]. *)
Definition Device := list Z.

Definition isInGroup (d : Device) (_groupID : Z) : bool :=
  if _groupID =? 0 then true
  else if negb (isValidGroup _groupID) then false
  else bool_decide (_groupID ∈ d).

(** [Set::getByGroup(int)] *)
Definition getByGroup (devices : list Device) (_groupNr : Z) : list Device :=
  if negb (_groupNr =? GroupIDBroadcast) then List.filter (fun d => isInGroup d _groupNr) devices else devices.

(** What the dynamic casts of the target find: a group, with its devices, a
    device, or neither. *)
Inductive Target :=
| TGroup (g : Group) (getDevices : list Device)
| TDevice (d : Device)
| TOther.

(** * [class SceneAccess] *)

Inductive SceneAccessCategory := SAC_MANUAL | SAC_TIMER | SAC_ALGORITHM | SAC_UNKNOWN.
#[global] Instance SceneAccessCategory_eq_dec : EqDecision SceneAccessCategory.
Proof. solve_decision. Defined.

Definition stringToCategory (_categoryString : string) : SceneAccessCategory :=
  if String.eqb _categoryString "manual" then SAC_MANUAL
  else if String.eqb _categoryString "timer" then SAC_TIMER
  else if String.eqb _categoryString "algorithm" then SAC_ALGORITHM
  else SAC_UNKNOWN.

Definition categoryToString (_category : SceneAccessCategory) : string :=
  match _category with
  | SAC_MANUAL => "manual"
  | SAC_TIMER => "timer"
  | SAC_ALGORITHM => "algorithm"
  | SAC_UNKNOWN => "unknown"
  end.

Definition is_item_not_found (e : exn) : bool := match e with ItemNotFound _ => true | _ => false end.

Section Apartment.
(** [DSS::hasInstance()], the apartment's states, the clusters of zone 0, and
    the device class of shades of dsm-api. *)
Context (hasInstance : bool) (states : m_States) (clusters : Z -> option Group) (DEVICE_CLASS_GR : Z).

Definition getCluster (_id : Z) : res Group :=
  if isAppUserGroup _id then
    match clusters _id with Some c => Ok c | None => Throw (ItemNotFound (intToString _id false)) end
  else Throw (ItemNotFound (intToString _id false)).

Definition is_active (s : State) : bool := st_state s =? State_Active.

Definition protectionMessage (fireActive windActive : bool) : string :=
  "Execution blocked: " +:+
  (if fireActive && windActive then "fire and wind alarms are active"
   else if fireActive then "fire is active"
   else if windActive then "wind is active" else "").

(** Fire and wind. *)
Definition check_fire_wind (_pTarget : Target) : res unit :=
  fire ← getNonScriptState states "fire";
  wind ← getNonScriptState states "wind";
  let windActive := is_active wind in
  let fireActive := is_active fire in
  if windActive || fireActive then
    match _pTarget with
    | TGroup g _ =>
      if bool_decide (ApplicationType.Blinds = g_ApplicationType g)
      then Throw (SceneAccessException (protectionMessage fireActive windActive)) else Ok tt
    | TDevice d =>
      if isInGroup d DEVICE_CLASS_GR
      then Throw (SceneAccessException (protectionMessage fireActive windActive)) else Ok tt
    | TOther => Ok tt
    end
  else Ok tt.

Definition wind_blocked : exn := SceneAccessException "Execution blocked: wind is active".

(** The target lies in cluster [i]. *)
Definition target_in_cluster (_pTarget : Target) (i : Z) : bool :=
  match _pTarget with
  | TGroup g devices =>
    (g_ID g =? i) || ((g_ID g =? DEVICE_CLASS_GR) && (0 <? length (getByGroup devices i))%nat)
  | TDevice d => isInGroup d i
  | TOther => false
  end.

(** One round of the loop over the user groups; [catch] clauses only around the
    two lookups. *)
Definition check_cluster (_pTarget : Target) (i : Z) : res unit :=
  match getCluster i with
  | Throw e => if is_item_not_found e then Ok tt else Throw e
  | Ok gr =>
    if Group_isValid gr && bool_decide (g_ApplicationType gr = ApplicationType.Blinds) then
      match getNonScriptState states ("wind.group" +:+ intToString i false) with
      | Throw e => if is_item_not_found e then Ok tt else Throw e
      | Ok wind => if is_active wind && target_in_cluster _pTarget i then Throw wind_blocked else Ok tt
      end
    else Ok tt
  end.

Fixpoint check_clusters (_pTarget : Target) (l : list Z) : res unit :=
  match l with
  | [] => Ok tt
  | i :: l => _ ← check_cluster _pTarget i; check_clusters _pTarget l
  end.

Definition user_groups : list Z := zrange GroupIDAppUserMin (Z.to_nat (GroupIDAppUserMax - GroupIDAppUserMin + 1)).

Definition checkAccess (_pTarget : Target) (_category : SceneAccessCategory) : res bool :=
  if negb hasInstance then Ok true
  else
    match _category with
    | SAC_MANUAL => Ok true
    | _ =>
      _ ← check_fire_wind _pTarget;
      _ ← check_clusters _pTarget user_groups;
      Ok true
    end.

Definition state_of_scene (_sceneNr : Z) : option string :=
  switch _sceneNr
    [([SceneWindActive], Some "wind"); ([SceneRainActive], Some "rain"); ([SceneHailActive], Some "hail");
     ([SceneFire], Some "fire"); ([SceneAlarm], Some "alarm"); ([SceneAlarm2], Some "alarm2");
     ([SceneAlarm3], Some "alarm3"); ([SceneAlarm4], Some "alarm4")] None.

Definition checkStates (_sceneNr : Z) : res bool :=
  if negb hasInstance then Ok true
  else
    match state_of_scene _sceneNr with
    | None => Ok true
    | Some stateName =>
      s ← getNonScriptState states stateName;
      if is_active s
      then Throw (SceneAccessException ("Execution blocked: state " +:+ stateName +:+ " is already active"))
      else Ok true
    end.
End Apartment.

(** * Facts *)

(** The category survives the way through its text. *)
Lemma category_roundtrip c : stringToCategory (categoryToString c) = c.
Proof. by destruct c. Qed.

(** A shade: a group of the application or a device of the class. *)
Definition is_shade (DEVICE_CLASS_GR : Z) (t : Target) : bool :=
  match t with
  | TGroup g _ => bool_decide (g_ApplicationType g = ApplicationType.Blinds)
  | TDevice d => isInGroup d DEVICE_CLASS_GR
  | TOther => false
  end.

(** A valid cluster of shades whose wind alarm is active. *)
Definition cluster_alarm (states : m_States) (clusters : Z -> option Group) (i : Z) : Prop :=
  exists g wind, clusters i = Some g /\ Group_isValid g = true /\ g_ApplicationType g = ApplicationType.Blinds /\
    getNonScriptState states ("wind.group" +:+ intToString i false) = Ok wind /\ is_active wind = true.

Lemma getNonScriptState_throws l n e : getNonScriptState l n = Throw e -> e = ItemNotFound n.
Proof. unfold getNonScriptState. destruct (List.find _ l); [done|]. by intros [= <-]. Qed.

Lemma check_cluster_cases states clusters GR t i : 16 <= i <= 39 ->
  (check_cluster states clusters GR t i = Throw wind_blocked /\ cluster_alarm states clusters i /\ target_in_cluster GR t i = true) \/
  (check_cluster states clusters GR t i = Ok tt /\ ~ (cluster_alarm states clusters i /\ target_in_cluster GR t i = true)).
Proof.
  intros Hi. unfold check_cluster, getCluster, cluster_alarm.
  assert (isAppUserGroup i = true) as ->.
  { unfold isAppUserGroup. rewrite Z.geb_leb, (proj2 (Z.leb_le GroupIDAppUserMin i)), (proj2 (Z.leb_le i GroupIDAppUserMax)); done || apply Hi. }
  destruct (clusters i) as [g|]; [|right; cbn; split; [done|]; by intros [(? & ? & ? & _) _]].
  destruct (Group_isValid g) eqn:Ev; [|right; cbn; split; [done|]; intros [(? & ? & ? & ? & _) _]; congruence].
  case_bool_decide as Eb; cbn [andb]; [|right; split; [done|]; intros [(? & ? & ? & ? & ? & _) _]; congruence].
  destruct (getNonScriptState states _) as [wind|e] eqn:Ew.
  - destruct (is_active wind) eqn:Ea; cbn [andb].
    + destruct (target_in_cluster GR t i) eqn:Et; [left|right].
      * split; [done|]. split; [|done]. by exists g, wind.
      * split; [done|]. by intros [_ ?].
    + right. split; [done|]. intros [(? & ? & _ & _ & _ & E & ?) _]. congruence.
  - right. apply getNonScriptState_throws in Ew as ->. split; [done|]. intros [(? & ? & _ & _ & _ & E & _) _]. congruence.
Qed.

Lemma check_clusters_cases states clusters GR t l : Forall (fun i => 16 <= i <= 39) l ->
  (check_clusters states clusters GR t l = Throw wind_blocked /\
     exists i, In i l /\ cluster_alarm states clusters i /\ target_in_cluster GR t i = true) \/
  (check_clusters states clusters GR t l = Ok tt /\
     forall i, In i l -> ~ (cluster_alarm states clusters i /\ target_in_cluster GR t i = true)).
Proof.
  induction 1 as [|i l Hi _ IH]; [right; split; [done|]; by intros ? []|]. cbn [check_clusters].
  destruct (check_cluster_cases states clusters GR t i Hi) as [(-> & Ha & Ht)|[-> Hn]]; cbn [mbind res_bind].
  - left. split; [done|]. exists i. split; [by left|done].
  - destruct IH as [(-> & j & Hj & Hr)|[-> Hall]].
    + left. split; [done|]. exists j. split; [by right|done].
    + right. split; [done|]. intros j [<-|Hj]; [done|]. by apply Hall.
Qed.

Lemma user_groups_In i : In i user_groups <-> 16 <= i <= 39.
Proof.
  unfold user_groups. rewrite zrange_In.
  change GroupIDAppUserMin with 16. change (Z.of_nat (Z.to_nat (GroupIDAppUserMax - 16 + 1))) with 24. lia.
Qed.

(** C24: manual calls are never blocked, and without a server nothing is.  Any
    other call, if the states fire and wind exist, is allowed or refused with a
    [SceneAccessException], and it is refused exactly when fire or wind is
    active and the target is a shade, or when a valid cluster of shades (16 to
    39) with an active wind alarm contains the target.  If one of the two
    states does not exist, fire or else wind, the exception of its lookup leaves
    the check. *)
Theorem checkAccess_spec (states : m_States) (clusters : Z -> option Group) (GR : Z) (t : Target) (c : SceneAccessCategory) :
  checkAccess false states clusters GR t c = Ok true /\
  checkAccess true states clusters GR t SAC_MANUAL = Ok true /\
  (c <> SAC_MANUAL ->
    (forall fire wind, getNonScriptState states "fire" = Ok fire -> getNonScriptState states "wind" = Ok wind ->
      let blocked := (is_active fire || is_active wind = true /\ is_shade GR t = true) \/
        exists i, 16 <= i <= 39 /\ cluster_alarm states clusters i /\ target_in_cluster GR t i = true in
      (blocked /\ exists what, checkAccess true states clusters GR t c = Throw (SceneAccessException what)) \/
      (~ blocked /\ checkAccess true states clusters GR t c = Ok true)) /\
    (forall e, getNonScriptState states "fire" = Throw e ->
      checkAccess true states clusters GR t c = Throw (ItemNotFound "fire")) /\
    (forall fire e, getNonScriptState states "fire" = Ok fire -> getNonScriptState states "wind" = Throw e ->
      checkAccess true states clusters GR t c = Throw (ItemNotFound "wind"))).
Proof.
  split; [done|]. split; [done|]. intros Hc.
  assert (checkAccess true states clusters GR t c =
    (_ ← check_fire_wind states GR t; _ ← check_clusters states clusters GR t user_groups; Ok true)) as E by (by destruct c).
  rewrite E. clear E. split_and!.
  - intros fire wind Hf Hw. unfold check_fire_wind. rewrite Hf, Hw. cbn [mbind res_bind]. cbv zeta.
    rewrite (orb_comm (is_active wind)).
    assert (forall (b : bool) (x : res unit) e, (_ ← (if b then Throw e else Ok tt); x) = if b then Throw e else x) as Hif by (by intros []).
    assert ((if is_active fire || is_active wind
      then match t with
        | TGroup g _ => if bool_decide (ApplicationType.Blinds = g_ApplicationType g)
            then Throw (SceneAccessException (protectionMessage (is_active fire) (is_active wind))) else Ok tt
        | TDevice d => if isInGroup d GR
            then Throw (SceneAccessException (protectionMessage (is_active fire) (is_active wind))) else Ok tt
        | TOther => Ok tt end
      else Ok tt) =
      if (is_active fire || is_active wind) && is_shade GR t
      then Throw (SceneAccessException (protectionMessage (is_active fire) (is_active wind))) else Ok tt) as ->.
    { unfold is_shade. destruct (is_active fire || is_active wind), t; try done. cbn [andb].
      by rewrite (bool_decide_ext _ (g_ApplicationType g = ApplicationType.Blinds)). }
    destruct ((is_active fire || is_active wind) && is_shade GR t) eqn:Eb; cbn [mbind res_bind].
    + left. apply andb_true_iff in Eb. split; [by left|]. eexists. done.
    + destruct (check_clusters_cases states clusters GR t user_groups) as [(-> & i & Hi & Ha)|[-> Hn]]; cbn [mbind res_bind].
      * apply Forall_forall. by intros i Hi%list_elem_of_In%user_groups_In.
      * left. apply user_groups_In in Hi. split; [right; by exists i|]. by eexists.
      * right. split; [|done]. intros [H|(i & Hi & Ha)]; [by apply andb_true_iff in H; congruence|].
        apply (Hn i); [|done]. by apply user_groups_In.
  - intros e He. unfold check_fire_wind. rewrite He. by apply getNonScriptState_throws in He as ->.
  - intros fire e Hf He. unfold check_fire_wind. rewrite Hf, He. by apply getNonScriptState_throws in He as ->.
Qed.

(** The names of the apartment's states stay distinct: [allocateState]
    refuses a state whose name is taken and otherwise appends it, after which
    a lookup by type and name finds it, and [removeState] takes away exactly
    this state again, leaving the order of the others; only removing a state
    that was never allocated is undefined. *)
Theorem state_registry (l : m_States) (s : sid) (st : State) :
  NoDup (map (fun x => st_name (snd x)) l) -> NoDup (map fst l) -> s ∉ map fst l ->
  match allocateState l s st with
  | Ok l' =>
    st_name st ∉ map (fun x => st_name (snd x)) l /\ l' = l ++ [(s, st)] /\
    NoDup (map (fun x => st_name (snd x)) l') /\ getState l' (st_type st) (st_name st) = Ok s /\
    removeState l' s = Ok l
  | Throw e => e = DSSException ("Duplicate state " +:+ st_name st) /\ st_name st ∈ map (fun x => st_name (snd x)) l
  end /\ removeState l s = Throw (UndefinedBehaviour "vector::erase(end())").
Proof.
  intros Hn Hi Hs.
  assert (existsb (fun x : sid * State => Nat.eqb (fst x) s) l = false) as Habs.
  { apply not_true_iff_false. intros (x & Hx & E%Nat.eqb_eq)%existsb_exists. apply Hs. subst.
    apply list_elem_of_In. by apply in_map. }
  split; [|unfold removeState; by rewrite Habs].
  unfold allocateState. clear Habs. destruct (existsb _ l) eqn:E.
  - split; [done|]. apply existsb_exists in E as (x & Hx & E%String.eqb_eq). rewrite <- E.
    apply list_elem_of_In. by apply (in_map (fun x => st_name (snd x))).
  - assert (st_name st ∉ map (fun x => st_name (snd x)) l) as Hna.
    { intros Hm. apply list_elem_of_In, in_map_iff in Hm as (x & Ex & Hx). apply not_true_iff_false in E. apply E.
      apply existsb_exists. exists x. split; [done|]. by apply String.eqb_eq. }
    split_and!; [done|done| | |].
    + rewrite map_app. apply NoDup_app. split_and!; [done| |apply NoDup_singleton].
      intros x Hx ->%list_elem_of_singleton. done.
    + unfold getState, tryGetState.
      assert (forall l, st_name st ∉ map (fun x => st_name (snd x)) l ->
        List.find (fun s => bool_decide (st_type (snd s) = st_type st) && String.eqb (st_name (snd s)) (st_name st))
          (l ++ [(s, st)]) = Some (s, st)) as ->; [|done|done].
      clear. induction l as [|x l IH]; intros H; cbn.
      * by rewrite bool_decide_eq_true_2, String.eqb_refl.
      * cbn in H. apply not_elem_of_cons in H as [Hne H].
        rewrite (proj2 (String.eqb_neq (st_name (snd x)) (st_name st))) by done.
        rewrite andb_false_r. by apply IH.
    + unfold removeState. rewrite existsb_app. cbn [existsb fst]. rewrite Nat.eqb_refl, orb_true_r.
      rewrite List.filter_app. cbn [List.filter fst]. rewrite Nat.eqb_refl. cbn [negb]. rewrite app_nil_r.
      assert (List.filter (fun x : sid * State => negb (Nat.eqb (fst x) s)) l = l) as ->.
      { clear -Hs. induction l as [|x l IH]; [done|]. cbn in *. apply not_elem_of_cons in Hs as [Hne Hs].
        rewrite (proj2 (Nat.eqb_neq (fst x) s)) by done. cbn. by rewrite IH. }
      rewrite (drop_ge (l ++ [(s, st)])) by (rewrite length_app; cbn; lia). by rewrite app_nil_r.
Qed.

Lemma state_registry_witness : removeState [] 0%nat = Throw (UndefinedBehaviour "vector::erase(end())").
Proof.
  apply (state_registry [] 0%nat (mkState None "a" volatile_ 0 [] 0 eStateType.StateType_Apartment None 0 "" None "" None [])).
  - constructor.
  - constructor.
  - intros H. inversion H.
Defined.
