(* ===== verification/ApartmentModel.v ===== *)
(** The objects of the apartment and what can be read from them
    ([src/src/model/apartment.h], [zone.h], [group.h], [cluster.h], [device.h],
    [modulator.h] and the queries of [apartment.cpp], [zone.cpp], [device.cpp]).

    Objects behind shared pointers are numbered, in a store for each class.
    A shared pointer keeps its object alive, so the stores are read with a
    default that no pointer of the model ever reaches.  A [DeviceReference]
    is the dSUID of a device: references are compared, and resolved, by it. *)
From stdpp Require Import base option list strings gmap.
From Stdlib Require Import ZArith Lia Ascii PrimFloat.
From Stdlib Require String.
From S2P Require Import Prelude CxxString Base NumConv Ds485types ModelConst ModelFeatures DataTypes Calendar DateTools.
From S2P Require Import Behavior PropertyTree State SceneAccess.

Open Scope string_scope.
Open Scope list_scope.
Open Scope Z_scope.

(** * Data *)

Definition dptr := nat.
Definition zptr := nat.
Definition gptr := nat.
Definition mptr := nat.
Definition DeviceReference := dsuid_t.

(** [DeviceSensor_t], the members that are looked up. *)
Record DeviceSensor_t := mkSensor { s_sensorIndex : Z; s_sensorType : SensorType.t }.

(** [class DeviceBinaryInput]; [b_field] is [m_statusFieldHandle], the field of
    a group's status that the input contributes to. *)
Record DeviceBinaryInput := mkBinaryInput {
  b_inputIndex : Z; b_inputType : BinaryInputType.t; b_inputId : Z; b_targetGroupId : Z;
  b_state : nat; b_field : option (gptr * StatusFieldType.t)
}.

(** [class PhysicalModelItem], the base of devices, groups, zones and meters. *)
Record PhysicalModelItem := mkPhysical { ph_IsPresent : bool; ph_IsConnected : bool; ph_InactiveSince : DateTime }.

Definition new_physical : PhysicalModelItem := mkPhysical false false NullDate.
Definition isPresent (m : PhysicalModelItem) : bool := ph_IsPresent m && ph_IsConnected m.
Definition setIsPresent (now : DateTime) (_value : bool) (m : PhysicalModelItem) : res PhysicalModelItem :=
  let wasPresent := ph_IsPresent m in
  since ← (if _value then Ok NullDate
           else
             fresh ← (if wasPresent then Ok true else dt_eq (ph_InactiveSince m) NullDate);
             Ok (if fresh : bool then now else ph_InactiveSince m));
  Ok (mkPhysical _value (ph_IsConnected m) since).
Definition setIsConnected (_value : bool) (m : PhysicalModelItem) : PhysicalModelItem :=
  mkPhysical (ph_IsPresent m) _value (ph_InactiveSince m).

(** The members of [class Device] that it only publishes in the property tree;
    [pub_states] is the map [m_states] in the order of its keys. *)
Record DevicePublished := mkDevicePublished {
  pub_LastKnownShortAddress : Z; pub_DSMeterDSIDstr : string; pub_DSMeterDSUIDstr : string;
  pub_LastKnownMeterDSIDstr : string; pub_LastKnownMeterDSUIDstr : string; pub_HWInfo : string; pub_GTIN : string;
  pub_OemProductURL : string; pub_OemConfigLink : string; pub_OemPartNumber : Z; pub_IsConfigLocked : bool; pub_hasActions : bool;
  pub_VdcHardwareModelGuid : string; pub_VdcModelUID : string; pub_VdcModelVersion : string; pub_VdcVendorGuid : string;
  pub_VdcOemGuid : string; pub_VdcOemModelGuid : string; pub_VdcConfigURL : string; pub_VdcHardwareVersion : string;
  pub_LastDiscovered : DateTime; pub_IsLockedInDSM : bool; pub_ButtonSetsLocalPriority : bool; pub_ButtonCallsPresent : bool;
  pub_floor : Z; pub_states : list (string * nat); pub_modelFeatures : list (ModelFeatureId.t * bool)
}.

(** What [class Device] knows about its hardware, configuration and product:
    the members behind the descriptions of [DeviceInfo.v]. *)
Inductive DeviceOEMState := DEVICE_OEM_UNKNOWN | DEVICE_OEM_NONE | DEVICE_OEM_LOADING | DEVICE_OEM_VALID.
Inductive DeviceOEMInetState :=
| DEVICE_OEM_EAN_NO_EAN_CONFIGURED | DEVICE_OEM_EAN_NO_INTERNET_ACCESS
| DEVICE_OEM_EAN_INTERNET_ACCESS_OPTIONAL | DEVICE_OEM_EAN_INTERNET_ACCESS_MANDATORY.
Inductive DeviceValveType := DEVICE_VALVE_UNKNOWN | DEVICE_VALVE_FLOOR | DEVICE_VALVE_RADIATOR | DEVICE_VALVE_WALL.
#[global] Instance DeviceOEMState_eq_dec : EqDecision DeviceOEMState.
Proof. solve_decision. Defined.

Record DeviceInfo := mkDeviceInfo {
  di_ActiveGroup : Z; di_OutputMode : Z; di_ButtonInputMode : ButtonInputMode.t; di_ButtonInputIndex : Z;
  di_ButtonInputCount : Z; di_ButtonActiveGroup : Z; di_ButtonID : Z;
  di_OemEanNumber : Z; di_OemSerialNumber : Z; di_OemState : DeviceOEMState; di_OemInetState : DeviceOEMInetState;
  di_OemIsIndependent : bool; di_OemProductInfoState : DeviceOEMState; di_OemProductName : string; di_OemProductIcon : string;
  di_VdcHardwareInfo : string; di_VdcIconPath : string; di_VdcDisplayID : string; di_VdcHardwareGuid : string;
  di_ValveType : DeviceValveType; di_AKMInputProperty : string; di_pairedDevices : Z; di_visible : bool;
  di_cardinalDirection : Z; di_windProtectionClass : Z; di_published : DevicePublished
}.

(** [class Device] *)
Record Device := mkDevice {
  d_DSID : dsuid_t; d_Name : string; d_ShortAddress : Z; d_ZoneID : Z; d_LastKnownZoneID : Z;
  d_DSMeterDSID : dsuid_t; d_LastKnownMeterDSID : dsuid_t;
  d_FunctionID : Z; d_ProductID : Z; d_VendorID : Z; d_RevisionID : Z;
  d_groupIds : list Z; d_physical : PhysicalModelItem; d_isVdcDevice : bool; d_Consumption : Z;
  d_LastCalledScene : Z; d_LastButOneCalledScene : Z; d_FirstSeen : DateTime;
  d_sensorInputs : list DeviceSensor_t; d_binaryInputs : list DeviceBinaryInput;
  d_node : option nid; d_aliasNode : option nid; d_TagsNode : option nid; d_info : DeviceInfo
}.

(** [struct StatusField::SubStateItem]; the pointer is the number of the state. *)
Record SubStateItem := mkSubState { i_ptr : nat; i_name : string; i_value : Z }.

(** [class StatusField] *)
Record StatusField := mkStatusField { f_type : StatusFieldType.t; f_state : nat; f_items : list SubStateItem }.

(** [class Status]; [t_expiry] is the delay its timer was last started with,
    in seconds. *)
Record Status := mkStatus { t_malfunctionField : StatusField; t_serviceField : StatusField; t_expiry : Z }.

(** What [class Cluster] adds to a group. *)
Record ClusterData := mkCluster {
  c_Location : Z; c_ProtectionClass : Z; c_Floor : Z; c_LockedScenes : list Z;
  c_ConfigurationLocked : bool; c_automatic : bool; c_oplock_state : option nat
}.

(** [class Group], with the behaviour its application type calls for. *)
Inductive AnyBehavior := Default (b : Behavior) | Ventilation (b : Behavior).

Record Group := mkGroup {
  g_ZoneID : Z; g_GroupID : Z; g_Name : string; g_ApplicationType : ApplicationType.t;
  g_pApplicationBehavior : AnyBehavior; g_LastCalledScene : Z; g_LastButOneCalledScene : Z;
  g_IsValid : bool; g_SceneNames : gmap Z string; g_connectedDevices : Z;
  g_status : option Status; g_cluster : option ClusterData; g_node : option nid;
  g_physical : PhysicalModelItem; g_SyncPending : bool; g_readFromDsm : bool; g_AssociatedSet : string
}.

(** [MainZoneSensor_t] *)
Record MainZoneSensor_t := mkMainSensor { ms_DSUID : dsuid_t; ms_sensorType : SensorType.t; ms_sensorIndex : Z }.

(** [struct ZoneHeatingProperties]; the setpoints and fixed values have sixteen
    elements. *)
Record ZoneHeatingProperties := mkHeatingProperties {
  hp_mode : HeatingControlMode.t; hp_Kp : Z; hp_Ts : Z; hp_Ti : Z; hp_Kd : Z; hp_Imin : Z; hp_Imax : Z;
  hp_Ymin : Z; hp_Ymax : Z; hp_AntiWindUp : Z; hp_KeepFloorWarm : Z; hp_HeatingControlState : Z;
  hp_HeatingMasterZone : Z; hp_CtrlOffset : Z; hp_EmergencyValue : Z; hp_ManualValue : Z;
  hp_TeperatureSetpoints : list float; hp_FixedControlValues : list float
}.

(** [struct ZoneHeatingStatus] and [struct ZoneSensorStatus]: the last values,
    each with its time. *)
Record ZoneHeatingStatus := mkHeatingStatus {
  hs_NominalValue : option float; hs_NominalValueTS : DateTime; hs_ControlValue : option float; hs_ControlValueTS : DateTime }.
Record ZoneSensorStatus := mkSensorStatus {
  ss_TemperatureValue : option float; ss_TemperatureValueTS : DateTime; ss_HumidityValue : option float; ss_HumidityValueTS : DateTime;
  ss_BrightnessValue : option float; ss_BrightnessValueTS : DateTime;
  ss_CO2ConcentrationValue : option float; ss_CO2ConcentrationValueTS : DateTime }.

(** [class Zone] *)
Record Zone := mkZone {
  z_ZoneID : Z; z_Name : string; z_Devices : list DeviceReference; z_Groups : list gptr; z_DSMeters : list mptr;
  z_MainSensors : list MainZoneSensor_t; z_HeatingProperties : ZoneHeatingProperties; z_HeatingPropValid : bool;
  z_HeatingOperationMode : Z; z_temperatureControlMeter : option mptr; z_node : option nid;
  z_physical : PhysicalModelItem; z_HeatingStatus : ZoneHeatingStatus; z_SensorStatus : ZoneSensorStatus
}.

(** The members of [class DSMeter] that it only publishes. *)
Record DSMeterInfo := mkMeterInfo {
  mi_DeviceType : Z; mi_capHasDevices : bool; mi_PowerConsumption : Z; mi_PowerConsumptionTimeStamp : DateTime;
  mi_EnergyMeterValue : float; mi_EnergyMeterValueWh : float; mi_EnergyMeterValueTimeStamp : DateTime;
  mi_HardwareVersion : string; mi_softwareVersion : string; mi_armSoftwareVersion : Z; mi_dspSoftwareVersion : Z;
  mi_ApiVersion : Z; mi_HardwareName : string; mi_IsValid : bool; mi_IsInitialized : bool;
  mi_IgnoreActionsFromNewDevices : bool; mi_dSMState : Z; mi_VdcConfigURL : string; mi_VdcModelUID : string;
  mi_VdcHardwareGuid : string; mi_VdcHardwareModelGuid : string; mi_VdcImplementationId : string;
  mi_VdcVendorGuid : string; mi_VdcOemGuid : string; mi_VdcOemModelGuid : string
}.

(** [class DSMeter] *)
Record DSMeter := mkDSMeter {
  dm_DSID : dsuid_t; dm_Name : string; dm_physical : PhysicalModelItem; dm_isVirtual : bool; dm_capHasTemperatureControl : bool;
  dm_capHasMetering : bool; dm_ConnectedDevices : list DeviceReference; dm_node : option nid; dm_info : DSMeterInfo
}.

(** What the model queues in [ModelMaintenance]: class [ModelEvent] with its
    type, its dSUID and its parameters. *)
Inductive ModelEvent :=
| etModelDirty | etModelOperationModeChanged | etClusterCleanup
| etDeviceDirty (_dsid : dsuid_t)
| etDeviceChanged (_dsid : dsuid_t) (m_Parameters : list Z)
| etDeviceConfigChanged (_dsid : dsuid_t) (m_Parameters : list Z)
| etControllerConfig (_dsid : dsuid_t) (m_Parameters : list Z) (spec : ZoneHeatingConfigSpec_t).

(** The members of [class ModelMaintenance] that collect events. *)
Record ModelMaintenance := mkModelMaintenance { m_IsInitializing : bool; m_IsDirty : bool; m_ModelEvents : list ModelEvent }.

(** What can be addressed by a command: a group or a device. *)
Inductive Item := ItemGroup (g : gptr) | ItemDevice (d : dptr).

(** The calls of [ActionRequestInterface] ([businterface.h]). *)
Inductive ActionRequest :=
| ReqCallScene (t : Item) (_origin : Z) (_category : SceneAccessCategory) (scene : Z) (_token : string) (_force : bool)
| ReqCallSceneMin (t : Item) (_origin : Z) (_category : SceneAccessCategory) (_scene : Z) (_token : string)
| ReqSaveScene (t : Item) (_origin scene : Z) (_token : string)
| ReqUndoScene (t : Item) (_origin : Z) (_category : SceneAccessCategory) (scene : Z) (_token : string)
| ReqUndoSceneLast (t : Item) (_origin : Z) (_category : SceneAccessCategory) (_token : string)
| ReqBlink (t : Item) (_origin : Z) (_category : SceneAccessCategory) (_token : string)
| ReqSetValue (t : Item) (_origin : Z) (_category : SceneAccessCategory) (_value : Z) (_token : string)
| ReqIncreaseOutputChannelValue (t : Item) (_origin : Z) (_category : SceneAccessCategory) (_channel : Z) (_token : string)
| ReqDecreaseOutputChannelValue (t : Item) (_origin : Z) (_category : SceneAccessCategory) (_channel : Z) (_token : string)
| ReqStopOutputChannelValue (t : Item) (_origin : Z) (_category : SceneAccessCategory) (_channel : Z) (_token : string)
| ReqPushSensor (t : Item) (_origin : Z) (_category : SceneAccessCategory) (_sourceID : dsuid_t)
    (_sensorType : SensorType.t) (_sensorValueFloat : float) (_token : string).

(** [class Apartment]; the vectors hold the numbers of their objects.
    [a_requests] are the commands given to the action interface of the bus, if
    there is one, the last one first; the model maintenance may be missing, too.  [a_values]
    are the files of [PersistentValue<int>] ([storagetools.h]) by the names of
    the values. *)
Record Apartment := mkApartment {
  a_devices : gmap dptr Device; a_zones : gmap zptr Zone; a_groups : gmap gptr Group; a_meters : gmap mptr DSMeter;
  m_Devices : list dptr; m_Zones : list zptr; m_DSMeters : list mptr; m_States : list nat;
  a_node : option nid; a_requests : option (list ActionRequest); a_modelMaintenance : option ModelMaintenance;
  a_values : gmap string Z
}.

(** * Defaults, and reading the stores *)

Definition no_heating : ZoneHeatingProperties :=
  mkHeatingProperties HeatingControlMode.OFF 0 0 0 0 0 0 0 0 0 0 0 0 0 175 0 (repeat 0%float 16) (repeat 0%float 16).
Definition no_published : DevicePublished :=
  mkDevicePublished 0xFFFF "" "" "" "" "" "" "" "" 0 false false "" "" "" "" "" "" "" "" NullDate false false true 0 [] [].
Definition no_meter_info : DSMeterInfo :=
  mkMeterInfo 0 false 0 NullDate 0 0 NullDate "" "" 0 0 0 "" false false false 255 "" "" "" "" "" "" "" "".
Definition no_info : DeviceInfo :=
  mkDeviceInfo 0 0 ButtonInputMode.STANDARD 0 0 0 0 0 0 DEVICE_OEM_UNKNOWN DEVICE_OEM_EAN_NO_EAN_CONFIGURED true
    DEVICE_OEM_UNKNOWN "" "" "" "" "" "" DEVICE_VALVE_UNKNOWN "" 0 true 0 0 no_published.
Definition no_device : Device :=
  mkDevice [] "" 0 0 0 [] [] 0 0 0 0 [] new_physical false 0 0 0 (mkDateTime 0 0) [] [] None None None no_info.
Definition no_group : Group :=
  mkGroup 0 0 "" ApplicationType.None (Default (mkBehavior 0 0)) 0 0 false ∅ 0 None None None new_physical false false "".
Definition no_heating_status : ZoneHeatingStatus := mkHeatingStatus None NullDate None NullDate.
Definition no_sensor_status : ZoneSensorStatus := mkSensorStatus None NullDate None NullDate None NullDate None NullDate.
Definition no_zone : Zone := mkZone 0 "" [] [] [] [] no_heating false 0 None None new_physical no_heating_status no_sensor_status.
Definition no_meter : DSMeter := mkDSMeter [] "" new_physical false false false [] None no_meter_info.

Definition d_isPresent (d : Device) : bool := isPresent (d_physical d).
Definition dm_isPresent (m : DSMeter) : bool := isPresent (dm_physical m).

(** An object that is there. *)
Definition present_item : PhysicalModelItem := mkPhysical true true NullDate.

Definition the_device (a : Apartment) (p : dptr) : Device := default no_device (a_devices a !! p).
Definition the_zone (a : Apartment) (p : zptr) : Zone := default no_zone (a_zones a !! p).
Definition the_group (a : Apartment) (p : gptr) : Group := default no_group (a_groups a !! p).
Definition the_meter (a : Apartment) (p : mptr) : DSMeter := default no_meter (a_meters a !! p).

(** * [Device]: the queries *)

Module DeviceClass.
Definition DEVICE_CLASS_INVALID : Z := -1.
Definition DEVICE_CLASS_GE : Z := 1.
Definition DEVICE_CLASS_GR : Z := 2.
Definition DEVICE_CLASS_BL : Z := 3.
Definition DEVICE_CLASS_TK : Z := 4.
Definition DEVICE_CLASS_MG : Z := 5.
Definition DEVICE_CLASS_RT : Z := 6.
Definition DEVICE_CLASS_GN : Z := 7.
Definition DEVICE_CLASS_SW : Z := 8.
Definition DEVICE_CLASS_WE : Z := 9.
End DeviceClass.
Import DeviceClass.

Definition getDeviceClass (d : Device) : Z :=
  if d_FunctionID d =? 0 then DEVICE_CLASS_INVALID
  else
    let c := Z.shiftr (Z.land (d_FunctionID d) 0xf000) 12 in
    switch c
      [([1], DEVICE_CLASS_GE); ([2], DEVICE_CLASS_GR); ([3], DEVICE_CLASS_BL); ([4], DEVICE_CLASS_TK);
       ([5], DEVICE_CLASS_MG); ([6], DEVICE_CLASS_RT); ([7], DEVICE_CLASS_GN); ([8], DEVICE_CLASS_SW);
       ([9], DEVICE_CLASS_WE)] DEVICE_CLASS_INVALID.

Definition getDeviceNumber (d : Device) : Z := Z.land (d_ProductID d) 0x3ff.

Definition isInGroup (d : Device) (_groupID : Z) : bool :=
  if _groupID =? 0 then true
  else if negb (isValidGroup _groupID) then false
  else bool_decide (_groupID ∈ d_groupIds d).

Definition getGroupsCount (d : Device) : Z := Z.of_nat (length (d_groupIds d)).

(** [vector::at]; a negative [int] is a huge index. *)
Definition getGroupIdByIndex (d : Device) (index : Z) : res Z :=
  match (if index <? 0 then None else d_groupIds d !! Z.to_nat index) with
  | Some g => Ok g
  | None => Throw (OutOfRange "vector::_M_range_check")
  end.

(** User groups and global applications live in zone 0. *)
Definition getGroupZoneID (d : Device) (groupID : Z) : Z :=
  if isAppUserGroup groupID || isGlobalAppGroup groupID then 0
  else if 0 <? d_ZoneID d then d_ZoneID d else d_LastKnownZoneID d.

Definition getSensor (d : Device) (_sensorIndex : Z) : res DeviceSensor_t :=
  match (if _sensorIndex <? 0 then None else d_sensorInputs d !! Z.to_nat _sensorIndex) with
  | Some s => Ok s
  | None => Throw (ItemNotFound "Device::getSensor: index out of bounds")
  end.

Definition getSensorByType (d : Device) (_sensorType : SensorType.t) : res DeviceSensor_t :=
  match List.find (fun s => bool_decide (s_sensorType s = _sensorType)) (d_sensorInputs d) with
  | Some s => Ok s
  | None => Throw (ItemNotFound "Device::getSensor: no sensor with given type found")
  end.

(** * [Apartment]: the queries *)

Definition tryGetDeviceByDSID (a : Apartment) (dsid : dsuid_t) : option dptr :=
  List.find (fun p => bool_decide (d_DSID (the_device a p) = dsid)) (m_Devices a).

Definition getDeviceByDSID (a : Apartment) (dsid : dsuid_t) : res dptr :=
  match tryGetDeviceByDSID a dsid with Some p => Ok p | None => Throw (ItemNotFound (dsuid2str dsid)) end.

Definition getDeviceByName (a : Apartment) (_name : string) : res dptr :=
  match List.find (fun p => String.eqb (d_Name (the_device a p)) _name) (m_Devices a) with
  | Some p => Ok p
  | None => Throw (ItemNotFound _name)
  end.

(** [getDevices]: a reference to every device. *)
Definition Apartment_getDevices (a : Apartment) : list DeviceReference :=
  map (fun p => d_DSID (the_device a p)) (m_Devices a).

(** [DeviceReference::getDevice] *)
Definition getDevice (a : Apartment) (r : DeviceReference) : res dptr := getDeviceByDSID a r.

Definition getZone_name (a : Apartment) (_zoneName : string) : res zptr :=
  match List.find (fun z => String.eqb (z_Name (the_zone a z)) _zoneName) (m_Zones a) with
  | Some z => Ok z
  | None => Throw (ItemNotFound _zoneName)
  end.

Definition tryGetZone (a : Apartment) (id : Z) : option zptr :=
  List.find (fun z => z_ZoneID (the_zone a z) =? id) (m_Zones a).

Definition getZone (a : Apartment) (id : Z) : res zptr :=
  match tryGetZone a id with Some z => Ok z | None => Throw (ItemNotFound (intToString id false)) end.

Definition getDSMeter (a : Apartment) (_modName : string) : res mptr :=
  match List.find (fun m => String.eqb (dm_Name (the_meter a m)) _modName) (m_DSMeters a) with
  | Some m => Ok m
  | None => Throw (ItemNotFound _modName)
  end.

Definition getDSMeterByDSID (a : Apartment) (_dsid : dsuid_t) : res mptr :=
  match List.find (fun m => bool_decide (dm_DSID (the_meter a m) = _dsid)) (m_DSMeters a) with
  | Some m => Ok m
  | None => Throw (ItemNotFound (dsuid2str _dsid))
  end.

(** [getDSMeters] leaves out the virtual meters, [getDSMetersAll] does not. *)
Definition getDSMeters (a : Apartment) : list mptr := List.filter (fun m => negb (dm_isVirtual (the_meter a m))) (m_DSMeters a).
Definition getDSMetersAll (a : Apartment) : list mptr := m_DSMeters a.

(** * [Zone]: the queries *)

Definition tryGetGroup (a : Apartment) (z : zptr) (id : Z) : option gptr :=
  List.find (fun g => g_GroupID (the_group a g) =? id) (z_Groups (the_zone a z)).

Definition Zone_getGroup_name (a : Apartment) (z : zptr) (_name : string) : option gptr :=
  List.find (fun g => String.eqb (g_Name (the_group a g)) _name) (z_Groups (the_zone a z)).

Definition Zone_getGroup (a : Apartment) (z : zptr) (id : Z) : option gptr := tryGetGroup a z id.

(** [Zone::getDevices] *)
Definition getDevices (a : Apartment) (z : zptr) : list DeviceReference := z_Devices (the_zone a z).

Definition registeredOnDSMeter (a : Apartment) (z : zptr) (_dsMeter : mptr) : bool :=
  bool_decide (_dsMeter ∈ z_DSMeters (the_zone a z)).
Definition isRegisteredOnAnyMeter (a : Apartment) (z : zptr) : bool :=
  match z_DSMeters (the_zone a z) with [] => false | _ => true end.

(** * Groups of the apartment *)

Definition Apartment_getGroup_name (a : Apartment) (_name : string) : res gptr :=
  z ← getZone a 0;
  match Zone_getGroup_name a z _name with Some g => Ok g | None => Throw (ItemNotFound _name) end.

Definition Apartment_getGroup (a : Apartment) (_id : Z) : res gptr :=
  z ← getZone a 0;
  match Zone_getGroup a z _id with Some g => Ok g | None => Throw (ItemNotFound (intToString _id false)) end.

(** [dynamic_pointer_cast<Cluster>] *)
Definition as_cluster (a : Apartment) (g : gptr) : option gptr := g_cluster (the_group a g) ≫= fun _ => Some g.

Definition getCluster (a : Apartment) (_id : Z) : res gptr :=
  if isAppUserGroup _id then
    z ← getZone a 0;
    match Zone_getGroup a z _id ≫= as_cluster a with
    | Some g => Ok g
    | None => Throw (ItemNotFound (intToString _id false))
    end
  else Throw (ItemNotFound (intToString _id false)).

(** A group in the range of clusters that is none gives a null pointer. *)
Definition getClusters (a : Apartment) : res (list (option gptr)) :=
  z ← getZone a 0;
  Ok (map (as_cluster a) (List.filter (fun g => isAppUserGroup (g_GroupID (the_group a g))) (z_Groups (the_zone a z)))).

Fixpoint first_unused (a : Apartment) (l : list (option gptr)) : res (option gptr) :=
  match l with
  | [] => Ok None
  | None :: _ => Throw (UndefinedBehaviour "call on NULL")
  | Some c :: l =>
    if bool_decide (g_ApplicationType (the_group a c) = ApplicationType.None) then Ok (Some c) else first_unused a l
  end.
Definition getEmptyCluster (a : Apartment) : res (option gptr) := cs ← getClusters a; first_unused a cs.

Definition getGlobalApps (a : Apartment) : res (list gptr) :=
  z ← getZone a 0;
  Ok (List.filter (fun g => isGlobalAppGroup (g_GroupID (the_group a g))) (z_Groups (the_zone a z))).

(** [Device::tryGetGroup] *)
Definition Device_tryGetGroup (a : Apartment) (p : dptr) (groupId : Z) : option gptr :=
  z ← tryGetZone a (getGroupZoneID (the_device a p) groupId); tryGetGroup a z groupId.

(** [Device::getGroupByIndex] *)
Definition getGroupByIndex (a : Apartment) (p : dptr) (_index : Z) : res gptr :=
  g ← getGroupIdByIndex (the_device a p) _index; Apartment_getGroup a g.

(** * The invariant

    Devices and zones are known by their identifiers; zone 0 lists every device
    and any other zone only devices that say they are in it; the groups of a
    zone say so too, and devices are members of valid groups only. *)
Record consistent (a : Apartment) : Prop := {
  devices_distinct : NoDup (Apartment_getDevices a);
  zones_distinct : NoDup (map (fun z => z_ZoneID (the_zone a z)) (m_Zones a));
  members_distinct : forall z, z ∈ m_Zones a -> NoDup (getDevices a z);
  zone_zero : forall z, z ∈ m_Zones a -> z_ZoneID (the_zone a z) = 0 ->
    forall r, r ∈ getDevices a z <-> r ∈ Apartment_getDevices a;
  zone_members : forall z, z ∈ m_Zones a -> z_ZoneID (the_zone a z) <> 0 -> forall r, r ∈ getDevices a z ->
    exists p, p ∈ m_Devices a /\ d_DSID (the_device a p) = r /\ d_ZoneID (the_device a p) = z_ZoneID (the_zone a z);
  zone_groups : forall z, z ∈ m_Zones a -> forall g, g ∈ z_Groups (the_zone a z) ->
    g_ZoneID (the_group a g) = z_ZoneID (the_zone a z);
  device_groups : forall p, p ∈ m_Devices a ->
    NoDup (d_groupIds (the_device a p)) /\ Forall (fun g => isValidGroup g = true) (d_groupIds (the_device a p))
}.

(** * Facts *)

(** The first match of a search by a key is the only one when keys differ. *)
Lemma find_by_key {A K} `{EqDecision K} (key : A -> K) (l : list A) k x :
  List.find (fun x => bool_decide (key x = k)) l = Some x -> x ∈ l /\ key x = k.
Proof. intros [H1 H2]%List.find_some. rewrite bool_decide_eq_true in H2. by rewrite list_elem_of_In. Qed.

Lemma find_by_key_unique {A K} `{EqDecision K} (key : A -> K) (l : list A) x :
  NoDup (map key l) -> x ∈ l -> List.find (fun y => bool_decide (key y = key x)) l = Some x.
Proof.
  induction l as [|y l IH]; cbn; [set_solver|]. intros [Hy Hl]%NoDup_cons Hx. case_bool_decide as E.
  - apply elem_of_cons in Hx as [->|Hx]; [done|]. destruct Hy. rewrite E. by apply list_elem_of_fmap_2.
  - apply elem_of_cons in Hx as [->|Hx]; [done|]. by apply IH.
Qed.

Lemma find_eqb_key {A} (key : A -> Z) (l : list A) k :
  List.find (fun x => key x =? k) l = List.find (fun x => bool_decide (key x = k)) l.
Proof.
  induction l as [|x l IH]; [done|]. cbn. rewrite IH.
  destruct (Z.eqb_spec (key x) k); [by rewrite bool_decide_eq_true_2|by rewrite bool_decide_eq_false_2].
Qed.

Lemma tryGetZone_Some a id z : tryGetZone a id = Some z -> z ∈ m_Zones a /\ z_ZoneID (the_zone a z) = id.
Proof. unfold tryGetZone. rewrite find_eqb_key. apply (find_by_key (fun z => z_ZoneID (the_zone a z))). Qed.

Lemma tryGetZone_unique a z : consistent a -> z ∈ m_Zones a -> tryGetZone a (z_ZoneID (the_zone a z)) = Some z.
Proof.
  intros Hc Hz. unfold tryGetZone. rewrite find_eqb_key.
  by apply (find_by_key_unique (fun z => z_ZoneID (the_zone a z))); [apply zones_distinct|].
Qed.

Lemma getZone_Ok a id z : getZone a id = Ok z <-> tryGetZone a id = Some z.
Proof. unfold getZone. destruct (tryGetZone a id); naive_solver. Qed.

Lemma tryGetGroup_Some a z id g : tryGetGroup a z id = Some g -> g ∈ z_Groups (the_zone a z) /\ g_GroupID (the_group a g) = id.
Proof. unfold tryGetGroup. rewrite find_eqb_key. apply (find_by_key (fun g => g_GroupID (the_group a g))). Qed.

Lemma tryGetDeviceByDSID_Some a r p : tryGetDeviceByDSID a r = Some p -> p ∈ m_Devices a /\ d_DSID (the_device a p) = r.
Proof. apply (find_by_key (fun p => d_DSID (the_device a p))). Qed.

Lemma tryGetDeviceByDSID_unique a p : consistent a -> p ∈ m_Devices a ->
  tryGetDeviceByDSID a (d_DSID (the_device a p)) = Some p.
Proof. intros Hc Hp. apply (find_by_key_unique (fun p => d_DSID (the_device a p))); [apply devices_distinct, Hc|done]. Qed.

Lemma find_by_None {A K} `{EqDecision K} (key : A -> K) (l : list A) k :
  List.find (fun x => bool_decide (key x = k)) l = None <-> k ∉ map key l.
Proof.
  induction l as [|x l IH]; cbn; [set_solver|]. case_bool_decide; [|rewrite IH]; set_solver.
Qed.

Lemma known_device a r : r ∈ Apartment_getDevices a <-> is_Some (tryGetDeviceByDSID a r).
Proof.
  destruct (tryGetDeviceByDSID a r) as [p|] eqn:E.
  - apply tryGetDeviceByDSID_Some in E as [Hp <-]. split; [done|]. intros _.
    apply (list_elem_of_fmap_2 (fun p => d_DSID (the_device a p))), Hp.
  - apply (find_by_None (fun p => d_DSID (the_device a p))) in E. split; [done|]. by intros [? ?].
Qed.

(** Every member of a zone is a device of the apartment. *)
Lemma member_known a z r : consistent a -> z ∈ m_Zones a -> r ∈ getDevices a z -> r ∈ Apartment_getDevices a.
Proof.
  intros Hc Hz Hr. destruct (decide (z_ZoneID (the_zone a z) = 0)) as [E|E]; [by apply (zone_zero a Hc z)|].
  destruct (zone_members a Hc z Hz E r Hr) as (p & Hp & <- & _).
  by apply (list_elem_of_fmap_2 (fun p => d_DSID (the_device a p))).
Qed.

(** Deciding [consistent] by computation. *)
Definition zone_check (a : Apartment) (z : zptr) : bool :=
  bool_decide (NoDup (getDevices a z)) &&
  (if z_ZoneID (the_zone a z) =? 0
   then forallb (fun r => bool_decide (r ∈ Apartment_getDevices a)) (getDevices a z) &&
        forallb (fun r => bool_decide (r ∈ getDevices a z)) (Apartment_getDevices a)
   else forallb (fun r => existsb (fun p => bool_decide (d_DSID (the_device a p) = r) &&
          (d_ZoneID (the_device a p) =? z_ZoneID (the_zone a z))) (m_Devices a)) (getDevices a z)) &&
  forallb (fun g => g_ZoneID (the_group a g) =? z_ZoneID (the_zone a z)) (z_Groups (the_zone a z)).
Definition consistent_check (a : Apartment) : bool :=
  bool_decide (NoDup (Apartment_getDevices a)) &&
  bool_decide (NoDup (map (fun z => z_ZoneID (the_zone a z)) (m_Zones a))) &&
  forallb (zone_check a) (m_Zones a) &&
  forallb (fun p => bool_decide (NoDup (d_groupIds (the_device a p))) && forallb isValidGroup (d_groupIds (the_device a p))) (m_Devices a).

Lemma forallb_elem {A} (p : A -> bool) l : forallb p l = true <-> forall x, x ∈ l -> p x = true.
Proof. rewrite List.forallb_forall. by setoid_rewrite list_elem_of_In. Qed.

Lemma consistent_check_sound a : consistent_check a = true -> consistent a.
Proof.
  unfold consistent_check. intros H. repeat (apply andb_true_iff in H as [H ?]).
  rewrite bool_decide_eq_true in H, H2. rewrite forallb_elem in H0, H1.
  assert (forall z, z ∈ m_Zones a -> NoDup (getDevices a z) /\
    (if z_ZoneID (the_zone a z) =? 0
     then forall r, r ∈ getDevices a z <-> r ∈ Apartment_getDevices a
     else forall r, r ∈ getDevices a z -> exists p, p ∈ m_Devices a /\ d_DSID (the_device a p) = r /\
            d_ZoneID (the_device a p) = z_ZoneID (the_zone a z)) /\
    forall g, g ∈ z_Groups (the_zone a z) -> g_ZoneID (the_group a g) = z_ZoneID (the_zone a z)) as Hz.
  { intros z Hz. specialize (H1 z Hz). unfold zone_check in H1. repeat (apply andb_true_iff in H1 as [H1 ?]).
    rewrite bool_decide_eq_true in H1. split; [done|]. rewrite forallb_elem in H3. split.
    - destruct (_ =? 0).
      + apply andb_true_iff in H4 as [H4 H5]. rewrite forallb_elem in H4, H5. intros r. split.
        * intros Hr%H4. by apply bool_decide_eq_true in Hr.
        * intros Hr%H5. by apply bool_decide_eq_true in Hr.
      + rewrite forallb_elem in H4. intros r Hr%H4. apply List.existsb_exists in Hr as (p & Hp & Hr).
        apply andb_true_iff in Hr as [Hr1 Hr2]. rewrite bool_decide_eq_true in Hr1. apply Z.eqb_eq in Hr2.
        exists p. by rewrite list_elem_of_In.
    - intros g Hg%H3. by apply Z.eqb_eq. }
  split; try done.
  - intros z Hz'. by apply Hz.
  - intros z Hz' E. apply Hz in Hz' as (_ & Hz' & _). by rewrite E in Hz'.
  - intros z Hz' E. apply Hz in Hz' as (_ & Hz' & _). by rewrite (proj2 (Z.eqb_neq _ _) E) in Hz'.
  - intros z Hz'. by apply Hz.
  - intros p Hp%H0. apply andb_true_iff in Hp as [Hp1 Hp2]. rewrite bool_decide_eq_true in Hp1. split; [done|].
    rewrite forallb_elem in Hp2. by apply Forall_forall.
Qed.
