(* ===== verification/DeviceInfo.v ===== *)
(** [src/src/model/device.cpp]: what a device says about itself, read off its
    function and product identifiers, its serial number and its configuration:
    type, class, features, roles in a pair of inputs, texts and tables. *)
From stdpp Require Import base option list strings gmap.
From Stdlib Require Import ZArith Lia Ascii.
From Stdlib Require String.
From S2P Require Import Prelude CxxString Base NumConv Ds485types ModelConst DataTypes Calendar DateTools ApartmentModel.

Open Scope string_scope.
Open Scope list_scope.
Open Scope Z_scope.

(** [DeviceTypes_t] *)
Module DeviceType.
Definition DEVICE_TYPE_INVALID : Z := -1.
Definition DEVICE_TYPE_KM : Z := 0.
Definition DEVICE_TYPE_TKM : Z := 1.
Definition DEVICE_TYPE_SDM : Z := 2.
Definition DEVICE_TYPE_KL : Z := 3.
Definition DEVICE_TYPE_TUP : Z := 4.
Definition DEVICE_TYPE_ZWS : Z := 5.
Definition DEVICE_TYPE_SDS : Z := 6.
Definition DEVICE_TYPE_SK : Z := 7.
Definition DEVICE_TYPE_AKM : Z := 8.
Definition DEVICE_TYPE_TNY : Z := 10.
Definition DEVICE_TYPE_UMV : Z := 11.
Definition DEVICE_TYPE_UMR : Z := 12.
End DeviceType.
Import DeviceType DeviceClass.

Definition OUTPUT_MODE_TWO_STAGE_SWITCH : Z := 34.
Definition OUTPUT_MODE_SWITCH_2_POL : Z := 35.
Definition OUTPUT_MODE_THREE_STAGE_SWITCH : Z := 38.
Definition OUTPUT_MODE_BIPOLAR_SWITCH : Z := 43.
Definition OUTPUT_MODE_TEMPCONTROL_SWITCHED : Z := 65.
Definition OUTPUT_MODE_TEMPCONTROL_2OUT_2STEPS : Z := 67.
Definition OUTPUT_MODE_TEMPCONTROL_2OUT_3STEPS : Z := 68.
Definition OUTPUT_MODE_TEMPCONTROL_2OUT_PARALLEL : Z := 69.

Definition ProductID_KL_210 : Z := 0x0CD2.
Definition ProductID_UMV_210 : Z := 0x2CD2.

(** [::tolower] in the C locale. *)
Definition tolower (c : ascii) : ascii :=
  let n := Z.of_nat (nat_of_ascii c) in
  if (65 <=? n) && (n <=? 90) then ascii_of_nat (Z.to_nat (n + 32)) else c.
Fixpoint lower (s : string) : string :=
  match s with String.EmptyString => "" | String.String c s => String.String (tolower c) (lower s) end.

(** ** Type, class and capabilities *)

Definition getDeviceType (d : Device) : Z :=
  if d_ProductID d =? 0 then DEVICE_TYPE_INVALID
  else
    let t := Z.land (Z.shiftr (d_ProductID d) 10) 0x3f in
    if existsb (Z.eqb t) [0; 1; 2; 3; 4; 5; 6; 7; 8; 10; 11; 12] then t else DEVICE_TYPE_INVALID.

Definition getDeviceTypeString (_type : Z) : string :=
  switch _type
    [([DEVICE_TYPE_KM], "KM"); ([DEVICE_TYPE_TKM], "TKM"); ([DEVICE_TYPE_SDM], "SDM"); ([DEVICE_TYPE_KL], "KL");
     ([DEVICE_TYPE_TUP], "TUP"); ([DEVICE_TYPE_ZWS], "ZWS"); ([DEVICE_TYPE_SDS], "SDS"); ([DEVICE_TYPE_SK], "SK");
     ([DEVICE_TYPE_AKM], "AKM"); ([DEVICE_TYPE_TNY], "TNY"); ([DEVICE_TYPE_UMV], "UMV"); ([DEVICE_TYPE_UMR], "UMR")] "".

Definition getColorString (_class : Z) : string :=
  switch _class
    [([DEVICE_CLASS_GE], "yellow"); ([DEVICE_CLASS_GR], "grey"); ([DEVICE_CLASS_BL], "blue"); ([DEVICE_CLASS_TK], "cyan");
     ([DEVICE_CLASS_MG], "magenta"); ([DEVICE_CLASS_RT], "red"); ([DEVICE_CLASS_GN], "green"); ([DEVICE_CLASS_SW], "black");
     ([DEVICE_CLASS_WE], "white")] "".

Definition getDeviceClassString (_class : Z) : string :=
  switch _class
    [([DEVICE_CLASS_GE], "GE"); ([DEVICE_CLASS_GR], "GR"); ([DEVICE_CLASS_BL], "BL"); ([DEVICE_CLASS_TK], "TK");
     ([DEVICE_CLASS_MG], "MG"); ([DEVICE_CLASS_RT], "RT"); ([DEVICE_CLASS_GN], "GN"); ([DEVICE_CLASS_SW], "SW");
     ([DEVICE_CLASS_WE], "WE")] "".

Definition function_subclass (d : Device) : Z := Z.shiftr (Z.land (d_FunctionID d) 0xfc0) 6.
Definition function_module (d : Device) : Z := Z.land (d_FunctionID d) 0x3f.

Definition hasMultibuttons (d : Device) : bool :=
  let subclass := function_subclass d in
  let funcmodule := function_module d in
  ((subclass =? 0x04) && (Z.land funcmodule 0x3 >? 1)) || ((subclass =? 0x07) && (Z.land funcmodule 0x3 >? 1))
  || ((subclass =? 0x08) && (Z.land funcmodule 0x3 >? 1)).

Definition hasInput (d : Device) : bool :=
  let subclass := function_subclass d in
  let funcmodule := function_module d in
  ((subclass =? 0x04) && (Z.land funcmodule 0x3 >? 0)) || ((subclass =? 0x07) && (Z.land funcmodule 0x3 >? 0))
  || ((subclass =? 0x08) && (Z.land funcmodule 0x3 >? 0)).

Definition hasOutput (d : Device) : bool :=
  (Z.land (function_module d) 0x10 =? 0x10) || (d_FunctionID d =? 0x6001).

Definition isInternallyControlled (d : Device) : bool := function_subclass d =? 0x08.

Definition getRevisionID (d : Device) : Z := if d_isVdcDevice d then 0 else d_RevisionID d.

Definition isValveDevice (d : Device) : bool :=
  hasOutput d &&
  ((negb (isInternallyControlled d) && (getDeviceClass d =? DEVICE_CLASS_BL))
   || ((getDeviceType d =? DEVICE_TYPE_UMR) && (getRevisionID d >=? 0x0383))
   || ((getDeviceType d =? DEVICE_TYPE_ZWS) && (getDeviceNumber d =? 205))).

Definition hasBlinkSettings (d : Device) : bool :=
  (getDeviceType d =? DEVICE_TYPE_UMR) || (getDeviceClass d =? DEVICE_CLASS_GE)
  || (((getDeviceType d =? DEVICE_TYPE_KL) || (getDeviceType d =? DEVICE_TYPE_ZWS)) && (getDeviceClass d =? DEVICE_CLASS_SW)).

Definition hasExtendendSceneTable (d : Device) : bool :=
  (Z.shiftr (Z.land (d_FunctionID d) 0xf000) 12 =? GroupIDGray)
  && (Z.land (Z.shiftr (d_ProductID d) 10) 0x3f =? DEVICE_TYPE_KL).

Definition is_ZWS205 (d : Device) : bool := (getDeviceType d =? DEVICE_TYPE_ZWS) && (getDeviceNumber d =? 205).

Definition isOn (d : Device) : bool :=
  negb (existsb (Z.eqb (d_LastCalledScene d)) [SceneOff; SceneMin; SceneDeepOff; SceneStandBy]).

(** The sensors a device has by its type, in the order of their indices. *)
Definition fillSensorTable (d : Device) (_slist : list SensorType.t) : list SensorType.t :=
  let devType := Z.lor (Z.shiftl (getDeviceClass d) 16) (d_ProductID d) in
  let common := [SensorType.Reserved1; SensorType.Reserved2; SensorType.ActivePower; SensorType.OutputCurrent;
                 SensorType.ElectricMeter] in
  if d_isVdcDevice d then _slist
  else
    switch devType
      [([0x100c8; 0x104d2; 0x108c8; 0x300c8; 0x600c8; 0x608c8; 0x700c8; 0x704c8; 0x704d2], _slist ++ common);
       ([0x118c8; 0x118c9; 0x118ca], _slist ++ common ++ [SensorType.ActivePowerVA]);
       ([0x10cc8; 0x20cc8; 0x20cd2; 0x20cdc; 0x80cc8; 0x814c8; 0x814c9; 0x814ca],
        _slist ++ common ++ [SensorType.OutputCurrent16A; SensorType.ActivePowerVA])]
      [].

(** ** Serial number: position among the devices of one housing *)

Section Serial.
Context `{Dsuid}.

Definition device_count (d : Device) : Z :=
  if (getDeviceType d =? DEVICE_TYPE_UMV) && (getDeviceNumber d =? 200) && (getDeviceClass d =? DEVICE_CLASS_GE) then 4
  else if (getDeviceType d =? DEVICE_TYPE_UMR) && (getDeviceNumber d =? 200) && (getDeviceClass d =? DEVICE_CLASS_SW) then 4
  else if (getDeviceType d =? DEVICE_TYPE_SK) && (getDeviceNumber d =? 204) then 2
  else if Z.land (d_FunctionID d) 0xffc0 =? 0x1000 then
    switch (Z.land (d_FunctionID d) 0x7) [([0], 1); ([1], 2); ([2], 4); ([7], 1)] 1
  else if existsb (Z.eqb (Z.land (d_FunctionID d) 0x0fc0)) [0x0100; 0x01c0; 0x0200] then
    switch (Z.land (d_FunctionID d) 0x3) [([0], 1); ([1], 1); ([2], 2); ([3], 4)] 1
  else 1.

Definition multiDeviceIndex (d : Device) : Z :=
  match dsuid_get_serial_number (d_DSID d) with
  | Some serial => Z.land serial 0xff mod device_count d
  | None => 0
  end.

Definition isMainDevice (d : Device) : bool :=
  let m_pairedDevices := di_pairedDevices (d_info d) in
  if m_pairedDevices =? 0 then true
  else
    match dsuid_get_serial_number (d_DSID d) with
    | Some serial => serial mod uint32 m_pairedDevices =? 0
    | None => true
    end.

Definition has_hidden_devices (d : Device) : bool :=
  (getDeviceType d =? DEVICE_TYPE_TNY) || ((getDeviceType d =? DEVICE_TYPE_SK) && (getDeviceNumber d =? 204)).

Definition getPairedDevices (d : Device) : Z := if has_hidden_devices d then di_pairedDevices (d_info d) else 0.

Definition isVisible (d : Device) : bool := if has_hidden_devices d then di_visible (d_info d) else true.

(** [DeviceFeatures_t] *)
Record DeviceFeatures_t := mkFeatures { pairing : bool; syncButtonID : bool; hasOutputAngle : bool; posTimeMax : bool }.

Definition getDeviceFeatures (d : Device) : DeviceFeatures_t :=
  if (d_ProductID d =? 0) || (d_FunctionID d =? 0) then mkFeatures false false false false
  else
    let devType := getDeviceType d in
    let devNumber := getDeviceNumber d in
    let devCls := getDeviceClass d in
    let index := di_ButtonInputIndex (d_info d) in
    let '(p, s) :=
      if (devCls =? DEVICE_CLASS_SW) && (devType =? DEVICE_TYPE_TKM) && ((devNumber =? 200) || (devNumber =? 210))
         && hasMultibuttons d && ((index =? 0) || (index =? 2)) then (true, true)
      else if (devCls =? DEVICE_CLASS_GE) && (devType =? DEVICE_TYPE_SDS)
         && ((Z.quot devNumber 10 =? 20) || (Z.quot devNumber 10 =? 22)) && hasMultibuttons d && (index =? 0) then (true, false)
      else if (devCls =? DEVICE_CLASS_SW) && (devType =? DEVICE_TYPE_UMR) && (devNumber =? 200) then
        if multiDeviceIndex d =? 0 then (true, true)
        else if multiDeviceIndex d =? 2 then (true, false) else (false, false)
      else (false, false) in
    let grey_clamp := (devCls =? DEVICE_CLASS_GR) && (devType =? DEVICE_TYPE_KL) in
    mkFeatures p s (grey_clamp && ((devNumber =? 220) || (devNumber =? 230))) (grey_clamp && (getRevisionID d >=? 0x360)).

(** ** Pairs of inputs or outputs that act as one *)

Definition paired_output_mode (m : Z) : bool :=
  existsb (Z.eqb m)
    [OUTPUT_MODE_TWO_STAGE_SWITCH; OUTPUT_MODE_BIPOLAR_SWITCH; OUTPUT_MODE_THREE_STAGE_SWITCH;
     OUTPUT_MODE_TEMPCONTROL_2OUT_2STEPS; OUTPUT_MODE_TEMPCONTROL_2OUT_3STEPS; OUTPUT_MODE_TEMPCONTROL_2OUT_PARALLEL].

(** A [std::runtime_error] in the condition leaves [ret] false. *)
Definition or_false (r : res bool) : res bool := try_catch r is_runtime_error (fun _ => Ok false).

Definition and_then (b : bool) (r : res bool) : res bool := if b then r else Ok false.

Definition is2WayMaster (d : Device) : res bool :=
  let mode := di_ButtonInputMode (d_info d) in
  let mode_is m := bool_decide (mode = m) in
  if negb (pairing (getDeviceFeatures d)) then Ok false
  else
    or_false
      (if (multiDeviceIndex d =? 2) && (getDeviceType d =? DEVICE_TYPE_UMR) then
         and_then (paired_output_mode (di_OutputMode (d_info d))) (IsEvenDsuid (d_DSID d))
       else if hasInput d then
         if mode_is ButtonInputMode.TWO_WAY_DW_WITH_INPUT2 || mode_is ButtonInputMode.TWO_WAY_DW_WITH_INPUT4
            || mode_is ButtonInputMode.TWO_WAY_UP_WITH_INPUT2 || mode_is ButtonInputMode.TWO_WAY_UP_WITH_INPUT4 then Ok true
         else and_then (mode_is ButtonInputMode.TWO_WAY || mode_is ButtonInputMode.ONE_WAY) (IsEvenDsuid (d_DSID d))
       else Ok false).

Definition is2WaySlave (d : Device) : res bool :=
  let mode := di_ButtonInputMode (d_info d) in
  let mode_is m := bool_decide (mode = m) in
  let odd := even ← IsEvenDsuid (d_DSID d); Ok (negb even) in
  if negb (multiDeviceIndex d =? 3) && (getDeviceType d =? DEVICE_TYPE_UMR) && negb (hasInput d) then Ok false
  else
    or_false
      (if (getDeviceType d =? DEVICE_TYPE_UMR) && (multiDeviceIndex d =? 3) then
         and_then (paired_output_mode (di_OutputMode (d_info d))) odd
       else if hasInput d
            && existsb (Z.eqb (getDeviceType d)) [DEVICE_TYPE_SDS; DEVICE_TYPE_TKM; DEVICE_TYPE_UMR] then
         if mode_is ButtonInputMode.TWO_WAY_DW_WITH_INPUT1 || mode_is ButtonInputMode.TWO_WAY_DW_WITH_INPUT3
            || mode_is ButtonInputMode.TWO_WAY_UP_WITH_INPUT1 || mode_is ButtonInputMode.TWO_WAY_UP_WITH_INPUT3 then Ok true
         else and_then (mode_is ButtonInputMode.SDS_SLAVE_M1_M2) odd
       else Ok false).

Definition getSWThresholdAddress (d : Device) : res Z :=
  let t := getDeviceType d in
  let fail := Throw (RuntimeError "Device does not support changing the switching threshold") in
  if existsb (Z.eqb t) [DEVICE_TYPE_KM; DEVICE_TYPE_SDM; DEVICE_TYPE_SDS; DEVICE_TYPE_TKM] then Ok 0x43
  else if (t =? DEVICE_TYPE_KL) || (t =? DEVICE_TYPE_ZWS) then
    if (getDeviceClass d =? DEVICE_CLASS_GE) || (getDeviceClass d =? DEVICE_CLASS_SW) then Ok 0x3C else fail
  else if t =? DEVICE_TYPE_UMV then if getDeviceClass d =? DEVICE_CLASS_GE then Ok 0x43 else fail
  else if t =? DEVICE_TYPE_TNY then
    if (getDeviceClass d =? DEVICE_CLASS_SW) && isMainDevice d then Ok 0x30 else fail
  else if t =? DEVICE_TYPE_UMR then if getDeviceClass d =? DEVICE_CLASS_SW then Ok 0x30 else fail
  else if getDeviceClass d =? DEVICE_CLASS_BL then Ok 0x43 else fail.

(** The last digits of the dSID, the identifier a connector gives, or the start
    of the dSUID with an ellipsis; then the index in the housing. *)
Definition getDisplayID (d : Device) : string :=
  let displayID :=
    match lib_dsuid_to_dsid (d_DSID d) with
    | Some dsid => let s := dsid2str dsid in sdrop (slen s - 8) s
    | None =>
      if negb (is_empty (di_VdcDisplayID (d_info d))) then di_VdcDisplayID (d_info d)
      else if negb (is_empty (di_VdcHardwareGuid (d_info d))) then
        let g := di_VdcHardwareGuid (d_info d) in
        match sfind ":" g with Some pos => sdrop (pos + 1) g | None => g end
      else stake 8 (dsuid2str (d_DSID d)) +:+ String "226" (String "128" (String "166" ""))
    end in
  let index := nth 16 (d_DSID d) 0 in
  if index =? 0 then displayID else displayID +:+ "-" +:+ intToString index false.
End Serial.

(** ** Product texts *)

Definition updateIconPath (d : Device) : string :=
  let i := d_info d in
  if bool_decide (di_OemProductInfoState i = DEVICE_OEM_VALID) && negb (is_empty (di_OemProductIcon i)) then di_OemProductIcon i
  else if negb (is_empty (di_VdcIconPath i)) then di_VdcIconPath i
  else
    let deviceClass := getDeviceClass d in
    let deviceType := getDeviceType d in
    if deviceClass =? DEVICE_CLASS_INVALID then "unknown.png"
    else
      let base :=
        if (deviceType =? DEVICE_TYPE_KL) && ((getDeviceNumber d =? 213) || (getDeviceNumber d =? 214)) then "ssl"
        else if is_ZWS205 d then "zws205"
        else if (deviceType =? DEVICE_TYPE_SDM) && ((getDeviceNumber d =? 201) || (getDeviceNumber d =? 202)) then "sdm_plug"
        else lower (getDeviceTypeString deviceType) in
      (if is_empty base then "star" else base) +:+ "_" +:+ getColorString deviceClass +:+
      (if deviceClass =? DEVICE_CLASS_SW
       then "_" +:+ getColorString (getApplicationTypeColor (ApplicationType.of_Z (di_ActiveGroup i))) else "") +:+ ".png".

(** [displayName] is what libdsm-api knows of the hardware. *)
Definition calculateHWInfo (displayName : option string) (d : Device) : string :=
  let i := d_info d in
  if bool_decide (di_OemProductInfoState i = DEVICE_OEM_VALID) && negb (is_empty (di_OemProductName i)) then di_OemProductName i
  else if negb (is_empty (di_VdcHardwareInfo i)) then di_VdcHardwareInfo i
  else
    match displayName with
    | Some n => n
    | None =>
      getDeviceClassString (getDeviceClass d) +:+ "-" +:+ getDeviceTypeString (getDeviceType d) +:+ intToString (getDeviceNumber d) false
    end.

Definition oemStateToString (_state : DeviceOEMState) : string :=
  match _state with
  | DEVICE_OEM_UNKNOWN => "Unknown" | DEVICE_OEM_NONE => "None" | DEVICE_OEM_LOADING => "Loading" | DEVICE_OEM_VALID => "Valid"
  end.

Definition getOemStateFromString (_string : string) : DeviceOEMState :=
  if String.eqb _string "None" then DEVICE_OEM_NONE
  else if String.eqb _string "Valid" then DEVICE_OEM_VALID else DEVICE_OEM_UNKNOWN.

Definition oemInetStateToString (_state : DeviceOEMInetState) : string :=
  match _state with
  | DEVICE_OEM_EAN_NO_EAN_CONFIGURED => "No EAN"
  | DEVICE_OEM_EAN_NO_INTERNET_ACCESS => "No Internet"
  | DEVICE_OEM_EAN_INTERNET_ACCESS_OPTIONAL => "Internet optional"
  | DEVICE_OEM_EAN_INTERNET_ACCESS_MANDATORY => "Internet mandatory"
  end.

Definition getOemInetStateFromString (_string : string) : DeviceOEMInetState :=
  if String.eqb _string "No EAN" then DEVICE_OEM_EAN_NO_EAN_CONFIGURED
  else if String.eqb _string "No Internet" then DEVICE_OEM_EAN_NO_INTERNET_ACCESS
  else if String.eqb _string "Internet optional" then DEVICE_OEM_EAN_INTERNET_ACCESS_OPTIONAL
  else if String.eqb _string "Internet mandatory" then DEVICE_OEM_EAN_INTERNET_ACCESS_MANDATORY
  else DEVICE_OEM_EAN_NO_EAN_CONFIGURED.

Definition valveTypeToString (_type : DeviceValveType) : string :=
  match _type with
  | DEVICE_VALVE_UNKNOWN => "Unknown" | DEVICE_VALVE_FLOOR => "Floor"
  | DEVICE_VALVE_RADIATOR => "Radiator" | DEVICE_VALVE_WALL => "Wall"
  end.

Definition getValveTypeFromString (_string : string) : option DeviceValveType :=
  if String.eqb _string "Floor" then Some DEVICE_VALVE_FLOOR
  else if String.eqb _string "Radiator" then Some DEVICE_VALVE_RADIATOR
  else if String.eqb _string "Wall" then Some DEVICE_VALVE_WALL
  else if String.eqb _string "Unknown" then Some DEVICE_VALVE_UNKNOWN
  else None.

Definition getAKMButtonInputString (mode : ButtonInputMode.t) : string :=
  match mode with
  | ButtonInputMode.AKM_STANDARD => "standard"
  | ButtonInputMode.AKM_INVERTED => "inverted"
  | ButtonInputMode.AKM_ON_RISING_EDGE => "on_rising_edge"
  | ButtonInputMode.AKM_ON_FALLING_EDGE => "on_falling_edge"
  | ButtonInputMode.AKM_OFF_RISING_EDGE => "off_rising_edge"
  | ButtonInputMode.AKM_OFF_FALLING_EDGE => "off_falling_edge"
  | ButtonInputMode.AKM_RISING_EDGE => "rising_edge"
  | ButtonInputMode.AKM_FALLING_EDGE => "falling_edge"
  | _ => ""
  end.

(** ** Coupled products and locked clusters *)

Definition isOemCoupledWith (d _otherDev : Device) : bool :=
  let i := d_info d in
  let o := d_info _otherDev in
  bool_decide (di_OemState i = DEVICE_OEM_VALID) && negb (di_OemIsIndependent i) && (di_OemSerialNumber i >? 0)
  && d_isPresent d && d_isPresent _otherDev && negb (di_OemIsIndependent o)
  && bool_decide (di_OemState o = DEVICE_OEM_VALID)
  && negb (bool_decide (d_DSID _otherDev = d_DSID d)) && negb (bool_decide (d_DSMeterDSID _otherDev = d_DSMeterDSID d))
  && (di_OemEanNumber o =? di_OemEanNumber i) && (di_OemSerialNumber o =? di_OemSerialNumber i).

(** The clusters of the device, as the loops over its groups meet them. *)
Fixpoint locked_clusters (a : Apartment) (groupIds : list Z) : res (list ClusterData) :=
  match groupIds with
  | [] => Ok []
  | gid :: groupIds =>
    if isAppUserGroup gid then
      g ← getCluster a gid;
      match g_cluster (the_group a g) with
      | Some c => rest ← locked_clusters a groupIds; Ok (if c_ConfigurationLocked c then c :: rest else rest)
      | None => Throw (UndefinedBehaviour "no cluster")
      end
    else locked_clusters a groupIds
  end.

Definition getLockedScenes (a : Apartment) (d : Device) : res (list Z) :=
  cs ← locked_clusters a (d_groupIds d); Ok (concat (map c_LockedScenes cs)).

(** The loop stops at the first locked cluster. *)
Fixpoint in_locked_cluster (a : Apartment) (groupIds : list Z) : res bool :=
  match groupIds with
  | [] => Ok false
  | gid :: groupIds =>
    if isAppUserGroup gid then
      g ← getCluster a gid;
      if from_option c_ConfigurationLocked false (g_cluster (the_group a g)) then Ok true else in_locked_cluster a groupIds
    else in_locked_cluster a groupIds
  end.
Definition isInLockedCluster (a : Apartment) (d : Device) : res bool := in_locked_cluster a (d_groupIds d).
