(* ===== verification/DeviceSet.v ===== *)
(** [class Set] of [src/src/model/set.cpp]: lists of device references without
    duplicates, their selections, union and difference; the same operations on
    the devices of a meter ([modulator.cpp]).

    Selections that look at the devices resolve the references one by one, so
    they throw when a device has left the apartment. *)
From stdpp Require Import base option list strings gmap.
From Stdlib Require Import ZArith Lia Ascii PrimFloat.
From Stdlib Require String.
From S2P Require Import Prelude CxxString Base NumConv Ds485types ModelConst DataTypes PropertyTree ApartmentModel.

Open Scope string_scope.
Open Scope list_scope.
Open Scope Z_scope.

(** * The container *)

(** [m_ContainedDevices] *)
Definition DeviceSet := list DeviceReference.

Definition length_ (s : DeviceSet) : Z := Z.of_nat (length s).
Definition isEmpty (s : DeviceSet) : bool := length_ s =? 0.
Definition contains (s : DeviceSet) (_device : DeviceReference) : bool := bool_decide (_device ∈ s).
Definition addDevice (s : DeviceSet) (_device : DeviceReference) : DeviceSet :=
  if contains s _device then s else s ++ [_device].

(** [erase(find(...))] *)
Fixpoint removeDevice (s : DeviceSet) (_device : DeviceReference) : DeviceSet :=
  match s with
  | [] => []
  | x :: s => if bool_decide (x = _device) then s else x :: removeDevice s _device
  end.

(** The elements of this set are added to a copy of the other one. *)
Definition combine (s _other : DeviceSet) : DeviceSet :=
  foldl (fun resultSet iDevice => if contains resultSet iDevice then resultSet else addDevice resultSet iDevice) _other s.
Definition remove (s _other : DeviceSet) : DeviceSet := foldl removeDevice s _other.

Definition get (s : DeviceSet) (_index : Z) : res DeviceReference :=
  match (if _index <? 0 then None else s !! Z.to_nat _index) with
  | Some r => Ok r
  | None => Throw (OutOfRange "vector::_M_range_check")
  end.

(** * Selections *)

Section Selections.
Context (a : Apartment).

(** [for(dev : m_ContainedDevices) if(p(dev.getDevice())) result.addDevice(dev)] *)
Fixpoint select (p : Device -> bool) (s result : DeviceSet) : res DeviceSet :=
  match s with
  | [] => Ok result
  | r :: s => d ← getDevice a r; select p s (if p (the_device a d) then addDevice result r else result)
  end.

Definition getSubset (s : DeviceSet) (_selector : Device -> bool) : res DeviceSet := select _selector s [].

Definition getByGroup (s : DeviceSet) (_groupNr : Z) : res DeviceSet :=
  if negb (_groupNr =? GroupIDBroadcast) then getSubset s (fun d => isInGroup d _groupNr) else Ok s.
Definition getByGroup_name (s : DeviceSet) (_name : string) : res DeviceSet :=
  if isEmpty s then Ok []
  else r ← get s 0; _ ← getDevice a r; g ← Apartment_getGroup_name a _name; getByGroup s (g_GroupID (the_group a g)).
Definition getByColor (s : DeviceSet) (_color : Z) : res DeviceSet := getSubset s (fun d => getDeviceClass d =? _color).
Definition getByZone (s : DeviceSet) (_zoneID : Z) : res DeviceSet :=
  if negb (_zoneID =? 0) then select (fun d => d_ZoneID d =? _zoneID) s [] else Ok s.
Definition getByZone_name (s : DeviceSet) (_zoneName : string) : res DeviceSet :=
  if isEmpty s then Ok []
  else r ← get s 0; _ ← getDevice a r; z ← getZone_name a _zoneName; getByZone s (z_ZoneID (the_zone a z)).
Definition getByDSMeter (s : DeviceSet) (_dsMeterDSID : dsuid_t) : res DeviceSet :=
  select (fun d => bool_decide (d_DSMeterDSID d = _dsMeterDSID)) s [].
Definition getByLastKnownDSMeter (s : DeviceSet) (_dsMeterDSID : dsuid_t) : res DeviceSet :=
  select (fun d => bool_decide (d_LastKnownMeterDSID d = _dsMeterDSID)) s [].
Definition getByFunctionID (s : DeviceSet) (_functionID : Z) : res DeviceSet :=
  select (fun d => d_FunctionID d =? _functionID) s [].
Definition getByPresence (s : DeviceSet) (_presence : bool) : res DeviceSet :=
  select (fun d => Bool.eqb (d_isPresent d) _presence) s [].
Definition getBySensorType (s : DeviceSet) (_type : SensorType.t) : res DeviceSet :=
  getSubset s (fun d => res_ok (getSensorByType d _type)).

(** The first device of a selection, or the exception. *)
Definition front_of (resultSet : DeviceSet) (what : string) : res DeviceReference :=
  match resultSet with [] => Throw (ItemNotFound what) | r :: _ => Ok r end.

Definition getByName (s : DeviceSet) (_name : string) : res DeviceReference :=
  resultSet ← getSubset s (fun d => String.eqb (d_Name d) _name); front_of resultSet _name.
Definition getByBusID (s : DeviceSet) (_id : Z) (_dsid : dsuid_t) : res DeviceReference :=
  resultSet ← getSubset s (fun d => (d_ShortAddress d =? _id) && bool_decide (d_DSMeterDSID d = _dsid));
  front_of resultSet ("with busid " +:+ intToString _id false).
Definition getByDSID (s : DeviceSet) (_dsid : dsuid_t) : res DeviceReference :=
  resultSet ← getSubset s (fun d => bool_decide (d_DSID d = _dsid)); front_of resultSet ("with dsid " +:+ dsuid2str _dsid).
Definition getBySerial `{Dsuid} (s : DeviceSet) (_serial : Z) : res DeviceReference :=
  resultSet ← getSubset s (fun d =>
    if negb (d_isVdcDevice d) then
      match dsuid_get_serial_number (d_DSID d) with Some serialNumber => serialNumber =? _serial | None => false end
    else false);
  front_of resultSet ("with serial " +:+ uintToString _serial true).

(** [unsigned long] *)
Fixpoint consumption (s : DeviceSet) (result : Z) : res Z :=
  match s with
  | [] => Ok result
  | r :: s => d ← getDevice a r; consumption s (wrapU 64 (result + d_Consumption (the_device a d)))
  end.
Definition getPowerConsumption (s : DeviceSet) : res Z := consumption s 0.

(** [Group::getDevices] *)
Definition Group_getDevices (g : gptr) : res DeviceSet :=
  z ← getZone a (g_ZoneID (the_group a g)); getByGroup (getDevices a z) (g_GroupID (the_group a g)).
End Selections.

(** [getByTag]: a tag is a child of the node of tags. *)
Section Tags.
Context {Ext : Type} (a : Apartment).
Definition hasTag (d : Device) (_tagName : string) : SE (heap Ext) bool :=
  match d_TagsNode d with
  | Some n => p ← getPropertyByName n _tagName; mret (bool_decide (is_Some p))
  | None => mret false
  end.
Fixpoint getByTag_loop (_tagName : string) (s result : DeviceSet) : SE (heap Ext) DeviceSet :=
  match s with
  | [] => mret result
  | r :: s =>
    d ← se_lift (S := heap Ext) (getDevice a r);
    b ← hasTag (the_device a d) _tagName;
    getByTag_loop _tagName s (if (b : bool) then addDevice result r else result)
  end.
Definition getByTag (s : DeviceSet) (_tagName : string) : SE (heap Ext) DeviceSet := getByTag_loop _tagName s [].
End Tags.

(** * Facts *)

Lemma addDevice_In s d x : x ∈ addDevice s d <-> x ∈ s \/ x = d.
Proof. unfold addDevice, contains. case_bool_decide; set_solver. Qed.

Lemma addDevice_NoDup s d : NoDup s -> NoDup (addDevice s d).
Proof.
  unfold addDevice, contains. case_bool_decide; [done|]. intros Hs. apply NoDup_app. split; [done|].
  split; [|apply NoDup_singleton]. intros x Hx ->%list_elem_of_singleton. done.
Qed.

Lemma removeDevice_sub s d x : x ∈ removeDevice s d -> x ∈ s.
Proof. induction s as [|y s IH]; [done|]. cbn. case_bool_decide; set_solver. Qed.

Lemma removeDevice_In s d x : NoDup s -> x ∈ removeDevice s d <-> x ∈ s /\ x <> d.
Proof.
  induction 1 as [|y s Hy Hs IH]; [set_solver|]. cbn. case_bool_decide; subst; set_solver.
Qed.

Lemma removeDevice_NoDup s d : NoDup s -> NoDup (removeDevice s d).
Proof.
  induction 1 as [|y s Hy Hs IH]; cbn; [constructor|]. case_bool_decide; [done|].
  constructor; [|done]. by intros ?%removeDevice_sub.
Qed.

#[export] Hint Resolve addDevice_NoDup removeDevice_NoDup : dss.

Lemma combine_fold s o : combine s o = foldl addDevice o s.
Proof.
  unfold combine. revert o. induction s as [|d s IH]; intros o; [done|]. cbn. rewrite <- IH.
  unfold addDevice. by destruct (contains o d).
Qed.

Lemma combine_spec s o x : x ∈ combine s o <-> x ∈ s \/ x ∈ o.
Proof. rewrite combine_fold. revert o. induction s as [|d s IH]; intros o; cbn; [set_solver|]. rewrite IH, addDevice_In. set_solver. Qed.

Lemma combine_NoDup s o : NoDup o -> NoDup (combine s o).
Proof. rewrite combine_fold. revert o. induction s as [|d s IH]; intros o Ho; cbn; [done|]. auto with dss. Qed.

Lemma remove_NoDup s o : NoDup s -> NoDup (remove s o).
Proof. unfold remove. revert s. induction o as [|d o IH]; intros s Hs; cbn; [done|]. auto with dss. Qed.

Lemma remove_spec s o x : NoDup s -> x ∈ remove s o <-> x ∈ s /\ x ∉ o.
Proof.
  unfold remove. revert s. induction o as [|d o IH]; intros s Hs; cbn; [set_solver|].
  rewrite IH by auto with dss. rewrite removeDevice_In by done. set_solver.
Qed.

(** References that are resolved. *)
Definition resolved (a : Apartment) (s : DeviceSet) : Prop := Forall (fun r => is_Some (tryGetDeviceByDSID a r)) s.

(** The device a reference stands for. *)
Definition device_of (a : Apartment) (r : DeviceReference) : Device :=
  from_option (the_device a) no_device (tryGetDeviceByDSID a r).

Lemma getDevice_Ok a r p : getDevice a r = Ok p <-> tryGetDeviceByDSID a r = Some p.
Proof. unfold getDevice, getDeviceByDSID. destruct (tryGetDeviceByDSID a r); naive_solver. Qed.

Lemma device_of_Ok a r p : getDevice a r = Ok p -> the_device a p = device_of a r.
Proof. rewrite getDevice_Ok. unfold device_of. by intros ->. Qed.

Lemma select_run a p s result : NoDup (result ++ s) -> resolved a s ->
  select a p s result = Ok (result ++ List.filter (fun r => p (device_of a r)) s).
Proof.
  intros Hn Hr. revert result Hn. induction Hr as [|r s [d Hd] Hr IH]; intros result Hn; cbn; [by rewrite app_nil_r|].
  assert (getDevice a r = Ok d) as E by by apply getDevice_Ok.
  rewrite E. cbn [mbind res_bind]. rewrite (device_of_Ok _ _ _ E).
  apply NoDup_app in Hn as Hn'. destruct Hn' as (H1 & H2 & H3). apply NoDup_cons in H3 as [H3 H4].
  destruct (p (device_of a r)).
  - unfold addDevice, contains. rewrite bool_decide_eq_false_2 by set_solver.
    rewrite IH by (by rewrite <- app_assoc). by rewrite <- app_assoc.
  - apply IH. apply NoDup_app. set_solver.
Qed.

Lemma select_unresolved a p s result : NoDup s -> (exists e, select a p s result = Throw e) -> ~ resolved a s.
Proof.
  intros _ [e He] Hr. revert result He. induction Hr as [|r s [d Hd] Hr IH]; intros result; cbn; [done|].
  assert (getDevice a r = Ok d) as -> by by apply getDevice_Ok. cbn. apply IH.
Qed.

Lemma getSubset_run a s p : NoDup s -> resolved a s ->
  getSubset a s p = Ok (List.filter (fun r => p (device_of a r)) s).
Proof. intros Hn Hr. unfold getSubset. by rewrite select_run. Qed.

Lemma filter_all (s : DeviceSet) p : (forall r, r ∈ s -> p r = true) -> List.filter p s = s.
Proof.
  induction s as [|r s IH]; intros H; [done|]. cbn. rewrite (H r) by set_solver. f_equal. apply IH. set_solver.
Qed.

Lemma getByGroup_run a s g : NoDup s -> resolved a s ->
  getByGroup a s g = Ok (List.filter (fun r => isInGroup (device_of a r) g) s).
Proof.
  intros Hn Hr. unfold getByGroup. change GroupIDBroadcast with 0. destruct (Z.eqb_spec g 0) as [->|]; cbn.
  - rewrite filter_all; [done|]. intros r _. done.
  - by apply getSubset_run.
Qed.

Lemma filter_In (s : DeviceSet) p (x : DeviceReference) : x ∈ List.filter p s <-> x ∈ s /\ p x = true.
Proof. rewrite !list_elem_of_In. apply List.filter_In. Qed.
Lemma filter_NoDup (s : DeviceSet) p : NoDup s -> NoDup (List.filter p s).
Proof. rewrite !NoDup_ListNoDup. apply List.NoDup_filter. Qed.
#[export] Hint Resolve filter_NoDup : dss.
