(* ===== verification/SetSplitter.v ===== *)
(** [src/src/model/setsplitter.cpp]: a set of devices as few addressable items:
    groups that lie within the set, and single devices for the rest.

    [std::map<boost::shared_ptr<const Zone>, Set>] is ordered by the addresses
    of the zones; [before] compares them. *)
From stdpp Require Import base option list strings gmap.
From Stdlib Require Import ZArith Lia Ascii PrimFloat.
From Stdlib Require String.
From S2P Require Import Prelude CxxString Base NumConv Ds485types ModelConst DataTypes PropertyTree ApartmentModel DeviceSet.

Open Scope string_scope.
Open Scope list_scope.
Open Scope Z_scope.

(** [boost::shared_ptr<AddressableModelItem>]: a group, which may be null when
    it is what [Zone::getGroup] returned, or a device. *)
Inductive AddressableModelItem := IGroup (g : option gptr) | IDevice (d : dptr).
Definition ModelItemVector := list AddressableModelItem.

(** [std::sort] on integers. *)
Fixpoint insert_sorted (x : Z) (l : list Z) : list Z :=
  match l with
  | [] => [x]
  | y :: l => if x <=? y then x :: y :: l else y :: insert_sorted x l
  end.
Definition sorted (l : list Z) : list Z := foldr insert_sorted [] l.

(** [std::set_intersection] of sorted ranges. *)
Fixpoint set_intersection (l1 : list Z) : list Z -> list Z :=
  fix go (l2 : list Z) : list Z :=
    match l1, l2 with
    | [], _ | _, [] => []
    | x :: l1', y :: l2' =>
      if x <? y then set_intersection l1' l2
      else if y <? x then go l2'
      else x :: set_intersection l1' l2'
    end.

Section Splitter.
Context (a : Apartment) (before : zptr -> zptr -> bool).

(** [result[zone].addDevice(dev)] *)
Fixpoint add_to_zone (m : list (zptr * DeviceSet)) (zone : zptr) (dev : DeviceReference) : list (zptr * DeviceSet) :=
  match m with
  | [] => [(zone, addDevice [] dev)]
  | (z, s) :: m' =>
    if (z =? zone)%nat then (z, addDevice s dev) :: m'
    else if before zone z then (zone, addDevice [] dev) :: m
    else (z, s) :: add_to_zone m' zone dev
  end.

Fixpoint splitByZone_loop (_set : DeviceSet) (result : list (zptr * DeviceSet)) : res (list (zptr * DeviceSet)) :=
  match _set with
  | [] => Ok result
  | r :: rest =>
    dev ← getDevice a r;
    zone ← getZone a (d_ZoneID (the_device a dev));
    splitByZone_loop rest (add_to_zone result zone (d_DSID (the_device a dev)))
  end.
Definition splitByZone (_set : DeviceSet) : res (list (zptr * DeviceSet)) := splitByZone_loop _set [].

(** The loop over the other devices; it ends early when nothing is left. *)
Fixpoint intersect_groups (rest : DeviceSet) (intersection : list Z) : res (list Z) :=
  match rest with
  | [] => Ok intersection
  | r :: rest =>
    d ← getDevice a r;
    let tmpVector := set_intersection intersection (sorted (d_groupIds (the_device a d))) in
    match tmpVector with [] => Ok [] | _ => intersect_groups rest tmpVector end
  end.

Definition common_groups (_set : DeviceSet) : res (list Z) :=
  match _set with
  | [] => Ok []
  | r :: rest => d ← getDevice a r; intersect_groups rest (sorted (d_groupIds (the_device a d)))
  end.

Definition findGroupContainingAllDevices (_set : DeviceSet) (_zone : zptr) : res (option gptr) :=
  intersection ← common_groups _set;
  Ok (match intersection with
      | g :: _ => Zone_getGroup a _zone g
      | [] => Zone_getGroup a _zone GroupIDBroadcast
      end).

(** The loop over the groups of a device: the first suitable group with its
    devices in the zone, and the groups found unsuitable so far. *)
Fixpoint find_fit (_zone : zptr) (_set : DeviceSet) (groupIds : list Z) (unsuitableGroups : list gptr)
  : res (option (gptr * DeviceSet) * list gptr) :=
  match groupIds with
  | [] => Ok (None, unsuitableGroups)
  | id :: groupIds =>
    g ← Apartment_getGroup a id;
    let g := default g (Zone_getGroup a _zone (g_GroupID (the_group a g))) in
    if bool_decide (g ∈ unsuitableGroups) then find_fit _zone _set groupIds unsuitableGroups
    else
      devicesInGroup ← getByGroup a (getDevices a _zone) (g_GroupID (the_group a g));
      if forallb (contains _set) devicesInGroup then Ok (Some (g, devicesInGroup), unsuitableGroups)
      else find_fit _zone _set groupIds (unsuitableGroups ++ [g])
  end.

(** The loop over [workingCopy]; every round removes a device at least. *)
Fixpoint fit_loop (fuel : nat) (_zone : zptr) (_set workingCopy : DeviceSet) (unsuitableGroups : list gptr) : res ModelItemVector :=
  match fuel, workingCopy with
  | _, [] => Ok []
  | O, _ => Throw (UndefinedBehaviour "more rounds than devices")
  | S fuel, ref :: _ =>
    let workingCopy := removeDevice workingCopy ref in
    d ← getDevice a ref;
    p ← find_fit _zone _set (d_groupIds (the_device a d)) unsuitableGroups;
    match fst p with
    | Some (g, devicesInGroup) =>
      rest ← fit_loop fuel _zone _set (remove workingCopy devicesInGroup) (snd p);
      Ok (IGroup (Some g) :: rest)
    | None => rest ← fit_loop fuel _zone _set workingCopy (snd p); Ok (IDevice d :: rest)
    end
  end.

Definition bestFit_zone (_zone : zptr) (_set : DeviceSet) : res ModelItemVector :=
  if length_ (getDevices a _zone) =? length_ _set then
    g ← findGroupContainingAllDevices _set _zone; Ok [IGroup g]
  else fit_loop (length _set) _zone _set _set [].

Fixpoint bestFit_parts (parts : list (zptr * DeviceSet)) : res ModelItemVector :=
  match parts with
  | [] => Ok []
  | (z, s) :: parts => resultPart ← bestFit_zone z s; rest ← bestFit_parts parts; Ok (resultPart ++ rest)
  end.

Definition bestFit (_set : DeviceSet) : res ModelItemVector :=
  zoneToSet ← splitByZone _set;
  result ← bestFit_parts zoneToSet;
  if (1 <? length result)%nat then
    r ← get _set 0;
    _ ← getDevice a r;
    z ← getZone a 0;
    partZoneZero ← bestFit_zone z _set;
    Ok (if (length partZoneZero <? length result)%nat then partZoneZero else result)
  else Ok result.

Definition splitUp (_set : DeviceSet) : res ModelItemVector :=
  if 0 <? length_ _set then
    r ← get _set 0;
    _ ← getDevice a r;
    if length_ _set =? length_ (Apartment_getDevices a) then z ← getZone a 0; Ok [IGroup (Zone_getGroup a z 0)]
    else bestFit _set
  else Ok [].

(** The devices that a command to an item reaches. *)
Definition reached (i : AddressableModelItem) : res DeviceSet :=
  match i with
  | IGroup (Some g) => Group_getDevices a g
  | IGroup None => Throw (UndefinedBehaviour "call on NULL")
  | IDevice d => Ok [d_DSID (the_device a d)]
  end.
End Splitter.
