(* ===== verification/SplitterFacts.v ===== *)
(** The items a set is split into reach exactly the devices of the set, as long
    as the groups of its devices exist in their zones; for the clusters of zone
    0, which span zones, they may reach more. *)
From stdpp Require Import base option list strings gmap.
From Stdlib Require Import ZArith Lia Ascii PrimFloat.
From Stdlib Require String.
From S2P Require Import Prelude CxxString Base NumConv Ds485types ModelConst DataTypes Calendar DateTools.
From S2P Require Import Behavior PropertyTree ApartmentModel DeviceSet SetSplitter.

Open Scope string_scope.
Open Scope list_scope.
Open Scope Z_scope.

(** * Lists *)

Lemma insert_sorted_In x y l : x ∈ insert_sorted y l <-> x = y \/ x ∈ l.
Proof. induction l as [|z l IH]; cbn; [set_solver|]. destruct (y <=? z); set_solver. Qed.

Lemma sorted_In x l : x ∈ sorted l <-> x ∈ l.
Proof. induction l as [|y l IH]; cbn; [done|]. rewrite insert_sorted_In. set_solver. Qed.

Lemma set_intersection_In l1 l2 x : x ∈ set_intersection l1 l2 -> x ∈ l1 /\ x ∈ l2.
Proof.
  revert l2. induction l1 as [|y l1 IH1]; [intros []; set_solver|]. induction l2 as [|z l2 IH2]; [set_solver|].
  cbn. destruct (Z.ltb_spec y z); [intros ?%IH1; set_solver|]. destruct (Z.ltb_spec z y).
  - intros ?%IH2. set_solver.
  - assert (y = z) as -> by lia. intros [->|?%IH1]%elem_of_cons; set_solver.
Qed.

(** Sets of the same size, one within the other. *)
Lemma same_size (s l : DeviceSet) : NoDup s -> (forall r, r ∈ s -> r ∈ l) -> length l = length s ->
  NoDup l -> forall r, r ∈ l -> r ∈ s.
Proof.
  intros Hs Hsub Hlen Hl r Hr. assert (incl l s) as Hi.
  { apply List.NoDup_length_incl; [by apply NoDup_ListNoDup|lia|].
    intros x Hx%list_elem_of_In. by apply list_elem_of_In, Hsub. }
  apply list_elem_of_In, Hi. by apply list_elem_of_In.
Qed.

Lemma list_exists_elem {A} (l : list A) : l <> [] -> exists x, x ∈ l.
Proof. destruct l as [|x l]; [done|]. intros _. exists x. set_solver. Qed.

Section Facts.
Context (a : Apartment) (before : zptr -> zptr -> bool) (Hc : consistent a).

(** Every group of the device with this reference exists in the zone. *)
Definition groups_in (z : zptr) (r : DeviceReference) : Prop :=
  forall g, g ∈ d_groupIds (device_of a r) -> is_Some (Zone_getGroup a z g).

(** [items] are addressable, reach only devices of [s], and all of [w]. *)
Definition covers (items : ModelItemVector) (w s : DeviceSet) : Prop :=
  (forall i, i ∈ items -> exists ds, reached a i = Ok ds /\ forall r, r ∈ ds -> r ∈ s) /\
  (forall r, r ∈ w -> exists i ds, i ∈ items /\ reached a i = Ok ds /\ r ∈ ds).

Lemma covers_cons i items ds w1 w2 s : reached a i = Ok ds -> (forall r, r ∈ ds -> r ∈ s) ->
  (forall r, r ∈ w1 -> r ∈ ds \/ r ∈ w2) -> covers items w2 s -> covers (i :: items) w1 s.
Proof.
  intros Hi Hs Hw [H1 H2]. split.
  - intros j [->|Hj]%elem_of_cons; [by exists ds|by apply H1].
  - intros r [Hr|Hr]%Hw; [by exists i, ds; set_solver|].
    destruct (H2 r Hr) as (j & ds' & Hj & ?). exists j, ds'. set_solver.
Qed.

Lemma covers_app items1 items2 w1 w2 s : covers items1 w1 s -> covers items2 w2 s -> covers (items1 ++ items2) (w1 ++ w2) s.
Proof.
  intros [A1 B1] [A2 B2]. split.
  - intros i [Hi|Hi]%elem_of_app; [by apply A1|by apply A2].
  - intros r [Hr|Hr]%elem_of_app.
    + destruct (B1 r Hr) as (i & ds & ? & ?). exists i, ds. set_solver.
    + destruct (B2 r Hr) as (i & ds & ? & ?). exists i, ds. set_solver.
Qed.

Lemma covers_mono items w w' s s' : covers items w s -> (forall r, r ∈ w' -> r ∈ w) -> (forall r, r ∈ s -> r ∈ s') ->
  covers items w' s'.
Proof.
  intros [A B] Hw Hs. split; [|by intros r Hr%Hw; apply B].
  intros i Hi. destruct (A i Hi) as (ds & ? & H). exists ds. split; [done|]. intros r Hr. by apply Hs, H.
Qed.

Lemma members_resolved z : z ∈ m_Zones a -> resolved a (getDevices a z).
Proof. intros Hz. apply Forall_forall. intros r Hr. apply known_device. by apply (member_known a z). Qed.

Lemma resolve r : r ∈ Apartment_getDevices a -> exists p, getDevice a r = Ok p /\ p ∈ m_Devices a /\
  d_DSID (the_device a p) = r /\ the_device a p = device_of a r.
Proof.
  intros [p Hp]%known_device. exists p. pose proof (proj2 (getDevice_Ok a r p) Hp) as E.
  apply tryGetDeviceByDSID_Some in Hp as [? ?]. split_and!; [done..|]. by apply device_of_Ok.
Qed.

Lemma device_of_pointer p : p ∈ m_Devices a -> device_of a (d_DSID (the_device a p)) = the_device a p.
Proof. intros Hp. unfold device_of. by rewrite tryGetDeviceByDSID_unique. Qed.

(** What a group of a zone reaches. *)
Lemma reached_group z id g : z ∈ m_Zones a -> Zone_getGroup a z id = Some g ->
  reached a (IGroup (Some g)) = Ok (List.filter (fun r => isInGroup (device_of a r) id) (getDevices a z)).
Proof.
  intros Hz [Hg <-]%tryGetGroup_Some. cbn. unfold Group_getDevices. rewrite (zone_groups a Hc z Hz g Hg).
  unfold getZone. rewrite (tryGetZone_unique a z Hc Hz). cbn [mbind res_bind].
  apply getByGroup_run; [by apply members_distinct|by apply members_resolved].
Qed.

Lemma in_own_group r p id : getDevice a r = Ok p -> r ∈ Apartment_getDevices a -> id ∈ d_groupIds (device_of a r) ->
  isInGroup (device_of a r) id = true.
Proof.
  intros E Hr Hid. destruct (resolve r Hr) as (q & Eq & Hq & _ & Ed). rewrite <- Ed in Hid |- *.
  destruct (device_groups a Hc q Hq) as [_ HF]. rewrite Forall_forall in HF. unfold isInGroup.
  destruct (Z.eqb_spec id 0); [done|]. rewrite (HF id Hid). cbn. by apply bool_decide_eq_true_2.
Qed.

(** ** One zone *)

Section Zone.
Context (z : zptr) (Hz : z ∈ m_Zones a) (s : DeviceSet) (Hs : NoDup s).
Context (Hin : forall r, r ∈ s -> r ∈ getDevices a z).
Context (Hg : forall r, r ∈ s -> groups_in z r) (Hap : forall r g, r ∈ s -> g ∈ d_groupIds (device_of a r) -> is_Some (tryGetZone a 0 ≫= fun z0 => Zone_getGroup a z0 g)).

Lemma find_fit_spec ids u : (forall g, g ∈ ids -> is_Some (Zone_getGroup a z g) /\ is_Some (tryGetZone a 0 ≫= fun z0 => Zone_getGroup a z0 g)) ->
  exists o u', find_fit a z s ids u = Ok (o, u') /\
    match o with
    | None => True
    | Some (g, ds) => reached a (IGroup (Some g)) = Ok ds /\ (forall r, r ∈ ds -> r ∈ s) /\
        exists id, id ∈ ids /\ forall r, r ∈ getDevices a z -> isInGroup (device_of a r) id = true -> r ∈ ds
    end.
Proof.
  revert u. induction ids as [|id ids IH]; intros u Hids; [by exists None, u|]. cbn.
  destruct (Hids id ltac:(set_solver)) as [[g Hgz] [g0 Hg0]].
  destruct (tryGetZone a 0) as [z0|] eqn:E0; [|done]. cbn in Hg0.
  unfold Apartment_getGroup, getZone. rewrite E0. cbn [mbind res_bind]. rewrite Hg0. cbn [mbind res_bind].
  apply tryGetGroup_Some in Hg0 as [_ Hid]. rewrite Hid, Hgz. change (default g0 (Some g)) with g.
  assert (forall u, exists o u', find_fit a z s ids u = Ok (o, u') /\
    match o with None => True | Some (g, ds) => reached a (IGroup (Some g)) = Ok ds /\ (forall r, r ∈ ds -> r ∈ s) /\
      exists id', id' ∈ id :: ids /\ forall r, r ∈ getDevices a z -> isInGroup (device_of a r) id' = true -> r ∈ ds end) as IH'.
  { intros u'. destruct (IH u' ltac:(set_solver)) as (o & u2 & E & H). exists o, u2. split; [done|].
    destruct o as [[g' ds]|]; [|done]. destruct H as (? & ? & id' & ? & ?). split_and!; [done..|]. exists id'. set_solver. }
  case_bool_decide; [apply IH'|].
  pose proof (reached_group z id g Hz Hgz) as Hr.
  pose proof (tryGetGroup_Some a z id g Hgz) as [_ Eid]. rewrite Eid.
  rewrite getByGroup_run by (by apply members_distinct || by apply members_resolved). cbn [mbind res_bind].
  destruct (forallb _ _) eqn:Ef; [|apply IH'].
  eexists _, u. split; [done|]. split_and!.
  - done.
  - intros r Hr'. rewrite List.forallb_forall in Ef. specialize (Ef r). unfold contains in Ef.
    rewrite bool_decide_eq_true in Ef. apply Ef. by apply list_elem_of_In.
  - exists id. split; [set_solver|]. intros r ? ?. by apply filter_In.
Qed.

Lemma known r : r ∈ s -> r ∈ Apartment_getDevices a.
Proof. intros Hr. by apply (member_known a z), Hin. Qed.

Lemma removeDevice_length_le (w : DeviceSet) d : (length (removeDevice w d) <= length w)%nat.
Proof. induction w as [|x w IH]; cbn; [done|]. case_bool_decide; cbn; lia. Qed.

Lemma remove_length_le (w ds : DeviceSet) : (length (remove w ds) <= length w)%nat.
Proof.
  unfold remove. revert w. induction ds as [|d ds IH]; intros w; cbn; [done|]. etrans; [apply IH|]. apply removeDevice_length_le.
Qed.

Lemma fit_loop_covers fuel w u : (length w <= fuel)%nat -> NoDup w -> (forall r, r ∈ w -> r ∈ s) ->
  exists items, fit_loop a fuel z s w u = Ok items /\ covers items w s.
Proof.
  revert w u. induction fuel as [|fuel IH]; intros [|r w] u Hl Hn Hsub; try (cbn in Hl; lia).
  1, 2: by exists []; split; [|split; intros ? ?%elem_of_nil].
  cbn [fit_loop removeDevice]. rewrite bool_decide_eq_true_2 by done.
  assert (r ∈ s) as Hr by set_solver. destruct (resolve r (known r Hr)) as (p & Ep & Hp & Er & Ed).
  rewrite Ep. cbn [mbind res_bind].
  destruct (find_fit_spec (d_groupIds (the_device a p)) u) as (o & u' & E & H).
  { intros g. rewrite Ed. split; [by apply (Hg r Hr)|by apply (Hap r)]. }
  rewrite E. cbn [mbind res_bind fst snd]. apply NoDup_cons in Hn as [Hrw Hn]. cbn in Hl. destruct o as [[g ds]|].
  - destruct H as (Hreach & Hds & id & Hid & Hown).
    destruct (IH (remove w ds) u') as (items & E' & Hcov).
    { etrans; [apply remove_length_le|lia]. } { by apply remove_NoDup. }
    { intros x [Hx _]%remove_spec; [set_solver|done]. }
    rewrite E'. eexists. split; [done|]. eapply covers_cons; [done|done| |done].
    intros x [->|Hx]%elem_of_cons.
    + left. apply Hown; [by apply Hin|]. apply (in_own_group r p); [done|by apply known|by rewrite <- Ed].
    + destruct (decide (x ∈ ds)); [by left|]. right. by apply remove_spec.
  - destruct (IH w u') as (items & E' & Hcov); [lia|done|set_solver|]. rewrite E'. eexists. split; [done|].
    eapply covers_cons; [done| | |done].
    + intros x Hx%list_elem_of_singleton. rewrite Hx, Er. done.
    + intros x [->|Hx]%elem_of_cons; [left; rewrite Er; set_solver|by right].
Qed.

Lemma common_groups_spec l inter : (forall r, r ∈ l -> r ∈ s) ->
  exists gs, intersect_groups a l inter = Ok gs /\ (forall g, g ∈ gs -> g ∈ inter /\ forall r, r ∈ l -> g ∈ d_groupIds (device_of a r)).
Proof.
  revert inter. induction l as [|r l IH]; intros inter Hl; cbn; [by exists inter; split; [|intros g ?; split; [|intros ? ?%elem_of_nil]]|].
  destruct (resolve r (known r (Hl r ltac:(set_solver)))) as (p & -> & _ & _ & Ed). cbn [mbind res_bind].
  destruct (set_intersection _ _) as [|g t] eqn:E; [by exists []; split; [|intros ? ?%elem_of_nil]|].
  destruct (IH (g :: t)) as (gs & -> & H); [set_solver|]. exists gs. split; [done|].
  intros g' Hg'. apply H in Hg' as [Hg1 Hg2]. rewrite <- E in Hg1. apply set_intersection_In in Hg1 as [? Hs']. rewrite sorted_In in Hs'.
  split; [done|]. intros x [->|Hx]%elem_of_cons; [by rewrite <- Ed|by apply Hg2].
Qed.

Lemma common_groups_all l : (forall r, r ∈ l -> r ∈ s) ->
  exists gs, common_groups a l = Ok gs /\ (gs = [] \/ l <> []) /\ forall g r, g ∈ gs -> r ∈ l -> g ∈ d_groupIds (device_of a r).
Proof.
  intros Hl. destruct l as [|r l]; [exists []; split_and!; [done|by left|by intros ? ? ?%elem_of_nil]|]. cbn [common_groups].
  destruct (resolve r (known r (Hl r ltac:(set_solver)))) as (p & -> & _ & _ & Ed). cbn [mbind res_bind].
  destruct (common_groups_spec l (sorted (d_groupIds (the_device a p)))) as (gs & -> & H); [set_solver|].
  exists gs. split; [done|]. split; [by right|]. intros g x Hg' Hx. destruct (H g Hg') as [H1 H2]. rewrite sorted_In, Ed in H1.
  apply elem_of_cons in Hx as [->|Hx]; [done|by apply H2].
Qed.

Lemma bestFit_zone_covers : is_Some (Zone_getGroup a z GroupIDBroadcast) ->
  exists items, bestFit_zone a z s = Ok items /\ covers items s s.
Proof.
  intros [g0 Hg0]. unfold bestFit_zone. destruct (Z.eqb_spec (length_ (getDevices a z)) (length_ s)) as [El|El].
  2: { by apply fit_loop_covers. }
  assert (exists id g, findGroupContainingAllDevices a s z = Ok (Some g) /\ Zone_getGroup a z id = Some g /\
    forall r, r ∈ s -> isInGroup (device_of a r) id = true) as (id & g & -> & Hid & Hall).
  { unfold findGroupContainingAllDevices. destruct (common_groups_all s) as (gs & -> & Hne & H); [done|].
    cbn [mbind res_bind]. destruct gs as [|id gs]; [exists 0, g0; split_and!; [by f_equal|done|done]|].
    destruct Hne as [?|(r & Hr)%list_exists_elem]; [done|].
    destruct (Hg r Hr id) as [g Hgid]; [apply H; [set_solver|done]|]. exists id, g. rewrite Hgid. split_and!; [done..|].
    intros x Hx. destruct (resolve x (known x Hx)) as (q & Eq & _).
    apply (in_own_group x q); [done|by apply known|]. apply H; [set_solver|done]. }
  cbn [mbind res_bind]. eexists. split; [done|].
  assert (forall r, r ∈ getDevices a z -> r ∈ s) as Hback.
  { apply same_size; [done|done| |by apply members_distinct]. unfold length_ in El. lia. }
  apply (covers_cons _ _ _ s [] s (reached_group z id g Hz Hid)).
  - intros r [Hr _]%filter_In. by apply Hback.
  - intros r Hr. left. apply filter_In. split; [by apply Hin|by apply Hall].
  - split; intros ? ?%elem_of_nil; done.
Qed.
End Zone.

(** ** Splitting by zone *)

Lemma add_to_zone_inv m z d z' sub' : (z', sub') ∈ add_to_zone before m z d ->
  (z', sub') ∈ m \/ z' = z /\ exists sub, (sub = [] \/ (z, sub) ∈ m) /\ sub' = addDevice sub d.
Proof.
  induction m as [|[z1 s1] m IH]; cbn.
  - intros [= -> ->]%list_elem_of_singleton. right. split; [done|]. exists []. auto.
  - destruct (Nat.eqb_spec z1 z) as [->|].
    + intros [[= -> ->]|H]%elem_of_cons; [right; split; [done|]; exists s1; split; [right; set_solver|done]|left; set_solver].
    + destruct (before z z1).
      * intros [[= -> ->]|H]%elem_of_cons; [right; split; [done|]; exists []; auto|by left].
      * intros [[= -> ->]|H]%elem_of_cons; [left; set_solver|]. destruct (IH H) as [?|[-> (sub & Hsub & ->)]]; [left; set_solver|].
        right. split; [done|]. exists sub. split; [set_solver|done].
Qed.

Lemma add_to_zone_keeps m z d z' sub r : (z', sub) ∈ m -> r ∈ sub ->
  exists sub', (z', sub') ∈ add_to_zone before m z d /\ r ∈ sub'.
Proof.
  intros H Hr. induction m as [|[z1 s1] m IH]; cbn; [set_solver|]. destruct (Nat.eqb_spec z1 z) as [->|].
  - apply elem_of_cons in H as [[= -> ->]|H]; [|exists sub; set_solver].
    exists (addDevice s1 d). rewrite addDevice_In. set_solver.
  - destruct (before z z1); [exists sub; set_solver|].
    apply elem_of_cons in H as [[= -> ->]|H]; [exists s1; set_solver|]. destruct (IH H) as (sub' & ? & ?). exists sub'. set_solver.
Qed.

Lemma add_to_zone_adds m z d : exists sub, (z, sub) ∈ add_to_zone before m z d /\ d ∈ sub.
Proof.
  induction m as [|[z1 s1] m (sub & H & ?)]; cbn; [exists (addDevice [] d); rewrite addDevice_In; set_solver|].
  destruct (Nat.eqb_spec z1 z) as [->|]; [exists (addDevice s1 d); rewrite addDevice_In; set_solver|].
  destruct (before z z1); [exists (addDevice [] d); rewrite addDevice_In; set_solver|]. exists sub. set_solver.
Qed.

(** The zone a device is in. *)
Definition zone_of (r : DeviceReference) : option zptr := tryGetZone a (d_ZoneID (device_of a r)).

Definition part_ok (s : DeviceSet) (m : list (zptr * DeviceSet)) : Prop :=
  forall z sub, (z, sub) ∈ m ->
  NoDup sub /\ sub <> [] /\ forall r, r ∈ sub -> r ∈ s /\ zone_of r = Some z.

Lemma splitByZone_loop_spec s l m : part_ok s m -> (forall r, r ∈ l -> r ∈ s) ->
  (forall r, r ∈ s -> r ∈ Apartment_getDevices a /\ is_Some (zone_of r)) ->
  exists m', splitByZone_loop a before l m = Ok m' /\ part_ok s m' /\
    (forall z sub r, (z, sub) ∈ m -> r ∈ sub -> exists sub', (z, sub') ∈ m' /\ r ∈ sub') /\
    (forall r, r ∈ l -> exists z sub, (z, sub) ∈ m' /\ r ∈ sub).
Proof.
  intros Hm Hl Hs. revert m Hm. induction l as [|r l IH]; intros m Hm; cbn.
  { exists m. split_and!; [done|done| |set_solver]. intros z sub r ? ?. by exists sub. }
  destruct (Hs r ltac:(set_solver)) as [Hr [z Hz]].
  destruct (resolve r Hr) as (p & -> & _ & Er & Ed). cbn [mbind res_bind]. rewrite Ed.
  unfold zone_of in Hz. unfold getZone at 1. rewrite Hz. cbn [mbind res_bind]. rewrite <- Ed, Er.
  destruct (IH ltac:(set_solver) (add_to_zone before m z r)) as (m' & -> & Hm' & H1 & H2).
  { intros z' sub' [H|[-> (sub & Hsub & ->)]]%add_to_zone_inv; [by apply Hm|].
    assert (NoDup sub /\ forall x, x ∈ sub -> x ∈ s /\ zone_of x = Some z) as [Hn Hx].
    { destruct Hsub as [->|Hsub]; [split; [constructor|by intros ? ?%elem_of_nil]|by apply Hm in Hsub as (? & _ & ?)]. }
    split; [auto with dss|]. split; [by intros E; pose proof (proj2 (addDevice_In sub r r) (or_intror eq_refl)) as H; rewrite E in H; apply elem_of_nil in H|]. intros x [?| ->]%addDevice_In; [by apply Hx|]. split; [apply Hl; set_solver|done]. }
  exists m'. split_and!; [done|done| |].
  - intros z' sub x Hz' Hx. destruct (add_to_zone_keeps m z r z' sub x Hz' Hx) as (sub' & Hs' & Hx'). by apply (H1 z' sub').
  - intros x [->|Hx]%elem_of_cons; [|by apply H2]. destruct (add_to_zone_adds m z r) as (sub & Hs' & Hr').
    exists z. by apply (H1 z sub).
Qed.

(** ** The whole set *)

(** What a command needs to be sent to exactly a set: its devices are listed by
    their zones, and their groups exist there and in zone 0. *)
Definition placed (z0 : zptr) (r : DeviceReference) : Prop :=
  exists z, zone_of r = Some z /\ r ∈ getDevices a z /\ groups_in z r /\ groups_in z0 r.

Lemma bestFit_parts_covers s m : part_ok s m ->
  (forall z sub, (z, sub) ∈ m -> exists items, bestFit_zone a z sub = Ok items /\ covers items sub s) ->
  exists items, bestFit_parts a m = Ok items /\ covers items (concat (map snd m)) s.
Proof.
  intros Hm Hp. induction m as [|[z sub] m IH]; cbn; [by exists []; split; [|split; intros ? ?%elem_of_nil]|].
  destruct (Hp z sub ltac:(set_solver)) as (items & -> & H1). cbn [mbind res_bind].
  destruct IH as (rest & -> & H2); [intros z' sub' ?; apply Hm; set_solver|intros z' sub' ?; apply Hp; set_solver|].
  eexists. split; [done|]. by apply covers_app.
Qed.

Lemma groups_known z0 r : tryGetZone a 0 = Some z0 -> groups_in z0 r ->
  forall g, g ∈ d_groupIds (device_of a r) -> is_Some (tryGetZone a 0 ≫= fun z0 => Zone_getGroup a z0 g).
Proof. intros -> H g Hg. cbn. by apply H. Qed.

Lemma bestFit_covers z0 s : tryGetZone a 0 = Some z0 -> NoDup s -> s <> [] ->
  (forall z, z ∈ m_Zones a -> is_Some (Zone_getGroup a z GroupIDBroadcast)) ->
  (forall r, r ∈ s -> placed z0 r) ->
  exists items, bestFit a before s = Ok items /\ covers items s s.
Proof.
  intros Hz0 Hs Hne Hb Hp. pose proof (tryGetZone_Some _ _ _ Hz0) as [Hz0in Ez0].
  assert (forall r, r ∈ s -> r ∈ Apartment_getDevices a) as Hk.
  { intros r Hr. destruct (Hp r Hr) as (z & Hz & Hin & _). apply tryGetZone_Some in Hz as [Hz _]. by apply (member_known a z). }
  unfold bestFit, splitByZone.
  destruct (splitByZone_loop_spec s s []) as (m & -> & Hm & _ & Hall);
    [by intros ? ? ?%elem_of_nil|done| |].
  { intros r Hr. split; [by apply Hk|]. destruct (Hp r Hr) as (z & Hz & _). by exists z. }
  cbn [mbind res_bind].
  destruct (bestFit_parts_covers s m Hm) as (items & -> & Hcov).
  { intros z sub Hz. destruct (Hm z sub Hz) as (Hn & (r0 & Hr0)%list_exists_elem & Hsub).
    destruct (Hsub r0 Hr0) as [_ Hzone]. pose proof (tryGetZone_Some _ _ _ Hzone) as [Hzin _].
    destruct (bestFit_zone_covers z Hzin sub Hn) as (items & E & Hcov).
    - intros r [Hr Hzr]%Hsub. destruct (Hp r Hr) as (z' & Hz' & Hin & _). by assert (z' = z) as -> by congruence.
    - intros r [Hr Hzr]%Hsub. destruct (Hp r Hr) as (z' & Hz' & _ & Hg & _). by assert (z' = z) as -> by congruence.
    - intros r g [Hr _]%Hsub. destruct (Hp r Hr) as (_ & _ & _ & _ & Hg0). by apply (groups_known z0).
    - by apply Hb.
    - exists items. split; [done|]. apply (covers_mono _ _ _ _ _ Hcov); [done|]. by intros r [? _]%Hsub. }
  cbn [mbind res_bind].
  assert (covers items s s) as Hcov'.
  { apply (covers_mono _ _ _ _ _ Hcov); [|done]. intros r Hr. destruct (Hall r Hr) as (z & sub & Hz & Hr').
    apply list_elem_of_In, List.in_concat. exists sub. split; [|by apply list_elem_of_In].
    apply List.in_map_iff. exists (z, sub). split; [done|]. by apply list_elem_of_In. }
  destruct (_ <? _)%nat eqn:El; [|by exists items].
  destruct s as [|r s'] eqn:Es; [done|rewrite <- Es in *].
  assert (r ∈ s) as Hr by (rewrite Es; set_solver).
  assert (get s 0 = Ok r) as -> by (by rewrite Es). cbn [mbind res_bind].
  destruct (resolve r (Hk r Hr)) as (p & -> & _). cbn [mbind res_bind]. unfold getZone. rewrite Hz0. cbn [mbind res_bind].
  destruct (bestFit_zone_covers z0 Hz0in s Hs) as (items0 & -> & Hcov0).
  - intros x Hx. apply (zone_zero a Hc z0); [done..|by apply Hk].
  - intros x Hx. by destruct (Hp x Hx) as (_ & _ & _ & _ & ?).
  - intros x g Hx. destruct (Hp x Hx) as (_ & _ & _ & _ & Hg0). by apply (groups_known z0).
  - by apply Hb.
  - cbn [mbind res_bind]. destruct (length items0 <? length items)%nat; [by exists items0|by exists items].
Qed.
End Facts.

(** C10: splitting a set into addressable items loses and adds nothing: when its
    devices are listed by their zones and the groups they are in exist there and
    in zone 0, [splitUp] returns items none of which is null, each item reaches
    only devices of the set, and every device of the set is reached, whether
    the set is the whole apartment, all of a zone, or anything else. *)
Theorem splitUp_exact (a : Apartment) (before : zptr -> zptr -> bool) (z0 : zptr) (s : DeviceSet) :
  consistent a -> tryGetZone a 0 = Some z0 -> NoDup s ->
  (forall z, z ∈ m_Zones a -> is_Some (Zone_getGroup a z GroupIDBroadcast)) ->
  (forall r, r ∈ s -> placed a z0 r) ->
  exists items, splitUp a before s = Ok items /\
    (forall i, i ∈ items -> exists ds, reached a i = Ok ds /\ forall r, r ∈ ds -> r ∈ s) /\
    (forall r, r ∈ s -> exists i ds, i ∈ items /\ reached a i = Ok ds /\ r ∈ ds).
Proof.
  intros Hc Hz0 Hs Hb Hp. unfold splitUp. destruct (Z.ltb_spec 0 (length_ s)) as [Hl|Hl].
  2: { exists []. unfold length_ in Hl. destruct s; [|cbn in Hl; lia]. split; [done|]. split; intros ? ?%elem_of_nil; done. }
  destruct s as [|r s'] eqn:Es; [done|rewrite <- Es in *]. assert (r ∈ s) as Hr by (rewrite Es; set_solver).
  destruct (bestFit_covers a before Hc z0 s Hz0 Hs ltac:(by rewrite Es) Hb Hp) as (items & Eb & Hcov).
  assert (forall r, r ∈ s -> r ∈ Apartment_getDevices a) as Hk.
  { intros x Hx. destruct (Hp x Hx) as (z & Hz & Hin & _). apply tryGetZone_Some in Hz as [Hz _]. by apply (member_known a z). }
  assert (get s 0 = Ok r) as -> by (by rewrite Es). cbn [mbind res_bind].
  destruct (resolve a r (Hk r Hr)) as (p & -> & _). cbn [mbind res_bind].
  destruct (Z.eqb_spec (length_ s) (length_ (Apartment_getDevices a))) as [El|_]; [|by exists items].
  unfold getZone. rewrite Hz0. cbn [mbind res_bind]. eexists. split; [done|].
  pose proof (tryGetZone_Some _ _ _ Hz0) as [Hz0in Ez0]. destruct (Hb z0 Hz0in) as [g Hg].
  assert (reached a (IGroup (Zone_getGroup a z0 0)) = Ok (getDevices a z0)) as Hreach.
  { change 0 with GroupIDBroadcast. rewrite Hg. rewrite (reached_group a Hc z0 GroupIDBroadcast g Hz0in Hg). f_equal. by apply filter_all. }
  assert (forall x, x ∈ Apartment_getDevices a -> x ∈ s) as Hback.
  { apply same_size; [done|done| |by apply devices_distinct]. unfold length_ in El. lia. }
  split.
  - intros i ->%list_elem_of_singleton. eexists. split; [done|]. intros x Hx. by apply Hback, (zone_zero a Hc z0).
  - intros x Hx. eexists _, _. split; [by apply list_elem_of_singleton|]. split; [done|]. apply (zone_zero a Hc z0); [done..|by apply Hk].
Qed.

(** * Examples *)

Definition device_in (dsid : dsuid_t) (zone : Z) (groups : list Z) : Device :=
  mkDevice dsid "" 0 zone zone [] [] 0 0 0 0 groups present_item false 0 0 0 (mkDateTime 0 0) [] [] None None None no_info.
Definition group_in (zone id : Z) : Group :=
  mkGroup zone id "" ApplicationType.None (Default (mkBehavior 0 0)) 0 0 true ∅ 0 None None None new_physical false false "".
Definition zone_with (id : Z) (devices : list dsuid_t) (groups : list gptr) : Zone :=
  mkZone id "" devices groups [] [] no_heating false 0 None None new_physical no_heating_status no_sensor_status.

(** Two rooms, with three devices: [1] and [3] in zone 1, [2] in zone 2. *)
Definition two_rooms (groups1 groups2 groups3 : list Z) : Apartment :=
  mkApartment
    (list_to_map [(1%nat, device_in [1] 1 groups1); (2%nat, device_in [2] 2 groups2); (3%nat, device_in [3] 1 groups3)])
    (list_to_map [(0%nat, zone_with 0 [[1]; [2]; [3]] [0; 1; 2]%nat); (1%nat, zone_with 1 [[1]; [3]] [3; 4]%nat);
                  (2%nat, zone_with 2 [[2]] [5; 6]%nat)])
    (list_to_map [(0%nat, group_in 0 0); (1%nat, group_in 0 1); (2%nat, group_in 0 16); (3%nat, group_in 1 0);
                  (4%nat, group_in 1 1); (5%nat, group_in 2 0); (6%nat, group_in 2 1)])
    ∅ [1; 2; 3]%nat [0; 1; 2]%nat [] [] None None None ∅.

Lemma splitUp_exact_witness :
  exists items, splitUp (two_rooms [1] [] []) (fun _ _ => false) [[1]; [2]] = Ok items /\
    (forall i, i ∈ items -> exists ds, reached (two_rooms [1] [] []) i = Ok ds /\ forall r, r ∈ ds -> r ∈ [[1]; [2]]) /\
    (forall r, r ∈ [[1]; [2]] -> exists i ds, i ∈ items /\ reached (two_rooms [1] [] []) i = Ok ds /\ r ∈ ds).
Proof.
  apply (splitUp_exact (two_rooms [1] [] []) (fun _ _ => false) 0%nat [[1]; [2]]).
  - apply consistent_check_sound. vm_compute. reflexivity.
  - vm_compute. reflexivity.
  - apply (bool_decide_unpack (NoDup _)). vm_compute. exact I.
  - intros z Hz. apply list_elem_of_In in Hz. cbn in Hz. destruct Hz as [<-|[<-|[<-|[]]]]; vm_compute; by eexists.
  - intros r Hr. apply list_elem_of_In in Hr. cbn in Hr. destruct Hr as [<-|[<-|[]]].
    + exists 1%nat. split; [vm_compute; reflexivity|]. split; [apply (bool_decide_unpack _); vm_compute; exact I|].
      split; intros g Hg; apply list_elem_of_In in Hg; vm_compute in Hg; destruct Hg as [<-|[]]; vm_compute; by eexists.
    + exists 2%nat. split; [vm_compute; reflexivity|]. split; [apply (bool_decide_unpack _); vm_compute; exact I|].
      split; intros g Hg; apply list_elem_of_In in Hg; vm_compute in Hg; destruct Hg.
Defined.

(** A cluster lives in zone 0 and spans zones: device [1] alone is split into
    its cluster 16, and the command reaches device [2] of another room. *)
Lemma cluster_spans_zones :
  let a := two_rooms [16] [16] [] in
  splitUp a (fun _ _ => false) [[1]] = Ok [IGroup (Some 2%nat)] /\ reached a (IGroup (Some 2%nat)) = Ok [[1]; [2]].
Proof. by_compute. Qed.

(** If all devices of a room share only a cluster, the item is a null pointer. *)
Lemma null_item :
  splitUp (two_rooms [16] [] [16]) (fun _ _ => false) [[1]; [3]] = Ok [IGroup None].
Proof. by_compute. Qed.
