(* ===== verification/SetBuilder.v ===== *)
(** [src/src/setbuilder.cpp]: sets of devices and meters from expressions such
    as [.zone(2).group('light').add(dimmer)].

    The parser works on a position in the description, which [unsigned int&]
    arguments pass around; here it is an argument and a part of the result. *)
From stdpp Require Import base option list strings gmap.
From Stdlib Require Import ZArith Lia Ascii PrimFloat.
From Stdlib Require String.
From S2P Require Import Prelude CxxString Base NumConv Ds485types ModelConst DataTypes PropertyTree SceneAccess ApartmentModel DeviceSet.

Open Scope string_scope.
Open Scope list_scope.
Open Scope Z_scope.

(** [find_first_of(set, pos)] *)
Fixpoint find_first (p : ascii -> bool) (s : string) : option nat :=
  match s with
  | EmptyString => None
  | String c s => if p c then Some 0%nat else S <$> find_first p s
  end.
Definition find_first_of (p : ascii -> bool) (s : string) (pos : nat) : option nat :=
  Nat.add pos <$> find_first p (sdrop pos s).
Definition one_of (l : list ascii) (c : ascii) : bool := existsb (Ascii.eqb c) l.

Definition is_param_end : ascii -> bool := one_of [","; ")"]%char.
Definition is_delimiter : ascii -> bool := one_of ["."; "("; ")"; ","]%char.

Section SetBuilder.
Context {Ext : Type} `{Dsuid} (a : Apartment).
Local Notation "'M' A" := (SE (heap Ext) A) (at level 10, A at next level).

Section Description.
Context (m_SetDescription : string).
Local Notation size := (slen m_SetDescription).

(** [m_SetDescription[i] == c]; the character after the last one is NUL. *)
Definition at_ (i : nat) (c : ascii) : bool := bool_decide (char_at m_SetDescription i = Some c).

Definition skip_blanks (_index : nat) : nat :=
  default size (find_first_of (fun c => negb (isspace c)) m_SetDescription _index).
Definition skipWhitespace (_index : nat) : nat := if (_index <? size)%nat then skip_blanks _index else _index.

Definition readParameter (_index : nat) : res (string * nat) :=
  let start := skipWhitespace _index in
  match find_first_of is_param_end m_SetDescription start with
  | None => Throw (RuntimeError "expected , or )")
  | Some pos => Ok (substr m_SetDescription start (pos - start), skipWhitespace pos)
  end.

Definition readInt (_index : nat) : res (Z * nat) :=
  r ← readParameter _index; v ← strToInt (trim (fst r)); Ok (v, snd r).

Definition parse_dsid (id : string) : res dsuid_t :=
  if (slen id <=? 24)%nat then dsid ← str2dsid id; Ok (dsuid_from_dsid dsid) else str2dsuid id.
Definition readDSID (_index : nat) : res (dsuid_t * nat) :=
  r ← readParameter _index; d ← parse_dsid (trim (fst r)); Ok (d, snd r).

Definition unquote (result : string) : res string :=
  if (2 <=? slen result)%nat && bool_decide (char_at result 0 = Some "'"%char)
     && bool_decide (char_at result (slen result - 1) = Some "'"%char)
  then Ok (substr result 1 (slen result - 2))
  else Throw (RuntimeError ("String should be enclosed by " +:+ String "034" (String "'" (String "034" "")))).
Definition readString (_index : nat) : res (string * nat) :=
  r ← readParameter _index; s ← unquote (trim (fst r)); Ok (s, snd r).

(** The devices of the context, which may be a null pointer. *)
Definition context_devices (_group : option gptr) : res DeviceSet :=
  match _group with Some g => Group_getDevices a g | None => Throw (UndefinedBehaviour "call on NULL") end.

(** A name in quotes or a number. *)
Definition read_key (_index : nat) : res ((string + Z) * nat) :=
  if at_ _index "'" then r ← readString _index; Ok (inl (fst r), snd r)
  else r ← readInt _index; Ok (inr (fst r), snd r).

(** The [do]-[while] of [addDevices]. *)
Fixpoint add_devices (fuel : nat) (_index : nat) (result : DeviceSet) : res (DeviceSet * nat) :=
  match fuel with
  | O => Throw (UndefinedBehaviour "out of fuel")
  | S fuel =>
    let _index := if at_ _index "," then S _index else _index in
    dn ← (if at_ _index "'" then r ← readString _index; d ← getDeviceByName a (fst r); Ok (d, snd r)
          else r ← readDSID _index; d ← getDeviceByDSID a (fst r); Ok (d, snd r));
    let result := addDevice result (d_DSID (the_device a (fst dn))) in
    if at_ (snd dn) "," then add_devices fuel (snd dn) result else Ok (result, snd dn)
  end.

(** The selection of a function, and the position after its parameters;
    [parse] is [parseSet]. *)
Definition apply_function (parse : nat -> DeviceSet -> M (DeviceSet * nat)) (_functionName : string) (_index : nat)
    (_set : DeviceSet) (_group : option gptr) : M (DeviceSet * nat) :=
  let single r := d ← getByDSID a _set (fst r); Ok (addDevice [] d, snd r) in
  let inner : M (DeviceSet * nat) := ds ← se_lift (S := heap Ext) (context_devices _group); parse _index ds in
  if String.eqb _functionName "dsid" then se_lift (r ← readDSID _index; single r)
  else if String.eqb _functionName "dsuid" then se_lift (r ← readDSID _index; single r)
  else if String.eqb _functionName "zone" then
    se_lift (r ← read_key _index;
             s ← match fst r with inl zoneName => getByZone_name a _set zoneName | inr zoneID => getByZone a _set zoneID end;
             Ok (s, snd r))
  else if String.eqb _functionName "group" then
    se_lift (r ← read_key _index;
             s ← match fst r with inl groupName => getByGroup_name a _set groupName | inr groupID => getByGroup a _set groupID end;
             Ok (s, snd r))
  else if String.eqb _functionName "fid" then
    se_lift (r ← readInt _index; s ← getByFunctionID a _set (fst r); Ok (s, snd r))
  else if String.eqb _functionName "tag" then
    r ← se_lift (S := heap Ext) (readString _index); s ← getByTag a _set (fst r); mret (s, snd r)
  else if String.eqb _functionName "add" then r ← inner; mret (combine _set (fst r), snd r)
  else if String.eqb _functionName "remove" then r ← inner; mret (remove _set (fst r), snd r)
  else if String.eqb _functionName "empty" then mret ([], _index)
  else if String.eqb _functionName "addDevices" then se_lift (add_devices (S size) _index _set)
  else mret ([], _index).

Definition restrictByFunction (parse : nat -> DeviceSet -> M (DeviceSet * nat)) (_functionName : string) (_index : nat)
    (_set : DeviceSet) (_group : option gptr) : M (DeviceSet * nat) :=
  if (size <=? _index)%nat then se_throw (RuntimeError "_index is out of bounds")
  else if negb (at_ (_index - 1) "(") then se_throw (AssertionFailure "m_SetDescription[_index-1] == '('")
  else
    r ← apply_function parse _functionName _index _set _group;
    if negb (at_ (snd r) ")" || at_ (snd r) ",") then
      se_throw (AssertionFailure "m_SetDescription[_index] == ')' || m_SetDescription[_index] == ','")
    else if at_ (snd r) "," then
      se_throw (RuntimeError ("superfluous parameter detected at position " +:+ intToString (Z.of_nat (snd r)) false))
    else mret (fst r, S (snd r)).

(** A bare word: a device of the context, a group of the apartment or a zone. *)
Definition restrictBy (_identifier : string) (_set : DeviceSet) (_group : option gptr) : res DeviceSet :=
  try_catch (ds ← context_devices _group; ref ← getByName a ds _identifier; Ok (addDevice [] ref)) is_item_not_found (fun _ =>
  try_catch (getByGroup_name a _set _identifier) is_item_not_found (fun _ =>
  try_catch (getByZone_name a _set _identifier) is_item_not_found (fun _ =>
  Ok []))).

Fixpoint parseSet (fuel : nat) (_index : nat) (_set : DeviceSet) (_context : option gptr) : M (DeviceSet * nat) :=
  match fuel with
  | O => se_throw (UndefinedBehaviour "out of fuel")
  | S fuel =>
    let _index := skipWhitespace _index in
    if (size <=? _index)%nat then mret (_set, _index)
    else
      (* scan forward to a delimiter *)
      let found := find_first_of is_delimiter m_SetDescription _index in
      let pos := default (size - 1)%nat found in
      let end_ := bool_decide (found = None) || (pos =? size - 1)%nat in
      let entry := substr m_SetDescription _index (pos + 1 - _index) in
      if String.eqb entry "." then parseSet fuel (pos + 1) (Apartment_getDevices a) _context
      else if at_ pos "(" then
        r ← restrictByFunction (fun i s => parseSet fuel i s _context) (stake (slen entry - 1) entry) (pos + 1) _set _context;
        let _index := skipWhitespace (snd r) in
        if (_index <? size)%nat && negb (at_ _index ",") && negb (at_ _index ")")
        then parseSet fuel (S _index) (fst r) _context
        else mret (fst r, _index)
      else
        let parsingParam := endsWith entry "," || endsWith entry ")" in
        let item := if negb end_ || parsingParam then stake (slen entry - 1) entry else entry in
        tmp ← se_lift (S := heap Ext) (restrictBy (trim item) _set _context);
        if negb end_ && negb parsingParam then parseSet fuel (pos + 1) tmp _context
        else mret (tmp, if parsingParam then (pos + 1 - 1)%nat else (pos + 1)%nat)
  end.
End Description.

Definition broadcast : res (option gptr) := z ← getZone a 0; Ok (Zone_getGroup a z GroupIDBroadcast).

Definition buildSet (_setDescription : string) (_context : option gptr) : M DeviceSet :=
  let fuel := S (slen _setDescription) in
  if beginsWith _setDescription "." then
    context ← se_lift (S := heap Ext) broadcast;
    result ← se_lift (S := heap Ext) (context_devices context);
    r ← parseSet _setDescription fuel 1 result context; mret (fst r)
  else
    match _context with
    | Some g =>
      result ← se_lift (S := heap Ext) (Group_getDevices a g);
      r ← parseSet _setDescription fuel 0 result _context; mret (fst r)
    | None =>
      context ← se_lift (S := heap Ext) broadcast;
      r ← parseSet _setDescription fuel 0 [] context; mret (fst r)
    end.

Definition buildSet_zone (_setDescription : string) (_context : option zptr) : M DeviceSet :=
  buildSet _setDescription (_context ≫= fun z => Zone_getGroup a z GroupIDBroadcast).

(** ** [MeterSetBuilder] *)

Definition meter_of (strId : string) : res mptr :=
  let invalid := RuntimeError ("Invalid dsuid in description: " +:+ strId) in
  if is_empty strId then Throw invalid
  else
    dsuid ← try_catch (parse_dsid strId) (fun e => match e with InvalidArgument _ => true | _ => false end) (fun _ => Throw invalid);
    try_catch (getDSMeterByDSID a dsuid) is_runtime_error
      (fun _ => Throw (RuntimeError "Could not find dsMeter with given dsuid.")).

Fixpoint meters_of (dsids : list string) : res (list mptr) :=
  match dsids with
  | [] => Ok []
  | strId :: dsids => m ← meter_of strId; ms ← meters_of dsids; Ok (m :: ms)
  end.

Definition buildMeterSet (_setDescription : string) (_meteringCapability : bool) : res (list mptr) :=
  if negb (beginsWith _setDescription ".meters(") then
    Throw (RuntimeError "Expected '.meters(' at the start of the description")
  else
    let from := sdrop 8 _setDescription in
    if negb (endsWith from ")") then Throw (RuntimeError "No closing ')' found")
    else
      let from := stake (slen from - 1) from in
      result ← (if String.eqb from "all" then Ok (getDSMeters a) else meters_of (splitString "," true from));
      Ok (if _meteringCapability then List.filter (fun m => dm_capHasMetering (the_meter a m)) result else result).
End SetBuilder.
