(* ===== verification/SetBuilderFacts.v ===== *)
(** The parser of set expressions ends on every description, and its results
    are sets of known devices. *)
From stdpp Require Import base option list strings gmap.
From Stdlib Require Import ZArith Lia Ascii PrimFloat.
From Stdlib Require String.
From S2P Require Import Prelude CxxString Base NumConv Ds485types ModelConst DataTypes PropertyTree PropertyTreeFacts PropertyReader.
From S2P Require Import SceneAccess ApartmentModel DeviceSet SplitterFacts SetBuilder.

Open Scope string_scope.
Open Scope list_scope.
Open Scope Z_scope.

(** * Termination and results *)

Definition out_of_fuel : exn := UndefinedBehaviour "out of fuel".

(** [r] does not run out of fuel, and what it returns satisfies [Q]. *)
Definition yields {A} (r : res A) (Q : A -> Prop) : Prop :=
  match r with Ok x => Q x | Throw e => e <> out_of_fuel end.

Lemma yields_ok {A} (x : A) (Q : A -> Prop) : Q x -> yields (Ok x) Q.
Proof. done. Qed.
Lemma yields_throw {A} e (Q : A -> Prop) : e <> out_of_fuel -> yields (Throw e) Q.
Proof. done. Qed.
Lemma yields_bind {A B} (r : res A) (f : A -> res B) Q R : yields r Q -> (forall x, Q x -> yields (f x) R) -> yields (x ← r; f x) R.
Proof. destruct r; cbn; auto. Qed.
Lemma yields_mono {A} (r : res A) (Q R : A -> Prop) : yields r Q -> (forall x, Q x -> R x) -> yields r R.
Proof. destruct r; cbn; auto. Qed.
Lemma yields_try {A} (r : res A) p f Q : yields r Q -> (forall e, yields (f e) Q) -> yields (try_catch r p f) Q.
Proof. destruct r as [x|e]; cbn; [auto|]. intros He Hf. destruct (p e); [apply Hf|done]. Qed.

Section Sound.
Context {Ext : Type} `{Dsuid} (a : Apartment).
Local Notation "'M' A" := (SE (heap Ext) A) (at level 10, A at next level).

(** The same for computations that leave the heap alone. *)
Definition ensures {A} (m : M A) (Q : A -> Prop) : Prop :=
  forall h, snd (m h) = h /\ yields (fst (m h)) Q.

Lemma ensures_lift {A} (r : res A) Q : yields r Q -> ensures (se_lift r) Q.
Proof. by intros Hr h. Qed.
Lemma ensures_ret {A} (x : A) (Q : A -> Prop) : Q x -> ensures (mret x) Q.
Proof. by intros Hr h. Qed.
Lemma ensures_gets {A} (f : heap Ext -> A) : ensures (se_gets f) (fun _ => True).
Proof. done. Qed.
Lemma ensures_throw {A} e (Q : A -> Prop) : e <> out_of_fuel -> ensures (se_throw e) Q.
Proof. by intros Hr h. Qed.
Lemma ensures_bind {A B} (m : M A) (f : A -> M B) Q R : ensures m Q -> (forall x, Q x -> ensures (f x) R) -> ensures (x ← m; f x) R.
Proof.
  intros Hm Hf h. rewrite se_bind_run. destruct (Hm h) as [E Y]. destruct (m h) as [[x|e] h']; cbn in *; subst; [|done]. by apply Hf.
Qed.
Lemma ensures_mono {A} (m : M A) (Q R : A -> Prop) : ensures m Q -> (forall x, Q x -> R x) -> ensures m R.
Proof. intros Hm HQ h. destruct (Hm h). split; [done|]. by eapply yields_mono. Qed.

(** Sets of known devices without duplicates. *)
Definition good (s : DeviceSet) : Prop := NoDup s /\ resolved a s.

Lemma good_nil : good [].
Proof. split; constructor. Qed.
Lemma good_add s r : good s -> is_Some (tryGetDeviceByDSID a r) -> good (addDevice s r).
Proof.
  intros [Hn Hr] Hd. split; [auto with dss|]. unfold addDevice. destruct (contains s r); [done|].
  apply Forall_app. split; [done|]. by constructor.
Qed.
Lemma good_sub s s' : good s -> NoDup s' -> (forall r, r ∈ s' -> r ∈ s) -> good s'.
Proof. intros [_ Hr] Hn Hs. split; [done|]. unfold resolved in *. rewrite Forall_forall in *. eauto. Qed.
Lemma good_filter s p : good s -> good (List.filter p s).
Proof. intros Hs. apply (good_sub s); [done|apply filter_NoDup, Hs|]. by intros r [? _]%filter_In. Qed.
Lemma good_combine s o : good s -> good o -> good (combine s o).
Proof.
  intros [Hn Hr] [Hn' Hr']. split; [by apply combine_NoDup|]. unfold resolved in *. rewrite Forall_forall in *.
  intros r [?|?]%combine_spec; auto.
Qed.
Lemma good_remove s o : good s -> good (remove s o).
Proof. intros Hs. apply (good_sub s); [done|apply remove_NoDup, Hs|]. by intros r [? _]%remove_spec; [|apply Hs]. Qed.

Lemma select_good p s : good s -> yields (select a p s []) good.
Proof. intros Hs. rewrite select_run by apply Hs. by apply good_filter. Qed.
Lemma getByGroup_good s g : good s -> yields (getByGroup a s g) good.
Proof. intros Hs. unfold getByGroup. destruct (negb _); [by apply select_good|done]. Qed.
Lemma getByZone_good s z : good s -> yields (getByZone a s z) good.
Proof. intros Hs. unfold getByZone. destruct (negb _); [by apply select_good|done]. Qed.

(** Lookups throw nothing but [ItemNotFoundException]s and the like. *)
Lemma yields_lookup {A} (r : res A) : (forall e, r = Throw e -> is_std_exception e = true) -> yields r (fun _ => True).
Proof. destruct r; cbn; [done|]. intros Hr ->. by specialize (Hr _ eq_refl). Qed.
Ltac lookup := apply yields_lookup; intros e; repeat case_match; naive_solver.

Lemma get_yields s i : yields (get s i) (fun _ => True).
Proof. unfold get. lookup. Qed.
Lemma getDeviceByDSID_yields r : yields (getDeviceByDSID a r) (fun p => p ∈ m_Devices a).
Proof.
  unfold getDeviceByDSID. destruct (tryGetDeviceByDSID a r) eqn:E; [|done]. by apply tryGetDeviceByDSID_Some in E as [? _].
Qed.
Lemma getDeviceByName_yields n : yields (getDeviceByName a n) (fun p => p ∈ m_Devices a).
Proof.
  unfold getDeviceByName. destruct (List.find _ _) eqn:E; [|done]. apply List.find_some in E as [E _]. by apply list_elem_of_In.
Qed.
Lemma getZone_yields z : yields (getZone a z) (fun p => p ∈ m_Zones a).
Proof. unfold getZone. destruct (tryGetZone a z) eqn:E; [|done]. by apply tryGetZone_Some in E as [? _]. Qed.
Lemma getZone_name_yields n : yields (getZone_name a n) (fun _ => True).
Proof. unfold getZone_name. lookup. Qed.
Lemma getGroup_name_yields n : yields (Apartment_getGroup_name a n) (fun _ => True).
Proof. eapply yields_bind; [apply getZone_yields|]. intros z _. lookup. Qed.

(** The named selections look at the first device before they search. *)
Lemma named_good {A} (look : res A) (f : A -> res DeviceSet) s : good s -> yields look (fun _ => True) -> (forall x, yields (f x) good) ->
  yields (if isEmpty s then Ok [] else r ← get s 0; _ ← getDevice a r; g ← look; f g) good.
Proof.
  intros Hs Hl Hf. destruct (isEmpty s); [apply good_nil|]. eapply yields_bind; [apply get_yields|]. intros r _.
  eapply yields_bind; [apply getDeviceByDSID_yields|]. intros _ _. eapply yields_bind; [done|]. auto.
Qed.
Lemma getByGroup_name_good s n : good s -> yields (getByGroup_name a s n) good.
Proof.
  intros Hs. apply (named_good (Apartment_getGroup_name a n)); [done|apply getGroup_name_yields|]. intros g. by apply getByGroup_good.
Qed.
Lemma getByZone_name_good s n : good s -> yields (getByZone_name a s n) good.
Proof. intros Hs. apply (named_good (getZone_name a n)); [done|apply getZone_name_yields|]. intros z. by apply getByZone_good. Qed.

Lemma front_good s w : good s -> yields (front_of s w) (fun r => is_Some (tryGetDeviceByDSID a r)).
Proof. intros [_ Hr]. destruct Hr; [done|]. by cbn. Qed.
Lemma getByName_good s n : good s -> yields (getByName a s n) (fun r => is_Some (tryGetDeviceByDSID a r)).
Proof. intros Hs. eapply yields_bind; [by apply select_good|]. intros s' Hs'. by apply front_good. Qed.
Lemma getByDSID_good s n : good s -> yields (getByDSID a s n) (fun r => is_Some (tryGetDeviceByDSID a r)).
Proof. intros Hs. eapply yields_bind; [by apply select_good|]. intros s' Hs'. by apply front_good. Qed.

Lemma Group_getDevices_good g : consistent a -> yields (Group_getDevices a g) good.
Proof.
  intros Hc. eapply yields_bind; [apply getZone_yields|]. intros z Hz. apply getByGroup_good.
  split; [by apply members_distinct|]. apply Forall_forall. intros r Hr. apply known_device. by apply (member_known a z).
Qed.
Lemma context_good g : consistent a -> yields (context_devices a g) good.
Proof. intros Hc. destruct g; [by apply Group_getDevices_good|done]. Qed.
Lemma all_good : consistent a -> good (Apartment_getDevices a).
Proof. intros Hc. split; [by apply devices_distinct|]. apply Forall_forall. intros r. apply known_device. Qed.

(** Tags are looked up in the property tree. *)
Lemma deref_ensures n : ensures (deref n) (fun _ => True).
Proof. intros h. unfold deref. by destruct (nodes h !! n). Qed.
Lemma follow_ensures fuel n : ensures (follow fuel n) (fun _ => True).
Proof.
  revert n. induction fuel as [|fuel IH]; intros n; cbn [follow]; [by apply ensures_throw|].
  eapply ensures_bind; [apply deref_ensures|]. intros nd _. by destruct (m_AliasTarget nd); [apply IH|apply ensures_ret].
Qed.
Lemma find_child_ensures cs name i last : ensures (find_child cs name i last) (fun _ => True).
Proof.
  revert last. induction cs as [|c cs IH]; intros last; cbn [find_child]; [by apply ensures_ret|].
  eapply ensures_bind; [apply deref_ensures|]. intros nd _. repeat case_match; try apply IH; by apply ensures_ret.
Qed.
Lemma hasTag_ensures d name : ensures (hasTag d name) (fun _ => True).
Proof.
  unfold hasTag. destruct (d_TagsNode d) as [n|]; [|by apply ensures_ret]. apply ensures_bind with (Q := fun _ => True); [|by intros; apply ensures_ret].
  unfold getPropertyByName, target. eapply ensures_bind; [|intros t _; eapply ensures_bind; [apply deref_ensures|]].
  - eapply ensures_bind; [apply ensures_gets|]. intros k _. apply follow_ensures.
  - intros nd _. destruct (m_ChildNodes nd); [|by apply ensures_ret]. destruct (getAndRemoveIndexFromPropertyName name). apply find_child_ensures.
Qed.
Lemma getByTag_good s n : good s -> ensures (getByTag a s n) good.
Proof.
  intros [_ Hs]. unfold getByTag. assert (good []) as Hg by apply good_nil. revert Hg. generalize (@nil DeviceReference).
  induction Hs as [|r s Hr Hs IH]; intros result Hg; cbn [getByTag_loop]; [by apply ensures_ret|].
  eapply ensures_bind; [apply ensures_lift, getDeviceByDSID_yields|]. intros d _.
  eapply ensures_bind; [apply hasTag_ensures|]. intros b _. apply IH. destruct b; [by apply good_add|done].
Qed.

(** ** Positions *)

Section Positions.
Context (desc : string).

Lemma find_first_lt p s n : find_first p s = Some n -> (n < slen s)%nat /\ exists c, char_at s n = Some c /\ p c = true.
Proof.
  revert n. induction s as [|c s IH]; intros n; cbn; [done|]. destruct (p c) eqn:E.
  - intros [= <-]. split; [lia|]. by exists c.
  - destruct (find_first p s) as [k|]; cbn; [|done]. intros [= <-]. destruct (IH k eq_refl) as [? ?]. split; [lia|done].
Qed.
Lemma find_first_of_bounds p s i n : find_first_of p s i = Some n -> (i <= n < slen s)%nat.
Proof.
  unfold find_first_of. intros Hn. apply fmap_Some in Hn as (k & [Hk _]%find_first_lt & ->). rewrite slen_sdrop in Hk. lia.
Qed.
Lemma skipWhitespace_ge i : (i <= skipWhitespace desc i)%nat.
Proof.
  unfold skipWhitespace, skip_blanks. destruct (Nat.ltb_spec i (slen desc)); [|lia].
  destruct (find_first_of _ _ _) eqn:E; cbn; [apply find_first_of_bounds in E|]; lia.
Qed.

Definition onwards {A} (i : nat) (P : A -> Prop) (r : A * nat) : Prop := P (fst r) /\ (i <= snd r)%nat.

Lemma readParameter_yields i : yields (readParameter desc i) (onwards i (fun _ => True)).
Proof.
  unfold readParameter. destruct (find_first_of _ _ _) as [pos|] eqn:E; [|done]. split; [done|]. cbn.
  apply find_first_of_bounds in E. pose proof (skipWhitespace_ge i). pose proof (skipWhitespace_ge pos). lia.
Qed.
Lemma read_yields {A} (f : string -> res A) i : (forall s, yields (f s) (fun _ => True)) ->
  yields (r ← readParameter desc i; v ← f (fst r); Ok (v, snd r)) (onwards i (fun _ => True)).
Proof.
  intros Hf. eapply yields_bind; [apply readParameter_yields|]. intros r [_ Hr]. eapply yields_bind; [apply Hf|]. by intros v _.
Qed.
Lemma readInt_yields i : yields (readInt desc i) (onwards i (fun _ => True)).
Proof. apply (read_yields (fun s => strToInt (trim s))). intros s. unfold strToInt. lookup. Qed.
Lemma parse_dsid_yields s : yields (parse_dsid s) (fun _ => True).
Proof. unfold parse_dsid. destruct (_ <=? _)%nat; [|unfold str2dsuid; lookup]. unfold str2dsid. by destruct (negb _). Qed.
Lemma readDSID_yields i : yields (readDSID desc i) (onwards i (fun _ => True)).
Proof. apply (read_yields (fun s => parse_dsid (trim s))). intros s. apply parse_dsid_yields. Qed.
Lemma readString_yields i : yields (readString desc i) (onwards i (fun _ => True)).
Proof. apply (read_yields (fun s => unquote (trim s))). intros s. unfold unquote. lookup. Qed.
Lemma read_key_yields i : yields (read_key desc i) (onwards i (fun _ => True)).
Proof.
  unfold read_key. destruct (at_ desc i _); (eapply yields_bind; [first [apply readString_yields|apply readInt_yields]|]); by intros r [_ Hr].
Qed.

Lemma at_lt i c : at_ desc i c = true -> (i < slen desc)%nat.
Proof.
  unfold at_. intros E%bool_decide_eq_true. unfold char_at in E. revert i E. clear. induction desc as [|d s IH]; intros [|i]; cbn; try done; [lia|].
  intros E. apply IH in E. lia.
Qed.

Lemma add_devices_good fuel i s : consistent a -> good s -> (slen desc - i < fuel)%nat ->
  yields (add_devices a desc fuel i s) (onwards i good).
Proof.
  intros Hc. revert i s. induction fuel as [|fuel IH]; intros i s Hs Hf; [lia|]. cbn [add_devices].
  set (j := if at_ desc i "," then S i else i).
  assert (i <= j)%nat as Hij by (subst j; destruct (at_ desc i ","); lia).
  apply yields_bind with (Q := onwards j (fun p => p ∈ m_Devices a)).
  - destruct (at_ desc j "'"); (eapply yields_bind; [first [apply readString_yields|apply readDSID_yields]|]); intros r [_ Hr];
      (eapply yields_bind; [first [apply getDeviceByName_yields|apply getDeviceByDSID_yields]|]); by intros p Hp.
  - intros [p n] [Hp Hn]. cbn in *. assert (good (addDevice s (d_DSID (the_device a p)))) as Hs'.
    { apply good_add; [done|]. rewrite tryGetDeviceByDSID_unique by done. done. }
    destruct (at_ desc n ",") eqn:En; [|split; [done|cbn; lia]].
    eapply yields_mono; [apply IH; [done|]|intros r [? ?]; split; [done|lia]].
    assert (i < n)%nat; [|apply at_lt in En; lia].
    subst j. destruct (at_ desc i ",") eqn:Ei; [lia|]. destruct (decide (i = n)) as [-> |]; [congruence|lia].
Qed.

(** ** The parser *)

Context (Hc : consistent a).

Lemma apply_function_good parse name i s g :
  (forall j s', (i <= j)%nat -> good s' -> ensures (parse j s') (onwards j good)) -> good s ->
  ensures (apply_function a desc parse name i s g) (onwards i good).
Proof.
  intros Hp Hs. unfold apply_function.
  assert (forall (r : dsuid_t * nat), (i <= snd r)%nat ->
    yields (d ← getByDSID a s (fst r); Ok (addDevice [] d, snd r)) (onwards i good)) as Hone.
  { intros r Hr. eapply yields_bind; [by apply getByDSID_good|]. intros d Hd. split; [|done]. apply good_add; [apply good_nil|done]. }
  assert (forall (look : string + Z -> res DeviceSet), (forall k, yields (look k) good) ->
    yields (r ← read_key desc i; s ← look (fst r); Ok (s, snd r)) (onwards i good)) as Hkey.
  { intros look Hl. eapply yields_bind; [apply read_key_yields|]. intros r [_ Hr].
    eapply yields_bind; [apply Hl|]. by intros s' Hs'. }
  assert (forall f : DeviceSet -> DeviceSet, (forall s', good s' -> good (f s')) ->
    ensures (r ← (ds ← se_lift (S := heap Ext) (context_devices a g); parse i ds); mret (f (fst r), snd r)) (onwards i good)) as Hinner.
  { intros f Hf. eapply ensures_bind.
    - eapply ensures_bind; [apply ensures_lift, context_good, Hc|]. intros ds Hds. apply Hp; [lia|done].
    - intros r [Hr Hi]. apply ensures_ret. by split; [apply Hf|]. }
  repeat match goal with |- ensures (if ?b then _ else _) _ => destruct b end.
  - apply ensures_lift. eapply yields_bind; [apply readDSID_yields|]. intros r [_ Hr]. by apply Hone.
  - apply ensures_lift. eapply yields_bind; [apply readDSID_yields|]. intros r [_ Hr]. by apply Hone.
  - apply ensures_lift, (Hkey (fun k => match k with inl zoneName => getByZone_name a s zoneName | inr zoneID => getByZone a s zoneID end)).
    intros [n|z]; [by apply getByZone_name_good|by apply getByZone_good].
  - apply ensures_lift, (Hkey (fun k => match k with inl n => getByGroup_name a s n | inr z => getByGroup a s z end)).
    intros [n|z]; [by apply getByGroup_name_good|by apply getByGroup_good].
  - apply ensures_lift. eapply yields_bind; [apply readInt_yields|]. intros r [_ Hr].
    eapply yields_bind; [by apply select_good|]. by intros s' Hs'.
  - eapply ensures_bind; [apply ensures_lift, readString_yields|]. intros r [_ Hr].
    eapply ensures_bind; [by apply getByTag_good|]. intros s' Hs'. by apply ensures_ret.
  - apply Hinner. intros s' Hs'. by apply good_combine.
  - apply Hinner. intros s' Hs'. by apply good_remove.
  - apply ensures_ret. split; [apply good_nil|cbn; lia].
  - apply ensures_lift, add_devices_good; [done..|lia].
  - apply ensures_ret. split; [apply good_nil|cbn; lia].
Qed.

Lemma restrictByFunction_good parse name i s g :
  (forall j s', (i <= j)%nat -> good s' -> ensures (parse j s') (onwards j good)) -> good s ->
  ensures (restrictByFunction a desc parse name i s g) (onwards i good).
Proof.
  intros Hp Hs. unfold restrictByFunction. destruct (_ <=? _)%nat; [by apply ensures_throw|].
  destruct (negb _); [by apply ensures_throw|]. eapply ensures_bind; [by apply apply_function_good|].
  intros r [Hr Hi]. destruct (negb _); [by apply ensures_throw|]. destruct (at_ _ _ _); [by apply ensures_throw|].
  apply ensures_ret. split; [done|cbn; lia].
Qed.

Lemma restrictBy_good n s g : good s -> yields (restrictBy a n s g) good.
Proof.
  intros Hs. unfold restrictBy. apply yields_try.
  { eapply yields_bind; [by apply context_good|]. intros ds Hds. eapply yields_bind; [by apply getByName_good|].
    intros r Hr. apply good_add; [apply good_nil|done]. }
  intros _. apply yields_try; [by apply getByGroup_name_good|]. intros _. apply yields_try; [by apply getByZone_name_good|].
  intros _. apply good_nil.
Qed.

Lemma parseSet_good fuel i s g : good s -> (slen desc - i < fuel)%nat -> ensures (parseSet a desc fuel i s g) (onwards i good).
Proof.
  revert i s. induction fuel as [|fuel IH]; intros i s Hs Hf; [lia|]. cbn [parseSet].
  pose proof (skipWhitespace_ge i) as Hi. set (j := skipWhitespace desc i) in *.
  destruct (Nat.leb_spec (slen desc) j); [by apply ensures_ret|].
  set (pos := default (slen desc - 1)%nat (find_first_of is_delimiter desc j)).
  assert (j <= pos)%nat as Hpos.
  { subst pos. destruct (find_first_of _ _ _) eqn:E; cbn; [apply find_first_of_bounds in E|]; lia. }
  assert (forall k s', (j < k)%nat -> good s' -> ensures (parseSet a desc fuel k s' g) (onwards i good)) as Hrec.
  { intros k s' Hk Hs'. eapply ensures_mono; [apply IH; [done|lia]|]. intros r [? ?]. split; [done|lia]. }
  destruct (String.eqb _ "."); [apply Hrec; [lia|by apply all_good]|].
  destruct (at_ desc pos "(").
  - eapply ensures_bind; [apply restrictByFunction_good; [|done]|].
    + intros k s' Hk Hs'. apply IH; [done|lia].
    + intros r [Hr Hn]. pose proof (skipWhitespace_ge (snd r)). destruct (_ && _).
      * apply Hrec; [lia|done].
      * apply ensures_ret. split; [done|cbn; lia].
  - eapply ensures_bind; [by apply ensures_lift, restrictBy_good|]. intros s' Hs'.
    destruct (_ && _); [apply Hrec; [lia|done]|]. apply ensures_ret. split; [done|]. cbn. destruct (_ || _); lia.
Qed.
End Positions.

(** C23: every description is worked off: the parser does not run out of steps,
    it leaves the property tree alone, and if it does not throw, the result is a
    set of devices of the apartment without duplicates. *)
Theorem buildSet_sound desc ctx (h : heap Ext) : consistent a ->
  let (r, h') := buildSet a desc ctx h in h' = h /\ r <> Throw out_of_fuel /\ forall s, r = Ok s -> good s.
Proof.
  intros Hc. assert (ensures (buildSet a desc ctx) good) as He.
  { assert (forall i s g, good s -> ensures (r ← parseSet a desc (S (slen desc)) i s g; mret (fst r)) good) as Hp.
    { intros i s g Hs. eapply ensures_bind; [apply parseSet_good; [done..|lia]|]. intros r [Hr _]. by apply ensures_ret. }
    assert (yields (broadcast a) (fun _ => True)) as Hb by (eapply yields_bind; [apply getZone_yields|done]).
    unfold buildSet. destruct (beginsWith desc "."); [|destruct ctx as [g|]].
    - eapply ensures_bind; [by apply ensures_lift|]. intros g _. eapply ensures_bind; [by apply ensures_lift, context_good|].
      intros s Hs. by apply Hp.
    - eapply ensures_bind; [by apply ensures_lift, Group_getDevices_good|]. intros s Hs. by apply Hp.
    - eapply ensures_bind; [by apply ensures_lift|]. intros g _. apply Hp, good_nil. }
  destruct (He h) as [E Y]. destruct (buildSet a desc ctx h) as [r h']. split; [done|]. destruct r; cbn in Y; naive_solver.
Qed.
End Sound.
