(* ===== verification/SetLanguage.v ===== *)
(** The language of set expressions: its grammar, what an expression means, and
    that [buildSet] computes the meaning from the text. *)
From stdpp Require Import base option list strings gmap.
From Stdlib Require Import ZArith Lia Ascii PrimFloat.
From Stdlib Require String.
From S2P Require Import Prelude CxxString Base NumConv Ds485types ModelConst DataTypes PropertyTree PropertyTreeFacts PropertyReader.
From S2P Require Import StateFacts SceneAccess ApartmentModel DeviceSet SplitterFacts SetBuilder SetBuilderFacts.

Open Scope string_scope.
Open Scope list_scope.
Open Scope Z_scope.

(** * The language of descriptions *)

Inductive expr :=
| Last (s : step)
| Then (s : step) (e : expr)
with step :=
| SName (n : string)
| SZone (z : Z) | SZoneNamed (n : string)
| SGroup (g : Z) | SGroupNamed (n : string)
| SFid (f : Z) | STag (n : string) | SDsid (id : string)
| SEmpty
| SAdd (root : bool) (e : expr) | SRemove (root : bool) (e : expr)
| SAddDevices (n : string) (ns : list string).

Scheme expr_step_ind := Induction for expr Sort Prop with step_expr_ind := Induction for step Sort Prop.

(** ** Printing *)

Definition quoted (n : string) : string := String "'" (n +:+ "'").
Fixpoint quoted_list (ns : list string) : string :=
  match ns with [] => "" | n :: ns => String "," (quoted n +:+ quoted_list ns) end.

Definition keyword (s : step) : string :=
  match s with
  | SName n => n
  | SZone _ | SZoneNamed _ => "zone" | SGroup _ | SGroupNamed _ => "group" | SFid _ => "fid" | STag _ => "tag" | SDsid _ => "dsid"
  | SEmpty => "empty" | SAdd _ _ => "add" | SRemove _ _ => "remove" | SAddDevices _ _ => "addDevices"
  end.

Fixpoint print (e : expr) : string :=
  match e with Last s => print_step s | Then s e => print_step s +:+ String "." (print e) end
with print_step (s : step) : string :=
  let call args := keyword s +:+ String "(" (args +:+ ")") in
  match s with
  | SName n => n
  | SZone z | SGroup z | SFid z => call (intToString z false)
  | SZoneNamed n | SGroupNamed n | STag n => call (quoted n)
  | SDsid id => call id
  | SEmpty => call ""
  | SAdd root e | SRemove root e => call ((if root : bool then "." else "") +:+ print e)
  | SAddDevices n ns => call (quoted n +:+ quoted_list ns)
  end.

Definition arguments (s : step) : string :=
  match s with
  | SName n => n
  | SZone z | SGroup z | SFid z => intToString z false
  | SZoneNamed n | SGroupNamed n | STag n => quoted n
  | SDsid id => id
  | SEmpty => ""
  | SAdd root e | SRemove root e => (if root : bool then "." else "") +:+ print e
  | SAddDevices n ns => quoted n +:+ quoted_list ns
  end.

(** ** What can be printed: numbers that fit, names without the delimiters that
    would end them. *)

Definition no_space (c : option ascii) : Prop := match c with Some c => isspace c = false | None => False end.
Definition tight (s : string) : Prop := no_space (char_at s 0) /\ no_space (char_at s (slen s - 1)).
Definition plain (p : ascii -> bool) (s : string) : Prop := sexists p s = false.
Definition is_int (z : Z) : Prop := -2147483648 <= z <= 2147483647.

Fixpoint printable (e : expr) : Prop :=
  match e with Last s => printable_step s | Then s e => printable_step s /\ printable e end
with printable_step (s : step) : Prop :=
  match s with
  | SName n => tight n /\ plain is_delimiter n
  | SZone z | SGroup z | SFid z => is_int z
  | SZoneNamed n | SGroupNamed n | STag n => plain is_param_end n
  | SDsid id => tight id /\ plain is_param_end id
  | SEmpty => True
  | SAdd _ e | SRemove _ e => printable e
  | SAddDevices n ns => plain is_param_end n /\ Forall (plain is_param_end) ns
  end.

(** ** Meaning *)

Section Meaning.
Context {Ext : Type} `{Dsuid} (a : Apartment) (g : option gptr).
Local Notation "'M' A" := (SE (heap Ext) A) (at level 10, A at next level).

Fixpoint devices_named (ns : list string) (s : DeviceSet) : res DeviceSet :=
  match ns with
  | [] => Ok s
  | n :: ns => d ← getDeviceByName a n; devices_named ns (addDevice s (d_DSID (the_device a d)))
  end.

Fixpoint meaning (e : expr) (s : DeviceSet) : M DeviceSet :=
  match e with
  | Last t => meaning_step t s
  | Then t e => s ← meaning_step t s; meaning e s
  end
with meaning_step (t : step) (s : DeviceSet) : M DeviceSet :=
  let operand (root : bool) (m : DeviceSet -> M DeviceSet) : M DeviceSet :=
    ds ← se_lift (S := heap Ext) (context_devices a g); m (if root then Apartment_getDevices a else ds) in
  match t with
  | SName n => se_lift (restrictBy a n s g)
  | SZone z => se_lift (getByZone a s z)
  | SZoneNamed n => se_lift (getByZone_name a s n)
  | SGroup z => se_lift (getByGroup a s z)
  | SGroupNamed n => se_lift (getByGroup_name a s n)
  | SFid f => se_lift (getByFunctionID a s f)
  | STag n => getByTag a s n
  | SDsid id => se_lift (i ← parse_dsid id; d ← getByDSID a s i; Ok [d])
  | SEmpty => mret []
  | SAdd root e => o ← operand root (meaning e); mret (combine s o)
  | SRemove root e => o ← operand root (meaning e); mret (remove s o)
  | SAddDevices n ns => se_lift (devices_named (n :: ns) s)
  end.
End Meaning.

Example print_example :
  print (Then (SZone 2) (Then (SGroupNamed "light") (Last (SAdd true (Then (SName "dimmer") (Last SEmpty)))))) =
  "zone(2).group('light').add(.dimmer.empty())".
Proof. reflexivity. Qed.

(** * Positions *)

Section Positions.
Context (desc : string).

(** [r] is what follows position [i]. *)
Definition rest_at (i : nat) (r : string) : Prop := exists pre, desc = pre +:+ r /\ i = slen pre.

Lemma rest_at_app i s r : rest_at i (s +:+ r) -> rest_at (i + slen s) r.
Proof. intros (pre & -> & ->). exists (pre +:+ s). by rewrite app_assoc_s, slen_app. Qed.
Lemma rest_at_cons i c r : rest_at i (String c r) -> rest_at (S i) r.
Proof. intros Hi. apply (rest_at_app i (String c "")) in Hi. by rewrite Nat.add_1_r in Hi. Qed.
Lemma rest_at_drop i r : rest_at i r -> sdrop i desc = r /\ slen desc = (i + slen r)%nat.
Proof. intros (pre & -> & ->). by rewrite sdrop_app, slen_app. Qed.
Lemma rest_at_lt i c r : rest_at i (String c r) -> (i < slen desc)%nat.
Proof. intros [_ E]%rest_at_drop. cbn in E. lia. Qed.

Lemma at_rest i c r d : rest_at i (String c r) -> at_ desc i d = Ascii.eqb c d.
Proof.
  intros (pre & -> & ->). unfold at_. rewrite char_at_app_r. destruct (Ascii.eqb_spec c d) as [->|Hne].
  - by apply bool_decide_eq_true.
  - apply bool_decide_eq_false. naive_solver.
Qed.
Lemma at_end i d : rest_at i "" -> at_ desc i d = false.
Proof.
  intros Hi. apply rest_at_drop in Hi as [_ E]. cbn in E. unfold at_. apply bool_decide_eq_false. intros Hd.
  assert (at_ desc i d = true) as Hl%at_lt by by apply bool_decide_eq_true. lia.
Qed.

Definition stops (r : string) : Prop := match r with String c _ => isspace c = false | EmptyString => True end.

Lemma skip_rest i r : rest_at i r -> stops r -> skipWhitespace desc i = i.
Proof.
  intros Hi Hr. unfold skipWhitespace, skip_blanks, find_first_of. destruct (rest_at_drop i r Hi) as [-> E]. destruct r as [|c r].
  - cbn in E. by rewrite (proj2 (Nat.ltb_ge i (slen desc))) by lia.
  - rewrite (proj2 (Nat.ltb_lt i (slen desc))) by (cbn in E; lia). cbn in *. rewrite Hr. cbn. lia.
Qed.

Lemma find_first_app p s c r : plain p s -> p c = true -> find_first p (s +:+ String c r) = Some (slen s).
Proof.
  intros Hs Hc. unfold plain in Hs. induction s as [|d s IH]; cbn in *; [by rewrite Hc|].
  apply orb_false_iff in Hs as [-> Hs]. by rewrite IH.
Qed.
Lemma find_first_none p s : plain p s -> find_first p s = None.
Proof. unfold plain. induction s as [|d s IH]; cbn; [done|]. intros [-> Hs]%orb_false_iff. by rewrite IH. Qed.
Lemma find_rest p i s c r : rest_at i (s +:+ String c r) -> plain p s -> p c = true ->
  find_first_of p desc i = Some (i + slen s)%nat.
Proof. intros [E _]%rest_at_drop Hs Hc. unfold find_first_of. by rewrite E, find_first_app. Qed.
Lemma find_rest_none p i s : rest_at i s -> plain p s -> find_first_of p desc i = None.
Proof. intros [E _]%rest_at_drop Hs. unfold find_first_of. by rewrite E, find_first_none. Qed.

Lemma substr_rest i s r : rest_at i (s +:+ r) -> substr desc i (slen s) = s.
Proof. intros [E _]%rest_at_drop. unfold substr. by rewrite E, stake_app. Qed.
End Positions.

(** ** Trimming *)

Lemma find_last_not_snoc p s c : p c = false -> find_last_not p (s +:+ String c "") = Some (slen s).
Proof. intros Hc. induction s as [|d s IH]; cbn; [by rewrite Hc|]. by rewrite IH. Qed.

Lemma last_split s : s <> "" -> exists t c, s = t +:+ String c "" /\ char_at s (slen s - 1) = Some c.
Proof.
  intros Hs. assert (exists t c, s = t +:+ String c "") as (t & c & ->).
  { induction s as [|d s IH]; [done|]. destruct s as [|e s]; [by exists "", d|]. destruct IH as (t & c & ->); [done|]. by exists (String d t), c. }
  exists t, c. split; [done|]. apply slast_snoc.
Qed.

Lemma trim_space_space c : isspace c = false -> is_trim_space c = false.
Proof.
  intros Hc. destruct (is_trim_space c) eqn:E; [|done]. unfold is_trim_space in E. cbn [existsb] in E.
  repeat (apply orb_true_iff in E as [E|E]; [apply Ascii.eqb_eq in E; by subst|]). done.
Qed.

Lemma trim_tight s : tight s -> trim s = s.
Proof.
  intros [Hf Hl]. destruct s as [|c s]; [done|]. cbn in Hf. unfold trim.
  assert (find_first_not is_trim_space (String c s) = Some 0%nat) as ->.
  { unfold find_first_not. by rewrite trim_space_space. }
  assert (erase (String c s) 0 0 = String c s) as -> by done. destruct (last_split (String c s)) as (t & d & E & El); [done|].
  rewrite El in Hl. rewrite E, find_last_not_snoc by by apply trim_space_space.
  replace (slen t + 1)%nat with (slen (t +:+ String d "")) by (rewrite slen_app; cbn; lia). apply stake_all.
Qed.

Lemma tight_ends c s d : isspace c = false -> isspace d = false -> tight (String c (s +:+ String d "")).
Proof.
  intros Hc Hd. split; [done|]. pose proof (slast_snoc (String c s) d) as E. unfold slast in E. cbn [String.append] in E. by rewrite E.
Qed.
Lemma tight_quoted n : tight (quoted n).
Proof. by apply tight_ends. Qed.
Lemma tight_stops s r : tight s -> stops (s +:+ r).
Proof. by destruct s; intros [? ?]. Qed.

Lemma unquote_quoted n : unquote (quoted n) = Ok n.
Proof.
  unfold unquote, quoted. pose proof (slast_snoc (String "'" n) "'") as E. unfold slast in E. cbn [String.append] in E. rewrite E.
  cbn [String.length]. rewrite slen_app. cbn [String.length]. replace (2 <=? S (slen n + 1))%nat with true by (symmetry; apply Nat.leb_le; lia).
  rewrite !bool_decide_true by done. cbn [andb]. unfold substr. cbn [sdrop].
  replace (S (slen n + 1) - 2)%nat with (slen n) by lia. by rewrite stake_app.
Qed.

(** Texts of numbers. *)
Definition number_char (c : ascii) : bool := negb (isspace c || is_delimiter c || Ascii.eqb "'" c).
Lemma digit_number v : 0 <= v < 10 -> number_char (digit_char v) = true.
Proof. intros Hv. apply (zrange_forall (fun v => number_char (digit_char v)) 0 10) in Hv; [done|by_compute]. Qed.
Lemma intToString_chars z : - 2 ^ 63 <= z < 2 ^ 63 -> sforall number_char (intToString z false) = true.
Proof.
  intros Hz. rewrite intToString_form, sforall_app. apply andb_true_iff. split; [by case_match|].
  apply print_digits_forall; [lia| |done]. apply digit_number.
Qed.

(** * Reading parameters *)

Section Reading.
Context {Ext : Type} `{Dsuid} (a : Apartment) (desc : string).
Local Notation rest_at := (rest_at desc).

Lemma param_end_space c : is_param_end c = true -> isspace c = false.
Proof. unfold is_param_end, one_of. cbn. intros E. repeat (apply orb_true_iff in E as [E|E]; [by apply Ascii.eqb_eq in E as ->|]). done. Qed.

Lemma readParameter_rest i s c r : rest_at i (s +:+ String c r) -> stops (s +:+ String c r) ->
  plain is_param_end s -> is_param_end c = true -> readParameter desc i = Ok (s, (i + slen s)%nat).
Proof.
  intros Hi Hr Hs Hc. unfold readParameter. rewrite (skip_rest desc i _ Hi Hr), (find_rest desc _ i s c r) by done.
  replace (i + slen s - i)%nat with (slen s) by lia. rewrite (substr_rest desc i s _ Hi).
  by rewrite (skip_rest desc _ _ (rest_at_app desc i s _ Hi)) by by apply param_end_space.
Qed.

Lemma plain_quoted s : plain is_param_end s -> plain is_param_end (quoted s).
Proof. unfold plain, quoted. cbn [sexists]. rewrite sexists_app. by intros ->. Qed.

Lemma readString_rest i n c r : rest_at i (quoted n +:+ String c r) -> plain is_param_end n -> is_param_end c = true ->
  readString desc i = Ok (n, (i + slen (quoted n))%nat).
Proof.
  intros Hi Hn Hc. unfold readString. rewrite (readParameter_rest i (quoted n) c r) by (done || by apply plain_quoted).
  cbn. by rewrite (trim_tight _ (tight_quoted n)), unquote_quoted.
Qed.

Lemma number_tight z : is_int z -> tight (intToString z false) /\ sforall number_char (intToString z false) = true.
Proof.
  unfold is_int. intros Hz. assert (sforall number_char (intToString z false) = true) as Hn by (apply intToString_chars; lia).
  split; [|done]. assert (intToString z false <> "") as Hne.
  { intros E. pose proof (strToInt_print z ltac:(lia)) as Hs. by rewrite E in Hs. }
  destruct (last_split _ Hne) as (t & c & E & El). split; [|rewrite El].
  - destruct (intToString z false) as [|d s]; [done|]. rewrite sforall_cons in Hn. apply andb_true_iff in Hn as [Hd _].
    unfold number_char in Hd. cbn. by destruct (isspace d).
  - rewrite E, sforall_app, sforall_cons in Hn. apply andb_true_iff in Hn as [_ [Hd _]%andb_true_iff].
    unfold number_char in Hd. cbn. by destruct (isspace c).
Qed.

Lemma plain_of_chars (p q : ascii -> bool) s : (forall c, p c = true -> q c = false) -> sforall p s = true -> plain q s.
Proof.
  intros Hpq. unfold plain. induction s as [|c s IH]; [done|]. rewrite sforall_cons. intros [Hc Hs]%andb_true_iff.
  cbn. by rewrite (Hpq c), IH.
Qed.
Lemma number_not_end c : number_char c = true -> is_param_end c = false.
Proof. unfold number_char, is_delimiter, is_param_end, one_of. cbn. intros E. by destruct (Ascii.eqb c ","), (Ascii.eqb c ")"), (Ascii.eqb c "."), (Ascii.eqb c "("), (isspace c). Qed.

Lemma readInt_rest i z c r : rest_at i (intToString z false +:+ String c r) -> is_int z -> is_param_end c = true ->
  readInt desc i = Ok (z, (i + slen (intToString z false))%nat).
Proof.
  intros Hi Hz Hc. destruct (number_tight z Hz) as [Ht Hn]. unfold readInt.
  rewrite (readParameter_rest i _ c r) by (done || by apply tight_stops || by (eapply plain_of_chars; [apply number_not_end|])).
  unfold is_int in Hz. cbn [mbind res_bind fst snd]. rewrite trim_tight, strToInt_print by (done || lia). cbn [mbind res_bind]. by rewrite int32_id by done.
Qed.

Lemma read_key_number i z c r : rest_at i (intToString z false +:+ String c r) -> is_int z -> is_param_end c = true ->
  read_key desc i = Ok (inr z, (i + slen (intToString z false))%nat).
Proof.
  intros Hi Hz Hc. unfold read_key. rewrite (readInt_rest i z c r) by done. destruct (number_tight z Hz) as [Ht Hn].
  destruct (intToString z false) as [|d s] eqn:E; [by destruct Ht|]. rewrite (at_rest desc i d (s +:+ String c r)) by done.
  rewrite sforall_cons in Hn. apply andb_true_iff in Hn as [Hd _]. unfold number_char in Hd.
  destruct (Ascii.eqb_spec d "'"); [|done]. by subst.
Qed.
Lemma read_key_name i n c r : rest_at i (quoted n +:+ String c r) -> plain is_param_end n -> is_param_end c = true ->
  read_key desc i = Ok (inl n, (i + slen (quoted n))%nat).
Proof.
  intros Hi Hn Hc. unfold read_key. rewrite (readString_rest i n c r) by done.
  by rewrite (at_rest desc i "'" ((n +:+ "'") +:+ String c r)) by done.
Qed.

Lemma readDSID_rest i id c r : rest_at i (id +:+ String c r) -> tight id -> plain is_param_end id -> is_param_end c = true ->
  readDSID desc i = d ← parse_dsid id; Ok (d, (i + slen id)%nat).
Proof.
  intros Hi Ht Hp Hc. unfold readDSID. rewrite (readParameter_rest i id c r) by (done || by apply tight_stops).
  cbn. by rewrite trim_tight.
Qed.
End Reading.

(** * Functions *)

Section Functions.
Context {Ext : Type} `{Dsuid} (a : Apartment) (desc : string).
Local Notation "'M' A" := (SE (heap Ext) A) (at level 10, A at next level).
Local Notation rest_at := (rest_at desc).

Lemma add_devices_rest (comma : bool) fuel i n ns s r :
  rest_at i ((if comma then "," else "") +:+ quoted n +:+ quoted_list ns +:+ String ")" r) ->
  plain is_param_end n -> Forall (plain is_param_end) ns -> (slen desc - i < fuel)%nat ->
  add_devices a desc fuel i s =
    x ← devices_named a (n :: ns) s; Ok (x, (i + (if comma then 1 else 0) + slen (quoted n) + slen (quoted_list ns))%nat).
Proof.
  revert comma fuel i n s. induction ns as [|n' ns IH]; intros comma fuel i n s Hi Hn Hns Hf; (destruct fuel as [|fuel]; [lia|]);
    cbn [add_devices devices_named];
    assert (at_ desc i "," = comma) as -> by (destruct comma; by rewrite (at_rest desc _ _ _ _ Hi));
    set (j := if comma then S i else i);
    assert (rest_at j (quoted n +:+ (quoted_list _ +:+ String ")" r))) as Hj
      by (subst j; destruct comma; [by apply rest_at_cons in Hi|done]);
    rewrite (at_rest desc j "'" _ "'" Hj); cbn [Ascii.eqb Bool.eqb].
  - rewrite (readString_rest desc j n ")" r) by done. cbn [mbind res_bind fst snd].
    destruct (getDeviceByName a n) as [d|e]; [|done]. cbn [mbind res_bind fst snd].
    rewrite (at_rest desc _ ")" r "," (rest_at_app desc j (quoted n) _ Hj)). cbn. do 2 f_equal. subst j. destruct comma; cbn; lia.
  - cbn [quoted_list String.append] in Hj. rewrite app_assoc_s in Hj.
    pose proof (rest_at_app desc j (quoted n) _ Hj) as Hk. apply Forall_cons in Hns as [Hn' Hns].
    rewrite (readString_rest desc j n "," (quoted n' +:+ quoted_list ns +:+ String ")" r)) by done.
    cbn [mbind res_bind fst snd]. destruct (getDeviceByName a n) as [d|e]; [|done]. cbn [mbind res_bind fst snd].
    rewrite (at_rest desc _ "," _ "," Hk). cbn [Ascii.eqb Bool.eqb].
    assert (slen desc - (j + slen (quoted n)) < fuel)%nat as Hf'.
    { pose proof (rest_at_lt desc _ _ _ Hk). subst j. unfold quoted in *. destruct comma; cbn in *; lia. }
    rewrite (IH true fuel _ n') by done.
    cbn [devices_named mbind res_bind]. destruct (getDeviceByName a n') as [d'|e]; [|done]. cbn [mbind res_bind].
    destruct (devices_named a ns _); [|done]. cbn [mbind res_bind]. do 2 f_equal. cbn [quoted_list String.length]. rewrite slen_app.
    subst j. destruct comma; lia.
Qed.

Context (g : option gptr).

(** The computation of a value, followed by the position it leaves. *)
Definition then_at {A} (m : M A) (n : nat) : M (A * nat) := x ← m; mret (x, n).
Lemma then_at_lift {A} (r : res A) n h : se_lift (S := heap Ext) (x ← r; Ok (x, n)) h = then_at (se_lift r) n h.
Proof. by destruct r. Qed.

(** [parse] computes the operand of [add] and [remove]. *)
Definition parses_operand (parse : nat -> DeviceSet -> M (DeviceSet * nat)) (i : nat) (t : step) : Prop :=
  match t with
  | SAdd root e | SRemove root e => forall s h,
      parse i s h = then_at (meaning a g e (if root : bool then Apartment_getDevices a else s)) (i + slen (arguments t)) h
  | _ => True
  end.

Definition is_call (t : step) : Prop := match t with SName _ => False | _ => True end.

Lemma meaning_operand f root e s t :
  (t = SAdd root e /\ f = (fun s o => combine s o)) \/ (t = SRemove root e /\ f = (fun s o => remove s o)) ->
  meaning_step a g t s =
    (o ← (ds ← se_lift (S := heap Ext) (context_devices a g); meaning a g e (if root then Apartment_getDevices a else ds)); mret (f s o)).
Proof. by intros [[-> ->] | [-> ->]]. Qed.

Lemma apply_function_rest parse i t s r h : is_call t -> printable_step t -> parses_operand parse i t ->
  rest_at i (arguments t +:+ String ")" r) ->
  apply_function a desc parse (keyword t) i s g h = then_at (meaning_step a g t s) (i + slen (arguments t)) h.
Proof.
  intros Ht Hp Ho Hi. destruct t; try done; cbn [keyword arguments parses_operand printable_step] in *; unfold apply_function;
    cbn [String.eqb Ascii.eqb Bool.eqb].
  - rewrite (read_key_number desc i z ")" r) by done. cbn [mbind res_bind fst snd meaning_step]. apply then_at_lift.
  - rewrite (read_key_name desc i n ")" r) by done. cbn [mbind res_bind fst snd meaning_step]. apply then_at_lift.
  - rewrite (read_key_number desc i g0 ")" r) by done. cbn [mbind res_bind fst snd meaning_step]. apply then_at_lift.
  - rewrite (read_key_name desc i n ")" r) by done. cbn [mbind res_bind fst snd meaning_step]. apply then_at_lift.
  - rewrite (readInt_rest desc i f ")" r) by done. cbn [mbind res_bind fst snd meaning_step]. apply then_at_lift.
  - rewrite (readString_rest desc i n ")" r) by done. done.
  - destruct Hp as [Hp1 Hp2]. cbn [meaning_step]. rewrite (readDSID_rest desc i id ")" r) by done. rewrite <- then_at_lift.
    destruct (parse_dsid id) as [d|e]; [|done]. cbn [mbind res_bind fst snd]. by destruct (getByDSID a s d).
  - unfold then_at. cbn. by rewrite Nat.add_0_r.
  - rewrite (meaning_operand (fun s o => combine s o) root e s) by by left. unfold then_at, mbind, se_bind, se_lift.
    destruct (context_devices a g) as [ds|e0]; [|done]. rewrite Ho. unfold then_at, mbind, se_bind. by destruct (meaning a g e _ h) as [[x|e'] h'].
  - rewrite (meaning_operand (fun s o => remove s o) root e s) by by right. unfold then_at, mbind, se_bind, se_lift.
    destruct (context_devices a g) as [ds|e0]; [|done]. rewrite Ho. unfold then_at, mbind, se_bind. by destruct (meaning a g e _ h) as [[x|e'] h'].
  - destruct Hp as [Hp1 Hp2]. cbn [meaning_step]. rewrite <- then_at_lift. rewrite app_assoc_s in Hi.
    rewrite (add_devices_rest false (S (slen desc)) i n ns s r) by (done || lia). cbn [se_lift].
    rewrite slen_app, Nat.add_0_r, Nat.add_assoc. done.
Qed.

Lemma restrictByFunction_rest parse i t s r h : is_call t -> printable_step t -> parses_operand parse (S i) t ->
  rest_at i (String "(" (arguments t +:+ String ")" r)) ->
  restrictByFunction a desc parse (keyword t) (S i) s g h = then_at (meaning_step a g t s) (S (S i + slen (arguments t))) h.
Proof.
  intros Ht Hp Ho Hi. pose proof (rest_at_cons desc _ _ _ Hi) as Hj. unfold restrictByFunction.
  assert (S i < slen desc)%nat as Hl by (destruct (rest_at_drop desc _ _ Hj) as [_ El]; rewrite slen_app in El; cbn in El; lia).
  rewrite (proj2 (Nat.leb_gt (slen desc) (S i))) by done. cbn [Nat.sub]. rewrite Nat.sub_0_r, (at_rest desc i "(" _ "(" Hi). cbn [Ascii.eqb Bool.eqb negb].
  unfold mbind at 1, se_bind at 1. rewrite (apply_function_rest parse (S i) t s r) by done.
  pose proof (rest_at_app desc _ _ _ Hj) as Hk. unfold then_at, mbind, se_bind.
  destruct (meaning_step a g t s h) as [[x|e] h']; [|done]. cbn [mret se_ret fst snd].
  by rewrite (at_rest desc _ ")" r ")" Hk), (at_rest desc _ ")" r "," Hk).
Qed.

(** * The parser *)

(** What may follow an expression: nothing, or the end of a parameter. *)
Definition closing (r : string) : Prop := r = "" \/ exists r', r = String ")" r'.

Lemma step_cases t : (exists n, t = SName n) \/ is_call t.
Proof. destruct t; cbn; eauto. Qed.
Lemma print_call t : is_call t -> print_step t = keyword t +:+ String "(" (arguments t +:+ ")").
Proof. by destruct t. Qed.
Lemma keyword_plain t : is_call t -> plain is_delimiter (keyword t).
Proof. by destruct t. Qed.
Lemma keyword_stops t r : is_call t -> stops (keyword t +:+ r).
Proof. by destruct t. Qed.

Lemma parseSet_dot fuel i s r (h : heap Ext) : rest_at i (String "." r) ->
  parseSet a desc (S fuel) i s g h = parseSet a desc fuel (S i) (Apartment_getDevices a) g h.
Proof.
  intros Hi. cbn [parseSet]. rewrite (skip_rest desc i _ Hi) by done.
  rewrite (proj2 (Nat.leb_gt (slen desc) i)) by by eapply rest_at_lt.
  rewrite (find_rest desc is_delimiter i "" "." r) by done. cbn [from_option id].
  assert (substr desc i (i + slen "" + 1 - i) = ".") as ->.
  { replace (i + slen "" + 1 - i)%nat with (slen ".") by (cbn; lia). by apply (substr_rest desc i _ r). }
  cbn [String.eqb Ascii.eqb Bool.eqb String.length]. by replace (i + 0 + 1)%nat with (S i) by lia.
Qed.

Lemma endsWith_snoc s c d : endsWith (s +:+ String c "") (String d "") = Ascii.eqb c d.
Proof.
  unfold endsWith. rewrite slen_app. cbn [String.length]. rewrite (proj2 (Nat.leb_le 1 (slen s + 1))) by lia. cbn [andb].
  replace (slen s + 1 - 1)%nat with (slen s) by lia. unfold substr. rewrite sdrop_app. cbn. by destruct (Ascii.eqb c d).
Qed.

Lemma keyword_entry s c : stake (slen (s +:+ String c "") - 1) (s +:+ String c "") = s.
Proof. rewrite slen_app. cbn [String.length]. replace (slen s + 1 - 1)%nat with (slen s) by lia. apply stake_app. Qed.

(** A call, whatever follows. *)
Lemma parseSet_call fuel i t s post (h : heap Ext) : is_call t -> printable_step t -> stops post ->
  parses_operand (fun i s => parseSet a desc fuel i s g) (S (i + slen (keyword t))) t ->
  rest_at i (print_step t +:+ post) ->
  parseSet a desc (S fuel) i s g h =
    (x ← meaning_step a g t s;
     let k := (i + slen (print_step t))%nat in
     if (k <? slen desc)%nat && negb (at_ desc k ",") && negb (at_ desc k ")") then parseSet a desc fuel (S k) x g else mret (x, k)) h.
Proof.
  intros Ht Hp Hs Ho Hi. pose proof (rest_at_app desc _ _ _ Hi) as Hk. rewrite (print_call t Ht) in Hi, Hk |- *.
  assert (rest_at i (keyword t +:+ String "(" (arguments t +:+ String ")" post))) as Hi'.
  { by rewrite app_assoc_s in Hi; cbn [String.append] in Hi; rewrite app_assoc_s in Hi. } clear Hi.
  pose proof (keyword_plain t Ht) as Hkw. pose proof (rest_at_app desc _ _ _ Hi') as Hj. cbn [parseSet].
  rewrite (skip_rest desc i _ Hi') by by apply keyword_stops.
  rewrite (proj2 (Nat.leb_gt (slen desc) i)) by (pose proof (rest_at_lt desc _ _ _ Hj); lia).
  rewrite (find_rest desc is_delimiter i (keyword t) "(" _ Hi') by done. cbn [from_option id].
  assert (substr desc i (i + slen (keyword t) + 1 - i) = keyword t +:+ "(") as ->.
  { replace (i + slen (keyword t) + 1 - i)%nat with (slen (keyword t +:+ "(")) by (rewrite slen_app; cbn; lia).
    apply (substr_rest desc i _ (arguments t +:+ String ")" post)). by rewrite app_assoc_s. }
  replace (String.eqb (keyword t +:+ "(") ".") with false by by destruct t.
  rewrite (at_rest desc _ "(" _ "(" Hj). cbn [Ascii.eqb Bool.eqb]. rewrite keyword_entry, Nat.add_1_r.
  rewrite !slen_app in Hk |- *. cbn [String.length] in Hk |- *. rewrite slen_app in Hk |- *. cbn [String.length] in Hk |- *.
  unfold mbind at 1, se_bind at 1. rewrite (restrictByFunction_rest _ _ t s post) by done.
  unfold then_at, mbind, se_bind. destruct (meaning_step a g t s h) as [[x|e] h']; [|done]. cbn [mret se_ret fst snd].
  replace (i + (slen (keyword t) + S (slen (arguments t) + 1)))%nat with (S (S (i + slen (keyword t)) + slen (arguments t))) in * by lia.
  by rewrite (skip_rest desc _ _ Hk Hs).
Qed.

(** A bare word ends at a dot, at the end of a parameter or at the end. *)
Lemma word_entry_not n c r : tight n -> String.eqb (n +:+ String c r) "." = false.
Proof. destruct n as [|d [|e n]]; intros [Hd _]; [done|by destruct d as [[] [] [] [] [] [] [] []]|]. by destruct d as [[] [] [] [] [] [] [] []]. Qed.

Lemma word_start i n r : rest_at i (n +:+ r) -> tight n -> skipWhitespace desc i = i /\ (i < slen desc)%nat.
Proof.
  intros Hi Ht. split; [by eapply skip_rest, tight_stops|]. destruct n as [|c n]; [by destruct Ht|]. by eapply rest_at_lt.
Qed.

Lemma parseSet_word_dot fuel i n r s (h : heap Ext) : tight n -> plain is_delimiter n -> r <> "" -> rest_at i (n +:+ String "." r) ->
  parseSet a desc (S fuel) i s g h = (x ← se_lift (restrictBy a n s g); parseSet a desc fuel (S (i + slen n)) x g) h.
Proof.
  intros Ht Hn Hr Hi. destruct (word_start i n _ Hi Ht) as [Hs Hl]. pose proof (rest_at_app desc _ _ _ Hi) as Hj.
  pose proof (rest_at_cons desc _ _ _ Hj) as Hk. apply rest_at_drop in Hk as [_ El]. cbn [parseSet].
  rewrite Hs, (proj2 (Nat.leb_gt (slen desc) i)), (find_rest desc is_delimiter i n "." r Hi) by done. cbn [from_option id].
  assert (substr desc i (i + slen n + 1 - i) = n +:+ ".") as ->.
  { replace (i + slen n + 1 - i)%nat with (slen (n +:+ ".")) by (rewrite slen_app; cbn; lia).
    apply (substr_rest desc i _ r). by rewrite app_assoc_s. }
  assert (bool_decide (Some (i + slen n)%nat = None) || (i + slen n =? slen desc - 1)%nat = false) as ->.
  { rewrite bool_decide_false by done. apply Nat.eqb_neq. destruct r; [done|]. cbn in El. lia. }
  rewrite (word_entry_not n "." "" Ht), (at_rest desc _ "." _ "(" Hj), !endsWith_snoc. cbn [Ascii.eqb Bool.eqb orb negb andb].
  by rewrite keyword_entry, (trim_tight n Ht), Nat.add_1_r.
Qed.

Lemma parseSet_word_paren fuel i n r s (h : heap Ext) : tight n -> plain is_delimiter n -> rest_at i (n +:+ String ")" r) ->
  parseSet a desc (S fuel) i s g h = then_at (se_lift (restrictBy a n s g)) (i + slen n) h.
Proof.
  intros Ht Hn Hi. destruct (word_start i n _ Hi Ht) as [Hs Hl]. pose proof (rest_at_app desc _ _ _ Hi) as Hj. cbn [parseSet].
  rewrite Hs, (proj2 (Nat.leb_gt (slen desc) i)), (find_rest desc is_delimiter i n ")" r Hi) by done. cbn [from_option id].
  assert (substr desc i (i + slen n + 1 - i) = n +:+ ")") as ->.
  { replace (i + slen n + 1 - i)%nat with (slen (n +:+ ")")) by (rewrite slen_app; cbn; lia).
    apply (substr_rest desc i _ r). by rewrite app_assoc_s. }
  rewrite (word_entry_not n ")" "" Ht), (at_rest desc _ ")" _ "(" Hj), !endsWith_snoc. cbn [Ascii.eqb Bool.eqb orb negb andb].
  rewrite orb_true_r, andb_false_r. cbv iota. rewrite keyword_entry, (trim_tight n Ht), Nat.add_sub. done.
Qed.

Lemma parseSet_word_end fuel i n s (h : heap Ext) : tight n -> plain is_delimiter n -> rest_at i n ->
  parseSet a desc (S fuel) i s g h = then_at (se_lift (restrictBy a n s g)) (i + slen n) h.
Proof.
  intros Ht Hn Hi. pose proof (rest_at_drop desc i n Hi) as [_ El].
  assert (rest_at i (n +:+ "")) as Hi' by by rewrite app_nil_r_s. destruct (word_start i n "" Hi' Ht) as [Hs Hl]. cbn [parseSet].
  rewrite Hs, (proj2 (Nat.leb_gt (slen desc) i)), (find_rest_none desc is_delimiter i n Hi) by done. cbn [from_option id].
  assert (substr desc i (slen desc - 1 + 1 - i) = n) as ->.
  { replace (slen desc - 1 + 1 - i)%nat with (slen n) by lia. by apply (substr_rest desc i _ ""). }
  destruct (last_split n) as (t & c & E & Ec); [by destruct n; [destruct Ht|]|].
  assert (is_delimiter c = false) as Hc.
  { unfold plain in Hn. rewrite E, sexists_app in Hn. cbn in Hn. by apply orb_false_iff in Hn as [_ [Hn _]%orb_false_iff]. }
  assert (at_ desc (slen desc - 1) "(" = false) as ->.
  { rewrite E in Hi. pose proof (rest_at_app desc _ _ _ Hi) as Hj. rewrite E, slen_app in El. cbn in El.
    replace (slen desc - 1)%nat with (i + slen t)%nat by lia. rewrite (at_rest desc _ c _ "(" Hj).
    unfold is_delimiter, one_of in Hc. cbn in Hc. by destruct (Ascii.eqb_spec c "("); [subst|]. }
  assert (String.eqb n "." = false) as ->.
  { destruct (String.eqb_spec n ".") as [En|]; [|done]. exfalso. revert Hn. by rewrite En. }
  assert (endsWith n "," || endsWith n ")" = false) as ->.
  { rewrite E, !endsWith_snoc. unfold is_delimiter, one_of in Hc. cbn in Hc.
    by destruct (Ascii.eqb_spec c ","), (Ascii.eqb_spec c ")"); subst. }
  rewrite bool_decide_true by done. cbn [orb negb andb]. rewrite (trim_tight n Ht). unfold then_at.
  by replace (slen desc - 1 + 1)%nat with (i + slen n)%nat by lia.
Qed.

Lemma meaning_last t s : meaning (Ext := Ext) a g (Last t) s = meaning_step a g t s.
Proof. reflexivity. Qed.
Lemma meaning_then t e s : meaning (Ext := Ext) a g (Then t e) s = (s ← meaning_step a g t s; meaning a g e s).
Proof. reflexivity. Qed.

(** What is to be shown of an expression. *)
Definition parses (e : expr) : Prop := forall fuel i post s (h : heap Ext),
  rest_at i (print e +:+ post) -> closing post -> (slen desc - i < fuel)%nat -> printable e ->
  parseSet a desc fuel i s g h = then_at (meaning a g e s) (i + slen (print e)) h.

Definition operand_parses (t : step) : Prop :=
  match t with SAdd _ e | SRemove _ e => parses e | _ => True end.

Lemma operand_parsed (t : step) fuel i r : operand_parses t -> printable_step t ->
  rest_at i (arguments t +:+ String ")" r) -> (slen desc - i < fuel)%nat ->
  parses_operand (fun i s => parseSet a desc fuel i s g) i t.
Proof.
  assert (forall (root : bool) e, parses e -> printable e -> rest_at i (((if root then "." else "") +:+ print e) +:+ String ")" r) ->
    (slen desc - i < fuel)%nat -> forall s h, parseSet a desc fuel i s g h =
      then_at (meaning a g e (if root then Apartment_getDevices a else s)) (i + slen ((if root then "." else "") +:+ print e)) h) as Hop.
  { intros root e He Hp Hi Hf s h. assert (closing (String ")" r)) as Hcl by (right; eauto). destruct root.
    - destruct fuel as [|fuel]; [lia|]. cbn [String.append] in *. rewrite (parseSet_dot fuel i s _ h Hi).
      pose proof (rest_at_lt desc _ _ _ Hi). apply rest_at_cons in Hi. rewrite (He fuel (S i) (String ")" r)) by (done || lia).
      cbn [String.length]. by rewrite Nat.add_succ_r.
    - by rewrite (He fuel i (String ")" r)). }
  destruct t; try done; cbn [operand_parses printable_step arguments parses_operand]; intros He Hp Hi Hf; by apply Hop.
Qed.

Lemma closing_stops r : closing r -> stops r.
Proof. by intros [-> | (r' & ->)]. Qed.
Lemma closed_at k r : rest_at k r -> closing r -> (k <? slen desc)%nat && negb (at_ desc k ",") && negb (at_ desc k ")") = false.
Proof.
  intros Hk [-> | (r' & ->)].
  - destruct (rest_at_drop desc _ _ Hk) as [_ E]. cbn in E. by rewrite (proj2 (Nat.ltb_ge k (slen desc))) by lia.
  - rewrite (at_rest desc k ")" r' ")" Hk). cbn [Ascii.eqb Bool.eqb negb]. apply andb_false_r.
Qed.
Lemma dot_at k r : rest_at k (String "." r) -> (k <? slen desc)%nat && negb (at_ desc k ",") && negb (at_ desc k ")") = true.
Proof.
  intros Hk. rewrite (at_rest desc k "." r "," Hk), (at_rest desc k "." r ")" Hk), (proj2 (Nat.ltb_lt k (slen desc))); [done|by eapply rest_at_lt].
Qed.

Lemma call_argument t i post : is_call t -> rest_at i (print_step t +:+ post) ->
  rest_at (S (i + slen (keyword t))) (arguments t +:+ String ")" post) /\ (S (i + slen (keyword t)) <= slen desc)%nat.
Proof.
  intros Ht Hi. rewrite (print_call t Ht), app_assoc_s in Hi. apply rest_at_app in Hi. cbn [String.append] in Hi.
  rewrite app_assoc_s in Hi. pose proof (rest_at_lt desc _ _ _ Hi). apply rest_at_cons in Hi. split; [done|lia].
Qed.

Lemma print_nonempty_expr e : printable e -> print e <> "".
Proof.
  assert (forall t, printable_step t -> print_step t <> "") as Ht by (intros [] Hp; try done; intros E; cbn in *; subst; by destruct Hp as [[? _] _]).
  destruct e as [t|t e]; cbn; [apply Ht|]. intros [Hp _]. by destruct (print_step t) eqn:E; [by apply Ht in E|].
Qed.

Lemma parses_last t : operand_parses t -> parses (Last t).
Proof.
  intros Ho fuel i post s h Hi Hpost Hf Hp. cbn [print printable] in *. rewrite meaning_last. destruct fuel as [|fuel]; [lia|].
  destruct (step_cases t) as [[n ->] | Ht].
  - destruct Hp as [Ht Hn]. cbn [print_step meaning_step] in *. destruct Hpost as [-> | (r & ->)].
    + rewrite app_nil_r_s in Hi. by apply parseSet_word_end.
    + by apply (parseSet_word_paren fuel i n r).
  - destruct (call_argument t i post Ht Hi) as [Ha Hl].
    pose proof (operand_parsed t fuel _ post Ho Hp Ha ltac:(lia)) as Hop.
    rewrite (parseSet_call fuel i t s post h Ht Hp (closing_stops _ Hpost) Hop Hi).
    pose proof (rest_at_app desc _ _ _ Hi) as Hk. unfold then_at, mbind, se_bind. destruct (meaning_step a g t s h) as [[x|e] h']; [|done].
    by rewrite (closed_at _ _ Hk Hpost).
Qed.

Lemma parses_then t e : operand_parses t -> parses e -> parses (Then t e).
Proof.
  intros Ho He fuel i post s h Hi Hpost Hf [Hp Hpe]. cbn [print] in *. rewrite meaning_then. destruct fuel as [|fuel]; [lia|].
  rewrite app_assoc_s in Hi. cbn [String.append] in Hi. pose proof (rest_at_app desc _ _ _ Hi) as Hk.
  pose proof (rest_at_lt desc _ _ _ Hk) as Hl. pose proof (rest_at_cons desc _ _ _ Hk) as Hj.
  assert (forall x h', parseSet a desc fuel (S (i + slen (print_step t))) x g h' =
    then_at (meaning a g e x) (i + slen (print_step t +:+ String "." (print e))) h') as Hrest.
  { intros x h'. rewrite (He fuel _ post x h' Hj Hpost) by (done || lia). rewrite slen_app. cbn [String.length].
    by replace (S (i + slen (print_step t)) + slen (print e))%nat with (i + (slen (print_step t) + S (slen (print e))))%nat by lia. }
  assert (stops (String "." (print e +:+ post))) as Hst by done.
  destruct (step_cases t) as [[n ->] | Ht].
  - destruct Hp as [Ht Hn]. cbn [print_step meaning_step] in *.
    rewrite (parseSet_word_dot fuel i n (print e +:+ post)); [|done..|intros E; apply (print_nonempty_expr e Hpe); by destruct (print e)|done].
    unfold mbind, se_bind, then_at, se_lift. destruct (restrictBy a n s g) as [x|e']; [|done]. by rewrite Hrest.
  - destruct (call_argument t i _ Ht Hi) as [Ha Hl'].
    pose proof (operand_parsed t fuel _ _ Ho Hp Ha ltac:(lia)) as Hop.
    rewrite (parseSet_call fuel i t s _ h Ht Hp Hst Hop Hi).
    unfold then_at, mbind, se_bind. destruct (meaning_step a g t s h) as [[x|e'] h']; [|done].
    by rewrite (dot_at _ _ Hk), Hrest.
Qed.

Lemma parse_print e : parses e.
Proof.
  apply (expr_step_ind parses operand_parses); intros; try done; [by apply parses_last|by apply parses_then].
Qed.
End Functions.

(** * Selections *)

(** The devices a chain of [zone], [group] and [fid] with numbers lets through. *)
Definition selects_step (t : step) : option (Device -> bool) :=
  match t with
  | SZone z => Some (fun d => (z =? 0) || (d_ZoneID d =? z))
  | SGroup g => Some (fun d => isInGroup d g)
  | SFid f => Some (fun d => d_FunctionID d =? f)
  | _ => None
  end.
Fixpoint selects (e : expr) : option (Device -> bool) :=
  match e with
  | Last t => selects_step t
  | Then t e => p ← selects_step t; q ← selects e; Some (fun d => p d && q d)
  end.

Section Language.
Context {Ext : Type} `{Dsuid} (a : Apartment).

Lemma selects_step_run g t p s (h : heap Ext) : good a s -> selects_step t = Some p ->
  meaning_step a g t s h = (Ok (List.filter (fun r => p (device_of a r)) s), h).
Proof.
  intros [Hn Hr]. destruct t; try done; cbn [selects_step meaning_step]; intros [= <-]; unfold se_lift; f_equal.
  - unfold getByZone. destruct (Z.eqb_spec z 0) as [->|]; cbn [negb orb]; [by rewrite filter_all|by rewrite select_run].
  - by rewrite getByGroup_run.
  - unfold getByFunctionID. by rewrite select_run.
Qed.

Lemma filter_filter {A} (p q : A -> bool) l : List.filter q (List.filter p l) = List.filter (fun x => p x && q x) l.
Proof. induction l as [|x l IH]; [done|]. cbn. destruct (p x); cbn; [destruct (q x)|]; by rewrite IH. Qed.

Lemma selects_run g e p s (h : heap Ext) : good a s -> selects e = Some p ->
  meaning a g e s h = (Ok (List.filter (fun r => p (device_of a r)) s), h).
Proof.
  revert p s. induction e as [t|t e IH]; cbn [selects]; intros p s Hs.
  - intros Ht. rewrite meaning_last. by apply selects_step_run.
  - intros (q & Ht & (q' & He & [= <-])%bind_Some)%bind_Some. rewrite meaning_then. unfold mbind, se_bind.
    rewrite (selects_step_run g t q) by done. rewrite (IH q') by (done || by apply good_filter). by rewrite filter_filter.
Qed.

Lemma begins_with_dot s : beginsWith (String "." s) "." = true.
Proof. by destruct s. Qed.
Lemma no_leading_dot e : printable e -> beginsWith (print e) "." = false.
Proof.
  assert (forall t r, printable_step t -> beginsWith (print_step t +:+ r) "." = false) as Ht.
  { intros t r Hp. destruct (step_cases t) as [[n ->] | Hc]; [|rewrite (print_call t Hc); by destruct t].
    destruct Hp as [[Hf _] Hn]. destruct n as [|c n]; [done|]. cbn [print_step String.append]. unfold beginsWith, substr. cbn [sdrop stake].
    unfold plain in Hn. cbn in Hn. apply orb_false_iff in Hn as [Hn _]. cbn. destruct (Ascii.eqb_spec c "."); [by subst|done]. }
  destruct e as [t|t e]; cbn [printable print]; [|intros [Hp _]; by apply Ht]. intros Hp. rewrite <- (app_nil_r_s (print_step t)). by apply Ht.
Qed.

(** C9: [buildSet] computes what an expression means: from the text of any
    expression of the language, however deep its operands are nested, with a
    leading dot from the devices of zone 0 and without one from those of the
    context.  A chain of selections by zone, group and function keeps exactly
    the devices that satisfy all of them. *)
Theorem buildSet_print e ctx (h : heap Ext) : printable e ->
  buildSet a (String "." (print e)) ctx h =
    (g ← se_lift (broadcast a); s ← se_lift (context_devices a g); meaning a g e s) h /\
  (forall g, buildSet a (print e) (Some g) h = (s ← se_lift (Group_getDevices a g); meaning a (Some g) e s) h) /\
  (forall g s p, good a s -> selects e = Some p ->
     meaning a g e s h = (Ok (List.filter (fun r => p (device_of a r)) s), h)).
Proof.
  intros Hp. assert (forall desc i g s (h : heap Ext), rest_at desc i (print e) ->
    (r ← parseSet a desc (S (slen desc)) i s g; mret (fst r)) h = meaning a g e s h) as Hparse.
  { intros desc i g s h' Hi. rewrite <- (app_nil_r_s (print e)) in Hi. unfold mbind, se_bind.
    rewrite (parse_print a desc g e (S (slen desc)) i "" s h' Hi) by (done || lia || by left).
    unfold then_at, mbind, se_bind. by destruct (meaning a g e s h') as [[x|e'] h'']. }
  split; [|split].
  - unfold buildSet. rewrite begins_with_dot. unfold mbind, se_bind, se_lift.
    destruct (broadcast a) as [g|e']; [|done]. destruct (context_devices a g) as [s|e']; [|done].
    apply Hparse. by exists ".".
  - intros g. unfold buildSet. rewrite (no_leading_dot e Hp). unfold mbind at 1 3, se_bind at 1 3, se_lift.
    destruct (Group_getDevices a g) as [s|e']; [|done]. apply Hparse. by exists "".
  - intros g s p. apply selects_run.
Qed.
End Language.

(** * Examples *)

#[local] Existing Instance demo_dsuid.

(** Two rooms with a lamp and a fan in the first and a blind in the second. *)
Definition named_device (name : string) (d : Device) : Device :=
  mkDevice (d_DSID d) name (d_ShortAddress d) (d_ZoneID d) (d_LastKnownZoneID d) (d_DSMeterDSID d) (d_LastKnownMeterDSID d)
    (d_FunctionID d) (d_ProductID d) (d_VendorID d) (d_RevisionID d) (d_groupIds d) (d_physical d) (d_isVdcDevice d)
    (d_Consumption d) (d_LastCalledScene d) (d_LastButOneCalledScene d) (d_FirstSeen d) (d_sensorInputs d) (d_binaryInputs d)
    (d_node d) (d_aliasNode d) (d_TagsNode d) (d_info d).
Definition named_rooms : Apartment :=
  let b := two_rooms [1] [2] [4] in
  let dev i name := named_device name (the_device b i) in
  mkApartment (list_to_map [(1%nat, dev 1%nat "lamp"); (2%nat, dev 2%nat "blind"); (3%nat, dev 3%nat "fan")])
    (a_zones b) (a_groups b) ∅ (m_Devices b) (m_Zones b) [] [] None None None ∅.

Lemma named_rooms_consistent : consistent named_rooms.
Proof. apply consistent_check_sound. vm_compute. reflexivity. Qed.

Definition example_expr : expr := Then (SZone 1) (Last (SAdd true (Then (SZone 2) (Last (SGroup 2))))).

Lemma buildSet_sound_witness : consistent named_rooms /\
  let (r, h') := buildSet named_rooms ".zone(2).add(.zone(" None (empty_heap tt) in
  h' = empty_heap tt /\ r <> Throw out_of_fuel /\ forall s, r = Ok s -> good named_rooms s.
Proof. split; [exact named_rooms_consistent|]. apply (buildSet_sound named_rooms ".zone(2).add(.zone(" None (empty_heap tt)), named_rooms_consistent. Defined.

(** [.zone(1).add(.zone(2).group(2))] *)
Lemma buildSet_print_witness : print example_expr = "zone(1).add(.zone(2).group(2))" /\ printable example_expr /\
  fst (buildSet named_rooms (String "." (print example_expr)) None (empty_heap tt)) = Ok [[2]; [1]; [3]].
Proof.
  split; [reflexivity|]. assert (printable example_expr) as Hp by (cbn; unfold is_int; lia). split; [exact Hp|].
  destruct (buildSet_print named_rooms example_expr None (empty_heap tt) Hp) as (E & _). rewrite E. vm_compute. reflexivity.
Defined.

(** A bare word is looked up in the context, not in the set before the dot:
    the lamp of the first room is found among the devices of the second. *)
Lemma word_leaves_set : fst (buildSet named_rooms ".zone(2).lamp" None (empty_heap tt)) = Ok [[1]].
Proof. vm_compute. reflexivity. Qed.

(** A dot at the end is taken for a part of a word, though not behind a call. *)
Lemma trailing_dot :
  fst (buildSet named_rooms ".lamp." None (empty_heap tt)) = Ok [] /\
  fst (buildSet named_rooms ".zone(2)." None (empty_heap tt)) = Ok [[2]].
Proof. vm_compute. by split. Qed.
