(* ===== verification/ApartmentWorld.v ===== *)
(** The apartment as part of the world, and the commands to its groups and
    devices ([src/src/model/addressablemodelitem.cpp]): each is checked by
    [SceneAccess] and then handed to the action interface of the bus. *)
From stdpp Require Import base option list strings gmap.
From Stdlib Require Import ZArith Lia Ascii PrimFloat.
From Stdlib Require String.
From S2P Require Import Prelude CxxString Base NumConv Ds485types ModelConst DataTypes Calendar DateTools.
From S2P Require Import PropertyTree State SceneAccess ApartmentModel DeviceSet.

Open Scope string_scope.
Open Scope list_scope.
Open Scope Z_scope.

Class ApartmentWorld (W : Type) := {
  get_apt : W -> Apartment;
  put_apt : Apartment -> W -> W;
  get_put_apt : forall a w, get_apt (put_apt a w) = a
}.

(** ** Changing single objects *)

Definition put_devices (f : gmap dptr Device -> gmap dptr Device) (a : Apartment) : Apartment :=
  mkApartment (f (a_devices a)) (a_zones a) (a_groups a) (a_meters a) (m_Devices a) (m_Zones a) (m_DSMeters a)
    (m_States a) (a_node a) (a_requests a) (a_modelMaintenance a) (a_values a).
Definition put_zones (f : gmap zptr Zone -> gmap zptr Zone) (a : Apartment) : Apartment :=
  mkApartment (a_devices a) (f (a_zones a)) (a_groups a) (a_meters a) (m_Devices a) (m_Zones a) (m_DSMeters a)
    (m_States a) (a_node a) (a_requests a) (a_modelMaintenance a) (a_values a).
Definition put_groups (f : gmap gptr Group -> gmap gptr Group) (a : Apartment) : Apartment :=
  mkApartment (a_devices a) (a_zones a) (f (a_groups a)) (a_meters a) (m_Devices a) (m_Zones a) (m_DSMeters a)
    (m_States a) (a_node a) (a_requests a) (a_modelMaintenance a) (a_values a).
Definition put_meters (f : gmap mptr DSMeter -> gmap mptr DSMeter) (a : Apartment) : Apartment :=
  mkApartment (a_devices a) (a_zones a) (a_groups a) (f (a_meters a)) (m_Devices a) (m_Zones a) (m_DSMeters a)
    (m_States a) (a_node a) (a_requests a) (a_modelMaintenance a) (a_values a).
Definition put_m_States (f : list nat -> list nat) (a : Apartment) : Apartment :=
  mkApartment (a_devices a) (a_zones a) (a_groups a) (a_meters a) (m_Devices a) (m_Zones a) (m_DSMeters a)
    (f (m_States a)) (a_node a) (a_requests a) (a_modelMaintenance a) (a_values a).
Definition put_requests (r : option (list ActionRequest)) (a : Apartment) : Apartment :=
  mkApartment (a_devices a) (a_zones a) (a_groups a) (a_meters a) (m_Devices a) (m_Zones a) (m_DSMeters a)
    (m_States a) (a_node a) r (a_modelMaintenance a) (a_values a).
Definition put_modelMaintenance (e : option ModelMaintenance) (a : Apartment) : Apartment :=
  mkApartment (a_devices a) (a_zones a) (a_groups a) (a_meters a) (m_Devices a) (m_Zones a) (m_DSMeters a)
    (m_States a) (a_node a) (a_requests a) e (a_values a).

Definition put_values (f : gmap string Z -> gmap string Z) (a : Apartment) : Apartment :=
  mkApartment (a_devices a) (a_zones a) (a_groups a) (a_meters a) (m_Devices a) (m_Zones a) (m_DSMeters a)
    (m_States a) (a_node a) (a_requests a) (a_modelMaintenance a) (f (a_values a)).

Definition upd_device (p : dptr) (f : Device -> Device) (a : Apartment) : Apartment :=
  put_devices <[p := f (the_device a p)]> a.
Definition upd_zone (p : zptr) (f : Zone -> Zone) (a : Apartment) : Apartment :=
  put_zones <[p := f (the_zone a p)]> a.
Definition upd_group (p : gptr) (f : Group -> Group) (a : Apartment) : Apartment :=
  put_groups <[p := f (the_group a p)]> a.
Definition upd_meter (p : mptr) (f : DSMeter -> DSMeter) (a : Apartment) : Apartment :=
  put_meters <[p := f (the_meter a p)]> a.

Definition g_with_LastCalledScene (last lastButOne : Z) (b : AnyBehavior) (g : Group) : Group :=
  mkGroup (g_ZoneID g) (g_GroupID g) (g_Name g) (g_ApplicationType g) b last lastButOne (g_IsValid g) (g_SceneNames g)
    (g_connectedDevices g) (g_status g) (g_cluster g) (g_node g) (g_physical g)
    (g_SyncPending g) (g_readFromDsm g) (g_AssociatedSet g).
Definition g_with_Name (n : string) (g : Group) : Group :=
  mkGroup (g_ZoneID g) (g_GroupID g) n (g_ApplicationType g) (g_pApplicationBehavior g) (g_LastCalledScene g)
    (g_LastButOneCalledScene g) (g_IsValid g) (g_SceneNames g) (g_connectedDevices g) (g_status g) (g_cluster g) (g_node g) (g_physical g)
    (g_SyncPending g) (g_readFromDsm g) (g_AssociatedSet g).
Definition g_with_application (t : ApplicationType.t) (b : AnyBehavior) (g : Group) : Group :=
  mkGroup (g_ZoneID g) (g_GroupID g) (g_Name g) t b (g_LastCalledScene g) (g_LastButOneCalledScene g) (g_IsValid g)
    (g_SceneNames g) (g_connectedDevices g) (g_status g) (g_cluster g) (g_node g) (g_physical g)
    (g_SyncPending g) (g_readFromDsm g) (g_AssociatedSet g).
Definition g_with_SceneNames (n : gmap Z string) (g : Group) : Group :=
  mkGroup (g_ZoneID g) (g_GroupID g) (g_Name g) (g_ApplicationType g) (g_pApplicationBehavior g) (g_LastCalledScene g)
    (g_LastButOneCalledScene g) (g_IsValid g) n (g_connectedDevices g) (g_status g) (g_cluster g) (g_node g) (g_physical g)
    (g_SyncPending g) (g_readFromDsm g) (g_AssociatedSet g).
Definition g_with_connectedDevices (n : Z) (g : Group) : Group :=
  mkGroup (g_ZoneID g) (g_GroupID g) (g_Name g) (g_ApplicationType g) (g_pApplicationBehavior g) (g_LastCalledScene g)
    (g_LastButOneCalledScene g) (g_IsValid g) (g_SceneNames g) n (g_status g) (g_cluster g) (g_node g) (g_physical g)
    (g_SyncPending g) (g_readFromDsm g) (g_AssociatedSet g).
Definition g_with_status (s : option Status) (g : Group) : Group :=
  mkGroup (g_ZoneID g) (g_GroupID g) (g_Name g) (g_ApplicationType g) (g_pApplicationBehavior g) (g_LastCalledScene g)
    (g_LastButOneCalledScene g) (g_IsValid g) (g_SceneNames g) (g_connectedDevices g) s (g_cluster g) (g_node g) (g_physical g)
    (g_SyncPending g) (g_readFromDsm g) (g_AssociatedSet g).
Definition g_with_cluster (c : option ClusterData) (g : Group) : Group :=
  mkGroup (g_ZoneID g) (g_GroupID g) (g_Name g) (g_ApplicationType g) (g_pApplicationBehavior g) (g_LastCalledScene g)
    (g_LastButOneCalledScene g) (g_IsValid g) (g_SceneNames g) (g_connectedDevices g) (g_status g) c (g_node g) (g_physical g)
    (g_SyncPending g) (g_readFromDsm g) (g_AssociatedSet g).
Definition g_with_node (n : option nid) (g : Group) : Group :=
  mkGroup (g_ZoneID g) (g_GroupID g) (g_Name g) (g_ApplicationType g) (g_pApplicationBehavior g) (g_LastCalledScene g)
    (g_LastButOneCalledScene g) (g_IsValid g) (g_SceneNames g) (g_connectedDevices g) (g_status g) (g_cluster g) n (g_physical g)
    (g_SyncPending g) (g_readFromDsm g) (g_AssociatedSet g).

Definition z_with_Devices (l : list DeviceReference) (z : Zone) : Zone :=
  mkZone (z_ZoneID z) (z_Name z) l (z_Groups z) (z_DSMeters z) (z_MainSensors z) (z_HeatingProperties z)
    (z_HeatingPropValid z) (z_HeatingOperationMode z) (z_temperatureControlMeter z) (z_node z) (z_physical z) (z_HeatingStatus z) (z_SensorStatus z).
Definition z_with_Groups (l : list gptr) (z : Zone) : Zone :=
  mkZone (z_ZoneID z) (z_Name z) (z_Devices z) l (z_DSMeters z) (z_MainSensors z) (z_HeatingProperties z)
    (z_HeatingPropValid z) (z_HeatingOperationMode z) (z_temperatureControlMeter z) (z_node z) (z_physical z) (z_HeatingStatus z) (z_SensorStatus z).
Definition z_with_MainSensors (l : list MainZoneSensor_t) (z : Zone) : Zone :=
  mkZone (z_ZoneID z) (z_Name z) (z_Devices z) (z_Groups z) (z_DSMeters z) l (z_HeatingProperties z)
    (z_HeatingPropValid z) (z_HeatingOperationMode z) (z_temperatureControlMeter z) (z_node z) (z_physical z) (z_HeatingStatus z) (z_SensorStatus z).
Definition z_with_heating (p : ZoneHeatingProperties) (valid : bool) (z : Zone) : Zone :=
  mkZone (z_ZoneID z) (z_Name z) (z_Devices z) (z_Groups z) (z_DSMeters z) (z_MainSensors z) p valid
    (z_HeatingOperationMode z) (z_temperatureControlMeter z) (z_node z) (z_physical z) (z_HeatingStatus z) (z_SensorStatus z).
Definition z_with_HeatingOperationMode (m : Z) (z : Zone) : Zone :=
  mkZone (z_ZoneID z) (z_Name z) (z_Devices z) (z_Groups z) (z_DSMeters z) (z_MainSensors z) (z_HeatingProperties z)
    (z_HeatingPropValid z) m (z_temperatureControlMeter z) (z_node z) (z_physical z) (z_HeatingStatus z) (z_SensorStatus z).
Definition z_with_meters (l : list mptr) (t : option mptr) (z : Zone) : Zone :=
  mkZone (z_ZoneID z) (z_Name z) (z_Devices z) (z_Groups z) l (z_MainSensors z) (z_HeatingProperties z)
    (z_HeatingPropValid z) (z_HeatingOperationMode z) t (z_node z) (z_physical z) (z_HeatingStatus z) (z_SensorStatus z).
Definition z_with_node (n : option nid) (z : Zone) : Zone :=
  mkZone (z_ZoneID z) (z_Name z) (z_Devices z) (z_Groups z) (z_DSMeters z) (z_MainSensors z) (z_HeatingProperties z)
    (z_HeatingPropValid z) (z_HeatingOperationMode z) (z_temperatureControlMeter z) n (z_physical z) (z_HeatingStatus z) (z_SensorStatus z).

Definition d_with_zone (zone last : Z) (d : Device) : Device :=
  mkDevice (d_DSID d) (d_Name d) (d_ShortAddress d) zone last (d_DSMeterDSID d) (d_LastKnownMeterDSID d) (d_FunctionID d)
    (d_ProductID d) (d_VendorID d) (d_RevisionID d) (d_groupIds d) (d_physical d) (d_isVdcDevice d) (d_Consumption d)
    (d_LastCalledScene d) (d_LastButOneCalledScene d) (d_FirstSeen d) (d_sensorInputs d) (d_binaryInputs d)
    (d_node d) (d_aliasNode d) (d_TagsNode d) (d_info d).
Definition d_with_groupIds (l : list Z) (d : Device) : Device :=
  mkDevice (d_DSID d) (d_Name d) (d_ShortAddress d) (d_ZoneID d) (d_LastKnownZoneID d) (d_DSMeterDSID d)
    (d_LastKnownMeterDSID d) (d_FunctionID d) (d_ProductID d) (d_VendorID d) (d_RevisionID d) l (d_physical d)
    (d_isVdcDevice d) (d_Consumption d) (d_LastCalledScene d) (d_LastButOneCalledScene d) (d_FirstSeen d) (d_sensorInputs d)
    (d_binaryInputs d) (d_node d) (d_aliasNode d) (d_TagsNode d) (d_info d).
Definition d_with_binaryInputs (l : list DeviceBinaryInput) (d : Device) : Device :=
  mkDevice (d_DSID d) (d_Name d) (d_ShortAddress d) (d_ZoneID d) (d_LastKnownZoneID d) (d_DSMeterDSID d)
    (d_LastKnownMeterDSID d) (d_FunctionID d) (d_ProductID d) (d_VendorID d) (d_RevisionID d) (d_groupIds d) (d_physical d)
    (d_isVdcDevice d) (d_Consumption d) (d_LastCalledScene d) (d_LastButOneCalledScene d) (d_FirstSeen d) (d_sensorInputs d)
    l (d_node d) (d_aliasNode d) (d_TagsNode d) (d_info d).
Definition d_with_aliasNode (n : option nid) (d : Device) : Device :=
  mkDevice (d_DSID d) (d_Name d) (d_ShortAddress d) (d_ZoneID d) (d_LastKnownZoneID d) (d_DSMeterDSID d)
    (d_LastKnownMeterDSID d) (d_FunctionID d) (d_ProductID d) (d_VendorID d) (d_RevisionID d) (d_groupIds d) (d_physical d)
    (d_isVdcDevice d) (d_Consumption d) (d_LastCalledScene d) (d_LastButOneCalledScene d) (d_FirstSeen d) (d_sensorInputs d)
    (d_binaryInputs d) (d_node d) n (d_TagsNode d) (d_info d).
Definition d_with_scenes (last lastButOne : Z) (d : Device) : Device :=
  mkDevice (d_DSID d) (d_Name d) (d_ShortAddress d) (d_ZoneID d) (d_LastKnownZoneID d) (d_DSMeterDSID d)
    (d_LastKnownMeterDSID d) (d_FunctionID d) (d_ProductID d) (d_VendorID d) (d_RevisionID d) (d_groupIds d) (d_physical d)
    (d_isVdcDevice d) (d_Consumption d) last lastButOne (d_FirstSeen d) (d_sensorInputs d)
    (d_binaryInputs d) (d_node d) (d_aliasNode d) (d_TagsNode d) (d_info d).

Definition d_with_info (i : DeviceInfo) (d : Device) : Device :=
  mkDevice (d_DSID d) (d_Name d) (d_ShortAddress d) (d_ZoneID d) (d_LastKnownZoneID d) (d_DSMeterDSID d)
    (d_LastKnownMeterDSID d) (d_FunctionID d) (d_ProductID d) (d_VendorID d) (d_RevisionID d) (d_groupIds d) (d_physical d)
    (d_isVdcDevice d) (d_Consumption d) (d_LastCalledScene d) (d_LastButOneCalledScene d) (d_FirstSeen d) (d_sensorInputs d)
    (d_binaryInputs d) (d_node d) (d_aliasNode d) (d_TagsNode d) i.

(** * [SceneAccess] for the apartment's own objects *)

(** [DSS::hasInstance()], the states and the clusters, as [SceneAccess] sees them. *)
Definition apartment_states (x : StateStore) (a : Apartment) : list (sid * State) :=
  omap (fun s => pair s <$> states x !! s) (ApartmentModel.m_States a).
Definition scene_group (g : Group) : SceneAccess.Group := SceneAccess.mkGroup (g_GroupID g) (g_ApplicationType g) (g_IsValid g).
Definition clusters_of (a : Apartment) (i : Z) : option SceneAccess.Group :=
  match getCluster a i with Ok g => Some (scene_group (the_group a g)) | Throw _ => None end.
(** The devices of a group whose references resolve, as all do. *)
Definition group_members (a : Apartment) (g : gptr) : list (list Z) :=
  match Group_getDevices a g with Ok ds => map (fun r => d_groupIds (device_of a r)) ds | Throw _ => [] end.
Definition target_of (a : Apartment) (t : Item) : Target :=
  match t with
  | ItemGroup g => TGroup (scene_group (the_group a g)) (group_members a g)
  | ItemDevice d => TDevice (d_groupIds (the_device a d))
  end.

Section Commands.
Context {W : Type} {SW : StateWorld W} {AW : ApartmentWorld W}.
(** The exception with which the bus answers a request after the ones before. *)
Context (bus_error : list ActionRequest -> ActionRequest -> option exn).

Local Notation "'M' A" := (SE (heap W) A) (at level 10, A at next level).

Definition apt_gets {A} (f : Apartment -> A) : M A := se_gets (fun h => f (get_apt (ext h))).
Definition apt_modify (f : Apartment -> Apartment) : M unit :=
  se_modify (set_ext (fun w => put_apt (f (get_apt w)) w)).
(** A query that may throw. *)
Definition apt_query {A} (f : Apartment -> res A) : M A := fun h => (f (get_apt (ext h)), h).

Definition access (f : bool -> SceneAccess.m_States -> (Z -> option SceneAccess.Group) -> Z -> Target -> res bool) (t : Item) : M bool :=
  fun h =>
    let a := get_apt (ext h) in
    let x := get_st (ext h) in
    (f (hasInstance x) (apartment_states x a) (clusters_of a) DeviceClass.DEVICE_CLASS_GR (target_of a t), h).
Definition check (t : Item) (_category : SceneAccessCategory) : M bool :=
  access (fun inst st cl gr tgt => checkAccess inst st cl gr tgt _category) t.
Definition check_states (t : Item) (_sceneNr : Z) : M bool :=
  access (fun inst st _ _ _ => checkStates inst st _sceneNr) t.

(** [ModelMaintenance::addModelEvent]: while the model is read, what would write
    it is only remembered. *)
Definition add_event (e : ModelEvent) (m : ModelMaintenance) : ModelMaintenance :=
  match m_IsInitializing m, e with
  | true, etModelDirty => mkModelMaintenance (m_IsInitializing m) true (m_ModelEvents m)
  | _, _ => mkModelMaintenance (m_IsInitializing m) (m_IsDirty m) (m_ModelEvents m ++ [e])
  end.

(** For a model maintenance that may be missing. *)
Definition addModelEvent (e : ModelEvent) : M unit :=
  apt_modify (fun a => put_modelMaintenance (add_event e <$> a_modelMaintenance a) a).

(** [m_pApartment->getActionRequestInterface()->...] *)
Definition request (r : ActionRequest) : M unit :=
  rs ← apt_gets a_requests;
  match rs with
  | None => se_throw (UndefinedBehaviour "call on NULL")
  | Some rs =>
    match bus_error rs r with
    | Some e => se_throw e
    | None => apt_modify (put_requests (Some (r :: rs)))
    end
  end.

(** The commands that are blocked or handed on. *)
Definition command (t : Item) (_category : SceneAccessCategory) (r : ActionRequest) : M unit :=
  ok ← check t _category; if negb ok then mret tt else request r.

Definition item_increaseValue (t : Item) (_origin : Z) (_category : SceneAccessCategory) : M unit :=
  command t _category (ReqCallScene t _origin _category SceneInc "" false).
Definition item_decreaseValue (t : Item) (_origin : Z) (_category : SceneAccessCategory) : M unit :=
  command t _category (ReqCallScene t _origin _category SceneDec "" false).
Definition item_setValue (t : Item) (_origin : Z) (_category : SceneAccessCategory) (_value : Z) (_token : string) : M unit :=
  command t _category (ReqSetValue t _origin _category _value _token).
Definition item_callScene (t : Item) (_origin : Z) (_category : SceneAccessCategory) (_sceneNr : Z) (_token : string)
    (_force : bool) : M unit :=
  ok ← check t _category;
  if negb ok then mret tt
  else
    free ← (if (_origin =? coJSON) && negb _force then check_states t _sceneNr else mret true);
    if negb free then mret tt else request (ReqCallScene t _origin _category (wrapU 16 _sceneNr) _token _force).
Definition item_callSceneMin (t : Item) (_origin : Z) (_category : SceneAccessCategory) (_sceneNr : Z) (_token : string) : M unit :=
  ok ← check t _category;
  if negb ok then mret tt
  else
    free ← (if _origin =? coJSON then check_states t _sceneNr else mret true);
    if negb free then mret tt else request (ReqCallSceneMin t _origin _category (wrapU 16 _sceneNr) _token).
Definition item_saveScene (t : Item) (_origin _sceneNr : Z) (_token : string) : M unit :=
  request (ReqSaveScene t _origin (wrapU 16 _sceneNr) _token).
Definition item_undoScene (t : Item) (_origin : Z) (_category : SceneAccessCategory) (_sceneNr : Z) (_token : string) : M unit :=
  command t _category (ReqUndoScene t _origin _category (wrapU 16 _sceneNr) _token).
Definition item_undoSceneLast (t : Item) (_origin : Z) (_category : SceneAccessCategory) (_token : string) : M unit :=
  command t _category (ReqUndoSceneLast t _origin _category _token).
Definition item_blink (t : Item) (_origin : Z) (_category : SceneAccessCategory) (_token : string) : M unit :=
  command t _category (ReqBlink t _origin _category _token).
Definition item_increaseOutputChannelValue (t : Item) (_origin : Z) (_category : SceneAccessCategory) (_channel : Z)
    (_token : string) : M unit :=
  command t _category (ReqIncreaseOutputChannelValue t _origin _category _channel _token).
Definition item_decreaseOutputChannelValue (t : Item) (_origin : Z) (_category : SceneAccessCategory) (_channel : Z)
    (_token : string) : M unit :=
  command t _category (ReqDecreaseOutputChannelValue t _origin _category _channel _token).
Definition item_stopOutputChannelValue (t : Item) (_origin : Z) (_category : SceneAccessCategory) (_channel : Z)
    (_token : string) : M unit :=
  command t _category (ReqStopOutputChannelValue t _origin _category _channel _token).
Definition item_pushSensor (t : Item) (_origin : Z) (_category : SceneAccessCategory) (_sourceID : dsuid_t)
    (_sensorType : SensorType.t) (_sensorValueFloat : float) (_token : string) : M unit :=
  command t _category (ReqPushSensor t _origin _category _sourceID _sensorType _sensorValueFloat _token).
End Commands.
