(* ===== verification/DeviceConfig.v ===== *)
(** [src/src/model/device.cpp]: the configuration of a device, kept in its own
    memory and read and written over the bus one cell at a time: scene values
    and modes, sensor events, lamps, transition times, valves, thresholds.

    The bus ([DeviceBusInterface] of [src/src/businterface.h], implemented on
    libdsm-api) is an interface; [DeviceMemory] states what is relied on. *)
From stdpp Require Import base option list strings gmap.
From Stdlib Require Import ZArith Lia Ascii PrimFloat.
From Stdlib Require String.
From S2P Require Import Prelude CxxString Base NumConv FloatConv Ds485types ModelConst DataTypes Calendar DateTools.
From S2P Require Import PropertyTree State SceneAccess ApartmentModel DeviceInfo DeviceSet ApartmentWorld.

Import DeviceType DeviceClass.

Open Scope string_scope.
Open Scope list_scope.
Open Scope Z_scope.

(** ** The bus *)

Class DeviceBus (W : Type) := {
  bus_present : W -> bool;
  bus_setDeviceConfig : Device -> Z -> Z -> Z -> W -> res unit * W;
  bus_getDeviceConfig : Device -> Z -> Z -> W -> res Z * W;
  bus_getDeviceConfigWord : Device -> Z -> Z -> W -> res Z * W;
  bus_setValue : Device -> Z -> W -> res unit * W;
  bus_setDeviceButtonActiveGroup : Device -> Z -> W -> res unit * W;
  bus_getSceneConfig : Device -> Z -> W -> res Z * W;
  bus_setSceneConfig : Device -> Z -> Z -> W -> res unit * W
}.

(** ** Classes and cells *)

Definition CfgClassDevice : Z := 0x01.
Definition CfgClassFunction : Z := 0x03.
Definition CfgClassSensorEvent : Z := 0x06.
Definition CfgClassRuntime : Z := 0x40.
Definition CfgClassScene : Z := 0x80.
Definition CfgClassSceneExtention : Z := 0x81.
Definition CfgClassSceneAngle : Z := 0x82.
Definition CfgFunction_Mode : Z := 0.
Definition CfgFunction_ButtonMode : Z := 1.
Definition CfgFunction_DimTime0 : Z := 0x06.
Definition CfgFunction_FOffTime1 : Z := 0x15.
Definition CfgFunction_FOnTime1 : Z := 0x16.
Definition CfgFunction_FCount1 : Z := 0x17.
Definition CfgFunction_LedConfig0 : Z := 0x18.
Definition CfgFunction_LTTimeoutOff : Z := 0x22.
Definition CfgFunction_LTTimeoutOn : Z := 0x24.
Definition CfgFunction_Valve_EmergencyValue : Z := 0x45.
Definition CfgFunction_Valve_EmergencyTimer : Z := 0x46.
Definition CfgFunction_Valve_PwmPeriod : Z := 0x48.
Definition CfgFunction_Shade_PosTimeMax : Z := 0x48.
Definition CfgFunction_Valve_PwmMinX : Z := 0x4a.
Definition CfgFunction_Valve_PwmMaxX : Z := 0x4b.
Definition CfgFunction_Valve_PwmMinY : Z := 0x4c.
Definition CfgFunction_Valve_PwmMaxY : Z := 0x4d.
Definition CfgFunction_Valve_PwmConfig : Z := 0x4e.
Definition CfgFunction_Valve_PwmOffset : Z := 0x4f.
Definition CfgFunction_Valve_ProtectionTimer : Z := 0x52.
Definition CfgFunction_UMV_Relay_Config : Z := 0x52.
Definition CfgFunction_SK_TempOffsetExt : Z := 0x51.
Definition CfgFunction_ZWS_LedVisuSensId : Z := 0x56.
Definition CfgRuntime_Valve_PwmValue : Z := 0x04.
Definition CfgFSensorEvent_TableSize : Z := 6.

(** ** What the cells encode *)

Record DeviceSceneSpec_t := mkSceneSpec {
  dontcare : bool; localprio : bool; specialmode : bool; flashmode : bool; ledconIndex : Z; dimtimeIndex : Z }.
Record DeviceLedSpec_t := mkLedSpec { colorSelect : Z; modeSelect : Z; dimMode : bool; rgbMode : bool; groupColorMode : bool }.
Record DeviceSensorEventSpec_t := mkSensorEvent {
  se_name : string; se_sensorIndex : Z; se_test : Z; se_action : Z; se_value : Z; se_hysteresis : Z;
  se_sceneDeviceMode : Z; se_validity : Z; se_buttonNumber : Z; se_clickType : Z; se_sceneID : Z; se_minimalDuration : Z }.
Record DeviceValveTimerSpec_t := mkValveTimer { protectionTimer : Z; emergencyTimer : Z; emergencyControlValue : Z }.
Record DeviceValvePwmSpec_t := mkValvePwm { pwmPeriod : Z; pwmMinX : Z; pwmMaxX : Z; pwmMinY : Z; pwmMaxY : Z; pwmOffset : Z }.
Record DeviceValveControlSpec_t := mkValveControl {
  ctrlClipMinZero : bool; ctrlClipMinLower : bool; ctrlClipMaxHigher : bool; ctrlNONC : bool; ctrlRawValue : Z }.

Definition bit (b : bool) (v : Z) : Z := if b then v else 0.

Definition scene_mode (_config : DeviceSceneSpec_t) : Z :=
  Z.lor (Z.lor (Z.lor (Z.lor (Z.lor (bit (dontcare _config) 1) (bit (localprio _config) 2)) (bit (specialmode _config) 4))
    (bit (flashmode _config) 8)) (Z.shiftl (Z.land (ledconIndex _config) 3) 4)) (Z.shiftl (Z.land (dimtimeIndex _config) 3) 6).
Definition scene_of_mode (mode : Z) : DeviceSceneSpec_t :=
  mkSceneSpec (Z.land mode 1 >? 0) (Z.land mode 2 >? 0) (Z.land mode 4 >? 0) (Z.land mode 8 >? 0)
    (Z.land (Z.shiftr mode 4) 3) (Z.land (Z.shiftr mode 6) 3).

(** Scenes of devices with output channels: sixteen bits, no dim time. *)
Definition channel_scene_mode (_config : DeviceSceneSpec_t) : Z :=
  Z.lor (Z.lor (Z.lor (Z.lor (bit (dontcare _config) 1) (bit (localprio _config) 2)) (bit (specialmode _config) 4))
    (Z.shiftl (Z.land (ledconIndex _config) 7) 4)) (bit (flashmode _config) 256).
Definition scene_of_channel_mode (mode : Z) : DeviceSceneSpec_t :=
  mkSceneSpec (Z.land mode 1 >? 0) (Z.land mode 2 >? 0) (Z.land mode 4 >? 0) (Z.land mode 256 >? 0)
    (Z.land (Z.shiftr mode 4) 7) 0.

Definition led_mode (_config : DeviceLedSpec_t) : Z :=
  Z.lor (Z.lor (Z.lor (Z.lor (Z.land (colorSelect _config) 7) (Z.shiftl (Z.land (modeSelect _config) 3) 3))
    (bit (dimMode _config) 32)) (bit (rgbMode _config) 64)) (bit (groupColorMode _config) 128).
Definition led_of_mode (mode : Z) : DeviceLedSpec_t :=
  mkLedSpec (Z.land mode 7) (Z.land (Z.shiftr mode 3) 3) (Z.land mode 32 >? 0) (Z.land mode 64 >? 0) (Z.land mode 128 >? 0).

Definition valve_control (_config : DeviceValveControlSpec_t) : Z :=
  Z.lor (Z.lor (Z.lor (Z.lor (Z.land (ctrlRawValue _config) 0xf0) (bit (ctrlClipMinZero _config) 1))
    (bit (ctrlClipMinLower _config) 2)) (bit (ctrlClipMaxHigher _config) 4)) (bit (ctrlNONC _config) 8).
Definition control_of_value (value : Z) : DeviceValveControlSpec_t :=
  mkValveControl (Z.land value 1 =? 1) (Z.land value 2 =? 2) (Z.land value 4 =? 4) (Z.land value 8 =? 8) value.

(** Transition times: a byte is a power of two and sixteenths of it, in
    milliseconds; [transitionTimeEval] looks for the byte of a time. *)
Definition transitionVal2Time (_value : Z) : Z :=
  let hval := Z.quot _value 16 in
  let lval := Z.rem _value 16 in
  100 * Z.shiftl 1 hval - Z.quot (100 * Z.shiftl 1 hval) 32 * (15 - lval).

Fixpoint transition_loop (fuel : nat) (timems val tlow thigh : Z) : Z * Z * Z :=
  match fuel with
  | O => (val, tlow, thigh)
  | S fuel =>
    if (val <? 255) && (thigh <? timems)
    then transition_loop fuel timems (val + 1) thigh (transitionVal2Time (val + 1))
    else (val, tlow, thigh)
  end.
Definition transitionTimeEval (timems : Z) : Z :=
  let '(val, tlow, thigh) := transition_loop 256 timems 0 0 0 in
  if thigh - timems >? timems - tlow then wrapU 8 (val - 1) else val.

Section Config.
Context {W : Type} {SW : StateWorld W} {AW : ApartmentWorld W} {DB : DeviceBus W} `{Dsuid}.
Context (callback : notification -> lid -> nid -> nid -> heap W -> heap W).
Context (bus_error : list ActionRequest -> ActionRequest -> option exn).
Local Notation "'M' A" := (SE (heap W) A) (at level 10, A at next level).

Definition bus_call {A} (f : W -> res A * W) : M A := fun h => let (r, w) := f (ext h) in (r, set_ext (fun _ => w) h).
Definition has_bus : M bool := se_gets (fun h => bus_present (ext h)).
Definition this_device (p : dptr) : M Device := apt_gets (fun a => the_device a p).
Definition set_info (p : dptr) (f : DeviceInfo -> DeviceInfo) : M unit :=
  apt_modify (upd_device p (fun d => d_with_info (f (d_info d)) d)).

(** ** One cell *)

Definition setDeviceConfig (p : dptr) (_configClass _configIndex _value : Z) : M unit :=
  let c := wrapU 8 _configClass in
  let i := wrapU 8 _configIndex in
  let v := wrapU 8 _value in
  present ← has_bus;
  if negb present then se_throw (RuntimeError "DeviceBusInterface missing")
  else
    maintenance ← apt_gets a_modelMaintenance;
    match maintenance with
    | None => se_throw (RuntimeError "ModelMaintenance missing")
    | Some _ =>
      d ← this_device p;
      _ ← bus_call (bus_setDeviceConfig d c i v);
      addModelEvent (etDeviceConfigChanged (d_DSMeterDSID d) [d_ShortAddress d; c; i; v])
    end.

Definition setDeviceConfig16 (p : dptr) (_configClass _configIndex _value : Z) : M unit :=
  let c := wrapU 8 _configClass in
  let i := wrapU 8 _configIndex in
  let v := wrapU 16 _value in
  present ← has_bus;
  if negb present then se_throw (RuntimeError "DeviceBusInterface missing")
  else
    maintenance ← apt_gets a_modelMaintenance;
    match maintenance with
    | None => se_throw (RuntimeError "ModelMaintenance missing")
    | Some _ =>
      let low := Z.land v 0xff in
      let high := Z.shiftr (Z.land v 0xff00) 8 in
      d ← this_device p;
      _ ← bus_call (bus_setDeviceConfig d c i low);
      _ ← bus_call (bus_setDeviceConfig d c (wrapU 8 (i + 1)) high);
      addModelEvent (etDeviceConfigChanged (d_DSMeterDSID d) [d_ShortAddress d; c; i; v])
    end.

Definition getDeviceConfig (p : dptr) (_configClass _configIndex : Z) : M Z :=
  present ← has_bus;
  if present : bool
  then d ← this_device p; bus_call (bus_getDeviceConfig d (wrapU 8 _configClass) (wrapU 8 _configIndex))
  else se_throw (RuntimeError "Bus interface not available").

Definition getDeviceConfigWord (p : dptr) (_configClass _configIndex : Z) : M Z :=
  present ← has_bus;
  if present : bool
  then d ← this_device p; bus_call (bus_getDeviceConfigWord d (wrapU 8 _configClass) (wrapU 8 _configIndex))
  else se_throw (RuntimeError "Bus interface not available").

Definition setDeviceValue (p : dptr) (_value : Z) : M unit :=
  present ← has_bus;
  if present : bool then d ← this_device p; bus_call (bus_setValue d (wrapU 8 _value)) else mret tt.

(** ** Outputs and scenes *)

Definition setDeviceOutputValue (p : dptr) (_offset _value : Z) : M unit :=
  if Z.testbit _offset 0 then setDeviceConfig p CfgClassRuntime _offset (Z.land _value 0xff)
  else
    _ ← setDeviceConfig p CfgClassRuntime (_offset + 1) (Z.land (Z.shiftr _value 8) 0xff);
    setDeviceConfig p CfgClassRuntime _offset (Z.land _value 0xff).

Definition getDeviceOutputValue (p : dptr) (_offset : Z) : M Z :=
  result ← getDeviceConfigWord p CfgClassRuntime _offset;
  mret (if wrapU 8 _offset =? 0 then Z.land result 0xff else result).

Definition setSceneValue (p : dptr) (_scene _value : Z) : M unit :=
  d ← this_device p;
  if hasExtendendSceneTable d then
    extValue ← getDeviceConfig p CfgClassSceneExtention (Z.quot _scene 2);
    let extValue :=
      if Z.rem _scene 2 =? 0 then Z.lor (Z.land extValue 0xF0) (Z.land (Z.shiftr _value 4) 0x0F)
      else Z.lor (Z.land extValue 0x0F) (Z.land _value 0xF0) in
    _ ← setDeviceConfig p CfgClassScene _scene (Z.land (Z.shiftr _value 8) 0xFF);
    setDeviceConfig p CfgClassSceneExtention (Z.quot _scene 2) extValue
  else setDeviceConfig p CfgClassScene _scene _value.

Definition getSceneValue (p : dptr) (_scene : Z) : M Z :=
  value ← getDeviceConfig p CfgClassScene _scene;
  d ← this_device p;
  if hasExtendendSceneTable d then
    let value := Z.shiftl value 8 in
    extValue ← getDeviceConfig p CfgClassSceneExtention (Z.quot _scene 2);
    let extValue :=
      if Z.rem _scene 2 =? 1 then let e := Z.land extValue 0xF0 in Z.lor e (Z.shiftr e 4)
      else let e := Z.land extValue 0x0F in Z.lor e (Z.shiftl e 4) in
    mret (Z.lor value extValue)
  else mret value.

Definition getDeviceOutputChannelSceneConfig (p : dptr) (_scene : Z) : M DeviceSceneSpec_t :=
  present ← has_bus;
  if present : bool
  then d ← this_device p; mode ← bus_call (bus_getSceneConfig d (wrapU 8 _scene)); mret (scene_of_channel_mode mode)
  else se_throw (RuntimeError "Bus interface not available").

Definition setDeviceOutputChannelSceneConfig (p : dptr) (_scene : Z) (_config : DeviceSceneSpec_t) : M unit :=
  present ← has_bus;
  if present : bool
  then d ← this_device p; bus_call (bus_setSceneConfig d (wrapU 8 _scene) (wrapU 16 (channel_scene_mode _config)))
  else mret tt.

Definition setDeviceSceneModeStandard (p : dptr) (_sceneId : Z) (_config : DeviceSceneSpec_t) : M unit :=
  setDeviceConfig p CfgClassScene (128 + _sceneId) (wrapU 8 (scene_mode _config)).

Definition getDeviceSceneModeStandard (p : dptr) (_sceneId : Z) : M DeviceSceneSpec_t :=
  mode ← getDeviceConfig p CfgClassScene (128 + _sceneId); mret (scene_of_mode mode).

(** The scene asked for is not used. *)
Definition setDeviceSceneMode (p : dptr) (sceneId : Z) (config : DeviceSceneSpec_t) : M unit :=
  d ← this_device p;
  if d_ProductID d =? ProductID_UMV_210 then setDeviceOutputChannelSceneConfig p SceneImpulse config
  else setDeviceSceneModeStandard p SceneImpulse config.

Definition getDeviceSceneMode (p : dptr) (sceneId : Z) : M DeviceSceneSpec_t :=
  d ← this_device p;
  if d_ProductID d =? ProductID_UMV_210 then getDeviceOutputChannelSceneConfig p SceneImpulse
  else getDeviceSceneModeStandard p SceneImpulse.

Definition getSceneAngle (p : dptr) (_scene : Z) : M Z :=
  d ← this_device p;
  if hasOutputAngle (getDeviceFeatures d) then getDeviceConfig p CfgClassSceneAngle _scene
  else se_throw (RuntimeError "Device does not support output angle setting").

Definition setSceneAngle (p : dptr) (_scene _angle : Z) : M unit :=
  d ← this_device p;
  if negb (hasOutputAngle (getDeviceFeatures d)) then se_throw (RuntimeError "Device does not support output angle setting")
  else if (_angle <? 0) || (_angle >? 255) then se_throw (RuntimeError "Device angle value out of bounds")
  else setDeviceConfig p CfgClassSceneAngle _scene _angle.

Definition configureAreaMembership (p : dptr) (_areaScene : Z) (_addToArea : bool) : M unit :=
  if (_areaScene <? SceneOffA1) || (_areaScene =? Scene1) || (_areaScene >? SceneA41)
  then se_throw (DSSException "Device::configureAreaMembership: scene number does not indicate an area")
  else
    let areaOnScene := if _areaScene >=? SceneA11 then _areaScene else _areaScene - SceneOffA1 + SceneA11 in
    _ ← setDeviceValue p (if _addToArea then 0xFF else 0);
    item_saveScene bus_error (ItemDevice p) coSystem areaOnScene "".

(** ** Lamps, transition times, delays *)

Definition setDeviceLedMode (p : dptr) (_ledconIndex : Z) (_config : DeviceLedSpec_t) : M unit :=
  if _ledconIndex >? 2 then se_throw (DSSException "Device::setDeviceLedMode: index out of range")
  else setDeviceConfig p CfgClassFunction (CfgFunction_LedConfig0 + _ledconIndex) (wrapU 8 (led_mode _config)).

Definition getDeviceLedMode (p : dptr) (_ledconIndex : Z) : M DeviceLedSpec_t :=
  if _ledconIndex >? 2 then se_throw (DSSException "Device::getDeviceLedMode: index out of range")
  else mode ← getDeviceConfig p CfgClassFunction (CfgFunction_LedConfig0 + _ledconIndex); mret (led_of_mode mode).

Definition setDeviceTransitionTime (p : dptr) (_dimtimeIndex up down : Z) : M unit :=
  if _dimtimeIndex >? 2 then se_throw (DSSException "Device::setDeviceTransitionTime: index out of range")
  else
    let vup := transitionTimeEval up in
    let vdown := transitionTimeEval down in
    _ ← setDeviceConfig p CfgClassFunction (CfgFunction_DimTime0 + _dimtimeIndex * 2) vup;
    setDeviceConfig p CfgClassFunction (CfgFunction_DimTime0 + _dimtimeIndex * 2 + 1) vdown.

Definition getDeviceTransitionTime (p : dptr) (_dimtimeIndex : Z) : M (Z * Z) :=
  if _dimtimeIndex >? 2 then se_throw (DSSException "Device::getDeviceTransitionTime: index out of range")
  else
    value ← getDeviceConfigWord p CfgClassFunction (CfgFunction_DimTime0 + _dimtimeIndex * 2);
    mret (transitionVal2Time (Z.land value 0xff), transitionVal2Time (Z.land (Z.shiftr value 8) 0xff)).

Definition setDeviceAKMInputTimeouts (p : dptr) (_onDelay _offDelay : Z) : M unit :=
  let write v cell :=
    if v >=? 0 then
      let delay := wrapU 16 (Z.quot v 100) in
      _ ← setDeviceConfig p CfgClassFunction cell (Z.land delay 0xff);
      setDeviceConfig p CfgClassFunction (cell + 1) (Z.shiftr delay 8)
    else mret tt in
  _ ← write _onDelay CfgFunction_LTTimeoutOn;
  write _offDelay CfgFunction_LTTimeoutOff.

Definition getDeviceAKMInputTimeouts (p : dptr) : M (Z * Z) :=
  on ← getDeviceConfigWord p CfgClassFunction CfgFunction_LTTimeoutOn;
  off ← getDeviceConfigWord p CfgClassFunction CfgFunction_LTTimeoutOff;
  mret (on * 100, off * 100).

Definition getDeviceMaxMotionTime (p : dptr) : M Z :=
  d ← this_device p;
  if negb (posTimeMax (getDeviceFeatures d)) then se_throw (RuntimeError "Maximum motion time setting not supportedby this device")
  else hw ← getDeviceConfigWord p CfgClassFunction CfgFunction_Shade_PosTimeMax; mret (Z.quot hw 100).

Definition setDeviceMaxMotionTime (p : dptr) (seconds : Z) : M unit :=
  d ← this_device p;
  if negb (posTimeMax (getDeviceFeatures d)) then se_throw (RuntimeError "Maximum motion time setting not supportedby this device")
  else if seconds * 100 >? 65535 then se_throw (RuntimeError "Seconds value unsupported: too large")
  else setDeviceConfig16 p CfgClassFunction CfgFunction_Shade_PosTimeMax (seconds * 100).

(** Blinking; the scale is written as in the code. *)
Definition BLINK_DELAY_SCALE : float := 33.333333.

Definition setDeviceBlinkRepetitions (p : dptr) (count : Z) : M unit :=
  d ← this_device p;
  if negb (hasBlinkSettings d) then se_throw (RuntimeError "blink configuration not supported by this device")
  else setDeviceConfig p CfgClassFunction CfgFunction_FCount1 count.

Definition set_blink_delay (p : dptr) (cell : Z) (delay : float) : M unit :=
  d ← this_device p;
  if negb (hasBlinkSettings d) then se_throw (RuntimeError "blink configuration not supported by this device")
  else
    let lowerBound := if is_ZWS205 d then 0.5%float else 0%float in
    if negb (lowerBound <=? delay)%float then se_throw (RuntimeError "delay value too small")
    else if negb (delay <=? 8.4)%float then se_throw (RuntimeError "delay value too big")
    else
      let value := FloatConv.round (1000 * delay / BLINK_DELAY_SCALE)%float in
      if negb ((0 <=? value) && (value <=? 255))%float then se_throw (RuntimeError "delay exceeds data type")
      else v ← se_lift (to_int value); setDeviceConfig p CfgClassFunction cell v.

Definition setDeviceBlinkOnDelay (p : dptr) (delay : float) : M unit := set_blink_delay p CfgFunction_FOnTime1 delay.
Definition setDeviceBlinkOffDelay (p : dptr) (delay : float) : M unit := set_blink_delay p CfgFunction_FOffTime1 delay.

(** The delays in seconds and the number of repetitions. *)
Definition getDeviceBlinkSettings (p : dptr) : M (float * float * Z) :=
  d ← this_device p;
  if negb (hasBlinkSettings d) then se_throw (RuntimeError "blink configuration not supported by this device")
  else
    value ← getDeviceConfigWord p CfgClassFunction CfgFunction_FOnTime1;
    value2 ← getDeviceConfig p CfgClassFunction CfgFunction_FOffTime1;
    mret ((of_int (Z.land value 0xff) * BLINK_DELAY_SCALE / 1000)%float, (of_int value2 * BLINK_DELAY_SCALE / 1000)%float,
          Z.land (wrapU 8 (Z.shiftr value 8)) 0xff).

(** ** Valves, thresholds, offsets *)

Definition climate {A} (p : dptr) (m : M A) : M A :=
  d ← this_device p; if negb (isValveDevice d) then se_throw (DSSException "Not a climate device") else m.

Definition setDeviceValveTimer (p : dptr) (_config : DeviceValveTimerSpec_t) : M unit :=
  climate p
    (_ ← setDeviceConfig p CfgClassFunction CfgFunction_Valve_EmergencyValue (emergencyControlValue _config);
     _ ← setDeviceConfig16 p CfgClassFunction CfgFunction_Valve_EmergencyTimer (emergencyTimer _config);
     setDeviceConfig16 p CfgClassFunction CfgFunction_Valve_ProtectionTimer (protectionTimer _config)).

Definition getDeviceValveTimer (p : dptr) : M DeviceValveTimerSpec_t :=
  climate p
    (e ← getDeviceConfig p CfgClassFunction CfgFunction_Valve_EmergencyValue;
     t ← getDeviceConfigWord p CfgClassFunction CfgFunction_Valve_EmergencyTimer;
     r ← getDeviceConfigWord p CfgClassFunction CfgFunction_Valve_ProtectionTimer;
     mret (mkValveTimer r t e)).

Definition setDeviceValvePwm (p : dptr) (_config : DeviceValvePwmSpec_t) : M unit :=
  climate p
    (_ ← setDeviceConfig16 p CfgClassFunction CfgFunction_Valve_PwmPeriod (pwmPeriod _config);
     _ ← setDeviceConfig p CfgClassFunction CfgFunction_Valve_PwmMinX (pwmMinX _config);
     _ ← setDeviceConfig p CfgClassFunction CfgFunction_Valve_PwmMaxX (pwmMaxX _config);
     _ ← setDeviceConfig p CfgClassFunction CfgFunction_Valve_PwmMinY (pwmMinY _config);
     _ ← setDeviceConfig p CfgClassFunction CfgFunction_Valve_PwmMaxY (pwmMaxY _config);
     setDeviceConfig p CfgClassFunction CfgFunction_Valve_PwmOffset (wrapU 8 (pwmOffset _config))).

Definition getDeviceValvePwm (p : dptr) : M DeviceValvePwmSpec_t :=
  climate p
    (period ← getDeviceConfigWord p CfgClassFunction CfgFunction_Valve_PwmPeriod;
     x ← getDeviceConfigWord p CfgClassFunction CfgFunction_Valve_PwmMinX;
     y ← getDeviceConfigWord p CfgClassFunction CfgFunction_Valve_PwmMinY;
     o ← getDeviceConfig p CfgClassFunction CfgFunction_Valve_PwmOffset;
     mret (mkValvePwm period (Z.land x 0xff) (Z.land (Z.shiftr x 8) 0xff) (Z.land y 0xff) (Z.land (Z.shiftr y 8) 0xff)
       (wrapS 8 o))).

(** The PWM value and the priority mode. *)
Definition getDeviceValvePwmState (p : dptr) : M (Z * Z) :=
  climate p
    (value ← getDeviceConfigWord p CfgClassRuntime CfgRuntime_Valve_PwmValue;
     mret (Z.land value 0xff, Z.land (Z.shiftr value 8) 0xff)).

Definition setDeviceValveControl (p : dptr) (_config : DeviceValveControlSpec_t) : M unit :=
  climate p (setDeviceConfig p CfgClassFunction CfgFunction_Valve_PwmConfig (valve_control _config)).

Definition getDeviceValveControl (p : dptr) : M DeviceValveControlSpec_t :=
  climate p (value ← getDeviceConfig p CfgClassFunction CfgFunction_Valve_PwmConfig; mret (control_of_value value)).

Definition setSwitchThreshold (p : dptr) (_threshold : Z) : M unit :=
  if (_threshold =? 0) || (_threshold =? 255) then se_throw (RuntimeError "Threshold must not be 0 or 255")
  else d ← this_device p; i ← se_lift (getSWThresholdAddress d); setDeviceConfig p CfgClassFunction i _threshold.

Definition getSwitchThreshold (p : dptr) : M Z :=
  d ← this_device p; i ← se_lift (getSWThresholdAddress d); getDeviceConfig p CfgClassFunction i.

Definition setTemperatureOffset (p : dptr) (_offset : Z) : M unit :=
  d ← this_device p;
  if negb (getDeviceType d =? DEVICE_TYPE_SK)
  then se_throw (RuntimeError "Temperature offset setting is not supported by this device")
  else setDeviceConfig p CfgClassFunction CfgFunction_SK_TempOffsetExt _offset.

Definition getTemperatureOffset (p : dptr) : M Z :=
  d ← this_device p;
  if negb (getDeviceType d =? DEVICE_TYPE_SK)
  then se_throw (RuntimeError "Temperature offset setting is not supported by this device")
  else v ← getDeviceConfig p CfgClassFunction CfgFunction_SK_TempOffsetExt; mret (wrapS 8 v).

Definition umv_relay {A} (p : dptr) (m : M A) : M A :=
  d ← this_device p;
  if negb (getDeviceType d =? DEVICE_TYPE_UMV) || negb (getDeviceNumber d =? 200)
  then se_throw (RuntimeError "unsupported configuration for this device") else m.
Definition getDeviceUMVRelayValue (p : dptr) : M Z :=
  umv_relay p (getDeviceConfig p CfgClassFunction CfgFunction_UMV_Relay_Config).
Definition setDeviceUMVRelayValue (p : dptr) (_value : Z) : M unit :=
  umv_relay p (setDeviceConfig p CfgClassFunction CfgFunction_UMV_Relay_Config _value).

Definition setConsumptionVisualizationEnabled (p : dptr) (enabled : bool) : M unit :=
  d ← this_device p;
  if is_ZWS205 d then setDeviceConfig p CfgClassFunction CfgFunction_ZWS_LedVisuSensId (if enabled then 0x2 else 0xff)
  else se_throw (RuntimeError "Consumption visualization not support by device").

Definition getConsumptionVisualizationEnabled (p : dptr) : M bool :=
  d ← this_device p;
  if is_ZWS205 d then bits ← getDeviceConfig p CfgClassFunction CfgFunction_ZWS_LedVisuSensId; mret (bits =? 0x2)
  else se_throw (RuntimeError "Consumption visualization not support by device").

(** ** Buttons and binary inputs *)

Definition di_with_button (group id : Z) (i : DeviceInfo) : DeviceInfo :=
  mkDeviceInfo (di_ActiveGroup i) (di_OutputMode i) (di_ButtonInputMode i) (di_ButtonInputIndex i) (di_ButtonInputCount i)
    group id (di_OemEanNumber i) (di_OemSerialNumber i) (di_OemState i) (di_OemInetState i) (di_OemIsIndependent i)
    (di_OemProductInfoState i) (di_OemProductName i) (di_OemProductIcon i) (di_VdcHardwareInfo i) (di_VdcIconPath i)
    (di_VdcDisplayID i) (di_VdcHardwareGuid i) (di_ValveType i) (di_AKMInputProperty i) (di_pairedDevices i) (di_visible i)
    (di_cardinalDirection i) (di_windProtectionClass i) (di_published i).

Definition setDeviceButtonID (p : dptr) (_buttonId : Z) : M unit :=
  _ ← set_info p (fun i => di_with_button (di_ButtonActiveGroup i) (wrapU 8 _buttonId) i);
  d ← this_device p;
  let i := d_info d in
  let value := Z.land (di_ButtonID i) 0x0f in
  let value := if di_ButtonActiveGroup i <? 16 then Z.lor value (Z.shiftl (di_ButtonActiveGroup i) 4) else value in
  setDeviceConfig p CfgClassFunction CfgFunction_ButtonMode (wrapU 8 value).

Definition setDeviceButtonActiveGroup (p : dptr) (_buttonActiveGroup : Z) : M unit :=
  let group := wrapU 8 _buttonActiveGroup in
  present ← has_bus;
  if present : bool then
    d ← this_device p;
    _ ← bus_call (bus_setDeviceButtonActiveGroup d group);
    _ ← set_info p (fun i => di_with_button group (di_ButtonID i) i);
    let id := di_ButtonID (d_info d) in
    let isAreaButton :=
      ((id >=? ButtonId_Area1) && (id <=? ButtonId_Area4))
      || ((id >=? ButtonId_Area1_Extended) && (id <=? ButtonId_Area4_Extended)) in
    if isAreaButton && ((group <? GroupIDYellow) || (group >? GroupIDGray)) then setDeviceButtonID p ButtonId_Zone else mret tt
  else mret tt.

Definition with_input {A} (p : dptr) (_inputIndex : Z) (m : Z -> M A) : M A :=
  d ← this_device p;
  let count := Z.of_nat (length (d_binaryInputs d)) in
  if wrapU 8 _inputIndex >=? count then se_throw (ItemNotFound "Invalid binary input index") else m count.
Definition setDeviceBinaryInputType (p : dptr) (_inputIndex : Z) (inputType : BinaryInputType.t) : M unit :=
  with_input p _inputIndex
    (fun _ => setDeviceConfig p CfgClassDevice (0x40 + 3 * wrapU 8 _inputIndex + 1) (BinaryInputType.to_Z inputType)).
Definition setDeviceBinaryInputTargetId (p : dptr) (_inputIndex _targetGroup : Z) : M unit :=
  with_input p _inputIndex (fun _ => setDeviceConfig p CfgClassDevice (0x40 + 3 * wrapU 8 _inputIndex + 0) _targetGroup).
(** The last input carries a mark. *)
Definition setDeviceBinaryInputId (p : dptr) (_inputIndex id : Z) : M unit :=
  with_input p _inputIndex (fun count =>
    let val := wrapU 8 (Z.shiftl (Z.land id 0xf) 4) in
    let val := if wrapU 8 _inputIndex =? count - 1 then Z.lor val 0x80 else val in
    setDeviceConfig p CfgClassDevice (0x40 + 3 * wrapU 8 _inputIndex + 2) val).

(** ** Sensor events *)

Definition dirty : M unit := addModelEvent etModelDirty.

Definition getSensorEventName (p : dptr) (_eventIndex : Z) : M string :=
  d ← this_device p;
  match d_node d with
  | Some n =>
    c ← getProperty n ("sensorEvents/event" +:+ intToString _eventIndex false);
    match c with Some c => getStringValue c | None => mret "" end
  | None => mret ""
  end.

Definition setSensorEventName (p : dptr) (_eventIndex : Z) (_name : string) : M unit :=
  d ← this_device p;
  match d_node d with
  | Some n =>
    nameNode ← createProperty callback n ("sensorEvents/event" +:+ intToString _eventIndex false);
    _ ← (if is_empty _name then
           events ← getProperty n "sensorEvents";
           match events with
           | Some e => _ ← removeChild callback e nameNode; mret tt
           | None => se_throw (UndefinedBehaviour "call on NULL")
           end
         else _ ← setStringValue callback nameNode _name; setFlag callback nameNode Archive true);
    dirty
  | None => mret tt
  end.

(** The cells of an entry, without its name; [minimalDuration] is what the
    caller's entry has, which is left as it is. *)
Definition getSensorEventTable (p : dptr) (_eventIndex : Z) (name : string) (minimalDuration : Z) : M DeviceSensorEventSpec_t :=
  let row := CfgFSensorEvent_TableSize * _eventIndex in
  value ← getDeviceConfigWord p CfgClassSensorEvent (row + 0);
  value2 ← getDeviceConfigWord p CfgClassSensorEvent (row + 2);
  value4 ← getDeviceConfigWord p CfgClassSensorEvent (row + 4);
  mret (mkSensorEvent name (Z.shiftr (Z.land value 0x00F0) 4) (Z.shiftr (Z.land value 0x000C) 2) (Z.land value 0x0003)
    (Z.lor (Z.shiftr (Z.land value 0xFF00) 4) (Z.shiftr (Z.land value2 0x00F0) 4))
    (Z.lor (Z.shiftl (Z.land value2 0x000F) 8) (Z.shiftr (Z.land value2 0xFF00) 8))
    (Z.shiftr (Z.land value4 0x000C) 2) (Z.land value4 0x0003) (Z.shiftr (Z.land value4 0xF000) 12)
    (Z.shiftr (Z.land value4 0x0F00) 8) (Z.shiftr (Z.land value4 0x7F00) 8) minimalDuration).

Definition setSensorEventTable (p : dptr) (_eventIndex : Z) (e : DeviceSensorEventSpec_t) : M unit :=
  let row := CfgFSensorEvent_TableSize * _eventIndex in
  let set i v := setDeviceConfig p CfgClassSensorEvent (row + i) (wrapU 8 v) in
  _ ← set 0 (Z.lor (Z.lor (Z.shiftl (se_sensorIndex e) 4) (Z.shiftl (se_test e) 2)) (se_action e));
  _ ← set 1 (Z.shiftr (Z.land (se_value e) 0xFF0) 4);
  _ ← set 2 (Z.lor (Z.shiftl (Z.land (se_value e) 0x00F) 4) (Z.shiftr (Z.land (se_hysteresis e) 0xF00) 8));
  _ ← set 3 (Z.land (se_hysteresis e) 0x0FF);
  _ ← set 4 (Z.lor (Z.shiftl (Z.land (se_sceneDeviceMode e) 0x03) 2) (Z.land (se_validity e) 0x03));
  if se_action e =? 2 then set 5 (Z.lor (Z.shiftl (se_buttonNumber e) 4) (se_clickType e)) else mret tt.

(** ZWS205 has two events, with a duration outside of the table. *)
Definition duration_cell (row : Z) : Z := if row =? 0 then 0x30 else 0x32.

Definition getSensorEventTableEntryZws205 (p : dptr) (row : Z) : M DeviceSensorEventSpec_t :=
  if negb (row <? 2) then se_throw (RuntimeError "ZWS205 only supports on/off consumption event")
  else
    name ← getSensorEventName p row;
    value0_1 ← getDeviceConfigWord p CfgClassSensorEvent (row * CfgFSensorEvent_TableSize + 0);
    value2_3 ← getDeviceConfigWord p CfgClassSensorEvent (row * CfgFSensorEvent_TableSize + 2);
    minimalDuration ← getDeviceConfig p CfgClassSensorEvent (duration_cell row);
    mret (mkSensorEvent name (Z.shiftr (Z.land value0_1 0x00F0) 4) (Z.shiftr (Z.land value0_1 0x000C) 2)
      (Z.land value0_1 0x0003) (Z.shiftr (Z.lor (Z.land value0_1 0xFF00) (Z.land value2_3 0x00F0)) 4) 0 0 0 0 0 0
      minimalDuration).

Definition setSensorEventTableEntryZws205 (p : dptr) (row : Z) (entry : DeviceSensorEventSpec_t) : M unit :=
  if negb (row <? 2) then se_throw (RuntimeError "ZWS205 only supports on/off consumption event ")
  else if negb (se_sensorIndex entry <=? 0xff) then se_throw (RuntimeError "sensor index exceeded")
  else if se_test entry =? 0x3 then se_throw (RuntimeError "invalid comparison operator")
  else if negb ((se_action entry =? 0) || (se_action entry =? 0x3)) then se_throw (RuntimeError "on/off action only")
  else if negb (se_value entry >=? 5) then se_throw (RuntimeError "ZWS205 has 5W lower bound limit")
  else
    let set i v := setDeviceConfig p CfgClassSensorEvent (row * CfgFSensorEvent_TableSize + i) (wrapU 8 v) in
    _ ← set 0 (Z.lor (Z.lor (Z.shiftl (se_sensorIndex entry) 4) (Z.shiftl (se_test entry) 2)) (se_action entry));
    _ ← set 1 (Z.shiftr (Z.land (se_value entry) 0xFF0) 4);
    _ ← set 2 (Z.shiftl (Z.land (se_value entry) 0x00F) 4);
    _ ← set 3 0;
    _ ← set 4 0;
    setDeviceConfig p CfgClassSensorEvent (duration_cell row) (se_minimalDuration entry).

Definition getSensorEventEntry (p : dptr) (_eventIndex : Z) (minimalDuration : Z) : M DeviceSensorEventSpec_t :=
  if negb (_eventIndex <=? 7) then se_throw (RuntimeError "row index exceeds table size")
  else
    d ← this_device p;
    if is_ZWS205 d then getSensorEventTableEntryZws205 p _eventIndex
    else name ← getSensorEventName p _eventIndex; getSensorEventTable p _eventIndex name minimalDuration.

Definition without_hysteresis (e : DeviceSensorEventSpec_t) : DeviceSensorEventSpec_t :=
  mkSensorEvent (se_name e) (se_sensorIndex e) (se_test e) (se_action e) (se_value e) 0 (se_sceneDeviceMode e)
    (se_validity e) (se_buttonNumber e) (se_clickType e) (se_sceneID e) (se_minimalDuration e).

(** The hysteresis is not set on older devices. *)
Definition setSensorEventEntry (p : dptr) (_eventIndex : Z) (_entry : DeviceSensorEventSpec_t) : M unit :=
  if negb (_eventIndex <=? 7) then se_throw (RuntimeError "row index exceeds table size")
  else
    d ← this_device p;
    if is_ZWS205 d then setSensorEventTableEntryZws205 p _eventIndex _entry
    else
      let _entry := if getRevisionID d <? 0x0328 then without_hysteresis _entry else _entry in
      _ ← setSensorEventName p _eventIndex (se_name _entry);
      setSensorEventTable p _eventIndex _entry.
End Config.
