(* ===== verification/ExampleWorld.v ===== *)
(** A concrete world for examples: an event system, states and an apartment,
    with trivial stand-ins for the libraries. *)
From stdpp Require Import base option list strings gmap.
From Stdlib Require Import ZArith Lia Ascii PrimFloat.
From Stdlib Require String.
From S2P Require Import Prelude CxxString Base NumConv FloatConv Ds485types ModelConst DataTypes Calendar DateTools Event.
From S2P Require Import PropertyTree PropertyTreeFacts TreeFrame EventQueue EventQueueFacts State StateFacts SceneAccess ApartmentModel ApartmentWorld.

Open Scope string_scope.
Open Scope list_scope.
Open Scope Z_scope.

(** The apartment, the states and the events are different parts of the world. *)
Class SeparateApartment {ical W : Type} (EW : EventWorld ical W) (SW : StateWorld W) (AW : ApartmentWorld W) : Prop := {
  apt_of_put_st : forall x w, get_apt (put_st x w) = get_apt w;
  apt_of_put_eq : forall q w, get_apt (put_eq q w) = get_apt w;
  st_of_put_apt : forall a w, get_st (put_apt a w) = get_st w;
  eq_of_put_apt : forall a w, get_eq (put_apt a w) = get_eq w
}.

#[export] Existing Instance no_ical.
#[export] Existing Instance no_libc.
#[export] Existing Instance demo_dsuid.

Definition ModelWorld : Type := EQ unit * StateStore * Apartment.
#[export] Instance model_events : EventWorld unit ModelWorld.
Proof. refine {| get_eq := fun w => w.1.1; put_eq := fun q w => (q, w.1.2, w.2) |}; [done|done|by intros [[]]]. Defined.
#[export] Instance model_states : StateWorld ModelWorld.
Proof. by refine {| get_st := fun w => w.1.2; put_st := fun x w => (w.1.1, x, w.2) |}. Defined.
#[export] Instance model_apartment : ApartmentWorld ModelWorld.
Proof. by refine {| get_apt := snd; put_apt := fun a w => (w.1, a) |}. Defined.
#[export] Instance model_separate : SeparateWorlds model_events model_states.
Proof. split; reflexivity. Defined.
#[export] Instance model_separate_apartment : SeparateApartment model_events model_states model_apartment.
Proof. split; reflexivity. Defined.

(** Nobody listens, everything can be written, the bus never fails. *)
Definition no_callback (k : notification) (l : lid) (a b : nid) (h : heap ModelWorld) : heap ModelWorld := h.
Definition writable (_ : string) : bool := true.
Definition bus_ok (_ : list ActionRequest) (_ : ActionRequest) : option exn := None.

Lemma no_callback_discreet {K} (obs : ModelWorld -> K) : TreeFrame.discreet obs no_callback.
Proof. by intros k l a b h. Qed.

(** An empty event system at 1000 seconds. *)
Definition example_events : EQ unit := mkEQ ∅ [] 0 true [] true None false (mkDateTime 1000 0).

Definition example_heap (ss : list State) (a : Apartment) : heap ModelWorld :=
  empty_heap (example_events, mkStateStore (list_to_map (zip (seq 0 (length ss)) ss)) ∅ true true "/save", a).

Lemma example_quiet {K} (obs : ModelWorld -> K) ss a : TreeFrame.quiet obs (example_heap ss a).
Proof. intros n nd p [_ ->]%empty_heap_inv. done. Qed.
