(* ===== verification/DeviceConfigFacts.v ===== *)
(** Reading back what was written to the memory of a device: packed fields,
    words and tables, against an interface of the bus. *)
From stdpp Require Import base option list strings gmap.
From Stdlib Require Import ZArith Lia Ascii PrimFloat Btauto.
From Stdlib Require String.
From S2P Require Import Prelude CxxString Base NumConv FloatConv Ds485types ModelConst DataTypes Calendar DateTools.
From S2P Require Import PropertyTree State SceneAccess ApartmentModel DeviceInfo DeviceSet ApartmentWorld DeviceConfig ExampleWorld.

Import DeviceType DeviceClass.

Open Scope string_scope.
Open Scope list_scope.
Open Scope Z_scope.

(** What the bus promises of the memory of a device: the cell last written is
    read back, the others stay, a word is two cells, and the memory is not a
    part of the apartment. *)
Class DeviceMemory (W : Type) {AW : ApartmentWorld W} {DB : DeviceBus W} := {
  cell : W -> dsuid_t -> Z -> Z -> Z;
  cell_byte : forall w d c i, 0 <= cell w d c i < 256;
  read_cell : forall w d c i, bus_present w = true -> bus_getDeviceConfig d c i w = (Ok (cell w (d_DSID d) c i), w);
  read_word : forall w d c i, bus_present w = true ->
    bus_getDeviceConfigWord d c i w = (Ok (cell w (d_DSID d) c i + 256 * cell w (d_DSID d) c (wrapU 8 (i + 1))), w);
  write_cell : forall w d c i v, bus_present w = true -> 0 <= v < 256 ->
    exists w', bus_setDeviceConfig d c i v w = (Ok tt, w') /\ bus_present w' = true /\ get_apt w' = get_apt w /\
      forall e c' i', cell w' e c' i' = if bool_decide (e = d_DSID d /\ c' = c /\ i' = i) then v else cell w e c' i';
  cell_put_apt : forall a w, cell (put_apt a w) = cell w;
  present_put_apt : forall a w, bus_present (put_apt a w) = bus_present w
}.

(** ** Bits *)

Lemma testbit_small x n i : 0 <= x < 2 ^ n -> 0 <= n <= i -> Z.testbit x i = false.
Proof. intros Hx Hn. rewrite <- (Z.mod_small x (2 ^ n)) by done. apply Z.mod_pow2_bits_high. lia. Qed.

Lemma wrapU_land n z : 0 <= n -> wrapU n z = Z.land z (Z.ones n).
Proof. intros Hn. by rewrite Z.land_ones. Qed.

Lemma land_small x n : 0 <= x < 2 ^ n -> 0 <= n -> Z.land x (Z.ones n) = x.
Proof. intros Hx Hn. rewrite Z.land_ones by done. by apply Z.mod_small. Qed.

(** A word of two cells is their disjoint union. *)
Lemma word_lor a b : 0 <= a < 256 -> a + 256 * b = Z.lor a (Z.shiftl b 8).
Proof.
  intros Ha. rewrite <- (Z.add_0_r (Z.lor _ _)). replace 0 with (Z.land a (Z.shiftl b 8)).
  - rewrite Z.add_lor_land, Z.shiftl_mul_pow2 by done. lia.
  - apply Z.bits_inj'. intros i Hi. rewrite Z.land_spec, Z.bits_0. destruct (decide (i < 8)).
    + by rewrite Z.shiftl_spec_low, andb_false_r.
    + by rewrite (testbit_small a 8) by lia.
Qed.

(** Equality of expressions in fields of at most 16 bits, one bit at a time. *)
Ltac bit_rules :=
  repeat first
    [ rewrite Z.land_spec | rewrite Z.lor_spec | rewrite Z.shiftr_spec by lia | rewrite Z.shiftl_spec by lia ].
Ltac bit_of_field x k :=
  first [ rewrite (testbit_small x 1 k) by lia | rewrite (testbit_small x 2 k) by lia | rewrite (testbit_small x 3 k) by lia
        | rewrite (testbit_small x 4 k) by lia | rewrite (testbit_small x 8 k) by lia | rewrite (testbit_small x 12 k) by lia
        | rewrite (testbit_small x 16 k) by lia ].
Ltac concrete_bit :=
  bit_rules; repeat (match goal with
  | |- context [Z.testbit ?x ?k] =>
    let k' := eval vm_compute in k in progress change (Z.testbit x k) with (Z.testbit x k')
  | |- context [Z.testbit ?x (Zneg ?k)] => rewrite (Z.testbit_neg_r x (Zneg k)) by lia
  end; bit_rules);
  repeat match goal with
  | |- context [Z.testbit (Zpos ?p) ?k] => let b := eval vm_compute in (Z.testbit (Zpos p) k) in change (Z.testbit (Zpos p) k) with b
  | |- context [Z.testbit ?x (Zneg ?k)] => rewrite (Z.testbit_neg_r x (Zneg k)) by lia
  | H : 0 <= ?x < _ |- context [Z.testbit ?x ?k] => bit_of_field x k
  end;
  btauto.
Ltac bits_eq :=
  apply Z.bits_inj'; intros i Hi;
  destruct (decide (i < 16));
  [ let H := fresh in
    assert (In i (zrange 0 16)) as H by (apply zrange_In; lia); cbn in H;
    repeat (destruct H as [<-|H]; [concrete_bit|]); done
  | bit_rules; repeat match goal with
    | H : 0 <= ?x < _ |- context [Z.testbit ?x ?k] => bit_of_field x k
    | |- context [Z.testbit (Zpos ?p) ?k] => bit_of_field (Zpos p) k
    end; btauto ].


(** ** Reading and writing *)

Section Memory.
Context {W : Type} {SW : StateWorld W} {AW : ApartmentWorld W} {DB : DeviceBus W} {DM : DeviceMemory W} {DS : Dsuid}.
Local Notation "'M' A" := (SE (heap W) A) (at level 10, A at next level).
Context (p : dptr) (d : Device).

(** The device is [d], the bus and the model maintenance are there, and the
    memory is [m]. *)
Definition holds (m : Z -> Z -> Z) (h : heap W) : Prop :=
  bus_present (ext h) = true /\ a_modelMaintenance (get_apt (ext h)) <> None /\ the_device (get_apt (ext h)) p = d /\
  forall c i, cell (ext h) (d_DSID d) c i = m c i.

Definition store (m : Z -> Z -> Z) (c i v : Z) : Z -> Z -> Z :=
  fun c' i' => if bool_decide (c' = c /\ i' = i) then v else m c' i'.

Definition writes (m : Z -> Z -> Z) (w : M unit) (m' : Z -> Z -> Z) : Prop :=
  forall h, holds m h -> exists h', w h = (Ok tt, h') /\ holds m' h'.
Definition reads {A} (m : Z -> Z -> Z) (r : M A) (x : A) : Prop := forall h, holds m h -> r h = (Ok x, h).

Lemma writes_ret m : writes m (mret tt) m.
Proof. intros h Hh. by exists h. Qed.
Lemma writes_seq m1 m2 m3 w1 w2 : writes m1 w1 m2 -> writes m2 w2 m3 -> writes m1 (_ ← w1; w2) m3.
Proof.
  intros H1 H2 h Hh. destruct (H1 h Hh) as (h1 & E1 & Hh1). destruct (H2 h1 Hh1) as (h2 & E2 & Hh2).
  exists h2. by rewrite (se_bind_ok _ _ _ _ _ E1).
Qed.
Lemma writes_read {A} m m' (r : M A) x w : reads m r x -> writes m (w x) m' -> writes m (y ← r; w y) m'.
Proof. intros Hr Hw h Hh. destruct (Hw h Hh) as (h' & E & Hh'). exists h'. by rewrite (se_bind_ok _ _ _ _ _ (Hr h Hh)). Qed.
Lemma reads_ret {A} m (x : A) : reads m (mret x) x.
Proof. by intros h _. Qed.
Lemma reads_bind {A B} m (r : M A) x (f : A -> M B) y : reads m r x -> reads m (f x) y -> reads m (z ← r; f z) y.
Proof. intros Hr Hf h Hh. rewrite (se_bind_ok _ _ _ _ _ (Hr h Hh)). by apply Hf. Qed.

Lemma reads_device m : reads m (this_device p) d.
Proof. by intros h (_ & _ & Hd & _); unfold this_device, apt_gets, se_gets; rewrite Hd. Qed.
Lemma reads_bus m : reads m has_bus true.
Proof. by intros h (Hb & _); unfold has_bus, se_gets; rewrite Hb. Qed.

Lemma add_event_holds m h e : holds m h -> addModelEvent e h = (Ok tt, snd (addModelEvent e h)) /\ holds m (snd (addModelEvent e h)).
Proof.
  intros (Hb & Hm & Hd & Hc). split; [done|]. unfold holds. cbn. rewrite present_put_apt, get_put_apt, cell_put_apt.
  repeat split; [done| |done|done]. cbn. by destruct (a_modelMaintenance _).
Qed.

Lemma bus_write_holds m h c i v : holds m h -> 0 <= v < 256 ->
  exists h', bus_call (bus_setDeviceConfig d c i v) h = (Ok tt, h') /\ holds (store m c i v) h'.
Proof.
  intros (Hb & Hm & Hd & Hc) Hv. destruct (write_cell (ext h) d c i v Hb Hv) as (w' & E & Hb' & Ha & Hw).
  unfold bus_call. rewrite E. eexists. split; [done|]. repeat split; cbn; [done|by rewrite Ha|by rewrite Ha|].
  intros c' i'. rewrite Hw. unfold store. case_bool_decide as H1; case_bool_decide as H2; try done; naive_solver.
Qed.

Lemma bus_writes m c i v : 0 <= v < 256 -> writes m (bus_call (bus_setDeviceConfig d c i v)) (store m c i v).
Proof. intros Hv h Hh. by apply bus_write_holds. Qed.

(** Every byte written is a byte. *)
Lemma wrap8 v : 0 <= wrapU 8 v < 256.
Proof. apply Z.mod_pos_bound. lia. Qed.

Ltac event_last := intros h Hh; eexists; apply add_event_holds; done.

Lemma setDeviceConfig_writes m c i v : writes m (setDeviceConfig p c i v) (store m (wrapU 8 c) (wrapU 8 i) (wrapU 8 v)).
Proof.
  unfold setDeviceConfig. eapply writes_read; [apply reads_bus|]. cbn [negb]. intros h Hh.
  unfold apt_gets at 1. unfold mbind at 1, se_bind at 1, se_gets at 1.
  destruct (a_modelMaintenance _) eqn:E; [|by destruct Hh as (_ & Hm & _)]. revert h E Hh. intros h _. revert h.
  change (writes m (d ← this_device p; _ ← bus_call (bus_setDeviceConfig d (wrapU 8 c) (wrapU 8 i) (wrapU 8 v));
    addModelEvent (etDeviceConfigChanged (d_DSMeterDSID d) [d_ShortAddress d; wrapU 8 c; wrapU 8 i; wrapU 8 v]))
    (store m (wrapU 8 c) (wrapU 8 i) (wrapU 8 v))).
  eapply writes_read; [apply reads_device|]. eapply writes_seq; [apply bus_writes, wrap8|]. event_last.
Qed.

Lemma setDeviceConfig16_writes m c i v :
  writes m (setDeviceConfig16 p c i v)
    (store (store m (wrapU 8 c) (wrapU 8 i) (wrapU 8 v)) (wrapU 8 c) (wrapU 8 (wrapU 8 i + 1)) (wrapU 8 (Z.shiftr v 8))).
Proof.
  unfold setDeviceConfig16. eapply writes_read; [apply reads_bus|]. cbn [negb]. intros h Hh.
  unfold apt_gets at 1. unfold mbind at 1, se_bind at 1, se_gets at 1.
  destruct (a_modelMaintenance _) eqn:E; [|by destruct Hh as (_ & Hm & _)]. revert Hh. clear E. revert h.
  match goal with |- forall h, _ -> exists h', ?w h = _ /\ _ => change (writes m w
    (store (store m (wrapU 8 c) (wrapU 8 i) (wrapU 8 v)) (wrapU 8 c) (wrapU 8 (wrapU 8 i + 1)) (wrapU 8 (Z.shiftr v 8)))) end.
  assert (Z.land (wrapU 16 v) 0xff = wrapU 8 v) as ->.
  { rewrite !wrapU_land by lia. apply Z.bits_inj'. intros j Hj. rewrite !Z.land_spec.
    destruct (decide (j < 8)); [rewrite (Z.ones_spec_low 16) by lia; change 255 with (Z.ones 8); btauto|].
    rewrite (Z.ones_spec_high 8) by lia. change 255 with (Z.ones 8). rewrite (Z.ones_spec_high 8) by lia. btauto. }
  assert (Z.shiftr (Z.land (wrapU 16 v) 0xff00) 8 = wrapU 8 (Z.shiftr v 8)) as ->.
  { rewrite !wrapU_land by lia. apply Z.bits_inj'. intros j Hj. change 0xff00 with (Z.shiftl (Z.ones 8) 8). bit_rules.
    rewrite Z.add_simpl_r. destruct (decide (j < 8)); [by rewrite (Z.ones_spec_low 16), andb_true_r by lia|].
    by rewrite (Z.ones_spec_high 8), !andb_false_r by lia. }
  eapply writes_read; [apply reads_device|]. eapply writes_seq; [apply bus_writes, wrap8|].
  eapply writes_seq; [apply bus_writes, wrap8|]. event_last.
Qed.

Lemma getDeviceConfig_reads m c i : reads m (getDeviceConfig p c i) (m (wrapU 8 c) (wrapU 8 i)).
Proof.
  eapply reads_bind; [apply reads_bus|]. cbn. eapply reads_bind; [apply reads_device|]. intros h (Hb & _ & _ & Hc).
  unfold bus_call. rewrite read_cell, Hc by done. f_equal. by destruct h.
Qed.

Lemma getDeviceConfigWord_reads m c i :
  reads m (getDeviceConfigWord p c i) (m (wrapU 8 c) (wrapU 8 i) + 256 * m (wrapU 8 c) (wrapU 8 (wrapU 8 i + 1))).
Proof.
  eapply reads_bind; [apply reads_bus|]. cbn. eapply reads_bind; [apply reads_device|]. intros h (Hb & _ & _ & Hc).
  unfold bus_call. rewrite read_word, !Hc by done. f_equal. by destruct h.
Qed.

Lemma store_same m c i v : store m c i v c i = v.
Proof. unfold store. by rewrite bool_decide_true. Qed.
Lemma store_other m c i v c' i' : c' <> c \/ i' <> i -> store m c i v c' i' = m c' i'.
Proof. intros H. unfold store. rewrite bool_decide_false; [done|]. naive_solver. Qed.
End Memory.

Lemma wrapU_small n z : 0 <= z < 2 ^ n -> wrapU n z = z.
Proof. apply Z.mod_small. Qed.

(** Look up a cell in a sequence of writes. *)
Ltac cells :=
  repeat first
    [ rewrite store_same
    | rewrite store_other by (first [right; lia | left; lia])
    | match goal with |- context [wrapU ?n ?z] => rewrite (wrapU_small n z) by lia end ].

(** ** Sensor events *)

Section SensorEvents.
Context {W : Type} {SW : StateWorld W} {AW : ApartmentWorld W} {DB : DeviceBus W} {DM : DeviceMemory W} {DS : Dsuid}.

(** The ranges of the fields of an entry. *)
Definition event_fits (e : DeviceSensorEventSpec_t) : Prop :=
  0 <= se_sensorIndex e < 16 /\ 0 <= se_test e < 4 /\ 0 <= se_action e < 4 /\ 0 <= se_value e < 4096 /\
  0 <= se_hysteresis e < 4096 /\ 0 <= se_sceneDeviceMode e < 4 /\ 0 <= se_validity e < 4 /\
  0 <= se_buttonNumber e < 16 /\ 0 <= se_clickType e < 16.

Definition event_cell5 (m : Z -> Z -> Z) (row : Z) (e : DeviceSensorEventSpec_t) : Z :=
  if se_action e =? 2 then wrapU 8 (Z.lor (Z.shiftl (se_buttonNumber e) 4) (se_clickType e))
  else m CfgClassSensorEvent (6 * row + 5).

Definition event_memory (m : Z -> Z -> Z) (row : Z) (e : DeviceSensorEventSpec_t) : Z -> Z -> Z :=
  let set k v m := store m CfgClassSensorEvent (6 * row + k) (wrapU 8 v) in
  let m := set 0 (Z.lor (Z.lor (Z.shiftl (se_sensorIndex e) 4) (Z.shiftl (se_test e) 2)) (se_action e)) m in
  let m := set 1 (Z.shiftr (Z.land (se_value e) 0xFF0) 4) m in
  let m := set 2 (Z.lor (Z.shiftl (Z.land (se_value e) 0x00F) 4) (Z.shiftr (Z.land (se_hysteresis e) 0xF00) 8)) m in
  let m := set 3 (Z.land (se_hysteresis e) 0x0FF) m in
  let m := set 4 (Z.lor (Z.shiftl (Z.land (se_sceneDeviceMode e) 0x03) 2) (Z.land (se_validity e) 0x03)) m in
  if se_action e =? 2 then set 5 (Z.lor (Z.shiftl (se_buttonNumber e) 4) (se_clickType e)) m else m.

Lemma wrap_wrap n z : 0 <= n -> wrapU n (wrapU n z) = wrapU n z.
Proof. intros Hn. apply Z.mod_mod. by apply Z.pow_nonzero. Qed.

Lemma setSensorEventTable_writes p d m row e : 0 <= row <= 7 -> writes p d m (setSensorEventTable p row e) (event_memory m row e).
Proof.
  intros Hr.
  assert (forall m k v, 0 <= k <= 5 -> writes p d m (setDeviceConfig p CfgClassSensorEvent (CfgFSensorEvent_TableSize * row + k) (wrapU 8 v))
    (store m CfgClassSensorEvent (6 * row + k) (wrapU 8 v))) as Hw.
  { intros m' k v Hk. pose proof (setDeviceConfig_writes p d m' CfgClassSensorEvent (CfgFSensorEvent_TableSize * row + k) (wrapU 8 v)) as H.
    rewrite wrap_wrap in H by lia. rewrite (wrapU_small 8 (_ + k)) in H by (unfold CfgFSensorEvent_TableSize; lia). exact H. }
  unfold setSensorEventTable, event_memory. do 5 (eapply writes_seq; [apply Hw; lia|]).
  destruct (se_action e =? 2); [apply Hw; lia|apply writes_ret].
Qed.

(** What is read back from an entry. *)
Definition event_read (m : Z -> Z -> Z) (row : Z) (name : string) (minimalDuration : Z) : DeviceSensorEventSpec_t :=
  let word k := Z.lor (m CfgClassSensorEvent (6 * row + k)) (Z.shiftl (m CfgClassSensorEvent (6 * row + k + 1)) 8) in
  mkSensorEvent name (Z.shiftr (Z.land (word 0) 0x00F0) 4) (Z.shiftr (Z.land (word 0) 0x000C) 2) (Z.land (word 0) 0x0003)
    (Z.lor (Z.shiftr (Z.land (word 0) 0xFF00) 4) (Z.shiftr (Z.land (word 2) 0x00F0) 4))
    (Z.lor (Z.shiftl (Z.land (word 2) 0x000F) 8) (Z.shiftr (Z.land (word 2) 0xFF00) 8))
    (Z.shiftr (Z.land (word 4) 0x000C) 2) (Z.land (word 4) 0x0003) (Z.shiftr (Z.land (word 4) 0xF000) 12)
    (Z.shiftr (Z.land (word 4) 0x0F00) 8) (Z.shiftr (Z.land (word 4) 0x7F00) 8) minimalDuration.

Lemma reads_word p d m c i : (forall c i, 0 <= m c i < 256) -> 0 <= c < 256 -> 0 <= i < 255 ->
  reads p d m (getDeviceConfigWord p c i) (Z.lor (m c i) (Z.shiftl (m c (i + 1)) 8)).
Proof.
  intros Hm Hc Hi. pose proof (getDeviceConfigWord_reads p d m c i) as H. rewrite (wrapU_small 8 c), (wrapU_small 8 i) in H by lia.
  rewrite (wrapU_small 8 (i + 1)) in H by lia. by rewrite word_lor in H.
Qed.

Lemma getSensorEventTable_reads p d m row name md : (forall c i, 0 <= m c i < 256) -> 0 <= row <= 7 ->
  reads p d m (getSensorEventTable p row name md) (event_read m row name md).
Proof.
  intros Hm Hr. unfold getSensorEventTable, CfgFSensorEvent_TableSize.
  do 3 (eapply reads_bind; [apply reads_word; [done|done|lia]|]). apply reads_ret.
Qed.

Lemma store_bytes m c i v : (forall c i, 0 <= m c i < 256) -> 0 <= v < 256 -> forall c' i', 0 <= store m c i v c' i' < 256.
Proof. intros Hm Hv c' i'. unfold store. by case_bool_decide. Qed.

Lemma event_memory_bytes m row e : (forall c i, 0 <= m c i < 256) -> forall c i, 0 <= event_memory m row e c i < 256.
Proof.
  intros Hm. unfold event_memory. destruct (se_action e =? 2); repeat (apply store_bytes; [|apply wrap8]); done.
Qed.

(** The bytes of an entry hold its fields. *)
Lemma event_bytes e : event_fits e ->
  let w0 := Z.lor (wrapU 8 (Z.lor (Z.lor (Z.shiftl (se_sensorIndex e) 4) (Z.shiftl (se_test e) 2)) (se_action e)))
              (Z.shiftl (wrapU 8 (Z.shiftr (Z.land (se_value e) 0xFF0) 4)) 8) in
  let w2 := Z.lor (wrapU 8 (Z.lor (Z.shiftl (Z.land (se_value e) 0x00F) 4) (Z.shiftr (Z.land (se_hysteresis e) 0xF00) 8)))
              (Z.shiftl (wrapU 8 (Z.land (se_hysteresis e) 0x0FF)) 8) in
  Z.shiftr (Z.land w0 0x00F0) 4 = se_sensorIndex e /\ Z.shiftr (Z.land w0 0x000C) 2 = se_test e /\
  Z.land w0 0x0003 = se_action e /\
  Z.lor (Z.shiftr (Z.land w0 0xFF00) 4) (Z.shiftr (Z.land w2 0x00F0) 4) = se_value e /\
  Z.lor (Z.shiftl (Z.land w2 0x000F) 8) (Z.shiftr (Z.land w2 0xFF00) 8) = se_hysteresis e.
Proof.
  intros (Hs & Ht & Ha & Hv & Hh & _). rewrite !wrapU_land by lia. change (Z.ones 8) with 255.
  generalize dependent (se_sensorIndex e). generalize dependent (se_test e). generalize dependent (se_action e).
  generalize dependent (se_value e). generalize dependent (se_hysteresis e). intros hy Hh v Hv a Ha t Ht s Hs.
  repeat split; bits_eq.
Qed.

Lemma event_byte4 a b c : 0 <= a < 4 -> 0 <= b < 4 -> 0 <= c < 256 ->
  let w4 := Z.lor (wrapU 8 (Z.lor (Z.shiftl (Z.land a 3) 2) (Z.land b 3))) (Z.shiftl c 8) in
  Z.shiftr (Z.land w4 0x000C) 2 = a /\ Z.land w4 0x0003 = b /\ Z.shiftr (Z.land w4 0xF000) 12 = Z.shiftr c 4 /\
  Z.shiftr (Z.land w4 0x0F00) 8 = Z.land c 15 /\ Z.shiftr (Z.land w4 0x7F00) 8 = Z.land c 127.
Proof. intros Ha Hb Hc. cbv zeta. rewrite !wrapU_land by lia. change (Z.ones 8) with 255. repeat split; bits_eq. Qed.

Lemma event_read_stored m row e name md : (forall c i, 0 <= m c i < 256) -> 0 <= row <= 7 -> event_fits e ->
  event_read (event_memory m row e) row name md =
  let c5 := event_cell5 m row e in
  mkSensorEvent name (se_sensorIndex e) (se_test e) (se_action e) (se_value e) (se_hysteresis e) (se_sceneDeviceMode e)
    (se_validity e) (Z.shiftr c5 4) (Z.land c5 15) (Z.land c5 127) md.
Proof.
  intros Hm Hr He. destruct (event_bytes e He) as (B1 & B2 & B3 & B4 & B5).
  assert (0 <= event_cell5 m row e < 256) as H5.
  { unfold event_cell5. destruct (se_action e =? 2); [apply wrap8|apply Hm]. }
  destruct He as (_ & _ & _ & _ & _ & Hd & Hv & _).
  destruct (event_byte4 (se_sceneDeviceMode e) (se_validity e) _ Hd Hv H5) as (D1 & D2 & D3 & D4 & D5). revert D1 D2 D3 D4 D5.
  unfold event_read, event_memory, event_cell5. destruct (se_action e =? 2); intros D1 D2 D3 D4 D5;
    repeat first [ rewrite store_same | rewrite store_other by (right; lia) ];
    replace (6 * row + 0 + 1) with (6 * row + 1) by lia; replace (6 * row + 2 + 1) with (6 * row + 3) by lia;
    replace (6 * row + 4 + 1) with (6 * row + 5) by lia;
    repeat first [ rewrite store_same | rewrite store_other by (right; lia) ];
    by rewrite B1, B2, B3, B4, B5, D1, D2, D3, D4, D5.
Qed.

Lemma event_read_other m row row' e name md : 0 <= row <= 7 -> 0 <= row' <= 7 -> row' <> row ->
  event_read (event_memory m row e) row' name md = event_read m row' name md.
Proof.
  intros Hr Hr' Hne.
  assert (forall k, 0 <= k <= 5 -> event_memory m row e CfgClassSensorEvent (6 * row' + k) = m CfgClassSensorEvent (6 * row' + k)) as H.
  { intros k Hk. unfold event_memory. destruct (se_action e =? 2); by rewrite !store_other by (right; lia). }
  unfold event_read.
  replace (6 * row' + 0 + 1) with (6 * row' + 1) by lia. replace (6 * row' + 2 + 1) with (6 * row' + 3) by lia.
  replace (6 * row' + 4 + 1) with (6 * row' + 5) by lia. by rewrite !H by lia.
Qed.

(** C19: the table of sensor events keeps what is written: an entry whose
    fields fit is written completely and read back field by field (the button
    fields from the cell that is only written for the action that uses them),
    and the other entries of the table are read as before. *)
Theorem sensor_event_roundtrip p d m h row e md :
  holds p d m h -> 0 <= row <= 7 -> event_fits e ->
  exists h', setSensorEventTable p row e h = (Ok tt, h') /\
    (let c5 := event_cell5 m row e in
     getSensorEventTable p row (se_name e) md h' =
     (Ok (mkSensorEvent (se_name e) (se_sensorIndex e) (se_test e) (se_action e) (se_value e) (se_hysteresis e)
            (se_sceneDeviceMode e) (se_validity e) (Z.shiftr c5 4) (Z.land c5 15) (Z.land c5 127) md), h')) /\
    forall row' name md', 0 <= row' <= 7 -> row' <> row ->
      exists x, getSensorEventTable p row' name md' h = (Ok x, h) /\ getSensorEventTable p row' name md' h' = (Ok x, h').
Proof.
  intros Hh Hr He. assert (forall c i, 0 <= m c i < 256) as Hm by (intros c i; destruct Hh as (_ & _ & _ & <-); apply cell_byte).
  destruct (setSensorEventTable_writes p d m row e Hr h Hh) as (h' & E & Hh'). exists h'. split; [done|].
  pose proof (event_memory_bytes m row e Hm) as Hm'. split.
  - cbv zeta. rewrite (getSensorEventTable_reads p d _ row _ md Hm' Hr h' Hh'). by rewrite event_read_stored.
  - intros row' name md' Hr' Hne. exists (event_read m row' name md'). split.
    + by apply (getSensorEventTable_reads p d m).
    + rewrite <- (event_read_other m row row' e) by done. by apply (getSensorEventTable_reads p d _).
Qed.
End SensorEvents.

(** ** Scene values *)

Section SceneValues.
Context {W : Type} {SW : StateWorld W} {AW : ApartmentWorld W} {DB : DeviceBus W} {DM : DeviceMemory W} {DS : Dsuid}.

(** What a device keeps of a value: eight bits, or twelve bits of which the
    lowest four repeat in the place of the missing ones. *)
Definition scene_kept (d : Device) (v : Z) : Z :=
  if hasExtendendSceneTable d then
    let n := Z.land (Z.shiftr v 4) 15 in Z.lor (Z.shiftl (Z.land (Z.shiftr v 8) 0xFF) 8) (Z.lor (Z.shiftl n 4) n)
  else wrapU 8 v.

Definition ext_nibble (scene e : Z) : Z := if Z.rem scene 2 =? 0 then Z.land e 15 else Z.shiftr e 4.

Definition ext_write (scene v e : Z) : Z :=
  if Z.rem scene 2 =? 0 then Z.lor (Z.land e 0xF0) (Z.land (Z.shiftr v 4) 0x0F) else Z.lor (Z.land e 0x0F) (Z.land v 0xF0).

Definition scene_memory (d : Device) (m : Z -> Z -> Z) (s v : Z) : Z -> Z -> Z :=
  if hasExtendendSceneTable d then
    store (store m CfgClassScene s (wrapU 8 (Z.land (Z.shiftr v 8) 0xFF))) CfgClassSceneExtention (Z.quot s 2)
      (wrapU 8 (ext_write s v (m CfgClassSceneExtention (Z.quot s 2))))
  else store m CfgClassScene s (wrapU 8 v).

Definition scene_read (d : Device) (m : Z -> Z -> Z) (s : Z) : Z :=
  if hasExtendendSceneTable d then
    let e := ext_nibble s (m CfgClassSceneExtention (Z.quot s 2)) in
    Z.lor (Z.shiftl (m CfgClassScene s) 8) (Z.lor (Z.shiftl e 4) e)
  else m CfgClassScene s.

Lemma half_range s : 0 <= s < 128 -> 0 <= Z.quot s 2 < 64.
Proof. intros Hs. rewrite Z.quot_div_nonneg by lia. split; [apply Z.div_pos; lia|apply Z.div_lt_upper_bound; lia]. Qed.

Lemma setSceneValue_writes p d m s v : 0 <= s < 128 -> writes p d m (setSceneValue p s v) (scene_memory d m s v).
Proof.
  intros Hs. pose proof (half_range s Hs) as Hh. unfold setSceneValue, scene_memory, ext_write.
  eapply writes_read; [apply reads_device|]. destruct (hasExtendendSceneTable d).
  - eapply writes_read; [apply getDeviceConfig_reads|]. rewrite (wrapU_small 8 (Z.quot s 2)) by lia.
    eapply writes_seq; [apply setDeviceConfig_writes|].
    match goal with |- writes _ _ ?m1 (setDeviceConfig _ ?c ?i ?x) _ => pose proof (setDeviceConfig_writes p d m1 c i x) as H end.
    rewrite (wrapU_small 8 s), (wrapU_small 8 (Z.quot s 2)) in * by lia. exact H.
  - pose proof (setDeviceConfig_writes p d m CfgClassScene s v) as H. by rewrite (wrapU_small 8 s) in H by lia.
Qed.

Lemma rem_cases s : 0 <= s -> Z.rem s 2 = 0 \/ Z.rem s 2 = 1.
Proof. intros Hs. pose proof (Z.rem_bound_pos s 2). lia. Qed.

Lemma getSceneValue_reads p d m s : (forall c i, 0 <= m c i < 256) -> 0 <= s < 128 ->
  reads p d m (getSceneValue p s) (scene_read d m s).
Proof.
  intros Hm Hs. pose proof (half_range s Hs) as Hh. unfold getSceneValue, scene_read, ext_nibble.
  eapply reads_bind; [apply getDeviceConfig_reads|]. eapply reads_bind; [apply reads_device|].
  rewrite (wrapU_small 8 s) by lia. destruct (hasExtendendSceneTable d); [|apply reads_ret].
  eapply reads_bind; [apply getDeviceConfig_reads|]. rewrite (wrapU_small 8 (Z.quot s 2)) by lia.
  change (wrapU 8 CfgClassSceneExtention) with CfgClassSceneExtention. change (wrapU 8 CfgClassScene) with CfgClassScene.
  pose proof (Hm CfgClassSceneExtention (Z.quot s 2)) as He.
  destruct (rem_cases s) as [-> | ->]; [lia| |]; cbn [Z.eqb Pos.eqb]; intros h _; unfold mret, se_ret; do 3 f_equal.
  - apply Z.lor_comm.
  - generalize dependent (m CfgClassSceneExtention (Z.quot s 2)). intros e He. bits_eq.
Qed.

Lemma ext_write_read s v e : 0 <= s -> 0 <= e < 256 -> ext_nibble s (wrapU 8 (ext_write s v e)) = Z.land (Z.shiftr v 4) 15.
Proof.
  intros Hs He. unfold ext_nibble, ext_write. rewrite wrapU_land by lia. change (Z.ones 8) with 255.
  destruct (rem_cases s Hs) as [-> | ->]; cbn [Z.eqb Pos.eqb]; bits_eq.
Qed.

Lemma ext_write_other s s' v e : 0 <= s -> 0 <= s' -> Z.rem s' 2 <> Z.rem s 2 -> 0 <= e < 256 ->
  ext_nibble s' (wrapU 8 (ext_write s v e)) = ext_nibble s' e.
Proof.
  intros Hs Hs' Hne He. unfold ext_nibble, ext_write. rewrite wrapU_land by lia. change (Z.ones 8) with 255.
  destruct (rem_cases s Hs) as [E | E], (rem_cases s' Hs') as [E' | E']; rewrite E, E' in *; try done; cbn [Z.eqb Pos.eqb]; bits_eq.
Qed.

Lemma scene_read_same d m s v : (forall c i, 0 <= m c i < 256) -> 0 <= s < 128 -> scene_read d (scene_memory d m s v) s = scene_kept d v.
Proof.
  intros Hm Hs. unfold scene_read, scene_memory, scene_kept. destruct (hasExtendendSceneTable d); [|by rewrite store_same].
  rewrite store_same, ext_write_read by (try apply Hm; lia). rewrite store_other, store_same by (left; done).
  rewrite wrapU_land by lia. change (Z.ones 8) with 255. by rewrite <- Z.land_assoc, Z.land_diag.
Qed.

Lemma scene_read_other d m s s' v : (forall c i, 0 <= m c i < 256) -> 0 <= s < 128 -> 0 <= s' < 128 -> s' <> s ->
  scene_read d (scene_memory d m s v) s' = scene_read d m s'.
Proof.
  intros Hm Hs Hs' Hne. unfold scene_read, scene_memory. destruct (hasExtendendSceneTable d); [|by rewrite store_other by (right; lia)].
  rewrite (store_other _ _ _ _ CfgClassScene) by (left; done). rewrite (store_other _ _ _ _ CfgClassScene) by (right; lia).
  destruct (decide (Z.quot s' 2 = Z.quot s 2)) as [E|E]; [|by rewrite !store_other by (first [right; done|left; done])].
  rewrite E, store_same.
  rewrite ext_write_other; [done|lia|lia| |apply Hm].
  pose proof (Z.quot_rem' s 2). pose proof (Z.quot_rem' s' 2). lia.
Qed.

(** C18: scenes do not disturb each other.  The value saved for a scene is read
    back up to the resolution of the device, and the values of all other
    scenes stay as they were, although shades keep the low halves of two
    scenes in one byte. *)
Theorem scene_values_apart p d m h s v :
  holds p d m h -> 0 <= s < 128 ->
  exists h', setSceneValue p s v h = (Ok tt, h') /\ getSceneValue p s h' = (Ok (scene_kept d v), h') /\
    forall s', 0 <= s' < 128 -> s' <> s -> exists x, getSceneValue p s' h = (Ok x, h) /\ getSceneValue p s' h' = (Ok x, h').
Proof.
  intros Hh Hs. assert (forall c i, 0 <= m c i < 256) as Hm by (intros c i; destruct Hh as (_ & _ & _ & <-); apply cell_byte).
  destruct (setSceneValue_writes p d m s v Hs h Hh) as (h' & E & Hh'). exists h'. split; [done|].
  assert (forall c i, 0 <= scene_memory d m s v c i < 256) as Hm'.
  { unfold scene_memory. destruct (hasExtendendSceneTable d); repeat (apply store_bytes; [|apply wrap8]); done. }
  split.
  - rewrite <- (scene_read_same d m s v) by done. by apply getSceneValue_reads with (d := d).
  - intros s' Hs' Hne. exists (scene_read d m s'). split; [by apply getSceneValue_reads with (d := d)|].
    rewrite <- (scene_read_other d m s s' v) by done. by apply getSceneValue_reads with (d := d).
Qed.
End SceneValues.
