(* ===== verification/ExampleBus.v ===== *)
(** The example world with a bus: the devices of an apartment, whose memory is a
    function from devices, classes and cells to bytes. *)
From stdpp Require Import base option list strings gmap.
From Stdlib Require Import ZArith Lia Ascii PrimFloat.
From Stdlib Require String.
From S2P Require Import Prelude CxxString Base NumConv FloatConv Ds485types ModelConst DataTypes Calendar DateTools.
From S2P Require Import PropertyTree State SceneAccess ApartmentModel DeviceInfo DeviceSet ApartmentWorld DeviceConfig ExampleWorld DeviceConfigFacts.

Open Scope string_scope.
Open Scope list_scope.
Open Scope Z_scope.

Definition cells : Type := dsuid_t -> Z -> Z -> Z.
Definition BusWorld : Type := StateStore * Apartment * bool * cells.

#[export] Instance bus_states : StateWorld BusWorld.
Proof. by refine {| get_st := fun w => w.1.1.1; put_st := fun x w => (x, w.1.1.2, w.1.2, w.2) |}. Defined.
#[export] Instance bus_apartment : ApartmentWorld BusWorld.
Proof. by refine {| get_apt := fun w => w.1.1.2; put_apt := fun a w => (w.1.1.1, a, w.1.2, w.2) |}. Defined.

Definition the_cell (w : BusWorld) (e : dsuid_t) (c i : Z) : Z := wrapU 8 (w.2 e c i).
Definition put_cell (w : BusWorld) (e : dsuid_t) (c i v : Z) : BusWorld :=
  (w.1, fun e' c' i' => if bool_decide (e' = e /\ c' = c /\ i' = i) then v else w.2 e' c' i').
Definition no_bus {A} : res A := Throw (DSSException "no bus").

(** Every device answers; the values for outputs and button groups get lost. *)
#[export] Instance example_bus : DeviceBus BusWorld := {|
  bus_present w := w.1.2;
  bus_setDeviceConfig d c i v w := if w.1.2 then (Ok tt, put_cell w (d_DSID d) c i v) else (no_bus, w);
  bus_getDeviceConfig d c i w := (if w.1.2 then Ok (the_cell w (d_DSID d) c i) else no_bus, w);
  bus_getDeviceConfigWord d c i w :=
    (if w.1.2 then Ok (the_cell w (d_DSID d) c i + 256 * the_cell w (d_DSID d) c (wrapU 8 (i + 1))) else no_bus, w);
  bus_setValue _ _ w := (Ok tt, w);
  bus_setDeviceButtonActiveGroup _ _ w := (Ok tt, w);
  bus_getSceneConfig d s w := (if w.1.2 then Ok (the_cell w (d_DSID d) CfgClassScene s) else no_bus, w);
  bus_setSceneConfig d s v w := if w.1.2 then (Ok tt, put_cell w (d_DSID d) CfgClassScene s v) else (no_bus, w)
|}.

#[export] Instance example_memory : DeviceMemory BusWorld.
Proof.
  refine {| cell := the_cell |}; try done.
  - intros w d c i. apply wrap8.
  - intros w d c i Hb. unfold bus_getDeviceConfig, example_bus. by change (w.1.2) with (bus_present w); rewrite Hb.
  - intros w d c i Hb. unfold bus_getDeviceConfigWord, example_bus. by change (w.1.2) with (bus_present w); rewrite Hb.
  - intros w d c i v Hb Hv. exists (put_cell w (d_DSID d) c i v). unfold bus_setDeviceConfig, example_bus.
    change (w.1.2) with (bus_present w). rewrite Hb. split; [done|]. split; [done|]. split; [done|]. intros e c' i'.
    unfold the_cell, put_cell. cbn. case_bool_decide; [by apply Z.mod_small|done].
Defined.

(** A shade (function 0x2131), and a memory that is full of 0xA5. *)
Definition example_device : Device :=
  mkDevice [1; 2; 3] "shade" 7 1 1 [9] [9] 0x2131 0x0CC8 1 0x0350 [2] present_item false 0 0 0 (mkDateTime 0 0) [] [] None None None no_info.
Definition example_maintenance : ModelMaintenance := mkModelMaintenance false false [].
Definition device_apartment (d : Device) : Apartment :=
  mkApartment {[ 0%nat := d ]} ∅ ∅ ∅ [0%nat] [] [] [] None None (Some example_maintenance) ∅.
Definition bus_heap (d : Device) : heap BusWorld :=
  empty_heap (mkStateStore ∅ ∅ true true "/save", device_apartment d, true, fun _ _ _ => 0xA5).

Lemma bus_heap_holds d : holds 0%nat d (fun _ _ => 0xA5) (bus_heap d).
Proof. by repeat split. Qed.
