(* ===== verification/DeviceRecords.v ===== *)
(** The records of a device's configuration: scene modes, lamps, valves, offsets
    and times are read back as they were written. *)
From stdpp Require Import base option list strings gmap.
From Stdlib Require Import ZArith Lia Ascii PrimFloat Btauto.
From Stdlib Require String.
From S2P Require Import Prelude CxxString Base NumConv FloatConv Ds485types ModelConst DataTypes Calendar DateTools.
From S2P Require Import PropertyTree State SceneAccess ApartmentModel DeviceInfo DeviceSet ApartmentWorld DeviceConfig DeviceConfigFacts ExampleWorld ExampleBus.

Import DeviceType DeviceClass.

Open Scope string_scope.
Open Scope list_scope.
Open Scope Z_scope.

(** ** Records *)

Section Records.
Context {W : Type} {SW : StateWorld W} {AW : ApartmentWorld W} {DB : DeviceBus W} {DM : DeviceMemory W} {DS : Dsuid}.
Local Notation "'M' A" := (SE (heap W) A) (at level 10, A at next level).
Context (p : dptr) (d : Device).

Definition bytes (m : Z -> Z -> Z) : Prop := forall c i, 0 <= m c i < 256.

(** What [w] writes, [r] reads back as [x]. *)
Definition keeps {A} (w : M unit) (r : M A) (x : A) : Prop := forall m h, holds p d m h ->
  exists h', w h = (Ok tt, h') /\ r h' = (Ok x, h').

Lemma holds_bytes m (h : heap W) : holds p d m h -> bytes m.
Proof. intros (_ & _ & _ & Hc) c i. rewrite <- Hc. apply cell_byte. Qed.

Lemma keeps_intro {A} (w : M unit) (r : M A) (x : A) (f : (Z -> Z -> Z) -> Z -> Z -> Z) :
  (forall m, writes p d m w (f m)) -> (forall m, bytes (f m) -> reads p d (f m) r x) -> keeps w r x.
Proof. intros Hw Hr m h Hh. destruct (Hw m h Hh) as (h' & E & Hh'). exists h'. split; [done|]. apply (Hr m); [by eapply holds_bytes|done]. Qed.

Lemma write_byte m c i v : 0 <= c < 256 -> 0 <= i < 256 -> 0 <= v < 256 ->
  writes p d m (setDeviceConfig p c i v) (store m c i v).
Proof. intros Hc Hi Hv. pose proof (setDeviceConfig_writes p d m c i v) as H. by rewrite !wrapU_small in H by done. Qed.
Lemma write_word m c i v : 0 <= c < 256 -> 0 <= i < 255 -> 0 <= v < 65536 ->
  writes p d m (setDeviceConfig16 p c i v) (store (store m c i (wrapU 8 v)) c (i + 1) (wrapU 8 (Z.shiftr v 8))).
Proof.
  intros Hc Hi Hv. pose proof (setDeviceConfig16_writes p d m c i v) as H.
  rewrite (wrapU_small 8 c), (wrapU_small 8 i), (wrapU_small 8 (i + 1)) in H by lia. exact H.
Qed.
Lemma read_byte m c i : 0 <= c < 256 -> 0 <= i < 256 -> reads p d m (getDeviceConfig p c i) (m c i).
Proof. intros Hc Hi. pose proof (getDeviceConfig_reads p d m c i) as H. by rewrite !wrapU_small in H by done. Qed.

Lemma word_of_halves v : 0 <= v < 65536 -> Z.lor (wrapU 8 v) (Z.shiftl (wrapU 8 (Z.shiftr v 8)) 8) = v.
Proof.
  intros Hv. rewrite <- word_lor by apply wrap8. unfold wrapU. rewrite Z.shiftr_div_pow2 by done. change (2 ^ 8) with 256.
  rewrite (Z.mod_small (v / 256)) by (split; [apply Z.div_pos; lia|apply Z.div_lt_upper_bound; lia]).
  pose proof (Z.div_mod v 256). lia.
Qed.

(** The two bytes of a word. *)
Lemma halves a b : 0 <= a < 256 -> 0 <= b < 256 ->
  Z.land (Z.lor a (Z.shiftl b 8)) 0xff = a /\ Z.land (Z.shiftr (Z.lor a (Z.shiftl b 8)) 8) 0xff = b.
Proof. intros Ha Hb. split; bits_eq. Qed.

Ltac consts := cbv [CfgClassDevice CfgClassFunction CfgClassSensorEvent CfgClassRuntime CfgClassScene CfgFunction_DimTime0
  CfgFunction_LedConfig0 CfgFunction_LTTimeoutOff CfgFunction_LTTimeoutOn CfgFunction_Valve_EmergencyValue
  CfgFunction_Valve_EmergencyTimer CfgFunction_Valve_PwmPeriod CfgFunction_Shade_PosTimeMax CfgFunction_Valve_PwmMinX
  CfgFunction_Valve_PwmMaxX CfgFunction_Valve_PwmMinY CfgFunction_Valve_PwmMaxY CfgFunction_Valve_PwmConfig
  CfgFunction_Valve_PwmOffset CfgFunction_Valve_ProtectionTimer CfgFunction_SK_TempOffsetExt] in *.
Ltac range := consts; lia.
Ltac stored := repeat first [ rewrite store_same | rewrite store_other by (first [ left; consts; lia | right; consts; lia ]) ].
Ltac write_next := first [ eapply writes_seq; [first [apply write_byte | apply write_word]; range|]
  | first [apply write_byte | apply write_word]; range ].
Ltac read_next := eapply reads_bind; [first [apply read_byte; range | apply reads_word; [done|range|range]]|].

Lemma scene_mode_keeps s c : 0 <= s < 128 -> 0 <= ledconIndex c < 4 -> 0 <= dimtimeIndex c < 4 ->
  keeps (setDeviceSceneModeStandard p s c) (getDeviceSceneModeStandard p s) c.
Proof.
  intros Hs Hl Hd. eapply keeps_intro.
  - intros m. apply write_byte; [range|lia|apply wrap8].
  - intros m Hm. eapply reads_bind; [apply read_byte; range|]. stored.
    assert (scene_of_mode (wrapU 8 (scene_mode c)) = c) as ->; [|apply reads_ret].
    assert (In (ledconIndex c) (zrange 0 4)) as Hl' by (apply zrange_In; lia). assert (In (dimtimeIndex c) (zrange 0 4)) as Hd' by (apply zrange_In; lia).
    destruct c as [[] [] [] [] l t]; cbn in Hl', Hd'; repeat (destruct Hl' as [<-|Hl']; [repeat (destruct Hd' as [<-|Hd']; [done|]); done|]); done.
Qed.

Lemma led_mode_keeps i c : 0 <= i <= 2 -> 0 <= colorSelect c < 8 -> 0 <= modeSelect c < 4 ->
  keeps (setDeviceLedMode p i c) (getDeviceLedMode p i) c.
Proof.
  intros Hi Hl Hd. unfold setDeviceLedMode, getDeviceLedMode. destruct (Z.gtb_spec i 2); [lia|]. eapply keeps_intro.
  - intros m. apply write_byte; [range|range|apply wrap8].
  - intros m Hm. read_next. stored.
    assert (led_of_mode (wrapU 8 (led_mode c)) = c) as ->; [|apply reads_ret].
    assert (In (colorSelect c) (zrange 0 8)) as Hl' by (apply zrange_In; lia). assert (In (modeSelect c) (zrange 0 4)) as Hd' by (apply zrange_In; lia).
    destruct c as [l t [] [] []]; cbn in Hl', Hd'; repeat (destruct Hl' as [<-|Hl']; [repeat (destruct Hd' as [<-|Hd']; [done|]); done|]); done.
Qed.

Lemma writes_climate m w m' : isValveDevice d = true -> writes p d m w m' -> writes p d m (climate p w) m'.
Proof. intros Hd Hw. eapply writes_read; [apply reads_device|]. by rewrite Hd. Qed.
Lemma reads_climate {A} m (r : M A) x : isValveDevice d = true -> reads p d m r x -> reads p d m (climate p r) x.
Proof. intros Hd Hr. eapply reads_bind; [apply reads_device|]. by rewrite Hd. Qed.

Lemma valve_timer_keeps c : isValveDevice d = true -> 0 <= protectionTimer c < 65536 -> 0 <= emergencyTimer c < 65536 ->
  0 <= emergencyControlValue c < 256 -> keeps (setDeviceValveTimer p c) (getDeviceValveTimer p) c.
Proof.
  intros Hd Hp Ht He. eapply keeps_intro.
  - intros m. apply writes_climate; [done|]. repeat write_next.
  - intros m Hm. apply reads_climate; [done|]. repeat read_next. stored. cbn [Z.add]. stored.
    rewrite !word_of_halves by done. destruct c. apply reads_ret.
Qed.

Lemma valve_pwm_keeps c : isValveDevice d = true -> 0 <= pwmPeriod c < 65536 -> 0 <= pwmMinX c < 256 -> 0 <= pwmMaxX c < 256 ->
  0 <= pwmMinY c < 256 -> 0 <= pwmMaxY c < 256 -> -128 <= pwmOffset c < 128 ->
  keeps (setDeviceValvePwm p c) (getDeviceValvePwm p) c.
Proof.
  intros Hd Hp H1 H2 H3 H4 Ho. pose proof (wrap8 (pwmOffset c)) as H5. eapply keeps_intro.
  - intros m. apply writes_climate; [done|]. repeat write_next.
  - intros m Hm. apply reads_climate; [done|]. repeat read_next.
    change (CfgFunction_Valve_PwmMinX + 1) with CfgFunction_Valve_PwmMaxX. change (CfgFunction_Valve_PwmMinY + 1) with CfgFunction_Valve_PwmMaxY.
    stored. rewrite word_of_halves by done. destruct (halves _ _ H1 H2) as [-> ->]. destruct (halves _ _ H3 H4) as [-> ->].
    assert (wrapS 8 (wrapU 8 (pwmOffset c)) = pwmOffset c) as ->; [|destruct c; apply reads_ret].
    unfold wrapS, wrapU. change (2 ^ (8 - 1)) with 128. change (2 ^ 8) with 256. rewrite Zplus_mod_idemp_l, Z.mod_small by lia. lia.
Qed.

#[local] Instance control_eq_dec : EqDecision DeviceValveControlSpec_t.
Proof. solve_decision. Defined.

(** The flags are kept, and of the other bits the upper four. *)
Lemma valve_control_keeps c : isValveDevice d = true -> 0 <= ctrlRawValue c < 256 ->
  keeps (setDeviceValveControl p c) (getDeviceValveControl p)
    (mkValveControl (ctrlClipMinZero c) (ctrlClipMinLower c) (ctrlClipMaxHigher c) (ctrlNONC c)
       (Z.lor (Z.land (ctrlRawValue c) 0xf0)
          (Z.b2z (ctrlClipMinZero c) + 2 * Z.b2z (ctrlClipMinLower c) + 4 * Z.b2z (ctrlClipMaxHigher c) + 8 * Z.b2z (ctrlNONC c)))).
Proof.
  intros Hd Hr. eapply keeps_intro.
  - intros m. apply writes_climate; [done|]. pose proof (setDeviceConfig_writes p d m CfgClassFunction CfgFunction_Valve_PwmConfig (valve_control c)) as H. exact H.
  - intros m Hm. apply reads_climate; [done|]. eapply reads_bind; [apply getDeviceConfig_reads|]. rewrite store_same.
    match goal with |- reads _ _ _ (mret ?x) ?y => assert (x = y) as ->; [|apply reads_ret] end.
    destruct c as [a b e f r]. cbn [ctrlRawValue ctrlClipMinZero ctrlClipMinLower ctrlClipMaxHigher ctrlNONC] in *.
    apply (zrange_forall (fun r => bool_decide (control_of_value (wrapU 8 (valve_control (mkValveControl a b e f r))) =
      mkValveControl a b e f (Z.lor (Z.land r 0xf0) (Z.b2z a + 2 * Z.b2z b + 4 * Z.b2z e + 8 * Z.b2z f)))) 0 256) in Hr.
    + by apply bool_decide_eq_true in Hr.
    + by destruct a, b, e, f; vm_compute.
Qed.

Lemma temperature_offset_keeps v : getDeviceType d = DEVICE_TYPE_SK -> -128 <= v < 128 ->
  keeps (setTemperatureOffset p v) (getTemperatureOffset p) v.
Proof.
  intros Ht Hv. eapply keeps_intro.
  - intros m. eapply writes_read; [apply reads_device|]. rewrite Ht. cbn. apply setDeviceConfig_writes.
  - intros m Hm. eapply reads_bind; [apply reads_device|]. rewrite Ht. cbn [Z.eqb negb DEVICE_TYPE_SK Pos.eqb].
    eapply reads_bind; [apply getDeviceConfig_reads|]. rewrite store_same.
    assert (wrapS 8 (wrapU 8 v) = v) as ->; [|apply reads_ret].
    unfold wrapS, wrapU. change (2 ^ (8 - 1)) with 128. change (2 ^ 8) with 256. rewrite Zplus_mod_idemp_l, Z.mod_small by lia. lia.
Qed.

Lemma max_motion_keeps s : posTimeMax (getDeviceFeatures d) = true -> 0 <= s <= 655 ->
  keeps (setDeviceMaxMotionTime p s) (getDeviceMaxMotionTime p) s.
Proof.
  intros Hf Hs. eapply keeps_intro.
  - intros m. eapply writes_read; [apply reads_device|]. rewrite Hf. cbn [negb]. destruct (Z.gtb_spec (s * 100) 65535); [lia|]. write_next.
  - intros m Hm. eapply reads_bind; [apply reads_device|]. rewrite Hf. cbn [negb]. read_next. stored.
    rewrite word_of_halves, Z.quot_mul by lia. apply reads_ret.
Qed.

(** C33: the configuration of a device is read back as it was written: modes of
    scenes and lamps, timers, limits and flags of valves, the offset of a room
    sensor and the running time of a shade, each with all fields, over their
    whole ranges and from any contents of the memory; but the raw byte of a
    valve's control keeps only its high half, as the code replaces the low half
    by the four flags. *)
Theorem config_roundtrips :
  (forall s c, 0 <= s < 128 -> 0 <= ledconIndex c < 4 -> 0 <= dimtimeIndex c < 4 ->
     keeps (setDeviceSceneModeStandard p s c) (getDeviceSceneModeStandard p s) c) /\
  (forall i c, 0 <= i <= 2 -> 0 <= colorSelect c < 8 -> 0 <= modeSelect c < 4 ->
     keeps (setDeviceLedMode p i c) (getDeviceLedMode p i) c) /\
  (isValveDevice d = true ->
     (forall c, 0 <= protectionTimer c < 65536 -> 0 <= emergencyTimer c < 65536 -> 0 <= emergencyControlValue c < 256 ->
        keeps (setDeviceValveTimer p c) (getDeviceValveTimer p) c) /\
     (forall c, 0 <= pwmPeriod c < 65536 -> 0 <= pwmMinX c < 256 -> 0 <= pwmMaxX c < 256 -> 0 <= pwmMinY c < 256 ->
        0 <= pwmMaxY c < 256 -> -128 <= pwmOffset c < 128 -> keeps (setDeviceValvePwm p c) (getDeviceValvePwm p) c) /\
     (forall c, 0 <= ctrlRawValue c < 256 ->
        keeps (setDeviceValveControl p c) (getDeviceValveControl p)
          (mkValveControl (ctrlClipMinZero c) (ctrlClipMinLower c) (ctrlClipMaxHigher c) (ctrlNONC c)
             (Z.lor (Z.land (ctrlRawValue c) 0xf0)
                (Z.b2z (ctrlClipMinZero c) + 2 * Z.b2z (ctrlClipMinLower c) + 4 * Z.b2z (ctrlClipMaxHigher c)
                 + 8 * Z.b2z (ctrlNONC c)))))) /\
  (getDeviceType d = DEVICE_TYPE_SK -> forall v, -128 <= v < 128 -> keeps (setTemperatureOffset p v) (getTemperatureOffset p) v) /\
  (posTimeMax (getDeviceFeatures d) = true -> forall s, 0 <= s <= 655 ->
     keeps (setDeviceMaxMotionTime p s) (getDeviceMaxMotionTime p) s).
Proof.
  split; [exact scene_mode_keeps|]. split; [exact led_mode_keeps|].
  split; [intros Hd; split; [|split]|split]; intros.
  - by apply valve_timer_keeps.
  - by apply valve_pwm_keeps.
  - by apply valve_control_keeps.
  - by apply temperature_offset_keeps.
  - by apply max_motion_keeps.
Qed.
End Records.

(** ** Transition times *)

(** [v] is a byte whose time is as near to [t] as that of any byte. *)
Definition nearest (t v : Z) : Prop :=
  0 <= v < 256 /\ forall v', 0 <= v' < 256 -> Z.abs (transitionVal2Time v - t) <= Z.abs (transitionVal2Time v' - t).

Lemma transition_step v : 0 <= v < 255 -> transitionVal2Time v < transitionVal2Time (v + 1).
Proof.
  intros Hv. apply (zrange_forall (fun v => transitionVal2Time v <? transitionVal2Time (v + 1)) 0 255) in Hv; [by apply Z.ltb_lt|by_compute].
Qed.

Lemma transition_mono a b : 0 <= a <= b -> b <= 255 -> transitionVal2Time a <= transitionVal2Time b.
Proof.
  intros Hab Hb. assert (forall n : nat, a + Z.of_nat n <= 255 -> transitionVal2Time a <= transitionVal2Time (a + Z.of_nat n)) as H.
  { induction n as [|n IH]; intros Hn; [by rewrite Z.add_0_r|]. specialize (IH ltac:(lia)).
    pose proof (transition_step (a + Z.of_nat n) ltac:(lia)). replace (a + Z.of_nat (S n)) with (a + Z.of_nat n + 1) by lia. lia. }
  specialize (H (Z.to_nat (b - a)) ltac:(lia)). by replace (a + Z.of_nat (Z.to_nat (b - a))) with b in H by lia.
Qed.

Lemma transition_loop_S fuel t val tl th : transition_loop (S fuel) t val tl th =
  if (val <? 255) && (th <? t) then transition_loop fuel t (val + 1) th (transitionVal2Time (val + 1)) else (val, tl, th).
Proof. reflexivity. Qed.

(** The loop stops at the first byte whose time is long enough. *)
Lemma transition_loop_spec t fuel val : 1 <= val <= 255 -> 255 - val < Z.of_nat fuel ->
  (1 < val -> transitionVal2Time (val - 1) < t) ->
  exists k, transition_loop fuel t val (if val =? 1 then 0 else transitionVal2Time (val - 1)) (transitionVal2Time val) =
      (k, (if k =? 1 then 0 else transitionVal2Time (k - 1)), transitionVal2Time k) /\
    1 <= k <= 255 /\ (1 < k -> transitionVal2Time (k - 1) < t) /\ (t <= transitionVal2Time k \/ k = 255).
Proof.
  revert val. induction fuel as [|fuel IH]; intros val Hv Hf Hl; [lia|]. rewrite transition_loop_S.
  destruct (Z.ltb_spec val 255), (Z.ltb_spec (transitionVal2Time val) t); cbn [andb]; try (exists val; split; [done|lia]).
  destruct (IH (val + 1)) as (k & E & Hk); [lia|lia|intros _; by rewrite Z.add_simpl_r|].
  exists k. rewrite <- E. replace (val + 1 =? 1) with false by (symmetry; apply Z.eqb_neq; lia). by rewrite Z.add_simpl_r.
Qed.

Lemma transition_eval_cases t : 0 < t -> exists k, 1 <= k <= 255 /\ (1 < k -> transitionVal2Time (k - 1) < t) /\
  (t <= transitionVal2Time k \/ k = 255) /\
  transitionTimeEval t =
    if transitionVal2Time k - t >? t - (if k =? 1 then 0 else transitionVal2Time (k - 1)) then k - 1 else k.
Proof.
  intros Ht. unfold transitionTimeEval. change 256%nat with (S 255). rewrite transition_loop_S.
  destruct (Z.ltb_spec 0 t); [|lia]. change (0 <? 255) with true. change (0 + 1) with 1. cbn [andb].
  destruct (transition_loop_spec t 255 1) as (k & E & Hk1 & Hk2 & Hk3); [lia|lia|lia|]. cbn [Z.eqb Pos.eqb] in E. rewrite E.
  exists k. repeat (split; [done||lia|]). destruct (_ >? _); [|done]. apply Z.mod_small. change (2 ^ 8) with 256. lia.
Qed.

(** A transition time is coded by the byte whose time is nearest to it, up
    to the longest one, for all times from 57 ms; shorter ones get one of the
    first two bytes, and a negative time the longest of all. *)
Theorem transition_time_nearest t :
  (t < 0 -> transitionTimeEval t = 255) /\
  (0 <= t < 57 -> transitionTimeEval t = if t <? 29 then 0 else 1) /\
  (57 <= t -> nearest t (transitionTimeEval t)).
Proof.
  split; [|split].
  - intros Ht. unfold transitionTimeEval. change 256%nat with (S 255). rewrite transition_loop_S.
    destruct (Z.ltb_spec 0 t); [lia|]. rewrite andb_false_r. destruct (Z.gtb_spec (0 - t) (t - 0)); [done|lia].
  - intros Ht. apply (zrange_forall (fun t => transitionTimeEval t =? if t <? 29 then 0 else 1) 0 57) in Ht; [by apply Z.eqb_eq|by_compute].
  - intros Ht. destruct (transition_eval_cases t) as (k & Hk & Hlow & Hhigh & ->); [lia|].
    assert (transitionVal2Time 0 = 55) as H0 by done. assert (transitionVal2Time 1 = 58) as H1 by done.
    assert (forall v, k <= v < 256 -> transitionVal2Time k <= transitionVal2Time v) as Hup by (intros v Hv; apply transition_mono; lia).
    assert (forall v, 0 <= v <= k - 1 -> transitionVal2Time v <= transitionVal2Time (k - 1)) as Hdn by (intros v Hv; apply transition_mono; lia).
    destruct (Z.eqb_spec k 1) as [-> | Hk1].
    + destruct (Z.gtb_spec (transitionVal2Time 1 - t) (t - 0)); [lia|]. split; [lia|]. intros v Hv.
      destruct (decide (v = 0)) as [-> | Hv0]; [lia|]. specialize (Hup v). lia.
    + specialize (Hlow ltac:(lia)). pose proof (transition_mono (k - 1) k ltac:(lia) ltac:(lia)) as Hkk.
      destruct (Z.gtb_spec (transitionVal2Time k - t) (t - transitionVal2Time (k - 1))); split; try lia;
        intros v Hv; (destruct (decide (v <= k - 1)); [specialize (Hdn v); lia|specialize (Hup v)]);
        destruct (decide (v = k)) as [-> | Hvk]; lia.
Qed.

(** ** Examples on a concrete bus *)

Definition example_event : DeviceSensorEventSpec_t := mkSensorEvent "cold" 4 1 2 0xABC 0x123 3 1 5 6 0 0.

Lemma sensor_event_roundtrip_witness : holds 0%nat example_device (fun _ _ => 0xA5) (bus_heap example_device) /\
  exists h', setSensorEventTable 0%nat 3 example_event (bus_heap example_device) = (Ok tt, h') /\
    getSensorEventTable 0%nat 3 "cold" 30 h' = (Ok (mkSensorEvent "cold" 4 1 2 0xABC 0x123 3 1 5 6 0x56 30), h') /\
    forall row' name md', 0 <= row' <= 7 -> row' <> 3 -> exists x,
      getSensorEventTable 0%nat row' name md' (bus_heap example_device) = (Ok x, bus_heap example_device) /\
      getSensorEventTable 0%nat row' name md' h' = (Ok x, h').
Proof.
  split; [apply bus_heap_holds|].
  apply (sensor_event_roundtrip 0%nat example_device _ _ 3 example_event 30 (bus_heap_holds example_device));
    [lia|unfold event_fits; cbn; lia].
Defined.

(** Scenes 4 and 5 of a shade share a byte. *)
Lemma scene_values_apart_witness : hasExtendendSceneTable example_device = true /\
  exists h', setSceneValue 0%nat 4 0xBEEF (bus_heap example_device) = (Ok tt, h') /\
    getSceneValue 0%nat 4 h' = (Ok 0xBEEE, h') /\
    exists x, getSceneValue 0%nat 5 (bus_heap example_device) = (Ok x, bus_heap example_device) /\
      getSceneValue 0%nat 5 h' = (Ok x, h').
Proof.
  split; [done|].
  destruct (scene_values_apart 0%nat example_device _ _ 4 0xBEEF (bus_heap_holds example_device) ltac:(lia)) as (h' & E & Er & Ho).
  exists h'. split; [exact E|]. split; [exact Er|]. apply Ho; lia.
Defined.

Definition example_valve : Device :=
  mkDevice [4; 5; 6] "valve" 8 1 1 [9] [9] 0x3111 0x04C8 1 0x0350 [3] present_item false 0 0 0 (mkDateTime 0 0) [] [] None None None no_info.
Definition example_pwm : DeviceValvePwmSpec_t := mkValvePwm 900 10 90 5 250 (-20).

Lemma config_roundtrips_witness : isValveDevice example_valve = true /\
  exists h', setDeviceValvePwm 0%nat example_pwm (bus_heap example_valve) = (Ok tt, h') /\
    getDeviceValvePwm 0%nat h' = (Ok example_pwm, h').
Proof.
  split; [done|]. destruct (config_roundtrips 0%nat example_valve) as (_ & _ & Hv & _).
  destruct (Hv eq_refl) as (_ & Hp & _). apply (Hp example_pwm) with (m := fun _ _ => 0xA5); cbn; try lia. apply bus_heap_holds.
Defined.

(** One minute: the nearest times are 57600 and 60800 ms. *)
Lemma transition_time_nearest_witness : 57 <= 60000 /\ nearest 60000 (transitionTimeEval 60000).
Proof. split; [lia|]. apply (transition_time_nearest 60000). lia. Defined.
