(* ===== verification/Status.v ===== *)
(** [src/src/model/status-field.cpp], [status.cpp] and the binary inputs of
    [device.cpp]: a group's status is a set of bits, each the disjunction of the
    states of binary inputs, kept in a persistent state, and pushed as a sensor
    value when it changes and periodically. *)
From stdpp Require Import base option list strings gmap.
From Stdlib Require Import ZArith Lia Ascii PrimFloat.
From Stdlib Require String.
From S2P Require Import Prelude CxxString Base NumConv FloatConv Ds485types ModelConst DataTypes Calendar DateTools Event.
From S2P Require Import PropertyTree EventQueue State SceneAccess ApartmentModel ApartmentWorld.

Open Scope string_scope.
Open Scope list_scope.
Open Scope Z_scope.

(** ** Fields of a status *)

Definition getField (t : Status) (type : StatusFieldType.t) : res StatusField :=
  match type with
  | StatusFieldType.MALFUNCTION => Ok (t_malfunctionField t)
  | StatusFieldType.SERVICE => Ok (t_serviceField t)
  | StatusFieldType.Other _ => Throw (RuntimeError "Unknow status field type.")
  end.
Definition put_field (type : StatusFieldType.t) (f : StatusField) (t : Status) : Status :=
  match type with
  | StatusFieldType.MALFUNCTION => mkStatus f (t_serviceField t) (t_expiry t)
  | StatusFieldType.SERVICE => mkStatus (t_malfunctionField t) f (t_expiry t)
  | StatusFieldType.Other _ => t
  end.

(** [State::getState<StatusFieldValue>().value_or(INACTIVE)]: 0 is reserved. *)
Definition field_value (x : Z) : StatusFieldValue.t :=
  if x =? 0 then StatusFieldValue.INACTIVE else StatusFieldValue.of_Z (x - 1).

(** The composed value: active if one of the inputs is. *)
Definition composed (l : list SubStateItem) : StatusFieldValue.t :=
  foldl (fun value x => if i_value x =? State_Active then StatusFieldValue.ACTIVE else value) StatusFieldValue.INACTIVE l.

Definition find_item (s : sid) (l : list SubStateItem) : option SubStateItem :=
  List.find (fun x => Nat.eqb (i_ptr x) s) l.
(** The first item of the state is changed, or erased. *)
Fixpoint set_item (s : sid) (v : Z) (l : list SubStateItem) : list SubStateItem :=
  match l with
  | [] => []
  | x :: l => if Nat.eqb (i_ptr x) s then mkSubState (i_ptr x) (i_name x) v :: l else x :: set_item s v l
  end.
Fixpoint erase_item (s : sid) (l : list SubStateItem) : list SubStateItem :=
  match l with
  | [] => []
  | x :: l => if Nat.eqb (i_ptr x) s then l else x :: erase_item s l
  end.

Definition SENSOR_VALUE_BIT_MAX : Z := 11.
(** [boost::chrono::minutes(90)], in seconds *)
Definition PUSH_PERIOD : Z := 90 * 60.

(** [makeName] *)
Definition makeName (g : Group) (type : StatusFieldType.t) : res string :=
  match statusFieldTypeName type with
  | Some typeName =>
    Ok ("zone." +:+ intToString (g_ZoneID g) false +:+ ".group." +:+ intToString (g_GroupID g) false +:+ ".status." +:+ typeName)
  | None => Throw (RuntimeError "Unknow status field type.")
  end.

Section Status.
Context {ical W : Type} {Sched : Schedule ical} {EW : EventWorld ical W} {SW : StateWorld W} {AW : ApartmentWorld W}.
Context {LC : Libc} {SD : Strtod} {DU : Dsuid}.
Context (new_ICalSchedule : string -> string -> DateTime -> res ical).
Context (callback : notification -> lid -> nid -> nid -> heap W -> heap W).
Context (can_write : string -> bool) (bus_error : list ActionRequest -> ActionRequest -> option exn).

Local Notation "'M' A" := (SE (heap W) A) (at level 10, A at next level).
Local Notation setSt := (setState new_ICalSchedule callback can_write).

(** [Group::getStatus] *)
Definition getStatus (g : gptr) : M Status :=
  s ← apt_gets (fun a => g_status (the_group a g));
  match s with Some s => mret s | None => se_throw (RuntimeError "Group does not support status.") end.
Definition set_status (g : gptr) (t : Status) : M unit := apt_modify (upd_group g (g_with_status (Some t))).

Definition the_field (g : gptr) (type : StatusFieldType.t) : M StatusField := t ← getStatus g; se_lift (getField t type).
Definition set_items (g : gptr) (type : StatusFieldType.t) (l : list SubStateItem) : M unit :=
  t ← getStatus g;
  f ← se_lift (getField t type);
  set_status g (put_field type (mkStatusField (f_type f) (f_state f) l) t).

Definition getValue (f : StatusField) : M StatusFieldValue.t := st ← get_state (f_state f); mret (field_value (st_state st)).

(** [StatusField::getValueAsBitset] and [Status::getValueAsBitset], as numbers. *)
Definition field_bitset (f : StatusField) : M Z :=
  v ← getValue f;
  mret (if bool_decide (v = StatusFieldValue.ACTIVE) then Z.shiftl 1 (StatusFieldType.to_Z (f_type f)) else 0).
Definition getValueAsBitset (t : Status) : M Z :=
  m ← field_bitset (t_malfunctionField t); s ← field_bitset (t_serviceField t); mret (Z.lor m s).

(** The timer is started again; what it then does is [status_expired]. *)
Definition asyncPushLoopRestart (g : gptr) (delay : Z) : M unit :=
  t ← getStatus g; set_status g (mkStatus (t_malfunctionField t) (t_serviceField t) delay).
Definition push (g : gptr) : M unit := asyncPushLoopRestart g 1.
Definition status_expired (g : gptr) : M unit :=
  _ ← se_try
        (t ← getStatus g;
         value ← getValueAsBitset t;
         item_pushSensor bus_error (ItemGroup g) coSystem SAC_UNKNOWN DSUID_NULL SensorType.Status (of_int value) "")
        is_std_exception (fun _ => mret tt);
  asyncPushLoopRestart g PUSH_PERIOD.

Definition setValueAndPush (g : gptr) (type : StatusFieldType.t) (value : StatusFieldValue.t) : M unit :=
  f ← the_field g type;
  _ ← setSt (f_state f) coSystem (StatusFieldValue.to_Z value + 1);
  push g.

Definition update_field (g : gptr) (type : StatusFieldType.t) : M unit :=
  f ← the_field g type;
  let value := composed (f_items f) in
  current ← getValue f;
  if bool_decide (current = value) then mret tt else setValueAndPush g type value.

Definition sub_state (s : sid) : M SubStateItem := st ← get_state s; mret (mkSubState s (st_name st) (st_state st)).

Definition addSubState (g : gptr) (type : StatusFieldType.t) (s : sid) : M unit :=
  f ← the_field g type;
  match find_item s (f_items f) with
  | Some _ => se_throw (RuntimeError "condition:it == m_subStateItems.end()")
  | None => i ← sub_state s; _ ← set_items g type (f_items f ++ [i]); update_field g type
  end.

Definition updateSubState (g : gptr) (type : StatusFieldType.t) (s : sid) : M unit :=
  f ← the_field g type;
  i ← sub_state s;
  match find_item s (f_items f) with
  | None => se_throw (RuntimeError "condition:it != m_subStateItems.end()")
  | Some x =>
    if i_value x =? i_value i then mret tt
    else _ ← set_items g type (set_item s (i_value i) (f_items f)); update_field g type
  end.

Definition removeSubState (g : gptr) (type : StatusFieldType.t) (s : sid) : M unit :=
  f ← the_field g type;
  match find_item s (f_items f) with
  | None => se_throw (RuntimeError "condition:it != m_subStateItems.end()")
  | Some _ => _ ← set_items g type (erase_item s (f_items f)); update_field g type
  end.

(** [Group::setStatusField] *)
Definition setStatusField (g : gptr) (fieldName valueName : string) : M unit :=
  match statusFieldTypeFromName fieldName with
  | None => se_throw (RuntimeError ("Unknown" +:+ fieldName))
  | Some fieldType =>
    match statusFieldValueFromName valueName with
    | None => se_throw (RuntimeError ("Unknown" +:+ valueName))
    | Some value => _ ← getStatus g; setValueAndPush g fieldType value
    end
  end.

(** ** Construction *)

Definition fresh_state : M sid := st_gets (fun x => fresh (dom (states x))).

Definition new_StatusField (g : gptr) (type : StatusFieldType.t) : M StatusField :=
  group ← apt_gets (fun a => the_group a g);
  name ← se_lift (makeName group type);
  s ← fresh_state;
  _ ← State_typed callback s eStateType.StateType_Service name "";
  if negb (StatusFieldType.to_Z type <=? SENSOR_VALUE_BIT_MAX)
  then se_throw (RuntimeError "condition:static_cast<std::size_t>(type) <= SENSOR_VALUE_BIT_MAX")
  else
    _ ← update_state s (setValueRange ["unknown"; "active"; "inactive"]);
    _ ← setPersistence s true;
    mret (mkStatusField type s []).

(** [m_status.reset(new Status( *this))] *)
Definition new_Status (g : gptr) : M unit :=
  m ← new_StatusField g StatusFieldType.MALFUNCTION;
  s ← new_StatusField g StatusFieldType.SERVICE;
  _ ← set_status g (mkStatus m s 0);
  asyncPushLoopRestart g PUSH_PERIOD.

(** ** Binary inputs *)

(** [m_binaryInputs[i]] of a device; the index is in range. *)
Definition the_input (a : Apartment) (p : dptr) (i : nat) : option DeviceBinaryInput := d_binaryInputs (the_device a p) !! i.
Definition get_input (p : dptr) (i : nat) : M DeviceBinaryInput :=
  b ← apt_gets (fun a => the_input a p i);
  match b with Some b => mret b | None => se_throw (UndefinedBehaviour "no such binary input") end.
Definition upd_input (p : dptr) (i : nat) (f : DeviceBinaryInput -> DeviceBinaryInput) : M unit :=
  apt_modify (upd_device p (fun d => d_with_binaryInputs (alter f i (d_binaryInputs d)) d)).
Definition b_with_field (x : option (gptr * StatusFieldType.t)) (b : DeviceBinaryInput) : DeviceBinaryInput :=
  mkBinaryInput (b_inputIndex b) (b_inputType b) (b_inputId b) (b_targetGroupId b) (b_state b) x.
Definition b_with_type (t : BinaryInputType.t) (b : DeviceBinaryInput) : DeviceBinaryInput :=
  mkBinaryInput (b_inputIndex b) t (b_inputId b) (b_targetGroupId b) (b_state b) (b_field b).
Definition b_with_target (t : Z) (b : DeviceBinaryInput) : DeviceBinaryInput :=
  mkBinaryInput (b_inputIndex b) (b_inputType b) (b_inputId b) t (b_state b) (b_field b).
Definition b_with_id (x : Z) (b : DeviceBinaryInput) : DeviceBinaryInput :=
  mkBinaryInput (b_inputIndex b) (b_inputType b) x (b_targetGroupId b) (b_state b) (b_field b).

(** The field an input contributes to: that of its target group in zone 0. *)
Definition field_of_input (a : Apartment) (b : DeviceBinaryInput) : res (option (gptr * StatusFieldType.t)) :=
  if negb (b_targetGroupId b =? 0) then
    match statusFieldTypeForBinaryInputType (b_inputType b) with
    | None => Ok None
    | Some type =>
      z ← getZone a 0;
      match tryGetGroup a z (b_targetGroupId b) with
      | None => Ok None
      | Some g =>
        match g_status (the_group a g) with
        | None => Ok None
        | Some status => _ ← getField status type; Ok (Some (g, type))
        end
      end
    end
  else Ok None.

(** An exception that leaves a destructor ends the program. *)
Definition in_destructor {A} (m : M A) : M A := se_try m (fun _ => true) (fun _ => se_throw (AssertionFailure "std::terminate")).

Definition updateStatusFieldHandle (p : dptr) (i : nat) : M unit :=
  b ← get_input p i;
  statusField ← apt_query (fun a => field_of_input a b);
  if bool_decide (b_field b = statusField) then mret tt
  else
    _ ← match b_field b with
        | Some (g, type) => in_destructor (removeSubState g type (b_state b))
        | None => mret tt
        end;
    _ ← upd_input p i (b_with_field None);
    match statusField with
    | None => mret tt
    | Some (g, type) => _ ← addSubState g type (b_state b); upd_input p i (b_with_field (Some (g, type)))
    end.

Definition setTargetId (p : dptr) (i : nat) (targetGroupId : Z) : M unit :=
  b ← get_input p i;
  if b_targetGroupId b =? targetGroupId then mret tt
  else _ ← upd_input p i (b_with_target targetGroupId); updateStatusFieldHandle p i.
Definition setInputId (p : dptr) (i : nat) (inputId : Z) : M unit :=
  b ← get_input p i; if b_inputId b =? inputId then mret tt else upd_input p i (b_with_id inputId).
Definition setInputType (p : dptr) (i : nat) (inputType : BinaryInputType.t) : M unit :=
  b ← get_input p i;
  if bool_decide (b_inputType b = inputType) then mret tt
  else _ ← upd_input p i (b_with_type inputType); updateStatusFieldHandle p i.

(** The two [switch]es; [inputState] is a [BinaryInputStateValue]. *)
Definition window_state (inputState : Z) : Z :=
  eStateWindowHandle.to_Z
    (switch inputState
       [([0], eStateWindowHandle.StateWH_Closed); ([1], eStateWindowHandle.StateWH_Open);
        ([2], eStateWindowHandle.StateWH_Tilted); ([-1], eStateWindowHandle.StateWH_Unknown)]
       eStateWindowHandle.StateWH_Unknown).
Definition input_state (inputState : Z) : Z :=
  switch inputState [([0], State_Inactive); ([1], State_Active); ([-1], State_Unknown)] State_Unknown.

Definition handleEvent (p : dptr) (i : nat) (inputState : Z) : M unit :=
  b ← get_input p i;
  _ ← se_try
        (setSt (b_state b) coSystem
           (if bool_decide (b_inputType b = BinaryInputType.WindowTilt) then window_state inputState else input_state inputState))
        is_std_exception (fun _ => mret tt);
  match b_field b with
  | Some (g, type) => updateSubState g type (b_state b)
  | None => mret tt
  end.
End Status.
