(* ===== verification/StatusFacts.v ===== *)
(** Properties of status fields: a field is active exactly when one of its
    inputs is, and a change is pushed after a second. *)
From stdpp Require Import base option list strings gmap.
From Stdlib Require Import ZArith Lia Ascii PrimFloat.
From Stdlib Require String.
From S2P Require Import Prelude CxxString Base NumConv FloatConv Ds485types ModelConst DataTypes Calendar DateTools Event.
From S2P Require Import PropertyTree PropertyTreeFacts PropertyReader TreeFrame EventQueue EventQueueFacts State StateFacts.
From S2P Require Import SceneAccess ApartmentModel ApartmentWorld ExampleWorld Status.

Open Scope string_scope.
Open Scope list_scope.
Open Scope Z_scope.

(** ** The composed value *)

Lemma composed_from l v : foldl (fun value x => if i_value x =? State_Active then StatusFieldValue.ACTIVE else value) v l =
  if existsb (fun x => i_value x =? State_Active) l then StatusFieldValue.ACTIVE else v.
Proof.
  revert v. induction l as [|x l IH]; intros v; [done|]. cbn [foldl]. rewrite IH.
  change (existsb _ (x :: l)) with ((i_value x =? State_Active) || existsb (fun x => i_value x =? State_Active) l).
  destruct (i_value x =? State_Active), (existsb _ l); done.
Qed.

Lemma composed_active l : composed l = StatusFieldValue.ACTIVE <-> exists x, x ∈ l /\ i_value x = State_Active.
Proof.
  unfold composed. rewrite composed_from. destruct (existsb _ l) eqn:E.
  - split; [|done]. intros _. apply List.existsb_exists in E as (x & Hx & Ex). apply Z.eqb_eq in Ex.
    exists x. by rewrite list_elem_of_In.
  - split; [done|]. intros (x & Hx & Ex). assert (existsb (fun x => i_value x =? State_Active) l = true) as E'; [|congruence].
    apply List.existsb_exists. exists x. split; [by apply list_elem_of_In|by apply Z.eqb_eq].
Qed.

Lemma composed_cases l : composed l = StatusFieldValue.ACTIVE \/ composed l = StatusFieldValue.INACTIVE.
Proof. unfold composed. rewrite composed_from. destruct (existsb _ l); auto. Qed.

Lemma field_value_composed l : field_value (StatusFieldValue.to_Z (composed l) + 1) = composed l.
Proof. by destruct (composed_cases l) as [-> | ->]. Qed.

Section Facts.
Context {ical W : Type} {Sched : Schedule ical} {EW : EventWorld ical W} {SW : StateWorld W} {AW : ApartmentWorld W}.
Context {LC : Libc} {SD : Strtod} {DU : Dsuid} {Sep : SeparateWorlds EW SW} {SepA : SeparateApartment EW SW AW}.
Context (new_ICalSchedule : string -> string -> DateTime -> res ical).
Context (callback : notification -> lid -> nid -> nid -> heap W -> heap W).
Context (can_write : string -> bool).

Local Notation setSt := (setState new_ICalSchedule callback can_write).

Definition apt (h : heap W) : Apartment := get_apt (ext h).
Definition with_apt (a : Apartment) (h : heap W) : heap W := set_ext (put_apt a) h.

Lemma apt_with a h : apt (with_apt a h) = a.
Proof. unfold apt, with_apt. cbn. apply get_put_apt. Qed.
Lemma sth_with_apt a h : sth (with_apt a h) = sth h.
Proof. unfold sth, with_apt. cbn. apply st_of_put_apt. Qed.
Lemma eqh_with_apt a h : eqh (with_apt a h) = eqh h.
Proof. unfold eqh, with_apt. cbn. apply eq_of_put_apt. Qed.

Lemma apt_gets_run {A} (f : Apartment -> A) h : apt_gets f h = (Ok (f (apt h)), h).
Proof. reflexivity. Qed.
Lemma apt_modify_run f h : apt_modify f h = (Ok tt, with_apt (f (apt h)) h).
Proof. reflexivity. Qed.

(** ** Setting a state leaves the apartment alone *)

Section Frame.
Context {K : Type} (obs : W -> K) (Hd : discreet obs callback).
Context (Hst : forall x w, obs (put_st x w) = obs w) (Heq : forall q w, obs (put_eq q w) = obs w).

Lemma frames_st_modify f : frames obs (st_modify f).
Proof. apply frames_ext. intros e. apply Hst. Qed.
Lemma frames_get_state s : frames obs (get_state s).
Proof. intros h Hq. unfold get_state. by destruct (states _ !! s). Qed.
#[local] Hint Resolve frames_st_modify frames_get_state : frames.

Lemma frames_save s : frames obs (save can_write s).
Proof.
  unfold save, getStorageName. apply frames_bind; [apply frames_get_state|]. intros st.
  apply frames_bind; [unfold st_gets; solve_frames|]. intros name. solve_frames.
Qed.
#[local] Hint Resolve frames_save : frames.

Lemma frames_push_event now s st old o :
  frames obs (push_new new_ICalSchedule callback (createStateChangeEvent now s st old o)).
Proof.
  intros h Hq. destruct (state_event_plain now s st old o) as [Hi Hu].
  destruct (push_new_run new_ICalSchedule callback _ h Hi Hu) as (e & _ & ->). split; [exact Hq|]. cbn. apply Heq.
Qed.
#[local] Hint Resolve frames_push_event : frames.

Lemma frames_link_int n path s f : frames obs (link_int callback n path (int_proxy s f)).
Proof.
  unfold link_int. apply frames_bind; [by apply frames_createProperty|]. intros c.
  apply frames_bind; [|intros ?; apply frames_ret]. by apply frames_linkToProxy.
Qed.
#[local] Hint Resolve frames_link_int : frames.

Lemma frames_setState s o v : frames obs (setSt s o v).
Proof. unfold setState, set_state, st_gets, gets. solve_frames. Qed.
End Frame.

(** ** Fields *)

Lemma getField_put t type f f0 : getField t type = Ok f0 -> getField (put_field type f t) type = Ok f.
Proof. by destruct type. Qed.
Lemma put_field_expiry type f t : t_expiry (put_field type f t) = t_expiry t.
Proof. by destruct type. Qed.
Lemma getField_expiry t type e : getField (mkStatus (t_malfunctionField t) (t_serviceField t) e) type = getField t type.
Proof. by destruct type. Qed.

Lemma group_upd a g f : the_group (upd_group g f a) g = f (the_group a g).
Proof. unfold the_group at 1. cbn. by rewrite lookup_insert_eq. Qed.

(** [type] of the group's status is [f], whose state is [st], not published. *)
Definition field_at (h : heap W) (g : gptr) (type : StatusFieldType.t) (t : Status) (f : StatusField) (st : State) : Prop :=
  g_status (the_group (apt h) g) = Some t /\ getField t type = Ok f /\
  states (sth h) !! f_state f = Some st /\ st_pPropertyNode st = None.

Lemma getStatus_run h g t : g_status (the_group (apt h) g) = Some t -> getStatus g h = (Ok t, h).
Proof. intros H. unfold getStatus. rewrite (se_bind_ok _ _ _ _ _ (apt_gets_run _ _)). by rewrite H. Qed.
Lemma the_field_run h g type t f st : field_at h g type t f st -> the_field g type h = (Ok f, h).
Proof. intros (Hg & Hf & _). unfold the_field. rewrite (se_bind_ok _ _ _ _ _ (getStatus_run _ _ _ Hg)), Hf. done. Qed.

Lemma set_items_run h g type t f st l : field_at h g type t f st ->
  let h' := with_apt (upd_group g (g_with_status (Some (put_field type (mkStatusField (f_type f) (f_state f) l) t))) (apt h)) h in
  set_items g type l h = (Ok tt, h') /\
  field_at h' g type (put_field type (mkStatusField (f_type f) (f_state f) l) t) (mkStatusField (f_type f) (f_state f) l) st.
Proof.
  intros (Hg & Hf & Hst & Hn) h'. split.
  - unfold set_items. rewrite (se_bind_ok _ _ _ _ _ (getStatus_run _ _ _ Hg)), Hf. done.
  - unfold h'. split_and!; [by rewrite apt_with, group_upd|by eapply getField_put|by rewrite sth_with_apt|done].
Qed.

Context (Hd : discreet get_apt callback).

Lemma setState_apt h s o v : quiet get_apt h -> apt (snd (setSt s o v h)) = apt h.
Proof. intros Hq. by apply (frames_setState get_apt Hd apt_of_put_st apt_of_put_eq s o v h Hq). Qed.

(** The value an update leaves in the field, and the delay of its timer. *)
Definition updated (g : gptr) (type : StatusFieldType.t) (h : heap W) (t : Status) (f : StatusField) (st : State) (h' : heap W) : Prop :=
  exists t' st', field_at h' g type t' f st' /\ field_value (st_state st') = composed (f_items f) /\
    t_expiry t' = (if bool_decide (field_value (st_state st) = composed (f_items f)) then t_expiry t else 1).

Lemma update_field_run h g type t f st : quiet get_apt h -> field_at h g type t f st ->
  exists h', update_field new_ICalSchedule callback can_write g type h = (Ok tt, h') /\ updated g type h t f st h'.
Proof.
  intros Hq Hat. pose proof Hat as (Hg & Hf & Hst & Hn). unfold update_field, updated.
  rewrite (se_bind_ok _ _ _ _ _ (the_field_run _ _ _ _ _ _ Hat)). cbv zeta. unfold getValue.
  rewrite (se_bind_ok _ _ _ _ _ (se_bind_ok _ _ _ _ _ (get_state_run _ _ _ Hst))).
  case_bool_decide as E; [by exists h; split; [|exists t, st]|].
  unfold setValueAndPush. rewrite (se_bind_ok _ _ _ _ _ (the_field_run _ _ _ _ _ _ Hat)).
  set (v := StatusFieldValue.to_Z (composed (f_items f)) + 1).
  assert (v <> st_state st) as Hv by (intros Ev; apply E; rewrite <- Ev; apply field_value_composed).
  destruct (setState_run new_ICalSchedule callback can_write h (f_state f) st coSystem v Hst Hn Hv) as (h1 & Hr & Ex & _).
  rewrite (se_bind_ok _ _ _ _ _ Hr). assert (apt h1 = apt h) as Ha by (by rewrite <- (setState_apt h (f_state f) coSystem v Hq), Hr).
  assert (g_status (the_group (apt h1) g) = Some t) as Hg1 by by rewrite Ha.
  unfold push, asyncPushLoopRestart. rewrite (se_bind_ok _ _ _ _ _ (getStatus_run _ _ _ Hg1)).
  eexists. split; [apply apt_modify_run|]. eexists _, (with_value v coSystem st). split; [unfold field_at; split_and!|split].
  - by rewrite apt_with, group_upd.
  - by rewrite getField_expiry.
  - rewrite sth_with_apt, Ex. unfold changed, saved. repeat case_match; apply lookup_insert_eq.
  - done.
  - cbn [st_state with_value]. apply field_value_composed.
  - done.
Qed.

Lemma quiet_with_apt a h : quiet get_apt h -> quiet get_apt (with_apt a h).
Proof. exact (fun H => H). Qed.

(** An operation that ends in an update with these items. *)
Definition settles (op : SE (heap W) unit) (g : gptr) (type : StatusFieldType.t) (h : heap W) (t : Status) (f : StatusField)
    (st : State) (items : list SubStateItem) : Prop :=
  exists h' t' st', op h = (Ok tt, h') /\ field_at h' g type t' (mkStatusField (f_type f) (f_state f) items) st' /\
    field_value (st_state st') = composed items /\
    t_expiry t' = (if bool_decide (field_value (st_state st) = composed items) then t_expiry t else 1).

Lemma settle_run h g type t f st l : quiet get_apt h -> field_at h g type t f st ->
  settles (_ ← set_items g type l; update_field new_ICalSchedule callback can_write g type) g type h t f st l.
Proof.
  intros Hq Hat. destruct (set_items_run h g type t f st l Hat) as [Hr Hat'].
  destruct (update_field_run _ g type _ _ _ (quiet_with_apt _ h Hq) Hat') as (h' & Hu & t' & st' & H1 & H2 & H3).
  exists h', t', st'. rewrite (se_bind_ok _ _ _ _ _ Hr). rewrite put_field_expiry in H3. done.
Qed.

Lemma sub_state_run h s sub : states (sth h) !! s = Some sub ->
  sub_state s h = (Ok (mkSubState s (st_name sub) (st_state sub)), h).
Proof. intros Hs. unfold sub_state. by rewrite (se_bind_ok _ _ _ _ _ (get_state_run _ _ _ Hs)). Qed.

(** C21: a status field, whose state is not published in the property tree, is the
    disjunction of its inputs, while listeners and proxies leave the apartment
    alone.  Adding an input that is new, telling the field that a known one
    changed, or taking a known one away succeeds; afterwards the value of the
    field is "active" exactly when one of its inputs is, and the status is
    pushed after a second exactly when this changed the value.  Taking the last
    input away therefore makes the field inactive, against the comment of the
    class, which says that the last value stays.  Adding an input that is known
    is refused, and so are changes of one that is not; an input reported with
    the value it had changes nothing, not even a value that was set by hand. *)
Theorem status_field_is_or (h : heap W) (g : gptr) (type : StatusFieldType.t) (t : Status) (f : StatusField)
    (st : State) (s : sid) (sub : State) :
  quiet get_apt h -> field_at h g type t f st -> states (sth h) !! s = Some sub ->
  match find_item s (f_items f) with
  | None =>
    settles (addSubState new_ICalSchedule callback can_write g type s) g type h t f st
      (f_items f ++ [mkSubState s (st_name sub) (st_state sub)]) /\
    (exists e, updateSubState new_ICalSchedule callback can_write g type s h = (Throw e, h)) /\
    (exists e, removeSubState new_ICalSchedule callback can_write g type s h = (Throw e, h))
  | Some x =>
    (exists e, addSubState new_ICalSchedule callback can_write g type s h = (Throw e, h)) /\
    (i_value x = st_state sub -> updateSubState new_ICalSchedule callback can_write g type s h = (Ok tt, h)) /\
    (i_value x <> st_state sub -> settles (updateSubState new_ICalSchedule callback can_write g type s) g type h t f st
       (set_item s (st_state sub) (f_items f))) /\
    settles (removeSubState new_ICalSchedule callback can_write g type s) g type h t f st (erase_item s (f_items f))
  end /\
  forall items, composed items = StatusFieldValue.ACTIVE <-> exists x, x ∈ items /\ i_value x = State_Active.
Proof.
  intros Hq Hat Hs. split; [|apply composed_active].
  pose proof (the_field_run _ _ _ _ _ _ Hat) as Hf. pose proof (sub_state_run _ _ _ Hs) as Hsub.
  assert (forall l op, (_ ← set_items g type l; update_field new_ICalSchedule callback can_write g type) h = op h ->
    settles op g type h t f st l) as Hsettle.
  { intros l op E. destruct (settle_run h g type t f st l Hq Hat) as (h' & t' & st' & Hr & H).
    exists h', t', st'. by rewrite <- E. }
  unfold addSubState, updateSubState, removeSubState. destruct (find_item s (f_items f)) as [x|] eqn:Ex.
  - split; [eexists; rewrite (se_bind_ok _ _ _ _ _ Hf), Ex; done|].
    rewrite !(se_bind_ok _ _ _ _ _ Hf), !(se_bind_ok _ _ _ _ _ Hsub), Ex. cbn [i_value]. split_and!.
    + intros ->. by rewrite Z.eqb_refl.
    + intros Hne. apply Hsettle. rewrite (se_bind_ok _ _ _ _ _ Hf), (se_bind_ok _ _ _ _ _ Hsub), Ex. cbn [i_value].
      by rewrite (proj2 (Z.eqb_neq _ _) Hne).
    + apply Hsettle. by rewrite (se_bind_ok _ _ _ _ _ Hf), Ex.
  - split_and!.
    + apply Hsettle. by rewrite (se_bind_ok _ _ _ _ _ Hf), Ex, (se_bind_ok _ _ _ _ _ Hsub).
    + eexists. by rewrite (se_bind_ok _ _ _ _ _ Hf), (se_bind_ok _ _ _ _ _ Hsub), Ex.
    + eexists. by rewrite (se_bind_ok _ _ _ _ _ Hf), Ex.
Qed.
End Facts.


(** * An example *)

Definition example_field (type : StatusFieldType.t) (s : sid) (items : list SubStateItem) : StatusField := mkStatusField type s items.
Definition example_state (name : string) (v : Z) : State :=
  mkState None name volatile_ 0 [] v eStateType.StateType_Service None 0 "" None "" None [].
(** A group whose malfunction bit has one inactive input. *)
Definition example_group : Group :=
  mkGroup 0 64 "" ApplicationType.ApartmentVentilation (Default (Behavior.mkBehavior 0 0)) 0 0 true ∅ 0
    (Some (mkStatus (example_field StatusFieldType.MALFUNCTION 0%nat [mkSubState 2%nat "in" 2])
                    (example_field StatusFieldType.SERVICE 1%nat []) 5400)) None None new_physical false false "".
Definition example_apartment : Apartment :=
  mkApartment ∅ ∅ {[ 0%nat := example_group ]} ∅ [] [] [] [] None None None ∅.
Definition example_status : heap ModelWorld :=
  example_heap [example_state "m" 2; example_state "s" 2; example_state "in" 1] example_apartment.

(** The input becomes active: so does the field, and the status is pushed. *)
Lemma status_field_is_or_witness :
  exists h' t' st', updateSubState no_new no_callback writable 0%nat StatusFieldType.MALFUNCTION 2%nat example_status = (Ok tt, h') /\
    field_at h' 0%nat StatusFieldType.MALFUNCTION t'
      (mkStatusField StatusFieldType.MALFUNCTION 0%nat [mkSubState 2%nat "in" 1]) st' /\
    field_value (st_state st') = StatusFieldValue.ACTIVE /\ t_expiry t' = 1.
Proof.
  destruct (status_field_is_or no_new no_callback writable (no_callback_discreet get_apt) example_status 0%nat
    StatusFieldType.MALFUNCTION
    (mkStatus (example_field StatusFieldType.MALFUNCTION 0%nat [mkSubState 2%nat "in" 2]) (example_field StatusFieldType.SERVICE 1%nat []) 5400)
    (example_field StatusFieldType.MALFUNCTION 0%nat [mkSubState 2%nat "in" 2]) (example_state "m" 2) 2%nat (example_state "in" 1)
    (example_quiet get_apt _ _) ltac:(split_and!; vm_compute; reflexivity) ltac:(vm_compute; reflexivity)) as [H _].
  cbn in H. destruct H as (_ & _ & H & _). destruct (H ltac:(lia)) as (h' & t' & st' & Hr & Hf & Hv & Hx).
  exists h', t', st'. split; [exact Hr|]. split; [exact Hf|]. split; [exact Hv|]. vm_compute in Hx. exact Hx.
Defined.
