(* ===== verification/Publish.v ===== *)
(** Publication in the property tree of groups ([src/src/model/group.cpp],
    [cluster.cpp], [behavior.cpp]), zones ([zone.cpp]), meters
    ([modulator.cpp]) and devices ([device.cpp]): the nodes they create, the
    proxies behind these and the aliases between them. *)
From stdpp Require Import base option list strings gmap.
From Stdlib Require Import ZArith Lia Ascii PrimFloat.
From Stdlib Require String.
From S2P Require Import Prelude CxxString Base NumConv Ds485types ModelConst ModelFeatures DataTypes Calendar DateTools.
From S2P Require Import Behavior PropertyTree State SceneAccess ApartmentModel DeviceInfo DeviceSet ApartmentWorld.

Open Scope string_scope.
Open Scope list_scope.
Open Scope Z_scope.

(** * Changing members *)

Definition di_with_published (f : DevicePublished -> DevicePublished) (i : DeviceInfo) : DeviceInfo :=
  mkDeviceInfo (di_ActiveGroup i) (di_OutputMode i) (di_ButtonInputMode i) (di_ButtonInputIndex i) (di_ButtonInputCount i)
    (di_ButtonActiveGroup i) (di_ButtonID i) (di_OemEanNumber i) (di_OemSerialNumber i) (di_OemState i) (di_OemInetState i)
    (di_OemIsIndependent i) (di_OemProductInfoState i) (di_OemProductName i) (di_OemProductIcon i) (di_VdcHardwareInfo i)
    (di_VdcIconPath i) (di_VdcDisplayID i) (di_VdcHardwareGuid i) (di_ValveType i) (di_AKMInputProperty i)
    (di_pairedDevices i) (di_visible i) (di_cardinalDirection i) (di_windProtectionClass i) (f (di_published i)).
Definition di_with_wind (c : Z) (i : DeviceInfo) : DeviceInfo :=
  mkDeviceInfo (di_ActiveGroup i) (di_OutputMode i) (di_ButtonInputMode i) (di_ButtonInputIndex i) (di_ButtonInputCount i)
    (di_ButtonActiveGroup i) (di_ButtonID i) (di_OemEanNumber i) (di_OemSerialNumber i) (di_OemState i) (di_OemInetState i)
    (di_OemIsIndependent i) (di_OemProductInfoState i) (di_OemProductName i) (di_OemProductIcon i) (di_VdcHardwareInfo i)
    (di_VdcIconPath i) (di_VdcDisplayID i) (di_VdcHardwareGuid i) (di_ValveType i) (di_AKMInputProperty i)
    (di_pairedDevices i) (di_visible i) (di_cardinalDirection i) c (di_published i).

(** The texts of the two meters. *)
Definition pub_with_meters (dsid dsuid last_dsid last_dsuid : string) (p : DevicePublished) : DevicePublished :=
  mkDevicePublished (pub_LastKnownShortAddress p) dsid dsuid last_dsid last_dsuid
    (pub_HWInfo p) (pub_GTIN p) (pub_OemProductURL p) (pub_OemConfigLink p) (pub_OemPartNumber p) (pub_IsConfigLocked p)
    (pub_hasActions p) (pub_VdcHardwareModelGuid p) (pub_VdcModelUID p) (pub_VdcModelVersion p) (pub_VdcVendorGuid p)
    (pub_VdcOemGuid p) (pub_VdcOemModelGuid p) (pub_VdcConfigURL p) (pub_VdcHardwareVersion p) (pub_LastDiscovered p)
    (pub_IsLockedInDSM p) (pub_ButtonSetsLocalPriority p) (pub_ButtonCallsPresent p) (pub_floor p) (pub_states p) (pub_modelFeatures p).
(** What can be written through the tree. *)
Definition pub_with_writable (setsLocalPriority callsPresent : bool) (floor : Z) (p : DevicePublished) : DevicePublished :=
  mkDevicePublished (pub_LastKnownShortAddress p) (pub_DSMeterDSIDstr p) (pub_DSMeterDSUIDstr p) (pub_LastKnownMeterDSIDstr p)
    (pub_LastKnownMeterDSUIDstr p)
    (pub_HWInfo p) (pub_GTIN p) (pub_OemProductURL p) (pub_OemConfigLink p) (pub_OemPartNumber p) (pub_IsConfigLocked p)
    (pub_hasActions p) (pub_VdcHardwareModelGuid p) (pub_VdcModelUID p) (pub_VdcModelVersion p) (pub_VdcVendorGuid p)
    (pub_VdcOemGuid p) (pub_VdcOemModelGuid p) (pub_VdcConfigURL p) (pub_VdcHardwareVersion p) (pub_LastDiscovered p)
    (pub_IsLockedInDSM p) setsLocalPriority callsPresent floor (pub_states p) (pub_modelFeatures p).
Definition pub_with_states (l : list (string * sid)) (p : DevicePublished) : DevicePublished :=
  mkDevicePublished (pub_LastKnownShortAddress p) (pub_DSMeterDSIDstr p) (pub_DSMeterDSUIDstr p) (pub_LastKnownMeterDSIDstr p)
    (pub_LastKnownMeterDSUIDstr p)
    (pub_HWInfo p) (pub_GTIN p) (pub_OemProductURL p) (pub_OemConfigLink p) (pub_OemPartNumber p) (pub_IsConfigLocked p)
    (pub_hasActions p) (pub_VdcHardwareModelGuid p) (pub_VdcModelUID p) (pub_VdcModelVersion p) (pub_VdcVendorGuid p)
    (pub_VdcOemGuid p) (pub_VdcOemModelGuid p) (pub_VdcConfigURL p) (pub_VdcHardwareVersion p) (pub_LastDiscovered p)
    (pub_IsLockedInDSM p) (pub_ButtonSetsLocalPriority p) (pub_ButtonCallsPresent p) (pub_floor p) l (pub_modelFeatures p).
Definition d_published (d : Device) : DevicePublished := di_published (d_info d).
Definition d_with_published (f : DevicePublished -> DevicePublished) (d : Device) : Device :=
  d_with_info (di_with_published f (d_info d)) d.

Definition d_with_Name (n : string) (d : Device) : Device :=
  mkDevice (d_DSID d) n (d_ShortAddress d) (d_ZoneID d) (d_LastKnownZoneID d) (d_DSMeterDSID d)
    (d_LastKnownMeterDSID d) (d_FunctionID d) (d_ProductID d) (d_VendorID d) (d_RevisionID d) (d_groupIds d) (d_physical d)
    (d_isVdcDevice d) (d_Consumption d) (d_LastCalledScene d) (d_LastButOneCalledScene d) (d_FirstSeen d) (d_sensorInputs d)
    (d_binaryInputs d) (d_node d) (d_aliasNode d) (d_TagsNode d) (d_info d).
Definition d_with_nodes (node tags : option nid) (d : Device) : Device :=
  mkDevice (d_DSID d) (d_Name d) (d_ShortAddress d) (d_ZoneID d) (d_LastKnownZoneID d) (d_DSMeterDSID d)
    (d_LastKnownMeterDSID d) (d_FunctionID d) (d_ProductID d) (d_VendorID d) (d_RevisionID d) (d_groupIds d) (d_physical d)
    (d_isVdcDevice d) (d_Consumption d) (d_LastCalledScene d) (d_LastButOneCalledScene d) (d_FirstSeen d) (d_sensorInputs d)
    (d_binaryInputs d) node (d_aliasNode d) tags (d_info d).
Definition d_with_meter (dsid last : dsuid_t) (d : Device) : Device :=
  mkDevice (d_DSID d) (d_Name d) (d_ShortAddress d) (d_ZoneID d) (d_LastKnownZoneID d) dsid last (d_FunctionID d)
    (d_ProductID d) (d_VendorID d) (d_RevisionID d) (d_groupIds d) (d_physical d)
    (d_isVdcDevice d) (d_Consumption d) (d_LastCalledScene d) (d_LastButOneCalledScene d) (d_FirstSeen d) (d_sensorInputs d)
    (d_binaryInputs d) (d_node d) (d_aliasNode d) (d_TagsNode d) (d_info d).
Definition z_with_Name (n : string) (z : Zone) : Zone :=
  mkZone (z_ZoneID z) n (z_Devices z) (z_Groups z) (z_DSMeters z) (z_MainSensors z) (z_HeatingProperties z)
    (z_HeatingPropValid z) (z_HeatingOperationMode z) (z_temperatureControlMeter z) (z_node z) (z_physical z) (z_HeatingStatus z) (z_SensorStatus z).
Definition dm_with_Name (n : string) (m : DSMeter) : DSMeter :=
  mkDSMeter (dm_DSID m) n (dm_physical m) (dm_isVirtual m) (dm_capHasTemperatureControl m) (dm_capHasMetering m)
    (dm_ConnectedDevices m) (dm_node m) (dm_info m).
Definition dm_with_node (n : option nid) (m : DSMeter) : DSMeter :=
  mkDSMeter (dm_DSID m) (dm_Name m) (dm_physical m) (dm_isVirtual m) (dm_capHasTemperatureControl m) (dm_capHasMetering m)
    (dm_ConnectedDevices m) n (dm_info m).
Definition dm_with_ConnectedDevices (l : list DeviceReference) (m : DSMeter) : DSMeter :=
  mkDSMeter (dm_DSID m) (dm_Name m) (dm_physical m) (dm_isVirtual m) (dm_capHasTemperatureControl m) (dm_capHasMetering m)
    l (dm_node m) (dm_info m).
Definition dm_with_energy (value valueWh : float) (m : DSMeter) : DSMeter :=
  let i := dm_info m in
  mkDSMeter (dm_DSID m) (dm_Name m) (dm_physical m) (dm_isVirtual m) (dm_capHasTemperatureControl m) (dm_capHasMetering m)
    (dm_ConnectedDevices m) (dm_node m)
    (mkMeterInfo (mi_DeviceType i) (mi_capHasDevices i) (mi_PowerConsumption i) (mi_PowerConsumptionTimeStamp i) value valueWh
       (mi_EnergyMeterValueTimeStamp i) (mi_HardwareVersion i) (mi_softwareVersion i) (mi_armSoftwareVersion i)
       (mi_dspSoftwareVersion i) (mi_ApiVersion i) (mi_HardwareName i) (mi_IsValid i) (mi_IsInitialized i)
       (mi_IgnoreActionsFromNewDevices i) (mi_dSMState i) (mi_VdcConfigURL i) (mi_VdcModelUID i) (mi_VdcHardwareGuid i)
       (mi_VdcHardwareModelGuid i) (mi_VdcImplementationId i) (mi_VdcVendorGuid i) (mi_VdcOemGuid i) (mi_VdcOemModelGuid i)).

(** * Texts of a meter *)

(** The kinds of bus members of the dSM API ([BusMemberDevice_t]). *)
Class BusMembers := {
  BusMember_Unknown : Z; BusMember_ds485d : Z; BusMember_ds485p : Z; BusMember_dSM11 : Z; BusMember_dSM12 : Z;
  BusMember_vDSM : Z; BusMember_vDC : Z; BusMember_dSS : Z; BusMember_dSA : Z; BusMember_dSG : Z
}.

Section Members.
Context {BM : BusMembers} {DU : Dsuid}.

Definition one_of (x : Z) (l : list Z) : bool := existsb (Z.eqb x) l.
Definition busMemberIsAnyDSM (type : Z) : bool := one_of type [BusMember_dSM11; BusMember_dSM12; BusMember_vDSM; BusMember_vDC].
Definition busMemberIsLogicDSM (type : Z) : bool := one_of type [BusMember_dSM11; BusMember_dSM12; BusMember_vDC].
Definition busMemberIsHardwareDSM (type : Z) : bool := one_of type [BusMember_dSM11; BusMember_dSM12].
Definition busMemberTypeIsValid (type : Z) : bool :=
  one_of type [BusMember_ds485d; BusMember_ds485p; BusMember_dSM11; BusMember_dSM12; BusMember_vDSM; BusMember_vDC;
    BusMember_dSS; BusMember_dSA; BusMember_dSG].

(** The four bytes of a version. *)
Definition version_bytes (v : Z) : string :=
  let byte s := intToString (Z.land (Z.shiftr v s) 0xFF) false in
  byte 24 +:+ "." +:+ byte 16 +:+ "." +:+ byte 8 +:+ "." +:+ byte 0.

Definition meter_getDisplayID (m : DSMeter) : string :=
  let displayID :=
    match lib_dsuid_to_dsid (dm_DSID m) with
    | Some dsid => let s := dsid2str dsid in sdrop (slen s - 8) s
    | None => stake 8 (dsuid2str (dm_DSID m)) +:+ String "226" (String "128" (String "166" ""))
    end in
  let index := nth 16 (dm_DSID m) 0 in
  if index =? 0 then displayID else displayID +:+ "-" +:+ intToString index false.

Definition getHardwareName (m : DSMeter) : string :=
  let i := dm_info m in
  if negb (is_empty (mi_HardwareName i)) then mi_HardwareName i
  else if mi_DeviceType i =? BusMember_dSM11 then "dSM11"
  else if mi_DeviceType i =? BusMember_dSM12 then "dSM12" else "".

Definition getSoftwareVersion (m : DSMeter) : string :=
  let i := dm_info m in
  let ret := if negb (is_empty (mi_softwareVersion i)) then mi_softwareVersion i else version_bytes (mi_armSoftwareVersion i) in
  if mi_dspSoftwareVersion i =? 0 then ret else ret +:+ " / DSP: " +:+ version_bytes (mi_dspSoftwareVersion i).
End Members.

(** * Proxies of the apartment's objects *)

Section Publish.
Context {W : Type} {SW : StateWorld W} {AW : ApartmentWorld W} {LC : Libc} {BM : BusMembers} {DU : Dsuid}.
Context (callback : notification -> lid -> nid -> nid -> heap W -> heap W).
(** [StringConverter("UTF-8", "UTF-8").convert] (iconv). *)
Context (convert : string -> res string).
(** [Group::setApplicationTypeInt], when the value is written through the tree:
    what it does to the rest of the program.  A setter of this model does not
    change the tree it is called from. *)
Context (setApplicationTypeInt : gptr -> Z -> W -> W).

Local Notation "'M' A" := (SE (heap W) A) (at level 10, A at next level).

Definition upd_apt (f : Apartment -> Apartment) (w : W) : W := put_apt (f (get_apt w)) w.
Definition add_model_event (e : ModelEvent) (a : Apartment) : Apartment :=
  put_modelMaintenance (add_event e <$> a_modelMaintenance a) a.

(** [DeviceContainer::setName] of a zone, group or meter, whose name is [old];
    a name that iconv does not convert is ignored.  The server and the
    apartment know the same maintenance. *)
Definition container_setName (old : string) (put : string -> Apartment -> Apartment) (_name : string) (w : W) : W :=
  if String.eqb old _name then w
  else
    match convert _name with
    | Ok n =>
      let w := upd_apt (put n) w in
      if hasInstance (get_st w) then upd_apt (add_model_event etModelDirty) w else w
    | Throw _ => w
    end.
Definition zone_setName (z : zptr) (_name : string) (w : W) : W :=
  container_setName (z_Name (the_zone (get_apt w) z)) (fun n => upd_zone z (z_with_Name n)) _name w.
Definition group_setName (g : gptr) (_name : string) (w : W) : W :=
  container_setName (g_Name (the_group (get_apt w) g)) (fun n => upd_group g (g_with_Name n)) _name w.
Definition meter_setName (m : mptr) (_name : string) (w : W) : W :=
  container_setName (dm_Name (the_meter (get_apt w) m)) (fun n => upd_meter m (dm_with_Name n)) _name w.
(** [Device::setName] *)
Definition device_setName (p : dptr) (_name : string) (w : W) : W :=
  if String.eqb (d_Name (the_device (get_apt w) p)) _name then w
  else upd_apt (fun a => add_model_event etModelDirty (upd_device p (d_with_Name _name) a)) w.

(** A reference that is not written, one that is, and a pair of functions. *)
Definition ro {T} (get : W -> T) : PropertyProxy W T :=
  PropertyProxyReference get (fun _ e => e) (fun x => x) (fun x => x) false.
Definition rw {T} (get : W -> T) (assign : T -> W -> W) : PropertyProxy W T :=
  PropertyProxyReference get assign (fun x => x) (fun x => x) true.
Definition fn {T} (dflt : T) (get : W -> T) : PropertyProxy W T := PropertyProxyFunction dflt (Some get) None.
Definition fns {T} (dflt : T) (get : W -> T) (set : T -> W -> W) : PropertyProxy W T :=
  PropertyProxyFunction dflt (Some get) (Some set).

Definition of_device {T} (p : dptr) (f : Device -> T) (w : W) : T := f (the_device (get_apt w) p).
Definition of_zone {T} (p : zptr) (f : Zone -> T) (w : W) : T := f (the_zone (get_apt w) p).
Definition of_group {T} (p : gptr) (f : Group -> T) (w : W) : T := f (the_group (get_apt w) p).
Definition of_meter {T} (p : mptr) (f : DSMeter -> T) (w : W) : T := f (the_meter (get_apt w) p).

(** [node->createProperty(path)->linkToProxy(proxy)] *)
Definition link_proxy (n : nid) (pr : proxy W) : M bool :=
  match pr with
  | BoolProxy p => linkToProxy bool_ops n p
  | IntProxy p => linkToProxy int_ops n p
  | UintProxy p => linkToProxy uint_ops n p
  | StringProxy p => linkToProxy string_ops n p
  | FloatingProxy p => linkToProxy float_ops n p
  end.
Definition link (n : nid) (x : string * proxy W) : M unit :=
  c ← createProperty callback n (fst x); _ ← link_proxy c (snd x); mret tt.
Definition links (n : nid) (l : list (string * proxy W)) : M unit := se_iter (link n) l.
(** [node->createProperty(path)->setIntegerValue(value)] and for texts *)
Definition create_int (n : nid) (path : string) (v : Z) : M unit :=
  c ← createProperty callback n path; setIntegerValue callback c v.
Definition create_string (n : nid) (path : string) (v : string) : M unit :=
  c ← createProperty callback n path; setStringValue callback c v.
(** [node->getParentNode()->removeChild(node)] *)
Definition remove_node (n : nid) : M unit :=
  nd ← deref n;
  match m_ParentNode nd with
  | Some p => _ ← removeChild callback p n; mret tt
  | None => se_throw (UndefinedBehaviour "call on NULL")
  end.
(** The same for what [node->getProperty(path)] finds, if anything. *)
Definition remove_path (n : nid) (path : string) : M unit :=
  c ← getProperty n path;
  match c with Some c => remove_node c | None => mret tt end.

(** A text the date's functions make; they are undefined for years of more than
    fifteen digits. *)
Definition date_text (d : DateTime) : string := match toPrettyString d with Ok s => s | Throw _ => "" end.

(** * Groups *)

Definition current_behavior (g : Group) : Behavior :=
  match g_pApplicationBehavior g with Default b | Ventilation b => b end.

(** [m_pApplicationBehavior->publishToPropertyTree()] and [removeFromPropertyTree()];
    [n] is the group's node. *)
Definition behavior_publish (g : gptr) (b : AnyBehavior) (n : option nid) : M unit :=
  match b, n with
  | Ventilation _, Some n =>
    links n
      [("activeBasicScenes", StringProxy (fn "" (of_group g (fun x => VentilationBehavior.getPropertyActiveBasicScenes (current_behavior x)))));
       ("lastCalledBasicScene", IntProxy (fn 0 (of_group g (fun x => m_currentScene (current_behavior x)))))]
  | _, _ => mret tt
  end.
Definition remove_child_at (n : nid) (path : string) : M unit :=
  c ← getProperty n path;
  match c with Some c => _ ← removeChild callback n c; mret tt | None => mret tt end.
Definition behavior_remove (b : AnyBehavior) (n : option nid) : M unit :=
  match b, n with
  | Ventilation _, Some n => _ ← remove_child_at n "activeBasicScenes"; remove_child_at n "lastCalledBasicScene"
  | _, _ => mret tt
  end.

Definition group_path (zone group : Z) : string :=
  "zones/zone" +:+ intToString zone false +:+ "/groups/group" +:+ intToString group false.

Definition Group_publish (g : gptr) : M unit :=
  group ← apt_gets (fun a => the_group a g);
  root ← apt_gets a_node;
  match g_node group, root with
  | None, Some root =>
    n ← createProperty callback root (group_path (g_ZoneID group) (g_GroupID group));
    _ ← apt_modify (upd_group g (g_with_node (Some n)));
    _ ← create_int n "group" (g_GroupID group);
    _ ← links n
      [("color", IntProxy (fn 0 (of_group g (fun x => getApplicationTypeColor (g_ApplicationType x)))));
       ("applicationType", IntProxy (fns 0 (of_group g (fun x => ApplicationType.to_Z (g_ApplicationType x)))
                                       (setApplicationTypeInt g)));
       ("name", StringProxy (fns "" (of_group g g_Name) (group_setName g)));
       ("lastCalledScene", IntProxy (fn 0 (of_group g g_LastCalledScene)));
       ("connectedDevices", IntProxy (ro (of_group g g_connectedDevices)))];
    behavior_publish g (g_pApplicationBehavior group) (Some n)
  | _, _ => mret tt
  end.

Definition cluster_data (g : Group) : ClusterData := default (mkCluster cd_none wpc_none 0 [] false false None) (g_cluster g).
Definition c_with_ProtectionClass (v : Z) (c : ClusterData) : ClusterData :=
  mkCluster (c_Location c) v (c_Floor c) (c_LockedScenes c) (c_ConfigurationLocked c) (c_automatic c) (c_oplock_state c).
Definition upd_cluster (g : gptr) (f : ClusterData -> ClusterData) (a : Apartment) : Apartment :=
  upd_group g (fun x => g_with_cluster (f <$> g_cluster x) x) a.

Definition updateLockedScenes (g : gptr) : M unit :=
  group ← apt_gets (fun a => the_group a g);
  match g_node group with
  | None => mret tt
  | Some n =>
    _ ← remove_path n "lockedScenes";
    pLockedScenes ← createProperty callback n "lockedScenes";
    se_iter (fun scene =>
      gsubnode ← createProperty callback pLockedScenes ("scene" +:+ intToString scene false);
      create_int gsubnode "id" scene) (c_LockedScenes (cluster_data group))
  end.

Definition Cluster_publish (g : gptr) : M unit :=
  _ ← Group_publish g;
  n ← apt_gets (fun a => g_node (the_group a g));
  match n with
  | None => mret tt
  | Some n =>
    let cl {T} (f : ClusterData -> T) := of_group g (fun x => f (cluster_data x)) in
    _ ← links n
      [("CardinalDirection", StringProxy (fn "" (cl (fun c => cd_toString (c_Location c)))));
       ("WindProtectionClass", IntProxy (rw (cl c_ProtectionClass) (fun v => upd_apt (upd_cluster g (c_with_ProtectionClass v)))));
       ("Floor", IntProxy (ro (cl c_Floor)));
       ("ConfigurationLocked", BoolProxy (ro (cl c_ConfigurationLocked)));
       ("Automatic", BoolProxy (ro (cl c_automatic)))];
    updateLockedScenes g
  end.

(** The virtual function. *)
Definition group_publishToPropertyTree (g : gptr) : M unit :=
  c ← apt_gets (fun a => g_cluster (the_group a g));
  match c with Some _ => Cluster_publish g | None => Group_publish g end.

(** * Zones *)

Definition zone_publishToPropertyTree (z : zptr) : M unit :=
  zone ← apt_gets (fun a => the_zone a z);
  root ← apt_gets a_node;
  match z_node zone, root with
  | None, Some root =>
    n ← createProperty callback root ("zones/zone" +:+ intToString (z_ZoneID zone) false);
    _ ← apt_modify (upd_zone z (z_with_node (Some n)));
    _ ← create_int n "ZoneID" (z_ZoneID zone);
    _ ← link n ("name", StringProxy (fns "" (of_zone z z_Name) (zone_setName z)));
    _ ← createProperty callback n "devices/";
    groups ← apt_gets (fun a => z_Groups (the_zone a z));
    se_iter group_publishToPropertyTree groups
  | _, _ => mret tt
  end.

Definition zone_removeFromPropertyTree (z : zptr) : M unit :=
  n ← apt_gets (fun a => z_node (the_zone a z));
  match n with
  | Some n => _ ← remove_node n; apt_modify (upd_zone z (z_with_node None))
  | None => mret tt
  end.

(** * Meters *)

Definition meter_publishToPropertyTree (m : mptr) : M unit :=
  meter ← apt_gets (fun a => the_meter a m);
  root ← apt_gets a_node;
  let info {T} (f : DSMeterInfo -> T) := of_meter m (fun x => f (dm_info x)) in
  if bool_decide (is_Some (dm_node meter)) then se_throw (AssertionFailure "m_pPropertyNode == NULL")
  else
    match root with
    | None => mret tt
    | Some root =>
      n ← createProperty callback root ("dSMeters/" +:+ dsuid2str (dm_DSID meter));
      _ ← apt_modify (upd_meter m (dm_with_node (Some n)));
      _ ← create_string n "dSUID" (dsuid2str (dm_DSID meter));
      _ ← create_string n "dSID" (match lib_dsuid_to_dsid (dm_DSID meter) with Some d => dsid2str d | None => "" end);
      _ ← links n
        [("DisplayID", StringProxy (fn "" (of_meter m meter_getDisplayID)));
         ("name", StringProxy (fns "" (of_meter m dm_Name) (meter_setName m)));
         ("isValid", BoolProxy (ro (info mi_IsValid)));
         ("isInitialized", BoolProxy (ro (info mi_IsInitialized)));
         ("state", IntProxy (ro (info mi_dSMState)));
         ("present", BoolProxy (fn false (of_meter m dm_isPresent)));
         ("busMemberType", IntProxy (ro (info mi_DeviceType)))];
      capNode ← createProperty callback n "capabilities";
      _ ← links capNode
        [("devices", BoolProxy (ro (info mi_capHasDevices)));
         ("metering", BoolProxy (ro (of_meter m dm_capHasMetering)));
         ("temperature-control", BoolProxy (ro (of_meter m dm_capHasTemperatureControl)))];
      _ ← links n
        [("powerConsumption", IntProxy (ro (info mi_PowerConsumption)));
         ("powerConsumptionAge", StringProxy (fn "" (info (fun i => date_text (mi_PowerConsumptionTimeStamp i)))));
         ("energyMeterValue", FloatingProxy (rw (info mi_EnergyMeterValueWh)
            (fun v => upd_apt (upd_meter m (fun x => dm_with_energy (mi_EnergyMeterValue (dm_info x)) v x)))));
         ("energyMeterValueWs", FloatingProxy (rw (info mi_EnergyMeterValue)
            (fun v => upd_apt (upd_meter m (fun x => dm_with_energy v (mi_EnergyMeterValueWh (dm_info x)) x)))));
         ("energyMeterAge", StringProxy (fn "" (info (fun i => date_text (mi_EnergyMeterValueTimeStamp i)))))];
      _ ← create_int n "hardwareVersion" 0;
      links n
        [("hardwareVersion2", StringProxy (ro (info mi_HardwareVersion)));
         ("softwareVersion", StringProxy (fn "" (of_meter m getSoftwareVersion)));
         ("armSoftwareVersion", IntProxy (ro (info mi_armSoftwareVersion)));
         ("apiVersion", IntProxy (ro (info mi_ApiVersion)));
         ("hardwareName", StringProxy (fn "" (of_meter m getHardwareName)));
         ("ignoreActionsFromNewDevices", BoolProxy (ro (info mi_IgnoreActionsFromNewDevices)));
         ("ConfigURL", StringProxy (ro (info mi_VdcConfigURL)));
         ("ModelUID", StringProxy (ro (info mi_VdcModelUID)));
         ("HardwareGuid", StringProxy (ro (info mi_VdcHardwareGuid)));
         ("HardwareModelGuid", StringProxy (ro (info mi_VdcHardwareModelGuid)));
         ("ImplementationId", StringProxy (ro (info mi_VdcImplementationId)));
         ("VendorGuid", StringProxy (ro (info mi_VdcVendorGuid)));
         ("OemGuid", StringProxy (ro (info mi_VdcOemGuid)));
         ("OemModelGuid", StringProxy (ro (info mi_VdcOemModelGuid)))]
    end.

(** * Devices *)

(** [getApartment().getDSMeterByDSID(dsid)->getPropertyNode()] *)
Definition meter_node (dsid : dsuid_t) : M nid :=
  m ← apt_query (fun a => getDSMeterByDSID a dsid);
  n ← apt_gets (fun a => dm_node (the_meter a m));
  match n with Some n => mret n | None => se_throw (UndefinedBehaviour "call on NULL") end.

Definition dsid_text (dsuid : dsuid_t) : string := match lib_dsuid_to_dsid dsuid with Some d => dsid2str d | None => "" end.

Definition setDSMeter (p : dptr) (_dsMeter : mptr) : M unit :=
  d ← apt_gets (fun a => the_device a p);
  let name := dsuid2str (d_DSID d) in
  old ← match d_node d with
        | Some _ =>
          if negb (bool_decide (d_DSMeterDSID d = DSUID_NULL))
          then n ← meter_node (d_DSMeterDSID d); getProperty n ("devices/" +:+ name)
          else mret None
        | None => mret None
        end;
  id ← apt_gets (fun a => dm_DSID (the_meter a _dsMeter));
  _ ← apt_modify (upd_device p (d_with_meter id id));
  _ ← apt_modify (upd_device p (d_with_published (pub_with_meters (dsid_text id) (dsuid2str id) (dsid_text id) (dsuid2str id))));
  match d_node d with
  | None => mret tt
  | Some node =>
    n ← apt_gets (fun a => dm_node (the_meter a _dsMeter));
    match n with
    | None => se_throw (UndefinedBehaviour "call on NULL")
    | Some n =>
      target ← createProperty callback n "devices";
      match old with
      | Some x => addChild callback target x
      | None => x ← createProperty callback target name; alias x (Some node)
      end
    end
  end.

(** The node of a group's device list. *)
Definition group_device_path (d : Device) (g : Z) : string :=
  group_path (getGroupZoneID d g) g +:+ "/devices/" +:+ dsuid2str (d_DSID d).

(** The apartment's node; it is there. *)
Definition apartment_node : M nid :=
  root ← apt_gets a_node;
  match root with Some root => mret root | None => se_throw (UndefinedBehaviour "call on NULL") end.

Definition publishAliasInZoneGroups (p : dptr) : M unit :=
  d ← apt_gets (fun a => the_device a p);
  se_iter (fun g =>
    root ← apartment_node;
    gnode ← createProperty callback root (group_device_path d g);
    alias gnode (d_node d)) (d_groupIds d).

Definition publishVdcToPropertyTree (p : dptr) : M unit :=
  d ← apt_gets (fun a => the_device a p);
  match d_node d with
  | Some n =>
    if d_isVdcDevice d then
      let pub f := StringProxy (ro (of_device p (fun x => f (d_published x)))) in
      let inf f := StringProxy (ro (of_device p (fun x => f (d_info x)))) in
      propNode ← createProperty callback n "properties";
      links propNode
        [("DisplayId", inf di_VdcDisplayID); ("HardwareModelGuid", pub pub_VdcHardwareModelGuid); ("ModelUID", pub pub_VdcModelUID);
         ("ModelVersion", pub pub_VdcModelVersion); ("VendorGuid", pub pub_VdcVendorGuid); ("OemGuid", pub pub_VdcOemGuid);
         ("OemModelGuid", pub pub_VdcOemModelGuid); ("ConfigURL", pub pub_VdcConfigURL); ("HardwareGuid", inf di_VdcHardwareGuid);
         ("HardwareInfo", inf di_VdcHardwareInfo); ("HardwareVersion", pub pub_VdcHardwareVersion)]
    else mret tt
  | None => mret tt
  end.

Definition publishValveTypeToPropertyTree (p : dptr) : M unit :=
  d ← apt_gets (fun a => the_device a p);
  match d_node d with
  | Some n =>
    if isValveDevice d
    then link n ("ValveType", StringProxy (fn "" (of_device p (fun x => valveTypeToString (di_ValveType (d_info x))))))
    else mret tt
  | None => mret tt
  end.

Definition republishModelFeaturesToPropertyTree (p : dptr) : M unit :=
  d ← apt_gets (fun a => the_device a p);
  match d_node d with
  | None => mret tt
  | Some n =>
    _ ← remove_child_at n "modelFeatures";
    modelFeaturesNode ← createProperty callback n "modelFeatures";
    se_iter (fun '(id, v) =>
      match modelFeatureName id with
      | Some name => node ← createProperty callback modelFeaturesNode name; setBooleanValue callback node v
      | None => mret tt
      end) (pub_modelFeatures (d_published d))
  end.

(** What is published of the product, the hardware and the configuration. *)
Definition product_members (p : dptr) : list (string * proxy W) :=
  let inf {T} (f : DeviceInfo -> T) := of_device p (fun x => f (d_info x)) in
  let pub {T} (f : DevicePublished -> T) := of_device p (fun x => f (d_published x)) in
  [("ProductState", StringProxy (fn "" (inf (fun i => oemStateToString (di_OemProductInfoState i)))));
   ("ProductName", StringProxy (ro (inf di_OemProductName)));
   ("ProductIcon", StringProxy (ro (inf di_OemProductIcon)));
   ("ProductURL", StringProxy (ro (pub pub_OemProductURL)));
   ("ConfigLink", StringProxy (ro (pub pub_OemConfigLink)));
   ("State", StringProxy (fn "" (inf (fun i => oemStateToString (di_OemState i)))));
   ("EAN", StringProxy (fn "" (inf (fun i => uintToString (di_OemEanNumber i) false))));
   ("SerialNumber", IntProxy (ro (inf di_OemSerialNumber)));
   ("PartNumber", IntProxy (ro (pub pub_OemPartNumber)));
   ("isIndependent", BoolProxy (ro (inf di_OemIsIndependent)));
   ("InternetState", StringProxy (fn "" (inf (fun i => oemInetStateToString (di_OemInetState i)))));
   ("configurationLocked", BoolProxy (ro (pub pub_IsConfigLocked)))].

Definition identity_members (p : dptr) : list (string * proxy W) :=
  let pub {T} (f : DevicePublished -> T) := of_device p (fun x => f (d_published x)) in
  [("ZoneID", IntProxy (ro (of_device p d_ZoneID)));
   ("functionID", IntProxy (ro (of_device p d_FunctionID)));
   ("revisionID", IntProxy (ro (of_device p d_RevisionID)));
   ("productID", IntProxy (ro (of_device p d_ProductID)));
   ("vendorID", IntProxy (ro (of_device p d_VendorID)));
   ("HWInfo", StringProxy (ro (pub pub_HWInfo)));
   ("GTIN", StringProxy (ro (pub pub_GTIN)))].

Definition history_members (p : dptr) : list (string * proxy W) :=
  let pub {T} (f : DevicePublished -> T) := of_device p (fun x => f (d_published x)) in
  [("lastKnownMeterDSUID", StringProxy (ro (pub pub_LastKnownMeterDSUIDstr)));
   ("firstSeen", StringProxy (fn "" (of_device p (fun x => date_text (d_FirstSeen x)))));
   ("lastDiscovered", StringProxy (fn "" (pub (fun x => date_text (pub_LastDiscovered x)))));
   ("inactiveSince", StringProxy (fn "" (of_device p (fun x => date_text (ph_InactiveSince (d_physical x))))));
   ("locked", BoolProxy (ro (pub pub_IsLockedInDSM)))].

Definition configuration_members (p : dptr) : list (string * proxy W) :=
  let inf {T} (f : DeviceInfo -> T) := of_device p (fun x => f (d_info x)) in
  let pub {T} (f : DevicePublished -> T) := of_device p (fun x => f (d_published x)) in
  let assign f := upd_apt (upd_device p (d_with_published f)) in
  [("outputMode", IntProxy (ro (inf di_OutputMode)));
   ("button/id", IntProxy (ro (inf di_ButtonID)));
   ("button/inputMode", IntProxy (ro (inf (fun i => ButtonInputMode.to_Z (di_ButtonInputMode i)))));
   ("button/inputIndex", IntProxy (ro (inf di_ButtonInputIndex)));
   ("button/inputCount", IntProxy (ro (inf di_ButtonInputCount)));
   ("button/activeGroup", IntProxy (ro (inf di_ButtonActiveGroup)));
   ("button/groupMembership", IntProxy (ro (inf di_ButtonActiveGroup)));
   ("button/setsLocalPriority", BoolProxy (rw (pub pub_ButtonSetsLocalPriority)
      (fun v => assign (fun x => pub_with_writable v (pub_ButtonCallsPresent x) (pub_floor x) x))));
   ("button/callsPresent", BoolProxy (rw (pub pub_ButtonCallsPresent)
      (fun v => assign (fun x => pub_with_writable (pub_ButtonSetsLocalPriority x) v (pub_floor x) x))))].

Definition site_members (p : dptr) : list (string * proxy W) :=
  let inf {T} (f : DeviceInfo -> T) := of_device p (fun x => f (d_info x)) in
  let pub {T} (f : DevicePublished -> T) := of_device p (fun x => f (d_published x)) in
  [("isValveType", BoolProxy (fn false (of_device p isValveDevice)));
   ("CardinalDirection", StringProxy (fn "" (inf (fun i => cd_toString (di_cardinalDirection i)))));
   ("WindProtectionClass", IntProxy (rw (inf di_windProtectionClass)
      (fun v => upd_apt (upd_device p (fun d => d_with_info (di_with_wind v (d_info d)) d)))));
   ("Floor", IntProxy (rw (pub pub_floor)
      (fun v => upd_apt (upd_device p (d_with_published (fun x => pub_with_writable (pub_ButtonSetsLocalPriority x) (pub_ButtonCallsPresent x) v x))))))].

(** A text through a reference, or the empty text as a value. *)
Definition link_or_empty (n : nid) (path text : string) (pr : proxy W) : M unit :=
  if negb (is_empty text) then link n (path, pr) else create_string n path "".

Definition devices_path (zone : Z) : string := "zones/zone" +:+ intToString zone false +:+ "/devices".

(** The alias in the zone's list of devices. *)
Definition publish_alias (p : dptr) (root n : nid) : M unit :=
  d ← apt_gets (fun a => the_device a p);
  if d_ZoneID d =? 0 then mret tt
  else
    let basePath := devices_path (d_ZoneID d) in
    match d_aliasNode d with
    | None =>
      node ← getProperty root (basePath +:+ "/" +:+ dsuid2str (d_DSID d));
      free ← match node with Some x => k ← size_ x; mret (k =? 0) | None => mret true end;
      if free : bool then
        x ← createProperty callback root (basePath +:+ "/" +:+ dsuid2str (d_DSID d));
        _ ← apt_modify (upd_device p (d_with_aliasNode (Some x)));
        alias x (Some n)
      else mret tt
    | Some x =>
      base ← getProperty root basePath;
      match base with Some base => addChild callback base x | None => mret tt end
    end.

Definition device_publishToPropertyTree (p : dptr) : M unit :=
  d ← apt_gets (fun a => the_device a p);
  root ← apt_gets a_node;
  match d_node d, root with
  | None, Some root =>
    if negb (di_visible (d_info d)) then mret tt
    else
      let pub {T} (f : DevicePublished -> T) := of_device p (fun x => f (d_published x)) in
      n ← createProperty callback root ("zones/zone0/devices/" +:+ dsuid2str (d_DSID d));
      _ ← apt_modify (upd_device p (fun x => d_with_nodes (Some n) (d_TagsNode x) x));
      _ ← create_string n "dSID" (dsid_text (d_DSID d));
      _ ← link n ("DisplayID", StringProxy (fn "" (of_device p getDisplayID)));
      _ ← create_string n "dSUID" (dsuid2str (d_DSID d));
      _ ← links n
        [("present", BoolProxy (fn false (of_device p d_isPresent)));
         ("name", StringProxy (fns "" (of_device p d_Name) (device_setName p)))];
      _ ← link_or_empty n "DSMeterDSID" (pub_DSMeterDSIDstr (d_published d)) (StringProxy (ro (pub pub_DSMeterDSIDstr)));
      _ ← link n ("DSMeterDSUID", StringProxy (ro (pub pub_DSMeterDSUIDstr)));
      _ ← links n (identity_members p);
      oemNode ← createProperty callback n "productInfo";
      _ ← links oemNode (product_members p);
      _ ← links n
        [("isVdcDevice", BoolProxy (ro (of_device p d_isVdcDevice)));
         ("hasActions", BoolProxy (ro (pub pub_hasActions)))];
      _ ← publishVdcToPropertyTree p;
      _ ← links n
        [("lastKnownZoneID", IntProxy (ro (of_device p d_LastKnownZoneID)));
         ("shortAddress", IntProxy (ro (of_device p d_ShortAddress)));
         ("lastKnownShortAddress", IntProxy (ro (pub pub_LastKnownShortAddress)))];
      _ ← link_or_empty n "lastKnownMeterDSID" (pub_LastKnownMeterDSIDstr (d_published d))
            (StringProxy (ro (pub pub_LastKnownMeterDSIDstr)));
      _ ← links n (history_members p);
      _ ← links n (configuration_members p);
      events ← getProperty n "sensorEvents";
      _ ← match events with None => _ ← createProperty callback n "sensorEvents"; mret tt | Some _ => mret tt end;
      _ ← createProperty callback n "binaryInputs";
      _ ← createProperty callback n "sensorInputs";
      _ ← createProperty callback n "outputChannels";
      _ ← links n (site_members p);
      _ ← publishValveTypeToPropertyTree p;
      tags ← createProperty callback n "tags";
      _ ← apt_modify (upd_device p (d_with_nodes (Some n) (Some tags)));
      _ ← setFlag callback tags Archive true;
      _ ← publish_alias p root n;
      _ ← publishAliasInZoneGroups p;
      groups ← apt_gets (fun a => d_groupIds (the_device a p));
      _ ← se_iter (fun g => gsubnode ← createProperty callback n ("groups/group" +:+ intToString g false);
                            create_int gsubnode "id" g) groups;
      meter ← apt_gets (fun a => d_DSMeterDSID (the_device a p));
      _ ← (if negb (bool_decide (meter = DSUID_NULL))
           then m ← apt_query (fun a => getDSMeterByDSID a meter); setDSMeter p m else mret tt);
      republishModelFeaturesToPropertyTree p
  | _, _ => mret tt
  end.

(** [node->alias(PropertyNodePtr()); node->getParentNode()->removeChild(node)] *)
Definition release_node (n : nid) : M unit := _ ← alias n None; remove_node n.
(** [if (parent != NULL) parent->removeChild(node)] *)
Definition remove_if_child (n : nid) : M unit :=
  nd ← deref n;
  match m_ParentNode nd with Some q => _ ← removeChild callback q n; mret tt | None => mret tt end.

Definition device_removeFromPropertyTree (p : dptr) : M unit :=
  d ← apt_gets (fun a => the_device a p);
  _ ← match d_node d with
      | Some node =>
        _ ← se_try
              (if negb (bool_decide (d_DSMeterDSID d = DSUID_NULL)) && negb (bool_decide (d_DSID d = DSUID_NULL)) then
                 n ← meter_node (d_DSMeterDSID d);
                 dev ← getProperty n ("devices/" +:+ dsuid2str (d_DSID d));
                 match dev with Some dev => release_node dev | None => se_throw (UndefinedBehaviour "call on NULL") end
               else mret tt)
              is_runtime_error (fun _ => mret tt);
        root ← apt_gets a_node;
        _ ← match root with
            | Some root =>
              se_iter (fun g =>
                gnode ← getProperty root (group_device_path d g);
                _ ← match gnode with Some x => release_node x | None => mret tt end;
                remove_path node ("groups/group" +:+ intToString g false)) (d_groupIds d)
            | None => mret tt
            end;
        _ ← unlinkProxy node true;
        _ ← remove_if_child node;
        apt_modify (upd_device p (fun x => d_with_nodes None (d_TagsNode x) x))
      | None => mret tt
      end;
  match d_aliasNode d with
  | Some x => _ ← alias x None; _ ← remove_if_child x; apt_modify (upd_device p (d_with_aliasNode None))
  | None => mret tt
  end.
End Publish.
