(* ===== verification/GroupOps.v ===== *)
(** The operations of [class Group] ([src/src/model/group.cpp]) and [class
    Cluster] ([cluster.cpp]): the application type and its behaviour, scene
    calls and what they remember, scene names, the states of light and heating
    of a room, the locks of a cluster; with the registry of states of the
    apartment ([apartment.cpp]) they use. *)
From stdpp Require Import base option list strings gmap.
From Stdlib Require Import ZArith Lia Ascii PrimFloat.
From Stdlib Require String.
From S2P Require Import Prelude CxxString Base NumConv FloatConv Ds485types ModelConst ModelFeatures DataTypes Calendar DateTools.
From S2P Require Import SceneHelper Behavior Event PropertyTree EventQueue State SceneAccess ApartmentModel DeviceInfo DeviceSet.
From S2P Require Import ApartmentWorld Status Publish.

Open Scope string_scope.
Open Scope list_scope.
Open Scope Z_scope.

(** [GroupSpec_t] and what [ClusterSpec_t] adds. *)
Record GroupSpec_t := mkGroupSpec {
  gs_GroupID : Z; gs_applicationType : ApplicationType.t; gs_Name : string; gs_applicationConfiguration : Z
}.
Record ClusterSpec_t := mkClusterSpec {
  cs_group : GroupSpec_t; cs_protectionClass : Z; cs_location : Z; cs_floor : Z;
  cs_configurationLocked : bool; cs_lockedScenes : list Z
}.

(** The behaviour a type calls for, if it is one of the application types. *)
Definition behavior_of (applicationType : ApplicationType.t) (scene : Z) : option AnyBehavior :=
  match applicationType with
  | ApplicationType.Ventilation | ApplicationType.ApartmentVentilation
  | ApplicationType.Recirculation | ApplicationType.ApartmentRecirculation => Some (Ventilation (VentilationBehavior.new scene))
  | ApplicationType.None | ApplicationType.Lights | ApplicationType.Blinds | ApplicationType.Heating | ApplicationType.Audio
  | ApplicationType.Video | ApplicationType.Joker | ApplicationType.Cooling | ApplicationType.Window
  | ApplicationType.ControlTemperature => Some (Default (DefaultBehavior.new scene))
  | ApplicationType.Other _ => None
  end.

(** The virtual functions of [Behavior]. *)
Definition map_behavior (on_default on_ventilation : Behavior -> Behavior) (b : AnyBehavior) : AnyBehavior :=
  match b with Default b => Default (on_default b) | Ventilation b => Ventilation (on_ventilation b) end.
Definition any_setCurrentScene (s : Z) : AnyBehavior -> AnyBehavior :=
  map_behavior (DefaultBehavior.setCurrentScene s) (VentilationBehavior.setCurrentScene s).
Definition any_setConfiguration (c : Z) : AnyBehavior -> AnyBehavior :=
  map_behavior (fun b => mkBehavior (m_currentScene b) c) (VentilationBehavior.setConfiguration c).
Definition any_getNextScene (b : AnyBehavior) : res Z :=
  match b with Default b => Ok (DefaultBehavior.getNextScene b) | Ventilation b => VentilationBehavior.getNextScene b end.
Definition any_getPreviousScene (b : AnyBehavior) : res Z :=
  match b with Default b => Ok (DefaultBehavior.getPreviousScene b) | Ventilation b => VentilationBehavior.getPreviousScene b end.

Definition getApplicationConfiguration (g : Group) : Z := m_configuration (current_behavior g).

(** [Group::setLastCalledScene] *)
Definition group_setLastCalledScene (_value : Z) (g : Group) : Group :=
  if (g_GroupID g =? GroupIDControlTemperature) && (_value >=? 16) then g
  else if negb (_value =? g_LastCalledScene g)
  then g_with_LastCalledScene _value (g_LastCalledScene g) (any_setCurrentScene _value (g_pApplicationBehavior g)) g
  else g.
(** [Group::setLastButOneCalledScene], with and without a scene *)
Definition group_undoScene (_value : option Z) (g : Group) : Group :=
  match _value with
  | Some v =>
    if v =? g_LastCalledScene g
    then g_with_LastCalledScene (g_LastButOneCalledScene g) (g_LastButOneCalledScene g) (g_pApplicationBehavior g) g else g
  | None => g_with_LastCalledScene (g_LastButOneCalledScene g) (g_LastButOneCalledScene g) (g_pApplicationBehavior g) g
  end.

Definition getSceneName (g : Group) (_sceneNumber : Z) : string := default "" (g_SceneNames g !! wrapU 8 _sceneNumber).

Definition addConnectedDevice (g : Group) : Group := g_with_connectedDevices (g_connectedDevices g + 1) g.
Definition removeConnectedDevice (g : Group) : Group :=
  if 0 <? g_connectedDevices g then g_with_connectedDevices (g_connectedDevices g - 1) g else g.
Definition hasConnectedDevices (g : Group) : bool := 0 <? g_connectedDevices g.

Definition g_with_flags (physical : PhysicalModelItem) (valid pending : bool) (set : string) (g : Group) : Group :=
  mkGroup (g_ZoneID g) (g_GroupID g) (g_Name g) (g_ApplicationType g) (g_pApplicationBehavior g) (g_LastCalledScene g)
    (g_LastButOneCalledScene g) valid (g_SceneNames g) (g_connectedDevices g) (g_status g) (g_cluster g) (g_node g)
    physical pending (g_readFromDsm g) set.
Definition g_setIsValid (_value : bool) (g : Group) : Group :=
  g_with_flags (g_physical g) _value (g_SyncPending g) (g_AssociatedSet g) g.
Definition g_setIsSynchronized (_value : bool) (g : Group) : Group :=
  g_with_flags (g_physical g) (g_IsValid g) (negb _value) (g_AssociatedSet g) g.
Definition g_setAssociatedSet (_value : string) (g : Group) : Group :=
  g_with_flags (g_physical g) (g_IsValid g) (g_SyncPending g) _value g.
Definition g_with_physical (f : PhysicalModelItem -> PhysicalModelItem) (g : Group) : Group :=
  g_with_flags (f (g_physical g)) (g_IsValid g) (g_SyncPending g) (g_AssociatedSet g) g.

(** [Group::isConfigEqual] and [Cluster::isConfigEqual]; the vectors of locked
    scenes are compared in order. *)
Definition group_isConfigEqual (g : Group) (spec : GroupSpec_t) : bool :=
  String.eqb (g_Name g) (gs_Name spec) && bool_decide (g_ApplicationType g = gs_applicationType spec) &&
  (getApplicationConfiguration g =? gs_applicationConfiguration spec).
Fixpoint same_scenes (a b : list Z) : bool :=
  match a, b with
  | [], _ => true
  | x :: a, y :: b => if negb (x =? y) then false else same_scenes a b
  | _ :: _, [] => false
  end.
Definition cluster_isConfigEqual (g : Group) (cluster : ClusterSpec_t) : bool :=
  let c := cluster_data g in
  if negb (Nat.eqb (length (c_LockedScenes c)) (length (cs_lockedScenes cluster))) then false
  else if negb (same_scenes (c_LockedScenes c) (cs_lockedScenes cluster)) then false
  else group_isConfigEqual g (cs_group cluster) && (c_Location c =? cs_location cluster)
    && (c_ProtectionClass c =? cs_protectionClass cluster) && (c_Floor c =? cs_floor cluster)
    && Bool.eqb (c_ConfigurationLocked c) (cs_configurationLocked cluster).

Section Groups.
Context {ical W : Type} {Sched : Schedule ical} {EW : EventWorld ical W} {SW : StateWorld W} {AW : ApartmentWorld W}.
Context {LC : Libc} {SD : Strtod} {DU : Dsuid}.
Context (new_ICalSchedule : string -> string -> DateTime -> res ical).
Context (callback : notification -> lid -> nid -> nid -> heap W -> heap W).
Context (can_write : string -> bool) (bus_error : list ActionRequest -> ActionRequest -> option exn).
Context (convert : string -> res string) (setApplicationTypeInt : gptr -> Z -> W -> W).
(** Whether a server made the apartment ([m_dss]). *)
Context (m_dss : bool).

Local Notation "'M' A" := (SE (heap W) A) (at level 10, A at next level).
Local Notation setSt := (setState new_ICalSchedule callback can_write).

(** ** The registry of states *)

Definition states_now : M (list (sid * State)) := fun h => (Ok (apartment_states (get_st (ext h)) (get_apt (ext h))), h).

Definition allocateState (s : sid) : M unit :=
  l ← states_now;
  st ← get_state s;
  l ← se_lift (SceneAccess.allocateState l s st);
  apt_modify (put_m_States (fun _ => map fst l)).
(** [ItemDuplicateException] *)
Definition is_duplicate (e : exn) : bool := match e with DSSException _ => true | _ => false end.

(** [allocateState(_type, _stateName, _scriptId)] *)
Definition allocateState_named (_type : eStateType.t) (_stateName _scriptId : string) : M sid :=
  l ← states_now;
  match List.find (fun x => String.eqb (st_name (snd x)) _stateName && bool_decide (st_type (snd x) = _type) &&
                            String.eqb (st_serviceName (snd x)) _scriptId) l with
  | Some x => mret (fst x)
  | None =>
    s ← fresh_state;
    _ ← (if (0 <? slen _scriptId)%nat then State_typed callback s _type _stateName _scriptId
         else State_typed callback s _type _stateName "");
    _ ← apt_modify (put_m_States (fun m => m ++ [s]));
    mret s
  end.

Definition getNonScriptState (_stateName : string) : M sid :=
  l ← states_now;
  match List.find (fun s => negb (bool_decide (st_type (snd s) = eStateType.StateType_Script)) &&
                            String.eqb (st_name (snd s)) _stateName) l with
  | Some x => mret (fst x)
  | None => se_throw (ItemNotFound _stateName)
  end.

Definition removeState (s : sid) : M unit :=
  l ← states_now;
  l ← se_lift (SceneAccess.removeState l s);
  apt_modify (put_m_States (fun _ => map fst l)).

(** ** The application *)

Definition this_group (g : gptr) : M Group := apt_gets (fun a => the_group a g).
Definition set_group (g : gptr) (f : Group -> Group) : M unit := apt_modify (upd_group g f).

(** The state of a room that a group stands for; that it exists already is not
    an error. *)
Definition allocate_group_state (g : gptr) : M unit :=
  group ← this_group g;
  s ← fresh_state;
  _ ← State_group callback s g (makeGroupName (g_ZoneID group) (g_ApplicationType group));
  se_try (allocateState s) is_duplicate (fun _ => mret tt).

Definition setApplicationType (g : gptr) (applicationType : ApplicationType.t) : M unit :=
  group ← this_group g;
  let id := g_GroupID group in
  if bool_decide (g_ApplicationType group = applicationType) then mret tt
  else if (isDefaultGroup id || isGlobalAppDsGroup id) && negb (bool_decide (g_ApplicationType group = ApplicationType.None))
  then mret tt
  else
    let last := g_LastCalledScene group in
    let '(t, b) := match behavior_of applicationType last with
                   | Some b => (applicationType, b)
                   | None => (ApplicationType.None, Default (DefaultBehavior.new last))
                   end in
    let old := g_pApplicationBehavior group in
    _ ← set_group g (g_with_application t old);
    _ ← behavior_publish callback g b (g_node group);
    _ ← set_group g (g_with_application t b);
    _ ← behavior_remove callback old (g_node group);
    _ ← (if m_dss && bool_decide (t = ApplicationType.ApartmentVentilation) && negb (bool_decide (is_Some (g_status group)))
         then new_Status callback g else mret tt);
    if g_ZoneID group =? 0 then mret tt
    else if (id =? GroupIDYellow) || (id =? GroupIDHeating) then allocate_group_state g
    else mret tt.

Definition setApplicationConfiguration (g : gptr) (c : Z) : M unit :=
  set_group g (fun x => g_with_application (g_ApplicationType x) (any_setConfiguration (uint32 c) (g_pApplicationBehavior x)) x).
Definition setName (g : gptr) (_name : string) : M unit := se_modify (set_ext (group_setName convert g _name)).

Definition group_setFromSpec (g : gptr) (spec : GroupSpec_t) : M unit :=
  _ ← setName g (gs_Name spec);
  _ ← setApplicationType g (gs_applicationType spec);
  setApplicationConfiguration g (gs_applicationConfiguration spec).

(** ** Scenes *)

(** [Zone::setHeatingOperationMode(int)]: a [PersistentValue] is set and stored. *)
Definition heating_value_name (zone : Z) : string := "heatingOperation_" +:+ intToString zone false.
Definition setHeatingOperationMode (z : zptr) (_operationMode : Z) : M unit :=
  if _operationMode >? HeatingOperationModeIDMax then mret tt
  else
    id ← apt_gets (fun a => z_ZoneID (the_zone a z));
    _ ← apt_modify (upd_zone z (z_with_HeatingOperationMode _operationMode));
    if can_write (heating_value_name id)
    then apt_modify (put_values <[heating_value_name id := _operationMode]>) else mret tt.

(** The state of the room, set if the scene switches it. *)
Definition group_state (g : gptr) (applicationType : ApplicationType.t) (f : sid -> M unit) : M unit :=
  se_try
    (group ← this_group g;
     if negb (bool_decide (g_ApplicationType group = applicationType)) then se_throw (AssertionFailure "m_ApplicationType")
     else s ← getNonScriptState (makeGroupName (g_ZoneID group) (g_ApplicationType group)); f s)
    is_item_not_found (fun _ => mret tt).

Definition setOnState_scene (g : gptr) (_origin _sceneId : Z) : M unit :=
  group ← this_group g;
  let switch_state t :=
    let isOn := isOnScene (g_GroupID group) _sceneId in
    if bool_decide (isOn = DontCare) then mret tt
    else group_state g t (fun s => setSt s _origin (if bool_decide (isOn = True_) then State_Active else State_Inactive)) in
  if g_ZoneID group =? 0 then mret tt
  else if g_GroupID group =? GroupIDYellow then switch_state ApplicationType.Lights
  else if g_GroupID group =? GroupIDHeating then switch_state ApplicationType.Heating
  else mret tt.

Definition setOnState (g : gptr) (_origin : Z) (_on : bool) : M unit :=
  group ← this_group g;
  let switch_state t := group_state g t (fun s => setSt s _origin (if _on then State_Active else State_Inactive)) in
  if g_ZoneID group =? 0 then mret tt
  else if g_GroupID group =? GroupIDYellow then switch_state ApplicationType.Lights
  else if g_GroupID group =? GroupIDHeating then switch_state ApplicationType.Heating
  else mret tt.

(** [getState]: the value of the room's state. *)
Definition group_getState (g : gptr) : M Z :=
  group ← this_group g;
  let value t :=
    se_try
      (if negb (bool_decide (g_ApplicationType group = t)) then se_throw (AssertionFailure "m_ApplicationType")
       else s ← getNonScriptState (makeGroupName (g_ZoneID group) (g_ApplicationType group)); st ← get_state s; mret (st_state st))
      is_item_not_found (fun _ => mret State_Unknown) in
  if g_ZoneID group =? 0 then mret State_Unknown
  else if g_GroupID group =? GroupIDYellow then value ApplicationType.Lights
  else if g_GroupID group =? GroupIDHeating then value ApplicationType.Heating
  else mret State_Unknown.

Definition callScene (g : gptr) (_origin : Z) (_category : SceneAccessCategory) (_sceneNr : Z) (_token : string)
    (_force : bool) : M unit :=
  _ ← (if fst (rememberScene (Z.land _sceneNr 0x00ff) start)
       then set_group g (group_setLastCalledScene (Z.land _sceneNr 0x00ff)) else mret tt);
  _ ← item_callScene bus_error (ItemGroup g) _origin _category _sceneNr _token _force;
  group ← this_group g;
  if g_GroupID group =? GroupIDControlTemperature then
    z ← apt_query (fun a => getZone a (g_ZoneID group));
    if _sceneNr <=? HeatingOperationModeIDMax then setHeatingOperationMode z _sceneNr else mret tt
  else setOnState_scene g _origin _sceneNr.

Definition nextScene (g : gptr) (_origin : Z) (_category : SceneAccessCategory) : M unit :=
  group ← this_group g;
  s ← se_lift (any_getNextScene (g_pApplicationBehavior group));
  callScene g _origin _category s "" false.
Definition previousScene (g : gptr) (_origin : Z) (_category : SceneAccessCategory) : M unit :=
  group ← this_group g;
  s ← se_lift (any_getPreviousScene (g_pApplicationBehavior group));
  callScene g _origin _category s "" false.

Definition setSceneName (g : gptr) (_sceneNumber : Z) (_name : string) : M unit :=
  _ ← set_group g (fun x => g_with_SceneNames (<[wrapU 8 _sceneNumber := _name]> (g_SceneNames x)) x);
  group ← this_group g;
  match g_node group with
  | Some n =>
    scene ← createProperty callback n ("scenes/scene" +:+ intToString _sceneNumber false);
    _ ← create_int callback scene "scene" _sceneNumber;
    create_string callback scene "name" _name
  | None => mret tt
  end.

Definition sensorInvalid (g : gptr) (_type : SensorType.t) : M unit :=
  group ← this_group g;
  match g_node group with
  | Some n => remove_path callback n ("sensor/type" +:+ intToString (SensorType.to_Z _type) false)
  | None => mret tt
  end.

(** ** Clusters *)

Definition set_cluster (g : gptr) (f : ClusterData -> ClusterData) : M unit := apt_modify (upd_cluster g f).
Definition setLocation (v : Z) (c : ClusterData) : ClusterData :=
  mkCluster v (c_ProtectionClass c) (c_Floor c) (c_LockedScenes c) (c_ConfigurationLocked c) (c_automatic c) (c_oplock_state c).
Definition setFloor (v : Z) (c : ClusterData) : ClusterData :=
  mkCluster (c_Location c) (c_ProtectionClass c) v (c_LockedScenes c) (c_ConfigurationLocked c) (c_automatic c) (c_oplock_state c).
Definition c_with_LockedScenes (l : list Z) (c : ClusterData) : ClusterData :=
  mkCluster (c_Location c) (c_ProtectionClass c) (c_Floor c) l (c_ConfigurationLocked c) (c_automatic c) (c_oplock_state c).
Definition setConfigurationLocked (v : bool) (c : ClusterData) : ClusterData :=
  mkCluster (c_Location c) (c_ProtectionClass c) (c_Floor c) (c_LockedScenes c) v (c_automatic c) (c_oplock_state c).
Definition setAutomatic (v : bool) (c : ClusterData) : ClusterData :=
  mkCluster (c_Location c) (c_ProtectionClass c) (c_Floor c) (c_LockedScenes c) (c_ConfigurationLocked c) v (c_oplock_state c).
Definition c_with_oplock (s : sid) (c : ClusterData) : ClusterData :=
  mkCluster (c_Location c) (c_ProtectionClass c) (c_Floor c) (c_LockedScenes c) (c_ConfigurationLocked c) (c_automatic c) (Some s).

Definition setLockedScenes (g : gptr) (_lockedScenes : list Z) : M unit :=
  _ ← set_cluster g (c_with_LockedScenes _lockedScenes); updateLockedScenes callback g.
Definition addLockedScene (g : gptr) (_lockedScene : Z) : M unit :=
  _ ← set_cluster g (fun c => c_with_LockedScenes (c_LockedScenes c ++ [_lockedScene]) c); updateLockedScenes callback g.

Definition cluster_setFromSpec (g : gptr) (spec : ClusterSpec_t) : M unit :=
  _ ← group_setFromSpec g (cs_group spec);
  _ ← set_cluster g (setLocation (cs_location spec));
  _ ← set_cluster g (c_with_ProtectionClass (cs_protectionClass spec));
  _ ← set_cluster g (setConfigurationLocked (cs_configurationLocked spec));
  setLockedScenes g (cs_lockedScenes spec).

(** [Cluster::reset]; the scenes are cleared without a look at the tree. *)
Definition cluster_reset (g : gptr) : M unit :=
  _ ← set_cluster g (setLocation cd_none);
  _ ← set_cluster g (c_with_ProtectionClass wpc_none);
  _ ← set_cluster g (setFloor 0);
  _ ← set_cluster g (c_with_LockedScenes []);
  _ ← set_cluster g (setConfigurationLocked false);
  _ ← set_cluster g (setAutomatic false);
  _ ← setApplicationType g ApplicationType.None;
  _ ← setName g "";
  setApplicationConfiguration g 0.

Definition releaseCluster (g : gptr) : M bool :=
  ds ← apt_query (fun a => Group_getDevices a g);
  if isEmpty ds then _ ← cluster_reset g; mret true else mret false.

Definition isOperationLock (g : gptr) : M bool :=
  group ← this_group g;
  match c_oplock_state (cluster_data group) with
  | Some s => st ← get_state s; mret (st_state st =? State_Active)
  | None => mret false
  end.

Definition setOperationLock (g : gptr) (_locked : bool) (_callOrigin : Z) : M unit :=
  group ← this_group g;
  s ← match c_oplock_state (cluster_data group) with
      | Some s => mret s
      | None =>
        s ← allocateState_named eStateType.StateType_Group ("cluster." +:+ intToString (g_GroupID group) false +:+ ".operation_lock") "";
        _ ← set_cluster g (c_with_oplock s);
        _ ← setPersistence s true;
        _ ← setSt s coSystem State_Unknown;
        mret s
      end;
  setSt s _callOrigin (if _locked then State_Active else State_Inactive).
End Groups.
