(* ===== verification/Membership.v ===== *)
(** The structure of the apartment and how it changes: zones and their
    devices, groups and meters ([src/src/model/zone.cpp]), the zone, the groups
    and the meter of a device ([device.cpp]), and what the apartment makes and
    removes ([apartment.cpp]).  [MembershipFacts.v] shows that all of it keeps
    the invariant [consistent]. *)
From stdpp Require Import base option list strings gmap.
From Stdlib Require Import ZArith Lia Ascii PrimFloat.
From Stdlib Require String.
From S2P Require Import Prelude CxxString Base NumConv FloatConv Ds485types ModelConst ModelFeatures DataTypes Calendar DateTools.
From S2P Require Import Behavior Event EventCreate PropertyTree EventQueue State SceneAccess ApartmentModel DeviceInfo DeviceSet.
From S2P Require Import ApartmentWorld Status Publish GroupOps.

Open Scope string_scope.
Open Scope list_scope.
Open Scope Z_scope.

Definition put_m_Devices (f : list dptr -> list dptr) (a : Apartment) : Apartment :=
  mkApartment (a_devices a) (a_zones a) (a_groups a) (a_meters a) (f (m_Devices a)) (m_Zones a) (m_DSMeters a)
    (m_States a) (a_node a) (a_requests a) (a_modelMaintenance a) (a_values a).
Definition put_m_Zones (f : list zptr -> list zptr) (a : Apartment) : Apartment :=
  mkApartment (a_devices a) (a_zones a) (a_groups a) (a_meters a) (m_Devices a) (f (m_Zones a)) (m_DSMeters a)
    (m_States a) (a_node a) (a_requests a) (a_modelMaintenance a) (a_values a).
Definition put_m_DSMeters (f : list mptr -> list mptr) (a : Apartment) : Apartment :=
  mkApartment (a_devices a) (a_zones a) (a_groups a) (a_meters a) (m_Devices a) (m_Zones a) (f (m_DSMeters a))
    (m_States a) (a_node a) (a_requests a) (a_modelMaintenance a) (a_values a).
Definition put_node (n : option nid) (a : Apartment) : Apartment :=
  mkApartment (a_devices a) (a_zones a) (a_groups a) (a_meters a) (m_Devices a) (m_Zones a) (m_DSMeters a)
    (m_States a) n (a_requests a) (a_modelMaintenance a) (a_values a).

Definition z_with_ZoneID (id : Z) (z : Zone) : Zone :=
  mkZone id (z_Name z) (z_Devices z) (z_Groups z) (z_DSMeters z) (z_MainSensors z) (z_HeatingProperties z)
    (z_HeatingPropValid z) (z_HeatingOperationMode z) (z_temperatureControlMeter z) (z_node z) (z_physical z) (z_HeatingStatus z) (z_SensorStatus z).
Definition z_with_physical (f : PhysicalModelItem -> PhysicalModelItem) (z : Zone) : Zone :=
  mkZone (z_ZoneID z) (z_Name z) (z_Devices z) (z_Groups z) (z_DSMeters z) (z_MainSensors z) (z_HeatingProperties z)
    (z_HeatingPropValid z) (z_HeatingOperationMode z) (z_temperatureControlMeter z) (z_node z) (f (z_physical z)) (z_HeatingStatus z) (z_SensorStatus z).

(** [erase] of the element at [find]'s position, for pointers. *)
Fixpoint erase_ptr (x : nat) (l : list nat) : list nat :=
  match l with [] => [] | y :: l => if Nat.eqb x y then l else y :: erase_ptr x l end.

(** ** The constructors *)

(** [m_HeatingOperationMode] is read from its file. *)
Definition Zone_new (_id : Z) (values : gmap string Z) : Zone :=
  mkZone _id "" [] [] [] [] no_heating false (default HeatingOperationModeInvalid (values !! heating_value_name _id))
    None None new_physical no_heating_status no_sensor_status.
Definition Group_new (_id _zone : Z) : Group :=
  mkGroup _zone _id "" ApplicationType.None (Default (DefaultBehavior.new SceneOff)) SceneOff SceneOff false ∅ 0 None None None
    new_physical false false "".
Definition Cluster_new (_id : Z) : Group :=
  g_with_cluster (Some (mkCluster cd_none wpc_none 0 [] false false None)) (Group_new _id 0).

Section Membership.
Context {ical W : Type} {Sched : Schedule ical} {EW : EventWorld ical W} {SW : StateWorld W} {AW : ApartmentWorld W}.
Context {LC : Libc} {SD : Strtod} {BM : BusMembers} {DU : Dsuid}.
Context (new_ICalSchedule : string -> string -> DateTime -> res ical).
Context (callback : notification -> lid -> nid -> nid -> heap W -> heap W).
Context (can_write : string -> bool) (bus_error : list ActionRequest -> ActionRequest -> option exn).
Context (convert : string -> res string) (setApplicationTypeInt : gptr -> Z -> W -> W) (m_dss : bool).

Local Notation "'M' A" := (SE (heap W) A) (at level 10, A at next level).
Local Notation group_publish := (group_publishToPropertyTree callback convert setApplicationTypeInt).
Local Notation setType := (setApplicationType callback m_dss).
Local Notation named := (setName convert).

Definition this_device (p : dptr) : M Device := apt_gets (fun a => the_device a p).
Definition this_zone (z : zptr) : M Zone := apt_gets (fun a => the_zone a z).
Definition this_meter (m : mptr) : M DSMeter := apt_gets (fun a => the_meter a m).
Definition set_device (p : dptr) (f : Device -> Device) : M unit := apt_modify (upd_device p f).
Definition set_zone (z : zptr) (f : Zone -> Zone) : M unit := apt_modify (upd_zone z f).
Definition set_meter (m : mptr) (f : DSMeter -> DSMeter) : M unit := apt_modify (upd_meter m f).

(** New objects get numbers that no object and no pointer has. *)
Definition groups_in_use (a : Apartment) : list gptr := map_to_list (a_zones a) ≫= fun x => z_Groups (snd x).
Definition new_group (g : Group) : M gptr :=
  p ← apt_gets (fun a => fresh (dom (a_groups a) ∪ list_to_set (groups_in_use a) : gset gptr));
  _ ← set_group p (fun _ => g); mret p.
Definition new_zone (z : Zone) : M zptr :=
  p ← apt_gets (fun a => fresh (dom (a_zones a) ∪ list_to_set (m_Zones a) : gset zptr)); _ ← set_zone p (fun _ => z); mret p.
Definition new_device (d : Device) : M dptr :=
  p ← apt_gets (fun a => fresh (dom (a_devices a) ∪ list_to_set (m_Devices a) : gset dptr)); _ ← set_device p (fun _ => d); mret p.
Definition new_meter (m : DSMeter) : M mptr :=
  p ← apt_gets (fun a => fresh (dom (a_meters a) ∪ list_to_set (m_DSMeters a) : gset mptr)); _ ← set_meter p (fun _ => m); mret p.

(** ** A device's zone and groups *)

Definition update_inputs (p : dptr) : M unit :=
  n ← apt_gets (fun a => length (d_binaryInputs (the_device a p)));
  se_iter (updateStatusFieldHandle new_ICalSchedule callback can_write p) (seq 0 n).

(** The alias of the device in the list of its new zone: [false] when a node
    with children is in the way. *)
Definition move_alias (p : dptr) (root node : nid) : M bool :=
  d ← this_device p;
  let basePath := devices_path (d_ZoneID d) in
  match d_aliasNode d with
  | None =>
    x ← getProperty root (basePath +:+ "/" +:+ dsuid2str (d_DSID d));
    blocked ← match x with Some x => k ← size_ x; mret (0 <? k) | None => mret false end;
    if blocked : bool then mret false
    else
      x ← createProperty callback root (basePath +:+ "/" +:+ dsuid2str (d_DSID d));
      _ ← set_device p (d_with_aliasNode (Some x));
      _ ← alias x (Some node);
      mret true
  | Some x =>
    base ← getProperty root basePath;
    match base with
    | None => se_throw (RuntimeError "PropertyNode of the new zone does not exist")
    | Some base => _ ← addChild callback base x; mret true
    end
  end.

Definition setZoneID (p : dptr) (_value : Z) : M unit :=
  d ← this_device p;
  if _value =? d_ZoneID d then mret tt
  else
    _ ← set_device p (d_with_zone _value (if negb (_value =? 0) then _value else d_LastKnownZoneID d));
    root ← apt_gets a_node;
    moved ← match d_node d, root with
            | Some node, Some root =>
              ok ← move_alias p root node;
              _ ← (if ok : bool then publishAliasInZoneGroups callback p else mret tt);
              mret ok
            | _, _ => mret true
            end;
    if moved : bool then update_inputs p else mret tt.

(** The path of the alias in the list of a group. *)
Definition addToGroup (p : dptr) (_groupID : Z) : M unit :=
  d ← this_device p;
  if isValidGroup _groupID && negb (bool_decide (_groupID ∈ d_groupIds d)) then
    _ ← set_device p (d_with_groupIds (d_groupIds d ++ [_groupID]));
    root ← apt_gets a_node;
    match d_node d, root with
    | Some node, Some root =>
      gnode ← createProperty callback root (group_device_path d _groupID);
      _ ← alias gnode (Some node);
      gsubnode ← createProperty callback node ("groups/group" +:+ intToString _groupID false);
      create_int callback gsubnode "id" _groupID
    | _, _ => mret tt
    end
  else mret tt.

(** Erases the first occurrence. *)
Fixpoint erase_group (x : Z) (l : list Z) : list Z :=
  match l with [] => [] | y :: l => if x =? y then l else y :: erase_group x l end.

Definition removeFromGroup (p : dptr) (_groupID : Z) : M unit :=
  d ← this_device p;
  if isValidGroup _groupID && bool_decide (_groupID ∈ d_groupIds d) then
    _ ← set_device p (d_with_groupIds (erase_group _groupID (d_groupIds d)));
    root ← apt_gets a_node;
    match d_node d, root with
    | Some node, Some root =>
      _ ← remove_path callback root (group_device_path d _groupID);
      remove_path callback node ("groups/group" +:+ intToString _groupID false)
    | _, _ => mret tt
    end
  else mret tt.

(** The loop ends when every round removes its group; a list that holds an
    invalid group makes it endless. *)
Fixpoint resetGroups_loop (fuel : nat) (p : dptr) : M unit :=
  d ← this_device p;
  match d_groupIds d with
  | [] => mret tt
  | g :: _ =>
    match fuel with
    | O => endless
    | S fuel => _ ← removeFromGroup p g; resetGroups_loop fuel p
    end
  end.
Definition resetGroups (p : dptr) : M unit :=
  n ← apt_gets (fun a => length (d_groupIds (the_device a p))); resetGroups_loop n p.

(** ** A zone's devices *)

Definition Zone_removeDevice (z : zptr) (_device : DeviceReference) : M unit :=
  zone ← this_zone z;
  if contains (z_Devices zone) _device then
    _ ← match z_node zone with
        | Some n =>
          se_iter (fun g =>
            group ← this_group g;
            remove_path callback n
              ("groups/group" +:+ intToString (g_GroupID group) false +:+ "/devices/" +:+ dsuid2str _device)) (z_Groups zone)
        | None => mret tt
        end;
    set_zone z (fun zone => z_with_Devices (DeviceSet.removeDevice (z_Devices zone) _device) zone)
  else mret tt.

Definition Zone_addDevice (z : zptr) (_device : DeviceReference) : M unit :=
  p ← apt_query (fun a => getDevice a _device);
  d ← this_device p;
  let oldZoneID := d_ZoneID d in
  _ ← (if negb (oldZoneID =? -1) && negb (oldZoneID =? 0) then
         se_try (oldZone ← apt_query (fun a => getZone a oldZoneID); Zone_removeDevice oldZone _device)
           is_runtime_error (fun _ => mret tt)
       else mret tt);
  _ ← set_zone z (fun zone => z_with_Devices (DeviceSet.addDevice (z_Devices zone) _device) zone);
  p ← apt_query (fun a => getDevice a _device);
  id ← apt_gets (fun a => z_ZoneID (the_zone a z));
  setZoneID p id.

(** ** A zone's groups *)

Definition addGroup (z : zptr) (_group : gptr) : M unit :=
  group ← this_group _group;
  zone ← this_zone z;
  if g_GroupID group >? GroupIDGlobalAppDsVentilation then mret tt
  else if negb (g_ZoneID group =? z_ZoneID zone)
  then se_throw (RuntimeError "Zone::addGroup: ZoneID of _group does not match own")
  else
    _ ← set_zone z (fun x => z_with_Groups (z_Groups x ++ [_group]) x);
    match z_node zone with Some _ => group_publish _group | None => mret tt end.

(** A null pointer is in no list. *)
Definition removeGroup (z : zptr) (_group : option gptr) : M unit :=
  _ ← match _group with
      | Some g => set_zone z (fun x => z_with_Groups (erase_ptr g (z_Groups x)) x)
      | None => mret tt
      end;
  zone ← this_zone z;
  match z_node zone with
  | Some n =>
    match _group with
    | Some g => group ← this_group g; remove_path callback n ("groups/group" +:+ intToString (g_GroupID group) false)
    | None => se_throw (UndefinedBehaviour "call on NULL")
    end
  | None => mret tt
  end.

(** [Zone::setZoneID]: the heating mode is stored under the new name. *)
Definition Zone_setZoneID (z : zptr) (_value : Z) : M unit :=
  _ ← set_zone z (z_with_ZoneID _value);
  mode ← apt_gets (fun a => z_HeatingOperationMode (the_zone a z));
  if can_write (heating_value_name _value)
  then apt_modify (put_values <[heating_value_name _value := mode]>) else mret tt.

(** ** A zone's meters *)

Definition addToDSMeter (z : zptr) (_dsMeter : mptr) : M unit :=
  zone ← this_zone z;
  if bool_decide (_dsMeter ∈ z_DSMeters zone) then mret tt
  else
    _ ← set_zone z (fun x => z_with_meters (z_DSMeters x ++ [_dsMeter]) (z_temperatureControlMeter x) x);
    meter ← this_meter _dsMeter;
    match dm_node meter with
    | Some n => x ← createProperty callback n ("zones/" +:+ intToString (z_ZoneID zone) false); alias x (z_node zone)
    | None => mret tt
    end.

Definition removeFromDSMeter (z : zptr) (_dsMeter : mptr) : M unit :=
  zone ← this_zone z;
  if bool_decide (_dsMeter ∈ z_DSMeters zone) then
    _ ← set_zone z (fun x => z_with_meters (erase_ptr _dsMeter (z_DSMeters x)) (z_temperatureControlMeter x) x);
    meter ← this_meter _dsMeter;
    _ ← match dm_node meter with
        | Some n => remove_path callback n ("zones/" +:+ intToString (z_ZoneID zone) false)
        | None => mret tt
        end;
    set_zone z (fun x =>
      z_with_meters (z_DSMeters x)
        (if bool_decide (z_temperatureControlMeter x = Some _dsMeter) then None else z_temperatureControlMeter x) x)
  else se_throw (UndefinedBehaviour "vector::erase(end())").

(** The meter that controls the temperature, if it is present. *)
Definition tryGetPresentTemperatureControlMeter (z : zptr) : M (option mptr) :=
  t ← apt_gets (fun a => z_temperatureControlMeter (the_zone a z));
  match t with
  | Some m =>
    meter ← this_meter m;
    if dm_isPresent meter then
      if dm_capHasTemperatureControl meter then mret (Some m) else se_throw (AssertionFailure "getCapability_HasTemperatureControl")
    else mret None
  | None => mret None
  end.

Definition setTemperatureControlMeter (z : zptr) (m : mptr) : M unit :=
  meter ← this_meter m;
  if negb (dm_capHasTemperatureControl meter) then se_throw (RuntimeError "meter->getCapability_HasTemperatureControl()")
  else if negb (dm_isPresent meter) then se_throw (RuntimeError "meter->isPresent()")
  else set_zone z (fun x => z_with_meters (z_DSMeters x) (Some m) x).

Definition can_control (a : Apartment) (m : mptr) : bool :=
  dm_capHasTemperatureControl (the_meter a m) && dm_isPresent (the_meter a m).
Definition updateTemperatureControlMeter (z : zptr) : M unit :=
  t ← tryGetPresentTemperatureControlMeter z;
  match t with
  | Some _ => mret tt
  | None =>
    m ← apt_gets (fun a => List.find (can_control a) (z_DSMeters (the_zone a z)));
    match m with Some m => setTemperatureControlMeter z m | None => mret tt end
  end.

(** ** The devices of a meter *)

Definition DSMeter_addDevice (m : mptr) (_device : DeviceReference) : M unit :=
  set_meter m (fun x => dm_with_ConnectedDevices (DeviceSet.addDevice (dm_ConnectedDevices x) _device) x).
Definition DSMeter_removeDevice (m : mptr) (_device : DeviceReference) : M unit :=
  set_meter m (fun x => dm_with_ConnectedDevices (DeviceSet.removeDevice (dm_ConnectedDevices x) _device) x).

(** ** What the apartment makes *)

Definition named_group (z : zptr) (id : Z) (name : string) (t : option ApplicationType.t) : M unit :=
  zone ← apt_gets (fun a => z_ZoneID (the_zone a z));
  g ← new_group (Group_new id zone);
  _ ← named g name;
  _ ← match t with Some t => _ ← setType g t; set_group g (g_setIsValid true) | None => mret tt end;
  addGroup z g.

(** The default groups of every zone; the broadcast group gets no application. *)
Definition default_groups : list (Z * string * option ApplicationType.t) :=
  [(GroupIDBroadcast, "broadcast", None);
   (GroupIDYellow, "yellow", Some ApplicationType.Lights);
   (GroupIDGray, "gray", Some ApplicationType.Blinds);
   (GroupIDHeating, "heating", Some ApplicationType.Heating);
   (GroupIDCyan, "cyan", Some ApplicationType.Audio);
   (GroupIDViolet, "magenta", Some ApplicationType.Video);
   (GroupIDRed, "reserved1", Some ApplicationType.None);
   (GroupIDGreen, "reserved2", Some ApplicationType.None);
   (GroupIDBlack, "black", Some ApplicationType.Joker);
   (GroupIDCooling, "cooling", Some ApplicationType.Cooling);
   (GroupIDVentilation, "ventilation", Some ApplicationType.Ventilation);
   (GroupIDWindow, "window", Some ApplicationType.Window);
   (GroupIDRecirculation, "recirculation", Some ApplicationType.Recirculation);
   (GroupIDControlTemperature, "controltemperature", Some ApplicationType.ControlTemperature)].

Definition addDefaultGroupsToZone (z : zptr) : M unit :=
  se_iter (fun '(id, name, t) => named_group z id name t) default_groups.

(** [Cluster(i, apartment)] asks the apartment for its zone 0. *)
Definition add_cluster (z : zptr) (i : Z) : M unit :=
  _ ← apt_query (fun a => getZone a 0);
  g ← new_group (Cluster_new i);
  addGroup z g.

Definition allocateZone (_zoneID : Z) : M zptr :=
  existing ← apt_gets (fun a => tryGetZone a _zoneID);
  match existing with
  | Some z => _ ← zone_publishToPropertyTree callback convert setApplicationTypeInt z; mret z
  | None =>
    values ← apt_gets a_values;
    z ← new_zone (Zone_new _zoneID values);
    _ ← zone_publishToPropertyTree callback convert setApplicationTypeInt z;
    _ ← addDefaultGroupsToZone z;
    _ ← apt_modify (put_m_Zones (fun l => l ++ [z]));
    _ ← (if _zoneID =? 0 then
           _ ← se_iter (add_cluster z) user_groups;
           named_group z GroupIDGlobalAppDsVentilation "apartmentVentilation" (Some ApplicationType.ApartmentVentilation)
         else mret tt);
    mret z
  end.

(** The texts of the constructor and the clock: [setFirstSeen(DateTime())]. *)
Definition Device_new (_dsid : dsuid_t) (now : DateTime) : Device :=
  d_with_published (pub_with_meters (dsid_text DSUID_NULL) (dsuid2str DSUID_NULL) (dsid_text DSUID_NULL) (dsuid2str DSUID_NULL))
    (mkDevice _dsid "" 0xFFFF 0 0 DSUID_NULL DSUID_NULL 0 0 0 0 [] new_physical false 0 SceneOff SceneOff now [] [] None None None
       no_info).

Definition allocateDevice (_dsid : dsuid_t) : M dptr :=
  existing ← apt_gets (fun a => tryGetDeviceByDSID a _dsid);
  p ← match existing with
      | Some p => mret p
      | None =>
        now ← gets clock;
        p ← new_device (Device_new _dsid now);
        _ ← apt_modify (put_m_Devices (fun l => l ++ [p]));
        mret p
      end;
  z ← apt_query (fun a => getZone a 0);
  id ← apt_gets (fun a => d_DSID (the_device a p));
  _ ← Zone_addDevice z id;
  _ ← device_publishToPropertyTree callback p;
  mret p.

Definition DSMeter_new (_dsid : dsuid_t) (now : DateTime) : DSMeter :=
  mkDSMeter _dsid "" new_physical false false false [] None
    (mkMeterInfo BusMember_Unknown false 0 now 0 0 now "" "" 0 0 0 "" false false false 255 "" "" "" "" "" "" "" "").

Definition allocateDSMeter (_dsid : dsuid_t) : M mptr :=
  existing ← apt_gets (fun a => List.find (fun m => bool_decide (dm_DSID (the_meter a m) = _dsid)) (m_DSMeters a));
  match existing with
  | Some m => mret m
  | None =>
    now ← gets clock;
    m ← new_meter (DSMeter_new _dsid now);
    _ ← meter_publishToPropertyTree callback convert m;
    _ ← apt_modify (put_m_DSMeters (fun l => l ++ [m]));
    mret m
  end.

(** [setPropertySystem], for a property system *)
Definition setPropertySystem : M unit :=
  n ← sys_createProperty callback "/apartment";
  _ ← apt_modify (put_node n);
  zs ← apt_gets m_Zones;
  se_iter (zone_publishToPropertyTree callback convert setApplicationTypeInt) zs.

(** ** What the apartment removes *)

Definition removeZone (_zoneID : Z) : M unit :=
  z ← apt_gets (fun a => tryGetZone a _zoneID);
  match z with
  | Some z => _ ← zone_removeFromPropertyTree callback z; apt_modify (put_m_Zones (erase_ptr z))
  | None => mret tt
  end.

Definition removeDSMeter (_dsMeter : dsuid_t) : M unit :=
  apt_modify (fun a =>
    match List.find (fun m => bool_decide (dm_DSID (the_meter a m) = _dsMeter)) (m_DSMeters a) with
    | Some m => put_m_DSMeters (erase_ptr m) a
    | None => a
    end).

Definition removeInactiveMeters : M unit :=
  ms ← apt_gets getDSMeters;
  dirtyFlag ← (fix go (ms : list mptr) : M bool :=
    match ms with
    | [] => mret false
    | m :: ms =>
      meter ← this_meter m;
      b ← (if negb (dm_isPresent meter) then _ ← removeDSMeter (dm_DSID meter); mret true else mret false);
      rest ← go ms;
      mret (b || rest)
    end) ms;
  if dirtyFlag : bool then
    mm ← apt_gets a_modelMaintenance;
    match mm with
    | Some _ => addModelEvent etModelDirty
    | None => se_throw (UndefinedBehaviour "call on NULL")
    end
  else mret tt.

(** The destructor of an input gives its state back and leaves its field. *)
Definition input_destroy (b : DeviceBinaryInput) : M unit :=
  _ ← in_destructor (se_try (removeState (b_state b)) is_std_exception (fun _ => mret tt));
  match b_field b with
  | Some (g, type) => in_destructor (removeSubState new_ICalSchedule callback can_write g type (b_state b))
  | None => mret tt
  end.
Definition clearBinaryInputs (p : dptr) : M unit :=
  d ← this_device p;
  _ ← se_iter input_destroy (d_binaryInputs d);
  set_device p (d_with_binaryInputs []).

Definition clearStates (p : dptr) : M unit :=
  d ← this_device p;
  _ ← se_iter (fun x => se_try (removeState (snd x)) is_item_not_found (fun _ => mret tt)) (pub_states (d_published d));
  set_device p (d_with_published (pub_with_states [])).

(** A new event of a device, pushed if there is a server. *)
Definition push_device_event (p : dptr) (props : list (string * string)) : M unit :=
  now ← gets clock;
  inst ← st_gets hasInstance;
  if inst : bool then push_new new_ICalSchedule callback (ev_set_all props (Event_device now EventName.DeviceEvent p)) else mret tt.

Definition removeDevice (_device : dsuid_t) : M unit :=
  p ← apt_gets (fun a => tryGetDeviceByDSID a _device);
  match p with
  | None => mret tt
  | Some p =>
    d ← this_device p;
    let zoneID := d_ZoneID d in
    _ ← push_device_event p [("action", "deleted"); ("dsuid", dsuid2str (d_DSID d)); ("zoneID", intToString (d_ZoneID d) false)];
    _ ← (if negb (zoneID =? 0) then z ← apt_query (fun a => getZone a zoneID); Zone_removeDevice z (d_DSID d) else mret tt);
    z ← apt_query (fun a => getZone a 0);
    _ ← Zone_removeDevice z (d_DSID d);
    _ ← se_try
          (m ← apt_query (fun a => getDSMeterByDSID a (d_DSMeterDSID d)); DSMeter_removeDevice m (d_DSID d))
          is_item_not_found (fun _ => mret tt);
    _ ← clearBinaryInputs p;
    _ ← clearStates p;
    apt_modify (put_m_Devices (erase_ptr p))
  end.
End Membership.
