(* ===== verification/StructureFrames.v ===== *)
(** What leaves the structure of the apartment alone: everything but the few
    assignments of [Membership.v] to the members behind [answer]. *)
From stdpp Require Import base option list strings gmap.
From Stdlib Require Import ZArith Lia Ascii PrimFloat.
From Stdlib Require String.
From S2P Require Import Prelude CxxString Base NumConv FloatConv Ds485types ModelConst ModelFeatures DataTypes Calendar DateTools.
From S2P Require Import Behavior Event EventCreate PropertyTree PropertyTreeFacts PropertyReader TreeFrame EventQueue EventQueueFacts.
From S2P Require Import State StateFacts SceneAccess ApartmentModel DeviceInfo DeviceSet.
From S2P Require Import ApartmentWorld ExampleWorld Status StatusFacts Publish GroupOps Membership.

Open Scope string_scope.
Open Scope list_scope.
Open Scope Z_scope.

(** * The structure, by questions *)

Definition dkey (d : Device) : dsuid_t * Z * list Z := (d_DSID d, d_ZoneID d, d_groupIds d).
Definition zkey (z : Zone) : Z * list DeviceReference * list gptr := (z_ZoneID z, z_Devices z, z_Groups z).

Inductive Query := QDevice (p : dptr) | QZone (z : zptr) | QGroup (g : gptr) | QDevices | QZones.
Inductive Answer :=
| ADevice (k : dsuid_t * Z * list Z) | AZone (k : Z * list DeviceReference * list gptr) | AGroup (zone : Z) | APointers (l : list nat).

Definition answer (a : Apartment) (q : Query) : Answer :=
  match q with
  | QDevice p => ADevice (dkey (the_device a p))
  | QZone z => AZone (zkey (the_zone a z))
  | QGroup g => AGroup (g_ZoneID (the_group a g))
  | QDevices => APointers (m_Devices a)
  | QZones => APointers (m_Zones a)
  end.

Definition same_structure (a b : Apartment) : Prop := forall q, answer b q = answer a q.

Lemma the_device_upd a p f p' : the_device (upd_device p f a) p' = if decide (p = p') then f (the_device a p) else the_device a p'.
Proof. unfold the_device at 1. cbn. case_decide as E; [subst; by rewrite lookup_insert_eq|by rewrite lookup_insert_ne]. Qed.
Lemma the_zone_upd a p f p' : the_zone (upd_zone p f a) p' = if decide (p = p') then f (the_zone a p) else the_zone a p'.
Proof. unfold the_zone at 1. cbn. case_decide as E; [subst; by rewrite lookup_insert_eq|by rewrite lookup_insert_ne]. Qed.
Lemma the_group_upd a p f p' : the_group (upd_group p f a) p' = if decide (p = p') then f (the_group a p) else the_group a p'.
Proof. unfold the_group at 1. cbn. case_decide as E; [subst; by rewrite lookup_insert_eq|by rewrite lookup_insert_ne]. Qed.

(** Changes of a single object that the questions do not see. *)
Lemma answer_upd_device a p f q : dkey (f (the_device a p)) = dkey (the_device a p) -> answer (upd_device p f a) q = answer a q.
Proof. intros Hf. destruct q; try done. cbn. rewrite the_device_upd. case_decide; [by subst; f_equal|done]. Qed.
Lemma answer_upd_zone a p f q : zkey (f (the_zone a p)) = zkey (the_zone a p) -> answer (upd_zone p f a) q = answer a q.
Proof. intros Hf. destruct q; try done. cbn. rewrite the_zone_upd. case_decide; [by subst; f_equal|done]. Qed.
Lemma answer_upd_group a p f q : g_ZoneID (f (the_group a p)) = g_ZoneID (the_group a p) -> answer (upd_group p f a) q = answer a q.
Proof. intros Hf. destruct q; try done. cbn. rewrite the_group_upd. case_decide; [by subst; f_equal|done]. Qed.
Lemma answer_upd_meter a p f q : answer (upd_meter p f a) q = answer a q.
Proof. by destruct q. Qed.

Ltac all_frames := repeat first [progress solve_frames | apply frames_iter; intros ?].

Create HintDb structure.
#[export] Hint Resolve answer_upd_device answer_upd_zone answer_upd_group answer_upd_meter : structure.
#[export] Hint Extern 1 (answer _ ?q = answer _ ?q) => by destruct q : structure.

(** Events whose properties neither schedule them nor make them unique. *)
Definition plain_props (l : list (string * string)) : bool :=
  forallb (fun x => negb (String.eqb (fst x) p_Time || String.eqb (fst x) p_ICalStartTime || String.eqb (fst x) p_Unique)) l.
Definition plain (e : Event) : Prop :=
  ev_TimeSet e = false /\ ev_Properties e !! p_ICalStartTime = None /\ ev_Properties e !! p_Unique = None.

Lemma plain_set n v e : negb (String.eqb n p_Time || String.eqb n p_ICalStartTime || String.eqb n p_Unique) = true ->
  plain e -> plain (snd (ev_setProperty n v e)).
Proof.
  intros Hn (H1 & H2 & H3). apply negb_true_iff, orb_false_iff in Hn as [[Ht Hi]%orb_false_iff Hu].
  apply String.eqb_neq in Hi, Hu. unfold ev_setProperty. rewrite Ht. repeat case_match; split_and!; try done; cbn;
    unfold props_set; by rewrite lookup_insert_ne.
Qed.
Lemma plain_set_all props e : plain_props props = true -> plain e -> plain (ev_set_all props e).
Proof.
  revert e. induction props as [|[k v] l IH]; intros e Hp He; [done|].
  apply andb_true_iff in Hp as [Hk Hl]. cbn [ev_set_all fold_left]. by apply IH, plain_set.
Qed.
Lemma plain_immediate e : plain e -> immediate e = true /\ is_unique e = false.
Proof.
  intros (H1 & H2 & H3).
  unfold immediate, is_unique. unfold ev_hasPropertySet, ev_getPropertyByName, props_has, props_get_default. cbn [String.eqb].
  change (p_Time =? p_Name)%string with false. change (p_Time =? p_Location)%string with false. change (p_Time =? p_Context)%string with false.
  change (p_Time =? p_Time)%string with true. cbn. by rewrite H1, H2, H3.
Qed.
Lemma plain_event now n p props : plain_props props = true ->
  immediate (ev_set_all props (Event_device now n p)) = true /\ is_unique (ev_set_all props (Event_device now n p)) = false.
Proof. intros Hp. apply plain_immediate, plain_set_all; [done|]. split_and!; [done|apply lookup_empty|apply lookup_empty]. Qed.

Section Frames.
Context {ical W : Type} {Sched : Schedule ical} {EW : EventWorld ical W} {SW : StateWorld W} {AW : ApartmentWorld W}.
Context {LC : Libc} {SD : Strtod} {BM : BusMembers} {DU : Dsuid} {Sep : SeparateWorlds EW SW} {SepA : SeparateApartment EW SW AW}.
Context (new_ICalSchedule : string -> string -> DateTime -> res ical).
Context (callback : notification -> lid -> nid -> nid -> heap W -> heap W).
Context (can_write : string -> bool) (bus_error : list ActionRequest -> ActionRequest -> option exn).
Context (convert : string -> res string) (setApplicationTypeInt : gptr -> Z -> W -> W) (m_dss : bool).

Context (q : Query).
Definition obs (w : W) : Answer := answer (get_apt w) q.
Context (Hd : discreet obs callback) (Hset : forall g v w, obs (setApplicationTypeInt g v w) = obs w).

Lemma obs_put_st x w : obs (put_st x w) = obs w.
Proof. unfold obs. by rewrite apt_of_put_st. Qed.
Lemma obs_put_eq x w : obs (put_eq x w) = obs w.
Proof. unfold obs. by rewrite apt_of_put_eq. Qed.
Lemma obs_upd_apt f w : (forall a, answer (f a) q = answer a q) -> obs (upd_apt f w) = obs w.
Proof. intros Hf. unfold obs, upd_apt. by rewrite get_put_apt. Qed.
Lemma answer_model_event e a : answer (add_model_event e a) q = answer a q.
Proof. by destruct q. Qed.
#[local] Hint Resolve obs_put_st obs_put_eq obs_upd_apt answer_model_event : structure.

Lemma frames_apt_gets {A} (f : Apartment -> A) : frames obs (apt_gets f).
Proof. apply frames_gets. Qed.
Lemma frames_apt_query {A} (f : Apartment -> res A) : frames obs (apt_query f).
Proof. by intros h. Qed.
Lemma frames_st_gets {A} (f : StateStore -> A) : frames obs (st_gets f).
Proof. apply frames_gets. Qed.
Lemma frames_eq_gets {A} (f : EQ ical -> A) : frames obs (gets f).
Proof. apply frames_gets. Qed.
Lemma frames_apt_modify f : (forall a, answer (f a) q = answer a q) -> frames obs (apt_modify f).
Proof. intros Hf. apply frames_ext. intros w. by apply obs_upd_apt. Qed.
Lemma frames_st f : frames obs (st_modify f).
Proof. apply frames_ext. intros e. apply obs_put_st. Qed.
#[local] Hint Resolve frames_apt_gets frames_apt_query frames_st_gets frames_eq_gets frames_st : frames.
#[local] Hint Extern 2 (frames _ (apt_modify _)) => (apply frames_apt_modify; intros ?; solve [auto with structure]) : frames.

(** ** The property tree and its proxies *)

Lemma frames_unlinkProxy n r : frames obs (unlinkProxy n r).
Proof.
  apply frames_bind; [apply frames_gets|]. intros fuel. revert n.
  induction fuel as [|fuel IH]; intros n; cbn [unlinkProxy_rec]; unfold endless; [apply frames_throw|].
  assert (frames obs (getValueType n)) as Hv by (unfold getValueType; solve_frames).
  repeat (apply frames_bind; [|intros ?]); try solve [eauto with frames]; case_match; try solve [eauto with frames].
  - apply frames_iter. intros c. apply frames_bind; [apply IH|eauto with frames].
  - apply frames_bind; [done|]. intros ty. case_bool_decide; [apply frames_throw|].
    apply frames_bind; [|intros ?; apply frames_ret]. by apply frames_update.
Qed.
#[local] Hint Resolve frames_unlinkProxy : frames.

(** The hypotheses of [StatusFacts.v], for [obs]. *)
Lemma frames_setState_structure s o v : frames obs (setState new_ICalSchedule callback can_write s o v).
Proof. apply (frames_setState new_ICalSchedule callback can_write obs Hd); intros; [apply obs_put_st|apply obs_put_eq]. Qed.
#[local] Hint Resolve frames_setState_structure : frames.

Lemma frames_get_state_structure s : frames obs (get_state s).
Proof. apply frames_get_state. Qed.
#[local] Hint Resolve frames_get_state_structure : frames.
Lemma frames_update_state s f : frames obs (update_state s f).
Proof. unfold update_state, set_state. solve_frames. Qed.
#[local] Hint Resolve frames_update_state : frames.

Lemma frames_sys_getProperty path : frames obs (sys_getProperty path).
Proof. unfold sys_getProperty. solve_frames. Qed.
Lemma frames_sys_createProperty path : frames obs (sys_createProperty callback path).
Proof. unfold sys_createProperty. solve_frames. Qed.
#[local] Hint Resolve frames_sys_getProperty frames_sys_createProperty : frames.
Lemma frames_link_member_string n path s f : frames obs (link_string callback n path (string_proxy s f)).
Proof. unfold link_string. apply frames_bind; [solve_frames|]. intros c. apply frames_bind; [|solve_frames]. by apply frames_linkToProxy. Qed.
Lemma frames_link_member_function n path s f : frames obs (link_string callback n path (function_proxy s f)).
Proof. unfold link_string. apply frames_bind; [solve_frames|]. intros c. apply frames_bind; [|solve_frames]. by apply frames_linkToProxy. Qed.
Lemma frames_link_member_int n path s f : frames obs (link_int callback n path (int_proxy s f)).
Proof. unfold link_int. apply frames_bind; [solve_frames|]. intros c. apply frames_bind; [|solve_frames]. by apply frames_linkToProxy. Qed.
#[local] Hint Resolve frames_link_member_string frames_link_member_function frames_link_member_int : frames.

Lemma frames_removeFromPropertyTree s : frames obs (State.removeFromPropertyTree callback s).
Proof. unfold State.removeFromPropertyTree. solve_frames. Qed.
#[local] Hint Resolve frames_removeFromPropertyTree : frames.
Lemma frames_publish_state s : frames obs (State.publishToPropertyTree callback s).
Proof. unfold State.publishToPropertyTree, publish_members. solve_frames. Qed.
#[local] Hint Resolve frames_publish_state : frames.
Lemma frames_construct s st : frames obs (construct callback s st).
Proof. unfold construct, set_state. solve_frames. Qed.
#[local] Hint Resolve frames_construct : frames.
Lemma frames_setPersistence s b : frames obs (setPersistence s b).
Proof. unfold setPersistence, load, getStorageName. solve_frames. Qed.
#[local] Hint Resolve frames_setPersistence : frames.

(** ** Publication *)

Notation quiet_proxy := (proxy_quiet obs).

Lemma quiet_upd_apt f w : (forall a, answer (f a) q = answer a q) -> obs (upd_apt f w) = obs w.
Proof. apply obs_upd_apt. Qed.
Lemma quiet_container_setName old put n w : (forall n a, answer (put n a) q = answer a q) ->
  obs (container_setName convert old put n w) = obs w.
Proof.
  intros Hp. unfold container_setName. case_match; [done|]. case_match; [|done].
  case_match; rewrite !quiet_upd_apt; auto; intros ?; auto; apply answer_model_event.
Qed.
Lemma quiet_zone_setName z n w : obs (zone_setName convert z n w) = obs w.
Proof. apply quiet_container_setName. auto with structure. Qed.
Lemma quiet_group_setName g n w : obs (group_setName convert g n w) = obs w.
Proof. apply quiet_container_setName. auto with structure. Qed.
Lemma quiet_meter_setName m n w : obs (meter_setName convert m n w) = obs w.
Proof. apply quiet_container_setName. auto with structure. Qed.
Lemma quiet_device_setName p n w : obs (device_setName p n w) = obs w.
Proof.
  unfold device_setName. case_match; [done|]. apply quiet_upd_apt. intros a. rewrite answer_model_event. auto with structure.
Qed.
#[local] Hint Resolve quiet_zone_setName quiet_group_setName quiet_meter_setName quiet_device_setName Hset : structure.
#[local] Hint Extern 1 (obs (upd_apt _ _) = _) => (apply quiet_upd_apt; intros ?; solve [auto with structure]) : structure.

Lemma frames_link n x : quiet_proxy (snd x) -> frames obs (link callback n x).
Proof.
  intros Hp. unfold link. apply frames_bind; [solve_frames|]. intros c. apply frames_bind; [|solve_frames].
  destruct x as [path []]; by apply frames_linkToProxy.
Qed.
Lemma frames_links n l : Forall (fun x => quiet_proxy (snd x)) l -> frames obs (links callback n l).
Proof.
  induction 1 as [|x l Hx Hl IH]; [apply frames_ret|]. unfold links. cbn [se_iter]. apply frames_bind; [by apply frames_link|done].
Qed.
#[local] Hint Extern 1 (frames _ (link _ _ _)) => (apply frames_link; cbn; intros; solve [auto with structure]) : frames.
#[local] Hint Extern 1 (frames _ (links _ _ _)) =>
  (apply frames_links; repeat (apply Forall_cons_2; [cbn; intros; solve [auto with structure]|]); apply Forall_nil_2) : frames.

Lemma frames_create_int n path v : frames obs (create_int callback n path v).
Proof. unfold create_int, setIntegerValue. solve_frames. Qed.
Lemma frames_create_string n path v : frames obs (create_string callback n path v).
Proof. unfold create_string, setStringValue. solve_frames. Qed.
Lemma frames_remove_node n : frames obs (remove_node callback n).
Proof. unfold remove_node. solve_frames. Qed.
#[local] Hint Resolve frames_create_int frames_create_string frames_remove_node : frames.
Lemma frames_remove_path n path : frames obs (remove_path callback n path).
Proof. unfold remove_path. solve_frames. Qed.
Lemma frames_remove_child_at n path : frames obs (remove_child_at callback n path).
Proof. unfold remove_child_at. solve_frames. Qed.
#[local] Hint Resolve frames_remove_path frames_remove_child_at : frames.

Lemma frames_behavior_publish g b n : frames obs (behavior_publish callback g b n).
Proof. unfold behavior_publish. solve_frames. Qed.
Lemma frames_behavior_remove b n : frames obs (behavior_remove callback b n).
Proof. unfold behavior_remove. solve_frames. Qed.
#[local] Hint Resolve frames_behavior_publish frames_behavior_remove : frames.
Lemma frames_Group_publish g : frames obs (Group_publish callback convert setApplicationTypeInt g).
Proof. unfold Group_publish. solve_frames. Qed.
#[local] Hint Resolve frames_Group_publish : frames.
Lemma frames_updateLockedScenes g : frames obs (updateLockedScenes callback g).
Proof. unfold updateLockedScenes. all_frames. Qed.
#[local] Hint Resolve frames_updateLockedScenes : frames.
Lemma answer_upd_cluster a g f : answer (upd_cluster g f a) q = answer a q.
Proof. by apply answer_upd_group. Qed.
#[local] Hint Resolve answer_upd_cluster : structure.
Lemma frames_Cluster_publish g : frames obs (Cluster_publish callback convert setApplicationTypeInt g).
Proof. unfold Cluster_publish. all_frames. Qed.
#[local] Hint Resolve frames_Cluster_publish : frames.
Lemma frames_group_publish g : frames obs (group_publishToPropertyTree callback convert setApplicationTypeInt g).
Proof. unfold group_publishToPropertyTree. all_frames. Qed.
#[local] Hint Resolve frames_group_publish : frames.
Lemma frames_zone_publish z : frames obs (zone_publishToPropertyTree callback convert setApplicationTypeInt z).
Proof. unfold zone_publishToPropertyTree. all_frames. Qed.
Lemma frames_zone_remove z : frames obs (zone_removeFromPropertyTree callback z).
Proof. unfold zone_removeFromPropertyTree. all_frames. Qed.
#[local] Hint Resolve frames_zone_publish frames_zone_remove : frames.
Lemma frames_meter_publish m : frames obs (meter_publishToPropertyTree callback convert m).
Proof. unfold meter_publishToPropertyTree. all_frames. Qed.
Lemma frames_meter_node dsid : frames obs (meter_node dsid).
Proof. unfold meter_node. all_frames. Qed.
#[local] Hint Resolve frames_meter_publish frames_meter_node : frames.
Lemma frames_setDSMeter p m : frames obs (setDSMeter callback p m).
Proof. unfold setDSMeter. all_frames. Qed.
#[local] Hint Resolve frames_setDSMeter : frames.
Lemma frames_publishAliasInZoneGroups p : frames obs (publishAliasInZoneGroups callback p).
Proof. unfold publishAliasInZoneGroups, apartment_node. all_frames. Qed.
Lemma frames_publishVdc p : frames obs (publishVdcToPropertyTree callback p).
Proof. unfold publishVdcToPropertyTree. all_frames. Qed.
Lemma frames_publishValveType p : frames obs (publishValveTypeToPropertyTree callback p).
Proof. unfold publishValveTypeToPropertyTree. all_frames. Qed.
Lemma frames_republishModelFeatures p : frames obs (republishModelFeaturesToPropertyTree callback p).
Proof. unfold republishModelFeaturesToPropertyTree, setBooleanValue. all_frames. Qed.
Lemma frames_link_or_empty n path text pr : quiet_proxy pr -> frames obs (link_or_empty callback n path text pr).
Proof. intros Hp. unfold link_or_empty. case_match; [by apply frames_link|solve_frames]. Qed.
Lemma frames_publish_alias p root n : frames obs (publish_alias callback p root n).
Proof. unfold publish_alias. all_frames. Qed.
#[local] Hint Resolve frames_publishAliasInZoneGroups frames_publishVdc frames_publishValveType frames_republishModelFeatures
  frames_publish_alias : frames.
#[local] Hint Extern 1 (frames _ (link_or_empty _ _ _ _ _)) => (apply frames_link_or_empty; cbn; intros; done) : frames.
Lemma frames_device_publish p : frames obs (device_publishToPropertyTree callback p).
Proof. unfold device_publishToPropertyTree, identity_members, product_members, history_members, configuration_members, site_members. all_frames. Qed.
#[local] Hint Resolve frames_device_publish : frames.
Lemma frames_device_remove p : frames obs (device_removeFromPropertyTree callback p).
Proof. unfold device_removeFromPropertyTree, release_node, remove_if_child. all_frames. Qed.
#[local] Hint Resolve frames_device_remove : frames.

(** ** Status fields and events *)

Lemma frames_set_status g t : frames obs (set_status g t).
Proof. unfold set_status. solve_frames. Qed.
Lemma frames_getStatus g : frames obs (getStatus g).
Proof. unfold getStatus. solve_frames. Qed.
#[local] Hint Resolve frames_set_status frames_getStatus : frames.
Lemma frames_the_field g t : frames obs (the_field g t).
Proof. unfold the_field. solve_frames. Qed.
Lemma frames_set_items g t l : frames obs (set_items g t l).
Proof. unfold set_items. solve_frames. Qed.
Lemma frames_sub_state s : frames obs (sub_state s).
Proof. unfold sub_state. solve_frames. Qed.
#[local] Hint Resolve frames_the_field frames_set_items frames_sub_state : frames.
Lemma frames_setValueAndPush g t v : frames obs (setValueAndPush new_ICalSchedule callback can_write g t v).
Proof. unfold setValueAndPush, push, asyncPushLoopRestart. solve_frames. Qed.
#[local] Hint Resolve frames_setValueAndPush : frames.
Lemma frames_update_field g t : frames obs (update_field new_ICalSchedule callback can_write g t).
Proof. unfold update_field, getValue. solve_frames. Qed.
#[local] Hint Resolve frames_update_field : frames.
Lemma frames_addSubState g t s : frames obs (addSubState new_ICalSchedule callback can_write g t s).
Proof. unfold addSubState. solve_frames. Qed.
Lemma frames_removeSubState g t s : frames obs (removeSubState new_ICalSchedule callback can_write g t s).
Proof. unfold removeSubState. solve_frames. Qed.
#[local] Hint Resolve frames_addSubState frames_removeSubState : frames.
Lemma frames_new_Status g : frames obs (new_Status callback g).
Proof. unfold new_Status, new_StatusField, State_typed, fresh_state, asyncPushLoopRestart. solve_frames. Qed.
#[local] Hint Resolve frames_new_Status : frames.
Lemma frames_updateStatusFieldHandle p i : frames obs (updateStatusFieldHandle new_ICalSchedule callback can_write p i).
Proof. unfold updateStatusFieldHandle, get_input, upd_input, in_destructor. solve_frames. Qed.
#[local] Hint Resolve frames_updateStatusFieldHandle : frames.

Lemma frames_push_device_event p props : plain_props props = true -> frames obs (push_device_event new_ICalSchedule callback p props).
Proof.
  intros Hp. unfold push_device_event. apply frames_bind; [solve_frames|]. intros now. apply frames_bind; [solve_frames|]. intros inst.
  destruct inst; [|solve_frames]. intros h Hq. destruct (plain_event now EventName.DeviceEvent p props Hp) as [Hi Hu].
  destruct (push_new_run new_ICalSchedule callback _ h Hi Hu) as (e & _ & ->). split; [exact Hq|]. cbn. apply obs_put_eq.
Qed.

(** ** The registry of states, groups *)

Lemma frames_states_now : frames obs states_now.
Proof. by intros h. Qed.
Lemma frames_fresh_state : frames obs fresh_state.
Proof. unfold fresh_state. solve_frames. Qed.
#[local] Hint Resolve frames_states_now frames_fresh_state : frames.
Lemma frames_allocateState s : frames obs (GroupOps.allocateState s).
Proof. unfold GroupOps.allocateState. solve_frames. Qed.
Lemma frames_removeState s : frames obs (GroupOps.removeState s).
Proof. unfold GroupOps.removeState. solve_frames. Qed.
#[local] Hint Resolve frames_allocateState frames_removeState : frames.
Lemma frames_allocateState_named t n i : frames obs (allocateState_named callback t n i).
Proof. unfold allocateState_named, State_typed. solve_frames. Qed.
Lemma frames_getNonScriptState n : frames obs (GroupOps.getNonScriptState n).
Proof. unfold GroupOps.getNonScriptState. solve_frames. Qed.
Lemma frames_this_group g : frames obs (this_group g).
Proof. unfold this_group. solve_frames. Qed.
#[local] Hint Resolve frames_allocateState_named frames_getNonScriptState frames_this_group : frames.
Lemma frames_set_group g f : (forall x, g_ZoneID (f x) = g_ZoneID x) -> frames obs (set_group g f).
Proof. intros Hf. unfold set_group. apply frames_apt_modify. intros a. by apply answer_upd_group. Qed.
#[local] Hint Extern 1 (frames _ (set_group _ _)) => (apply frames_set_group; done) : frames.
Lemma frames_allocate_group_state g : frames obs (allocate_group_state callback g).
Proof. unfold allocate_group_state, State_group. solve_frames. Qed.
#[local] Hint Resolve frames_allocate_group_state : frames.
Lemma frames_setApplicationType g t : frames obs (setApplicationType callback m_dss g t).
Proof. unfold setApplicationType. solve_frames. Qed.
Lemma frames_setApplicationConfiguration g c : frames obs (setApplicationConfiguration g c).
Proof. unfold setApplicationConfiguration. solve_frames. Qed.
Lemma frames_setName g n : frames obs (setName convert g n).
Proof. apply frames_ext. intros w. apply quiet_group_setName. Qed.
#[local] Hint Resolve frames_setApplicationType frames_setApplicationConfiguration frames_setName : frames.
Lemma frames_group_setFromSpec g spec : frames obs (group_setFromSpec callback convert m_dss g spec).
Proof. unfold group_setFromSpec. solve_frames. Qed.
#[local] Hint Resolve frames_group_setFromSpec : frames.

(** ** Devices, zones and meters *)

Lemma frames_this_device p : frames obs (this_device p).
Proof. unfold this_device. solve_frames. Qed.
Lemma frames_this_zone z : frames obs (this_zone z).
Proof. unfold this_zone. solve_frames. Qed.
Lemma frames_this_meter m : frames obs (this_meter m).
Proof. unfold this_meter. solve_frames. Qed.
#[local] Hint Resolve frames_this_device frames_this_zone frames_this_meter : frames.
Lemma frames_set_device p f : (forall x, dkey (f x) = dkey x) -> frames obs (set_device p f).
Proof. intros Hf. unfold set_device. apply frames_apt_modify. intros a. by apply answer_upd_device. Qed.
Lemma frames_set_zone z f : (forall x, zkey (f x) = zkey x) -> frames obs (set_zone z f).
Proof. intros Hf. unfold set_zone. apply frames_apt_modify. intros a. by apply answer_upd_zone. Qed.
Lemma frames_set_meter m f : frames obs (set_meter m f).
Proof. unfold set_meter. apply frames_apt_modify. intros a. by apply answer_upd_meter. Qed.
#[local] Hint Extern 1 (frames _ (set_device _ _)) => (apply frames_set_device; done) : frames.
#[local] Hint Extern 1 (frames _ (set_zone _ _)) => (apply frames_set_zone; done) : frames.
#[local] Hint Resolve frames_set_meter : frames.
Lemma frames_addModelEvent e : frames obs (addModelEvent e).
Proof. unfold addModelEvent. apply frames_apt_modify. intros a. apply answer_model_event. Qed.
#[local] Hint Resolve frames_addModelEvent : frames.

Lemma frames_update_inputs p : frames obs (update_inputs new_ICalSchedule callback can_write p).
Proof. unfold update_inputs. all_frames. Qed.
Lemma frames_move_alias p root node : frames obs (move_alias callback p root node).
Proof. unfold move_alias, size_. all_frames. Qed.
#[local] Hint Resolve frames_update_inputs frames_move_alias : frames.
Lemma frames_addToDSMeter z m : frames obs (addToDSMeter callback z m).
Proof. unfold addToDSMeter. all_frames. Qed.
Lemma frames_removeFromDSMeter z m : frames obs (removeFromDSMeter callback z m).
Proof. unfold removeFromDSMeter. all_frames. Qed.
Lemma frames_updateTemperatureControlMeter z : frames obs (updateTemperatureControlMeter z).
Proof. unfold updateTemperatureControlMeter, tryGetPresentTemperatureControlMeter, setTemperatureControlMeter. all_frames. Qed.
Lemma frames_new_meter m : frames obs (new_meter m).
Proof. unfold new_meter. all_frames. Qed.
Lemma frames_put_DSMeters f : frames obs (apt_modify (put_m_DSMeters f)).
Proof. apply frames_apt_modify. intros a. by destruct q. Qed.
#[local] Hint Resolve frames_new_meter frames_put_DSMeters : frames.
Lemma frames_allocateDSMeter dsid : frames obs (allocateDSMeter callback convert dsid).
Proof. unfold allocateDSMeter. all_frames. Qed.
Lemma frames_removeDSMeter dsid : frames obs (removeDSMeter dsid).
Proof. unfold removeDSMeter. apply frames_apt_modify. intros a. case_match; by destruct q. Qed.
#[local] Hint Resolve frames_removeDSMeter : frames.
Lemma frames_removeInactiveMeters : frames obs removeInactiveMeters.
Proof.
  unfold removeInactiveMeters. apply frames_bind; [solve_frames|]. intros ms. apply frames_bind; [|intros ?; solve_frames].
  induction ms as [|m ms IH]; [apply frames_ret|]. apply frames_bind; [solve_frames|]. intros meter.
  apply frames_bind; [case_match; solve_frames|]. intros b. apply frames_bind; [exact IH|]. intros ?. apply frames_ret.
Qed.
Lemma frames_setPropertySystem : frames obs (setPropertySystem callback convert setApplicationTypeInt).
Proof. unfold setPropertySystem. all_frames. Qed.
Lemma frames_input_destroy b : frames obs (input_destroy new_ICalSchedule callback can_write b).
Proof. unfold input_destroy, in_destructor. all_frames. Qed.
#[local] Hint Resolve frames_input_destroy : frames.
Lemma frames_clearBinaryInputs p : frames obs (clearBinaryInputs new_ICalSchedule callback can_write p).
Proof. unfold clearBinaryInputs. all_frames. Qed.
Lemma frames_clearStates p : frames obs (clearStates p).
Proof. unfold clearStates. all_frames. Qed.
Lemma frames_DSMeter_addDevice m r : frames obs (DSMeter_addDevice m r).
Proof. unfold DSMeter_addDevice. all_frames. Qed.
Lemma frames_DSMeter_removeDevice m r : frames obs (DSMeter_removeDevice m r).
Proof. unfold DSMeter_removeDevice. all_frames. Qed.
End Frames.
#[export] Hint Resolve frames_apt_gets frames_apt_query frames_st_gets frames_eq_gets frames_update_inputs frames_move_alias
  frames_publishAliasInZoneGroups frames_remove_path frames_setName frames_setApplicationType frames_group_publish frames_zone_publish
  frames_zone_remove frames_device_publish frames_device_remove frames_this_device frames_this_zone frames_this_group frames_create_int
  frames_clearBinaryInputs frames_clearStates frames_DSMeter_removeDevice frames_push_device_event : frames.
