(* ===== verification/MembershipFacts.v ===== *)
(** All changes of the structure keep the apartment consistent: devices and
    zones stay unique, zone 0 lists every device, and every other zone lists
    only devices that say they are in it. *)
From stdpp Require Import base option list strings gmap.
From Stdlib Require Import ZArith Lia Ascii PrimFloat.
From Stdlib Require String.
From S2P Require Import Prelude CxxString Base NumConv FloatConv Ds485types ModelConst ModelFeatures DataTypes Calendar DateTools.
From S2P Require Import Behavior Event EventCreate PropertyTree PropertyTreeFacts PropertyReader TreeFrame EventQueue EventQueueFacts.
From S2P Require Import State StateFacts SceneAccess ApartmentModel DeviceInfo DeviceSet.
From S2P Require Import ApartmentWorld ExampleWorld Status StatusFacts Publish GroupOps Membership StructureFrames.

Open Scope string_scope.
Open Scope list_scope.
Open Scope Z_scope.

(** * The invariant in two parts

    [regular] speaks of the lists, [placed] of one reference: a zone that lists
    it, other than zone 0, is the zone of its device. *)

Record regular (a : Apartment) : Prop := {
  reg_devices : NoDup (Apartment_getDevices a);
  reg_zones : NoDup (map (fun z => z_ZoneID (the_zone a z)) (m_Zones a));
  reg_members : forall z, z ∈ m_Zones a -> NoDup (getDevices a z);
  reg_known : forall z r, z ∈ m_Zones a -> r ∈ getDevices a z -> r ∈ Apartment_getDevices a;
  reg_all : forall z r, z ∈ m_Zones a -> z_ZoneID (the_zone a z) = 0 -> r ∈ Apartment_getDevices a -> r ∈ getDevices a z;
  reg_groups : forall z g, z ∈ m_Zones a -> g ∈ z_Groups (the_zone a z) -> g_ZoneID (the_group a g) = z_ZoneID (the_zone a z);
  reg_device_groups : forall p, p ∈ m_Devices a ->
    NoDup (d_groupIds (the_device a p)) /\ Forall (fun g => isValidGroup g = true) (d_groupIds (the_device a p))
}.
Definition placed (a : Apartment) (r : DeviceReference) : Prop :=
  forall z p, z ∈ m_Zones a -> z_ZoneID (the_zone a z) <> 0 -> r ∈ getDevices a z ->
    p ∈ m_Devices a -> d_DSID (the_device a p) = r -> d_ZoneID (the_device a p) = z_ZoneID (the_zone a z).

Lemma elem_of_devices a r : r ∈ Apartment_getDevices a <-> exists p, p ∈ m_Devices a /\ d_DSID (the_device a p) = r.
Proof. unfold Apartment_getDevices. rewrite (list_elem_of_fmap (fun p => d_DSID (the_device a p))). naive_solver. Qed.

Lemma same_device a p p' : NoDup (Apartment_getDevices a) -> p ∈ m_Devices a -> p' ∈ m_Devices a ->
  d_DSID (the_device a p) = d_DSID (the_device a p') -> p = p'.
Proof.
  intros Hn Hp Hp' E. pose proof (find_by_key_unique (fun p => d_DSID (the_device a p)) _ _ Hn Hp) as H1.
  pose proof (find_by_key_unique (fun p => d_DSID (the_device a p)) _ _ Hn Hp') as H2. cbn in *. rewrite E in H1. congruence.
Qed.
Lemma same_zone a z z' : NoDup (map (fun z => z_ZoneID (the_zone a z)) (m_Zones a)) -> z ∈ m_Zones a -> z' ∈ m_Zones a ->
  z_ZoneID (the_zone a z) = z_ZoneID (the_zone a z') -> z = z'.
Proof.
  intros Hn Hp Hp' E. pose proof (find_by_key_unique (fun p => z_ZoneID (the_zone a p)) _ _ Hn Hp) as H1.
  pose proof (find_by_key_unique (fun p => z_ZoneID (the_zone a p)) _ _ Hn Hp') as H2. cbn in *. rewrite E in H1. congruence.
Qed.

Lemma consistent_parts a : consistent a <-> regular a /\ forall r, placed a r.
Proof.
  split.
  - intros Hc. split.
    + split; try apply Hc.
      * intros z r. by apply member_known.
      * intros z r Hz E Hr. by apply (zone_zero a Hc z Hz E).
      * intros z g Hz Hg. by apply (zone_groups a Hc).
    + intros r z p Hz Hne Hr Hp Hd. destruct (zone_members a Hc z Hz Hne r Hr) as (p' & Hp' & Hd' & <-).
      by rewrite (same_device a p p') by (try apply Hc; congruence).
  - intros [Hr Hp]. split; try apply Hr.
    + intros z Hz E r. split; [by apply (reg_known a Hr)|by apply (reg_all a Hr)].
    + intros z Hz Hne r Hi. pose proof (reg_known a Hr z r Hz Hi) as (p & Hp' & Hd)%elem_of_devices.
      exists p. split_and!; [done..|]. by eapply Hp.
    + intros z Hz g Hg. by apply (reg_groups a Hr).
Qed.

(** ** Predicates on the structure *)

Class Structural (P : Apartment -> Prop) : Prop := structural a b : same_structure a b -> P a -> P b.

Lemma same_devices a b : same_structure a b -> m_Devices b = m_Devices a.
Proof. intros H. specialize (H QDevices). cbn in H. congruence. Qed.
Lemma same_zones a b : same_structure a b -> m_Zones b = m_Zones a.
Proof. intros H. specialize (H QZones). cbn in H. congruence. Qed.
Lemma same_dkey a b p : same_structure a b -> dkey (the_device b p) = dkey (the_device a p).
Proof. intros H. specialize (H (QDevice p)). cbn in H. congruence. Qed.
Lemma same_zkey a b p : same_structure a b -> zkey (the_zone b p) = zkey (the_zone a p).
Proof. intros H. specialize (H (QZone p)). cbn in H. congruence. Qed.
Lemma same_gkey a b p : same_structure a b -> g_ZoneID (the_group b p) = g_ZoneID (the_group a p).
Proof. intros H. specialize (H (QGroup p)). cbn in H. congruence. Qed.
Lemma same_dsid a b p : same_structure a b -> d_DSID (the_device b p) = d_DSID (the_device a p).
Proof. intros H%(fun H => same_dkey a b p H). unfold dkey in H. congruence. Qed.
Lemma same_d_zone a b p : same_structure a b -> d_ZoneID (the_device b p) = d_ZoneID (the_device a p).
Proof. intros H%(fun H => same_dkey a b p H). unfold dkey in H. congruence. Qed.
Lemma same_groupIds a b p : same_structure a b -> d_groupIds (the_device b p) = d_groupIds (the_device a p).
Proof. intros H%(fun H => same_dkey a b p H). unfold dkey in H. congruence. Qed.
Lemma same_z_id a b p : same_structure a b -> z_ZoneID (the_zone b p) = z_ZoneID (the_zone a p).
Proof. intros H%(fun H => same_zkey a b p H). unfold zkey in H. congruence. Qed.
Lemma same_z_devices a b p : same_structure a b -> getDevices b p = getDevices a p.
Proof. intros H%(fun H => same_zkey a b p H). unfold zkey in H. unfold getDevices. congruence. Qed.
Lemma same_z_groups a b p : same_structure a b -> z_Groups (the_zone b p) = z_Groups (the_zone a p).
Proof. intros H%(fun H => same_zkey a b p H). unfold zkey in H. congruence. Qed.
Lemma same_references a b : same_structure a b -> Apartment_getDevices b = Apartment_getDevices a.
Proof.
  intros H. unfold Apartment_getDevices. rewrite (same_devices a b H). apply map_ext. intros p. by apply same_dsid.
Qed.
Lemma same_zone_ids a b : same_structure a b ->
  map (fun z => z_ZoneID (the_zone b z)) (m_Zones b) = map (fun z => z_ZoneID (the_zone a z)) (m_Zones a).
Proof. intros H. rewrite (same_zones a b H). apply map_ext. intros p. by apply same_z_id. Qed.
Lemma same_tryGetZone a b id : same_structure a b -> tryGetZone b id = tryGetZone a id.
Proof.
  intros H. unfold tryGetZone. rewrite (same_zones a b H). induction (m_Zones a) as [|z l IH]; [done|]. cbn.
  by rewrite (same_z_id a b z H), IH.
Qed.
Lemma same_tryGetDevice a b r : same_structure a b -> tryGetDeviceByDSID b r = tryGetDeviceByDSID a r.
Proof.
  intros H. unfold tryGetDeviceByDSID. rewrite (same_devices a b H). induction (m_Devices a) as [|z l IH]; [done|]. cbn.
  by rewrite (same_dsid a b z H), IH.
Qed.

(** Rewrites everything read from [b] to what [a] has. *)
Ltac same_as H :=
  rewrite ?(same_references _ _ H), ?(same_zone_ids _ _ H), ?(same_devices _ _ H), ?(same_zones _ _ H);
  repeat first [setoid_rewrite (fun p => same_dsid _ _ p H) | setoid_rewrite (fun p => same_d_zone _ _ p H)
    | setoid_rewrite (fun p => same_groupIds _ _ p H) | setoid_rewrite (fun p => same_z_id _ _ p H)
    | setoid_rewrite (fun p => same_z_devices _ _ p H) | setoid_rewrite (fun p => same_z_groups _ _ p H)
    | setoid_rewrite (fun p => same_gkey _ _ p H)].

#[export] Instance structural_regular : Structural regular.
Proof.
  intros a b H [H1 H2 H3 H4 H5 H6 H7].
  split; same_as H; assumption.
Qed.
#[export] Instance structural_placed r : Structural (fun a => placed a r).
Proof. intros a b H Hp. unfold placed. same_as H. exact Hp. Qed.
#[export] Instance structural_and P Q : Structural P -> Structural Q -> Structural (fun a => P a /\ Q a).
Proof. intros HP HQ a b H [H1 H2]. split; [by eapply HP|by eapply HQ]. Qed.
#[export] Instance structural_const (P : Prop) : Structural (fun _ => P).
Proof. by intros a b _. Qed.
#[export] Instance structural_consistent : Structural consistent.
Proof.
  intros a b H. rewrite !consistent_parts. intros [Hr Hp]. split; [by eapply structural_regular|].
  intros r. by eapply (structural_placed r a b H).
Qed.

(** ** What the operations do to it *)

Definition drop (z : zptr) (r : DeviceReference) : Apartment -> Apartment :=
  upd_zone z (fun x => z_with_Devices (DeviceSet.removeDevice (z_Devices x) r) x).
Definition enlist (z : zptr) (r : DeviceReference) : Apartment -> Apartment :=
  upd_zone z (fun x => z_with_Devices (DeviceSet.addDevice (z_Devices x) r) x).
Definition place (p : dptr) (zone last : Z) : Apartment -> Apartment := upd_device p (d_with_zone zone last).

(** Apart from zone 0, only zones with these numbers list [r]. *)
Definition lists (a : Apartment) (r : DeviceReference) (L : list Z) : Prop :=
  forall z, z ∈ m_Zones a -> z_ZoneID (the_zone a z) <> 0 -> r ∈ getDevices a z -> z_ZoneID (the_zone a z) ∈ L.
(** The device says it is in this zone. *)
Definition zone_of (a : Apartment) (p : dptr) (r : DeviceReference) (v : Z) : Prop :=
  p ∈ m_Devices a /\ d_DSID (the_device a p) = r /\ d_ZoneID (the_device a p) = v.
(** Zone 0 exists, or is not needed yet, and no zone is numbered -1. *)
Definition home (rooted : bool) (a : Apartment) : Prop :=
  ((exists z, tryGetZone a 0 = Some z) \/ rooted = false /\ m_Devices a = []) /\
  forall z, z ∈ m_Zones a -> z_ZoneID (the_zone a z) <> -1.
#[export] Instance structural_lists r L : Structural (fun a => lists a r L).
Proof. intros a b H Hp. unfold lists. same_as H. exact Hp. Qed.
#[export] Instance structural_zone_of p r v : Structural (fun a => zone_of a p r v).
Proof. intros a b H Hp. unfold zone_of. same_as H. exact Hp. Qed.
#[export] Instance structural_home rooted : Structural (home rooted).
Proof. intros a b H Hp. unfold home. rewrite (same_tryGetZone a b 0 H). same_as H. exact Hp. Qed.
#[export] Instance structural_zone_id z v : Structural (fun a => z_ZoneID (the_zone a z) = v).
Proof. intros a b H Hp. by same_as H. Qed.

Lemma members_upd a z f z' : getDevices (upd_zone z f a) z' = if decide (z = z') then z_Devices (f (the_zone a z)) else getDevices a z'.
Proof. unfold getDevices. rewrite the_zone_upd. by case_decide. Qed.
Lemma zone_id_upd a z f z' : (forall x, z_ZoneID (f x) = z_ZoneID x) -> z_ZoneID (the_zone (upd_zone z f a) z') = z_ZoneID (the_zone a z').
Proof. intros Hf. rewrite the_zone_upd. case_decide; [subst; apply Hf|done]. Qed.
Lemma zone_groups_upd a z f z' : (forall x, z_Groups (f x) = z_Groups x) -> z_Groups (the_zone (upd_zone z f a) z') = z_Groups (the_zone a z').
Proof. intros Hf. rewrite the_zone_upd. case_decide; [subst; apply Hf|done]. Qed.
Lemma zone_ids_upd a z f l : (forall x, z_ZoneID (f x) = z_ZoneID x) ->
  map (fun z' => z_ZoneID (the_zone (upd_zone z f a) z')) l = map (fun z' => z_ZoneID (the_zone a z')) l.
Proof. intros Hf. apply map_ext. intros z'. by apply zone_id_upd. Qed.

(** The list of one zone is changed to a duplicate-free one of known devices,
    which has all of them if it is zone 0. *)
Lemma regular_members a z f : regular a ->
  (z ∈ m_Zones a -> NoDup (f (getDevices a z)) /\ (forall r, r ∈ f (getDevices a z) -> r ∈ Apartment_getDevices a) /\
     (z_ZoneID (the_zone a z) = 0 -> forall r, r ∈ getDevices a z -> r ∈ f (getDevices a z))) ->
  regular (upd_zone z (fun x => z_with_Devices (f (z_Devices x)) x) a).
Proof.
  intros Hr Hz. split; try apply Hr.
  - rewrite zone_ids_upd by done. apply Hr.
  - intros z' Hz'. rewrite members_upd. case_decide; [subst; by apply Hz|by apply Hr].
  - intros z' r Hz'. rewrite members_upd. case_decide; [subst|by apply (reg_known a Hr)]. apply (Hz Hz').
  - intros z' r Hz'. rewrite zone_id_upd, members_upd by done. intros E Hi.
    pose proof (reg_all a Hr z' r Hz' E Hi) as Hm. case_decide; [subst; by apply Hz|done].
  - intros z' g Hz'. rewrite zone_id_upd, zone_groups_upd by done. apply (reg_groups a Hr z' g Hz').
Qed.

Lemma regular_drop a z r : regular a -> (z ∈ m_Zones a -> z_ZoneID (the_zone a z) <> 0) -> regular (drop z r a).
Proof.
  intros Hr Hz. apply (regular_members a z (fun l => DeviceSet.removeDevice l r) Hr). intros Hi. split_and!.
  - by apply removeDevice_NoDup, (reg_members a Hr).
  - intros x Hx%removeDevice_sub. by apply (reg_known a Hr z).
  - intros E. by apply Hz in Hi.
Qed.
Lemma regular_enlist a z r : regular a -> r ∈ Apartment_getDevices a -> regular (enlist z r a).
Proof.
  intros Hr Hk. apply (regular_members a z (fun l => DeviceSet.addDevice l r) Hr). intros Hi. split_and!.
  - by apply addDevice_NoDup, (reg_members a Hr).
  - intros x [Hx| ->]%addDevice_In; [by apply (reg_known a Hr z)|done].
  - intros _ x Hx. apply addDevice_In. by left.
Qed.
Lemma placed_drop a z r r' : placed a r' -> placed (drop z r a) r'.
Proof.
  intros Hp z' p Hz. unfold drop. rewrite zone_id_upd by done. intros Hne Hi. apply (Hp z' p Hz Hne).
  rewrite members_upd in Hi. case_decide; [subst; by apply removeDevice_sub in Hi|done].
Qed.
Lemma placed_enlist a z r r' : r' <> r -> placed a r' -> placed (enlist z r a) r'.
Proof.
  intros Hr Hp z' p Hz. unfold enlist. rewrite zone_id_upd by done. intros Hne Hi. apply (Hp z' p Hz Hne).
  rewrite members_upd in Hi. case_decide; [subst|done]. by apply addDevice_In in Hi as [?| ->].
Qed.
Lemma lists_enlist a z r L : lists a r L -> lists (enlist z r a) r (z_ZoneID (the_zone a z) :: L).
Proof.
  intros Hl z' Hz'. unfold enlist. rewrite zone_id_upd, members_upd by done. intros Hne Hi.
  case_decide; [subst; apply list_elem_of_here|]. apply list_elem_of_further. by apply (Hl z').
Qed.
(** A device that is dropped from a zone is in the list of no zone of that
    number. *)
Lemma lists_drop a z r v L : regular a -> tryGetZone a v = Some z -> lists a r L -> lists (drop z r a) r (filter (fun x => x <> v) L).
Proof.
  intros Hr [Hz E]%tryGetZone_Some Hl z' Hz'. unfold drop. rewrite zone_id_upd, members_upd by done. intros Hne Hi.
  apply list_elem_of_filter. case_decide as Ez.
  - subst z'. apply removeDevice_In in Hi as [_ ?]; [done|]. by apply (reg_members a Hr).
  - split; [|by apply (Hl z')]. intros Ev. apply Ez. apply (same_zone a); [apply Hr|done..|congruence].
Qed.
Lemma lists_none a r v L : (forall z, z ∈ m_Zones a -> z_ZoneID (the_zone a z) <> 0 -> z_ZoneID (the_zone a z) <> v) ->
  lists a r L -> lists a r (filter (fun x => x <> v) L).
Proof. intros Hn Hl z Hz Hne Hi. apply list_elem_of_filter. split; [by apply Hn|by apply (Hl z)]. Qed.
Lemma lists_placed a p r v : regular a -> zone_of a p r v -> (placed a r <-> lists a r [v]).
Proof.
  intros Hr (Hp & Hk & Hv). split.
  - intros Hpl z Hz Hne Hi. apply list_elem_of_singleton. rewrite <- Hv. symmetry. by apply (Hpl z p).
  - intros Hl z p' Hz Hne Hi Hp' Hk'. rewrite (same_device a p' p) by (try apply Hr; congruence).
    rewrite Hv. symmetry. by apply list_elem_of_singleton, (Hl z).
Qed.

Lemma dsid_upd a p f p' : (forall x, d_DSID (f x) = d_DSID x) -> d_DSID (the_device (upd_device p f a) p') = d_DSID (the_device a p').
Proof. intros Hf. rewrite the_device_upd. case_decide; [subst; apply Hf|done]. Qed.
Lemma references_upd a p f : (forall x, d_DSID (f x) = d_DSID x) -> Apartment_getDevices (upd_device p f a) = Apartment_getDevices a.
Proof. intros Hf. unfold Apartment_getDevices. apply map_ext. intros p'. by apply dsid_upd. Qed.

Lemma regular_upd_device a p f : regular a -> (forall x, d_DSID (f x) = d_DSID x) ->
  (p ∈ m_Devices a -> NoDup (d_groupIds (f (the_device a p))) /\
     Forall (fun g => isValidGroup g = true) (d_groupIds (f (the_device a p)))) -> regular (upd_device p f a).
Proof.
  intros Hr Hf Hg. split; rewrite ?(references_upd a p f Hf); try apply Hr.
  intros p' Hp'. rewrite the_device_upd. case_decide; [subst; by apply Hg|by apply (reg_device_groups a Hr)].
Qed.
Lemma regular_place a p v l : regular a -> regular (place p v l a).
Proof. intros Hr. apply regular_upd_device; [done..|]. intros Hp. by apply (reg_device_groups a Hr). Qed.
Lemma placed_place_other a p v l r : r <> d_DSID (the_device a p) -> placed a r -> placed (place p v l a) r.
Proof.
  intros Hne Hp z p' Hz Hz0 Hi Hd. unfold place. rewrite dsid_upd by done. intros Hk.
  rewrite the_device_upd. case_decide; [by subst|]. by apply (Hp z p').
Qed.
(** Assignments that leave identifiers and zones alone. *)
Lemma placed_upd_device a p f r : (forall x, d_DSID (f x) = d_DSID x) -> (forall x, d_ZoneID (f x) = d_ZoneID x) ->
  placed a r -> placed (upd_device p f a) r.
Proof.
  intros Hf Hz Hp z p' Hzz Hz0 Hi Hd. rewrite dsid_upd by done. intros Hk.
  assert (d_ZoneID (the_device (upd_device p f a) p') = d_ZoneID (the_device a p')) as ->; [|by apply (Hp z p')].
  rewrite the_device_upd. case_decide; [subst; apply Hz|done].
Qed.

(** ** The invariant, but for one reference *)

Section Rooted.
Context (rooted : bool).

Record almost (r : DeviceReference) (a : Apartment) : Prop := {
  al_regular : regular a; al_others : forall r', r' <> r -> placed a r'; al_home : home rooted a
}.
#[export] Instance structural_almost r : Structural (almost r).
Proof.
  intros a b H [H1 H2 H3]. split; [by eapply structural_regular| |by eapply structural_home].
  intros r' Hr'. by eapply (structural_placed r' a b H), H2.
Qed.
Definition well_formed (a : Apartment) : Prop := consistent a /\ home rooted a.
#[export] Instance structural_sound : Structural well_formed := _.

Lemma sound_almost r a : well_formed a <-> almost r a /\ placed a r.
Proof.
  unfold well_formed. rewrite consistent_parts. split.
  - intros [[H1 H2] H3]. split; [by split|done].
  - intros [[H1 H2 H3] H4]. split; [|done]. split; [done|]. intros r'. destruct (decide (r' = r)) as [->|]; auto.
Qed.

Lemma tryGetZone_upd a z f v : (forall x, z_ZoneID (f x) = z_ZoneID x) -> tryGetZone (upd_zone z f a) v = tryGetZone a v.
Proof.
  intros Hf. unfold tryGetZone. change (m_Zones (upd_zone z f a)) with (m_Zones a).
  induction (m_Zones a) as [|z' l IH]; [done|]. cbn [List.find]. by rewrite zone_id_upd, IH.
Qed.
Lemma home_upd_zone a z f : (forall x, z_ZoneID (f x) = z_ZoneID x) -> home rooted a -> home rooted (upd_zone z f a).
Proof.
  intros Hf [H1 H2]. split; [by rewrite tryGetZone_upd|]. intros z' Hz'. rewrite zone_id_upd by done. by apply H2.
Qed.
Lemma almost_drop z r a : (z ∈ m_Zones a -> z_ZoneID (the_zone a z) <> 0) -> almost r a -> almost r (drop z r a).
Proof.
  intros Hz [H1 H2 H3]. split; [by apply regular_drop| |by apply home_upd_zone]. intros r' Hr'. by apply placed_drop, H2.
Qed.
Lemma almost_enlist z r a : r ∈ Apartment_getDevices a -> almost r a -> almost r (enlist z r a).
Proof.
  intros Hk [H1 H2 H3]. split; [by apply regular_enlist| |by apply home_upd_zone]. intros r' Hr'. by apply placed_enlist, H2.
Qed.
Lemma almost_place p v l r a : d_DSID (the_device a p) = r -> almost r a -> almost r (place p v l a).
Proof.
  intros Hk [H1 H2 H3]. split; [by apply regular_place| |done]. intros r' Hr'. apply placed_place_other; [by rewrite Hk|by apply H2].
Qed.
Lemma zone_of_place a p r v v' l : zone_of a p r v -> zone_of (place p v' l a) p r v'.
Proof.
  intros (Hp & Hk & _). unfold zone_of, place. rewrite dsid_upd by done. split_and!; [done..|].
  rewrite the_device_upd. by case_decide.
Qed.
Lemma zone_of_known a p r v : zone_of a p r v -> r ∈ Apartment_getDevices a.
Proof. intros (Hp & Hk & _). apply elem_of_devices. by exists p. Qed.
Lemma getDevice_known a p r v : regular a -> zone_of a p r v -> getDevice a r = Ok p.
Proof.
  intros Hr (Hp & <- & _). unfold getDevice, getDeviceByDSID, tryGetDeviceByDSID.
  by rewrite (find_by_key_unique (fun p => d_DSID (the_device a p))) by (try apply Hr; done).
Qed.
Lemma getDevice_zone_of a p r : getDevice a r = Ok p -> zone_of a p r (d_ZoneID (the_device a p)).
Proof.
  unfold getDevice, getDeviceByDSID. destruct (tryGetDeviceByDSID a r) as [p'|] eqn:E; [|done]. intros [= ->].
  by apply tryGetDeviceByDSID_Some in E as [H1 H2].
Qed.

Lemma tryGetZone_none a v z : tryGetZone a v = None -> z ∈ m_Zones a -> z_ZoneID (the_zone a z) <> v.
Proof.
  unfold tryGetZone. rewrite find_eqb_key. intros H%(find_by_None (fun z => z_ZoneID (the_zone a z))) Hz E. apply H.
  rewrite <- E. by apply (list_elem_of_fmap_2 (fun z => z_ZoneID (the_zone a z))).
Qed.
#[export] Instance structural_tryGetZone v r : Structural (fun a => tryGetZone a v = r).
Proof. intros a b H Hp. by rewrite (same_tryGetZone a b v H). Qed.

(** The device [p], known as [r], says it is in zone [old], is listed by the
    zones [L], and is about to enter zone [z], whose number is [v]. *)
Definition member (r : DeviceReference) (p : dptr) (old : Z) (L : list Z) (a : Apartment) : Prop :=
  almost r a /\ lists a r L /\ zone_of a p r old.
#[export] Instance structural_member r p old L : Structural (member r p old L) := _.
Definition moving (r : DeviceReference) (p : dptr) (old : Z) (L : list Z) (z : zptr) (v : Z) (a : Apartment) : Prop :=
  member r p old L a /\ z_ZoneID (the_zone a z) = v.
#[export] Instance structural_moving r p old L z v : Structural (moving r p old L z v) := _.

Lemma member_drop r p old L a oz : member r p old L a -> tryGetZone a old = Some oz -> old <> 0 ->
  member r p old (filter (fun x => x <> old) L) (drop oz r a).
Proof.
  intros (H1 & H2 & H3) Ho Hne. pose proof (tryGetZone_Some a old oz Ho) as [Hz E]. split_and!.
  - apply almost_drop; [|done]. intros _. congruence.
  - apply lists_drop; [apply H1|done..].
  - done.
Qed.
Lemma member_none r p old L a : member r p old L a -> tryGetZone a old = None \/ old = 0 \/ old = -1 ->
  member r p old (filter (fun x => x <> old) L) a.
Proof.
  intros (H1 & H2 & H3) Ho. split_and!; try done. apply lists_none; [|done]. intros z' Hz' Hne.
  destruct Ho as [Ho|[->| ->]]; [by apply tryGetZone_none|done|]. by apply (al_home r a H1).
Qed.
Lemma moving_enlist r p old L z v a : moving r p old L z v a -> moving r p old (v :: L) z v (enlist z r a).
Proof.
  intros ((H1 & H2 & H3) & <-). split; [split_and!; [|by apply lists_enlist|done]|unfold enlist; by rewrite zone_id_upd].
  apply almost_enlist; [|done]. by eapply zone_of_known.
Qed.
Lemma moving_place r p old L z v v' l a : moving r p old L z v a -> moving r p v' L z v (place p v' l a).
Proof.
  intros ((H1 & H2 & H3) & H4). split; [split_and!; [|done|by eapply zone_of_place]|done]. apply almost_place; [|done]. apply H3.
Qed.
Lemma member_sound r p v a : member r p v [v] a -> well_formed a.
Proof. intros (H1 & H2 & H3). apply (sound_almost r). split; [done|]. apply (lists_placed a p r v); [apply H1|done..]. Qed.
Lemma sound_member r p a : well_formed a -> getDevice a r = Ok p ->
  let old := d_ZoneID (the_device a p) in member r p old [old] a.
Proof.
  intros Hs Hp old. pose proof (getDevice_zone_of a p r Hp) as Hz. apply (sound_almost r) in Hs as [H1 H2].
  split_and!; [done| |done]. apply (lists_placed a p r); [apply H1|done..].
Qed.
End Rooted.
Lemma lists_sub a r L L' : (forall x, x ∈ L -> x ∈ L') -> lists a r L -> lists a r L'.
Proof. intros Hs Hl z Hz Hne Hi. by apply Hs, (Hl z). Qed.

(** * What an operation may rely on and what it leaves *)

Section Triples.
Context {ical W : Type} {Sched : Schedule ical} {EW : EventWorld ical W} {SW : StateWorld W} {AW : ApartmentWorld W}.
Context {LC : Libc} {SD : Strtod} {BM : BusMembers} {DU : Dsuid} {Sep : SeparateWorlds EW SW} {SepA : SeparateApartment EW SW AW}.
Context (new_ICalSchedule : string -> string -> DateTime -> res ical).
Context (callback : notification -> lid -> nid -> nid -> heap W -> heap W).
Context (can_write : string -> bool) (bus_error : list ActionRequest -> ActionRequest -> option exn).
Context (convert : string -> res string) (setApplicationTypeInt : gptr -> Z -> W -> W) (m_dss : bool).

(** No proxy in the tree changes the structure. *)
Definition undisturbed (h : heap W) : Prop := forall q, quiet (obs q) h.

(** From [P] to [Q], or to [E] with an exception; after an abnormal end nothing
    is claimed. *)
Definition triple {A} (P : Apartment -> Prop) (m : SE (heap W) A) (Q : A -> Apartment -> Prop) (E : Apartment -> Prop) : Prop :=
  forall h, undisturbed h -> P (apt h) ->
  undisturbed (snd (m h)) /\
  match fst (m h) with Ok x => Q x (apt (snd (m h))) | Throw e => is_std_exception e = true -> E (apt (snd (m h))) end.

Definition all_framed {A} (m : SE (heap W) A) : Prop := forall q, frames (obs q) m.
(** An operation that throws nothing a program could catch. *)
Definition tame {A} (m : SE (heap W) A) : Prop := forall h, match fst (m h) with Throw e => is_std_exception e = false | _ => True end.

Lemma triple_frames {A} P (m : SE (heap W) A) : Structural P -> all_framed m -> triple P m (fun _ => P) P.
Proof.
  intros HP Hm h Hq H. assert (same_structure (apt h) (apt (snd (m h)))) as Hs by (intros q; apply (Hm q h (Hq q))).
  split; [intros q; apply (Hm q h (Hq q))|]. destruct (fst (m h)); intros; by eapply HP.
Qed.
Lemma triple_tame {A} P (m : SE (heap W) A) Q E : tame m -> triple P m Q E -> triple P m Q (fun _ => False).
Proof.
  intros Ht Hm h Hq HP. destruct (Hm h Hq HP) as [H1 H2]. split; [done|]. specialize (Ht h).
  destruct (fst (m h)); [done|]. congruence.
Qed.
Lemma triple_bind {A B} P (m : SE (heap W) A) Q E (f : A -> SE (heap W) B) R :
  triple P m Q E -> (forall x, triple (Q x) (f x) R E) -> triple P (m ≫= f) R E.
Proof.
  intros Hm Hf h Hq HP. rewrite se_bind_run. destruct (Hm h Hq HP) as [H1 H2]. destruct (m h) as [[x|e] h']; [|done].
  by apply Hf.
Qed.
Lemma triple_weaken {A} (P P' : Apartment -> Prop) (m : SE (heap W) A) (Q Q' : A -> Apartment -> Prop) (E E' : Apartment -> Prop) :
  (forall a, P a -> P' a) -> triple P' m Q' E' -> (forall x a, Q' x a -> Q x a) -> (forall a, E' a -> E a) -> triple P m Q E.
Proof.
  intros HP Hm HQ HE h Hq Hh. destruct (Hm h Hq (HP _ Hh)) as [H1 H2]. split; [done|]. destruct (fst (m h)); auto.
Qed.
Lemma triple_exn {A} P (m : SE (heap W) A) Q (E E' : Apartment -> Prop) : triple P m Q E' -> (forall a, E' a -> E a) -> triple P m Q E.
Proof. intros Hm HE. by apply (triple_weaken P P m Q Q E E'). Qed.
Lemma triple_ret {A} (x : A) P Q E : (forall a, P a -> Q x a) -> triple P (mret x) Q E.
Proof. intros H h Hq HP. split; [done|]. by apply H. Qed.
Lemma triple_throw {A} e P Q (E : Apartment -> Prop) : (forall a, P a -> is_std_exception e = true -> E a) -> triple (A := A) P (se_throw e) Q E.
Proof. intros H h Hq HP. split; [done|]. exact (H (apt h) HP). Qed.
Lemma triple_gets {A} (f : Apartment -> A) P Q E : (forall a, P a -> Q (f a) a) -> triple P (apt_gets f) Q E.
Proof. intros H h Hq HP. split; [done|]. exact (H (apt h) HP). Qed.
Lemma triple_query {A} (f : Apartment -> res A) P Q (E : Apartment -> Prop) :
  (forall a, P a -> match f a with Ok x => Q x a | Throw e => is_std_exception e = true -> E a end) -> triple P (apt_query f) Q E.
Proof. intros H h Hq HP. split; [done|]. exact (H (apt h) HP). Qed.
Lemma triple_modify f P Q E : (forall a, P a -> Q tt (f a)) -> triple P (apt_modify f) Q E.
Proof.
  intros H h Hq HP. split; [exact Hq|]. unfold apt_modify, se_modify. cbn. unfold apt. cbn. rewrite get_put_apt. by apply H.
Qed.
Lemma triple_try {A} P (m : SE (heap W) A) Q E0 p (f : exn -> SE (heap W) A) E : (forall a, E0 a -> E a) -> (forall e, p e = true -> is_std_exception e = true) ->
  triple P m Q E0 -> (forall e, triple E0 (f e) Q E) -> triple P (se_try m p f) Q E.
Proof.
  intros HE Hp Hm Hf h Hq HP. unfold se_try. destruct (Hm h Hq HP) as [H1 H2]. destruct (m h) as [[x|e] h']; [done|]. cbn [fst snd] in *.
  destruct (p e) eqn:Ep; [|by split; [|intros He; apply HE, H2]]. apply Hf; [done|]. by apply H2, Hp.
Qed.
(** An operation whose exceptions [p] catches, but for abnormal ends. *)
Definition caught {A} (p : exn -> bool) (m : SE (heap W) A) : Prop :=
  forall h, match fst (m h) with Throw e => p e = true \/ is_std_exception e = false | Ok _ => True end.
Lemma caught_bind {A B} p (m : SE (heap W) A) (f : A -> SE (heap W) B) : caught p m -> (forall x, caught p (f x)) -> caught p (m ≫= f).
Proof. intros Hm Hf h. rewrite se_bind_run. specialize (Hm h). destruct (m h) as [[x|e] h']; [apply Hf|done]. Qed.
Lemma caught_query {A} p (f : Apartment -> res A) : (forall a, match f a with Throw e => p e = true | Ok _ => True end) -> caught p (apt_query f).
Proof. intros Hf h. unfold apt_query. cbn. specialize (Hf (get_apt (ext h))). destruct (f _); [done|]. by left. Qed.
Lemma caught_tame {A} p (m : SE (heap W) A) : tame m -> caught p m.
Proof. intros Hm h. specialize (Hm h). destruct (fst (m h)); [done|]. by right. Qed.
Lemma triple_try_all {A} P (m : SE (heap W) A) Q E0 p (f : exn -> SE (heap W) A) E : caught p m ->
  (forall e, p e = true -> is_std_exception e = true) -> triple P m Q E0 -> (forall e, triple E0 (f e) Q E) -> triple P (se_try m p f) Q E.
Proof.
  intros Hc Hp Hm Hf h Hq HP. unfold se_try. specialize (Hc h). destruct (Hm h Hq HP) as [H1 H2].
  destruct (m h) as [[x|e] h']; [done|]. cbn [fst snd] in *.
  destruct (p e) eqn:Ep; [apply Hf; [done|]; by apply H2, Hp|]. split; [done|]. cbn. destruct Hc; congruence.
Qed.
Lemma tame_try {A} (m : SE (heap W) A) p (f : exn -> SE (heap W) A) : caught p m -> (forall e, tame (f e)) -> tame (se_try m p f).
Proof.
  intros Hm Hf h. unfold se_try. specialize (Hm h). destruct (m h) as [[x|e] h']; [done|]. cbn [fst] in Hm.
  destruct (p e) eqn:Ep; [apply Hf|]. cbn. by destruct Hm.
Qed.
Lemma triple_if {A} (b : bool) P (m n : SE (heap W) A) Q E : (b = true -> triple P m Q E) -> (b = false -> triple P n Q E) ->
  triple P (if b then m else n) Q E.
Proof. destruct b; auto. Qed.
(** A fact that [P] implies. *)
Lemma triple_pure {A} (F : Prop) P (m : SE (heap W) A) Q E : (forall a, P a -> F) -> (F -> triple P m Q E) -> triple P m Q E.
Proof. intros HF Hm h Hq HP. apply Hm; eauto. Qed.

Lemma tame_bind {A B} (m : SE (heap W) A) (f : A -> SE (heap W) B) : tame m -> (forall x, tame (f x)) -> tame (m ≫= f).
Proof. intros Hm Hf h. rewrite se_bind_run. specialize (Hm h). destruct (m h) as [[x|e] h']; [apply Hf|done]. Qed.
Lemma tame_ret {A} (x : A) : tame (mret x).
Proof. done. Qed.
Lemma tame_gets {A} (f : heap W -> A) : tame (se_gets f).
Proof. done. Qed.
Lemma tame_modify f : tame (se_modify f : SE (heap W) unit).
Proof. done. Qed.
Lemma tame_deref n : tame (deref n).
Proof. intros h. unfold deref. by destruct (nodes h !! n). Qed.
Lemma tame_endless {A} : tame (endless (A := A)).
Proof. done. Qed.
Lemma tame_iter {A} (f : A -> SE (heap W) unit) l : (forall x, tame (f x)) -> tame (se_iter f l).
Proof. intros Hf. induction l as [|x l IH]; [done|]. cbn [se_iter]. by apply tame_bind. Qed.
(** The operations of the tree throw nothing that could be caught. *)
Lemma tame_target n : tame (target n).
Proof.
  apply tame_bind; [done|]. intros fuel. revert n. induction fuel as [|fuel IH]; intros n; [done|].
  apply tame_bind; [apply tame_deref|]. intros nd. by destruct (m_AliasTarget nd).
Qed.
Lemma tame_find_child cs name i r : tame (find_child cs name i r).
Proof.
  revert r. induction cs as [|c cs IH]; intros r; cbn [find_child]; [done|]. apply tame_bind; [apply tame_deref|]. intros nd.
  repeat case_match; try done; apply IH.
Qed.
Lemma tame_getProperty n path : tame (getProperty n path).
Proof.
  unfold getProperty. generalize (S (slen path)) as fuel. intros fuel. revert n path.
  induction fuel as [|fuel IH]; intros n path; [done|]. cbn [getProperty_rec]. apply tame_bind; [apply tame_target|]. intros t.
  case_match; [done|]. case_match. apply tame_bind.
  - unfold getPropertyByName. apply tame_bind; [apply tame_target|]. intros t'. apply tame_bind; [apply tame_deref|]. intros nd.
    case_match; [|done]. case_match. apply tame_find_child.
  - intros [c|]; [|done]. case_match; [done|apply IH].
Qed.
Lemma tame_update n f : tame (update n f : SE (heap W) unit).
Proof. apply tame_bind; [apply tame_deref|done]. Qed.
Lemma tame_notify k n x : tame (notifyListeners callback k n x).
Proof.
  apply tame_bind; [done|]. intros fuel. revert n. induction fuel as [|fuel IH]; intros n; [done|].
  apply tame_bind; [apply tame_deref|]. intros nd. apply tame_bind.
  - induction (default [] (m_Listeners nd)) as [|l ls IHl]; [done|]. cbn [call_listeners].
    apply tame_bind; [apply tame_deref|]. intros md. apply tame_bind; [by case_bool_decide|done].
  - intros _. apply tame_bind; [apply tame_deref|]. intros md. by destruct (m_ParentNode md).
Qed.
Lemma tame_removeChild n c : tame (removeChild callback n c).
Proof.
  unfold removeChild. apply tame_bind; [apply tame_target|]. intros t. apply tame_bind; [apply tame_deref|]. intros nd.
  case_match; [|done]. repeat (apply tame_bind; [apply tame_update|intros _]). apply tame_bind; [apply tame_notify|done].
Qed.
Lemma tame_remove_path n path : tame (remove_path callback n path).
Proof.
  unfold remove_path. apply tame_bind; [apply tame_getProperty|]. intros [c|]; [|done]. unfold remove_node.
  apply tame_bind; [apply tame_deref|]. intros nd. case_match; [|done]. apply tame_bind; [apply tame_removeChild|done].
Qed.
Lemma tame_apt_gets {A} (f : Apartment -> A) : tame (apt_gets f).
Proof. done. Qed.

(** ** Devices of zones *)

Context (Hd : forall q, discreet (obs q) callback) (Hset : forall q g v w, obs q (setApplicationTypeInt g v w) = obs q w).

Lemma undisturbed_apt f h : undisturbed h -> undisturbed (set_ext f h).
Proof. exact (fun H => H). Qed.

Lemma removeDevice_absent l r : r ∉ l -> DeviceSet.removeDevice l r = l.
Proof using Type.
  induction l as [|x l IH]; [done|]. intros [Hx Hl]%not_elem_of_cons. cbn. rewrite bool_decide_eq_false_2 by congruence. by rewrite IH.
Qed.
Lemma drop_absent a z r : r ∉ getDevices a z -> same_structure a (drop z r a).
Proof using Type.
  intros Hn q. unfold drop. apply answer_upd_zone. unfold zkey, getDevices in *. cbn. by rewrite removeDevice_absent.
Qed.

Lemma tame_Zone_removeDevice z r : tame (Zone_removeDevice callback z r).
Proof.
  unfold Zone_removeDevice. apply tame_bind; [done|]. intros zone. case_match; [|done]. apply tame_bind; [|done].
  case_match; [|done]. apply tame_iter. intros g. apply tame_bind; [done|]. intros group. apply tame_remove_path.
Qed.
Lemma triple_Zone_removeDevice P Q E z r : Structural P -> Structural Q -> (forall a, P a -> Q (drop z r a)) ->
  triple P (Zone_removeDevice callback z r) (fun _ => Q) E.
Proof using Hd Sep SepA.
  intros HP HQ Hpq. apply (triple_weaken P P _ (fun _ => Q) (fun _ => Q) E (fun _ => False)); try done. apply (triple_tame _ _ _ P).
  - apply tame_Zone_removeDevice.
  - unfold Zone_removeDevice, this_zone.
    apply triple_bind with (Q := fun zone a => P a /\ contains (z_Devices zone) r = contains (getDevices a z) r);
      [by apply triple_gets|]. intros zone. apply triple_if; intros Ec.
    + apply triple_bind with (Q := fun _ => P).
      * apply (triple_weaken _ P _ _ (fun _ => P) _ P); [by intros a []|..|done|done]. apply triple_frames; [done|]. intros q. clear Hset.
        all_frames.
      * intros _. by apply triple_modify.
    + apply triple_ret. intros a [Ha E2]. rewrite Ec in E2. unfold contains in E2.
      eapply HQ; [|by apply (Hpq a)]. intros q. symmetry. apply drop_absent. symmetry in E2. by apply bool_decide_eq_false in E2.
Qed.

Lemma triple_setZoneID P Q p v : Structural P -> Structural Q -> (forall a l, P a -> Q (place p v l a)) ->
  triple P (setZoneID new_ICalSchedule callback can_write p v) (fun _ => Q) Q.
Proof using Hd Sep SepA.
  intros HP HQ Hpq. unfold setZoneID, this_device.
  apply triple_bind with (Q := fun d a => P a /\ d = the_device a p); [by apply triple_gets|]. intros d. apply triple_if; intros Ev.
  - apply triple_ret. intros a [Ha ->]. apply Z.eqb_eq in Ev. eapply HQ; [|by apply (Hpq a (d_LastKnownZoneID (the_device a p)))].
    intros q. symmetry. apply answer_upd_device. unfold dkey. cbn. by rewrite <- Ev.
  - apply triple_bind with (Q := fun _ => Q); [by apply triple_modify; intros a [Ha _]; apply Hpq|]. intros _.
    apply (triple_frames Q); [done|]. intros q. clear Hset. specialize (Hd q). all_frames.
Qed.

(** A device moves to a zone: it leaves the list of the zone it says it is in,
    if there is one. *)
Context (rooted : bool).
Notation moving := (moving rooted).
Notation member := (member rooted).
Notation sound := (well_formed rooted).

Lemma triple_Zone_addDevice_from (P P' : Apartment -> Prop) r p old L z v : Structural P -> Structural P' ->
  (forall a, P a -> getDevice a r = Ok p /\ d_ZoneID (the_device a p) = old) ->
  (forall a oz, P a -> tryGetZone a old = Some oz -> old <> 0 -> P' (drop oz r a)) ->
  (forall a, P a -> tryGetZone a old = None \/ old = 0 \/ old = -1 -> P' a) ->
  (forall a, P' a -> moving r p old L z v (enlist z r a)) ->
  triple P (Zone_addDevice new_ICalSchedule callback can_write z r) (fun _ => moving r p v L z v) (moving r p v L z v).
Proof using Hd Sep SepA.
  intros HP HP' Hget Hdrop Hnone Henter. unfold Zone_addDevice, this_device.
  assert (forall a, P a -> getDevice a r = Ok p) as Hok by (intros a [H1 H2]%Hget; exact H1).
  apply triple_bind with (Q := fun p' a => P a /\ p' = p); [by apply triple_query; intros a H; rewrite (Hok a H)|].
  intros p'. eapply triple_pure; [by intros a [_ H]; exact H|]. intros ->.
  apply triple_bind with (Q := fun d a => P a /\ d_ZoneID d = old); [by apply triple_gets; intros a [H _]; split; [done|apply (Hget a H)]|].
  intros d. eapply triple_pure; [by intros a [_ H]; exact H|]. intros Ed. rewrite Ed.
  apply triple_bind with (Q := fun _ => P').
  { apply triple_if; intros Eo.
    - apply andb_true_iff in Eo as [_ Eo%negb_true_iff%Z.eqb_neq].
      apply triple_try_all with (E0 := P'); [|by intros []| |by intros e; apply triple_ret].
      { apply caught_bind; [|intros oz; apply caught_tame, (tame_Zone_removeDevice oz r)].
        apply caught_query. intros a. unfold getZone. by destruct (tryGetZone _ _). }
      apply triple_bind with (Q := fun oz a => P a /\ tryGetZone a old = Some oz).
      + apply triple_query. intros a [H _]. unfold getZone. destruct (tryGetZone a old) eqn:Et; [done|]. intros _. apply Hnone; auto.
      + intros oz. apply triple_Zone_removeDevice; [apply _..|]. intros a [H1 H2]. by apply Hdrop.
    - apply triple_ret. intros a [H _]. apply Hnone; [done|].
      apply andb_false_iff in Eo as [Eo%negb_false_iff%Z.eqb_eq|Eo%negb_false_iff%Z.eqb_eq]; auto. }
  intros _. apply triple_bind with (Q := fun _ => moving r p old L z v); [by apply triple_modify; intros a; apply Henter|].
  intros _. apply triple_bind with (Q := fun p' a => moving r p old L z v a /\ p' = p).
  { apply triple_query. intros a H. pose proof H as ((H1 & _ & H3) & _). by rewrite (getDevice_known a p r old) by (apply H1 || done). }
  intros p'. eapply triple_pure; [by intros a [_ H]; exact H|]. intros ->.
  apply triple_bind with (Q := fun v' a => moving r p old L z v a /\ v' = v); [by apply triple_gets; intros a [H _]; split; [done|apply H]|].
  intros v'. eapply triple_pure; [by intros a [_ H]; exact H|]. intros ->.
  apply triple_setZoneID; [apply _..|]. intros a l [H _]. by eapply moving_place.
Qed.

Lemma triple_Zone_addDevice r p old L z v :
  let left := moving r p v (v :: filter (fun x => x <> old) L) z v in
  triple (moving r p old L z v) (Zone_addDevice new_ICalSchedule callback can_write z r) (fun _ => left) left.
Proof using Hd Sep SepA.
  intros left. apply triple_Zone_addDevice_from with (P' := moving r p old (filter (fun x => x <> old) L) z v) (old := old); [apply _..| | | |].
  - intros a ((H1 & H2 & H3) & H4). split; [apply (getDevice_known a p r old); [apply H1|done]|apply H3].
  - intros a oz [H1 H2] Ho Hne. split; [by apply member_drop|]. unfold drop. by rewrite zone_id_upd.
  - intros a [H1 H2] Ho. split; [by apply member_none|done].
  - intros a. apply moving_enlist.
Qed.

(** ** Every operation keeps the invariant *)

Definition keeps {A} (P : Apartment -> Prop) (m : SE (heap W) A) : Prop := triple P m (fun _ => P) P.

Lemma keeps_Zone_addDevice z r : keeps sound (Zone_addDevice new_ICalSchedule callback can_write z r).
Proof using Hd Sep SepA.
  intros h Hq Hs. destruct (getDevice (apt h) r) as [p|e] eqn:E.
  - pose proof (triple_Zone_addDevice r p (d_ZoneID (the_device (apt h) p)) [d_ZoneID (the_device (apt h) p)] z
      (z_ZoneID (the_zone (apt h) z)) h Hq (conj (sound_member rooted r p _ Hs E) eq_refl)) as [H1 H2].
    rewrite filter_cons_False, filter_nil in H2 by auto. split; [done|].
    destruct (fst _); [by eapply member_sound, H2|]. intros He. by eapply member_sound, H2.
  - assert (Zone_addDevice new_ICalSchedule callback can_write z r h = (Throw e, h)) as ->; [|split; [exact Hq|intros _; exact Hs]].
    unfold Zone_addDevice. rewrite se_bind_run. unfold apt_query. unfold apt in E. by rewrite E.
Qed.

(** ** The groups of a device *)

Lemma sound_groupIds a p l : sound a -> (p ∈ m_Devices a -> NoDup l /\ Forall (fun g => isValidGroup g = true) l) ->
  sound (upd_device p (d_with_groupIds l) a).
Proof using Type.
  intros [[Hr Hp]%consistent_parts Hh] Hl. split; [|done]. apply consistent_parts. split; [by apply regular_upd_device|].
  intros r. by apply placed_upd_device.
Qed.
Lemma sound_device_groups a p : sound a -> p ∈ m_Devices a ->
  NoDup (d_groupIds (the_device a p)) /\ Forall (fun g => isValidGroup g = true) (d_groupIds (the_device a p)).
Proof. intros [Hc _]. by apply device_groups. Qed.
Lemma erase_group_sub x l : erase_group x l `sublist_of` l.
Proof. induction l as [|y l IH]; [done|]. cbn. case_match; [by apply sublist_cons|by apply sublist_skip]. Qed.

Lemma keeps_addToGroup p g : keeps sound (addToGroup callback p g).
Proof using Hd Sep SepA.
  unfold addToGroup, this_device.
  apply triple_bind with (Q := fun d a => sound a /\ d = the_device a p); [by apply triple_gets|]. intros d. apply triple_if; intros Eg.
  - apply andb_true_iff in Eg as [Eg En%negb_true_iff%bool_decide_eq_false].
    apply triple_bind with (Q := fun _ => sound).
    + apply triple_modify. intros a [Ha ->]. apply sound_groupIds; [done|]. intros Hp.
      destruct (sound_device_groups a p Ha Hp) as [H1 H2]. split; [|by apply Forall_app; split; [|apply Forall_singleton]].
      apply NoDup_app. split_and!; [done| |apply NoDup_singleton]. by intros x Hx ->%list_elem_of_singleton.
    + intros _. apply (triple_frames sound); [apply _|]. intros q. clear Hset. specialize (Hd q). all_frames.
  - by apply triple_ret; intros a [].
Qed.
Lemma keeps_removeFromGroup p g : keeps sound (removeFromGroup callback p g).
Proof using Hd Sep SepA.
  unfold removeFromGroup, this_device.
  apply triple_bind with (Q := fun d a => sound a /\ d = the_device a p); [by apply triple_gets|]. intros d. apply triple_if; intros Eg.
  - apply triple_bind with (Q := fun _ => sound).
    + apply triple_modify. intros a [Ha ->]. apply sound_groupIds; [done|]. intros Hp.
      destruct (sound_device_groups a p Ha Hp) as [H1 H2]. split; [eapply sublist_NoDup; [exact H1|apply erase_group_sub]|].
      apply Forall_forall. intros x Hx. rewrite Forall_forall in H2. apply H2. eapply elem_of_sublist; [exact Hx|apply erase_group_sub].
    + intros _. apply (triple_frames sound); [apply _|]. intros q. clear Hset. specialize (Hd q). all_frames.
  - by apply triple_ret; intros a [].
Qed.
Lemma keeps_resetGroups p : keeps sound (resetGroups callback p).
Proof using Hd Sep SepA.
  unfold resetGroups. apply triple_bind with (Q := fun _ => sound); [by apply triple_gets|]. intros n.
  induction n as [|n IH]; cbn [resetGroups_loop]; unfold this_device; (apply triple_bind with (Q := fun _ => sound); [by apply triple_gets|]);
    intros d; (destruct (d_groupIds d) as [|g l]; [by apply triple_ret|]); [by apply triple_throw|].
  apply triple_bind with (Q := fun _ => sound); [apply keeps_removeFromGroup|done].
Qed.

(** ** The groups of a zone *)

Definition with_groups (z : zptr) (f : list gptr -> list gptr) : Apartment -> Apartment := upd_zone z (fun x => z_with_Groups (f (z_Groups x)) x).

Lemma sound_with_groups a z f : sound a -> (forall g, z ∈ m_Zones a -> g ∈ f (z_Groups (the_zone a z)) -> g_ZoneID (the_group a g) = z_ZoneID (the_zone a z)) ->
  sound (with_groups z f a).
Proof using Type.
  intros [[Hr Hp]%consistent_parts Hh] Hf. split; [|by apply home_upd_zone]. apply consistent_parts. split.
  - split; try apply Hr.
    + unfold with_groups. rewrite zone_ids_upd by done. apply Hr.
    + intros z' Hz'. unfold with_groups. rewrite members_upd. case_decide; [subst; cbn; by apply (reg_members a Hr z')|by apply Hr].
    + intros z' r Hz'. unfold with_groups. rewrite members_upd. case_decide; [subst; cbn; by apply (reg_known a Hr z')|by apply (reg_known a Hr z')].
    + intros z' r Hz'. unfold with_groups. rewrite zone_id_upd, members_upd by done. intros E Hi. case_decide; [subst; cbn|]; by apply (reg_all a Hr z').
    + intros z' g Hz'. unfold with_groups. rewrite zone_id_upd by done. rewrite the_zone_upd. case_decide; [subst; cbn; by apply Hf|by apply (reg_groups a Hr)].
  - intros r z' p Hz'. unfold with_groups. rewrite zone_id_upd, members_upd by done. intros Hne Hi. apply (Hp r z' p Hz' Hne).
    by case_decide; [subst|].
Qed.

(** A predicate that survives new groups, and new entries in the list of zone
    [z] of groups that say they are in it. *)
Definition accepts (z : zptr) (P : Apartment -> Prop) : Prop :=
  (forall a g x, P a -> g ∉ groups_in_use a -> P (upd_group g (fun _ => x) a)) /\
  (forall a g, P a -> g_ZoneID (the_group a g) = z_ZoneID (the_zone a z) -> P (with_groups z (fun l => l ++ [g]) a)).

Lemma in_use a z g : g ∈ z_Groups (the_zone a z) -> g ∈ groups_in_use a.
Proof using Type.
  unfold the_zone. destruct (a_zones a !! z) as [x|] eqn:E; cbn; [|intros []%not_elem_of_nil]. intros Hg. unfold groups_in_use.
  apply list_elem_of_bind. exists (z, x). split; [done|]. by apply elem_of_map_to_list.
Qed.

Lemma accepts_sound z : accepts z sound.
Proof using Type.
  split.
  - intros a g x [[Hr Hp]%consistent_parts Hh] Hg. split; [|done]. apply consistent_parts. split; [|done]. split; try apply Hr.
    intros z' g' Hz' Hg'. rewrite the_group_upd. case_decide; [|by apply (reg_groups a Hr)]. subst. destruct Hg. by eapply in_use.
  - intros a g Hs Hg. apply sound_with_groups; [done|]. intros g' Hz [Hi|Hi]%elem_of_app.
    + destruct Hs as [Hc _]. by apply (zone_groups a Hc).
    + by apply list_elem_of_singleton in Hi as ->.
Qed.

Lemma keeps_addGroup z P g : Structural P -> accepts z P -> keeps P (addGroup callback convert setApplicationTypeInt z g).
Proof.
  intros HP [_ Ha]. unfold addGroup, this_zone, this_group.
  apply triple_bind with (Q := fun x a => P a /\ g_ZoneID (the_group a g) = g_ZoneID x); [by apply triple_gets|]. intros x.
  apply triple_bind with (Q := fun y a => P a /\ (g_ZoneID x =? z_ZoneID y = true -> g_ZoneID (the_group a g) = z_ZoneID (the_zone a z))).
  { apply triple_gets. intros a [H E]. split; [done|]. intros Ez%Z.eqb_eq. congruence. }
  intros y. apply triple_if; intros E1; [by apply triple_ret; intros a []|]. apply triple_if; intros E2; [by apply triple_throw; intros a []|].
  apply triple_bind with (Q := fun _ => P).
  - apply triple_modify. intros a [H E]. apply Ha; [done|]. apply E. by apply negb_false_iff in E2.
  - intros _. apply (triple_frames P); [done|]. intros q. specialize (Hd q). specialize (Hset q). all_frames.
Qed.
Lemma triple_new_group z P x : accepts z P -> triple P (new_group x) (fun _ => P) P.
Proof using Type.
  intros [Hn _]. unfold new_group.
  apply triple_bind with (Q := fun g a => P a /\ g ∉ groups_in_use a).
  - apply triple_gets. intros a H. split; [done|]. intros Hi.
    assert (fresh (dom (a_groups a) ∪ list_to_set (groups_in_use a) : gset gptr) ∉
      (dom (a_groups a) ∪ list_to_set (groups_in_use a) : gset gptr)) as Hf by apply is_fresh.
    apply Hf, elem_of_union_r, elem_of_list_to_set, Hi.
  - intros g. apply triple_bind with (Q := fun _ => P); [|by intros _; apply triple_ret].
    apply triple_modify. intros a [H Hg]. by apply Hn.
Qed.
Lemma keeps_named_group z P id name t : Structural P -> accepts z P ->
  keeps P (named_group callback convert setApplicationTypeInt m_dss z id name t).
Proof.
  intros HP Ha. unfold named_group. apply triple_bind with (Q := fun _ => P); [by apply triple_gets|]. intros zone.
  apply triple_bind with (Q := fun _ => P); [by apply (triple_new_group z)|]. intros g.
  apply triple_bind with (Q := fun _ => P).
  { apply (triple_frames P); [done|]. intros q. specialize (Hd q). specialize (Hset q). all_frames. }
  intros _. apply triple_bind with (Q := fun _ => P); [|intros _; by apply keeps_addGroup].
  apply (triple_frames P); [done|]. intros q. specialize (Hd q). specialize (Hset q).
  destruct t; [|solve_frames]. apply frames_bind; [solve_frames|]. intros _. by apply frames_set_group.
Qed.
Lemma keeps_each {A} P (f : A -> SE (heap W) unit) l : (forall x, keeps P (f x)) -> keeps P (se_iter f l).
Proof.
  intros Hf. induction l as [|x l IH]; cbn [se_iter]; [by apply triple_ret|]. apply triple_bind with (Q := fun _ => P); [apply Hf|done].
Qed.
Lemma keeps_add_cluster z i : keeps sound (add_cluster callback convert setApplicationTypeInt z i).
Proof.
  unfold add_cluster. apply triple_bind with (Q := fun _ => sound).
  - apply triple_query. intros a H. by destruct (getZone a 0).
  - intros _. apply triple_bind with (Q := fun _ => sound); [by eapply (triple_new_group z), accepts_sound|].
    intros g. apply keeps_addGroup; [apply _|apply accepts_sound].
Qed.
Lemma keeps_removeGroup z g : keeps sound (removeGroup callback z g).
Proof using Hd Sep SepA.
  unfold removeGroup. apply triple_bind with (Q := fun _ => sound).
  - destruct g as [g|]; [|by apply triple_ret]. apply triple_modify. intros a Ha. apply sound_with_groups; [done|].
    intros g' Hz Hg'. destruct Ha as [Hc _]. apply (zone_groups a Hc z Hz). eapply elem_of_sublist; [exact Hg'|].
    clear. induction (z_Groups (the_zone a z)) as [|y l IH]; [done|]. cbn. case_match; [by apply sublist_cons|by apply sublist_skip].
  - intros _. apply (triple_frames sound); [apply _|]. intros q. clear Hset. specialize (Hd q). all_frames.
Qed.

(** ** Zones come and go *)

(** A zone that is not listed yet. *)
Definition ready (id : Z) (z : zptr) (a : Apartment) : Prop :=
  z ∉ m_Zones a /\ zkey (the_zone a z) = (id, [], z_Groups (the_zone a z)) /\
  (forall g, g ∈ z_Groups (the_zone a z) -> g_ZoneID (the_group a g) = id) /\ tryGetZone a id = None.
#[export] Instance structural_ready id z : Structural (ready id z).
Proof using Type.
  intros a b H (H1 & H2 & H3 & H4). unfold ready. rewrite (same_tryGetZone a b id H), (same_zkey a b z H). same_as H. by split_and!.
Qed.

Lemma sound_new_zone a z f : z ∉ m_Zones a -> sound a -> sound (upd_zone z f a).
Proof using Type.
  intros Hz [[Hr Hp]%consistent_parts Hh].
  assert (forall z', z' ∈ m_Zones a -> the_zone (upd_zone z f a) z' = the_zone a z') as Hs.
  { intros z' Hz'. rewrite the_zone_upd. case_decide; [by subst|done]. }
  split; [apply consistent_parts; split; [split|]|].
  - apply Hr.
  - erewrite map_ext_in; [apply Hr|]. intros z' Hz'%list_elem_of_In. cbn. by rewrite Hs.
  - intros z' Hz'. unfold getDevices. rewrite Hs by done. by apply (reg_members a Hr).
  - intros z' r Hz'. unfold getDevices. rewrite Hs by done. by apply (reg_known a Hr z').
  - intros z' r Hz'. unfold getDevices. rewrite !Hs by done. by apply (reg_all a Hr z').
  - intros z' g Hz'. rewrite !Hs by done. by apply (reg_groups a Hr z').
  - apply (reg_device_groups a Hr).
  - intros r z' p Hz'. unfold getDevices. rewrite !Hs by done. by apply (Hp r z' p).
  - assert (tryGetZone (upd_zone z f a) 0 = tryGetZone a 0) as E.
    { unfold tryGetZone. change (m_Zones (upd_zone z f a)) with (m_Zones a). revert Hs. generalize (m_Zones a). intros l Hs.
      induction l as [|z' l IH]; [done|]. cbn [List.find]. rewrite Hs by apply list_elem_of_here.
      rewrite IH; [done|]. intros x Hx. by apply Hs, list_elem_of_further. }
    destruct Hh as [H1 H2]. split; [by rewrite E|]. intros z' Hz'. rewrite Hs by done. by apply H2.
Qed.

Lemma accepts_ready id z : accepts z (fun a => sound a /\ ready id z a).
Proof using Type.
  destruct (accepts_sound z) as [A1 A2]. split.
  - intros a g x [Hs (H1 & H2 & H3 & H4)] Hg. split; [by apply A1|]. split_and!; try done.
    intros g' Hg'. rewrite the_group_upd. case_decide; [subst|by apply H3]. destruct Hg. by eapply in_use.
  - intros a g [Hs (H1 & H2 & H3 & H4)] Hg. split; [by apply A2|]. unfold ready, with_groups. split_and!.
    + done.
    + rewrite the_zone_upd. case_decide; [|done]. unfold zkey in *. cbn. congruence.
    + intros g'. rewrite the_zone_upd. case_decide; [|done]. cbn. intros [Hi|Hi]%elem_of_app; [by apply H3|].
      apply list_elem_of_singleton in Hi as ->. change (g_ZoneID (the_group a g) = id). unfold zkey in H2. congruence.
    + by rewrite tryGetZone_upd.
Qed.

Lemma tryGetZone_app a z v : tryGetZone (put_m_Zones (fun l => l ++ [z]) a) v =
  match tryGetZone a v with Some x => Some x | None => if z_ZoneID (the_zone a z) =? v then Some z else None end.
Proof using Type.
  unfold tryGetZone. change (the_zone (put_m_Zones (fun l => l ++ [z]) a)) with (the_zone a).
  change (m_Zones (put_m_Zones (fun l => l ++ [z]) a)) with (m_Zones a ++ [z]).
  induction (m_Zones a) as [|x l IH]; [done|]. cbn [List.find app]. destruct (z_ZoneID (the_zone a x) =? v); [reflexivity|exact IH].
Qed.

Lemma sound_list_zone a id z : sound a -> ready id z a -> id <> -1 ->
  well_formed (rooted || (id =? 0)) (put_m_Zones (fun l => l ++ [z]) a).
Proof using Type.
  intros [[Hr Hp]%consistent_parts Hh] (Hz & Hk & Hg & Hn) Hid. unfold zkey in Hk. injection Hk as Ek Ed.
  assert (forall z', z' ∈ m_Zones (put_m_Zones (fun l => l ++ [z]) a) -> z' ∈ m_Zones a \/ z' = z) as Hin.
  { intros z' [?|?%list_elem_of_singleton]%elem_of_app; auto. }
  assert (getDevices a z = []) as Ed' by done.
  split; [apply consistent_parts; split; [split|]|].
  - apply Hr.
  - cbn. rewrite map_app. apply NoDup_app. split_and!; [apply Hr| |apply NoDup_singleton].
    intros v (z' & -> & Hz')%list_elem_of_fmap. cbn. intros E%list_elem_of_singleton. apply (tryGetZone_none a id z' Hn Hz').
    change (the_zone (put_m_Zones (fun l => l ++ [z]) a)) with (the_zone a) in E. congruence.
  - intros z' [Hz'| ->]%Hin; [by apply (reg_members a Hr)|]. change (NoDup (getDevices a z)). rewrite Ed'. constructor.
  - intros z' r [Hz'| ->]%Hin; [by apply (reg_known a Hr)|]. change (r ∈ getDevices a z -> r ∈ Apartment_getDevices a). rewrite Ed'. by intros []%not_elem_of_nil.
  - intros z' r [Hz'| ->]%Hin; [by apply (reg_all a Hr)|]. change (z_ZoneID (the_zone a z) = 0 -> r ∈ Apartment_getDevices a -> r ∈ getDevices a z).
    intros E0. assert (id = 0) as -> by congruence. destruct Hh as [[[z0 H0]|[_ H0]] _]; [congruence|].
    unfold Apartment_getDevices. rewrite H0. by intros []%not_elem_of_nil.
  - intros z' g [Hz'| ->]%Hin; [by apply (reg_groups a Hr)|]. change (g ∈ z_Groups (the_zone a z) -> g_ZoneID (the_group a g) = z_ZoneID (the_zone a z)).
    rewrite Ek. apply Hg.
  - apply (reg_device_groups a Hr).
  - intros r z' p [Hz'| ->]%Hin; [by apply (Hp r z' p)|]. intros _.
    change (r ∈ getDevices a z -> p ∈ m_Devices a -> d_DSID (the_device a p) = r -> d_ZoneID (the_device a p) = z_ZoneID (the_zone a z)).
    rewrite Ed'. by intros []%not_elem_of_nil.
  - destruct Hh as [H1 H2]. split.
    + rewrite tryGetZone_app. destruct H1 as [[z0 H0]|[Hro Hd0]]; [left; exists z0; by rewrite H0|].
      destruct (Z.eqb_spec id 0) as [->|Hne]; [left|right; by rewrite Hro].
      rewrite Ek. destruct (tryGetZone a 0) as [x|]; [by exists x|by exists z].
    + intros z' [Hz'| ->]%Hin; [by apply H2|]. change (z_ZoneID (the_zone a z) <> -1). congruence.
Qed.

Lemma well_formed_rooted b a z : well_formed b a -> tryGetZone a 0 = Some z -> well_formed true a.
Proof using Type. intros [Hc [_ Hm]] Hz. split; [done|]. split; [left; by exists z|done]. Qed.
Lemma well_formed_weaken b a : well_formed true a -> well_formed b a.
Proof using Type. intros [Hc [[Hz|[? _]] Hm]]; [|done]. split; [done|]. split; [by left|done]. Qed.

Lemma fresh_in (l : list nat) (X : gset nat) : fresh (X ∪ list_to_set l) ∉ l.
Proof using Type.
  intros Hi. apply (is_fresh (X ∪ list_to_set l)). apply elem_of_union_r, elem_of_list_to_set, Hi.
Qed.

Lemma triple_new_zone id values : triple (fun a => sound a /\ tryGetZone a id = None) (new_zone (Zone_new id values))
  (fun z a => sound a /\ ready id z a) sound.
Proof using Type.
  unfold new_zone. apply triple_bind with (Q := fun z a => (sound a /\ tryGetZone a id = None) /\ z ∉ m_Zones a).
  - apply triple_gets. intros a H. split; [done|]. apply fresh_in.
  - intros z. apply triple_bind with (Q := fun _ a => sound a /\ ready id z a); [|by intros _; apply triple_ret].
    apply triple_modify. intros a [[H Hn] Hz]. split; [by apply sound_new_zone|].
    assert (the_zone (upd_zone z (fun _ => Zone_new id values) a) z = Zone_new id values) as E by (rewrite the_zone_upd; by case_decide).
    split_and!.
    + done.
    + by rewrite E.
    + rewrite E. by intros g []%not_elem_of_nil.
    + unfold tryGetZone in *. change (m_Zones (upd_zone z (fun _ => Zone_new id values) a)) with (m_Zones a).
      revert Hz Hn. clear -a. generalize (m_Zones a). intros l Hz Hn. induction l as [|x l IH]; [done|]. cbn [List.find] in *.
      rewrite the_zone_upd. apply not_elem_of_cons in Hz as [Hx Hz]. case_decide; [done|].
      destruct (z_ZoneID (the_zone a x) =? id); [done|]. by apply IH.
Qed.

End Triples.

Section Structure.
Context {ical W : Type} {Sched : Schedule ical} {EW : EventWorld ical W} {SW : StateWorld W} {AW : ApartmentWorld W}.
Context {LC : Libc} {SD : Strtod} {BM : BusMembers} {DU : Dsuid} {Sep : SeparateWorlds EW SW} {SepA : SeparateApartment EW SW AW}.
Context (new_ICalSchedule : string -> string -> DateTime -> res ical).
Context (callback : notification -> lid -> nid -> nid -> heap W -> heap W).
Context (can_write : string -> bool) (bus_error : list ActionRequest -> ActionRequest -> option exn).
Context (convert : string -> res string) (setApplicationTypeInt : gptr -> Z -> W -> W) (m_dss : bool).

Context (Hd : forall q, discreet (obs q) callback) (Hset : forall q g v w, obs q (setApplicationTypeInt g v w) = obs q w).

Lemma triple_allocateZone id : id <> -1 ->
  forall rooted, triple (well_formed rooted) (allocateZone callback convert setApplicationTypeInt m_dss id) (fun _ => well_formed (rooted || (id =? 0))) (well_formed rooted).
Proof.
  intros Hid rooted. unfold allocateZone.
  apply triple_bind with (Q := fun x a => well_formed rooted a /\ tryGetZone a id = x); [by apply triple_gets|]. intros [z|].
  - apply triple_bind with (Q := fun _ a => well_formed rooted a /\ tryGetZone a id = Some z).
    + apply triple_exn with (E' := fun a => well_formed rooted a /\ tryGetZone a id = Some z); [|by intros a []].
      apply (triple_frames (fun a => well_formed rooted a /\ tryGetZone a id = Some z)); [apply _|].
      intros q. specialize (Hd q). specialize (Hset q). all_frames.
    + intros _. apply triple_ret. intros a [H Hz]. destruct (Z.eqb_spec id 0) as [->|]; [|by rewrite orb_false_r].
      rewrite orb_true_r. by eapply well_formed_rooted.
  - apply triple_bind with (Q := fun _ a => well_formed rooted a /\ tryGetZone a id = None); [by apply triple_gets|]. intros values.
    apply triple_bind with (Q := fun z a => well_formed rooted a /\ ready id z a); [by eapply triple_new_zone|]. intros z.
    set (P := fun a => well_formed rooted a /\ ready id z a). assert (Structural P) as HP by apply _.
    assert (forall A (m : SE (heap W) A), keeps P m -> triple P m (fun _ => P) (well_formed rooted)) as Hweak.
    { intros A m Hm. eapply triple_exn; [exact Hm|by intros a []]. }
    apply triple_bind with (Q := fun _ => P).
    { apply Hweak, (triple_frames P); [done|]. intros q. specialize (Hd q). specialize (Hset q). all_frames. }
    intros _. apply triple_bind with (Q := fun _ => P).
    { apply Hweak. apply keeps_each. intros [[i n] t]. apply keeps_named_group; [done..|apply accepts_ready]. }
    intros _. apply triple_bind with (Q := fun _ => well_formed (rooted || (id =? 0))).
    { apply triple_modify. intros a [H1 H2]. by eapply sound_list_zone. }
    intros _. apply triple_bind with (Q := fun _ => well_formed (rooted || (id =? 0))); [|by intros _; apply triple_ret].
    destruct (Z.eqb_spec id 0) as [->|]; [|by rewrite orb_false_r; apply triple_ret]. rewrite orb_true_r.
    apply triple_bind with (Q := fun _ => well_formed true).
    + apply triple_exn with (E' := well_formed true); [|apply well_formed_weaken]. apply keeps_each. intros i. by apply keeps_add_cluster.
    + intros _. apply triple_exn with (E' := well_formed true); [|apply well_formed_weaken].
      apply keeps_named_group; [done..|apply _|apply accepts_sound].
Qed.

Lemma erase_ptr_sub x l : erase_ptr x l `sublist_of` l.
Proof using Type. induction l as [|y l IH]; [done|]. cbn. case_match; [by apply sublist_cons|by apply sublist_skip]. Qed.
Lemma erase_ptr_other x y l : y ∈ l -> y <> x -> y ∈ erase_ptr x l.
Proof using Type.
  intros Hy Hne. induction l as [|z l IH]; [by apply not_elem_of_nil in Hy|]. cbn. destruct (Nat.eqb_spec x z) as [->|].
  - by apply elem_of_cons in Hy as [->|].
  - apply elem_of_cons in Hy as [->|Hy]; [apply list_elem_of_here|by apply list_elem_of_further, IH].
Qed.
Lemma erase_ptr_gone x l : NoDup l -> x ∉ erase_ptr x l.
Proof using Type.
  induction 1 as [|y l Hy Hl IH]; [by apply not_elem_of_nil|]. cbn. destruct (Nat.eqb_spec x y) as [->|]; [done|].
  by apply not_elem_of_cons.
Qed.

Lemma well_formed_unlist b a id z : well_formed b a -> tryGetZone a id = Some z -> id <> 0 -> well_formed b (put_m_Zones (erase_ptr z) a).
Proof using Type.
  intros [[Hr Hp]%consistent_parts [H1 H2]] [Hz Ez]%tryGetZone_Some Hid.
  assert (forall z', z' ∈ m_Zones (put_m_Zones (erase_ptr z) a) -> z' ∈ m_Zones a) as Hin.
  { intros z' Hz'. eapply elem_of_sublist; [exact Hz'|apply erase_ptr_sub]. }
  assert (NoDup (map (fun z => z_ZoneID (the_zone a z)) (erase_ptr z (m_Zones a)))) as Hn.
  { eapply sublist_NoDup; [apply (reg_zones a Hr)|]. apply (fmap_sublist (fun z => z_ZoneID (the_zone a z))), erase_ptr_sub. }
  split; [apply consistent_parts; split; [split|]|split].
  - apply Hr.
  - exact Hn.
  - intros z' Hz'%Hin. by apply (reg_members a Hr).
  - intros z' r Hz'%Hin. by apply (reg_known a Hr).
  - intros z' r Hz'%Hin. by apply (reg_all a Hr).
  - intros z' g Hz'%Hin. by apply (reg_groups a Hr).
  - apply (reg_device_groups a Hr).
  - intros r z' p Hz'%Hin. by apply (Hp r z' p).
  - destruct H1 as [[z0 Hz0]|H1]; [left|by right]. pose proof (tryGetZone_Some a 0 z0 Hz0) as [Hi0 E0]. exists z0.
    unfold tryGetZone. rewrite find_eqb_key, <- E0. apply (find_by_key_unique (fun z => z_ZoneID (the_zone a z))); [exact Hn|].
    apply erase_ptr_other; [done|]. intros ->. congruence.
  - intros z' Hz'%Hin. by apply H2.
Qed.

Lemma keeps_removeZone b id : id <> 0 -> keeps (well_formed b) (removeZone callback id).
Proof.
  intros Hid. unfold removeZone.
  apply triple_bind with (Q := fun x a => well_formed b a /\ tryGetZone a id = x); [by apply triple_gets|]. intros [z|].
  - apply triple_bind with (Q := fun _ a => well_formed b a /\ tryGetZone a id = Some z).
    + apply triple_exn with (E' := fun a => well_formed b a /\ tryGetZone a id = Some z); [|by intros a []].
      apply (triple_frames (fun a => well_formed b a /\ tryGetZone a id = Some z)); [apply _|].
      intros q. clear Hset. specialize (Hd q). all_frames.
    + intros _. apply triple_modify. intros a [H Hz]. by eapply well_formed_unlist.
  - by apply triple_ret; intros a [].
Qed.

(** ** Devices come and go *)

Lemma same_enlist z r a b : same_structure a b -> same_structure (enlist z r a) (enlist z r b).
Proof using Type.
  intros H q. pose proof (H q) as Hq. unfold enlist. destruct q as [p|z'|g| |]; try exact Hq.
  cbn in *. f_equal. rewrite !the_zone_upd. case_decide; [subst|by apply same_zkey].
  pose proof (same_zkey a b z' H) as E. unfold zkey in *. cbn. congruence.
Qed.

(** A device that is known, but not in the list of zone 0 yet. *)
Definition newcomer (r : DeviceReference) (p : dptr) (z : zptr) (a : Apartment) : Prop :=
  (getDevice a r = Ok p /\ d_ZoneID (the_device a p) = 0 /\ d_DSID (the_device a p) = r /\ tryGetZone a 0 = Some z) /\
  moving true r p 0 [0] z 0 (enlist z r a).
#[export] Instance structural_newcomer r p z : Structural (newcomer r p z).
Proof using Type.
  intros a b H [(H1 & H2 & H3 & H4) H5]. split; [|eapply structural_moving; [by apply same_enlist|done]].
  unfold getDevice, getDeviceByDSID in *.
  by rewrite (same_tryGetDevice a b r H), (same_tryGetZone a b 0 H), (same_dsid a b p H), (same_d_zone a b p H).
Qed.

Lemma new_device_newcomer a r p z now : well_formed true a -> tryGetDeviceByDSID a r = None -> p ∉ m_Devices a -> tryGetZone a 0 = Some z ->
  newcomer r p z (put_m_Devices (fun l => l ++ [p]) (upd_device p (fun _ => Device_new r now) a)).
Proof using Type.
  intros [[Hr Hp]%consistent_parts Hh] Hn Hpn Hz0. set (a2 := put_m_Devices _ _).
  pose proof (tryGetZone_Some a 0 z Hz0) as [Hz Ez].
  assert (r ∉ Apartment_getDevices a) as Hnr by (rewrite known_device, Hn; by intros [? ?]).
  assert (forall p', the_device a2 p' = if decide (p = p') then Device_new r now else the_device a p') as Hdev.
  { intros p'. apply (the_device_upd a p (fun _ => Device_new r now)). }
  assert (forall p', p' ∈ m_Devices a -> the_device a2 p' = the_device a p') as Hold.
  { intros p' Hp'. rewrite Hdev. case_decide; [by subst|done]. }
  assert (the_device a2 p = Device_new r now) as Hnew by (rewrite Hdev; by case_decide).
  assert (Apartment_getDevices a2 = Apartment_getDevices a ++ [r]) as Href.
  { unfold Apartment_getDevices. change (m_Devices a2) with (m_Devices a ++ [p]). rewrite map_app. f_equal; [|cbn; by rewrite Hnew].
    apply map_ext_in. intros p' Hp'%list_elem_of_In. by rewrite Hold. }
  assert (forall p', p' ∈ m_Devices a2 -> p' ∈ m_Devices a \/ p' = p) as Hin.
  { intros p' [?|?%list_elem_of_singleton]%elem_of_app; auto. }
  assert (NoDup (Apartment_getDevices a2)) as Hnd.
  { rewrite Href. apply NoDup_app. split_and!; [apply Hr| |apply NoDup_singleton]. by intros x Hx ->%list_elem_of_singleton. }
  assert (p ∈ m_Devices a2) as Hpi by (apply elem_of_app; right; by apply list_elem_of_singleton).
  assert (forall z' r', z' ∈ m_Zones a -> r' ∈ getDevices (enlist z r a2) z' -> r' ∈ getDevices a z' \/ z' = z /\ r' = r) as Hmem.
  { intros z' r' Hz'. unfold enlist. rewrite members_upd. case_decide; [subst|by left].
    intros [?| ->]%addDevice_In; [by left|by right]. }
  split; [split_and!|split; [split_and!; [split| |]|]].
  - unfold getDevice, getDeviceByDSID, tryGetDeviceByDSID.
    pose proof (find_by_key_unique (fun p => d_DSID (the_device a2 p)) _ p Hnd Hpi) as E. cbn beta in E. rewrite Hnew in E.
    change (d_DSID (Device_new r now)) with r in E. by rewrite E.
  - by rewrite Hnew.
  - by rewrite Hnew.
  - exact Hz0.
  - split.
    + exact Hnd.
    + unfold enlist. rewrite zone_ids_upd by done. apply (reg_zones a Hr).
    + intros z' Hz'. unfold enlist. rewrite members_upd. case_decide; [|by apply (reg_members a Hr)].
      apply addDevice_NoDup. by apply (reg_members a Hr z).
    + intros z' r' Hz' [Hi|[-> ->]]%Hmem; [| |done]; change (Apartment_getDevices (enlist z r a2)) with (Apartment_getDevices a2);
        rewrite Href; apply elem_of_app; [left; by apply (reg_known a Hr z')|right; by apply list_elem_of_singleton].
    + intros z' r' Hz'. unfold enlist. rewrite zone_id_upd by done. intros E0. change (Apartment_getDevices (upd_zone z _ a2)) with (Apartment_getDevices a2).
      rewrite Href, members_upd. assert (z' = z) as -> by (apply (same_zone a); [apply Hr|done..|]; rewrite Ez; exact E0).
      case_decide; [|done]. intros [Hi|Hi%list_elem_of_singleton]%elem_of_app; apply addDevice_In; [left; by apply (reg_all a Hr z)|by right].
    + intros z' g Hz'. unfold enlist. rewrite zone_id_upd, zone_groups_upd by done. by apply (reg_groups a Hr).
    + intros p' [Hp'| ->]%Hin; change (the_device (enlist z r a2)) with (the_device a2).
      * rewrite Hold by done. by apply (reg_device_groups a Hr).
      * rewrite Hnew. split; constructor.
  - intros r' Hr' z' p' Hz'. unfold enlist. rewrite zone_id_upd by done. intros Hne Hi.
    change (the_device (upd_zone z _ a2)) with (the_device a2). intros [Hp'| ->]%Hin; [|rewrite Hnew; intros <-; done].
    rewrite Hold by done. intros Hk. apply (Hp r' z' p'); try done. apply Hmem in Hi as [?|[-> ->]]; done.
  - destruct Hh as [H1 H2]. split; [left; exists z; unfold enlist; by rewrite tryGetZone_upd|].
    intros z' Hz'. unfold enlist. rewrite zone_id_upd by done. by apply H2.
  - intros z' Hz'. unfold enlist at 1. rewrite zone_id_upd by done. intros Hne Hi.
    apply Hmem in Hi as [Hi|[-> _]]; [|done|done]. by apply (reg_known a Hr z') in Hi.
  - split; [exact Hpi|]. change (the_device (enlist z r a2) p) with (the_device a2 p). by rewrite Hnew.
  - unfold enlist. by rewrite zone_id_upd.
Qed.

Lemma keeps_allocateDevice dsid : keeps (well_formed true) (allocateDevice new_ICalSchedule callback can_write dsid).
Proof.
  unfold allocateDevice. set (known := fun p a => well_formed true a \/ exists z, newcomer dsid p z a).
  apply triple_bind with (Q := fun x a => well_formed true a /\ tryGetDeviceByDSID a dsid = x); [by apply triple_gets|]. intros x.
  apply triple_bind with (Q := known).
  { destruct x as [p|]; [by apply triple_ret; intros a [H _]; left|].
    apply triple_bind with (Q := fun _ a => well_formed true a /\ tryGetDeviceByDSID a dsid = None).
    { intros h Hq H. split; [exact Hq|exact H]. }
    intros now. unfold new_device.
    apply triple_bind with (Q := fun p a => exists a0, (well_formed true a0 /\ tryGetDeviceByDSID a0 dsid = None /\ p ∉ m_Devices a0) /\
      a = upd_device p (fun _ => Device_new dsid now) a0).
    - apply triple_bind with (Q := fun p a => (well_formed true a /\ tryGetDeviceByDSID a dsid = None) /\ p ∉ m_Devices a).
      + apply triple_gets. intros a H. split; [done|apply fresh_in].
      + intros p. apply triple_bind with (Q := fun _ a => exists a0, (well_formed true a0 /\ tryGetDeviceByDSID a0 dsid = None /\ p ∉ m_Devices a0) /\
          a = upd_device p (fun _ => Device_new dsid now) a0); [|by intros _; apply triple_ret].
        apply triple_modify. intros a [[H1 H2] H3]. by exists a.
    - intros p. apply triple_bind with (Q := fun _ => known p); [|by intros _; apply triple_ret].
      apply triple_modify. intros a (a0 & (H1 & H2 & H3) & ->). right. destruct H1 as [Hc [[[z Hz]|[? _]] Hm]]; [|done].
      exists z. apply new_device_newcomer; [|done..]. split; [done|]. split; [left; by exists z|done]. }
  intros p. apply triple_bind with (Q := fun z a => well_formed true a \/ newcomer dsid p z a).
  { apply triple_query. intros a [H|[z H]].
    - destruct H as [Hc [[[z Hz]|[? _]] Hm]]; [|done]. unfold getZone. rewrite Hz. left. split; [done|]. split; [left; by exists z|done].
    - unfold getZone. destruct H as [(H1 & H2 & H3 & H4) H5]. rewrite H4. right. by split. }
  intros z. apply triple_bind with (Q := fun r a => well_formed true a \/ newcomer dsid p z a /\ r = dsid).
  { apply triple_gets. intros a [H|H]; [by left|right; split; [done|apply H]]. }
  intros r. apply triple_bind with (Q := fun _ => well_formed true).
  - intros h Hq [Hs|[H Er]]; [by eapply keeps_Zone_addDevice|]. rewrite Er. clear Er r.
    assert (triple (newcomer dsid p z) (Zone_addDevice new_ICalSchedule callback can_write z dsid)
      (fun _ => moving true dsid p 0 [0] z 0) (moving true dsid p 0 [0] z 0)) as Ht.
    { eapply triple_Zone_addDevice_from with (P' := newcomer dsid p z) (old := 0); [done|apply _..| | | |].
      - intros a [(H1 & H2 & _) _]. done.
      - done.
      - done.
      - intros a [_ H1]. exact H1. }
    destruct (Ht h Hq H) as [H1 H2]. split; [done|]. destruct (fst _); [by eapply member_sound, H2|]. intros He. by eapply member_sound, H2.
  - intros _. apply triple_bind with (Q := fun _ => well_formed true); [|by intros _; apply triple_ret].
    apply (triple_frames (well_formed true)); [apply _|]. intros q. specialize (Hd q). specialize (Hset q). all_frames.
Qed.

(** What is left when a device that only zone 0 lists is taken from that list
    and from the apartment's. *)
Lemma well_formed_erase b a r p old z : member b r p old [] a -> tryGetZone a 0 = Some z ->
  well_formed b (put_m_Devices (erase_ptr p) (drop z r a)).
Proof using Type.
  intros ([Hr Ho Hh] & Hl & (Hp & Hk & _)) Hz0. set (a2 := put_m_Devices _ _). pose proof (tryGetZone_Some a 0 z Hz0) as [Hz Ez].
  pose proof (reg_devices a Hr) as Hnd.
  assert (NoDup (m_Devices a)) as Hnp by (apply (NoDup_fmap_1 (fun p => d_DSID (the_device a p))); exact Hnd).
  assert (forall p', p' ∈ m_Devices a2 -> p' ∈ m_Devices a /\ p' <> p) as Hin.
  { intros p' Hp'. split; [eapply elem_of_sublist; [exact Hp'|apply erase_ptr_sub]|].
    intros ->. by apply (erase_ptr_gone p (m_Devices a)) in Hp'. }
  assert (forall r', r' ∈ Apartment_getDevices a2 <-> r' ∈ Apartment_getDevices a /\ r' <> r) as Href.
  { intros r'. rewrite !elem_of_devices. change (the_device a2) with (the_device a). split.
    - intros (p' & [Hp' Hne]%Hin & Hk'). split; [by exists p'|]. intros ->. apply Hne. apply (same_device a); [done..|congruence].
    - intros [(p' & Hp' & Hk') Hne]. exists p'. split; [|done]. apply erase_ptr_other; [done|]. intros ->. congruence. }
  assert (forall z' r', z' ∈ m_Zones a -> r' ∈ getDevices a2 z' -> r' ∈ getDevices a z' /\ r' <> r) as Hmem.
  { intros z' r' Hz'. unfold a2, drop. change (getDevices (put_m_Devices _ ?x)) with (getDevices x). rewrite members_upd.
    case_decide as E; [subst; apply removeDevice_In; by apply (reg_members a Hr)|]. intros Hi. split; [done|]. intros ->.
    destruct (decide (z_ZoneID (the_zone a z') = 0)) as [E0|E0]; [|by apply Hl, not_elem_of_nil in Hi].
    apply E. apply (same_zone a); [apply Hr|done..|congruence]. }
  assert (forall z', z_ZoneID (the_zone a2 z') = z_ZoneID (the_zone a z')) as Hid.
  { intros z'. unfold a2, drop. change (the_zone (put_m_Devices _ ?x)) with (the_zone x). by apply zone_id_upd. }
  split; [apply consistent_parts; split; [split|]|split].
  - eapply sublist_NoDup; [exact Hnd|]. apply (fmap_sublist (fun p => d_DSID (the_device a p))), erase_ptr_sub.
  - erewrite map_ext; [apply Hr|]. intros z'. cbn. apply Hid.
  - intros z' Hz'. unfold a2, drop. change (getDevices (put_m_Devices _ ?x)) with (getDevices x). rewrite members_upd.
    case_decide; [apply removeDevice_NoDup|]; apply (reg_members a Hr); done.
  - intros z' r' Hz' [Hi Hne]%Hmem; [|done]. apply Href. split; [by apply (reg_known a Hr z')|done].
  - intros z' r' Hz'. rewrite Hid. intros E0 [Hi Hne]%Href. assert (z' = z) as -> by (apply (same_zone a); [apply Hr|done..|congruence]).
    unfold a2, drop. change (getDevices (put_m_Devices _ ?x)) with (getDevices x). rewrite members_upd. case_decide; [|done].
    cbn. apply removeDevice_In; [by apply (reg_members a Hr)|]. split; [by apply (reg_all a Hr z)|done].
  - intros z' g Hz'. rewrite Hid. unfold a2, drop. change (the_zone (put_m_Devices _ ?x)) with (the_zone x).
    rewrite zone_groups_upd by done. by apply (reg_groups a Hr).
  - intros p' [Hp' _]%Hin. by apply (reg_device_groups a Hr).
  - intros r' z' p' Hz'. rewrite Hid. intros Hne [Hi Hr']%Hmem; [|done]. intros [Hp' _]%Hin Hk'. by apply (Ho r' Hr' z' p').
  - left. exists z. unfold a2, drop. change (tryGetZone (put_m_Devices _ ?x)) with (tryGetZone x). by rewrite tryGetZone_upd.
  - intros z' Hz'. rewrite Hid. by apply Hh.
Qed.

Lemma tame_removeState s : tame (GroupOps.removeState (W := W) s).
Proof using Type.
  unfold GroupOps.removeState. apply tame_bind; [done|]. intros l. apply tame_bind; [|done].
  intros h. unfold se_lift, SceneAccess.removeState. cbn. by destruct (existsb _ l).
Qed.
Lemma tame_input_destroy b : tame (input_destroy new_ICalSchedule callback can_write b).
Proof using Type.
  assert (forall A (m : SE (heap W) A), tame (in_destructor m)) as Hdes.
  { intros A m. apply tame_try; [|done]. intros h. destruct (fst (m h)); [done|by left]. }
  unfold input_destroy. apply tame_bind; [apply Hdes|]. intros _. destruct (b_field b) as [[g t]|]; [apply Hdes|done].
Qed.
#[export] Instance structural_erased P p : Structural P -> Structural (fun a => P (put_m_Devices (erase_ptr p) a)).
Proof using Type.
  intros HP a b H. apply HP. intros q. pose proof (H q) as Hq. destruct q; try exact Hq. cbn in *. congruence.
Qed.

Lemma keeps_removeDevice b dsid : keeps (well_formed b) (removeDevice new_ICalSchedule callback can_write dsid).
Proof.
  unfold removeDevice, this_device.
  apply triple_bind with (Q := fun x a => well_formed b a /\ tryGetDeviceByDSID a dsid = x); [by apply triple_gets|].
  intros [p|]; [|by apply triple_ret; intros a []].
  apply triple_bind with (Q := fun d a => well_formed b a /\ zone_of a p dsid (d_ZoneID d) /\ d_DSID d = dsid).
  { apply triple_gets. intros a [H [Hp Hk]%tryGetDeviceByDSID_Some]. split; [exact H|]. split; [|exact Hk]. by split_and!. }
  intros d. set (old := d_ZoneID d). set (P := fun a => well_formed b a /\ zone_of a p dsid old).
  eapply triple_pure; [intros a (_ & _ & Ed); exact Ed|]. intros ->.
  assert (forall a, P a -> member b dsid p old [old] a) as Hmember.
  { intros a [H Hz]. pose proof Hz as (Hp & Hk & Ho). pose proof (proj1 (proj1 (consistent_parts a) (proj1 H))) as Hr.
    rewrite <- Ho. apply sound_member; [done|]. by eapply getDevice_known. }
  apply triple_bind with (Q := fun _ => P).
  { apply triple_weaken with (P' := P) (Q' := fun _ => P) (E' := P); [by intros a (H1 & H2 & _)| |done|by intros a []].
    apply (triple_frames P); [apply _|]. intros q. specialize (Hd q). by apply frames_push_device_event. }
  intros _. apply triple_bind with (Q := fun _ => member b dsid p old []).
  { apply triple_if; intros Eo.
    - apply negb_true_iff, Z.eqb_neq in Eo. apply triple_bind with (Q := fun z a => member b dsid p old [old] a /\ tryGetZone a old = Some z).
      + apply triple_query. intros a H. unfold getZone. fold old. destruct (tryGetZone a old); [|by intros _; apply H]. split; [by apply Hmember|done].
      + intros z. apply triple_exn with (E' := fun _ => False); [|done]. eapply triple_Zone_removeDevice; [apply Hd|apply _..|].
        intros a [H Hz]. pose proof (member_drop b dsid p old [old] a z H Hz Eo) as Hm. rewrite filter_cons_False, filter_nil in Hm by auto. exact Hm.
    - apply negb_false_iff, Z.eqb_eq in Eo. apply triple_ret. intros a H.
      pose proof (member_none b dsid p old [old] a (Hmember a H) ltac:(auto)) as Hm. rewrite filter_cons_False, filter_nil in Hm by auto. exact Hm. }
  intros _. assert (forall a, member b dsid p old [] a -> well_formed b a) as Hwf.
  { intros a (H1 & H2 & H3). apply (sound_almost b dsid). split; [done|]. apply (lists_placed a p dsid old); [apply H1|done|].
    intros z Hz Hne Hi. by apply H2, not_elem_of_nil in Hi. }
  apply triple_bind with (Q := fun z a => member b dsid p old [] a /\ tryGetZone a 0 = Some z).
  { apply triple_query. intros a H. unfold getZone. destruct (tryGetZone a 0); [done|]. intros _. by apply Hwf. }
  intros z. set (R := fun a => well_formed b (put_m_Devices (erase_ptr p) a)). assert (Structural R) as HR by apply _.
  apply triple_bind with (Q := fun _ => R).
  { apply triple_exn with (E' := fun _ => False); [|done]. eapply triple_Zone_removeDevice; [apply Hd|apply _..|].
    intros a [H Hz]. by eapply well_formed_erase. }
  intros _. apply triple_exn with (E' := fun _ => False); [|done].
  apply triple_bind with (Q := fun _ => R).
  { apply (triple_tame _ _ _ R).
    - apply tame_try; [|done]. apply caught_bind; [|done]. apply caught_query. intros a. unfold getDSMeterByDSID. by destruct (List.find _ _).
    - apply (triple_frames R); [done|]. intros q. specialize (Hd q). all_frames. }
  intros _. apply triple_bind with (Q := fun _ => R).
  { eapply triple_tame; [|apply (triple_frames R); [done|]; intros q; specialize (Hd q); all_frames].
    unfold clearBinaryInputs. apply tame_bind; [done|]. intros d'. apply tame_bind; [|done]. apply tame_iter, tame_input_destroy. }
  intros _. apply triple_bind with (Q := fun _ => R).
  { eapply triple_tame; [|apply (triple_frames R); [done|]; intros q; specialize (Hd q); all_frames].
    unfold clearStates. apply tame_bind; [done|]. intros d'. apply tame_bind; [|done]. apply tame_iter. intros x.
    apply tame_try; [|done]. apply caught_tame, tame_removeState. }
  intros _. by apply triple_modify.
Qed.

Lemma keeps_framed {A} P (m : SE (heap W) A) : Structural P -> all_framed m -> keeps P m.
Proof using Type. intros HP Hm. by apply triple_frames. Qed.
Lemma keeps_then {A B} P (m : SE (heap W) A) (f : A -> SE (heap W) B) : keeps P m -> (forall x, keeps P (f x)) -> keeps P (m ≫= f).
Proof using Type. intros Hm Hf. by apply triple_bind with (Q := fun _ => P). Qed.

(** ** All changes of the structure *)

Inductive operation :=
| OpAllocateZone (id : Z) | OpRemoveZone (id : Z) | OpAllocateDevice (dsid : dsuid_t) | OpRemoveDevice (dsid : dsuid_t)
| OpAddDevice (z : zptr) (r : DeviceReference) | OpLeaveZone (z : zptr) (r : DeviceReference) | OpSetZoneID (p : dptr) (v : Z)
| OpAddToGroup (p : dptr) (g : Z) | OpRemoveFromGroup (p : dptr) (g : Z) | OpResetGroups (p : dptr)
| OpNewGroup (z : zptr) (id : Z) (name : string) (t : option ApplicationType.t) | OpAddGroup (z : zptr) (g : gptr)
| OpRemoveGroup (z : zptr) (g : option gptr) | OpSetApplicationType (g : gptr) (t : ApplicationType.t)
| OpSetFromSpec (g : gptr) (spec : GroupSpec_t) | OpSetGroupName (g : gptr) (name : string)
| OpAllocateDSMeter (dsid : dsuid_t) | OpRemoveDSMeter (dsid : dsuid_t) | OpRemoveInactiveMeters
| OpSetDSMeter (p : dptr) (m : mptr) | OpAddToDSMeter (z : zptr) (m : mptr) | OpRemoveFromDSMeter (z : zptr) (m : mptr)
| OpMeterAddDevice (m : mptr) (r : DeviceReference) | OpMeterRemoveDevice (m : mptr) (r : DeviceReference)
| OpUpdateTemperatureControlMeter (z : zptr) | OpSetState (s : sid) (origin v : Z) | OpClearBinaryInputs (p : dptr)
| OpClearStates (p : dptr) | OpSetPropertySystem | OpPublishDevice (p : dptr) | OpUnpublishDevice (p : dptr).

Definition run (op : operation) : SE (heap W) unit :=
  match op with
  | OpAllocateZone id => _ ← allocateZone callback convert setApplicationTypeInt m_dss id; mret tt
  | OpRemoveZone id => removeZone callback id
  | OpAllocateDevice dsid => _ ← allocateDevice new_ICalSchedule callback can_write dsid; mret tt
  | OpRemoveDevice dsid => removeDevice new_ICalSchedule callback can_write dsid
  | OpAddDevice z r => Zone_addDevice new_ICalSchedule callback can_write z r
  | OpLeaveZone z r => Zone_removeDevice callback z r
  | OpSetZoneID p v => setZoneID new_ICalSchedule callback can_write p v
  | OpAddToGroup p g => addToGroup callback p g
  | OpRemoveFromGroup p g => removeFromGroup callback p g
  | OpResetGroups p => resetGroups callback p
  | OpNewGroup z id name t => named_group callback convert setApplicationTypeInt m_dss z id name t
  | OpAddGroup z g => addGroup callback convert setApplicationTypeInt z g
  | OpRemoveGroup z g => removeGroup callback z g
  | OpSetApplicationType g t => setApplicationType callback m_dss g t
  | OpSetFromSpec g spec => group_setFromSpec callback convert m_dss g spec
  | OpSetGroupName g name => setName convert g name
  | OpAllocateDSMeter dsid => _ ← allocateDSMeter callback convert dsid; mret tt
  | OpRemoveDSMeter dsid => removeDSMeter dsid
  | OpRemoveInactiveMeters => removeInactiveMeters
  | OpSetDSMeter p m => setDSMeter callback p m
  | OpAddToDSMeter z m => addToDSMeter callback z m
  | OpRemoveFromDSMeter z m => removeFromDSMeter callback z m
  | OpMeterAddDevice m r => DSMeter_addDevice m r
  | OpMeterRemoveDevice m r => DSMeter_removeDevice m r
  | OpUpdateTemperatureControlMeter z => updateTemperatureControlMeter z
  | OpSetState s origin v => setState new_ICalSchedule callback can_write s origin v
  | OpClearBinaryInputs p => clearBinaryInputs new_ICalSchedule callback can_write p
  | OpClearStates p => clearStates p
  | OpSetPropertySystem => setPropertySystem callback convert setApplicationTypeInt
  | OpPublishDevice p => device_publishToPropertyTree callback p
  | OpUnpublishDevice p => device_removeFromPropertyTree callback p
  end.

(** What the callers see to: zone -1 is not made and zone 0 not removed, devices
    are taken out of other zones than zone 0 only, and a device gets the number
    of a zone directly only when no other zone lists it, as the bus scanner does
    between leaving a zone and entering one. *)
Definition allowed (a : Apartment) (op : operation) : Prop :=
  match op with
  | OpAllocateZone id => id <> -1
  | OpRemoveZone id => id <> 0
  | OpLeaveZone z _ => z_ZoneID (the_zone a z) <> 0
  | OpSetZoneID p v => lists a (d_DSID (the_device a p)) [v]
  | _ => True
  end.

(** A call that returned, or threw an exception that can be caught. *)
Definition ended {A} (r : res A) : Prop := match r with Ok _ => True | Throw e => is_std_exception e = true end.

(** The constructor of the apartment makes zone 0. *)
Inductive reachable : heap W -> Prop :=
| reach_new h z h' : undisturbed h -> m_Devices (apt h) = [] -> m_Zones (apt h) = [] ->
    allocateZone callback convert setApplicationTypeInt m_dss 0 h = (Ok z, h') -> reachable h'
| reach_step h op r h' : reachable h -> allowed (apt h) op -> run op h = (r, h') -> ended r -> reachable h'.

Lemma keeps_setZoneID b p v : triple (fun a => well_formed b a /\ lists a (d_DSID (the_device a p)) [v])
  (setZoneID new_ICalSchedule callback can_write p v) (fun _ => well_formed b) (well_formed b).
Proof.
  eapply triple_setZoneID; [apply Hd| |apply _|].
  - intros a b' H [H1 H2]. split; [by eapply structural_sound|]. rewrite (same_dsid a b' p H). by eapply structural_lists.
  - intros a l [H Hl]. destruct (decide (p ∈ m_Devices a)) as [Hp|Hp].
    + apply (sound_almost b (d_DSID (the_device a p))) in H as [H1 H2].
      apply (member_sound b (d_DSID (the_device a p)) p v). split_and!; [by apply almost_place|done|].
      by apply (zone_of_place a p (d_DSID (the_device a p)) (d_ZoneID (the_device a p))).
    + destruct H as [[Hr Hpl]%consistent_parts Hh]. split; [|done]. apply consistent_parts. split; [by apply regular_place|].
      intros r z p' Hz Hne Hi Hp'. unfold place. rewrite dsid_upd by done. intros Hk. rewrite the_device_upd.
      case_decide; [by subst|by apply (Hpl r z p')].
Qed.
Lemma keeps_leave b z r : triple (fun a => well_formed b a /\ z_ZoneID (the_zone a z) <> 0)
  (Zone_removeDevice callback z r) (fun _ => well_formed b) (well_formed b).
Proof.
  eapply triple_Zone_removeDevice; [apply Hd| |apply _|].
  - intros a b' H [H1 H2]. split; [by eapply structural_sound|]. by rewrite (same_z_id a b' z H).
  - intros a [[[Hr Hpl]%consistent_parts Hh] Hne]. split; [|by apply home_upd_zone]. apply consistent_parts.
    split; [by apply regular_drop|]. intros r'. by apply placed_drop.
Qed.

Lemma empty_well_formed a : m_Devices a = [] -> m_Zones a = [] -> well_formed false a.
Proof using Type.
  intros Hd0 Hz0. split; [split|split; [by right|]]; unfold Apartment_getDevices; rewrite ?Hd0, ?Hz0; try apply NoDup_nil_2;
    by intros ? []%not_elem_of_nil.
Qed.

Ltac by_frames Hf Hd Hset lem :=
  apply Hf; let q := fresh in intros q; pose proof (Hd q); pose proof (Hset q); eapply lem; eassumption.

Lemma run_keeps op : triple (fun a => well_formed true a /\ allowed a op) (run op) (fun _ => well_formed true) (well_formed true).
Proof.
  assert (forall m : SE (heap W) unit, keeps (well_formed true) m -> triple (fun a => well_formed true a /\ allowed a op) m (fun _ => well_formed true) (well_formed true)) as Hk.
  { intros m Hm. by apply triple_weaken with (P' := well_formed true) (Q' := fun _ => well_formed true) (E' := well_formed true); [intros a []|..]. }
  assert (forall m : SE (heap W) unit, all_framed m -> triple (fun a => well_formed true a /\ allowed a op) m (fun _ => well_formed true) (well_formed true)) as Hf.
  { intros m Hm. apply Hk, keeps_framed; [apply _|done]. }
  destruct op; cbn [run allowed].
  - eapply triple_pure; [by intros a [_ H]; exact H|]. intros Hid.
    apply triple_bind with (Q := fun _ => well_formed true); [|by intros _; apply triple_ret].
    apply triple_weaken with (P' := well_formed true) (Q' := fun _ => well_formed (true || (id =? 0))) (E' := well_formed true);
      [by intros a []|by apply triple_allocateZone|done|done].
  - eapply triple_pure; [by intros a [_ H]; exact H|]. intros Hid. by apply Hk, keeps_removeZone.
  - apply Hk, keeps_then; [apply keeps_allocateDevice|]. by intros _; apply triple_ret.
  - apply Hk, keeps_removeDevice.
  - by eapply Hk, keeps_Zone_addDevice.
  - apply keeps_leave.
  - apply keeps_setZoneID.
  - by eapply Hk, keeps_addToGroup.
  - by eapply Hk, keeps_removeFromGroup.
  - by eapply Hk, keeps_resetGroups.
  - apply Hk, keeps_named_group; [done..|apply _|apply accepts_sound].
  - apply Hk, keeps_addGroup; [done..|apply _|apply accepts_sound].
  - by eapply Hk, keeps_removeGroup.
  - by_frames Hf Hd Hset frames_setApplicationType.
  - by_frames Hf Hd Hset frames_group_setFromSpec.
  - by_frames Hf Hd Hset frames_setName.
  - apply Hk, keeps_then; [|by intros _; apply triple_ret]. apply keeps_framed; [apply _|]. intros q. by apply frames_allocateDSMeter.
  - by_frames Hf Hd Hset frames_removeDSMeter.
  - by_frames Hf Hd Hset frames_removeInactiveMeters.
  - by_frames Hf Hd Hset frames_setDSMeter.
  - by_frames Hf Hd Hset frames_addToDSMeter.
  - by_frames Hf Hd Hset frames_removeFromDSMeter.
  - by_frames Hf Hd Hset frames_DSMeter_addDevice.
  - by_frames Hf Hd Hset frames_DSMeter_removeDevice.
  - by_frames Hf Hd Hset frames_updateTemperatureControlMeter.
  - by_frames Hf Hd Hset frames_setState_structure.
  - by_frames Hf Hd Hset frames_clearBinaryInputs.
  - by_frames Hf Hd Hset frames_clearStates.
  - by_frames Hf Hd Hset frames_setPropertySystem.
  - by_frames Hf Hd Hset frames_device_publish.
  - by_frames Hf Hd Hset frames_device_remove.
Qed.

Lemma reachable_sound h : reachable h -> undisturbed h /\ well_formed true (apt h).
Proof.
  induction 1 as [h z h' Hq Hdev Hz E|h op r h' _ [Hq Hs] Ha E He].
  - destruct (triple_allocateZone 0 ltac:(lia) false h Hq (empty_well_formed _ Hdev Hz)) as [H1 H2]. by rewrite E in H1, H2.
  - destruct (run_keeps op h Hq (conj Hs Ha)) as [H1 H2]. rewrite E in H1, H2. split; [done|]. destruct r; [done|by apply H2].
Qed.

(** The structure of the apartment stays consistent.  Whatever sequence of
    operations follows the constructor, in whatever order, returning or throwing,
    no two devices share a dSUID and no two zones a number; no zone lists a device
    twice; zone 0 exists and lists every device and nothing else; any other zone
    lists only known devices that say they are in it; a zone's groups say they
    belong to it; and a device is in valid groups only, in each once. *)
Theorem structure_stays_consistent (h : heap W) : reachable h ->
  consistent (apt h) /\ exists z, tryGetZone (apt h) 0 = Some z.
Proof.
  by intros [_ [Hc [[Hz|[? _]] _]]]%reachable_sound.
Qed.

End Structure.

(** * An example *)

#[local] Instance demo_members : BusMembers :=
  {| BusMember_Unknown := 0; BusMember_ds485d := 1; BusMember_ds485p := 2; BusMember_dSM11 := 17; BusMember_dSM12 := 18;
     BusMember_vDSM := 33; BusMember_vDC := 34; BusMember_dSS := 49; BusMember_dSA := 50; BusMember_dSG := 51 |}.

Definition keep_type (g : gptr) (v : Z) (w : ModelWorld) : ModelWorld := w.
Definition bare_apartment : Apartment := mkApartment ∅ ∅ ∅ ∅ [] [] [] [] None None None ∅.
Definition example_run (op : operation) : SE (heap ModelWorld) unit := run no_new no_callback writable Ok keep_type false op.
Fixpoint run_all (ops : list operation) (h : heap ModelWorld) : heap ModelWorld :=
  match ops with [] => h | op :: ops => run_all ops (snd (example_run op h)) end.
Definition demo_device : dsuid_t := [1;1;1;1;1;1;1;1;1;1;1;1;1;1;1;1;1].
Definition created : heap ModelWorld := snd (allocateZone no_callback Ok keep_type false 0 (example_heap [] bare_apartment)).
(** A device is found, put into a room and moved to another one, whose number it
    keeps when the first room goes. *)
Definition history : list operation :=
  [OpAllocateZone 5; OpAllocateZone 7; OpAllocateDevice demo_device; OpAddDevice 1%nat demo_device; OpAddToGroup 0%nat 1;
   OpAddDevice 2%nat demo_device; OpRemoveZone 5].

Lemma reachable_run op h : let step := run no_new no_callback writable Ok keep_type false op h in
  reachable no_new no_callback writable Ok keep_type false h -> allowed (apt h) op -> ended (fst step) ->
  reachable no_new no_callback writable Ok keep_type false (snd step).
Proof. intros step Hr Ha He. eapply reach_step; [exact Hr|exact Ha|apply surjective_pairing|exact He]. Qed.
Lemma created_reachable : reachable no_new no_callback writable Ok keep_type false created.
Proof.
  apply (reach_new _ _ _ _ _ _ (example_heap [] bare_apartment) 0%nat); [|done..|vm_compute; reflexivity].
  intros q. apply example_quiet.
Qed.
Lemma structure_stays_consistent_witness :
  consistent (apt (run_all history created)) /\ map (fun z => z_ZoneID (the_zone (apt (run_all history created)) z)) (m_Zones (apt (run_all history created))) = [0; 7].
Proof.
  split; [|vm_compute; reflexivity].
  apply (structure_stays_consistent no_new no_callback writable Ok keep_type false
    (fun q => no_callback_discreet (obs q)) (fun q g v w => eq_refl) (run_all history created)).
  cbn [history run_all]. unfold example_run.
  do 7 (apply reachable_run; [|first [done|vm_compute; discriminate]|vm_compute; exact I]). apply created_reachable.
Defined.
