(* ===== verification/ZoneConfig.v ===== *)
(** [src/src/model/zone.cpp]: the configuration of a zone's heating controller
    with the values of its operation modes, the last values of its sensors, and
    the devices it uses as its sensors. *)
From stdpp Require Import base option list strings gmap.
From Stdlib Require Import ZArith Lia Ascii PrimFloat.
From Stdlib Require String.
From S2P Require Import Prelude CxxString Base NumConv FloatConv Ds485types ModelConst DataTypes Calendar DateTools SensorConversion.
From S2P Require Import PropertyTree State SceneAccess ApartmentModel DeviceSet ApartmentWorld.

Open Scope string_scope.
Open Scope list_scope.
Open Scope Z_scope.

(** * The controller *)

Definition hp_with_config (_spec : ZoneHeatingConfigSpec_t) (p : ZoneHeatingProperties) : ZoneHeatingProperties :=
  mkHeatingProperties (hc_mode _spec) (hc_Kp _spec) (hc_Ts _spec) (hc_Ti _spec) (hc_Kd _spec) (hc_Imin _spec) (hc_Imax _spec)
    (hc_Ymin _spec) (hc_Ymax _spec) (hc_AntiWindUp _spec) (hc_KeepFloorWarm _spec) (hp_HeatingControlState p)
    (hc_SourceZoneId _spec) (hc_Offset _spec) (hc_EmergencyValue _spec) (hc_ManualValue _spec)
    (hp_TeperatureSetpoints p) (hp_FixedControlValues p).
Definition hp_with_state (s : Z) (p : ZoneHeatingProperties) : ZoneHeatingProperties :=
  mkHeatingProperties (hp_mode p) (hp_Kp p) (hp_Ts p) (hp_Ti p) (hp_Kd p) (hp_Imin p) (hp_Imax p) (hp_Ymin p) (hp_Ymax p)
    (hp_AntiWindUp p) (hp_KeepFloorWarm p) s (hp_HeatingMasterZone p) (hp_CtrlOffset p) (hp_EmergencyValue p) (hp_ManualValue p)
    (hp_TeperatureSetpoints p) (hp_FixedControlValues p).
Definition hp_with_values (setpoints fixed : list float) (p : ZoneHeatingProperties) : ZoneHeatingProperties :=
  mkHeatingProperties (hp_mode p) (hp_Kp p) (hp_Ts p) (hp_Ti p) (hp_Kd p) (hp_Imin p) (hp_Imax p) (hp_Ymin p) (hp_Ymax p)
    (hp_AntiWindUp p) (hp_KeepFloorWarm p) (hp_HeatingControlState p) (hp_HeatingMasterZone p) (hp_CtrlOffset p)
    (hp_EmergencyValue p) (hp_ManualValue p) setpoints fixed.

(** [ZoneHeatingConfigSpec_t{}] *)
Definition no_heating_config : ZoneHeatingConfigSpec_t := mkHeatingConfig HeatingControlMode.OFF 0 0 0 0 0 0 0 0 0 0 0 0 0 0.

(** [Zone::getHeatingConfig]: three members of the zone are [int]s and wider than
    those of the specification. *)
Definition getHeatingConfig (p : ZoneHeatingProperties) : ZoneHeatingConfigSpec_t :=
  mkHeatingConfig (hp_mode p) (hp_Kp p) (hp_Ts p) (hp_Ti p) (hp_Kd p) (hp_Imin p) (hp_Imax p) (hp_Ymin p) (hp_Ymax p)
    (hp_AntiWindUp p) (hp_KeepFloorWarm p) (wrapU 16 (hp_HeatingMasterZone p)) (wrapS 16 (hp_CtrlOffset p))
    (hp_EmergencyValue p) (wrapU 8 (hp_ManualValue p)).

(** [ZoneHeatingOperationModeSpec_t]: sixteen 16-bit values, of which the loops
    of [Zone] use those up to [HeatingOperationModeIDMax]. *)
Definition modes_used : nat := Z.to_nat (HeatingOperationModeIDMax + 1).
Definition no_operation_modes : list Z := repeat 0 16.

Section Heating.
Context (pow10 log10 : float -> float).

(** One loop: the values of the modes in use replace those of the array; no
    conversion of a 16-bit value throws. *)
Definition modes_to_values (t : SensorType.t) (opModes : list Z) (old : list float) : res (list float) :=
  l ← mapM (sensorValueToDouble pow10 t) (take modes_used opModes); Ok (l ++ drop modes_used old).
(** The array of the result is not initialised: [rest] is what is behind the
    values that the loop writes. *)
Definition values_to_modes (t : SensorType.t) (values : list float) (rest : list Z) : res (list Z) :=
  l ← mapM (fun v => x ← doubleToSensorValue log10 t v; Ok (wrapU 16 x)) (take modes_used values); Ok (l ++ rest).

Definition control_modes (opModes : list Z) (p : ZoneHeatingProperties) : res ZoneHeatingProperties :=
  l ← modes_to_values SensorType.RoomTemperatureSetpoint opModes (hp_TeperatureSetpoints p);
  Ok (hp_with_values l (hp_FixedControlValues p) p).
Definition fixed_modes (opModes : list Z) (p : ZoneHeatingProperties) : res ZoneHeatingProperties :=
  l ← modes_to_values SensorType.RoomTemperatureControlVariable opModes (hp_FixedControlValues p);
  Ok (hp_with_values (hp_TeperatureSetpoints p) l p).

Definition getHeatingControlOperationModeValues (p : ZoneHeatingProperties) (rest : list Z) : res (list Z) :=
  values_to_modes SensorType.RoomTemperatureSetpoint (hp_TeperatureSetpoints p) rest.
Definition getHeatingFixedOperationModeValues (p : ZoneHeatingProperties) (rest : list Z) : res (list Z) :=
  values_to_modes SensorType.RoomTemperatureControlVariable (hp_FixedControlValues p) rest.
Definition getHeatingOperationModeValues (p : ZoneHeatingProperties) (rest : list Z) : res (list Z) :=
  match hp_mode p with
  | HeatingControlMode.PID => getHeatingControlOperationModeValues p rest
  | HeatingControlMode.FIXED => getHeatingFixedOperationModeValues p rest
  | _ => Ok no_operation_modes
  end.

(** ** Comparing with what a meter reports *)

Definition config_equal (p : ZoneHeatingProperties) (config : ZoneHeatingConfigSpec_t) : bool :=
  bool_decide (hc_mode config = hp_mode p) && (hc_Kp config =? hp_Kp p) && (hc_Ts config =? hp_Ts p) && (hc_Ti config =? hp_Ti p)
  && (hc_Kd config =? hp_Kd p) && (hc_Imin config =? hp_Imin p) && (hc_Imax config =? hp_Imax p) && (hc_Ymin config =? hp_Ymin p)
  && (hc_Ymax config =? hp_Ymax p) && (hc_AntiWindUp config =? hp_AntiWindUp p)
  && (hc_KeepFloorWarm config =? hp_KeepFloorWarm p) && (hc_SourceZoneId config =? hp_HeatingMasterZone p)
  && (hc_Offset config =? hp_CtrlOffset p) && (hc_EmergencyValue config =? hp_EmergencyValue p)
  && (hc_ManualValue config =? hp_ManualValue p).

(** The loop over all sixteen values, up to the first difference. *)
Fixpoint modes_equal (t : SensorType.t) (values : list float) (opModes : list Z) : res bool :=
  match values, opModes with
  | v :: values, m :: opModes =>
    x ← doubleToSensorValue log10 t v;
    if x =? m then modes_equal t values opModes else Ok false
  | _, _ => Ok true
  end.

Definition isEqual (p : ZoneHeatingProperties) (config : ZoneHeatingConfigSpec_t) (opModes : list Z) : res bool :=
  let configEqual := config_equal p config in
  operationModeEqual ←
    match hp_mode p with
    | HeatingControlMode.PID => modes_equal SensorType.RoomTemperatureSetpoint (hp_TeperatureSetpoints p) opModes
    | HeatingControlMode.FIXED => modes_equal SensorType.RoomTemperatureControlVariable (hp_FixedControlValues p) opModes
    | _ => Ok true
    end;
  Ok (configEqual && operationModeEqual).
End Heating.

(** * The sensors of a zone *)

Definition outdoor_types : list SensorType.t :=
  [SensorType.TemperatureOutdoors; SensorType.BrightnessOutdoors; SensorType.HumidityOutdoors; SensorType.WindSpeed;
   SensorType.WindDirection; SensorType.GustSpeed; SensorType.GustDirection; SensorType.Precipitation; SensorType.AirPressure].
Definition indoor_types : list SensorType.t :=
  [SensorType.TemperatureIndoors; SensorType.BrightnessIndoors; SensorType.HumidityIndoors; SensorType.CO2Concentration].

Definition isAllowedSensorType (z : Zone) (_sensorType : SensorType.t) : bool :=
  if z_ZoneID z =? 0 then
    match _sensorType with
    | SensorType.TemperatureOutdoors | SensorType.BrightnessOutdoors | SensorType.HumidityOutdoors | SensorType.WindSpeed
    | SensorType.WindDirection | SensorType.GustSpeed | SensorType.GustDirection | SensorType.Precipitation
    | SensorType.AirPressure => true
    | _ => false
    end
  else
    match _sensorType with
    | SensorType.TemperatureIndoors | SensorType.BrightnessIndoors | SensorType.HumidityIndoors
    | SensorType.CO2Concentration => true
    | _ => false
    end.

(** The first entry of the type is overwritten, or one is added. *)
Fixpoint assign_sensor (ms : MainZoneSensor_t) (l : list MainZoneSensor_t) : list MainZoneSensor_t :=
  match l with
  | [] => [ms]
  | x :: l =>
    if bool_decide (ms_sensorType x = ms_sensorType ms)
    then mkMainSensor (ms_DSUID ms) (ms_sensorType x) (ms_sensorIndex ms) :: l
    else x :: assign_sensor ms l
  end.

Definition not_allowed (_sensorType : SensorType.t) : exn :=
  RuntimeError ("Assignment of sensor type " +:+ sensorTypeName _sensorType +:+ " is not allowed!").
Definition zone_setSensor (_mainZoneSensor : MainZoneSensor_t) (z : Zone) : res Zone :=
  if negb (isAllowedSensorType z (ms_sensorType _mainZoneSensor)) then Throw (not_allowed (ms_sensorType _mainZoneSensor))
  else Ok (z_with_MainSensors (assign_sensor _mainZoneSensor (z_MainSensors z)) z).

Definition zone_resetSensor (_sensorType : SensorType.t) (z : Zone) : Zone :=
  if negb (isAllowedSensorType z _sensorType) then z
  else z_with_MainSensors (List.filter (fun ms => negb (bool_decide (ms_sensorType ms = _sensorType))) (z_MainSensors z)) z.

Definition isSensorAssigned (z : Zone) (_sensorType : SensorType.t) : bool :=
  existsb (fun ms => bool_decide (ms_sensorType ms = _sensorType)) (z_MainSensors z).
Definition getUnassignedSensorTypes (z : Zone) : list SensorType.t :=
  List.filter (fun t => negb (isSensorAssigned z t)) (if z_ZoneID z =? 0 then outdoor_types else indoor_types).
Definition getAssignedSensorTypes (z : Zone) (_device : dsuid_t) : list SensorType.t :=
  map ms_sensorType (List.filter (fun s => bool_decide (ms_DSUID s = _device)) (z_MainSensors z)).
Definition isDeviceZoneMember (z : Zone) (_device : DeviceReference) : bool := contains (z_Devices z) _device.
Definition removeInvalidZoneSensors (z : Zone) : Zone :=
  z_with_MainSensors (List.filter (fun ms => isDeviceZoneMember z (ms_DSUID ms)) (z_MainSensors z)) z.

(** The device of the first entry of the type, among the zone's devices. *)
Definition getAssignedSensorDevice (a : Apartment) (z : zptr) (_sensorType : SensorType.t) : res (option dptr) :=
  match List.find (fun s => bool_decide (ms_sensorType s = _sensorType)) (z_MainSensors (the_zone a z)) with
  | Some s => r ← getByDSID a (getDevices a z) (ms_DSUID s); p ← getDevice a r; Ok (Some p)
  | None => Ok None
  end.
Definition isZoneSensor (a : Apartment) (z : zptr) (_device : Device) (_sensorType : SensorType.t) : res bool :=
  zoneSensor ← getAssignedSensorDevice a z _sensorType;
  match zoneSensor with
  | None => Ok false
  | Some p => Ok (bool_decide (d_DSID _device = d_DSID (the_device a p)))
  end.

(** * The last values *)

Definition z_with_status (hs : ZoneHeatingStatus) (ss : ZoneSensorStatus) (z : Zone) : Zone :=
  mkZone (z_ZoneID z) (z_Name z) (z_Devices z) (z_Groups z) (z_DSMeters z) (z_MainSensors z) (z_HeatingProperties z)
    (z_HeatingPropValid z) (z_HeatingOperationMode z) (z_temperatureControlMeter z) (z_node z) (z_physical z) hs ss.

Definition setNominalValue (_value : float) (_ts : DateTime) (z : Zone) : Zone :=
  let s := z_HeatingStatus z in
  z_with_status (mkHeatingStatus (Some _value) _ts (hs_ControlValue s) (hs_ControlValueTS s)) (z_SensorStatus z) z.
Definition resetNominalValue (z : Zone) : Zone :=
  let s := z_HeatingStatus z in
  z_with_status (mkHeatingStatus None NullDate (hs_ControlValue s) (hs_ControlValueTS s)) (z_SensorStatus z) z.
Definition setControlValue (_value : float) (_ts : DateTime) (z : Zone) : Zone :=
  let s := z_HeatingStatus z in
  z_with_status (mkHeatingStatus (hs_NominalValue s) (hs_NominalValueTS s) (Some _value) _ts) (z_SensorStatus z) z.
Definition resetControlValue (z : Zone) : Zone :=
  let s := z_HeatingStatus z in
  z_with_status (mkHeatingStatus (hs_NominalValue s) (hs_NominalValueTS s) None NullDate) (z_SensorStatus z) z.
Definition setTemperature (_value : float) (_ts : DateTime) (z : Zone) : Zone :=
  let s := z_SensorStatus z in
  z_with_status (z_HeatingStatus z)
    (mkSensorStatus (Some _value) _ts (ss_HumidityValue s) (ss_HumidityValueTS s) (ss_BrightnessValue s)
      (ss_BrightnessValueTS s) (ss_CO2ConcentrationValue s) (ss_CO2ConcentrationValueTS s)) z.
Definition resetTemperature (z : Zone) : Zone :=
  let s := z_SensorStatus z in
  z_with_status (z_HeatingStatus z)
    (mkSensorStatus None NullDate (ss_HumidityValue s) (ss_HumidityValueTS s) (ss_BrightnessValue s) (ss_BrightnessValueTS
      s) (ss_CO2ConcentrationValue s) (ss_CO2ConcentrationValueTS s)) z.
Definition setHumidityValue (_value : float) (_ts : DateTime) (z : Zone) : Zone :=
  let s := z_SensorStatus z in
  z_with_status (z_HeatingStatus z)
    (mkSensorStatus (ss_TemperatureValue s) (ss_TemperatureValueTS s) (Some _value) _ts (ss_BrightnessValue s)
      (ss_BrightnessValueTS s) (ss_CO2ConcentrationValue s) (ss_CO2ConcentrationValueTS s)) z.
Definition resetHumidityValue (z : Zone) : Zone :=
  let s := z_SensorStatus z in
  z_with_status (z_HeatingStatus z)
    (mkSensorStatus (ss_TemperatureValue s) (ss_TemperatureValueTS s) None NullDate (ss_BrightnessValue s)
      (ss_BrightnessValueTS s) (ss_CO2ConcentrationValue s) (ss_CO2ConcentrationValueTS s)) z.
Definition setBrightnessValue (_value : float) (_ts : DateTime) (z : Zone) : Zone :=
  let s := z_SensorStatus z in
  z_with_status (z_HeatingStatus z)
    (mkSensorStatus (ss_TemperatureValue s) (ss_TemperatureValueTS s) (ss_HumidityValue s) (ss_HumidityValueTS s) (Some
      _value) _ts (ss_CO2ConcentrationValue s) (ss_CO2ConcentrationValueTS s)) z.
Definition resetBrightnessValue (z : Zone) : Zone :=
  let s := z_SensorStatus z in
  z_with_status (z_HeatingStatus z)
    (mkSensorStatus (ss_TemperatureValue s) (ss_TemperatureValueTS s) (ss_HumidityValue s) (ss_HumidityValueTS s) None
      NullDate (ss_CO2ConcentrationValue s) (ss_CO2ConcentrationValueTS s)) z.
Definition setCO2ConcentrationValue (_value : float) (_ts : DateTime) (z : Zone) : Zone :=
  let s := z_SensorStatus z in
  z_with_status (z_HeatingStatus z)
    (mkSensorStatus (ss_TemperatureValue s) (ss_TemperatureValueTS s) (ss_HumidityValue s) (ss_HumidityValueTS s)
      (ss_BrightnessValue s) (ss_BrightnessValueTS s) (Some _value) _ts) z.
Definition resetCO2ConcentrationValue (z : Zone) : Zone :=
  let s := z_SensorStatus z in
  z_with_status (z_HeatingStatus z)
    (mkSensorStatus (ss_TemperatureValue s) (ss_TemperatureValueTS s) (ss_HumidityValue s) (ss_HumidityValueTS s)
      (ss_BrightnessValue s) (ss_BrightnessValueTS s) None NullDate) z.

(** * The requests' texts

    [ZoneHeatingProperties::parse*] read JSON objects with rapidjson.  A member is
    a number, with its [int] if it is one, or a truth value, or something else;
    the parser is an argument, [None] for what is not an object. *)
Inductive JsonMember := JsonNumber (i : option Z) (d : float) | JsonBool (b : bool) | JsonOther.
Definition JsonObject := list (string * JsonMember).

Definition member (o : JsonObject) (name : string) : option JsonMember :=
  option_map snd (List.find (fun m => String.eqb (fst m) name) o).

(** [GetDouble], [GetInt] (which asserts that the number is an [int]) and
    [GetBool], each behind its [DS_REQUIRE]. *)
Definition need_double (m : JsonMember) : res float :=
  match m with JsonNumber _ d => Ok d | _ => Throw (RuntimeError "IsNumber()") end.
Definition need_int (m : JsonMember) : res Z :=
  match m with
  | JsonNumber (Some i) _ => Ok i
  | JsonNumber None _ => Throw (AssertionFailure "flags & kIntFlag")
  | _ => Throw (RuntimeError "IsNumber()")
  end.
Definition need_bool (m : JsonMember) : res bool :=
  match m with JsonBool b => Ok b | _ => Throw (RuntimeError "IsBool()") end.

(** [if (d.HasMember(name)) { ... }] *)
Definition if_member {A} (o : JsonObject) (name : string) (f : JsonMember -> A -> res A) (x : A) : res A :=
  match member o name with Some m => f m x | None => Ok x end.

(** A [double] as a value of at most 16 bits. *)
Definition float_to (lo hi : Z) (x : float) : res Z :=
  v ← to_int x; if (lo <=? v) && (v <=? hi) then Ok v else Throw (UndefinedBehaviour "integer overflow").

Section Parsing.
Context (parse : string -> option JsonObject) (log10 : float -> float).

Definition the_object (jsonObject : string) : res JsonObject :=
  match parse (c_str jsonObject) with Some o => Ok o | None => Throw (RuntimeError "Error during Json parsing") end.

(** The elements of [opModes] from [i] on. *)
Fixpoint parse_modes (t : SensorType.t) (n : nat) (i : Z) (o : JsonObject) (opModes : list Z) : res (list Z) :=
  match n with
  | O => Ok opModes
  | S n =>
    opModes ← if_member o (intToString i false)
                (fun m l => d ← need_double m; x ← doubleToSensorValue log10 t d; Ok (<[Z.to_nat i := wrapU 16 x]> l)) opModes;
    parse_modes t n (i + 1) o opModes
  end.
Definition parseTargetTemperatures (jsonObject : string) (hOpValues : list Z) : res (list Z) :=
  o ← the_object jsonObject; parse_modes SensorType.RoomTemperatureSetpoint modes_used 0 o hOpValues.
Definition parseFixedValues (jsonObject : string) (hOpValues : list Z) : res (list Z) :=
  o ← the_object jsonObject; parse_modes SensorType.RoomTemperatureControlVariable modes_used 0 o hOpValues.

Definition set_Kp (v : Z) (c : ZoneHeatingConfigSpec_t) : ZoneHeatingConfigSpec_t :=
  mkHeatingConfig (hc_mode c) v (hc_Ts c) (hc_Ti c) (hc_Kd c) (hc_Imin c) (hc_Imax c) (hc_Ymin c) (hc_Ymax c)
    (hc_AntiWindUp c) (hc_KeepFloorWarm c) (hc_SourceZoneId c) (hc_Offset c) (hc_EmergencyValue c) (hc_ManualValue c).
Definition set_Ts (v : Z) (c : ZoneHeatingConfigSpec_t) : ZoneHeatingConfigSpec_t :=
  mkHeatingConfig (hc_mode c) (hc_Kp c) v (hc_Ti c) (hc_Kd c) (hc_Imin c) (hc_Imax c) (hc_Ymin c) (hc_Ymax c)
    (hc_AntiWindUp c) (hc_KeepFloorWarm c) (hc_SourceZoneId c) (hc_Offset c) (hc_EmergencyValue c) (hc_ManualValue c).
Definition set_Ti (v : Z) (c : ZoneHeatingConfigSpec_t) : ZoneHeatingConfigSpec_t :=
  mkHeatingConfig (hc_mode c) (hc_Kp c) (hc_Ts c) v (hc_Kd c) (hc_Imin c) (hc_Imax c) (hc_Ymin c) (hc_Ymax c)
    (hc_AntiWindUp c) (hc_KeepFloorWarm c) (hc_SourceZoneId c) (hc_Offset c) (hc_EmergencyValue c) (hc_ManualValue c).
Definition set_Kd (v : Z) (c : ZoneHeatingConfigSpec_t) : ZoneHeatingConfigSpec_t :=
  mkHeatingConfig (hc_mode c) (hc_Kp c) (hc_Ts c) (hc_Ti c) v (hc_Imin c) (hc_Imax c) (hc_Ymin c) (hc_Ymax c)
    (hc_AntiWindUp c) (hc_KeepFloorWarm c) (hc_SourceZoneId c) (hc_Offset c) (hc_EmergencyValue c) (hc_ManualValue c).
Definition set_Imin (v : Z) (c : ZoneHeatingConfigSpec_t) : ZoneHeatingConfigSpec_t :=
  mkHeatingConfig (hc_mode c) (hc_Kp c) (hc_Ts c) (hc_Ti c) (hc_Kd c) v (hc_Imax c) (hc_Ymin c) (hc_Ymax c) (hc_AntiWindUp
    c) (hc_KeepFloorWarm c) (hc_SourceZoneId c) (hc_Offset c) (hc_EmergencyValue c) (hc_ManualValue c).
Definition set_Imax (v : Z) (c : ZoneHeatingConfigSpec_t) : ZoneHeatingConfigSpec_t :=
  mkHeatingConfig (hc_mode c) (hc_Kp c) (hc_Ts c) (hc_Ti c) (hc_Kd c) (hc_Imin c) v (hc_Ymin c) (hc_Ymax c) (hc_AntiWindUp
    c) (hc_KeepFloorWarm c) (hc_SourceZoneId c) (hc_Offset c) (hc_EmergencyValue c) (hc_ManualValue c).
Definition set_Ymin (v : Z) (c : ZoneHeatingConfigSpec_t) : ZoneHeatingConfigSpec_t :=
  mkHeatingConfig (hc_mode c) (hc_Kp c) (hc_Ts c) (hc_Ti c) (hc_Kd c) (hc_Imin c) (hc_Imax c) v (hc_Ymax c) (hc_AntiWindUp
    c) (hc_KeepFloorWarm c) (hc_SourceZoneId c) (hc_Offset c) (hc_EmergencyValue c) (hc_ManualValue c).
Definition set_Ymax (v : Z) (c : ZoneHeatingConfigSpec_t) : ZoneHeatingConfigSpec_t :=
  mkHeatingConfig (hc_mode c) (hc_Kp c) (hc_Ts c) (hc_Ti c) (hc_Kd c) (hc_Imin c) (hc_Imax c) (hc_Ymin c) v (hc_AntiWindUp
    c) (hc_KeepFloorWarm c) (hc_SourceZoneId c) (hc_Offset c) (hc_EmergencyValue c) (hc_ManualValue c).
Definition set_AntiWindUp (v : Z) (c : ZoneHeatingConfigSpec_t) : ZoneHeatingConfigSpec_t :=
  mkHeatingConfig (hc_mode c) (hc_Kp c) (hc_Ts c) (hc_Ti c) (hc_Kd c) (hc_Imin c) (hc_Imax c) (hc_Ymin c) (hc_Ymax c) v
    (hc_KeepFloorWarm c) (hc_SourceZoneId c) (hc_Offset c) (hc_EmergencyValue c) (hc_ManualValue c).
Definition set_SourceZoneId (v : Z) (c : ZoneHeatingConfigSpec_t) : ZoneHeatingConfigSpec_t :=
  mkHeatingConfig (hc_mode c) (hc_Kp c) (hc_Ts c) (hc_Ti c) (hc_Kd c) (hc_Imin c) (hc_Imax c) (hc_Ymin c) (hc_Ymax c)
    (hc_AntiWindUp c) (hc_KeepFloorWarm c) v (hc_Offset c) (hc_EmergencyValue c) (hc_ManualValue c).
Definition set_Offset (v : Z) (c : ZoneHeatingConfigSpec_t) : ZoneHeatingConfigSpec_t :=
  mkHeatingConfig (hc_mode c) (hc_Kp c) (hc_Ts c) (hc_Ti c) (hc_Kd c) (hc_Imin c) (hc_Imax c) (hc_Ymin c) (hc_Ymax c)
    (hc_AntiWindUp c) (hc_KeepFloorWarm c) (hc_SourceZoneId c) v (hc_EmergencyValue c) (hc_ManualValue c).
Definition set_EmergencyValue (v : Z) (c : ZoneHeatingConfigSpec_t) : ZoneHeatingConfigSpec_t :=
  mkHeatingConfig (hc_mode c) (hc_Kp c) (hc_Ts c) (hc_Ti c) (hc_Kd c) (hc_Imin c) (hc_Imax c) (hc_Ymin c) (hc_Ymax c)
    (hc_AntiWindUp c) (hc_KeepFloorWarm c) (hc_SourceZoneId c) (hc_Offset c) v (hc_ManualValue c).
Definition set_ManualValue (v : Z) (c : ZoneHeatingConfigSpec_t) : ZoneHeatingConfigSpec_t :=
  mkHeatingConfig (hc_mode c) (hc_Kp c) (hc_Ts c) (hc_Ti c) (hc_Kd c) (hc_Imin c) (hc_Imax c) (hc_Ymin c) (hc_Ymax c)
    (hc_AntiWindUp c) (hc_KeepFloorWarm c) (hc_SourceZoneId c) (hc_Offset c) (hc_EmergencyValue c) v.

(** One member: [GetInt() + d] for a member of [w] bits, and the floats. *)
Definition int_member (name : string) (d w : Z) (set : Z -> ZoneHeatingConfigSpec_t -> ZoneHeatingConfigSpec_t) (o : JsonObject) :
  ZoneHeatingConfigSpec_t -> res ZoneHeatingConfigSpec_t :=
  if_member o name (fun m c => i ← need_int m; v ← int_checked (i + d); Ok (set (wrapU w v) c)).
Definition float_member (name : string) (lo hi : Z) (set : Z -> ZoneHeatingConfigSpec_t -> ZoneHeatingConfigSpec_t) (o : JsonObject) :
  ZoneHeatingConfigSpec_t -> res ZoneHeatingConfigSpec_t :=
  if_member o name (fun m c => x ← need_double m; v ← float_to lo hi (x * 40)%float; Ok (set v c)).

Definition parseControlMode (jsonObject : string) (hConfig : ZoneHeatingConfigSpec_t) : res ZoneHeatingConfigSpec_t :=
  o ← the_object jsonObject;
  c ← int_member "emergencyValue" 100 8 set_EmergencyValue o hConfig;
  c ← float_member "ctrlKp" 0 65535 set_Kp o c;
  c ← int_member "ctrlTs" 0 8 set_Ts o c;
  c ← int_member "ctrlTi" 0 16 set_Ti o c;
  c ← int_member "ctrlKd" 0 16 set_Kd o c;
  c ← float_member "ctrlImin" (-32768) 32767 set_Imin o c;
  c ← float_member "ctrlImax" (-32768) 32767 set_Imax o c;
  c ← int_member "ctrlYmin" 100 8 set_Ymin o c;
  c ← int_member "ctrlYmax" 100 8 set_Ymax o c;
  if_member o "ctrlAntiWindUp" (fun m c => b ← need_bool m; Ok (set_AntiWindUp (if b : bool then 1 else 0) c)) c.

Definition parseFollowerMode (jsonObject : string) (hConfig : ZoneHeatingConfigSpec_t) : res ZoneHeatingConfigSpec_t :=
  o ← the_object jsonObject;
  c ← int_member "referenceZone" 0 16 set_SourceZoneId o hConfig;
  if_member o "ctrlOffset" (fun m c => i ← need_int m; Ok (set_Offset (wrapS 16 i) c)) c.

Definition parseManualMode (jsonObject : string) (hConfig : ZoneHeatingConfigSpec_t) : res ZoneHeatingConfigSpec_t :=
  o ← the_object jsonObject; int_member "controlValue" 100 8 set_ManualValue o hConfig.
End Parsing.

(** * What changes the zone *)

Section Zone.
Context {W : Type} {AW : ApartmentWorld W} (pow10 log10 : float -> float).
Local Notation "'M' A" := (SE (heap W) A) (at level 10, A at next level).

Definition dirty : M unit := addModelEvent etModelOperationModeChanged.

Definition heating_of (z : zptr) : M ZoneHeatingProperties := apt_gets (fun a => z_HeatingProperties (the_zone a z)).
Definition set_heating (z : zptr) (p : ZoneHeatingProperties) : M unit :=
  apt_modify (upd_zone z (fun x => z_with_heating p (z_HeatingPropValid x) x)).

Definition setHeatingProperties (z : zptr) (config : ZoneHeatingProperties) : M unit :=
  apt_modify (upd_zone z (z_with_heating config true)).
Definition setHeatingConfig (z : zptr) (_spec : ZoneHeatingConfigSpec_t) : M unit :=
  p ← heating_of z;
  _ ← apt_modify (upd_zone z (z_with_heating (hp_with_config _spec p) true));
  dirty.
Definition setHeatingControlState (z : zptr) (_ctrlState : Z) : M unit :=
  p ← heating_of z; _ ← set_heating z (hp_with_state _ctrlState p); dirty.
Definition setHeatingControlOperationMode (z : zptr) (operationModeValues : list Z) : M unit :=
  p ← heating_of z; q ← se_lift (control_modes pow10 operationModeValues p); _ ← set_heating z q; dirty.
Definition setHeatingFixedOperationMode (z : zptr) (operationModeValues : list Z) : M unit :=
  p ← heating_of z; q ← se_lift (fixed_modes pow10 operationModeValues p); _ ← set_heating z q; dirty.
Definition setHeatingOperationModes (z : zptr) (operationModeValues : list Z) : M unit :=
  p ← heating_of z;
  match hp_mode p with
  | HeatingControlMode.PID => setHeatingControlOperationMode z operationModeValues
  | HeatingControlMode.FIXED => setHeatingFixedOperationMode z operationModeValues
  | _ => mret tt
  end.

(** The overload of [Zone::setSensor] for a device takes the device's sensor of
    the type. *)
Definition setSensor (z : zptr) (_device : Device) (_sensorType : SensorType.t) : M unit :=
  sensor ← se_lift (getSensorByType _device _sensorType);
  let ms := mkMainSensor (d_DSID _device) (s_sensorType sensor) (s_sensorIndex sensor) in
  zone ← apt_gets (fun a => the_zone a z);
  if negb (isAllowedSensorType zone (ms_sensorType ms)) then se_throw (not_allowed (ms_sensorType ms))
  else apt_modify (upd_zone z (fun x => z_with_MainSensors (assign_sensor ms (z_MainSensors x)) x)).
Definition resetSensor (z : zptr) (_sensorType : SensorType.t) : M unit := apt_modify (upd_zone z (zone_resetSensor _sensorType)).
End Zone.
