(* ===== verification/DeviceOps.v ===== *)
(** [src/src/model/device.cpp]: what changes a device besides its place and its
    memory: the modes of its button and output, its group of colour, its wind
    protection class, its product data, its tags, its states and its inputs. *)
From stdpp Require Import base option list strings gmap.
From Stdlib Require Import ZArith Lia Ascii PrimFloat.
From Stdlib Require String.
From S2P Require Import Prelude CxxString Base NumConv FloatConv Ds485types ModelConst ModelFeatures DataTypes Calendar DateTools.
From S2P Require Import Behavior Event EventCreate PropertyTree EventQueue State SceneAccess ApartmentModel DeviceInfo DeviceSet.
From S2P Require Import ApartmentWorld DeviceConfig Status Publish GroupOps Membership.

Import DeviceType DeviceClass.

Open Scope string_scope.
Open Scope list_scope.
Open Scope Z_scope.

Definition CfgFunction_LTMode : Z := 0x1E.
Definition CfgFunction_DeviceActive : Z := 0x1F.

(** * Changing members *)

Definition di_with_modes (output : Z) (button : ButtonInputMode.t) (akm : string) (i : DeviceInfo) : DeviceInfo :=
  mkDeviceInfo (di_ActiveGroup i) output button (di_ButtonInputIndex i) (di_ButtonInputCount i)
    (di_ButtonActiveGroup i) (di_ButtonID i) (di_OemEanNumber i) (di_OemSerialNumber i) (di_OemState i) (di_OemInetState i)
    (di_OemIsIndependent i) (di_OemProductInfoState i) (di_OemProductName i) (di_OemProductIcon i) (di_VdcHardwareInfo i)
    (di_VdcIconPath i) (di_VdcDisplayID i) (di_VdcHardwareGuid i) (di_ValveType i) akm
    (di_pairedDevices i) (di_visible i) (di_cardinalDirection i) (di_windProtectionClass i) (di_published i).
Definition di_with_oem (state productState : DeviceOEMState) (i : DeviceInfo) : DeviceInfo :=
  mkDeviceInfo (di_ActiveGroup i) (di_OutputMode i) (di_ButtonInputMode i) (di_ButtonInputIndex i) (di_ButtonInputCount i)
    (di_ButtonActiveGroup i) (di_ButtonID i) (di_OemEanNumber i) (di_OemSerialNumber i) state (di_OemInetState i)
    (di_OemIsIndependent i) productState (di_OemProductName i) (di_OemProductIcon i) (di_VdcHardwareInfo i)
    (di_VdcIconPath i) (di_VdcDisplayID i) (di_VdcHardwareGuid i) (di_ValveType i) (di_AKMInputProperty i)
    (di_pairedDevices i) (di_visible i) (di_cardinalDirection i) (di_windProtectionClass i) (di_published i).
(** The valve, the paired devices, the visibility and the direction. *)
Definition di_with_site (valve : DeviceValveType) (paired : Z) (visible : bool) (direction : Z) (i : DeviceInfo) : DeviceInfo :=
  mkDeviceInfo (di_ActiveGroup i) (di_OutputMode i) (di_ButtonInputMode i) (di_ButtonInputIndex i) (di_ButtonInputCount i)
    (di_ButtonActiveGroup i) (di_ButtonID i) (di_OemEanNumber i) (di_OemSerialNumber i) (di_OemState i) (di_OemInetState i)
    (di_OemIsIndependent i) (di_OemProductInfoState i) (di_OemProductName i) (di_OemProductIcon i) (di_VdcHardwareInfo i)
    (di_VdcIconPath i) (di_VdcDisplayID i) (di_VdcHardwareGuid i) valve (di_AKMInputProperty i)
    paired visible direction (di_windProtectionClass i) (di_published i).
Definition pub_with_features (l : list (ModelFeatureId.t * bool)) (p : DevicePublished) : DevicePublished :=
  mkDevicePublished (pub_LastKnownShortAddress p) (pub_DSMeterDSIDstr p) (pub_DSMeterDSUIDstr p) (pub_LastKnownMeterDSIDstr p)
    (pub_LastKnownMeterDSUIDstr p)
    (pub_HWInfo p) (pub_GTIN p) (pub_OemProductURL p) (pub_OemConfigLink p) (pub_OemPartNumber p) (pub_IsConfigLocked p)
    (pub_hasActions p) (pub_VdcHardwareModelGuid p) (pub_VdcModelUID p) (pub_VdcModelVersion p) (pub_VdcVendorGuid p)
    (pub_VdcOemGuid p) (pub_VdcOemModelGuid p) (pub_VdcConfigURL p) (pub_VdcHardwareVersion p) (pub_LastDiscovered p)
    (pub_IsLockedInDSM p) (pub_ButtonSetsLocalPriority p) (pub_ButtonCallsPresent p) (pub_floor p) (pub_states p) l.

Section DeviceOps.
Context {ical W : Type} {Sched : Schedule ical} {EW : EventWorld ical W} {SW : StateWorld W} {AW : ApartmentWorld W}.
Context {LC : Libc} {SD : Strtod} {BM : BusMembers} {DU : Dsuid} {DB : DeviceBus W}.
Context (new_ICalSchedule : string -> string -> DateTime -> res ical).
Context (callback : notification -> lid -> nid -> nid -> heap W -> heap W).
Context (can_write : string -> bool).
Local Notation "'M' A" := (SE (heap W) A) (at level 10, A at next level).
Local Notation publish := (device_publishToPropertyTree callback).
Local Notation unpublish := (device_removeFromPropertyTree callback).
Local Notation setZone := (setZoneID new_ICalSchedule callback can_write).

(** ** The modes of button and output *)

Definition updateAKMNode (p : dptr) : M unit :=
  d ← this_device p;
  match d_node d with
  | Some n =>
    if (getDeviceType d =? DEVICE_TYPE_AKM) || (getDeviceType d =? DEVICE_TYPE_UMR)
    then link callback n ("AKMInputProperty", StringProxy (ro (of_device p (fun x => di_AKMInputProperty (d_info x)))))
    else mret tt
  | None => mret tt
  end.

(** Slaves of a pair are not published. *)
Definition setButtonInputMode (p : dptr) (mode : ButtonInputMode.t) : M unit :=
  d ← this_device p;
  wasSlave ← se_lift (is2WaySlave d);
  _ ← set_info p (fun i => di_with_modes (di_OutputMode i) mode (getAKMButtonInputString mode) i);
  d ← this_device p;
  slave ← se_lift (is2WaySlave d);
  if slave && negb wasSlave then unpublish p
  else if wasSlave && negb slave then _ ← publish p; updateAKMNode p
  else mret tt.

Definition setOutputMode (p : dptr) (_value : Z) : M unit :=
  d ← this_device p;
  wasSlave ← se_lift (is2WaySlave d);
  _ ← set_info p (fun i => di_with_modes (wrapU 8 _value) (di_ButtonInputMode i) (di_AKMInputProperty i) i);
  d ← this_device p;
  if (getDeviceType d =? DEVICE_TYPE_UMR) && (multiDeviceIndex d =? 3) then
    slave ← se_lift (is2WaySlave d);
    if slave : bool then unpublish p
    else if wasSlave : bool then _ ← publish p; updateAKMNode p
    else mret tt
  else mret tt.

Definition setDeviceOutputMode (p : dptr) (_modeId : Z) : M unit := setDeviceConfig p CfgClassFunction CfgFunction_Mode _modeId.
Definition setDeviceButtonInputMode (p : dptr) (mode : ButtonInputMode.t) : M unit :=
  _ ← setDeviceConfig p CfgClassFunction CfgFunction_LTMode (ButtonInputMode.to_Z mode); setButtonInputMode p mode.

(** ** The group of colour *)

Definition updateZws205GroupColor (p : dptr) : M unit :=
  d ← this_device p;
  setDeviceConfig p CfgClassFunction CfgFunction_LedConfig0
    (Z.lor 0x20 (RgbBitmask.to_Z (getApplicationTypeRgbBitmask (ApplicationType.of_Z (di_ActiveGroup (d_info d)))))).
Definition updateLedGroupColor (p : dptr) : M unit :=
  d ← this_device p; if is_ZWS205 d then updateZws205GroupColor p else mret tt.

Definition zws205_mode (activeGroup : Z) : Z :=
  match ApplicationType.of_Z activeGroup with
  | ApplicationType.ControlTemperature => OUTPUT_MODE_TEMPCONTROL_SWITCHED
  | _ => OUTPUT_MODE_SWITCH_2_POL
  end.
Definition updateOutputMode (p : dptr) : M unit :=
  d ← this_device p;
  if is_ZWS205 d then setDeviceOutputMode p (zws205_mode (di_ActiveGroup (d_info d))) else mret tt.

(** The wait of three seconds is left out, and [updateIconPath], whose result
    [DeviceInfo.v] computes when it is asked for. *)
Definition setDeviceJokerGroup (p : dptr) (groupId : Z) : M unit :=
  let groupId := wrapU 8 groupId in
  if negb (isDefaultGroup groupId) && negb (isGlobalAppDsGroup groupId)
  then se_throw (RuntimeError "Invalid joker group value")
  else
    d ← this_device p;
    let oldGroupId := di_ActiveGroup (d_info d) in
    _ ← addToGroup callback p groupId;
    _ ← (if (0 <? di_ButtonInputCount (d_info d)) && negb (groupId =? di_ButtonActiveGroup (d_info d)) then
           _ ← (if (oldGroupId =? GroupIDBlack) && negb (groupId =? GroupIDBlack) && hasInput d
                   && negb (bool_decide (di_ButtonInputMode (d_info d) = ButtonInputMode.STANDARD)) then
                  slave ← se_lift (is2WaySlave d);
                  if negb slave then setDeviceButtonInputMode p ButtonInputMode.STANDARD else mret tt
                else mret tt);
           setDeviceButtonActiveGroup p groupId
         else mret tt);
    d ← this_device p;
    _ ← addModelEvent (etDeviceChanged (d_DSMeterDSID d) [d_ShortAddress d]);
    _ ← updateLedGroupColor p;
    updateOutputMode p.

(** ** Pairs and visibility *)

Definition tryGetPartnerDevice (p : dptr) : M (option dptr) :=
  apt_gets (fun a => tryGetDeviceByDSID a (snd (dsuid_get_next_dsuid (d_DSID (the_device a p))))).
Definition getPartnerDevice (p : dptr) : M dptr :=
  q ← tryGetPartnerDevice p;
  match q with Some q => mret q | None => se_throw (RuntimeError "Failed to find partner device.") end.

(** [sub->createProperty("dSUID")->setStringValue(dsuid2str(next))] for the
    devices behind [current]. *)
Fixpoint publish_paired (n : nid) (num : nat) (i : Z) (current : dsuid_t) : M unit :=
  match num with
  | O => mret tt
  | S num =>
    sub ← createProperty callback n ("pairedDevices/device" +:+ intToString i false);
    let next := snd (dsuid_get_next_dsuid current) in
    _ ← create_string callback sub "dSUID" (dsuid2str next);
    publish_paired n num (i + 1) next
  end.
Definition setPairedDevices (p : dptr) (_num : Z) : M unit :=
  d ← this_device p;
  let update := negb (di_pairedDevices (d_info d) =? _num) in
  _ ← set_info p (fun i => di_with_site (di_ValveType i) _num (di_visible i) (di_cardinalDirection i) i);
  d ← this_device p;
  match d_node d with
  | Some n =>
    if isMainDevice d && update then
      paired ← getPropertyByName n "pairedDevices";
      _ ← match paired with Some c => _ ← removeChild callback n c; mret tt | None => mret tt end;
      publish_paired n (Z.to_nat (_num - 1)) 0 (d_DSID d)
    else mret tt
  | None => mret tt
  end.

Definition setVisibility (p : dptr) (_isVisible : bool) : M unit :=
  d ← this_device p;
  let wasVisible := di_visible (d_info d) in
  _ ← set_info p (fun i => di_with_site (di_ValveType i) (di_pairedDevices i) _isVisible (di_cardinalDirection i) i);
  if has_hidden_devices d then
    if wasVisible && negb _isVisible then unpublish p
    else if negb wasVisible && _isVisible then publish p
    else mret tt
  else mret tt.

(** Bit 4 of the cell is clear when the device is active. *)
Definition setDeviceVisibility (p : dptr) (_isVisible : bool) : M unit :=
  d ← this_device p;
  if has_hidden_devices d then
    if isMainDevice d then se_throw (RuntimeError "Visibility setting not allowed on main device")
    else
      val ← getDeviceConfig p CfgClassDevice CfgFunction_DeviceActive;
      let bit4 := Z.land val 16 =? 0 in
      if Bool.eqb bit4 _isVisible then mret tt
      else
        _ ← setDeviceConfig p CfgClassDevice CfgFunction_DeviceActive (Z.lxor val 16);
        setVisibility p _isVisible
  else se_throw (RuntimeError "Visibility setting is not supported by this device").

(** ** Location *)

Definition checkAutoCluster (p : dptr) : M unit := d ← this_device p; addModelEvent (etDeviceDirty (d_DSID d)).

Definition setCardinalDirection (p : dptr) (_direction : Z) (_initial : bool) : M unit :=
  if negb (cd_valid _direction) then se_throw (AssertionFailure "valid(_direction)")
  else
    d ← this_device p;
    if di_cardinalDirection (d_info d) =? _direction then mret tt
    else
      _ ← set_info p (fun i => di_with_site (di_ValveType i) (di_pairedDevices i) (di_visible i) _direction i);
      if _initial then mret tt else checkAutoCluster p.

Definition setWindProtectionClass (p : dptr) (_klass : Z) (_initial : bool) : M unit :=
  if negb (wpc_valid _klass) then se_throw (AssertionFailure "valid(_klass)")
  else
    d ← this_device p;
    let not_applicable what := RuntimeError ("Wind protection class " +:+ intToString _klass false +:+ "not applicable for " +:+ what) in
    _ ← (if _initial then mret tt
         else if negb (getDeviceClass d =? DEVICE_CLASS_GR)
         then se_throw (RuntimeError "Wind protection class can only be set on grey devices")
         else if (d_ProductID d =? ProductID_KL_210) && negb (_klass <=? wpc_awning_class_3)
         then se_throw (not_applicable "awning devices")
         else if negb (d_ProductID d =? ProductID_KL_210) && negb ((_klass =? wpc_none) || (_klass >=? wpc_blind_class_1))
         then se_throw (not_applicable "blinds devices")
         else mret tt);
    if di_windProtectionClass (d_info d) =? _klass then mret tt
    else _ ← set_info p (di_with_wind _klass); if _initial then mret tt else checkAutoCluster p.

(** ** Product *)

Definition setOemInfoState (p : dptr) (_state : DeviceOEMState) : M unit :=
  _ ← set_info p (fun i => di_with_oem _state (di_OemProductInfoState i) i);
  match _state with DEVICE_OEM_NONE | DEVICE_OEM_VALID => dirty | _ => mret tt end.

Definition setValveType (p : dptr) (_type : DeviceValveType) : M unit :=
  _ ← set_info p (fun i => di_with_site _type (di_pairedDevices i) (di_visible i) (di_cardinalDirection i) i);
  inst ← st_gets hasInstance;
  _ ← (if inst : bool then
         now ← gets clock;
         d ← this_device p;
         mm ← apt_gets a_modelMaintenance;
         match mm with
         | None => se_throw (UndefinedBehaviour "call on NULL")
         | Some mm =>
           if negb (m_IsInitializing mm)
           then push_new new_ICalSchedule callback
                  (ev_set_all [("zoneID", intToString (d_ZoneID d) false)] (Event_name now EventName.DeviceHeatingTypeChanged))
           else mret tt
         end
       else mret tt);
  dirty.
Definition setValveTypeAsString (p : dptr) (_value : string) (_ignoreValveCheck : bool) : M bool :=
  d ← this_device p;
  if _ignoreValveCheck || isValveDevice d then
    match getValveTypeFromString (c_str _value) with
    | Some type => _ ← setValveType p type; mret true
    | None => mret false
    end
  else mret false.

(** [std::map::operator==] and [swap]: nothing is published when nothing changed. *)
Definition updateModelFeatures (p : dptr) : M unit :=
  d ← this_device p;
  let subclass := Z.land (Z.shiftr (d_FunctionID d) 6) 0x3F in
  let modelFeatures := if (subclass =? 0x07) || (subclass =? 0x08) then [(ModelFeatureId.apartmentapplication, true)] else [] in
  if bool_decide (pub_modelFeatures (d_published d) = modelFeatures) then mret tt
  else
    _ ← apt_modify (upd_device p (d_with_published (pub_with_features modelFeatures)));
    republishModelFeaturesToPropertyTree callback p.

(** ** Tags *)

Definition hasTag (p : dptr) (_tagName : string) : M bool :=
  d ← this_device p;
  match d_TagsNode d with
  | Some n => c ← getPropertyByName n _tagName; mret (bool_decide (is_Some c))
  | None => mret false
  end.
Definition addTag (p : dptr) (_tagName : string) : M unit :=
  has ← hasTag p _tagName;
  if has : bool then mret tt
  else
    d ← this_device p;
    match d_TagsNode d with
    | Some n => c ← createProperty callback n _tagName; _ ← setFlag callback c Archive true; dirty
    | None => mret tt
    end.
Definition removeTag (p : dptr) (_tagName : string) : M unit :=
  has ← hasTag p _tagName;
  if negb has then mret tt
  else
    d ← this_device p;
    match d_TagsNode d with
    | Some n =>
      c ← getPropertyByName n _tagName;
      match c with Some c => _ ← removeChild callback n c; dirty | None => se_throw (UndefinedBehaviour "call on NULL") end
    | None => mret tt
    end.

(** ** States and inputs *)

Local Notation setSt := (setState_name new_ICalSchedule callback can_write).

Definition setStateValue (p : dptr) (name value : string) : M unit :=
  d ← this_device p;
  se_try (se_iter (fun x => if String.eqb (fst x) name then setSt (snd x) coDsmApi value else mret tt) (pub_states (d_published d)))
    is_runtime_error (fun _ => mret tt).
(** A state that is not mentioned becomes invalid. *)
Definition setStateValues (p : dptr) (values : list (string * string)) : M unit :=
  d ← this_device p;
  se_iter (fun x =>
    let newValue := match List.find (fun v => String.eqb (fst x) (fst v)) values with Some v => snd v | None => INVALID end in
    se_try (setSt (snd x) coDsmApi newValue) is_runtime_error (fun _ => mret tt)) (pub_states (d_published d)).

Definition getBinaryInputCount (d : Device) : Z := wrapU 8 (Z.of_nat (length (d_binaryInputs d))).
Definition at_input (p : dptr) (_inputIndex : Z) (f : nat -> M unit) : M unit :=
  d ← this_device p;
  let i := wrapU 8 _inputIndex in
  if i >=? getBinaryInputCount d then se_throw (ItemNotFound "Device::getBinaryInput: index out of bounds") else f (Z.to_nat i).
Definition setBinaryInputTargetId (p : dptr) (index targetGroupId : Z) : M unit :=
  at_input p index (fun i => setTargetId new_ICalSchedule callback can_write p i (wrapU 8 targetGroupId)).
Definition setBinaryInputId (p : dptr) (index inputId : Z) : M unit := at_input p index (fun i => setInputId p i inputId).
Definition setBinaryInputType (p : dptr) (index : Z) (inputType : BinaryInputType.t) : M unit :=
  at_input p index (fun i => setInputType new_ICalSchedule callback can_write p i inputType).
Definition handleBinaryInputEvent (p : dptr) (index inputState : Z) : M unit :=
  at_input p index (fun i => handleEvent new_ICalSchedule callback can_write p i inputState).
End DeviceOps.
