(* ===== verification/StructureManipulator.v ===== *)
(** [src/src/structuremanipulator.cpp] and [synchronizeGroups] of
    [src/src/util.cpp]: the changes of zones, groups, clusters and sensors that
    go to the bus as well as into the model.

    The bus is an interface: the calls of [StructureModifyingBusInterface] and
    the queries of [StructureQueryBusInterface] ([businterface.h]) that are used
    here are functions of the world. *)
From stdpp Require Import base option list strings gmap.
From Stdlib Require Import ZArith Lia Ascii PrimFloat.
From Stdlib Require String.
From S2P Require Import Prelude CxxString Base NumConv FloatConv Ds485types ModelConst ModelFeatures DataTypes Calendar DateTools.
From S2P Require Import Behavior Event EventCreate PropertyTree EventQueue State SceneAccess ApartmentModel DeviceInfo DeviceSet.
From S2P Require Import ApartmentWorld DeviceConfig Status Publish GroupOps Membership ZoneConfig DeviceOps.

Import DeviceType DeviceClass.

Open Scope string_scope.
Open Scope list_scope.
Open Scope Z_scope.

(** * The bus *)

Inductive StructureRequest :=
| SetZoneID (_dsMeterID : dsuid_t) (_deviceID _zoneID : Z)
| CreateZone (_dsMeterID : dsuid_t) (_zoneID : Z)
| RemoveZone (_dsMeterID : dsuid_t) (_zoneID : Z)
| AddToGroup (_dsMeterID : dsuid_t) (_groupID _deviceID : Z)
| RemoveFromGroup (_dsMeterID : dsuid_t) (_groupID _deviceID : Z)
| RemoveDeviceFromDSMeter (_dsMeterID : dsuid_t) (_deviceID : Z)
| RemoveDeviceFromDSMeters (_DeviceDSID : dsuid_t)
| SceneSetName (_zoneID _groupID _sceneNumber : Z) (_name : string)
| DeviceSetName (_meterDSID : dsuid_t) (_deviceID : Z) (_name : string)
| MeterSetName (_meterDSID : dsuid_t) (_name : string)
| CreateGroup (_zoneID _groupID : Z) (applicationType : ApplicationType.t) (applicationConfig : Z) (_name : string)
| RemoveGroup (_zoneID _groupID : Z)
| GroupSetApplication (_zoneID _groupID : Z) (applicationType : ApplicationType.t) (applicationConfig : Z)
| GroupSetName (_zoneID _groupID : Z) (_name : string)
| CreateCluster (_groupID : Z) (applicationType : ApplicationType.t) (applicationConfig : Z) (_name : string)
| RemoveCluster (_clusterID : Z)
| ClusterSetName (_clusterID : Z) (_name : string)
| ClusterSetApplication (_clusterID : Z) (applicationType : ApplicationType.t) (applicationConfig : Z)
| ClusterSetProperties (_clusterID _location _floor _protectionClass : Z)
| ClusterSetLockedScenes (_clusterID : Z) (_lockedScenes : list Z)
| ClusterSetConfigurationLock (_clusterID : Z) (_lock : bool)
| SetZoneHeatingConfig (_dsMeterID : dsuid_t) (_ZoneID : Z) (_spec : ZoneHeatingConfigSpec_t)
| SetZoneHeatingOperationModes (_dsMeterID : dsuid_t) (_ZoneID : Z) (opModes : list Z)
| SetZoneSensor (_zoneID : Z) (_sensorType : SensorType.t) (_sensorDSUID : dsuid_t)
| ResetZoneSensor (_zoneID : Z) (_sensorType : SensorType.t).

(** The queries give the dSUIDs and short addresses of the devices; the errors
    and the broadcast address are constants of the library. *)
Class StructureBus (W : Type) := {
  sb_modify : StructureRequest -> W -> res unit * W;
  sb_getInactiveDevicesInZone : dsuid_t -> Z -> W -> res (list (dsuid_t * Z)) * W;
  sb_getDevicesInZone : dsuid_t -> Z -> bool -> W -> res (list (dsuid_t * Z)) * W;
  sb_getDevicesCountInZone : dsuid_t -> Z -> bool -> W -> res Z * W;
  sb_deviceGetSpec : Z -> dsuid_t -> W -> res dsuid_t * W;
  DSUID_BROADCAST : dsuid_t;
  ERROR_ZONE_ALREADY_EXISTS : Z; ERROR_NO_FURTHER_ZONES : Z; ERROR_ZONE_NOT_EMPTY : Z
}.

Definition Fid_105_Mask_VariableStandardGroup : Z := 0x04.
Definition ShortAddressStaleDevice : Z := 0xFFFF.

Definition is_bus_error (e : exn) : bool := match e with BusApiError _ _ => true | _ => false end.
Definition bus_or_missing (e : exn) : bool := is_bus_error e || is_item_not_found e.

Section StructureManipulator.
Context {ical W : Type} {Sched : Schedule ical} {EW : EventWorld ical W} {SW : StateWorld W} {AW : ApartmentWorld W}.
Context {LC : Libc} {SD : Strtod} {BM : BusMembers} {DU : Dsuid} {DB : DeviceBus W} {SB : StructureBus W}.
Context (new_ICalSchedule : string -> string -> DateTime -> res ical).
Context (callback : notification -> lid -> nid -> nid -> heap W -> heap W).
Context (can_write : string -> bool) (convert : string -> res string).
Context (setApplicationTypeInt : gptr -> Z -> W -> W) (m_dss : bool) (log10 : float -> float).
(** What is behind the values that [getHeating*OperationModeValues] write. *)
Context (indeterminate : list Z).

Local Notation "'M' A" := (SE (heap W) A) (at level 10, A at next level).
Local Notation setType := (setApplicationType callback m_dss).
Local Notation named := (setName convert).
Local Notation zone_addGroup := (addGroup callback convert setApplicationTypeInt).
Local Notation zone_removeGroup := (Membership.removeGroup callback).
Local Notation zone_addDevice := (Zone_addDevice new_ICalSchedule callback can_write).
Local Notation zone_removeDevice := (Zone_removeDevice callback).
Local Notation push_event := (push_device_event new_ICalSchedule callback).

Definition modify_bus (r : StructureRequest) : M unit := bus_call (sb_modify r).

(** A pointer that is not tested for NULL. *)
Definition deref_ptr {A} (x : option A) : M A :=
  match x with Some x => mret x | None => se_throw (UndefinedBehaviour "call on NULL") end.

(** ** Presence *)

Definition zone_setIsPresent (z : zptr) (_value : bool) : M unit :=
  now ← gets clock;
  zone ← this_zone z;
  ph ← se_lift (setIsPresent now _value (z_physical zone));
  set_zone z (z_with_physical (fun _ => ph)).
Definition zone_setIsConnected (z : zptr) (_value : bool) : M unit := set_zone z (z_with_physical (setIsConnected _value)).
Definition group_setIsPresent (g : gptr) (_value : bool) : M unit :=
  now ← gets clock;
  group ← this_group g;
  ph ← se_lift (setIsPresent now _value (g_physical group));
  set_group g (g_with_physical (fun _ => ph)).
Definition group_setIsConnected (g : gptr) (_value : bool) : M unit := set_group g (g_with_physical (setIsConnected _value)).

(** ** Synchronising groups *)

Definition if_pending (g : gptr) (m : Group -> M unit) : M unit :=
  group ← this_group g;
  if g_SyncPending group then se_try (_ ← m group; set_group g (g_setIsSynchronized true)) is_bus_error (fun _ => mret tt)
  else mret tt.

Definition app_config (group : Group) : Z := wrapU 32 (getApplicationConfiguration group).

Definition synchronize_cluster (c : option gptr) : M unit :=
  g ← deref_ptr c;
  if_pending g (fun group =>
    cl ← deref_ptr (g_cluster group);
    let id := wrapU 8 (g_GroupID group) in
    _ ← modify_bus (ClusterSetName id (g_Name group));
    _ ← modify_bus (ClusterSetApplication id (g_ApplicationType group) (app_config group));
    _ ← modify_bus (ClusterSetProperties id (wrapU 16 (c_Location cl)) (wrapU 16 (c_Floor cl)) (wrapU 16 (c_ProtectionClass cl)));
    modify_bus (ClusterSetLockedScenes id (c_LockedScenes cl))).

Definition synchronize_global (g : gptr) : M unit :=
  if_pending g (fun group =>
    modify_bus (GroupSetApplication 0 (wrapU 8 (g_GroupID group)) (g_ApplicationType group) (app_config group))).

Definition synchronize_zone_group (zone : Zone) (g : gptr) : M unit :=
  group ← this_group g;
  if isZoneUserGroup (g_GroupID group) then
    let zone_id := wrapU 16 (z_ZoneID zone) in
    let id := wrapU 8 (g_GroupID group) in
    se_try
      (_ ← modify_bus (CreateGroup zone_id id (g_ApplicationType group) (app_config group) (g_Name group));
       _ ← modify_bus (GroupSetApplication zone_id id (g_ApplicationType group) (app_config group));
       set_group g (g_setIsSynchronized true))
      is_bus_error (fun _ => mret tt)
  else mret tt.
Definition synchronize_zone (z : zptr) : M unit :=
  zone ← this_zone z;
  if (z_ZoneID zone =? 0) || negb (ph_IsConnected (z_physical zone)) then mret tt
  else se_iter (synchronize_zone_group zone) (z_Groups zone).

(** The loops over the global applications and the zones are inside the loop
    over the clusters. *)
Definition synchronizeGroups : M unit :=
  clusters ← apt_query getClusters;
  se_iter (fun c =>
    _ ← synchronize_cluster c;
    globalApps ← apt_query getGlobalApps;
    _ ← se_iter synchronize_global globalApps;
    zones ← apt_gets m_Zones;
    se_iter synchronize_zone zones) clusters.

(** ** The sensors of a zone *)

Definition setZoneSensor (z : zptr) (_sensorType : SensorType.t) (_dev : dptr) : M unit :=
  d ← this_device _dev;
  _ ← setSensor z d _sensorType;
  zone ← this_zone z;
  modify_bus (SetZoneSensor (wrapU 16 (z_ZoneID zone)) _sensorType (d_DSID d)).
Definition resetZoneSensor (z : zptr) (_sensorType : SensorType.t) : M unit :=
  _ ← resetSensor z _sensorType;
  zone ← this_zone z;
  modify_bus (ResetZoneSensor (wrapU 16 (z_ZoneID zone)) _sensorType).

(** The first present device of the set. *)
Fixpoint first_present (a : Apartment) (s : DeviceSet) : res (option dptr) :=
  match s with
  | [] => Ok None
  | r :: s => p ← getDevice a r; if d_isPresent (the_device a p) then Ok (Some p) else first_present a s
  end.
Definition assign_type (z : zptr) (devices : DeviceSet) (sensorType : SensorType.t) : M unit :=
  p ← apt_query (fun a => s ← getBySensorType a devices sensorType; first_present a s);
  match p with Some p => setZoneSensor z sensorType p | None => mret tt end.
Definition autoAssignZoneSensors (z : zptr) : M unit :=
  zone ← this_zone z;
  if isEmpty (z_Devices zone) then mret tt
  else se_iter (assign_type z (z_Devices zone)) (getUnassignedSensorTypes zone).

Definition checkSensorsOnDeviceRemoval (z : zptr) (_device : dptr) : M unit :=
  zone ← this_zone z;
  d ← this_device _device;
  _ ← se_iter (resetZoneSensor z) (getAssignedSensorTypes zone (d_DSID d));
  autoAssignZoneSensors z.

Definition synchronizeZoneSensorAssignment (z : zptr) : M unit :=
  _ ← set_zone z removeInvalidZoneSensors;
  zone ← this_zone z;
  se_try
    (_ ← se_iter (fun t => modify_bus (ResetZoneSensor (wrapU 16 (z_ZoneID zone)) t)) (getUnassignedSensorTypes zone);
     se_iter (fun s => modify_bus (SetZoneSensor (wrapU 16 (z_ZoneID zone)) (ms_sensorType s) (ms_DSUID s))) (z_MainSensors zone))
    is_runtime_error (fun _ => mret tt).

(** ** Zones on meters *)

Definition connect_zone (z : zptr) : M unit :=
  _ ← zone_setIsPresent z true;
  _ ← zone_setIsConnected z true;
  groupList ← apt_gets (fun a => z_Groups (the_zone a z));
  _ ← se_iter (fun g => group_setIsConnected g true) groupList;
  synchronizeGroups.

Definition createZone (_dsMeter : mptr) (z : zptr) : M unit :=
  meter ← this_meter _dsMeter;
  if negb (dm_isPresent meter) then se_throw (RuntimeError "Need dsMeter to be present")
  else
    zone ← this_zone z;
    _ ← modify_bus (CreateZone (dm_DSID meter) (z_ZoneID zone));
    _ ← addToDSMeter callback z _dsMeter;
    connect_zone z.

(** The devices of a zone on a meter that are present. *)
Definition present_on (a : Apartment) (z : zptr) (dsm : dsuid_t) : res DeviceSet :=
  s ← getByDSMeter a (getDevices a z) dsm; getByPresence a s true.

Definition remove_inactive (dsm : dsuid_t) (x : dsuid_t * Z) : M unit :=
  dev ← se_try (apt_query (fun a => getDeviceByDSID a (fst x))) is_item_not_found
          (fun _ => se_throw (RuntimeError ("Inactive device '" +:+ dsuid2str (fst x) +:+ "' not known here.")));
  d ← this_device dev;
  if bool_decide (d_LastKnownMeterDSID d = dsm)
  then se_throw (RuntimeError ("Inactive device '" +:+ dsuid2str (fst x) +:+ "' only known on this meter, can't remove it."))
  else modify_bus (RemoveDeviceFromDSMeter dsm (snd x)).

Definition removeZoneOnDSMeter (z : zptr) (_dsMeter : mptr) : M unit :=
  meter ← this_meter _dsMeter;
  let dsm := dm_DSID meter in
  s ← apt_query (fun a => present_on a z dsm);
  if negb (isEmpty s) then se_throw (RuntimeError "cannot delete zone if there are still devices present")
  else
    zone ← this_zone z;
    inactiveDevices ← bus_call (sb_getInactiveDevicesInZone dsm (z_ZoneID zone));
    _ ← se_iter (remove_inactive dsm) inactiveDevices;
    se_try
      (_ ← modify_bus (RemoveZone dsm (z_ZoneID zone));
       _ ← removeFromDSMeter callback z _dsMeter;
       any ← apt_gets (fun a => isRegisteredOnAnyMeter a z);
       if any : bool then mret tt else zone_setIsConnected z false)
      is_bus_error (fun _ => mret tt).

Definition wipeZoneOnMeter (_meterdSUID : dsuid_t) (_zoneID : Z) : M unit :=
  n ← bus_call (sb_getDevicesCountInZone _meterdSUID _zoneID true);
  if 0 <? n then se_throw (RuntimeError ("Can not remove zone " +:+ intToString _zoneID false +:+ ": zone contains active devices"))
  else
    devices ← bus_call (sb_getDevicesInZone _meterdSUID _zoneID false);
    _ ← se_iter (fun x => modify_bus (RemoveDeviceFromDSMeter _meterdSUID (snd x))) devices;
    modify_bus (RemoveZone _meterdSUID _zoneID).

Definition remove_or_wipe (zone : Z) (m : mptr) : M unit :=
  meter ← this_meter m;
  se_try (modify_bus (RemoveZone (dm_DSID meter) zone)) is_bus_error
    (fun be => match be with
               | BusApiError _ error =>
                 if error =? ERROR_ZONE_NOT_EMPTY then wipeZoneOnMeter (dm_DSID meter) zone else mret tt
               | _ => mret tt
               end).
Definition disableZoneHeatingConfig (dsMeterId : dsuid_t) (zoneId : Z) : M unit :=
  modify_bus (SetZoneHeatingConfig dsMeterId zoneId no_heating_config).

Definition removeZoneOnDSMeters (z : zptr) : M unit :=
  se_try
    (meters ← apt_gets (fun a => z_DSMeters (the_zone a z));
     _ ← se_iter (fun m =>
           meter ← this_meter m;
           m' ← apt_query (fun a => getDSMeterByDSID a (dm_DSID meter));
           removeFromDSMeter callback z m') meters;
     id ← apt_gets (fun a => z_ZoneID (the_zone a z));
     _ ← disableZoneHeatingConfig DSUID_BROADCAST (wrapU 16 id);
     _ ← se_iter (remove_or_wipe id) meters;
     any ← apt_gets (fun a => isRegisteredOnAnyMeter a z);
     if any : bool then mret tt else zone_setIsConnected z false)
    is_bus_error (fun _ => mret tt).

(** ** Moving a device to a zone *)

Definition standard_groups : list Z := map Z.of_nat (seq 0 (Z.to_nat GroupIDStandardMax)).
Definition device_in_group (p : dptr) (g : Z) : M bool := apt_gets (fun a => isInGroup (the_device a p) g).

Definition mark_present (p : dptr) (z : zptr) (g : Z) : M unit :=
  b ← device_in_group p g;
  if b : bool then
    group ← apt_gets (fun a => Zone_getGroup a z g);
    match group with Some group => group_setIsPresent group true | None => mret tt end
  else mret tt.
(** The old zone's groups that are left empty. *)
Definition mark_absent (p : dptr) (oldZone : zptr) (g : Z) : M unit :=
  b ← device_in_group p g;
  if b : bool then
    x ← apt_gets (fun a => Zone_getGroup a oldZone g);
    group ← deref_ptr x;
    s ← apt_query (fun a => getByGroup a (getDevices a oldZone) (g_GroupID (the_group a group)));
    if isEmpty s then group_setIsPresent group false else mret tt
  else mret tt.

(** What the bus answers to a zone it knows, or has no room for. *)
Definition create_on_meter (m : mptr) (z : zptr) : M unit :=
  se_try (createZone m z) is_bus_error
    (fun baer => match baer with
                 | BusApiError what error =>
                   if error =? ERROR_ZONE_ALREADY_EXISTS then _ ← addToDSMeter callback z m; connect_zone z
                   else if error =? ERROR_NO_FURTHER_ZONES
                   then se_throw (RuntimeError "The dSM of this device can not handle more rooms")
                   else se_throw (RuntimeError what)
                 | e => se_throw e
                 end).

Definition leave_zone (p : dptr) (m : mptr) (oldZoneID : Z) : M unit :=
  d ← this_device p;
  meter ← this_meter m;
  oldZone ← apt_query (fun a => getZone a oldZoneID);
  _ ← zone_removeDevice oldZone (d_DSID d);
  _ ← checkSensorsOnDeviceRemoval oldZone p;
  s ← apt_query (fun a => present_on a oldZone (dm_DSID meter));
  _ ← (if isEmpty s then se_try (removeZoneOnDSMeter oldZone m) is_runtime_error (fun _ => mret tt) else mret tt);
  se_iter (mark_absent p oldZone) standard_groups.

Definition addDeviceToZone (p : dptr) (z : zptr) : M unit :=
  d ← this_device p;
  if negb (d_isPresent d) then se_throw (RuntimeError "Need device to be present")
  else
    let oldZoneID := d_ZoneID d in
    m ← apt_query (fun a => getDSMeterByDSID a (d_DSMeterDSID d));
    registered ← apt_gets (fun a => registeredOnDSMeter a z m);
    _ ← (if registered : bool then mret tt else create_on_meter m z);
    meter ← this_meter m;
    id ← apt_gets (fun a => z_ZoneID (the_zone a z));
    _ ← modify_bus (SetZoneID (dm_DSID meter) (d_ShortAddress d) id);
    _ ← setZoneID new_ICalSchedule callback can_write p id;
    _ ← zone_addDevice z (d_DSID d);
    _ ← push_event p [("action", "moved"); ("id", intToString id false); ("oldZoneID", intToString oldZoneID false);
                      ("newZoneID", intToString id false)];
    _ ← se_iter (mark_present p z) standard_groups;
    _ ← (if oldZoneID =? 0 then mret tt else leave_zone p m oldZoneID);
    autoAssignZoneSensors z.

(** ** Removing devices *)

Definition removeDeviceFromDSMeter (p : dptr) : M unit :=
  d ← this_device p;
  let dsm := if bool_decide (d_DSMeterDSID d = DSUID_NULL) then d_LastKnownMeterDSID d else d_DSMeterDSID d in
  if bool_decide (dsm = DSUID_NULL) then mret tt
  else
    let addr := if d_ShortAddress d =? ShortAddressStaleDevice then pub_LastKnownShortAddress (d_published d) else d_ShortAddress d in
    if addr =? ShortAddressStaleDevice then se_throw (RuntimeError "Not enough data to delete device on dSM")
    else
      m ← apt_query (fun a => getDSMeterByDSID a (d_DSMeterDSID d));
      meter ← this_meter m;
      if negb (ph_IsConnected (dm_physical meter)) then mret tt
      else
        dsid ← bus_call (sb_deviceGetSpec addr dsm);
        if bool_decide (dsid = d_DSID d) then modify_bus (RemoveDeviceFromDSMeters (d_DSID d))
        else se_throw (RuntimeError "Not deleting device - dSID mismatch between dSS model and dSM").

Definition forget_device (p : dptr) : M unit :=
  d ← this_device p;
  z ← apt_query (fun a => getZone a (d_ZoneID d));
  _ ← checkSensorsOnDeviceRemoval z p;
  d ← this_device p;
  Membership.removeDevice new_ICalSchedule callback can_write (d_DSID d).

(** The paired devices of a main device, the next dSUIDs after its own. *)
Fixpoint remove_paired (n : nat) (current : dsuid_t) : M (list dptr) :=
  match n with
  | O => mret []
  | S n =>
    let next := snd (dsuid_get_next_dsuid current) in
    r ← se_try
          (q ← apt_query (fun a => getDeviceByDSID a next);
           _ ← removeDeviceFromDSMeter q;
           _ ← forget_device q;
           d ← this_device q;
           mret (if isVisible d then [q] else []))
          is_runtime_error (fun _ => mret []);
    rest ← remove_paired n next;
    mret (r ++ rest)
  end.

Definition removeDevice (p : dptr) : M (list dptr) :=
  d ← this_device p;
  master ← se_lift (is2WayMaster d);
  partner ← (if master : bool
             then se_try (q ← apt_query (fun a => getDeviceByDSID a (snd (dsuid_get_next_dsuid (d_DSID d)))); mret (Some q))
                    is_item_not_found (fun _ => mret None)
             else mret None);
  result ← (if isMainDevice d && (0 <? getPairedDevices d) then remove_paired (Z.to_nat (getPairedDevices d)) (d_DSID d) else mret []);
  _ ← se_try
        (_ ← removeDeviceFromDSMeter p; match partner with Some q => removeDeviceFromDSMeter q | None => mret tt end)
        is_runtime_error (fun _ => mret tt);
  _ ← forget_device p;
  match partner with
  | Some q => _ ← forget_device q; mret (result ++ [p; q])
  | None => mret (result ++ [p])
  end.

(** ** Names *)

Definition deviceSetName (p : dptr) (_name : string) : M unit :=
  d ← this_device p;
  _ ← modify_bus (DeviceSetName (d_DSMeterDSID d) (d_ShortAddress d) _name);
  push_event p [("action", "name"); ("name", _name)].
Definition meterSetName (m : mptr) (_name : string) : M unit :=
  meter ← this_meter m; modify_bus (MeterSetName (dm_DSID meter) _name).
Definition sceneSetName (g : gptr) (_sceneNumber : Z) (_name : string) : M unit :=
  _ ← setSceneName callback g _sceneNumber _name;
  group ← this_group g;
  _ ← modify_bus (SceneSetName (wrapU 16 (g_ZoneID group)) (wrapU 8 (g_GroupID group)) (wrapU 8 _sceneNumber) _name);
  inst ← st_gets hasInstance;
  if inst : bool then
    now ← gets clock;
    push_new new_ICalSchedule callback
      (ev_set_all [("zone", intToString (g_ZoneID group) false); ("group", intToString (g_GroupID group) false);
                   ("sceneId", intToString _sceneNumber false); ("newSceneName", _name)]
         (Event_name now EventName.SceneNameChanged))
  else mret tt.

(** ** Sets as groups *)

Definition persist_device (_groupNumber : Z) (r : DeviceReference) : M unit :=
  p ← apt_query (fun a => getDevice a r);
  _ ← addToGroup callback p _groupNumber;
  d ← this_device p;
  modify_bus (AddToGroup (d_DSMeterDSID d) _groupNumber (d_ShortAddress d)).

Definition persistSet_at (_set : DeviceSet) (_originalSet : string) (_groupNumber : Z) : M Z :=
  _ ← se_try (_ ← apt_query (fun a => Apartment_getGroup a _groupNumber); mret tt) is_item_not_found
        (fun _ =>
           z0 ← apt_query (fun a => getZone a 0);
           id ← apt_gets (fun a => z_ZoneID (the_zone a z0));
           g ← new_group (Group_new _groupNumber id);
           z ← apt_query (fun a => getZone a 0);
           _ ← zone_addGroup z g;
           _ ← modify_bus (CreateGroup 0 (wrapU 8 _groupNumber) ApplicationType.None 0 "");
           set_group g (g_setAssociatedSet _originalSet));
  _ ← se_iter (persist_device _groupNumber) _set;
  mret _groupNumber.

(** The first user group that does not exist. *)
Fixpoint free_group (a : Apartment) (l : list Z) : res Z :=
  match l with
  | [] => Ok (-1)
  | g :: l => try_catch (_ ← Apartment_getGroup a g; free_group a l) is_item_not_found (fun _ => Ok g)
  end.
Definition persistSet (_set : DeviceSet) (_originalSet : string) : M Z :=
  idFound ← apt_query (fun a =>
    free_group a (map (fun i => GroupIDUserGroupStart + Z.of_nat i) (seq 0 (Z.to_nat (GroupIDUserGroupEnd - GroupIDUserGroupStart + 1)))));
  if idFound =? -1 then mret (-1) else persistSet_at _set _originalSet idFound.

Definition unpersist_device (groupID : Z) (r : DeviceReference) : M unit :=
  p ← apt_query (fun a => getDevice a r);
  _ ← removeFromGroup callback p groupID;
  d ← this_device p;
  modify_bus (RemoveFromGroup (d_DSMeterDSID d) groupID (d_ShortAddress d)).
Definition unpersistSet (_setDescription : string) : M unit :=
  z0 ← apt_query (fun a => getZone a 0);
  pGroup ← apt_gets (fun a =>
    List.find (fun g => String.eqb (g_AssociatedSet (the_group a g)) _setDescription) (z_Groups (the_zone a z0)));
  match pGroup with
  | None => mret tt
  | Some g =>
    devs ← apt_query (fun a => Group_getDevices a g);
    group ← this_group g;
    let groupID := g_GroupID group in
    _ ← se_iter (unpersist_device groupID) devs;
    _ ← modify_bus (RemoveGroup (wrapU 16 (g_ZoneID group)) (wrapU 8 groupID));
    z ← apt_query (fun a => getZone a 0);
    zone_removeGroup z (Some g)
  end.

(** ** Creating and removing groups *)

Definition reserved (_groupNumber : Z) : exn := DSSException ("Group with id " +:+ intToString _groupNumber false +:+ " is reserved").
Definition only_zone_0 (_groupNumber : Z) : exn := DSSException ("Group with id " +:+ intToString _groupNumber false +:+ " only allowed in Zone 0").
Definition group_missing (_groupNumber : Z) : exn := DSSException ("Group id " +:+ intToString _groupNumber false +:+ " does not exist").
Definition is_reserved (_groupNumber : Z) : bool := isDefaultGroup _groupNumber || isGlobalAppDsGroup _groupNumber.

(** Reads the group, which does not throw, and throws; [other] is the handler. *)
Definition create_if_missing (z : zptr) (_groupNumber : Z) (other : M unit) : M unit :=
  se_try (_ ← apt_gets (fun a => Zone_getGroup a z _groupNumber);
          se_throw (DSSException ("Group id " +:+ intToString _groupNumber false +:+ " already exists")))
    is_item_not_found (fun _ => other).

Definition createGroup (z : zptr) (_groupNumber : Z) (applicationType : ApplicationType.t) (applicationConfiguration : Z)
  (_name : string) : M unit :=
  zone ← this_zone z;
  let request := CreateGroup (wrapU 16 (z_ZoneID zone)) (wrapU 8 _groupNumber) applicationType (wrapU 32 applicationConfiguration) _name in
  if is_reserved _groupNumber then se_throw (reserved _groupNumber)
  else if isAppUserGroup _groupNumber then
    if negb (z_ZoneID zone =? 0) then se_throw (only_zone_0 _groupNumber)
    else
      se_try
        (c ← apt_query (fun a => getCluster a _groupNumber);
         _ ← named c _name;
         _ ← setType c applicationType;
         modify_bus (CreateCluster (wrapU 8 _groupNumber) applicationType (wrapU 32 applicationConfiguration) _name))
        bus_or_missing (fun _ => mret tt)
  else if isZoneUserGroup _groupNumber then
    create_if_missing z _groupNumber
      (g ← new_group (Group_new _groupNumber (z_ZoneID zone)); _ ← zone_addGroup z g; modify_bus request)
  else if isGlobalAppUserGroup _groupNumber then
    if negb (z_ZoneID zone =? 0) then se_throw (only_zone_0 _groupNumber)
    else
      create_if_missing z _groupNumber
        (g ← new_group (Group_new _groupNumber (z_ZoneID zone));
         _ ← named g _name;
         _ ← setType g applicationType;
         _ ← zone_addGroup z g;
         modify_bus request)
  else se_throw (DSSException ("Create group: id " +:+ intToString _groupNumber false +:+ " too large")).

(** The group may be missing: [zone_removeGroup] is given what the zone has. *)
Definition remove_zone_group (z : zptr) (_groupNumber : Z) : M unit :=
  pGroup ← apt_gets (fun a => Zone_getGroup a z _groupNumber);
  id ← apt_gets (fun a => z_ZoneID (the_zone a z));
  se_try (_ ← zone_removeGroup z pGroup; modify_bus (RemoveGroup (wrapU 16 id) (wrapU 8 _groupNumber)))
    is_bus_error (fun _ => mret tt).

Definition removeGroup (z : zptr) (_groupNumber : Z) : M unit :=
  zone ← this_zone z;
  if is_reserved _groupNumber then se_throw (reserved _groupNumber)
  else if isAppUserGroup _groupNumber then
    if negb (z_ZoneID zone =? 0) then se_throw (only_zone_0 _groupNumber)
    else
      c ← se_try (apt_query (fun a => getCluster a _groupNumber)) is_item_not_found
            (fun _ => se_throw (DSSException ("Remove group: id " +:+ intToString _groupNumber false +:+ " does not exist")));
      group ← this_group c;
      cl ← deref_ptr (g_cluster group);
      if c_ConfigurationLocked cl then se_throw (DSSException "The group is locked and cannot be modified")
      else
        se_try (_ ← cluster_reset callback convert m_dss c; modify_bus (RemoveCluster (wrapU 8 _groupNumber)))
          bus_or_missing (fun _ => mret tt)
  else if isZoneUserGroup _groupNumber then remove_zone_group z _groupNumber
  else if isGlobalAppUserGroup _groupNumber then
    if negb (z_ZoneID zone =? 0) then se_throw (only_zone_0 _groupNumber) else remove_zone_group z _groupNumber
  else se_throw (DSSException ("Remove group: id " +:+ intToString _groupNumber false +:+ " not found")).

Definition groupSetName (g : gptr) (_name : string) : M unit :=
  group ← this_group g;
  let id := g_GroupID group in
  if is_reserved id then se_throw (reserved id)
  else if isAppUserGroup id || isZoneUserGroup id || isGlobalAppUserGroup id then
    _ ← named g _name; modify_bus (GroupSetName (wrapU 16 (g_ZoneID group)) (wrapU 8 id) _name)
  else se_throw (DSSException ("Rename group: id " +:+ intToString id false +:+ " too large")).

(** ** Clusters *)

Definition not_a_cluster (what : string) (id : Z) : exn := DSSException (what +:+ ": id " +:+ intToString id false +:+ " not a cluster").

Definition clusterSetName (c : gptr) (_name : string) : M unit :=
  group ← this_group c;
  if isAppUserGroup (g_GroupID group) then _ ← named c _name; modify_bus (ClusterSetName (wrapU 8 (g_GroupID group)) _name)
  else se_throw (not_a_cluster "Rename cluster" (g_GroupID group)).

Definition clusterSetApplication (c : gptr) (applicationType : ApplicationType.t) (applicationConfiguration : Z) : M unit :=
  group ← this_group c;
  if isAppUserGroup (g_GroupID group) then
    cl ← deref_ptr (g_cluster group);
    if c_ConfigurationLocked cl then se_throw (DSSException "The group is locked and cannot be modified")
    else
      _ ← setType c applicationType;
      _ ← setApplicationConfiguration c applicationConfiguration;
      modify_bus (ClusterSetApplication (wrapU 8 (g_GroupID group)) applicationType (wrapU 32 applicationConfiguration))
  else se_throw (not_a_cluster "clusterSetApplication cluster" (g_GroupID group)).

Definition clusterSetConfigurationLock (c : gptr) (_locked : bool) : M unit :=
  group ← this_group c;
  if isAppUserGroup (g_GroupID group) then
    _ ← set_cluster c (setConfigurationLocked _locked);
    modify_bus (ClusterSetConfigurationLock (wrapU 8 (g_GroupID group)) _locked)
  else se_throw (not_a_cluster "set cluster lock" (g_GroupID group)).

Definition groupSetApplication (g : gptr) (applicationType : ApplicationType.t) (applicationConfiguration : Z) : M unit :=
  group ← this_group g;
  let id := g_GroupID group in
  if is_reserved id && negb (bool_decide (g_ApplicationType group = applicationType))
  then se_throw (DSSException ("Group with id " +:+ intToString id false +:+ " cannot be modified"))
  else if isAppUserGroup id then
    c ← apt_query (fun a => getCluster a id); clusterSetApplication c applicationType applicationConfiguration
  else if isValidGroup id then
    _ ← setType g applicationType;
    _ ← setApplicationConfiguration g applicationConfiguration;
    modify_bus (GroupSetApplication (wrapU 16 (g_ZoneID group)) (wrapU 8 id) applicationType (wrapU 32 applicationConfiguration))
  else se_throw (DSSException ("groupSetApplication group: id " +:+ intToString id false +:+ " not valid")).

(** ** Devices and their groups *)

Definition check_not_locked (g : gptr) : M unit :=
  group ← this_group g;
  match g_cluster group with
  | Some cl => if c_ConfigurationLocked cl then se_throw (DSSException "The group is locked and cannot be modified") else mret tt
  | None => mret tt
  end.

Definition single_input (d : Device) : bool :=
  ((getDeviceType d =? DEVICE_TYPE_AKM) || (getDeviceType d =? DEVICE_TYPE_UMR)) && (getBinaryInputCount d =? 1).
Definition is_KM200 (d : Device) : bool :=
  (getDeviceType d =? DEVICE_TYPE_KM) && (getDeviceClass d =? DEVICE_CLASS_BL) && (getDeviceNumber d =? 200).
Local Notation setTarget := (setBinaryInputTargetId new_ICalSchedule callback can_write).
Local Notation setButtonMode := (setDeviceButtonInputMode callback).

Definition deviceAddToGroup (p : dptr) (g : gptr) : M unit :=
  _ ← check_not_locked g;
  group ← this_group g;
  let id := g_GroupID group in
  d ← this_device p;
  _ ← modify_bus (AddToGroup (d_DSMeterDSID d) id (d_ShortAddress d));
  _ ← (if is_reserved id && (0 <? Z.land (d_FunctionID d) Fid_105_Mask_VariableStandardGroup) then resetGroups callback p else mret tt);
  _ ← addToGroup callback p id;
  d ← this_device p;
  _ ← (if single_input d then _ ← setDeviceBinaryInputTargetId p 0 id; setTarget p 0 id
       else if di_OutputMode (d_info d) =? 0 then setDeviceButtonActiveGroup p id
       else mret tt);
  d ← this_device p;
  _ ← (if is_KM200 d then
         setButtonMode p (if id =? GroupIDControlTemperature then ButtonInputMode.HEATING_PUSHBUTTON else ButtonInputMode.STANDARD)
       else mret tt);
  push_event p [("action", "groupAdd"); ("id", intToString id false)].

Definition adapt_inputs (p : dptr) (id : Z) : M unit :=
  d ← this_device p;
  _ ← (if single_input d && match d_binaryInputs d with b :: _ => id =? b_targetGroupId b | [] => false end
       then _ ← setDeviceBinaryInputTargetId p 0 GroupIDBlack; setTarget p 0 GroupIDBlack
       else mret tt);
  d ← this_device p;
  if id =? di_ButtonActiveGroup (d_info d) then setDeviceButtonActiveGroup p (di_ActiveGroup (d_info d)) else mret tt.

Definition deviceRemoveFromGroup (p : dptr) (g : gptr) (_adaptInputs : bool) : M unit :=
  _ ← check_not_locked g;
  group ← this_group g;
  let id := g_GroupID group in
  d ← this_device p;
  _ ← modify_bus (RemoveFromGroup (d_DSMeterDSID d) id (d_ShortAddress d));
  _ ← removeFromGroup callback p id;
  _ ← (if _adaptInputs then adapt_inputs p id else mret tt);
  push_event p [("action", "groupRemove"); ("id", intToString id false)].

(** The group of a number in a zone, asserted to exist. *)
Definition group_in_zone (zone : Z) (g : Z) : M gptr :=
  z ← apt_query (fun a => getZone a zone);
  x ← apt_gets (fun a => Zone_getGroup a z g);
  match x with Some x => mret x | None => se_throw (AssertionFailure "_group.get() != NULL") end.
Definition numbers (first last : Z) : list Z := map (fun i => first + Z.of_nat i) (seq 0 (Z.to_nat (last - first + 1))).

Definition deviceRemoveFromGroups (p : dptr) : M unit :=
  _ ← apt_query (fun a => getZone a 0);
  se_iter (fun g =>
    b ← device_in_group p g;
    if b : bool then x ← group_in_zone 0 g; deviceRemoveFromGroup p x true else mret tt)
    (numbers GroupIDAppUserMin GroupIDAppUserMax).

Definition leave_group (p : dptr) (zone : Device -> Z) (g : Z) : M unit :=
  b ← device_in_group p g;
  if b : bool then d ← this_device p; x ← group_in_zone (zone d) g; deviceRemoveFromGroup p x false else mret tt.

(** Leaves the clusters of other applications; whether it left one. *)
Fixpoint leave_clusters (p : dptr) (groupId : Z) (l : list Z) : M bool :=
  match l with
  | [] => mret false
  | g :: l =>
    b ← device_in_group p g;
    left ← (if b : bool then
              z ← apt_query (fun a => getZone a 0);
              x ← apt_gets (fun a => Zone_getGroup a z g);
              x ← deref_ptr x;
              group ← this_group x;
              if ApplicationType.to_Z (g_ApplicationType group) =? groupId then mret false
              else _ ← deviceRemoveFromGroup p x true; mret true
            else mret false);
    rest ← leave_clusters p groupId l;
    mret (left || rest)
  end.

Definition change_group (p : dptr) (groupId : Z) : M unit :=
  _ ← se_iter (fun g => if (g =? groupId) || (GroupIDBlack =? g) then mret tt else leave_group p d_ZoneID g)
        (numbers GroupIDYellow GroupIDStandardMax);
  _ ← se_iter (leave_group p d_ZoneID) (numbers GroupIDControlGroupMin GroupIDControlGroupMax);
  _ ← se_iter (leave_group p (fun _ => 0)) (numbers GroupIDGlobalAppMin GroupIDGlobalAppMax);
  d ← this_device p;
  x ← group_in_zone (if groupId >=? GroupIDGlobalAppMin then 0 else d_ZoneID d) groupId;
  _ ← deviceAddToGroup p x;
  setDeviceJokerGroup callback p groupId.

Definition setJokerGroup (p : dptr) (groupId : Z) : M bool :=
  d ← this_device p;
  let active := di_ActiveGroup (d_info d) in
  let oldGroupId := if active =? GroupIDNotApplicable then GroupIDBlack else active in
  let modified := negb (oldGroupId =? groupId) in
  _ ← (if modified then change_group p groupId else mret tt);
  _ ← apt_query (fun a => getZone a 0);
  left ← leave_clusters p groupId (numbers GroupIDAppUserMin GroupIDAppUserMax);
  mret (modified || left).

(** ** Heating *)

Definition setZoneHeatingConfigImpl (m : mptr) (z : zptr) : M unit :=
  zone ← this_zone z;
  meter ← this_meter m;
  let id := wrapU 16 (z_ZoneID zone) in
  let p := z_HeatingProperties zone in
  _ ← disableZoneHeatingConfig DSUID_BROADCAST id;
  _ ← match hp_mode p with
      | HeatingControlMode.PID =>
        modes ← se_lift (getHeatingControlOperationModeValues log10 p indeterminate);
        modify_bus (SetZoneHeatingOperationModes (dm_DSID meter) id modes)
      | HeatingControlMode.FIXED =>
        modes ← se_lift (getHeatingFixedOperationModeValues log10 p indeterminate);
        modify_bus (SetZoneHeatingOperationModes (dm_DSID meter) id modes)
      | _ => mret tt
      end;
  modify_bus (SetZoneHeatingConfig (dm_DSID meter) id (getHeatingConfig p)).

Definition setZoneHeatingConfig (z : zptr) (spec : ZoneHeatingConfigSpec_t) : M unit :=
  _ ← setHeatingConfig z spec;
  _ ← updateTemperatureControlMeter z;
  m ← tryGetPresentTemperatureControlMeter z;
  _ ← match m with Some m => setZoneHeatingConfigImpl m z | None => mret tt end;
  id ← apt_gets (fun a => z_ZoneID (the_zone a z));
  addModelEvent (etControllerConfig DSUID_BROADCAST [id] spec).

Definition update_control_meter (z : zptr) : M unit :=
  zone ← this_zone z;
  if z_ZoneID zone =? 0 then mret tt
  else
    m ← tryGetPresentTemperatureControlMeter z;
    match m with
    | Some _ => mret tt
    | None =>
      _ ← updateTemperatureControlMeter z;
      m ← tryGetPresentTemperatureControlMeter z;
      match m with Some m => setZoneHeatingConfigImpl m z | None => mret tt end
    end.
Definition updateZoneTemperatureControlMeters : M unit :=
  zones ← apt_gets m_Zones; se_iter update_control_meter zones.
End StructureManipulator.
