(* ===== verification/ManipulatorFacts.v ===== *)
(** What the structure manipulator keeps and does: with any bus, its operations
    leave the structure of the apartment consistent, and a device that is moved
    is listed by the zone it is moved to. *)
From stdpp Require Import base option list strings gmap.
From Stdlib Require Import ZArith Lia Ascii PrimFloat.
From Stdlib Require String.
From S2P Require Import Prelude CxxString Base NumConv FloatConv Ds485types ModelConst ModelFeatures DataTypes Calendar DateTools.
From S2P Require Import Behavior Event EventCreate PropertyTree PropertyTreeFacts PropertyReader TreeFrame EventQueue EventQueueFacts.
From S2P Require Import State StateFacts SceneAccess ApartmentModel DeviceInfo DeviceSet.
From S2P Require Import ApartmentWorld ExampleWorld DeviceConfig Status StatusFacts Publish GroupOps Membership StructureFrames MembershipFacts.
From S2P Require Import ZoneConfig DeviceOps StructureManipulator.

Open Scope string_scope.
Open Scope list_scope.
Open Scope Z_scope.

(** The buses change other things than the apartment. *)
Class QuietBuses {W : Type} (AW : ApartmentWorld W) (DB : DeviceBus W) (SB : StructureBus W) : Prop := {
  quiet_modify : forall r w, get_apt (snd (sb_modify r w)) = get_apt w;
  quiet_inactive : forall dsm z w, get_apt (snd (sb_getInactiveDevicesInZone dsm z w)) = get_apt w;
  quiet_devices : forall dsm z b w, get_apt (snd (sb_getDevicesInZone dsm z b w)) = get_apt w;
  quiet_count : forall dsm z b w, get_apt (snd (sb_getDevicesCountInZone dsm z b w)) = get_apt w;
  quiet_spec : forall n dsm w, get_apt (snd (sb_deviceGetSpec n dsm w)) = get_apt w;
  quiet_setConfig : forall d c i v w, get_apt (snd (bus_setDeviceConfig d c i v w)) = get_apt w;
  quiet_setButton : forall d g w, get_apt (snd (bus_setDeviceButtonActiveGroup d g w)) = get_apt w
}.

Section Frames.
Context {ical W : Type} {Sched : Schedule ical} {EW : EventWorld ical W} {SW : StateWorld W} {AW : ApartmentWorld W}.
Context {LC : Libc} {SD : Strtod} {BM : BusMembers} {DU : Dsuid} {Sep : SeparateWorlds EW SW} {SepA : SeparateApartment EW SW AW}.
Context {DB : DeviceBus W} {SB : StructureBus W} {QB : QuietBuses AW DB SB}.
Context (new_ICalSchedule : string -> string -> DateTime -> res ical).
Context (callback : notification -> lid -> nid -> nid -> heap W -> heap W).
Context (can_write : string -> bool) (convert : string -> res string).
Context (setApplicationTypeInt : gptr -> Z -> W -> W) (m_dss : bool) (log10 : float -> float) (indeterminate : list Z).
Context (q : Query).
Notation obs := (obs q).
Context (Hd : discreet obs callback) (Hset : forall g v w, obs (setApplicationTypeInt g v w) = obs w).

Lemma frames_bus_call {A} (f : W -> res A * W) : (forall w, get_apt (snd (f w)) = get_apt w) -> frames obs (bus_call f).
Proof.
  intros Hf h Hq. unfold bus_call. specialize (Hf (ext h)). destruct (f (ext h)) as [r w]. cbn in *.
  split; [exact Hq|]. unfold StructureFrames.obs. by rewrite Hf.
Qed.
Lemma frames_modify_bus r : frames obs (modify_bus r).
Proof. apply frames_bus_call, quiet_modify. Qed.
Lemma frames_deref_ptr {A} (x : option A) : frames obs (deref_ptr x).
Proof. destruct x; [apply frames_ret|apply frames_throw]. Qed.
Lemma apt_frames_lift {A} (r : res A) : frames obs (se_lift r).
Proof. by intros h. Qed.
#[local] Hint Resolve frames_modify_bus frames_deref_ptr apt_frames_lift quiet_inactive quiet_devices quiet_count quiet_spec quiet_setConfig quiet_setButton : frames.
#[local] Hint Resolve frames_apt_gets frames_apt_query frames_st_gets frames_eq_gets frames_this_device frames_this_zone frames_this_meter frames_this_group
  frames_addModelEvent frames_setName frames_setApplicationType frames_setApplicationConfiguration frames_addToDSMeter frames_removeFromDSMeter
  frames_push_device_event frames_set_group frames_set_zone frames_set_device frames_device_publish frames_device_remove
  frames_updateTemperatureControlMeter frames_updateStatusFieldHandle frames_remove_path frames_create_int frames_create_string : frames.
#[local] Hint Extern 2 (frames _ (bus_call _)) => (apply frames_bus_call; intros ?; solve [eauto with frames]) : frames.
#[local] Hint Extern 2 (frames _ (apt_modify _)) => (apply frames_apt_modify; intros ?; solve [auto with structure]) : frames.

Lemma frames_zone_setIsPresent z v : frames obs (zone_setIsPresent z v).
Proof. unfold zone_setIsPresent. all_frames. Qed.
Lemma frames_zone_setIsConnected z v : frames obs (zone_setIsConnected z v).
Proof. unfold zone_setIsConnected. all_frames. Qed.
Lemma frames_group_setIsPresent g v : frames obs (group_setIsPresent g v).
Proof. unfold group_setIsPresent. all_frames. Qed.
Lemma frames_group_setIsConnected g v : frames obs (group_setIsConnected g v).
Proof. unfold group_setIsConnected. all_frames. Qed.
#[local] Hint Resolve frames_zone_setIsPresent frames_zone_setIsConnected frames_group_setIsPresent frames_group_setIsConnected : frames.

Lemma frames_synchronizeGroups : frames obs synchronizeGroups.
Proof. unfold synchronizeGroups, synchronize_cluster, synchronize_global, synchronize_zone, synchronize_zone_group, if_pending. all_frames. Qed.
#[local] Hint Resolve frames_synchronizeGroups : frames.

Lemma frames_setZoneSensor z t p : frames obs (setZoneSensor z t p).
Proof. unfold setZoneSensor, setSensor. all_frames. Qed.
Lemma frames_resetSensor z t : frames obs (resetSensor z t).
Proof.
  apply frames_apt_modify. intros a. apply answer_upd_zone. unfold zone_resetSensor. by case_match.
Qed.
#[local] Hint Resolve frames_setZoneSensor frames_resetSensor : frames.
Lemma frames_autoAssign z : frames obs (autoAssignZoneSensors z).
Proof. unfold autoAssignZoneSensors, assign_type. all_frames. Qed.
#[local] Hint Resolve frames_autoAssign : frames.
Lemma frames_resetZoneSensor z t : frames obs (resetZoneSensor z t).
Proof. unfold resetZoneSensor. all_frames. Qed.
#[local] Hint Resolve frames_resetZoneSensor : frames.
Lemma frames_checkSensors z p : frames obs (checkSensorsOnDeviceRemoval z p).
Proof. unfold checkSensorsOnDeviceRemoval. all_frames. Qed.
Lemma frames_synchronizeSensors z : frames obs (synchronizeZoneSensorAssignment z).
Proof. unfold synchronizeZoneSensorAssignment. all_frames. Qed.
#[local] Hint Resolve frames_checkSensors frames_synchronizeSensors : frames.

Lemma frames_createZone m z : frames obs (createZone callback m z).
Proof. unfold createZone, connect_zone. all_frames. Qed.
#[local] Hint Resolve frames_createZone : frames.
Lemma frames_create_on_meter m z : frames obs (create_on_meter callback m z).
Proof. unfold create_on_meter, connect_zone. all_frames. Qed.
Lemma frames_removeZoneOnDSMeter z m : frames obs (removeZoneOnDSMeter callback z m).
Proof. unfold removeZoneOnDSMeter, remove_inactive. all_frames. Qed.
Lemma frames_removeZoneOnDSMeters z : frames obs (removeZoneOnDSMeters callback z).
Proof. unfold removeZoneOnDSMeters, remove_or_wipe, wipeZoneOnMeter, disableZoneHeatingConfig. all_frames. Qed.
Lemma frames_mark_present p z g : frames obs (mark_present p z g).
Proof. unfold mark_present, device_in_group. all_frames. Qed.
Lemma frames_mark_absent p z g : frames obs (mark_absent p z g).
Proof. unfold mark_absent, device_in_group. all_frames. Qed.
Lemma frames_removeDeviceFromDSMeter p : frames obs (removeDeviceFromDSMeter p).
Proof. unfold removeDeviceFromDSMeter. all_frames. Qed.
#[local] Hint Resolve frames_create_on_meter frames_removeZoneOnDSMeter frames_removeZoneOnDSMeters frames_mark_present frames_mark_absent
  frames_removeDeviceFromDSMeter : frames.

Lemma frames_setSceneName g n t : frames obs (setSceneName callback g n t).
Proof. unfold setSceneName. all_frames. Qed.
#[local] Hint Resolve frames_setSceneName : frames.
Lemma frames_push_new e : plain e -> frames obs (push_new new_ICalSchedule callback e).
Proof.
  intros [Hi Hu]%plain_immediate h Hq. destruct (push_new_run new_ICalSchedule callback e h Hi Hu) as (x & _ & ->).
  split; [exact Hq|]. cbn. apply obs_put_eq.
Qed.
Lemma frames_sceneSetName g n t : frames obs (sceneSetName new_ICalSchedule callback g n t).
Proof.
  assert (forall now l, plain_props l = true ->
    frames obs (push_new new_ICalSchedule callback (ev_set_all l (Event_name now EventName.SceneNameChanged)))) as Hp.
  { intros now l Hl. apply frames_push_new, plain_set_all; [done|]. split_and!; [done|apply lookup_empty|apply lookup_empty]. }
  unfold sceneSetName. all_frames.
Qed.

(** ** Memory and modes of a device *)

Lemma frames_setDeviceConfig p c i v : frames obs (setDeviceConfig p c i v).
Proof. unfold setDeviceConfig, has_bus, DeviceConfig.this_device. all_frames. Qed.
#[local] Hint Resolve frames_setDeviceConfig : frames.
Lemma frames_set_info p f : frames obs (set_info p f).
Proof. unfold set_info. all_frames. Qed.
#[local] Hint Resolve frames_set_info : frames.
Lemma frames_setButtonGroup p g : frames obs (setDeviceButtonActiveGroup p g).
Proof. unfold setDeviceButtonActiveGroup, setDeviceButtonID, has_bus, DeviceConfig.this_device. all_frames. Qed.
Lemma frames_updateAKMNode p : frames obs (updateAKMNode callback p).
Proof.
  assert (forall n f, frames obs (link callback n ("AKMInputProperty", StringProxy (ro f)))) as Hl by (intros; by apply frames_link).
  unfold updateAKMNode, Membership.this_device. all_frames.
Qed.
#[local] Hint Resolve frames_setButtonGroup frames_updateAKMNode : frames.
Lemma frames_setButtonInputMode p m : frames obs (setButtonInputMode callback p m).
Proof. unfold setButtonInputMode, Membership.this_device. all_frames. Qed.
#[local] Hint Resolve frames_setButtonInputMode : frames.
Lemma frames_setDeviceButtonInputMode p m : frames obs (setDeviceButtonInputMode callback p m).
Proof. unfold setDeviceButtonInputMode. all_frames. Qed.
Lemma frames_setTarget p i v : frames obs (setDeviceBinaryInputTargetId p i v).
Proof. unfold setDeviceBinaryInputTargetId, with_input, DeviceConfig.this_device. all_frames. Qed.
Lemma frames_setBinaryInputTargetId p i v : frames obs (setBinaryInputTargetId new_ICalSchedule callback can_write p i v).
Proof.
  unfold setBinaryInputTargetId, at_input, setTargetId, Membership.this_device, get_input, upd_input. all_frames.
Qed.
#[local] Hint Resolve frames_setDeviceButtonInputMode frames_setTarget frames_setBinaryInputTargetId : frames.
Lemma frames_adapt_inputs p id : frames obs (adapt_inputs new_ICalSchedule callback can_write p id).
Proof. unfold adapt_inputs. all_frames. Qed.
#[local] Hint Resolve frames_adapt_inputs : frames.
Lemma frames_updateColor p : frames obs (updateLedGroupColor p).
Proof. unfold updateLedGroupColor, updateZws205GroupColor, Membership.this_device. all_frames. Qed.
Lemma frames_updateOutputMode p : frames obs (updateOutputMode p).
Proof. unfold updateOutputMode, setDeviceOutputMode, Membership.this_device. all_frames. Qed.

(** ** Clusters and heating *)

Lemma frames_set_cluster g f : frames obs (set_cluster g f).
Proof. unfold set_cluster, upd_cluster. apply frames_apt_modify. intros a. apply answer_upd_group. done. Qed.
#[local] Hint Resolve frames_set_cluster : frames.
Lemma frames_cluster_reset g : frames obs (cluster_reset callback convert m_dss g).
Proof. unfold cluster_reset. all_frames. Qed.
Lemma frames_clusterSetApplication c t n : frames obs (clusterSetApplication callback m_dss c t n).
Proof. unfold clusterSetApplication. all_frames. Qed.
#[local] Hint Resolve frames_cluster_reset frames_clusterSetApplication : frames.
Lemma frames_groupSetApplication g t n : frames obs (groupSetApplication callback m_dss g t n).
Proof. unfold groupSetApplication. all_frames. Qed.
Lemma frames_setZoneHeatingConfigImpl m z : frames obs (setZoneHeatingConfigImpl log10 indeterminate m z).
Proof. unfold setZoneHeatingConfigImpl, disableZoneHeatingConfig. all_frames. Qed.
#[local] Hint Resolve frames_setZoneHeatingConfigImpl : frames.
Lemma frames_tryMeter z : frames obs (tryGetPresentTemperatureControlMeter z).
Proof. unfold tryGetPresentTemperatureControlMeter. all_frames. Qed.
#[local] Hint Resolve frames_tryMeter : frames.
Lemma frames_setZoneHeatingConfig z spec : frames obs (setZoneHeatingConfig log10 indeterminate z spec).
Proof. unfold setZoneHeatingConfig, setHeatingConfig, heating_of, ZoneConfig.dirty. all_frames. Qed.
Lemma frames_updateMeters : frames obs (updateZoneTemperatureControlMeters log10 indeterminate).
Proof. unfold updateZoneTemperatureControlMeters, update_control_meter. all_frames. Qed.
End Frames.

(** * Moving a device *)

Section Triples.
Context {ical W : Type} {Sched : Schedule ical} {EW : EventWorld ical W} {SW : StateWorld W} {AW : ApartmentWorld W}.
Context {LC : Libc} {SD : Strtod} {BM : BusMembers} {DU : Dsuid} {Sep : SeparateWorlds EW SW} {SepA : SeparateApartment EW SW AW}.
Context {DB : DeviceBus W} {SB : StructureBus W} {QB : QuietBuses AW DB SB}.
Context (new_ICalSchedule : string -> string -> DateTime -> res ical).
Context (callback : notification -> lid -> nid -> nid -> heap W -> heap W).
Context (can_write : string -> bool) (convert : string -> res string).
Context (setApplicationTypeInt : gptr -> Z -> W -> W) (m_dss : bool) (log10 : float -> float) (indeterminate : list Z).
Context (Hd : forall q, discreet (obs q) callback) (Hset : forall q g v w, obs q (setApplicationTypeInt g v w) = obs q w).
Notation anyhow := (fun _ : Apartment => True).
Notation sound := (well_formed true).
Notation moving := (moving true).

#[local] Instance structural_anyhow : Structural anyhow.
Proof. done. Qed.
#[local] Instance structural_listed z r : Structural (fun a => r ∈ getDevices a z).
Proof. intros a b H. by rewrite (same_z_devices a b z H). Qed.
#[local] Instance structural_and P Q : Structural P -> Structural Q -> Structural (fun a => P a /\ Q a).
Proof. intros HP HQ a b H [H1 H2]. split; [by eapply HP|by eapply HQ]. Qed.
#[local] Instance structural_implies (F : Prop) Q : Structural Q -> Structural (fun a => F -> Q a).
Proof. intros HQ a b H H1 HF. eapply HQ; eauto. Qed.
#[local] Instance structural_zone_at v z : Structural (fun a => tryGetZone a v = Some z).
Proof. intros a b H. by rewrite (same_tryGetZone a b v H). Qed.
#[local] Instance structural_device_listed p : Structural (fun a => p ∈ m_Devices a).
Proof. intros a b H. by rewrite (same_devices a b H). Qed.

Lemma triple_and {A} P1 P2 (m : SE (heap W) A) Q1 Q2 E1 E2 : triple P1 m Q1 E1 -> triple P2 m Q2 E2 ->
  triple (fun a => P1 a /\ P2 a) m (fun x a => Q1 x a /\ Q2 x a) (fun a => E1 a /\ E2 a).
Proof using Type.
  intros H1 H2 h Hq [Hp1 Hp2]. destruct (H1 h Hq Hp1) as [Hu R1]. destruct (H2 h Hq Hp2) as [_ R2]. split; [done|].
  destruct (fst (m h)); [done|]. auto.
Qed.
(** Something that leaves the structure alone, and then the rest. *)
Lemma triple_after {A B} P (m : SE (heap W) A) (f : A -> SE (heap W) B) R (E : Apartment -> Prop) : Structural P -> all_framed m ->
  (forall a, P a -> E a) -> (forall x, triple P (f x) R E) -> triple P (m ≫= f) R E.
Proof using Type.
  intros HP Hm HE Hf. apply triple_bind with (Q := fun _ => P); [|done]. eapply triple_exn; [by apply triple_frames|done].
Qed.
Lemma triple_last P (m : SE (heap W) unit) (E : Apartment -> Prop) : Structural P -> all_framed m -> (forall a, P a -> E a) -> triple P m (fun _ => P) E.
Proof using Type. intros HP Hm HE. eapply triple_exn; [by apply triple_frames|done]. Qed.

(** An all-framed operation by its lemma. *)
Ltac framed lem := let q := fresh "q" in
  intros q; pose proof (Hd q); pose proof (Hset q); first [eapply lem; eassumption | apply frames_iter; intros; eapply lem; eassumption].
Ltac skip lem := apply triple_after; [apply _|framed lem|done|].

Lemma framed_gets {A} (f : Apartment -> A) : all_framed (apt_gets f).
Proof using Type. intros q. apply frames_apt_gets. Qed.
Lemma framed_query {A} (f : Apartment -> res A) : all_framed (apt_query f).
Proof using Type. intros q. apply frames_apt_query. Qed.

Lemma triple_enlisted z r : triple anyhow (Zone_addDevice new_ICalSchedule callback can_write z r) (fun _ a => r ∈ getDevices a z) anyhow.
Proof using Hd Sep SepA.
  unfold Zone_addDevice, Membership.this_device.
  apply triple_after; [apply _|apply framed_query|done|]. intros p.
  apply triple_after; [apply _|apply framed_gets|done|]. intros d.
  apply triple_bind with (Q := fun _ => anyhow).
  { apply triple_if; intros _; [|by apply triple_ret]. apply triple_try with (E0 := anyhow); [done|by intros []| |by intros e; apply triple_ret].
    apply triple_after; [apply _|apply framed_query|done|]. intros oz. by eapply triple_Zone_removeDevice; [apply Hd|apply _..|]. }
  intros _. apply triple_bind with (Q := fun _ a => r ∈ getDevices a z).
  { apply triple_modify. intros a _. rewrite members_upd. rewrite decide_True by done. apply addDevice_In. by right. }
  intros _. apply triple_after; [apply _|apply framed_query|done|]. intros p'.
  apply triple_after; [apply _|apply framed_gets|done|]. intros v.
  eapply triple_exn; [eapply triple_setZoneID; [apply Hd|apply _|apply _|]|done]. by intros a l.
Qed.

(** The device in its new zone, still listed by the old one; and as it should
    be. *)
Definition arrived (r : DeviceReference) (p : dptr) (old : Z) (z : zptr) (v : Z) (a : Apartment) : Prop :=
  moving r p v (v :: filter (fun x => x <> v) [old]) z v a /\ r ∈ getDevices a z.
#[local] Instance structural_arrived r p old z v : Structural (arrived r p old z v) := _.
Definition settled (r : DeviceReference) (p : dptr) (old : Z) (z : zptr) (v : Z) (a : Apartment) : Prop :=
  moving r p v [v] z v a /\ (old <> v -> r ∈ getDevices a z) /\ (old = v -> old <> 0 -> lists a r []).
#[local] Instance structural_settled r p old z v : Structural (settled r p old z v) := _.

Lemma arrived_from_zone_0 r p z v a : arrived r p 0 z v a -> settled r p 0 z v a.
Proof using Type.
  intros [[(H1 & H2 & H3) H4] H5]. split; [|done]. split; [|done]. split_and!; [done| |done].
  intros z' Hz' Hne Hi. specialize (H2 z' Hz' Hne Hi). apply elem_of_cons in H2 as [->|H2]; [apply list_elem_of_here|].
  apply list_elem_of_filter in H2 as [_ H2%list_elem_of_singleton]. done.
Qed.
Lemma arrived_drop r p old z v a oz : arrived r p old z v a -> tryGetZone a old = Some oz -> old <> 0 ->
  settled r p old z v (drop oz r a).
Proof using Type.
  intros [[(H1 & H2 & H3) H4] H5] Ho Hne. pose proof (tryGetZone_Some a old oz Ho) as [Hz E].
  unfold settled, MembershipFacts.moving, MembershipFacts.member. split.
  - split; [|unfold drop; by rewrite zone_id_upd]. split_and!; [apply almost_drop; [congruence|done]| |done].
    eapply lists_sub; [|apply lists_drop; [apply H1|exact Ho|exact H2]]. intros x [Hx Hi]%list_elem_of_filter.
    apply elem_of_cons in Hi as [->|Hi]; [apply list_elem_of_here|]. apply list_elem_of_filter in Hi as [_ ->%list_elem_of_singleton]. done.
  - split; [|intros -> _; eapply lists_sub; [|apply lists_drop; [apply H1|exact Ho|exact H2]]; intros x [Hx Hi]%list_elem_of_filter;
      apply elem_of_cons in Hi as [->|Hi]; [done|by apply list_elem_of_filter in Hi as [_ ->%list_elem_of_singleton]]].
    intros Hv. unfold drop. rewrite members_upd. case_decide as Ez; [|done]. subst oz. congruence.
Qed.

Lemma triple_leave_zone r p m old z v : old <> 0 ->
  triple (arrived r p old z v) (leave_zone callback p m old) (fun _ => settled r p old z v) anyhow.
Proof.
  intros Ho. unfold leave_zone, Membership.this_device.
  apply triple_bind with (Q := fun d a => arrived r p old z v a /\ d_DSID d = r).
  { apply triple_gets. intros a H. split; [done|]. apply H. }
  intros d. eapply triple_pure; [by intros a [_ H]; exact H|]. intros ->.
  apply triple_weaken with (P' := arrived r p old z v) (Q' := fun _ => settled r p old z v) (E' := anyhow); [by intros a []| |done|done].
  skip frames_this_meter. intros meter.
  apply triple_bind with (Q := fun oz a => arrived r p old z v a /\ tryGetZone a old = Some oz).
  { apply triple_query. intros a H. unfold getZone. by destruct (tryGetZone a old). }
  intros oz. apply triple_bind with (Q := fun _ => settled r p old z v).
  { eapply triple_Zone_removeDevice; [apply Hd|apply _..|]. intros a [H1 H2]. by apply arrived_drop. }
  intros _. skip frames_checkSensors. intros _.
  apply triple_after; [apply _|apply framed_query|done|]. intros s.
  apply triple_after; [apply _| |done|].
  { intros q. destruct (isEmpty s); [|apply frames_ret]. apply frames_try; [|intros ?; apply frames_ret]. by apply frames_removeZoneOnDSMeter. }
  intros _. apply triple_last; [apply _|framed frames_mark_absent|done].
Qed.

Lemma triple_addDeviceToZone r p old z v :
  triple (moving r p old [old] z v) (addDeviceToZone new_ICalSchedule callback can_write p z) (fun _ => settled r p old z v) anyhow.
Proof.
  unfold addDeviceToZone, Membership.this_device.
  apply triple_bind with (Q := fun d a => moving r p old [old] z v a /\ (d_DSID d = r /\ d_ZoneID d = old)).
  { apply triple_gets. intros a H. split; [done|]. destruct H as [(_ & _ & _ & ? & ?) _]. done. }
  intros d. eapply triple_pure; [by intros a [_ H]; exact H|]. intros [-> ->].
  apply triple_weaken with (P' := moving r p old [old] z v) (Q' := fun _ => settled r p old z v) (E' := anyhow); [by intros a []| |done|done].
  apply triple_if; intros _; [by apply triple_throw|].
  apply triple_after; [apply _|apply framed_query|done|]. intros m.
  apply triple_after; [apply _|apply framed_gets|done|]. intros registered.
  apply triple_after; [apply _| |done|].
  { intros q. destruct registered; [apply frames_ret|]. by apply frames_create_on_meter. }
  intros _. skip frames_this_meter. intros meter.
  apply triple_bind with (Q := fun v' a => moving r p old [old] z v a /\ v' = v).
  { apply triple_gets. intros a H. split; [done|]. apply H. }
  intros v'. eapply triple_pure; [by intros a [_ H]; exact H|]. intros ->.
  apply triple_weaken with (P' := moving r p old [old] z v) (Q' := fun _ => settled r p old z v) (E' := anyhow); [by intros a []| |done|done].
  skip frames_modify_bus. intros _.
  apply triple_bind with (Q := fun _ => moving r p v [old] z v).
  { eapply triple_exn; [eapply triple_setZoneID; [apply Hd|apply _|apply _|]|done]. intros a l H. by eapply moving_place. }
  intros _. apply triple_bind with (Q := fun _ => arrived r p old z v).
  { eapply triple_weaken; [|apply triple_and; [by eapply triple_Zone_addDevice|by apply triple_enlisted]|by intros x a H; exact H|done].
    intros a H. split; [exact H|done]. }
  intros _. apply triple_after; [apply _| |done|].
  { intros q. by apply frames_push_device_event. }
  intros _. skip frames_mark_present. intros _.
  apply triple_bind with (Q := fun _ => settled r p old z v); [|intros _; apply triple_last; [apply _|framed frames_autoAssign|done]].
  apply triple_if; intros Eo.
  - apply Z.eqb_eq in Eo as ->. apply triple_ret. apply arrived_from_zone_0.
  - apply Z.eqb_neq in Eo. by apply triple_leave_zone.
Qed.

(** ** The other operations *)

Lemma keeps_try {A} P (m : SE (heap W) A) p (f : exn -> SE (heap W) A) : (forall e, p e = true -> is_std_exception e = true) ->
  keeps P m -> (forall e, keeps P (f e)) -> keeps P (se_try m p f).
Proof using Type. intros Hp Hm Hf. by apply triple_try with (E0 := P). Qed.
Lemma runtime_std e : is_runtime_error e = true -> is_std_exception e = true.
Proof using Type. by destruct e. Qed.
Lemma not_found_std e : is_item_not_found e = true -> is_std_exception e = true.
Proof using Type. by destruct e. Qed.
Lemma bus_std e : is_bus_error e = true -> is_std_exception e = true.
Proof using Type. by destruct e. Qed.
Lemma bus_or_missing_std e : bus_or_missing e = true -> is_std_exception e = true.
Proof using Type. by destruct e. Qed.

Lemma keeps_query {A} P (f : Apartment -> res A) : keeps P (apt_query f).
Proof using Type. apply triple_query. intros a H. by destruct (f a). Qed.
Lemma apt_keeps_gets {A} P (f : Apartment -> A) : keeps P (apt_gets f).
Proof using Type. by apply triple_gets. Qed.
Lemma apt_keeps_ret {A} P (x : A) : keeps P (mret x).
Proof using Type. by apply triple_ret. Qed.
Lemma apt_keeps_throw {A} P e : keeps P (se_throw e : SE (heap W) A).
Proof using Type. by apply triple_throw. Qed.
Lemma keeps_if {A} (b : bool) P (m n : SE (heap W) A) : keeps P m -> keeps P n -> keeps P (if b then m else n).
Proof using Type. by destruct b. Qed.

Lemma keeps_forget p : keeps sound (forget_device new_ICalSchedule callback can_write p).
Proof.
  unfold forget_device, Membership.this_device. apply keeps_then; [apply apt_keeps_gets|]. intros d. apply keeps_then; [apply keeps_query|]. intros z.
  apply keeps_then; [apply keeps_framed; [apply _|framed frames_checkSensors]|]. intros _. apply keeps_then; [apply apt_keeps_gets|].
  intros d'. by eapply keeps_removeDevice.
Qed.
Lemma keeps_leave_meter p : keeps sound (StructureManipulator.removeDeviceFromDSMeter p).
Proof. apply keeps_framed; [apply _|framed frames_removeDeviceFromDSMeter]. Qed.
Lemma keeps_remove_paired n current : keeps sound (remove_paired new_ICalSchedule callback can_write n current).
Proof.
  revert current. induction n as [|n IH]; intros current; cbn [remove_paired]; [apply apt_keeps_ret|].
  apply keeps_then; [|intros r; apply keeps_then; [apply IH|intros ?; apply apt_keeps_ret]].
  apply keeps_try; [apply runtime_std| |intros e; apply apt_keeps_ret].
  apply keeps_then; [apply keeps_query|]. intros q. apply keeps_then; [apply keeps_leave_meter|]. intros _.
  apply keeps_then; [apply keeps_forget|]. intros _. apply keeps_then; [apply apt_keeps_gets|]. intros d. apply apt_keeps_ret.
Qed.
Lemma keeps_removeDevice_all p : keeps sound (StructureManipulator.removeDevice new_ICalSchedule callback can_write p).
Proof.
  unfold StructureManipulator.removeDevice, Membership.this_device. apply keeps_then; [apply apt_keeps_gets|]. intros d.
  apply keeps_then; [apply keeps_framed; [apply _|intros q; apply apt_frames_lift]|]. intros master.
  apply keeps_then.
  { apply keeps_if; [|apply apt_keeps_ret]. apply keeps_try; [apply not_found_std| |intros e; apply apt_keeps_ret].
    apply keeps_then; [apply keeps_query|intros ?; apply apt_keeps_ret]. }
  intros partner. apply keeps_then; [apply keeps_if; [apply keeps_remove_paired|apply apt_keeps_ret]|]. intros result.
  apply keeps_then.
  { apply keeps_try; [apply runtime_std| |intros e; apply apt_keeps_ret]. apply keeps_then; [apply keeps_leave_meter|]. intros _.
    destruct partner; [apply keeps_leave_meter|apply apt_keeps_ret]. }
  intros _. apply keeps_then; [apply keeps_forget|]. intros _.
  destruct partner; [|apply apt_keeps_ret]. apply keeps_then; [apply keeps_forget|intros _; apply apt_keeps_ret].
Qed.

Lemma keeps_make_group x (f : gptr -> SE (heap W) unit) : (forall g, keeps sound (f g)) -> keeps sound (g ← new_group x; f g).
Proof using Type. intros Hf. apply keeps_then; [by eapply (triple_new_group 0%nat), accepts_sound|done]. Qed.
Lemma keeps_modify_bus r : keeps sound (modify_bus r).
Proof. apply keeps_framed; [apply _|framed frames_modify_bus]. Qed.
Lemma keeps_group_frames g f : (forall x, g_ZoneID (f x) = g_ZoneID x) -> keeps sound (set_group g f).
Proof. intros Hf. apply keeps_framed; [apply _|]. intros q. by apply frames_set_group. Qed.
Lemma keeps_join z g : keeps sound (addGroup callback convert setApplicationTypeInt z g).
Proof. apply keeps_addGroup; [done..|apply _|apply accepts_sound]. Qed.

(** Takes the steps of a body apart, each by the lemma for it. *)
Ltac keep_step :=
  lazymatch goal with
  | |- keeps _ (mret _) => apply apt_keeps_ret
  | |- keeps _ (se_throw _) => apply apt_keeps_throw
  | |- keeps _ (apt_query _) => apply keeps_query
  | |- keeps _ (apt_gets _) => apply apt_keeps_gets
  | |- keeps _ (modify_bus _) => apply keeps_modify_bus
  | |- keeps _ (addGroup _ _ _ _ _) => apply keeps_join
  | |- keeps _ (addToGroup _ _ _) => eapply keeps_addToGroup; eassumption
  | |- keeps _ (removeFromGroup _ _ _) => eapply keeps_removeFromGroup; eassumption
  | |- keeps _ (resetGroups _ _) => eapply keeps_resetGroups; eassumption
  | |- keeps _ (Membership.removeGroup _ _ _) => eapply keeps_removeGroup; eassumption
  | |- keeps _ (new_group _ ≫= _) => apply keeps_make_group; intros ?
  | |- keeps _ (set_group _ _) => apply keeps_group_frames; done
  | |- keeps _ (se_iter _ _) => apply keeps_each; intros ?
  | |- keeps _ (_ ≫= _) => apply keeps_then; [|intros ?]
  | |- keeps _ (if _ then _ else _) => apply keeps_if
  | |- keeps _ (deref_ptr ?x) => destruct x; [apply apt_keeps_ret|apply apt_keeps_throw]
  end.
Ltac keep := repeat keep_step.
Ltac keep_match := match goal with |- keeps _ (match ?x with _ => _ end) => destruct x end; keep.

Lemma keeps_persistSet_at l t n : keeps sound (persistSet_at callback convert setApplicationTypeInt l t n).
Proof.
  unfold persistSet_at, persist_device, Membership.this_device. keep. apply keeps_try; [apply not_found_std| |intros e]; keep.
Qed.
Lemma keeps_persistSet l t : keeps sound (persistSet callback convert setApplicationTypeInt l t).
Proof. unfold persistSet. keep. apply keeps_persistSet_at. Qed.
Lemma keeps_unpersistSet t : keeps sound (unpersistSet callback t).
Proof.
  unfold unpersistSet, unpersist_device, Membership.this_device, this_group. keep.
  keep_match.
Qed.

Lemma keeps_createGroup z n t c name : keeps sound (createGroup callback convert setApplicationTypeInt m_dss z n t c name).
Proof.
  unfold createGroup, create_if_missing, this_zone. keep; (apply keeps_try; [first [apply not_found_std|apply bus_or_missing_std]| |intros e]); keep.
  all: apply keeps_framed; [apply _|]; first [framed frames_setName|framed frames_setApplicationType].
Qed.
Lemma keeps_removeGroup_number z n : keeps sound (StructureManipulator.removeGroup callback convert m_dss z n).
Proof.
  unfold StructureManipulator.removeGroup, remove_zone_group, this_zone, this_group. keep.
  all: try (apply keeps_try; [first [apply not_found_std|apply bus_or_missing_std|apply bus_std]| |intros e]; keep).
  apply keeps_framed; [apply _|framed frames_cluster_reset].
Qed.

Lemma keeps_check_not_locked g : keeps sound (check_not_locked g).
Proof.
  unfold check_not_locked, this_group. keep. keep_match.
Qed.
Lemma keeps_push p props : plain_props props = true -> keeps sound (push_device_event new_ICalSchedule callback p props).
Proof. intros Hp. apply keeps_framed; [apply _|]. intros q. by apply frames_push_device_event. Qed.

Ltac by_frame := apply keeps_framed; [apply _|]; first
  [framed frames_setTarget | framed frames_setBinaryInputTargetId | framed frames_setButtonGroup | framed frames_setDeviceButtonInputMode
  |framed frames_adapt_inputs | framed frames_addModelEvent | framed frames_updateColor | framed frames_updateOutputMode
  |intros ?; apply apt_frames_lift].

Lemma keeps_deviceAddToGroup p g : keeps sound (deviceAddToGroup new_ICalSchedule callback can_write p g).
Proof.
  unfold deviceAddToGroup, Membership.this_device, this_group. keep; try apply keeps_check_not_locked; try by_frame.
  by apply keeps_push.
Qed.
Lemma keeps_deviceRemoveFromGroup p g b : keeps sound (deviceRemoveFromGroup new_ICalSchedule callback can_write p g b).
Proof.
  unfold deviceRemoveFromGroup, Membership.this_device, this_group. keep; try apply keeps_check_not_locked; try by_frame.
  by apply keeps_push.
Qed.
Lemma keeps_group_in_zone v g : keeps sound (group_in_zone v g).
Proof. unfold group_in_zone. keep. keep_match. Qed.
Lemma keeps_deviceRemoveFromGroups p : keeps sound (deviceRemoveFromGroups new_ICalSchedule callback can_write p).
Proof. unfold deviceRemoveFromGroups, device_in_group. keep; [apply keeps_group_in_zone|apply keeps_deviceRemoveFromGroup]. Qed.

Lemma keeps_setDeviceJokerGroup p g : keeps sound (setDeviceJokerGroup callback p g).
Proof. unfold setDeviceJokerGroup, Membership.this_device. keep; by_frame. Qed.
Lemma keeps_leave_clusters p g l : keeps sound (leave_clusters new_ICalSchedule callback can_write p g l).
Proof.
  induction l as [|x l IH]; cbn [leave_clusters]; [apply apt_keeps_ret|]. unfold device_in_group, this_group. keep; try apply IH. apply keeps_deviceRemoveFromGroup.
Qed.
Lemma keeps_setJokerGroup p g : keeps sound (setJokerGroup new_ICalSchedule callback can_write p g).
Proof.
  unfold setJokerGroup, change_group, leave_group, device_in_group, Membership.this_device. keep.
  all: first [apply keeps_group_in_zone|apply keeps_deviceRemoveFromGroup|apply keeps_deviceAddToGroup|apply keeps_setDeviceJokerGroup|apply keeps_leave_clusters].
Qed.

(** * Every request *)

Inductive request :=
| DoMove (p : dptr) (z : zptr) | DoCreateZone (m : mptr) (z : zptr) | DoRemoveZoneOn (z : zptr) (m : mptr) | DoRemoveZone (z : zptr)
| DoRemoveDevice (p : dptr) | DoPersist (l : DeviceSet) (text : string) | DoPersistAt (l : DeviceSet) (text : string) (n : Z)
| DoUnpersist (text : string) | DoCreateGroup (z : zptr) (n : Z) (t : ApplicationType.t) (c : Z) (name : string)
| DoRemoveGroup (z : zptr) (n : Z) | DoSetApplication (g : gptr) (t : ApplicationType.t) (c : Z)
| DoSetClusterApplication (g : gptr) (t : ApplicationType.t) (c : Z) | DoSetSceneName (g : gptr) (n : Z) (name : string)
| DoAddToGroup (p : dptr) (g : gptr) | DoRemoveFromGroup (p : dptr) (g : gptr) (adapt : bool) | DoRemoveFromGroups (p : dptr)
| DoSetJokerGroup (p : dptr) (g : Z) | DoSetHeating (z : zptr) (spec : ZoneHeatingConfigSpec_t) | DoUpdateMeters
| DoSetSensor (z : zptr) (t : SensorType.t) (p : dptr) | DoResetSensor (z : zptr) (t : SensorType.t) | DoAutoAssign (z : zptr)
| DoSynchronizeSensors (z : zptr) | DoSynchronizeGroups.

Definition serve (r : request) : SE (heap W) unit :=
  match r with
  | DoMove p z => addDeviceToZone new_ICalSchedule callback can_write p z
  | DoCreateZone m z => createZone callback m z
  | DoRemoveZoneOn z m => removeZoneOnDSMeter callback z m
  | DoRemoveZone z => removeZoneOnDSMeters callback z
  | DoRemoveDevice p => _ ← StructureManipulator.removeDevice new_ICalSchedule callback can_write p; mret tt
  | DoPersist l text => _ ← persistSet callback convert setApplicationTypeInt l text; mret tt
  | DoPersistAt l text n => _ ← persistSet_at callback convert setApplicationTypeInt l text n; mret tt
  | DoUnpersist text => unpersistSet callback text
  | DoCreateGroup z n t c name => createGroup callback convert setApplicationTypeInt m_dss z n t c name
  | DoRemoveGroup z n => StructureManipulator.removeGroup callback convert m_dss z n
  | DoSetApplication g t c => groupSetApplication callback m_dss g t c
  | DoSetClusterApplication g t c => clusterSetApplication callback m_dss g t c
  | DoSetSceneName g n name => sceneSetName new_ICalSchedule callback g n name
  | DoAddToGroup p g => deviceAddToGroup new_ICalSchedule callback can_write p g
  | DoRemoveFromGroup p g adapt => deviceRemoveFromGroup new_ICalSchedule callback can_write p g adapt
  | DoRemoveFromGroups p => deviceRemoveFromGroups new_ICalSchedule callback can_write p
  | DoSetJokerGroup p g => _ ← setJokerGroup new_ICalSchedule callback can_write p g; mret tt
  | DoSetHeating z spec => setZoneHeatingConfig log10 indeterminate z spec
  | DoUpdateMeters => updateZoneTemperatureControlMeters log10 indeterminate
  | DoSetSensor z t p => setZoneSensor z t p
  | DoResetSensor z t => resetZoneSensor z t
  | DoAutoAssign z => autoAssignZoneSensors z
  | DoSynchronizeSensors z => synchronizeZoneSensorAssignment z
  | DoSynchronizeGroups => synchronizeGroups
  end.

(** A device that is moved is one of the apartment, and the move is not broken
    off by an exception: between the new zone's list and the old one's the device
    is in both. *)
Definition permitted (a : Apartment) (r : request) : Prop := match r with DoMove p _ => p ∈ m_Devices a | _ => True end.
Definition served (r : request) (x : res unit) : Prop := match r with DoMove _ _ => x = Ok tt | _ => ended x end.

Lemma moving_start h p z : sound (apt h) -> p ∈ m_Devices (apt h) ->
  let d := the_device (apt h) p in moving (d_DSID d) p (d_ZoneID d) [d_ZoneID d] z (z_ZoneID (the_zone (apt h) z)) (apt h).
Proof using Type.
  intros Hs Hp d. split; [|done]. apply sound_member; [done|]. apply (getDevice_known _ p (d_DSID d) (d_ZoneID d)); [|done].
  apply consistent_parts, Hs.
Qed.

Lemma keeps_framed_request (m : SE (heap W) unit) : all_framed m -> keeps sound m.
Proof using Type. intros Hm. apply keeps_framed; [apply _|done]. Qed.

Lemma serve_keeps r : match r with DoMove _ _ => True | _ => keeps sound (serve r) end.
Proof.
  destruct r; cbn [serve]; try done.
  - apply keeps_framed_request. framed frames_createZone.
  - apply keeps_framed_request. framed frames_removeZoneOnDSMeter.
  - apply keeps_framed_request. framed frames_removeZoneOnDSMeters.
  - apply keeps_then; [apply keeps_removeDevice_all|intros ?; apply apt_keeps_ret].
  - apply keeps_then; [apply keeps_persistSet|intros ?; apply apt_keeps_ret].
  - apply keeps_then; [apply keeps_persistSet_at|intros ?; apply apt_keeps_ret].
  - apply keeps_unpersistSet.
  - apply keeps_createGroup.
  - apply keeps_removeGroup_number.
  - apply keeps_framed_request. framed frames_groupSetApplication.
  - apply keeps_framed_request. framed frames_clusterSetApplication.
  - apply keeps_framed_request. framed frames_sceneSetName.
  - apply keeps_deviceAddToGroup.
  - apply keeps_deviceRemoveFromGroup.
  - apply keeps_deviceRemoveFromGroups.
  - apply keeps_then; [apply keeps_setJokerGroup|intros ?; apply apt_keeps_ret].
  - apply keeps_framed_request. framed frames_setZoneHeatingConfig.
  - apply keeps_framed_request. framed frames_updateMeters.
  - apply keeps_framed_request. framed frames_setZoneSensor.
  - apply keeps_framed_request. framed frames_resetZoneSensor.
  - apply keeps_framed_request. framed frames_autoAssign.
  - apply keeps_framed_request. framed frames_synchronizeSensors.
  - apply keeps_framed_request. framed frames_synchronizeGroups.
Qed.
Lemma serve_sound r h : undisturbed h -> sound (apt h) -> permitted (apt h) r -> served r (fst (serve r h)) ->
  undisturbed (snd (serve r h)) /\ sound (apt (snd (serve r h))).
Proof.
  intros Hq Hs Hp Hr. pose proof (serve_keeps r) as Hk. destruct r.
  { destruct (triple_addDeviceToZone _ p _ z _ h Hq (moving_start h p z Hs Hp)) as [H1 H2]. split; [exact H1|].
    cbn [served serve] in *. rewrite Hr in H2. destruct H2 as [[H2 _] _]. by eapply member_sound. }
  all: destruct (Hk h Hq Hs) as [H1 H2]; split; [done|]; cbn [served] in Hr; destruct (fst (serve _ h)); [done|by apply H2].
Qed.

(** What the server goes through: the operations of the model and the requests
    of its clients, in any order. *)
Inductive lifetime : heap W -> Prop :=
| life_begins h : reachable new_ICalSchedule callback can_write convert setApplicationTypeInt m_dss h -> lifetime h
| life_operation h op r h' : lifetime h -> allowed (apt h) op ->
    run new_ICalSchedule callback can_write convert setApplicationTypeInt m_dss op h = (r, h') -> ended r -> lifetime h'
| life_request h rq r h' : lifetime h -> permitted (apt h) rq -> serve rq h = (r, h') -> served rq r -> lifetime h'.

(** C4: the structure of the apartment stays consistent whatever the server is
    asked for.  However the operations of the model and the requests that change
    zones, groups, clusters, sensors and heating on the bus follow each other,
    whatever the bus answers and whether they return or throw (a move that is
    broken off by an exception excepted): device and zone numbers stay unique, zone
    0 exists and lists every device once, every other zone lists only known
    devices that say they are in it, groups belong to their zones, and a device
    is in valid groups only, in each once. *)
Theorem requests_keep_structure (h : heap W) : lifetime h -> consistent (apt h) /\ exists z, tryGetZone (apt h) 0 = Some z.
Proof.
  intros H. enough (undisturbed h /\ sound (apt h)) as [_ [Hc [[Hz|[? _]] _]]] by done.
  induction H as [h H|h op r h' _ [Hq Hs] Ha E He|h rq r h' _ [Hq Hs] Hp E Hr].
  - by apply (reachable_sound new_ICalSchedule callback can_write convert setApplicationTypeInt m_dss Hd Hset).
  - destruct (run_keeps new_ICalSchedule callback can_write convert setApplicationTypeInt m_dss Hd Hset op h Hq (conj Hs Ha)) as [H1 H2].
    rewrite E in H1, H2. split; [done|]. destruct r; [done|by apply H2].
  - pose proof (serve_sound rq h Hq Hs Hp) as Hk. rewrite E in Hk. by apply Hk.
Qed.

(** C5: a device that is moved arrives.  When [addDeviceToZone] returns, in a
    consistent apartment and with any bus, the device says it is in the zone, the
    apartment is still consistent, no other zone but zone 0 lists the device, and
    the zone lists it if it was another zone before; moved to the zone it is in
    already, it is in the list of no zone but zone 0 any more. *)
Theorem moved_device_arrives (h h' : heap W) p z : undisturbed h -> sound (apt h) -> permitted (apt h) (DoMove p z) ->
  addDeviceToZone new_ICalSchedule callback can_write p z h = (Ok tt, h') ->
  forall d v, the_device (apt h) p = d -> z_ZoneID (the_zone (apt h) z) = v ->
  sound (apt h') /\ d_ZoneID (the_device (apt h') p) = v /\ lists (apt h') (d_DSID d) [v] /\
  (d_ZoneID d <> v -> d_DSID d ∈ getDevices (apt h') z) /\
  (d_ZoneID d = v -> v <> 0 -> lists (apt h') (d_DSID d) []).
Proof.
  intros Hq Hs Hp E d v <- <-. destruct (triple_addDeviceToZone _ p _ z _ h Hq (moving_start h p z Hs Hp)) as [_ H]. rewrite E in H.
  cbn [fst snd] in H. destruct H as [[Hm _] [H2 H3]]. split; [by eapply member_sound|]. pose proof Hm as (_ & Hl & _ & _ & Hv).
  split_and!; [exact Hv|exact Hl|exact H2|]. intros E1 Hne. apply H3; [exact E1|]. by rewrite <- E1 in Hne.
Qed.
End Triples.

(** * An example *)

#[local] Instance demo_members : BusMembers :=
  {| BusMember_Unknown := 0; BusMember_ds485d := 1; BusMember_ds485p := 2; BusMember_dSM11 := 17; BusMember_dSM12 := 18;
     BusMember_vDSM := 33; BusMember_vDC := 34; BusMember_dSS := 49; BusMember_dSA := 50; BusMember_dSG := 51 |}.
(** Buses that accept everything and have nothing to tell. *)
#[local] Instance silent_devices : DeviceBus ModelWorld := {|
  bus_present _ := true; bus_setDeviceConfig _ _ _ _ w := (Ok tt, w); bus_getDeviceConfig _ _ _ w := (Ok 0, w);
  bus_getDeviceConfigWord _ _ _ w := (Ok 0, w); bus_setValue _ _ w := (Ok tt, w); bus_setDeviceButtonActiveGroup _ _ w := (Ok tt, w);
  bus_getSceneConfig _ _ w := (Ok 0, w); bus_setSceneConfig _ _ _ w := (Ok tt, w) |}.
#[local] Instance silent_structure : StructureBus ModelWorld := {|
  sb_modify _ w := (Ok tt, w); sb_getInactiveDevicesInZone _ _ w := (Ok [], w); sb_getDevicesInZone _ _ _ w := (Ok [], w);
  sb_getDevicesCountInZone _ _ _ w := (Ok 0, w); sb_deviceGetSpec _ _ w := (Ok demo_device, w); DSUID_BROADCAST := repeat 255 17;
  ERROR_ZONE_ALREADY_EXISTS := 1; ERROR_NO_FURTHER_ZONES := 2; ERROR_ZONE_NOT_EMPTY := 3 |}.
#[local] Instance silent_quiet : QuietBuses model_apartment silent_devices silent_structure.
Proof. by split. Qed.

Definition example_serve (r : request) : SE (heap ModelWorld) unit :=
  serve no_new no_callback writable Ok keep_type false (fun x => x) [] r.
Fixpoint serve_all (rs : list request) (h : heap ModelWorld) : heap ModelWorld :=
  match rs with [] => h | r :: rs => serve_all rs (snd (example_serve r h)) end.
Notation example_lifetime := (lifetime no_new no_callback writable Ok keep_type false (fun x => x) []).

Lemma lifetime_serve r h : example_lifetime h -> permitted (apt h) r -> served r (fst (example_serve r h)) ->
  example_lifetime (snd (example_serve r h)).
Proof. intros Hl Hp Hs. eapply life_request; [exact Hl|exact Hp|apply surjective_pairing|exact Hs]. Qed.

(** A cluster is made and a set is kept in another one, a device is added to a
    group, a room is heated and goes. *)
Definition requests : list request :=
  [DoCreateGroup 0%nat 16 ApplicationType.Lights 0 "reading"; DoPersistAt [demo_device] "favourites" 17;
   DoAutoAssign 2%nat; DoSetHeating 2%nat no_heating_config; DoSetJokerGroup 0%nat 4; DoRemoveZone 2%nat].

Lemma requests_keep_structure_witness : let a := apt (serve_all requests (run_all history created)) in
  consistent a /\ d_groupIds (the_device a 0%nat) = [4].
Proof.
  intros a. split; [|vm_compute; reflexivity].
  apply (requests_keep_structure no_new no_callback writable Ok keep_type false (fun x => x) []
    (fun q => no_callback_discreet (obs q)) (fun q g v w => eq_refl) (serve_all requests (run_all history created))).
  cbn [requests serve_all].
  do 6 (apply lifetime_serve; [|exact I|vm_compute; exact I]).
  apply life_begins. cbn [history run_all]. unfold example_run.
  do 7 (apply reachable_run; [|first [done|vm_compute; discriminate]|vm_compute; exact I]). apply created_reachable.
Defined.

(** Two rooms with the standard groups, of which the first has the device. *)
Definition two_zones : Apartment :=
  let groups (i : nat) := map (fun n => (100 * i + n)%nat) (seq 0 (Z.to_nat GroupIDStandardMax)) in
  let zone i n l := (i, mkZone n "" l (groups i) [0%nat] [] no_heating false 0 None None new_physical no_heating_status no_sensor_status) in
  mkApartment
    {[ 0%nat := mkDevice demo_device "lamp" 3 5 5 [9] [9] 0 0 0 0 [1] present_item false 0 0 0 NullDate [] [] None None None no_info ]}
    (list_to_map [zone 0%nat 0 [demo_device]; zone 1%nat 5 [demo_device]; zone 2%nat 7 []])
    (list_to_map (flat_map (fun '(i, n) => map (fun g => (g, Group_new (Z.of_nat (g - 100 * i)) n)) (groups i)) [(0%nat, 0); (1%nat, 5); (2%nat, 7)]))
    {[ 0%nat := mkDSMeter [9] "meter" present_item false false false [demo_device] None no_meter_info ]}
    [0%nat] [0%nat; 1%nat; 2%nat] [0%nat] [] None None None ∅.
Definition moved : heap ModelWorld :=
  snd (addDeviceToZone no_new no_callback writable 0%nat 2%nat (example_heap [] two_zones)).
Lemma two_zones_sound : well_formed true two_zones.
Proof.
  split; [apply consistent_check_sound; vm_compute; reflexivity|]. split; [left; exists 0%nat; vm_compute; reflexivity|].
  intros z Hz. change (m_Zones two_zones) with [0%nat; 1%nat; 2%nat] in Hz.
  repeat (apply elem_of_cons in Hz as [->|Hz]; [vm_compute; discriminate|]). by apply elem_of_nil in Hz.
Qed.

Lemma moved_device_arrives_witness : demo_device ∈ getDevices (apt moved) 2%nat /\ getDevices (apt moved) 1%nat = [].
Proof.
  split; [|vm_compute; reflexivity].
  assert (undisturbed (example_heap [] two_zones)) as Hq by (intros q; apply example_quiet).
  assert (0%nat ∈ m_Devices (apt (example_heap [] two_zones))) as Hp by by apply list_elem_of_singleton.
  assert (addDeviceToZone no_new no_callback writable 0%nat 2%nat (example_heap [] two_zones) = (Ok tt, moved)) as E by (vm_compute; reflexivity).
  destruct (moved_device_arrives no_new no_callback writable keep_type (fun q => no_callback_discreet (obs q)) (fun q g v w => eq_refl)
    (example_heap [] two_zones) moved 0%nat 2%nat Hq two_zones_sound Hp E
    (the_device (apt (example_heap [] two_zones)) 0%nat) (z_ZoneID (the_zone (apt (example_heap [] two_zones)) 2%nat)) eq_refl eq_refl) as (_ & _ & _ & H & _).
  apply H. vm_compute. discriminate.
Defined.
