(* ===== verification/ZoneConfigFacts.v ===== *)
(** What a zone keeps of its configuration: the controller and the values of its
    modes come back as they were set, and its sensors are of different types
    that the zone may have. *)
From stdpp Require Import base option list strings gmap.
From Stdlib Require Import ZArith Lia Ascii PrimFloat.
From Stdlib Require String.
From S2P Require Import Prelude CxxString Base NumConv FloatConv Ds485types ModelConst DataTypes SensorConversion DateTools.
From S2P Require Import PropertyTree State SceneAccess ApartmentModel DeviceInfo DeviceSet.
From S2P Require Import ApartmentWorld ExampleWorld DeviceConfig StatusFacts ZoneConfig.

Open Scope string_scope.
Open Scope list_scope.
Open Scope Z_scope.

(** * Heating *)

Lemma mapM_then {A B C} (f : A -> res B) (g : B -> res C) (l : list A) (c : A -> C) :
  Forall (fun x => exists y, f x = Ok y /\ g y = Ok (c x)) l ->
  exists l', mapM f l = Ok l' /\ mapM g l' = Ok (c <$> l) /\ length l' = length l.
Proof.
  induction 1 as [|x l (y & Hf & Hg) _ (l' & IH1 & IH2 & IH3)]; [by exists []|].
  exists (y :: l'). cbn [mapM]. rewrite Hf, IH1. cbn. rewrite Hg, IH2. cbn. by rewrite IH3.
Qed.

(** The values a meter can give for the modes in use. *)
Definition mode_values (t : SensorType.t) (opModes : list Z) : Prop :=
  length opModes = 16%nat /\ Forall (fun v => 0 <= v <= max_sensor_value t) (take modes_used opModes).

Section Heating.
Context (pow10 log10 : float -> float).
Hypothesis pow10_2 : pow10 2 = 100%float.
Hypothesis pow10_3 : pow10 3 = 1000%float.

Lemma mapM_wrapped {A} (f : A -> res Z) l vs : Forall (fun v => 0 <= v < 2 ^ 16) vs -> mapM f l = Ok vs ->
  mapM (fun v => x ← f v; Ok (wrapU 16 x)) l = Ok vs.
Proof.
  intros Hv. revert l. induction Hv as [|v vs Hr _ IH]; intros [|x l] H; cbn [mapM] in *; try done.
  - by destruct (f x); [destruct (mapM f l)|].
  - destruct (f x) as [y|]; [|done]. cbn in H. destruct (mapM f l) eqn:E; [|done]. injection H as -> ->.
    rewrite (IH l E). cbn. by rewrite (Z.mod_small v _ Hr : wrapU 16 v = v).
Qed.

Lemma modes_there_and_back t opModes old : is_logarithmic t = false -> mode_values t opModes ->
  exists l, modes_to_values pow10 t opModes old = Ok l /\ drop modes_used l = drop modes_used old /\ length (take modes_used l) = modes_used /\
            mapM (doubleToSensorValue log10 t) (take modes_used l) = Ok (take modes_used opModes) /\
            forall rest, values_to_modes log10 t l rest = Ok (take modes_used opModes ++ rest).
Proof.
  intros Ht [Hl Hv].
  destruct (mapM_then (sensorValueToDouble pow10 t) (doubleToSensorValue log10 t) (take modes_used opModes) id) as (l & H1 & H2 & H3).
  { eapply Forall_impl; [exact Hv|]. intros v Hr. exact (linear_roundtrip pow10 log10 pow10_2 pow10_3 t v Ht Hr). }
  rewrite list_fmap_id in H2. exists (l ++ drop modes_used old). unfold modes_to_values, values_to_modes. rewrite H1.
  assert (length l = modes_used) as Hn. { rewrite H3, length_take, Hl. reflexivity. }
  rewrite drop_app_length', take_app_length' by done. split_and!; try done. intros rest.
  rewrite (mapM_wrapped _ l (take modes_used opModes)); [done| |done].
  eapply Forall_impl; [exact Hv|]. intros v Hr. cbv beta in Hr. assert (max_sensor_value t <= 4095) by by destruct t. change (2 ^ 16) with 65536. lia.
Qed.

Lemma modes_equal_app t l l' vs vs' : mapM (doubleToSensorValue log10 t) l = Ok vs ->
  modes_equal log10 t (l ++ l') (vs ++ vs') = modes_equal log10 t l' vs'.
Proof.
  revert vs. induction l as [|x l IH]; intros vs H; cbn [mapM] in H; [by injection H as <-|].
  destruct (doubleToSensorValue log10 t x) as [v|] eqn:Ev; [|done]. cbn in H. destruct (mapM _ l) as [vs0|] eqn:E; [|done]. injection H as <-.
  cbn [app modes_equal]. rewrite Ev. cbn. rewrite Z.eqb_refl. by apply IH.
Qed.

(** The code of 0.0. *)
Definition zero_code (t : SensorType.t) : Z := match doubleToSensorValue pow10_table t 0 with Ok v => v | Throw _ => 0 end.
Lemma modes_equal_unset t n vs : t = SensorType.RoomTemperatureSetpoint \/ t = SensorType.RoomTemperatureControlVariable -> length vs = n ->
  modes_equal log10 t (repeat 0%float n) vs = Ok (bool_decide (vs = repeat (zero_code t) n)).
Proof.
  intros Ht. revert n. induction vs as [|v vs IH]; intros [|n] Hn; try done. cbn [repeat modes_equal].
  assert (doubleToSensorValue log10 t 0 = Ok (zero_code t)) as -> by (by destruct Ht as [-> | ->]; vm_compute).
  cbn. destruct (Z.eqb_spec (zero_code t) v) as [<-|Hne].
  - rewrite IH by (cbn in Hn; lia). f_equal. apply bool_decide_ext. split; [by intros ->|by injection 1].
  - rewrite bool_decide_eq_false_2; [done|]. by injection 1.
Qed.
End Heating.

(** The members of the specification that are narrower than those of a zone. *)
Definition config_fits (c : ZoneHeatingConfigSpec_t) : Prop :=
  0 <= hc_SourceZoneId c < 2 ^ 16 /\ - 2 ^ 15 <= hc_Offset c < 2 ^ 15 /\ 0 <= hc_ManualValue c < 2 ^ 8.
(** The values behind those in use, which nothing sets. *)
Definition unset_values (p : ZoneHeatingProperties) : Prop :=
  drop modes_used (hp_TeperatureSetpoints p) = repeat 0%float 4 /\ drop modes_used (hp_FixedControlValues p) = repeat 0%float 4.

Definition mode_type (m : HeatingControlMode.t) : option SensorType.t :=
  match m with
  | HeatingControlMode.PID => Some SensorType.RoomTemperatureSetpoint
  | HeatingControlMode.FIXED => Some SensorType.RoomTemperatureControlVariable
  | _ => None
  end.

Lemma config_back p c : config_fits c -> getHeatingConfig (hp_with_config c p) = c.
Proof.
  intros (H1 & H2 & H3). unfold getHeatingConfig. cbn. unfold wrapU, wrapS.
  rewrite (Z.mod_small (hc_SourceZoneId c)), (Z.mod_small (hc_ManualValue c)) by done.
  rewrite (Z.mod_small (hc_Offset c + _)) by (change (2 ^ 16) with 65536; change (2 ^ (16 - 1)) with 32768; change (2 ^ 15) with 32768 in H2; lia).
  rewrite Z.add_simpl_r. by destruct c.
Qed.
Lemma config_equal_self p c : config_equal (hp_with_config c p) c = true.
Proof. unfold config_equal. cbn. by rewrite bool_decide_eq_true_2, !Z.eqb_refl. Qed.

Section Zone.
Context {W : Type} {AW : ApartmentWorld W} (pow10 log10 : float -> float).
Hypothesis pow10_2 : pow10 2 = 100%float.
Hypothesis pow10_3 : pow10 3 = 1000%float.

Definition heating (h : heap W) (z : zptr) : ZoneHeatingProperties := z_HeatingProperties (the_zone (apt h) z).

Lemma the_zone_upd_zone z f a : the_zone (upd_zone z f a) z = f (the_zone a z).
Proof. unfold the_zone at 1. cbn. by rewrite lookup_insert_eq. Qed.
Lemma the_zone_event e a z : the_zone (put_modelMaintenance e a) z = the_zone a z.
Proof. done. Qed.

(** One change of the properties, announced. *)
Lemma run_dirty h : exists h', dirty h = (Ok tt, h') /\ a_zones (apt h') = a_zones (apt h).
Proof. unfold dirty, addModelEvent. rewrite apt_modify_run. eexists. split; [done|]. by rewrite apt_with. Qed.
Lemma run_change z f h : exists h', (_ ← apt_modify (upd_zone z f); dirty) h = (Ok tt, h') /\ the_zone (apt h') z = f (the_zone (apt h) z).
Proof.
  destruct (run_dirty (with_apt (upd_zone z f (apt h)) h)) as (h' & H1 & H2). exists h'.
  rewrite (se_bind_ok _ _ _ tt _ (apt_modify_run _ _)), H1. split; [done|].
  rewrite apt_with in H2. unfold the_zone at 1. rewrite H2. cbn. by rewrite lookup_insert_eq.
Qed.

Lemma run_setHeatingConfig z c h : exists h', setHeatingConfig z c h = (Ok tt, h') /\
  the_zone (apt h') z = z_with_heating (hp_with_config c (heating h z)) true (the_zone (apt h) z).
Proof. exact (run_change z (z_with_heating (hp_with_config c (heating h z)) true) h). Qed.
Lemma run_modes z q h : exists h', (_ ← set_heating z q; dirty) h = (Ok tt, h') /\
  the_zone (apt h') z = z_with_heating q (z_HeatingPropValid (the_zone (apt h) z)) (the_zone (apt h) z).
Proof. exact (run_change z _ h). Qed.

(** What the values of a mode are after they were set. *)
Definition mode_list (t : SensorType.t) (p : ZoneHeatingProperties) : list float :=
  match t with SensorType.RoomTemperatureSetpoint => hp_TeperatureSetpoints p | _ => hp_FixedControlValues p end.
Record modes_set (t : SensorType.t) (opModes : list Z) (p : ZoneHeatingProperties) : Prop := {
  ms_used : mapM (doubleToSensorValue log10 t) (take modes_used (mode_list t p)) = Ok (take modes_used opModes);
  ms_sent rest : values_to_modes log10 t (mode_list t p) rest = Ok (take modes_used opModes ++ rest);
  ms_unset : unset_values p
}.

Lemma run_control z opModes h q : control_modes pow10 opModes (heating h z) = Ok q ->
  exists h', setHeatingControlOperationMode pow10 z opModes h = (Ok tt, h') /\
    the_zone (apt h') z = z_with_heating q (z_HeatingPropValid (the_zone (apt h) z)) (the_zone (apt h) z).
Proof.
  intros Hq. destruct (run_modes z q h) as (h' & Hr & Hz). exists h'. split; [|done]. rewrite <- Hr.
  change (setHeatingControlOperationMode pow10 z opModes h) with
    (match control_modes pow10 opModes (heating h z) with Ok q => (_ ← set_heating z q; dirty) h | Throw e => (Throw e, h) end). by rewrite Hq.
Qed.
Lemma run_fixed z opModes h q : fixed_modes pow10 opModes (heating h z) = Ok q ->
  exists h', setHeatingFixedOperationMode pow10 z opModes h = (Ok tt, h') /\
    the_zone (apt h') z = z_with_heating q (z_HeatingPropValid (the_zone (apt h) z)) (the_zone (apt h) z).
Proof.
  intros Hq. destruct (run_modes z q h) as (h' & Hr & Hz). exists h'. split; [|done]. rewrite <- Hr.
  change (setHeatingFixedOperationMode pow10 z opModes h) with
    (match fixed_modes pow10 opModes (heating h z) with Ok q => (_ ← set_heating z q; dirty) h | Throw e => (Throw e, h) end). by rewrite Hq.
Qed.

Definition with_modes (t : SensorType.t) (l : list float) (p : ZoneHeatingProperties) : ZoneHeatingProperties :=
  match t with
  | SensorType.RoomTemperatureSetpoint => hp_with_values l (hp_FixedControlValues p) p
  | _ => hp_with_values (hp_TeperatureSetpoints p) l p
  end.
Lemma unset_with_modes t l p : drop modes_used l = drop modes_used (mode_list t p) -> unset_values p -> unset_values (with_modes t l p).
Proof. unfold unset_values. intros Hl [H1 H2]. destruct t; split; cbn [with_modes hp_with_values hp_TeperatureSetpoints hp_FixedControlValues mode_list] in *; congruence. Qed.
Lemma with_modes_config t l c p : with_modes t l (hp_with_config c p) = hp_with_config c (with_modes t l p).
Proof. by destruct t. Qed.
Lemma run_setHeatingOperationModes z opModes h t : mode_type (hp_mode (heating h z)) = Some t -> mode_values t opModes -> unset_values (heating h z) ->
  exists h' l, setHeatingOperationModes pow10 z opModes h = (Ok tt, h') /\
    the_zone (apt h') z = z_with_heating (with_modes t l (heating h z)) (z_HeatingPropValid (the_zone (apt h) z)) (the_zone (apt h) z) /\
    modes_set t opModes (heating h' z).
Proof.
  intros Ht Hv Hu. assert (is_logarithmic t = false) as Hlog by (destruct (hp_mode _); try discriminate; by injection Ht as <-).
  destruct (modes_there_and_back pow10 log10 pow10_2 pow10_3 t opModes (mode_list t (heating h z)) Hlog Hv) as (l & H1 & H2 & H3 & H4 & H5).
  change (setHeatingOperationModes pow10 z opModes h) with
    (match hp_mode (heating h z) with
     | HeatingControlMode.PID => setHeatingControlOperationMode pow10 z opModes
     | HeatingControlMode.FIXED => setHeatingFixedOperationMode pow10 z opModes
     | _ => mret tt
     end h).
  destruct (hp_mode (heating h z)); try discriminate; injection Ht as <-; cbn [mode_list] in H1, H2.
  1: destruct (run_control z opModes h (with_modes SensorType.RoomTemperatureSetpoint l (heating h z))) as (h' & Hr & Hz);
    [unfold control_modes; by rewrite H1|].
  2: destruct (run_fixed z opModes h (with_modes SensorType.RoomTemperatureControlVariable l (heating h z))) as (h' & Hr & Hz);
    [unfold fixed_modes; by rewrite H1|].
  all: exists h', l; split; [exact Hr|split; [exact Hz|]]; unfold heating at 1; rewrite Hz; split; [exact H4|exact H5|by apply unset_with_modes].
Qed.

(** C12: what a zone is told of its controller is what it reports.  After
    [setHeatingConfig] and [setHeatingOperationMode] the zone gives the same
    specification and the same values of the modes in use, to which the meter's
    report compares equal exactly if its four unused values are the code of 0.0
    (the sixteen values are compared, but only twelve are ever set). *)
Theorem heating_kept z c opModes h : config_fits c -> unset_values (heating h z) ->
  (forall t, mode_type (hc_mode c) = Some t -> mode_values t opModes) ->
  exists h', (_ ← setHeatingConfig z c; setHeatingOperationModes pow10 z opModes) h = (Ok tt, h') /\
    getHeatingConfig (heating h' z) = c /\ z_HeatingPropValid (the_zone (apt h') z) = true /\ unset_values (heating h' z) /\
    (forall rest, getHeatingOperationModeValues log10 (heating h' z) rest =
       Ok (match mode_type (hc_mode c) with Some _ => take modes_used opModes ++ rest | None => no_operation_modes end)) /\
    isEqual log10 (heating h' z) c opModes =
      Ok (match mode_type (hc_mode c) with Some t => bool_decide (drop modes_used opModes = repeat (zero_code t) 4) | None => true end).
Proof.
  intros Hc Hu Hv. destruct (run_setHeatingConfig z c h) as (h1 & Hr1 & Hz1). rewrite (se_bind_ok _ _ _ tt _ Hr1).
  assert (heating h1 z = hp_with_config c (heating h z)) as Hp1 by (unfold heating at 1; by rewrite Hz1).
  assert (unset_values (heating h1 z)) as Hu1 by by rewrite Hp1.
  assert (hp_mode (heating h1 z) = hc_mode c) as Hm1 by by rewrite Hp1.
  destruct (mode_type (hc_mode c)) as [t|] eqn:Et.
  - rewrite <- Hm1 in Et. destruct (run_setHeatingOperationModes z opModes h1 t Et (Hv t eq_refl) Hu1) as (h' & l & Hr & Hz & [H1 H2 H3]).
    exists h'. split; [exact Hr|]. assert (heating h' z = hp_with_config c (with_modes t l (heating h z))) as Hp by (unfold heating at 1; by rewrite Hz, Hp1, <- with_modes_config).
    split; [rewrite Hp; apply (config_back _ _ Hc)|]. split; [by rewrite Hz, Hz1|]. split; [exact H3|].
    destruct (Hv t eq_refl) as [Hlen _]. rewrite Hm1 in Et.
    assert (t = SensorType.RoomTemperatureSetpoint \/ t = SensorType.RoomTemperatureControlVariable) as Ht by (destruct (hc_mode c); try discriminate; injection Et as <-; auto).
    pose proof (modes_equal_app log10 t _ (repeat 0%float 4) _ (drop modes_used opModes) H1) as He.
    rewrite take_drop, (modes_equal_unset log10 t 4 _ Ht) in He by by rewrite length_drop, Hlen.
    assert (hp_mode (heating h' z) = hc_mode c) as Hm by by by rewrite Hp.
    assert (config_equal (heating h' z) c = true) as Hce by (rewrite Hp; apply config_equal_self).
    assert (mode_list t (heating h' z) = take modes_used (mode_list t (heating h' z)) ++ repeat 0%float 4) as Hsplit.
    { rewrite <- (take_drop modes_used (mode_list t (heating h' z))) at 1. f_equal. destruct H3 as [? ?]. by destruct Ht as [-> | ->]. }
    rewrite <- Hsplit in He. unfold getHeatingOperationModeValues, isEqual, getHeatingControlOperationModeValues, getHeatingFixedOperationModeValues.
    rewrite Hm, Hce. destruct (hc_mode c); try discriminate; injection Et as <-; cbn [mode_list] in *; by rewrite He.
  - exists h1. rewrite <- Hm1 in Et. split_and!; [|rewrite Hp1; apply (config_back _ _ Hc)|by rewrite Hz1|done| |].
    + change (setHeatingOperationModes pow10 z opModes h1) with
        (match hp_mode (heating h1 z) with
         | HeatingControlMode.PID => setHeatingControlOperationMode pow10 z opModes
         | HeatingControlMode.FIXED => setHeatingFixedOperationMode pow10 z opModes
         | _ => mret tt
         end h1). by destruct (hp_mode (heating h1 z)).
    + intros rest. unfold getHeatingOperationModeValues. by destruct (hp_mode (heating h1 z)).
    + unfold isEqual. assert (config_equal (heating h1 z) c = true) as -> by (rewrite Hp1; apply config_equal_self). by destruct (hp_mode (heating h1 z)).
Qed.
End Zone.

(** A floor heating controller, with a report whose unused values are those of 0.0. *)
Definition example_config : ZoneHeatingConfigSpec_t := mkHeatingConfig HeatingControlMode.PID 700 1 240 0 (-500) 4000 0 100 1 15 3 (-40) 175 0.
Definition example_modes : list Z := repeat 2100 12 ++ repeat 1726 4.
Lemma heating_kept_witness : let h := example_heap [] (mkApartment ∅ {[ 1%nat := no_zone ]} ∅ ∅ [] [1%nat] [] [] None None None ∅) in
  exists h', (_ ← setHeatingConfig 1%nat example_config; setHeatingOperationModes pow10_table 1%nat example_modes) h = (Ok tt, h') /\
    isEqual (fun x => x) (heating h' 1%nat) example_config example_modes = Ok true.
Proof.
  intros h. destruct (heating_kept pow10_table (fun x => x) eq_refl eq_refl 1%nat example_config example_modes h) as (h' & H1 & _ & _ & _ & _ & H2).
  - split_and!; by vm_compute.
  - by split.
  - intros t [= <-]. split; [done|]. apply (Forall_forall _ _). intros v Hv.
    assert (take modes_used example_modes = repeat 2100 12) as E by reflexivity. rewrite E in Hv.
    apply list_elem_of_In, repeat_spec in Hv as ->. by vm_compute.
  - exists h'. split; [exact H1|]. rewrite H2. vm_compute. reflexivity.
Defined.

(** * Sensors *)

Definition own_types (z : Zone) : list SensorType.t := if z_ZoneID z =? 0 then outdoor_types else indoor_types.
(** The sensors of a zone are of different types, which the zone may have. *)
Definition sensors_ok (z : Zone) : Prop :=
  NoDup (map ms_sensorType (z_MainSensors z)) /\ Forall (fun ms => isAllowedSensorType z (ms_sensorType ms) = true) (z_MainSensors z).

Lemma allowed_types z t : isAllowedSensorType z t = true <-> t ∈ own_types z.
Proof.
  enough (isAllowedSensorType z t = bool_decide (t ∈ own_types z)) as -> by apply bool_decide_eq_true.
  unfold isAllowedSensorType, own_types. case_match; by destruct t.
Qed.
Lemma own_types_distinct z : NoDup (own_types z).
Proof. unfold own_types. case_match; apply (bool_decide_eq_true _); by vm_compute. Qed.

Lemma assign_sensor_types ms l : map ms_sensorType (assign_sensor ms l) =
  if bool_decide (ms_sensorType ms ∈ map ms_sensorType l) then map ms_sensorType l else map ms_sensorType l ++ [ms_sensorType ms].
Proof.
  induction l as [|x l IH]; [done|]. cbn [assign_sensor map]. destruct (decide (ms_sensorType x = ms_sensorType ms)) as [E|E].
  - by rewrite (bool_decide_eq_true_2 (_ = _)), (bool_decide_eq_true_2 (_ ∈ _)) by (rewrite E; by try left).
  - rewrite (bool_decide_eq_false_2 (_ = _)) by done. cbn [map]. rewrite IH.
    rewrite (bool_decide_ext (_ ∈ _ :: _) (ms_sensorType ms ∈ map ms_sensorType l)); [by case_bool_decide|].
    rewrite elem_of_cons. naive_solver.
Qed.
Lemma assign_sensor_new ms l : ms_sensorType ms ∉ map ms_sensorType l -> assign_sensor ms l = l ++ [ms].
Proof.
  induction l as [|x l IH]; [done|]. cbn [map assign_sensor]. rewrite not_elem_of_cons. intros [Hne Hl].
  rewrite bool_decide_eq_false_2 by congruence. cbn. by rewrite IH.
Qed.
Lemma assigned_iff z t : isSensorAssigned z t = true <-> t ∈ map ms_sensorType (z_MainSensors z).
Proof.
  unfold isSensorAssigned. rewrite List.existsb_exists, list_elem_of_fmap. setoid_rewrite bool_decide_eq_true.
  split; intros (ms & H1 & H2); exists ms; (split; [congruence || by apply list_elem_of_In|congruence || by apply list_elem_of_In]).
Qed.

Lemma sensors_ok_put l z : sensors_ok (z_with_MainSensors l z) <->
  NoDup (map ms_sensorType l) /\ Forall (fun ms => isAllowedSensorType z (ms_sensorType ms) = true) l.
Proof. done. Qed.
Lemma sensors_ok_assign ms z : isAllowedSensorType z (ms_sensorType ms) = true -> sensors_ok z ->
  sensors_ok (z_with_MainSensors (assign_sensor ms (z_MainSensors z)) z).
Proof.
  intros Ha [Hn Hf]. apply sensors_ok_put. split.
  - rewrite assign_sensor_types. case_bool_decide as E; [done|]. apply NoDup_app. split_and!; [done| |apply NoDup_singleton].
    intros t Ht. rewrite list_elem_of_singleton. congruence.
  - clear Hn. induction Hf as [|x l Hx Hl IH]; cbn [assign_sensor]; [by constructor|]. case_bool_decide; by constructor.
Qed.
Lemma sensors_ok_filter p z : sensors_ok z -> sensors_ok (z_with_MainSensors (List.filter p (z_MainSensors z)) z).
Proof.
  intros [Hn Hf]. apply sensors_ok_put. induction (z_MainSensors z) as [|x l IH]; [done|]. cbn [List.filter map] in *.
  apply NoDup_cons in Hn as [Hx Hn]. apply Forall_cons in Hf as [Hfx Hf]. destruct (IH Hn Hf) as [IH1 IH2].
  destruct (p x); [|done]. cbn [map]. split; [|by constructor]. apply NoDup_cons. split; [|done]. intros Hin. apply Hx.
  apply list_elem_of_fmap in Hin as (y & -> & Hy). apply list_elem_of_fmap_2. apply list_elem_of_In, List.filter_In in Hy as [Hy _]. by apply list_elem_of_In.
Qed.

Lemma unassigned_iff z t : t ∈ getUnassignedSensorTypes z <-> t ∈ own_types z /\ isSensorAssigned z t = false.
Proof. unfold getUnassignedSensorTypes. fold (own_types z). by rewrite list_elem_of_In, List.filter_In, negb_true_iff, <- list_elem_of_In. Qed.

Lemma unassigned_distinct z : NoDup (getUnassignedSensorTypes z).
Proof. apply NoDup_ListNoDup, List.NoDup_filter, NoDup_ListNoDup, own_types_distinct. Qed.

(** C13: the sensors of a zone.  Assigning a sensor, from a specification or as
    the sensor of a device, resetting one and removing those whose device has
    left keep the sensors of a zone of different types that the zone may have;
    assigning a device does to the zone what assigning the specification of its
    sensor of that type does, throws and changes nothing when the device has
    none or the zone may not have it, and touches no other zone.  While the
    sensors are of different allowed types, the assigned and the unassigned
    types are together the types of the zone, each once. *)
Theorem zone_sensors_kept {W} {AW : ApartmentWorld W} z : sensors_ok z ->
  (forall ms z', zone_setSensor ms z = Ok z' -> sensors_ok z' /\ isSensorAssigned z' (ms_sensorType ms) = true) /\
  (forall (h : heap W) p dev t, the_zone (get_apt (ext h)) p = z ->
     match (s ← getSensorByType dev t; zone_setSensor (mkMainSensor (d_DSID dev) (s_sensorType s) (s_sensorIndex s)) z) with
     | Throw e => setSensor p dev t h = (Throw e, h)
     | Ok z' => exists h', setSensor p dev t h = (Ok tt, h') /\ sensors_ok z' /\ the_zone (get_apt (ext h')) p = z' /\
         forall p', p' <> p -> the_zone (get_apt (ext h')) p' = the_zone (get_apt (ext h)) p'
     end) /\
  (forall t, sensors_ok (zone_resetSensor t z) /\ (isAllowedSensorType z t = true -> isSensorAssigned (zone_resetSensor t z) t = false)) /\
  sensors_ok (removeInvalidZoneSensors z) /\
  map ms_sensorType (z_MainSensors z) ++ getUnassignedSensorTypes z ≡ₚ own_types z.
Proof.
  intros Hz. split_and!.
  - intros ms z'. unfold zone_setSensor. destruct (isAllowedSensorType _ _) eqn:Ea; [|done]. intros [= <-]. split; [by apply sensors_ok_assign|].
    apply assigned_iff. cbn. rewrite assign_sensor_types. case_bool_decide as E; [done|]. apply elem_of_app. right. by left.
  - intros h p dev t Ez. unfold setSensor, zone_setSensor. destruct (getSensorByType dev t) as [s|e]; [|done]. cbn [mbind res_bind ms_sensorType].
    rewrite (se_bind_ok (se_lift _) _ h s h eq_refl), (se_bind_ok (apt_gets _) _ h z h); [|by unfold apt_gets, se_gets; rewrite Ez].
    cbn [ms_sensorType]. destruct (isAllowedSensorType z (s_sensorType s)) eqn:Ea; [|done]. eexists. split; [done|]. split; [by apply sensors_ok_assign|].
    unfold the_zone in *. cbn. rewrite get_put_apt. cbn. split; [by rewrite lookup_insert_eq, <- Ez|]. intros p' Hne. by rewrite lookup_insert_ne.
  - intros t. unfold zone_resetSensor. destruct (isAllowedSensorType z t); cbn [negb]; [|split; [done|discriminate]].
    split; [by apply sensors_ok_filter|]. intros _. apply not_true_iff_false. rewrite assigned_iff. cbn. intros Ht.
    apply list_elem_of_fmap in Ht as (ms & -> & Hms). apply list_elem_of_In, List.filter_In in Hms as [_ Hms]. by rewrite bool_decide_eq_true_2 in Hms.
  - by apply sensors_ok_filter.
  - destruct Hz as [Hn Hf]. apply NoDup_Permutation.
    + apply NoDup_app. split_and!; [done| |apply unassigned_distinct].
      intros t Ht%assigned_iff [_ H]%unassigned_iff. congruence.
    + apply own_types_distinct.
    + intros t. rewrite elem_of_app, unassigned_iff, <- assigned_iff. destruct (isSensorAssigned z t) eqn:E; [|naive_solver].
      split; [|by left]. intros _. apply assigned_iff, list_elem_of_fmap in E as (ms & -> & Hms). rewrite Forall_forall in Hf. by apply allowed_types, Hf.
Qed.

(** A room with a thermometer of its own. *)
Lemma zone_sensors_kept_witness : let z := z_with_MainSensors [mkMainSensor [7] SensorType.TemperatureIndoors 0] (mkZone 5 "" [] [] [] [] no_heating false 0 None None new_physical no_heating_status no_sensor_status) in
  sensors_ok (zone_resetSensor SensorType.TemperatureIndoors z) /\ map ms_sensorType (z_MainSensors z) ++ getUnassignedSensorTypes z ≡ₚ indoor_types.
Proof.
  intros z. assert (sensors_ok z) as Hz by (split; [apply NoDup_singleton|by repeat constructor]).
  split; [by apply (zone_sensors_kept (W := ModelWorld) z Hz)|]. change indoor_types with (own_types z). by apply (zone_sensors_kept (W := ModelWorld) z Hz).
Defined.
