(* ===== verification/SensorFacts.v ===== *)
(** The automatic assignment of the sensors of a zone. *)
From stdpp Require Import base option list strings gmap.
From Stdlib Require Import ZArith Lia Ascii PrimFloat.
From Stdlib Require String.
From S2P Require Import Prelude CxxString Base NumConv FloatConv Ds485types ModelConst DataTypes SensorConversion DateTools.
From S2P Require Import PropertyTree State SceneAccess ApartmentModel DeviceInfo DeviceSet SplitterFacts.
From S2P Require Import ApartmentWorld ExampleWorld DeviceConfig StatusFacts ZoneConfig ZoneConfigFacts StructureManipulator ManipulatorFacts.

Open Scope string_scope.
Open Scope list_scope.
Open Scope Z_scope.

(** The device of a zone that gets a type: the first one that is present and has
    a sensor of the type. *)
Definition candidate (a : Apartment) (z : zptr) (t : SensorType.t) : option DeviceReference :=
  head (List.filter (fun r => d_isPresent (device_of a r)) (List.filter (fun r => res_ok (getSensorByType (device_of a r) t)) (getDevices a z))).
Definition taken (ms : MainZoneSensor_t) : SensorType.t * DeviceReference := (ms_sensorType ms, ms_DSUID ms).

Lemma first_present_run a s : resolved a s ->
  first_present a s = Ok (r ← head (List.filter (fun r => d_isPresent (device_of a r)) s); tryGetDeviceByDSID a r).
Proof.
  induction 1 as [|r s [p Hp] _ IH]; [done|]. cbn [first_present List.filter]. apply getDevice_Ok in Hp as Hd. rewrite Hd. cbn [mbind res_bind].
  rewrite (device_of_Ok _ _ _ Hd). destruct (d_isPresent _); [|exact IH]. cbn. by rewrite Hp.
Qed.

(** Two apartments with the same devices. *)
Definition same_devices (a b : Apartment) : Prop := a_devices a = a_devices b /\ m_Devices a = m_Devices b.
Lemma same_devices_device a b p : same_devices a b -> the_device a p = the_device b p.
Proof. intros [H _]. unfold the_device. by rewrite H. Qed.
Lemma same_tryGet a b r : same_devices a b -> tryGetDeviceByDSID a r = tryGetDeviceByDSID b r.
Proof. intros [H1 H2]. unfold tryGetDeviceByDSID, the_device. by rewrite H1, H2. Qed.
Lemma same_device_of a b r : same_devices a b -> device_of a r = device_of b r.
Proof. intros H. unfold device_of. rewrite (same_tryGet a b r H). destruct (tryGetDeviceByDSID b r); [|done]. by apply same_devices_device. Qed.
Lemma same_resolved a b s : same_devices a b -> resolved b s -> resolved a s.
Proof. intros H Hb. eapply Forall_impl; [exact Hb|]. intros r. cbv beta. by rewrite (same_tryGet a b r H). Qed.
Lemma z_with_own z : z_with_MainSensors (z_MainSensors z) z = z.
Proof. by destruct z. Qed.
Lemma tryGet_reference a r p : tryGetDeviceByDSID a r = Some p -> d_DSID (the_device a p) = r.
Proof. unfold tryGetDeviceByDSID. intros [_ H]%List.find_some. by apply bool_decide_eq_true in H. Qed.

Section Assign.
Context {W : Type} {AW : ApartmentWorld W} {DB : DeviceBus W} {SB : StructureBus W} {QB : QuietBuses AW DB SB}.

(** What a call ends with: the bus may throw anything. *)
Definition bus_threw (e : exn) : Prop := exists r w, fst (sb_modify r w) = Throw e.

Lemma run_modify_bus r h : match modify_bus r h with
  | (Ok _, h') => apt h' = apt h
  | (Throw e, h') => bus_threw e /\ apt h' = apt h
  end.
Proof.
  unfold modify_bus, bus_call. pose proof (quiet_modify r (ext h)) as H. destruct (sb_modify r (ext h)) as [x w] eqn:E.
  assert (apt (set_ext (fun _ => w) h) = apt h) as Ha by exact H. destruct x; [done|]. split; [|done]. exists r, (ext h). by rewrite E.
Qed.

Definition assigned_sensor (d : Device) (s : DeviceSensor_t) : MainZoneSensor_t := mkMainSensor (d_DSID d) (s_sensorType s) (s_sensorIndex s).

Lemma run_setZoneSensor z t p h s : getSensorByType (the_device (apt h) p) t = Ok s -> isAllowedSensorType (the_zone (apt h) z) t = true ->
  let a' := upd_zone z (fun x => z_with_MainSensors (assign_sensor (assigned_sensor (the_device (apt h) p) s) (z_MainSensors x)) x) (apt h) in
  match setZoneSensor z t p h with
  | (Ok _, h') => apt h' = a'
  | (Throw e, h') => bus_threw e
  end.
Proof.
  intros Hs Ha a'. assert (s_sensorType s = t) as Ht.
  { unfold getSensorByType in Hs. destruct (List.find _ _) eqn:E; [|done]. injection Hs as <-. apply List.find_some in E as [_ E]. by apply bool_decide_eq_true in E. }
  subst t. assert (setSensor z (the_device (apt h) p) (s_sensorType s) h = (Ok tt, with_apt a' h)) as E.
  { unfold setSensor. unfold mbind at 1, se_bind at 1, se_lift. rewrite Hs. unfold mbind at 1, se_bind at 1. cbn [apt_gets se_gets].
    change (the_zone (get_apt (ext h)) z) with (the_zone (apt h) z). cbn [ms_sensorType]. rewrite Ha. apply apt_modify_run. }
  unfold setZoneSensor. rewrite (se_bind_ok (Membership.this_device p) _ h (the_device (apt h) p) h eq_refl), (se_bind_ok _ _ h tt _ E).
  rewrite (se_bind_ok (Membership.this_zone z) _ (with_apt a' h) _ _ eq_refl).
  match goal with |- context [modify_bus ?r ?h1] => pose proof (run_modify_bus r h1) as Hm; destruct (modify_bus r h1) as [[x|e] h'] end.
  - by rewrite Hm, apt_with.
  - apply Hm.
Qed.


(** The loop over the types: [l] are the sensors assigned so far. *)
Definition assigned_so_far (a0 : Apartment) (z : zptr) (l : list MainZoneSensor_t) (a : Apartment) : Prop :=
  same_devices a a0 /\ the_zone a z = z_with_MainSensors (z_MainSensors (the_zone a0 z) ++ l) (the_zone a0 z) /\ sensors_ok (the_zone a z).
Definition wanted (a0 : Apartment) (z : zptr) (ts : list SensorType.t) : list (SensorType.t * DeviceReference) :=
  omap (fun t => pair t <$> candidate a0 z t) ts.

Lemma run_assign_type a0 z t h l : resolved a0 (getDevices a0 z) -> NoDup (getDevices a0 z) -> assigned_so_far a0 z l (apt h) ->
  isAllowedSensorType (the_zone a0 z) t = true -> t ∉ map ms_sensorType (z_MainSensors (the_zone a0 z) ++ l) ->
  match assign_type z (getDevices a0 z) t h with
  | (Ok _, h') => exists l', assigned_so_far a0 z (l ++ l') (apt h') /\ map taken l' = wanted a0 z [t]
  | (Throw e, h') => bus_threw e
  end.
Proof.
  intros Hr Hn (Hd & Hz & Hk) Ha Ht. unfold assign_type, apt_query. unfold mbind at 1, se_bind at 1. change (get_apt (ext h)) with (apt h).
  unfold getBySensorType. rewrite getSubset_run by (try done; by eapply same_resolved).
  set (s := List.filter _ (getDevices a0 z)).
  assert (s = List.filter (fun r => res_ok (getSensorByType (device_of a0 r) t)) (getDevices a0 z)) as Es.
  { apply List.filter_ext. intros r. by rewrite (same_device_of (apt h) a0). }
  cbn [mbind res_bind]. rewrite first_present_run.
  2:{ apply (same_resolved _ a0); [done|]. rewrite Es. apply Forall_forall. intros r Hin. apply filter_In in Hin as [Hin _].
      unfold resolved in Hr. rewrite Forall_forall in Hr. by apply Hr. }
  assert (head (List.filter (fun r => d_isPresent (device_of (apt h) r)) s) = candidate a0 z t) as ->.
  { unfold candidate. rewrite <- Es. f_equal. apply List.filter_ext. intros r. by rewrite (same_device_of (apt h) a0). }
  cbn [mret res_ret]. unfold wanted. cbn [omap list_omap]. destruct (candidate a0 z t) as [r|] eqn:Ec; cbn [mbind option_bind fmap option_fmap option_map].
  2:{ exists []. rewrite app_nil_r. split; [by split_and!|done]. }
  assert (r ∈ getDevices a0 z /\ res_ok (getSensorByType (device_of a0 r) t) = true) as [Hin Hok].
  { unfold candidate in Ec. apply head_Some_elem_of in Ec. apply filter_In in Ec as [Ec _]. by apply filter_In in Ec. }
  unfold resolved in Hr. rewrite Forall_forall in Hr. destruct (Hr r Hin) as [p Hp]. rewrite (same_tryGet (apt h) a0 r Hd), Hp.
  assert (the_device (apt h) p = device_of a0 r) as Hdev by (rewrite (same_devices_device _ _ _ Hd); unfold device_of; by rewrite Hp).
  assert (d_DSID (device_of a0 r) = r) as Hid by (unfold device_of; rewrite Hp; by apply tryGet_reference).
  destruct (getSensorByType (device_of a0 r) t) as [sensor|] eqn:Es1; [|done]. clear Hok.
  assert (s_sensorType sensor = t) as Hst.
  { unfold getSensorByType in Es1. destruct (List.find _ _) eqn:E; [|done]. injection Es1 as <-. apply List.find_some in E as [_ E]. by apply bool_decide_eq_true in E. }
  pose proof (run_setZoneSensor z t p h sensor) as H. rewrite Hdev in H. rewrite Hz in H.
  specialize (H Es1 Ha). destruct (setZoneSensor z t p h) as [[x|e] h']; [|done].
  exists [assigned_sensor (device_of a0 r) sensor]. split; [|unfold taken; cbn; by rewrite Hid, Hst].
  split; [by rewrite H|]. rewrite H, the_zone_upd_zone. split.
  - rewrite Hz. cbn [z_MainSensors z_with_MainSensors]. rewrite assign_sensor_new by (cbn; by rewrite Hst). by rewrite app_assoc.
  - apply sensors_ok_assign; [|done]. rewrite Hz. cbn. rewrite Hst. exact Ha.
Qed.

Lemma run_assign_types a0 z ts h l : resolved a0 (getDevices a0 z) -> NoDup (getDevices a0 z) -> assigned_so_far a0 z l (apt h) -> NoDup ts ->
  (forall t, t ∈ ts -> isAllowedSensorType (the_zone a0 z) t = true /\ t ∉ map ms_sensorType (z_MainSensors (the_zone a0 z) ++ l)) ->
  match se_iter (assign_type z (getDevices a0 z)) ts h with
  | (Ok _, h') => exists l', assigned_so_far a0 z (l ++ l') (apt h') /\ map taken l' = wanted a0 z ts
  | (Throw e, h') => bus_threw e
  end.
Proof.
  intros Hr Hn. revert h l. induction ts as [|t ts IH]; intros h l Hl Hts Hall; [exists []; by rewrite app_nil_r|].
  cbn [se_iter]. rewrite se_bind_run. apply NoDup_cons in Hts as [Hnew Hts]. destruct (Hall t) as [Ha Ht]; [by left|].
  pose proof (run_assign_type a0 z t h l Hr Hn Hl Ha Ht) as H1. destruct (assign_type _ _ _ h) as [[x|e] h1]; [|done].
  destruct H1 as (l1 & Hl1 & Hw1). specialize (IH h1 (l ++ l1) Hl1 Hts).
  assert (forall t', t' ∈ map ms_sensorType l1 -> t' = t) as Ht1.
  { intros t' Hin. assert (map ms_sensorType l1 = map fst (map taken l1)) as E by by rewrite map_map. rewrite E, Hw1 in Hin. unfold wanted in Hin.
    cbn in Hin. destruct (candidate a0 z t); cbn in Hin; set_solver. }
  destruct (se_iter _ ts h1) as [[y|e] h2]; [|apply IH]; [destruct IH as (l2 & Hl2 & Hw2)|..].
  2: exists (l1 ++ l2); rewrite app_assoc; split; [done|]; rewrite map_app, Hw1, Hw2; unfold wanted; cbn; by destruct (candidate a0 z t).
  all: intros t' Hin; destruct (Hall t') as [Ha' Ht']; [by right|]; split; [done|];
    rewrite app_assoc, map_app, elem_of_app; intros [?|?%Ht1]; [done|congruence].
Qed.

(** C11: the sensors that a zone assigns itself.  In a consistent apartment,
    [autoAssignZoneSensors] assigns each type that has no sensor to the first
    device of the zone that is present and has a sensor of the type, in the order
    of the types, and changes no other assignment and no device; the sensors of
    the zone stay of different types that it may have.  It throws nothing but what
    the bus throws. *)
Theorem sensors_assigned h z : consistent (apt h) -> z ∈ m_Zones (apt h) -> sensors_ok (the_zone (apt h) z) ->
  let a := apt h in let zone := the_zone a z in
  match autoAssignZoneSensors z h with
  | (Ok _, h') => exists l, z_MainSensors (the_zone (apt h') z) = z_MainSensors zone ++ l /\ same_devices (apt h') a /\
      map taken l = omap (fun t => pair t <$> candidate a z t) (getUnassignedSensorTypes zone) /\ sensors_ok (the_zone (apt h') z)
  | (Throw e, _) => bus_threw e
  end.
Proof.
  intros Hc Hz Hs a zone. unfold autoAssignZoneSensors. rewrite (se_bind_ok (Membership.this_zone z) _ h zone h eq_refl).
  destruct (isEmpty (z_Devices zone)) eqn:Ee.
  - exists []. rewrite app_nil_r. split_and!; [done..| |done]. symmetry. assert (getDevices a z = []) as He by by destruct (z_Devices zone) eqn:E; [exact E|].
    unfold candidate. rewrite He. cbn. by induction (getUnassignedSensorTypes zone).
  - assert (NoDup (getUnassignedSensorTypes zone)) as Hn by apply unassigned_distinct.
    assert (assigned_so_far a z [] (apt h)) as Hl by (unfold assigned_so_far; by rewrite app_nil_r, z_with_own).
    assert (forall t, t ∈ getUnassignedSensorTypes zone -> isAllowedSensorType (the_zone a z) t = true /\
      t ∉ map ms_sensorType (z_MainSensors (the_zone a z) ++ [])) as Hall.
    { intros t [Ht1 Ht2]%unassigned_iff. split; [by apply allowed_types|]. rewrite app_nil_r, <- assigned_iff. unfold zone in Ht2. by rewrite Ht2. }
    pose proof (run_assign_types a z _ h [] (members_resolved a Hc z Hz) (members_distinct a Hc z Hz) Hl Hn Hall) as H.
    change (z_Devices zone) with (getDevices a z). destruct (se_iter _ _ h) as [[x|e] h']; [|exact H].
    destruct H as (l & (H1 & H2 & H3) & H4). exists l. split_and!; [by rewrite H2|done..].
Qed.
End Assign.

(** A room with two thermometers, of which the first is not there. *)
Definition thermometer (id : Z) (present : bool) : Device :=
  mkDevice [id] "" 1 5 5 [9] [9] 0 0 0 0 [1] (if present then present_item else new_physical) false 0 0 0 NullDate
    [mkSensor 2 SensorType.TemperatureIndoors] [] None None None no_info.
Definition thermometers : Apartment :=
  let zone n l := mkZone n "" l [] [] [] no_heating false 0 None None new_physical no_heating_status no_sensor_status in
  mkApartment {[ 0%nat := thermometer 1 false; 1%nat := thermometer 2 true ]} {[ 0%nat := zone 0 [[1]; [2]]; 1%nat := zone 5 [[1]; [2]] ]} ∅ ∅
    [0%nat; 1%nat] [0%nat; 1%nat] [] [] None None None ∅.
#[local] Existing Instance silent_devices.
#[local] Existing Instance silent_structure.
#[local] Existing Instance silent_quiet.

Lemma sensors_assigned_witness : exists l, z_MainSensors (the_zone (apt (snd (autoAssignZoneSensors 1%nat (example_heap [] thermometers)))) 1%nat) = l /\
  map taken l = [(SensorType.TemperatureIndoors, [2])].
Proof.
  pose proof (sensors_assigned (example_heap [] thermometers) 1%nat) as H.
  assert (consistent (apt (example_heap [] thermometers))) as Hc by (apply consistent_check_sound; vm_compute; reflexivity).
  assert (1%nat ∈ m_Zones (apt (example_heap [] thermometers))) as Hz by (apply (bool_decide_unpack _); vm_compute; exact I).
  assert (sensors_ok (the_zone (apt (example_heap [] thermometers)) 1%nat)) as Hs by (split; constructor).
  specialize (H Hc Hz Hs). cbv zeta in H.
  assert (fst (autoAssignZoneSensors 1%nat (example_heap [] thermometers)) = Ok tt) as E by (vm_compute; reflexivity).
  destruct (autoAssignZoneSensors 1%nat (example_heap [] thermometers)) as [r h']. cbn [fst snd] in *. subst r.
  destruct H as (l & H1 & _ & H2 & _). exists l. split; [exact H1|]. rewrite H2. vm_compute. reflexivity.
Defined.
