(* ===== verification/Security.v ===== *)
(** Users, logins and application tokens ([security/]), on the node of the
    property tree that holds them.  The hash functions are arguments. *)
From stdpp Require Import base option list strings gmap.
From Stdlib Require Import ZArith Lia Ascii PrimFloat.
From Stdlib Require String.
From S2P Require Import Prelude CxxString Base NumConv Encoding ModelConst Calendar DateTools Event PropertyTree PropertyTreeFacts EventQueue State.

Open Scope string_scope.
Open Scope list_scope.
Open Scope Z_scope.

(** [class User] *)
Record User := mkUser { u_UserNode : nid; u_RoleNode : nid; u_Token : string }.
Definition u_setToken (_token : string) (u : User) : User := mkUser (u_UserNode u) (u_RoleNode u) _token.

(** [class Security]; [m_LoggedInUser] is that of the thread that runs.  The
    files are those the listener writes. *)
Record SecurityState := mkSecurity {
  m_LoggedInUser : option User; m_pRootNode : nid; m_pSystemUser : option User; m_FileName : string;
  m_pTreeListener : option lid; security_files : gmap string string
}.
Class SecurityWorld (W : Type) := {
  get_sec : W -> SecurityState;
  put_sec : SecurityState -> W -> W;
  get_put_sec : forall s w, get_sec (put_sec s w) = s
}.

Definition s_with_user (u : option User) (s : SecurityState) : SecurityState :=
  mkSecurity u (m_pRootNode s) (m_pSystemUser s) (m_FileName s) (m_pTreeListener s) (security_files s).
Definition s_with_listener (l : option lid) (s : SecurityState) : SecurityState :=
  mkSecurity (m_LoggedInUser s) (m_pRootNode s) (m_pSystemUser s) (m_FileName s) l (security_files s).
Definition s_with_files (f : gmap string string -> gmap string string) (s : SecurityState) : SecurityState :=
  mkSecurity (m_LoggedInUser s) (m_pRootNode s) (m_pSystemUser s) (m_FileName s) (m_pTreeListener s) (f (security_files s)).
Definition setSystemUser (u : option User) (s : SecurityState) : SecurityState :=
  mkSecurity (m_LoggedInUser s) (m_pRootNode s) u (m_FileName s) (m_pTreeListener s) (security_files s).
Definition setFileName (name : string) (s : SecurityState) : SecurityState :=
  mkSecurity (m_LoggedInUser s) (m_pRootNode s) (m_pSystemUser s) name (m_pTreeListener s) (security_files s).

(** * Rights *)

(** [class Privilege] and [class NodePrivileges]; [aliasTarget] is
    [getAliasTarget] of a node. *)
Record Privilege := mkPrivilege { p_RoleNode : option nid; p_Rights : Z }.
Definition new_Privilege (_pRoleNode : option nid) : Privilege := mkPrivilege _pRoleNode 0.
Definition hasRight (_right : Z) (p : Privilege) : bool := Z.land (p_Rights p) _right =? _right.
Definition addRight (_right : Z) (p : Privilege) : Privilege := mkPrivilege (p_RoleNode p) (Z.lor (p_Rights p) _right).
Definition removeRight (_right : Z) (p : Privilege) : Privilege := mkPrivilege (p_RoleNode p) (Z.land (p_Rights p) (Z.lnot _right)).
Definition isAssociatedWith (aliasTarget : nid -> option nid) (_pRoleNode : option nid) (p : Privilege) : bool :=
  match _pRoleNode ≫= aliasTarget with
  | None => bool_decide (p_RoleNode p = _pRoleNode)
  | Some t => bool_decide (p_RoleNode p = Some t)
  end.
(** The last privilege of the role. *)
Definition getPrivilegeForRole (aliasTarget : nid -> option nid) (_pRoleNode : option nid) (l : list Privilege) : option Privilege :=
  fold_left (fun result p => if isAssociatedWith aliasTarget _pRoleNode p then Some p else result) l None.

(** * Passwords *)

(** [std::ifstream::getline] with room for [n] characters: the line, what
    follows and whether the stream is still good. *)
Fixpoint getline (n : nat) (s : string) : string * string * bool :=
  match s with
  | EmptyString => ("", "", false)
  | String c s' =>
    if Ascii.eqb c "010" then ("", s', true)
    else match n with
         | O => ("", s, false)
         | S n => let '(line, rest, good) := getline n s' in (String c line, rest, good)
         end
  end.
Fixpoint find_hash (fuel : nat) (_userName : string) (s : string) : string :=
  match fuel with
  | O => ""
  | S fuel =>
    let '(line, rest, good) := getline 254 s in
    if beginsWith (c_str line) (_userName +:+ ":") then c_str line
    else if good : bool then find_hash fuel _userName rest else ""
  end.
(** [None] is a file that cannot be opened; every good line has a character, its
    end. *)
Definition readHashFromFile (file : option string) (_userName : string) : string :=
  match file with Some s => find_hash (S (String.length s)) _userName s | None => "" end.

Section Security.
Context {ical W : Type} {Sched : Schedule ical} {EW : EventWorld ical W} {SW : StateWorld W} {ScW : SecurityWorld W} {LC : Libc}.
Context (new_ICalSchedule : string -> string -> DateTime -> res ical).
Context (callback : notification -> lid -> nid -> nid -> heap W -> heap W).
(** The digests of SHA-256 and MD5 and the printed form of floats. *)
Context (SHA256 MD5 : string -> list Z) (doubleToString : float -> string).
Context (valid_utf8 : string -> bool).
(** Whether a file can be written and what is written is valid XML. *)
Context (can_save : string -> string -> bool).
Local Notation "'M' A" := (SE (heap W) A) (at level 10, A at next level).

Definition sec_gets {A} (f : SecurityState -> A) : M A := se_gets (fun h => f (get_sec (ext h))).
Definition sec_modify (f : SecurityState -> SecurityState) : M unit :=
  se_modify (set_ext (fun w => put_sec (f (get_sec w)) w)).
Definition the_root : M nid := sec_gets m_pRootNode.
(** A pointer that is not tested for NULL. *)
Definition node_at (n : option nid) : M nid :=
  match n with Some n => mret n | None => se_throw (UndefinedBehaviour "call on NULL") end.
Definition assert_node (n : option nid) : M nid :=
  match n with Some n => mret n | None => se_throw (AssertionFailure "m_pRoleNode != NULL") end.
Definition property_of (n : nid) (name : string) : M string :=
  p ← getProperty n name; p ← node_at p; getStringValue p.

(** ** Users *)

Definition new_User (_userNode : nid) : M User :=
  r ← getProperty _userNode "role"; r ← assert_node r; mret (mkUser _userNode r "").
Definition getName (u : User) : M string := getDisplayName (u_UserNode u).

(** A string node with a value that is archived. *)
Definition archived (n : nid) (v : string) : M unit := _ ← setStringValue callback n v; setFlag callback n Archive true.

(** The salt is printed in hexadecimal and without its "0x"; [random] is what
    [rand] gave. *)
Definition setPassword (random : Z) (u : User) (_password : string) : M unit :=
  let salt := String.substring 2 (String.length (intToString random true)) (intToString random true) in
  name ← getDisplayName (u_UserNode u);
  saltNode ← createProperty callback (u_UserNode u) "salt";
  userNode ← createProperty callback (u_UserNode u) "password";
  _ ← setStringValue callback saltNode salt;
  _ ← setStringValue callback userNode (hexEncodeByteArray (SHA256 (salt +:+ name +:+ _password)));
  _ ← setFlag callback saltNode Archive true;
  setFlag callback userNode Archive true.

(** [BuiltinPasswordChecker] and [HTDigestPasswordChecker] *)
Definition builtin_checkPassword (_pUser : nid) (_password : string) : M bool :=
  salt ← property_of _pUser "salt";
  name ← getDisplayName _pUser;
  stored ← property_of _pUser "password";
  mret (String.eqb (hexEncodeByteArray (SHA256 (salt +:+ name +:+ _password))) stored).
Definition htdigest_checkPassword (file : option string) (_pUser : nid) (_password : string) : M bool :=
  name ← getDisplayName _pUser;
  match splitString ":" false (readHashFromFile file name) with
  | [_; realm; hash] => mret (String.eqb (hexEncodeByteArray (MD5 (name +:+ ":" +:+ realm +:+ ":" +:+ _password))) hash)
  | _ => mret false
  end.

(** ** Logging in *)

Definition login (u : option User) : M unit := sec_modify (s_with_user u).
Definition signOff : M unit := login None.
Definition signIn (_pUser : User) : M bool := _ ← login (Some _pUser); mret true.
Definition loginAsSystemUser : M unit :=
  u ← sec_gets m_pSystemUser; match u with Some u => login (Some u) | None => mret tt end.

Definition user_node (_user : string) : M (option nid) := r ← the_root; getProperty r ("users/" +:+ _user).

Definition authenticate (checkPassword : nid -> string -> M bool) (_user _password : string) : M bool :=
  _ ← signOff;
  pUserNode ← user_node _user;
  match pUserNode with
  | None => mret false
  | Some n =>
    ok ← checkPassword n _password;
    if ok : bool then u ← new_User n; _ ← login (Some u); mret true else mret false
  end.
(** The argument is the user of the session, if there are both. *)
Definition authenticate_session (_session : option (option User)) : M bool :=
  _ ← signOff;
  match _session with Some (Some u) => _ ← login (Some u); mret true | _ => mret false end.
Definition impersonate (_user : string) : M bool :=
  _ ← signOff;
  pUserNode ← user_node _user;
  match pUserNode with None => mret false | Some n => u ← new_User n; _ ← login (Some u); mret true end.

Definition enabled_token (_applicationToken : string) : M (option nid) :=
  r ← the_root; getProperty r ("applicationTokens/enabled/" +:+ _applicationToken).
Definition authenticateApplication (_applicationToken : string) : M bool :=
  _ ← signOff;
  pTokenNode ← enabled_token _applicationToken;
  match pTokenNode with
  | None => mret false
  | Some t =>
    pUserNameNode ← getProperty t "user";
    match pUserNameNode with
    | None => mret false
    | Some n =>
      name ← getStringValue n;
      pUserNode ← user_node name;
      match pUserNode with
      | None => mret false
      | Some n => u ← new_User n; _ ← login (Some (u_setToken _applicationToken u)); mret true
      end
    end
  end.
Definition getApplicationName (_applicationToken : string) : M string :=
  pTokenNode ← enabled_token _applicationToken;
  match pTokenNode with
  | None => mret ""
  | Some t => n ← getProperty t "applicationName"; match n with Some n => getStringValue n | None => mret "" end
  end.

Definition add_role (name : string) (userNode : nid) : M unit :=
  r ← the_root;
  userRole ← createProperty callback r ("roles/" +:+ name);
  role ← createProperty callback userNode "role";
  alias role (Some userRole).
Definition addUserRole (userNode : nid) : M unit := add_role "owner" userNode.
Definition addSystemRole (userNode : nid) : M unit := add_role "system" userNode.

(** ** The file *)

(** [saveToXML]: written aside, and moved in place if it is valid. *)
Definition writeXML : M unit :=
  r ← the_root;
  path ← sec_gets m_FileName;
  xml ← saveAsXML valid_utf8 doubleToString r 1 Archive;
  let text := "<?xml version=" +:+ quoted "1.0" +:+ " encoding=" +:+ quoted "utf-8" +:+ "?>" +:+ newline +:+
              "<properties version=" +:+ quoted "1" +:+ ">" +:+ newline +:+ xml +:+ "</properties>" +:+ newline in
  if can_save path text then sec_modify (s_with_files <[path := text]>) else mret tt.
(** [SecurityTreeListener::propertyChanged] *)
Definition security_propertyChanged (_changedNode : nid) : M unit :=
  a ← hasFlag _changedNode Archive; if a : bool then writeXML else mret tt.
Definition startListeningForChanges (l : lid) : M unit :=
  name ← sec_gets m_FileName;
  if String.eqb name "" then se_throw (AssertionFailure "!m_FileName.empty()")
  else r ← the_root; _ ← addListener r l; sec_modify (s_with_listener (Some l)).

(** ** Application tokens *)

Definition createApplicationToken (_applicationName _token : string) : M unit :=
  r ← the_root;
  pPendingTokens ← createProperty callback r "applicationTokens/pending";
  known ← getProperty pPendingTokens _token;
  match known with
  | Some _ => mret tt
  | None =>
    pToken ← createProperty callback pPendingTokens _token;
    n ← createProperty callback pToken "token";
    _ ← setStringValue callback n _token;
    n ← createProperty callback pToken "applicationName";
    setStringValue callback n _applicationName
  end.

Definition enableToken (_token : string) (_pUser : option User) : M bool :=
  r ← the_root;
  pTokensNode ← createProperty callback r "applicationTokens";
  pPendingTokens ← createProperty callback pTokensNode "pending";
  pEnabledTokens ← createProperty callback pTokensNode "enabled";
  pToken ← getProperty pPendingTokens _token;
  match pToken with
  | None => mret false
  | Some t =>
    _ ← setFlag callback pTokensNode Archive true;
    pRealToken ← createProperty callback pEnabledTokens _token;
    _ ← setFlag callback pRealToken Archive true;
    pTokenNode ← createProperty callback pRealToken "token";
    _ ← archived pTokenNode _token;
    pApplicationNameNode ← createProperty callback pRealToken "applicationName";
    name ← property_of t "applicationName";
    _ ← archived pApplicationNameNode name;
    pUserNode ← createProperty callback pRealToken "user";
    _ ← setFlag callback pUserNode Archive true;
    name ← match _pUser with Some u => getName u | None => mret "dssadmin" end;
    _ ← setStringValue callback pUserNode name;
    _ ← removeChild callback pPendingTokens t;
    mret true
  end.

Definition revokeToken (_token : string) : M bool :=
  r ← the_root;
  pTokens ← createProperty callback r "applicationTokens/enabled";
  pToken ← enabled_token _token;
  match pToken with
  | None => mret false
  | Some t =>
    _ ← removeChild callback pTokens t;
    l ← sec_gets m_pTreeListener;
    _ ← match l with Some _ => writeXML | None => mret tt end;
    now ← gets clock;
    inst ← st_gets hasInstance;
    if inst : bool
    then _ ← push_new new_ICalSchedule callback (ev_set_all [("ApplicationToken", _token)] (Event_name now "ApplicationTokenDeleted")); mret true
    else se_throw (UndefinedBehaviour "call on NULL")
  end.
End Security.
