(* ===== verification/SecurityFacts.v ===== *)
(** Who is logged in ([security/security.cpp]): after each way of logging in,
    somebody is logged in exactly when it said so, and it is the right one. *)
From stdpp Require Import base option list strings gmap.
From Stdlib Require Import ZArith Lia Ascii.
From Stdlib Require String.
From S2P Require Import Prelude CxxString Base NumConv Encoding DateTools Event PropertyTree PropertyReader EventQueue EventQueueFacts State Security.

Open Scope string_scope.
Open Scope list_scope.
Open Scope Z_scope.

(** * Reading *)

Section Reading.
Context {W : Type} {ScW : SecurityWorld W}.
#[local] Hint Resolve readonly_getProperty readonly_getTypedValue readonly_target : readonly.

Lemma readonly_same {A} (m : SE (heap W) A) h r h' : readonly m -> m h = (r, h') -> h' = h.
Proof. intros H E. specialize (H h). by rewrite E in H. Qed.
Lemma readonly_count_name cs name : readonly (Ext := W) (count_name cs name).
Proof. induction cs; cbn [count_name]; solve_readonly. Qed.
#[local] Hint Resolve readonly_count_name : readonly.
Lemma readonly_getDisplayName n : readonly (Ext := W) (getDisplayName n).
Proof. unfold getDisplayName, count. solve_readonly. Qed.
#[local] Hint Resolve readonly_getDisplayName : readonly.
Lemma readonly_property_of n name : readonly (Ext := W) (property_of n name).
Proof. unfold property_of, node_at, getStringValue. solve_readonly. Qed.
#[local] Hint Resolve readonly_property_of : readonly.
Lemma readonly_new_User n : readonly (new_User (W := W) n).
Proof. unfold new_User, assert_node. solve_readonly. Qed.
Lemma readonly_user_node name : readonly (user_node (W := W) name).
Proof. unfold user_node, the_root, sec_gets. solve_readonly. Qed.
Lemma readonly_enabled_token t : readonly (enabled_token (W := W) t).
Proof. unfold enabled_token, the_root, sec_gets. solve_readonly. Qed.
Lemma readonly_builtin SHA256 n p : readonly (Ext := W) (builtin_checkPassword SHA256 n p).
Proof. unfold builtin_checkPassword. solve_readonly. Qed.
Lemma readonly_htdigest MD5 file n p : readonly (Ext := W) (htdigest_checkPassword MD5 file n p).
Proof. unfold htdigest_checkPassword. solve_readonly. Qed.
End Reading.

(** * Logging in *)

Section Login.
Context {W : Type} {ScW : SecurityWorld W}.
Implicit Types h : heap W.

Definition logged_in h : option User := m_LoggedInUser (get_sec (ext h)).
(** Only who is logged in may differ. *)
Definition only_login h h' : Prop := nodes h' = nodes h /\ get_sec (ext h') = s_with_user (logged_in h') (get_sec (ext h)).

Definition signed_off h : heap W := snd (signOff h).
Definition signed_in (u : User) h : heap W := snd (login (Some u) h).

(** A way of logging in does this: with [accepts h u] the user [u] is logged in
    and the answer is true; otherwise nobody is. *)
Definition logs_in (op : SE (heap W) bool) (accepts : heap W -> User -> Prop) h : Prop :=
  let h0 := signed_off h in
  let '(r, h') := op h in
  only_login h h' /\
  match logged_in h' with
  | Some u => r = Ok true /\ accepts h0 u
  | None => r <> Ok true /\ forall u, ~ accepts h0 u
  end.

Lemma signed_off_user h : logged_in (signed_off h) = None /\ only_login h (signed_off h).
Proof. unfold only_login, logged_in, signed_off, signOff, login, sec_modify, se_modify. cbn. by rewrite !get_put_sec. Qed.
Lemma signed_in_user u h : logged_in (signed_in u (signed_off h)) = Some u /\ only_login h (signed_in u (signed_off h)).
Proof. unfold only_login, logged_in, signed_in, signed_off, signOff, login, sec_modify, se_modify. cbn. by rewrite !get_put_sec. Qed.

(** What follows the logging off: reading, and a login at the end or not. *)
Definition finishes (op : SE (heap W) bool) (accepts : User -> Prop) h0 : Prop :=
  match fst (op h0) with
  | Ok true => exists u, snd (op h0) = signed_in u h0 /\ accepts u
  | _ => snd (op h0) = h0 /\ forall u, ~ accepts u
  end.
Lemma finishes_false accepts h0 : (forall u, ~ accepts u) -> finishes (mret false) accepts h0.
Proof. intros H. by split. Qed.
Lemma finishes_login u (accepts : User -> Prop) h0 : accepts u -> finishes (_ ← login (Some u); mret true) accepts h0.
Proof. intros H. by exists u. Qed.
Lemma finishes_read {A} (m : SE (heap W) A) f accepts h0 : readonly m -> (forall a, fst (m h0) = Ok a -> finishes (f a) accepts h0) ->
  (forall e u, fst (m h0) = Throw e -> ~ accepts u) -> finishes (m ≫= f) accepts h0.
Proof.
  intros Hm Hf Ht. specialize (Hm h0). unfold finishes. rewrite se_bind_run. destruct (m h0) as [[a|e] h1]; cbn [fst snd] in *; subst h1.
  - by apply Hf.
  - split; [done|]. intros u. by apply (Ht e).
Qed.
Lemma logs_in_finishes op op' (accepts : heap W -> User -> Prop) h : op h = op' (signed_off h) ->
  finishes op' (accepts (signed_off h)) (signed_off h) -> logs_in op accepts h.
Proof.
  intros Ho Hf. unfold logs_in. rewrite Ho. unfold finishes in Hf. destruct (op' (signed_off h)) as [r h']. cbn [fst snd] in Hf.
  destruct (signed_off_user h) as [E1 H1]. destruct r as [[]|e].
  - destruct Hf as (u & -> & Hu). destruct (signed_in_user u h) as [E2 H2]. rewrite E2. by split.
  - destruct Hf as [-> Hu]. rewrite E1. by split.
  - destruct Hf as [-> Hu]. rewrite E1. by split.
Qed.
Lemma readonly_Ok {A B} (m : SE (heap W) A) (f : A -> SE (heap W) B) h x : readonly m ->
  fst ((m ≫= f) h) = Ok x <-> exists a, fst (m h) = Ok a /\ fst (f a h) = Ok x.
Proof.
  intros Hm. specialize (Hm h). rewrite se_bind_run. destruct (m h) as [[a|e] h1]; cbn in Hm |- *; subst.
  - split; [intros H; by exists a|]. by intros (b & [= <-] & H).
  - split; [done|]. by intros (b & ? & _).
Qed.

(** ** What they accept *)

Context (SHA256 MD5 : string -> list Z).
Definition is_user (name : string) h (u : User) : Prop := exists n, fst (user_node name h) = Ok (Some n) /\ fst (new_User n h) = Ok u.

(** The password and the salt of the user have the stored hash. *)
Definition right_password (n : nid) (password : string) h : Prop :=
  exists salt name, fst (property_of n "salt" h) = Ok salt /\ fst (getDisplayName n h) = Ok name /\
    fst (property_of n "password" h) = Ok (hexEncodeByteArray (SHA256 (salt +:+ name +:+ password))).
(** The line of the user in the file of digests has the hash of the password. *)
Definition right_digest (file : option string) (n : nid) (password : string) h : Prop :=
  exists name user realm, fst (getDisplayName n h) = Ok name /\
    splitString ":" false (readHashFromFile file name) = [user; realm; hexEncodeByteArray (MD5 (name +:+ ":" +:+ realm +:+ ":" +:+ password))].
Definition knows (right : nid -> Prop) (name : string) h (u : User) : Prop :=
  exists n, fst (user_node name h) = Ok (Some n) /\ right n /\ fst (new_User n h) = Ok u.
(** The token is enabled for the user. *)
Definition has_token (token : string) h (u : User) : Prop :=
  exists t n name u0, fst (enabled_token token h) = Ok (Some t) /\ fst (getProperty t "user" h) = Ok (Some n) /\
    fst (getStringValue n h) = Ok name /\ is_user name h u0 /\ u = u_setToken token u0.

Lemma builtin_right n p h : fst (builtin_checkPassword SHA256 n p h) = Ok true <-> right_password n p h.
Proof.
  unfold builtin_checkPassword, right_password. split.
  - intros (salt & H1 & H)%readonly_Ok; [|apply readonly_property_of]. apply readonly_Ok in H as (name & H2 & H); [|apply readonly_getDisplayName].
    apply readonly_Ok in H as (stored & H3 & H); [|apply readonly_property_of]. cbn in H. injection H as H%String.eqb_eq. exists salt, name. by rewrite H.
  - intros (salt & name & H1 & H2 & H3). apply readonly_Ok; [apply readonly_property_of|]. exists salt. split; [done|].
    apply readonly_Ok; [apply readonly_getDisplayName|]. exists name. split; [done|]. apply readonly_Ok; [apply readonly_property_of|].
    eexists. split; [exact H3|]. cbn. by rewrite String.eqb_refl.
Qed.
Lemma htdigest_right file n p h : fst (htdigest_checkPassword MD5 file n p h) = Ok true <-> right_digest file n p h.
Proof.
  unfold htdigest_checkPassword, right_digest. rewrite readonly_Ok by (apply readonly_getDisplayName). split.
  - intros (name & H1 & H2). exists name. destruct (splitString _ _ _) as [|user [|realm [|hash [|]]]] eqn:E; try done. cbn in H2. injection H2 as H2. apply String.eqb_eq in H2.
    subst hash. exists user, realm. by split.
  - intros (name & user & realm & H1 & H2). exists name. split; [done|]. rewrite H2. cbn. by rewrite String.eqb_refl.
Qed.

Lemma finishes_knows (check : nid -> string -> SE (heap W) bool) right name password h0 : (forall n, readonly (check n password)) ->
  (forall n, fst (check n password h0) = Ok true <-> right n) ->
  finishes (pUserNode ← user_node name;
    match pUserNode with
    | None => mret false
    | Some n => ok ← check n password; if ok : bool then u ← new_User n; _ ← login (Some u); mret true else mret false
    end) (knows right name h0) h0.
Proof.
  intros Hc Hr. apply finishes_read; [apply readonly_user_node| |intros e u E (n & E1 & _); by rewrite E in E1].
  intros [n|] En; [|apply finishes_false; intros u (n & E1 & _); by rewrite En in E1].
  assert (forall n', fst (user_node name h0) = Ok (Some n') -> n' = n) as Hn by (intros n' E'; rewrite En in E'; by injection E').
  apply finishes_read; [apply Hc| |intros e u E (n' & ->%Hn & H & _); apply Hr in H; by rewrite E in H].
  intros ok Eok. destruct ok; [|apply finishes_false; intros u (n' & ->%Hn & H & _); apply Hr in H; by rewrite Eok in H].
  apply finishes_read; [apply readonly_new_User| |intros e u E (n' & ->%Hn & _ & H); by rewrite E in H].
  intros u Eu. apply finishes_login. exists n. split_and!; [done|by apply Hr|done].
Qed.
Lemma finishes_user name f (accepts : User -> Prop) h0 : (forall u, is_user name h0 u -> finishes (f u) accepts h0) ->
  (forall u, accepts u -> exists u0, is_user name h0 u0) ->
  finishes (pUserNode ← user_node name;
    match pUserNode with None => mret false | Some n => u ← new_User n; f u end) accepts h0.
Proof.
  intros Hf Ha. apply finishes_read; [apply readonly_user_node| |intros e u E Hu; destruct (Ha u Hu) as (u0 & n & ? & _); congruence].
  intros [n|] En; [|apply finishes_false; intros u Hu; destruct (Ha u Hu) as (u0 & n & ? & _); congruence].
  apply finishes_read; [apply readonly_new_User| |intros e u E Hu; destruct (Ha u Hu) as (u0 & n' & ? & ?); congruence].
  intros u Eu. apply Hf. by exists n.
Qed.
Lemma finishes_token token h0 :
  finishes (pTokenNode ← enabled_token token;
    match pTokenNode with
    | None => mret false
    | Some t =>
      pUserNameNode ← getProperty t "user";
      match pUserNameNode with
      | None => mret false
      | Some n =>
        name ← getStringValue n;
        pUserNode ← user_node name;
        match pUserNode with
        | None => mret false
        | Some n => u ← new_User n; _ ← login (Some (u_setToken token u)); mret true
        end
      end
    end) (has_token token h0) h0.
Proof.
  apply finishes_read; [apply readonly_enabled_token| |intros e u E (t & n & name & u0 & ? & _); congruence].
  intros [t|] Et; [|apply finishes_false; intros u (t & n & name & u0 & ? & _); congruence].
  apply finishes_read; [apply readonly_getProperty| |intros e u E (t' & n & name & u0 & ? & ? & _); congruence].
  intros [n|] En; [|apply finishes_false; intros u (t' & n & name & u0 & ? & ? & _); congruence].
  apply finishes_read; [apply readonly_getTypedValue| |intros e u E (t' & n' & name & u0 & ? & ? & ? & _); congruence].
  intros name Ename. apply (finishes_user name (fun u => _ ← login (Some (u_setToken token u)); mret true)).
  - intros u Hu. apply finishes_login. by exists t, n, name, u.
  - intros u (t' & n' & name' & u0 & ? & ? & ? & Hu & _). exists u0. by replace name with name' by congruence.
Qed.

(** C16: nobody is logged in by mistake.  Each way of logging in starts by logging
    off, changes nothing but who is logged in, and answers true exactly when it
    logged somebody in: by password, the user of that name whose salted password
    (or whose line in the digest file) has the hash that is stored; by session,
    the user of the session; by name; by application token, the user for whom
    the token is enabled, with the token.  In all other cases, an exception
    included, nobody is logged in. *)
Theorem login_sound name password file token session h :
  logs_in (authenticate (builtin_checkPassword SHA256) name password) (fun h0 => knows (fun n => right_password n password h0) name h0) h /\
  logs_in (authenticate (htdigest_checkPassword MD5 file) name password) (fun h0 => knows (fun n => right_digest file n password h0) name h0) h /\
  logs_in (authenticate_session session) (fun _ u => session = Some (Some u)) h /\
  logs_in (impersonate name) (is_user name) h /\
  logs_in (authenticateApplication token) (has_token token) h.
Proof.
  split_and!.
  - eapply logs_in_finishes; [done|]. apply finishes_knows; [intros n; apply readonly_builtin|intros n; apply builtin_right].
  - eapply logs_in_finishes; [done|]. apply finishes_knows; [intros n; apply readonly_htdigest|intros n; apply htdigest_right].
  - destruct session as [[u|]|]; eapply logs_in_finishes; [done|by apply finishes_login|done|by apply finishes_false|done|by apply finishes_false].
  - eapply logs_in_finishes; [done|]. apply (finishes_user name (fun u => _ ← login (Some u); mret true)); [|by eauto].
    intros u Hu. by apply finishes_login.
  - eapply logs_in_finishes; [done|]. apply finishes_token.
Qed.
End Login.

(** * An example: the life of an application token *)

Definition SecurityExample : Type := EQ unit * StateStore * SecurityState.
#[local] Instance security_events : EventWorld unit SecurityExample.
Proof. refine {| get_eq := fun w => fst (fst w); put_eq := fun q w => (q, snd (fst w), snd w) |}; [done|done|by intros [[]]]. Defined.
#[local] Instance security_states : StateWorld SecurityExample.
Proof. by refine {| get_st := fun w => snd (fst w); put_st := fun s w => (fst (fst w), s, snd w) |}. Defined.
#[local] Instance security_world : SecurityWorld SecurityExample.
Proof. by refine {| get_sec := snd; put_sec := fun s w => (fst w, s) |}. Defined.
#[local] Existing Instance no_ical.
#[local] Existing Instance no_libc.

(** The bytes themselves in place of a digest. *)
Definition no_digest (s : string) : list Z := map (fun c => Z.of_N (N_of_ascii c)) (String.list_ascii_of_string s).
Definition idle_callback (k : notification) (l : lid) (a b : nid) (h : heap SecurityExample) : heap SecurityExample := h.
Definition no_recurrence (_ _ : string) (_ : DateTime) : res unit := Throw (RuntimeError "no libical").
Definition installed : heap SecurityExample :=
  empty_heap (mkEQ ∅ [] 0 true [] true None false NullDate, mkStateStore ∅ ∅ true true "", mkSecurity None 0%nat None "" None ∅).
Definition new_admin : SE (heap SecurityExample) unit :=
  u ← createProperty idle_callback 0%nat "users/dssadmin";
  _ ← addUserRole idle_callback u;
  user ← new_User u;
  setPassword idle_callback no_digest 4660 user "secret".
Definition try_token : SE (heap SecurityExample) bool := authenticateApplication "T1".
Definition token_life : SE (heap SecurityExample) (list bool) :=
  _ ← new_admin;
  wrong ← authenticate (builtin_checkPassword no_digest) "dssadmin" "wrong";
  right ← authenticate (builtin_checkPassword no_digest) "dssadmin" "secret";
  _ ← createApplicationToken idle_callback "app" "T1";
  pending ← try_token;
  enabled ← enableToken idle_callback "T1" None;
  accepted ← try_token;
  revoked ← revokeToken no_recurrence idle_callback (fun _ => "") (fun _ => true) (fun _ _ => true) "T1";
  again ← try_token;
  mret [wrong; right; pending; enabled; accepted; revoked; again].
(** A token works from when it is enabled until it is revoked. *)
Example token_lives : fst (token_life installed) = Ok [false; true; false; true; true; true; false].
Proof. vm_compute. reflexivity. Qed.

(** A user name is a path: the salt of a user is taken for a user, which has no
    salt. *)
Example user_is_a_path : fst ((_ ← new_admin; authenticate (builtin_checkPassword no_digest) "dssadmin/salt" "x") installed) =
  Throw (UndefinedBehaviour "call on NULL").
Proof. vm_compute. reflexivity. Qed.
