(* ===== verification/EventRelay.v ===== *)
(** The internal relay of events and its targets ([eventinterpreterplugins.cpp],
    [eventcollector.cpp]), and the subscriptions of a client
    ([eventsubscriptionsession.cpp]). *)
From stdpp Require Import base option list strings gmap.
From Stdlib Require Import ZArith Lia Ascii.
From Stdlib Require String.
From S2P Require Import Prelude CxxString Base NumConv DateTools Event PropertyTree EventQueue EventInterpreter.

Open Scope string_scope.
Open Scope list_scope.
Open Scope Z_scope.

Definition tid := nat.
Definition esid := nat.

(** [class EventRelayTarget]: an [EventCollector] with its events, or an
    [InternalEventRelayTarget], which may have a callback. *)
Inductive TargetKind := EventCollector (m_PendingEvents : list Event) | InternalEventRelayTarget (m_Callback : bool).
Record EventRelayTarget := mkTarget { t_kind : TargetKind; t_Subscriptions : list EventSubscription }.

(** [class EventSubscriptionSession] *)
Record EventSubscriptionSession := mkSubscriptionSession {
  es_subscription_id : string; es_pEventCollector : option tid; es_subscriptionMap : gmap string string }.

(** [EventInterpreterInternalRelay::m_IDTargetMap], the targets and the sessions'
    subscriptions. *)
Record Relay := mkRelay {
  m_IDTargetMap : gmap string (option tid);
  targets : gmap tid EventRelayTarget;
  eventSubscriptions : gmap esid EventSubscriptionSession
}.
Class RelayWorld (W : Type) := {
  get_relay : W -> Relay;
  put_relay : Relay -> W -> W;
  get_put_relay : forall r w, get_relay (put_relay r w) = r
}.

Definition no_target : EventRelayTarget := mkTarget (InternalEventRelayTarget false) [].
Definition no_subscriptions : EventSubscriptionSession := mkSubscriptionSession "" None ∅.
Definition the_target (r : Relay) (t : tid) : EventRelayTarget := default no_target (targets r !! t).
Definition the_session (r : Relay) (e : esid) : EventSubscriptionSession := default no_subscriptions (eventSubscriptions r !! e).

Definition put_ids (f : gmap string (option tid) -> gmap string (option tid)) (r : Relay) : Relay :=
  mkRelay (f (m_IDTargetMap r)) (targets r) (eventSubscriptions r).
Definition put_targets (f : gmap tid EventRelayTarget -> gmap tid EventRelayTarget) (r : Relay) : Relay :=
  mkRelay (m_IDTargetMap r) (f (targets r)) (eventSubscriptions r).
Definition put_sessions (f : gmap esid EventSubscriptionSession -> gmap esid EventSubscriptionSession) (r : Relay) : Relay :=
  mkRelay (m_IDTargetMap r) (targets r) (f (eventSubscriptions r)).
Definition upd_target (t : tid) (f : EventRelayTarget -> EventRelayTarget) (r : Relay) : Relay := put_targets <[t := f (the_target r t)]> r.
Definition upd_session (e : esid) (f : EventSubscriptionSession -> EventSubscriptionSession) (r : Relay) : Relay :=
  put_sessions <[e := f (the_session r e)]> r.
Definition t_with_subscriptions (f : list EventSubscription -> list EventSubscription) (t : EventRelayTarget) : EventRelayTarget :=
  mkTarget (t_kind t) (f (t_Subscriptions t)).
Definition es_with_collector (c : option tid) (e : EventSubscriptionSession) : EventSubscriptionSession :=
  mkSubscriptionSession (es_subscription_id e) c (es_subscriptionMap e).
Definition es_with_map (f : gmap string string -> gmap string string) (e : EventSubscriptionSession) : EventSubscriptionSession :=
  mkSubscriptionSession (es_subscription_id e) (es_pEventCollector e) (f (es_subscriptionMap e)).

(** [EventInterpreterInternalRelay::getPluginName] *)
Definition relay_name : string := "internal_relay".

Section Relay.
Context {ical W : Type} {EW : EventWorld ical W} {IW : InterpreterWorld W} {RW : RelayWorld W}.
(** The callback of an [InternalEventRelayTarget]. *)
Context (call_back : tid -> Event -> EventSubscription -> SE (heap W) unit).
Local Notation "'M' A" := (SE (heap W) A) (at level 10, A at next level).

Definition relay_gets {A} (f : Relay -> A) : M A := se_gets (fun h => f (get_relay (ext h))).
Definition relay_modify (f : Relay -> Relay) : M unit := se_modify (set_ext (fun w => put_relay (f (get_relay w)) w)).
Definition interpreter_gets {A} (f : Interpreter -> A) : M A := se_gets (fun h => f (get_ei (ext h))).
Definition interpreter_modify (f : list EventSubscription -> list EventSubscription) : M unit :=
  se_modify (set_ext (fun w => let i := get_ei w in put_ei (mkInterpreter (f (m_Subscriptions i)) (m_Plugins i) (m_EventsProcessed i)) w)).

(** ** Targets *)

Definition registerSubscription (_pTarget : tid) (_subscriptionID : string) : M unit :=
  relay_modify (put_ids <[_subscriptionID := Some _pTarget]>).
Definition removeSubscription (_subscriptionID : string) : M unit := relay_modify (put_ids <[_subscriptionID := None]>).

Definition subscribeTo (t : tid) (_pSubscription : EventSubscription) : M unit :=
  _ ← registerSubscription t (es_ID _pSubscription);
  _ ← relay_modify (upd_target t (t_with_subscriptions (fun l => l ++ [_pSubscription])));
  subs ← interpreter_gets m_Subscriptions;
  subs ← se_lift (subscribe _pSubscription subs);
  interpreter_modify (fun _ => subs).

(** The first subscription with the identifier goes, from the interpreter and
    from the target. *)
Definition unsubscribeFrom (t : tid) (_subscriptionID : string) : M unit :=
  _ ← removeSubscription _subscriptionID;
  _ ← interpreter_modify (unsubscribe _subscriptionID);
  relay_modify (upd_target t (t_with_subscriptions (unsubscribe _subscriptionID))).

(** [~EventRelayTarget] *)
Fixpoint unsubscribe_all (fuel : nat) (t : tid) : M unit :=
  match fuel with
  | O => se_throw (UndefinedBehaviour "endless loop")
  | S fuel =>
    l ← relay_gets (fun r => t_Subscriptions (the_target r t));
    match l with [] => mret tt | s :: _ => _ ← unsubscribeFrom t (es_ID s); unsubscribe_all fuel t end
  end.
Definition destroy_target (t : tid) : M unit :=
  l ← relay_gets (fun r => t_Subscriptions (the_target r t));
  _ ← unsubscribe_all (S (length l)) t;
  relay_modify (put_targets (delete t)).

(** ** Collectors *)

Definition pending (t : EventRelayTarget) : list Event := match t_kind t with EventCollector l => l | _ => [] end.
Definition collector_hasEvent (t : tid) : M bool := relay_gets (fun r => negb (bool_decide (pending (the_target r t) = []))).
Definition collector_popEvent (t : tid) : M Event :=
  l ← relay_gets (fun r => pending (the_target r t));
  match l with
  | [] => se_throw (UndefinedBehaviour "front of an empty deque")
  | e :: l => _ ← relay_modify (upd_target t (fun x => mkTarget (EventCollector l) (t_Subscriptions x))); mret e
  end.
Definition target_handleEvent (t : tid) (_event : Event) (_subscription : EventSubscription) : M unit :=
  x ← relay_gets (fun r => the_target r t);
  match t_kind x with
  | EventCollector l => relay_modify (upd_target t (fun x => mkTarget (EventCollector (l ++ [_event])) (t_Subscriptions x)))
  | InternalEventRelayTarget true => call_back t _event _subscription
  | InternalEventRelayTarget false => mret tt
  end.
Definition collector_subscribeTo (t : tid) (_eventName : string) : M string :=
  subs ← interpreter_gets m_Subscriptions;
  subscription ← se_lift (new_EventSubscription subs _eventName relay_name None);
  _ ← subscribeTo t subscription;
  mret (es_ID subscription).

(** [EventInterpreterInternalRelay::handleEvent]; [operator[]] makes an entry for
    an identifier it does not have. *)
Definition relay_handleEvent (_event : Event) (_subscription : EventSubscription) : M unit :=
  let id := es_ID _subscription in
  target ← relay_gets (fun r => default None (m_IDTargetMap r !! id));
  _ ← relay_modify (put_ids (fun m => <[id := default None (m !! id)]> m));
  match target with Some t => target_handleEvent t _event _subscription | None => mret tt end.

Definition new_target (k : TargetKind) : M tid :=
  t ← relay_gets (fun r => fresh (dom (targets r))); _ ← relay_modify (put_targets <[t := mkTarget k []]>); mret t.

(** ** The subscriptions of a client *)

Definition createCollector (e : esid) : M tid :=
  c ← relay_gets (fun r => es_pEventCollector (the_session r e));
  match c with
  | Some c => mret c
  | None =>
    plugins ← interpreter_gets m_Plugins;
    match getPluginByName plugins relay_name with
    | None => se_throw (RuntimeError "Need EventInterpreterInternalRelay to be registered")
    | Some _ =>
      c ← new_target (EventCollector []);
      _ ← relay_modify (upd_session e (es_with_collector (Some c)));
      mret c
    end
  end.

Definition session_unsubscribe (e : esid) (_eventName : string) : M unit :=
  c ← createCollector e;
  entry ← relay_gets (fun r => es_subscriptionMap (the_session r e) !! _eventName);
  match entry with
  | Some id => _ ← unsubscribeFrom c id; relay_modify (upd_session e (es_with_map (delete _eventName)))
  | None => se_throw (RuntimeError ("Event " +:+ _eventName +:+ " is not subscribed in this session"))
  end.
Definition session_subscribe (e : esid) (_eventName : string) : M string :=
  c ← createCollector e;
  _ ← se_try (session_unsubscribe e _eventName) is_runtime_error (fun _ => mret tt);
  id ← collector_subscribeTo c _eventName;
  _ ← relay_modify (upd_session e (es_with_map <[_eventName := id]>));
  mret id.
Definition session_popEvent (e : esid) : M Event := c ← createCollector e; collector_popEvent c.
Definition session_hasEvent (e : esid) : M bool := c ← createCollector e; collector_hasEvent c.

(** The destructor, with that of the collector. *)
Definition destroy_subscriptions (e : esid) : M unit :=
  c ← relay_gets (fun r => es_pEventCollector (the_session r e));
  _ ← match c with Some c => destroy_target c | None => mret tt end;
  relay_modify (put_sessions (delete e)).
End Relay.
