(* ===== verification/RelayFacts.v ===== *)
(** Who gets an event: the subscriptions of clients, the collectors behind them
    and the interpreter stay in step, and an event reaches every client that
    subscribed to its name exactly once. *)
From stdpp Require Import base option list strings gmap.
From Stdlib Require Import ZArith Lia Ascii.
From Stdlib Require String.
From S2P Require Import Prelude CxxString Base NumConv DateTools Event PropertyTree EventQueue EventInterpreter EventRelay.

Open Scope string_scope.
Open Scope list_scope.
Open Scope Z_scope.

(** * Lists of subscriptions *)

Lemma unsubscribe_elem id l s : NoDup (ids l) -> s ∈ unsubscribe id l <-> s ∈ l /\ es_ID s <> id.
Proof.
  induction l as [|x l IH]; cbn; intros Hn; [rewrite elem_of_nil; naive_solver|]. apply NoDup_cons in Hn as [Hx Hn].
  assert (forall s', s' ∈ l -> es_ID s' <> es_ID x) as Hne.
  { intros s' Hs' E. apply Hx. rewrite <- E. by apply (list_elem_of_fmap_2 es_ID). }
  destruct (String.eqb_spec (es_ID x) id) as [<-|E].
  - rewrite elem_of_cons. naive_solver.
  - rewrite !elem_of_cons, IH by done. naive_solver.
Qed.
Lemma unsubscribe_NoDup id l : NoDup (ids l) -> NoDup (ids (unsubscribe id l)).
Proof.
  induction l as [|x l IH]; cbn; [done|]. intros [Hx Hn]%NoDup_cons. destruct (String.eqb _ _); [done|]. cbn. apply NoDup_cons. split; [|by apply IH].
  intros (s & E & Hs)%list_elem_of_fmap. apply Hx. rewrite E. apply unsubscribe_elem in Hs as [Hs _]; [|done]. by apply (list_elem_of_fmap_2 es_ID).
Qed.
Lemma ids_elem l s : s ∈ l -> es_ID s ∈ ids l.
Proof. apply (list_elem_of_fmap_2 es_ID). Qed.
Lemma same_ID l s s' : NoDup (ids l) -> s ∈ l -> s' ∈ l -> es_ID s = es_ID s' -> s = s'.
Proof.
  intros Hn. induction l as [|x l IH]; [by intros ?%elem_of_nil|]. cbn in Hn. apply NoDup_cons in Hn as [Hx Hn].
  intros [->|Hs]%elem_of_cons [->|Hs']%elem_of_cons E; [done| | |by apply IH].
  - destruct Hx. rewrite E. by apply ids_elem.
  - destruct Hx. rewrite <- E. by apply ids_elem.
Qed.

(** * The invariant *)

(** The targets: their subscriptions are those of the interpreter that the relay
    handles, and the relay knows whose each is. *)
Record targets_ok (r : Relay) (subs : list EventSubscription) : Prop := {
  to_ids : NoDup (ids subs);
  to_own t x : targets r !! t = Some x -> NoDup (ids (t_Subscriptions x));
  to_known t x s : targets r !! t = Some x -> s ∈ t_Subscriptions x ->
    s ∈ subs /\ es_HandlerName s = relay_name /\ es_Filter s = [] /\ m_IDTargetMap r !! es_ID s = Some (Some t);
  to_back id t : m_IDTargetMap r !! id = Some (Some t) -> exists x s, targets r !! t = Some x /\ s ∈ t_Subscriptions x /\ es_ID s = id;
  to_all s : s ∈ subs -> es_HandlerName s = relay_name -> exists t x, targets r !! t = Some x /\ s ∈ t_Subscriptions x
}.
(** What a client subscribed to is what its collector subscribed to. *)
Definition client_of (x : EventSubscriptionSession) (t : EventRelayTarget) : Prop :=
  (exists l, t_kind t = EventCollector l) /\
  forall name id, es_subscriptionMap x !! name = Some id <-> exists s, s ∈ t_Subscriptions t /\ es_EventName s = name /\ es_ID s = id.
Record clients_ok (r : Relay) : Prop := {
  co_collector e x c : eventSubscriptions r !! e = Some x -> es_pEventCollector x = Some c -> exists t, targets r !! c = Some t /\ client_of x t;
  co_none e x : eventSubscriptions r !! e = Some x -> es_pEventCollector x = None -> es_subscriptionMap x = ∅;
  co_apart e e' x x' c : eventSubscriptions r !! e = Some x -> eventSubscriptions r !! e' = Some x' ->
    es_pEventCollector x = Some c -> es_pEventCollector x' = Some c -> e = e'
}.
Definition wired (r : Relay) (subs : list EventSubscription) : Prop := targets_ok r subs /\ clients_ok r.

(** ** What the operations do to the records *)

Definition added (t : tid) (s : EventSubscription) (r : Relay) : Relay :=
  upd_target t (t_with_subscriptions (fun l => l ++ [s])) (put_ids <[es_ID s := Some t]> r).
Definition dropped (t : tid) (id : string) (r : Relay) : Relay :=
  upd_target t (t_with_subscriptions (unsubscribe id)) (put_ids <[id := None]> r).

Lemma lookup_upd_target t f r t' : targets (upd_target t f r) !! t' = if decide (t' = t) then Some (f (the_target r t)) else targets r !! t'.
Proof. unfold upd_target. cbn. destruct (decide (t' = t)) as [->|]; [by rewrite lookup_insert_eq|by rewrite lookup_insert_ne]. Qed.

Lemma targets_added t s r subs x : targets_ok r subs -> targets r !! t = Some x -> es_ID s ∉ ids subs ->
  es_HandlerName s = relay_name -> es_Filter s = [] -> targets_ok (added t s r) (subs ++ [s]).
Proof.
  intros [H1 H2 H3 H4 H5] Ht Hs Hh Hf. assert (the_target (put_ids <[es_ID s:=Some t]> r) t = x) as Ex by (unfold the_target; cbn; by rewrite Ht).
  assert (forall t' y, targets r !! t' = Some y -> es_ID s ∉ ids (t_Subscriptions y)) as Hnew.
  { intros t' y Hy [s' [E Hs']]%list_elem_of_fmap. apply Hs. rewrite E. by apply ids_elem, (H3 t' y). }
  split.
  - unfold ids. rewrite map_app. apply NoDup_app. split_and!; [done| |apply NoDup_singleton]. intros i Hi ->%list_elem_of_singleton. done.
  - intros t' y. unfold added. rewrite lookup_upd_target, Ex. case_decide as E; [|apply H2]. intros [= <-]. cbn. unfold ids. rewrite map_app.
    apply NoDup_app. split_and!; [by apply (H2 t)| |apply NoDup_singleton]. intros i Hi ->%list_elem_of_singleton. by apply (Hnew t x Ht).
  - intros t' y s'. unfold added. rewrite lookup_upd_target, Ex. cbn. intros Hy Hs'.
    assert (s' = s /\ t' = t \/ (targets r !! t' = Some (if decide (t' = t) then x else y)) /\ s' ∈ t_Subscriptions (if decide (t' = t) then x else y)) as [[-> ->]|[Hy' Hs1]].
    { case_decide as E; [|by right]. injection Hy as <-. subst t'. cbn in Hs'. apply elem_of_app in Hs' as [?|Hs']; [by right|]. apply list_elem_of_singleton in Hs' as ->. by left. }
    + rewrite lookup_insert_eq. split_and!; [set_solver|done..].
    + destruct (H3 _ _ _ Hy' Hs1) as (A & B & C & D). split_and!; [set_solver|done|done|]. rewrite lookup_insert_ne; [done|].
      intros E. apply Hs. rewrite E. by apply ids_elem.
  - intros id t'. unfold added. setoid_rewrite lookup_upd_target. rewrite Ex. cbn. destruct (decide (id = es_ID s)) as [->|Hid].
    + rewrite lookup_insert_eq. intros [= <-]. exists (t_with_subscriptions (fun l => l ++ [s]) x), s. rewrite decide_True by done. cbn. split_and!; [done|set_solver|done].
    + rewrite lookup_insert_ne by done. intros (y & s' & Hy & Hs' & Es)%H4. case_decide as E; [|by exists y, s'].
      subst t'. assert (y = x) as -> by congruence. exists (t_with_subscriptions (fun l => l ++ [s]) x), s'. cbn. split_and!; [done|set_solver|done].
  - intros s' Hs' Hh'. unfold added. setoid_rewrite lookup_upd_target. rewrite Ex. apply elem_of_app in Hs' as [Hs'|Hs']; [|apply list_elem_of_singleton in Hs' as ->].
    + destruct (H5 s' Hs' Hh') as (t' & y & Hy & Hin). exists t'. case_decide as E; [|by exists y].
      subst t'. assert (y = x) as -> by congruence. eexists. split; [done|]. cbn. set_solver.
    + exists t. rewrite decide_True by done. eexists. split; [done|]. cbn. set_solver.
Qed.
Lemma targets_dropped t s r subs x : targets_ok r subs -> targets r !! t = Some x -> s ∈ t_Subscriptions x ->
  targets_ok (dropped t (es_ID s) r) (unsubscribe (es_ID s) subs).
Proof.
  intros [H1 H2 H3 H4 H5] Ht Hs. set (id := es_ID s) in *.
  assert (the_target (put_ids <[id:=None]> r) t = x) as Ex by (unfold the_target; cbn; by rewrite Ht).
  assert (forall t' y s', targets r !! t' = Some y -> s' ∈ t_Subscriptions y -> es_ID s' = id -> t' = t) as Hid.
  { intros t' y s' Hy Hs' E. destruct (H3 _ _ _ Hy Hs') as (_ & _ & _ & A). destruct (H3 _ _ _ Ht Hs) as (_ & _ & _ & B). change (es_ID s) with id in B. congruence. }
  split.
  - by apply unsubscribe_NoDup.
  - intros t' y. unfold dropped. rewrite lookup_upd_target, Ex. case_decide as E; [|apply H2]. intros [= <-]. by apply unsubscribe_NoDup, (H2 t).
  - intros t' y s'. unfold dropped. rewrite lookup_upd_target, Ex. cbn. intros Hy Hs'.
    assert (exists y', targets r !! t' = Some y' /\ s' ∈ t_Subscriptions y' /\ es_ID s' <> id) as (y' & Hy' & Hin & Hne).
    { case_decide as E.
      - injection Hy as <-. subst t'. apply unsubscribe_elem in Hs' as [? ?]; [|by apply (H2 t)]. by exists x.
      - exists y. split_and!; [done..|]. intros E'. by apply E, (Hid _ _ _ Hy Hs'). }
    destruct (H3 _ _ _ Hy' Hin) as (A & B & C & D). rewrite lookup_insert_ne by done. split_and!; [by apply unsubscribe_elem|done..].
  - intros id' t'. unfold dropped. setoid_rewrite lookup_upd_target. rewrite Ex. cbn. destruct (decide (id' = id)) as [->|Hne]; [by rewrite lookup_insert_eq|].
    rewrite lookup_insert_ne by done. intros (y & s' & Hy & Hs' & Es)%H4. case_decide as E; [|by exists y, s'].
    subst t'. assert (y = x) as -> by congruence. exists (t_with_subscriptions (unsubscribe id) x), s'. split_and!; [done| |done].
    apply unsubscribe_elem; [by apply (H2 t)|]. split; [done|congruence].
  - intros s' Hs' Hh. apply unsubscribe_elem in Hs' as [Hs' Hne]; [|done]. destruct (H5 s' Hs' Hh) as (t' & y & Hy & Hin).
    unfold dropped. setoid_rewrite lookup_upd_target. rewrite Ex. exists t'. case_decide as E; [|by exists y].
    subst t'. assert (y = x) as -> by congruence. eexists. split; [done|]. apply unsubscribe_elem; [by apply (H2 t)|done].
Qed.

(** A client and its collector change together. *)
Definition with_names (e : esid) (f : gmap string string -> gmap string string) (r : Relay) : Relay := upd_session e (es_with_map f) r.

Lemma clients_change (r : Relay) (e : esid) x c t f (g : Relay -> Relay) t' :
  clients_ok r -> eventSubscriptions r !! e = Some x -> es_pEventCollector x = Some c ->
  targets (g r) = <[c := t']> (targets r) -> eventSubscriptions (g r) = eventSubscriptions r ->
  targets r !! c = Some t -> client_of (es_with_map f x) t' -> clients_ok (with_names e f (g r)).
Proof.
  intros [H1 H2 H3] He Hc Hg1 Hg2 Ht Hcl. unfold with_names, upd_session, the_session. rewrite Hg2, He. cbn [default].
  assert (forall e' y, eventSubscriptions (put_sessions <[e:=es_with_map f x]> (g r)) !! e' = Some y ->
    (e' = e /\ y = es_with_map f x) \/ (e' <> e /\ eventSubscriptions r !! e' = Some y)) as Hl.
  { intros e' y. cbn. rewrite Hg2. destruct (decide (e' = e)) as [->|]; [rewrite lookup_insert_eq|rewrite lookup_insert_ne by done]; naive_solver. }
  split.
  - intros e' y c' [[-> ->]|[Hne Hy]]%Hl Hc'; cbn; rewrite Hg1.
    + cbn in Hc'. assert (c' = c) as -> by congruence. rewrite lookup_insert_eq. by exists t'.
    + rewrite lookup_insert_ne; [by apply (H1 e')|]. intros <-. apply Hne. by apply (H3 e' e y x c).
  - intros e' y [[-> ->]|[Hne Hy]]%Hl Hc'; [cbn in Hc'; congruence|by apply (H2 e')].
  - intros e1 e2 y1 y2 c' [[-> ->]|[Hne1 Hy1]]%Hl [[-> ->]|[Hne2 Hy2]]%Hl Hc1 Hc2; [done| | |by apply (H3 e1 e2 y1 y2 c')]; cbn in Hc1, Hc2.
    + destruct Hne2. by apply (H3 e2 e y2 x c').
    + destruct Hne1. by apply (H3 e1 e y1 x c').
Qed.

Lemma client_added x t s name : client_of x t -> es_subscriptionMap x !! name = None -> es_EventName s = name ->
  client_of (es_with_map <[name := es_ID s]> x) (t_with_subscriptions (fun l => l ++ [s]) t).
Proof.
  intros [Hk Hm] Hn He. split; [exact Hk|]. intros name' id. cbn. destruct (decide (name' = name)) as [->|Hne].
  - rewrite lookup_insert_eq. split; [intros [= <-]; exists s; set_solver|]. intros (s' & [Hs'|Hs']%elem_of_app & E & Ei).
    + assert (es_subscriptionMap x !! name = Some id) by (apply Hm; by exists s'). congruence.
    + apply list_elem_of_singleton in Hs' as ->. by rewrite Ei.
  - rewrite lookup_insert_ne, Hm by done. split; intros (s' & Hs' & E & Ei); exists s'; (split; [|done]); [set_solver|].
    apply elem_of_app in Hs' as [?|Hs']; [done|]. apply list_elem_of_singleton in Hs' as ->. congruence.
Qed.
Lemma client_dropped x t name id : client_of x t -> NoDup (ids (t_Subscriptions t)) -> es_subscriptionMap x !! name = Some id ->
  client_of (es_with_map (delete name) x) (t_with_subscriptions (unsubscribe id) t).
Proof.
  intros [Hk Hm] Hn Hi. split; [exact Hk|]. intros name' id'. cbn. apply Hm in Hi as Hs. destruct Hs as (s & Hs & <- & <-).
  setoid_rewrite unsubscribe_elem; [|done]. destruct (decide (name' = es_EventName s)) as [->|Hne].
  - rewrite lookup_delete_eq. split; [done|]. intros (s' & [Hs' Hid] & E & Ei). destruct Hid.
    assert (es_subscriptionMap x !! es_EventName s = Some (es_ID s')) by (apply Hm; by exists s'). congruence.
  - rewrite lookup_delete_ne, Hm by done. split; intros (s' & Hs' & E & Ei); exists s'; [|naive_solver]. split_and!; [done| |done..].
    intros E'. apply Hne. rewrite <- E. f_equal. by apply (same_ID (t_Subscriptions t)).
Qed.

(** The interpreter and the relay are different parts of the world. *)
Class SeparateRelay {ical W : Type} (EW : EventWorld ical W) (IW : InterpreterWorld W) (RW : RelayWorld W) : Prop := {
  relay_of_put_ei : forall i w, get_relay (put_ei i w) = get_relay w;
  ei_of_put_relay : forall r w, get_ei (put_relay r w) = get_ei w;
  eq_of_put_relay : forall r w, get_eq (put_relay r w) = get_eq w;
  eq_of_put_ei : forall i w, get_eq (put_ei i w) = get_eq w
}.

Section Facts.
Context {ical W : Type} {EW : EventWorld ical W} {IW : InterpreterWorld W} {RW : RelayWorld W} {SR : SeparateRelay EW IW RW}.

Definition relay_of (h : heap W) : Relay := get_relay (ext h).
Definition subs_of (h : heap W) : list EventSubscription := m_Subscriptions (get_ei (ext h)).
Definition plugins_of (h : heap W) : list string := m_Plugins (get_ei (ext h)).
Definition becomes (h : heap W) (r : Relay) (subs : list EventSubscription) (h' : heap W) : Prop :=
  relay_of h' = r /\ subs_of h' = subs /\ plugins_of h' = plugins_of h /\ get_eq (ext h') = get_eq (ext h).

Lemma run_relay_modify f h : exists h', relay_modify f h = (Ok tt, h') /\ becomes h (f (relay_of h)) (subs_of h) h'.
Proof.
  eexists. split; [done|]. unfold becomes, relay_of, subs_of, plugins_of. cbn. by rewrite get_put_relay, ei_of_put_relay, eq_of_put_relay.
Qed.
Lemma run_interpreter_modify f h : exists h', interpreter_modify f h = (Ok tt, h') /\ becomes h (relay_of h) (f (subs_of h)) h'.
Proof.
  eexists. split; [done|]. unfold becomes, relay_of, subs_of, plugins_of. cbn. by rewrite get_put_ei, relay_of_put_ei, eq_of_put_ei.
Qed.
Lemma becomes_trans h r subs h1 r' subs' h2 : becomes h r subs h1 -> becomes h1 r' subs' h2 -> becomes h r' subs' h2.
Proof. unfold becomes. intuition congruence. Qed.
Lemma se_then {A B} (m : SE (heap W) A) (f : A -> SE (heap W) B) h x h1 P : m h = (Ok x, h1) -> P (f x h1) -> P ((m ≫= f) h).
Proof. intros H. by rewrite (se_bind_ok _ _ _ _ _ H). Qed.

Lemma run_subscribeTo t s h : es_ID s ∉ ids (subs_of h) ->
  exists h', subscribeTo t s h = (Ok tt, h') /\ becomes h (added t s (relay_of h)) (subs_of h ++ [s]) h'.
Proof.
  intros Hs. unfold subscribeTo, registerSubscription.
  destruct (run_relay_modify (put_ids <[es_ID s:=Some t]>) h) as (h1 & E1 & B1). rewrite (se_bind_ok _ _ _ _ _ E1).
  destruct (run_relay_modify (upd_target t (t_with_subscriptions (fun l => l ++ [s]))) h1) as (h2 & E2 & B2). rewrite (se_bind_ok _ _ _ _ _ E2).
  rewrite (se_bind_ok (interpreter_gets m_Subscriptions) _ h2 (subs_of h2) h2 eq_refl).
  assert (subs_of h2 = subs_of h) as Es by (unfold becomes in *; intuition congruence).
  assert (relay_of h2 = added t s (relay_of h)) as Er by (unfold added; destruct B1 as (<- & _); apply B2).
  assert (subscribe s (subs_of h2) = Ok (subs_of h ++ [s])) as Esub by (unfold subscribe; rewrite Es; by rewrite (proj2 (subscriptionByID_None _ _) Hs)).
  rewrite Esub, (se_bind_ok (se_lift _) _ h2 _ h2 eq_refl).
  destruct (run_interpreter_modify (fun _ => subs_of h ++ [s]) h2) as (h3 & E3 & B3). exists h3. split; [exact E3|].
  rewrite <- Er. eapply becomes_trans; [exact B1|]. eapply becomes_trans; [exact B2|exact B3].
Qed.
Lemma run_unsubscribeFrom t id h : exists h', unsubscribeFrom t id h = (Ok tt, h') /\
  becomes h (dropped t id (relay_of h)) (unsubscribe id (subs_of h)) h'.
Proof.
  unfold unsubscribeFrom, removeSubscription.
  destruct (run_relay_modify (put_ids <[id:=None]>) h) as (h1 & E1 & B1). rewrite (se_bind_ok _ _ _ _ _ E1).
  destruct (run_interpreter_modify (unsubscribe id) h1) as (h2 & E2 & B2). rewrite (se_bind_ok _ _ _ _ _ E2).
  destruct (run_relay_modify (upd_target t (t_with_subscriptions (unsubscribe id))) h2) as (h3 & E3 & B3). exists h3. split; [exact E3|].
  destruct B1 as (A1 & A2 & A3 & A4), B2 as (C1 & C2 & C3 & C4), B3 as (D1 & D2 & D3 & D4). unfold dropped. split_and!; congruence.
Qed.
End Facts.
