(* ===== verification/RelayClients.v ===== *)
(** Subscribing and unsubscribing keep clients, collectors and the interpreter
    in step ([eventsubscriptionsession.cpp]). *)
From stdpp Require Import base option list strings gmap.
From Stdlib Require Import ZArith Lia Ascii.
From Stdlib Require String.
From S2P Require Import Prelude CxxString Base NumConv DateTools Event PropertyTree EventQueue EventInterpreter EventRelay RelayFacts.

Open Scope string_scope.
Open Scope list_scope.
Open Scope Z_scope.

(** The client [e] changes its names, nobody else changes and no event is lost. *)
Record names_become (r r' : Relay) (e : esid) (f : gmap string string -> gmap string string) : Prop := {
  nb_known : is_Some (eventSubscriptions r' !! e);
  nb_names : es_subscriptionMap (the_session r' e) = f (es_subscriptionMap (the_session r e));
  nb_others e' : e' <> e -> eventSubscriptions r' !! e' = eventSubscriptions r !! e';
  nb_pending t : pending (the_target r' t) = pending (the_target r t)
}.
Lemma names_trans r r1 r2 e f g : names_become r r1 e f -> names_become r1 r2 e g -> names_become r r2 e (fun m => g (f m)).
Proof. intros [A1 A2 A3 A4] [B1 B2 B3 B4]. split; [done|congruence|intros; by rewrite B3, A3|intros; congruence]. Qed.

Lemma the_target_upd t f r t' : the_target (upd_target t f r) t' = if decide (t' = t) then f (the_target r t) else the_target r t'.
Proof. unfold the_target at 1. rewrite lookup_upd_target. by case_decide. Qed.
Lemma the_target_ids g r t : the_target (put_ids g r) t = the_target r t.
Proof. done. Qed.
Lemma the_session_known r e x : eventSubscriptions r !! e = Some x -> the_session r e = x.
Proof. unfold the_session. by intros ->. Qed.
Lemma the_target_known r t x : targets r !! t = Some x -> the_target r t = x.
Proof. unfold the_target. by intros ->. Qed.
Lemma lookup_with_names e f r e' : eventSubscriptions (with_names e f r) !! e' = if decide (e' = e) then Some (es_with_map f (the_session r e)) else eventSubscriptions r !! e'.
Proof. unfold with_names, upd_session. cbn. case_decide; subst; [by rewrite lookup_insert_eq|by rewrite lookup_insert_ne]. Qed.

Lemma targets_with_names e f r subs : targets_ok r subs -> targets_ok (with_names e f r) subs.
Proof. by intros [A1 A2 A3 A4 A5]; split. Qed.

(** A change of one client and its target that keeps the pending events. *)
Lemma names_with e f r g : (forall t, pending (the_target (g r) t) = pending (the_target r t)) -> eventSubscriptions (g r) = eventSubscriptions r ->
  names_become r (with_names e f (g r)) e f.
Proof.
  intros Hp He. assert (the_session (g r) e = the_session r e) as Hs by (unfold the_session; by rewrite He). split.
  - exists (es_with_map f (the_session r e)). rewrite lookup_with_names, decide_True by done. by rewrite Hs.
  - unfold the_session at 1. rewrite lookup_with_names, decide_True by done. cbn. by rewrite Hs.
  - intros e' Hne. rewrite lookup_with_names, decide_False by done. by rewrite He.
  - exact Hp.
Qed.

Lemma pending_with_subscriptions f x : pending (t_with_subscriptions f x) = pending x.
Proof. done. Qed.
Lemma pending_added t s r t' : pending (the_target (added t s r) t') = pending (the_target r t').
Proof. unfold added. rewrite the_target_upd. by case_decide as E; [subst t'; rewrite pending_with_subscriptions, the_target_ids|]. Qed.
Lemma pending_dropped t s r t' : pending (the_target (dropped t s r) t') = pending (the_target r t').
Proof. unfold dropped. rewrite the_target_upd. by case_decide as E; [subst t'; rewrite pending_with_subscriptions, the_target_ids|]. Qed.

(** ** The first use makes the collector *)

Definition with_collector (e : esid) (c : tid) (r : Relay) : Relay :=
  upd_session e (es_with_collector (Some c)) (put_targets <[c := mkTarget (EventCollector []) []]> r).

Lemma collector_wired e c r subs x : wired r subs -> eventSubscriptions r !! e = Some x -> es_pEventCollector x = None -> targets r !! c = None ->
  wired (with_collector e c r) subs /\ names_become r (with_collector e c r) e id.
Proof.
  intros [[H1 H2 H3 H4 H5] [C1 C2 C3]] He Hx Hc.
  assert (forall t y, targets (with_collector e c r) !! t = Some y -> (t = c /\ y = mkTarget (EventCollector []) []) \/ (t <> c /\ targets r !! t = Some y)) as Ht.
  { intros t y. cbn. destruct (decide (t = c)) as [->|]; [rewrite lookup_insert_eq|rewrite lookup_insert_ne by done]; naive_solver. }
  assert (forall t y, targets r !! t = Some y -> targets (with_collector e c r) !! t = Some y) as Hback.
  { intros t y Hy. cbn. rewrite lookup_insert_ne; [done|congruence]. }
  assert (forall e', eventSubscriptions (with_collector e c r) !! e' = if decide (e' = e) then Some (es_with_collector (Some c) x) else eventSubscriptions r !! e') as Hs.
  { intros e'. unfold with_collector, upd_session. rewrite (the_session_known _ e x) by done. cbn. case_decide; subst; [by rewrite lookup_insert_eq|by rewrite lookup_insert_ne]. }
  split; [split|]; split.
  - exact H1.
  - intros t y [[-> ->]|[_ Hy]]%Ht; [constructor|by apply (H2 t)].
  - intros t y s [[-> ->]|[_ Hy]]%Ht Hin; [by apply elem_of_nil in Hin|]. by apply (H3 t y s).
  - intros i t (y & s & Hy & Hin & Ei)%H4. exists y, s. split_and!; [by apply Hback|done..].
  - intros s Hin Hh. destruct (H5 s Hin Hh) as (t & y & Hy & Hy2). exists t, y. split; [by apply Hback|done].
  - intros e' y c' Hy Hc'. rewrite Hs in Hy. case_decide; simplify_eq/=.
    + exists (mkTarget (EventCollector []) []). split; [apply lookup_insert_eq|]. split; [by exists []|]. cbn. rewrite (C2 _ _ He Hx). intros n i.
      rewrite lookup_empty. split; [done|]. by intros (s & ?%elem_of_nil & _).
    + destruct (C1 e' y c' Hy Hc') as (t & Ht' & Hcl). exists t. split; [by apply Hback|done].
  - intros e' y Hy Hc'. rewrite Hs in Hy. case_decide; simplify_eq/=. by apply (C2 e').
  - intros e1 e2 y1 y2 c' Hy1 Hy2 Hc1 Hc2. rewrite Hs in Hy1, Hy2. repeat case_decide; simplify_eq/=; [done| | |by eapply C3].
    + match goal with H : eventSubscriptions r !! ?e0 = Some ?y, H' : es_pEventCollector ?y = Some _ |- _ => destruct (C1 e0 y _ H H') as (t & Ht' & _) end. congruence.
    + match goal with H : eventSubscriptions r !! ?e0 = Some ?y, H' : es_pEventCollector ?y = Some _ |- _ => destruct (C1 e0 y _ H H') as (t & Ht' & _) end. congruence.
  - rewrite Hs, decide_True by done. by eexists.
  - unfold the_session at 1. rewrite Hs, decide_True, (the_session_known _ _ _ He) by done. done.
  - intros e' Hne. by rewrite Hs, decide_False.
  - intros t. unfold the_target. cbn. destruct (decide (t = c)) as [->|]; [rewrite lookup_insert_eq, Hc|rewrite lookup_insert_ne by done]; done.
Qed.

Section Steps.
Context {ical W : Type} {EW : EventWorld ical W} {IW : InterpreterWorld W} {RW : RelayWorld W} {SR : SeparateRelay EW IW RW}.
Implicit Types h : heap W.

(** The relay and the interpreter of [h'], wired, with other names of [e]. *)
Definition steps_to h (e : esid) (f : gmap string string -> gmap string string) h' : Prop :=
  wired (relay_of h') (subs_of h') /\ names_become (relay_of h) (relay_of h') e f /\ plugins_of h' = plugins_of h /\ get_eq (ext h') = get_eq (ext h).
Lemma steps_trans h h1 h2 e f g : steps_to h e f h1 -> steps_to h1 e g h2 -> steps_to h e (fun m => g (f m)) h2.
Proof. intros (A1 & A2 & A3 & A4) (B1 & B2 & B3 & B4). split_and!; [done|by eapply names_trans|congruence..]. Qed.

Definition collector_is h (e : esid) (c : tid) : Prop := es_pEventCollector (the_session (relay_of h) e) = Some c.

Lemma run_createCollector h e : wired (relay_of h) (subs_of h) -> is_Some (eventSubscriptions (relay_of h) !! e) ->
  is_Some (getPluginByName (plugins_of h) relay_name) ->
  exists c h', createCollector e h = (Ok c, h') /\ steps_to h e id h' /\ collector_is h' e c /\ subs_of h' = subs_of h.
Proof.
  intros Hw [x Hx] [p Hp]. unfold createCollector. rewrite (se_bind_ok (relay_gets _) _ h (es_pEventCollector x) h); [|by unfold relay_gets, se_gets; rewrite (the_session_known (get_relay (ext h)) e x)].
  destruct (es_pEventCollector x) as [c|] eqn:Ec.
  - exists c, h. split_and!; [done| |by unfold collector_is; rewrite (the_session_known _ e x)|done]. split_and!; [done| |done..]. by split.
  - rewrite (se_bind_ok (interpreter_gets m_Plugins) _ h (plugins_of h) h eq_refl), Hp. unfold new_target.
    set (c := fresh (dom (targets (relay_of h)))). assert (targets (relay_of h) !! c = None) as Hc by apply not_elem_of_dom, is_fresh.
    destruct (run_relay_modify (put_targets <[c:=mkTarget (EventCollector []) []]>) h) as (h1 & E1 & B1).
    rewrite (se_bind_ok _ _ h c h1); [|rewrite (se_bind_ok (relay_gets _) _ h c h eq_refl); by rewrite (se_bind_ok _ _ _ _ _ E1)].
    destruct (run_relay_modify (upd_session e (es_with_collector (Some c))) h1) as (h2 & E2 & B2). rewrite (se_bind_ok _ _ _ _ _ E2).
    exists c, h2. destruct B1 as (R1 & S1 & P1 & Q1), B2 as (R2 & S2 & P2 & Q2). rewrite R1 in R2. fold (with_collector e c (relay_of h)) in R2.
    destruct (collector_wired e c _ _ _ Hw Hx Ec Hc) as [Hw' Hn]. split_and!; [done| | |congruence].
    + split_and!; [by rewrite R2, S2, S1|by rewrite R2|congruence..].
    + unfold collector_is. rewrite R2. unfold with_collector, upd_session, the_session at 1. cbn. by rewrite lookup_insert_eq.
Qed.

Lemma collector_again h e c : collector_is h e c -> createCollector e h = (Ok c, h).
Proof.
  intros Hcol. unfold createCollector. rewrite (se_bind_ok (relay_gets _) _ h (Some c) h); [done|].
  unfold relay_gets, se_gets. unfold collector_is, relay_of in Hcol. by rewrite Hcol.
Qed.

(** ** One name *)

Lemma wired_client h e c : wired (relay_of h) (subs_of h) -> is_Some (eventSubscriptions (relay_of h) !! e) -> collector_is h e c ->
  exists x t, eventSubscriptions (relay_of h) !! e = Some x /\ es_pEventCollector x = Some c /\ targets (relay_of h) !! c = Some t /\ client_of x t.
Proof.
  intros [_ Hc] [x Hx] Hcol. unfold collector_is in Hcol. rewrite (the_session_known _ e x) in Hcol by done.
  destruct (co_collector _ Hc e x c Hx Hcol) as (t & Ht & Hcl). by exists x, t.
Qed.

Lemma run_drop h e c name i : wired (relay_of h) (subs_of h) -> is_Some (eventSubscriptions (relay_of h) !! e) -> collector_is h e c ->
  es_subscriptionMap (the_session (relay_of h) e) !! name = Some i ->
  exists h', (_ ← unsubscribeFrom c i; relay_modify (upd_session e (es_with_map (delete name)))) h = (Ok tt, h') /\
    steps_to h e (delete name) h' /\ collector_is h' e c /\ subs_of h' = unsubscribe i (subs_of h).
Proof.
  intros Hw Hk Hcol Hi. destruct (wired_client _ _ _ Hw Hk Hcol) as (x & t & Hx & Hc & Ht & Hcl). rewrite (the_session_known _ e x) in Hi by done.
  destruct (run_unsubscribeFrom c i h) as (h1 & E1 & B1). rewrite (se_bind_ok _ _ _ _ _ E1).
  destruct (run_relay_modify (upd_session e (es_with_map (delete name))) h1) as (h2 & E2 & B2). exists h2. split; [exact E2|].
  destruct B1 as (R1 & S1 & P1 & Q1), B2 as (R2 & S2 & P2 & Q2). rewrite R1 in R2. fold (with_names e (delete name) (dropped c i (relay_of h))) in R2.
  destruct Hw as [Hto Hco]. pose proof (to_own _ _ Hto c t Ht) as Hn.
  assert (the_session (relay_of h2) e = es_with_map (delete name) x) as Hs2.
  { rewrite R2. unfold the_session at 1. rewrite lookup_with_names, decide_True by done. cbn [default]. f_equal. unfold the_session. cbn. by rewrite Hx. }
  split; [|split; [unfold collector_is; by rewrite Hs2|congruence]].
  destruct (proj2 Hcl name i) as [(s & Hs & _ & <-) _]; [done|]. split_and!; [|rewrite R2; apply names_with; [apply pending_dropped|done]|congruence..].
  rewrite R2, S2, S1. split; [by apply targets_with_names, (targets_dropped c s (relay_of h) (subs_of h) t)|].
  apply (clients_change (relay_of h) e x c t (delete name) (dropped c (es_ID s)) (t_with_subscriptions (unsubscribe (es_ID s)) t)); [done..| |done|done|by apply client_dropped].
  unfold dropped, upd_target, the_target. cbn. by rewrite Ht.
Qed.

(** Unsubscribing from a name. *)
Lemma run_session_unsubscribe h e c name : wired (relay_of h) (subs_of h) -> is_Some (eventSubscriptions (relay_of h) !! e) -> collector_is h e c ->
  match es_subscriptionMap (the_session (relay_of h) e) !! name with
  | Some i => exists h', session_unsubscribe e name h = (Ok tt, h') /\ steps_to h e (delete name) h' /\ collector_is h' e c /\ subs_of h' = unsubscribe i (subs_of h)
  | None => session_unsubscribe e name h = (Throw (RuntimeError ("Event " +:+ name +:+ " is not subscribed in this session")), h)
  end.
Proof.
  intros Hw Hk Hcol. unfold session_unsubscribe.
  rewrite (se_bind_ok _ _ _ _ _ (collector_again _ _ _ Hcol)).
  rewrite (se_bind_ok (relay_gets (fun r => es_subscriptionMap (the_session r e) !! name)) _ h (es_subscriptionMap (the_session (relay_of h) e) !! name) h eq_refl).
  destruct (_ !! name) as [i|] eqn:Ei; [|done]. by apply run_drop.
Qed.

Lemma run_add h e c name : wired (relay_of h) (subs_of h) -> is_Some (eventSubscriptions (relay_of h) !! e) -> collector_is h e c ->
  es_subscriptionMap (the_session (relay_of h) e) !! name = None -> Z.of_nat (length (subs_of h)) < 2147483646 ->
  exists i h1 h2, collector_subscribeTo c name h = (Ok i, h1) /\ relay_modify (upd_session e (es_with_map <[name := i]>)) h1 = (Ok tt, h2) /\
    steps_to h e <[name := i]> h2 /\ i ∉ ids (subs_of h).
Proof.
  intros Hw Hk Hcol Hi Hlen. destruct (wired_client _ _ _ Hw Hk Hcol) as (x & t & Hx & Hc & Ht & Hcl). rewrite (the_session_known _ e x) in Hi by done.
  destruct Hw as [Hto Hco]. destruct (uniqueSubscriptionID_fresh (subs_of h) (name +:+ "_" +:+ relay_name) Hlen (to_ids _ _ Hto)) as (j & Hu & Hf & _).
  set (i := proposal (name +:+ "_" +:+ relay_name) j) in *. set (s := mkSubscription name relay_name i None [] foMatchAll).
  unfold collector_subscribeTo. rewrite (se_bind_ok (interpreter_gets m_Subscriptions) _ h (subs_of h) h eq_refl).
  assert (new_EventSubscription (subs_of h) name relay_name None = Ok s) as Hnew by (unfold new_EventSubscription; by rewrite Hu).
  rewrite Hnew, (se_bind_ok (se_lift _) _ h s h eq_refl).
  destruct (run_subscribeTo c s h Hf) as (h1 & E1 & B1). rewrite (se_bind_ok _ _ _ _ _ E1). exists i, h1.
  destruct (run_relay_modify (upd_session e (es_with_map <[name:=i]>)) h1) as (h2 & E2 & B2). exists h2. split_and!; [done|exact E2| |done].
  destruct B1 as (R1 & S1 & P1 & Q1), B2 as (R2 & S2 & P2 & Q2). rewrite R1 in R2. fold (with_names e <[name:=i]> (added c s (relay_of h))) in R2.
  split_and!; [|rewrite R2; apply names_with; [apply pending_added|done]|congruence..].
  rewrite R2, S2, S1. split; [by apply targets_with_names, (targets_added c s (relay_of h) (subs_of h) t)|].
  apply (clients_change (relay_of h) e x c t <[name:=i]> (added c s) (t_with_subscriptions (fun l => l ++ [s]) t)); [done..| |done|done|by apply (client_added x t s name)].
  unfold added, upd_target, the_target. cbn. by rewrite Ht.
Qed.
End Steps.

Lemma unsubscribe_length i l : (length (unsubscribe i l) <= length l)%nat.
Proof. induction l as [|s l IH]; cbn; [done|]. destruct (String.eqb _ _); cbn; lia. Qed.

(** ** The end of a client *)

Section Destruction.
Context {ical W : Type} {EW : EventWorld ical W} {IW : InterpreterWorld W} {RW : RelayWorld W} {SR : SeparateRelay EW IW RW}.
Implicit Types h : heap W.

Lemma run_unsubscribe_all fuel t : forall h x, targets_ok (relay_of h) (subs_of h) -> targets (relay_of h) !! t = Some x ->
  (length (t_Subscriptions x) < fuel)%nat ->
  exists h' x', unsubscribe_all fuel t h = (Ok tt, h') /\ targets_ok (relay_of h') (subs_of h') /\
    targets (relay_of h') !! t = Some x' /\ t_Subscriptions x' = [] /\
    (forall t', t' <> t -> targets (relay_of h') !! t' = targets (relay_of h) !! t') /\
    eventSubscriptions (relay_of h') = eventSubscriptions (relay_of h) /\
    (forall s, s ∈ subs_of h' <-> s ∈ subs_of h /\ s ∉ t_Subscriptions x).
Proof.
  induction fuel as [|fuel IH]; intros h x Hto Ht Hl; [lia|]. cbn [unsubscribe_all].
  rewrite (se_bind_ok (relay_gets (fun r => t_Subscriptions (the_target r t))) _ h (t_Subscriptions x) h);
    [|unfold relay_gets, se_gets, the_target; unfold relay_of in Ht; by rewrite Ht].
  destruct (t_Subscriptions x) as [|s l] eqn:El.
  - exists h, x. split_and!; try done. intros s. rewrite elem_of_nil. naive_solver.
  - destruct (run_unsubscribeFrom t (es_ID s) h) as (h1 & E1 & R1 & S1 & _). rewrite (se_bind_ok _ _ _ _ _ E1).
    assert (s ∈ t_Subscriptions x) as Hs by (rewrite El; by left).
    pose proof (targets_dropped t s _ _ x Hto Ht Hs) as Hto1. rewrite <- R1, <- S1 in Hto1.
    assert (targets (relay_of h1) !! t = Some (t_with_subscriptions (unsubscribe (es_ID s)) x)) as Ht1.
    { rewrite R1. unfold dropped. rewrite lookup_upd_target, decide_True by done. unfold the_target. cbn. by rewrite Ht. }
    assert (t_Subscriptions (t_with_subscriptions (unsubscribe (es_ID s)) x) = l) as El1 by (cbn; rewrite El; cbn; by rewrite String.eqb_refl).
    destruct (IH h1 _ Hto1 Ht1) as (h2 & x2 & E2 & Hto2 & Ht2 & Ex2 & Ho2 & Es2 & Hin2); [rewrite El1; cbn in Hl; lia|].
    exists h2, x2. split_and!; [done..| | |].
    + intros t' Hne. rewrite Ho2, R1 by done. unfold dropped. by rewrite lookup_upd_target, decide_False.
    + by rewrite Es2, R1.
    + intros s'. rewrite Hin2, S1, El1, unsubscribe_elem, elem_of_cons by apply Hto. split.
      * intros [[H1 H2] H3]. split; [done|]. by intros [->|?].
      * intros [H1 H2]. split; [split; [done|]|by intros ?; apply H2; right]. intros E. apply H2. left.
        apply (same_ID (subs_of h)); [apply Hto|done|by apply (to_known _ _ Hto t x s Ht)|done].
Qed.

(** What is left when the clients [P] with their subscriptions and collectors are
    gone. *)
Definition own_subscriptions (r : Relay) (e : esid) : list EventSubscription :=
  match es_pEventCollector (the_session r e) with Some c => t_Subscriptions (the_target r c) | None => [] end.
Record clients_gone (r r' : Relay) (subs subs' : list EventSubscription) (P : esid -> Prop) : Prop := {
  cg_clients e y : eventSubscriptions r' !! e = Some y <-> eventSubscriptions r !! e = Some y /\ ~ P e;
  cg_subs s : s ∈ subs' <-> s ∈ subs /\ ~ exists e, P e /\ s ∈ own_subscriptions r e;
  cg_targets t y : targets r' !! t = Some y <->
    targets r !! t = Some y /\ ~ exists e, P e /\ es_pEventCollector (the_session r e) = Some t
}.

Lemma clients_gone_none r subs : clients_gone r r subs subs (fun _ => False).
Proof. split; naive_solver. Qed.
Lemma clients_gone_iff r r' subs subs' P Q : (forall e, P e <-> Q e) -> clients_gone r r' subs subs' P -> clients_gone r r' subs subs' Q.
Proof.
  intros H [A B C]. split; intros.
  - by rewrite A, H.
  - rewrite B. setoid_rewrite H. done.
  - rewrite C. setoid_rewrite H. done.
Qed.
Lemma gone_keeps r r1 subs subs1 P e : clients_ok r -> clients_gone r r1 subs subs1 P -> ~ P e ->
  the_session r1 e = the_session r e /\ own_subscriptions r1 e = own_subscriptions r e.
Proof.
  intros Hc [A B C] Hn. assert (eventSubscriptions r1 !! e = eventSubscriptions r !! e) as E.
  { apply option_eq. intros y. rewrite A. tauto. }
  assert (the_session r1 e = the_session r e) as Es by (unfold the_session; by rewrite E). split; [done|].
  unfold own_subscriptions. rewrite Es. destruct (es_pEventCollector (the_session r e)) as [c|] eqn:Ec; [|done].
  assert (targets r1 !! c = targets r !! c) as Et; [|unfold the_target; by rewrite Et].
  apply option_eq. intros t. rewrite C. split; [tauto|]. intros Ht. split; [done|]. intros (e' & Hp & Ec').
  unfold the_session in Ec, Ec'. destruct (eventSubscriptions r !! e) as [x|] eqn:Ex; [|done]. destruct (eventSubscriptions r !! e') as [x'|] eqn:Ex'; [|done].
  destruct Hn. by rewrite (co_apart _ Hc e e' x x' c).
Qed.
Lemma clients_gone_trans r r1 r2 subs subs1 subs2 P Q : clients_ok r -> clients_gone r r1 subs subs1 P -> clients_gone r1 r2 subs1 subs2 Q ->
  (forall e, Q e -> ~ P e) -> clients_gone r r2 subs subs2 (fun e => P e \/ Q e).
Proof.
  intros Hc H1 H2 Hd. pose proof (fun e => gone_keeps _ _ _ _ _ e Hc H1) as Hk. destruct H1 as [A1 B1 C1], H2 as [A2 B2 C2]. split.
  - intros e y. rewrite A2, A1. tauto.
  - intros s. rewrite B2, B1. split.
    + intros [[H3 H4] H5]. split; [done|]. intros (e & [Hp|Hq] & Hs); [by apply H4; exists e|].
      apply H5. exists e. destruct (Hk e (Hd e Hq)) as [_ ->]. done.
    + intros [H3 H4]. split; [split; [done|]|]; intros (e & Hp & Hs); apply H4; exists e; [by split; [left|]|].
      split; [by right|]. by destruct (Hk e (Hd e Hp)) as [_ <-].
  - intros t y. rewrite C2, C1. split.
    + intros [[H3 H4] H5]. split; [done|]. intros (e & [Hp|Hq] & Hs); [by apply H4; exists e|].
      apply H5. exists e. destruct (Hk e (Hd e Hq)) as [-> _]. done.
    + intros [H3 H4]. split; [split; [done|]|]; intros (e & Hp & Hs); apply H4; exists e; [by split; [left|]|].
      split; [by right|]. by destruct (Hk e (Hd e Hp)) as [<- _].
Qed.

Lemma targets_deleted r subs t x : targets_ok r subs -> targets r !! t = Some x -> t_Subscriptions x = [] -> targets_ok (put_targets (delete t) r) subs.
Proof.
  intros [H1 H2 H3 H4 H5] Ht Hx. assert (forall t' y s, targets r !! t' = Some y -> s ∈ t_Subscriptions y -> targets (put_targets (delete t) r) !! t' = Some y) as Hd.
  { intros t' y s Hy Hs. cbn. rewrite lookup_delete_ne; [done|]. intros <-. assert (y = x) as -> by congruence. rewrite Hx in Hs. by apply elem_of_nil in Hs. }
  split; [done| | | |].
  - intros t' y Hy. cbn in Hy. apply lookup_delete_Some in Hy as [_ Hy]. by apply (H2 t').
  - intros t' y s Hy. cbn in Hy. apply lookup_delete_Some in Hy as [_ Hy]. by apply H3.
  - intros i t' (y & s & Hy & Hs & E)%H4. exists y, s. split; [by apply (Hd _ _ s)|done].
  - intros s Hs Hh. destruct (H5 s Hs Hh) as (t' & y & Hy & Hin). exists t', y. split; [by apply (Hd _ _ s)|done].
Qed.
Lemma clients_deleted r r' e : clients_ok r -> eventSubscriptions r' = delete e (eventSubscriptions r) ->
  (forall e' x c, e' <> e -> eventSubscriptions r !! e' = Some x -> es_pEventCollector x = Some c -> targets r' !! c = targets r !! c) -> clients_ok r'.
Proof.
  intros [H1 H2 H3] He Ht. split; rewrite He.
  - intros e' x c [Hne Hx]%lookup_delete_Some Hc. rewrite (Ht e' x c) by done. by apply (H1 e').
  - intros e' x [_ Hx]%lookup_delete_Some. by apply (H2 e').
  - intros e1 e2 x1 x2 c [_ Hx1]%lookup_delete_Some [_ Hx2]%lookup_delete_Some. by apply H3.
Qed.

Lemma alone {A} (x : A) (Q : A -> Prop) : (exists y, x = y /\ Q y) <-> Q x.
Proof. naive_solver. Qed.
Lemma run_destroy h e x : wired (relay_of h) (subs_of h) -> eventSubscriptions (relay_of h) !! e = Some x ->
  exists h', destroy_subscriptions e h = (Ok tt, h') /\ wired (relay_of h') (subs_of h') /\
    clients_gone (relay_of h) (relay_of h') (subs_of h) (subs_of h') (eq e).
Proof.
  intros [Hto Hco] Hx. unfold destroy_subscriptions. pose proof (the_session_known _ _ _ Hx) as Hse.
  rewrite (se_bind_ok (relay_gets (fun r => es_pEventCollector (the_session r e))) _ h (es_pEventCollector x) h);
    [|unfold relay_gets, se_gets, the_session; unfold relay_of in Hx; by rewrite Hx].
  destruct (es_pEventCollector x) as [c|] eqn:Ec.
  - destruct (co_collector _ Hco e x c Hx Ec) as (t & Ht & _). unfold destroy_target.
    destruct (run_unsubscribe_all (S (length (t_Subscriptions t))) c h t Hto Ht) as (h1 & t1 & E1 & Hto1 & Ht1 & El1 & Ho1 & Es1 & Hin1); [lia|].
    destruct (run_relay_modify (put_targets (delete c)) h1) as (h2 & E2 & R2 & S2 & _).
    destruct (run_relay_modify (put_sessions (delete e)) h2) as (h3 & E3 & R3 & S3 & _). exists h3.
    split.
    { rewrite (se_bind_ok _ _ h tt h2); [exact E3|].
      rewrite (se_bind_ok (relay_gets (fun r => t_Subscriptions (the_target r c))) _ h (t_Subscriptions t) h);
        [|unfold relay_gets, se_gets, the_target; unfold relay_of in Ht; by rewrite Ht]. by rewrite (se_bind_ok _ _ _ _ _ E1). }
    assert (targets_ok (relay_of h2) (subs_of h2)) as Hto2 by (rewrite R2, S2; by apply (targets_deleted _ _ _ t1)).
    split; [split|].
    + rewrite R3, S3. destruct Hto2 as [A1 A2 A3 A4 A5]. by split.
    + apply (clients_deleted (relay_of h) _ e Hco); [rewrite R3, R2; cbn; by rewrite Es1|]. intros e' y c' Hne Hy Hc'. rewrite R3, R2. cbn.
      assert (c' <> c) as Hnc by (intros ->; apply Hne; by apply (co_apart _ Hco e' e y x c)). by rewrite lookup_delete_ne, Ho1.
    + split.
      * intros e' y. rewrite R3, R2. cbn. rewrite lookup_delete_Some, Es1. tauto.
      * intros s. rewrite S3, S2, Hin1, (alone e). unfold own_subscriptions. rewrite Hse, Ec. by rewrite (the_target_known _ _ _ Ht).
      * intros t' y. rewrite R3, R2. cbn. rewrite lookup_delete_Some, (alone e), Hse, Ec. split.
        -- intros [Hne Hy]. rewrite <- Ho1 by done. split; [done|congruence].
        -- intros [Hy Hne]. rewrite Ho1 by congruence. split; [congruence|done].
  - destruct (run_relay_modify (put_sessions (delete e)) h) as (h1 & E1 & R1 & S1 & _). exists h1.
    rewrite (se_bind_ok (mret tt) _ h tt h eq_refl). split; [done|]. rewrite R1, S1. split; [split|].
    + destruct Hto as [A1 A2 A3 A4 A5]. by split.
    + by apply (clients_deleted (relay_of h) _ e Hco).
    + split.
      * intros e' y. cbn. rewrite lookup_delete_Some. tauto.
      * intros s. rewrite (alone e). unfold own_subscriptions. rewrite Hse, Ec, elem_of_nil. tauto.
      * intros t y. cbn. rewrite (alone e), Hse, Ec. naive_solver.
Qed.
End Destruction.

Section Clients.
Context {ical W : Type} {EW : EventWorld ical W} {IW : InterpreterWorld W} {RW : RelayWorld W} {SR : SeparateRelay EW IW RW}.
Implicit Types h : heap W.

Lemma steps_delete h e name h' : steps_to h e id h' -> es_subscriptionMap (the_session (relay_of h) e) !! name = None -> steps_to h e (delete name) h'.
Proof. intros (A1 & [B1 B2 B3 B4] & A3) Hn. split; [done|]. split; [|done]. split; [done| |done..]. by rewrite B2, delete_id. Qed.

Lemma session_changes h e name : wired (relay_of h) (subs_of h) -> is_Some (eventSubscriptions (relay_of h) !! e) ->
  is_Some (getPluginByName (plugins_of h) relay_name) -> Z.of_nat (length (subs_of h)) < 2147483646 ->
  (exists i h', session_subscribe e name h = (Ok i, h') /\ steps_to h e <[name := i]> h') /\
  match es_subscriptionMap (the_session (relay_of h) e) !! name with
  | Some _ => exists h', session_unsubscribe e name h = (Ok tt, h') /\ steps_to h e (delete name) h'
  | None => exists x h', session_unsubscribe e name h = (Throw (RuntimeError x), h') /\ steps_to h e id h'
  end.
Proof.
  intros Hw Hk Hp Hlen. destruct (run_createCollector h e Hw Hk Hp) as (c & h1 & E1 & S1 & Hc1 & Es1).
  pose proof S1 as (Hw1 & N1 & _). pose proof (run_session_unsubscribe h1 e c name Hw1 (nb_known _ _ _ _ N1) Hc1) as Hu.
  rewrite (nb_names _ _ _ _ N1) in Hu. cbn [id] in Hu. split.
  - unfold session_subscribe. rewrite (se_bind_ok _ _ _ _ _ E1).
    assert (exists h2, se_try (session_unsubscribe e name) is_runtime_error (fun _ => mret tt) h1 = (Ok tt, h2) /\ steps_to h e (delete name) h2 /\
      collector_is h2 e c /\ Z.of_nat (length (subs_of h2)) < 2147483646) as (h2 & E2 & S2 & Hc2 & Hl2).
    { destruct (_ !! name) as [i|] eqn:Ei.
      - destruct Hu as (h2 & E2 & S2 & Hc2 & Es2). exists h2. unfold se_try. rewrite E2. split_and!; [done|exact (steps_trans _ _ _ _ _ _ S1 S2)|done|].
        rewrite Es2, Es1. pose proof (unsubscribe_length i (subs_of h)). lia.
      - exists h1. unfold se_try. rewrite Hu. split_and!; [done| |done|by rewrite Es1]. by apply steps_delete. }
    rewrite (se_bind_ok _ _ _ _ _ E2). pose proof S2 as (Hw2 & N2 & _).
    destruct (run_add h2 e c name Hw2 (nb_known _ _ _ _ N2) Hc2) as (i & h3 & h4 & E3 & E4 & S4 & _); [by rewrite (nb_names _ _ _ _ N2), lookup_delete_eq|done|].
    exists i, h4. rewrite (se_bind_ok _ _ _ _ _ E3), (se_bind_ok _ _ _ _ _ E4). split; [done|].
    pose proof (steps_trans _ _ _ _ _ _ S2 S4) as (A1 & [B1 B2 B3 B4] & A3). split; [done|]. split; [|done]. split; [done| |done..].
    by rewrite B2, insert_delete_eq.
  - destruct (_ !! name) as [i|] eqn:Ei.
    + destruct Hu as (h2 & E2 & S2 & _). exists h2. split; [|exact (steps_trans _ _ _ _ _ _ S1 S2)].
      rewrite <- E2. unfold session_unsubscribe. by rewrite (se_bind_ok _ _ _ _ _ E1), (se_bind_ok _ _ _ _ _ (collector_again _ _ _ Hc1)).
    + eexists _, h1. split; [|exact S1]. rewrite <- Hu. unfold session_unsubscribe.
      by rewrite (se_bind_ok _ _ _ _ _ E1), (se_bind_ok _ _ _ _ _ (collector_again _ _ _ Hc1)).
Qed.

(** C15: a client's subscriptions, its collector, the relay and the interpreter
    stay in step, where the interpreter has the relay as a plugin (without it
    [createCollector] throws) and fewer than 2^31-2 subscriptions.  Subscribing
    to a name then succeeds and leaves the client with one subscription of that
    name, also when it had one; unsubscribing removes exactly that name, and
    throws for a name that is not subscribed; neither touches another client or
    any pending event.  When a client is destroyed, its collector with its
    pending events and its subscriptions go with it, and every other client,
    every other collector with its pending events and every other subscription
    stays as it was.  Afterwards, every identifier still belongs to one
    subscription, and the relay finds its owner. *)
Theorem clients_stay_wired h e name : wired (relay_of h) (subs_of h) -> is_Some (eventSubscriptions (relay_of h) !! e) ->
  is_Some (getPluginByName (plugins_of h) relay_name) -> Z.of_nat (length (subs_of h)) < 2147483646 ->
  (exists i h', session_subscribe e name h = (Ok i, h') /\ steps_to h e <[name := i]> h') /\
  match es_subscriptionMap (the_session (relay_of h) e) !! name with
  | Some _ => exists h', session_unsubscribe e name h = (Ok tt, h') /\ steps_to h e (delete name) h'
  | None => exists x h', session_unsubscribe e name h = (Throw (RuntimeError x), h') /\ steps_to h e id h'
  end /\
  (exists h', destroy_subscriptions e h = (Ok tt, h') /\ wired (relay_of h') (subs_of h') /\
     clients_gone (relay_of h) (relay_of h') (subs_of h) (subs_of h') (eq e)).
Proof.
  intros Hw Hk Hp Hlen. destruct (session_changes h e name Hw Hk Hp Hlen) as [H1 H2]. split_and!; [done..|].
  destruct Hk as [x Hx]. by apply (run_destroy h e x).
Qed.
End Clients.

(** * An example: two clients, nothing subscribed yet *)

Definition ClientWorld : Type := EQ unit * Interpreter * Relay.
#[export] Instance client_events : EventWorld unit ClientWorld.
Proof. refine {| get_eq := fun w => fst (fst w); put_eq := fun q w => (q, snd (fst w), snd w) |}; [done|done|by intros [[]]]. Defined.
#[export] Instance client_interpreter : InterpreterWorld ClientWorld.
Proof. by refine {| get_ei := fun w => snd (fst w); put_ei := fun i w => (fst (fst w), i, snd w) |}. Defined.
#[export] Instance client_relay : RelayWorld ClientWorld.
Proof. by refine {| get_relay := snd; put_relay := fun r w => (fst w, r) |}. Defined.
#[export] Instance client_separate : SeparateRelay client_events client_interpreter client_relay.
Proof. by split. Qed.

Definition two_clients : Relay := mkRelay ∅ ∅ {[ 0%nat := mkSubscriptionSession "one" None ∅; 1%nat := mkSubscriptionSession "two" None ∅ ]}.
Definition clients_heap : heap ClientWorld :=
  empty_heap (mkEQ {[ 0%nat := Event_name NullDate "a" ]} [] 0 true [] true None false NullDate, mkInterpreter [] [relay_name] 0, two_clients).

Lemma two_clients_idle e x : eventSubscriptions two_clients !! e = Some x -> es_pEventCollector x = None /\ es_subscriptionMap x = ∅.
Proof. unfold two_clients. cbn. by intros [[<- <-]|[_ [<- <-]%lookup_singleton_Some]]%lookup_insert_Some. Qed.
Lemma two_clients_wired : wired (relay_of clients_heap) (subs_of clients_heap).
Proof.
  split; split.
  - constructor.
  - done.
  - done.
  - done.
  - intros s Hs. by apply elem_of_nil in Hs.
  - intros e x c Hx Hc. destruct (two_clients_idle e x Hx) as [E _]. congruence.
  - intros e x Hx _. by apply (two_clients_idle e).
  - intros e e' x x' c Hx _ Hc _. destruct (two_clients_idle e x Hx) as [E _]. congruence.
Qed.

Lemma clients_stay_wired_witness :
  exists i, es_subscriptionMap (the_session (relay_of (snd (session_subscribe 0%nat "a" clients_heap))) 0%nat) !! "a" = Some i.
Proof.
  destruct (clients_stay_wired clients_heap 0%nat "a" two_clients_wired) as [(i & h' & E & _ & [_ H _ _] & _) _].
  - vm_compute. by eexists.
  - vm_compute. by eexists.
  - vm_compute. reflexivity.
  - exists i. rewrite E. cbn [snd]. rewrite H. apply lookup_insert_eq.
Defined.
