(* ===== verification/RelayDelivery.v ===== *)
(** Events reach the clients: dispatching an event adds it to the pending events
    of every client that subscribed to its name, once. *)
From stdpp Require Import base option list strings gmap.
From Stdlib Require Import ZArith Lia Ascii.
From Stdlib Require String.
From S2P Require Import Prelude CxxString Base NumConv DateTools Event PropertyTree EventQueue EventInterpreter EventRelay RelayFacts RelayClients.

Open Scope string_scope.
Open Scope list_scope.
Open Scope Z_scope.

(** * What is delivered *)

Definition deliver (l : list Event) (x : EventRelayTarget) : EventRelayTarget :=
  match t_kind x with EventCollector p => mkTarget (EventCollector (p ++ l)) (t_Subscriptions x) | InternalEventRelayTarget _ => x end.
(** The relay after the events [f t] went to each target [t]. *)
Record delivered (f : tid -> list Event) (r r' : Relay) : Prop := {
  dl_ids : m_IDTargetMap r' = m_IDTargetMap r;
  dl_sessions : eventSubscriptions r' = eventSubscriptions r;
  dl_targets t : targets r' !! t = deliver (f t) <$> targets r !! t
}.
Lemma deliver_deliver l l' x : deliver l' (deliver l x) = deliver (l ++ l') x.
Proof. destruct x as [[p|b] s]; cbn; [by rewrite app_assoc|done]. Qed.
Lemma delivered_trans f g r r1 r2 : delivered f r r1 -> delivered g r1 r2 -> delivered (fun t => f t ++ g t) r r2.
Proof.
  intros [A1 A2 A3] [B1 B2 B3]. split; [congruence..|]. intros t. rewrite B3, A3. destruct (targets r !! t); [|done]. cbn. by rewrite deliver_deliver.
Qed.
Lemma deliver_nil x : deliver [] x = x.
Proof. destruct x as [[p|b] s]; cbn; [by rewrite app_nil_r|done]. Qed.
Lemma delivered_nothing f r : (forall t, f t = []) -> delivered f r r.
Proof. intros Hf. split; [done..|]. intros t. rewrite Hf. destruct (targets r !! t); [cbn; by rewrite deliver_nil|done]. Qed.
Lemma delivered_ext f g r r' : (forall t, f t = g t) -> delivered f r r' -> delivered g r r'.
Proof. intros He [A1 A2 A3]. split; [done..|]. intros t. by rewrite A3, He. Qed.
Lemma delivered_wired f r r' subs : delivered f r r' -> wired r subs -> wired r' subs.
Proof.
  intros [A1 A2 A3] [[H1 H2 H3 H4 H5] [C1 C2 C3]]. assert (forall t y, targets r' !! t = Some y -> exists x, targets r !! t = Some x /\ t_Subscriptions y = t_Subscriptions x) as Hb.
  { intros t y. rewrite A3. destruct (targets r !! t) as [x|]; [|done]. intros [= <-]. exists x. split; [done|]. by destruct x as [[p|b] s]. }
  assert (forall t x, targets r !! t = Some x -> exists y, targets r' !! t = Some y /\ t_Subscriptions y = t_Subscriptions x) as Hf.
  { intros t x Hx. rewrite A3, Hx. eexists. split; [done|]. by destruct x as [[p|b] s]. }
  split; split.
  - done.
  - intros t y (x & Hx & ->)%Hb. by apply (H2 t).
  - intros t y s (x & Hx & ->)%Hb Hs. rewrite A1. by apply (H3 t x).
  - intros i t. rewrite A1. intros (x & s & Hx & Hs & E)%H4. destruct (Hf t x Hx) as (y & Hy & Es). exists y, s. by rewrite Es.
  - intros s Hs Hh. destruct (H5 s Hs Hh) as (t & x & Hx & Hin). destruct (Hf t x Hx) as (y & Hy & Es). exists t, y. by rewrite Es.
  - intros e x c. rewrite A2. intros Hx Hc. destruct (C1 e x c Hx Hc) as (t & Ht & [l Hl] & Hm). rewrite A3, Ht. eexists. split; [done|].
    split; [unfold deliver; rewrite Hl; by eexists|]. intros n i. rewrite Hm. unfold deliver. by rewrite Hl.
  - intros e x. rewrite A2. apply C2.
  - intros e e' x x' c. rewrite A2. apply C3.
Qed.

(** * One call of the relay *)

Definition ended_well (r : res unit) : Prop := match r with Ok _ => True | Throw x => is_runtime_error x = true end.

Section Delivery.
Context {ical W : Type} {EW : EventWorld ical W} {IW : InterpreterWorld W} {RW : RelayWorld W} {SR : SeparateRelay EW IW RW}.
Implicit Types h : heap W.
Context (call_back : tid -> Event -> EventSubscription -> SE (heap W) unit).
(** The other plugins of the interpreter. *)
Context (others : string -> eid -> EventSubscription -> SE (heap W) unit).

(** The plugins of the server: the relay is one of them. *)
Definition plugins_with_relay (p : string) (e : eid) (s : EventSubscription) : SE (heap W) unit :=
  if String.eqb p relay_name then ev ← get_event e; relay_handleEvent call_back ev s else others p e s.

(** Code that leaves the relay, the plugins and the events alone and throws
    nothing but runtime errors. *)
Definition bystander (m : SE (heap W) unit) : Prop := forall h,
  ended_well (fst (m h)) /\ relay_of (snd (m h)) = relay_of h /\ plugins_of (snd (m h)) = plugins_of h /\ subs_of (snd (m h)) = subs_of h /\
  events (get_eq (ext (snd (m h)))) = events (get_eq (ext h)).
Context (others_apart : forall p e s, p <> relay_name -> bystander (others p e s)).
Context (callback_apart : forall t ev s, bystander (call_back t ev s)).

Definition owner (r : Relay) (s : EventSubscription) : option tid := default None (m_IDTargetMap r !! es_ID s).
(** What one call of a plugin delivers to a target. *)
Definition sent (r : Relay) (ev : Event) (s : EventSubscription) (t : tid) : list Event :=
  if String.eqb (es_HandlerName s) relay_name && bool_decide (owner r s = Some t) then [ev] else [].

Definition delivers_to (f : tid -> list Event) h (r : res unit) h' : Prop :=
  ended_well r /\ delivered f (relay_of h) (relay_of h') /\ plugins_of h' = plugins_of h /\ subs_of h' = subs_of h /\ events (get_eq (ext h')) = events (get_eq (ext h)).

Lemma run_target t ev s h x : targets (relay_of h) !! t = Some x ->
  exists r h', target_handleEvent call_back t ev s h = (r, h') /\ delivers_to (fun t' => if decide (t' = t) then [ev] else []) h r h'.
Proof.
  intros Hx. unfold target_handleEvent.
  rewrite (se_bind_ok (relay_gets (fun r => the_target r t)) _ h x h); [|unfold relay_gets, se_gets, the_target; unfold relay_of in Hx; by rewrite Hx].
  assert (forall h', relay_of h' = relay_of h -> match t_kind x with InternalEventRelayTarget _ => True | _ => False end ->
    delivered (fun t' => if decide (t' = t) then [ev] else []) (relay_of h) (relay_of h')) as Hsame.
  { intros h' E Hk. split; [by rewrite E..|]. intros t'. rewrite E. case_decide as E'; [|destruct (targets _ !! t'); [cbn; by rewrite deliver_nil|done]].
    subst t'. rewrite Hx. cbn. unfold deliver. by destruct (t_kind x). }
  destruct (t_kind x) as [p|[]] eqn:Ek.
  - destruct (run_relay_modify (upd_target t (fun y => mkTarget (EventCollector (p ++ [ev])) (t_Subscriptions y))) h) as (h1 & E1 & R1 & S1 & P1 & Q1).
    exists (Ok tt), h1. split; [exact E1|]. split_and!; [done| |done|done|by rewrite Q1]. split; [by rewrite R1..|]. intros t'. rewrite R1, lookup_upd_target. case_decide as E.
    + subst t'. rewrite Hx. cbn. unfold deliver. rewrite Ek. by rewrite (the_target_known _ _ _ Hx).
    + destruct (targets _ !! t'); [cbn; by rewrite deliver_nil|done].
  - destruct (call_back t ev s h) as [r h'] eqn:E. exists r, h'. split; [done|]. destruct (callback_apart t ev s h) as (A & B & C & D & F). rewrite E in A, B, C, D, F.
    split_and!; [done|by apply Hsame|done..].
  - exists (Ok tt), h. split; [done|]. split_and!; [done|by apply Hsame|done..].
Qed.

Lemma run_relay ev s h t x : m_IDTargetMap (relay_of h) !! es_ID s = Some (Some t) -> targets (relay_of h) !! t = Some x ->
  exists r h', relay_handleEvent call_back ev s h = (r, h') /\ delivers_to (fun t' => if decide (t' = t) then [ev] else []) h r h'.
Proof.
  intros Hi Hx. unfold relay_handleEvent.
  rewrite (se_bind_ok (relay_gets (fun r => default None (m_IDTargetMap r !! es_ID s))) _ h (Some t) h);
    [|unfold relay_gets, se_gets; unfold relay_of in Hi; by rewrite Hi].
  destruct (run_relay_modify (put_ids (fun m => <[es_ID s := default None (m !! es_ID s)]> m)) h) as (h1 & E1 & R1 & S1 & P1 & Q1).
  rewrite (se_bind_ok _ _ _ _ _ E1).
  assert (relay_of h1 = relay_of h) as R1' by (rewrite R1; unfold put_ids; rewrite Hi; cbn; rewrite insert_id by done; by destruct (relay_of h)).
  destruct (run_target t ev s h1 x) as (r & h' & E2 & A & B & C & D & F); [by rewrite R1'|]. exists r, h'. split; [exact E2|].
  rewrite R1' in B. split_and!; [done|done|congruence..].
Qed.

Lemma run_call e ev s h : events (get_eq (ext h)) !! e = Some ev ->
  (es_HandlerName s = relay_name -> exists t x, m_IDTargetMap (relay_of h) !! es_ID s = Some (Some t) /\ targets (relay_of h) !! t = Some x) ->
  exists h', call_plugin plugins_with_relay e s h = (Ok tt, h') /\ delivers_to (sent (relay_of h) ev s) h (Ok tt) h'.
Proof.
  intros He Hs. enough (exists r h', plugins_with_relay (es_HandlerName s) e s h = (r, h') /\ delivers_to (sent (relay_of h) ev s) h r h') as (r & h' & E & A & B).
  { exists h'. unfold call_plugin, se_try. rewrite E. destruct r as [[]|x]; [done|]. cbn in A. by rewrite A. }
  unfold plugins_with_relay. destruct (String.eqb_spec (es_HandlerName s) relay_name) as [Eh|Eh].
  - destruct (Hs Eh) as (t & x & Ht & Hx). destruct (run_relay ev s h t x Ht Hx) as (r & h' & E & A & B & C & D & F). exists r, h'.
    assert (get_event e h = (Ok ev, h)) as Hg by (unfold get_event; by rewrite He). rewrite (se_bind_ok _ _ _ _ _ Hg). split; [exact E|].
    split_and!; [done| |done..]. apply (delivered_ext _ _ _ _) with (2 := B). intros t'. unfold sent, owner. rewrite Eh, Ht, String.eqb_refl. cbn.
    by destruct (decide (t' = t)) as [->|]; [rewrite bool_decide_eq_true_2|rewrite bool_decide_eq_false_2 by congruence].
  - destruct (others (es_HandlerName s) e s h) as [r h'] eqn:E. exists r, h'. split; [done|]. destruct (others_apart _ e s Eh h) as (A & B & C & D & F).
    rewrite E in A, B, C, D, F. cbn in A, B, C, D, F. split_and!; [done| |done..]. rewrite B. apply delivered_nothing. intros t. unfold sent.
    by apply String.eqb_neq in Eh as ->.
Qed.

(** * All of them *)

Definition all_sent (plugins : list string) (r : Relay) (ev : Event) (subs : list EventSubscription) (t : tid) : list Event :=
  concat (map (fun s => if wants plugins ev s then sent r ev s t else []) subs).

Lemma run_dispatch callback e ev r0 subs : forall h f, events (get_eq (ext h)) !! e = Some ev -> delivered f r0 (relay_of h) ->
  (forall s, s ∈ subs -> es_EventName s = ev_Name ev -> exists b, es_matches s ev = Ok b) ->
  (forall s, s ∈ subs -> es_HandlerName s = relay_name -> exists t x, m_IDTargetMap r0 !! es_ID s = Some (Some t) /\ targets r0 !! t = Some x) ->
  exists h', se_iter (dispatch_one callback plugins_with_relay None e) subs h = (Ok tt, h') /\
    delivers_to (all_sent (plugins_of h) r0 ev subs) h (Ok tt) h'.
Proof.
  induction subs as [|s subs IH]; intros h f He Hf Hm Hr; [exists h; split; [done|]; split_and!; [done| |done..]; by apply delivered_nothing|].
  cbn [se_iter]. pose proof (dispatch_one_run callback plugins_with_relay e ev s h He (Hm s ltac:(left))) as Hd.
  assert (exists h1, dispatch_one callback plugins_with_relay None e s h = (Ok tt, h1) /\
    delivers_to (fun t => if wants (plugins_of h) ev s then sent r0 ev s t else []) h (Ok tt) h1) as (h1 & E1 & A & B & C & D & F).
  { rewrite Hd. fold (plugins_of h). destruct (wants (plugins_of h) ev s); [|exists h; split; [done|]; split_and!; [done| |done..]; by apply delivered_nothing].
    assert (forall t, sent (relay_of h) ev s t = sent r0 ev s t) as Es by (intros t; unfold sent, owner; by rewrite (dl_ids _ _ _ Hf)).
    destruct (run_call e ev s h He) as (h1 & E1 & A & B & C).
    { intros Eh. destruct (Hr s ltac:(left) Eh) as (t & x & Ht & Hx). exists t. rewrite (dl_ids _ _ _ Hf), (dl_targets _ _ _ Hf), Hx. by eexists. }
    exists h1. split; [exact E1|]. split_and!; [done|by apply (delivered_ext (sent (relay_of h) ev s))|apply C..]. }
  rewrite (se_bind_ok _ _ _ _ _ E1).
  destruct (IH h1 _ ltac:(by rewrite F) (delivered_trans _ _ _ _ _ Hf B)) as (h2 & E2 & _ & B2 & C2 & D2 & F2); [intros; apply Hm; [by right|done]|intros; apply Hr; [by right|done]|].
  exists h2. split; [exact E2|]. split_and!; [done| |congruence..]. rewrite C in B2. exact (delivered_trans _ _ _ _ _ B B2).
Qed.

Lemma concat_once {A B} (p : A -> bool) (x : B) l : NoDup l -> (forall a b, a ∈ l -> b ∈ l -> p a = true -> p b = true -> a = b) ->
  concat (map (fun a => if p a then [x] else []) l) = if existsb p l then [x] else [].
Proof.
  intros Hn Hp. induction Hn as [|a l Ha Hn IH]; [done|]. cbn. destruct (p a) eqn:E; cbn.
  - rewrite IH by (intros; apply Hp; [by right|by right|done..]). destruct (existsb p l) eqn:Ex; [|done]. apply existsb_exists in Ex as (b & Hb & Eb).
    destruct Ha. apply list_elem_of_In in Hb. rewrite (Hp a b); [done|left|by right|done..].
  - apply IH. intros; apply Hp; [by right|by right|done..].
Qed.

Lemma all_sent_once h ev cl x c : wired (relay_of h) (subs_of h) -> is_Some (getPluginByName (plugins_of h) relay_name) ->
  eventSubscriptions (relay_of h) !! cl = Some x -> es_pEventCollector x = Some c ->
  all_sent (plugins_of h) (relay_of h) ev (subs_of h) c = match es_subscriptionMap x !! ev_Name ev with Some _ => [ev] | None => [] end.
Proof.
  intros [Hto Hco] Hp Hx Hc. destruct (co_collector _ Hco cl x c Hx Hc) as (t & Ht & Hcl).
  set (p s := wants (plugins_of h) ev s && (String.eqb (es_HandlerName s) relay_name && bool_decide (owner (relay_of h) s = Some c))).
  assert (forall s, s ∈ subs_of h -> p s = true <-> s ∈ t_Subscriptions t /\ es_EventName s = ev_Name ev) as Hps.
  { intros s Hs. unfold p, wants. rewrite !andb_true_iff, !bool_decide_eq_true, !String.eqb_eq. split.
    - intros [[[E _] _] [_ Ho]]. split; [|done]. unfold owner in Ho. destruct (m_IDTargetMap (relay_of h) !! es_ID s) as [o|] eqn:Ei; [|done]. cbn in Ho. subst o.
      destruct (to_back _ _ Hto _ _ Ei) as (t' & s' & Ht' & Hs' & Es). assert (t' = t) as -> by congruence.
      assert (s' = s) as <-; [|done]. apply (same_ID (subs_of h)); [apply Hto|by apply (to_known _ _ Hto c t)|done..].
    - intros [Hin E]. destruct (to_known _ _ Hto c t s Ht Hin) as (_ & Hh & Hf & Hi). rewrite Hh. split_and!; [done| |done|done|].
      + unfold es_matches. by rewrite Hf.
      + unfold owner. by rewrite Hi. }
  assert (NoDup (subs_of h)) as Hn by (apply (NoDup_fmap_1 es_ID), Hto).
  transitivity (concat (map (fun s => if p s then [ev] else []) (subs_of h))).
  { unfold all_sent. f_equal. apply map_ext. intros s. unfold p, sent. by destruct (wants (plugins_of h) ev s). }
  rewrite concat_once; [|done|].
  - destruct (existsb p (subs_of h)) eqn:Ex.
    + apply existsb_exists in Ex as (s & Hs%list_elem_of_In & Es). apply Hps in Es as [Hin En]; [|done].
      assert (es_subscriptionMap x !! ev_Name ev = Some (es_ID s)) as -> by (apply (proj2 Hcl); by exists s). done.
    + destruct (es_subscriptionMap x !! ev_Name ev) as [i|] eqn:Ei; [|done]. apply (proj2 Hcl) in Ei as (s & Hin & En & _).
      destruct (to_known _ _ Hto c t s Ht Hin) as (Hs & _). assert (existsb p (subs_of h) = true); [|congruence].
      apply existsb_exists. exists s. split; [by apply list_elem_of_In|]. by apply Hps.
  - intros a b Ha Hb Pa%Hps Pb%Hps; [|done..]. destruct Pa as [Pa Ea], Pb as [Pb Eb]. apply (same_ID (subs_of h)); [apply Hto|done..|].
    assert (es_subscriptionMap x !! ev_Name ev = Some (es_ID a)) as E1 by (apply (proj2 Hcl); by exists a).
    assert (es_subscriptionMap x !! ev_Name ev = Some (es_ID b)) as E2 by (apply (proj2 Hcl); by exists b). congruence.
Qed.

(** C14: an event reaches every client that subscribed to its name, once.  The
    interpreter, which has the relay as a plugin and no monitor node, dispatches
    an event for which no filter of a subscription to its name throws; the other
    plugins and the callbacks do anything that leaves the relay with its
    targets and clients, the events, the plugins and the subscriptions as they are, and end
    normally or with a [std::runtime_error].  Then the event is added at the end
    of the pending events of each collector whose client subscribed to the name
    of the event, once, and no other client's collector changes; clients,
    collectors, relay and interpreter stay in step. *)
Theorem events_delivered callback h e ev : wired (relay_of h) (subs_of h) -> is_Some (getPluginByName (plugins_of h) relay_name) ->
  events (get_eq (ext h)) !! e = Some ev ->
  (forall s, s ∈ subs_of h -> es_EventName s = ev_Name ev -> exists b, es_matches s ev = Ok b) ->
  exists h', se_iter (dispatch_one callback plugins_with_relay None e) (subs_of h) h = (Ok tt, h') /\ wired (relay_of h') (subs_of h') /\
    forall cl x c, eventSubscriptions (relay_of h) !! cl = Some x -> es_pEventCollector x = Some c ->
      pending (the_target (relay_of h') c) =
      pending (the_target (relay_of h) c) ++ match es_subscriptionMap x !! ev_Name ev with Some _ => [ev] | None => [] end.
Proof.
  intros Hw Hp He Hm. pose proof Hw as [Hto Hco].
  destruct (run_dispatch callback e ev (relay_of h) (subs_of h) h (fun _ => []) He) as (h' & E & _ & B & C & D & F); [by apply delivered_nothing|done| |].
  { intros s Hs Hh. destruct (to_all _ _ Hto s Hs Hh) as (t & x & Ht & Hin). exists t, x. split; [|done]. by apply (to_known _ _ Hto t x s). }
  exists h'. split; [exact E|]. rewrite D. split; [by eapply delivered_wired|]. intros cl x c Hx Hc.
  destruct (co_collector _ Hco cl x c Hx Hc) as (t & Ht & [[l Hl] _]). unfold the_target. rewrite (dl_targets _ _ _ B), Ht.
  rewrite (all_sent_once h ev cl x c Hw Hp Hx Hc). cbn. unfold pending, deliver. by rewrite Hl.
Qed.
End Delivery.

(** The client 0 waits for the event a, the client 1 for the event b. *)
Definition subscribed : heap ClientWorld :=
  snd (session_subscribe 1%nat "b" (snd (session_subscribe 0%nat "a" clients_heap))).
Lemma subscribed_wired : wired (relay_of subscribed) (subs_of subscribed).
Proof.
  destruct (session_changes clients_heap 0%nat "a" two_clients_wired) as [(i & h1 & E1 & Hw1 & N1 & P1 & _) _];
    [vm_compute; by eexists|vm_compute; by eexists|vm_compute; reflexivity|].
  unfold subscribed. rewrite E1. cbn [snd].
  destruct (session_changes h1 1%nat "b" Hw1) as [(j & h2 & E2 & Hw2 & _) _].
  - rewrite (nb_others _ _ _ _ N1) by done. vm_compute. by eexists.
  - rewrite P1. vm_compute. by eexists.
  - replace h1 with (snd (session_subscribe 0%nat "a" clients_heap)) by (by rewrite E1). vm_compute. reflexivity.
  - by rewrite E2.
Qed.

Definition client (n : esid) : EventSubscriptionSession := the_session (relay_of subscribed) n.

Lemma events_delivered_witness :
  let h := snd (se_iter (dispatch_one (fun _ _ _ _ h => h) (plugins_with_relay (fun _ _ _ => mret tt) (fun _ _ _ => mret tt)) None 0%nat) (subs_of subscribed) subscribed) in
  pending (the_target (relay_of h) 0%nat) = [Event_name NullDate "a"] /\ pending (the_target (relay_of h) 1%nat) = [].
Proof.
  assert (bystander (mret tt)) as Hb by (intros h; by split_and!).
  destruct (events_delivered (fun _ _ _ => mret tt) (fun _ _ _ => mret tt) (fun _ _ _ _ => Hb) (fun _ _ _ => Hb) (fun _ _ _ _ h => h)
    subscribed 0%nat (Event_name NullDate "a") subscribed_wired) as (h' & E & _ & H).
  - vm_compute. by eexists.
  - reflexivity.
  - intros s Hs _. exists true. change (subs_of subscribed) with [mkSubscription "a" relay_name "a_internal_relay" None [] foMatchAll; mkSubscription "b" relay_name "b_internal_relay" None [] foMatchAll] in Hs.
    repeat (apply elem_of_cons in Hs as [->|Hs]; [reflexivity|]). by apply elem_of_nil in Hs.
  - rewrite E. cbn [snd]. split.
    + rewrite (H 0%nat (client 0%nat) 0%nat ltac:(vm_compute; reflexivity) ltac:(vm_compute; reflexivity)). vm_compute. reflexivity.
    + rewrite (H 1%nat (client 1%nat) 1%nat ltac:(vm_compute; reflexivity) ltac:(vm_compute; reflexivity)). vm_compute. reflexivity.
Defined.
