(* ===== verification/Sessions.v ===== *)
(** The sessions of clients ([session.cpp], [sessionmanager.cpp]). *)
From stdpp Require Import base option list strings gmap gmultiset sorting.
From Stdlib Require Import ZArith Lia Ascii PrimFloat.
From Stdlib Require String.
From S2P Require Import Prelude CxxString Base NumConv Encoding ModelConst Calendar DateTools Event EventCreate PropertyTree EventQueue EventInterpreter State.
From S2P Require Import Security EventRelay.

Open Scope string_scope.
Open Scope list_scope.
Open Scope Z_scope.

Definition sptr := nat.

(** [class Session] *)
Record Session := mkSession {
  m_Token : string; m_UsageCount : Z; m_LastTouched : DateTime; m_SessionTimeoutSec : Z; m_pUser : option User;
  m_IsApplicationSession : bool; m_subscriptions : list esid
}.
(** [class SessionTokenGenerator] *)
Record TokenGenerator := mkGenerator { m_Salt : string; m_VersionInfo : string; m_NextSessionID : Z }.
(** [class SessionManager]; its map holds pointers, which may be NULL.  [held]
    counts the pointers that requests hold, which [getSession] gives them. *)
Record SessionManager := mkSessionManager {
  session_objects : gmap sptr Session; m_Sessions : gmap string (option sptr); m_timeoutSecs : Z; m_maxSessionCount : Z;
  m_pRelayTarget : option tid; generator : TokenGenerator; held : gmultiset sptr
}.
Class SessionWorld (W : Type) := {
  get_sm : W -> SessionManager;
  put_sm : SessionManager -> W -> W;
  get_put_sm : forall s w, get_sm (put_sm s w) = s
}.

Definition se_with_usage (n : Z) (s : Session) : Session :=
  mkSession (m_Token s) n (m_LastTouched s) (m_SessionTimeoutSec s) (m_pUser s) (m_IsApplicationSession s) (m_subscriptions s).
Definition se_with_touched (t : DateTime) (s : Session) : Session :=
  mkSession (m_Token s) (m_UsageCount s) t (m_SessionTimeoutSec s) (m_pUser s) (m_IsApplicationSession s) (m_subscriptions s).
Definition setTimeout (_timeout : Z) (s : Session) : Session :=
  mkSession (m_Token s) (m_UsageCount s) (m_LastTouched s) _timeout (m_pUser s) (m_IsApplicationSession s) (m_subscriptions s).
Definition se_with_user (u : option User) (s : Session) : Session :=
  mkSession (m_Token s) (m_UsageCount s) (m_LastTouched s) (m_SessionTimeoutSec s) u (m_IsApplicationSession s) (m_subscriptions s).
Definition markAsApplicationSession (s : Session) : Session :=
  mkSession (m_Token s) (m_UsageCount s) (m_LastTouched s) (m_SessionTimeoutSec s) (m_pUser s) true (m_subscriptions s).
Definition se_with_subscriptions (l : list esid) (s : Session) : Session :=
  mkSession (m_Token s) (m_UsageCount s) (m_LastTouched s) (m_SessionTimeoutSec s) (m_pUser s) (m_IsApplicationSession s) l.

(** * One session; [now] is the clock *)

Definition Session_new (now : DateTime) (_tokenID : string) : Session := mkSession _tokenID 0 now 30 None false [].
Definition isUsed (s : Session) : bool := negb (m_UsageCount s =? 0).
Definition isStillValid (now : DateTime) (s : Session) : res bool :=
  if isUsed s then Ok true else dt_gt (addSeconds (m_SessionTimeoutSec s) (m_LastTouched s)) now.
Definition touch (now : DateTime) (s : Session) : Session := se_with_touched now s.
Definition use (s : Session) : res Session := n ← int_checked (m_UsageCount s + 1); Ok (se_with_usage n s).
Definition unuse (now : DateTime) (s : Session) : res Session :=
  n ← int_checked (m_UsageCount s - 1); Ok (touch now (se_with_usage (if n <? 0 then 0 else n) s)).
Definition getIdleTime (s : Session) : Z := wrapU 32 (secondsSinceEpoch (m_LastTouched s)).

(** * Tokens *)

(** The four bytes of an [unsigned int] in memory, the lowest first. *)
Definition le_bytes (z : Z) : string :=
  fold_right (fun i s => String (ascii_of_N (Z.to_N (Z.shiftr (wrapU 32 z) (8 * i) mod 256))) s) "" [0; 1; 2; 3].

Section Token.
Context (SHA256 : string -> list Z).
Context {LC : Libc}.

Definition digest (s : string) : string := hexEncodeByteArray (SHA256 s).
Definition generate (now : DateTime) (g : TokenGenerator) : res (string * TokenGenerator) :=
  date ← toPrettyString now;
  let stage1 := digest (m_Salt g +:+ m_VersionInfo g +:+ le_bytes (m_NextSessionID g) +:+ date) in
  Ok (digest stage1, mkGenerator (m_Salt g) (m_VersionInfo g) (wrapU 32 (m_NextSessionID g + 1))).
End Token.

(** * The manager *)

(** The entries of a [std::map] in the order of its iterators. *)
Definition key_le (a b : string * option sptr) : Prop := String.leb (fst a) (fst b) = true.
#[export] Instance key_le_dec a b : Decision (key_le a b) := decide (String.leb (fst a) (fst b) = true).
Definition in_order (M : gmap string (option sptr)) : list (string * option sptr) := merge_sort key_le (map_to_list M).

Section Manager.
Context {ical W : Type} {Sched : Schedule ical} {EW : EventWorld ical W} {SW : StateWorld W} {LC : Libc}.
Context {IW : InterpreterWorld W} {RW : RelayWorld W} {ScW : SecurityWorld W} {SsW : SessionWorld W}.
Context (new_ICalSchedule : string -> string -> DateTime -> res ical).
Context (callback : notification -> lid -> nid -> nid -> heap W -> heap W).
Context (SHA256 : string -> list Z).
Local Notation "'M' A" := (SE (heap W) A) (at level 10, A at next level).

Definition sm_gets {A} (f : SessionManager -> A) : M A := se_gets (fun h => f (get_sm (ext h))).
Definition sm_modify (f : SessionManager -> SessionManager) : M unit := se_modify (set_ext (fun w => put_sm (f (get_sm w)) w)).
Definition put_objects (f : gmap sptr Session -> gmap sptr Session) (m : SessionManager) : SessionManager :=
  mkSessionManager (f (session_objects m)) (m_Sessions m) (m_timeoutSecs m) (m_maxSessionCount m) (m_pRelayTarget m) (generator m) (held m).
Definition put_Sessions (f : gmap string (option sptr) -> gmap string (option sptr)) (m : SessionManager) : SessionManager :=
  mkSessionManager (session_objects m) (f (m_Sessions m)) (m_timeoutSecs m) (m_maxSessionCount m) (m_pRelayTarget m) (generator m) (held m).
Definition put_relay_target (t : option tid) (m : SessionManager) : SessionManager :=
  mkSessionManager (session_objects m) (m_Sessions m) (m_timeoutSecs m) (m_maxSessionCount m) t (generator m) (held m).
Definition put_generator (g : TokenGenerator) (m : SessionManager) : SessionManager :=
  mkSessionManager (session_objects m) (m_Sessions m) (m_timeoutSecs m) (m_maxSessionCount m) (m_pRelayTarget m) g (held m).
Definition put_held (f : gmultiset sptr -> gmultiset sptr) (m : SessionManager) : SessionManager :=
  mkSessionManager (session_objects m) (m_Sessions m) (m_timeoutSecs m) (m_maxSessionCount m) (m_pRelayTarget m) (generator m) (f (held m)).
Definition no_session : Session := Session_new NullDate "".
Definition the_object (m : SessionManager) (s : sptr) : Session := default no_session (session_objects m !! s).
Definition set_object (s : sptr) (x : Session) : M unit := sm_modify (put_objects <[s := x]>).
Definition object (s : sptr) : M Session := sm_gets (fun m => the_object m s).

(** ** The end of a session *)

(** [~Session]: its subscriptions are held by nobody else, or by a request that
    holds the session, too. *)
Definition destroy_session (s : sptr) : M unit :=
  x ← object s; _ ← se_iter destroy_subscriptions (m_subscriptions x); sm_modify (put_objects (delete s)).
(** Whether an entry of the map or a request points to a session. *)
Definition referenced (m : SessionManager) (s : sptr) : bool :=
  bool_decide (s ∈ held m) || existsb (fun i => bool_decide (snd i = Some s)) (map_to_list (m_Sessions m)).
(** One pointer to [s] is gone: with the last one the session is destroyed. *)
Definition drop_pointer (p : option sptr) : M unit :=
  match p with
  | None => mret tt
  | Some s => r ← sm_gets (fun m => referenced m s); if r : bool then mret tt else destroy_session s
  end.
(** [m_Sessions.erase(i)] *)
Definition erase_entry (_id : string) : M unit :=
  p ← sm_gets (fun m => default None (m_Sessions m !! _id));
  _ ← sm_modify (put_Sessions (delete _id));
  drop_pointer p.
(** [m_Sessions[_id] = s] *)
Definition assign_entry (_id : string) (s : sptr) : M unit :=
  p ← sm_gets (fun m => default None (m_Sessions m !! _id));
  _ ← sm_modify (put_Sessions <[_id := Some s]>);
  drop_pointer p.

(** ** Setting up *)

Definition kSessionCleanupInterval : Z := 30.
Definition sendCleanupEvent : M unit :=
  now ← gets clock;
  start ← se_lift (toRFC2445IcalDataTime now);
  push_new new_ICalSchedule callback
    (ev_set_all [(p_ICalStartTime, start); (p_ICalRRule, "FREQ=SECONDLY;INTERVAL=" +:+ intToString kSessionCleanupInterval false)]
      (Event_name now EventName.WebSessionCleanup)).

Definition setupCleanupEventRelayTarget : M unit :=
  target ← sm_gets m_pRelayTarget;
  match target with
  | Some _ => mret tt
  | None =>
    plugins ← interpreter_gets m_Plugins;
    match getPluginByName plugins relay_name with
    | None => se_throw (UndefinedBehaviour "call on NULL")
    | Some _ =>
      t ← new_target (InternalEventRelayTarget false);
      _ ← sm_modify (put_relay_target (Some t));
      subs ← interpreter_gets m_Subscriptions;
      cleanupEventSubscription ← se_lift (new_EventSubscription subs EventName.WebSessionCleanup relay_name None);
      _ ← subscribeTo t cleanupEventSubscription;
      _ ← relay_modify (upd_target t (fun x => mkTarget (InternalEventRelayTarget true) (t_Subscriptions x)));
      sendCleanupEvent
    end
  end.

Definition createSession : M sptr :=
  _ ← setupCleanupEventRelayTarget;
  now ← gets clock;
  g ← sm_gets generator;
  r ← se_lift (generate SHA256 now g);
  _ ← sm_modify (put_generator (snd r));
  timeout ← sm_gets m_timeoutSecs;
  s ← sm_gets (fun m => fresh (dom (session_objects m)));
  _ ← set_object s (setTimeout timeout (Session_new now (fst r)));
  mret s.

(** [registerSession] and [registerApplicationSession]; the number of sessions
    is compared as an [unsigned int]. *)
Definition register (change : Session -> Session) : M string :=
  n ← sm_gets (fun m => Z.of_nat (size (m_Sessions m)));
  limit ← sm_gets m_maxSessionCount;
  if n >=? limit then mret ""
  else
    s ← createSession;
    x ← object s;
    _ ← set_object s (change x);
    x ← object s;
    _ ← assign_entry (m_Token x) s;
    mret (m_Token x).
Definition registerSession : M string := register (fun s => s).
Definition registerApplicationSession : M string := register markAsApplicationSession.

(** ** Finding *)

(** [operator[]] makes an entry for an identifier that it does not find; the
    request that gets the pointer keeps it until it ends. *)
Definition getSession (_id : string) : M (option sptr) :=
  rv ← sm_gets (fun m => default None (m_Sessions m !! _id));
  _ ← sm_modify (put_Sessions <[_id := rv]>);
  _ ← sm_modify (put_held (fun H => match rv with Some s => {[+ s +]} ⊎ H | None => H end));
  mret rv.
(** The end of a request. *)
Definition release (p : option sptr) : M unit :=
  _ ← sm_modify (put_held (fun H => match p with Some s => H ∖ {[+ s +]} | None => H end));
  drop_pointer p.
Definition removeSession (_id : string) : M unit :=
  i ← sm_gets (fun m => m_Sessions m !! _id);
  match i with Some _ => erase_entry _id | None => mret tt end.
Definition touchSession (_id : string) : M unit :=
  i ← sm_gets (fun m => m_Sessions m !! _id);
  match i with
  | None => mret tt
  | Some None => se_throw (UndefinedBehaviour "call on NULL")
  | Some (Some s) => now ← gets clock; x ← object s; set_object s (touch now x)
  end.

(** ** Removing *)

Definition cleanup_one (now : DateTime) (i : string * option sptr) : M unit :=
  match snd i with
  | None => erase_entry (fst i)
  | Some s =>
    x ← object s;
    valid ← se_lift (isStillValid now x);
    if valid : bool then mret tt else erase_entry (fst i)
  end.
(** Also the callback of the event that [sendCleanupEvent] raises.  The loop
    erases only the entry it is at, so that it visits the entries there are at
    the start. *)
Definition cleanupSessions : M unit :=
  now ← gets clock;
  entries ← sm_gets (fun m => in_order (m_Sessions m));
  se_iter (cleanup_one now) entries.

(** [oldest] is an iterator, here the key it points to. *)
Fixpoint find_oldest (age : Z) (oldest : option string) (l : list (string * option sptr)) : M (option string) :=
  match l with
  | [] => mret oldest
  | (k, None) :: l => _ ← erase_entry k; find_oldest age oldest l
  | (k, Some s) :: l => x ← object s; find_oldest age (if getIdleTime x >? age then Some k else oldest) l
  end.
Definition cleanupOldestSession : M unit :=
  entries ← sm_gets (fun m => in_order (m_Sessions m));
  oldest ← find_oldest 0 None entries;
  match oldest with Some k => erase_entry k | None => mret tt end.

(** ** What a request does with its session *)

Definition inheritUserFromSecurity (s : sptr) : M unit :=
  u ← sec_gets m_LoggedInUser; x ← object s; set_object s (se_with_user u x).
Definition useSession (s : sptr) : M unit := x ← object s; x ← se_lift (use x); set_object s x.
Definition unuseSession (s : sptr) : M unit := now ← gets clock; x ← object s; x ← se_lift (unuse now x); set_object s x.

Definition find_subscription (r : Relay) (x : Session) (_token : string) : option esid :=
  List.find (fun e => String.eqb (es_subscription_id (the_session r e)) _token) (m_subscriptions x).
Definition getEventSubscription (s : sptr) (_token : string) : M esid :=
  x ← object s;
  e ← relay_gets (fun r => find_subscription r x _token);
  match e with Some e => mret e | None => se_throw (RuntimeError (" Token " +:+ _token +:+ " not found!")) end.
Definition createEventSubscription (s : sptr) (_token : string) : M esid :=
  x ← object s;
  e ← relay_gets (fun r => find_subscription r x _token);
  match e with
  | Some e => mret e
  | None =>
    e ← relay_gets (fun r => fresh (dom (eventSubscriptions r)));
    _ ← relay_modify (put_sessions <[e := mkSubscriptionSession _token None ∅]>);
    _ ← set_object s (se_with_subscriptions (m_subscriptions x ++ [e]) x);
    mret e
  end.
Definition subscribeEventSubscription (s : sptr) (_token _name : string) : M unit :=
  e ← createEventSubscription s _token; _ ← session_subscribe e _name; mret tt.

(** The subscriptions are compared by their identifiers, which reads both. *)
Definition deleteEventSubscription (s : sptr) (subs : option esid) : M unit :=
  x ← object s;
  match subs, m_subscriptions x with
  | _, [] => mret tt
  | None, _ => se_throw (UndefinedBehaviour "call on NULL")
  | Some e, l =>
    r ← relay_gets (fun r => r);
    let same e' := String.eqb (es_subscription_id (the_session r e')) (es_subscription_id (the_session r e)) in
    _ ← set_object s (se_with_subscriptions (List.filter (fun e' => negb (same e')) l) x);
    se_iter destroy_subscriptions (List.filter same l)
  end.
Definition unsubscribeEventSubscription (s : sptr) (_token _name : string) : M unit :=
  sub ← se_try (e ← getEventSubscription s _token; mret (Some e)) is_std_exception (fun _ => mret None);
  _ ← match sub with
      | Some e => se_try (session_unsubscribe e _name) is_std_exception (fun _ => mret tt)
      | None => mret tt
      end;
  deleteEventSubscription s sub.
End Manager.
