(* ===== verification/SessionFacts.v ===== *)
(** Which sessions are removed ([sessionmanager.cpp]), and what goes with them. *)
From stdpp Require Import base option list strings gmap gmultiset sorting.
From Stdlib Require Import ZArith Lia Ascii.
From Stdlib Require String.
From S2P Require Import Prelude CxxString Base DateTools Event PropertyTree EventQueue EventInterpreter Security EventRelay RelayFacts RelayClients Sessions.

Open Scope string_scope.
Open Scope list_scope.
Open Scope Z_scope.

(** The session manager is a part of the world of its own. *)
Class SeparateSessions {ical W : Type} (EW : EventWorld ical W) (IW : InterpreterWorld W) (RW : RelayWorld W) (SsW : SessionWorld W) : Prop := {
  sm_of_put_relay : forall r w, get_sm (put_relay r w) = get_sm w;
  sm_of_put_ei : forall i w, get_sm (put_ei i w) = get_sm w;
  relay_of_put_sm : forall m w, get_relay (put_sm m w) = get_relay w;
  ei_of_put_sm : forall m w, get_ei (put_sm m w) = get_ei w;
  eq_of_put_sm : forall m w, get_eq (put_sm m w) = get_eq w
}.

(** * The invariant *)

(** Every entry has its session, no session has two tokens, and the subscriptions
    of a session are known and its own. *)
Record sessions_ok (m : SessionManager) (r : Relay) : Prop := {
  so_entry k s : m_Sessions m !! k = Some (Some s) -> is_Some (session_objects m !! s);
  so_token k k' s : m_Sessions m !! k = Some (Some s) -> m_Sessions m !! k' = Some (Some s) -> k = k';
  so_subs s x : session_objects m !! s = Some x -> NoDup (m_subscriptions x) /\ forall e, e ∈ m_subscriptions x -> is_Some (eventSubscriptions r !! e);
  so_apart s s' x x' e : session_objects m !! s = Some x -> session_objects m !! s' = Some x' ->
    e ∈ m_subscriptions x -> e ∈ m_subscriptions x' -> s = s'
}.
Lemma the_object_known m s x : session_objects m !! s = Some x -> the_object m s = x.
Proof. unfold the_object. by intros ->. Qed.

Section Removing.
Context {ical W : Type} {EW : EventWorld ical W} {IW : InterpreterWorld W} {RW : RelayWorld W} {SsW : SessionWorld W}.
Context {SR : SeparateRelay EW IW RW} {SS : SeparateSessions EW IW RW SsW}.
Implicit Types (h : heap W) (m : SessionManager).

Definition sm_of h : SessionManager := get_sm (ext h).
(** [m] with other sessions and other entries. *)
Definition with_maps (O : gmap sptr Session) (M : gmap string (option sptr)) m : SessionManager := put_objects (fun _ => O) (put_Sessions (fun _ => M) m).

(** ** The relay's operations leave the sessions alone *)

Definition same_rest h h' : Prop := nodes h' = nodes h /\ get_eq (ext h') = get_eq (ext h).
Definition aside {A} (c : SE (heap W) A) : Prop := forall h, sm_of (snd (c h)) = sm_of h /\ same_rest h (snd (c h)).
Lemma aside_bind {A B} (c : SE (heap W) A) (f : A -> SE (heap W) B) : aside c -> (forall x, aside (f x)) -> aside (c ≫= f).
Proof.
  intros Hc Hf h. specialize (Hc h). unfold mbind, se_bind. destruct (c h) as [[x|e] h1]; [|done]. cbn [snd] in Hc.
  destruct Hc as (A1 & A2 & A3), (Hf x h1) as (B1 & B2 & B3). unfold same_rest. split_and!; congruence.
Qed.
Lemma aside_gets {A} (f : heap W -> A) : aside (se_gets f).
Proof. by intros h. Qed.
Lemma aside_ret {A} (x : A) : aside (mret x).
Proof. by intros h. Qed.
Lemma aside_relay f : aside (relay_modify f).
Proof. intros h. unfold sm_of, same_rest. cbn. by rewrite sm_of_put_relay, eq_of_put_relay. Qed.
Lemma aside_interpreter f : aside (interpreter_modify f).
Proof. intros h. unfold sm_of, same_rest. cbn. by rewrite sm_of_put_ei, eq_of_put_ei. Qed.
Hint Resolve aside_bind aside_gets aside_ret aside_relay aside_interpreter : core.
Lemma aside_unsubscribe_all fuel t : aside (unsubscribe_all fuel t).
Proof.
  induction fuel as [|fuel IH]; [by intros h|]. cbn [unsubscribe_all]. apply aside_bind; [by apply aside_gets|]. intros [|s l]; [done|].
  apply aside_bind; [|done]. unfold unsubscribeFrom, removeSubscription. auto.
Qed.
Lemma aside_destroy e : aside (destroy_subscriptions e).
Proof.
  unfold destroy_subscriptions, destroy_target. apply aside_bind; [by apply aside_gets|]. intros [c|]; (apply aside_bind; [|auto]); [|auto].
  apply aside_bind; [by apply aside_gets|]. intros l. apply aside_bind; [apply aside_unsubscribe_all|auto].
Qed.

Lemma run_sm_modify f h : exists h', sm_modify f h = (Ok tt, h') /\ sm_of h' = f (sm_of h) /\ same_rest h h' /\
  relay_of h' = relay_of h /\ subs_of h' = subs_of h.
Proof.
  eexists. split; [done|]. unfold sm_of, same_rest, relay_of, subs_of. cbn. by rewrite get_put_sm, relay_of_put_sm, ei_of_put_sm, eq_of_put_sm.
Qed.

(** ** The subscriptions of one session *)

Lemma run_destroy_all l : forall h, wired (relay_of h) (subs_of h) -> NoDup l -> (forall e, e ∈ l -> is_Some (eventSubscriptions (relay_of h) !! e)) ->
  exists h', se_iter destroy_subscriptions l h = (Ok tt, h') /\ wired (relay_of h') (subs_of h') /\
    clients_gone (relay_of h) (relay_of h') (subs_of h) (subs_of h') (fun e => e ∈ l) /\ sm_of h' = sm_of h /\ same_rest h h'.
Proof.
  induction l as [|e l IH]; intros h Hw Hn Hk.
  { exists h. split_and!; [done|done| |done..]. eapply clients_gone_iff; [|apply clients_gone_none]. intros e. cbn. by rewrite elem_of_nil. }
  apply NoDup_cons in Hn as [He Hn]. cbn [se_iter]. destruct (Hk e) as [x Hx]; [by left|].
  destruct (run_destroy h e x Hw Hx) as (h1 & E1 & Hw1 & G1). rewrite (se_bind_ok _ _ _ _ _ E1).
  destruct (IH h1 Hw1 Hn) as (h2 & E2 & Hw2 & G2 & S2 & N2 & Q2).
  { intros e' He'. destruct (Hk e') as [y Hy]; [by right|]. exists y. apply (cg_clients _ _ _ _ _ G1). split; [done|]. by intros ->. }
  destruct (aside_destroy e h) as (S1 & N1 & Q1). rewrite E1 in S1, N1, Q1. cbn [snd] in S1, N1, Q1.
  exists h2. split_and!; [done|done| |congruence|split; congruence].
  eapply clients_gone_iff; [|eapply clients_gone_trans; [apply Hw|exact G1|exact G2|]].
  - intros e'. cbn. rewrite elem_of_cons. split; [intros [->|?]; auto|intros [->|?]; auto].
  - by intros e' He' ->.
Qed.

(** ** The end of some sessions *)

(** From [h] to [h'], the sessions [D] ended, with their subscriptions, and the
    entries are [M]. *)
Record removed (D : sptr -> Prop) (M : gmap string (option sptr)) h h' : Prop := {
  rm_entries : m_Sessions (sm_of h') = M;
  rm_objects s x : session_objects (sm_of h') !! s = Some x <-> session_objects (sm_of h) !! s = Some x /\ ~ D s;
  rm_others : sm_of h' = with_maps (session_objects (sm_of h')) M (sm_of h);
  rm_clients : clients_gone (relay_of h) (relay_of h') (subs_of h) (subs_of h')
    (fun e => exists s, D s /\ e ∈ m_subscriptions (the_object (sm_of h) s));
  rm_rest : same_rest h h'
}.
Definition good h : Prop := sessions_ok (sm_of h) (relay_of h) /\ wired (relay_of h) (subs_of h).

Lemma removed_none h : removed (fun _ => False) (m_Sessions (sm_of h)) h h.
Proof.
  split; [done|naive_solver|by destruct (sm_of h)| |done].
  eapply clients_gone_iff; [|apply clients_gone_none]. naive_solver.
Qed.
Lemma removed_iff D D' M h h' : (forall s, D s <-> D' s) -> removed D M h h' -> removed D' M h h'.
Proof.
  intros H [A B C E F]. split; [done| |done| |done].
  - intros s x. by rewrite B, H.
  - eapply clients_gone_iff; [|exact E]. intros e. cbn. by setoid_rewrite H.
Qed.
Lemma removed_object D M h h' s : removed D M h h' -> ~ D s -> the_object (sm_of h') s = the_object (sm_of h) s.
Proof.
  intros H Hn. unfold the_object. f_equal. apply option_eq. intros x. rewrite (rm_objects _ _ _ _ H). tauto.
Qed.
Lemma removed_held D M h h' : removed D M h h' -> held (sm_of h') = held (sm_of h).
Proof. intros H. by rewrite (rm_others _ _ _ _ H). Qed.
Lemma removed_trans D1 D2 M1 M2 h h1 h2 : good h -> removed D1 M1 h h1 -> removed D2 M2 h1 h2 ->
  (forall s, D2 s -> is_Some (session_objects (sm_of h1) !! s)) -> removed (fun s => D1 s \/ D2 s) M2 h h2.
Proof.
  intros [Hs Hw] H1 H2 Hk.
  assert (forall s, D2 s -> ~ D1 s) as Hd by (intros s [x Hx]%Hk; apply (rm_objects _ _ _ _ H1) in Hx; tauto).
  pose proof H1 as [A1 B1 C1 E1 F1]. pose proof H2 as [A2 B2 C2 E2 F2]. split.
  - done.
  - intros s x. rewrite B2, B1. tauto.
  - rewrite C2 at 1. by rewrite C1.
  - eapply clients_gone_iff; [|eapply clients_gone_trans; [apply Hw|exact E1|exact E2|]].
    + intros e. cbn. split.
      * intros [(s & Hd1 & He)|(s & Hd2 & He)]; exists s; [auto|]. split; [by right|]. by rewrite <- (removed_object _ _ _ _ s H1 (Hd s Hd2)).
      * intros (s & [Hd1|Hd2] & He); [left; by exists s|right; exists s]. split; [done|]. by rewrite (removed_object _ _ _ _ s H1 (Hd s Hd2)).
    + intros e (s & Hs2 & He) (s' & Hs1 & He'). rewrite (removed_object _ _ _ _ s H1 (Hd s Hs2)) in He.
      destruct (Hk s Hs2) as [x Hx]. apply B1 in Hx as [Hx Hns]. rewrite (the_object_known _ _ _ Hx) in He.
      unfold the_object in He'. destruct (session_objects (sm_of h) !! s') as [x'|] eqn:Hx'; [|by apply elem_of_nil in He'].
      apply Hns. by rewrite (so_apart _ _ Hs s s' x x' e).
  - destruct F1, F2. split; congruence.
Qed.

(** The invariant holds for what is left. *)
Lemma removed_good D M h h' : good h -> wired (relay_of h') (subs_of h') -> removed D M h h' ->
  (forall k s, M !! k = Some (Some s) -> m_Sessions (sm_of h) !! k = Some (Some s) /\ ~ D s) -> good h'.
Proof.
  intros [[S1 S2 S3 S4] _] Hw [A B C E F] HM. split; [|done]. split.
  - intros k s Hk. rewrite A in Hk. destruct (HM k s Hk) as [Hk' Hn]. destruct (S1 k s Hk') as [x Hx]. exists x. by apply B.
  - intros k k' s. rewrite A. intros [Hk _]%HM [Hk' _]%HM. by apply (S2 k k' s).
  - intros s x [Hx Hn]%B. destruct (S3 s x Hx) as [H1 H2]. split; [done|]. intros e He. destruct (H2 e He) as [y Hy]. exists y.
    apply (cg_clients _ _ _ _ _ E). split; [done|]. intros (s' & Hd & He'). unfold the_object in He'.
    destruct (session_objects (sm_of h) !! s') as [x'|] eqn:Hx'; [|by apply elem_of_nil in He'].
    apply Hn. by rewrite (S4 s s' x x' e).
  - intros s s' x x' e [Hx _]%B [Hx' _]%B. by apply (S4 s s' x x' e).
Qed.

Lemma run_destroy_session h s x : good h -> session_objects (sm_of h) !! s = Some x ->
  exists h', destroy_session s h = (Ok tt, h') /\ wired (relay_of h') (subs_of h') /\ removed (eq s) (m_Sessions (sm_of h)) h h'.
Proof.
  intros [Hs Hw] Hx. unfold destroy_session. rewrite (se_bind_ok (object s) _ h x h) by (unfold object, sm_gets, se_gets; by rewrite (the_object_known (get_sm (ext h)) s x)).
  destruct (so_subs _ _ Hs s x Hx) as [Hn Hk].
  destruct (run_destroy_all _ h Hw Hn Hk) as (h1 & E1 & Hw1 & G1 & S1 & N1). rewrite (se_bind_ok _ _ _ _ _ E1).
  destruct (run_sm_modify (put_objects (delete s)) h1) as (h2 & E2 & S2 & N2 & R2 & Q2). exists h2. split; [done|]. split; [by rewrite R2, Q2|]. split.
  - by rewrite S2, S1.
  - intros s' y. rewrite S2, S1. cbn. rewrite lookup_delete_Some. tauto.
  - rewrite S2, S1. by destruct (sm_of h).
  - rewrite R2, Q2. eapply clients_gone_iff; [|exact G1]. intros e. cbn. rewrite (alone s). by rewrite (the_object_known _ _ _ Hx).
  - destruct N1, N2. split; congruence.
Qed.

(** The session of the entry [k], unless a request still has it. *)
Definition ends m (k : string) (s : sptr) : Prop := m_Sessions m !! k = Some (Some s) /\ s ∉ held m.
Lemma run_erase h k : good h -> exists h', erase_entry k h = (Ok tt, h') /\ good h' /\
  removed (ends (sm_of h) k) (delete k (m_Sessions (sm_of h))) h h'.
Proof.
  intros Hg. unfold erase_entry.
  rewrite (se_bind_ok (sm_gets (fun m => default None (m_Sessions m !! k))) _ h (default None (m_Sessions (sm_of h) !! k)) h eq_refl).
  destruct (run_sm_modify (put_Sessions (delete k)) h) as (h1 & E1 & S1 & N1 & R1 & Q1). rewrite (se_bind_ok _ _ _ _ _ E1).
  set (M := delete k (m_Sessions (sm_of h))).
  assert (removed (fun _ => False) M h h1) as H1.
  { split; [by rewrite S1|rewrite S1; cbn; naive_solver|rewrite S1; by destruct (sm_of h)| |done]. rewrite R1, Q1.
    eapply clients_gone_iff; [|apply clients_gone_none]. naive_solver. }
  assert (good h1) as Hg1.
  { eapply removed_good; [exact Hg|rewrite R1, Q1; apply Hg|exact H1|]. intros k' s [_ H]%lookup_delete_Some. tauto. }
  assert (forall M', (forall s, ~ ends (sm_of h) k s) -> removed (fun _ => False) M' h h1 -> removed (ends (sm_of h) k) M' h h1) as Hno.
  { intros M' Hn. apply removed_iff. intros s. split; [done|apply Hn]. }
  destruct (m_Sessions (sm_of h) !! k) as [[s|]|] eqn:Ek; cbn [default from_option id drop_pointer]; try (exists h1; split; [done|]; split; [done|]; apply Hno; [|exact H1]; intros s [H _]; congruence).
  rewrite (se_bind_ok (sm_gets (fun m => referenced m s)) _ h1 (bool_decide (s ∈ held (sm_of h))) h1).
  2:{ unfold sm_gets, se_gets. f_equal. f_equal. fold (sm_of h1). unfold referenced. rewrite S1. cbn [held m_Sessions put_Sessions].
      enough (existsb (fun i => bool_decide (snd i = Some s)) (map_to_list M) = false) as HM.
      { cbn in HM |- *. unfold M in HM. by rewrite HM, orb_false_r. }
      apply not_true_iff_false. intros ([k' o] & Hin & Ho)%existsb_exists.
      apply list_elem_of_In, elem_of_map_to_list, lookup_delete_Some in Hin as [Hne Hk']. apply bool_decide_eq_true in Ho. cbn in Ho. subst o.
      apply Hne. by apply (so_token _ _ (proj1 Hg) k k' s). }
  case_bool_decide as Eh.
  - exists h1. split; [done|]. split; [done|]. apply Hno; [|exact H1]. intros s' [H Hn]. congruence.
  - destruct (so_entry _ _ (proj1 Hg) k s Ek) as [x Hx].
    destruct (run_destroy_session h1 s x Hg1) as (h2 & E2 & Hw2 & H2); [by rewrite S1|]. exists h2. split; [done|].
    assert (m_Sessions (sm_of h1) = M) as EM by by rewrite S1. rewrite EM in H2.
    assert (removed (ends (sm_of h) k) M h h2) as H.
    { eapply removed_iff; [|eapply removed_trans; [exact Hg|exact H1|exact H2|]].
      - intros s'. cbn. split; [intros [[]|<-]; by split|intros [H _]; right; congruence].
      - intros s' <-. exists x. by rewrite S1. }
    split; [|done]. eapply removed_good; [exact Hg|done|exact H|]. intros k' s' [Hne Hk']%lookup_delete_Some. split; [done|].
    intros [Hs' _]. apply Hne. by apply (so_token _ _ (proj1 Hg) k k' s').
Qed.

(** ** What stays *)

Definition deadline (x : Session) : DateTime := addSeconds (m_SessionTimeoutSec x) (m_LastTouched x).
(** A session in use, or touched less than its timeout ago. *)
Definition alive (now : DateTime) (x : Session) : bool := isUsed x || (tv_sec now <? tv_sec (deadline x)).
Definition stays (now : DateTime) m (i : string * option sptr) : bool := match snd i with Some s => alive now (the_object m s) | None => false end.
(** The clocks are between 1970 and 2038. *)
Definition times_ok (now : DateTime) m (l : list (string * option sptr)) : Prop := in_epoch now /\
  forall k s, (k, Some s) ∈ l -> in_epoch (deadline (the_object m s)).

Lemma isStillValid_alive now x : in_epoch now -> in_epoch (deadline x) -> isStillValid now x = Ok (alive now x).
Proof.
  intros Hn Hd. unfold isStillValid, alive. destruct (isUsed x); [done|]. cbn. unfold dt_gt. fold (deadline x). rewrite difference_ok by done. cbn. f_equal.
  destruct (Z.ltb_spec (tv_sec now) (tv_sec (deadline x))); lia.
Qed.
Lemma run_cleanup_one now h k o : good h -> m_Sessions (sm_of h) !! k = Some o -> times_ok now (sm_of h) [(k, o)] ->
  exists h', cleanup_one now (k, o) h = (Ok tt, h') /\ good h' /\
    (if stays now (sm_of h) (k, o) then h' = h else removed (ends (sm_of h) k) (delete k (m_Sessions (sm_of h))) h h').
Proof.
  intros Hg Hk [Hn Ht]. unfold cleanup_one, stays. cbn [snd fst]. destruct o as [s|]; [|destruct (run_erase h k Hg) as (h' & E & H); by exists h'].
  rewrite (se_bind_ok (object s) _ h (the_object (sm_of h) s) h eq_refl), isStillValid_alive by (done || by apply (Ht k); left).
  rewrite (se_bind_ok (se_lift _) _ h _ h eq_refl). destruct (alive now _); [by exists h|]. destruct (run_erase h k Hg) as (h' & E & H). by exists h'.
Qed.

(** The sessions that expired, of the entries in [l]. *)
Definition expired (now : DateTime) m (l : list (string * option sptr)) (s : sptr) : Prop :=
  s ∉ held m /\ exists k, (k, Some s) ∈ l /\ alive now (the_object m s) = false.
Definition left_of (now : DateTime) m (l : list (string * option sptr)) : gmap string (option sptr) :=
  filter (fun i => ~ (i ∈ l /\ stays now m i = false)) (m_Sessions m).

Lemma left_of_nil now m : left_of now m [] = m_Sessions m.
Proof. apply map_eq. intros k. unfold left_of. apply option_eq. intros o. rewrite map_lookup_filter_Some. split; [tauto|]. intros H. split; [done|]. by intros [?%elem_of_nil _]. Qed.

Lemma run_cleanup now l : forall h, good h -> NoDup (map fst l) -> (forall k o, (k, o) ∈ l -> m_Sessions (sm_of h) !! k = Some o) ->
  times_ok now (sm_of h) l ->
  exists h', se_iter (cleanup_one now) l h = (Ok tt, h') /\ good h' /\ removed (expired now (sm_of h) l) (left_of now (sm_of h) l) h h'.
Proof.
  induction l as [|[k o] l IH]; intros h Hg Hn Hl [Ht1 Ht2].
  { exists h. split; [done|]. split; [done|]. rewrite left_of_nil. eapply removed_iff; [|apply removed_none]. intros s. split; [done|]. by intros (_ & k & ?%elem_of_nil & _). }
  cbn in Hn. apply NoDup_cons in Hn as [Hk Hn]. cbn [se_iter].
  assert (forall k' o', (k', o') ∈ l -> k' <> k) as Hne.
  { intros k' o' Hin ->. apply Hk. by apply (list_elem_of_fmap_2 fst l (k, o')). }
  assert (m_Sessions (sm_of h) !! k = Some o) as Hko by (apply Hl; by left).
  destruct (run_cleanup_one now h k o Hg Hko) as (h1 & E1 & Hg1 & H1).
  { split; [done|]. intros k' s Hin. apply (Ht2 k'). apply elem_of_cons in Hin as [->|[]%elem_of_nil]. by left. }
  rewrite (se_bind_ok _ _ _ _ _ E1). destruct (stays now (sm_of h) (k, o)) eqn:Es.
  - subst h1. destruct (IH h Hg Hn) as (h2 & E2 & Hg2 & H2); [intros; apply Hl; by right|split; [done|]; intros k' s Hin; apply (Ht2 k'); by right|].
    exists h2. split; [done|]. split; [done|].
    assert (left_of now (sm_of h) ((k, o) :: l) = left_of now (sm_of h) l) as ->.
    { apply map_filter_ext. intros k' o' Hk'. rewrite elem_of_cons. split; [tauto|]. intros Hx [[[= -> ->]|Hin] Hst]; [congruence|tauto]. }
    eapply removed_iff; [|exact H2]. intros s. unfold expired. split; intros (Hh & k' & Hin & Ha); (split; [done|]); exists k'; (split; [|done]); [by right|].
    apply elem_of_cons in Hin as [[= -> <-]|Hin]; [|done]. unfold stays in Es. cbn in Es. congruence.
  - assert (forall k' s, (k', Some s) ∈ l -> ~ ends (sm_of h) k s) as Hother.
    { intros k' s Hin [H _]. apply (Hne k' (Some s) Hin). apply (so_token _ _ (proj1 Hg) k' k s); [apply Hl; by right|done]. }
    assert (forall k' s, (k', Some s) ∈ l -> the_object (sm_of h1) s = the_object (sm_of h) s) as Hsame.
    { intros k' s Hin. apply (removed_object _ _ _ _ s H1). by apply (Hother k'). }
    destruct (IH h1 Hg1 Hn) as (h2 & E2 & Hg2 & H2).
    { intros k' o' Hin. rewrite (rm_entries _ _ _ _ H1), lookup_delete_ne by (intros <-; by eapply Hne). apply Hl. by right. }
    { split; [done|]. intros k' s Hin. rewrite (Hsame k') by done. apply (Ht2 k'). by right. }
    exists h2. split; [done|]. split; [done|].
    assert (left_of now (sm_of h) ((k, o) :: l) = left_of now (sm_of h1) l) as ->.
    { apply map_eq. intros k'. apply option_eq. intros o'. unfold left_of. rewrite !map_lookup_filter_Some, (rm_entries _ _ _ _ H1), lookup_delete_Some, elem_of_cons.
      assert ((k', o') ∈ l -> stays now (sm_of h1) (k', o') = stays now (sm_of h) (k', o')) as Hst.
      { intros Hin. unfold stays. cbn. destruct o' as [s|]; [|done]. by rewrite (Hsame k'). }
      split.
      - intros [Hk' Hx]. split; [split; [|done]|].
        + intros <-. apply Hx. assert (o' = o) as -> by congruence. auto.
        + intros [Hin Hs]. apply Hx. rewrite <- Hst by done. auto.
      - intros [[Hkk Hk'] Hx]. split; [done|]. intros [[[= -> ->]|Hin] Hs]; [done|]. apply Hx. rewrite Hst by done. auto. }
    assert (forall s, (exists k', (k', Some s) ∈ l) -> is_Some (session_objects (sm_of h1) !! s)) as Hlive.
    { intros s [k' Hin]. apply (so_entry _ _ (proj1 Hg1) k'). rewrite (rm_entries _ _ _ _ H1), lookup_delete_ne by (intros <-; by eapply Hne). apply Hl. by right. }
    eapply removed_iff; [|eapply removed_trans; [exact Hg|exact H1|exact H2|]].
    + intros s. cbn. unfold expired, ends. rewrite (removed_held _ _ _ _ H1). split.
      * intros [[Hk' Hh]|(Hh & k' & Hin & Ha)]; (split; [done|]).
        -- exists k. assert (o = Some s) as -> by congruence. split; [by left|]. exact Es.
        -- exists k'. split; [by right|]. by rewrite (Hsame k') in Ha.
      * intros (Hh & k' & [E|Hin]%elem_of_cons & Ha); [left; split; [|done]; injection E as -> Eo; congruence|]. right. split; [done|]. exists k'. by rewrite (Hsame k').
    + intros s (_ & k' & Hin & _). apply Hlive. by exists k'.
Qed.

(** ** The oldest session *)

Definition touched m (i : string * option sptr) : bool := match snd i with Some s => getIdleTime (the_object m s) >? 0 | None => false end.
Definition without_empty (l : list (string * option sptr)) (M : gmap string (option sptr)) : gmap string (option sptr) :=
  filter (fun i => ~ (i ∈ l /\ snd i = None)) M.

Lemma run_find_oldest l : forall h oldest, good h -> NoDup (map fst l) -> (forall k o, (k, o) ∈ l -> m_Sessions (sm_of h) !! k = Some o) ->
  exists h', find_oldest 0 oldest l h = (Ok (match last (List.filter (touched (sm_of h)) l) with Some i => Some (fst i) | None => oldest end), h') /\
    good h' /\ removed (fun _ => False) (without_empty l (m_Sessions (sm_of h))) h h'.
Proof.
  induction l as [|[k o] l IH]; intros h oldest Hg Hn Hl.
  { exists h. split; [done|]. split; [done|]. assert (without_empty [] (m_Sessions (sm_of h)) = m_Sessions (sm_of h)) as ->; [|apply removed_none].
    apply map_eq. intros k. apply option_eq. intros o. unfold without_empty. rewrite map_lookup_filter_Some. split; [tauto|]. intros H. split; [done|]. by intros [?%elem_of_nil _]. }
  cbn in Hn. apply NoDup_cons in Hn as [Hk Hn].
  assert (forall k' o', (k', o') ∈ l -> k' <> k) as Hne.
  { intros k' o' Hin ->. apply Hk. by apply (list_elem_of_fmap_2 fst l (k, o')). }
  assert (m_Sessions (sm_of h) !! k = Some o) as Hko by (apply Hl; by left). destruct o as [s|]; cbn [find_oldest].
  - rewrite (se_bind_ok (object s) _ h (the_object (sm_of h) s) h eq_refl).
    destruct (IH h (if getIdleTime (the_object (sm_of h) s) >? 0 then Some k else oldest) Hg Hn) as (h' & E & Hg' & H); [intros; apply Hl; by right|].
    exists h'. split; [|split; [done|]].
    + rewrite E. cbn [List.filter]. unfold touched at 2. cbn [snd]. f_equal. f_equal.
      destruct (getIdleTime _ >? 0); [|done]. rewrite last_cons. by destruct (last _).
    + assert (without_empty ((k, Some s) :: l) (m_Sessions (sm_of h)) = without_empty l (m_Sessions (sm_of h))) as ->; [|done].
      apply map_filter_ext. intros k' o' _. rewrite elem_of_cons. cbn. split; [tauto|]. intros Hx [[[= -> ->]|Hin] Ho]; [done|tauto].
  - destruct (run_erase h k Hg) as (h1 & E1 & Hg1 & H1). rewrite (se_bind_ok _ _ _ _ _ E1).
    assert (removed (fun _ => False) (delete k (m_Sessions (sm_of h))) h h1) as H1'.
    { eapply removed_iff; [|exact H1]. intros s. unfold ends. rewrite Hko. naive_solver. }
    assert (forall i, touched (sm_of h1) i = touched (sm_of h) i) as Ht.
    { intros [k' [s|]]; [|done]. unfold touched. cbn. by rewrite (removed_object _ _ _ _ s H1' (fun H => H)). }
    destruct (IH h1 oldest Hg1 Hn) as (h2 & E2 & Hg2 & H2).
    { intros k' o' Hin. rewrite (rm_entries _ _ _ _ H1), lookup_delete_ne by (intros <-; by eapply Hne). apply Hl. by right. }
    exists h2. split; [|split; [done|]].
    + rewrite E2. cbn [List.filter]. unfold touched at 2. cbn [snd]. by rewrite (List.filter_ext _ _ Ht).
    + assert (without_empty ((k, None) :: l) (m_Sessions (sm_of h)) = without_empty l (m_Sessions (sm_of h1))) as ->.
      2:{ eapply removed_iff; [|eapply removed_trans; [exact Hg|exact H1'|exact H2|by intros s []]]. by intros s; tauto. }
      apply map_eq. intros k'. apply option_eq. intros o'. unfold without_empty. rewrite !map_lookup_filter_Some, (rm_entries _ _ _ _ H1), lookup_delete_Some, elem_of_cons. cbn. split.
      * intros [Hk' Hx]. split; [split; [|done]|tauto]. intros <-. apply Hx. assert (o' = None) as -> by congruence. auto.
      * intros [[Hkk Hk'] Hx]. split; [done|]. intros [[[= -> ->]|Hin] Ho]; [done|tauto].
Qed.

(** ** The entries in their order *)

Lemma in_order_elem M i : i ∈ in_order M <-> M !! fst i = Some (snd i).
Proof. unfold in_order. rewrite merge_sort_Permutation. destruct i. apply elem_of_map_to_list. Qed.
Lemma in_order_NoDup M : NoDup (map fst (in_order M)).
Proof. unfold in_order. change (NoDup (fst <$> merge_sort key_le (map_to_list M))). rewrite merge_sort_Permutation. apply NoDup_fst_map_to_list. Qed.

(** C17: which sessions are removed, and what goes with them, while the clocks
    are between 1970 and 2038.  The cleanup keeps exactly the entries whose
    session is in use or was touched less than its timeout ago, and drops the
    empty ones; also a session with the timeout 0, which the class comment says
    is never removed.  A session whose entry goes ends unless a request still
    holds it, and then its event subscriptions end with it, with their
    collectors, and nobody else's.  The cleanup of the oldest session drops the
    empty entries and, of the sessions touched since 1970, the one whose token
    is the last in the map's order, whichever is the oldest.  Neither throws,
    and sessions, clients and relay stay consistent. *)
Theorem sessions_removed h : let now := clock (get_eq (ext h)) in let m := sm_of h in let l := in_order (m_Sessions m) in
  good h -> times_ok now m l ->
  (exists h', cleanupSessions h = (Ok tt, h') /\ good h' /\
     removed (fun s => s ∉ held m /\ exists k, m_Sessions m !! k = Some (Some s) /\ alive now (the_object m s) = false)
       (filter (fun i => stays now m i = true) (m_Sessions m)) h h') /\
  (exists h', cleanupOldestSession h = (Ok tt, h') /\ good h' /\
     let M := filter (fun i => is_Some (snd i)) (m_Sessions m) in
     match last (List.filter (touched m) l) with
     | Some i => removed (ends m (fst i)) (delete (fst i) M) h h'
     | None => removed (fun _ => False) M h h'
     end).
Proof.
  intros now m l Hg Ht. assert (forall k o, (k, o) ∈ l <-> m_Sessions m !! k = Some o) as Hl by (intros k o; apply (in_order_elem _ (k, o))). split.
  - unfold cleanupSessions. rewrite (se_bind_ok (gets clock) _ h now h eq_refl).
    rewrite (se_bind_ok (sm_gets (fun m => in_order (m_Sessions m))) _ h l h eq_refl).
    destruct (run_cleanup now l h Hg (in_order_NoDup _)) as (h' & E & Hg' & H); [by intros k o ?%Hl|done|]. exists h'. split; [done|]. split; [done|].
    assert (left_of now (sm_of h) l = filter (fun i => stays now m i = true) (m_Sessions m)) as EM.
    { apply map_filter_ext. intros k o Hk. apply Hl in Hk. fold m. destruct (stays now m (k, o)); split; [done|intros _ [_ ?]; done|intros Hx; by destruct Hx|done]. }
    rewrite EM in H. eapply removed_iff; [|exact H]. intros s. unfold expired. by setoid_rewrite Hl.
  - unfold cleanupOldestSession. rewrite (se_bind_ok (sm_gets (fun m => in_order (m_Sessions m))) _ h l h eq_refl).
    destruct (run_find_oldest l h None Hg (in_order_NoDup _)) as (h1 & E1 & Hg1 & H1); [by intros k o ?%Hl|]. rewrite (se_bind_ok _ _ _ _ _ E1).
    assert (without_empty l (m_Sessions (sm_of h)) = filter (fun i => is_Some (snd i)) (m_Sessions m)) as EM.
    { apply map_filter_ext. intros k o Hk. apply Hl in Hk. cbn. rewrite <- not_eq_None_Some. tauto. }
    rewrite EM in H1. fold m. destruct (last (List.filter (touched m) l)) as [i|] eqn:Ei; [|by exists h1].
    destruct (run_erase h1 (fst i) Hg1) as (h2 & E2 & Hg2 & H2). exists h2. split; [done|]. split; [done|]. cbn zeta. rewrite (rm_entries _ _ _ _ H1) in H2.
    eapply removed_iff; [|eapply removed_trans; [exact Hg|exact H1|exact H2|]].
    + intros s. unfold ends. rewrite (rm_entries _ _ _ _ H1), (removed_held _ _ _ _ H1), map_lookup_filter_Some. fold m. cbn. split; [by intros [[]|[[? _] ?]]|].
      intros [H Hn]. right. split; [|done]. split; [done|]. by eexists.
    + intros s [H _]. by apply (so_entry _ _ (proj1 Hg1) (fst i)).
Qed.
End Removing.

(** * An example *)

Definition CleanupWorld : Type := ClientWorld * SessionManager.
#[local] Instance cleanup_events : EventWorld unit CleanupWorld.
Proof. refine {| get_eq := fun w => get_eq (fst w); put_eq := fun q w => (put_eq q (fst w), snd w) |}; [done|done|by intros [[[]]]]. Defined.
#[local] Instance cleanup_interpreter : InterpreterWorld CleanupWorld.
Proof. by refine {| get_ei := fun w => get_ei (fst w); put_ei := fun i w => (put_ei i (fst w), snd w) |}. Defined.
#[local] Instance cleanup_relay : RelayWorld CleanupWorld.
Proof. by refine {| get_relay := fun w => get_relay (fst w); put_relay := fun r w => (put_relay r (fst w), snd w) |}. Defined.
#[local] Instance cleanup_sessions : SessionWorld CleanupWorld.
Proof. by refine {| get_sm := snd; put_sm := fun s w => (fst w, s) |}. Defined.
#[local] Instance cleanup_separate : SeparateRelay cleanup_events cleanup_interpreter cleanup_relay.
Proof. by split. Qed.
#[local] Instance cleanup_separate_sessions : SeparateSessions cleanup_events cleanup_interpreter cleanup_relay cleanup_sessions.
Proof. by split. Qed.

(** A request is using the session a, b with the subscription one is idle for
    longer than c, e is as idle as b but a request has just asked for it, and
    somebody asked for a session d that does not exist. *)
Definition at_second (n : Z) : DateTime := mkDateTime n 0.
Definition some_sessions : SessionManager := mkSessionManager
  {[ 0%nat := mkSession "a" 1 (at_second 1000) 60 None false [1%nat]; 1%nat := mkSession "b" 0 (at_second 2000) 60 None false [0%nat];
     2%nat := mkSession "c" 0 (at_second 2980) 60 None false []; 3%nat := mkSession "e" 0 (at_second 2000) 60 None false [] ]}
  (<["a" := Some 0%nat]> (<["b" := Some 1%nat]> (<["c" := Some 2%nat]> (<["e" := Some 3%nat]> {[ "d" := None ]}))))
  60 100 None (mkGenerator "" "" 0) {[+ 0%nat; 3%nat +]}.
Definition before_cleanup : heap CleanupWorld :=
  empty_heap (mkEQ ∅ [] 0 true [] true None false (at_second 3000), mkInterpreter [] [relay_name] 0, two_clients, some_sessions).

(** Goes through the entries of a concrete map. *)
Ltac each_entry H := apply elem_of_map_to_list in H; vm_compute in H;
  repeat (apply elem_of_cons in H as [H|H]; [injection H as ?; subst|]); [..|by apply elem_of_nil in H].

Lemma before_cleanup_good : good before_cleanup.
Proof.
  split; [|exact two_clients_wired]. split.
  - intros k s H. each_entry H; try discriminate; simplify_eq; by eexists.
  - intros k k' s H H'. each_entry H; simplify_eq; each_entry H'; simplify_eq; done.
  - intros s x H. each_entry H; (split; [apply (bool_decide_unpack _); by vm_compute|]); intros e He; cbn in He; try by apply elem_of_nil in He.
    all: apply list_elem_of_singleton in He as ->; by eexists.
  - intros s s' x x' e H H' He He'. each_entry H; each_entry H'; cbn in He, He'; set_solver.
Qed.

Lemma sessions_removed_witness :
  let h := snd (cleanupSessions before_cleanup) in
  m_Sessions (sm_of h) = {[ "a" := Some 0%nat; "c" := Some 2%nat ]} /\
  session_objects (sm_of h) !! 1%nat = None /\ eventSubscriptions (relay_of h) !! 0%nat = None /\ is_Some (session_objects (sm_of h) !! 3%nat).
Proof.
  destruct (sessions_removed before_cleanup before_cleanup_good) as [(h1 & E1 & _ & S1) _].
  - split; [by vm_compute|]. intros k s H. vm_compute in H.
    repeat (apply elem_of_cons in H as [H|H]; [injection H as ?; simplify_eq; vm_compute; split; discriminate || reflexivity|]). by apply elem_of_nil in H.
  - rewrite E1. cbn [snd]. destruct S1 as [A B _ [C _ _] _]. split; [rewrite A; by vm_compute|]. split; [|split].
    + apply eq_None_not_Some. intros [x Hx]. apply B in Hx as [_ Hx]. apply Hx. split; [|exists "b"; by vm_compute]. apply (bool_decide_unpack _). by vm_compute.
    + apply eq_None_not_Some. intros [x Hx]. apply C in Hx as [_ Hx]. apply Hx. exists 1%nat. split; [|by left].
      split; [|exists "b"; by vm_compute]. apply (bool_decide_unpack _). by vm_compute.
    + eexists. apply B. split; [by vm_compute|]. intros [Hx _]. revert Hx. apply (bool_decide_unpack _). by vm_compute.
Defined.
